(* ===== verification/_CoqProject ===== *)
-Q . S2P
Prelude.v
Mem.v
Image.v
Leb128.v
CodecTypes.v
Codec.v
BitChannel.v
BitBuffer.v
EntCoder.v
RangeSpec.v
Cdf.v
EntEncProof.v
EntDecProof.v
EntRoundTrip.v
SymbolIO.v
SyntaxIO.v
TileSafety.v
TxCommon.v
Tile.v
TxbContext.v
ScanTables.v
Scan.v
DefaultCdfs.v
CoefCdfs.v
FrameContext.v
MvCoding.v
InterMv.v
TxType.v
Coefs.v
CoefLevels.v
CoefsProof.v
CoefBlock.v
CoefSafety.v
CoefTile.v
Palette.v
PaletteColors.v
Partition.v
PartitionTree.v
PartitionProof.v
PartitionSafety.v
ModeInfo.v
ModeInfoProof.v
ModeInfoSafety.v
KeyFrameDemo.v
TileInfo.v
Obu.v
Yv12.v
FrameBuffers.v
BufferPool.v
BufferPoolProof.v
UpscaleProof.v
FrameRefs.v
HeaderIO.v
SeqHeader.v
SeqHeaderSafety.v
FrameQuant.v
FrameFilters.v
FilmGrain.v
GlobalMotion.v
RefOrder.v
FrameTail.v
FrameSize.v
FrameHead.v
FrameHeadSafety.v
FrameHeadTrip.v
Shim.v
