(* ===== verification/Prelude.v ===== *)
(** * Verification of the C code of lumepeer

    lumepeer is a desktop-streaming application.  Its application logic is Rust; its
    C code is the AV1 codec it ships, libaom, in [src/crates/aom-sys/libaom], and the
    shim [src/crates/aom-sys/shim/aom_shim.c] through which the application opens an
    encoder or a decoder, feeds pictures and collects compressed data.  This library
    models that C code and proves the properties it is relied on for: what is
    written to the stream is what is read from it, hostile data does not take a
    parser out of its buffers, and failures are reported rather than swallowed.
    File names below are relative to [src/crates/aom-sys/libaom].

    ** The program and how its parts interact

    A picture travels as follows.  The shim wraps the caller's planes in an
    [aom_image_t] ([aom/src/aom_image.c]) and calls [aom_codec_encode]
    ([aom/src/aom_encoder.c]), which dispatches through the table of the AV1
    algorithm.  The encoder lays the frame out in tiles ([set_tile_info] of
    [av1/encoder/encoder.c] over [av1/common/tile_common.c]), writes the layout to
    the frame header through a bit buffer ([aom_dsp/bitwriter_buffer.c]), and the
    data of each tile as symbols ([aom_dsp/bitwriter.c]) of adaptive models
    ([aom_dsp/prob.h], starting from the tables of [av1/common/entropymode.c] and
    [av1/common/entropymv.c]) through the range coder ([aom_dsp/entenc.c]).  The
    result is framed in OBUs ([av1/encoder/bitstream.c]) whose sizes are LEB128
    numbers ([aom/src/aom_integer.c]).  A sequence header and, in front of the tiles of each
    frame, a frame header say how to decode them.  The shim drains the packets and returns
    their bytes.  The decoder undoes each step with the matching reader
    ([av1/common/obu_util.c], [av1/decoder/obu.c], [aom_dsp/bitreader_buffer.c],
    [av1/decoder/decodeframe.c], [aom_dsp/bitreader.c], [aom_dsp/entdec.c]), and keeps the
    frames it has decoded in a pool of buffers that are counted by who holds them
    ([av1/decoder/decoder.c], [av1/common/frame_buffers.c], [aom_scale/generic/yv12config.c]).

    ** Files

    - [Prelude]: C integers at their width, C arrays, shared tactics, hint databases
      and lemmas.
    - [Mem]: [aom_mem/aom_mem.c] over a class that states what [malloc] and [free]
      promise.
    - [Image]: [aom/src/aom_image.c] over [Mem]; a descriptor is a record of the
      fields of [aom_image_t], a plane an address and a stride.
    - [Leb128]: [aom/src/aom_integer.c].
    - [CodecTypes]: return codes; the reader monad, whose [Raise] is the [longjmp]
      of [aom_internal_error] and whose [Fault] is an access outside an object.
    - [Codec]: [aom/src/aom_codec.c], [aom_encoder.c], [aom_decoder.c]; the
      algorithm's function table is a record, so that every statement holds for
      any algorithm behind it.
    - [BitChannel]: the literals and subexponential codes libaom writes over two
      carriers, defined once over the classes [BitSink] and [BitSource] and proved
      once from their laws [BitSinkOk] and [BitSourceOk].
    - [BitBuffer]: the first carrier, [aom_dsp/bitreader_buffer.c] and
      [aom_dsp/bitwriter_buffer.c], with its instances of the laws.
    - [EntCoder]: the range coder, [aom_dsp/entenc.c], [entenc.h], [entdec.c],
      [entcode.c]; the encoder's buffer grows through an [allocator] that may fail.
    - [RangeSpec]: its abstract specification, the narrowing of an exact integer
      interval.
    - [Cdf]: the adaptation of models, [aom_dsp/prob.h].
    - [EntEncProof], [EntDecProof]: encoder and decoder refine [RangeSpec].
    - [EntRoundTrip]: the two put together.
    - [SymbolIO]: tile readers and writers ([aom_dsp/bitreader.c], [bitwriter.c],
      [binary_codes_reader.c], [binary_codes_writer.c]), the second carrier.
    - [SyntaxIO]: programs that write and read syntax elements under adaptive models, the
      relation that says that one recovers what the other sent, and its rules.
    - [TileSafety]: the rules for readers on arbitrary tile data.
    - [TxCommon]: block and transform sizes and their tables ([av1/common/enums.h],
      [common_data.h], [blockd.h]).
    - [Tile]: [av1/common/tile_common.c].
    - [TxbContext]: contexts of a transform block from its neighbours
      ([av1/common/txb_common.h], [entropy.h]) and where they are stored
      ([av1/common/blockd.c]).
    - [ScanTables], [Scan]: the tables of [av1/common/scan.c] and their choice.
    - [DefaultCdfs], [CoefCdfs]: the default models of [av1/common/entropymode.c],
      [entropymv.c] and [token_cdfs.h], entry by entry; [FrameContext]: the models of
      [FRAME_CONTEXT] with their dimensions, chosen by the quantizer and reset
      ([av1/common/entropy.c]).
    - [MvCoding], [InterMv]: motion vectors ([av1/encoder/encodemv.c],
      [av1/decoder/decodemv.c]), global motion vectors ([av1/common/mv.h]) and block
      vectors ([av1/common/mvref_common.h]).
    - [TxType]: transform types of a block ([av1/common/blockd.h]) and their coding.
    - [Coefs]: the coefficients of a transform block, [av1_write_coeffs_txb] of
      [av1/encoder/encodetxb.c] and [av1_read_coeffs_txb] of [av1/decoder/decodetxb.c];
      [CoefLevels]: the level buffer and the contexts taken from it; [CoefsProof],
      [CoefBlock]: the two against each other; [CoefSafety]: the reader on any data;
      [CoefTile]: blocks in a tile.
    - [Palette]: [av1_get_palette_color_index_context] of [entropymode.c];
      [PaletteColors]: the cache of colours ([av1/common/pred_common.c]) and the coding of
      the colours of a block.
    - [Partition]: partition types, their contexts, models and coding, the grid of mode
      infos and [get_partition]; [PartitionTree]: the walks [write_modes] and [decode_tile]
      over the superblocks, partitions and blocks of a tile, over the class [BlockCoder] of
      what is sent for a block; [PartitionProof]: the two walks against each other, from the
      laws [BlockCoderOk]; [PartitionSafety]: the reading walk on any data, from the laws
      [BlockCoderSafe].
    - [ModeInfo]: the mode infos of key frames ([write_mb_modes_kf],
      [read_intra_frame_mode_info] and all they call) as a [BlockCoder]; [ModeInfoProof] and
      [ModeInfoSafety]: its instances of the two sets of laws; [KeyFrameDemo]: a frame of
      five blocks on which all of this is run.
    - [TileInfo]: the choice, the writing and the reading of a tile layout.
    - [Obu]: OBU headers and sizes, trailing bits, tile group headers.
    - [Yv12]: the memory of a frame and the layout of its planes
      ([aom_scale/generic/yv12config.c]); [FrameBuffers]: the list of blocks that frames
      take their memory from ([av1/common/frame_buffers.c]).
    - [BufferPool]: the pool of frame buffers of a decoder with all that holds references to
      them, each operation on it ([av1/common/av1_common_int.h], [av1/decoder/decoder.c],
      [av1/decoder/decodeframe.c], [av1_superres_upscale] of [av1/common/resize.c],
      [av1/av1_dx_iface.c]), and the decoder as a step relation over them;
      [BufferPoolProof], [UpscaleProof]: what each operation does to the account of
      references and memory; [FrameRefs]: the invariant of all states of a decoder and what
      follows from it.
    - [HeaderIO]: header programs over [BitBuffer]; [carries] relates a writing program
      to the reading program that recovers a value from its bits.
    - [SeqHeader]: the sequence header, [av1_write_sequence_header_obu] and
      [read_sequence_header_obu] with all they call; [SeqHeaderSafety]: the reader on any
      bytes.
    - [FrameQuant], [FrameFilters], [FilmGrain], [GlobalMotion]: the parts of the frame
      header for the quantizer and the segments ([av1/common/seg_common.c]), the loop
      filter, the enhancement filter and loop restoration, film grain
      ([aom_dsp/grain_params.h]), and global motion with the models warping needs
      ([av1/common/warped_motion.c]).
    - [RefOrder]: the references by their order ([av1_set_frame_refs] and
      [av1_setup_skip_mode_allowed] of [av1/common/mvref_common.c]).
    - [FrameTail]: the frame header from the quantizer on, composed of these parts.
    - [FrameSize]: the size of a frame and its scales ([av1/common/resize.c],
      [av1/common/scale.c]); [FrameHead]: the frame header up to the tile information, over
      the pool of [BufferPool]; [FrameHeadSafety]: its reader on any bytes; [FrameHeadTrip]:
      the two sides against each other.
    - [Shim]: [src/crates/aom-sys/shim/aom_shim.c] over [Codec] and [Image].

    ** What the theorems show

    - Tile data is lossless.  [range_coder_roundtrip]: any message of symbols comes
      back from the bytes the encoder returns; [range_coder_all_or_nothing]: whichever
      allocation fails, the result is an error or a complete stream;
      [range_coder_tell_agree]: both sides agree on the position at every symbol.
      [adaptive_tile_roundtrip] lifts this to adaptive models chosen by any rule from
      the values coded so far, [update_cdf_adapts] shows that adaptation keeps models
      well formed, and [frame_contexts_valid] that every model of a frame starts as one.
      [refsubexpfin_tile_roundtrip] covers the subexponential codes and
      [palette_color_roundtrip] the order palette colours are coded in.
    - Block data is lossless and safe.  [tile_coeffs_roundtrip]: the coefficients, transform
      types and contexts of any sequence of transform blocks of a tile come back, each
      coefficient dequantized; [tile_coeffs_safe]: on any data the reader stays in its
      buffers and ends with contexts and coefficients in range.  [vectors_roundtrip] and
      [vectors_safe] say the same of motion and block vectors, [palettes_roundtrip] and
      [palettes_safe] of the colours of palettes.
    - Tiles are walked alike.  [tile_walk_roundtrip]: whatever is sent for a block, if the
      blocks can be read back one by one then a tile can, with the partitions, the grid and
      the contexts of the decoder those of the encoder; [tile_walk_terminates]: on any data
      the walk of the decoder ends with the grid of the tile filled, an error, or the end of
      the data noticed; [second_pass]: the pass of the decoder that only reconstructs visits
      the same blocks in the same order.  [kf_tile_roundtrip] and [kf_tile_safe] are the two
      for the mode infos of key frames, [neg_interleave_roundtrip] is the code of segment
      ids.
      [txb_contexts_follow_rule] and [nz_map_follows_rule] show that the specialised
      routines and tables for contexts compute the rule they stand for, and [scans_sound]
      that every scan is a permutation whose inverse table inverts it.
    - Headers are lossless and safe.  The [BitBuffer] and [Leb128] theorems are the
      round trips of each code.  [seq_header_roundtrip]: a decoder in any state takes over
      every field of a sequence header; [seq_header_repeat]: sending it again changes
      nothing; [seq_header_safe]: whatever the bytes, the decoder only ever stores legal
      headers.  [frame_head_roundtrip] and [frame_params_roundtrip]: the two halves of a
      frame header, around the tile information, come back as the decisions of the encoder
      ([show_existing_roundtrip] is the header that shows a frame again);
      [frame_head_safe] and [frame_params_safe]: on any bytes, from the first frame of a new
      decoder on, each half is an error or legal in every part, and leaves the decoder in a
      state that the next may start from.  [grain_equiv_misses_coefficient]: the encoder may
      refer to grain that is not the one it means.  [tile_info_roundtrip],
      [obu_header_roundtrip], [tile_group_header_roundtrip] and
      [trailing_bits_roundtrip] are the round trips of whole syntax elements;
      [read_tile_info_safe] and [obu_header_in_bounds] bound what hostile bytes can do.
    - Frames are divided properly.  [uniform_tiles_total]: the encoder always finds a
      layout; [tiles_partition_frame]: the tiles of a layout partition the frame;
      [tile_groups_cover]: the tile groups a decoder accepts hold every tile once;
      [balanced_tile_may_be_empty]: a configuration for which automatic balancing
      produces an empty tile.
    - References are kept properly.  [reference_counts_exact]: in every state of a decoder the
      count of a buffer is the number of variables that hold it; [frame_buffer_available] and
      [frame_memory_available]: a frame to decode always finds a buffer, and memory unless
      the C library has none for it; [frames_have_own_memory]: frames lie in blocks of their
      own, save one that has just lost its block in upscaling and is about to be given up;
      [frame_end_updates]: what the end of a frame does to slots and outputs;
      [grain_copies_overrun]: reading frames with grain again can write past an array.
      [frame_refs_assigned] and [skip_mode_nearest]: the references that are found by order
      are those of the rule.
    - The API keeps its promises.  [shim_encode_temporal_unit],
      [shim_bitrate_tracks], [shim_open_logs_refused] and [shim_dec_shows_last]
      specify the shim's calls against any codec; the [Codec], [Image] and [Mem]
      theorems bound memory, describe the packet queue and the application's output
      area, and show that failed calls leave usable objects behind.

    ** Conventions

    A C integer is a [Z]; where the C type can wrap, the conversion to its width is
    written out ([u8], [u16], [u32], [u64], [s32], ...), and where it cannot for the
    inputs a file admits, the file says so.  A pointer argument is an [option] whose
    [None] is [NULL].  As the result of a whole operation, [None] (or [Fault] in a
    reader) is undefined behaviour: an access outside an object, or a loop without end.
    Theorems prove that it does not occur.

    Loops whose recursion is not structural take fuel.  Each amount bounds the
    iterations the C loop can make: 9 for decoding LEB128 (the loop stops itself after
    8 bytes) and 10 for measuring (seven bits of a 64-bit value a time), 18 for the
    subexponential codes (their interval doubles up to [2^16]), 32 for the leading zeros
    of a variable length code and for loops that double an [int], 5 bytes for a refill
    of the decoder's 32-bit window, 31 for the length of a Golomb code written (that of an
    [int]) and 21 for one read (the loop stops itself after 20 zeros), 65 for explicit
    tile sizes (64 tiles, and the test
    that ends the loop), the length of the table for a search in a CDF, 6 for the
    depth of the partitions of a superblock (a split halves the side, from 128 samples down
    to 4), 31 for the mask of the slots to refresh (an [int]) and 9 for a search over the
    eight slots.  The loops of
    the shim over the codec's packets and frames are bounded only by the codec, so their
    fuel is an argument, and the theorems hold for any amount above the number of
    packets or frames.  Where running out of fuel would show, the theorems state
    success, so it is proved not to happen.

    ** Outside the library

    [malloc], [realloc] and [free], and the algorithm behind the codec table when the
    API or the shim is studied, are interfaces with their documented behaviour as laws.
    The candidates for motion vectors ([av1/common/mvref_common.c]) and the quantizer's
    factors and matrices are inputs of the functions that use them.
    The mode infos of key frames are those of frames without intra block copy and without
    loop restoration; both sides start with the same segment map, and the strengths of the
    directional filter, which the decoder stores into a mode info that may already be in the
    grid, are kept as a list of these stores.
    A header program ends with an error as the C code does, by leaving; what an error half
    way leaves behind is modelled for the pool of buffers ([BufferPool]) and not for the
    other fields.  The decoder of [BufferPool] has the library's own frame buffers, not
    those of the application, and its samples are not modelled.
    Not modelled: large scale tile coding, the mode infos
    of other frames, transform sizes and loop restoration units,
    transforms, prediction and loop filters, the encoder's search and rate
    control, threads, SIMD variants, the benchmark shims in [src/tools/codec-bench],
    and the Rust application.

    Planned next, in this order: transform sizes and the composition of mode infos, palettes
    and coefficients per block; the OBU loop [aom_decode_frame_from_obus] as a state machine over [Obu] and
    [SeqHeader]; the benchmark shims as refinements of the same specification as the
    product shim; the lossless Walsh-Hadamard transform. *)

From stdpp Require Export base numbers list option decidable.
From Stdlib Require Export ZArith Lia Bool.

#[global] Open Scope Z_scope.

(** ** Machine integers

    A C integer is a [Z] together with the range of its type; the conversions
    below are applied wherever the C code stores to or converts to that type. *)

Definition wrap (w x : Z) : Z := x mod 2 ^ w.
Definition swrap (w x : Z) : Z := (x + 2 ^ (w - 1)) mod 2 ^ w - 2 ^ (w - 1).

Definition u8 : Z -> Z := wrap 8.
Definition u16 : Z -> Z := wrap 16.
Definition u32 : Z -> Z := wrap 32.
Definition u64 : Z -> Z := wrap 64.
Definition s16 : Z -> Z := swrap 16.
Definition s32 : Z -> Z := swrap 32.
Definition s64 : Z -> Z := swrap 64.

Definition UINT32_MAX : Z := 4294967295.
Definition INT_MAX : Z := 2147483647.

Lemma wrap_small w x : 0 <= x < 2 ^ w -> wrap w x = x.
Proof. apply Z.mod_small. Qed.

Lemma wrap_range w x : 0 <= w -> 0 <= wrap w x < 2 ^ w.
Proof. intros. apply Z.mod_pos_bound, Z.pow_pos_nonneg; lia. Qed.

Lemma swrap_small w x : 0 < w -> - 2 ^ (w - 1) <= x < 2 ^ (w - 1) -> swrap w x = x.
Proof.
  intros Hw Hx. unfold swrap.
  assert (2 ^ w = 2 * 2 ^ (w - 1)) as E
    by (rewrite <- Z.pow_succ_r by lia; f_equal; lia).
  rewrite Z.mod_small; lia.
Qed.

Lemma u8_small x : 0 <= x < 256 -> u8 x = x.
Proof. apply (wrap_small 8). Qed.
Lemma u16_small x : 0 <= x < 65536 -> u16 x = x.
Proof. apply (wrap_small 16). Qed.
Lemma u32_small x : 0 <= x < 4294967296 -> u32 x = x.
Proof. apply (wrap_small 32). Qed.
Lemma u64_small x : 0 <= x < 2 ^ 64 -> u64 x = x.
Proof. apply (wrap_small 64). Qed.
Lemma s16_small x : -32768 <= x < 32768 -> s16 x = x.
Proof. apply (swrap_small 16); lia. Qed.
Lemma s32_small x : -2147483648 <= x < 2147483648 -> s32 x = x.
Proof. apply (swrap_small 32); lia. Qed.
Lemma s64_small x : - 2 ^ 63 <= x < 2 ^ 63 -> s64 x = x.
Proof. apply (swrap_small 64); lia. Qed.
Lemma s16_range x : -32768 <= s16 x < 32768.
Proof.
  unfold s16, swrap. change (2 ^ (16 - 1)) with 32768. change (2 ^ 16) with 65536.
  pose proof (Z.mod_pos_bound (x + 32768) 65536 ltac:(lia)). lia.
Qed.
Lemma u8_range x : 0 <= u8 x < 256.
Proof. apply (wrap_range 8); lia. Qed.
Lemma u16_range x : 0 <= u16 x < 65536.
Proof. apply (wrap_range 16); lia. Qed.
Lemma u32_range x : 0 <= u32 x < 4294967296.
Proof. apply (wrap_range 32); lia. Qed.

(** The boolean value of a C condition, as the [int] C gives it. *)
Definition b2z (b : bool) : Z := if b then 1 else 0.

(** ** Tactics *)

(** Case analysis on every boolean comparison the goal or a hypothesis
    branches on, with the comparison kept as an arithmetic fact. *)
Ltac case_cmp :=
  match goal with
  | |- context [if ?a =? ?b then _ else _] => destruct (Z.eqb_spec a b)
  | |- context [if ?a <? ?b then _ else _] => destruct (Z.ltb_spec a b)
  | |- context [if ?a <=? ?b then _ else _] => destruct (Z.leb_spec a b)
  | H : context [if ?a =? ?b then _ else _] |- _ => destruct (Z.eqb_spec a b)
  | H : context [if ?a <? ?b then _ else _] |- _ => destruct (Z.ltb_spec a b)
  | H : context [if ?a <=? ?b then _ else _] |- _ => destruct (Z.leb_spec a b)
  end.

(** Linear arithmetic after turning division and modulo into equations. *)
Ltac dlia := Z.div_mod_to_equations; lia.
Ltac dnia := Z.div_mod_to_equations; nia.

(** ** Hint databases

    [cint]: rewriting away wrap-arounds whose argument is in range;
    [crange]: the range facts that discharge the side conditions. *)
Create HintDb crange.
Create Rewrite HintDb cint.
#[export] Hint Resolve u8_range u16_range u32_range : crange.
#[export] Hint Rewrite u8_small u16_small u32_small u64_small s16_small s32_small
  using lia : cint.

(** ** Bit operations as arithmetic *)

Lemma pow2_pos n : 0 <= n -> 0 < 2 ^ n.
Proof. intros. apply Z.pow_pos_nonneg; lia. Qed.

Lemma pow2_split a b : 0 <= a -> 0 <= b -> 2 ^ (a + b) = 2 ^ a * 2 ^ b.
Proof. intros. apply Z.pow_add_r; lia. Qed.

Lemma pow2_le a b : 0 <= a <= b -> 2 ^ a <= 2 ^ b.
Proof. intros. apply Z.pow_le_mono_r; lia. Qed.

(** A value below [2^n] and a value shifted above bit [n] do not overlap, so
    their bitwise or is their sum. *)
Lemma land_shiftl_disjoint a b n :
  0 <= n -> 0 <= a < 2 ^ n -> Z.land a (Z.shiftl b n) = 0.
Proof.
  intros Hn Ha. apply Z.bits_inj'; intros i Hi.
  rewrite Z.land_spec, Z.bits_0, Z.shiftl_spec by lia.
  destruct (Z.ltb_spec i n).
  - rewrite (Z.testbit_neg_r b) by lia. apply andb_false_r.
  - rewrite <- (Z.mod_small a (2 ^ n)) by lia.
    rewrite Z.mod_pow2_bits_high by lia. reflexivity.
Qed.

Lemma lor_shiftl_add a b n :
  0 <= n -> 0 <= a < 2 ^ n -> Z.lor a (Z.shiftl b n) = a + b * 2 ^ n.
Proof.
  intros Hn Ha. rewrite <- Z.shiftl_mul_pow2 by lia.
  symmetry. apply Z.add_nocarry_lor, land_shiftl_disjoint; lia.
Qed.

Lemma log2_bound v w : 0 < w -> 0 <= v < 2 ^ w -> 0 <= Z.log2 v < w.
Proof.
  intros Hw Hv. split; [apply Z.log2_nonneg |].
  destruct (Z.eq_dec v 0) as [-> | Hv0]; [done |]. apply Z.log2_lt_pow2; lia.
Qed.

(** ** Single bits *)

Lemma testbit_b2z v k : 0 <= k -> b2z (Z.testbit v k) = (v / 2 ^ k) mod 2.
Proof.
  intros. rewrite Z.testbit_odd, Z.shiftr_div_pow2, Zmod_odd by lia.
  by destruct (Z.odd _).
Qed.

(** Or of numbers without a common bit. *)
Lemma lor_low_high x y k : 0 <= k -> 0 <= x < 2 ^ k -> Z.lor x (Z.shiftl y k) = x + y * 2 ^ k.
Proof.
  intros Hk Hx. rewrite <- Z.shiftl_mul_pow2, <- Z.add_lor_land by lia.
  assert (Z.land x (Z.shiftl y k) = 0) as ->; [| lia]. apply Z.bits_inj'. intros i Hi.
  rewrite Z.land_spec, Z.bits_0, Z.shiftl_spec by lia. destruct (Z_lt_le_dec i k).
  - rewrite (Z.testbit_neg_r y) by lia. apply andb_false_r.
  - by rewrite <- (Z.mod_small x (2 ^ k)), Z.mod_pow2_bits_high by lia.
Qed.

Lemma land_shiftr_bit v k : 0 <= k -> Z.land (Z.shiftr v k) 1 = b2z (Z.testbit v k).
Proof.
  intros. change 1 with (Z.ones 1).
  by rewrite Z.land_ones, Z.shiftr_div_pow2, testbit_b2z by lia.
Qed.

Lemma land_1_odd v : Z.land v 1 = b2z (Z.odd v).
Proof. change 1 with (Z.ones 1). rewrite Z.land_ones, Zmod_odd by lia. by destruct (Z.odd v). Qed.

(** ** Alignment *)

(** Masking with [~(2^k - 1)] rounds down. *)
Lemma align_down x k : 0 <= k -> Z.land x (Z.lnot (2 ^ k - 1)) = x / 2 ^ k * 2 ^ k.
Proof.
  intros Hk. replace (2 ^ k - 1) with (Z.ones k) by (rewrite Z.ones_equiv; lia).
  by rewrite <- Z.ldiff_land, Z.ldiff_ones_r, Z.shiftl_mul_pow2, Z.shiftr_div_pow2 by lia.
Qed.

Lemma align_up_bounds d k : 0 <= k ->
  d <= (d + (2 ^ k - 1)) / 2 ^ k * 2 ^ k <= d + (2 ^ k - 1).
Proof.
  intros Hk. pose proof (pow2_pos k Hk).
  pose proof (Z.div_mod (d + (2 ^ k - 1)) (2 ^ k) ltac:(lia)).
  pose proof (Z.mod_pos_bound (d + (2 ^ k - 1)) (2 ^ k) ltac:(lia)). lia.
Qed.

(** [x & (x - 1)] is zero for powers of two only. *)
Lemma land_pred_pow2 a : 0 < a -> Z.land a (a - 1) = 0 -> a = 2 ^ Z.log2 a.
Proof.
  intros Ha Hl. pose proof (Z.log2_spec a Ha) as Hs. set (k := Z.log2 a) in *.
  pose proof (Z.log2_nonneg a). destruct (Z.eq_dec a (2 ^ k)) as [| Hne]; [done | exfalso].
  assert (Hb : forall x, 2 ^ k <= x < 2 ^ Z.succ k -> Z.testbit x k = true).
  { intros x Hx. apply Z.testbit_true; [lia |]. rewrite Z.pow_succ_r in Hx by lia.
    assert (x / 2 ^ k = 1) as ->; [| done]. symmetry. apply (Z.div_unique x _ 1 (x - 2 ^ k)); lia. }
  assert (Z.testbit (Z.land a (a - 1)) k = true) as Hc by (rewrite Z.land_spec, !Hb by lia; done).
  rewrite Hl, Z.bits_0 in Hc. done.
Qed.

(** ** Lists *)

Lemma nth_lookup_Z (bs : list Z) i : (i < length bs)%nat -> bs !! i = Some (nth i bs 0).
Proof. intros [x Hx]%lookup_lt_is_Some. by rewrite nth_lookup, Hx. Qed.

(** ** C arrays

    [None] is an access outside the array. *)

(** [a[i] = v] and [a[i]] of a C array. *)
Definition arr_set (a : list Z) (i v : Z) : option (list Z) :=
  if (0 <=? i) && (i <? Z.of_nat (length a)) then Some (<[Z.to_nat i := v]> a) else None.
Definition arr_get (a : list Z) (i : Z) : option Z :=
  if 0 <=? i then a !! Z.to_nat i else None.

Definition nthz (a : list Z) (i : Z) : Z := nth (Z.to_nat i) a 0.

Lemma arr_set_insert a i v : (i < length a)%nat -> arr_set a (Z.of_nat i) v = Some (<[i := v]> a).
Proof.
  intros Hi. unfold arr_set. rewrite (proj2 (Z.leb_le _ _)), (proj2 (Z.ltb_lt _ _)) by lia.
  cbn [andb]. by rewrite Nat2Z.id.
Qed.

(** The element between two parts of an array. *)
Lemma arr_set_mid pre x post v i : i = Z.of_nat (length pre) ->
  arr_set (pre ++ x :: post) i v = Some (pre ++ v :: post).
Proof.
  intros ->. rewrite arr_set_insert by (rewrite length_app; cbn [length]; lia). by rewrite insert_app_r_alt, Nat.sub_diag by lia.
Qed.
Lemma arr_get_mid pre x post i : i = Z.of_nat (length pre) -> arr_get (pre ++ x :: post) i = Some x.
Proof.
  intros ->. unfold arr_get. rewrite (proj2 (Z.leb_le _ _)) by lia. by rewrite Nat2Z.id, list_lookup_middle.
Qed.

Lemma arr_get_nth a i : 0 <= i < Z.of_nat (length a) -> arr_get a i = Some (nthz a i).
Proof.
  intros Hi. unfold arr_get. rewrite (proj2 (Z.leb_le _ _)) by lia. apply nth_lookup_Z. lia.
Qed.

Lemma arr_set_ok a i v : 0 <= i < Z.of_nat (length a) ->
  exists a', arr_set a i v = Some a' /\ length a' = length a /\ nthz a' i = v /\
    forall j, 0 <= j -> j <> i -> nthz a' j = nthz a j.
Proof.
  intros Hi. unfold arr_set. rewrite (proj2 (Z.leb_le _ _)), (proj2 (Z.ltb_lt _ _)) by lia.
  eexists. split; [done |]. rewrite length_insert. split; [done |]. unfold nthz.
  split; [by rewrite nth_lookup, list_lookup_insert_eq by lia |].
  intros j Hj Hne. by rewrite !nth_lookup, list_lookup_insert_ne by lia.
Qed.

Lemma arr_set_length a i v a' : arr_set a i v = Some a' -> length a' = length a.
Proof. unfold arr_set. destruct (_ && _); [| done]. intros [= <-]. apply length_insert. Qed.

Lemma arr_get_set a i v a' : arr_set a i v = Some a' -> arr_get a' i = Some v.
Proof.
  unfold arr_set, arr_get. destruct (Z.leb_spec 0 i), (Z.ltb_spec i (Z.of_nat (length a))); simpl; try done.
  intros [= <-]. apply list_lookup_insert_eq. lia.
Qed.

(** Consecutive stores, and where they end. *)
Fixpoint stores (a : list Z) (at_ : Z) (vals : list Z) : option (list Z * Z) :=
  match vals with
  | [] => Some (a, at_)
  | v :: vals' => a ← arr_set a at_ v; stores a (at_ + 1) vals'
  end.

Lemma stores_ok vals a at_ : 0 <= at_ -> at_ + Z.of_nat (length vals) <= Z.of_nat (length a) ->
  exists a', stores a at_ vals = Some (a', at_ + Z.of_nat (length vals)) /\ length a' = length a /\
    (forall k, 0 <= k < Z.of_nat (length vals) -> nthz a' (at_ + k) = nthz vals k) /\
    (forall j, 0 <= j -> j < at_ \/ at_ + Z.of_nat (length vals) <= j -> nthz a' j = nthz a j).
Proof.
  revert a at_. induction vals as [|v vals IH]; intros a at_ H0 Hl; cbn [stores length] in *.
  - exists a. split_and!; [by rewrite Z.add_0_r | done | intros; lia | done].
  - destruct (arr_set_ok a at_ v ltac:(lia)) as (a1 & -> & L1 & E1 & O1). cbn [mbind option_bind].
    destruct (IH a1 (at_ + 1) ltac:(lia) ltac:(lia)) as (a2 & -> & L2 & E2 & O2).
    exists a2. split_and!; [do 2 f_equal; lia | lia | |].
    + intros k Hk. destruct (Z.eq_dec k 0) as [-> | Hn].
      * rewrite Z.add_0_r, O2, E1 by lia. done.
      * replace (at_ + k) with (at_ + 1 + (k - 1)) by lia. rewrite E2 by lia. unfold nthz.
        by replace (Z.to_nat k) with (S (Z.to_nat (k - 1))) by lia.
    + intros j Hj Ho. rewrite O2, O1 by lia. done.
Qed.

Lemma Forall_nthz (P : Z -> Prop) l : Forall P l <-> forall i, 0 <= i < Z.of_nat (length l) -> P (nthz l i).
Proof.
  rewrite Forall_lookup. split.
  - intros H i Hi. apply (H (Z.to_nat i)). apply nth_lookup_Z. lia.
  - intros H i x Hx. assert (i < length l)%nat by (by eapply lookup_lt_Some).
    rewrite nth_lookup_Z in Hx by done. injection Hx as <-. specialize (H (Z.of_nat i) ltac:(lia)). unfold nthz in H.
    by rewrite Nat2Z.id in H.
Qed.

Lemma nthz_replicate n v k : 0 <= k < Z.of_nat n -> nthz (replicate n v) k = v.
Proof. intros Hk. unfold nthz. by rewrite nth_lookup, lookup_replicate_2 by lia. Qed.
