(* ===== verification/Mem.v ===== *)
(** * Aligned heap blocks

    [aom_mem/aom_mem.c]: blocks of any power-of-two alignment carved out of
    [malloc], with the address [malloc] returned kept in the eight bytes before the
    block so that [aom_free] can give it back.  [malloc] itself belongs to the C
    library and is an interface here. *)

From stdpp Require Import gmap.
From S2P Require Import Prelude.

(** Live [malloc] blocks (address to size) and the pointer-sized words stored in
    them. *)
Record heap := {
  blocks : gmap Z Z;
  words : gmap Z Z }.

Class Malloc := c_malloc : heap -> Z -> option Z.

(** What the C library promises: a fresh block inside the address space, apart
    from every live one. *)
Class MallocOk `{Malloc} : Prop := {
  malloc_inside h n a : 0 <= n -> c_malloc h n = Some a -> 0 < a /\ a + n < 2 ^ 64;
  malloc_fresh h n a : c_malloc h n = Some a -> blocks h !! a = None;
  malloc_apart h n a b sz : c_malloc h n = Some a -> blocks h !! b = Some sz ->
    0 < n -> 0 < sz -> a + n <= b \/ b + sz <= a }.

Definition ADDRESS_STORAGE_SIZE : Z := 8.
Definition DEFAULT_ALIGNMENT : Z := 16.
Definition AOM_MAX_ALLOCABLE_MEMORY : Z := 8589934592.

Definition aom_align_addr (addr align : Z) : Z :=
  Z.land (u64 (addr + (align - 1))) (Z.lnot (align - 1)).

Definition GetAllocationPaddingSize (align : Z) : Z := align - 1 + ADDRESS_STORAGE_SIZE.

Definition check_size_argument_overflow (nmemb size align : Z) : bool :=
  if nmemb =? 0 then true
  else
    let alloc_padding := GetAllocationPaddingSize align in
    negb ((AOM_MAX_ALLOCABLE_MEMORY - alloc_padding) / nmemb <? size).

Definition GetMallocAddressLocation (mem : Z) : Z := mem - 8.

Definition SetActualMallocAddress (h : heap) (mem malloc_addr : Z) : heap :=
  {| blocks := blocks h; words := <[GetMallocAddressLocation mem := malloc_addr]> (words h) |}.

Definition GetActualMallocAddress (h : heap) (mem : Z) : option Z :=
  words h !! GetMallocAddressLocation mem.

Section Mem.
Context `{Malloc}.

Definition aom_memalign (h : heap) (align size : Z) : option Z * heap :=
  if negb (check_size_argument_overflow 1 size align) then (None, h)
  else
    let aligned_size := size + GetAllocationPaddingSize align in
    match c_malloc h aligned_size with
    | Some addr =>
        let x := aom_align_addr (addr + ADDRESS_STORAGE_SIZE) align in
        let h := {| blocks := <[addr := aligned_size]> (blocks h); words := words h |} in
        (Some x, SetActualMallocAddress h x addr)
    | None => (None, h)
    end.

Definition aom_malloc (h : heap) (size : Z) : option Z * heap :=
  aom_memalign h DEFAULT_ALIGNMENT size.

(** [memset(x, 0, total_size)] clears the words of the block. *)
Definition aom_calloc (h : heap) (num size : Z) : option Z * heap :=
  if negb (check_size_argument_overflow num size DEFAULT_ALIGNMENT) then (None, h)
  else
    let total_size := u64 (num * size) in
    let '(x, h) := aom_malloc h total_size in
    match x with
    | Some x =>
        (Some x, {| blocks := blocks h;
                    words := filter (fun p => p.1 + 8 <= x \/ x + total_size <= p.1) (words h) |})
    | None => (None, h)
    end.

(** [None]: the word before the block is gone, or it is no live block. *)
Definition aom_free (h : heap) (memblk : option Z) : option heap :=
  match memblk with
  | None => Some h
  | Some p =>
      addr ← GetActualMallocAddress h p;
      _ ← blocks h !! addr;
      Some {| blocks := delete addr (blocks h); words := words h |}
  end.

(** The user bytes [[x, x + size)] of a block [malloc] returned at [a], and the
    word before them, lie inside the live block. *)
Definition owns (h : heap) (x size a : Z) : Prop :=
  words h !! (x - 8) = Some a /\
  exists n, blocks h !! a = Some n /\ 0 < a /\ a <= x - 8 /\ x + size <= a + n.

Lemma align_addr_ok addr k : 0 <= k -> 0 <= addr -> addr + (2 ^ k - 1) < 2 ^ 64 ->
  aom_align_addr addr (2 ^ k) mod 2 ^ k = 0 /\
  addr <= aom_align_addr addr (2 ^ k) <= addr + (2 ^ k - 1).
Proof.
  intros Hk Ha Hb. unfold aom_align_addr. pose proof (pow2_pos k Hk).
  rewrite u64_small, align_down by lia. split; [apply Z.mod_mul; lia |].
  by apply align_up_bounds.
Qed.

(** No overflow of the padded size, and at most eight gigabytes in all. *)
Lemma check_size_ok nmemb size align :
  0 < nmemb -> 0 <= size -> check_size_argument_overflow nmemb size align = true ->
  nmemb * size + GetAllocationPaddingSize align <= AOM_MAX_ALLOCABLE_MEMORY.
Proof.
  intros Hn Hs. unfold check_size_argument_overflow.
  rewrite (proj2 (Z.eqb_neq nmemb 0)) by lia. cbv zeta. intros Hc.
  apply negb_true_iff, Z.ltb_ge in Hc.
  set (q := AOM_MAX_ALLOCABLE_MEMORY - GetAllocationPaddingSize align) in *.
  assert (nmemb * (q / nmemb) <= q) by (apply Z.mul_div_le; lia).
  assert (nmemb * size <= nmemb * (q / nmemb)) by (apply Z.mul_le_mono_nonneg_l; lia). lia.
Qed.

Context {MOk : MallocOk}.

Lemma memalign_inside h k size x h' :
  0 <= k <= 16 -> 0 <= size -> aom_memalign h (2 ^ k) size = (Some x, h') ->
  exists a, x mod 2 ^ k = 0 /\ owns h' x size a /\
    c_malloc h (size + GetAllocationPaddingSize (2 ^ k)) = Some a /\
    size + GetAllocationPaddingSize (2 ^ k) <= AOM_MAX_ALLOCABLE_MEMORY /\
    h' = {| blocks := <[a := size + GetAllocationPaddingSize (2 ^ k)]> (blocks h);
            words := <[x - 8 := a]> (words h) |}.
Proof.
  intros Hk Hs. unfold aom_memalign.
  destruct (check_size_argument_overflow 1 size (2 ^ k)) eqn:Ec; simpl; [| done].
  apply check_size_ok in Ec; [| lia | lia]. rewrite Z.mul_1_l in Ec.
  destruct (c_malloc h _) as [a |] eqn:Em; [| done]. intros [= Ex Eh].
  pose proof (pow2_pos k ltac:(lia)).
  assert (GetAllocationPaddingSize (2 ^ k) = 2 ^ k + 7) as Ep
    by (unfold GetAllocationPaddingSize, ADDRESS_STORAGE_SIZE; lia).
  destruct (malloc_inside h (size + GetAllocationPaddingSize (2 ^ k)) a ltac:(lia) Em) as [Ha Hb].
  destruct (align_addr_ok (a + ADDRESS_STORAGE_SIZE) k) as [Hm Hr];
    unfold ADDRESS_STORAGE_SIZE in *; try lia.
  rewrite Ex in Hm, Hr. subst h'. exists a.
  rewrite Ex. unfold owns, SetActualMallocAddress, GetMallocAddressLocation. simpl.
  split_and!; try done.
  - apply lookup_insert_eq.
  - exists (size + GetAllocationPaddingSize (2 ^ k)). rewrite lookup_insert_eq. split_and!; try done; lia.
Qed.

(** Blocks already owned stay owned: the new header word is elsewhere. *)
Lemma owns_memalign h k size x h' y sz b :
  0 <= k <= 16 -> 0 <= size -> 0 <= sz -> owns h y sz b ->
  aom_memalign h (2 ^ k) size = (Some x, h') -> owns h' y sz b.
Proof.
  intros Hk Hs Hsz (Hw & n & Hbl & Hb0 & Hb1 & Hb2) E.
  destruct (memalign_inside h k size x h' Hk Hs E) as (a & _ & (_ & m & Ha & Ha0 & Ha1 & Ha2) & Em & _ & ->).
  simpl in *. rewrite lookup_insert_eq in Ha. injection Ha as <-.
  pose proof (pow2_pos k ltac:(lia)).
  unfold GetAllocationPaddingSize, ADDRESS_STORAGE_SIZE in *.
  destruct (malloc_apart h _ a b n Em Hbl ltac:(lia) ltac:(lia)) as [Hap | Hap].
  - split; simpl; [rewrite lookup_insert_ne by lia; done |].
    exists n. rewrite lookup_insert_ne by lia. split_and!; done || lia.
  - split; simpl; [rewrite lookup_insert_ne by lia; done |].
    exists n. rewrite lookup_insert_ne by lia. split_and!; done || lia.
Qed.

Lemma owns_free h x size a :
  owns h x size a ->
  aom_free h (Some x) = Some {| blocks := delete a (blocks h); words := words h |}.
Proof.
  intros (Hw & n & Hb & _). unfold aom_free, GetActualMallocAddress, GetMallocAddressLocation.
  rewrite Hw. cbn [mbind option_bind]. by rewrite Hb.
Qed.
End Mem.

(** ** A concrete [malloc] *)

(** Blocks one after the other; the heap remembers the end of the last. *)
Definition bump_end (h : heap) : Z :=
  map_fold (fun a n m => Z.max m (a + Z.max n 1)) 4096 (blocks h).

#[export] Instance bump_malloc : Malloc := fun h n =>
  if bump_end h + n <? 2 ^ 64 then Some (bump_end h) else None.

Lemma bump_end_ge h : 4096 <= bump_end h /\
  forall b sz, blocks h !! b = Some sz -> b + Z.max sz 1 <= bump_end h.
Proof.
  unfold bump_end. apply (map_fold_weak_ind (fun r m => 4096 <= r /\
    forall b sz, m !! b = Some sz -> b + Z.max sz 1 <= r)); [done |].
  intros a n m r Hm [Hr IH]. split; [lia |]. intros b sz Hb.
  destruct (decide (a = b)) as [-> | Hne].
  - rewrite lookup_insert_eq in Hb. injection Hb as ->. lia.
  - rewrite lookup_insert_ne in Hb by done. specialize (IH b sz Hb). lia.
Qed.

#[export] Instance bump_malloc_ok : MallocOk.
Proof.
  split.
  - intros h n a Hn. unfold c_malloc, bump_malloc. destruct (Z.ltb_spec (bump_end h + n) (2 ^ 64)); [| done].
    intros [= <-]. pose proof (bump_end_ge h) as [? _]. lia.
  - intros h n a. unfold c_malloc, bump_malloc. destruct (_ <? _); [| done]. intros [= <-].
    destruct (blocks h !! bump_end h) as [sz |] eqn:Eb; [| done].
    pose proof (bump_end_ge h) as [_ Hge]. specialize (Hge _ sz Eb). lia.
  - intros h n a b sz. unfold c_malloc, bump_malloc. destruct (_ <? _); [| done].
    intros [= <-] Hb Hn Hsz. right. pose proof (bump_end_ge h) as [_ Hge]. specialize (Hge b sz Hb). lia.
Qed.

(** A block [aom_memalign] returns has the alignment asked for, lies with its
    header word inside one fresh [malloc] block, takes nothing from blocks handed
    out before, and [aom_free] gives back exactly that [malloc] block. *)
Theorem aligned_block_lifecycle `{MallocOk} h k size x h' y sz b :
  0 <= k <= 16 -> 0 <= size -> 0 <= sz -> owns h y sz b ->
  aom_memalign h (2 ^ k) size = (Some x, h') ->
  x mod 2 ^ k = 0 /\ owns h' y sz b /\ (x + size <= y - 8 \/ y + sz <= x - 8) /\
  exists a w, owns h' x size a /\
    aom_free h' (Some x) = Some {| blocks := blocks h; words := w |}.
Proof.
  intros Hk Hs Hsz Hy E. pose proof (owns_memalign h k size x h' y sz b Hk Hs Hsz Hy E) as Hy'.
  destruct (memalign_inside h k size x h' Hk Hs E) as (a & Hm & Hown & Em & _ & ->).
  split_and!; try done.
  - destruct Hown as (_ & m & Ha & _ & Ha1 & Ha2), Hy as (_ & n & Hb & _ & Hb1 & Hb2).
    simpl in Ha. rewrite lookup_insert_eq in Ha. injection Ha as <-.
    pose proof (pow2_pos k ltac:(lia)). unfold GetAllocationPaddingSize, ADDRESS_STORAGE_SIZE in *.
    destruct (malloc_apart h _ a b n Em Hb ltac:(lia) ltac:(lia)); lia.
  - exists a. eexists. split; [done |]. rewrite (owns_free _ _ _ _ Hown). simpl.
    by rewrite delete_insert_id by (by eapply malloc_fresh).
Qed.

(** A heap with one block of 100 bytes at alignment 16. *)
Definition demo_heap : heap := {| blocks := {[4096 := 123]}; words := {[4104 := 4096]} |}.

Lemma aligned_block_lifecycle_witness :
  owns demo_heap 4112 100 4096 /\
  exists h', aom_memalign demo_heap (2 ^ 5) 1000 = (Some 4256, h') /\
    4256 mod 2 ^ 5 = 0 /\ owns h' 4112 100 4096 /\ (4256 + 1000 <= 4112 - 8 \/ 4112 + 100 <= 4256 - 8) /\
    exists a w, owns h' 4256 1000 a /\
      aom_free h' (Some 4256) = Some {| blocks := blocks demo_heap; words := w |}.
Proof.
  assert (owns demo_heap 4112 100 4096) as Ho.
  { split; [reflexivity |]. exists 123. split; [reflexivity |]. lia. }
  split; [exact Ho |]. eexists. split; [vm_compute; reflexivity |].
  refine (aligned_block_lifecycle demo_heap 5 1000 4256 _ 4112 100 4096 _ _ _ Ho _);
    [lia | lia | lia | vm_compute; reflexivity].
Defined.
