(* ===== verification/Image.v ===== *)
(** * Image descriptors

    [aom/src/aom_image.c]: the descriptor every picture enters the encoder and
    leaves the decoder in.  Addresses are integers ([None] is [NULL]); heap blocks
    come from [Mem].  The fields [user_priv] and [fb_priv], opaque to libaom's image
    code, are left out. *)

From S2P Require Import Prelude Mem.

Definition AOM_IMG_FMT_PLANAR : Z := 256.
Definition AOM_IMG_FMT_UV_FLIP : Z := 512.
Definition AOM_IMG_FMT_HIGHBITDEPTH : Z := 2048.
Definition AOM_IMG_FMT_YV12 : Z := 769.
Definition AOM_IMG_FMT_I420 : Z := 258.
Definition AOM_IMG_FMT_I422 : Z := 261.
Definition AOM_IMG_FMT_I444 : Z := 262.
Definition AOM_IMG_FMT_NV12 : Z := 263.
Definition AOM_IMG_FMT_I42016 : Z := 2306.
Definition AOM_IMG_FMT_YV1216 : Z := 2817.
Definition AOM_IMG_FMT_I42216 : Z := 2309.
Definition AOM_IMG_FMT_I44416 : Z := 2310.

(** ** Data *)

Record aom_metadata := {
  md_type : Z;
  md_payload : list Z;
  md_insert_flag : Z }.

Record aom_image := {
  fmt : Z; cp : Z; tc : Z; mc : Z; monochrome : Z; csp : Z; range : Z;
  im_w : Z; im_h : Z; bit_depth : Z;
  d_w : Z; d_h : Z; r_w : Z; r_h : Z;
  x_chroma_shift : Z; y_chroma_shift : Z;
  plane_y : option Z; plane_u : option Z; plane_v : option Z;
  stride_y : Z; stride_u : Z; stride_v : Z;
  im_sz : Z; im_bps : Z; temporal_id : Z; spatial_id : Z;
  img_data : option Z; img_data_owner : bool; self_allocd : bool;
  metadata : option (list aom_metadata) }.

(** [memset(img, 0, sizeof(aom_image_t))], also what [calloc] returns. *)
Definition zero_image : aom_image :=
  {| fmt := 0; cp := 0; tc := 0; mc := 0; monochrome := 0; csp := 0; range := 0;
     im_w := 0; im_h := 0; bit_depth := 0; d_w := 0; d_h := 0; r_w := 0; r_h := 0;
     x_chroma_shift := 0; y_chroma_shift := 0;
     plane_y := None; plane_u := None; plane_v := None;
     stride_y := 0; stride_u := 0; stride_v := 0;
     im_sz := 0; im_bps := 0; temporal_id := 0; spatial_id := 0;
     img_data := None; img_data_owner := false; self_allocd := false; metadata := None |}.

(** A descriptor [img_alloc_helper] allocated itself. *)
Definition fresh_image : aom_image :=
  {| fmt := 0; cp := 0; tc := 0; mc := 0; monochrome := 0; csp := 0; range := 0;
     im_w := 0; im_h := 0; bit_depth := 0; d_w := 0; d_h := 0; r_w := 0; r_h := 0;
     x_chroma_shift := 0; y_chroma_shift := 0;
     plane_y := None; plane_u := None; plane_v := None;
     stride_y := 0; stride_u := 0; stride_v := 0;
     im_sz := 0; im_bps := 0; temporal_id := 0; spatial_id := 0;
     img_data := None; img_data_owner := false; self_allocd := true; metadata := None |}.

Definition has_flag (x f : Z) : bool := negb (Z.land x f =? 0).

(** ** Geometry *)

Definition align_image_dimension (d subsampling size_align : Z) : Z :=
  let align := Z.shiftl 1 subsampling - 1 in
  let align := if align <? u32 (size_align - 1) then u32 (size_align - 1) else align in
  Z.land (u32 (d + align)) (Z.lnot align).

Definition is_valid_img_fmt (fmt : Z) : bool :=
  (fmt =? AOM_IMG_FMT_YV12) || (fmt =? AOM_IMG_FMT_I420) || (fmt =? AOM_IMG_FMT_I422) ||
  (fmt =? AOM_IMG_FMT_I444) || (fmt =? AOM_IMG_FMT_NV12) || (fmt =? AOM_IMG_FMT_I42016) ||
  (fmt =? AOM_IMG_FMT_YV1216) || (fmt =? AOM_IMG_FMT_I42216) || (fmt =? AOM_IMG_FMT_I44416).

(** The [switch] statements of [img_alloc_helper]. *)
Definition fmt_bps (fmt : Z) : Z :=
  if (fmt =? AOM_IMG_FMT_I420) || (fmt =? AOM_IMG_FMT_YV12) || (fmt =? AOM_IMG_FMT_NV12) then 12
  else if fmt =? AOM_IMG_FMT_I422 then 16
  else if fmt =? AOM_IMG_FMT_I444 then 24
  else if (fmt =? AOM_IMG_FMT_YV1216) || (fmt =? AOM_IMG_FMT_I42016) then 24
  else if fmt =? AOM_IMG_FMT_I42216 then 32
  else if fmt =? AOM_IMG_FMT_I44416 then 48
  else 16.

Definition fmt_xcs (fmt : Z) : Z :=
  if (fmt =? AOM_IMG_FMT_I420) || (fmt =? AOM_IMG_FMT_YV12) || (fmt =? AOM_IMG_FMT_NV12) ||
     (fmt =? AOM_IMG_FMT_I422) || (fmt =? AOM_IMG_FMT_I42016) || (fmt =? AOM_IMG_FMT_YV1216) ||
     (fmt =? AOM_IMG_FMT_I42216) then 1 else 0.

Definition fmt_ycs (fmt : Z) : Z :=
  if (fmt =? AOM_IMG_FMT_I420) || (fmt =? AOM_IMG_FMT_YV12) || (fmt =? AOM_IMG_FMT_NV12) ||
     (fmt =? AOM_IMG_FMT_YV1216) || (fmt =? AOM_IMG_FMT_I42016) then 1 else 0.

(** Adding a [size_t] to a pointer: an offset past the middle of the address space
    goes backwards. *)
Definition ptr_add (p off : Z) : Z := p + s64 off.

Definition with_planes (img : aom_image) (w h : Z) (py pu pv : option Z) : aom_image :=
  {| fmt := fmt img; cp := cp img; tc := tc img; mc := mc img; monochrome := monochrome img;
     csp := csp img; range := range img; im_w := im_w img; im_h := im_h img;
     bit_depth := bit_depth img; d_w := w; d_h := h; r_w := r_w img; r_h := r_h img;
     x_chroma_shift := x_chroma_shift img; y_chroma_shift := y_chroma_shift img;
     plane_y := py; plane_u := pu; plane_v := pv;
     stride_y := stride_y img; stride_u := stride_u img; stride_v := stride_v img;
     im_sz := im_sz img; im_bps := im_bps img; temporal_id := temporal_id img;
     spatial_id := spatial_id img; img_data := img_data img;
     img_data_owner := img_data_owner img; self_allocd := self_allocd img;
     metadata := metadata img |}.

Definition aom_img_set_rect (img : aom_image) (x y w h border : Z) : Z * aom_image :=
  if (x <=? UINT32_MAX - w) && (u32 (x + w) <=? im_w img) && (y <=? UINT32_MAX - h) &&
     (u32 (y + h) <=? im_h img) then
    let x := u32 (x + border) in
    let y := u32 (y + border) in
    let data := default 0 (img_data img) in
    if negb (has_flag (fmt img) AOM_IMG_FMT_PLANAR) then
      (0, with_planes img w h
            (Some (data + u32 (x * im_bps img) / 8 + u32 (y * stride_y img)))
            (plane_u img) (plane_v img))
    else
      let bytes_per_sample := if has_flag (fmt img) AOM_IMG_FMT_HIGHBITDEPTH then 2 else 1 in
      let py := data + u32 (x * bytes_per_sample) + u32 (y * stride_y img) in
      let data := ptr_add data (u64 ((im_h img + u32 (2 * border)) * stride_y img)) in
      let uv_border_h := Z.shiftr border (y_chroma_shift img) in
      let uv_x := Z.shiftr x (x_chroma_shift img) in
      let uv_y := Z.shiftr y (y_chroma_shift img) in
      if fmt img =? AOM_IMG_FMT_NV12 then
        let pu := data + u32 (uv_x * bytes_per_sample * 2) + u32 (uv_y * stride_u img) in
        (0, with_planes img w h (Some py) (Some pu) None)
      else if negb (has_flag (fmt img) AOM_IMG_FMT_UV_FLIP) then
        let pu := data + u32 (uv_x * bytes_per_sample) + u32 (uv_y * stride_u img) in
        let data := ptr_add data
          (u64 ((Z.shiftr (im_h img) (y_chroma_shift img) + u32 (2 * uv_border_h)) * stride_u img)) in
        let pv := data + u32 (uv_x * bytes_per_sample) + u32 (uv_y * stride_v img) in
        (0, with_planes img w h (Some py) (Some pu) (Some pv))
      else
        let pv := data + u32 (uv_x * bytes_per_sample) + u32 (uv_y * stride_v img) in
        let data := ptr_add data
          (u64 ((Z.shiftr (im_h img) (y_chroma_shift img) + u32 (2 * uv_border_h)) * stride_v img)) in
        let pu := data + u32 (uv_x * bytes_per_sample) + u32 (uv_y * stride_u img) in
        (0, with_planes img w h (Some py) (Some pu) (Some pv))
  else (-1, img).

Definition flip_plane (p : option Z) (rows stride : Z) : option Z :=
  match p with Some a => Some (a + u32 (rows - 1) * stride) | None => None end.

Definition aom_img_flip (img : aom_image) : aom_image :=
  let chroma_height := Z.shiftr (u32 (d_h img + y_chroma_shift img)) (y_chroma_shift img) in
  {| fmt := fmt img; cp := cp img; tc := tc img; mc := mc img; monochrome := monochrome img;
     csp := csp img; range := range img; im_w := im_w img; im_h := im_h img;
     bit_depth := bit_depth img; d_w := d_w img; d_h := d_h img; r_w := r_w img; r_h := r_h img;
     x_chroma_shift := x_chroma_shift img; y_chroma_shift := y_chroma_shift img;
     plane_y := flip_plane (plane_y img) (d_h img) (stride_y img);
     plane_u := flip_plane (plane_u img) chroma_height (stride_u img);
     plane_v := flip_plane (plane_v img) chroma_height (stride_v img);
     stride_y := - stride_y img; stride_u := - stride_u img; stride_v := - stride_v img;
     im_sz := im_sz img; im_bps := im_bps img; temporal_id := temporal_id img;
     spatial_id := spatial_id img; img_data := img_data img;
     img_data_owner := img_data_owner img; self_allocd := self_allocd img;
     metadata := metadata img |}.

Definition aom_img_plane_width (img : aom_image) (plane : Z) : Z :=
  if 0 <? plane then s32 (Z.shiftr (u32 (d_w img + x_chroma_shift img)) (x_chroma_shift img))
  else s32 (d_w img).

Definition aom_img_plane_height (img : aom_image) (plane : Z) : Z :=
  if 0 <? plane then s32 (Z.shiftr (u32 (d_h img + y_chroma_shift img)) (y_chroma_shift img))
  else s32 (d_h img).

(** ** Metadata *)

Definition AOM_MIF_LAYER_SPECIFIC : Z := 16.
Definition OBU_METADATA_TYPE_SCALABILITY : Z := 3.
Definition OBU_METADATA_TYPE_TIMECODE : Z := 5.

Definition set_metadata (img : aom_image) (md : option (list aom_metadata)) : aom_image :=
  {| fmt := fmt img; cp := cp img; tc := tc img; mc := mc img; monochrome := monochrome img;
     csp := csp img; range := range img; im_w := im_w img; im_h := im_h img;
     bit_depth := bit_depth img; d_w := d_w img; d_h := d_h img; r_w := r_w img; r_h := r_h img;
     x_chroma_shift := x_chroma_shift img; y_chroma_shift := y_chroma_shift img;
     plane_y := plane_y img; plane_u := plane_u img; plane_v := plane_v img;
     stride_y := stride_y img; stride_u := stride_u img; stride_v := stride_v img;
     im_sz := im_sz img; im_bps := im_bps img; temporal_id := temporal_id img;
     spatial_id := spatial_id img; img_data := img_data img;
     img_data_owner := img_data_owner img; self_allocd := self_allocd img; metadata := md |}.

(** [ok i]: whether the [i]-th allocation of the call succeeds; [data = None] is a
    null pointer.  Result: the block and the allocations made. *)
Definition aom_img_metadata_alloc (ok : nat -> bool) (type : Z) (data : option (list Z))
    (sz insert_flag : Z) : option aom_metadata :=
  match data with
  | None => None
  | Some bytes =>
      if sz =? 0 then None
      else if negb (ok 0%nat) then None
      else if negb (ok 1%nat) then None
      else Some {| md_type := type; md_payload := take (Z.to_nat sz) bytes;
                   md_insert_flag := insert_flag |}
  end.

(** Only called with [sz = 0]. *)
Definition aom_img_metadata_array_alloc (ok : bool) : option (list aom_metadata) :=
  if ok then Some [] else None.

Definition aom_img_add_metadata (ok : nat -> bool) (img : option aom_image) (type : Z)
    (data : option (list Z)) (sz insert_flag : Z) : Z * option aom_image :=
  match img with
  | None => (-1, None)
  | Some img =>
      let created := match metadata img with
                     | Some arr => Some arr
                     | None => aom_img_metadata_array_alloc (ok 0%nat)
                     end in
      match created with
      | None => (-1, Some img)
      | Some arr =>
          let img := set_metadata img (Some arr) in
          if has_flag insert_flag AOM_MIF_LAYER_SPECIFIC &&
             ((type =? OBU_METADATA_TYPE_SCALABILITY) || (type =? OBU_METADATA_TYPE_TIMECODE))
          then (-1, Some img)
          else
            match aom_img_metadata_alloc (fun i => ok (S i)) type data sz insert_flag with
            | None => (-1, Some img)
            | Some md => if negb (ok 3%nat) then (-1, Some img)
                         else (0, Some (set_metadata img (Some (arr ++ [md]))))
            end
      end
  end.

Definition aom_img_remove_metadata (img : option aom_image) : option aom_image :=
  match img with
  | Some img => Some (match metadata img with Some _ => set_metadata img None | None => img end)
  | None => None
  end.

Definition aom_img_get_metadata (img : option aom_image) (index : Z) : option aom_metadata :=
  match img with
  | Some img => match metadata img with
                | Some arr => if index <? Z.of_nat (length arr) then arr !! Z.to_nat index else None
                | None => None
                end
  | None => None
  end.

Definition aom_img_num_metadata (img : option aom_image) : Z :=
  match img with
  | Some img => match metadata img with Some arr => Z.of_nat (length arr) | None => 0 end
  | None => 0
  end.

(** ** Allocation *)

Section Alloc.
Context `{Malloc}.

(** What is left of the caller's descriptor: [None] when it was [NULL] or has
    been freed.  The outer [None] is an invalid [free]. *)
Definition aom_img_free (h : heap) (img : option aom_image) : option (option aom_image * heap) :=
  match aom_img_remove_metadata img with
  | None => Some (None, h)
  | Some img =>
      h ← (match img_data img with
           | Some p => if img_data_owner img then aom_free h (Some p) else Some h
           | None => Some h
           end);
      Some (if self_allocd img then None else Some img, h)
  end.

Inductive img_outcome :=
| ImgOk (img : aom_image)
| ImgFail (rest : option aom_image).

Definition img_fail (h : heap) (img : option aom_image) : option (img_outcome * heap) :=
  '(rest, h) ← aom_img_free h img; Some (ImgFail rest, h).

Definition bad_align (a : Z) : bool := has_flag a (a - 1).

(** [(img->stride[Y] etc.)]: the descriptor once its data is in place. *)
Definition img_fill (img : aom_image) (fmt_ xcs ycs bps bd w h stride_in_bytes : Z) : aom_image :=
  let su := Z.shiftr stride_in_bytes xcs in
  {| fmt := fmt_; cp := 2; tc := 2; mc := 2; monochrome := monochrome img;
     csp := csp img; range := range img; im_w := w; im_h := h; bit_depth := bd;
     d_w := d_w img; d_h := d_h img; r_w := r_w img; r_h := r_h img;
     x_chroma_shift := xcs; y_chroma_shift := ycs;
     plane_y := plane_y img; plane_u := plane_u img; plane_v := plane_v img;
     stride_y := stride_in_bytes;
     stride_u := if fmt_ =? AOM_IMG_FMT_NV12 then su * 2 else su;
     stride_v := if fmt_ =? AOM_IMG_FMT_NV12 then 0 else su;
     im_sz := im_sz img; im_bps := bps; temporal_id := temporal_id img;
     spatial_id := spatial_id img; img_data := img_data img;
     img_data_owner := img_data_owner img; self_allocd := self_allocd img;
     metadata := metadata img |}.

Definition set_img_data (img : aom_image) (data : option Z) (owner : bool) (sz : Z) : aom_image :=
  {| fmt := fmt img; cp := cp img; tc := tc img; mc := mc img; monochrome := monochrome img;
     csp := csp img; range := range img; im_w := im_w img; im_h := im_h img;
     bit_depth := bit_depth img; d_w := d_w img; d_h := d_h img; r_w := r_w img; r_h := r_h img;
     x_chroma_shift := x_chroma_shift img; y_chroma_shift := y_chroma_shift img;
     plane_y := plane_y img; plane_u := plane_u img; plane_v := plane_v img;
     stride_y := stride_y img; stride_u := stride_u img; stride_v := stride_v img;
     im_sz := sz; im_bps := im_bps img; temporal_id := temporal_id img;
     spatial_id := spatial_id img; img_data := data;
     img_data_owner := owner; self_allocd := self_allocd img; metadata := metadata img |}.

(** [s]: bytes per row of the first plane. *)
Definition img_stride (fmt w border stride_align : Z) : Z :=
  let bps := fmt_bps fmt in
  let bit_depth := if has_flag fmt AOM_IMG_FMT_HIGHBITDEPTH then 16 else 8 in
  let s := u64 (w + u32 (2 * border)) in
  let s := if has_flag fmt AOM_IMG_FMT_PLANAR then s else u64 (s * bps) / bit_depth in
  let s := u64 (s * bit_depth) / 8 in
  Z.land (u64 (s + stride_align - 1)) (Z.lnot (stride_align - 1)).

Definition img_alloc_size (fmt h border stride_in_bytes : Z) : Z :=
  let bps := fmt_bps fmt in
  let bit_depth := if has_flag fmt AOM_IMG_FMT_HIGHBITDEPTH then 16 else 8 in
  let rows := u32 (h + u32 (2 * border)) in
  if has_flag fmt AOM_IMG_FMT_PLANAR
  then u64 (u64 (rows * stride_in_bytes) * bps) / bit_depth
  else u64 (rows * stride_in_bytes).

(** [calloc_ok]: whether the descriptor itself can be allocated when [img] is
    [NULL]; [img_data_in], [alloc_cb]: the caller's data and allocator, if any. *)
Definition img_alloc_helper (h : heap) (calloc_ok : bool) (img : option aom_image)
    (fmt d_w d_h buf_align stride_align size_align border : Z)
    (img_data_in : option Z) (alloc_cb : option (Z -> option Z))
  : option (img_outcome * heap) :=
  let img := match img with Some _ => Some zero_image | None => None end in
  if negb (is_valid_img_fmt fmt) then img_fail h img
  else if (134217728 <? d_w) || (134217728 <? d_h) || (65536 <? buf_align) ||
          (65536 <? stride_align) || (65536 <? size_align) || (65536 <? border)
  then img_fail h img
  else
    let buf_align := if buf_align =? 0 then 1 else buf_align in
    if bad_align buf_align then img_fail h img
    else
      let stride_align := if stride_align =? 0 then 1 else stride_align in
      if bad_align stride_align then img_fail h img
      else
        let size_align := if size_align =? 0 then 1 else size_align in
        if bad_align size_align then img_fail h img
        else
          let bps := fmt_bps fmt in
          let bit_depth := if has_flag fmt AOM_IMG_FMT_HIGHBITDEPTH then 16 else 8 in
          let xcs := fmt_xcs fmt in
          let ycs := fmt_ycs fmt in
          let w := align_image_dimension d_w xcs size_align in
          let ht := align_image_dimension d_h ycs size_align in
          let s := img_stride fmt w border stride_align in
          if INT_MAX <? s then img_fail h img
          else
            match (match img with
                   | Some i => Some i
                   | None => if calloc_ok then
                               Some fresh_image
                             else None
                   end) with
            | None => img_fail h None
            | Some i =>
                let alloc_size := img_alloc_size fmt ht border s in
                let '(i, h) :=
                  match img_data_in with
                  | Some p => (set_img_data i (Some p) (img_data_owner i) (im_sz i), h)
                  | None =>
                      match alloc_cb with
                      | Some cb =>
                          let p := cb (u64 (alloc_size + buf_align - 1)) in
                          (set_img_data i ((fun a => aom_align_addr a buf_align) <$> p) false alloc_size, h)
                      | None =>
                          let '(p, h) := aom_memalign h buf_align alloc_size in
                          (set_img_data i p true alloc_size, h)
                      end
                  end in
                match img_data i with
                | None => img_fail h (Some i)
                | Some _ =>
                    let i := img_fill i fmt xcs ycs bps bit_depth w ht s in
                    let '(_, i) := aom_img_set_rect i 0 0 d_w d_h border in
                    Some (ImgOk i, h)
                end
            end.

Definition aom_img_alloc h calloc_ok img fmt d_w d_h align :=
  img_alloc_helper h calloc_ok img fmt d_w d_h align align 1 0 None None.

Definition aom_img_alloc_with_cb h calloc_ok img fmt d_w d_h align alloc_cb :=
  img_alloc_helper h calloc_ok img fmt d_w d_h align align 1 0 None alloc_cb.

Definition aom_img_wrap h calloc_ok img fmt d_w d_h stride_align img_data :=
  img_alloc_helper h calloc_ok img fmt d_w d_h 1 stride_align 1 0 img_data None.

Definition aom_img_alloc_with_border h calloc_ok img fmt d_w d_h align size_align border :=
  img_alloc_helper h calloc_ok img fmt d_w d_h align align size_align border None None.
End Alloc.

(** ** Where the planes lie *)

Definition bytes_per (img : aom_image) : Z :=
  if has_flag (fmt img) AOM_IMG_FMT_HIGHBITDEPTH then 2 else 1.

(** Every byte of every row of a plane, its border included, is in [[lo, hi)]. *)
Definition plane_in (lo hi p stride rows rowbytes brows bbytes : Z) : Prop :=
  forall r c, - brows <= r < rows + brows -> - bbytes <= c < rowbytes + bbytes ->
    lo <= p + r * stride + c < hi.

(** The planes of [img] lie one after the other in [size] bytes at its data. *)
Definition planes_laid_out (img : aom_image) (border size : Z) : Prop :=
  let by_ := bytes_per img in
  let cw := Z.shiftr (im_w img) (x_chroma_shift img) * by_ in
  let ch := Z.shiftr (im_h img) (y_chroma_shift img) in
  let bw := Z.shiftr border (x_chroma_shift img) * by_ in
  let bh := Z.shiftr border (y_chroma_shift img) in
  exists data e1 e2 e3 py pu, img_data img = Some data /\
    data <= e1 <= e2 /\ e2 <= e3 <= data + size /\
    plane_y img = Some py /\ plane_u img = Some pu /\
    plane_in data e1 py (stride_y img) (im_h img) (im_w img * by_) border (border * by_) /\
    if fmt img =? AOM_IMG_FMT_NV12
    then plane_v img = None /\ plane_in e1 e2 pu (stride_u img) ch (2 * cw) bh (2 * bw)
    else exists pv, plane_v img = Some pv /\
      let '(first, second) := if has_flag (fmt img) AOM_IMG_FMT_UV_FLIP then (pv, pu) else (pu, pv) in
      plane_in e1 e2 first (stride_u img) ch cw bh bw /\
      plane_in e2 e3 second (stride_v img) ch cw bh bw.

Lemma plane_in_intro lo p stride rows rowbytes brows bbytes :
  0 <= brows -> 0 <= bbytes -> 0 <= rows -> 0 <= rowbytes ->
  p = lo + bbytes + brows * stride -> rowbytes + 2 * bbytes <= stride ->
  plane_in lo (lo + (rows + 2 * brows) * stride) p stride rows rowbytes brows bbytes.
Proof.
  intros Hb Hbb Hr Hrb -> Hs r c Hrr Hcc.
  replace (lo + bbytes + brows * stride + r * stride + c)
    with (lo + (r + brows) * stride + (c + bbytes)) by ring.
  assert (0 <= (r + brows) * stride) by (apply Z.mul_nonneg_nonneg; lia).
  assert ((r + brows) * stride <= (rows + 2 * brows - 1) * stride)
    by (apply Z.mul_le_mono_nonneg_r; lia). lia.
Qed.

(** Sample layout of the nine formats. *)
Lemma valid_fmt_facts fmt : is_valid_img_fmt fmt = true ->
  has_flag fmt AOM_IMG_FMT_PLANAR = true /\
  let bd := if has_flag fmt AOM_IMG_FMT_HIGHBITDEPTH then 16 else 8 in
  ((fmt_xcs fmt = 1 /\ fmt_ycs fmt = 1 /\ 2 * fmt_bps fmt = 3 * bd) \/
   (fmt_xcs fmt = 1 /\ fmt_ycs fmt = 0 /\ fmt_bps fmt = 2 * bd) \/
   (fmt_xcs fmt = 0 /\ fmt_ycs fmt = 0 /\ fmt_bps fmt = 3 * bd)) /\
  (fmt = AOM_IMG_FMT_NV12 -> fmt_xcs fmt = 1 /\ fmt_ycs fmt = 1).
Proof.
  unfold is_valid_img_fmt. rewrite !orb_true_iff, !Z.eqb_eq.
  intros H. repeat destruct H as [H | H]; subst fmt;
    (split; [reflexivity |]; split; [vm_compute; tauto |]; done || (intros _; done)).
Qed.

Lemma bad_align_pow2 a : 1 <= a <= 65536 -> bad_align a = false -> exists k, 0 <= k <= 16 /\ a = 2 ^ k.
Proof.
  unfold bad_align, has_flag. intros Ha Hb. apply negb_false_iff, Z.eqb_eq in Hb.
  exists (Z.log2 a). split; [| apply land_pred_pow2; lia]. split; [apply Z.log2_nonneg |].
  change 16 with (Z.log2 65536). apply Z.log2_le_mono. lia.
Qed.

Lemma align_image_dimension_ok d sub k :
  0 <= d <= 134217728 -> 0 <= sub <= 1 -> 0 <= k <= 16 ->
  let w := align_image_dimension d sub (2 ^ k) in
  d <= w <= d + 65535 /\ w mod 2 ^ sub = 0.
Proof.
  intros Hd Hs Hk. unfold align_image_dimension.
  assert (1 <= 2 ^ k <= 65536) as Hp
    by (split; [apply (pow2_le 0); lia | change 65536 with (2 ^ 16); apply pow2_le; lia]).
  assert (Z.shiftl 1 sub = 2 ^ sub) as -> by (rewrite Z.shiftl_mul_pow2 by lia; lia).
  rewrite (u32_small (2 ^ k - 1)) by lia.
  assert (exists j, (if 2 ^ sub - 1 <? 2 ^ k - 1 then 2 ^ k - 1 else 2 ^ sub - 1) = 2 ^ j - 1 /\
            0 <= j <= 16 /\ sub <= j) as (j & -> & Hj & Hsj).
  { case_cmp; [exists k | exists sub]; split_and!; try lia.
    apply Z.lt_le_incl, (Z.pow_lt_mono_r_iff 2); lia. }
  assert (1 <= 2 ^ j <= 65536) as Hpj
    by (split; [apply (pow2_le 0); lia | change 65536 with (2 ^ 16); apply pow2_le; lia]).
  rewrite u32_small, align_down by lia. pose proof (align_up_bounds d j ltac:(lia)).
  split; [lia |]. replace j with ((j - sub) + sub) at 3 by lia. rewrite pow2_split, Z.mul_assoc by lia.
  apply Z.mod_mul, Z.pow_nonzero; lia.
Qed.

Lemma img_stride_ok fmt w border k :
  is_valid_img_fmt fmt = true -> 0 <= w <= 134217728 + 65535 -> 0 <= border <= 65536 -> 0 <= k <= 16 ->
  let by_ := if has_flag fmt AOM_IMG_FMT_HIGHBITDEPTH then 2 else 1 in
  (w + 2 * border) * by_ <= img_stride fmt w border (2 ^ k).
Proof.
  intros Hf Hw Hb Hk. destruct (valid_fmt_facts fmt Hf) as [Hp _]. unfold img_stride. rewrite Hp.
  assert (1 <= 2 ^ k <= 65536)
    by (split; [apply (pow2_le 0); lia | change 65536 with (2 ^ 16); apply pow2_le; lia]).
  rewrite (u32_small (2 * border)), (u64_small (w + _)) by lia.
  destruct (has_flag fmt AOM_IMG_FMT_HIGHBITDEPTH).
  - rewrite (u64_small (_ * 16)) by lia. replace ((w + 2 * border) * 16) with ((w + 2 * border) * 2 * 8) by lia.
    rewrite Z.div_mul by lia. rewrite u64_small, align_down by lia.
    replace ((w + 2 * border) * 2 + 2 ^ k - 1) with ((w + 2 * border) * 2 + (2 ^ k - 1)) by lia.
    apply align_up_bounds. lia.
  - rewrite (u64_small (_ * 8)), Z.div_mul, u64_small, align_down by lia.
    replace (w + 2 * border + 2 ^ k - 1) with ((w + 2 * border) * 1 + (2 ^ k - 1)) by lia.
    apply align_up_bounds. lia.
Qed.

(** The bytes the three planes need, and no more than what is allocated. *)
Lemma img_alloc_size_ok fmt h border s :
  is_valid_img_fmt fmt = true -> 0 <= h <= 134217728 + 65535 -> 0 <= border <= 65536 ->
  0 <= s <= INT_MAX -> h mod 2 ^ fmt_ycs fmt = 0 ->
  let H := h + 2 * border in
  img_alloc_size fmt h border s =
    H * s + (if fmt_xcs fmt =? 0 then 2 * (H * s) else if fmt_ycs fmt =? 0 then H * s else H / 2 * s) /\
  H * s + 2 * (Z.shiftr h (fmt_ycs fmt) + 2 * Z.shiftr border (fmt_ycs fmt)) * Z.shiftr s (fmt_xcs fmt)
    <= img_alloc_size fmt h border s < 2 ^ 63.
Proof.
  intros Hf Hh Hb Hs He H. destruct (valid_fmt_facts fmt Hf) as (Hp & Hc & _).
  unfold img_alloc_size. rewrite Hp. unfold INT_MAX in *.
  rewrite (u32_small (2 * border)), u32_small by lia. fold H.
  assert (0 <= H <= 134217728 + 65535 + 131072) as HH by lia.
  assert (0 <= H * s <= (134217728 + 65535 + 131072) * 2147483647) as HHs
    by (split; [apply Z.mul_nonneg_nonneg; lia | apply Z.mul_le_mono_nonneg; lia]).
  set (bd := if has_flag fmt AOM_IMG_FMT_HIGHBITDEPTH then 16 else 8) in *.
  assert (bd = 8 \/ bd = 16) as Hbd
    by (unfold bd; destruct (has_flag fmt AOM_IMG_FMT_HIGHBITDEPTH); [by right | by left]).
  assert (0 <= fmt_bps fmt <= 48) as Hbps by lia.
  rewrite (u64_small (H * s)) by lia. rewrite u64_small by nia.
  assert (0 <= Z.shiftr border 1 /\ 2 * Z.shiftr border 1 <= border /\ 0 <= Z.shiftr s 1 /\ 2 * Z.shiftr s 1 <= s)
    as (Hb1 & Hb2 & Hs1 & Hs2).
  { rewrite !Z.shiftr_div_pow2 by lia. change (2 ^ 1) with 2. dlia. }
  destruct Hc as [(-> & Ey & E) | [(-> & Ey & E) | (-> & Ey & E)]]; rewrite Ey in *; cbn [Z.eqb].
  - assert (H mod 2 = 0) as He2 by (change (2 ^ 1) with 2 in He; unfold H; dlia).
    assert (H = 2 * (H / 2)) as EH by dlia. set (H2 := H / 2) in *.
    assert (H * s * fmt_bps fmt / bd = H * s + H2 * s) as ->.
    { replace (H * s * fmt_bps fmt) with ((H * s + H2 * s) * bd) by nia. apply Z.div_mul. lia. }
    split; [done |].
    assert (Z.shiftr h 1 + 2 * Z.shiftr border 1 <= H2) as Hle.
    { rewrite !Z.shiftr_div_pow2 by lia. change (2 ^ 1) with 2. unfold H2, H. dlia. }
    assert (0 <= Z.shiftr h 1) by (apply Z.shiftr_nonneg; lia).
    split; nia.
  - assert (H * s * fmt_bps fmt / bd = H * s + H * s) as ->.
    { rewrite E. replace (H * s * (2 * bd)) with ((H * s + H * s) * bd) by ring. apply Z.div_mul. lia. }
    split; [done |]. rewrite !Z.shiftr_0_r. split; nia.
  - assert (H * s * fmt_bps fmt / bd = H * s + 2 * (H * s)) as ->.
    { rewrite E. replace (H * s * (3 * bd)) with ((H * s + 2 * (H * s)) * bd) by ring. apply Z.div_mul. lia. }
    split; [done |]. rewrite !Z.shiftr_0_r. split; nia.
Qed.

(** A chroma row, border included, fits the chroma stride. *)
Lemma chroma_row_fits w border s x by_ :
  0 <= w -> 0 <= border -> by_ = 1 \/ by_ = 2 -> 0 <= x <= 1 -> w mod 2 ^ x = 0 ->
  (w + 2 * border) * by_ <= s ->
  0 <= Z.shiftr w x * by_ /\ 0 <= Z.shiftr border x * by_ /\ Z.shiftr border x <= border /\
  Z.shiftr w x * by_ + 2 * (Z.shiftr border x * by_) <= Z.shiftr s x <= s.
Proof.
  intros Hw Hb Hby Hx Hm Hs. rewrite !Z.shiftr_div_pow2 by lia.
  assert (x = 0 \/ x = 1) as [-> | ->] by lia.
  - change (2 ^ 0) with 1. rewrite !Z.div_1_r. nia.
  - change (2 ^ 1) with 2 in *. destruct Hby as [-> | ->]; dlia.
Qed.

Lemma fill_rect_ok i0 data fmt_ w h s border dw dh :
  img_data i0 = Some data -> is_valid_img_fmt fmt_ = true ->
  0 <= dw <= w -> w <= 134217728 + 65535 -> 0 <= dh <= h -> h <= 134217728 + 65535 ->
  0 <= border <= 65536 -> w mod 2 ^ fmt_xcs fmt_ = 0 -> h mod 2 ^ fmt_ycs fmt_ = 0 ->
  let bd := if has_flag fmt_ AOM_IMG_FMT_HIGHBITDEPTH then 16 else 8 in
  (w + 2 * border) * (bd / 8) <= s <= INT_MAX -> border * s < 2 ^ 32 ->
  let i := img_fill i0 fmt_ (fmt_xcs fmt_) (fmt_ycs fmt_) (fmt_bps fmt_) bd w h s in
  exists py pu pv, aom_img_set_rect i 0 0 dw dh border = (0, with_planes i dw dh py pu pv) /\
    planes_laid_out (with_planes i dw dh py pu pv) border (img_alloc_size fmt_ h border s).
Proof.
  intros Ed Hf Hdw Hw Hdh Hh Hb Hwm Hhm bd Hs Hbs i.
  destruct (valid_fmt_facts fmt_ Hf) as (Hp & Hc & Hnv).
  assert (0 <= (w + 2 * border) * (bd / 8)) as Hs0.
  { apply Z.mul_nonneg_nonneg; [lia |]. unfold bd. by destruct (has_flag fmt_ AOM_IMG_FMT_HIGHBITDEPTH). }
  destruct (img_alloc_size_ok fmt_ h border s Hf ltac:(lia) Hb ltac:(lia) Hhm)
    as [_ [Hfit Hsz]]. set (size := img_alloc_size fmt_ h border s) in *.
  set (by_ := if has_flag fmt_ AOM_IMG_FMT_HIGHBITDEPTH then 2 else 1).
  assert (bd / 8 = by_ /\ (by_ = 1 \/ by_ = 2)) as [Eby Hby]
    by (unfold bd, by_; destruct (has_flag fmt_ AOM_IMG_FMT_HIGHBITDEPTH); auto).
  rewrite Eby in Hs. unfold INT_MAX in Hs.
  set (xcs := fmt_xcs fmt_) in *. set (ycs := fmt_ycs fmt_) in *.
  assert (0 <= xcs <= 1 /\ 0 <= ycs <= 1) as [Hx Hy] by lia.
  destruct (chroma_row_fits w border s xcs by_ ltac:(lia) ltac:(lia) Hby Hx Hwm ltac:(lia))
    as (Hcw & Hbw & Hbx & Hrow & Hsx).
  assert (0 <= Z.shiftr h ycs /\ 0 <= Z.shiftr border ycs <= border) as [Hch Hbh].
  { rewrite !Z.shiftr_div_pow2 by lia. assert (ycs = 0 \/ ycs = 1) as [-> | ->] by lia.
    - change (2 ^ 0) with 1. rewrite !Z.div_1_r. lia.
    - change (2 ^ 1) with 2. dlia. }
  assert (0 <= Z.shiftr border xcs) as Hbx0 by (apply Z.shiftr_nonneg; lia).
  set (CH := Z.shiftr h ycs + 2 * Z.shiftr border ycs) in *.
  set (su := Z.shiftr s xcs) in *.
  assert (0 <= CH * su) as HCs by (apply Z.mul_nonneg_nonneg; lia).
  assert (0 <= (h + 2 * border) * s) as HHs by (apply Z.mul_nonneg_nonneg; lia).
  assert (0 <= Z.shiftr border ycs * su <= border * s) as Hbsu
    by (split; [apply Z.mul_nonneg_nonneg | apply Z.mul_le_mono_nonneg]; lia).
  set (e1 := data + (h + 2 * border) * s).
  unfold aom_img_set_rect, i, img_fill. cbn -[Z.mul Z.add Z.shiftr u32 u64 s64 Z.leb Z.eqb has_flag Z.ltb].
  rewrite Hp, Ed. fold by_ xcs ycs su. unfold UINT32_MAX.
  rewrite !Z.add_0_l, (u32_small dw), (u32_small dh), (u32_small border), (u32_small (2 * border)) by lia.
  rewrite !(proj2 (Z.leb_le _ _)) by lia. cbn [andb negb default].
  rewrite (u32_small (border * by_)), (u32_small (border * s)) by lia.
  rewrite (u64_small ((h + 2 * border) * s)) by lia. fold CH.
  rewrite (u32_small (2 * Z.shiftr border ycs)) by lia. fold CH.
  unfold ptr_add. rewrite (s64_small ((h + 2 * border) * s)) by lia. fold e1.
  assert (Hpy : plane_in data e1 (data + border * by_ + border * s) s h (w * by_) border (border * by_)).
  { apply plane_in_intro; try lia; apply Z.mul_nonneg_nonneg; lia. }
  destruct (Z.eqb_spec fmt_ AOM_IMG_FMT_NV12) as [Env | Env].
  - destruct (Hnv Env) as [Ex Ey]. assert (su * 2 <= s) as Hsu2.
    { unfold su. rewrite Ex, Z.shiftr_div_pow2 by lia. change (2 ^ 1) with 2. dlia. }
    rewrite (u32_small (Z.shiftr border xcs * by_ * 2)) by lia.
    assert (0 <= Z.shiftr border ycs * (su * 2) <= border * s) as Hbsu2
      by (split; [apply Z.mul_nonneg_nonneg | apply Z.mul_le_mono_nonneg]; lia).
    rewrite (u32_small (Z.shiftr border ycs * (su * 2))) by lia.
    eexists _, _, _. split; [reflexivity |].
    exists data, e1, (e1 + CH * (su * 2)), (e1 + CH * (su * 2)). do 2 eexists.
    unfold planes_laid_out, with_planes, bytes_per; simpl.
    fold by_. split_and!; try done; try lia. rewrite (proj2 (Z.eqb_eq _ _)) by done.
    split; [done |]. apply plane_in_intro; lia.
  - rewrite (u32_small (Z.shiftr border xcs * by_)), (u32_small (Z.shiftr border ycs * su)) by lia.
    rewrite (u64_small (CH * su)), (s64_small (CH * su)) by lia.
    assert (Hpc : forall lo, plane_in lo (lo + CH * su) (lo + Z.shiftr border xcs * by_ + Z.shiftr border ycs * su)
                    su (Z.shiftr h ycs) (Z.shiftr w xcs * by_) (Z.shiftr border ycs) (Z.shiftr border xcs * by_))
      by (intros lo; apply plane_in_intro; lia).
    destruct (has_flag fmt_ AOM_IMG_FMT_UV_FLIP) eqn:Efl; cbn [negb]; eexists _, _, _;
      (split; [reflexivity |]; exists data, e1, (e1 + CH * su), (e1 + CH * su + CH * su); do 2 eexists;
       unfold planes_laid_out, with_planes, bytes_per; simpl; fold by_;
       split_and!; try done; try lia; rewrite (proj2 (Z.eqb_neq _ _)) by done;
       eexists; split; [reflexivity |]; rewrite Efl; split; apply Hpc).
Qed.

Section AllocProofs.
Context `{MallocOk}.

Lemma img_fail_ok h img :
  (forall i, img = Some i -> img_data i = None) ->
  exists rest, img_fail h img = Some (ImgFail rest, h).
Proof.
  intros Hd. destruct img as [i |]; [| by eexists]. unfold img_fail, aom_img_free, aom_img_remove_metadata.
  assert (img_data (match metadata i with Some _ => set_metadata i None | None => i end) = None) as ->
    by (destruct (metadata i); simpl; by apply Hd).
  by eexists.
Qed.

(** Ranges of the [unsigned int] arguments the checks let through. *)
Record helper_args (fmt dw dh ba sa za border : Z) : Prop := {
  ha_fmt : is_valid_img_fmt fmt = true;
  ha_dw : 0 <= dw <= 134217728;
  ha_dh : 0 <= dh <= 134217728;
  ha_ba : exists k, 0 <= k <= 16 /\ (if ba =? 0 then 1 else ba) = 2 ^ k;
  ha_sa : exists k, 0 <= k <= 16 /\ (if sa =? 0 then 1 else sa) = 2 ^ k;
  ha_za : exists k, 0 <= k <= 16 /\ (if za =? 0 then 1 else za) = 2 ^ k;
  ha_border : 0 <= border <= 65536 }.

Definition helper_stride (fmt dw sa za border : Z) : Z :=
  img_stride fmt (align_image_dimension dw (fmt_xcs fmt) (if za =? 0 then 1 else za)) border
    (if sa =? 0 then 1 else sa).

Definition helper_size (fmt dw dh sa za border : Z) : Z :=
  img_alloc_size fmt (align_image_dimension dh (fmt_ycs fmt) (if za =? 0 then 1 else za)) border
    (helper_stride fmt dw sa za border).

(** Where the data of the image comes from. *)
Definition helper_data (h : heap) (i0 : aom_image) (ba size : Z) (din : option Z)
    (cb : option (Z -> option Z)) : aom_image * heap :=
  match din with
  | Some p => (set_img_data i0 (Some p) (img_data_owner i0) (im_sz i0), h)
  | None =>
      match cb with
      | Some cb =>
          let p := cb (u64 (size + (if ba =? 0 then 1 else ba) - 1)) in
          (set_img_data i0 ((fun a => aom_align_addr a (if ba =? 0 then 1 else ba)) <$> p) false size, h)
      | None =>
          let '(p, h) := aom_memalign h (if ba =? 0 then 1 else ba) size in
          (set_img_data i0 p true size, h)
      end
  end.

(** Every call returns, and a successful one has gone through the checks and
    filled the descriptor from its data. *)
Lemma img_alloc_helper_inv h calloc_ok img fmt_ dw dh ba sa za border din cb :
  0 <= dw -> 0 <= dh -> 0 <= ba -> 0 <= sa -> 0 <= za -> 0 <= border ->
  (exists rest h', img_alloc_helper h calloc_ok img fmt_ dw dh ba sa za border din cb
                   = Some (ImgFail rest, h')) \/
  (helper_args fmt_ dw dh ba sa za border /\ helper_stride fmt_ dw sa za border <= INT_MAX /\
   exists i0 i1 h' data, (i0 = zero_image \/ i0 = fresh_image) /\
     helper_data h i0 ba (helper_size fmt_ dw dh sa za border) din cb = (i1, h') /\
     img_data i1 = Some data /\
     img_alloc_helper h calloc_ok img fmt_ dw dh ba sa za border din cb =
       (let bd := if has_flag fmt_ AOM_IMG_FMT_HIGHBITDEPTH then 16 else 8 in
        let z := if za =? 0 then 1 else za in
        let '(_, i) := aom_img_set_rect
          (img_fill i1 fmt_ (fmt_xcs fmt_) (fmt_ycs fmt_) (fmt_bps fmt_) bd
             (align_image_dimension dw (fmt_xcs fmt_) z) (align_image_dimension dh (fmt_ycs fmt_) z)
             (helper_stride fmt_ dw sa za border)) 0 0 dw dh border in
        Some (ImgOk i, h'))).
Proof.
  intros Hdw Hdh Hba Hsa Hza Hb. unfold img_alloc_helper. cbv zeta.
  set (im := match img with Some _ => Some zero_image | None => None end).
  assert (Him : forall i, im = Some i -> i = zero_image) by (unfold im; destruct img; intros ? [= <-]; done).
  assert (Hfail : forall x, (x = im \/ x = None) ->
    exists rest h', img_fail h x = Some (ImgFail rest, h')).
  { intros x Hx. destruct (img_fail_ok h x) as [rest E]; [| by exists rest, h].
    intros i Ei. destruct Hx as [-> | ->]; [| done]. by rewrite (Him i Ei). }
  destruct (is_valid_img_fmt fmt_) eqn:Ef; cbn [negb]; [| left; by apply Hfail; left].
  destruct (orb _ _) eqn:Eo; [left; by apply Hfail; left |].
  rewrite !orb_false_iff, !Z.ltb_ge in Eo. destruct Eo as [[[[[E1 E2] E3] E4] E5] E6].
  destruct (bad_align (if ba =? 0 then 1 else ba)) eqn:Eb; [left; by apply Hfail; left |].
  destruct (bad_align (if sa =? 0 then 1 else sa)) eqn:Es; [left; by apply Hfail; left |].
  destruct (bad_align (if za =? 0 then 1 else za)) eqn:Ez; [left; by apply Hfail; left |].
  assert (Hal : forall a, 0 <= a <= 65536 -> 1 <= (if a =? 0 then 1 else a) <= 65536)
    by (intros a Ha; case_cmp; lia).
  apply bad_align_pow2 in Eb; [| by apply Hal]. apply bad_align_pow2 in Es; [| by apply Hal].
  apply bad_align_pow2 in Ez; [| by apply Hal].
  fold (helper_stride fmt_ dw sa za border). fold (helper_size fmt_ dw dh sa za border).
  destruct (Z.ltb_spec INT_MAX (helper_stride fmt_ dw sa za border)); [left; by apply Hfail; left |].
  destruct (match im with Some i => Some i | None => if calloc_ok then Some fresh_image else None end)
    as [i0 |] eqn:Ei; [| left; by apply Hfail; right].
  assert (i0 = zero_image \/ i0 = fresh_image) as Hi0.
  { destruct im as [i |]; [left; rewrite <- (Him i eq_refl); congruence |].
    destruct calloc_ok; [right; congruence | done]. }
  fold (helper_data h i0 ba (helper_size fmt_ dw dh sa za border) din cb).
  destruct (helper_data h i0 ba _ din cb) as [i1 h1] eqn:Ed.
  destruct (img_data i1) as [data |] eqn:Edat.
  - right. split; [by constructor |]. split; [done |]. exists i0, i1, h1, data. done.
  - left. destruct (img_fail_ok h1 (Some i1)) as [rest E]; [by intros ? [= <-] |]. by exists rest, h1.
Qed.

(** Success puts the planes in place, as long as [border] rows do not exceed
    what 32 bits count. *)
Lemma helper_planes fmt_ dw dh ba sa za border i1 data :
  helper_args fmt_ dw dh ba sa za border -> helper_stride fmt_ dw sa za border <= INT_MAX ->
  border * helper_stride fmt_ dw sa za border < 2 ^ 32 -> img_data i1 = Some data ->
  let bd := if has_flag fmt_ AOM_IMG_FMT_HIGHBITDEPTH then 16 else 8 in
  let z := if za =? 0 then 1 else za in
  let i := img_fill i1 fmt_ (fmt_xcs fmt_) (fmt_ycs fmt_) (fmt_bps fmt_) bd
             (align_image_dimension dw (fmt_xcs fmt_) z) (align_image_dimension dh (fmt_ycs fmt_) z)
             (helper_stride fmt_ dw sa za border) in
  exists py pu pv, aom_img_set_rect i 0 0 dw dh border = (0, with_planes i dw dh py pu pv) /\
    planes_laid_out (with_planes i dw dh py pu pv) border (helper_size fmt_ dw dh sa za border).
Proof.
  intros [Hf Hdw Hdh _ (ks & Hks & Es) (kz & Hkz & Ez) Hb] Hs Hbs Hd bd z i.
  destruct (valid_fmt_facts fmt_ Hf) as (_ & Hc & _).
  destruct (align_image_dimension_ok dw (fmt_xcs fmt_) kz) as [Hw Hwm]; try lia.
  destruct (align_image_dimension_ok dh (fmt_ycs fmt_) kz) as [Hh Hhm]; try lia.
  pose proof (img_stride_ok fmt_ (align_image_dimension dw (fmt_xcs fmt_) (2 ^ kz)) border ks Hf ltac:(lia) Hb Hks) as Hst.
  unfold i, helper_size, helper_stride, z in *. rewrite Ez, Es in *.
  apply (fill_rect_ok i1 data); try done; try lia.
  split; [| done]. unfold bd. destruct (has_flag fmt_ AOM_IMG_FMT_HIGHBITDEPTH); exact Hst.
Qed.
End AllocProofs.

(** [aom_img_alloc_with_border] either fails or returns an image whose data is
    an owned heap block of [sz] bytes with the alignment asked for, in which all
    planes lie one after the other, borders included, without overlapping and
    without any 32-bit overflow; no call frees anything it does not own. *)
Theorem img_alloc_planes_in_block `{MallocOk} h calloc_ok img fmt_ dw dh align size_align border :
  0 <= dw -> 0 <= dh -> 0 <= align -> 0 <= size_align -> 0 <= border ->
  exists outcome h',
    aom_img_alloc_with_border h calloc_ok img fmt_ dw dh align size_align border = Some (outcome, h') /\
    match outcome with
    | ImgFail _ => True
    | ImgOk i =>
        fmt i = fmt_ /\ d_w i = dw /\ d_h i = dh /\ planes_laid_out i border (im_sz i) /\
        exists data a, img_data i = Some data /\ owns h' data (im_sz i) a /\
          data mod Z.max 1 align = 0
    end.
Proof.
  intros Hdw Hdh Hal Hza Hb. unfold aom_img_alloc_with_border.
  destruct (img_alloc_helper_inv h calloc_ok img fmt_ dw dh align align size_align border None None)
    as [(rest & h' & E) | (Ha & Hs & i0 & i1 & h' & data & Hi0 & Ed & Edat & E)]; try done.
  { exists (ImgFail rest), h'. done. }
  rewrite E. simpl in Ed. destruct (Ha) as [Hf Hdw' Hdh' (k & Hk & Ek) (ks & Hks & Es) (kz & Hkz & Ez) Hb'].
  set (size := helper_size fmt_ dw dh align size_align border) in *.
  set (s := helper_stride fmt_ dw align size_align border) in *.
  assert (0 <= size /\ 3 * (border * s) <= size /\ 0 <= s) as (Hsz & Hsz3 & Hs0).
  { destruct (align_image_dimension_ok dh (fmt_ycs fmt_) kz) as [Hh Hhm]; try lia.
    { destruct (valid_fmt_facts fmt_ Hf) as (_ & Hc & _). lia. }
    destruct (align_image_dimension_ok dw (fmt_xcs fmt_) kz) as [Hw _]; try lia.
    { destruct (valid_fmt_facts fmt_ Hf) as (_ & Hc & _). lia. }
    rewrite <- Ez in Hh, Hhm, Hw.
    set (ww := align_image_dimension dw (fmt_xcs fmt_) (if size_align =? 0 then 1 else size_align)) in *.
    set (hh := align_image_dimension dh (fmt_ycs fmt_) (if size_align =? 0 then 1 else size_align)) in *.
    pose proof (img_stride_ok fmt_ ww border ks Hf ltac:(lia) Hb' Hks) as Hst.
    rewrite <- Es in Hst. change (img_stride fmt_ ww border _) with s in Hst. cbv zeta in Hst.
    assert (0 <= s) by (destruct (has_flag fmt_ AOM_IMG_FMT_HIGHBITDEPTH); lia).
    destruct (img_alloc_size_ok fmt_ hh border s Hf ltac:(lia) Hb' ltac:(lia) Hhm)
      as [Esz _]. unfold size, helper_size. fold s hh. rewrite Esz.
    assert (border <= (hh + 2 * border) / 2) by dlia.
    assert (border * s <= (hh + 2 * border) / 2 * s) by (apply Z.mul_le_mono_nonneg_r; lia).
    assert (2 * border * s <= (hh + 2 * border) * s) by (apply Z.mul_le_mono_nonneg_r; lia).
    assert (0 <= border * s) by (apply Z.mul_nonneg_nonneg; lia).
    repeat case_cmp; lia. }
  rewrite Ek in Ed. destruct (aom_memalign h (2 ^ k) size) as [p h1] eqn:Em.
  injection Ed as <- <-. simpl in Edat. subst p.
  destruct (memalign_inside h k size data h1 Hk Hsz Em) as (a & Hm & Hown & _ & Hmax & _).
  pose proof (pow2_pos k ltac:(lia)).
  unfold GetAllocationPaddingSize, ADDRESS_STORAGE_SIZE, AOM_MAX_ALLOCABLE_MEMORY in Hmax.
  destruct (helper_planes fmt_ dw dh align align size_align border (set_img_data i0 (Some data) true size) data Ha)
    as (py & pu & pv & Er & Hpl); [done | fold s; lia | done |].
  cbv zeta in Er, Hpl |- *. fold s in Er, Hpl |- *. rewrite Er. do 2 eexists. split; [reflexivity |].
  split_and!; try done. exists data, a. split_and!; try done.
  replace (Z.max 1 align) with (2 ^ k); [done |]. rewrite <- Ek. case_cmp; lia.
Qed.

Lemma img_alloc_planes_in_block_witness :
  exists outcome h',
    aom_img_alloc_with_border demo_heap true None AOM_IMG_FMT_I42016 1919 1079 32 8 160
      = Some (outcome, h') /\
    match outcome with
    | ImgFail _ => True
    | ImgOk i =>
        fmt i = AOM_IMG_FMT_I42016 /\ d_w i = 1919 /\ d_h i = 1079 /\
        planes_laid_out i 160 (im_sz i) /\
        exists data a, img_data i = Some data /\ owns h' data (im_sz i) a /\ data mod Z.max 1 32 = 0
    end.
Proof. apply img_alloc_planes_in_block; lia. Defined.

(** What [aom_img_wrap] makes of existing data. *)
(** What wrapping makes of the descriptor. *)
Definition wrapped (fmt_ dw dh data : Z) (py pu pv : option Z) : aom_image :=
  with_planes (img_fill (set_img_data zero_image (Some data) false 0) fmt_ (fmt_xcs fmt_) (fmt_ycs fmt_) (fmt_bps fmt_)
      (if has_flag fmt_ AOM_IMG_FMT_HIGHBITDEPTH then 16 else 8)
      (align_image_dimension dw (fmt_xcs fmt_) 1) (align_image_dimension dh (fmt_ycs fmt_) 1)
      (img_stride fmt_ (align_image_dimension dw (fmt_xcs fmt_) 1) 0 1)) dw dh py pu pv.

Lemma img_wrap_built `{MallocOk} h calloc_ok i fmt_ dw dh data :
  is_valid_img_fmt fmt_ = true -> 0 <= dw <= 134217728 -> 0 <= dh <= 134217728 ->
  exists py pu pv, let i' := wrapped fmt_ dw dh data py pu pv in
    aom_img_wrap h calloc_ok (Some i) fmt_ dw dh 1 (Some data) = Some (ImgOk i', h) /\
    planes_laid_out i' 0 (img_alloc_size fmt_ (im_h i') 0 (stride_y i')).
Proof.
  intros Hf Hdw Hdh. unfold aom_img_wrap, img_alloc_helper. rewrite Hf. cbn [negb]. cbv zeta.
  rewrite !(proj2 (Z.ltb_ge _ _)) by lia. cbn [orb].
  change (bad_align (if 1 =? 0 then 1 else 1)) with false. cbv iota.
  destruct (valid_fmt_facts fmt_ Hf) as (Hp & Hc & _).
  destruct (align_image_dimension_ok dw (fmt_xcs fmt_) 0) as [Hw _]; try lia.
  assert (helper_args fmt_ dw dh 1 1 1 0) as Ha.
  { constructor; try done; exists 0; done. }
  assert (Hs : img_stride fmt_ (align_image_dimension dw (fmt_xcs fmt_) 1) 0 1 <= INT_MAX).
  { unfold img_stride. rewrite Hp. change (2 ^ 0) with 1 in Hw. unfold INT_MAX.
    set (w := align_image_dimension dw (fmt_xcs fmt_) 1) in *.
    rewrite (u32_small (2 * 0)), (u64_small (w + 2 * 0)) by lia. change (Z.lnot (1 - 1)) with (-1).
    rewrite Z.land_m1_r. destruct (has_flag fmt_ AOM_IMG_FMT_HIGHBITDEPTH);
      rewrite (u64_small (_ * _)) by lia; rewrite u64_small by dlia; dlia. }
  change (if 1 =? 0 then 1 else 1) with 1. rewrite (proj2 (Z.ltb_ge _ _)) by lia.
  destruct (helper_planes fmt_ dw dh 1 1 1 0
              (set_img_data zero_image (Some data) false 0) data Ha) as (py & pu & pv & Er & Hpl);
    [exact Hs | lia | done |].
  cbv zeta in Er, Hpl. unfold helper_stride in Er, Hpl. change (if 1 =? 0 then 1 else 1) with 1 in Er, Hpl.
  cbn [img_data set_img_data img_data_owner zero_image im_sz]. rewrite Er.
  exists py, pu, pv. split; [reflexivity | exact Hpl].
Qed.

Lemma img_wrap_shape `{MallocOk} h calloc_ok i fmt_ dw dh data :
  is_valid_img_fmt fmt_ = true -> 0 <= dw <= 134217728 -> 0 <= dh <= 134217728 ->
  exists i', aom_img_wrap h calloc_ok (Some i) fmt_ dw dh 1 (Some data) = Some (ImgOk i', h) /\
    fmt i' = fmt_ /\ d_w i' = dw /\ d_h i' = dh /\ img_data i' = Some data /\
    img_data_owner i' = false /\ self_allocd i' = false /\
    planes_laid_out i' 0 (img_alloc_size fmt_ (im_h i') 0 (stride_y i')).
Proof.
  intros Hf Hdw Hdh. destruct (img_wrap_built h calloc_ok i fmt_ dw dh data Hf Hdw Hdh) as (py & pu & pv & E & Hpl).
  exists (wrapped fmt_ dw dh data py pu pv). by split_and!.
Qed.

(** [aom_img_wrap] over existing data, as the encoder shim calls it, succeeds
    for every supported format and every size up to 2^27 whose rows fit an [int],
    and lays the planes out in the bytes the format needs. *)
Theorem img_wrap_ok `{MallocOk} h calloc_ok i fmt_ dw dh data :
  is_valid_img_fmt fmt_ = true -> 0 <= dw <= 134217728 -> 0 <= dh <= 134217728 ->
  exists i', aom_img_wrap h calloc_ok (Some i) fmt_ dw dh 1 (Some data) = Some (ImgOk i', h) /\
    fmt i' = fmt_ /\ d_w i' = dw /\ d_h i' = dh /\ img_data i' = Some data /\
    img_data_owner i' = false /\ self_allocd i' = false /\
    planes_laid_out i' 0 (img_alloc_size fmt_ (im_h i') 0 (stride_y i')).
Proof. apply img_wrap_shape. Qed.

Lemma img_wrap_ok_witness :
  exists i', aom_img_wrap demo_heap true (Some zero_image) AOM_IMG_FMT_I420 1280 720 1 (Some 4112)
             = Some (ImgOk i', demo_heap) /\
    fmt i' = AOM_IMG_FMT_I420 /\ d_w i' = 1280 /\ d_h i' = 720 /\ img_data i' = Some 4112 /\
    img_data_owner i' = false /\ self_allocd i' = false /\
    planes_laid_out i' 0 (img_alloc_size AOM_IMG_FMT_I420 (im_h i') 0 (stride_y i')).
Proof. apply img_wrap_ok; [reflexivity | lia | lia]. Defined.

Lemma flip_plane_row p rows stride r : 1 <= rows < 2 ^ 32 ->
  exists q, flip_plane (Some p) rows stride = Some q /\ q + r * - stride = p + (rows - 1 - r) * stride.
Proof.
  intros Hr. unfold flip_plane. rewrite u32_small by lia. eexists. split; [done |]. ring.
Qed.

Lemma flip_plane_twice p rows stride : flip_plane (flip_plane p rows stride) rows (- stride) = p.
Proof. destruct p as [a |]; simpl; [f_equal; ring | done]. Qed.

(** [aom_img_flip] turns an image upside down: row [r] of every plane afterwards
    is row [height - 1 - r] before, and flipping again restores the descriptor. *)
Theorem img_flip_reverses_rows img py pu pv r :
  1 <= d_h img < 2 ^ 31 -> 0 <= y_chroma_shift img <= 1 ->
  plane_y img = Some py -> plane_u img = Some pu -> plane_v img = Some pv ->
  (exists qy qu qv,
     plane_y (aom_img_flip img) = Some qy /\ plane_u (aom_img_flip img) = Some qu /\
     plane_v (aom_img_flip img) = Some qv /\
     qy + r * stride_y (aom_img_flip img) = py + (aom_img_plane_height img 0 - 1 - r) * stride_y img /\
     qu + r * stride_u (aom_img_flip img) = pu + (aom_img_plane_height img 1 - 1 - r) * stride_u img /\
     qv + r * stride_v (aom_img_flip img) = pv + (aom_img_plane_height img 2 - 1 - r) * stride_v img) /\
  aom_img_flip (aom_img_flip img) = img.
Proof.
  intros Hd Hs Ey Eu Ev.
  assert (1 <= Z.shiftr (u32 (d_h img + y_chroma_shift img)) (y_chroma_shift img) < 2 ^ 31) as Hc.
  { rewrite u32_small, Z.shiftr_div_pow2 by lia.
    assert (y_chroma_shift img = 0 \/ y_chroma_shift img = 1) as [-> | ->] by lia;
      [change (2 ^ 0) with 1 | change (2 ^ 1) with 2]; dlia. }
  split.
  - unfold aom_img_plane_height, aom_img_flip; simpl. rewrite Ey, Eu, Ev, !s32_small by lia.
    set (ch := Z.shiftr _ _) in *.
    destruct (flip_plane_row py (d_h img) (stride_y img) r ltac:(lia)) as (qy & -> & Hy).
    destruct (flip_plane_row pu ch (stride_u img) r ltac:(lia)) as (qu & -> & Hu).
    destruct (flip_plane_row pv ch (stride_v img) r ltac:(lia)) as (qv & -> & Hv).
    exists qy, qu, qv. split_and!; done.
  - unfold aom_img_flip; simpl. rewrite !flip_plane_twice, !Z.opp_involutive. by destruct img.
Qed.

Definition demo_image : aom_image :=
  match aom_img_wrap demo_heap true (Some zero_image) AOM_IMG_FMT_I420 6 5 1 (Some 4112) with
  | Some (ImgOk i, _) => i
  | _ => zero_image
  end.

Lemma img_flip_reverses_rows_witness :
  exists py pu pv,
  (exists qy qu qv,
     plane_y (aom_img_flip demo_image) = Some qy /\ plane_u (aom_img_flip demo_image) = Some qu /\
     plane_v (aom_img_flip demo_image) = Some qv /\
     qy + 1 * stride_y (aom_img_flip demo_image)
       = py + (aom_img_plane_height demo_image 0 - 1 - 1) * stride_y demo_image /\
     qu + 1 * stride_u (aom_img_flip demo_image)
       = pu + (aom_img_plane_height demo_image 1 - 1 - 1) * stride_u demo_image /\
     qv + 1 * stride_v (aom_img_flip demo_image)
       = pv + (aom_img_plane_height demo_image 2 - 1 - 1) * stride_v demo_image) /\
  aom_img_flip (aom_img_flip demo_image) = demo_image.
Proof.
  do 3 eexists. apply img_flip_reverses_rows.
  - vm_compute. split; [discriminate | reflexivity].
  - vm_compute. split; discriminate.
  - vm_compute. reflexivity.
  - vm_compute. reflexivity.
  - vm_compute. reflexivity.
Defined.

(** [aom_img_add_metadata] is all or nothing: it either appends a copy of the
    payload, found at the end of the list with everything before it unchanged, or
    fails and leaves every payload and the number of payloads as they were. *)
Theorem img_add_metadata_all_or_nothing ok img type data sz flag ret img' :
  aom_img_add_metadata ok (Some img) type data sz flag = (ret, img') ->
  (ret = 0 /\ exists bytes, data = Some bytes /\
     aom_img_num_metadata img' = aom_img_num_metadata (Some img) + 1 /\
     aom_img_get_metadata img' (aom_img_num_metadata (Some img)) =
       Some {| md_type := type; md_payload := take (Z.to_nat sz) bytes; md_insert_flag := flag |} /\
     forall i, 0 <= i < aom_img_num_metadata (Some img) ->
       aom_img_get_metadata img' i = aom_img_get_metadata (Some img) i) \/
  (ret = -1 /\ aom_img_num_metadata img' = aom_img_num_metadata (Some img) /\
     forall i, aom_img_get_metadata img' i = aom_img_get_metadata (Some img) i).
Proof.
  assert (Hsame : forall arr, metadata img = Some arr \/ (metadata img = None /\ arr = []) ->
    aom_img_num_metadata (Some (set_metadata img (Some arr))) = aom_img_num_metadata (Some img) /\
    forall i, aom_img_get_metadata (Some (set_metadata img (Some arr))) i = aom_img_get_metadata (Some img) i).
  { intros arr Ha. unfold aom_img_num_metadata, aom_img_get_metadata; simpl.
    destruct Ha as [-> | [-> ->]]; simpl; split; try done. intros i. by case_cmp. }
  unfold aom_img_add_metadata, aom_img_metadata_array_alloc.
  destruct (match metadata img with Some arr => Some arr | None => if ok 0%nat then Some [] else None end)
    as [arr |] eqn:Ea; [| intros [= <- <-]; by right].
  assert (metadata img = Some arr \/ (metadata img = None /\ arr = [])) as Harr.
  { destruct (metadata img) as [a |]; [left; congruence | right].
    destruct (ok 0%nat); [| done]. by injection Ea as <-. }
  destruct (Hsame arr Harr) as [Hn Hg].
  destruct (_ && _); [intros [= <- <-]; by right |].
  destruct (aom_img_metadata_alloc _ type data sz flag) as [md |] eqn:Em; [| intros [= <- <-]; by right].
  destruct (ok 3%nat); cbn [negb]; [| intros [= <- <-]; by right].
  intros [= <- <-]. left. split; [done |]. unfold aom_img_metadata_alloc in Em.
  destruct data as [bytes |]; [| done]. exists bytes. split; [done |].
  destruct (sz =? 0); [done |]. destruct (ok 1%nat); [| done]. destruct (ok 2%nat); [| done].
  simpl in Em. injection Em as <-. rewrite <- Hn. setoid_rewrite <- Hg.
  unfold aom_img_num_metadata, aom_img_get_metadata; simpl. rewrite length_app. simpl length.
  split_and!; [lia | |].
  - rewrite (proj2 (Z.ltb_lt _ _)) by lia. rewrite Nat2Z.id. by rewrite list_lookup_middle.
  - intros i Hi. rewrite !(proj2 (Z.ltb_lt _ _)) by lia. apply lookup_app_l. lia.
Qed.

Lemma img_add_metadata_all_or_nothing_witness :
  exists img', aom_img_add_metadata (fun _ => true) (Some demo_image) 4 (Some [1; 2; 3]) 3 2 = (0, img') /\
  ((0 = 0 /\ exists bytes, Some [1; 2; 3] = Some bytes /\
     aom_img_num_metadata img' = aom_img_num_metadata (Some demo_image) + 1 /\
     aom_img_get_metadata img' (aom_img_num_metadata (Some demo_image)) =
       Some {| md_type := 4; md_payload := take (Z.to_nat 3) bytes; md_insert_flag := 2 |} /\
     forall i, 0 <= i < aom_img_num_metadata (Some demo_image) ->
       aom_img_get_metadata img' i = aom_img_get_metadata (Some demo_image) i) \/
  (0 = -1 /\ aom_img_num_metadata img' = aom_img_num_metadata (Some demo_image) /\
     forall i, aom_img_get_metadata img' i = aom_img_get_metadata (Some demo_image) i)).
Proof.
  eexists. split; [vm_compute; reflexivity |].
  apply (img_add_metadata_all_or_nothing (fun _ => true) demo_image 4 (Some [1; 2; 3]) 3 2).
  vm_compute. reflexivity.
Defined.
