(* ===== verification/Leb128.v ===== *)
(** * LEB128 sizes ([aom/src/aom_integer.c])

    Every OBU carries its size as an unsigned LEB128 number.  A pointer
    argument is an [option] ([None] is [NULL]); [None] as the whole result is
    an access outside the buffer the caller passed (undefined behaviour). *)

From S2P Require Import Prelude.

Definition kMaximumLeb128Size : Z := 8.
Definition kLeb128ByteMask : Z := 127.
Definition kMaximumLeb128Value : Z := UINT32_MAX.

(** [do { ++size; } while ((value >>= 7) != 0)]; a 64-bit value is exhausted
    after ten shifts. *)
Fixpoint uleb_size_loop (fuel : nat) (value size : Z) : Z :=
  match fuel with
  | O => size
  | S fuel' =>
      let size := size + 1 in
      let value := Z.shiftr value 7 in
      if value =? 0 then size else uleb_size_loop fuel' value size
  end.

Definition aom_uleb_size_in_bytes (value : Z) : Z := uleb_size_loop 10 value 0.

(** One pass of the [for] loop of [aom_uleb_decode].  [Some None]: the loop ran
    out of bytes, with the value accumulated so far. *)
Fixpoint uleb_decode_loop (fuel : nat) (buffer : list Z) (available i value : Z)
  : option (Z * option Z) :=
  match fuel with
  | O => Some (value, None)
  | S fuel' =>
      if (i <? kMaximumLeb128Size) && (i <? available) then
        byte ← buffer !! Z.to_nat i;
        let decoded_byte := Z.land byte kLeb128ByteMask in
        let value := Z.lor value (u64 (Z.shiftl decoded_byte (i * 7))) in
        if Z.shiftr byte 7 =? 0 then Some (value, Some (i + 1))
        else uleb_decode_loop fuel' buffer available (i + 1) value
      else Some (value, None)
  end.

(** Result: the return value, [*value] and [*length] after the call. *)
Definition aom_uleb_decode (buffer : option (list Z)) (available : Z)
    (value length : option Z) : option (Z * option Z * option Z) :=
  match buffer, value with
  | Some buf, Some _ =>
      '(v, len) ← uleb_decode_loop 9 buf available 0 0;
      match len with
      | Some n =>
          let length := match length with Some _ => Some n | None => None end in
          if UINT32_MAX <? v then Some (-1, Some v, length)
          else Some (0, Some v, length)
      | None => Some (-1, Some v, length)
      end
  | _, _ => Some (-1, value, length)
  end.

Definition store (buf : list Z) (i v : Z) : option (list Z) :=
  if (0 <=? i) && (i <? Z.of_nat (length buf))
  then Some (<[Z.to_nat i := v]> buf) else None.

(** The byte loop of [aom_uleb_encode]: [n] bytes are left to write. *)
Fixpoint uleb_encode_loop (n : nat) (value i : Z) (out : list Z) : option (list Z) :=
  match n with
  | O => Some out
  | S n' =>
      let byte := u8 (Z.land value 127) in
      let value := Z.shiftr value 7 in
      let byte := if negb (value =? 0) then u8 (Z.lor byte 128) else byte in
      out ← store out i byte;
      uleb_encode_loop n' value (i + 1) out
  end.

Definition aom_uleb_encode (value available : Z) (coded_value : option (list Z))
    (coded_size : option Z) : option (Z * option (list Z) * option Z) :=
  let leb_size := aom_uleb_size_in_bytes value in
  match coded_value, coded_size with
  | Some out, Some _ =>
      if (kMaximumLeb128Value <? value) || (kMaximumLeb128Size <? leb_size)
         || (available <? leb_size) then Some (-1, coded_value, coded_size)
      else
        out' ← uleb_encode_loop (Z.to_nat leb_size) value 0 out;
        Some (0, Some out', Some leb_size)
  | _, _ => Some (-1, coded_value, coded_size)
  end.

(** The byte loop of [aom_uleb_encode_fixed_size]: every byte but the last
    carries the continuation bit. *)
Fixpoint uleb_encode_fixed_loop (n : nat) (pad_to_size value i : Z) (out : list Z)
  : option (list Z) :=
  match n with
  | O => Some out
  | S n' =>
      let byte := u8 (Z.land value 127) in
      let value := Z.shiftr value 7 in
      let byte := if i <? pad_to_size - 1 then u8 (Z.lor byte 128) else byte in
      out ← store out i byte;
      uleb_encode_fixed_loop n' pad_to_size value (i + 1) out
  end.

Definition aom_uleb_encode_fixed_size (value available pad_to_size : Z)
    (coded_value : option (list Z)) (coded_size : option Z)
  : option (Z * option (list Z) * option Z) :=
  match coded_value, coded_size with
  | Some out, Some _ =>
      if (kMaximumLeb128Value <? value) || (available <? pad_to_size)
         || (kMaximumLeb128Size <? pad_to_size)
      then Some (-1, coded_value, coded_size)
      else if u64 (Z.shiftl 1 (7 * pad_to_size)) <=? value
      then Some (-1, coded_value, coded_size)
      else
        out' ← uleb_encode_fixed_loop (Z.to_nat pad_to_size) pad_to_size value 0 out;
        Some (0, Some out', Some pad_to_size)
  | _, _ => Some (-1, coded_value, coded_size)
  end.

(** ** Reference: the number a group sequence denotes *)

(** [leb_prefix bs v rest]: [bs] starts with one complete LEB128 number of
    value [v] and [rest] follows it. *)
Inductive leb_prefix : list Z -> Z -> list Z -> Prop :=
| leb_last b rest : 0 <= b < 128 -> leb_prefix (b :: rest) b rest
| leb_more b bs v rest :
    128 <= b < 256 -> leb_prefix bs v rest ->
    leb_prefix (b :: bs) (b - 128 + 128 * v) rest.

(** The first [n] base-128 digits of [v], all but the last flagged. *)
Fixpoint leb_digits (n : nat) (v : Z) : list Z :=
  match n with
  | O => []
  | S O => [v mod 128]
  | S n' => (v mod 128 + 128) :: leb_digits n' (v / 128)
  end.

Lemma leb_digits_S n v :
  leb_digits (S (S n)) v = (v mod 128 + 128) :: leb_digits (S n) (v / 128).
Proof. reflexivity. Qed.

Lemma length_leb_digits n v : length (leb_digits n v) = n.
Proof.
  revert v. induction n as [|[|n] IH]; intros v; [done | done |].
  by rewrite leb_digits_S, length_cons, IH.
Qed.

Lemma leb_digits_prefix n v rest :
  0 <= v < 2 ^ (7 * (Z.of_nat n + 1)) ->
  leb_prefix (leb_digits (S n) v ++ rest) v rest.
Proof.
  revert v. induction n as [|n IH]; intros v Hv.
  - simpl app. change (2 ^ (7 * (Z.of_nat 0 + 1))) with 128 in Hv.
    rewrite Z.mod_small by lia. by constructor.
  - rewrite leb_digits_S, <- app_comm_cons.
    enough (leb_prefix (v mod 128 + 128 :: leb_digits (S n) (v / 128) ++ rest)
              (v mod 128 + 128 - 128 + 128 * (v / 128)) rest) as H
      by (replace (v mod 128 + 128 - 128 + 128 * (v / 128)) with v in H by dlia; done).
    constructor; [dlia |]. apply IH.
    replace (7 * (Z.of_nat (S n) + 1)) with (7 + 7 * (Z.of_nat n + 1)) in Hv by lia.
    rewrite pow2_split in Hv by lia. change (2 ^ 7) with 128 in Hv. dlia.
Qed.

Lemma leb_prefix_range bs v rest :
  leb_prefix bs v rest -> exists n, length bs = (n + length rest)%nat /\ (0 < n)%nat /\
  0 <= v < 2 ^ (7 * Z.of_nat n).
Proof.
  induction 1 as [b rest Hb | b bs v rest Hb _ (n & El & Hn & Hv)].
  - exists 1%nat. simpl. change (2 ^ (7 * 1)) with 128. lia.
  - exists (S n). rewrite length_cons.
    replace (7 * Z.of_nat (S n)) with (7 + 7 * Z.of_nat n) by lia.
    rewrite pow2_split by lia. change (2 ^ 7) with 128. lia.
Qed.

(** ** The decoder reads exactly the numbers of the reference *)

Lemma lor_digit value d i :
  0 <= i <= 7 -> 0 <= value < 2 ^ (7 * i) -> 0 <= d < 128 ->
  Z.lor value (u64 (Z.shiftl d (i * 7))) = value + d * 2 ^ (7 * i).
Proof.
  intros Hi Hv Hd. rewrite (Z.mul_comm i), u64_small.
  - by apply lor_shiftl_add; lia.
  - rewrite Z.shiftl_mul_pow2 by lia.
    assert (2 ^ (7 * i) <= 2 ^ 49) by (apply pow2_le; lia). nia.
Qed.

Lemma byte_mask b : 0 <= b < 256 ->
  Z.land b kLeb128ByteMask = b mod 128 /\ Z.shiftr b 7 = b / 128.
Proof.
  intros. split; [apply (Z.land_ones b 7); lia | apply Z.shiftr_div_pow2; lia].
Qed.

Lemma leb_step d v e : 0 <= e ->
  d * 2 ^ (7 * e) + v * 2 ^ (7 * (e + 1)) = (d + 128 * v) * 2 ^ (7 * e).
Proof.
  intros. replace (7 * (e + 1)) with (7 + 7 * e) by lia.
  rewrite pow2_split by lia. change (2 ^ 7) with 128. lia.
Qed.

Lemma uleb_decode_loop_ok pre bs v rest fuel available value n :
  leb_prefix bs v rest ->
  n = Z.of_nat (length bs) - Z.of_nat (length rest) ->
  Z.of_nat (length pre) + n <= kMaximumLeb128Size ->
  Z.of_nat (length pre) + n <= available ->
  n < Z.of_nat fuel ->
  0 <= value < 2 ^ (7 * Z.of_nat (length pre)) ->
  uleb_decode_loop fuel (pre ++ bs) available (Z.of_nat (length pre)) value =
    Some (value + v * 2 ^ (7 * Z.of_nat (length pre)), Some (Z.of_nat (length pre) + n)).
Proof.
  intros Hp. revert pre fuel value n.
  induction Hp as [b rest Hb | b bs v rest Hb Hp IH];
    intros pre fuel value n -> Hk Ha Hf Hv; simpl length in *.
  - destruct fuel as [|fuel]; [lia |]. simpl.
    rewrite !(proj2 (Z.ltb_lt _ _)) by (unfold kMaximumLeb128Size in *; lia).
    rewrite Nat2Z.id, list_lookup_middle by done. simpl.
    destruct (byte_mask b) as [-> ->]; [lia |].
    rewrite Z.mod_small, Z.div_small by lia. simpl.
    rewrite lor_digit by (unfold kMaximumLeb128Size in *; lia).
    repeat f_equal; lia.
  - destruct (leb_prefix_range _ _ _ Hp) as (m & Hm & Hm0 & _).
    destruct fuel as [|fuel]; [lia |]. simpl.
    rewrite !(proj2 (Z.ltb_lt _ _)) by (unfold kMaximumLeb128Size in *; lia).
    rewrite Nat2Z.id, list_lookup_middle by done. simpl.
    destruct (byte_mask b) as [-> ->]; [lia |].
    replace (b / 128) with 1 by dlia. replace (b mod 128) with (b - 128) by dlia. simpl.
    rewrite lor_digit by (unfold kMaximumLeb128Size in *; lia).
    replace (pre ++ b :: bs) with ((pre ++ [b]) ++ bs) by by rewrite <- app_assoc.
    replace (Z.of_nat (length pre) + 1) with (Z.of_nat (length (pre ++ [b])))
      by (rewrite length_app; simpl; lia).
    rewrite (IH (pre ++ [b]) fuel _ _ eq_refl); rewrite ?length_app; simpl length;
      try (unfold kMaximumLeb128Size in *; lia).
    + do 2 f_equal; [| f_equal; lia].
      rewrite Nat2Z.inj_add, <- leb_step by lia. change (Z.of_nat 1) with 1. lia.
    + rewrite Nat2Z.inj_add. change (Z.of_nat 1) with 1.
      replace (7 * (Z.of_nat (length pre) + 1)) with (7 + 7 * Z.of_nat (length pre)) by lia.
      rewrite pow2_split by lia. change (2 ^ 7) with 128. nia.
Qed.

(** A complete number of at most eight groups inside the available bytes. *)
Lemma aom_uleb_decode_prefix bs v rest n available value len :
  leb_prefix bs v rest ->
  n = Z.of_nat (length bs) - Z.of_nat (length rest) ->
  n <= kMaximumLeb128Size -> n <= available ->
  aom_uleb_decode (Some bs) available (Some value) (Some len) =
    Some (if UINT32_MAX <? v then -1 else 0, Some v, Some n).
Proof.
  intros Hp Hn Hk Ha. unfold aom_uleb_decode.
  change (uleb_decode_loop 9 bs available 0 0)
    with (uleb_decode_loop 9 ([] ++ bs) available (Z.of_nat (length (@nil Z))) 0).
  rewrite (uleb_decode_loop_ok [] bs v rest 9 available 0 n Hp Hn) by
    (simpl; unfold kMaximumLeb128Size in *; lia).
  change (2 ^ (7 * Z.of_nat (length (@nil Z)))) with 1.
  rewrite Z.mul_1_r, !Z.add_0_l. simpl. by destruct (UINT32_MAX <? v).
Qed.

(** ** The encoder writes the minimal groups *)

Lemma store_mid pre x b post i :
  i = Z.of_nat (length pre) -> store (pre ++ x :: post) i b = Some (pre ++ b :: post).
Proof.
  intros ->. unfold store. rewrite length_app, length_cons.
  rewrite (proj2 (Z.leb_le _ _)), (proj2 (Z.ltb_lt _ _)) by lia. simpl.
  rewrite Nat2Z.id. f_equal.
  rewrite insert_app_r_alt, Nat.sub_diag by lia. done.
Qed.

Lemma uleb_size_loop_spec fuel v size :
  (0 < fuel)%nat -> 0 <= v < 2 ^ (7 * Z.of_nat fuel) ->
  uleb_size_loop fuel v size = size + Z.log2 v / 7 + 1.
Proof.
  revert v size. induction fuel as [|fuel IH]; intros v size Hf Hv; [lia |].
  simpl. rewrite Z.shiftr_div_pow2 by lia. change (2 ^ 7) with 128.
  destruct (Z.eqb_spec (v / 128) 0) as [E | E].
  - assert (v < 128) by dlia. destruct (Z.eq_dec v 0) as [-> | Hv0]; [change (Z.log2 0 / 7) with 0; lia |].
    assert (Z.log2 v < 7) by (apply Z.log2_lt_pow2; lia).
    pose proof (Z.log2_nonneg v). rewrite (Z.div_small (Z.log2 v)) by lia. lia.
  - assert (128 <= v) by dlia. destruct fuel as [|fuel].
    + change (2 ^ (7 * Z.of_nat 1)) with 128 in Hv. lia.
    + rewrite IH; [| lia |].
      * change (v / 128) with (v / 2 ^ 7).
        rewrite <- Z.shiftr_div_pow2, Z.log2_shiftr by lia.
        assert (7 <= Z.log2 v) by (apply Z.log2_le_pow2; simpl; lia).
        rewrite Z.max_r by lia. dlia.
      * replace (7 * Z.of_nat (S (S fuel))) with (7 + 7 * Z.of_nat (S fuel)) in Hv by lia.
        rewrite pow2_split in Hv by lia. change (2 ^ 7) with 128 in Hv. dlia.
Qed.

Lemma aom_uleb_size_spec v :
  0 <= v < 2 ^ 64 -> aom_uleb_size_in_bytes v = Z.log2 v / 7 + 1.
Proof.
  intros. unfold aom_uleb_size_in_bytes. rewrite uleb_size_loop_spec; [lia | lia |].
  split; [lia |]. apply Z.lt_le_trans with (2 ^ 64); [lia |]. apply pow2_le. simpl. lia.
Qed.

(** The groups that [n = size] bytes hold: the value needs all of them. *)
Lemma aom_uleb_size_bounds v n :
  0 <= v < 2 ^ 64 -> Z.of_nat (S n) = aom_uleb_size_in_bytes v ->
  v < 2 ^ (7 * Z.of_nat (S n)) /\ (n <> 0%nat -> 2 ^ (7 * Z.of_nat n) <= v).
Proof.
  intros Hv Hn. rewrite aom_uleb_size_spec in Hn by done.
  destruct (Z.eq_dec v 0) as [-> | Hv0].
  { change (Z.log2 0 / 7) with 0 in Hn. split; [apply pow2_pos; lia | lia]. }
  pose proof (Z.log2_spec v). pose proof (Z.log2_nonneg v). split.
  - apply Z.lt_le_trans with (2 ^ Z.succ (Z.log2 v)); [lia |]. apply pow2_le. dlia.
  - intros _. apply Z.le_trans with (2 ^ Z.log2 v); [| lia]. apply pow2_le. dlia.
Qed.

Lemma low_group v : 0 <= v ->
  u8 (Z.land v 127) = v mod 128 /\ u8 (Z.lor (u8 (Z.land v 127)) 128) = v mod 128 + 128.
Proof.
  intros. change 127 with (Z.ones 7). rewrite Z.land_ones by lia.
  change (2 ^ 7) with 128. assert (0 <= v mod 128 < 128) by dlia.
  rewrite (u8_small (v mod 128)) by lia. split; [done |].
  change 128 with (Z.shiftl 1 7) at 2. rewrite lor_shiftl_add by lia.
  apply u8_small. simpl. lia.
Qed.

Lemma uleb_encode_loop_ok n v pre xs post i :
  i = Z.of_nat (length pre) -> length xs = S n ->
  0 <= v < 2 ^ (7 * Z.of_nat (S n)) -> (n <> 0%nat -> 2 ^ (7 * Z.of_nat n) <= v) ->
  uleb_encode_loop (S n) v i (pre ++ xs ++ post) = Some (pre ++ leb_digits (S n) v ++ post).
Proof.
  revert v pre xs i. induction n as [|n IH]; intros v pre xs i Hi Hx Hv Hmin;
    (destruct xs as [|x xs]; [done |]); simpl app.
  - destruct xs; [| done]. change (2 ^ (7 * Z.of_nat 1)) with 128 in Hv.
    cbn [uleb_encode_loop]. rewrite Z.shiftr_div_pow2, Z.div_small by (simpl; lia). simpl.
    destruct (low_group v) as [-> _]; [lia |]. by rewrite store_mid.
  - replace (7 * Z.of_nat (S (S n))) with (7 + 7 * Z.of_nat (S n)) in Hv by lia.
    rewrite pow2_split in Hv by lia. change (2 ^ 7) with 128 in Hv.
    specialize (Hmin ltac:(lia)).
    assert (128 * 2 ^ (7 * Z.of_nat n) <= v) as Hmin'.
    { replace (7 * Z.of_nat (S n)) with (7 + 7 * Z.of_nat n) in Hmin by lia.
      rewrite pow2_split in Hmin by lia. exact Hmin. }
    pose proof (pow2_pos (7 * Z.of_nat n) ltac:(lia)).
    change (uleb_encode_loop (S (S n)) v i (pre ++ x :: xs ++ post)) with
      (out ← store (pre ++ x :: xs ++ post) i
         (if negb (Z.shiftr v 7 =? 0) then u8 (Z.lor (u8 (Z.land v 127)) 128)
          else u8 (Z.land v 127));
       uleb_encode_loop (S n) (Z.shiftr v 7) (i + 1) out).
    destruct (low_group v) as [_ ->]; [lia |].
    rewrite Z.shiftr_div_pow2 by lia. change (2 ^ 7) with 128.
    destruct (Z.eqb_spec (v / 128) 0); [dlia |]. cbn [negb].
    rewrite store_mid by done. cbn [mbind option_bind].
    replace (pre ++ v mod 128 + 128 :: xs ++ post)
      with ((pre ++ [v mod 128 + 128]) ++ xs ++ post) by by rewrite <- app_assoc.
    rewrite IH.
    + by rewrite <- app_assoc.
    + rewrite length_app. simpl. lia.
    + by injection Hx.
    + dlia.
    + intros. dlia.
Qed.

Lemma uleb_encode_fixed_loop_ok n v pre xs post i pad :
  i = Z.of_nat (length pre) -> length xs = S n -> pad = i + Z.of_nat (S n) ->
  0 <= v < 2 ^ (7 * Z.of_nat (S n)) ->
  uleb_encode_fixed_loop (S n) pad v i (pre ++ xs ++ post) =
    Some (pre ++ leb_digits (S n) v ++ post).
Proof.
  revert v pre xs i. induction n as [|n IH]; intros v pre xs i Hi Hx Hp Hv;
    (destruct xs as [|x xs]; [done |]); simpl app.
  - destruct xs; [| done]. change (2 ^ (7 * Z.of_nat 1)) with 128 in Hv.
    cbn [uleb_encode_fixed_loop].
    destruct (Z.ltb_spec i (pad - 1)); [lia |].
    destruct (low_group v) as [-> _]; [lia |]. by rewrite store_mid.
  - replace (7 * Z.of_nat (S (S n))) with (7 + 7 * Z.of_nat (S n)) in Hv by lia.
    rewrite pow2_split in Hv by lia. change (2 ^ 7) with 128 in Hv.
    change (uleb_encode_fixed_loop (S (S n)) pad v i (pre ++ x :: xs ++ post)) with
      (out ← store (pre ++ x :: xs ++ post) i
         (if i <? pad - 1 then u8 (Z.lor (u8 (Z.land v 127)) 128)
          else u8 (Z.land v 127));
       uleb_encode_fixed_loop (S n) pad (Z.shiftr v 7) (i + 1) out).
    destruct (low_group v) as [_ ->]; [lia |].
    destruct (Z.ltb_spec i (pad - 1)); [| lia].
    rewrite store_mid by done. cbn [mbind option_bind].
    replace (pre ++ v mod 128 + 128 :: xs ++ post)
      with ((pre ++ [v mod 128 + 128]) ++ xs ++ post) by by rewrite <- app_assoc.
    rewrite Z.shiftr_div_pow2 by lia. change (2 ^ 7) with 128. rewrite IH.
    + by rewrite <- app_assoc.
    + rewrite length_app. simpl. lia.
    + by injection Hx.
    + lia.
    + dlia.
Qed.

Lemma leb_prefix_app bs v rest t :
  leb_prefix bs v rest -> leb_prefix (bs ++ t) v (rest ++ t).
Proof. induction 1; simpl; by constructor. Qed.

Lemma leb_prefix_or_flagged bs :
  Forall (fun b => 0 <= b < 256) bs ->
  (exists v rest, leb_prefix bs v rest) \/ Forall (fun b => 128 <= b < 256) bs.
Proof.
  induction 1 as [|b bs Hb _ [(v & rest & IH) | IH]]; [by right | |];
    (destruct (Z.lt_ge_cases b 128); [left; eexists _, _; apply leb_last; lia |]).
  - left. eexists _, _. apply leb_more; [lia | exact IH].
  - right. constructor; [lia | done].
Qed.

(** No terminated group among the bytes the loop may look at. *)
Lemma uleb_decode_loop_flagged fuel bs post pre available value :
  Forall (fun b => 128 <= b < 256) bs ->
  Z.of_nat (length pre) + Z.of_nat (length bs) = Z.min kMaximumLeb128Size available ->
  exists v, uleb_decode_loop fuel (pre ++ bs ++ post) available
              (Z.of_nat (length pre)) value = Some (v, None).
Proof.
  intros Hf. revert fuel pre value.
  induction Hf as [|b bs Hb Hf IH]; intros fuel pre value Hl;
    (destruct fuel as [|fuel]; [by eexists |]); cbn [uleb_decode_loop]; simpl length in Hl.
  - destruct (Z.ltb_spec (Z.of_nat (length pre)) kMaximumLeb128Size),
      (Z.ltb_spec (Z.of_nat (length pre)) available); cbn [andb]; eauto; lia.
  - rewrite !(proj2 (Z.ltb_lt _ _)) by lia. cbn [andb].
    rewrite Nat2Z.id. simpl app. rewrite list_lookup_middle by done. cbn [mbind option_bind].
    rewrite Z.shiftr_div_pow2 by lia. change (2 ^ 7) with 128.
    destruct (Z.eqb_spec (b / 128) 0); [dlia |].
    replace (pre ++ b :: bs ++ post) with ((pre ++ [b]) ++ bs ++ post)
      by by rewrite <- app_assoc.
    replace (Z.of_nat (length pre) + 1) with (Z.of_nat (length (pre ++ [b])))
      by (rewrite length_app; simpl; lia).
    apply IH. rewrite length_app. simpl. lia.
Qed.

Lemma uleb_encode_decodes v available out size0 :
  0 <= v <= UINT32_MAX ->
  aom_uleb_size_in_bytes v <= available <= Z.of_nat (length out) ->
  exists out' n,
    aom_uleb_encode v available (Some out) (Some size0) = Some (0, Some out', Some n) /\
    n = Z.log2 v / 7 + 1 /\ length out' = length out /\
    drop (Z.to_nat n) out' = drop (Z.to_nat n) out /\
    forall tail avail' v0 len0, n <= avail' ->
      aom_uleb_decode (Some (take (Z.to_nat n) out' ++ tail)) avail' (Some v0) (Some len0)
        = Some (0, Some v, Some n).
Proof.
  intros Hv Ha. unfold UINT32_MAX in Hv.
  pose proof (aom_uleb_size_spec v ltac:(lia)) as Es.
  pose proof (log2_bound v 32 ltac:(lia) ltac:(lia)).
  destruct (Z.to_nat (aom_uleb_size_in_bytes v)) as [|n] eqn:En; [dlia |].
  assert (Z.of_nat (S n) = aom_uleb_size_in_bytes v) as En' by dlia.
  destruct (aom_uleb_size_bounds v n ltac:(lia) En') as [Hlt Hmin].
  unfold aom_uleb_encode, kMaximumLeb128Value, kMaximumLeb128Size, UINT32_MAX.
  rewrite !(proj2 (Z.ltb_ge _ _)) by dlia. cbn [orb]. rewrite En.
  assert (length (take (S n) out) = S n) as Ht by (rewrite length_take; lia).
  pose proof (uleb_encode_loop_ok n v [] (take (S n) out) (drop (S n) out) 0
    eq_refl Ht ltac:(lia) Hmin) as E.
  rewrite take_drop, !app_nil_l in E. rewrite E. cbn [mbind option_bind].
  set (digits := leb_digits (S n) v).
  assert (length digits = S n) as Hd by apply length_leb_digits.
  eexists _, _. split; [done |]. split; [lia |].
  rewrite En, length_app, length_drop, Hd. split; [lia |].
  rewrite drop_app_length', take_app_length' by done. split; [done |].
  intros tail avail' v0 len0 Hav.
  rewrite (aom_uleb_decode_prefix _ v tail (aom_uleb_size_in_bytes v)).
  - by rewrite (proj2 (Z.ltb_ge _ _)) by (unfold UINT32_MAX; lia).
  - apply leb_digits_prefix. replace (Z.of_nat n + 1) with (Z.of_nat (S n)) by lia. lia.
  - rewrite length_app, Hd. lia.
  - unfold kMaximumLeb128Size. dlia.
  - lia.
Qed.

(** Encoding a 32-bit size into a large enough buffer succeeds, writes the
    minimal number of groups, leaves the rest of the buffer alone, and decoding
    those groups, whatever bytes follow them, gives the size back and the number
    of bytes consumed. *)
Theorem uleb_roundtrip v available out size0 :
  0 <= v <= UINT32_MAX ->
  aom_uleb_size_in_bytes v <= available <= Z.of_nat (length out) ->
  exists out' n,
    aom_uleb_encode v available (Some out) (Some size0) = Some (0, Some out', Some n) /\
    n = Z.log2 v / 7 + 1 /\ length out' = length out /\
    drop (Z.to_nat n) out' = drop (Z.to_nat n) out /\
    forall tail avail' v0 len0, n <= avail' ->
      aom_uleb_decode (Some (take (Z.to_nat n) out' ++ tail)) avail' (Some v0) (Some len0)
        = Some (0, Some v, Some n).
Proof. apply uleb_encode_decodes. Qed.

Lemma uleb_roundtrip_witness :
  exists out' n,
    aom_uleb_encode 624485 4 (Some [0; 0; 0; 7]) (Some 0) = Some (0, Some out', Some n) /\
    n = Z.log2 624485 / 7 + 1 /\ length out' = 4%nat /\
    drop (Z.to_nat n) out' = drop (Z.to_nat n) [0; 0; 0; 7] /\
    forall tail avail' v0 len0, n <= avail' ->
      aom_uleb_decode (Some (take (Z.to_nat n) out' ++ tail)) avail' (Some v0) (Some len0)
        = Some (0, Some 624485, Some n).
Proof.
  apply (uleb_roundtrip 624485 4 [0; 0; 0; 7] 0); vm_compute; split; discriminate.
Defined.

(** The padded encoder used to reserve a size field of a fixed width
    succeeds for every size that fits the width, fills exactly that many bytes,
    and the decoder reads the same size back from them. *)
Theorem uleb_fixed_roundtrip v pad out size0 :
  0 <= v <= UINT32_MAX -> 1 <= pad <= kMaximumLeb128Size -> v < 2 ^ (7 * pad) ->
  pad <= Z.of_nat (length out) ->
  exists out',
    aom_uleb_encode_fixed_size v (Z.of_nat (length out)) pad (Some out) (Some size0)
      = Some (0, Some out', Some pad) /\
    length out' = length out /\ drop (Z.to_nat pad) out' = drop (Z.to_nat pad) out /\
    forall tail avail' v0 len0, pad <= avail' ->
      aom_uleb_decode (Some (take (Z.to_nat pad) out' ++ tail)) avail' (Some v0) (Some len0)
        = Some (0, Some v, Some pad).
Proof.
  intros Hv Hp Hvp Hl. unfold UINT32_MAX, kMaximumLeb128Size in *.
  destruct (Z.to_nat pad) as [|n] eqn:En; [lia |].
  unfold aom_uleb_encode_fixed_size, kMaximumLeb128Value, UINT32_MAX, kMaximumLeb128Size.
  rewrite !(proj2 (Z.ltb_ge _ _)) by lia. cbn [orb].
  assert (2 ^ (7 * pad) <= 2 ^ 56) by (apply pow2_le; lia).
  rewrite u64_small by (rewrite Z.shiftl_mul_pow2 by lia; lia).
  rewrite (proj2 (Z.leb_gt _ _)) by (rewrite Z.shiftl_mul_pow2 by lia; lia). rewrite En.
  assert (length (take (S n) out) = S n) as Ht by (rewrite length_take; lia).
  assert (pad = Z.of_nat (S n)) as Ep by lia.
  pose proof (uleb_encode_fixed_loop_ok n v [] (take (S n) out) (drop (S n) out) 0 pad
    eq_refl Ht ltac:(lia) ltac:(rewrite <- Ep; lia)) as E.
  rewrite take_drop, !app_nil_l in E. rewrite E. cbn [mbind option_bind].
  set (digits := leb_digits (S n) v).
  assert (length digits = S n) as Hd by apply length_leb_digits.
  eexists. split; [done |]. rewrite length_app, length_drop, Hd. split; [lia |].
  rewrite drop_app_length', take_app_length' by done. split; [done |].
  intros tail avail' v0 len0 Hav. rewrite (aom_uleb_decode_prefix _ v tail pad).
  - by rewrite (proj2 (Z.ltb_ge _ _)) by (unfold UINT32_MAX; lia).
  - apply leb_digits_prefix. replace (Z.of_nat n + 1) with pad by lia. lia.
  - rewrite length_app, Hd. lia.
  - unfold kMaximumLeb128Size. lia.
  - lia.
Qed.

Lemma uleb_fixed_roundtrip_witness :
  exists out',
    aom_uleb_encode_fixed_size 300 (Z.of_nat (length [9; 9; 9; 9; 9])) 4
      (Some [9; 9; 9; 9; 9]) (Some 0) = Some (0, Some out', Some 4) /\
    length out' = length [9; 9; 9; 9; 9] /\
    drop (Z.to_nat 4) out' = drop (Z.to_nat 4) [9; 9; 9; 9; 9] /\
    forall tail avail' v0 len0, 4 <= avail' ->
      aom_uleb_decode (Some (take (Z.to_nat 4) out' ++ tail)) avail' (Some v0) (Some len0)
        = Some (0, Some 300, Some 4).
Proof.
  apply (uleb_fixed_roundtrip 300 4 [9; 9; 9; 9; 9] 0); vm_compute; try split; discriminate || done.
Defined.

Lemma uleb_decode_cases buf available v0 len0 :
  Forall (fun b => 0 <= b < 256) buf -> 0 <= available <= Z.of_nat (length buf) ->
  let window := take (Z.to_nat (Z.min kMaximumLeb128Size available)) buf in
  (exists v rest, leb_prefix window v rest /\
     aom_uleb_decode (Some buf) available (Some v0) (Some len0) =
       Some (if UINT32_MAX <? v then -1 else 0, Some v,
             Some (Z.of_nat (length window) - Z.of_nat (length rest)))) \/
  (Forall (fun b => 128 <= b < 256) window /\
   exists v, aom_uleb_decode (Some buf) available (Some v0) (Some len0) =
       Some (-1, Some v, Some len0)).
Proof.
  intros Hb Ha window.
  assert (Z.of_nat (length window) = Z.min kMaximumLeb128Size available) as Hw
    by (unfold window; rewrite length_take; unfold kMaximumLeb128Size in *; lia).
  rewrite <- (take_drop (Z.to_nat (Z.min kMaximumLeb128Size available)) buf).
  fold window. set (post := drop _ buf).
  destruct (leb_prefix_or_flagged window) as [(v & rest & Hp) | Hf].
  - by apply Forall_take.
  - left. exists v, rest. split; [done |].
    apply (aom_uleb_decode_prefix _ v (rest ++ post)).
    + by apply leb_prefix_app.
    + rewrite !length_app. lia.
    + lia.
    + lia.
  - right. split; [done |]. unfold aom_uleb_decode.
    destruct (uleb_decode_loop_flagged 9 window post [] available 0 Hf) as [v E].
    + simpl. lia.
    + change (uleb_decode_loop 9 (window ++ post) available 0 0 = Some (v, None)) in E.
      rewrite E. by eexists.
Qed.

(** the decoder on any bytes, hostile or truncated, stays inside the bytes
    it was given and is exact: it succeeds precisely when the first eight (or
    fewer, if fewer are available) hold a terminated number that fits 32 bits,
    and then reports that number and its length; otherwise it returns -1. *)
Theorem uleb_decode_exact buf available v0 len0 :
  Forall (fun b => 0 <= b < 256) buf -> 0 <= available <= Z.of_nat (length buf) ->
  let window := take (Z.to_nat (Z.min kMaximumLeb128Size available)) buf in
  (exists v rest, leb_prefix window v rest /\
     aom_uleb_decode (Some buf) available (Some v0) (Some len0) =
       Some (if UINT32_MAX <? v then -1 else 0, Some v,
             Some (Z.of_nat (length window) - Z.of_nat (length rest)))) \/
  (Forall (fun b => 128 <= b < 256) window /\
   exists v, aom_uleb_decode (Some buf) available (Some v0) (Some len0) =
       Some (-1, Some v, Some len0)).
Proof. apply uleb_decode_cases. Qed.

Lemma uleb_decode_exact_witness :
  let window := take (Z.to_nat (Z.min kMaximumLeb128Size 2)) [229; 142; 38] in
  (exists v rest, leb_prefix window v rest /\
     aom_uleb_decode (Some [229; 142; 38]) 2 (Some 0) (Some 0) =
       Some (if UINT32_MAX <? v then -1 else 0, Some v,
             Some (Z.of_nat (length window) - Z.of_nat (length rest)))) \/
  (Forall (fun b => 128 <= b < 256) window /\
   exists v, aom_uleb_decode (Some [229; 142; 38]) 2 (Some 0) (Some 0) =
       Some (-1, Some v, Some 0)).
Proof.
  apply (uleb_decode_exact [229; 142; 38] 2 0 0).
  - repeat constructor; discriminate || done.
  - vm_compute; split; discriminate.
Defined.
