(* ===== verification/CodecTypes.v ===== *)
(** * Return codes and the reader monad

    The error codes every libaom entry point returns ([aom/aom_codec.h]) and the
    monad the bitstream parsers are written in: a parser reads from a source and
    either returns, or leaves through [aom_internal_error], whose [longjmp]
    carries an error code to the decoder's entry point. *)

From S2P Require Import Prelude.

Inductive aom_codec_err_t :=
| AOM_CODEC_OK | AOM_CODEC_ERROR | AOM_CODEC_MEM_ERROR | AOM_CODEC_ABI_MISMATCH
| AOM_CODEC_INCAPABLE | AOM_CODEC_UNSUP_BITSTREAM | AOM_CODEC_UNSUP_FEATURE
| AOM_CODEC_CORRUPT_FRAME | AOM_CODEC_INVALID_PARAM | AOM_CODEC_LIST_END.

#[export] Instance aom_codec_err_t_eq_dec : EqDecision aom_codec_err_t.
Proof. solve_decision. Defined.

(** [if (status != AOM_CODEC_OK)] *)
Definition is_ok (e : aom_codec_err_t) : bool :=
  match e with AOM_CODEC_OK => true | _ => false end.

(** [Ok]: the call returns; [Raise]: the error path ([setjmp]/[longjmp]) is
    taken; [Fault]: memory outside an object is accessed. *)
Inductive result (A : Type) :=
| Ok (a : A)
| Raise (e : aom_codec_err_t)
| Fault.
Arguments Ok {A} a.
Arguments Raise {A} e.
Arguments Fault {A}.

Definition reader (R A : Type) : Type := R -> result (A * R).

#[export] Instance reader_ret R : MRet (reader R) := fun A a r => Ok (a, r).
#[export] Instance reader_bind R : MBind (reader R) := fun A B k m r =>
  match m r with
  | Ok (a, r') => k a r'
  | Raise e => Raise e
  | Fault => Fault
  end.

Definition fault {R A} : reader R A := fun _ => Fault.

(** [aom_internal_error(error, e, ...)] *)
Definition raise {R A} (e : aom_codec_err_t) : reader R A := fun _ => Raise e.

Lemma reader_bind_ok {R A B} (m : reader R A) (k : A -> reader R B) r a r' :
  m r = Ok (a, r') -> (m ≫= k) r = k a r'.
Proof. intros E. unfold mbind, reader_bind. by rewrite E. Qed.

Lemma reader_bind_raise {R A B} (m : reader R A) (k : A -> reader R B) r e :
  m r = Raise e -> (m ≫= k) r = Raise e.
Proof. intros E. unfold mbind, reader_bind. by rewrite E. Qed.

(** A successful sequence ran both halves. *)
Lemma reader_bind_inv {R A B} (m : reader R A) (k : A -> reader R B) r b r'' :
  (m ≫= k) r = Ok (b, r'') -> exists a r', m r = Ok (a, r') /\ k a r' = Ok (b, r'').
Proof.
  unfold mbind, reader_bind. destruct (m r) as [[a r'] | e |] eqn:E; [eauto | done | done].
Qed.
