(* ===== verification/Codec.v ===== *)
(** * The codec API

    [aom/src/aom_codec.c], [aom/src/aom_decoder.c] and [aom/src/aom_encoder.c]: the
    functions an application calls, which check their arguments, dispatch through
    the algorithm's table of functions and keep the last status in the context.  The
    algorithm behind the table is an argument: every statement holds for any
    [aom_codec_iface].  A [NULL] pointer is [None]. *)

From stdpp Require Import strings.
From S2P Require Import Prelude CodecTypes Image.

Definition AOM_CODEC_CAP_DECODER : Z := 1.
Definition AOM_CODEC_CAP_ENCODER : Z := 2.
Definition AOM_CODEC_CAP_PSNR : Z := 65536.
Definition AOM_CODEC_CAP_HIGHBITDEPTH : Z := 262144.
Definition AOM_CODEC_CAP_EXTERNAL_FRAME_BUFFER : Z := 2097152.
Definition AOM_CODEC_USE_PSNR : Z := 65536.
Definition AOM_CODEC_USE_HIGHBITDEPTH : Z := 262144.
Definition AOM_CODEC_INTERNAL_ABI_VERSION : Z := 7.
Definition AOM_DECODER_ABI_VERSION : Z := 22.
Definition AOM_ENCODER_ABI_VERSION : Z := 29.

(** ** Data *)

Inductive aom_codec_cx_pkt_kind :=
| AOM_CODEC_CX_FRAME_PKT | AOM_CODEC_STATS_PKT | AOM_CODEC_FPMB_STATS_PKT
| AOM_CODEC_PSNR_PKT | AOM_CODEC_CUSTOM_PKT.

(** [raw_buf] is the address of the [raw_bytes]. *)
Record aom_codec_cx_pkt := {
  pkt_kind : aom_codec_cx_pkt_kind;
  raw_buf : Z;
  raw_bytes : list Z;
  frame_flags : Z }.

(** The fields of [aom_codec_enc_cfg_t] the code below reads or writes; the others
    travel unchanged in [cfg_other]. *)
Record aom_codec_enc_cfg := {
  g_usage : Z; g_threads : Z; g_w : Z; g_h : Z; g_bit_depth : Z;
  g_timebase_num : Z; g_timebase_den : Z; g_error_resilient : Z; g_pass : Z;
  g_lag_in_frames : Z; rc_dropframe_thresh : Z; rc_end_usage : Z; rc_target_bitrate : Z;
  rc_min_quantizer : Z; rc_max_quantizer : Z; rc_undershoot_pct : Z; rc_overshoot_pct : Z;
  rc_buf_sz : Z; rc_buf_initial_sz : Z; rc_buf_optimal_sz : Z; kf_mode : Z;
  super_block_size : Z; max_partition_size : Z; min_partition_size : Z;
  disable_trellis_quant : Z; encoder_cfg_other : list Z;
  cfg_other : list Z }.

Record aom_codec_dec_cfg := { dec_threads : Z; dec_w : Z; dec_h : Z; allow_lowbitdepth : Z }.

Inductive codec_config :=
| CfgDec (cfg : option aom_codec_dec_cfg)
| CfgEnc (cfg : aom_codec_enc_cfg).

Record aom_codec_stream_info := { si_w : Z; si_h : Z; si_other : list Z }.

Definition aom_codec_iter : Type := option Z.

Section Codec.
(** The algorithm's own state. *)
Context {A : Type}.

(** [cx_data_dst_buf]: the application's area, its address and the bytes in it. *)
Record aom_codec_priv := {
  priv_err_detail : option string;
  cx_data_dst_buf : option (Z * list Z);
  cx_data_pad_before : Z;
  cx_data_pad_after : Z;
  alg_priv : A }.

Definition set_priv_detail (p : aom_codec_priv) (d : option string) : aom_codec_priv :=
  {| priv_err_detail := d; cx_data_dst_buf := cx_data_dst_buf p;
     cx_data_pad_before := cx_data_pad_before p; cx_data_pad_after := cx_data_pad_after p;
     alg_priv := alg_priv p |}.

Definition set_dst_buf (p : aom_codec_priv) (d : option (Z * list Z)) (pb pa : Z) : aom_codec_priv :=
  {| priv_err_detail := priv_err_detail p; cx_data_dst_buf := d;
     cx_data_pad_before := pb; cx_data_pad_after := pa; alg_priv := alg_priv p |}.

Record aom_codec_iface := {
  if_name : string;
  abi_version : Z;
  caps : Z;
  if_init : Z -> codec_config -> aom_codec_err_t * option aom_codec_priv;
  ctrl_maps : option (list (Z * (aom_codec_priv -> Z -> aom_codec_err_t * aom_codec_priv)));
  dec_peek_si : list Z -> aom_codec_stream_info -> aom_codec_err_t * aom_codec_stream_info;
  dec_get_si : aom_codec_priv -> aom_codec_stream_info ->
    aom_codec_err_t * aom_codec_stream_info * aom_codec_priv;
  dec_decode : aom_codec_priv -> option (list Z) -> Z -> aom_codec_err_t * aom_codec_priv;
  dec_get_frame : aom_codec_priv -> aom_codec_iter ->
    option aom_image * aom_codec_iter * aom_codec_priv;
  dec_set_fb_fn : aom_codec_priv -> Z -> Z -> aom_codec_err_t * aom_codec_priv;
  enc_cfgs : list aom_codec_enc_cfg;
  enc_encode : aom_codec_priv -> option aom_image -> Z -> Z -> Z -> aom_codec_err_t * aom_codec_priv;
  enc_get_cx_data : aom_codec_priv -> aom_codec_iter ->
    option aom_codec_cx_pkt * aom_codec_iter * aom_codec_priv;
  enc_cfg_set : aom_codec_priv -> aom_codec_enc_cfg -> aom_codec_err_t * aom_codec_priv;
  enc_get_glob_hdrs : option (aom_codec_priv -> option (list Z) * aom_codec_priv);
  enc_get_preview : option (aom_codec_priv -> option aom_image * aom_codec_priv);
  if_set_option : option (aom_codec_priv -> string -> string -> aom_codec_err_t * aom_codec_priv) }.

Record aom_codec_ctx := {
  ctx_name : option string;
  ctx_iface : option aom_codec_iface;
  ctx_err : aom_codec_err_t;
  ctx_err_detail : option string;
  init_flags : Z;
  ctx_config : option codec_config;
  ctx_priv : option aom_codec_priv }.

Definition zero_ctx : aom_codec_ctx :=
  {| ctx_name := None; ctx_iface := None; ctx_err := AOM_CODEC_OK; ctx_err_detail := None;
     init_flags := 0; ctx_config := None; ctx_priv := None |}.

Definition set_err (ctx : aom_codec_ctx) (e : aom_codec_err_t) : aom_codec_ctx :=
  {| ctx_name := ctx_name ctx; ctx_iface := ctx_iface ctx; ctx_err := e;
     ctx_err_detail := ctx_err_detail ctx; init_flags := init_flags ctx;
     ctx_config := ctx_config ctx; ctx_priv := ctx_priv ctx |}.

Definition set_detail (ctx : aom_codec_ctx) (d : option string) : aom_codec_ctx :=
  {| ctx_name := ctx_name ctx; ctx_iface := ctx_iface ctx; ctx_err := ctx_err ctx;
     ctx_err_detail := d; init_flags := init_flags ctx;
     ctx_config := ctx_config ctx; ctx_priv := ctx_priv ctx |}.

Definition set_priv (ctx : aom_codec_ctx) (p : option aom_codec_priv) : aom_codec_ctx :=
  {| ctx_name := ctx_name ctx; ctx_iface := ctx_iface ctx; ctx_err := ctx_err ctx;
     ctx_err_detail := ctx_err_detail ctx; init_flags := init_flags ctx;
     ctx_config := ctx_config ctx; ctx_priv := p |}.

(** ** aom_codec.c *)

Definition aom_codec_iface_name (iface : option aom_codec_iface) : string :=
  match iface with Some i => if_name i | None => "<invalid interface>" end.

Definition aom_codec_err_to_string (err : aom_codec_err_t) : string :=
  match err with
  | AOM_CODEC_OK => "Success"
  | AOM_CODEC_ERROR => "Unspecified internal error"
  | AOM_CODEC_MEM_ERROR => "Memory allocation error"
  | AOM_CODEC_ABI_MISMATCH => "ABI version mismatch"
  | AOM_CODEC_INCAPABLE => "Codec does not implement requested capability"
  | AOM_CODEC_UNSUP_BITSTREAM => "Bitstream not supported by this decoder"
  | AOM_CODEC_UNSUP_FEATURE => "Bitstream required feature not supported by this decoder"
  | AOM_CODEC_CORRUPT_FRAME => "Corrupt frame detected"
  | AOM_CODEC_INVALID_PARAM => "Invalid parameter"
  | AOM_CODEC_LIST_END => "End of iterated list"
  end.

Definition aom_codec_error (ctx : option aom_codec_ctx) : string :=
  match ctx with
  | Some c => aom_codec_err_to_string (ctx_err c)
  | None => aom_codec_err_to_string AOM_CODEC_INVALID_PARAM
  end.

Definition aom_codec_error_detail (ctx : option aom_codec_ctx) : option string :=
  match ctx with
  | Some c => if is_ok (ctx_err c) then None
              else match ctx_priv c with Some p => priv_err_detail p | None => ctx_err_detail c end
  | None => None
  end.

Definition aom_codec_destroy (ctx : option aom_codec_ctx) : aom_codec_err_t * option aom_codec_ctx :=
  match ctx with
  | None => (AOM_CODEC_INVALID_PARAM, None)
  | Some c =>
      match ctx_iface c, ctx_priv c with
      | Some _, Some _ =>
          (AOM_CODEC_OK,
           Some {| ctx_name := None; ctx_iface := None; ctx_err := AOM_CODEC_OK;
                   ctx_err_detail := ctx_err_detail c; init_flags := init_flags c;
                   ctx_config := ctx_config c; ctx_priv := None |})
      | _, _ => (AOM_CODEC_ERROR, Some (set_err c AOM_CODEC_ERROR))
      end
  end.

Definition aom_codec_get_caps (iface : option aom_codec_iface) : Z :=
  match iface with Some i => caps i | None => 0 end.

(** The search of [aom_codec_control]: the first entry with the control's id. *)
Fixpoint find_ctrl (maps : list (Z * (aom_codec_priv -> Z -> aom_codec_err_t * aom_codec_priv)))
    (ctrl_id : Z) : option (aom_codec_priv -> Z -> aom_codec_err_t * aom_codec_priv) :=
  match maps with
  | [] => None
  | (id, fn) :: maps' => if id =? ctrl_id then Some fn else find_ctrl maps' ctrl_id
  end.

(** [arg] is the variadic argument. *)
Definition aom_codec_control (ctx : option aom_codec_ctx) (ctrl_id arg : Z)
  : aom_codec_err_t * option aom_codec_ctx :=
  match ctx with
  | None => (AOM_CODEC_INVALID_PARAM, None)
  | Some c =>
      if ctrl_id =? 0 then (AOM_CODEC_INVALID_PARAM, Some (set_err c AOM_CODEC_INVALID_PARAM))
      else
        match ctx_iface c, ctx_priv c with
        | Some i, Some p =>
            match ctrl_maps i with
            | None => (AOM_CODEC_ERROR, Some (set_err c AOM_CODEC_ERROR))
            | Some maps =>
                match find_ctrl maps ctrl_id with
                | Some fn => let '(e, p) := fn p arg in
                             (e, Some (set_err (set_priv c (Some p)) e))
                | None => (AOM_CODEC_ERROR,
                           Some (set_err (set_priv c (Some (set_priv_detail p (Some "Invalid control ID"))))
                                   AOM_CODEC_ERROR))
                end
            end
        | _, _ => (AOM_CODEC_ERROR, Some (set_err c AOM_CODEC_ERROR))
        end
  end.

Definition aom_codec_set_option (ctx : option aom_codec_ctx) (name value : string)
  : aom_codec_err_t * option aom_codec_ctx :=
  match ctx with
  | None => (AOM_CODEC_INVALID_PARAM, None)
  | Some c =>
      match ctx_iface c, ctx_priv c with
      | Some i, Some p =>
          match if_set_option i with
          | Some fn => let '(e, p) := fn p name value in (e, Some (set_err (set_priv c (Some p)) e))
          | None => (AOM_CODEC_ERROR, Some (set_err c AOM_CODEC_ERROR))
          end
      | _, _ => (AOM_CODEC_ERROR, Some (set_err c AOM_CODEC_ERROR))
      end
  end.

(** [SAVE_STATUS(ctx, res)] *)
Definition save_status (ctx : option aom_codec_ctx) (res : aom_codec_err_t)
  : aom_codec_err_t * option aom_codec_ctx :=
  (res, match ctx with Some c => Some (set_err c res) | None => None end).

(** [res = ctx->iface->init(ctx); if (res) { ... aom_codec_destroy(ctx); }] *)
Definition init_ctx (c : aom_codec_ctx) (i : aom_codec_iface) (flags : Z) (cfg : codec_config)
  : aom_codec_err_t * aom_codec_ctx :=
  let '(res, p) := if_init i flags cfg in
  let c := {| ctx_name := Some (if_name i); ctx_iface := Some i; ctx_err := ctx_err c;
              ctx_err_detail := ctx_err_detail c; init_flags := flags;
              ctx_config := Some cfg; ctx_priv := p |} in
  if is_ok res then (res, c)
  else
    let c := set_detail c (match p with Some p => priv_err_detail p | None => None end) in
    (res, match aom_codec_destroy (Some c) with (_, Some c) => c | (_, None) => c end).

(** ** aom_decoder.c *)

Definition aom_codec_dec_init_ver (ctx : option aom_codec_ctx) (iface : option aom_codec_iface)
    (cfg : option aom_codec_dec_cfg) (flags ver : Z) : aom_codec_err_t * option aom_codec_ctx :=
  if negb (ver =? AOM_DECODER_ABI_VERSION) then save_status ctx AOM_CODEC_ABI_MISMATCH
  else
    match ctx, iface with
    | Some _, Some i =>
        if negb (abi_version i =? AOM_CODEC_INTERNAL_ABI_VERSION)
        then save_status ctx AOM_CODEC_ABI_MISMATCH
        else if negb (has_flag (caps i) AOM_CODEC_CAP_DECODER)
        then save_status ctx AOM_CODEC_INCAPABLE
        else
          let '(res, c) := init_ctx zero_ctx i flags (CfgDec cfg) in
          save_status (Some c) res
    | _, _ => save_status ctx AOM_CODEC_INVALID_PARAM
    end.

Definition aom_codec_peek_stream_info (iface : option aom_codec_iface) (data : option (list Z))
    (data_sz : Z) (si : option aom_codec_stream_info)
  : aom_codec_err_t * option aom_codec_stream_info :=
  match iface, data, si with
  | Some i, Some d, Some s =>
      if data_sz =? 0 then (AOM_CODEC_INVALID_PARAM, si)
      else
        let '(res, s) := dec_peek_si i (take (Z.to_nat data_sz) d)
                           {| si_w := 0; si_h := 0; si_other := si_other s |} in
        (res, Some s)
  | _, _, _ => (AOM_CODEC_INVALID_PARAM, si)
  end.

Definition aom_codec_get_stream_info (ctx : option aom_codec_ctx) (si : option aom_codec_stream_info)
  : aom_codec_err_t * option aom_codec_ctx * option aom_codec_stream_info :=
  match ctx, si with
  | Some c, Some s =>
      match ctx_iface c, ctx_priv c with
      | Some i, Some p =>
          let '(res, s, p) := dec_get_si i p {| si_w := 0; si_h := 0; si_other := si_other s |} in
          (save_status (Some (set_priv c (Some p))) res, Some s)
      | _, _ => (save_status ctx AOM_CODEC_ERROR, si)
      end
  | _, _ => (save_status ctx AOM_CODEC_INVALID_PARAM, si)
  end.

Definition aom_codec_decode (ctx : option aom_codec_ctx) (data : option (list Z)) (data_sz : Z)
  : aom_codec_err_t * option aom_codec_ctx :=
  match ctx with
  | None => save_status ctx AOM_CODEC_INVALID_PARAM
  | Some c =>
      match ctx_iface c, ctx_priv c with
      | Some i, Some p =>
          let '(res, p) := dec_decode i p data data_sz in
          save_status (Some (set_priv c (Some p))) res
      | _, _ => save_status ctx AOM_CODEC_ERROR
      end
  end.

(** [iter = None] is a null [iter] argument. *)
Definition aom_codec_get_frame (ctx : option aom_codec_ctx) (iter : option aom_codec_iter)
  : option aom_image * option aom_codec_ctx * option aom_codec_iter :=
  match ctx, iter with
  | Some c, Some it =>
      match ctx_iface c, ctx_priv c with
      | Some i, Some p =>
          let '(img, it, p) := dec_get_frame i p it in
          (img, Some (set_priv c (Some p)), Some it)
      | _, _ => (None, ctx, iter)
      end
  | _, _ => (None, ctx, iter)
  end.

(** Null callbacks are 0. *)
Definition aom_codec_set_frame_buffer_functions (ctx : option aom_codec_ctx) (cb_get cb_release : Z)
  : aom_codec_err_t * option aom_codec_ctx :=
  match ctx with
  | None => save_status ctx AOM_CODEC_INVALID_PARAM
  | Some c =>
      if (cb_get =? 0) || (cb_release =? 0) then save_status ctx AOM_CODEC_INVALID_PARAM
      else
        match ctx_iface c, ctx_priv c with
        | Some i, Some p =>
            if negb (has_flag (caps i) AOM_CODEC_CAP_EXTERNAL_FRAME_BUFFER)
            then save_status ctx AOM_CODEC_INCAPABLE
            else
              let '(res, p) := dec_set_fb_fn i p cb_get cb_release in
              save_status (Some (set_priv c (Some p))) res
        | _, _ => save_status ctx AOM_CODEC_ERROR
        end
  end.

(** ** aom_encoder.c *)

Definition aom_codec_enc_init_ver (ctx : option aom_codec_ctx) (iface : option aom_codec_iface)
    (cfg : option aom_codec_enc_cfg) (flags ver : Z) : aom_codec_err_t * option aom_codec_ctx :=
  if negb (ver =? AOM_ENCODER_ABI_VERSION) && negb (ver =? 25)
  then save_status ctx AOM_CODEC_ABI_MISMATCH
  else
    match ctx, iface, cfg with
    | Some c, Some i, Some cf =>
        if negb (abi_version i =? AOM_CODEC_INTERNAL_ABI_VERSION)
        then save_status ctx AOM_CODEC_ABI_MISMATCH
        else if negb (has_flag (caps i) AOM_CODEC_CAP_ENCODER)
        then save_status ctx AOM_CODEC_INCAPABLE
        else if has_flag flags AOM_CODEC_USE_PSNR && negb (has_flag (caps i) AOM_CODEC_CAP_PSNR)
        then save_status ctx AOM_CODEC_INCAPABLE
        else if has_flag flags AOM_CODEC_USE_HIGHBITDEPTH &&
                negb (has_flag (caps i) AOM_CODEC_CAP_HIGHBITDEPTH)
        then save_status ctx AOM_CODEC_INCAPABLE
        else if (8 <? g_bit_depth cf) && negb (has_flag flags AOM_CODEC_USE_HIGHBITDEPTH)
        then save_status
               (Some (set_detail c (Some "High bit-depth used without the AOM_CODEC_USE_HIGHBITDEPTH flag.")))
               AOM_CODEC_INVALID_PARAM
        else
          let '(res, c) := init_ctx c i flags (CfgEnc cf) in
          save_status (Some c) res
    | _, _, _ => save_status ctx AOM_CODEC_INVALID_PARAM
    end.

(** [*cfg = iface->enc.cfgs[i]] with the [encoder_cfg] defaults. *)
Definition with_encoder_defaults (cf : aom_codec_enc_cfg) : aom_codec_enc_cfg :=
  {| g_usage := g_usage cf; g_threads := g_threads cf; g_w := g_w cf; g_h := g_h cf;
     g_bit_depth := g_bit_depth cf; g_timebase_num := g_timebase_num cf;
     g_timebase_den := g_timebase_den cf; g_error_resilient := g_error_resilient cf;
     g_pass := g_pass cf; g_lag_in_frames := g_lag_in_frames cf;
     rc_dropframe_thresh := rc_dropframe_thresh cf; rc_end_usage := rc_end_usage cf;
     rc_target_bitrate := rc_target_bitrate cf; rc_min_quantizer := rc_min_quantizer cf;
     rc_max_quantizer := rc_max_quantizer cf; rc_undershoot_pct := rc_undershoot_pct cf;
     rc_overshoot_pct := rc_overshoot_pct cf; rc_buf_sz := rc_buf_sz cf;
     rc_buf_initial_sz := rc_buf_initial_sz cf; rc_buf_optimal_sz := rc_buf_optimal_sz cf;
     kf_mode := kf_mode cf; super_block_size := 0; max_partition_size := 128;
     min_partition_size := 4; disable_trellis_quant := 3;
     encoder_cfg_other := replicate (length (encoder_cfg_other cf)) 0;
     cfg_other := cfg_other cf |}.

Definition aom_codec_enc_config_default (iface : option aom_codec_iface)
    (cfg : option aom_codec_enc_cfg) (usage : Z) : aom_codec_err_t * option aom_codec_enc_cfg :=
  match iface, cfg with
  | Some i, Some _ =>
      if negb (has_flag (caps i) AOM_CODEC_CAP_ENCODER) then (AOM_CODEC_INCAPABLE, cfg)
      else
        match find (fun cf => g_usage cf =? usage) (enc_cfgs i) with
        | Some cf => (AOM_CODEC_OK, Some (with_encoder_defaults cf))
        | None => (AOM_CODEC_INVALID_PARAM, cfg)
        end
  | _, _ => (AOM_CODEC_INVALID_PARAM, cfg)
  end.

Definition is_highbitdepth (img : aom_image) : bool := has_flag (fmt img) AOM_IMG_FMT_HIGHBITDEPTH.

Definition aom_codec_encode (ctx : option aom_codec_ctx) (img : option aom_image)
    (pts duration flags : Z) : aom_codec_err_t * option aom_codec_ctx :=
  match ctx with
  | None => save_status ctx AOM_CODEC_INVALID_PARAM
  | Some c =>
      if (match img with Some _ => true | None => false end) && (duration =? 0)
      then save_status ctx AOM_CODEC_INVALID_PARAM
      else
        match ctx_iface c, ctx_priv c with
        | Some i, Some p =>
            if negb (has_flag (caps i) AOM_CODEC_CAP_ENCODER) then save_status ctx AOM_CODEC_INCAPABLE
            else if (match img with
                     | Some im => negb (Bool.eqb (is_highbitdepth im)
                                          (has_flag (init_flags c) AOM_CODEC_USE_HIGHBITDEPTH))
                     | None => false
                     end)
            then save_status
                   (Some (set_priv c (Some (set_priv_detail p
                      (Some "img is high bit-depth and codec was not initialized with AOM_CODEC_USE_HIGHBITDEPTH, or vice versa.")))))
                   AOM_CODEC_INVALID_PARAM
            else if UINT32_MAX <? duration then save_status ctx AOM_CODEC_INVALID_PARAM
            else
              let '(res, p) := enc_encode i p img pts duration flags in
              save_status (Some (set_priv c (Some p))) res
        | _, _ => save_status ctx AOM_CODEC_ERROR
        end
  end.

(** The application's output area: copy the packet there when it fits, then
    advance past it. *)
Definition place_pkt (p : aom_codec_priv) (pkt : aom_codec_cx_pkt)
  : aom_codec_cx_pkt * aom_codec_priv :=
  match cx_data_dst_buf p with
  | None => (pkt, p)
  | Some (dst, mem) =>
      let pb := cx_data_pad_before p in
      let pa := cx_data_pad_after p in
      let total := Z.of_nat (length (raw_bytes pkt)) + pb + pa in
      let '(pkt, mem) :=
        if negb (raw_buf pkt =? dst) && (total <=? Z.of_nat (length mem)) then
          let mem := take (Z.to_nat pb) mem ++ raw_bytes pkt ++
                     drop (Z.to_nat pb + length (raw_bytes pkt)) mem in
          ({| pkt_kind := pkt_kind pkt; raw_buf := dst; raw_bytes := take (Z.to_nat total) mem;
              frame_flags := frame_flags pkt |}, mem)
        else (pkt, mem) in
      if dst =? raw_buf pkt then
        let n := length (raw_bytes pkt) in
        (pkt, set_dst_buf p (Some (dst + Z.of_nat n, drop n mem)) pb pa)
      else (pkt, set_dst_buf p (Some (dst, mem)) pb pa)
  end.

Definition aom_codec_get_cx_data (ctx : option aom_codec_ctx) (iter : option aom_codec_iter)
  : option aom_codec_cx_pkt * option aom_codec_ctx * option aom_codec_iter :=
  match ctx with
  | None => (None, None, iter)
  | Some c =>
      match iter with
      | None => (None, Some (set_err c AOM_CODEC_INVALID_PARAM), iter)
      | Some it =>
          match ctx_iface c, ctx_priv c with
          | Some i, Some p =>
              if negb (has_flag (caps i) AOM_CODEC_CAP_ENCODER)
              then (None, Some (set_err c AOM_CODEC_INCAPABLE), iter)
              else
                let '(pkt, it, p) := enc_get_cx_data i p it in
                match pkt with
                | None => (None, Some (set_priv c (Some p)), Some it)
                | Some pkt =>
                    let '(pkt, p) := match pkt_kind pkt with
                                     | AOM_CODEC_CX_FRAME_PKT => place_pkt p pkt
                                     | _ => (pkt, p)
                                     end in
                    (Some pkt, Some (set_priv c (Some p)), Some it)
                end
          | _, _ => (None, Some (set_err c AOM_CODEC_ERROR), iter)
          end
      end
  end.

Definition aom_codec_set_cx_data_buf (ctx : option aom_codec_ctx) (buf : option (option (Z * list Z)))
    (pad_before pad_after : Z) : aom_codec_err_t * option aom_codec_ctx :=
  match ctx with
  | Some c =>
      match ctx_priv c with
      | Some p =>
          (AOM_CODEC_OK,
           Some (set_priv c (Some (match buf with
                                   | Some b => set_dst_buf p b pad_before pad_after
                                   | None => set_dst_buf p None 0 0
                                   end))))
      | None => (AOM_CODEC_INVALID_PARAM, ctx)
      end
  | None => (AOM_CODEC_INVALID_PARAM, None)
  end.

Definition aom_codec_get_preview_frame (ctx : option aom_codec_ctx)
  : option aom_image * option aom_codec_ctx :=
  match ctx with
  | None => (None, None)
  | Some c =>
      match ctx_iface c, ctx_priv c with
      | Some i, Some p =>
          if negb (has_flag (caps i) AOM_CODEC_CAP_ENCODER)
          then (None, Some (set_err c AOM_CODEC_INCAPABLE))
          else match enc_get_preview i with
               | None => (None, Some (set_err c AOM_CODEC_INCAPABLE))
               | Some fn => let '(img, p) := fn p in (img, Some (set_priv c (Some p)))
               end
      | _, _ => (None, Some (set_err c AOM_CODEC_ERROR))
      end
  end.

Definition aom_codec_get_global_headers (ctx : option aom_codec_ctx)
  : option (list Z) * option aom_codec_ctx :=
  match ctx with
  | None => (None, None)
  | Some c =>
      match ctx_iface c, ctx_priv c with
      | Some i, Some p =>
          if negb (has_flag (caps i) AOM_CODEC_CAP_ENCODER)
          then (None, Some (set_err c AOM_CODEC_INCAPABLE))
          else match enc_get_glob_hdrs i with
               | None => (None, Some (set_err c AOM_CODEC_INCAPABLE))
               | Some fn => let '(buf, p) := fn p in (buf, Some (set_priv c (Some p)))
               end
      | _, _ => (None, Some (set_err c AOM_CODEC_ERROR))
      end
  end.

Definition aom_codec_enc_config_set (ctx : option aom_codec_ctx) (cfg : option aom_codec_enc_cfg)
  : aom_codec_err_t * option aom_codec_ctx :=
  match ctx, cfg with
  | Some c, Some cf =>
      match ctx_iface c, ctx_priv c with
      | Some i, Some p =>
          if negb (has_flag (caps i) AOM_CODEC_CAP_ENCODER) then save_status ctx AOM_CODEC_INCAPABLE
          else let '(res, p) := enc_cfg_set i p cf in save_status (Some (set_priv c (Some p))) res
      | _, _ => save_status ctx AOM_CODEC_INVALID_PARAM
      end
  | _, _ => save_status ctx AOM_CODEC_INVALID_PARAM
  end.
End Codec.

Arguments aom_codec_priv : clear implicits.
Arguments aom_codec_iface : clear implicits.
Arguments aom_codec_ctx : clear implicits.

(** ** Packet lists *)

(** [pkts[0 .. cnt)]; an iterator is the index of the next packet. *)
Record aom_codec_pkt_list := { pl_max : Z; pl_pkts : list aom_codec_cx_pkt }.

Definition aom_codec_pkt_list_add (l : aom_codec_pkt_list) (pkt : aom_codec_cx_pkt)
  : Z * aom_codec_pkt_list :=
  if Z.of_nat (length (pl_pkts l)) <? pl_max l
  then (0, {| pl_max := pl_max l; pl_pkts := pl_pkts l ++ [pkt] |})
  else (1, l).

Definition aom_codec_pkt_list_get (l : aom_codec_pkt_list) (iter : aom_codec_iter)
  : option aom_codec_cx_pkt * aom_codec_iter :=
  let i := match iter with None => 0 | Some i => i end in
  if i <? Z.of_nat (length (pl_pkts l)) then (pl_pkts l !! Z.to_nat i, Some (i + 1))
  else (None, Some i).

(** Iterating from a null iterator. *)
Fixpoint pkt_list_drain (fuel : nat) (l : aom_codec_pkt_list) (iter : aom_codec_iter)
  : list aom_codec_cx_pkt :=
  match fuel with
  | O => []
  | S fuel' =>
      match aom_codec_pkt_list_get l iter with
      | (Some pkt, iter) => pkt :: pkt_list_drain fuel' l iter
      | (None, _) => []
      end
  end.

Lemma pkt_list_drain_from fuel l i :
  0 <= i -> (length (pl_pkts l) < fuel + Z.to_nat i)%nat ->
  pkt_list_drain fuel l (Some i) = drop (Z.to_nat i) (pl_pkts l).
Proof.
  revert i. induction fuel as [|fuel IH]; intros i Hi Hf; simpl.
  { rewrite drop_ge by lia. done. }
  unfold aom_codec_pkt_list_get. destruct (Z.ltb_spec i (Z.of_nat (length (pl_pkts l)))).
  - destruct (lookup_lt_is_Some_2 (pl_pkts l) (Z.to_nat i)) as [pkt Hp]; [lia |].
    rewrite Hp, IH by lia. replace (Z.to_nat (i + 1)) with (S (Z.to_nat i)) by lia.
    symmetry. by apply drop_S.
  - rewrite drop_ge by lia. done.
Qed.

(** The packet list is a bounded queue: what was added, up to its capacity, is
    what an iteration returns, in order, and a full list refuses and keeps what it has. *)
Theorem pkt_list_fifo l pkts :
  Z.of_nat (length (pl_pkts l)) <= pl_max l ->
  let '(refused, l') := foldl (fun '(n, l) pkt => let '(r, l) := aom_codec_pkt_list_add l pkt in (n + r, l))
                          (0, l) pkts in
  let kept := take (Z.to_nat (pl_max l) - length (pl_pkts l)) pkts in
  pkt_list_drain (S (length (pl_pkts l'))) l' None = pl_pkts l ++ kept /\
  refused = Z.of_nat (length pkts) - Z.of_nat (length kept).
Proof.
  assert (Hadd : forall pkts n l, Z.of_nat (length (pl_pkts l)) <= pl_max l ->
    foldl (fun '(n, l) pkt => let '(r, l) := aom_codec_pkt_list_add l pkt in (n + r, l)) (n, l) pkts =
    (n + Z.of_nat (length pkts) - Z.of_nat (length (take (Z.to_nat (pl_max l) - length (pl_pkts l)) pkts)),
     {| pl_max := pl_max l; pl_pkts := pl_pkts l ++ take (Z.to_nat (pl_max l) - length (pl_pkts l)) pkts |})).
  { clear. induction pkts as [|pkt pkts IH]; intros n l Hl; simpl.
    - rewrite take_nil, app_nil_r. simpl. destruct l; f_equal; lia.
    - unfold aom_codec_pkt_list_add at 2. destruct (Z.ltb_spec (Z.of_nat (length (pl_pkts l))) (pl_max l)).
      + rewrite IH by (simpl; rewrite length_app; simpl; lia). simpl. rewrite length_app. simpl length.
        replace (Z.to_nat (pl_max l) - length (pl_pkts l))%nat
          with (S (Z.to_nat (pl_max l) - (length (pl_pkts l) + 1)))%nat by lia.
        simpl. rewrite <- app_assoc. simpl. f_equal. lia.
      + rewrite IH by done. replace (Z.to_nat (pl_max l) - length (pl_pkts l))%nat with 0%nat by lia.
        simpl. f_equal. lia. }
  intros Hl. rewrite Hadd by done. cbv zeta. split; [| lia]. simpl pkt_list_drain.
  set (l' := {| pl_max := pl_max l; pl_pkts := _ |}).
  transitivity (pkt_list_drain (S (length (pl_pkts l'))) l' (Some 0)); [done |].
  rewrite pkt_list_drain_from by lia. done.
Qed.

Definition demo_pkt (b : Z) : aom_codec_cx_pkt :=
  {| pkt_kind := AOM_CODEC_CX_FRAME_PKT; raw_buf := 4096; raw_bytes := [b]; frame_flags := 0 |}.

Lemma pkt_list_fifo_witness :
  let l := {| pl_max := 2; pl_pkts := [] |} in
  let '(refused, l') := foldl (fun '(n, l) pkt => let '(r, l) := aom_codec_pkt_list_add l pkt in (n + r, l))
                          (0, l) [demo_pkt 1; demo_pkt 2; demo_pkt 3] in
  let kept := take (Z.to_nat (pl_max l) - length (pl_pkts l)) [demo_pkt 1; demo_pkt 2; demo_pkt 3] in
  pkt_list_drain (S (length (pl_pkts l'))) l' None = pl_pkts l ++ kept /\
  refused = Z.of_nat (length [demo_pkt 1; demo_pkt 2; demo_pkt 3]) - Z.of_nat (length kept).
Proof. apply (pkt_list_fifo {| pl_max := 2; pl_pkts := [] |} [demo_pkt 1; demo_pkt 2; demo_pkt 3]). simpl. lia. Defined.

(** A failed initialisation leaves a context every later call can take: the
    status is kept, the algorithm's private state is gone, its error text is what
    [aom_codec_error_detail] returns, and encoding or decoding fails without
    entering the algorithm. *)
Theorem failed_enc_init_is_inert {A} (c : aom_codec_ctx A) i cf flags e p img pts dur fl :
  abi_version i = AOM_CODEC_INTERNAL_ABI_VERSION -> has_flag (caps i) AOM_CODEC_CAP_ENCODER = true ->
  has_flag flags AOM_CODEC_USE_PSNR = false -> has_flag flags AOM_CODEC_USE_HIGHBITDEPTH = false ->
  g_bit_depth cf <= 8 -> if_init i flags (CfgEnc cf) = (e, p) -> e <> AOM_CODEC_OK -> 0 < dur ->
  exists c', aom_codec_enc_init_ver (Some c) (Some i) (Some cf) flags AOM_ENCODER_ABI_VERSION = (e, Some c') /\
    ctx_err c' = e /\ ctx_priv c' = None /\
    aom_codec_error_detail (Some c') = match p with Some p => priv_err_detail p | None => None end /\
    aom_codec_encode (Some c') img pts dur fl = (AOM_CODEC_ERROR, Some (set_err c' AOM_CODEC_ERROR)) /\
    aom_codec_decode (Some c') None 0 = (AOM_CODEC_ERROR, Some (set_err c' AOM_CODEC_ERROR)) /\
    fst (aom_codec_destroy (Some c')) = AOM_CODEC_ERROR.
Proof.
  intros Ha Hc Hp Hh Hb Ei He Hd.
  unfold aom_codec_enc_init_ver. rewrite Ha, Hc, Hp, Hh. cbn [Z.eqb Pos.eqb negb andb].
  rewrite (proj2 (Z.ltb_ge _ _)) by lia. unfold init_ctx. rewrite Ei.
  assert (is_ok e = false) as -> by (by destruct e). simpl.
  destruct p as [p |]; simpl; eexists; (split; [reflexivity |]); simpl;
    assert (is_ok e = false) as -> by (by destruct e);
    assert ((dur =? 0) = false) as -> by (apply Z.eqb_neq; lia); rewrite andb_false_r; done.
Qed.

(** An algorithm whose initialisation runs out of memory. *)
Definition oom_iface : aom_codec_iface unit :=
  {| if_name := "demo"; abi_version := 7; caps := 3;
     if_init := fun _ _ => (AOM_CODEC_MEM_ERROR,
       Some {| priv_err_detail := Some "no memory"; cx_data_dst_buf := None; cx_data_pad_before := 0;
               cx_data_pad_after := 0; alg_priv := tt |});
     ctrl_maps := None; dec_peek_si := fun _ si => (AOM_CODEC_OK, si);
     dec_get_si := fun p si => (AOM_CODEC_OK, si, p); dec_decode := fun p _ _ => (AOM_CODEC_OK, p);
     dec_get_frame := fun p it => (None, it, p); dec_set_fb_fn := fun p _ _ => (AOM_CODEC_OK, p);
     enc_cfgs := []; enc_encode := fun p _ _ _ _ => (AOM_CODEC_OK, p);
     enc_get_cx_data := fun p it => (None, it, p); enc_cfg_set := fun p _ => (AOM_CODEC_OK, p);
     enc_get_glob_hdrs := None; enc_get_preview := None; if_set_option := None |}.

Definition demo_cfg : aom_codec_enc_cfg :=
  {| g_usage := 1; g_threads := 0; g_w := 320; g_h := 240; g_bit_depth := 8; g_timebase_num := 1;
     g_timebase_den := 30; g_error_resilient := 0; g_pass := 0; g_lag_in_frames := 0;
     rc_dropframe_thresh := 0; rc_end_usage := 1; rc_target_bitrate := 256; rc_min_quantizer := 0;
     rc_max_quantizer := 63; rc_undershoot_pct := 25; rc_overshoot_pct := 25; rc_buf_sz := 6000;
     rc_buf_initial_sz := 4000; rc_buf_optimal_sz := 5000; kf_mode := 1; super_block_size := 0;
     max_partition_size := 0; min_partition_size := 0; disable_trellis_quant := 0;
     encoder_cfg_other := []; cfg_other := [] |}.

Lemma failed_enc_init_is_inert_witness :
  exists c', aom_codec_enc_init_ver (Some zero_ctx) (Some oom_iface) (Some demo_cfg) 0 AOM_ENCODER_ABI_VERSION
             = (AOM_CODEC_MEM_ERROR, Some c') /\
    ctx_err c' = AOM_CODEC_MEM_ERROR /\ ctx_priv c' = None /\
    aom_codec_error_detail (Some c') = Some "no memory"%string /\
    aom_codec_encode (Some c') None 0 1 0 = (AOM_CODEC_ERROR, Some (set_err c' AOM_CODEC_ERROR)) /\
    aom_codec_decode (Some c') None 0 = (AOM_CODEC_ERROR, Some (set_err c' AOM_CODEC_ERROR)) /\
    fst (aom_codec_destroy (Some c')) = AOM_CODEC_ERROR.
Proof.
  eapply (failed_enc_init_is_inert zero_ctx oom_iface demo_cfg 0 AOM_CODEC_MEM_ERROR
    (Some {| priv_err_detail := Some "no memory"%string; cx_data_dst_buf := None; cx_data_pad_before := 0;
             cx_data_pad_after := 0; alg_priv := tt |}) None 0 1 0); done || lia || discriminate.
Defined.

(** Data returned through an application's output area: when a packet fits, it
    is copied after the leading pad, the area's other bytes stay, and the area
    shrinks by exactly the bytes handed out, so packets never overlap. *)
Theorem place_pkt_in_area {A} (p : aom_codec_priv A) pkt dst mem :
  cx_data_dst_buf p = Some (dst, mem) -> 0 <= cx_data_pad_before p -> 0 <= cx_data_pad_after p ->
  raw_buf pkt <> dst ->
  let n := length (raw_bytes pkt) in
  let total := Z.of_nat n + cx_data_pad_before p + cx_data_pad_after p in
  total <= Z.of_nat (length mem) ->
  exists pkt' p' mem', place_pkt p pkt = (pkt', p') /\ raw_buf pkt' = dst /\
    Z.of_nat (length (raw_bytes pkt')) = total /\
    take n (drop (Z.to_nat (cx_data_pad_before p)) (raw_bytes pkt')) = raw_bytes pkt /\
    cx_data_dst_buf p' = Some (dst + total, mem') /\ mem' = drop (Z.to_nat total) mem /\
    raw_bytes pkt' ++ mem' =
      take (Z.to_nat (cx_data_pad_before p)) mem ++ raw_bytes pkt ++
      drop (Z.to_nat (cx_data_pad_before p) + n) mem.
Proof.
  intros Ed Hb Ha Hne n total Hfit. unfold place_pkt. rewrite Ed. fold n. fold total.
  rewrite (proj2 (Z.eqb_neq _ _)), (proj2 (Z.leb_le _ _)) by done. cbn [negb andb].
  set (pb := Z.to_nat (cx_data_pad_before p)) in *.
  set (m2 := take pb mem ++ raw_bytes pkt ++ drop (pb + n) mem). simpl. rewrite Z.eqb_refl.
  assert (length m2 = length mem) as Hl.
  { unfold m2. rewrite !length_app, length_take, length_drop. fold n. lia. }
  assert (length (take (Z.to_nat total) m2) = Z.to_nat total) as Ht by (rewrite length_take; lia).
  rewrite Ht. do 3 eexists. split; [reflexivity |]. cbn [raw_buf raw_bytes cx_data_dst_buf set_dst_buf].
  rewrite Z2Nat.id by lia. split_and!; try done; [lia | | |].
  - replace (Z.to_nat total) with (pb + (n + Z.to_nat (cx_data_pad_after p)))%nat by lia.
    rewrite <- take_drop_commute, take_take. replace (n `min` _)%nat with n by lia.
    unfold m2. rewrite drop_app_length' by (rewrite length_take; lia). by apply take_app_length'.
  - unfold m2. rewrite app_assoc, drop_app_ge by (rewrite length_app, length_take; fold n; lia).
    rewrite drop_drop. f_equal. rewrite length_app, length_take. fold n. lia.
  - apply take_drop.
Qed.

Definition demo_priv : aom_codec_priv unit :=
  {| priv_err_detail := None; cx_data_dst_buf := Some (8192, replicate 10 7);
     cx_data_pad_before := 2; cx_data_pad_after := 1; alg_priv := tt |}.

Lemma place_pkt_in_area_witness :
  exists pkt' p' mem', place_pkt demo_priv (demo_pkt 9) = (pkt', p') /\ raw_buf pkt' = 8192 /\
    Z.of_nat (length (raw_bytes pkt')) = 4 /\
    take 1 (drop (Z.to_nat 2) (raw_bytes pkt')) = [9] /\
    cx_data_dst_buf p' = Some (8192 + 4, mem') /\ mem' = drop (Z.to_nat 4) (replicate 10 7) /\
    raw_bytes pkt' ++ mem' = take (Z.to_nat 2) (replicate 10 7) ++ [9] ++ drop (Z.to_nat 2 + 1) (replicate 10 7).
Proof. apply (place_pkt_in_area demo_priv (demo_pkt 9) 8192 (replicate 10 7)); simpl; done || lia. Defined.
