(* ===== verification/BitChannel.v ===== *)
(** * Bit channels and the codes written over them

    libaom writes the same literals, quasi-uniform and finite subexponential
    codes over two carriers: the plain bit buffers of the OBU headers
    ([aom_dsp/bitwriter_buffer.c], [aom_dsp/bitreader_buffer.c]) and the
    entropy-coded symbol stream ([aom_dsp/binary_codes_writer.c],
    [aom_dsp/binary_codes_reader.c]).  The codes are defined here once over an
    interface, [BitSink] and [BitSource], together with the laws a carrier owes
    ([BitSinkOk], [BitSourceOk]); their round trips are proved from the laws. *)

From S2P Require Import Prelude CodecTypes.

Class BitSink (W : Type) := put_bit : W -> Z -> option W.
Class BitSource (R : Type) := get_bit : reader R Z.

(** What a carrier promises: [sent w es w'] says that going from [w] to [w']
    appended the events [es]; [pending r es] that exactly the events [es] are
    still to be read from [r] (followed by anything the carrier ignores). *)
Class BitSinkOk (E W : Type) `{BitSink W} := {
  sink_bit : bool -> E;
  room : W -> nat -> Prop;
  sent : W -> list E -> W -> Prop;
  sent_nil w : sent w [] w;
  sent_app w1 es1 w2 es2 w3 : sent w1 es1 w2 -> sent w2 es2 w3 -> sent w1 (es1 ++ es2) w3;
  put_bit_ok w n b : room w (S n) ->
    exists w', put_bit w (b2z b) = Some w' /\ sent w [sink_bit b] w' /\ room w' n }.

Class BitSourceOk (E R : Type) `{BitSource R} := {
  source_bit : bool -> E;
  pending : R -> list E -> Prop;
  get_bit_ok r b es : pending r (source_bit b :: es) ->
    exists r', get_bit r = Ok (b2z b, r') /\ pending r' es }.

(** [get_msb]: position of the most significant set bit, [n <> 0]. *)
Definition get_msb (n : Z) : Z := Z.log2 n.

(** ** Recentering ([aom_dsp/recenter.h]) *)

Definition inv_recenter_nonneg (r v : Z) : Z :=
  if Z.shiftl r 1 <? v then v
  else if Z.land v 1 =? 0 then u16 (Z.shiftr v 1 + r)
  else u16 (r - Z.shiftr (v + 1) 1).

Definition inv_recenter_finite_nonneg (n r v : Z) : Z :=
  if Z.shiftl r 1 <=? n then inv_recenter_nonneg r v
  else u16 (n - 1 - inv_recenter_nonneg (u16 (n - 1 - r)) v).

Definition recenter_nonneg (r v : Z) : Z :=
  if Z.shiftl r 1 <? v then v
  else if r <=? v then u16 (Z.shiftl (v - r) 1)
  else u16 (Z.shiftl (r - v) 1 - 1).

Definition recenter_finite_nonneg (n r v : Z) : Z :=
  if Z.shiftl r 1 <=? n then recenter_nonneg r v
  else recenter_nonneg (u16 (n - 1 - r)) (u16 (n - 1 - v)).

Section Writers.
Context {W : Type} `{BitSink W}.

(** [for (bit = bits - 1; bit >= 0; bit--) write_bit(w, (data >> bit) & 1)] *)
Fixpoint write_literal_loop (bits : nat) (data : Z) (w : W) : option W :=
  match bits with
  | O => Some w
  | S bit =>
      w ← put_bit w (Z.land (Z.shiftr data (Z.of_nat bit)) 1);
      write_literal_loop bit data w
  end.

Definition write_literal (w : W) (data bits : Z) : option W :=
  write_literal_loop (Z.to_nat bits) data w.

Definition write_quniform (w : W) (n v : Z) : option W :=
  if n <=? 1 then Some w
  else
    let l := get_msb n + 1 in
    let m := Z.shiftl 1 l - n in
    if v <? m then write_literal w v (l - 1)
    else
      w ← write_literal w (m + Z.shiftr (v - m) 1) (l - 1);
      put_bit w (Z.land (v - m) 1).

(** The [while (1)] of the subexponential writers; [a] doubles from the third
    pass on, so [n <= mk + 3 * a] is reached within 17 passes for a 16-bit
    [n]. *)
Fixpoint write_subexpfin_loop (fuel : nat) (i mk n k v : Z) (w : W) : option W :=
  match fuel with
  | O => Some w
  | S fuel' =>
      let b := if i =? 0 then k else k + i - 1 in
      let a := Z.shiftl 1 b in
      if n <=? mk + 3 * a then write_quniform w (u16 (n - mk)) (u16 (v - mk))
      else
        let t := b2z (mk + a <=? v) in
        w ← put_bit w t;
        if t =? 0 then write_literal w (v - mk) b
        else write_subexpfin_loop fuel' (i + 1) (mk + a) n k v w
  end.

Definition write_subexpfin (w : W) (n k v : Z) : option W :=
  write_subexpfin_loop 18 0 0 n k v w.

Definition write_refsubexpfin (w : W) (n k ref v : Z) : option W :=
  write_subexpfin w n k (recenter_finite_nonneg n ref v).
End Writers.

Section Readers.
Context {R : Type} `{BitSource R}.

(** [for (bit = bits - 1; bit >= 0; bit--) value |= read_bit(r) << bit] *)
Fixpoint read_literal_loop (bits : nat) (value : Z) : reader R Z :=
  match bits with
  | O => mret value
  | S bit =>
      b ← get_bit;
      read_literal_loop bit (Z.lor value (Z.shiftl b (Z.of_nat bit)))
  end.

Definition read_literal (bits : Z) : reader R Z :=
  read_literal_loop (Z.to_nat bits) 0.

Definition read_quniform (n : Z) : reader R Z :=
  if n <=? 1 then mret 0
  else
    let l := get_msb n + 1 in
    let m := Z.shiftl 1 l - n in
    v ← read_literal (l - 1);
    if v <? m then mret (u16 v)
    else b ← get_bit; mret (u16 (Z.shiftl v 1 - m + b)).

Fixpoint read_subexpfin_loop (fuel : nat) (i mk n k : Z) : reader R Z :=
  match fuel with
  | O => mret 0
  | S fuel' =>
      let b := if i =? 0 then k else k + i - 1 in
      let a := Z.shiftl 1 b in
      if n <=? mk + 3 * a then
        v ← read_quniform (u16 (n - mk)); mret (u16 (v + mk))
      else
        bit ← get_bit;
        if bit =? 0 then v ← read_literal b; mret (u16 (v + mk))
        else read_subexpfin_loop fuel' (i + 1) (mk + a) n k
  end.

Definition read_subexpfin (n k : Z) : reader R Z := read_subexpfin_loop 18 0 0 n k.

Definition read_refsubexpfin (n k ref : Z) : reader R Z :=
  v ← read_subexpfin n k; mret (inv_recenter_finite_nonneg n ref v).
End Readers.

(** ** Reference bit strings *)

(** The [n] low bits of [v], most significant first. *)
Fixpoint lit_bits (n : nat) (v : Z) : list bool :=
  match n with
  | O => []
  | S n' => Z.testbit v (Z.of_nat n') :: lit_bits n' v
  end.

Definition quniform_bits (n v : Z) : list bool :=
  if n <=? 1 then []
  else
    let l := Z.log2 n in
    let m := 2 ^ (l + 1) - n in
    if v <? m then lit_bits (Z.to_nat l) v
    else lit_bits (Z.to_nat l) (m + (v - m) / 2) ++ [Z.odd (v - m)].

Fixpoint subexpfin_bits (fuel : nat) (i mk n k v : Z) : list bool :=
  match fuel with
  | O => []
  | S fuel' =>
      let b := if i =? 0 then k else k + i - 1 in
      let a := 2 ^ b in
      if n <=? mk + 3 * a then quniform_bits (n - mk) (v - mk)
      else if mk + a <=? v then true :: subexpfin_bits fuel' (i + 1) (mk + a) n k v
      else false :: lit_bits (Z.to_nat b) (v - mk)
  end.

Lemma length_lit_bits n v : length (lit_bits n v) = n.
Proof. induction n; simpl; congruence. Qed.

(** ** What a writer appends, what a reader consumes *)

Section Specs.
Context {E W R : Type} {snk : BitSink W} {src : BitSource R}
  {snk_ok : BitSinkOk E W} {src_ok : BitSourceOk E R}.

(** [emits m bits]: with room for [bits], [m] succeeds and appends them. *)
Definition emits (m : W -> option W) (bits : list bool) : Prop :=
  forall w n, room w (length bits + n) ->
    exists w', m w = Some w' /\ sent w (sink_bit <$> bits) w' /\ room w' n.

(** [takes m bits a]: with [bits] pending, [m] consumes exactly them and
    returns [a]. *)
Definition takes {A} (m : reader R A) (bits : list bool) (a : A) : Prop :=
  forall r es, pending r ((source_bit <$> bits) ++ es) ->
    exists r', m r = Ok (a, r') /\ pending r' es.

Lemma emits_nil : emits Some [].
Proof. intros w n Hr. exists w. eauto using sent_nil. Qed.

Lemma emits_put b : emits (fun w => put_bit w (b2z b)) [b].
Proof. intros w n Hr. exact (put_bit_ok w n b Hr). Qed.

Lemma emits_app m1 m2 bits1 bits2 :
  emits m1 bits1 -> emits m2 bits2 -> emits (fun w => w ← m1 w; m2 w) (bits1 ++ bits2).
Proof.
  intros H1 H2 w n Hr. rewrite length_app, <- Nat.add_assoc in Hr.
  destruct (H1 w _ Hr) as (w1 & E1 & S1 & R1).
  destruct (H2 w1 _ R1) as (w2 & E2 & S2 & R2).
  exists w2. rewrite E1, fmap_app. simpl. eauto using sent_app.
Qed.

Lemma emits_eq m bits bits' : emits m bits -> bits = bits' -> emits m bits'.
Proof. by intros ? <-. Qed.

Lemma takes_ret {A} (a : A) : takes (mret a) [] a.
Proof. intros r es Hp. by exists r. Qed.

Lemma takes_get b : takes get_bit [b] (b2z b).
Proof. intros r es Hp. exact (get_bit_ok r b es Hp). Qed.

Lemma takes_bind {A B} (m : reader R A) (k : A -> reader R B) bits1 bits2 a b :
  takes m bits1 a -> takes (k a) bits2 b -> takes (m ≫= k) (bits1 ++ bits2) b.
Proof.
  intros H1 H2 r es Hp. rewrite fmap_app, <- app_assoc in Hp.
  destruct (H1 r _ Hp) as (r1 & E1 & P1). destruct (H2 r1 _ P1) as (r2 & E2 & P2).
  exists r2. by rewrite (reader_bind_ok _ _ _ _ _ E1).
Qed.

Lemma takes_bind_ret {A B} (m : reader R A) (f : A -> B) bits a b :
  takes m bits a -> f a = b -> takes (x ← m; mret (f x)) bits b.
Proof.
  intros Hm <-. rewrite <- (app_nil_r bits). eapply takes_bind; [done | apply takes_ret].
Qed.

(** *** Literals *)

Lemma emits_literal_loop n v : emits (write_literal_loop n v) (lit_bits n v).
Proof.
  induction n as [|n IH]; [apply emits_nil |]. simpl lit_bits.
  change (?x :: ?l) with ([x] ++ l). simpl write_literal_loop.
  intros w m Hr. rewrite land_shiftr_bit by lia.
  by apply (emits_app (fun w => put_bit w (b2z (Z.testbit v (Z.of_nat n)))) _ _ _
              (emits_put _) IH).
Qed.

Lemma emits_literal v n : emits (fun w => write_literal w v n) (lit_bits (Z.to_nat n) v).
Proof. apply emits_literal_loop. Qed.

Lemma lor_bit x b k : 0 <= k ->
  Z.lor (x * 2 ^ (k + 1)) (Z.shiftl (b2z b) k) = (2 * x + b2z b) * 2 ^ k.
Proof.
  intros. rewrite Z.lor_comm, <- (Z.shiftl_mul_pow2 x) by lia.
  pose proof (pow2_pos k ltac:(lia)).
  rewrite lor_shiftl_add; rewrite ?Z.shiftl_mul_pow2, ?pow2_split by lia;
    destruct b; simpl; try lia; change (2 ^ 1) with 2; lia.
Qed.

Lemma takes_literal_loop n v x :
  takes (read_literal_loop n (x * 2 ^ Z.of_nat n)) (lit_bits n v)
    (x * 2 ^ Z.of_nat n + v mod 2 ^ Z.of_nat n).
Proof.
  revert x. induction n as [|n IH]; intros x.
  - change (2 ^ Z.of_nat 0) with 1. rewrite Z.mod_1_r, Z.add_0_r. apply takes_ret.
  - simpl lit_bits. change (?x :: ?l) with ([x] ++ l). simpl read_literal_loop.
    eapply takes_bind; [apply takes_get |]. cbv beta.
    replace (Z.of_nat (S n)) with (Z.of_nat n + 1) by lia. rewrite lor_bit by lia.
    assert (v mod 2 ^ (Z.of_nat n + 1) =
      b2z (Z.testbit v (Z.of_nat n)) * 2 ^ Z.of_nat n + v mod 2 ^ Z.of_nat n) as ->.
    { rewrite pow2_split by lia. pose proof (pow2_pos (Z.of_nat n) ltac:(lia)).
      rewrite Z.rem_mul_r, testbit_b2z by lia. change (2 ^ 1) with 2. lia. }
    replace (x * 2 ^ (Z.of_nat n + 1) + _) with
      ((2 * x + b2z (Z.testbit v (Z.of_nat n))) * 2 ^ Z.of_nat n + v mod 2 ^ Z.of_nat n)
      by (rewrite pow2_split by lia; change (2 ^ 1) with 2; lia).
    apply IH.
Qed.

Lemma takes_literal n v : 0 <= n -> 0 <= v < 2 ^ n ->
  takes (read_literal n) (lit_bits (Z.to_nat n) v) v.
Proof.
  intros Hn Hv. pose proof (takes_literal_loop (Z.to_nat n) v 0) as Hl.
  rewrite Z2Nat.id, Z.mul_0_l, Z.add_0_l, Z.mod_small in Hl by lia. exact Hl.
Qed.

(** *** Quasi-uniform codes *)

Lemma emits_quniform n v : emits (fun w => write_quniform w n v) (quniform_bits n v).
Proof.
  unfold write_quniform, quniform_bits, get_msb.
  destruct (Z.leb_spec n 1); [apply emits_nil |].
  pose proof (Z.log2_nonneg n). rewrite Z.shiftl_mul_pow2, Z.mul_1_l by lia.
  replace (Z.log2 n + 1 - 1) with (Z.log2 n) by lia.
  destruct (_ <? _); [apply emits_literal |].
  rewrite Z.shiftr_div_pow2 by lia. change (2 ^ 1) with 2. rewrite land_1_odd.
  apply (emits_app (fun w => write_literal w _ _) (fun w => put_bit w _));
    [apply emits_literal | apply emits_put].
Qed.

(** The three regions of the code: [m] short words, then pairs. *)
Lemma quniform_arith n v : 2 <= n -> 0 <= v < n ->
  let m := 2 ^ (Z.log2 n + 1) - n in
  1 <= m <= 2 ^ Z.log2 n /\
  (m <= v -> m + (v - m) / 2 < 2 ^ Z.log2 n /\
     2 * (m + (v - m) / 2) - m + b2z (Z.odd (v - m)) = v).
Proof.
  intros Hn Hv m. pose proof (Z.log2_spec n ltac:(lia)) as Hl. subst m.
  rewrite <- Z.add_1_r in Hl. rewrite pow2_split in * by (apply Z.log2_nonneg || lia).
  change (2 ^ 1) with 2 in *. split; [lia |]. intros Hm. split; [dlia |].
  pose proof (Zmod_odd (v - (2 ^ Z.log2 n * 2 - n))) as Ho.
  destruct (Z.odd _); simpl; dlia.
Qed.

Lemma takes_quniform n v : 2 <= n < 65536 -> 0 <= v < n ->
  takes (read_quniform n) (quniform_bits n v) v.
Proof.
  intros Hn Hv. pose proof (quniform_arith n v ltac:(lia) Hv) as [Hm Hpair].
  pose proof (Z.log2_nonneg n).
  unfold read_quniform, quniform_bits, get_msb.
  destruct (Z.leb_spec n 1); [lia |]. rewrite Z.shiftl_mul_pow2, Z.mul_1_l by lia.
  replace (Z.log2 n + 1 - 1) with (Z.log2 n) by lia.
  destruct (Z.ltb_spec v (2 ^ (Z.log2 n + 1) - n)).
  - rewrite <- (app_nil_r (lit_bits _ _)).
    eapply takes_bind; [apply takes_literal; lia |]. cbv beta.
    destruct (Z.ltb_spec v (2 ^ (Z.log2 n + 1) - n)); [| lia].
    rewrite u16_small by lia. apply takes_ret.
  - destruct (Hpair ltac:(lia)) as [Hlt Hback].
    eapply takes_bind; [apply takes_literal; dlia |]. cbv beta.
    destruct (Z.ltb_spec (2 ^ (Z.log2 n + 1) - n + (v - (2 ^ (Z.log2 n + 1) - n)) / 2)
               (2 ^ (Z.log2 n + 1) - n)); [dlia |].
    eapply takes_bind_ret; [apply takes_get |]. cbv beta.
    rewrite Z.shiftl_mul_pow2 by lia. change (2 ^ 1) with 2.
    rewrite (Z.mul_comm _ 2), Hback. apply u16_small. lia.
Qed.

(** *** Finite subexponential codes *)

Section Subexp.
Context (n k v : Z) (Hn : 1 <= n < 65536) (Hk : 0 <= k <= 16) (Hv : 0 <= v < n).

(** Loop invariant of both [while (1)] loops. *)
Definition subexp_inv (fuel : nat) (i mk : Z) : Prop :=
  0 <= i /\ i + Z.of_nat fuel = 18 /\ (0 < fuel)%nat /\ 0 <= mk <= v.

Definition subexp_b (i : Z) : Z := if i =? 0 then k else k + i - 1.

Lemma subexp_next fuel i mk :
  subexp_inv (S fuel) i mk -> mk + 3 * 2 ^ subexp_b i < n -> mk + 2 ^ subexp_b i <= v ->
  subexp_inv fuel (i + 1) (mk + 2 ^ subexp_b i).
Proof.
  intros (Hi & Hf & _ & Hmk) Hlt Hle. unfold subexp_inv.
  assert (0 <= subexp_b i) by (unfold subexp_b; destruct (Z.eqb_spec i 0); lia).
  pose proof (pow2_pos (subexp_b i) ltac:(lia)).
  assert (i <= 16); [| lia]. destruct (Z.le_gt_cases i 16) as [| Hgt]; [done |].
  assert (2 ^ 15 <= 2 ^ subexp_b i).
  { apply pow2_le. unfold subexp_b. destruct (Z.eqb_spec i 0); lia. }
  change (2 ^ 15) with 32768 in *. lia.
Qed.

Lemma emits_subexpfin_loop fuel i mk :
  subexp_inv fuel i mk ->
  emits (write_subexpfin_loop fuel i mk n k v) (subexpfin_bits fuel i mk n k v).
Proof.
  revert i mk. induction fuel as [|fuel IH]; intros i mk Hinv;
    [unfold subexp_inv in Hinv; lia |].
  destruct (Hinv) as (Hi & _ & _ & Hmk).
  cbn [write_subexpfin_loop subexpfin_bits]. fold (subexp_b i).
  assert (0 <= subexp_b i) by (unfold subexp_b; destruct (Z.eqb_spec i 0); lia).
  pose proof (pow2_pos (subexp_b i) ltac:(lia)).
  rewrite Z.shiftl_mul_pow2, Z.mul_1_l by lia.
  destruct (Z.leb_spec n (mk + 3 * 2 ^ subexp_b i)).
  - rewrite !u16_small by lia. apply emits_quniform.
  - destruct (Z.leb_spec (mk + 2 ^ subexp_b i) v).
    + change (true :: ?l) with ([true] ++ l).
      apply (emits_app (fun w => put_bit w (b2z true)) _ _ _ (emits_put true)).
      apply IH, subexp_next; done || lia.
    + change (false :: ?l) with ([false] ++ l).
      apply (emits_app (fun w => put_bit w (b2z false)) _ _ _ (emits_put false)).
      apply emits_literal.
Qed.

Lemma takes_subexpfin_loop fuel i mk :
  subexp_inv fuel i mk ->
  takes (read_subexpfin_loop fuel i mk n k) (subexpfin_bits fuel i mk n k v) v.
Proof.
  revert i mk. induction fuel as [|fuel IH]; intros i mk Hinv;
    [unfold subexp_inv in Hinv; lia |].
  destruct (Hinv) as (Hi & _ & _ & Hmk).
  cbn [read_subexpfin_loop subexpfin_bits]. fold (subexp_b i).
  assert (0 <= subexp_b i) by (unfold subexp_b; destruct (Z.eqb_spec i 0); lia).
  pose proof (pow2_pos (subexp_b i) ltac:(lia)).
  rewrite Z.shiftl_mul_pow2, Z.mul_1_l by lia.
  destruct (Z.leb_spec n (mk + 3 * 2 ^ subexp_b i)).
  - rewrite u16_small by lia.
    apply (takes_bind_ret (A := Z) _ _ _ (v - mk)); [| rewrite u16_small; lia].
    destruct (Z.le_gt_cases (n - mk) 1); [| apply takes_quniform; lia].
    unfold read_quniform, quniform_bits.
    rewrite (proj2 (Z.leb_le _ _)) by lia. replace (v - mk) with 0 by lia. apply takes_ret.
  - destruct (Z.leb_spec (mk + 2 ^ subexp_b i) v).
    + change (true :: ?l) with ([true] ++ l).
      eapply takes_bind; [apply takes_get |]. apply IH, subexp_next; done || lia.
    + change (false :: ?l) with ([false] ++ l).
      eapply takes_bind; [apply takes_get |]. cbn [b2z Z.eqb].
      eapply takes_bind_ret; [apply (takes_literal _ (v - mk)); lia |].
      rewrite u16_small; lia.
Qed.
End Subexp.

Lemma recenter_nonneg_spec r v : 0 <= r < 32768 -> 0 <= v < 65536 ->
  recenter_nonneg r v =
    if 2 * r <? v then v else if r <=? v then 2 * (v - r) else 2 * (r - v) - 1.
Proof.
  intros. unfold recenter_nonneg. rewrite !Z.shiftl_mul_pow2 by lia. change (2 ^ 1) with 2.
  rewrite (Z.mul_comm r 2). repeat case_cmp; rewrite ?u16_small by lia; lia.
Qed.

Lemma inv_recenter_nonneg_spec r x : 0 <= r < 32768 -> 0 <= x < 65536 ->
  inv_recenter_nonneg r x =
    if 2 * r <? x then x else if Z.odd x then r - (x + 1) / 2 else x / 2 + r.
Proof.
  intros. unfold inv_recenter_nonneg.
  rewrite Z.shiftl_mul_pow2, !Z.shiftr_div_pow2, land_1_odd by lia. change (2 ^ 1) with 2.
  rewrite (Z.mul_comm r 2). destruct (2 * r <? x) eqn:?; [done |].
  destruct (Z.odd x); simpl; apply u16_small; dlia.
Qed.

Lemma inv_recenter_nonneg_recenter r v : 0 <= r < 32768 -> 0 <= v < 65536 ->
  inv_recenter_nonneg r (recenter_nonneg r v) = v.
Proof.
  intros Hr Hv. rewrite (recenter_nonneg_spec r v) by done.
  repeat case_cmp; rewrite inv_recenter_nonneg_spec by lia.
  - by rewrite (proj2 (Z.ltb_lt _ _)) by lia.
  - rewrite (proj2 (Z.ltb_ge _ _)), Z.odd_mul by lia. simpl. dlia.
  - rewrite (proj2 (Z.ltb_ge _ _)), Z.odd_sub, Z.odd_mul by lia. simpl. dlia.
Qed.

Lemma recenter_finite_range n r v : 1 <= n < 65536 -> 0 <= r < n -> 0 <= v < n ->
  0 <= recenter_finite_nonneg n r v < n.
Proof.
  intros Hn Hr Hv. unfold recenter_finite_nonneg.
  rewrite Z.shiftl_mul_pow2 by lia. change (2 ^ 1) with 2.
  rewrite (u16_small (n - 1 - r)), (u16_small (n - 1 - v)) by lia.
  case_cmp; rewrite recenter_nonneg_spec by lia; repeat case_cmp; lia.
Qed.

Lemma inv_recenter_recenter n r v : 1 <= n < 65536 -> 0 <= r < n -> 0 <= v < n ->
  inv_recenter_finite_nonneg n r (recenter_finite_nonneg n r v) = v.
Proof.
  intros Hn Hr Hv. unfold inv_recenter_finite_nonneg, recenter_finite_nonneg.
  rewrite !Z.shiftl_mul_pow2 by lia. change (2 ^ 1) with 2.
  rewrite !(u16_small (n - 1 - r)), !(u16_small (n - 1 - v)) by lia.
  case_cmp; rewrite inv_recenter_nonneg_recenter by lia; [done |].
  rewrite u16_small; lia.
Qed.

(** The bits a reference-coded value takes on any carrier. *)
Definition refsubexpfin_bits (n k ref v : Z) : list bool :=
  subexpfin_bits 18 0 0 n k (recenter_finite_nonneg n ref v).

Lemma emits_refsubexpfin n k ref v :
  1 <= n < 65536 -> 0 <= k <= 16 -> 0 <= ref < n -> 0 <= v < n ->
  emits (fun w => write_refsubexpfin w n k ref v) (refsubexpfin_bits n k ref v).
Proof.
  intros. pose proof (recenter_finite_range n ref v).
  apply emits_subexpfin_loop; unfold subexp_inv; lia.
Qed.

Lemma takes_refsubexpfin n k ref v :
  1 <= n < 65536 -> 0 <= k <= 16 -> 0 <= ref < n -> 0 <= v < n ->
  takes (read_refsubexpfin n k ref) (refsubexpfin_bits n k ref v) v.
Proof.
  intros. pose proof (recenter_finite_range n ref v).
  eapply takes_bind_ret; [| by apply inv_recenter_recenter].
  apply takes_subexpfin_loop; unfold subexp_inv; lia.
Qed.
End Specs.
