(* ===== verification/BitBuffer.v ===== *)
(** * Header bit buffers

    [aom_dsp/bitreader_buffer.c] and [aom_dsp/bitwriter_buffer.c]: the cursors
    the OBU headers are read and written through.  A buffer is its bytes (for
    the reader, the bytes from [bit_buffer] up to [bit_buffer_end]). *)

From S2P Require Import Prelude CodecTypes BitChannel.

(** [error_handler]: [None] is [NULL]; [Some e] a handler that leaves through
    [aom_internal_error] with code [e], as the decoder's handler does
    ([av1/decoder/decodeframe.c], [error_handler]). *)
Record aom_read_bit_buffer := {
  rb_bit_buffer : list Z;
  rb_bit_offset : Z;
  rb_error_handler : option aom_codec_err_t }.

Record aom_write_bit_buffer := {
  wb_bit_buffer : list Z;
  wb_bit_offset : Z }.

(** ** Reading *)

Definition aom_rb_bytes_read (rb : aom_read_bit_buffer) : Z :=
  Z.shiftr (u32 (rb_bit_offset rb + 7)) 3.

Definition aom_rb_read_bit : reader aom_read_bit_buffer Z := fun rb =>
  let off := rb_bit_offset rb in
  let p := Z.shiftr off 3 in
  let q := 7 - Z.land off 7 in
  match rb_bit_buffer rb !! Z.to_nat p with
  | Some byte =>
      let bit := Z.land (Z.shiftr byte q) 1 in
      Ok (bit, {| rb_bit_buffer := rb_bit_buffer rb; rb_bit_offset := u32 (off + 1);
                  rb_error_handler := rb_error_handler rb |})
  | None =>
      match rb_error_handler rb with
      | Some e => Raise e
      | None => Ok (0, rb)
      end
  end.

#[export] Instance rb_source : BitSource aom_read_bit_buffer := aom_rb_read_bit.

(** [bits <= 31] *)
Definition aom_rb_read_literal (bits : Z) : reader aom_read_bit_buffer Z :=
  read_literal bits.

(** [bits <= 32] *)
Definition aom_rb_read_unsigned_literal (bits : Z) : reader aom_read_bit_buffer Z :=
  read_literal bits.

Definition aom_rb_read_inv_signed_literal (bits : Z) : reader aom_read_bit_buffer Z :=
  let nbits := 32 - bits - 1 in
  v ← aom_rb_read_literal (bits + 1);
  let value := u32 (Z.shiftl v nbits) in
  mret (Z.shiftr (s32 value) nbits).

(** [while (leading_zeros < 32 && !aom_rb_read_bit(rb)) ++leading_zeros] *)
Fixpoint uvlc_zeros_loop (fuel : nat) (leading_zeros : Z) : reader aom_read_bit_buffer Z :=
  match fuel with
  | O => mret leading_zeros
  | S fuel' =>
      bit ← aom_rb_read_bit;
      if bit =? 0 then uvlc_zeros_loop fuel' (leading_zeros + 1) else mret leading_zeros
  end.

Definition aom_rb_read_uvlc : reader aom_read_bit_buffer Z :=
  leading_zeros ← uvlc_zeros_loop 32 0;
  if leading_zeros =? 32 then mret UINT32_MAX
  else
    let base := u32 (Z.shiftl 1 leading_zeros - 1) in
    value ← aom_rb_read_literal leading_zeros;
    mret (u32 (base + value)).

Definition aom_rb_read_primitive_quniform (n : Z) : reader aom_read_bit_buffer Z :=
  read_quniform n.
Definition aom_rb_read_primitive_subexpfin (n k : Z) : reader aom_read_bit_buffer Z :=
  read_subexpfin n k.
Definition aom_rb_read_primitive_refsubexpfin (n k ref : Z) : reader aom_read_bit_buffer Z :=
  read_refsubexpfin n k ref.

Definition aom_rb_read_signed_primitive_refsubexpfin (n k ref : Z)
  : reader aom_read_bit_buffer Z :=
  let ref := s16 (ref + (n - 1)) in
  let scaled_n := u16 (Z.shiftl n 1 - 1) in
  v ← aom_rb_read_primitive_refsubexpfin scaled_n k (u16 ref);
  mret (s16 (v - n + 1)).

(** ** Writing; [None] is a store outside the buffer *)

Definition aom_wb_is_byte_aligned (wb : aom_write_bit_buffer) : Z :=
  b2z (wb_bit_offset wb mod 8 =? 0).

Definition aom_wb_bytes_written (wb : aom_write_bit_buffer) : Z :=
  wb_bit_offset wb / 8 + b2z (0 <? wb_bit_offset wb mod 8).

(** The byte with bit [q] replaced: [b &= ~(1 << q); b |= bit << q]. *)
Definition replace_bit (byte q bit : Z) : Z :=
  u8 (Z.lor (u8 (Z.land byte (Z.lnot (Z.shiftl 1 q)))) (Z.shiftl bit q)).

Definition aom_wb_write_bit (wb : aom_write_bit_buffer) (bit : Z)
  : option aom_write_bit_buffer :=
  let off := s32 (wb_bit_offset wb) in
  let p := off ÷ 8 in
  let q := 8 - 1 - Z.rem off 8 in
  byte ← wb_bit_buffer wb !! Z.to_nat p;
  let byte' := if q =? 8 - 1 then u8 (Z.shiftl bit q) else replace_bit byte q bit in
  Some {| wb_bit_buffer := <[Z.to_nat p := byte']> (wb_bit_buffer wb);
          wb_bit_offset := u32 (off + 1) |}.

Definition overwrite_bit (wb : aom_write_bit_buffer) (bit : Z)
  : option aom_write_bit_buffer :=
  let off := s32 (wb_bit_offset wb) in
  let p := off ÷ 8 in
  let q := 8 - 1 - Z.rem off 8 in
  byte ← wb_bit_buffer wb !! Z.to_nat p;
  Some {| wb_bit_buffer := <[Z.to_nat p := replace_bit byte q bit]> (wb_bit_buffer wb);
          wb_bit_offset := u32 (off + 1) |}.

#[export] Instance wb_sink : BitSink aom_write_bit_buffer := aom_wb_write_bit.

(** [bits <= 31] *)
Definition aom_wb_write_literal (wb : aom_write_bit_buffer) (data bits : Z)
  : option aom_write_bit_buffer := write_literal wb data bits.

(** [bits <= 32] *)
Definition aom_wb_write_unsigned_literal (wb : aom_write_bit_buffer) (data bits : Z)
  : option aom_write_bit_buffer := write_literal wb data bits.

Fixpoint overwrite_literal_loop (bits : nat) (data : Z) (wb : aom_write_bit_buffer)
  : option aom_write_bit_buffer :=
  match bits with
  | O => Some wb
  | S bit =>
      wb ← overwrite_bit wb (Z.land (Z.shiftr data (Z.of_nat bit)) 1);
      overwrite_literal_loop bit data wb
  end.

Definition aom_wb_overwrite_literal (wb : aom_write_bit_buffer) (data bits : Z)
  : option aom_write_bit_buffer := overwrite_literal_loop (Z.to_nat bits) data wb.

Definition aom_wb_write_inv_signed_literal (wb : aom_write_bit_buffer) (data bits : Z)
  : option aom_write_bit_buffer := aom_wb_write_literal wb data (bits + 1).

(** [v != UINT32_MAX] *)
Definition aom_wb_write_uvlc (wb : aom_write_bit_buffer) (v : Z)
  : option aom_write_bit_buffer :=
  let v := u32 (v + 1) in
  let leading_zeroes := get_msb v in
  wb ← aom_wb_write_literal wb 0 leading_zeroes;
  aom_wb_write_unsigned_literal wb v (leading_zeroes + 1).

Definition wb_write_primitive_quniform (wb : aom_write_bit_buffer) (n v : Z)
  : option aom_write_bit_buffer := write_quniform wb n v.
Definition wb_write_primitive_subexpfin (wb : aom_write_bit_buffer) (n k v : Z)
  : option aom_write_bit_buffer := write_subexpfin wb n k v.
Definition wb_write_primitive_refsubexpfin (wb : aom_write_bit_buffer) (n k ref v : Z)
  : option aom_write_bit_buffer := write_refsubexpfin wb n k ref v.

Definition aom_wb_write_signed_primitive_refsubexpfin (wb : aom_write_bit_buffer)
    (n k ref v : Z) : option aom_write_bit_buffer :=
  let ref := s16 (ref + (n - 1)) in
  let v := s16 (v + (n - 1)) in
  let scaled_n := u16 (Z.shiftl n 1 - 1) in
  wb_write_primitive_refsubexpfin wb scaled_n k (u16 ref) (u16 v).

(** ** The bits of a buffer *)

(** Bit [i] of the buffer, most significant bit of byte 0 first. *)
Definition bit_at (bs : list Z) (i : nat) : bool :=
  Z.testbit (nth (i / 8) bs 0) (7 - Z.of_nat (i mod 8)).

Definition bits_range (bs : list Z) (from n : nat) : list bool := bit_at bs <$> seq from n.

(** The bits written so far, and the bits still to be read. *)
Definition written (wb : aom_write_bit_buffer) : list bool :=
  bits_range (wb_bit_buffer wb) 0 (Z.to_nat (wb_bit_offset wb)).
Definition remaining (rb : aom_read_bit_buffer) : list bool :=
  bits_range (rb_bit_buffer rb) (Z.to_nat (rb_bit_offset rb))
    (8 * length (rb_bit_buffer rb) - Z.to_nat (rb_bit_offset rb)).

(** A reader over a buffer of less than 2^29 bytes, so that no cursor wraps. *)
Definition rb_wf (rb : aom_read_bit_buffer) : Prop :=
  0 <= rb_bit_offset rb <= 8 * Z.of_nat (length (rb_bit_buffer rb)) /\
  8 * Z.of_nat (length (rb_bit_buffer rb)) < 2 ^ 32.

(** Reading a given buffer [buf] under a given handler [h], with exactly [bits]
    between the cursor and the end of the buffer. *)
Definition rb_pending (buf : list Z) (h : option aom_codec_err_t)
    (rb : aom_read_bit_buffer) (bits : list bool) : Prop :=
  rb_wf rb /\ rb_bit_buffer rb = buf /\ rb_error_handler rb = h /\ remaining rb = bits.

Definition wb_sent (w : aom_write_bit_buffer) (bits : list bool) (w' : aom_write_bit_buffer)
  : Prop :=
  written w' = written w ++ bits /\
  length (wb_bit_buffer w') = length (wb_bit_buffer w) /\
  wb_bit_offset w' = wb_bit_offset w + Z.of_nat (length bits).

Definition wb_room (w : aom_write_bit_buffer) (n : nat) : Prop :=
  0 <= wb_bit_offset w /\
  wb_bit_offset w + Z.of_nat n <= 8 * Z.of_nat (length (wb_bit_buffer w)) < 2 ^ 31.

(** ** The plain buffers satisfy the channel laws *)

Lemma shiftr3_land7 off : 0 <= off ->
  Z.to_nat (Z.shiftr off 3) = (Z.to_nat off / 8)%nat /\
  7 - Z.land off 7 = 7 - Z.of_nat (Z.to_nat off mod 8).
Proof.
  intros. rewrite Z.shiftr_div_pow2 by lia. change 7 with (Z.ones 3) at 2.
  rewrite Z.land_ones by lia. change (2 ^ 3) with 8.
  rewrite Z2Nat.inj_div by lia. split; [done |].
  rewrite Nat2Z.inj_mod, Z2Nat.id by lia. done.
Qed.

Lemma mod8_range i : 0 <= 7 - Z.of_nat (i mod 8) < 8.
Proof. pose proof (Nat.mod_upper_bound i 8). lia. Qed.

Lemma aom_rb_read_bit_ok rb :
  rb_wf rb -> rb_bit_offset rb < 8 * Z.of_nat (length (rb_bit_buffer rb)) ->
  aom_rb_read_bit rb =
    Ok (b2z (bit_at (rb_bit_buffer rb) (Z.to_nat (rb_bit_offset rb))),
        {| rb_bit_buffer := rb_bit_buffer rb; rb_bit_offset := rb_bit_offset rb + 1;
           rb_error_handler := rb_error_handler rb |}).
Proof.
  intros [[Ho _] Hl] Hlt. unfold aom_rb_read_bit, bit_at.
  destruct (shiftr3_land7 (rb_bit_offset rb) Ho) as [-> ->].
  rewrite nth_lookup_Z by (apply Nat.Div0.div_lt_upper_bound; lia).
  rewrite land_shiftr_bit, u32_small by (apply mod8_range || lia). done.
Qed.

(** Out of data: the handler decides, and without one the bit reads as 0 and the
    cursor stays. *)
Lemma aom_rb_read_bit_end rb :
  0 <= rb_bit_offset rb -> 8 * Z.of_nat (length (rb_bit_buffer rb)) <= rb_bit_offset rb ->
  aom_rb_read_bit rb =
    match rb_error_handler rb with Some e => Raise e | None => Ok (0, rb) end.
Proof.
  intros Ho Hge. unfold aom_rb_read_bit.
  destruct (shiftr3_land7 (rb_bit_offset rb) Ho) as [-> _].
  rewrite (proj2 (lookup_ge_None _ _)); [done |].
  apply Nat.div_le_lower_bound; lia.
Qed.

Lemma rb_get_ok buf h rb b bits :
  rb_pending buf h rb (b :: bits) ->
  exists rb', get_bit rb = Ok (b2z b, rb') /\ rb_pending buf h rb' bits.
Proof.
  intros (Hwf & Hbuf & Hh & Hrem). unfold remaining, bits_range in Hrem.
  destruct (8 * length (rb_bit_buffer rb) - Z.to_nat (rb_bit_offset rb))%nat as [|n] eqn:En;
    [done |].
  simpl in Hrem. injection Hrem as Hb Hrest. destruct (Hwf) as [Ho Hl].
  unfold get_bit, rb_source. rewrite aom_rb_read_bit_ok by (done || lia).
  rewrite <- Hb. eexists. split; [done |]. unfold rb_pending, rb_wf, remaining, bits_range. simpl.
  split_and!; try done; try lia. rewrite <- Hrest. f_equal. f_equal; lia.
Qed.

#[export] Instance rb_source_ok buf h : BitSourceOk bool aom_read_bit_buffer :=
  {| source_bit := fun b => b; pending := rb_pending buf h; get_bit_ok := rb_get_ok buf h |}.

Lemma replace_bit_testbit byte q b j : 0 <= q < 8 -> 0 <= j < 8 ->
  Z.testbit (replace_bit byte q (b2z b)) j = if j =? q then b else Z.testbit byte j.
Proof.
  intros Hq Hj. unfold replace_bit, u8, wrap.
  rewrite Z.mod_pow2_bits_low, Z.lor_spec, Z.mod_pow2_bits_low, Z.land_spec by lia.
  rewrite Z.lnot_spec, !Z.shiftl_spec by lia.
  destruct (Z.eqb_spec j q) as [-> | Hne].
  - rewrite Z.sub_diag. simpl. rewrite andb_false_r. by destruct b.
  - assert (forall c, Z.testbit (b2z c) (j - q) = false) as F.
    { intros c. destruct (Z.lt_ge_cases j q); [apply Z.testbit_neg_r; lia |].
      destruct c; [| apply Z.testbit_0_l]. apply Z.bits_above_log2; simpl; lia. }
    rewrite (F b). change 1 with (b2z true). rewrite F. simpl.
    by rewrite andb_true_r, orb_false_r.
Qed.

Lemma bit_at_insert_ne bs p byte i : (i / 8 <> p)%nat -> bit_at (<[p := byte]> bs) i = bit_at bs i.
Proof.
  intros Hne. unfold bit_at. f_equal.
  by rewrite !nth_lookup, list_lookup_insert_ne.
Qed.

Lemma bit_at_insert_eq bs p byte i : (i / 8 = p)%nat -> (p < length bs)%nat ->
  bit_at (<[p := byte]> bs) i = Z.testbit byte (7 - Z.of_nat (i mod 8)).
Proof.
  intros <- Hlt. unfold bit_at. f_equal.
  by rewrite nth_lookup, list_lookup_insert_eq.
Qed.

(** What either writer does to the bits: bit [off] becomes [b]; earlier bits are
    kept, and [overwrite_bit] keeps the later ones too. *)
Definition writes_bit (f : aom_write_bit_buffer -> Z -> option aom_write_bit_buffer)
    (keeps : nat -> nat -> Prop) : Prop :=
  forall w b, 0 <= wb_bit_offset w ->
    wb_bit_offset w < 8 * Z.of_nat (length (wb_bit_buffer w)) < 2 ^ 31 ->
    exists bs', f w (b2z b) =
        Some {| wb_bit_buffer := bs'; wb_bit_offset := wb_bit_offset w + 1 |} /\
      length bs' = length (wb_bit_buffer w) /\
      bit_at bs' (Z.to_nat (wb_bit_offset w)) = b /\
      forall i, keeps i (Z.to_nat (wb_bit_offset w)) -> bit_at bs' i = bit_at (wb_bit_buffer w) i.

Lemma wb_position off : 0 <= off < 2 ^ 31 ->
  Z.to_nat (s32 off ÷ 8) = (Z.to_nat off / 8)%nat /\
  8 - 1 - Z.rem (s32 off) 8 = 7 - Z.of_nat (Z.to_nat off mod 8) /\ u32 (s32 off + 1) = off + 1.
Proof.
  intros. rewrite s32_small, u32_small by lia.
  rewrite Z.quot_div_nonneg, Z.rem_mod_nonneg by lia.
  rewrite Z2Nat.inj_div by lia. rewrite Nat2Z.inj_mod, Z2Nat.id by lia.
  change (Z.of_nat 8) with 8. change (Z.to_nat 8) with 8%nat. split_and!; done || lia.
Qed.

Lemma same_byte_bit i off :
  (i / 8 = off / 8)%nat -> i <> off -> 7 - Z.of_nat (i mod 8) <> 7 - Z.of_nat (off mod 8).
Proof. intros H1 H2 H3. apply H2. rewrite (Nat.div_mod_eq i 8), (Nat.div_mod_eq off 8). lia. Qed.

Lemma overwrite_bit_writes : writes_bit overwrite_bit (fun i off => i <> off).
Proof.
  intros w b Ho Hl. unfold overwrite_bit.
  destruct (wb_position (wb_bit_offset w)) as (-> & -> & ->); [lia |].
  set (off := Z.to_nat (wb_bit_offset w)).
  assert ((off / 8 < length (wb_bit_buffer w))%nat) as Hlt
    by (apply Nat.Div0.div_lt_upper_bound; lia).
  rewrite nth_lookup_Z by done. cbn [mbind option_bind]. eexists. split; [done |].
  rewrite length_insert. split; [done |]. pose proof (mod8_range off).
  split.
  - rewrite bit_at_insert_eq, replace_bit_testbit by done. by rewrite Z.eqb_refl.
  - intros i Hi. destruct (decide (i / 8 = off / 8)%nat) as [E | E].
    + pose proof (mod8_range i).
      rewrite bit_at_insert_eq, replace_bit_testbit by done.
      rewrite (proj2 (Z.eqb_neq _ _)) by by apply same_byte_bit.
      unfold bit_at. by rewrite E.
    + by apply bit_at_insert_ne.
Qed.

Lemma aom_wb_write_bit_writes : writes_bit aom_wb_write_bit (fun i off => (i < off)%nat).
Proof.
  intros w b Ho Hl. destruct (overwrite_bit_writes w b Ho Hl) as (bs' & Eo & Hlen & Hb & Hi).
  unfold aom_wb_write_bit, overwrite_bit in *.
  destruct (wb_position (wb_bit_offset w)) as (Ep & Eq & Eu); [lia |].
  rewrite Ep, Eq, Eu in *. set (off := Z.to_nat (wb_bit_offset w)) in *.
  assert ((off / 8 < length (wb_bit_buffer w))%nat) as Hlt
    by (apply Nat.Div0.div_lt_upper_bound; lia).
  rewrite nth_lookup_Z in * by done. cbn [mbind option_bind] in *.
  change (8 - 1) with 7. destruct (Z.eqb_spec (7 - Z.of_nat (off mod 8)) 7) as [E7 | E7].
  - eexists. split; [done |]. rewrite length_insert. split; [done |].
    rewrite E7. split.
    + rewrite bit_at_insert_eq by done. rewrite E7. unfold u8, wrap.
      rewrite Z.mod_pow2_bits_low, Z.shiftl_spec by lia. by destruct b.
    + intros i Hlt'. apply bit_at_insert_ne.
      pose proof (Nat.div_mod_eq i 8). pose proof (Nat.div_mod_eq off 8). lia.
  - exists bs'. split; [exact Eo |]. split; [done |]. split; [done |].
    intros i Hlt'. apply Hi. lia.
Qed.

Lemma wb_sent_nil w : wb_sent w [] w.
Proof. unfold wb_sent. rewrite app_nil_r. simpl. split_and!; done || lia. Qed.

Lemma wb_sent_app w1 bits1 w2 bits2 w3 :
  wb_sent w1 bits1 w2 -> wb_sent w2 bits2 w3 -> wb_sent w1 (bits1 ++ bits2) w3.
Proof.
  intros (E1 & L1 & O1) (E2 & L2 & O2). unfold wb_sent.
  rewrite E2, E1, app_assoc, length_app. split_and!; congruence || lia.
Qed.

Lemma wb_put_ok w n b : wb_room w (S n) ->
  exists w', put_bit w (b2z b) = Some w' /\ wb_sent w [b] w' /\ wb_room w' n.
Proof.
  intros [Ho Hl].
  destruct (aom_wb_write_bit_writes w b) as (bs' & E & Hlen & Hb & Hi); [lia | lia |].
  exists {| wb_bit_buffer := bs'; wb_bit_offset := wb_bit_offset w + 1 |}.
  split; [exact E |]. unfold wb_sent, wb_room, written, bits_range; simpl. split_and!; try lia.
  replace (Z.to_nat (wb_bit_offset w + 1)) with (Z.to_nat (wb_bit_offset w) + 1)%nat by lia.
  rewrite seq_app, fmap_app. simpl. rewrite Hb. f_equal.
  apply list_fmap_ext. intros ? i Hk. apply lookup_seq in Hk. apply Hi. lia.
Qed.

#[export] Instance wb_sink_ok : BitSinkOk bool aom_write_bit_buffer :=
  {| sink_bit := fun b => b; room := wb_room; sent := wb_sent; sent_nil := wb_sent_nil;
     sent_app := wb_sent_app; put_bit_ok := wb_put_ok |}.

(** ** Reading from any stream

    [yields m P]: on whatever bytes, [m] stays inside its objects and ends in a value
    satisfying [P] unless it runs out of data and leaves through the error handler. *)
Definition yields {A} (m : reader aom_read_bit_buffer A) (P : A -> Prop) : Prop :=
  forall rb, match m rb with Ok (a, _) => P a | Raise _ => True | Fault => False end.

Lemma yields_ret {A} (a : A) (P : A -> Prop) : P a -> yields (mret a) P.
Proof. intros HP rb. exact HP. Qed.

Lemma yields_bind {A B} (m : reader aom_read_bit_buffer A) (k : A -> reader aom_read_bit_buffer B) P Q :
  yields m P -> (forall a, P a -> yields (k a) Q) -> yields (m ≫= k) Q.
Proof.
  intros Hm Hk rb. specialize (Hm rb). unfold mbind, reader_bind.
  destruct (m rb) as [[a rb'] | e |]; [exact (Hk a Hm rb') | done | done].
Qed.

Lemma yields_bit : yields aom_rb_read_bit (fun b => b = 0 \/ b = 1).
Proof.
  intros rb. unfold aom_rb_read_bit. destruct (_ !! _) as [byte |].
  - rewrite land_1_odd. destruct (Z.odd _); simpl; lia.
  - destruct (rb_error_handler rb); [done | by left].
Qed.

Lemma yields_literal_loop n x : 0 <= x ->
  yields (read_literal_loop n (x * 2 ^ Z.of_nat n))
    (fun v => x * 2 ^ Z.of_nat n <= v < (x + 1) * 2 ^ Z.of_nat n).
Proof.
  revert x. induction n as [|n IH]; intros x Hx.
  - apply yields_ret. change (2 ^ Z.of_nat 0) with 1. lia.
  - cbn [read_literal_loop]. eapply yields_bind; [exact yields_bit |]. intros b Hb.
    replace (Z.of_nat (S n)) with (Z.of_nat n + 1) by lia.
    assert (exists c, b = b2z c) as [c ->] by (destruct Hb as [-> | ->]; [by exists false | by exists true]).
    rewrite lor_bit by lia. intros rb. specialize (IH (2 * x + b2z c)).
    assert (0 <= b2z c <= 1) by (destruct c; simpl; lia).
    specialize (IH ltac:(lia) rb). destruct (read_literal_loop _ _ _) as [[v rb'] | |]; try done.
    rewrite pow2_split by lia. change (2 ^ 1) with 2. nia.
Qed.

Lemma yields_literal bits : yields (aom_rb_read_literal bits) (fun v => 0 <= v < 2 ^ Z.max bits 0).
Proof.
  intros rb. pose proof (yields_literal_loop (Z.to_nat bits) 0 ltac:(lia) rb) as H.
  unfold aom_rb_read_literal, read_literal.
  replace (Z.of_nat (Z.to_nat bits)) with (Z.max bits 0) in H by lia.
  rewrite Z.mul_0_l in H. destruct (read_literal_loop _ _ _) as [[v rb'] | |]; try done. lia.
Qed.

(** ** From a written field back to its value *)

(** [decodes_back wr n rd a]: with room for [n] more bits, [wr] writes [n] bits,
    keeps everything written before them, and [rd], placed where [wr] began in
    any buffer that starts with the bytes written so far, returns [a] and stops
    where [wr] stopped. *)
Definition decodes_back {A} (wr : aom_write_bit_buffer -> option aom_write_bit_buffer)
    (n : nat) (rd : reader aom_read_bit_buffer A) (a : A) : Prop :=
  forall w extra, wb_room w (n + extra) ->
    exists w', wr w = Some w' /\ wb_room w' extra /\
      wb_bit_offset w' = wb_bit_offset w + Z.of_nat n /\
      take (Z.to_nat (wb_bit_offset w)) (written w') = written w /\
      forall tail h,
        let buf := take (Z.to_nat (aom_wb_bytes_written w')) (wb_bit_buffer w') ++ tail in
        8 * Z.of_nat (length buf) < 2 ^ 32 ->
        rd {| rb_bit_buffer := buf; rb_bit_offset := wb_bit_offset w; rb_error_handler := h |} =
        Ok (a, {| rb_bit_buffer := buf; rb_bit_offset := wb_bit_offset w';
                  rb_error_handler := h |}).

Lemma bytes_written_bounds w : 0 <= wb_bit_offset w ->
  wb_bit_offset w <= 8 * aom_wb_bytes_written w < wb_bit_offset w + 8.
Proof.
  intros. unfold aom_wb_bytes_written.
  destruct (Z.ltb_spec 0 (wb_bit_offset w mod 8)); simpl; dlia.
Qed.

Lemma bit_at_prefix bs k tail i : (i < 8 * k)%nat -> (k <= length bs)%nat ->
  bit_at (take k bs ++ tail) i = bit_at bs i.
Proof.
  intros Hi Hk. unfold bit_at. f_equal.
  assert (i / 8 < k)%nat by (apply Nat.Div0.div_lt_upper_bound; lia).
  rewrite !nth_lookup, lookup_app_l by (rewrite length_take; lia).
  by rewrite lookup_take_lt.
Qed.

Lemma length_bits_range bs i n : length (bits_range bs i n) = n.
Proof. unfold bits_range. by rewrite length_fmap, length_seq. Qed.

Lemma bits_range_app bs i n m : bits_range bs i (n + m) = bits_range bs i n ++ bits_range bs (i + n) m.
Proof. unfold bits_range. by rewrite seq_app, fmap_app. Qed.

Lemma bits_range_ext bs bs' i n :
  (forall j, (i <= j < i + n)%nat -> bit_at bs j = bit_at bs' j) ->
  bits_range bs i n = bits_range bs' i n.
Proof.
  intros Hj. apply list_fmap_ext. intros ? j Hk. apply lookup_seq in Hk. apply Hj. lia.
Qed.

(** An empty rest pins the cursor to the end of the buffer. *)
Lemma pending_offset buf h rb bits :
  rb_pending buf h rb bits ->
  rb = {| rb_bit_buffer := buf; rb_error_handler := h;
          rb_bit_offset := 8 * Z.of_nat (length buf) - Z.of_nat (length bits) |}.
Proof.
  intros ([Ho _] & <- & <- & <-). unfold remaining. rewrite length_bits_range.
  destruct rb as [buf o h]; simpl in *. f_equal. lia.
Qed.

Lemma link {A} wr rd bits (a : A) :
  emits (E := bool) wr bits ->
  (forall buf h, takes (src_ok := rb_source_ok buf h) rd bits a) ->
  decodes_back wr (length bits) rd a.
Proof.
  intros He Ht w extra Hr. destruct (He w extra Hr) as (w' & Ew & Hs & Hr').
  change (wb_sent w (id <$> bits) w') in Hs. rewrite list_fmap_id in Hs.
  destruct Hs as (Hw & Hl & Ho). destruct Hr as [Ho0 Hrm], Hr' as [Ho1 Hrm'].
  exists w'. split_and!; try done.
  { rewrite Hw. apply take_app_length'. unfold written. by rewrite length_bits_range. }
  intros tail h buf Hbuf.
  pose proof (bytes_written_bounds w' Ho1) as Hbw.
  assert (aom_wb_bytes_written w' <= Z.of_nat (length (wb_bit_buffer w'))) as Hbl by lia.
  assert (8 * Z.of_nat (length buf) >= wb_bit_offset w') as Hge
    by (unfold buf; rewrite length_app, length_take; lia).
  set (o := Z.to_nat (wb_bit_offset w)) in *.
  assert (Z.to_nat (wb_bit_offset w') = o + length bits)%nat as Eo by lia.
  set (es := bits_range buf (o + length bits) (8 * length buf - (o + length bits))).
  destruct (Ht buf h {| rb_bit_buffer := buf; rb_bit_offset := wb_bit_offset w;
                        rb_error_handler := h |} es) as (rb' & Erd & Hp).
  - unfold pending, rb_source_ok, source_bit, rb_pending, rb_wf, remaining.
    cbn [rb_bit_buffer rb_bit_offset rb_error_handler]. split_and!; try done; try lia.
    rewrite list_fmap_id.
    replace (8 * length buf - Z.to_nat (wb_bit_offset w))%nat
      with (length bits + (8 * length buf - (o + length bits)))%nat by lia.
    rewrite bits_range_app. f_equal.
    assert (bits = bits_range (wb_bit_buffer w') o (length bits)) as ->.
    { unfold written in Hw. rewrite Eo, bits_range_app in Hw.
      apply app_inj_1 in Hw as [_ Hw]; [done | by rewrite !length_bits_range]. }
    rewrite length_bits_range. apply bits_range_ext. intros j Hj.
    apply bit_at_prefix; lia.
  - rewrite Erd. apply pending_offset in Hp. rewrite Hp. do 3 f_equal.
    unfold es. rewrite length_bits_range. lia.
Qed.

(** ** Header fields round trip *)

Lemma lit_bits_mod n v : lit_bits n (v mod 2 ^ Z.of_nat n) = lit_bits n v.
Proof.
  enough (forall m, (m <= n)%nat -> lit_bits m (v mod 2 ^ Z.of_nat n) = lit_bits m v) by auto.
  induction m as [|m IH]; intros Hm; simpl; [done |].
  rewrite IH, Z.mod_pow2_bits_low by lia. done.
Qed.

(** An unsigned literal of up to 32 bits. *)
Theorem unsigned_literal_roundtrip bits v :
  0 <= bits <= 32 -> 0 <= v < 2 ^ bits ->
  decodes_back (fun w => aom_wb_write_unsigned_literal w v bits) (Z.to_nat bits)
    (aom_rb_read_unsigned_literal bits) v.
Proof.
  intros Hb Hv. rewrite <- (length_lit_bits (Z.to_nat bits) v).
  apply link; [apply emits_literal | intros; apply takes_literal; lia].
Qed.

Lemma unsigned_literal_roundtrip_witness :
  decodes_back (fun w => aom_wb_write_unsigned_literal w 4294967295 32) (Z.to_nat 32)
    (aom_rb_read_unsigned_literal 32) 4294967295.
Proof. apply unsigned_literal_roundtrip; vm_compute; split; discriminate || done. Defined.

Lemma sign_extend x v b : 0 <= b <= 30 -> - 2 ^ b <= v < 2 ^ b -> x = v mod 2 ^ (b + 1) ->
  Z.shiftr (s32 (u32 (Z.shiftl x (32 - b - 1)))) (32 - b - 1) = v.
Proof.
  intros Hb Hv ->. set (e := 32 - b - 1).
  assert (2 ^ 31 = 2 ^ b * 2 ^ e) as E31 by (rewrite <- pow2_split by lia; f_equal; lia).
  assert (2 ^ (b + 1) = 2 * 2 ^ b) as Eb by (rewrite pow2_split by lia; lia).
  pose proof (pow2_pos b ltac:(lia)). pose proof (pow2_pos e ltac:(lia)).
  rewrite Z.shiftl_mul_pow2 by lia.
  assert (2 ^ 31 = 2147483648) as Ec by done. rewrite Ec in E31.
  assert (v mod 2 ^ (b + 1) = if v <? 0 then v + 2 ^ (b + 1) else v) as ->.
  { destruct (Z.ltb_spec v 0); [| apply Z.mod_small; lia].
    rewrite <- (Z.mod_small (v + 2 ^ (b + 1)) (2 ^ (b + 1))) by lia.
    rewrite <- Zplus_mod_idemp_r, Z.mod_same by lia. by rewrite Z.add_0_r. }
  destruct (Z.ltb_spec v 0); rewrite (u32_small _) by nia.
  - assert (s32 ((v + 2 ^ (b + 1)) * 2 ^ e) = v * 2 ^ e) as ->.
    { unfold s32, swrap. change (2 ^ 32) with 4294967296. change (2 ^ (32 - 1)) with 2147483648.
      replace ((v + 2 ^ (b + 1)) * 2 ^ e + 2147483648)
        with (v * 2 ^ e + 2147483648 + 1 * 4294967296) by nia.
      rewrite Z.mod_add, Z.mod_small by nia. lia. }
    by rewrite Z.shiftr_div_pow2, Z.div_mul by lia.
  - rewrite s32_small by nia. by rewrite Z.shiftr_div_pow2, Z.div_mul by lia.
Qed.

(** The signed fields of the quantizer and loop filter headers
    (two's complement in [bits + 1] bits). *)
Theorem inv_signed_literal_roundtrip bits v :
  0 <= bits <= 30 -> - 2 ^ bits <= v < 2 ^ bits ->
  decodes_back (fun w => aom_wb_write_inv_signed_literal w v bits) (Z.to_nat (bits + 1))
    (aom_rb_read_inv_signed_literal bits) v.
Proof.
  intros Hb Hv. rewrite <- (length_lit_bits (Z.to_nat (bits + 1)) v).
  apply link; [apply emits_literal | intros buf h].
  rewrite <- lit_bits_mod, Z2Nat.id by lia.
  eapply takes_bind_ret; [| by apply sign_extend].
  apply takes_literal; [lia |]. apply Z.mod_pos_bound, pow2_pos. lia.
Qed.

Lemma inv_signed_literal_roundtrip_witness :
  decodes_back (fun w => aom_wb_write_inv_signed_literal w (-37) 6) (Z.to_nat (6 + 1))
    (aom_rb_read_inv_signed_literal 6) (-37).
Proof. apply inv_signed_literal_roundtrip; vm_compute; split; discriminate || done. Defined.

Definition uvlc_bits (v : Z) : list bool :=
  let lz := Z.to_nat (Z.log2 (v + 1)) in
  replicate lz false ++ true :: lit_bits lz (v + 1 - 2 ^ Z.log2 (v + 1)).

Lemma lit_bits_0 n : lit_bits n 0 = replicate n false.
Proof. induction n; simpl; rewrite ?Z.testbit_0_l; congruence. Qed.

Lemma lit_bits_top n x : 0 <= x -> Z.log2 x = Z.of_nat n -> x <> 0 ->
  lit_bits (S n) x = true :: lit_bits n (x - 2 ^ Z.of_nat n).
Proof.
  intros Hx Hl Hx0. simpl. rewrite <- Hl, Z.bit_log2 by lia. rewrite Hl. f_equal.
  rewrite <- (lit_bits_mod n x), <- (lit_bits_mod n (x - _)). f_equal.
  rewrite <- (Z.mod_add (x - 2 ^ Z.of_nat n) 1) by (apply Z.pow_nonzero; lia).
  f_equal. lia.
Qed.

Section Uvlc.
Context (buf : list Z) (h : option aom_codec_err_t).
#[local] Existing Instance rb_source_ok.

Lemma takes_uvlc_zeros n fuel z :
  (n < fuel)%nat ->
  takes (src_ok := rb_source_ok buf h) (uvlc_zeros_loop fuel z)
    (replicate n false ++ [true]) (z + Z.of_nat n).
Proof.
  revert fuel z. induction n as [|n IH]; intros [|fuel] z Hf; [lia | | lia |];
    cbn [uvlc_zeros_loop replicate app].
  - change [true] with ([true] ++ []). eapply takes_bind; [apply takes_get |].
    simpl. rewrite Z.add_0_r. apply takes_ret.
  - replace (z + Z.of_nat (S n)) with (z + 1 + Z.of_nat n) by lia.
    change (false :: ?l) with ([false] ++ l). eapply takes_bind; [apply takes_get |].
    apply IH. lia.
Qed.

Lemma takes_uvlc v : 0 <= v < UINT32_MAX ->
  takes (src_ok := rb_source_ok buf h) aom_rb_read_uvlc (uvlc_bits v) v.
Proof.
  intros Hv. unfold UINT32_MAX in Hv. unfold aom_rb_read_uvlc, uvlc_bits.
  pose proof (log2_bound (v + 1) 32 ltac:(lia) ltac:(lia)) as Hl.
  pose proof (Z.log2_spec (v + 1) ltac:(lia)) as Hs.
  set (lz := Z.log2 (v + 1)) in *.
  replace (replicate (Z.to_nat lz) false ++ true :: lit_bits (Z.to_nat lz) (v + 1 - 2 ^ lz))
    with ((replicate (Z.to_nat lz) false ++ [true]) ++
          lit_bits (Z.to_nat lz) (v + 1 - 2 ^ lz)) by by rewrite <- app_assoc.
  eapply takes_bind; [apply takes_uvlc_zeros; lia |]. cbv beta.
  rewrite Z.add_0_l, Z2Nat.id by lia. rewrite (proj2 (Z.eqb_neq _ _)) by lia.
  rewrite <- Z.add_1_r, pow2_split in Hs by lia. change (2 ^ 1) with 2 in Hs.
  pose proof (pow2_pos lz ltac:(lia)).
  eapply takes_bind_ret; [apply (takes_literal _ (v + 1 - 2 ^ lz)); lia |].
  rewrite Z.shiftl_mul_pow2, Z.mul_1_l by lia.
  rewrite (u32_small (2 ^ lz - 1)), u32_small; lia.
Qed.
End Uvlc.

(** Over any law the buffer obeys as a carrier. *)
Lemma emits_uvlc (ok : BitSinkOk bool aom_write_bit_buffer) v : 0 <= v < UINT32_MAX ->
  emits (snk_ok := ok) (fun w => aom_wb_write_uvlc w v) (uvlc_bits v).
Proof.
  intros Hv. pose proof (Z.log2_nonneg (v + 1)). unfold aom_wb_write_uvlc, uvlc_bits, get_msb.
  rewrite u32_small by (unfold UINT32_MAX in Hv; lia). rewrite <- lit_bits_0.
  replace (true :: _) with (lit_bits (Z.to_nat (Z.log2 (v + 1) + 1)) (v + 1)).
  { apply (emits_app (snk_ok := ok) (fun w => aom_wb_write_literal w _ _)
             (fun w => aom_wb_write_unsigned_literal w _ _)); apply (emits_literal (snk_ok := ok)). }
  replace (Z.to_nat (Z.log2 (v + 1) + 1)) with (S (Z.to_nat (Z.log2 (v + 1)))) by lia.
  rewrite lit_bits_top by lia. by rewrite Z2Nat.id by lia.
Qed.

(** The variable length code used for the timing information, on its whole
    documented range (every 32-bit value but [UINT32_MAX]). *)
Theorem uvlc_roundtrip v :
  0 <= v < UINT32_MAX ->
  decodes_back (fun w => aom_wb_write_uvlc w v) (length (uvlc_bits v)) aom_rb_read_uvlc v /\
  length (uvlc_bits v) = Z.to_nat (2 * Z.log2 (v + 1) + 1).
Proof.
  intros Hv. pose proof (Z.log2_nonneg (v + 1)). split.
  - apply link; [by apply emits_uvlc | intros; by apply takes_uvlc].
  - unfold uvlc_bits. rewrite length_app, length_replicate, length_cons, length_lit_bits. lia.
Qed.

Lemma uvlc_roundtrip_witness :
  decodes_back (fun w => aom_wb_write_uvlc w 4294967294)
    (length (uvlc_bits 4294967294)) aom_rb_read_uvlc 4294967294 /\
  length (uvlc_bits 4294967294) = Z.to_nat (2 * Z.log2 (4294967294 + 1) + 1).
Proof. apply (uvlc_roundtrip 4294967294). vm_compute; split; discriminate || done. Defined.

(** the reference-coded signed values of the global motion parameters. *)
Theorem signed_refsubexpfin_roundtrip n k ref v :
  1 <= n <= 16384 -> 0 <= k <= 16 -> - n < ref < n -> - n < v < n ->
  decodes_back (fun w => aom_wb_write_signed_primitive_refsubexpfin w n k ref v)
    (length (refsubexpfin_bits (2 * n - 1) k (ref + n - 1) (v + n - 1)))
    (aom_rb_read_signed_primitive_refsubexpfin n k ref) v.
Proof.
  intros Hn Hk Hr Hv.
  assert (s16 (ref + (n - 1)) = ref + n - 1) as Er by (rewrite s16_small; lia).
  assert (s16 (v + (n - 1)) = v + n - 1) as Ev by (rewrite s16_small; lia).
  assert (u16 (Z.shiftl n 1 - 1) = 2 * n - 1) as En
    by (rewrite Z.shiftl_mul_pow2 by lia; change (2 ^ 1) with 2; rewrite u16_small; lia).
  apply link.
  - unfold aom_wb_write_signed_primitive_refsubexpfin. rewrite Er, Ev, En, !u16_small by lia.
    apply emits_refsubexpfin; lia.
  - intros buf h. unfold aom_rb_read_signed_primitive_refsubexpfin.
    rewrite Er, En, u16_small by lia.
    eapply takes_bind_ret; [apply (takes_refsubexpfin _ _ _ (v + n - 1)); lia |].
    rewrite s16_small; lia.
Qed.

Lemma signed_refsubexpfin_roundtrip_witness :
  decodes_back (fun w => aom_wb_write_signed_primitive_refsubexpfin w 4097 3 (-12) 3100)
    (length (refsubexpfin_bits (2 * 4097 - 1) 3 (-12 + 4097 - 1) (3100 + 4097 - 1)))
    (aom_rb_read_signed_primitive_refsubexpfin 4097 3 (-12)) 3100.
Proof. apply signed_refsubexpfin_roundtrip; lia. Defined.

Lemma overwrite_literal_loop_ok n data w :
  wb_room w n ->
  exists w', overwrite_literal_loop n data w = Some w' /\
    length (wb_bit_buffer w') = length (wb_bit_buffer w) /\
    wb_bit_offset w' = wb_bit_offset w + Z.of_nat n /\
    bits_range (wb_bit_buffer w') (Z.to_nat (wb_bit_offset w)) n = lit_bits n data /\
    forall i, ~ (Z.to_nat (wb_bit_offset w) <= i < Z.to_nat (wb_bit_offset w) + n)%nat ->
      bit_at (wb_bit_buffer w') i = bit_at (wb_bit_buffer w) i.
Proof.
  revert w. induction n as [|n IH]; intros w [Ho Hl].
  { exists w. simpl. split_and!; done || lia. }
  destruct (overwrite_bit_writes w (Z.testbit data (Z.of_nat n))) as (bs' & E & Hlen & Hb & Hi);
    [lia | lia |].
  cbn [overwrite_literal_loop]. rewrite land_shiftr_bit, E by lia. cbn [mbind option_bind].
  destruct (IH {| wb_bit_buffer := bs'; wb_bit_offset := wb_bit_offset w + 1 |})
    as (w' & Ew & Hl' & Ho' & Hbits & Hother); [unfold wb_room; simpl; lia |].
  cbn [wb_bit_buffer wb_bit_offset] in *. set (o := Z.to_nat (wb_bit_offset w)) in *.
  replace (Z.to_nat (wb_bit_offset w + 1)) with (S o) in * by lia.
  exists w'. split_and!; try (done || lia).
  - change (S n) with (1 + n)%nat. rewrite bits_range_app. simpl.
    rewrite Hother, Hb by lia. by rewrite Nat.add_1_r, Hbits.
  - intros i Hni. rewrite Hother by lia. apply Hi. lia.
Qed.

(** patching a field that was reserved earlier rewrites exactly that field:
    its bits become the new value and every other bit of the buffer, before and
    after it, is what it was. *)
Theorem overwrite_literal_patches w data bits :
  0 <= bits -> wb_room w (Z.to_nat bits) ->
  exists w', aom_wb_overwrite_literal w data bits = Some w' /\
    length (wb_bit_buffer w') = length (wb_bit_buffer w) /\
    wb_bit_offset w' = wb_bit_offset w + bits /\
    bits_range (wb_bit_buffer w') (Z.to_nat (wb_bit_offset w)) (Z.to_nat bits)
      = lit_bits (Z.to_nat bits) data /\
    forall i, ~ (wb_bit_offset w <= Z.of_nat i < wb_bit_offset w + bits) ->
      bit_at (wb_bit_buffer w') i = bit_at (wb_bit_buffer w) i.
Proof.
  intros Hb Hr. destruct (overwrite_literal_loop_ok _ data w Hr) as (w' & E & Hl & Ho & Hbits & Hi).
  destruct Hr as [H0 _].
  exists w'. split_and!; try (done || lia). intros i Hni. apply Hi. lia.
Qed.

Lemma overwrite_literal_patches_witness :
  let w := {| wb_bit_buffer := [255; 255; 0]; wb_bit_offset := 5 |} in
  exists w', aom_wb_overwrite_literal w 9 6 = Some w' /\
    length (wb_bit_buffer w') = length (wb_bit_buffer w) /\
    wb_bit_offset w' = wb_bit_offset w + 6 /\
    bits_range (wb_bit_buffer w') (Z.to_nat (wb_bit_offset w)) (Z.to_nat 6)
      = lit_bits (Z.to_nat 6) 9 /\
    forall i, ~ (wb_bit_offset w <= Z.of_nat i < wb_bit_offset w + 6) ->
      bit_at (wb_bit_buffer w') i = bit_at (wb_bit_buffer w) i.
Proof.
  intros w. apply (overwrite_literal_patches w 9 6); [lia |].
  unfold wb_room; simpl; lia.
Defined.
