(* ===== verification/EntCoder.v ===== *)
(** * The range coder

    [aom_dsp/entenc.c] (with the inline output routines of [aom_dsp/entenc.h]),
    [aom_dsp/entdec.c] and [aom_dsp/entcode.c]: the arithmetic coder every tile
    of a frame goes through.  States are the C structs field by field; the output
    buffer is a list of bytes of length [storage], memory is obtained from an
    [allocator], and [None] is an access outside a buffer. *)

From S2P Require Import Prelude CodecTypes BitChannel.

Definition EC_PROB_SHIFT : Z := 6.
Definition EC_MIN_PROB : Z := 4.
Definition OD_EC_WINDOW_SIZE : Z := 32.
Definition OD_EC_LOTS_OF_BITS : Z := 16384.
Definition OD_BITRES : Z := 3.
Definition CDF_PROB_TOP : Z := 32768.
Definition AOM_ICDF (x : Z) : Z := CDF_PROB_TOP - x.
Definition OD_ILOG_NZ (x : Z) : Z := 1 + get_msb x.

(** [malloc]/[realloc]: which sizes are granted, and what fresh bytes hold. *)
Record allocator := {
  grants : Z -> bool;
  fresh_byte : nat -> Z }.

Definition c_realloc (al : allocator) (buf : list Z) (size : Z) : option (list Z) :=
  if grants al size then
    Some (take (Z.to_nat size) buf ++
          (fresh_byte al <$> seq (length buf) (Z.to_nat size - length buf)))
  else None.

Definition grants_all (al : allocator) : Prop := forall n, grants al n = true.

Lemma c_realloc_grow al buf size :
  grants_all al -> Z.of_nat (length buf) <= size ->
  exists out, c_realloc al buf size = Some out /\ Z.of_nat (length out) = size /\
    forall n, (n <= length buf)%nat -> take n out = take n buf.
Proof.
  intros Hal Hs. unfold c_realloc. rewrite Hal. eexists. split; [done |].
  rewrite length_app, length_take, length_fmap, length_seq. split; [lia |].
  intros n Hn. rewrite take_app_le by (rewrite length_take; lia).
  rewrite take_take. f_equal. lia.
Qed.

(** ** Encoder *)

Record od_ec_enc := {
  enc_buf : list Z;
  enc_storage : Z;   (* uint32_t *)
  enc_offs : Z;      (* uint32_t *)
  enc_low : Z;       (* uint64_t *)
  enc_rng : Z;       (* uint16_t *)
  enc_cnt : Z;       (* int16_t *)
  enc_error : Z }.

Definition od_ec_enc_reset (enc : od_ec_enc) : od_ec_enc :=
  {| enc_buf := enc_buf enc; enc_storage := enc_storage enc;
     enc_offs := 0; enc_low := 0; enc_rng := 32768; enc_cnt := -9; enc_error := 0 |}.

Definition od_ec_enc_init (al : allocator) (enc : od_ec_enc) (size : Z) : od_ec_enc :=
  let enc := od_ec_enc_reset enc in
  match c_realloc al [] size with
  | Some buf =>
      {| enc_buf := buf; enc_storage := size; enc_offs := enc_offs enc;
         enc_low := enc_low enc; enc_rng := enc_rng enc; enc_cnt := enc_cnt enc;
         enc_error := enc_error enc |}
  | None =>
      {| enc_buf := []; enc_storage := if 0 <? size then 0 else size;
         enc_offs := enc_offs enc; enc_low := enc_low enc; enc_rng := enc_rng enc;
         enc_cnt := enc_cnt enc; enc_error := if 0 <? size then -1 else 0 |}
  end.

(** [do { sum = buf[offs] + 1; buf[offs--] = sum; carry = sum >> 8; } while (carry)];
    past index 0 the 32-bit offset wraps and the access leaves the buffer. *)
Fixpoint propagate_carry_bwd (buf : list Z) (offs : nat) : option (list Z) :=
  b ← buf !! offs;
  let sum := u16 (b + 1) in
  let buf := <[offs := u8 sum]> buf in
  if Z.shiftr sum 8 =? 0 then Some buf
  else match offs with
       | O => None
       | S offs' => propagate_carry_bwd buf offs'
       end.

(** The eight bytes [memcpy] copies from [HToBE64(x)]. *)
Fixpoint be_bytes (n : nat) (x : Z) : list Z :=
  match n with
  | O => []
  | S n' => u8 (Z.shiftr x (8 * Z.of_nat n')) :: be_bytes n' x
  end.

Definition c_memcpy (buf : list Z) (offs : nat) (data : list Z) : option (list Z) :=
  if (offs + length data <=? length buf)%nat
  then Some (take offs buf ++ data ++ drop (offs + length data) buf) else None.

(** Result: the buffer and [*enc_offs]. *)
Definition write_enc_data_to_out_buf (out : list Z) (offs output carry num_bytes_ready : Z)
  : option (list Z * Z) :=
  let reg := u64 (Z.shiftl output (Z.shiftl (8 - num_bytes_ready) 3)) in
  out ← c_memcpy out (Z.to_nat offs) (be_bytes 8 reg);
  out ← (if negb (carry =? 0)
         then (if offs =? 0 then None else propagate_carry_bwd out (Z.to_nat (offs - 1)))
         else Some out);
  Some (out, u32 (offs + num_bytes_ready)).

Definition od_ec_enc_normalize (al : allocator) (enc : od_ec_enc) (low rng : Z)
  : option od_ec_enc :=
  if negb (enc_error enc =? 0) then Some enc
  else
    let c := enc_cnt enc in
    let d := 16 - OD_ILOG_NZ rng in
    let s := c + d in
    if 40 <=? s then
      let offs := enc_offs enc in
      let grown :=
        if enc_storage enc <? u32 (offs + 8) then
          let storage := u32 (2 * enc_storage enc + 8) in
          match c_realloc al (enc_buf enc) storage with
          | Some out => Some (out, storage)
          | None => None
          end
        else Some (enc_buf enc, enc_storage enc) in
      match grown with
      | None =>
          Some {| enc_buf := enc_buf enc; enc_storage := enc_storage enc; enc_offs := offs;
                  enc_low := enc_low enc; enc_rng := enc_rng enc; enc_cnt := enc_cnt enc;
                  enc_error := -1 |}
      | Some (out, storage) =>
          let num_bytes_ready := u8 (Z.shiftr s 3 + 1) in
          let c := c + (24 - Z.shiftl num_bytes_ready 3) in
          let output := Z.shiftr low c in
          let low := Z.land low (u64 (Z.shiftl 1 c) - 1) in
          let mask := u64 (Z.shiftl 1 (Z.shiftl num_bytes_ready 3)) in
          let carry := Z.land output mask in
          let mask := mask - 1 in
          let output := Z.land output mask in
          '(out, offs) ← write_enc_data_to_out_buf out offs output carry num_bytes_ready;
          let s := c + d - 24 in
          Some {| enc_buf := out; enc_storage := storage; enc_offs := offs;
                  enc_low := u64 (Z.shiftl low d); enc_rng := u16 (Z.shiftl rng d);
                  enc_cnt := s16 s; enc_error := 0 |}
      end
    else
      Some {| enc_buf := enc_buf enc; enc_storage := enc_storage enc;
              enc_offs := enc_offs enc; enc_low := u64 (Z.shiftl low d);
              enc_rng := u16 (Z.shiftl rng d); enc_cnt := s16 s; enc_error := 0 |}.

(** [((r >> 8) * (uint32_t)(f >> EC_PROB_SHIFT) >> (7 - EC_PROB_SHIFT))] *)
Definition ec_scale (r f : Z) : Z :=
  Z.shiftr (u32 (Z.shiftr r 8 * Z.shiftr f EC_PROB_SHIFT)) (7 - EC_PROB_SHIFT).

Definition od_ec_encode_q15 (al : allocator) (enc : od_ec_enc) (fl fh s nsyms : Z)
  : option od_ec_enc :=
  let l := enc_low enc in
  let r := enc_rng enc in
  let N := nsyms - 1 in
  if fl <? CDF_PROB_TOP then
    let u := u32 (ec_scale r fl + EC_MIN_PROB * (N - (s - 1))) in
    let v := u32 (ec_scale r fh + EC_MIN_PROB * (N - (s + 0))) in
    od_ec_enc_normalize al enc (u64 (l + u32 (r - u))) (u32 (u - v))
  else
    od_ec_enc_normalize al enc l
      (u32 (r - (ec_scale r fh + EC_MIN_PROB * (N - (s + 0))))).

Definition od_ec_encode_bool_q15 (al : allocator) (enc : od_ec_enc) (val f : Z)
  : option od_ec_enc :=
  let l := enc_low enc in
  let r := enc_rng enc in
  let v := u32 (ec_scale r f + EC_MIN_PROB) in
  let l := if negb (val =? 0) then u64 (l + u32 (r - v)) else l in
  let r := if negb (val =? 0) then v else u32 (r - v) in
  od_ec_enc_normalize al enc l r.

Definition od_ec_encode_cdf_q15 (al : allocator) (enc : od_ec_enc) (s : Z)
    (icdf : list Z) (nsyms : Z) : option od_ec_enc :=
  fl ← (if 0 <? s then icdf !! Z.to_nat (s - 1) else Some (AOM_ICDF 0));
  fh ← icdf !! Z.to_nat s;
  od_ec_encode_q15 al enc fl fh s nsyms.

(** The flush loop of [od_ec_enc_done]; [s] drops by 8 each pass. *)
Fixpoint enc_done_loop (fuel : nat) (out : list Z) (offs e s c n : Z)
  : option (list Z * Z) :=
  match fuel with
  | O => Some (out, offs)
  | S fuel' =>
      let val := u16 (Z.shiftr e (c + 16)) in
      out ← (if offs <? Z.of_nat (length out)
             then Some (<[Z.to_nat offs := Z.land val 255]> out) else None);
      out ← (if negb (Z.land val 256 =? 0)
             then (if offs =? 0 then None else propagate_carry_bwd out (Z.to_nat (offs - 1)))
             else Some out);
      let offs := u32 (offs + 1) in
      let e := Z.land e n in
      let s := s - 8 in
      if 0 <? s then enc_done_loop fuel' out offs e s (c - 8) (Z.shiftr n 8)
      else Some (out, offs)
  end.

(** Result: the encoder afterwards and what is returned: [None] is [NULL],
    [Some (out, nbytes)] the buffer and [*nbytes]. *)
Definition od_ec_enc_done (al : allocator) (enc : od_ec_enc)
  : option (od_ec_enc * option (list Z * Z)) :=
  if negb (enc_error enc =? 0) then Some (enc, None)
  else
    let l := enc_low enc in
    let c := enc_cnt enc in
    let m := 16383 in
    let e := Z.lor (Z.land (u64 (l + m)) (Z.lnot m)) (m + 1) in
    let s := 10 + c in
    let offs := enc_offs enc in
    let s_bits := Z.shiftr (s + 7) 3 in
    let b := Z.max s_bits 0 in
    let grown :=
      if enc_storage enc <? u32 (offs + b) then
        let storage := u32 (offs + b) in
        match c_realloc al (enc_buf enc) storage with
        | Some out => Some (out, storage)
        | None => None
        end
      else Some (enc_buf enc, enc_storage enc) in
    match grown with
    | None =>
        Some ({| enc_buf := enc_buf enc; enc_storage := enc_storage enc; enc_offs := offs;
                 enc_low := enc_low enc; enc_rng := enc_rng enc; enc_cnt := enc_cnt enc;
                 enc_error := -1 |}, None)
    | Some (out, storage) =>
        '(out, nbytes) ←
          (if 0 <? s then enc_done_loop (Z.to_nat s) out offs e s c (Z.shiftl 1 (c + 16) - 1)
           else Some (out, offs));
        Some ({| enc_buf := out; enc_storage := storage; enc_offs := enc_offs enc;
                 enc_low := enc_low enc; enc_rng := enc_rng enc; enc_cnt := enc_cnt enc;
                 enc_error := 0 |}, Some (out, nbytes))
    end.

Definition od_ec_enc_tell (enc : od_ec_enc) : Z := enc_cnt enc + 10 + enc_offs enc * 8.

(** ** Fractional bit usage *)

(** [for (i = OD_BITRES; i-- > 0;)] *)
Fixpoint tell_frac_loop (i : nat) (rng l : Z) : Z :=
  match i with
  | O => l
  | S i' =>
      let rng := Z.shiftr (u32 (rng * rng)) 15 in
      let b := Z.shiftr rng 16 in
      tell_frac_loop i' (Z.shiftr rng b) (Z.lor (Z.shiftl l 1) b)
  end.

Definition od_ec_tell_frac (nbits_total rng : Z) : Z :=
  u32 (u32 (Z.shiftl nbits_total OD_BITRES) - tell_frac_loop 3 rng 0).

Definition od_ec_enc_tell_frac (enc : od_ec_enc) : Z :=
  od_ec_tell_frac (u32 (od_ec_enc_tell enc)) (enc_rng enc).

(** ** Decoder; [dec_bptr] is the offset of [bptr] from [buf], [dec_buf] the
    bytes from [buf] to [end]. *)

Record od_ec_dec := {
  dec_buf : list Z;
  dec_tell_offs : Z;  (* int32_t *)
  dec_bptr : Z;
  dec_dif : Z;        (* od_ec_window, uint32_t *)
  dec_rng : Z;        (* uint16_t *)
  dec_cnt : Z }.      (* int16_t *)

(** [for (; s >= 0 && bptr < end; s -= 8, bptr++)]; [s] starts at 23 or less. *)
Fixpoint refill_loop (fuel : nat) (buf : list Z) (s bptr dif cnt : Z) : Z * Z * Z :=
  match fuel with
  | O => (bptr, dif, cnt)
  | S fuel' =>
      if 0 <=? s then
        match buf !! Z.to_nat bptr with
        | Some byte =>
            refill_loop fuel' buf (s - 8) (bptr + 1)
              (Z.lxor dif (u32 (Z.shiftl byte s))) (s16 (cnt + 8))
        | None => (bptr, dif, cnt)
        end
      else (bptr, dif, cnt)
  end.

Definition od_ec_dec_refill (dec : od_ec_dec) : od_ec_dec :=
  let s := OD_EC_WINDOW_SIZE - 9 - (dec_cnt dec + 15) in
  let '(bptr, dif, cnt) := refill_loop 5 (dec_buf dec) s (dec_bptr dec) (dec_dif dec) (dec_cnt dec) in
  if Z.of_nat (length (dec_buf dec)) <=? bptr then
    {| dec_buf := dec_buf dec; dec_tell_offs := s32 (dec_tell_offs dec + (OD_EC_LOTS_OF_BITS - cnt));
       dec_bptr := bptr; dec_dif := dif; dec_rng := dec_rng dec; dec_cnt := OD_EC_LOTS_OF_BITS |}
  else
    {| dec_buf := dec_buf dec; dec_tell_offs := dec_tell_offs dec;
       dec_bptr := bptr; dec_dif := dif; dec_rng := dec_rng dec; dec_cnt := cnt |}.

Definition od_ec_dec_normalize (dec : od_ec_dec) (dif rng ret : Z) : Z * od_ec_dec :=
  let d := 16 - OD_ILOG_NZ rng in
  let dec :=
    {| dec_buf := dec_buf dec; dec_tell_offs := dec_tell_offs dec; dec_bptr := dec_bptr dec;
       dec_dif := u32 (u32 (Z.shiftl (u32 (dif + 1)) d) - 1); dec_rng := u16 (Z.shiftl rng d);
       dec_cnt := s16 (dec_cnt dec - d) |} in
  (ret, if dec_cnt dec <? 0 then od_ec_dec_refill dec else dec).

Definition od_ec_dec_init (buf : list Z) : od_ec_dec :=
  od_ec_dec_refill
    {| dec_buf := buf; dec_tell_offs := 10 - (OD_EC_WINDOW_SIZE - 8); dec_bptr := 0;
       dec_dif := Z.shiftl 1 (OD_EC_WINDOW_SIZE - 1) - 1; dec_rng := 32768; dec_cnt := -15 |}.

Definition od_ec_decode_bool_q15 (dec : od_ec_dec) (f : Z) : Z * od_ec_dec :=
  let dif := dec_dif dec in
  let r := dec_rng dec in
  let v := u32 (ec_scale r f + EC_MIN_PROB) in
  let vw := u32 (Z.shiftl v (OD_EC_WINDOW_SIZE - 16)) in
  if vw <=? dif then od_ec_dec_normalize dec (u32 (dif - vw)) (u32 (r - v)) 0
  else od_ec_dec_normalize dec dif v 1.

(** [do { u = v; v = ...icdf[++ret]...; } while (c < v)]; result [(u, v, ret)],
    [None] when the search runs off the table. *)
Fixpoint decode_cdf_loop (fuel : nat) (icdf : list Z) (r N c v ret : Z)
  : option (Z * Z * Z) :=
  match fuel with
  | O => None
  | S fuel' =>
      let u := v in
      let ret := ret + 1 in
      p ← icdf !! Z.to_nat ret;
      let v := u32 (ec_scale r p + EC_MIN_PROB * (N - ret)) in
      if c <? v then decode_cdf_loop fuel' icdf r N c v ret else Some (u, v, ret)
  end.

Definition od_ec_decode_cdf_q15 (dec : od_ec_dec) (icdf : list Z) (nsyms : Z)
  : option (Z * od_ec_dec) :=
  let dif := dec_dif dec in
  let r := dec_rng dec in
  let N := nsyms - 1 in
  let c := Z.shiftr dif (OD_EC_WINDOW_SIZE - 16) in
  '(u, v, ret) ← decode_cdf_loop (length icdf) icdf r N c r (-1);
  let r := u32 (u - v) in
  let dif := u32 (dif - u32 (Z.shiftl v (OD_EC_WINDOW_SIZE - 16))) in
  Some (od_ec_dec_normalize dec dif r ret).

Definition od_ec_dec_tell (dec : od_ec_dec) : Z :=
  s32 (dec_bptr dec * 8 - dec_cnt dec + dec_tell_offs dec).

Definition od_ec_dec_tell_frac (dec : od_ec_dec) : Z :=
  od_ec_tell_frac (u32 (od_ec_dec_tell dec)) (dec_rng dec).
