(* ===== verification/RangeSpec.v ===== *)
(** * Abstract range coding

    What the range coder is meant to do, free of windows, buffers and carries: a
    symbol narrows an exact interval [[L, L + R)] of integers at a growing
    resolution [D], and a code word is any number the final interval contains.
    [EntEncProof] and [EntDecProof] show that the C encoder and decoder implement it. *)

From S2P Require Import Prelude CodecTypes BitChannel EntCoder.

#[local] Arguments Z.of_nat : simpl never.
#[local] Arguments Z.mul : simpl never.

(** ** Big-endian byte strings *)

Definition is_byte (b : Z) : Prop := 0 <= b < 256.

Fixpoint be_value (bs : list Z) : Z :=
  match bs with
  | [] => 0
  | b :: bs' => b * 2 ^ (8 * Z.of_nat (length bs')) + be_value bs'
  end.

Lemma be_value_app a b :
  be_value (a ++ b) = be_value a * 2 ^ (8 * Z.of_nat (length b)) + be_value b.
Proof.
  induction a as [|x a IH]; simpl; [lia |]. rewrite IH, length_app, Nat2Z.inj_add.
  rewrite Z.mul_add_distr_l, pow2_split by lia. ring.
Qed.

Lemma be_value_snoc a b : be_value (a ++ [b]) = be_value a * 256 + b.
Proof.
  rewrite be_value_app. simpl. change (2 ^ (8 * Z.of_nat 0)) with 1.
  change (2 ^ (8 * Z.of_nat 1)) with 256. lia.
Qed.

Lemma be_value_range bs : Forall is_byte bs -> 0 <= be_value bs < 2 ^ (8 * Z.of_nat (length bs)).
Proof.
  induction 1 as [|b bs Hb _ IH]; simpl; [done |].
  replace (8 * Z.of_nat (S (length bs))) with (8 + 8 * Z.of_nat (length bs)) by lia.
  rewrite pow2_split by lia. change (2 ^ 8) with 256. unfold is_byte in Hb. nia.
Qed.

Lemma length_be_bytes n x : length (be_bytes n x) = n.
Proof. induction n; simpl; congruence. Qed.

Lemma be_bytes_byte n x : Forall is_byte (be_bytes n x).
Proof. induction n; simpl; constructor; [apply u8_range | done]. Qed.

Lemma be_value_be_bytes n x : 0 <= x -> be_value (be_bytes n x) = x mod 2 ^ (8 * Z.of_nat n).
Proof.
  intros Hx. induction n as [|n IH]; simpl be_bytes; simpl be_value.
  - change (2 ^ (8 * Z.of_nat 0)) with 1. by rewrite Z.mod_1_r.
  - rewrite length_be_bytes, IH. unfold u8, wrap. rewrite Z.shiftr_div_pow2 by lia.
    replace (8 * Z.of_nat (S n)) with (8 * Z.of_nat n + 8) by lia.
    rewrite pow2_split by lia. pose proof (pow2_pos (8 * Z.of_nat n) ltac:(lia)).
    rewrite Z.rem_mul_r by lia. change (2 ^ 8) with 256. lia.
Qed.

Lemma be_bytes_zeros k x : be_bytes k (x * 2 ^ (8 * Z.of_nat k)) = replicate k 0.
Proof.
  enough (forall j, (j <= k)%nat -> be_bytes j (x * 2 ^ (8 * Z.of_nat k)) = replicate j 0) by auto.
  induction j as [|j IH]; intros Hj; simpl; [done |]. f_equal; [| apply IH; lia].
  rewrite Z.shiftr_div_pow2 by lia.
  replace (8 * Z.of_nat k) with ((8 * (Z.of_nat k - Z.of_nat j - 1) + 8) + 8 * Z.of_nat j) by lia.
  rewrite (pow2_split _ (8 * Z.of_nat j)), (pow2_split _ 8) by lia.
  rewrite !Z.mul_assoc, Z.div_mul by (apply Z.pow_nonzero; lia).
  apply Z.mod_mul. done.
Qed.

(** Left-justifying an [n]-byte number in [n + k] bytes. *)
Lemma be_bytes_shift n k x :
  be_bytes (n + k) (x * 2 ^ (8 * Z.of_nat k)) = be_bytes n x ++ replicate k 0.
Proof.
  induction n as [|n IH]; simpl; [apply be_bytes_zeros |]. rewrite IH. f_equal. f_equal.
  rewrite !Z.shiftr_div_pow2 by lia. rewrite Nat2Z.inj_add, Z.mul_add_distr_l, pow2_split by lia.
  rewrite Z.div_mul_cancel_r by (apply Z.pow_nonzero; lia). done.
Qed.

(** ** Symbols *)

(** An inverse CDF of [nsyms] symbols as the coder requires it. *)
Definition icdf_ok (icdf : list Z) (nsyms : Z) : Prop :=
  2 <= nsyms <= 16 /\ nsyms <= Z.of_nat (length icdf) /\
  nth (Z.to_nat (nsyms - 1)) icdf 0 = 0 /\
  (forall i, 0 <= i < nsyms -> 0 <= nth (Z.to_nat i) icdf 0 < CDF_PROB_TOP) /\
  (forall i, 0 <= i < nsyms - 1 -> nth (Z.to_nat (i + 1)) icdf 0 <= nth (Z.to_nat i) icdf 0).

(** The same as a test. *)
Definition icdf_okb (icdf : list Z) (nsyms : Z) : bool :=
  let at_ i := nth (Z.to_nat i) icdf 0 in
  let idx := Z.of_nat <$> seq 0 (Z.to_nat nsyms) in
  (2 <=? nsyms) && (nsyms <=? 16) && (nsyms <=? Z.of_nat (length icdf)) &&
  (at_ (nsyms - 1) =? 0) &&
  forallb (fun i => (0 <=? at_ i) && (at_ i <? CDF_PROB_TOP)) idx &&
  forallb (fun i => (nsyms - 1 <=? i) || (at_ (i + 1) <=? at_ i)) idx.

Lemma icdf_okb_ok icdf nsyms : icdf_okb icdf nsyms = true -> icdf_ok icdf nsyms.
Proof.
  unfold icdf_okb, icdf_ok. rewrite !andb_true_iff, !forallb_forall.
  intros [[[[[H1 H2] H3] H4] H5] H6].
  assert (forall i, 0 <= i < nsyms -> In i (Z.of_nat <$> seq 0 (Z.to_nat nsyms))) as Hin.
  { intros i Hi. apply in_map_iff. exists (Z.to_nat i). split; [lia |]. apply in_seq. lia. }
  split_and!; try lia.
  - intros i Hi. specialize (H5 i (Hin i Hi)). lia.
  - intros i Hi. specialize (H6 i (Hin i ltac:(lia))). lia.
Qed.

Lemma icdf_lookup icdf nsyms i : icdf_ok icdf nsyms -> 0 <= i < nsyms ->
  icdf !! Z.to_nat i = Some (nth (Z.to_nat i) icdf 0) /\
  0 <= nth (Z.to_nat i) icdf 0 < CDF_PROB_TOP.
Proof.
  intros (Hn & Hl & _ & Hb & _) Hi. split; [| by apply Hb].
  destruct (lookup_lt_is_Some_2 icdf (Z.to_nat i)) as [x Hx]; [lia |].
  by rewrite nth_lookup, Hx.
Qed.

Inductive symbol :=
| SymCdf (icdf : list Z) (nsyms s : Z)
| SymBool (f : Z) (val : bool).

Definition sym_ok (sym : symbol) : Prop :=
  match sym with
  | SymCdf icdf nsyms s => icdf_ok icdf nsyms /\ 0 <= s < nsyms
  | SymBool f _ => 0 < f < CDF_PROB_TOP
  end.

Definition cdf_bound (icdf : list Z) (nsyms r j : Z) : Z :=
  (r / 256) * (nth (Z.to_nat j) icdf 0 / 64) / 2 + 4 * (nsyms - 1 - j).

Definition bool_bound (f r : Z) : Z := (r / 256) * (f / 64) / 2 + 4.

(** The part [(v, u]] of the range, counted from its top, a symbol takes. *)
Definition sym_bounds (sym : symbol) (r : Z) : Z * Z :=
  match sym with
  | SymCdf icdf nsyms s =>
      (if s =? 0 then r else cdf_bound icdf nsyms r (s - 1), cdf_bound icdf nsyms r s)
  | SymBool f true => (bool_bound f r, 0)
  | SymBool f false => (r, bool_bound f r)
  end.

Lemma ec_scale_eq r f : 0 <= r < 65536 -> 0 <= f <= 32768 ->
  ec_scale r f = (r / 256) * (f / 64) / 2.
Proof.
  intros. unfold ec_scale, EC_PROB_SHIFT. rewrite !Z.shiftr_div_pow2 by lia.
  change (2 ^ 8) with 256. change (2 ^ 6) with 64. change (2 ^ (7 - 6)) with 2.
  assert (0 <= r / 256 <= 255) by dlia. assert (0 <= f / 64 <= 512) by dlia.
  rewrite u32_small; [done |]. nia.
Qed.

Lemma scale_below r f : 32768 <= r < 65536 -> 0 <= f < 32768 ->
  0 <= (r / 256) * (f / 64) / 2 <= r - 64.
Proof.
  intros. assert (0 <= f / 64 <= 511) by dlia. assert (128 <= r / 256) by dlia.
  assert (256 * (r / 256) <= r) by dlia.
  assert (0 <= r / 256 * (f / 64) <= 511 * (r / 256)) by nia.
  generalize dependent (r / 256 * (f / 64)). intros. dlia.
Qed.

Lemma scale_mono r f g : 0 <= r -> g <= f -> (r / 256) * (g / 64) / 2 <= (r / 256) * (f / 64) / 2.
Proof.
  intros. apply Z.div_le_mono; [lia |]. apply Z.mul_le_mono_nonneg_l; [dlia |].
  by apply Z.div_le_mono.
Qed.

(** Successive bounds are at least [EC_MIN_PROB] apart, the first below [r]. *)
Lemma cdf_bound_step icdf nsyms r j :
  icdf_ok icdf nsyms -> 32768 <= r < 65536 -> 0 <= j < nsyms - 1 ->
  cdf_bound icdf nsyms r (j + 1) + 4 <= cdf_bound icdf nsyms r j.
Proof.
  intros (Hn & _ & _ & _ & Hmono) Hr Hj. unfold cdf_bound.
  pose proof (scale_mono r _ _ ltac:(lia) (Hmono j ltac:(lia))). lia.
Qed.

Lemma cdf_bound_range icdf nsyms r j :
  icdf_ok icdf nsyms -> 32768 <= r < 65536 -> 0 <= j < nsyms ->
  0 <= cdf_bound icdf nsyms r j <= r - 4.
Proof.
  intros (Hn & _ & _ & Hb & _) Hr Hj. unfold cdf_bound. unfold CDF_PROB_TOP in Hb.
  pose proof (scale_below r _ Hr (Hb j Hj)). lia.
Qed.

Lemma cdf_bound_anti icdf nsyms r i j :
  icdf_ok icdf nsyms -> 32768 <= r < 65536 -> 0 <= i <= j -> j < nsyms ->
  cdf_bound icdf nsyms r j <= cdf_bound icdf nsyms r i.
Proof.
  intros Hok Hr Hij Hj. destruct Hij as [Hi Hij].
  revert Hj. pattern j. apply Zlt_lower_bound_ind with i; [| lia].
  intros k IH Hk Hkn. destruct (Z.eq_dec k i) as [-> |]; [lia |].
  specialize (IH (k - 1) ltac:(lia) ltac:(lia)).
  pose proof (cdf_bound_step icdf nsyms r (k - 1) Hok Hr ltac:(lia)) as Hs.
  replace (k - 1 + 1) with k in Hs by lia. lia.
Qed.

Lemma sym_bounds_ok sym r u v :
  sym_ok sym -> 32768 <= r < 65536 -> sym_bounds sym r = (u, v) ->
  0 <= v /\ v + 4 <= u /\ u <= r.
Proof.
  intros Hok Hr E. destruct sym as [icdf nsyms s | f [|]]; simpl in *;
    injection E as E1 E2; subst u v.
  - destruct Hok as [Hi Hs]. pose proof (cdf_bound_range icdf nsyms r s Hi Hr Hs).
    destruct (Z.eqb_spec s 0); [lia |].
    pose proof (cdf_bound_range icdf nsyms r (s - 1) Hi Hr ltac:(lia)).
    pose proof (cdf_bound_step icdf nsyms r (s - 1) Hi Hr ltac:(lia)) as Hst.
    replace (s - 1 + 1) with s in Hst by lia. lia.
  - pose proof (scale_below r f Hr ltac:(unfold CDF_PROB_TOP in *; lia)). unfold bool_bound. lia.
  - pose proof (scale_below r f Hr ltac:(unfold CDF_PROB_TOP in *; lia)). unfold bool_bound. lia.
Qed.

(** ** Intervals *)

Record interval := { iL : Z; iR : Z; iD : Z }.

(** Renormalisation: bits needed to bring [r] back to 16 significant bits. *)
Definition renorm (r : Z) : Z := 15 - Z.log2 r.

Definition narrow (st : interval) (sym : symbol) : interval :=
  let '(u, v) := sym_bounds sym (iR st) in
  let d := renorm (u - v) in
  {| iL := (iL st + iR st - u) * 2 ^ d; iR := (u - v) * 2 ^ d; iD := iD st + d |}.

Definition narrow_all (st : interval) (syms : list symbol) : interval := foldl narrow st syms.

Definition full_interval : interval := {| iL := 0; iR := 32768; iD := 0 |}.

Definition interval_ok (st : interval) : Prop :=
  0 <= iL st /\ 32768 <= iR st < 65536 /\ 0 <= iD st /\ iL st + iR st <= 2 ^ (15 + iD st).

Lemma renorm_ok r : 1 <= r < 65536 -> 0 <= renorm r <= 15 /\ 32768 <= r * 2 ^ renorm r < 65536.
Proof.
  intros Hr. unfold renorm. pose proof (log2_bound r 16 ltac:(lia) ltac:(lia)).
  pose proof (Z.log2_spec r ltac:(lia)) as Hs. split; [lia |].
  assert (2 ^ 15 = 2 ^ Z.log2 r * 2 ^ (15 - Z.log2 r)) as E
    by (rewrite <- pow2_split by lia; f_equal; lia).
  rewrite Z.pow_succ_r in Hs by lia. change (2 ^ 15) with 32768 in E.
  pose proof (pow2_pos (15 - Z.log2 r) ltac:(lia)). nia.
Qed.

Lemma interval_ok_full : interval_ok full_interval.
Proof. unfold interval_ok; simpl. change (2 ^ 15) with 32768. lia. Qed.

Lemma narrow_ok st sym : interval_ok st -> sym_ok sym ->
  interval_ok (narrow st sym) /\ iD st <= iD (narrow st sym) <= iD st + 15.
Proof.
  intros (HL & HR & HD & Hsum) Hok. unfold narrow.
  destruct (sym_bounds sym (iR st)) as [u v] eqn:E.
  destruct (sym_bounds_ok _ _ _ _ Hok HR E) as (Hv & Huv & Hu).
  destruct (renorm_ok (u - v) ltac:(lia)) as [Hd Hr]. unfold interval_ok; simpl.
  pose proof (pow2_pos (renorm (u - v)) ltac:(lia)). split_and!; try lia; try nia.
  replace (15 + (iD st + renorm (u - v))) with ((15 + iD st) + renorm (u - v)) by lia.
  rewrite pow2_split by lia. nia.
Qed.

(** [X], a code word of [M] bits, lies in the interval. *)
Definition contains (M X : Z) (st : interval) : Prop :=
  31 + iD st <= M /\
  iL st * 2 ^ (M - 15 - iD st) <= X < (iL st + iR st) * 2 ^ (M - 15 - iD st).

Lemma contains_back M X st sym : interval_ok st -> sym_ok sym ->
  contains M X (narrow st sym) -> contains M X st.
Proof.
  intros (HL & HR & HD & Hsum) Hok. unfold narrow.
  destruct (sym_bounds sym (iR st)) as [u v] eqn:E.
  destruct (sym_bounds_ok _ _ _ _ Hok HR E) as (Hv & Huv & Hu).
  destruct (renorm_ok (u - v) ltac:(lia)) as [Hd _]. unfold contains; simpl.
  set (d := renorm (u - v)) in *. intros [HM HX].
  assert (2 ^ (M - 15 - iD st) = 2 ^ d * 2 ^ (M - 15 - (iD st + d))) as ->
    by (rewrite <- pow2_split by lia; f_equal; lia).
  pose proof (pow2_pos d ltac:(lia)). pose proof (pow2_pos (M - 15 - (iD st + d)) ltac:(lia)).
  split; [lia |]. nia.
Qed.

Lemma contains_all M X syms st :
  interval_ok st -> Forall sym_ok syms -> contains M X (narrow_all st syms) -> contains M X st.
Proof.
  intros Hst Hs. revert st Hst. induction Hs as [|sym syms Hsym _ IH]; intros st Hst Hc; [done |].
  apply (contains_back _ _ _ sym); [done | done |].
  apply IH; [by apply narrow_ok | exact Hc].
Qed.
