(* ===== verification/Cdf.v ===== *)
(** * Adaptive probability models

    [aom_dsp/prob.h]: an adaptive symbol of [nsymbs] values is described by
    [nsymbs + 1] 16-bit words, its inverse CDF and a counter that sets how fast
    the model still moves. *)

From S2P Require Import Prelude CodecTypes BitChannel EntCoder RangeSpec.

#[local] Arguments Z.of_nat : simpl never.

(** [do { ... } while (++i < nsymbs - 1)]; [nsymbs] passes are more than run. *)
Fixpoint update_cdf_loop (fuel : nat) (cdf : list Z) (i val rate nsymbs : Z) : option (list Z) :=
  match fuel with
  | O => Some cdf
  | S fuel' =>
      p ← cdf !! Z.to_nat i;
      let p := if i <? val then u16 (p + Z.shiftr (CDF_PROB_TOP - p) rate)
               else u16 (p - Z.shiftr p rate) in
      let cdf := <[Z.to_nat i := p]> cdf in
      if i + 1 <? nsymbs - 1 then update_cdf_loop fuel' cdf (i + 1) val rate nsymbs
      else Some cdf
  end.

Definition update_cdf (cdf : list Z) (val nsymbs : Z) : option (list Z) :=
  count ← cdf !! Z.to_nat nsymbs;
  let rate := 4 + Z.shiftr count 4 + b2z (3 <? nsymbs) in
  cdf ← update_cdf_loop (Z.to_nat nsymbs) cdf 0 val rate nsymbs;
  c ← cdf !! Z.to_nat nsymbs;
  Some (<[Z.to_nat nsymbs := u16 (c + b2z (count <? 32))]> cdf).

(** [(p > 255) ? 255 : (p < 1) ? 1 : p], computed without branches. *)
Definition get_prob (num den : Z) : Z :=
  let p := s32 (u64 (u64 (num * 256) + Z.shiftr den 1) / den) in
  u8 (Z.lor (Z.lor p (Z.shiftr (255 - p) 23)) (b2z (p =? 0))).

(** What one adaptation step does to a word of the table. *)
Definition adapt (val rate i p : Z) : Z :=
  if i <? val then p + (32768 - p) / 2 ^ rate else p - p / 2 ^ rate.

Lemma adapt_range val rate i p : 1 <= rate -> 0 <= p < 32768 -> 0 <= adapt val rate i p < 32768.
Proof.
  intros Hr Hp. unfold adapt.
  assert (2 <= 2 ^ rate) by (change 2 with (2 ^ 1) at 1; apply pow2_le; lia).
  case_cmp.
  - assert (0 <= (32768 - p) / 2 ^ rate) by (apply Z.div_pos; lia).
    assert ((32768 - p) / 2 ^ rate < 32768 - p) by (apply Z.div_lt; lia). lia.
  - assert (0 <= p / 2 ^ rate) by (apply Z.div_pos; lia).
    assert (p / 2 ^ rate <= p) by (apply Z.div_le_upper_bound; nia). lia.
Qed.

Lemma div_lipschitz a b d : 1 <= d -> a <= b -> b / d - a / d <= b - a.
Proof.
  intros Hd Hab. pose proof (Z.div_mod a d ltac:(lia)). pose proof (Z.div_mod b d ltac:(lia)).
  pose proof (Z.mod_pos_bound a d ltac:(lia)). pose proof (Z.mod_pos_bound b d ltac:(lia)).
  set (qa := a / d) in *. set (qb := b / d) in *.
  destruct (Z.le_gt_cases qb qa); [lia |]. nia.
Qed.

(** Later words stay below earlier ones. *)
Lemma adapt_mono val rate i j p q :
  1 <= rate -> i <= j -> 0 <= q <= p -> p < 32768 -> adapt val rate j q <= adapt val rate i p.
Proof.
  intros Hr Hij Hq Hp. unfold adapt. pose proof (pow2_pos rate ltac:(lia)).
  assert (0 <= (32768 - p) / 2 ^ rate) by (apply Z.div_pos; lia).
  assert (0 <= q / 2 ^ rate) by (apply Z.div_pos; lia).
  pose proof (div_lipschitz q p (2 ^ rate) ltac:(lia) ltac:(lia)).
  pose proof (div_lipschitz (32768 - p) (32768 - q) (2 ^ rate) ltac:(lia) ltac:(lia)).
  repeat case_cmp; lia.
Qed.

Lemma adapt_code val rate i p : 1 <= rate -> 0 <= p < 32768 ->
  (if i <? val then u16 (p + Z.shiftr (CDF_PROB_TOP - p) rate) else u16 (p - Z.shiftr p rate))
  = adapt val rate i p.
Proof.
  intros Hr Hp. pose proof (adapt_range val rate i p Hr Hp). unfold adapt, CDF_PROB_TOP in *.
  rewrite !Z.shiftr_div_pow2 by lia. destruct (i <? val); apply u16_small; lia.
Qed.

Lemma update_cdf_loop_ok fuel cdf i val rate nsymbs :
  1 <= rate -> 0 <= i < nsymbs - 1 -> nsymbs - 1 - i <= Z.of_nat fuel ->
  nsymbs <= Z.of_nat (length cdf) ->
  (forall j, i <= j < nsymbs - 1 -> 0 <= nth (Z.to_nat j) cdf 0 < 32768) ->
  exists cdf', update_cdf_loop fuel cdf i val rate nsymbs = Some cdf' /\
    length cdf' = length cdf /\
    forall j, 0 <= j -> nth (Z.to_nat j) cdf' 0 =
      if (i <=? j) && (j <? nsymbs - 1) then adapt val rate j (nth (Z.to_nat j) cdf 0)
      else nth (Z.to_nat j) cdf 0.
Proof.
  intros Hr. revert cdf i. induction fuel as [|fuel IH]; intros cdf i Hi Hf Hl Hb; [lia |]. simpl.
  destruct (lookup_lt_is_Some_2 cdf (Z.to_nat i)) as [p Hp]; [lia |]. rewrite Hp.
  cbn [mbind option_bind].
  assert (nth (Z.to_nat i) cdf 0 = p) as En by (by rewrite nth_lookup, Hp).
  assert (0 <= p < 32768) as Hpb by (rewrite <- En; apply Hb; lia).
  rewrite adapt_code by done.
  set (cdf1 := <[Z.to_nat i := adapt val rate i p]> cdf).
  assert (length cdf1 = length cdf) as Hl1 by apply length_insert.
  assert (forall j, 0 <= j -> nth (Z.to_nat j) cdf1 0 =
            if j =? i then adapt val rate i p else nth (Z.to_nat j) cdf 0) as H1.
  { intros j Hj. rewrite !nth_lookup. unfold cdf1. destruct (Z.eqb_spec j i) as [-> |].
    - rewrite list_lookup_insert_eq by lia. done.
    - rewrite list_lookup_insert_ne by lia. done. }
  destruct (Z.ltb_spec (i + 1) (nsymbs - 1)).
  - destruct (IH cdf1 (i + 1) ltac:(lia) ltac:(lia) ltac:(lia)) as (cdf' & E & Hl' & Hn).
    { intros j Hj. rewrite H1 by lia. destruct (Z.eqb_spec j i); [lia |]. apply Hb. lia. }
    exists cdf'. split_and!; [done | congruence |]. intros j Hj. rewrite Hn, H1 by lia.
    destruct (Z.leb_spec (i + 1) j), (Z.leb_spec i j), (Z.eqb_spec j i); subst; try lia; simpl; try done.
    by rewrite (proj2 (Z.ltb_lt _ _)) by lia.
  - exists cdf1. split_and!; [done | done |]. intros j Hj. rewrite H1 by lia.
    destruct (Z.leb_spec i j), (Z.ltb_spec j (nsymbs - 1)), (Z.eqb_spec j i);
      subst; try lia; simpl; done.
Qed.

(** ** Well-formed models *)

Definition cdf_ok (cdf : list Z) (nsymbs : Z) : Prop :=
  icdf_ok cdf nsymbs /\ nsymbs < Z.of_nat (length cdf) /\
  0 <= nth (Z.to_nat nsymbs) cdf 0 <= 32.

Lemma update_cdf_words cdf val nsymbs :
  cdf_ok cdf nsymbs ->
  exists cdf' rate, update_cdf cdf val nsymbs = Some cdf' /\ length cdf' = length cdf /\
    4 <= rate <= 7 /\
    (forall j, 0 <= j < nsymbs - 1 ->
       nth (Z.to_nat j) cdf' 0 = adapt val rate j (nth (Z.to_nat j) cdf 0)) /\
    nth (Z.to_nat (nsymbs - 1)) cdf' 0 = nth (Z.to_nat (nsymbs - 1)) cdf 0 /\
    nth (Z.to_nat nsymbs) cdf' 0 = Z.min 32 (nth (Z.to_nat nsymbs) cdf 0 + 1).
Proof.
  intros ((Hn & Hl & Hz & Hb & Hm) & Hlen & Hc). unfold update_cdf.
  destruct (lookup_lt_is_Some_2 cdf (Z.to_nat nsymbs)) as [c Ec]; [lia |]. rewrite Ec.
  cbn [mbind option_bind]. assert (nth (Z.to_nat nsymbs) cdf 0 = c) as En by (by rewrite nth_lookup, Ec).
  rewrite En in *. set (rate := 4 + Z.shiftr c 4 + b2z (3 <? nsymbs)).
  assert (4 <= rate <= 7) as Hrate.
  { unfold rate. rewrite Z.shiftr_div_pow2 by lia. change (2 ^ 4) with 16.
    destruct (3 <? nsymbs); simpl; dlia. }
  destruct (update_cdf_loop_ok (Z.to_nat nsymbs) cdf 0 val rate nsymbs) as (cdf1 & -> & Hl1 & Hn1);
    try lia; [intros; apply Hb; lia |]. cbn [mbind option_bind].
  destruct (lookup_lt_is_Some_2 cdf1 (Z.to_nat nsymbs)) as [c1 Ec1]; [lia |]. rewrite Ec1.
  cbn [mbind option_bind].
  assert (c1 = c) as ->.
  { pose proof (Hn1 nsymbs ltac:(lia)) as E. rewrite (proj2 (Z.ltb_ge nsymbs _)) in E by lia.
    rewrite andb_false_r, En, nth_lookup, Ec1 in E. done. }
  eexists _, rate. split; [done |]. rewrite length_insert. clearbody rate.
  split_and!; try done; try lia.
  - intros j Hj. rewrite nth_lookup, list_lookup_insert_ne, <- nth_lookup, Hn1 by lia.
    rewrite (proj2 (Z.ltb_lt j _)), (proj2 (Z.leb_le 0 j)) by lia. done.
  - rewrite nth_lookup, list_lookup_insert_ne, <- nth_lookup, Hn1 by lia.
    by rewrite (proj2 (Z.ltb_ge (nsymbs - 1) _)), andb_false_r by lia.
  - rewrite nth_lookup, list_lookup_insert_eq by lia. simpl.
    destruct (Z.ltb_spec c 32); simpl; rewrite u16_small; lia.
Qed.

Lemma update_cdf_ok cdf val nsymbs :
  cdf_ok cdf nsymbs ->
  exists cdf', update_cdf cdf val nsymbs = Some cdf' /\ cdf_ok cdf' nsymbs.
Proof.
  intros Hok. destruct (update_cdf_words cdf val nsymbs Hok)
    as (cdf' & rate & E & Hl & Hrate & Hw & Hlast & Hcnt).
  exists cdf'. split; [done |]. destruct Hok as ((Hn & Hle & Hz & Hb & Hm) & Hlen & Hc).
  unfold CDF_PROB_TOP in *.
  assert (forall i, 0 <= i < nsymbs -> 0 <= nth (Z.to_nat i) cdf' 0 < 32768) as Hb'.
  { intros i Hi. destruct (Z.eq_dec i (nsymbs - 1)) as [-> |]; [rewrite Hlast; by apply Hb |].
    rewrite Hw by lia. apply adapt_range; [lia | by apply Hb]. }
  unfold cdf_ok, icdf_ok, CDF_PROB_TOP.
  split_and!; rewrite ?Hcnt, ?Hl, ?Hlast; try done; try lia.
  - intros i Hi. destruct (Z.eq_dec (i + 1) (nsymbs - 1)) as [Ei |].
    + rewrite Ei, Hlast, Hz. apply Hb'. lia.
    + rewrite !Hw by lia. pose proof (Hb i ltac:(lia)). pose proof (Hb (i + 1) ltac:(lia)).
      apply adapt_mono; [lia | lia | | lia]. split; [lia | apply Hm; lia].
Qed.

(** Coding a symbol never makes it less likely. *)
Lemma update_cdf_mass cdf val nsymbs cdf' :
  cdf_ok cdf nsymbs -> 0 <= val < nsymbs -> update_cdf cdf val nsymbs = Some cdf' ->
  let above t := if val =? 0 then 32768 else nth (Z.to_nat (val - 1)) t 0 in
  let below t := nth (Z.to_nat val) t 0 in
  above cdf - below cdf <= above cdf' - below cdf'.
Proof.
  intros Hok Hv E above below. destruct (update_cdf_ok cdf val nsymbs Hok) as (c & E' & Hok').
  assert (c = cdf') as -> by congruence.
  destruct (update_cdf_words cdf val nsymbs Hok)
    as (c & rate & E'' & _ & Hrate & Hw & Hlast & _).
  assert (c = cdf') as -> by congruence.
  destruct Hok as ((Hn & _ & Hz & Hb & Hm) & _), Hok' as ((_ & _ & Hz' & Hb' & Hm') & _).
  unfold CDF_PROB_TOP in *. pose proof (pow2_pos rate ltac:(lia)).
  assert (below cdf' <= below cdf) as Hbelow.
  { unfold below. destruct (Z.eq_dec val (nsymbs - 1)) as [-> |]; [lia |].
    rewrite Hw by lia. unfold adapt. rewrite Z.ltb_irrefl.
    pose proof (Z.div_pos (nth (Z.to_nat val) cdf 0) (2 ^ rate)).
    pose proof (Hb val ltac:(lia)). lia. }
  assert (above cdf <= above cdf' <= 32768) as Habove.
  { unfold above. destruct (Z.eqb_spec val 0); [lia |].
    pose proof (Hb' (val - 1) ltac:(lia)). split; [| lia].
    rewrite Hw by lia. unfold adapt. rewrite (proj2 (Z.ltb_lt _ _)) by lia.
    pose proof (Hb (val - 1) ltac:(lia)).
    pose proof (Z.div_pos (32768 - nth (Z.to_nat (val - 1)) cdf 0) (2 ^ rate)). lia. }
  lia.
Qed.

(** Adaptation keeps a model usable and moves it the right way: coding any symbol of a
    valid model leaves a valid model of the same alphabet whose counter has moved
    towards 32, and never lowers the probability of the symbol that was coded. *)
Theorem update_cdf_adapts cdf val nsymbs :
  cdf_ok cdf nsymbs -> 0 <= val < nsymbs ->
  exists cdf', update_cdf cdf val nsymbs = Some cdf' /\ cdf_ok cdf' nsymbs /\
    length cdf' = length cdf /\
    nth (Z.to_nat nsymbs) cdf' 0 = Z.min (nth (Z.to_nat nsymbs) cdf 0 + 1) 32 /\
    let above t := if val =? 0 then 32768 else nth (Z.to_nat (val - 1)) t 0 in
    let below t := nth (Z.to_nat val) t 0 in
    above cdf - below cdf <= above cdf' - below cdf'.
Proof.
  intros Hok Hv. destruct (update_cdf_ok cdf val nsymbs Hok) as (cdf' & E & Hok').
  destruct (update_cdf_words cdf val nsymbs Hok) as (c & rate & E'' & Hl & _ & _ & _ & Hcnt).
  assert (c = cdf') as -> by congruence. pose proof Hok as (_ & _ & Hc).
  exists cdf'. split_and!; [done | done | done | | by apply (update_cdf_mass cdf val nsymbs)].
  rewrite Hcnt. destruct (Z.ltb_spec (nth (Z.to_nat nsymbs) cdf 0) 32); simpl; lia.
Qed.

Lemma update_cdf_adapts_witness :
  let cdf := [24576; 16384; 8192; 0; 31] in
  cdf_ok cdf 4 /\
  exists cdf', update_cdf cdf 2 4 = Some cdf' /\ cdf_ok cdf' 4 /\ length cdf' = length cdf /\
    nth 4 cdf' 0 = Z.min (nth 4 cdf 0 + 1) 32 /\
    let above t := nth 1 t 0 in let below t := nth 2 t 0 in
    above cdf - below cdf <= above cdf' - below cdf'.
Proof.
  intros cdf. assert (cdf_ok cdf 4) as Hok.
  { split; [apply icdf_okb_ok; vm_compute; reflexivity |]. vm_compute. repeat split; discriminate. }
  split; [exact Hok |]. apply (update_cdf_adapts cdf 2 4 Hok). lia.
Defined.
