(* ===== verification/EntEncProof.v ===== *)
(** * The range encoder implements interval narrowing

    Refinement of [aom_dsp/entenc.c] to [RangeSpec]: the 64-bit window, the bytes
    already flushed and the pending carry together denote the exact lower end of
    the interval, and no carry ever leaves the buffer. *)

From S2P Require Import Prelude CodecTypes BitChannel EntCoder RangeSpec.

#[local] Arguments Z.of_nat : simpl never.
#[local] Arguments Z.mul : simpl never.

(** ** Carry propagation *)

Lemma propagate_unfold buf offs b :
  buf !! offs = Some b -> is_byte b ->
  propagate_carry_bwd buf offs =
    if b <? 255 then Some (<[offs := b + 1]> buf)
    else match offs with O => None | S o => propagate_carry_bwd (<[offs := 0]> buf) o end.
Proof.
  intros Hl Hb. unfold is_byte in Hb.
  assert (u16 (b + 1) = b + 1) as E1 by (apply u16_small; lia).
  destruct offs; simpl; rewrite Hl; cbn [mbind option_bind]; rewrite E1;
    rewrite Z.shiftr_div_pow2 by lia; change (2 ^ 8) with 256;
    (destruct (Z.ltb_spec b 255);
     [ rewrite Z.div_small, u8_small by lia; done
     | replace b with 255 by lia; done ]).
Qed.

(** Adding one to a big-endian number in place. *)
Lemma propagate_carry_ok pre post :
  Forall is_byte pre -> be_value pre + 1 < 2 ^ (8 * Z.of_nat (length pre)) -> pre <> [] ->
  exists pre', propagate_carry_bwd (pre ++ post) (length pre - 1) = Some (pre' ++ post) /\
    length pre' = length pre /\ Forall is_byte pre' /\ be_value pre' = be_value pre + 1.
Proof.
  revert post. induction pre as [|b pre IH] using rev_ind; intros post Hf Hv Hne; [done |].
  apply Forall_app in Hf as [Hf Hb]. rewrite Forall_singleton in Hb.
  rewrite be_value_snoc in *. rewrite length_app in *. simpl length in *.
  replace (length pre + 1 - 1)%nat with (length pre) by lia.
  rewrite <- app_assoc. simpl app.
  rewrite (propagate_unfold _ _ b) by (done || by rewrite list_lookup_middle).
  rewrite insert_app_r_alt, Nat.sub_diag by lia. simpl.
  destruct (Z.ltb_spec b 255).
  - exists (pre ++ [b + 1]). rewrite <- app_assoc, be_value_snoc, length_app.
    split_and!; try done; [| lia].
    apply Forall_app. split; [done |]. constructor; [unfold is_byte in *; lia | done].
  - assert (b = 255) as -> by (unfold is_byte in Hb; lia).
    replace (8 * Z.of_nat (length pre + 1)) with (8 * Z.of_nat (length pre) + 8) in Hv by lia.
    rewrite pow2_split in Hv by lia. change (2 ^ 8) with 256 in Hv.
    destruct (IH (0 :: post) Hf) as (pre' & E & Hl & Hf' & Hv').
    { lia. }
    { intros ->. simpl in Hv. change (2 ^ (8 * Z.of_nat 0)) with 1 in Hv. lia. }
    destruct (length pre) as [|n] eqn:En.
    { destruct pre; [| done]. simpl in Hv. change (2 ^ (8 * Z.of_nat 0)) with 1 in Hv. lia. }
    rewrite insert_app_r_alt by lia. rewrite En, Nat.sub_diag. simpl.
    replace (S n - 1)%nat with n in E by lia. rewrite E.
    exists (pre' ++ [0]). rewrite <- app_assoc, be_value_snoc, length_app, Hl. simpl length.
    split_and!; try done; [| lia].
    apply Forall_app. split; [done |]. constructor; [by unfold is_byte | done].
Qed.

(** ** The state relation *)

(** [low] and [rng] are the pending window and range of an encoder whose other
    fields are those of [enc]; [L] and [D] the lower end and resolution they
    denote.  [size0] bounds the initial allocation. *)
Record enc_core (size0 : Z) (enc : od_ec_enc) (low rng L D : Z) : Prop := {
  ec_error : enc_error enc = 0;
  ec_storage : Z.of_nat (length (enc_buf enc)) = enc_storage enc;
  ec_offs : 0 <= enc_offs enc <= enc_storage enc;
  ec_small : enc_storage enc <= Z.max size0 (2 * enc_offs enc + 32);
  ec_bytes : Forall is_byte (take (Z.to_nat (enc_offs enc)) (enc_buf enc));
  ec_cnt : -9 <= enc_cnt enc <= 39;
  ec_D : 8 * enc_offs enc + enc_cnt enc + 9 = D;
  ec_low : 0 <= low;
  ec_window : low + rng <= 2 ^ (enc_cnt enc + 25);
  ec_value : be_value (take (Z.to_nat (enc_offs enc)) (enc_buf enc)) * 2 ^ (enc_cnt enc + 24)
             + low = L }.

Definition enc_rel (size0 : Z) (enc : od_ec_enc) (st : interval) : Prop :=
  enc_core size0 enc (enc_low enc) (enc_rng enc) (iL st) (iD st) /\
  enc_rng enc = iR st /\ interval_ok st.

(** ** Flushing ready bytes *)

Lemma land_pow2_carry x n : 0 <= n -> 0 <= x < 2 ^ (n + 1) ->
  Z.land x (2 ^ n) = if x <? 2 ^ n then 0 else 2 ^ n.
Proof.
  intros Hn Hx. rewrite Z.pow_add_r in Hx by lia. change (2 ^ 1) with 2 in Hx.
  pose proof (pow2_pos n Hn).
  replace (2 ^ n) with (Z.shiftl 1 n) at 1 by (rewrite Z.shiftl_mul_pow2; lia).
  destruct (Z.ltb_spec x (2 ^ n)); [apply land_shiftl_disjoint; lia |].
  replace x with ((x - 2 ^ n) + 1 * 2 ^ n) by lia.
  rewrite <- lor_shiftl_add, Z.land_lor_distr_l, land_shiftl_disjoint by lia.
  rewrite Z.land_diag, Z.shiftl_mul_pow2, Z.lor_0_l by lia. lia.
Qed.

Lemma write_out_ok out offs output carry nb :
  Forall is_byte (take (Z.to_nat offs) out) ->
  0 <= offs -> offs + 8 <= Z.of_nat (length out) < 2 ^ 32 -> 1 <= nb <= 7 ->
  0 <= output < 2 ^ (8 * nb) -> 0 <= carry ->
  be_value (take (Z.to_nat offs) out) + b2z (0 <? carry) < 2 ^ (8 * offs) ->
  exists out', write_enc_data_to_out_buf out offs output carry nb = Some (out', offs + nb) /\
    length out' = length out /\
    Forall is_byte (take (Z.to_nat (offs + nb)) out') /\
    be_value (take (Z.to_nat (offs + nb)) out') =
      (be_value (take (Z.to_nat offs) out) + b2z (0 <? carry)) * 2 ^ (8 * nb) + output.
Proof.
  intros Hby Ho Hlen Hnb Hout Hc Hv. unfold write_enc_data_to_out_buf.
  set (pre := take (Z.to_nat offs) out) in *.
  assert (length pre = Z.to_nat offs) as Hpre by (unfold pre; rewrite length_take; lia).
  set (k := Z.to_nat (8 - nb)).
  assert (u64 (Z.shiftl output (Z.shiftl (8 - nb) 3)) = output * 2 ^ (8 * Z.of_nat k)) as ->.
  { rewrite (Z.shiftl_mul_pow2 (8 - nb)) by lia. change (2 ^ 3) with 8.
    rewrite Z.shiftl_mul_pow2 by lia. replace (8 * Z.of_nat k) with ((8 - nb) * 8) by lia.
    rewrite u64_small; [done |].
    replace 64 with (8 * nb + (8 - nb) * 8) by lia. rewrite pow2_split by lia.
    pose proof (pow2_pos ((8 - nb) * 8) ltac:(lia)). nia. }
  replace (be_bytes 8 (output * 2 ^ (8 * Z.of_nat k)))
    with (be_bytes (Z.to_nat nb + k) (output * 2 ^ (8 * Z.of_nat k))) by (f_equal; lia).
  rewrite be_bytes_shift.
  unfold c_memcpy. rewrite length_app, length_be_bytes, length_replicate.
  replace (Z.to_nat offs + (Z.to_nat nb + k))%nat with (Z.to_nat (offs + 8)) by lia.
  rewrite (proj2 (Nat.leb_le _ _)) by lia. cbn [mbind option_bind]. fold pre.
  set (post := replicate k 0 ++ drop (Z.to_nat (offs + 8)) out).
  replace (pre ++ (be_bytes (Z.to_nat nb) output ++ replicate k 0) ++ drop (Z.to_nat (offs + 8)) out)
    with (pre ++ be_bytes (Z.to_nat nb) output ++ post)
    by (unfold post; by rewrite <- !app_assoc).
  assert (length pre + (Z.to_nat nb + length post) = length out)%nat as Hlo.
  { unfold post. rewrite length_app, length_replicate, length_drop, Hpre. lia. }
  assert (exists pre', (if negb (carry =? 0)
      then (if offs =? 0 then None
            else propagate_carry_bwd (pre ++ be_bytes (Z.to_nat nb) output ++ post)
                   (Z.to_nat (offs - 1)))
      else Some (pre ++ be_bytes (Z.to_nat nb) output ++ post)) =
      Some (pre' ++ be_bytes (Z.to_nat nb) output ++ post) /\
      length pre' = length pre /\ Forall is_byte pre' /\
      be_value pre' = be_value pre + b2z (0 <? carry)) as (pre' & -> & Hl' & Hb' & Hv').
  { destruct (Z.eqb_spec carry 0) as [-> | Hc0]; simpl.
    - exists pre. split_and!; done || lia.
    - rewrite (proj2 (Z.ltb_lt 0 carry)) in * by lia. simpl b2z in *.
      pose proof (be_value_range pre Hby).
      destruct (Z.eqb_spec offs 0) as [-> | Ho0].
      { change (2 ^ (8 * 0)) with 1 in Hv. lia. }
      replace (Z.to_nat (offs - 1)) with (length pre - 1)%nat by lia.
      apply propagate_carry_ok; [done | | by destruct pre; simpl in *; [lia |]].
      replace (8 * Z.of_nat (length pre)) with (8 * offs) by lia. lia. }
  cbn [mbind option_bind]. rewrite u32_small by lia. eexists. split; [done |].
  rewrite !length_app, length_be_bytes.
  assert (take (Z.to_nat (offs + nb)) (pre' ++ be_bytes (Z.to_nat nb) output ++ post)
          = pre' ++ be_bytes (Z.to_nat nb) output) as ->.
  { rewrite app_assoc. apply take_app_length'. rewrite length_app, length_be_bytes. lia. }
  split_and!; [lia | apply Forall_app; split; [done | apply be_bytes_byte] |].
  rewrite be_value_app, length_be_bytes, be_value_be_bytes by lia.
  rewrite !Z2Nat.id, Hv' by lia. rewrite (Z.mod_small output) by lia. done.
Qed.

(** Room for the eight bytes a flush stores. *)
Definition enc_grow (al : allocator) (enc : od_ec_enc) : option (list Z * Z) :=
  if enc_storage enc <? u32 (enc_offs enc + 8) then
    let storage := u32 (2 * enc_storage enc + 8) in
    match c_realloc al (enc_buf enc) storage with
    | Some out => Some (out, storage)
    | None => None
    end
  else Some (enc_buf enc, enc_storage enc).

Lemma enc_grow_ok size0 al enc low rng L D :
  grants_all al -> size0 < 2 ^ 31 -> enc_core size0 enc low rng L D -> D < 2 ^ 31 ->
  exists out storage, enc_grow al enc = Some (out, storage) /\
    Z.of_nat (length out) = storage /\ enc_offs enc + 8 <= storage < 2 ^ 32 /\
    storage <= Z.max size0 (2 * enc_offs enc + 32) /\
    take (Z.to_nat (enc_offs enc)) out = take (Z.to_nat (enc_offs enc)) (enc_buf enc).
Proof.
  intros Hal Hs0 [] HD. unfold enc_grow. rewrite (u32_small (enc_offs enc + 8)) by lia.
  destruct (Z.ltb_spec (enc_storage enc) (enc_offs enc + 8)).
  - rewrite (u32_small (2 * _ + 8)) by lia.
    destruct (c_realloc_grow al (enc_buf enc) (2 * enc_storage enc + 8) Hal ltac:(lia))
      as (out & -> & Hl & Ht).
    eexists _, _. split; [done |]. split_and!; try lia. apply Ht. lia.
  - eexists _, _. split; [done |]. split_and!; done || lia.
Qed.

(** Splitting the window at bit [c] leaves the carry, the ready bytes and the
    bits that stay. *)
Lemma window_split low c nb : 0 <= c -> 0 <= nb -> 0 <= low < 2 ^ (c + 8 * nb + 1) ->
  let output := Z.shiftr low c in
  let carry := Z.land output (2 ^ (8 * nb)) in
  0 <= carry /\
  Z.land output (2 ^ (8 * nb) - 1) = output mod 2 ^ (8 * nb) /\
  Z.land low (2 ^ c - 1) = low mod 2 ^ c /\
  low = (b2z (0 <? carry) * 2 ^ (8 * nb) + output mod 2 ^ (8 * nb)) * 2 ^ c + low mod 2 ^ c.
Proof.
  intros Hc Hnb Hlow output carry.
  assert (forall n, 2 ^ n - 1 = Z.ones n) as Hones by (intros; rewrite Z.ones_equiv; lia).
  rewrite !Hones, !Z.land_ones by lia.
  pose proof (pow2_pos c Hc). pose proof (pow2_pos (8 * nb) ltac:(lia)).
  assert (output = low / 2 ^ c) as Eo by (unfold output; rewrite Z.shiftr_div_pow2 by lia; done).
  assert (0 <= output < 2 ^ (8 * nb + 1)) as Hout.
  { rewrite Eo. split; [apply Z.div_pos; lia |]. apply Z.div_lt_upper_bound; [lia |].
    rewrite <- pow2_split by lia. replace (c + (8 * nb + 1)) with (c + 8 * nb + 1) by lia. lia. }
  unfold carry. rewrite land_pow2_carry by lia.
  rewrite pow2_split in Hout by lia. change (2 ^ 1) with 2 in Hout.
  pose proof (Z.div_mod low (2 ^ c) ltac:(lia)) as Hdm. rewrite <- Eo in Hdm.
  destruct (Z.ltb_spec output (2 ^ (8 * nb))).
  - rewrite (Z.mod_small output) by lia. simpl. split_and!; try done; try lia.
  - rewrite (proj2 (Z.ltb_lt 0 (2 ^ (8 * nb)))) by lia. simpl b2z.
    replace (output mod 2 ^ (8 * nb)) with (output - 2 ^ (8 * nb)).
    + split_and!; try done; lia.
    + rewrite <- (Z.mod_small (output - 2 ^ (8 * nb)) (2 ^ (8 * nb))) by lia.
      rewrite <- (Z.mod_add (output - 2 ^ (8 * nb)) 1) by lia. f_equal. lia.
Qed.

(** The number of bytes a flush emits and the bits it leaves. *)
Lemma flush_count cnt d : 40 <= cnt + d -> cnt <= 39 -> 0 <= d <= 15 ->
  let nb := Z.shiftr (cnt + d) 3 + 1 in
  u8 nb = nb /\ 6 <= nb <= 7 /\ Z.shiftl nb 3 = 8 * nb /\
  1 <= cnt + (24 - 8 * nb) <= 23 /\ -8 <= cnt + (24 - 8 * nb) + d - 24 <= -1.
Proof.
  intros Hs Hc Hd nb. unfold nb. rewrite !Z.shiftr_div_pow2, Z.shiftl_mul_pow2 by lia.
  change (2 ^ 3) with 8. rewrite u8_small by dlia. dlia.
Qed.

Lemma enc_flush_ok size0 al enc low rng L D :
  grants_all al -> size0 < 2 ^ 31 -> enc_core size0 enc low rng L D ->
  1 <= rng < 65536 -> L + rng <= 2 ^ (15 + D) -> D + 15 < 2 ^ 31 ->
  40 <= enc_cnt enc + renorm rng ->
  exists enc', od_ec_enc_normalize al enc low rng = Some enc' /\
    enc_core size0 enc' (enc_low enc') (enc_rng enc') (L * 2 ^ renorm rng) (D + renorm rng) /\
    enc_rng enc' = rng * 2 ^ renorm rng.
Proof.
  intros Hal Hs0 Hcore Hr HL HD Hs. destruct (renorm_ok rng Hr) as [Hd Hrd].
  destruct (enc_grow_ok _ _ _ _ _ _ _ Hal Hs0 Hcore ltac:(lia))
    as (out & storage & Eg & Hlen & Hst & Hsm & Htake).
  destruct Hcore as [He Hsto Hoffs _ Hby Hcnt HDD Hlow Hwin Hval].
  unfold od_ec_enc_normalize. rewrite He. cbn [Z.eqb negb].
  replace (16 - OD_ILOG_NZ rng) with (renorm rng) by (unfold OD_ILOG_NZ, get_msb, renorm; lia).
  set (d := renorm rng) in *. set (cnt := enc_cnt enc) in *. set (offs := enc_offs enc) in *.
  rewrite (proj2 (Z.leb_le _ _)) by lia. cbv zeta.
  match goal with
  | |- context [match ?g with Some _ => _ | None => _ end] => change g with (enc_grow al enc)
  end.
  rewrite Eg.
  destruct (flush_count cnt d Hs ltac:(lia) ltac:(lia)) as (Eu & Hnb & Esh & Hc & Hs').
  rewrite Eu, Esh. set (nb := Z.shiftr (cnt + d) 3 + 1) in *.
  set (c := cnt + (24 - 8 * nb)) in *.
  assert (Ecnt : cnt + 24 = 8 * nb + c) by lia.
  destruct (window_split low c nb ltac:(lia) ltac:(lia)) as (Hcar & Eout & Elow & Esplit).
  { replace (c + 8 * nb + 1) with (cnt + 25) by lia. lia. }
  assert (2 ^ c < 2 ^ 64 /\ 2 ^ (8 * nb) < 2 ^ 64) as [Hc64 Hnb64]
    by (split; apply Z.pow_lt_mono_r; lia).
  pose proof (pow2_pos c ltac:(lia)). pose proof (pow2_pos (8 * nb) ltac:(lia)).
  rewrite !(Z.shiftl_mul_pow2 1), !Z.mul_1_l by lia.
  rewrite (u64_small (2 ^ c)), (u64_small (2 ^ (8 * nb))), Eout, Elow by lia.
  set (output := Z.shiftr low c) in *. set (carry := Z.land output (2 ^ (8 * nb))) in *.
  set (V := be_value (take (Z.to_nat offs) (enc_buf enc))) in *.
  assert (0 <= output mod 2 ^ (8 * nb) < 2 ^ (8 * nb)) as Hom by (apply Z.mod_pos_bound; lia).
  assert (0 <= low mod 2 ^ c < 2 ^ c) as Hlm by (apply Z.mod_pos_bound; lia).
  assert ((V + b2z (0 <? carry)) * 2 ^ (8 * nb) * 2 ^ c < 2 ^ (15 + D)) as Htot.
  { rewrite Ecnt, pow2_split in Hval by lia. nia. }
  destruct (write_out_ok out offs (output mod 2 ^ (8 * nb)) carry nb) as
    (out' & -> & Hlen' & Hby' & Hval'); try (lia || by rewrite Htake).
  { rewrite Htake. fold V. replace (15 + D) with (8 * offs + (8 * nb + c)) in Htot by lia.
    rewrite !pow2_split, <- Z.mul_assoc in Htot by lia.
    apply Z.mul_lt_mono_pos_r in Htot; [done |]. apply Z.mul_pos_pos; lia. }
  cbn [mbind option_bind]. eexists. split; [done |].
  rewrite Htake in Hval'. fold V in Hval'.
  assert (2 ^ (c + d) = 2 ^ c * 2 ^ d) as Ecd by (apply pow2_split; lia).
  pose proof (pow2_pos d ltac:(lia)).
  assert (16 <= c + d < 24) as Hcd by lia.
  assert (2 ^ 16 <= 2 ^ (c + d) < 2 ^ 64) as Hcdp
    by (split; [apply pow2_le | apply Z.pow_lt_mono_r]; lia).
  assert (0 <= low mod 2 ^ c * 2 ^ d < 2 ^ (c + d)) as Hlsh.
  { rewrite Ecd. split; [apply Z.mul_nonneg_nonneg; lia | apply Z.mul_lt_mono_pos_r; lia]. }
  assert (u64 (Z.shiftl (low mod 2 ^ c) d) = low mod 2 ^ c * 2 ^ d) as El
    by (rewrite Z.shiftl_mul_pow2 by lia; apply u64_small; lia).
  assert (u16 (Z.shiftl rng d) = rng * 2 ^ d) as Er
    by (rewrite Z.shiftl_mul_pow2 by lia; apply u16_small; lia).
  simpl. rewrite El, Er, s16_small by lia. split; [| done].
  constructor; simpl; try done; try lia.
  - replace (c + d - 24 + 25) with (c + d + 1) by lia. rewrite (pow2_split (c + d)) by lia.
    change (2 ^ 1) with 2. change (2 ^ 16) with 65536 in Hcdp. lia.
  - rewrite Hval'. replace (c + d - 24 + 24) with (c + d) by lia. rewrite Ecd.
    rewrite <- Hval, Ecnt, pow2_split by lia. rewrite Esplit at 2. ring.
Qed.

Lemma enc_normalize_ok size0 al enc low rng L D :
  grants_all al -> size0 < 2 ^ 31 -> enc_core size0 enc low rng L D ->
  1 <= rng < 65536 -> L + rng <= 2 ^ (15 + D) -> D + 15 < 2 ^ 31 ->
  exists enc', od_ec_enc_normalize al enc low rng = Some enc' /\
    enc_core size0 enc' (enc_low enc') (enc_rng enc') (L * 2 ^ renorm rng) (D + renorm rng) /\
    enc_rng enc' = rng * 2 ^ renorm rng.
Proof.
  intros Hal Hs0 Hcore Hr HL HD.
  destruct (Z.le_gt_cases 40 (enc_cnt enc + renorm rng)) as [Hs | Hs];
    [by apply enc_flush_ok |].
  destruct (renorm_ok rng Hr) as [Hd Hrd].
  destruct Hcore as [He Hsto Hoffs Hsm Hby Hcnt HDD Hlow Hwin Hval].
  unfold od_ec_enc_normalize. rewrite He. cbn [Z.eqb negb].
  replace (16 - OD_ILOG_NZ rng) with (renorm rng) by (unfold OD_ILOG_NZ, get_msb, renorm; lia).
  set (d := renorm rng) in *. set (cnt := enc_cnt enc) in *.
  rewrite (proj2 (Z.leb_gt _ _)) by lia. eexists. split; [done |].
  pose proof (pow2_pos d ltac:(lia)).
  assert (0 <= low * 2 ^ d) as Hlp by (apply Z.mul_nonneg_nonneg; lia).
  assert (low * 2 ^ d + rng * 2 ^ d <= 2 ^ (cnt + d + 25)) as Hw.
  { rewrite <- Z.mul_add_distr_r. replace (cnt + d + 25) with (cnt + 25 + d) by lia.
    rewrite pow2_split by lia. apply Z.mul_le_mono_nonneg_r; lia. }
  assert (2 ^ (cnt + d + 25) <= 2 ^ 64) by (apply pow2_le; lia).
  simpl. rewrite !Z.shiftl_mul_pow2 by lia. rewrite u64_small, u16_small, s16_small by lia.
  split; [| done]. constructor; simpl; try done; try lia.
  replace (cnt + d + 24) with (cnt + 24 + d) by lia. rewrite pow2_split by lia.
  rewrite <- Hval. fold cnt. ring.
Qed.

(** ** Encoding one symbol *)

Definition encode_symbol (al : allocator) (enc : od_ec_enc) (sym : symbol) : option od_ec_enc :=
  match sym with
  | SymCdf icdf nsyms s => od_ec_encode_cdf_q15 al enc s icdf nsyms
  | SymBool f val => od_ec_encode_bool_q15 al enc (b2z val) f
  end.

Lemma encode_symbol_normalize al enc sym u v :
  sym_ok sym -> 32768 <= enc_rng enc < 65536 ->
  0 <= enc_low enc -> enc_low enc + enc_rng enc <= 2 ^ 64 ->
  sym_bounds sym (enc_rng enc) = (u, v) ->
  encode_symbol al enc sym =
    od_ec_enc_normalize al enc (enc_low enc + (enc_rng enc - u)) (u - v).
Proof.
  intros Hok Hr Hl0 Hl E. destruct (sym_bounds_ok _ _ _ _ Hok Hr E) as (Hv & Huv & Hu).
  set (r := enc_rng enc) in *. set (l := enc_low enc) in *.
  destruct sym as [icdf nsyms s | f [|]]; simpl in *; injection E as E1 E2.
  - destruct Hok as [Hi Hs]. destruct (Hi) as (Hn & _).
    destruct (icdf_lookup icdf nsyms s Hi Hs) as [Els Hbs]. unfold CDF_PROB_TOP in *.
    assert (ec_scale r (nth (Z.to_nat s) icdf 0) + EC_MIN_PROB * (nsyms - 1 - (s + 0)) = v) as Ev
      by (rewrite ec_scale_eq by lia; unfold EC_MIN_PROB; rewrite <- E2; unfold cdf_bound;
          rewrite Z.add_0_r; done).
    unfold od_ec_encode_cdf_q15, od_ec_encode_q15. fold r l.
    destruct (Z.ltb_spec 0 s); destruct (Z.eqb_spec s 0); try lia.
    + destruct (icdf_lookup icdf nsyms (s - 1) Hi ltac:(lia)) as [Elp Hbp]. unfold CDF_PROB_TOP in *.
      rewrite Elp, Els. cbn [mbind option_bind]. rewrite (proj2 (Z.ltb_lt _ _)) by lia.
      assert (ec_scale r (nth (Z.to_nat (s - 1)) icdf 0) + EC_MIN_PROB * (nsyms - 1 - (s - 1)) = u)
        as Eu by (rewrite ec_scale_eq by lia; unfold EC_MIN_PROB; rewrite <- E1; done).
      rewrite Ev, Eu, (u32_small u), (u32_small v), !u32_small, u64_small by lia. done.
    + rewrite Els. cbn [mbind option_bind]. unfold AOM_ICDF, CDF_PROB_TOP.
      rewrite (proj2 (Z.ltb_ge _ _)) by lia. rewrite Ev, u32_small by lia.
      f_equal; lia.
  - unfold od_ec_encode_bool_q15. fold r l. unfold CDF_PROB_TOP in Hok.
    rewrite ec_scale_eq by lia. unfold EC_MIN_PROB. fold (bool_bound f r). rewrite E1. simpl.
    rewrite (u32_small u), (u32_small (r - u)), u64_small by lia. f_equal; lia.
  - unfold od_ec_encode_bool_q15. fold r l. unfold CDF_PROB_TOP in Hok.
    rewrite ec_scale_eq by lia. unfold EC_MIN_PROB. fold (bool_bound f r). rewrite E2. simpl.
    rewrite (u32_small v), (u32_small (r - v)) by lia. f_equal; lia.
Qed.

Lemma encode_symbol_ok size0 al enc st sym :
  grants_all al -> size0 < 2 ^ 31 -> enc_rel size0 enc st -> sym_ok sym ->
  iD st + 15 < 2 ^ 31 ->
  exists enc', encode_symbol al enc sym = Some enc' /\ enc_rel size0 enc' (narrow st sym).
Proof.
  intros Hal Hs0 (Hcore & Er & Hst) Hok HD. destruct (narrow_ok st sym Hst Hok) as [Hst' _].
  destruct (Hst) as (HL & HR & HD0 & Hsum).
  unfold narrow in *. destruct (sym_bounds sym (iR st)) as [u v] eqn:E.
  destruct (sym_bounds_ok _ _ _ _ Hok HR E) as (Hv & Huv & Hu).
  pose proof Hcore as [He Hsto Hoffs Hsm Hby Hcnt HDD Hlow Hwin Hval].
  assert (2 ^ (enc_cnt enc + 25) <= 2 ^ 64) by (apply pow2_le; lia).
  rewrite (encode_symbol_normalize al enc sym u v) by (rewrite ?Er; done || lia).
  destruct (enc_normalize_ok size0 al enc (enc_low enc + (enc_rng enc - u)) (u - v)
    (iL st + iR st - u) (iD st)) as (enc' & En & Hc' & Er'); try done; try lia.
  - constructor; try done; try lia.
  - exists enc'. split; [exact En |]. split_and!; done.
Qed.

(** ** Terminating the stream *)

(** Rounding up to a multiple of 2^14 whose bit 14 is set stays in the range. *)
Lemma done_value l : 0 <= l -> l + 32768 <= 2 ^ 64 ->
  let e := Z.lor (Z.land (u64 (l + 16383)) (Z.lnot 16383)) (16383 + 1) in
  l <= e < l + 32768 /\ e mod 2 ^ 14 = 0.
Proof.
  intros Hl Hl64 e. unfold e. rewrite u64_small by lia.
  set (k := (l + 16383) / 16384).
  assert (Z.land (l + 16383) (Z.lnot 16383) = Z.shiftl k 14) as ->.
  { rewrite <- Z.ldiff_land. change 16383 with (Z.ones 14) at 2.
    rewrite Z.ldiff_ones_r by lia. f_equal. by rewrite Z.shiftr_div_pow2. }
  change (16383 + 1) with (Z.shiftl 1 14). rewrite <- Z.shiftl_lor, Z.shiftl_mul_pow2 by lia.
  assert (Z.lor k 1 = if Z.odd k then k else k + 1) as ->.
  { assert (k = Z.lor (k mod 2) (Z.shiftl (k / 2) 1)) as Ek
      by (rewrite lor_shiftl_add; change (2 ^ 1) with 2; dlia).
    rewrite Ek at 1. rewrite Z.lor_comm, Z.lor_assoc.
    replace (Z.lor 1 (k mod 2)) with 1 by (rewrite Zmod_odd; by destruct (Z.odd k)).
    rewrite lor_shiftl_add by (simpl; lia). change (2 ^ 1) with 2.
    pose proof (Zmod_odd k). destruct (Z.odd k); dlia. }
  change (2 ^ 14) with 16384. split; [| apply Z.mod_mul; lia].
  assert (l <= k * 16384 <= l + 16383) by (unfold k; dlia).
  destruct (Z.odd k); lia.
Qed.

(** One byte of the flush, with its carry. *)
Definition put_val (out : list Z) (offs val : Z) : option (list Z) :=
  out ← (if offs <? Z.of_nat (length out)
         then Some (<[Z.to_nat offs := Z.land val 255]> out) else None);
  if negb (Z.land val 256 =? 0)
  then (if offs =? 0 then None else propagate_carry_bwd out (Z.to_nat (offs - 1)))
  else Some out.

Lemma put_val_ok out offs val :
  Forall is_byte (take (Z.to_nat offs) out) -> 0 <= offs < Z.of_nat (length out) ->
  0 <= val < 512 ->
  be_value (take (Z.to_nat offs) out) * 256 + val < 2 ^ (8 * offs + 8) ->
  exists out', put_val out offs val = Some out' /\ length out' = length out /\
    Forall is_byte (take (Z.to_nat (offs + 1)) out') /\
    be_value (take (Z.to_nat (offs + 1)) out') = be_value (take (Z.to_nat offs) out) * 256 + val.
Proof.
  intros Hby Ho Hval Hv. unfold put_val. rewrite (proj2 (Z.ltb_lt _ _)) by lia.
  cbn [mbind option_bind]. set (pre := take (Z.to_nat offs) out) in *.
  assert (length pre = Z.to_nat offs) as Hpre by (unfold pre; rewrite length_take; lia).
  destruct (drop (Z.to_nat offs) out) as [|x post] eqn:Ed.
  { apply (f_equal length) in Ed. rewrite length_drop in Ed. simpl in Ed. lia. }
  assert (out = pre ++ x :: post) as Eout by (unfold pre; by rewrite <- Ed, take_drop).
  clearbody pre. subst out. rewrite <- Hpre.
  rewrite insert_app_r_alt, Nat.sub_diag by lia. simpl.
  change 255 with (Z.ones 8). rewrite Z.land_ones by lia. change (2 ^ 8) with 256.
  change 256 with (2 ^ 8) at 1. rewrite land_pow2_carry by (simpl; lia). change (2 ^ 8) with 256.
  assert (is_byte (val mod 256)) by (unfold is_byte; dlia).
  rewrite pow2_split in Hv by lia. change (2 ^ 8) with 256 in Hv.
  replace (Z.to_nat (offs + 1)) with (length pre + 1)%nat by lia.
  assert (Htk : forall p : list Z, length p = length pre ->
    take (length pre + 1) (p ++ val mod 256 :: post) = p ++ [val mod 256]).
  { intros p Hp. change (val mod 256 :: post) with ([val mod 256] ++ post).
    rewrite app_assoc. apply take_app_length'. rewrite length_app, Hp. done. }
  assert (Hlen : forall p : list Z, length p = length pre ->
    length (p ++ val mod 256 :: post) = length (pre ++ x :: post)).
  { intros p Hp. by rewrite !length_app, Hp. }
  destruct (Z.ltb_spec val 256).
  - exists (pre ++ val mod 256 :: post). rewrite Htk, Hlen, be_value_snoc by done.
    split_and!; try done.
    + apply Forall_app. split; [done |]. by constructor.
    + by rewrite Z.mod_small by lia.
  - simpl. pose proof (be_value_range pre Hby).
    destruct (Z.eqb_spec offs 0) as [-> | Ho0]; [change (2 ^ (8 * 0)) with 1 in Hv; lia |].
    replace (Z.to_nat (offs - 1)) with (length pre - 1)%nat by lia.
    destruct (propagate_carry_ok pre (val mod 256 :: post) Hby) as (pre' & -> & Hl' & Hb' & Hv').
    { replace (8 * Z.of_nat (length pre)) with (8 * offs) by lia. lia. }
    { destruct pre; simpl in *; [lia | done]. }
    eexists. split; [done |]. rewrite Htk, Hlen, be_value_snoc, Hv' by done.
    split_and!; try done; [apply Forall_app; split; [done | by constructor] | dlia].
Qed.

Lemma enc_done_loop_unfold fuel out offs e s c n :
  enc_done_loop (S fuel) out offs e s c n =
    (out ← put_val out offs (u16 (Z.shiftr e (c + 16)));
     if 0 <? s - 8 then
       enc_done_loop fuel out (u32 (offs + 1)) (Z.land e n) (s - 8) (c - 8) (Z.shiftr n 8)
     else Some (out, u32 (offs + 1))).
Proof.
  simpl. unfold put_val. by destruct (offs <? Z.of_nat (length out)).
Qed.

Lemma enc_done_loop_ok fuel out offs e c K T :
  Forall is_byte (take (Z.to_nat offs) out) -> 0 <= offs -> -9 <= c <= 39 ->
  K = (c + 17) / 8 -> offs + K <= Z.of_nat (length out) < 2 ^ 32 -> c + 10 <= Z.of_nat fuel ->
  0 <= e < 2 ^ (c + 25) ->
  be_value (take (Z.to_nat offs) out) * 2 ^ (c + 24) + e = T -> T < 2 ^ (8 * offs + c + 24) ->
  exists out', enc_done_loop fuel out offs e (c + 10) c (2 ^ (c + 16) - 1) = Some (out', offs + K) /\
    length out' = length out /\
    Forall is_byte (take (Z.to_nat (offs + K)) out') /\
    be_value (take (Z.to_nat (offs + K)) out') = T / 2 ^ (c + 24 - 8 * K).
Proof.
  revert out offs e c K. induction fuel as [|fuel IH];
    intros out offs e c K Hby Ho Hc HK Hlen Hf He HT HT2; [lia |].
  rewrite enc_done_loop_unfold, (Z.shiftr_div_pow2 e) by lia.
  assert (2 ^ (c + 25) = 2 ^ (c + 16) * 512 /\ 2 ^ (c + 24) = 2 ^ (c + 16) * 256) as [E25 E24].
  { replace (c + 25) with (c + 16 + 9) by lia. replace (c + 24) with (c + 16 + 8) by lia.
    rewrite !(pow2_split (c + 16)) by lia. done. }
  pose proof (pow2_pos (c + 16) ltac:(lia)) as Hp. set (P := 2 ^ (c + 16)) in *.
  assert (0 <= e / P < 512) as Hval by (split; [apply Z.div_pos | apply Z.div_lt_upper_bound]; lia).
  rewrite u16_small by lia. set (V := be_value (take (Z.to_nat offs) out)) in *.
  pose proof (Z.div_mod e P ltac:(lia)) as Hdm.
  assert (0 <= e mod P < P) as Hem by (apply Z.mod_pos_bound; lia).
  assert (T = (V * 256 + e / P) * P + e mod P) as ET by (rewrite <- HT, E24, Hdm at 1; ring).
  destruct (put_val_ok out offs (e / P) Hby ltac:(dlia) Hval) as (out1 & -> & Hl1 & Hb1 & Hv1).
  { fold V. replace (8 * offs + c + 24) with (8 * offs + 8 + (c + 16)) in HT2 by lia.
    rewrite (pow2_split (8 * offs + 8)) in HT2 by lia. fold P in HT2.
    apply (Z.mul_lt_mono_pos_r P); lia. }
  cbn [mbind option_bind]. fold V in Hv1. rewrite u32_small by dlia.
  assert (Z.land e (P - 1) = e mod P) as ->.
  { unfold P. rewrite <- Z.land_ones by lia. f_equal. rewrite Z.ones_equiv. lia. }
  destruct (Z.ltb_spec 0 (c + 10 - 8)) as [Hs | Hs].
  - assert (Z.shiftr (P - 1) 8 = 2 ^ (c - 8 + 16) - 1) as ->.
    { rewrite Z.shiftr_div_pow2 by lia. unfold P.
      replace (c + 16) with (c - 8 + 16 + 8) by lia. rewrite (pow2_split (c - 8 + 16)) by lia.
      change (2 ^ 8) with 256. dlia. }
    replace (c + 10 - 8) with (c - 8 + 10) by lia.
    destruct (IH out1 (offs + 1) (e mod P) (c - 8) (K - 1)) as (out' & -> & Hl' & Hb' & Hv');
      try done; try lia; try dlia.
    + replace (c - 8 + 25) with (c + 16 + 1) by lia. rewrite (pow2_split (c + 16)) by lia.
      fold P. lia.
    + rewrite Hv1. replace (c - 8 + 24) with (c + 16) by lia. fold P. lia.
    + replace (8 * (offs + 1) + (c - 8) + 24) with (8 * offs + c + 24) by lia. done.
    + exists out'. replace (offs + 1 + (K - 1)) with (offs + K) in * by lia.
      replace (c - 8 + 24 - 8 * (K - 1)) with (c + 24 - 8 * K) in Hv' by lia.
      split_and!; done || congruence.
  - assert (K = 1) as -> by dlia. exists out1. split_and!; try done.
    rewrite Hv1. replace (c + 24 - 8 * 1) with (c + 16) by lia. fold P.
    rewrite ET, Z.div_add_l, (Z.div_small (e mod P)) by lia. lia.
Qed.

(** The finished buffer holds, in the fewest whole bytes that cover one more bit
    than the symbols took, a number of the final interval. *)
Lemma enc_done_ok size0 al enc st :
  grants_all al -> size0 < 2 ^ 31 -> enc_rel size0 enc st -> iD st < 2 ^ 31 ->
  exists enc' out nbytes,
    od_ec_enc_done al enc = Some (enc', Some (out, nbytes)) /\
    0 <= nbytes <= Z.of_nat (length out) /\ nbytes = (iD st + 8) / 8 /\
    od_ec_enc_tell enc' = iD st + 1 /\
    Forall is_byte (take (Z.to_nat nbytes) out) /\
    forall M, 31 + iD st <= M -> 8 * nbytes <= M ->
      contains M (be_value (take (Z.to_nat nbytes) out) * 2 ^ (M - 8 * nbytes)) st.
Proof.
  intros Hal Hs0 (Hcore & Er & HL & HR & HD & Hsum) HDb.
  destruct Hcore as [He Hsto Hoffs Hsm Hby Hcnt HDD Hlow Hwin Hval]. rewrite Er in Hwin.
  assert (2 ^ (enc_cnt enc + 25) <= 2 ^ 64) by (apply pow2_le; lia).
  unfold od_ec_enc_done. rewrite He. cbn [Z.eqb negb].
  destruct (done_value (enc_low enc) Hlow ltac:(lia)) as [Hev Hem].
  set (e := Z.lor _ _) in *. set (cnt := enc_cnt enc) in *. set (offs := enc_offs enc) in *.
  set (K := (cnt + 17) / 8). assert (1 <= K <= 7) by (unfold K; dlia).
  assert (Z.max (Z.shiftr (10 + cnt + 7) 3) 0 = K) as Emax.
  { rewrite Z.shiftr_div_pow2 by lia. change (2 ^ 3) with 8.
    replace (10 + cnt + 7) with (cnt + 17) by lia. fold K. lia. }
  rewrite Emax, (u32_small (offs + K)) by lia.
  assert (exists out storage, (if enc_storage enc <? offs + K
     then match c_realloc al (enc_buf enc) (offs + K) with
          | Some out => Some (out, offs + K) | None => None end
     else Some (enc_buf enc, enc_storage enc)) = Some (out, storage) /\
     offs + K <= Z.of_nat (length out) < 2 ^ 32 /\
     take (Z.to_nat offs) out = take (Z.to_nat offs) (enc_buf enc))
    as (out & storage & -> & Hlen & Htake).
  { destruct (Z.ltb_spec (enc_storage enc) (offs + K)).
    - destruct (c_realloc_grow al (enc_buf enc) (offs + K) Hal ltac:(lia)) as (out & -> & Hl & Ht).
      eexists _, _. split; [done |]. split; [lia |]. apply Ht. lia.
    - eexists _, _. split; [done |]. split; [lia | done]. }
  rewrite (proj2 (Z.ltb_lt 0 _)) by lia. rewrite Z.shiftl_mul_pow2, Z.mul_1_l by lia.
  set (V := be_value (take (Z.to_nat offs) (enc_buf enc))) in *.
  set (T := V * 2 ^ (cnt + 24) + e).
  assert (iL st <= T < iL st + iR st) as HT by lia.
  assert (15 + iD st = 8 * offs + cnt + 24) as ED by lia.
  destruct (enc_done_loop_ok (Z.to_nat (10 + cnt)) out offs e cnt K T)
    as (out' & Ed & Hl' & Hb' & Hv'); try done; try lia; try (by rewrite Htake).
  { rewrite <- ED. lia. }
  replace (cnt + 10) with (10 + cnt) in Ed by lia. rewrite Ed. cbn [mbind option_bind].
  eexists _, out', (offs + K). split; [done |].
  assert (offs + K = (iD st + 8) / 8) as EK.
  { unfold K. replace (iD st + 8) with (offs * 8 + (cnt + 17)) by lia.
    rewrite Z.div_add_l by lia. done. }
  split_and!; try done; try lia.
  { unfold od_ec_enc_tell; simpl. fold cnt offs. lia. }
  intros M HM1 HM2. unfold contains. split; [done |].
  set (q := cnt + 24 - 8 * K) in *. assert (7 <= q <= 14) by (unfold q, K; dlia).
  assert (T mod 2 ^ q = 0) as HTm.
  { apply Z.mod_divide; [apply Z.pow_nonzero; lia |]. unfold T. apply Z.divide_add_r.
    - exists (V * 2 ^ (8 * K)). replace (cnt + 24) with (8 * K + q) by lia.
      rewrite pow2_split by lia. ring.
    - apply Z.mod_divide in Hem; [| done]. destruct Hem as [x ->].
      exists (x * 2 ^ (14 - q)). rewrite <- Z.mul_assoc, <- pow2_split by lia.
      repeat f_equal. lia. }
  assert (T / 2 ^ q * 2 ^ (M - 8 * (offs + K)) = T * 2 ^ (M - 15 - iD st)) as EX.
  { replace (M - 8 * (offs + K)) with (q + (M - 15 - iD st)) by lia.
    rewrite pow2_split, Z.mul_assoc by lia. f_equal.
    pose proof (Z.div_mod T (2 ^ q) ltac:(apply Z.pow_nonzero; lia)). lia. }
  rewrite Hv', EX. pose proof (pow2_pos (M - 15 - iD st) ltac:(lia)).
  split; [apply Z.mul_le_mono_nonneg_r; lia | apply Z.mul_lt_mono_pos_r; lia].
Qed.

(** ** Encoding a message *)

Fixpoint encode_all (al : allocator) (enc : od_ec_enc) (syms : list symbol) : option od_ec_enc :=
  match syms with
  | [] => Some enc
  | sym :: syms' => enc ← encode_symbol al enc sym; encode_all al enc syms'
  end.

Lemma encode_all_ok size0 al syms enc st :
  grants_all al -> size0 < 2 ^ 31 -> enc_rel size0 enc st -> Forall sym_ok syms ->
  iD st + 15 * (Z.of_nat (length syms) + 1) < 2 ^ 31 ->
  exists enc', encode_all al enc syms = Some enc' /\
    enc_rel size0 enc' (narrow_all st syms) /\
    iD (narrow_all st syms) <= iD st + 15 * Z.of_nat (length syms).
Proof.
  intros Hal Hs0 Hrel Hs. revert enc st Hrel.
  induction Hs as [|sym syms Hsym Hs IH]; intros enc st Hrel HD; simpl.
  { exists enc. split_and!; done || lia. }
  simpl length in HD.
  destruct (encode_symbol_ok size0 al enc st sym Hal Hs0 Hrel Hsym ltac:(lia)) as (enc1 & -> & Hrel1).
  cbn [mbind option_bind].
  destruct (narrow_ok st sym ltac:(apply Hrel) Hsym) as [_ HDs].
  destruct (IH enc1 (narrow st sym) Hrel1 ltac:(lia)) as (enc' & E & Hrel' & HD').
  exists enc'. split_and!; [done | done |]. unfold narrow_all in *. simpl. lia.
Qed.

Lemma enc_init_ok al enc size :
  grants_all al -> 0 <= size ->
  enc_rel size (od_ec_enc_init al enc size) full_interval.
Proof.
  intros Hal Hs. unfold od_ec_enc_init.
  destruct (c_realloc_grow al [] size Hal ltac:(simpl; lia)) as (buf & -> & Hl & _).
  split_and!; [constructor; simpl | done | apply interval_ok_full]; try done; try lia.
Qed.
