(* ===== verification/EntDecProof.v ===== *)
(** * The range decoder follows the code word

    Refinement of [aom_dsp/entdec.c] to [RangeSpec]: the 32-bit window [dif]
    always is the distance from the top of the interval to the bits of the stream
    read so far, so that the symbol found is the one whose part of the interval
    contains the code word.  Past the end of the buffer the stream reads as zeros. *)

From S2P Require Import Prelude CodecTypes BitChannel EntCoder RangeSpec.

#[local] Arguments Z.of_nat : simpl never.
#[local] Arguments Z.mul : simpl never.

(** Clearing bits that are known to be set is a subtraction. *)
Lemma lxor_ones y b n : 0 <= n -> 0 <= b < 2 ^ n ->
  Z.lxor (y * 2 ^ n + (2 ^ n - 1)) b = y * 2 ^ n + (2 ^ n - 1) - b.
Proof.
  intros Hn Hb. set (a := y * 2 ^ n + (2 ^ n - 1)). pose proof (pow2_pos n Hn).
  assert (Ha : forall i, 0 <= i < n -> Z.testbit a i = true).
  { intros i Hi. rewrite <- (Z.mod_pow2_bits_low a n i) by lia. unfold a.
    rewrite Z.add_comm, Z.mod_add, Z.mod_small by lia.
    replace (2 ^ n - 1) with (Z.ones n) by (rewrite Z.ones_equiv; lia).
    apply Z.ones_spec_low. lia. }
  assert (Hbh : forall i, n <= i -> Z.testbit b i = false).
  { intros i Hi. rewrite <- (Z.mod_small b (2 ^ n)) by lia. apply Z.mod_pow2_bits_high. lia. }
  rewrite Z.sub_nocarry_ldiff.
  - apply Z.bits_inj'. intros i Hi. rewrite Z.lxor_spec, Z.ldiff_spec.
    destruct (Z.lt_ge_cases i n).
    + rewrite Ha by lia. by destruct (Z.testbit b i).
    + rewrite Hbh by lia. by destruct (Z.testbit a i).
  - apply Z.bits_inj'. intros i Hi. rewrite Z.ldiff_spec, Z.bits_0.
    destruct (Z.lt_ge_cases i n); [rewrite Ha by lia; apply andb_false_r | by rewrite Hbh by lia].
Qed.

Section Stream.
Context (bs : list Z) (Hbytes : Forall is_byte bs).
#[local] Abbreviation len := (Z.of_nat (length bs)).

(** The first [k] bytes as a number. *)
Definition head_value (k : Z) : Z := be_value (take (Z.to_nat k) bs).

Lemma head_value_next k b : 0 <= k -> bs !! Z.to_nat k = Some b ->
  head_value (k + 1) = head_value k * 256 + b /\ is_byte b.
Proof.
  intros Hk Hb. unfold head_value. replace (Z.to_nat (k + 1)) with (S (Z.to_nat k)) by lia.
  rewrite (take_S_r _ _ b), be_value_snoc by done. split; [done |].
  by apply (Forall_lookup_1 _ _ _ _ Hbytes Hb).
Qed.

Lemma head_value_split k M : 0 <= k <= len -> 8 * len <= M ->
  exists lower, be_value bs * 2 ^ (M - 8 * len) = head_value k * 2 ^ (M - 8 * k) + lower /\
    0 <= lower < 2 ^ (M - 8 * k) /\ (k = len -> lower = 0).
Proof.
  unfold head_value. intros Hk HM.
  replace (be_value bs) with (be_value (take (Z.to_nat k) bs ++ drop (Z.to_nat k) bs))
    by (by rewrite take_drop).
  rewrite be_value_app, length_drop.
  exists (be_value (drop (Z.to_nat k) bs) * 2 ^ (M - 8 * len)).
  assert (Forall is_byte (drop (Z.to_nat k) bs)) as Hd by by apply Forall_drop.
  apply be_value_range in Hd. rewrite length_drop in Hd.
  replace (Z.of_nat (length bs - Z.to_nat k)) with (len - k) in * by lia.
  assert (2 ^ (M - 8 * k) = 2 ^ (8 * (len - k)) * 2 ^ (M - 8 * len)) as ->
    by (rewrite <- pow2_split by lia; f_equal; lia).
  pose proof (pow2_pos (M - 8 * len) ltac:(lia)). split_and!.
  - ring.
  - apply Z.mul_nonneg_nonneg; lia.
  - apply Z.mul_lt_mono_pos_r; lia.
  - intros ->. rewrite Nat2Z.id, drop_all. simpl. lia.
Qed.

(** [dif] measures the distance from [Top] (at resolution [D]) to the bytes
    read; unread window bits are ones. *)
Record window_ok (Top D k dif cnt tell : Z) : Prop := {
  wo_k : 0 <= k <= len;
  wo_exp : 8 * k <= 31 + D;
  wo_dif : dif + 1 = Top * 2 ^ 16 - head_value k * 2 ^ (31 + D - 8 * k);
  wo_cnt : k < len -> cnt = 8 * k - 15 - D /\ cnt <= 16 /\ (dif + 1) mod 2 ^ (16 - cnt) = 0;
  wo_tell : 8 * k - cnt + tell = D + 1 }.

Lemma refill_step Top D k dif cnt tell b :
  window_ok Top D k dif cnt tell -> -15 <= cnt <= 8 -> bs !! Z.to_nat k = Some b ->
  window_ok Top D (k + 1) (Z.lxor dif (u32 (Z.shiftl b (8 - cnt)))) (cnt + 8) tell.
Proof.
  intros [Hk He Hd Hc Ht] Hcnt Hb. apply lookup_lt_Some in Hb as Hlt.
  destruct (Hc ltac:(lia)) as (Ec & _ & Hm).
  destruct (head_value_next k b ltac:(lia) Hb) as [Eh Hby]. unfold is_byte in Hby.
  set (s := 8 - cnt). replace (16 - cnt) with (s + 8) in Hm by lia.
  assert (2 ^ (s + 8) = 2 ^ s * 256) as Es by (apply pow2_split; lia).
  pose proof (pow2_pos s ltac:(lia)).
  assert (2 ^ s * 256 <= 2 ^ 31) by (rewrite <- Es; apply pow2_le; lia).
  rewrite Z.shiftl_mul_pow2 by lia. rewrite u32_small by nia.
  apply Z.mod_divide in Hm as [y Hy]; [| apply Z.pow_nonzero; lia].
  replace dif with ((y - 1) * 2 ^ (s + 8) + (2 ^ (s + 8) - 1)) by lia.
  rewrite lxor_ones by (rewrite ?Es; nia).
  replace ((y - 1) * 2 ^ (s + 8) + (2 ^ (s + 8) - 1) - b * 2 ^ s) with (dif - b * 2 ^ s) by lia.
  constructor; try lia.
  - rewrite Eh. replace (31 + D - 8 * (k + 1)) with s by lia.
    replace (31 + D - 8 * k) with (s + 8) in Hd by lia. rewrite Es in Hd. lia.
  - intros _. split_and!; [lia | lia |]. replace (16 - (cnt + 8)) with s by lia.
    replace (dif - b * 2 ^ s + 1) with ((y * 256 - b) * 2 ^ s) by lia. apply Z.mod_mul. lia.
Qed.

Lemma refill_loop_ok fuel Top D k dif cnt tell :
  window_ok Top D k dif cnt tell -> -15 <= cnt <= 16 -> 8 - cnt < 8 * Z.of_nat fuel ->
  exists k' dif' cnt', refill_loop fuel bs (8 - cnt) k dif cnt = (k', dif', cnt') /\
    window_ok Top D k' dif' cnt' tell /\ -15 <= cnt' <= 16 /\ (k' < len -> 9 <= cnt').
Proof.
  revert k dif cnt. induction fuel as [|fuel IH]; intros k dif cnt Hw Hcnt Hf; simpl.
  { exists k, dif, cnt. split_and!; done || lia. }
  destruct (Z.leb_spec 0 (8 - cnt)).
  - destruct (bs !! Z.to_nat k) as [b |] eqn:Eb.
    + rewrite s16_small by lia. replace (8 - cnt - 8) with (8 - (cnt + 8)) by lia.
      apply IH; [by apply refill_step; [| lia |] | lia | lia].
    + exists k, dif, cnt. apply lookup_ge_None in Eb. destruct Hw. split_and!; done || lia.
  - exists k, dif, cnt. split_and!; done || lia.
Qed.

(** A decoder between symbols: its window, and enough bits to decode. *)
Definition dec_sync (dec : od_ec_dec) (Top R D : Z) : Prop :=
  dec_buf dec = bs /\ dec_rng dec = R /\ 0 <= dec_cnt dec <= 16384 /\
  window_ok Top D (dec_bptr dec) (dec_dif dec) (dec_cnt dec) (dec_tell_offs dec).

Lemma od_ec_dec_refill_ok dec Top R D :
  dec_buf dec = bs -> dec_rng dec = R -> -15 <= dec_cnt dec < 0 -> 0 <= D < 2 ^ 30 -> len < 2 ^ 27 ->
  window_ok Top D (dec_bptr dec) (dec_dif dec) (dec_cnt dec) (dec_tell_offs dec) ->
  dec_sync (od_ec_dec_refill dec) Top R D.
Proof.
  intros Hb Hr Hc HD Hlen Hw. unfold od_ec_dec_refill, OD_EC_WINDOW_SIZE, OD_EC_LOTS_OF_BITS.
  rewrite Hb. replace (32 - 9 - (dec_cnt dec + 15)) with (8 - dec_cnt dec) by lia.
  destruct (refill_loop_ok 5 _ _ _ _ _ _ Hw ltac:(lia) ltac:(lia))
    as (k & dif & cnt & -> & [Hk He Hd Hcc Ht] & Hcnt & H9).
  destruct (Z.leb_spec len k); unfold dec_sync; simpl; split_and!; try done; try lia.
  - constructor; try done; try lia. rewrite s32_small by lia. lia.
Qed.

Lemma od_ec_dec_normalize_ok dec dif rng ret Top D :
  dec_buf dec = bs -> 1 <= rng < 65536 -> 0 <= dec_cnt dec <= 16384 ->
  0 <= D < 2 ^ 29 -> len < 2 ^ 27 -> 0 <= dif < rng * 2 ^ 16 ->
  window_ok Top D (dec_bptr dec) dif (dec_cnt dec) (dec_tell_offs dec) ->
  exists dec', od_ec_dec_normalize dec dif rng ret = (ret, dec') /\
    dec_sync dec' (Top * 2 ^ renorm rng) (rng * 2 ^ renorm rng) (D + renorm rng).
Proof.
  intros Hb Hr Hc HD Hlen Hdif [Hk He Hd Hcc Ht]. destruct (renorm_ok rng Hr) as [Hdd Hrd].
  unfold od_ec_dec_normalize.
  replace (16 - OD_ILOG_NZ rng) with (renorm rng) by (unfold OD_ILOG_NZ, get_msb, renorm; lia).
  set (d := renorm rng) in *. eexists. split; [done |].
  pose proof (pow2_pos d ltac:(lia)). change (2 ^ 16) with 65536 in *.
  assert (1 <= (dif + 1) * 2 ^ d <= 65535 * 65536) as Hsh.
  { split; [nia |]. apply Z.le_trans with (rng * 65536 * 2 ^ d); [apply Z.mul_le_mono_nonneg_r; lia |].
    replace (rng * 65536 * 2 ^ d) with (rng * 2 ^ d * 65536) by ring. lia. }
  rewrite (u32_small (dif + 1)), !Z.shiftl_mul_pow2 by lia.
  rewrite (u32_small ((dif + 1) * 2 ^ d)), u32_small, u16_small, s16_small by lia.
  assert (window_ok (Top * 2 ^ d) (D + d) (dec_bptr dec) ((dif + 1) * 2 ^ d - 1)
            (dec_cnt dec - d) (dec_tell_offs dec)) as Hw'.
  { constructor; try lia.
    - replace (31 + (D + d) - 8 * dec_bptr dec) with (31 + D - 8 * dec_bptr dec + d) by lia.
      rewrite (pow2_split _ d) by lia. change (2 ^ 16) with 65536.
      replace ((dif + 1) * 2 ^ d - 1 + 1) with ((dif + 1) * 2 ^ d) by lia. rewrite Hd. ring.
    - intros Hlt. destruct (Hcc Hlt) as (Ec & Hle & Hm). split_and!; [lia | lia |].
      replace ((dif + 1) * 2 ^ d - 1 + 1) with ((dif + 1) * 2 ^ d) by lia.
      apply Z.mod_divide in Hm as [y ->]; [| apply Z.pow_nonzero; lia].
      replace (16 - (dec_cnt dec - d)) with (16 - dec_cnt dec + d) by lia.
      rewrite <- Z.mul_assoc, <- pow2_split by lia. apply Z.mod_mul, Z.pow_nonzero; lia. }
  cbn [dec_cnt]. destruct (Z.ltb_spec (dec_cnt dec - d) 0).
  - apply od_ec_dec_refill_ok; simpl; try done; lia.
  - unfold dec_sync; simpl. split_and!; done || lia.
Qed.

Lemma od_ec_dec_init_ok : len < 2 ^ 27 -> dec_sync (od_ec_dec_init bs) 32768 32768 0.
Proof.
  intros Hlen. apply od_ec_dec_refill_ok; simpl; try done; try lia.
  constructor; simpl; try lia; try done.
Qed.

(** ** Comparing the window with a bound is comparing the code word *)

Lemma window_compare Top D k dif cnt tell M B :
  window_ok Top D k dif cnt tell -> 0 <= D -> 0 <= cnt -> 31 + D <= M -> 8 * len <= M ->
  (dif < B * 2 ^ 16 <-> (Top - B) * 2 ^ (M - 15 - D) <= be_value bs * 2 ^ (M - 8 * len)).
Proof.
  intros [Hk He Hd Hc _] HD Hcnt HM HL.
  destruct (head_value_split k M Hk HL) as (lower & -> & Hlow & Hend).
  set (h := head_value k) in *. set (g := 31 + D - 8 * k) in *. set (F := M - 31 - D).
  replace (M - 8 * k) with (g + F) in * by lia.
  replace (M - 15 - D) with (16 + F) by lia.
  rewrite !(pow2_split _ F) in * by lia.
  pose proof (pow2_pos F ltac:(lia)) as HF. set (PF := 2 ^ F) in *.
  pose proof (pow2_pos g ltac:(lia)) as Hg. change (2 ^ 16) with 65536 in *.
  rewrite !Z.mul_assoc. split.
  - intros Hlt. assert ((Top - B) * 65536 * PF <= h * 2 ^ g * PF); [| lia].
    apply Z.mul_le_mono_nonneg_r; lia.
  - intros Hle. destruct (Z.lt_ge_cases dif (B * 65536)) as [| Hge]; [done | exfalso].
    destruct (Z.eq_dec k len) as [Ek | Ek].
    + rewrite (Hend Ek), Z.add_0_r in Hle. apply Z.mul_le_mono_pos_r in Hle; lia.
    + destruct (Hc ltac:(lia)) as (Ec & _ & _).
      assert (65536 = 2 ^ (16 - g) * 2 ^ g) as E16
        by (rewrite <- pow2_split by lia; by replace (16 - g + g) with 16 by lia).
      assert (h * 2 ^ g < (Top - B) * 65536) as Hlt by lia.
      assert (h < (Top - B) * 2 ^ (16 - g)) as Hh.
      { apply (Z.mul_lt_mono_pos_r (2 ^ g)); [done |]. rewrite <- Z.mul_assoc, <- E16. lia. }
      assert ((h + 1) * 2 ^ g <= (Top - B) * 65536) as Hh1.
      { rewrite E16 at 1. rewrite Z.mul_assoc. apply Z.mul_le_mono_nonneg_r; lia. }
      assert ((h + 1) * 2 ^ g * PF <= (Top - B) * 65536 * PF)
        by (apply Z.mul_le_mono_nonneg_r; lia). lia.
Qed.

(** ** Finding the symbol *)

Definition dec_rel (dec : od_ec_dec) (st : interval) : Prop :=
  dec_sync dec (iL st + iR st) (iR st) (iD st).

(** The window of a decoder whose code word lies in the part [(v, u]] of the
    range. *)
Lemma window_bounds dec st sym u v M :
  dec_rel dec st -> interval_ok st -> sym_ok sym -> sym_bounds sym (iR st) = (u, v) ->
  8 * len <= M -> contains M (be_value bs * 2 ^ (M - 8 * len)) (narrow st sym) ->
  v * 2 ^ 16 <= dec_dif dec < u * 2 ^ 16.
Proof.
  intros (_ & _ & Hc & Hw) (HL & HR & HD & _) Hok E HM.
  destruct (sym_bounds_ok _ _ _ _ Hok HR E) as (Hv & Huv & Hu).
  unfold narrow. rewrite E. destruct (renorm_ok (u - v) ltac:(lia)) as [Hd _].
  unfold contains; simpl. set (d := renorm (u - v)) in *. intros [HM' HX].
  pose proof (pow2_pos d ltac:(lia)) as Hp.
  pose proof (pow2_pos (M - 15 - (iD st + d)) ltac:(lia)) as Hq.
  assert (2 ^ (M - 15 - iD st) = 2 ^ d * 2 ^ (M - 15 - (iD st + d))) as Es
    by (rewrite <- pow2_split by lia; f_equal; lia).
  pose proof (fun B => window_compare _ _ _ _ _ _ M B Hw ltac:(lia) ltac:(lia) ltac:(lia) HM) as Hcmp.
  rewrite Es in Hcmp. split.
  - apply Z.nlt_ge. rewrite (Hcmp v). apply Z.lt_nge.
    replace ((iL st + iR st - v) * (2 ^ d * 2 ^ (M - 15 - (iD st + d))))
      with (((iL st + iR st - u) * 2 ^ d + (u - v) * 2 ^ d) * 2 ^ (M - 15 - (iD st + d))) by ring.
    lia.
  - apply Hcmp. rewrite Z.mul_assoc. lia.
Qed.

Lemma decode_cdf_loop_ok fuel icdf nsyms r c s v ret :
  icdf_ok icdf nsyms -> 32768 <= r < 65536 -> -1 <= ret < s -> s < nsyms ->
  s - ret <= Z.of_nat fuel -> cdf_bound icdf nsyms r s <= c ->
  (forall j, 0 <= j < s -> c < cdf_bound icdf nsyms r j) ->
  decode_cdf_loop fuel icdf r (nsyms - 1) c v ret =
    Some (if s =? ret + 1 then v else cdf_bound icdf nsyms r (s - 1), cdf_bound icdf nsyms r s, s).
Proof.
  intros Hi Hr Hret Hs Hf Hsc Hj. destruct (Hi) as [Hn _]. revert v ret Hret Hf.
  induction fuel as [|fuel IH]; intros v ret Hret Hf; [lia |]. simpl.
  destruct (icdf_lookup icdf nsyms (ret + 1) Hi ltac:(lia)) as [El Hp]. rewrite El.
  cbn [mbind option_bind]. unfold CDF_PROB_TOP in Hp.
  assert (u32 (ec_scale r (nth (Z.to_nat (ret + 1)) icdf 0) + EC_MIN_PROB * (nsyms - 1 - (ret + 1)))
          = cdf_bound icdf nsyms r (ret + 1)) as ->.
  { rewrite ec_scale_eq by lia. unfold EC_MIN_PROB. fold (cdf_bound icdf nsyms r (ret + 1)).
    pose proof (cdf_bound_range icdf nsyms r (ret + 1) Hi Hr ltac:(lia)). apply u32_small. lia. }
  destruct (Z.eqb_spec s (ret + 1)) as [-> | Hne].
  - rewrite (proj2 (Z.ltb_ge _ _)) by lia. done.
  - rewrite (proj2 (Z.ltb_lt _ _)) by (apply Hj; lia). rewrite IH by lia.
    destruct (Z.eqb_spec s (ret + 1 + 1)) as [-> |]; [| done]. by replace (ret + 1 + 1 - 1) with (ret + 1) by lia.
Qed.
End Stream.

(** ** Decoding one symbol *)

(** What a decoder is asked for: the alphabet or the probability, not the value. *)
Inductive query :=
| QCdf (icdf : list Z) (nsyms : Z)
| QBool (f : Z).

Definition sym_query (sym : symbol) : query :=
  match sym with
  | SymCdf icdf nsyms _ => QCdf icdf nsyms
  | SymBool f _ => QBool f
  end.

Definition decode_symbol (dec : od_ec_dec) (q : query) : option (Z * od_ec_dec) :=
  match q with
  | QCdf icdf nsyms => od_ec_decode_cdf_q15 dec icdf nsyms
  | QBool f => Some (od_ec_decode_bool_q15 dec f)
  end.

Definition sym_val (sym : symbol) : Z :=
  match sym with
  | SymCdf _ _ s => s
  | SymBool _ val => b2z val
  end.

Lemma shiftr16_bounds dif u v : v * 2 ^ 16 <= dif < u * 2 ^ 16 -> v <= Z.shiftr dif 16 < u.
Proof. intros. rewrite Z.shiftr_div_pow2 by lia. change (2 ^ 16) with 65536 in *. dlia. Qed.

Lemma decode_symbol_normalize dec sym u v :
  sym_ok sym -> 32768 <= dec_rng dec < 65536 -> sym_bounds sym (dec_rng dec) = (u, v) ->
  v * 2 ^ 16 <= dec_dif dec < u * 2 ^ 16 ->
  decode_symbol dec (sym_query sym) =
    Some (od_ec_dec_normalize dec (dec_dif dec - v * 2 ^ 16) (u - v) (sym_val sym)).
Proof.
  intros Hok Hr E Hd. destruct (sym_bounds_ok _ _ _ _ Hok Hr E) as (Hv & Huv & Hu).
  set (r := dec_rng dec) in *.
  assert (forall x, 0 <= x <= r -> u32 (Z.shiftl x 16) = x * 2 ^ 16) as Hsh.
  { intros x Hx. rewrite Z.shiftl_mul_pow2 by lia. change (2 ^ 16) with 65536. apply u32_small. lia. }
  destruct sym as [icdf nsyms s | f val]; simpl in *.
  - injection E as E1 E2. destruct Hok as [Hi Hs]. destruct (Hi) as (Hn & Hl & _).
    pose proof (shiftr16_bounds _ _ _ Hd) as Hc.
    unfold od_ec_decode_cdf_q15. fold r. unfold OD_EC_WINDOW_SIZE. change (32 - 16) with 16.
    rewrite (decode_cdf_loop_ok (length icdf) icdf nsyms r _ s); try done; try lia.
    + change (s =? -1 + 1) with (s =? 0). rewrite E1, E2. cbn [mbind option_bind].
      rewrite Hsh, !u32_small by (change (2 ^ 16) with 65536 in *; lia). done.
    + intros j Hj. destruct (Z.eqb_spec s 0); [lia |].
      pose proof (cdf_bound_anti icdf nsyms r j (s - 1) Hi Hr ltac:(lia) ltac:(lia)). lia.
  - unfold od_ec_decode_bool_q15. fold r. unfold CDF_PROB_TOP in Hok. rewrite ec_scale_eq by lia.
    unfold EC_MIN_PROB, OD_EC_WINDOW_SIZE. fold (bool_bound f r). change (32 - 16) with 16.
    change (2 ^ 16) with 65536 in *.
    destruct val; injection E as E1 E2.
    + rewrite E1, (u32_small u), Hsh, (proj2 (Z.leb_gt _ _)) by lia. repeat f_equal; lia.
    + rewrite E2, (u32_small v), Hsh, (proj2 (Z.leb_le _ _)), !u32_small by lia. by rewrite E1.
Qed.

Lemma decode_symbol_ok bs dec st sym M :
  Forall is_byte bs -> dec_rel bs dec st -> interval_ok st -> sym_ok sym ->
  iD st < 2 ^ 29 -> Z.of_nat (length bs) < 2 ^ 27 -> 8 * Z.of_nat (length bs) <= M ->
  contains M (be_value bs * 2 ^ (M - 8 * Z.of_nat (length bs))) (narrow st sym) ->
  exists dec', decode_symbol dec (sym_query sym) = Some (sym_val sym, dec') /\ dec_rel bs dec' (narrow st sym).
Proof.
  intros Hby Hrel Hst Hok HD Hlen HM Hcont. destruct (Hst) as (HL & HR & HD0 & _).
  destruct (sym_bounds sym (iR st)) as [u v] eqn:E.
  pose proof (window_bounds bs Hby dec st sym u v M Hrel Hst Hok E HM Hcont) as Hwb.
  destruct (sym_bounds_ok _ _ _ _ Hok HR E) as (Hv & Huv & Hu).
  destruct Hrel as (Hb & Er & Hc & Hw).
  rewrite (decode_symbol_normalize dec sym u v) by (rewrite ?Er; done).
  destruct (od_ec_dec_normalize_ok bs Hby dec (dec_dif dec - v * 2 ^ 16) (u - v) (sym_val sym)
    (iL st + iR st - v) (iD st)) as (dec' & -> & Hs); try done; try lia.
  - destruct Hw as [Hk He Hd Hcc Ht]. constructor; try done; try lia.
    intros Hlt. destruct (Hcc Hlt) as (Ec & Hle & Hm). split_and!; try done.
    assert (2 ^ 16 = 2 ^ dec_cnt dec * 2 ^ (16 - dec_cnt dec)) as Es
      by (rewrite <- pow2_split by lia; f_equal; lia).
    replace (dec_dif dec - v * 2 ^ 16 + 1)
      with (dec_dif dec + 1 + (- v * 2 ^ dec_cnt dec) * 2 ^ (16 - dec_cnt dec)) by (rewrite Es; ring).
    rewrite Z.mod_add by (apply Z.pow_nonzero; lia). done.
  - exists dec'. split; [done |]. unfold dec_rel, narrow. rewrite E. simpl.
    replace ((iL st + iR st - u) * 2 ^ renorm (u - v) + (u - v) * 2 ^ renorm (u - v))
      with ((iL st + iR st - v) * 2 ^ renorm (u - v)) by ring. done.
Qed.
