(* ===== verification/EntRoundTrip.v ===== *)
(** * The range coder loses nothing

    Encoder and decoder put together through [RangeSpec]: whatever well-formed
    message goes in comes out, both sides agree at every symbol on the position
    in the stream, and a failed allocation is reported instead of a stream. *)

From S2P Require Import Prelude CodecTypes BitChannel EntCoder RangeSpec EntEncProof EntDecProof.

#[local] Arguments Z.of_nat : simpl never.
#[local] Arguments Z.mul : simpl never.

Fixpoint decode_all (dec : od_ec_dec) (qs : list query) : option (list Z * od_ec_dec) :=
  match qs with
  | [] => Some ([], dec)
  | q :: qs' =>
      '(v, dec) ← decode_symbol dec q;
      '(vs, dec) ← decode_all dec qs';
      Some (v :: vs, dec)
  end.

(** ** A decoder with a message ahead of it *)

Record dec_pending (dec : od_ec_dec) (st : interval) (syms : list symbol) : Prop := {
  dp_bytes : Forall is_byte (dec_buf dec);
  dp_len : Z.of_nat (length (dec_buf dec)) < 2 ^ 27;
  dp_rel : dec_rel (dec_buf dec) dec st;
  dp_st : interval_ok st;
  dp_syms : Forall sym_ok syms;
  dp_D : iD (narrow_all st syms) < 2 ^ 29;
  dp_end : iD (narrow_all st syms) + 1 <= 8 * Z.of_nat (length (dec_buf dec));
  dp_word : exists M, 8 * Z.of_nat (length (dec_buf dec)) <= M /\
    contains M (be_value (dec_buf dec) * 2 ^ (M - 8 * Z.of_nat (length (dec_buf dec))))
      (narrow_all st syms) }.

Lemma narrow_all_D st syms : interval_ok st -> Forall sym_ok syms ->
  interval_ok (narrow_all st syms) /\
  iD st <= iD (narrow_all st syms) <= iD st + 15 * Z.of_nat (length syms).
Proof.
  intros Hst Hs. revert st Hst. induction Hs as [|sym syms Hsym _ IH]; intros st Hst; simpl.
  { split; [done | lia]. }
  destruct (narrow_ok st sym Hst Hsym) as [Hst' HD].
  destruct (IH _ Hst') as [H1 H2]. split; [done |]. unfold narrow_all in *. lia.
Qed.

Lemma dec_pending_step dec st sym syms :
  dec_pending dec st (sym :: syms) ->
  exists dec', decode_symbol dec (sym_query sym) = Some (sym_val sym, dec') /\
    dec_buf dec' = dec_buf dec /\ dec_pending dec' (narrow st sym) syms.
Proof.
  intros [Hby Hlen Hrel Hst Hsyms HD Hend (M & HM & Hw)].
  apply list.Forall_cons in Hsyms as [Hsym Hsyms].
  change (narrow_all st (sym :: syms)) with (narrow_all (narrow st sym) syms) in *.
  destruct (narrow_ok st sym Hst Hsym) as [Hst' HDn].
  destruct (narrow_all_D (narrow st sym) syms Hst' Hsyms) as [_ HDa].
  pose proof (contains_all _ _ _ _ Hst' Hsyms Hw) as Hw'.
  destruct (decode_symbol_ok (dec_buf dec) dec st sym M Hby Hrel Hst Hsym) as (dec' & E & Hrel');
    try done; [lia |].
  assert (dec_buf dec' = dec_buf dec) as Eb by apply Hrel'.
  exists dec'. split_and!; [done | done |]. constructor; rewrite ?Eb; try done. by exists M.
Qed.

Lemma dec_pending_all dec st syms rest :
  dec_pending dec st (syms ++ rest) ->
  exists dec', decode_all dec (sym_query <$> syms) = Some (sym_val <$> syms, dec') /\
    dec_buf dec' = dec_buf dec /\ dec_pending dec' (narrow_all st syms) rest.
Proof.
  revert dec st. induction syms as [|sym syms IH]; intros dec st Hp.
  { by exists dec. }
  rewrite !fmap_cons. cbn [decode_all].
  destruct (dec_pending_step _ _ _ _ Hp) as (dec1 & -> & Eb1 & Hp1). cbn [mbind option_bind].
  destruct (IH _ _ Hp1) as (dec2 & -> & Eb2 & Hp2). cbn [mbind option_bind].
  exists dec2. split_and!; try done. congruence.
Qed.

(** The position a decoder reports is the resolution of its interval. *)
Lemma dec_pending_tell dec st syms :
  dec_pending dec st syms -> od_ec_dec_tell dec = iD st + 1 /\ dec_rng dec = iR st /\
    0 <= od_ec_dec_tell dec <= 8 * Z.of_nat (length (dec_buf dec)).
Proof.
  intros [_ Hlen (_ & Er & _ & [_ _ _ _ Ht]) Hst Hsyms HD Hend _].
  destruct (narrow_all_D st syms Hst Hsyms) as [_ HDa]. destruct Hst as (_ & _ & HD0 & _).
  assert (od_ec_dec_tell dec = iD st + 1) as E.
  { unfold od_ec_dec_tell. rewrite s32_small by lia. lia. }
  split_and!; try done; lia.
Qed.

Lemma enc_rel_tell size0 enc st :
  enc_rel size0 enc st -> od_ec_enc_tell enc = iD st + 1 /\ enc_rng enc = iR st.
Proof. intros ([] & Er & _). split; [unfold od_ec_enc_tell; lia | done]. Qed.

(** Finishing an encoder that took [syms] from the start gives bytes that have
    [syms] pending. *)
Lemma enc_done_pending size0 al enc syms :
  grants_all al -> size0 < 2 ^ 31 -> Forall sym_ok syms ->
  enc_rel size0 enc (narrow_all full_interval syms) ->
  15 * (Z.of_nat (length syms) + 1) < 2 ^ 29 ->
  exists enc' out nbytes,
    od_ec_enc_done al enc = Some (enc', Some (out, nbytes)) /\
    od_ec_enc_tell enc' = od_ec_enc_tell enc /\
    0 <= nbytes <= Z.of_nat (length out) /\ nbytes = (od_ec_enc_tell enc + 7) / 8 /\
    Forall is_byte (take (Z.to_nat nbytes) out) /\
    dec_pending (od_ec_dec_init (take (Z.to_nat nbytes) out)) full_interval syms.
Proof.
  intros Hal Hs0 Hsyms Hrel Hlen.
  destruct (narrow_all_D full_interval syms interval_ok_full Hsyms) as [Hst HD].
  set (st := narrow_all full_interval syms) in *. simpl in HD.
  destruct (enc_done_ok size0 al enc st Hal Hs0 Hrel ltac:(lia))
    as (enc' & out & nbytes & E & Hnb & En & Et & Hby & Hw).
  destruct (enc_rel_tell _ _ _ Hrel) as [Et' _].
  exists enc', out, nbytes. rewrite Et, Et'.
  split_and!; try done; try lia; [rewrite En; f_equal; lia |].
  set (bs := take (Z.to_nat nbytes) out) in *.
  assert (Z.of_nat (length bs) = nbytes) as Hbs by (unfold bs; rewrite length_take; lia).
  assert (nbytes <= 2 ^ 26 /\ iD st + 1 <= 8 * nbytes) as [Hn26 Hn8] by (rewrite En; dlia).
  pose proof (od_ec_dec_init_ok bs Hby ltac:(lia)) as Hinit.
  assert (dec_buf (od_ec_dec_init bs) = bs) as Eb by apply Hinit.
  constructor; rewrite ?Eb, ?Hbs; try done; try lia.
  - fold st. lia.
  - exists (31 + iD st + 8 * nbytes). fold st. split; [lia |]. apply Hw; lia.
Qed.

(** ** Failing allocations

    An encoder whose allocator refuses a request either stops there for good or
    behaves as if nothing had been refused. *)

Definition granting (al : allocator) : allocator :=
  {| grants := fun _ => true; fresh_byte := fresh_byte al |}.

Definition failed (enc : od_ec_enc) : Prop := enc_error enc = -1.

Lemma c_realloc_granting al buf size :
  c_realloc al buf size = None \/ c_realloc al buf size = c_realloc (granting al) buf size.
Proof. unfold c_realloc. simpl. destruct (grants al size); auto. Qed.

Lemma normalize_granting al enc low rng :
  (exists enc', od_ec_enc_normalize al enc low rng = Some enc' /\ failed enc') \/
  od_ec_enc_normalize al enc low rng = od_ec_enc_normalize (granting al) enc low rng.
Proof.
  unfold od_ec_enc_normalize. destruct (negb _); [by right |].
  destruct (40 <=? _); [| by right]. destruct (_ <? u32 (_ + 8)); [| by right].
  destruct (c_realloc_granting al (enc_buf enc) (u32 (2 * enc_storage enc + 8))) as [-> | ->];
    [left; by eexists | by right].
Qed.

Lemma encode_symbol_granting al enc sym :
  (exists enc', encode_symbol al enc sym = Some enc' /\ failed enc') \/
  encode_symbol al enc sym = encode_symbol (granting al) enc sym.
Proof.
  destruct sym as [icdf nsyms s | f val]; simpl.
  - unfold od_ec_encode_cdf_q15, od_ec_encode_q15.
    destruct (if 0 <? s then _ else _); [| by right].
    destruct (icdf !! _); [| by right]. cbn [mbind option_bind].
    destruct (_ <? CDF_PROB_TOP); apply normalize_granting.
  - unfold od_ec_encode_bool_q15. apply normalize_granting.
Qed.

Lemma normalize_failed al enc low rng :
  failed enc -> od_ec_enc_normalize al enc low rng = Some enc.
Proof. intros Hf. unfold od_ec_enc_normalize. by rewrite Hf. Qed.

Lemma encode_symbol_failed al enc sym :
  failed enc -> sym_ok sym -> encode_symbol al enc sym = Some enc.
Proof.
  intros Hf Hok. destruct sym as [icdf nsyms s | f val]; simpl in *.
  - destruct Hok as [Hi Hs]. unfold od_ec_encode_cdf_q15, od_ec_encode_q15.
    destruct (icdf_lookup icdf nsyms s Hi Hs) as [-> _].
    destruct (Z.ltb_spec 0 s).
    + destruct (icdf_lookup icdf nsyms (s - 1) Hi ltac:(lia)) as [-> _]. cbn [mbind option_bind].
      destruct (_ <? CDF_PROB_TOP); by apply normalize_failed.
    + cbn [mbind option_bind]. destruct (_ <? CDF_PROB_TOP); by apply normalize_failed.
  - by apply normalize_failed.
Qed.

Lemma encode_all_failed al enc syms :
  failed enc -> Forall sym_ok syms -> encode_all al enc syms = Some enc.
Proof.
  intros Hf Hs. induction Hs as [|sym syms Hsym _ IH]; simpl; [done |].
  by rewrite encode_symbol_failed.
Qed.

Lemma encode_all_granting al enc syms :
  Forall sym_ok syms ->
  (exists enc', encode_all al enc syms = Some enc' /\ failed enc') \/
  encode_all al enc syms = encode_all (granting al) enc syms.
Proof.
  intros Hs. revert enc. induction Hs as [|sym syms Hsym Hs IH]; intros enc; simpl; [by right |].
  destruct (encode_symbol_granting al enc sym) as [(enc1 & -> & Hf) | ->].
  - left. exists enc1. split; [by apply encode_all_failed | done].
  - destruct (encode_symbol (granting al) enc sym); [apply IH | by right].
Qed.

Lemma enc_init_granting al enc size : 0 <= size ->
  failed (od_ec_enc_init al enc size) \/
  od_ec_enc_init al enc size = od_ec_enc_init (granting al) enc size.
Proof.
  intros Hs. unfold od_ec_enc_init, failed.
  destruct (c_realloc_granting al [] size) as [E | ->]; [| by right].
  rewrite E. destruct (Z.ltb_spec 0 size); [by left | right].
  assert (size = 0) as -> by lia. done.
Qed.

Lemma enc_done_granting al enc :
  (exists enc', od_ec_enc_done al enc = Some (enc', None) /\ failed enc') \/
  od_ec_enc_done al enc = od_ec_enc_done (granting al) enc.
Proof.
  unfold od_ec_enc_done. destruct (negb _); [by right |].
  destruct (enc_storage enc <? _); [| by right].
  destruct (c_realloc_granting al (enc_buf enc)
    (u32 (enc_offs enc + Z.max (Z.shiftr (10 + enc_cnt enc + 7) 3) 0))) as [-> | ->];
    [left; by eexists | by right].
Qed.

(** ** The round trip *)

(** Initialise, encode every symbol, finish; the bytes returned, if any. *)
Definition encode_message (al : allocator) (enc0 : od_ec_enc) (size : Z) (syms : list symbol)
  : option (od_ec_enc * option (list Z)) :=
  enc ← encode_all al (od_ec_enc_init al enc0 size) syms;
  '(enc, r) ← od_ec_enc_done al enc;
  Some (enc, match r with
             | Some (out, nbytes) => Some (take (Z.to_nat nbytes) out)
             | None => None
             end).

Definition message_ok (size : Z) (syms : list symbol) : Prop :=
  0 <= size < 2 ^ 31 /\ Forall sym_ok syms /\ 15 * (Z.of_nat (length syms) + 1) < 2 ^ 29.

Lemma encode_message_ok al enc0 size syms :
  grants_all al -> message_ok size syms ->
  exists enc bs, encode_message al enc0 size syms = Some (enc, Some bs) /\
    enc_rel size (od_ec_enc_init al enc0 size) full_interval /\
    Z.of_nat (length bs) = (od_ec_enc_tell enc + 7) / 8 /\
    od_ec_enc_tell enc = iD (narrow_all full_interval syms) + 1 /\
    Forall is_byte bs /\ dec_buf (od_ec_dec_init bs) = bs /\
    dec_pending (od_ec_dec_init bs) full_interval syms.
Proof.
  intros Hal (Hs & Hsyms & Hlen). pose proof (enc_init_ok al enc0 size Hal ltac:(lia)) as Hinit.
  destruct (encode_all_ok size al syms _ _ Hal ltac:(lia) Hinit Hsyms) as (enc & E & Hrel & _).
  { simpl iD. lia. }
  destruct (enc_done_pending size al enc syms Hal ltac:(lia) Hsyms Hrel Hlen)
    as (enc' & out & nbytes & Ed & Et & Hnb & En & Hby & Hp).
  destruct (enc_rel_tell _ _ _ Hrel) as [Et0 _].
  unfold encode_message. rewrite E. cbn [mbind option_bind]. rewrite Ed. cbn [mbind option_bind].
  exists enc', (take (Z.to_nat nbytes) out). split_and!; try done.
  - rewrite length_take, Et, <- En. lia.
  - congruence.
  - apply (od_ec_dec_init_ok _ Hby). destruct Hp as [_ Hl _ _ _ _ _ _].
    unfold od_ec_dec_init, od_ec_dec_refill in Hl. destruct (refill_loop _ _ _ _ _ _) as [[a b] c].
    simpl in Hl. by destruct (_ <=? a).
Qed.

(** Encoding a prefix and decoding it from the bytes of the whole message. *)
Lemma prefix_agree al enc0 size pre post bs :
  grants_all al -> message_ok size (pre ++ post) ->
  dec_pending (od_ec_dec_init bs) full_interval (pre ++ post) ->
  exists enc dec,
    encode_all al (od_ec_enc_init al enc0 size) pre = Some enc /\
    decode_all (od_ec_dec_init bs) (sym_query <$> pre) = Some (sym_val <$> pre, dec) /\
    dec_buf dec = dec_buf (od_ec_dec_init bs) /\
    od_ec_enc_tell enc = od_ec_dec_tell dec /\ enc_rng enc = dec_rng dec /\
    od_ec_dec_tell dec <= 8 * Z.of_nat (length (dec_buf dec)).
Proof.
  intros Hal (Hs & Hsyms & Hlen) Hp. pose proof (enc_init_ok al enc0 size Hal ltac:(lia)) as Hinit.
  apply Forall_app in Hsyms as [Hpre Hpost]. rewrite length_app in Hlen.
  destruct (encode_all_ok size al pre _ _ Hal ltac:(lia) Hinit Hpre) as (enc & E & Hrel & _).
  { simpl iD. lia. }
  destruct (dec_pending_all _ _ _ _ Hp) as (dec & Ed & Eb & Hp').
  destruct (dec_pending_tell _ _ _ Hp') as (Et & Er & Hle).
  destruct (enc_rel_tell _ _ _ Hrel) as [Et' Er'].
  exists enc, dec. split_and!; try done; try congruence. lia.
Qed.

(** C1: Whatever message of well-formed symbols (adaptive-CDF symbols of up to 16
    values and booleans, in any mix) is encoded and finished, the encoder succeeds
    without ever leaving its buffer, produces the fewest whole bytes that hold
    [od_ec_enc_tell] bits, and the decoder, started on exactly these bytes and
    asked for the same alphabets, returns exactly the encoded values. *)
Theorem range_coder_roundtrip al enc0 size syms :
  grants_all al -> message_ok size syms ->
  exists enc bs dec,
    encode_message al enc0 size syms = Some (enc, Some bs) /\
    Z.of_nat (length bs) = (od_ec_enc_tell enc + 7) / 8 /\ Forall is_byte bs /\
    decode_all (od_ec_dec_init bs) (sym_query <$> syms) = Some (sym_val <$> syms, dec).
Proof.
  intros Hal Hm. destruct (encode_message_ok al enc0 size syms Hal Hm)
    as (enc & bs & E & _ & Hl & _ & Hby & _ & Hp).
  rewrite <- (app_nil_r syms) in Hp. destruct (dec_pending_all _ _ _ _ Hp) as (dec & Ed & _).
  by exists enc, bs, dec.
Qed.

(** A concrete message for the witnesses: a ternary alphabet and booleans. *)
Definition demo_alloc : allocator := {| grants := fun _ => true; fresh_byte := fun _ => 0 |}.
Definition demo_enc : od_ec_enc :=
  {| enc_buf := []; enc_storage := 0; enc_offs := 0; enc_low := 0; enc_rng := 0; enc_cnt := 0;
     enc_error := 0 |}.
Definition demo_msg : list symbol :=
  [SymCdf [24576; 8192; 0; 0] 3 0; SymBool 16384 true; SymCdf [24576; 8192; 0; 0] 3 2;
   SymBool 30000 false; SymCdf [24576; 8192; 0; 0] 3 1].

Lemma demo_grants : grants_all demo_alloc.
Proof. done. Qed.

Lemma demo_msg_ok : message_ok 4 demo_msg.
Proof.
  unfold message_ok. split_and!; [lia | lia | | simpl; lia].
  assert (icdf_ok [24576; 8192; 0; 0] 3) by (apply icdf_okb_ok; reflexivity).
  unfold demo_msg. rewrite !list.Forall_cons. split_and!; try (split; [done | lia]); done.
Qed.

Lemma range_coder_roundtrip_witness :
  grants_all demo_alloc /\ message_ok 4 demo_msg /\
  exists enc bs dec,
    encode_message demo_alloc demo_enc 4 demo_msg = Some (enc, Some bs) /\
    Z.of_nat (length bs) = (od_ec_enc_tell enc + 7) / 8 /\ Forall is_byte bs /\
    decode_all (od_ec_dec_init bs) (sym_query <$> demo_msg) = Some ([0; 1; 2; 0; 1], dec).
Proof.
  split; [exact demo_grants |]. split; [exact demo_msg_ok |].
  exact (range_coder_roundtrip demo_alloc demo_enc 4 demo_msg demo_grants demo_msg_ok).
Defined.

(** At every point of a message, the encoder after the symbols so far and the
    decoder after decoding them report the same bit position, whole and
    fractional, and the decoder's never exceeds the bytes it was given. *)
Theorem range_coder_tell_agree al enc0 size pre post :
  grants_all al -> message_ok size (pre ++ post) ->
  exists enc' bs enc dec,
    encode_message al enc0 size (pre ++ post) = Some (enc', Some bs) /\
    encode_all al (od_ec_enc_init al enc0 size) pre = Some enc /\
    decode_all (od_ec_dec_init bs) (sym_query <$> pre) = Some (sym_val <$> pre, dec) /\
    od_ec_enc_tell enc = od_ec_dec_tell dec /\
    od_ec_enc_tell_frac enc = od_ec_dec_tell_frac dec /\
    od_ec_dec_tell dec <= 8 * Z.of_nat (length bs).
Proof.
  intros Hal Hm. destruct (encode_message_ok al enc0 size _ Hal Hm)
    as (enc' & bs & E & _ & _ & _ & _ & Eb & Hp).
  destruct (prefix_agree al enc0 size pre post bs Hal Hm Hp)
    as (enc & dec & Ee & Ed & Ebd & Et & Er & Hle).
  exists enc', bs, enc, dec. split_and!; try done.
  - unfold od_ec_enc_tell_frac, od_ec_dec_tell_frac. by rewrite Et, Er.
  - by rewrite Ebd, Eb in Hle.
Qed.

Lemma range_coder_tell_agree_witness :
  message_ok 4 (take 2 demo_msg ++ drop 2 demo_msg) /\
  exists enc' bs enc dec,
    encode_message demo_alloc demo_enc 4 (take 2 demo_msg ++ drop 2 demo_msg)
      = Some (enc', Some bs) /\
    encode_all demo_alloc (od_ec_enc_init demo_alloc demo_enc 4) (take 2 demo_msg) = Some enc /\
    decode_all (od_ec_dec_init bs) (sym_query <$> take 2 demo_msg)
      = Some (sym_val <$> take 2 demo_msg, dec) /\
    od_ec_enc_tell enc = od_ec_dec_tell dec /\
    od_ec_enc_tell_frac enc = od_ec_dec_tell_frac dec /\
    od_ec_dec_tell dec <= 8 * Z.of_nat (length bs).
Proof.
  split; [exact demo_msg_ok |].
  exact (range_coder_tell_agree demo_alloc demo_enc 4 (take 2 demo_msg) (drop 2 demo_msg)
           demo_grants demo_msg_ok).
Defined.

(** C37: Whichever allocations fail, the encoder stays inside its buffer and ends
    in one of two ways: it reports [NULL] and its error flag, or the bytes it
    returns decode to the whole message. *)
Theorem range_coder_all_or_nothing al enc0 size syms :
  message_ok size syms ->
  (exists enc, encode_message al enc0 size syms = Some (enc, None) /\ enc_error enc = -1) \/
  (exists enc bs dec, encode_message al enc0 size syms = Some (enc, Some bs) /\
    decode_all (od_ec_dec_init bs) (sym_query <$> syms) = Some (sym_val <$> syms, dec)).
Proof.
  intros Hm. pose proof Hm as (Hs & Hsyms & _).
  destruct (encode_message_ok (granting al) enc0 size syms ltac:(done) Hm)
    as (enc & bs & E & _ & _ & _ & _ & _ & Hp).
  rewrite <- (app_nil_r syms) in Hp. destruct (dec_pending_all _ _ _ _ Hp) as (dec & Ed & _).
  unfold encode_message in E |- *.
  assert (Hnull : forall e, failed e -> od_ec_enc_done al e = Some (e, None))
    by (intros e He; unfold od_ec_enc_done; by rewrite He).
  destruct (enc_init_granting al enc0 size ltac:(lia)) as [Hf | ->].
  { left. rewrite encode_all_failed by done. cbn [mbind option_bind].
    rewrite Hnull by done. by eexists. }
  destruct (encode_all_granting al (od_ec_enc_init (granting al) enc0 size) syms Hsyms)
    as [(e & -> & Hf) | ->].
  { left. cbn [mbind option_bind]. rewrite Hnull by done. by eexists. }
  destruct (encode_all (granting al) _ syms) as [e |]; [| done]. cbn [mbind option_bind] in *.
  destruct (enc_done_granting al e) as [(e' & -> & Hf) | ->]; [left; by eexists | right].
  by exists enc, bs, dec.
Qed.

(** An allocator with 16 bytes. *)
Definition tiny_alloc : allocator := {| grants := fun n => n <=? 16; fresh_byte := fun _ => 170 |}.

Lemma range_coder_all_or_nothing_witness :
  message_ok 4 demo_msg /\
  ((exists enc, encode_message tiny_alloc demo_enc 4 demo_msg = Some (enc, None) /\
      enc_error enc = -1) \/
   (exists enc bs dec, encode_message tiny_alloc demo_enc 4 demo_msg = Some (enc, Some bs) /\
      decode_all (od_ec_dec_init bs) (sym_query <$> demo_msg) = Some ([0; 1; 2; 0; 1], dec))).
Proof.
  split; [exact demo_msg_ok |].
  exact (range_coder_all_or_nothing tiny_alloc demo_enc 4 demo_msg demo_msg_ok).
Defined.
