(* ===== verification/SymbolIO.v ===== *)
(** * Tile data: symbols over the range coder

    [aom_dsp/bitwriter.[ch]], [aom_dsp/bitreader.[ch]] and the binary codes
    [aom_dsp/binary_codes_writer.c], [aom_dsp/binary_codes_reader.c].  The tile
    writer and reader wrap the range coder with the output buffer, the switch for
    CDF adaptation and the overflow test; they are a second carrier for the codes
    of [BitChannel]. *)

From S2P Require Import Prelude CodecTypes BitChannel EntCoder RangeSpec Cdf EntEncProof EntDecProof EntRoundTrip.

#[local] Arguments Z.of_nat : simpl never.
#[local] Arguments Z.mul : simpl never.

(** ** Writer; [w_buffer] holds the [w_size] bytes at [w->buffer]. *)

Record aom_writer := {
  w_pos : Z;
  w_buffer : list Z;
  w_size : Z;
  w_ec : od_ec_enc;
  w_allow_update_cdf : bool }.

Definition set_w_ec (w : aom_writer) (ec : od_ec_enc) : aom_writer :=
  {| w_pos := w_pos w; w_buffer := w_buffer w; w_size := w_size w; w_ec := ec;
     w_allow_update_cdf := w_allow_update_cdf w |}.

(** [free(enc->buf)]: the block is no longer the encoder's. *)
Definition od_ec_enc_clear (enc : od_ec_enc) : od_ec_enc :=
  {| enc_buf := []; enc_storage := enc_storage enc; enc_offs := enc_offs enc;
     enc_low := enc_low enc; enc_rng := enc_rng enc; enc_cnt := enc_cnt enc;
     enc_error := enc_error enc |}.

Section Writer.
Context (al : allocator).

Definition aom_start_encode (w : aom_writer) (source : list Z) (size : Z) : aom_writer :=
  {| w_pos := 0; w_buffer := source; w_size := size;
     w_ec := od_ec_enc_init al (w_ec w) 62025; w_allow_update_cdf := w_allow_update_cdf w |}.

(** Result: the return value and the writer. *)
Definition aom_stop_encode (w : aom_writer) : option (Z * aom_writer) :=
  '(ec, r) ← od_ec_enc_done al (w_ec w);
  match r with
  | None => Some (-1, set_w_ec w (od_ec_enc_clear ec))
  | Some (data, bytes) =>
      if w_size w <? bytes then Some (-1, set_w_ec w (od_ec_enc_clear ec))
      else
        let nb_bits := s32 (od_ec_enc_tell ec) in
        buf ← c_memcpy (w_buffer w) 0 (take (Z.to_nat bytes) data);
        Some (nb_bits,
              {| w_pos := bytes; w_buffer := buf; w_size := w_size w;
                 w_ec := od_ec_enc_clear ec; w_allow_update_cdf := w_allow_update_cdf w |})
  end.

Definition aom_tell_size (w : aom_writer) : Z := s32 (od_ec_enc_tell (w_ec w)).

(** [(0x7FFFFF - (probability << 15) + probability) >> 8] *)
Definition prob_q15 (probability : Z) : Z :=
  Z.shiftr (8388607 - Z.shiftl probability 15 + probability) 8.

Definition aom_write (w : aom_writer) (bit probability : Z) : option aom_writer :=
  ec ← od_ec_encode_bool_q15 al (w_ec w) bit (prob_q15 probability);
  Some (set_w_ec w ec).

Definition aom_write_bit (w : aom_writer) (bit : Z) : option aom_writer := aom_write w bit 128.

#[export] Instance aw_sink : BitSink aom_writer := aom_write_bit.

Definition aom_write_literal (w : aom_writer) (data bits : Z) : option aom_writer :=
  write_literal w data bits.

Definition aom_write_cdf (w : aom_writer) (symb : Z) (cdf : list Z) (nsymbs : Z)
  : option aom_writer :=
  ec ← od_ec_encode_cdf_q15 al (w_ec w) symb cdf nsymbs;
  Some (set_w_ec w ec).

(** The CDF is updated in place. *)
Definition aom_write_symbol (w : aom_writer) (symb : Z) (cdf : list Z) (nsymbs : Z)
  : option (aom_writer * list Z) :=
  w ← aom_write_cdf w symb cdf nsymbs;
  if w_allow_update_cdf w
  then cdf ← update_cdf cdf (swrap 8 symb) nsymbs; Some (w, cdf)
  else Some (w, cdf).

Definition aom_write_primitive_refsubexpfin (w : aom_writer) (n k ref v : Z)
  : option aom_writer := write_refsubexpfin w n k ref v.
End Writer.

(** ** Bit counts ([aom_dsp/binary_codes_writer.c]) *)

Definition count_primitive_quniform (n v : Z) : Z :=
  if n <=? 1 then 0
  else
    let l := get_msb n + 1 in
    let m := Z.shiftl 1 l - n in
    if v <? m then l - 1 else l.

Fixpoint count_primitive_subexpfin_loop (fuel : nat) (count i mk n k v : Z) : Z :=
  match fuel with
  | O => count
  | S fuel' =>
      let b := if i =? 0 then k else k + i - 1 in
      let a := Z.shiftl 1 b in
      if n <=? mk + 3 * a then count + count_primitive_quniform (u16 (n - mk)) (u16 (v - mk))
      else
        let t := mk + a <=? v in
        let count := count + 1 in
        if t then count_primitive_subexpfin_loop fuel' count (i + 1) (mk + a) n k v
        else count + b
  end.

Definition count_primitive_subexpfin (n k v : Z) : Z :=
  count_primitive_subexpfin_loop 18 0 0 0 n k v.

Definition aom_count_primitive_refsubexpfin (n k ref v : Z) : Z :=
  count_primitive_subexpfin n k (recenter_finite_nonneg n ref v).

Definition aom_count_signed_primitive_refsubexpfin (n k ref v : Z) : Z :=
  let ref := s16 (ref + (n - 1)) in
  let v := s16 (v + (n - 1)) in
  let scaled_n := u16 (Z.shiftl n 1 - 1) in
  aom_count_primitive_refsubexpfin scaled_n k (u16 ref) (u16 v).

(** ** Reader; [r_buffer] holds the bytes from [buffer] to [buffer_end]. *)

Record aom_reader := {
  r_buffer : list Z;
  r_ec : od_ec_dec;
  r_allow_update_cdf : bool }.

Definition set_r_ec (r : aom_reader) (ec : od_ec_dec) : aom_reader :=
  {| r_buffer := r_buffer r; r_ec := ec; r_allow_update_cdf := r_allow_update_cdf r |}.

(** Result: the return value and the reader; [None] is a null [buffer]. *)
Definition aom_reader_init (r : aom_reader) (buffer : option (list Z)) (size : Z)
  : Z * aom_reader :=
  match buffer with
  | None => if size =? 0
            then (0, {| r_buffer := []; r_ec := od_ec_dec_init [];
                        r_allow_update_cdf := r_allow_update_cdf r |})
            else (1, r)
  | Some bytes =>
      let bytes := take (Z.to_nat size) bytes in
      (0, {| r_buffer := bytes; r_ec := od_ec_dec_init bytes;
             r_allow_update_cdf := r_allow_update_cdf r |})
  end.

Definition aom_reader_tell (r : aom_reader) : Z := u32 (od_ec_dec_tell (r_ec r)).
Definition aom_reader_tell_frac (r : aom_reader) : Z := od_ec_dec_tell_frac (r_ec r).

Definition aom_reader_has_overflowed (r : aom_reader) : bool :=
  let tell_bits := aom_reader_tell r in
  let tell_bytes := Z.shiftr (u32 (tell_bits + 7)) 3 in
  Z.of_nat (length (r_buffer r)) <? tell_bytes.

Definition aom_read (prob : Z) : reader aom_reader Z := fun r =>
  let '(bit, ec) := od_ec_decode_bool_q15 (r_ec r) (prob_q15 prob) in
  Ok (bit, set_r_ec r ec).

Definition aom_read_bit : reader aom_reader Z := aom_read 128.

#[export] Instance ar_source : BitSource aom_reader := aom_read_bit.

Definition aom_read_literal (bits : Z) : reader aom_reader Z := read_literal bits.

Definition aom_read_cdf (cdf : list Z) (nsymbs : Z) : reader aom_reader Z := fun r =>
  match od_ec_decode_cdf_q15 (r_ec r) cdf nsymbs with
  | Some (symb, ec) => Ok (symb, set_r_ec r ec)
  | None => Fault
  end.

Definition aom_read_symbol (cdf : list Z) (nsymbs : Z) : reader aom_reader (Z * list Z) := fun r =>
  match aom_read_cdf cdf nsymbs r with
  | Ok (ret, r) =>
      if r_allow_update_cdf r then
        match update_cdf cdf (swrap 8 ret) nsymbs with
        | Some cdf => Ok ((ret, cdf), r)
        | None => Fault
        end
      else Ok ((ret, cdf), r)
  | Raise e => Raise e
  | Fault => Fault
  end.

Definition aom_read_primitive_refsubexpfin (n k ref : Z) : reader aom_reader Z :=
  read_refsubexpfin n k ref.

(** ** Streams of events *)

Definition bit_symbol (b : bool) : symbol := SymBool (prob_q15 128) b.

(** What a writer that has taken [evs] since [aom_start_encode] looks like. *)
Definition w_room (w : aom_writer) (n : nat) : Prop :=
  exists st, enc_rel 62025 (w_ec w) st /\ iD st + 15 * (Z.of_nat n + 1) < 2 ^ 29.

Definition w_same (w w' : aom_writer) : Prop :=
  w_pos w' = w_pos w /\ w_buffer w' = w_buffer w /\ w_size w' = w_size w /\
  w_allow_update_cdf w' = w_allow_update_cdf w.

Definition w_sent (al : allocator) (w : aom_writer) (evs : list symbol) (w' : aom_writer) : Prop :=
  encode_all al (w_ec w) evs = Some (w_ec w') /\ Forall sym_ok evs /\ w_same w w'.

Definition r_pending (b : bool) (bs : list Z) (r : aom_reader) (evs : list symbol) : Prop :=
  r_buffer r = bs /\ dec_buf (r_ec r) = bs /\ r_allow_update_cdf r = b /\
  exists st, dec_pending (r_ec r) st evs.

Lemma encode_all_app al enc evs1 evs2 :
  encode_all al enc (evs1 ++ evs2) = (enc ← encode_all al enc evs1; encode_all al enc evs2).
Proof.
  revert enc. induction evs1 as [|ev evs1 IH]; intros enc; simpl; [done |].
  destruct (encode_symbol al enc ev); simpl; [apply IH | done].
Qed.

Lemma w_sent_app al w1 evs1 w2 evs2 w3 :
  w_sent al w1 evs1 w2 -> w_sent al w2 evs2 w3 -> w_sent al w1 (evs1 ++ evs2) w3.
Proof.
  intros (E1 & O1 & S1) (E2 & O2 & S2). split_and!.
  - rewrite encode_all_app, E1. done.
  - by apply Forall_app.
  - destruct S1 as (? & ? & ? & ?), S2 as (? & ? & ? & ?). split_and!; congruence.
Qed.

(** One event written. *)
Lemma w_step al w ev n : grants_all al -> w_room w (S n) -> sym_ok ev ->
  exists ec', encode_symbol al (w_ec w) ev = Some ec' /\
    w_sent al w [ev] (set_w_ec w ec') /\ w_room (set_w_ec w ec') n.
Proof.
  intros Hal (st & Hrel & HD) Hok.
  destruct (encode_symbol_ok 62025 al (w_ec w) st ev) as (ec' & E & Hrel'); try done; [lia |].
  destruct (narrow_ok st ev ltac:(apply Hrel) Hok) as [_ HDn].
  exists ec'. split_and!; [done | |].
  - split_and!; [simpl; by rewrite E | by constructor | done].
  - exists (narrow st ev). split; [done | lia].
Qed.

(** One event read. *)
Lemma r_step b bs r ev evs : r_pending b bs r (ev :: evs) ->
  exists ec', decode_symbol (r_ec r) (sym_query ev) = Some (sym_val ev, ec') /\
    r_pending b bs (set_r_ec r ec') evs.
Proof.
  intros (Eb & Ed & Ea & st & Hp).
  destruct (dec_pending_step _ _ _ _ Hp) as (ec' & E & Eb' & Hp').
  exists ec'. split; [done |]. unfold r_pending; simpl. split_and!; try done; [congruence |].
  by exists (narrow st ev).
Qed.

Lemma bit_symbol_ok b : sym_ok (bit_symbol b).
Proof. done. Qed.

#[export] Instance aw_sink_ok al (Hal : grants_all al) : BitSinkOk symbol aom_writer (H := aw_sink al).
Proof.
  refine {| sink_bit := bit_symbol; room := w_room; sent := w_sent al |}.
  - intros w. split_and!; done.
  - apply w_sent_app.
  - intros w n b Hr. destruct (w_step al w (bit_symbol b) n Hal Hr (bit_symbol_ok b)) as (ec & E & Hs & Hr').
    exists (set_w_ec w ec). split_and!; try done.
    unfold put_bit, aw_sink, aom_write_bit, aom_write. simpl in E. by rewrite E.
Defined.

#[export] Instance ar_source_ok (b : bool) (bs : list Z) : BitSourceOk symbol aom_reader.
Proof.
  refine {| source_bit := bit_symbol; pending := r_pending b bs |}.
  intros r x es Hp. destruct (r_step _ _ _ _ _ Hp) as (ec & E & Hp').
  exists (set_r_ec r ec). split; [| done].
  unfold get_bit, ar_source, aom_read_bit, aom_read. simpl in E. injection E as E.
  unfold bit_symbol in E. by rewrite E.
Defined.

(** ** Writing programs and reading programs *)

Section Programs.
Context (al : allocator) (Hal : grants_all al) (adaptive : bool).

(** [writes m evs b]: with room for them, [m] encodes exactly [evs] and returns
    [b]. *)
Definition writes {B} (m : aom_writer -> option (aom_writer * B)) (evs : list symbol) (b : B)
  : Prop :=
  forall w n, w_allow_update_cdf w = adaptive -> w_room w (length evs + n) ->
    exists w', m w = Some (w', b) /\ w_sent al w evs w' /\ w_room w' n.

(** A [void] writer. *)
Definition void (m : aom_writer -> option aom_writer) : aom_writer -> option (aom_writer * unit) :=
  fun w => w ← m w; Some (w, tt).

(** [reads k evs a]: with [evs] ahead, [k] consumes exactly them and returns [a]. *)
Definition reads {A} (k : reader aom_reader A) (evs : list symbol) (a : A) : Prop :=
  forall bs r es, r_pending adaptive bs r (evs ++ es) ->
    exists r', k r = Ok (a, r') /\ r_pending adaptive bs r' es.

Lemma emits_writes m bits :
  emits (snk := aw_sink al) (snk_ok := aw_sink_ok al Hal) m bits ->
  writes (void m) (bit_symbol <$> bits) tt.
Proof.
  intros He w n _ Hr. rewrite length_fmap in Hr. destruct (He w n Hr) as (w' & E & Hs & Hr').
  exists w'. unfold void. rewrite E. done.
Qed.

Lemma takes_reads {A} (k : reader aom_reader A) bits a :
  (forall bs, takes (src_ok := ar_source_ok adaptive bs) k bits a) ->
  reads k (bit_symbol <$> bits) a.
Proof. intros Ht bs r es Hp. exact (Ht bs r es Hp). Qed.

(** What it means for a tile to survive: [m] (which returns [b]) runs between [aom_start_encode] and
    [aom_stop_encode] into [buffer]; if the data fits, a reader on the bytes
    produced returns [a] without running over their end and the rest of [buffer]
    is untouched; otherwise [aom_stop_encode] fails and [buffer] is as before. *)
Definition tile_survives {A B} (m : aom_writer -> option (aom_writer * B)) (b : B)
    (k : reader aom_reader A) (a : A) : Prop :=
  forall w0 r0 buffer, w_allow_update_cdf w0 = adaptive -> r_allow_update_cdf r0 = adaptive ->
  exists w, m (aom_start_encode al w0 buffer (Z.of_nat (length buffer))) = Some (w, b) /\
    let need := (aom_tell_size w + 7) / 8 in
    if need <=? Z.of_nat (length buffer) then
      exists w' r r', aom_stop_encode al w = Some (aom_tell_size w, w') /\ w_pos w' = need /\
        drop (Z.to_nat need) (w_buffer w') = drop (Z.to_nat need) buffer /\
        aom_reader_init r0 (Some (w_buffer w')) (w_pos w') = (0, r) /\
        k r = Ok (a, r') /\ aom_reader_has_overflowed r' = false
    else exists w', aom_stop_encode al w = Some (-1, w') /\ w_buffer w' = buffer.

Lemma not_overflowed b bs r evs : r_pending b bs r evs -> aom_reader_has_overflowed r = false.
Proof.
  intros (Eb & Ed & _ & st & Hp). destruct (dec_pending_tell _ _ _ Hp) as (_ & _ & Ht).
  destruct Hp as [_ Hl _ _ _ _ _ _]. rewrite Ed in *.
  unfold aom_reader_has_overflowed, aom_reader_tell. rewrite Eb.
  rewrite (u32_small (od_ec_dec_tell _)), u32_small, Z.shiftr_div_pow2 by lia.
  change (2 ^ 3) with 8. apply Z.ltb_ge. dlia.
Qed.

Lemma tile_link {A B} m (b : B) (k : reader aom_reader A) evs a :
  writes m evs b -> reads k evs a -> 15 * (Z.of_nat (length evs) + 1) < 2 ^ 29 ->
  tile_survives m b k a.
Proof.
  intros Hm Hk Hlen w0 r0 buffer Ew Er.
  set (w1 := aom_start_encode al w0 buffer (Z.of_nat (length buffer))).
  pose proof (enc_init_ok al (w_ec w0) 62025 Hal ltac:(lia)) as Hinit.
  destruct (Hm w1 0%nat Ew) as (w & E & (Ee & Hok & Hp & Hb & Hs & Ha) & _).
  { exists full_interval. split; [done |]. simpl iD. lia. }
  exists w. split; [done |].
  destruct (encode_all_ok 62025 al evs (w_ec w1) full_interval) as (ec & Ee' & Hrel & _);
    try done; [simpl iD; lia |].
  assert (ec = w_ec w) as -> by congruence.
  destruct (enc_done_pending 62025 al (w_ec w) evs Hal ltac:(lia) Hok Hrel Hlen)
    as (ec' & out & nbytes & Ed & Et & Hnb & En & Hby & Hpend).
  destruct (enc_rel_tell _ _ _ Hrel) as [Et0 _].
  destruct (narrow_all_D full_interval evs interval_ok_full Hok) as [_ HD]. simpl iD in HD.
  assert (aom_tell_size w = od_ec_enc_tell (w_ec w)) as Ets
    by (unfold aom_tell_size; apply s32_small; lia).
  assert (nbytes < 2 ^ 27) as Hn27 by (rewrite En; dlia).
  rewrite Ets, <- En. cbv zeta. unfold aom_stop_encode. rewrite Ed. cbn [mbind option_bind].
  rewrite Hs. simpl w_size. unfold w1 in Hb. simpl in Hb.
  destruct (Z.leb_spec nbytes (Z.of_nat (length buffer))).
  - rewrite (proj2 (Z.ltb_ge _ _)) by lia. unfold c_memcpy.
    set (bs := take (Z.to_nat nbytes) out) in *.
    assert (length bs = Z.to_nat nbytes) as Hbs by (unfold bs; rewrite length_take; lia).
    rewrite Hb, Hbs, Nat.add_0_l, (proj2 (Nat.leb_le _ _)) by lia.
    cbn [mbind option_bind]. rewrite Et, s32_small, take_0, app_nil_l by lia.
    assert (take (Z.to_nat nbytes) (bs ++ drop (Z.to_nat nbytes) buffer) = bs) as Etk
      by (apply take_app_length'; lia).
    set (r1 := {| r_buffer := bs; r_ec := od_ec_dec_init bs; r_allow_update_cdf := adaptive |}).
    assert (r_pending adaptive bs r1 (evs ++ [])) as Hr1.
    { rewrite app_nil_r. split_and!; try done; [| by exists full_interval].
      apply (od_ec_dec_init_ok bs Hby). lia. }
    destruct (Hk bs r1 [] Hr1) as (r' & Ek & Hr').
    eexists _, r1, r'. split; [done |]. cbn [w_pos w_buffer].
    split_and!; try done.
    + rewrite drop_app_length' by lia. done.
    + unfold aom_reader_init, r1. by rewrite Etk, Er.
    + by apply (not_overflowed adaptive bs _ []).
  - rewrite (proj2 (Z.ltb_lt _ _)) by lia. eexists. split; [done |]. simpl. done.
Qed.
End Programs.

(** ** Adaptive symbols *)

(** A table of models, each with its alphabet size; which one codes the next
    symbol is chosen from the values coded so far, as the AV1 syntax does. *)
Definition model : Type := list Z * Z.
Definition model_ok (md : model) : Prop := cdf_ok md.1 md.2.

Section Adaptive.
Context (ctx : list Z -> nat).

Fixpoint write_symbols (al : allocator) (w : aom_writer) (tbl : list model) (hist vals : list Z)
  : option (aom_writer * list model) :=
  match vals with
  | [] => Some (w, tbl)
  | v :: vals' =>
      '(cdf, nsymbs) ← tbl !! ctx hist;
      '(w, cdf) ← aom_write_symbol al w v cdf nsymbs;
      write_symbols al w (<[ctx hist := (cdf, nsymbs)]> tbl) (hist ++ [v]) vals'
  end.

Fixpoint read_symbols (n : nat) (tbl : list model) (hist : list Z)
  : reader aom_reader (list Z * list model) :=
  match n with
  | O => mret (hist, tbl)
  | S n' =>
      match tbl !! ctx hist with
      | None => fault
      | Some (cdf, nsymbs) =>
          '(v, cdf) ← aom_read_symbol cdf nsymbs;
          read_symbols n' (<[ctx hist := (cdf, nsymbs)]> tbl) (hist ++ [v])
      end
  end.

(** Every value is in the alphabet its context selects. *)
Fixpoint in_alphabets (tbl : list model) (hist vals : list Z) : Prop :=
  match vals with
  | [] => True
  | v :: vals' =>
      (exists md, tbl !! ctx hist = Some md /\ 0 <= v < md.2) /\
      in_alphabets tbl (hist ++ [v]) vals'
  end.

(** Adaptation changes probabilities, not alphabets. *)
Lemma in_alphabets_insert tbl hist vals i cdf cdf' nsymbs :
  tbl !! i = Some (cdf, nsymbs) ->
  in_alphabets tbl hist vals -> in_alphabets (<[i := (cdf', nsymbs)]> tbl) hist vals.
Proof.
  intros Hi. revert hist. induction vals as [|v vals IH]; intros hist; simpl; [done |].
  intros [(md & Hl & Hv) Hr]. split; [| by apply IH].
  destruct (decide (ctx hist = i)) as [Heq | Hne]; [rewrite Heq in * |].
  - exists (cdf', nsymbs). rewrite list_lookup_insert_eq by (by eapply lookup_lt_Some).
    split; [done |]. rewrite Hi in Hl. by injection Hl as <-.
  - exists md. by rewrite list_lookup_insert_ne.
Qed.

Section Table.
Context (al : allocator) (Hal : grants_all al) (adaptive : bool).

Lemma write_symbol_step cdf nsymbs v :
  cdf_ok cdf nsymbs -> 0 <= v < nsymbs ->
  exists cdf', cdf_ok cdf' nsymbs /\
    writes al adaptive (fun w => aom_write_symbol al w v cdf nsymbs) [SymCdf cdf nsymbs v] cdf' /\
    reads adaptive (aom_read_symbol cdf nsymbs) [SymCdf cdf nsymbs v] (v, cdf').
Proof.
  intros Hok Hv. destruct (update_cdf_ok cdf v nsymbs Hok) as (cdf1 & Eu & Hok1).
  assert (sym_ok (SymCdf cdf nsymbs v)) as Hsym by (split; [apply Hok | done]).
  assert (2 <= nsymbs <= 16) by apply Hok.
  assert (swrap 8 v = v) as Esw by (apply swrap_small; [lia | change (2 ^ (8 - 1)) with 128; lia]).
  exists (if adaptive then cdf1 else cdf). split_and!; [by destruct adaptive | |].
  - intros w n Ha Hr. destruct (w_step al w _ n Hal Hr Hsym) as (ec & E & Hs & Hr').
    exists (set_w_ec w ec). split; [| done]. simpl in E.
    unfold aom_write_symbol, aom_write_cdf. rewrite E. cbn [mbind option_bind].
    simpl. rewrite Ha. destruct adaptive; [| done]. rewrite Esw, Eu. done.
  - intros bs r es Hp. destruct (r_step _ _ _ _ _ Hp) as (ec & E & Hp').
    exists (set_r_ec r ec). split; [| done]. simpl in E.
    unfold aom_read_symbol, aom_read_cdf. rewrite E. simpl.
    destruct Hp as (_ & _ & -> & _). destruct adaptive; [| done]. by rewrite Esw, Eu.
Qed.

Lemma symbols_ok vals tbl hist :
  Forall model_ok tbl -> in_alphabets tbl hist vals ->
  exists evs tbl', length evs = length vals /\ Forall model_ok tbl' /\
    writes al adaptive (fun w => write_symbols al w tbl hist vals) evs tbl' /\
    reads adaptive (read_symbols (length vals) tbl hist) evs (hist ++ vals, tbl').
Proof.
  revert tbl hist. induction vals as [|v vals IH]; intros tbl hist Htbl Hin.
  { exists [], tbl. split_and!; try done.
    - intros w n _ Hr. by exists w.
    - intros bs r es Hp. exists r. by rewrite app_nil_r. }
  destruct Hin as [([cdf nsymbs] & Hl & Hv) Hin]. simpl in Hv.
  destruct (write_symbol_step cdf nsymbs v) as (cdf' & Hok' & Hw & Hr).
  { by apply (Forall_lookup_1 _ _ _ _ Htbl Hl). }
  { done. }
  set (tbl1 := <[ctx hist := (cdf', nsymbs)]> tbl).
  destruct (IH tbl1 (hist ++ [v])) as (evs & tbl' & Hlen & Htbl' & Hws & Hrs).
  { by apply Forall_insert. }
  { by eapply in_alphabets_insert. }
  exists (SymCdf cdf nsymbs v :: evs), tbl'. split_and!; [simpl; congruence | done | |].
  - intros w n Ha Hroom. destruct (Hw w (length evs + n)%nat Ha Hroom) as (w1 & E1 & S1 & R1).
    destruct (Hws w1 n) as (w2 & E2 & S2 & R2); [| done |].
    { destruct S1 as (_ & _ & _ & _ & _ & E). congruence. }
    exists w2. simpl. rewrite Hl. cbn [mbind option_bind]. rewrite E1. cbn [mbind option_bind].
    split_and!; try done. change (SymCdf cdf nsymbs v :: evs) with ([SymCdf cdf nsymbs v] ++ evs).
    by eapply w_sent_app.
  - intros bs r es Hp. destruct (Hr bs r (evs ++ es) Hp) as (r1 & E1 & P1).
    destruct (Hrs bs r1 es P1) as (r2 & E2 & P2). exists r2. split; [| done].
    cbn [length read_symbols]. rewrite Hl, (reader_bind_ok _ _ _ _ _ E1).
    by rewrite <- app_assoc in E2.
Qed.
End Table.
End Adaptive.

(** C28: Tile data coded with adaptive models survives.  For every rule [ctx] that
    selects a model from the values coded so far, a list of values, each in its
    model's alphabet, written with [aom_write_symbol] through
    [aom_start_encode]/[aom_stop_encode] is returned by as many
    [aom_read_symbol]s, and writer and reader end with the same adapted models;
    output that does not fit is refused without touching the buffer. *)
Theorem adaptive_tile_roundtrip ctx al adaptive tbl vals :
  grants_all al -> Forall model_ok tbl -> in_alphabets ctx tbl [] vals ->
  15 * (Z.of_nat (length vals) + 1) < 2 ^ 29 ->
  exists tbl', Forall model_ok tbl' /\
    tile_survives al adaptive (fun w => write_symbols ctx al w tbl [] vals) tbl'
      (read_symbols ctx (length vals) tbl []) (vals, tbl').
Proof.
  intros Hal Htbl Hin Hlen.
  destruct (symbols_ok ctx al Hal adaptive vals tbl [] Htbl Hin) as (evs & tbl' & El & Htbl' & Hw & Hr).
  exists tbl'. split; [done |]. eapply tile_link; try done. by rewrite El.
Qed.

(** A binary model and a ternary one, the choice depending on the last value. *)
Definition demo_tbl : list model := [([16384; 0; 0], 2); ([24576; 8192; 0; 0], 3)].
Definition demo_ctx (hist : list Z) : nat := if last hist 0 =? 0 then 1 else 0.
Definition demo_vals : list Z := [2; 1; 0; 1; 1; 0; 2].

Lemma demo_tbl_ok : Forall model_ok demo_tbl.
Proof.
  unfold demo_tbl, model_ok, cdf_ok. rewrite !list.Forall_cons.
  split_and!; try (apply icdf_okb_ok; reflexivity); vm_compute; done || split; done.
Qed.

Lemma demo_vals_ok : in_alphabets demo_ctx demo_tbl [] demo_vals.
Proof. simpl. repeat (split; [by eexists |]). done. Qed.

Lemma adaptive_tile_roundtrip_witness :
  Forall model_ok demo_tbl /\ in_alphabets demo_ctx demo_tbl [] demo_vals /\
  exists tbl', Forall model_ok tbl' /\
    tile_survives demo_alloc true (fun w => write_symbols demo_ctx demo_alloc w demo_tbl [] demo_vals)
      tbl' (read_symbols demo_ctx 7 demo_tbl []) (demo_vals, tbl').
Proof.
  split; [exact demo_tbl_ok |]. split; [exact demo_vals_ok |].
  apply (adaptive_tile_roundtrip demo_ctx demo_alloc true demo_tbl demo_vals
           demo_grants demo_tbl_ok demo_vals_ok).
  simpl. lia.
Defined.

(** ** Binary codes *)

Lemma count_quniform_ok n v : 0 <= v < n ->
  count_primitive_quniform n v = Z.of_nat (length (quniform_bits n v)).
Proof.
  intros Hv. unfold count_primitive_quniform, quniform_bits, get_msb.
  destruct (Z.leb_spec n 1); [done |]. pose proof (Z.log2_nonneg n).
  rewrite Z.shiftl_mul_pow2, Z.mul_1_l by lia.
  case_cmp; rewrite ?length_app, length_lit_bits; simpl; lia.
Qed.

Lemma count_subexpfin_ok fuel count i mk n k v :
  0 <= i -> 0 <= k -> 0 <= mk <= v -> v < n < 65536 ->
  count_primitive_subexpfin_loop fuel count i mk n k v =
    count + Z.of_nat (length (subexpfin_bits fuel i mk n k v)).
Proof.
  intros Hi Hk Hmk Hv. revert count i mk Hi Hmk.
  induction fuel as [|fuel IH]; intros count i mk Hi Hmk; cbn [count_primitive_subexpfin_loop subexpfin_bits].
  { simpl. lia. }
  fold (subexp_b k i).
  assert (0 <= subexp_b k i) by (unfold subexp_b; destruct (Z.eqb_spec i 0); lia).
  pose proof (pow2_pos (subexp_b k i) ltac:(lia)). rewrite Z.shiftl_mul_pow2, Z.mul_1_l by lia.
  destruct (Z.leb_spec n (mk + 3 * 2 ^ subexp_b k i)).
  - rewrite !u16_small, count_quniform_ok by lia. done.
  - destruct (Z.leb_spec (mk + 2 ^ subexp_b k i) v).
    + rewrite IH by lia. simpl length. lia.
    + simpl length. rewrite length_lit_bits. lia.
Qed.

(** A reference-coded value in [[0, n)] written to tile data takes exactly
    [aom_count_primitive_refsubexpfin] equiprobable booleans and is read back. *)
Theorem refsubexpfin_tile_roundtrip al adaptive n k ref v :
  grants_all al -> 1 <= n < 65536 -> 0 <= k <= 16 -> 0 <= ref < n -> 0 <= v < n ->
  exists bits, Z.of_nat (length bits) = aom_count_primitive_refsubexpfin n k ref v /\
    writes al adaptive (void (fun w => aom_write_primitive_refsubexpfin al w n k ref v))
      (bit_symbol <$> bits) tt /\
    reads adaptive (aom_read_primitive_refsubexpfin n k ref) (bit_symbol <$> bits) v.
Proof.
  intros Hal Hn Hk Hr Hv. exists (refsubexpfin_bits n k ref v). split_and!.
  - pose proof (recenter_finite_range n ref v Hn Hr Hv).
    unfold aom_count_primitive_refsubexpfin, count_primitive_subexpfin.
    rewrite count_subexpfin_ok by lia. done.
  - apply (emits_writes al Hal adaptive). by apply emits_refsubexpfin.
  - apply takes_reads. intros bs. by apply takes_refsubexpfin.
Qed.

Lemma refsubexpfin_tile_roundtrip_witness :
  exists bits, Z.of_nat (length bits) = aom_count_primitive_refsubexpfin 300 4 17 250 /\
    writes demo_alloc true (void (fun w => aom_write_primitive_refsubexpfin demo_alloc w 300 4 17 250))
      (bit_symbol <$> bits) tt /\
    reads true (aom_read_primitive_refsubexpfin 300 4 17) (bit_symbol <$> bits) 250.
Proof. apply refsubexpfin_tile_roundtrip; [exact demo_grants | lia | lia | lia | lia]. Defined.

(** A literal written to tile data survives [aom_start_encode],
    [aom_stop_encode] and [aom_reader_init], whatever the size of the buffer. *)
Theorem literal_tile_roundtrip al adaptive bits v :
  grants_all al -> 0 <= bits -> 0 <= v < 2 ^ bits -> 15 * (bits + 1) < 2 ^ 29 ->
  tile_survives al adaptive (void (fun w => aom_write_literal al w v bits)) tt
    (aom_read_literal bits) v.
Proof.
  intros Hal Hb Hv Hlen.
  apply (tile_link al Hal adaptive _ _ _ (bit_symbol <$> lit_bits (Z.to_nat bits) v)).
  - apply (emits_writes al Hal adaptive). apply emits_literal.
  - apply takes_reads. intros bs. by apply takes_literal.
  - rewrite length_fmap, length_lit_bits. lia.
Qed.

Lemma literal_tile_roundtrip_witness :
  tile_survives demo_alloc false (void (fun w => aom_write_literal demo_alloc w 1000 12)) tt
    (aom_read_literal 12) 1000.
Proof. apply literal_tile_roundtrip; [exact demo_grants | lia | lia | lia]. Defined.
