(* ===== verification/SyntaxIO.v ===== *)
(** * Syntax elements over adaptive contexts

    The block syntax of AV1 is coded as symbols of the models in the frame context of
    the tile ([xd->tile_ctx]) and as plain bits, mixed with control flow that depends on
    what has been coded.  This file gives the two monads such code is written in and the
    relation [transfers] between a writing and a reading program, from which the round
    trip of a whole tile follows.

    The models are addressed by a key that stands for an array element of
    [FRAME_CONTEXT]: its field and its indices.  An interface, [CdfLayout], says which
    keys are inside the arrays and how large their alphabets are. *)

From S2P Require Import Prelude CodecTypes BitChannel EntCoder RangeSpec Cdf EntEncProof EntDecProof EntRoundTrip SymbolIO.

#[local] Arguments Z.of_nat : simpl never.
#[local] Arguments Z.mul : simpl never.

(** ** Writing programs *)

(** [None] is an access outside an object. *)
Definition writer (W A : Type) : Type := W -> option (A * W).

#[export] Instance writer_ret W : MRet (writer W) := fun A a w => Some (a, w).
#[export] Instance writer_bind W : MBind (writer W) := fun A B k m w =>
  match m w with
  | Some (a, w') => k a w'
  | None => None
  end.

(** A computation on other data; [None] is an access outside it. *)
Definition w_lift {W A} (o : option A) : writer W A := fun w =>
  match o with Some a => Some (a, w) | None => None end.
Definition r_lift {R A} (o : option A) : reader R A := fun r =>
  match o with Some a => Ok (a, r) | None => Fault end.

Lemma w_lift_some {W A B} (a : A) (k : A -> writer W B) : w_lift (Some a) ≫= k = k a.
Proof. reflexivity. Qed.
Lemma r_lift_some {R A B} (a : A) (k : A -> reader R B) : r_lift (Some a) ≫= k = k a.
Proof. reflexivity. Qed.

(** ** The frame context *)

Class CdfLayout (K : Type) := {
  layout_dec :: EqDecision K;
  (** The indices are inside the dimensions of the field. *)
  in_layout : K -> bool;
  alphabet : K -> Z }.

Section FrameContext.
Context {K : Type} `{CdfLayout K}.

(** [None] is an index outside the array. *)
Definition cdfs : Type := K -> option (list Z).

Definition cdf_set (fc : cdfs) (k : K) (cdf : list Z) : cdfs := fun k' =>
  if decide (k' = k) then Some cdf else fc k'.

Definition fc_ok (fc : cdfs) : Prop := forall k, in_layout k = true ->
  exists cdf, fc k = Some cdf /\ cdf_ok cdf (alphabet k).

Lemma fc_ok_set fc k cdf : fc_ok fc -> cdf_ok cdf (alphabet k) -> fc_ok (cdf_set fc k cdf).
Proof.
  intros Hf Hc k' Hk'. unfold cdf_set. destruct (decide (k' = k)) as [-> |]; [| by apply Hf].
  by exists cdf.
Qed.

(** ** Elementary programs *)

Section Elements.
Context (al : allocator).

Definition w_symbol (symb : Z) (k : K) (nsymbs : Z) : writer (aom_writer * cdfs) unit :=
  fun '(w, fc) =>
    cdf ← fc k; '(w, cdf) ← aom_write_symbol al w symb cdf nsymbs; Some (tt, (w, cdf_set fc k cdf)).

Definition w_bit (bit : Z) : writer (aom_writer * cdfs) unit :=
  fun '(w, fc) => w ← aom_write_bit al w bit; Some (tt, (w, fc)).

Definition w_literal (data bits : Z) : writer (aom_writer * cdfs) unit :=
  fun '(w, fc) => w ← aom_write_literal al w data bits; Some (tt, (w, fc)).
End Elements.

Definition r_symbol (k : K) (nsymbs : Z) : reader (aom_reader * cdfs) Z := fun '(r, fc) =>
  match fc k with
  | None => Fault
  | Some cdf =>
      match aom_read_symbol cdf nsymbs r with
      | Ok ((v, cdf), r) => Ok (v, (r, cdf_set fc k cdf))
      | Raise e => Raise e
      | Fault => Fault
      end
  end.

(** A read that leaves the context alone. *)
Definition r_plain {A} (m : reader aom_reader A) : reader (aom_reader * cdfs) A := fun '(r, fc) =>
  match m r with
  | Ok (a, r) => Ok (a, (r, fc))
  | Raise e => Raise e
  | Fault => Fault
  end.

Definition r_bit : reader (aom_reader * cdfs) Z := r_plain aom_read_bit.
Definition r_literal (bits : Z) : reader (aom_reader * cdfs) Z := r_plain (aom_read_literal bits).

(** A program run on a tile writer or reader whose context is [fc]. *)
Definition wrun {B} (fc : cdfs) (m : writer (aom_writer * cdfs) B) (w : aom_writer)
  : option (aom_writer * (B * cdfs)) := '(b, (w, fc)) ← m (w, fc); Some (w, (b, fc)).

Definition rrun {A} (fc : cdfs) (k : reader (aom_reader * cdfs) A) : reader aom_reader (A * cdfs) :=
  fun r =>
    match k (r, fc) with
    | Ok (a, (r, fc)) => Ok ((a, fc), r)
    | Raise e => Raise e
    | Fault => Fault
    end.

(** ** Transfer of values

    [transfers N m k b a]: on any valid context, [m] writes at most [N] events and
    returns [b]; [k] reads exactly these events and returns [a]; both leave the same,
    valid context. *)
Section Transfers.
Context (al : allocator) (Hal : grants_all al) (adaptive : bool).

Definition transfers {B A} (N : Z) (m : writer (aom_writer * cdfs) B)
    (k : reader (aom_reader * cdfs) A) (b : B) (a : A) : Prop :=
  forall fc, fc_ok fc -> exists evs fc', fc_ok fc' /\ Z.of_nat (length evs) <= N /\
    writes al adaptive (wrun fc m) evs (b, fc') /\ reads adaptive (rrun fc k) evs (a, fc').

Lemma transfers_ret {B A} (b : B) (a : A) : transfers 0 (mret b) (mret a) b a.
Proof.
  intros fc Hfc. exists [], fc. split_and!; [done | simpl; lia | |].
  - intros w n _ Hr. by exists w.
  - intros bs r es Hp. by exists r.
Qed.

Lemma transfers_bind {B A B' A'} N1 N2 (m : writer _ B) (k : reader _ A) b a
    (m' : B -> writer _ B') (k' : A -> reader _ A') b' a' :
  transfers N1 m k b a -> transfers N2 (m' b) (k' a) b' a' ->
  transfers (N1 + N2) (m ≫= m') (k ≫= k') b' a'.
Proof.
  intros H1 H2 fc Hfc. destruct (H1 fc Hfc) as (e1 & fc1 & Hf1 & L1 & W1 & R1).
  destruct (H2 fc1 Hf1) as (e2 & fc2 & Hf2 & L2 & W2 & R2).
  exists (e1 ++ e2), fc2. split_and!; [done | rewrite length_app; lia | |].
  - intros w n Ha Hr. rewrite length_app, <- Nat.add_assoc in Hr.
    destruct (W1 w _ Ha Hr) as (w1 & E1 & S1 & Q1).
    destruct (W2 w1 n) as (w2 & E2 & S2 & Q2); [| done |].
    { destruct S1 as (_ & _ & _ & _ & _ & E). congruence. }
    exists w2. split; [| split; [by eapply w_sent_app | done]].
    revert E1 E2. unfold wrun, mbind, writer_bind, option_bind.
    destruct (m (w, fc)) as [[x [wx fx]]|]; [| done]. intros [= -> -> ->].
    destruct (m' b (w1, fc1)) as [[y [wy fy]]|]; [| done]. by intros [= -> -> ->].
  - intros bs r es Hp. rewrite <- app_assoc in Hp.
    destruct (R1 bs r _ Hp) as (r1 & E1 & P1). destruct (R2 bs r1 es P1) as (r2 & E2 & P2).
    exists r2. split; [| done]. revert E1 E2. unfold rrun, mbind, reader_bind.
    destruct (k (r, fc)) as [[x [rx fx]] | |]; [| done | done]. intros [= -> -> ->].
    destruct (k' a (r1, fc1)) as [[y [ry fy]] | |]; [| done | done]. by intros [= -> -> ->].
Qed.

(** A reader that computes with what it has read. *)
Lemma transfers_post {B A A'} N (m : writer _ B) (k : reader _ A) b a (f : A -> reader _ A') a' :
  transfers N m k b a -> (forall r, f a r = Ok (a', r)) -> transfers N m (k ≫= f) b a'.
Proof.
  intros Ht Hf fc Hfc. destruct (Ht fc Hfc) as (evs & fc' & ? & ? & ? & Hr).
  exists evs, fc'. split_and!; try done. intros bs r es Hp.
  destruct (Hr bs r es Hp) as (r' & E & Hp'). exists r'. split; [| done]. revert E.
  unfold rrun, mbind, reader_bind. destruct (k (r, fc)) as [[x [rx fx]] | |]; [| done | done].
  intros [= -> -> ->]. by rewrite Hf.
Qed.

Lemma transfers_post_w {B B' A} N (m : writer _ B) (k : reader _ A) b a (f : B -> writer _ B') b' :
  transfers N m k b a -> (forall w, f b w = Some (b', w)) -> transfers N (m ≫= f) k b' a.
Proof.
  intros Ht Hf fc Hfc. destruct (Ht fc Hfc) as (evs & fc' & ? & ? & Hw & ?).
  exists evs, fc'. split_and!; try done. intros w n Ha Hq.
  destruct (Hw w n Ha Hq) as (w' & E & Hw'). exists w'. split; [| done]. revert E.
  unfold wrun, mbind, writer_bind, option_bind. destruct (m (w, fc)) as [[x [wx fx]] |]; [| done].
  intros [= -> -> ->]. by rewrite Hf.
Qed.

Lemma transfers_le {B A} N N' (m : writer _ B) (k : reader _ A) b a :
  N <= N' -> transfers N m k b a -> transfers N' m k b a.
Proof.
  intros Hn Ht fc Hfc. destruct (Ht fc Hfc) as (evs & fc' & ? & ? & ? & ?).
  exists evs, fc'. split_and!; try done. lia.
Qed.

Lemma transfers_ext {B A} N (m m' : writer _ B) (k k' : reader _ A) b a :
  (forall w, m w = m' w) -> (forall r, k r = k' r) -> transfers N m k b a -> transfers N m' k' b a.
Proof.
  intros Em Ek Ht fc Hfc. destruct (Ht fc Hfc) as (evs & fc' & ? & ? & Hw & Hr).
  exists evs, fc'. split_and!; try done.
  - intros w n Ha Hq. destruct (Hw w n Ha Hq) as (w' & E & ?). exists w'. unfold wrun.
    rewrite <- Em. done.
  - intros bs r es Hp. destruct (Hr bs r es Hp) as (r' & E & ?). exists r'. unfold rrun.
    rewrite <- Ek. done.
Qed.

(** Sequences may be regrouped. *)
Lemma transfers_assoc_w {B0 B1 B A} N (m : writer _ B0) (f : B0 -> writer _ B1) (g : B1 -> writer _ B)
    (k : reader _ A) b a :
  transfers N ((m ≫= f) ≫= g) k b a -> transfers N (m ≫= (fun x => f x ≫= g)) k b a.
Proof.
  apply transfers_ext; [| done]. intros w. unfold mbind, writer_bind.
  by destruct (m w) as [[? ?]|].
Qed.

Lemma transfers_assoc_r {A0 A1 B A} N (m : writer _ B) (k : reader _ A0) (f : A0 -> reader _ A1)
    (g : A1 -> reader _ A) b a :
  transfers N m ((k ≫= f) ≫= g) b a -> transfers N m (k ≫= (fun x => f x ≫= g)) b a.
Proof.
  apply transfers_ext; [done |]. intros r. unfold mbind, reader_bind.
  by destruct (k r) as [[? ?] | |].
Qed.

Lemma transfers_regroup_r {A0 A1 B A} N (m : writer _ B) (k : reader _ A0) (f : A0 -> reader _ A1)
    (g : A1 -> reader _ A) b a :
  transfers N m (k ≫= (fun x => f x ≫= g)) b a -> transfers N m ((k ≫= f) ≫= g) b a.
Proof.
  apply transfers_ext; [done |]. intros r. unfold mbind, reader_bind.
  by destruct (k r) as [[? ?] | |].
Qed.

(** A writer that does nothing more. *)
Lemma transfers_tail_w {A} N (m : writer _ unit) (k : reader _ A) a :
  transfers N m k tt a -> transfers (N + 0) (m ≫= (fun _ => mret tt)) k tt a.
Proof.
  rewrite Z.add_0_r. apply transfers_ext; [| done]. intros w. unfold mbind, writer_bind.
  by destruct (m w) as [[[] ?]|].
Qed.

(** A reader that starts with a computation. *)
Lemma transfers_pre {B A A'} N (m : writer _ B) (k : reader _ A) b a (f : A -> reader _ A') a' :
  (forall r, k r = Ok (a, r)) -> transfers N m (f a) b a' -> transfers N m (k ≫= f) b a'.
Proof.
  intros Hk. apply transfers_ext; [done |]. intros r. unfold mbind, reader_bind. by rewrite Hk.
Qed.

Lemma transfers_symbol k v nsymbs : in_layout k = true -> nsymbs = alphabet k -> 0 <= v < nsymbs ->
  transfers 1 (w_symbol al v k nsymbs) (r_symbol k nsymbs) tt v.
Proof.
  intros Hk -> Hv fc Hfc. destruct (Hfc k Hk) as (cdf & Ek & Hc).
  destruct (write_symbol_step al Hal adaptive cdf (alphabet k) v Hc Hv) as (cdf' & Hc' & Hw & Hr).
  exists [SymCdf cdf (alphabet k) v], (cdf_set fc k cdf').
  split_and!; [by apply fc_ok_set | simpl; lia | |].
  - intros w n Ha Hq. destruct (Hw w n Ha Hq) as (w' & E & ?). exists w'. split; [| done].
    unfold wrun, w_symbol. rewrite Ek. cbn [mbind option_bind]. by rewrite E.
  - intros bs r es Hp. destruct (Hr bs r es Hp) as (r' & E & ?). exists r'. split; [| done].
    unfold rrun, r_symbol. by rewrite Ek, E.
Qed.

(** Programs made of plain bits only. *)
Lemma transfers_plain {A} N (m : aom_writer -> option aom_writer) (k : reader aom_reader A) bits a :
  emits (snk := aw_sink al) (snk_ok := aw_sink_ok al Hal) m bits ->
  (forall bs, takes (src_ok := ar_source_ok adaptive bs) k bits a) ->
  Z.of_nat (length bits) <= N ->
  transfers N (fun '(w, fc) => w ← m w; Some (tt, (w, fc))) (r_plain k) tt a.
Proof.
  intros He Ht Hn fc Hfc. exists (bit_symbol <$> bits), fc.
  split_and!; [done | by rewrite length_fmap | |].
  - intros w n Ha Hq. destruct (emits_writes al Hal adaptive m bits He w n Ha Hq) as (w' & E & ?).
    exists w'. split; [| done]. revert E. unfold wrun, void. cbn [mbind option_bind].
    destruct (m w) as [w1|]; [| done]. by intros [= ->].
  - intros bs r es Hp. destruct (takes_reads adaptive k bits a Ht bs r es Hp) as (r' & E & ?).
    exists r'. split; [| done]. unfold rrun, r_plain. by rewrite E.
Qed.

Lemma transfers_bit b : transfers 1 (w_bit al (b2z b)) r_bit tt (b2z b).
Proof.
  apply (transfers_plain 1 (fun w => aom_write_bit al w (b2z b)) aom_read_bit [b]).
  - apply (emits_put (snk := aw_sink al) (snk_ok := aw_sink_ok al Hal)).
  - intros bs. apply (takes_get (src := ar_source)).
  - simpl. lia.
Qed.

Lemma transfers_literal v bits : 0 <= bits <= 31 -> 0 <= v < 2 ^ bits ->
  transfers bits (w_literal al v bits) (r_literal bits) tt v.
Proof.
  intros Hb Hv.
  apply (transfers_plain bits (fun w => aom_write_literal al w v bits) (aom_read_literal bits)
           (lit_bits (Z.to_nat bits) v)).
  - apply emits_literal; lia.
  - intros bs. apply takes_literal; lia.
  - rewrite length_lit_bits. lia.
Qed.

(** What is transferred between [aom_start_encode] and [aom_stop_encode] survives. *)
Lemma transfers_survive {B A} N (m : writer _ B) (k : reader _ A) b a fc :
  transfers N m k b a -> fc_ok fc -> 15 * (N + 1) < 2 ^ 29 ->
  exists fc', fc_ok fc' /\
    tile_survives al adaptive (wrun fc m) (b, fc') (rrun fc k) (a, fc').
Proof.
  intros Ht Hfc HN. destruct (Ht fc Hfc) as (evs & fc' & Hf' & Hl & Hw & Hr).
  exists fc'. split; [done |]. eapply tile_link; try done. lia.
Qed.
End Transfers.
End FrameContext.

Arguments cdfs K : clear implicits.
