(* ===== verification/TileSafety.v ===== *)
(** * Reading arbitrary tile data

    The decoder must cope with any bytes.  [dec_safe] is an invariant of the range
    decoder on arbitrary data, under which every symbol it is asked for comes out in its
    alphabet; [safe] is a unary program logic for readers of syntax: whatever the data, a
    reader returns a value with the stated property or raises an error, and never leaves
    its tables. *)

From S2P Require Import Prelude CodecTypes BitChannel EntCoder RangeSpec Cdf EntEncProof EntDecProof EntRoundTrip SymbolIO SyntaxIO.

#[local] Arguments Z.of_nat : simpl never.
#[local] Arguments Z.mul : simpl never.

(** ** The range decoder *)

(** A window between symbols: unread bits are ones, and its value is below the range. *)
Record window_safe (buf : list Z) (bptr dif rng cnt : Z) : Prop := {
  ws_bptr : 0 <= bptr <= Z.of_nat (length buf);
  ws_dif : 0 <= dif < rng * 2 ^ 16;
  ws_low : bptr < Z.of_nat (length buf) -> cnt <= 16 /\ (dif + 1) mod 2 ^ (16 - cnt) = 0 }.

Record dec_safe (dec : od_ec_dec) : Prop := {
  ds_bytes : Forall is_byte (dec_buf dec);
  ds_rng : 32768 <= dec_rng dec < 65536;
  ds_cnt : 0 <= dec_cnt dec <= 16384;
  ds_window : window_safe (dec_buf dec) (dec_bptr dec) (dec_dif dec) (dec_rng dec) (dec_cnt dec) }.

Section Window.
Context (buf : list Z) (Hbytes : Forall is_byte buf).

Lemma refill_step_safe bptr dif rng cnt b : window_safe buf bptr dif rng cnt -> -15 <= cnt <= 8 ->
  buf !! Z.to_nat bptr = Some b ->
  window_safe buf (bptr + 1) (Z.lxor dif (u32 (Z.shiftl b (8 - cnt)))) rng (cnt + 8).
Proof.
  intros [Hp Hd Hl] Hc Hb. apply lookup_lt_Some in Hb as Hlt.
  assert (is_byte b) as Hby by (rewrite Forall_lookup in Hbytes; eauto). unfold is_byte in Hby.
  destruct (Hl ltac:(lia)) as [_ Hm]. set (s := 8 - cnt). replace (16 - cnt) with (s + 8) in Hm by lia.
  assert (2 ^ (s + 8) = 2 ^ s * 256) as Es by (apply pow2_split; lia).
  pose proof (pow2_pos s ltac:(lia)).
  assert (2 ^ s * 256 <= 2 ^ 31) by (rewrite <- Es; apply pow2_le; lia).
  rewrite Z.shiftl_mul_pow2 by lia. rewrite u32_small by nia.
  apply Z.mod_divide in Hm as [y Hy]; [| apply Z.pow_nonzero; lia].
  replace dif with ((y - 1) * 2 ^ (s + 8) + (2 ^ (s + 8) - 1)) by lia.
  rewrite lxor_ones by (rewrite ?Es; nia).
  replace ((y - 1) * 2 ^ (s + 8) + (2 ^ (s + 8) - 1) - b * 2 ^ s) with (dif - b * 2 ^ s) by lia.
  assert (1 <= y) by nia.
  split; [lia | nia |].
  intros _. split; [lia |]. replace (16 - (cnt + 8)) with s by lia.
  replace (dif - b * 2 ^ s + 1) with ((y * 256 - b) * 2 ^ s) by lia. apply Z.mod_mul. lia.
Qed.

Lemma refill_loop_safe fuel bptr dif rng cnt : window_safe buf bptr dif rng cnt -> -15 <= cnt <= 16 ->
  8 - cnt < 8 * Z.of_nat fuel ->
  exists bptr' dif' cnt', refill_loop fuel buf (8 - cnt) bptr dif cnt = (bptr', dif', cnt') /\
    window_safe buf bptr' dif' rng cnt' /\ -15 <= cnt' <= 16 /\ (bptr' < Z.of_nat (length buf) -> 9 <= cnt').
Proof.
  revert bptr dif cnt. induction fuel as [|fuel IH]; intros bptr dif cnt Hw Hcnt Hf; simpl.
  { exists bptr, dif, cnt. split_and!; done || lia. }
  destruct (Z.leb_spec 0 (8 - cnt)).
  - destruct (buf !! Z.to_nat bptr) as [b |] eqn:Eb.
    + rewrite s16_small by lia. replace (8 - cnt - 8) with (8 - (cnt + 8)) by lia.
      apply IH; [by apply refill_step_safe; [| lia |] | lia | lia].
    + exists bptr, dif, cnt. apply lookup_ge_None in Eb. destruct Hw. split_and!; done || lia.
  - exists bptr, dif, cnt. split_and!; done || lia.
Qed.
End Window.

Lemma refill_safe dec : Forall is_byte (dec_buf dec) -> 32768 <= dec_rng dec < 65536 ->
  -15 <= dec_cnt dec < 0 ->
  window_safe (dec_buf dec) (dec_bptr dec) (dec_dif dec) (dec_rng dec) (dec_cnt dec) ->
  dec_safe (od_ec_dec_refill dec) /\ dec_buf (od_ec_dec_refill dec) = dec_buf dec.
Proof.
  intros Hb Hr Hc Hw. unfold od_ec_dec_refill, OD_EC_WINDOW_SIZE, OD_EC_LOTS_OF_BITS.
  replace (32 - 9 - (dec_cnt dec + 15)) with (8 - dec_cnt dec) by lia.
  destruct (refill_loop_safe (dec_buf dec) Hb 5 _ _ _ _ Hw ltac:(lia) ltac:(lia))
    as (bptr & dif & cnt & -> & [Hp Hd Hl] & Hcnt & H9).
  destruct (Z.leb_spec (Z.of_nat (length (dec_buf dec))) bptr); (split; [| done]);
    (split; cbn; [done | done | lia | split; [lia | done |]]); [lia | done].
Qed.

Lemma normalize_safe dec dif rng ret : Forall is_byte (dec_buf dec) -> 1 <= rng < 65536 ->
  0 <= dec_cnt dec <= 16384 -> window_safe (dec_buf dec) (dec_bptr dec) dif rng (dec_cnt dec) ->
  exists dec', od_ec_dec_normalize dec dif rng ret = (ret, dec') /\ dec_safe dec' /\
    dec_buf dec' = dec_buf dec.
Proof.
  intros Hb Hr Hc [Hp Hd Hl]. destruct (renorm_ok rng Hr) as [Hdd Hrd]. unfold od_ec_dec_normalize.
  replace (16 - OD_ILOG_NZ rng) with (renorm rng) by (unfold OD_ILOG_NZ, get_msb, renorm; lia).
  set (d := renorm rng) in *. eexists. split; [done |].
  pose proof (pow2_pos d ltac:(lia)). change (2 ^ 16) with 65536 in *.
  assert (1 <= (dif + 1) * 2 ^ d <= rng * 2 ^ d * 65536) as Hsh.
  { split; [nia |]. replace (rng * 2 ^ d * 65536) with (rng * 65536 * 2 ^ d) by ring.
    apply Z.mul_le_mono_nonneg_r; lia. }
  rewrite (u32_small (dif + 1)), !Z.shiftl_mul_pow2 by lia.
  rewrite (u32_small ((dif + 1) * 2 ^ d)), u32_small, u16_small, s16_small by lia.
  assert (window_safe (dec_buf dec) (dec_bptr dec) ((dif + 1) * 2 ^ d - 1) (rng * 2 ^ d) (dec_cnt dec - d)) as Hw'.
  { split; [lia | change (2 ^ 16) with 65536; lia |]. intros Hlt. destruct (Hl Hlt) as (Hle & Hm). split; [lia |].
    replace ((dif + 1) * 2 ^ d - 1 + 1) with ((dif + 1) * 2 ^ d) by lia.
    apply Z.mod_divide in Hm as [y ->]; [| apply Z.pow_nonzero; lia].
    replace (16 - (dec_cnt dec - d)) with (16 - dec_cnt dec + d) by lia.
    rewrite <- Z.mul_assoc, <- pow2_split by lia. apply Z.mod_mul, Z.pow_nonzero; lia. }
  cbn [dec_cnt]. destruct (Z.ltb_spec (dec_cnt dec - d) 0).
  - match goal with |- dec_safe (od_ec_dec_refill ?x) /\ _ => apply (refill_safe x) end; simpl; done || lia.
  - split; [| done]. split; simpl; done || lia.
Qed.

Lemma od_ec_dec_init_safe buf : Forall is_byte buf -> dec_safe (od_ec_dec_init buf).
Proof.
  intros Hb. apply refill_safe; simpl; [done | lia | lia |].
  split; [lia | vm_compute; split; congruence | done].
Qed.

(** A symbol whose part of the range holds the window. *)
Lemma decode_symbol_safe dec sym u v : dec_safe dec -> sym_ok sym -> sym_bounds sym (dec_rng dec) = (u, v) ->
  v * 2 ^ 16 <= dec_dif dec < u * 2 ^ 16 ->
  exists dec', decode_symbol dec (sym_query sym) = Some (sym_val sym, dec') /\ dec_safe dec' /\
    dec_buf dec' = dec_buf dec.
Proof.
  intros [Hb Hr Hc [Hp Hd Hl]] Hok E Huv. destruct (sym_bounds_ok _ _ _ _ Hok Hr E) as (Hv & Hlt & Hu).
  rewrite (decode_symbol_normalize dec sym u v) by done.
  destruct (normalize_safe dec (dec_dif dec - v * 2 ^ 16) (u - v) (sym_val sym) Hb ltac:(lia) Hc)
    as (dec' & -> & Hs & Eb); [| by exists dec'].
  split; [done | lia |]. intros Hlb. destruct (Hl Hlb) as (Hle & Hm). split; [done |].
  assert (2 ^ 16 = 2 ^ dec_cnt dec * 2 ^ (16 - dec_cnt dec)) as Es
    by (rewrite <- pow2_split by lia; f_equal; lia).
  replace (dec_dif dec - v * 2 ^ 16 + 1)
    with (dec_dif dec + 1 + (- v * 2 ^ dec_cnt dec) * 2 ^ (16 - dec_cnt dec)) by (rewrite Es; ring).
  by rewrite Z.mod_add by (apply Z.pow_nonzero; lia).
Qed.

(** Some value of the alphabet is decoded, whatever the window holds. *)
Lemma cdf_value_exists icdf nsyms r c : icdf_ok icdf nsyms -> 32768 <= r < 65536 -> 0 <= c < r ->
  exists s, 0 <= s < nsyms /\ cdf_bound icdf nsyms r s <= c /\
    c < (if s =? 0 then r else cdf_bound icdf nsyms r (s - 1)).
Proof.
  intros Hok Hr Hc. destruct (Hok) as (Hn & _ & Hlast & _).
  assert (H : forall n, 0 <= Z.of_nat n < nsyms -> cdf_bound icdf nsyms r (Z.of_nat n) <= c ->
    exists s, 0 <= s <= Z.of_nat n /\ cdf_bound icdf nsyms r s <= c /\
      c < (if s =? 0 then r else cdf_bound icdf nsyms r (s - 1))).
  { induction n as [|n IH]; intros Hlt Hb; [exists 0; split_and!; simpl; (done || lia) |].
    destruct (Z_lt_le_dec c (cdf_bound icdf nsyms r (Z.of_nat n))) as [Hgt | Hle].
    - exists (Z.of_nat (S n)). split_and!; [lia .. | done |]. rewrite (proj2 (Z.eqb_neq _ _)) by lia.
      by replace (Z.of_nat (S n) - 1) with (Z.of_nat n) by lia.
    - destruct (IH ltac:(lia) Hle) as (s & ? & ? & ?). exists s. split_and!; done || lia. }
  destruct (H (Z.to_nat (nsyms - 1))) as (s & ? & ? & ?); [lia | | exists s; split_and!; done || lia].
  rewrite Z2Nat.id by lia. unfold cdf_bound. rewrite Hlast. change (0 / 64) with 0.
  rewrite Z.mul_0_r. change (0 / 2) with 0. lia.
Qed.

Lemma window_top dif u v : 0 <= v -> v <= Z.shiftr dif 16 < u -> v * 2 ^ 16 <= dif < u * 2 ^ 16.
Proof. rewrite Z.shiftr_div_pow2 by lia. change (2 ^ 16) with 65536. intros. dlia. Qed.

Lemma decode_cdf_safe dec icdf nsyms : dec_safe dec -> icdf_ok icdf nsyms ->
  exists s dec', od_ec_decode_cdf_q15 dec icdf nsyms = Some (s, dec') /\ 0 <= s < nsyms /\ dec_safe dec' /\
    dec_buf dec' = dec_buf dec.
Proof.
  intros Hs Hok. destruct (Hs) as [Hb Hr Hc [Hp Hd Hl]].
  pose proof (shiftr16_bounds (dec_dif dec) (dec_rng dec) 0 ltac:(lia)) as Hw.
  destruct (cdf_value_exists icdf nsyms (dec_rng dec) (Z.shiftr (dec_dif dec) 16) Hok Hr Hw)
    as (s & Hsn & Hlo & Hhi).
  pose proof (cdf_bound_range icdf nsyms (dec_rng dec) s Hok Hr Hsn).
  destruct (decode_symbol_safe dec (SymCdf icdf nsyms s) _ _ Hs (conj Hok Hsn) eq_refl) as (dec' & E & Hs' & Eb).
  - apply window_top; [lia | done].
  - exists s, dec'. split_and!; [exact E | lia | lia | done | done].
Qed.

Lemma decode_bool_safe dec f : dec_safe dec -> 0 < f < CDF_PROB_TOP ->
  exists b dec', od_ec_decode_bool_q15 dec f = (b2z b, dec') /\ dec_safe dec' /\ dec_buf dec' = dec_buf dec.
Proof.
  intros Hs Hf. destruct (Hs) as [Hb Hr Hc [Hp Hd Hl]].
  pose proof (shiftr16_bounds (dec_dif dec) (dec_rng dec) 0 ltac:(lia)) as Hw.
  destruct (sym_bounds_ok (SymBool f true) (dec_rng dec) _ _ Hf Hr eq_refl) as (H1 & H2 & H3).
  destruct (Z_lt_le_dec (Z.shiftr (dec_dif dec) 16) (bool_bound f (dec_rng dec))).
  - destruct (decode_symbol_safe dec (SymBool f true) _ _ Hs Hf eq_refl) as (dec' & E & Hs' & Eb).
    { apply window_top; lia. }
    exists true, dec'. split_and!; try done. by injection E.
  - destruct (decode_symbol_safe dec (SymBool f false) _ _ Hs Hf eq_refl) as (dec' & E & Hs' & Eb).
    { apply window_top; lia. }
    exists false, dec'. split_and!; try done. by injection E.
Qed.

(** ** Readers of syntax *)

Definition r_safe (r : aom_reader) : Prop := dec_safe (r_ec r).

Lemma reader_init_safe r bs size : Forall is_byte bs -> r_safe (aom_reader_init r (Some bs) size).2.
Proof. intros Hb. apply od_ec_dec_init_safe. by apply Forall_take. Qed.

Lemma read_bit_safe r : r_safe r -> exists b r', aom_read_bit r = Ok (b2z b, r') /\ r_safe r'.
Proof.
  intros Hr. unfold aom_read_bit, aom_read.
  destruct (decode_bool_safe (r_ec r) (prob_q15 128) Hr) as (b & ec & -> & Hs & _); [vm_compute; split; congruence |].
  by eexists b, _.
Qed.

Lemma read_literal_loop_safe n x r : r_safe r ->
  exists v r', read_literal_loop n (x * 2 ^ Z.of_nat n) r = Ok (v, r') /\
    x * 2 ^ Z.of_nat n <= v < (x + 1) * 2 ^ Z.of_nat n /\ r_safe r'.
Proof.
  revert x r. induction n as [|n IH]; intros x r Hr; cbn [read_literal_loop].
  - exists (x * 2 ^ Z.of_nat 0), r. split; [done |]. change (2 ^ Z.of_nat 0) with 1. split; [lia | done].
  - destruct (read_bit_safe r Hr) as (b & r1 & E & Hr1). unfold mbind, reader_bind, get_bit, ar_source.
    rewrite E. replace (Z.of_nat (S n)) with (Z.of_nat n + 1) by lia. rewrite lor_bit by lia.
    destruct (IH (2 * x + b2z b) r1 Hr1) as (v & r2 & E2 & Hv & Hr2). exists v, r2. split; [done |].
    split; [| done]. rewrite Z.pow_add_r, Z.pow_1_r by lia. pose proof (pow2_pos (Z.of_nat n) ltac:(lia)).
    destruct b; cbn [b2z] in *; lia.
Qed.

Section Safe.
Context {K : Type} `{CdfLayout K}.

(** On any data and any valid context, [k] reports a corrupt frame or returns a value with [P],
    and leaves a valid context; it never leaves its tables. *)
Definition safe {A} (P : A -> Prop) (k : reader (aom_reader * cdfs K) A) : Prop :=
  forall r fc, r_safe r -> fc_ok fc ->
    match k (r, fc) with
    | Ok (a, (r', fc')) => r_safe r' /\ fc_ok fc' /\ P a
    | Raise e => e = AOM_CODEC_CORRUPT_FRAME
    | Fault => False
    end.

Lemma safe_ret {A} (P : A -> Prop) a : P a -> safe P (mret a).
Proof. by intros Hp r fc Hr Hf. Qed.

Lemma safe_bind {A B} (P : A -> Prop) (Q : B -> Prop) k f :
  safe P k -> (forall a, P a -> safe Q (f a)) -> safe Q (k ≫= f).
Proof.
  intros Hk Hf r fc Hr Hfc. specialize (Hk r fc Hr Hfc). unfold mbind, reader_bind.
  destruct (k (r, fc)) as [[a [r' fc']] | |]; [| done | done]. destruct Hk as (? & ? & ?). by apply Hf.
Qed.

Lemma safe_weaken {A} (P Q : A -> Prop) k : (forall a, P a -> Q a) -> safe P k -> safe Q k.
Proof.
  intros Hi Hk r fc Hr Hfc. specialize (Hk r fc Hr Hfc).
  destruct (k (r, fc)) as [[a [r' fc']] | |]; [| done | done].
  destruct Hk as (? & ? & Hp). auto.
Qed.

Lemma safe_raise {A} (P : A -> Prop) : safe P (raise AOM_CODEC_CORRUPT_FRAME).
Proof. by intros r fc Hr Hf. Qed.

Lemma safe_lift {A} (P : A -> Prop) o a : o = Some a -> P a -> safe P (r_lift o).
Proof. intros -> Hp r fc Hr Hf. done. Qed.

Lemma safe_symbol k nsymbs : in_layout k = true -> nsymbs = alphabet k ->
  safe (fun v => 0 <= v < nsymbs) (r_symbol k nsymbs).
Proof.
  intros Hk -> r fc Hr Hfc. destruct (Hfc k Hk) as (cdf & Ek & Hc). unfold r_symbol, aom_read_symbol, aom_read_cdf.
  rewrite Ek. destruct (decode_cdf_safe (r_ec r) cdf (alphabet k) Hr ltac:(apply Hc)) as (s & ec & -> & Hs & He & _).
  cbn [r_allow_update_cdf set_r_ec]. destruct (r_allow_update_cdf r).
  - destruct (update_cdf_ok cdf (swrap 8 s) (alphabet k) Hc) as (cdf' & -> & Hc').
    split_and!; try done; [by apply fc_ok_set | lia ..].
  - split_and!; try done; [by apply fc_ok_set | lia ..].
Qed.

Lemma safe_bit : safe (fun v => v = 0 \/ v = 1) (r_bit (K := K)).
Proof.
  intros r fc Hr Hfc. unfold r_bit, r_plain. destruct (read_bit_safe r Hr) as (b & r' & -> & Hr').
  split_and!; try done. destruct b; auto.
Qed.

Lemma safe_literal bits : 0 <= bits -> safe (fun v => 0 <= v < 2 ^ bits) (r_literal (K := K) bits).
Proof.
  intros Hb r fc Hr Hfc. unfold r_literal, r_plain, aom_read_literal, read_literal.
  destruct (read_literal_loop_safe (Z.to_nat bits) 0 r Hr) as (v & r' & E & Hv & Hr').
  rewrite Z.mul_0_l, Z2Nat.id in * by lia. rewrite E. split_and!; try done; lia.
Qed.

(** A safe program run on a tile of any bytes. *)
Lemma safe_tile {A} (P : A -> Prop) (k : reader (aom_reader * cdfs K) A) bytes size r0 fc :
  safe P k -> Forall is_byte bytes -> fc_ok fc ->
  match rrun fc k (aom_reader_init r0 (Some bytes) size).2 with
  | Ok ((a, fc'), _) => P a /\ fc_ok fc'
  | Raise e => e = AOM_CODEC_CORRUPT_FRAME
  | Fault => False
  end.
Proof.
  intros Hk Hb Hfc. pose proof (Hk _ fc (reader_init_safe r0 bytes size Hb) Hfc) as Hs.
  unfold rrun. destruct (k _) as [[a [r fc']] | e |]; [| exact Hs | exact Hs]. destruct Hs as (_ & ? & ?). done.
Qed.
End Safe.
