(* ===== verification/TxCommon.v ===== *)
(** * Transform blocks: sizes, classes and coefficient contexts

    The tables of [av1/common/common_data.h] that describe transform sizes, and
    [av1/common/txb_common.h], [av1/common/txb_common.c]: how the context of a
    coefficient follows from the magnitudes of its neighbours.  A table indexed by an
    enumeration is a function on it; a table indexed by an integer is a list, and reading
    outside it is [None].  Coefficients are stored column by column: position [idx] is
    column [idx >> bhl] and row [idx & ((1 << bhl) - 1)]. *)

From S2P Require Import Prelude.

#[local] Arguments Z.of_nat : simpl never.
#[local] Arguments Z.mul : simpl never.

Inductive TX_SIZE :=
| TX_4X4 | TX_8X8 | TX_16X16 | TX_32X32 | TX_64X64 | TX_4X8 | TX_8X4 | TX_8X16 | TX_16X8
| TX_16X32 | TX_32X16 | TX_32X64 | TX_64X32 | TX_4X16 | TX_16X4 | TX_8X32 | TX_32X8 | TX_16X64
| TX_64X16.

Inductive TX_TYPE :=
| DCT_DCT | ADST_DCT | DCT_ADST | ADST_ADST | FLIPADST_DCT | DCT_FLIPADST | FLIPADST_FLIPADST
| ADST_FLIPADST | FLIPADST_ADST | IDTX | V_DCT | H_DCT | V_ADST | H_ADST | V_FLIPADST
| H_FLIPADST.

Inductive TX_CLASS := TX_CLASS_2D | TX_CLASS_HORIZ | TX_CLASS_VERT.

Inductive BLOCK_SIZE :=
| BLOCK_4X4 | BLOCK_4X8 | BLOCK_8X4 | BLOCK_8X8 | BLOCK_8X16 | BLOCK_16X8 | BLOCK_16X16
| BLOCK_16X32 | BLOCK_32X16 | BLOCK_32X32 | BLOCK_32X64 | BLOCK_64X32 | BLOCK_64X64
| BLOCK_64X128 | BLOCK_128X64 | BLOCK_128X128 | BLOCK_4X16 | BLOCK_16X4 | BLOCK_8X32
| BLOCK_32X8 | BLOCK_16X64 | BLOCK_64X16.

Definition tx_size_wide (tx_size : TX_SIZE) : Z :=
  match tx_size with
  | TX_4X4 | TX_4X8 | TX_4X16 => 4
  | TX_8X8 | TX_8X4 | TX_8X16 | TX_8X32 => 8
  | TX_16X16 | TX_16X8 | TX_16X32 | TX_16X4 | TX_16X64 => 16
  | TX_32X32 | TX_32X16 | TX_32X64 | TX_32X8 => 32
  | TX_64X64 | TX_64X32 | TX_64X16 => 64
  end.

Definition tx_size_high (tx_size : TX_SIZE) : Z :=
  match tx_size with
  | TX_4X4 | TX_8X4 | TX_16X4 => 4
  | TX_8X8 | TX_4X8 | TX_16X8 | TX_32X8 => 8
  | TX_16X16 | TX_8X16 | TX_32X16 | TX_4X16 | TX_64X16 => 16
  | TX_32X32 | TX_16X32 | TX_64X32 | TX_8X32 => 32
  | TX_64X64 | TX_32X64 | TX_16X64 => 64
  end.

Definition tx_size_wide_unit (tx_size : TX_SIZE) : Z :=
  match tx_size with
  | TX_4X4 | TX_4X8 | TX_4X16 => 1
  | TX_8X8 | TX_8X4 | TX_8X16 | TX_8X32 => 2
  | TX_16X16 | TX_16X8 | TX_16X32 | TX_16X4 | TX_16X64 => 4
  | TX_32X32 | TX_32X16 | TX_32X64 | TX_32X8 => 8
  | TX_64X64 | TX_64X32 | TX_64X16 => 16
  end.

Definition tx_size_high_unit (tx_size : TX_SIZE) : Z :=
  match tx_size with
  | TX_4X4 | TX_8X4 | TX_16X4 => 1
  | TX_8X8 | TX_4X8 | TX_16X8 | TX_32X8 => 2
  | TX_16X16 | TX_8X16 | TX_32X16 | TX_4X16 | TX_64X16 => 4
  | TX_32X32 | TX_16X32 | TX_64X32 | TX_8X32 => 8
  | TX_64X64 | TX_32X64 | TX_16X64 => 16
  end.

Definition tx_size_high_log2 (tx_size : TX_SIZE) : Z :=
  match tx_size with
  | TX_4X4 | TX_8X4 | TX_16X4 => 2
  | TX_8X8 | TX_4X8 | TX_16X8 | TX_32X8 => 3
  | TX_16X16 | TX_8X16 | TX_32X16 | TX_4X16 | TX_64X16 => 4
  | TX_32X32 | TX_16X32 | TX_64X32 | TX_8X32 => 5
  | TX_64X64 | TX_32X64 | TX_16X64 => 6
  end.

Definition txsize_sqr_map (tx_size : TX_SIZE) : TX_SIZE :=
  match tx_size with
  | TX_4X4 | TX_4X8 | TX_8X4 | TX_4X16 | TX_16X4 => TX_4X4
  | TX_8X8 | TX_8X16 | TX_16X8 | TX_8X32 | TX_32X8 => TX_8X8
  | TX_16X16 | TX_16X32 | TX_32X16 | TX_16X64 | TX_64X16 => TX_16X16
  | TX_32X32 | TX_32X64 | TX_64X32 => TX_32X32
  | TX_64X64 => TX_64X64
  end.

Definition txsize_sqr_up_map (tx_size : TX_SIZE) : TX_SIZE :=
  match tx_size with
  | TX_4X4 => TX_4X4
  | TX_8X8 | TX_4X8 | TX_8X4 => TX_8X8
  | TX_16X16 | TX_8X16 | TX_16X8 | TX_4X16 | TX_16X4 => TX_16X16
  | TX_32X32 | TX_16X32 | TX_32X16 | TX_8X32 | TX_32X8 => TX_32X32
  | TX_64X64 | TX_32X64 | TX_64X32 | TX_16X64 | TX_64X16 => TX_64X64
  end.

Definition txsize_log2_minus4 (tx_size : TX_SIZE) : Z :=
  match tx_size with
  | TX_4X4 => 0
  | TX_8X8 | TX_4X16 | TX_16X4 => 2
  | TX_16X16 | TX_8X32 | TX_32X8 => 4
  | TX_32X32 | TX_64X64 | TX_32X64 | TX_64X32 => 6
  | TX_4X8 | TX_8X4 => 1
  | TX_8X16 | TX_16X8 => 3
  | TX_16X32 | TX_32X16 | TX_16X64 | TX_64X16 => 5
  end.

Definition txsize_to_bsize (tx_size : TX_SIZE) : BLOCK_SIZE :=
  match tx_size with
  | TX_4X4 => BLOCK_4X4
  | TX_8X8 => BLOCK_8X8
  | TX_16X16 => BLOCK_16X16
  | TX_32X32 => BLOCK_32X32
  | TX_64X64 => BLOCK_64X64
  | TX_4X8 => BLOCK_4X8
  | TX_8X4 => BLOCK_8X4
  | TX_8X16 => BLOCK_8X16
  | TX_16X8 => BLOCK_16X8
  | TX_16X32 => BLOCK_16X32
  | TX_32X16 => BLOCK_32X16
  | TX_32X64 => BLOCK_32X64
  | TX_64X32 => BLOCK_64X32
  | TX_4X16 => BLOCK_4X16
  | TX_16X4 => BLOCK_16X4
  | TX_8X32 => BLOCK_8X32
  | TX_32X8 => BLOCK_32X8
  | TX_16X64 => BLOCK_16X64
  | TX_64X16 => BLOCK_64X16
  end.

Definition num_pels_log2_lookup (bsize : BLOCK_SIZE) : Z :=
  match bsize with
  | BLOCK_4X4 => 4
  | BLOCK_4X8 | BLOCK_8X4 => 5
  | BLOCK_8X8 | BLOCK_4X16 | BLOCK_16X4 => 6
  | BLOCK_8X16 | BLOCK_16X8 => 7
  | BLOCK_16X16 | BLOCK_8X32 | BLOCK_32X8 => 8
  | BLOCK_16X32 | BLOCK_32X16 => 9
  | BLOCK_32X32 | BLOCK_16X64 | BLOCK_64X16 => 10
  | BLOCK_32X64 | BLOCK_64X32 => 11
  | BLOCK_64X64 => 12
  | BLOCK_64X128 | BLOCK_128X64 => 13
  | BLOCK_128X128 => 14
  end.

(** [clamp] of [aom_dsp/aom_dsp_common.h]. *)
Definition clamp (value low high : Z) : Z :=
  if value <? low then low else if high <? value then high else value.

Definition tx_type_to_class (tx_type : TX_TYPE) : TX_CLASS :=
  match tx_type with
  | DCT_DCT | ADST_DCT | DCT_ADST | ADST_ADST | FLIPADST_DCT | DCT_FLIPADST
  | FLIPADST_FLIPADST | ADST_FLIPADST | FLIPADST_ADST | IDTX => TX_CLASS_2D
  | V_DCT | V_ADST | V_FLIPADST => TX_CLASS_VERT
  | H_DCT | H_ADST | H_FLIPADST => TX_CLASS_HORIZ
  end.

#[export] Instance TX_SIZE_eq_dec : EqDecision TX_SIZE.
Proof. solve_decision. Defined.
#[export] Instance TX_TYPE_eq_dec : EqDecision TX_TYPE.
Proof. solve_decision. Defined.
#[export] Instance TX_CLASS_eq_dec : EqDecision TX_CLASS.
Proof. solve_decision. Defined.
#[export] Instance BLOCK_SIZE_eq_dec : EqDecision BLOCK_SIZE.
Proof. solve_decision. Defined.

Definition TX_SIZES_ALL : list TX_SIZE :=
  [TX_4X4; TX_8X8; TX_16X16; TX_32X32; TX_64X64; TX_4X8; TX_8X4; TX_8X16; TX_16X8; TX_16X32;
   TX_32X16; TX_32X64; TX_64X32; TX_4X16; TX_16X4; TX_8X32; TX_32X8; TX_16X64; TX_64X16].

Definition TX_TYPES : list TX_TYPE :=
  [DCT_DCT; ADST_DCT; DCT_ADST; ADST_ADST; FLIPADST_DCT; DCT_FLIPADST; FLIPADST_FLIPADST;
   ADST_FLIPADST; FLIPADST_ADST; IDTX; V_DCT; H_DCT; V_ADST; H_ADST; V_FLIPADST; H_FLIPADST].

(** The value of an enumerator: its place in the list. *)
Definition enum_value {A} `{EqDecision A} (l : list A) (x : A) : Z :=
  match list_find (x =.) l with Some (i, _) => Z.of_nat i | None => -1 end.

Definition tx_size_value : TX_SIZE -> Z := enum_value TX_SIZES_ALL.
Definition tx_type_value : TX_TYPE -> Z := enum_value TX_TYPES.

(** ** Constants *)

Definition TX_PAD_HOR_LOG2 : Z := 2.
Definition TX_PAD_HOR : Z := 4.
Definition TX_PAD_TOP : Z := 0.
Definition TX_PAD_BOTTOM : Z := 4.
Definition TX_PAD_VER : Z := TX_PAD_TOP + TX_PAD_BOTTOM.
Definition TX_PAD_END : Z := 16.
Definition TX_PAD_2D : Z := (32 + TX_PAD_HOR) * (32 + TX_PAD_VER) + TX_PAD_END.

Definition NUM_BASE_LEVELS : Z := 2.
Definition BR_CDF_SIZE : Z := 4.
Definition COEFF_BASE_RANGE : Z := 4 * (BR_CDF_SIZE - 1).
Definition MAX_BASE_BR_RANGE : Z := COEFF_BASE_RANGE + NUM_BASE_LEVELS + 1.
Definition COEFF_CONTEXT_BITS : Z := 3.
Definition COEFF_CONTEXT_MASK : Z := Z.shiftl 1 COEFF_CONTEXT_BITS - 1.
Definition TXB_SKIP_CONTEXTS : Z := 13.
Definition DC_SIGN_CONTEXTS : Z := 3.
Definition SIG_COEF_CONTEXTS_2D : Z := 26.

(** ** Tables of [txb_common.c] *)

Definition av1_nz_map_ctx_offset_4x4 : list Z :=
  [0; 1; 6; 6; 1; 6; 6; 21; 6; 6; 21; 21; 6; 21; 21; 21].

Definition av1_nz_map_ctx_offset_8x8 : list Z :=
  [0; 1; 6; 6; 21; 21; 21; 21; 1; 6; 6; 21; 21; 21; 21; 21; 6; 6; 21; 21; 21; 21; 21; 21; 6; 21;
   21; 21; 21; 21; 21; 21; 21; 21; 21; 21; 21; 21; 21; 21; 21; 21; 21; 21; 21; 21; 21; 21; 21;
   21; 21; 21; 21; 21; 21; 21; 21; 21; 21; 21; 21; 21; 21; 21].

Definition av1_nz_map_ctx_offset_16x16 : list Z :=
  [0; 1; 6; 6; 21; 21; 21; 21; 21; 21; 21; 21; 21; 21; 21; 21; 1; 6; 6; 21; 21; 21; 21; 21; 21;
   21; 21; 21; 21; 21; 21; 21; 6; 6; 21; 21; 21; 21; 21; 21; 21; 21; 21; 21; 21; 21; 21; 21; 6;
   21; 21; 21; 21; 21; 21; 21; 21; 21; 21; 21; 21; 21; 21; 21; 21; 21; 21; 21; 21; 21; 21; 21;
   21; 21; 21; 21; 21; 21; 21; 21; 21; 21; 21; 21; 21; 21; 21; 21; 21; 21; 21; 21; 21; 21; 21;
   21; 21; 21; 21; 21; 21; 21; 21; 21; 21; 21; 21; 21; 21; 21; 21; 21; 21; 21; 21; 21; 21; 21;
   21; 21; 21; 21; 21; 21; 21; 21; 21; 21; 21; 21; 21; 21; 21; 21; 21; 21; 21; 21; 21; 21; 21;
   21; 21; 21; 21; 21; 21; 21; 21; 21; 21; 21; 21; 21; 21; 21; 21; 21; 21; 21; 21; 21; 21; 21;
   21; 21; 21; 21; 21; 21; 21; 21; 21; 21; 21; 21; 21; 21; 21; 21; 21; 21; 21; 21; 21; 21; 21;
   21; 21; 21; 21; 21; 21; 21; 21; 21; 21; 21; 21; 21; 21; 21; 21; 21; 21; 21; 21; 21; 21; 21;
   21; 21; 21; 21; 21; 21; 21; 21; 21; 21; 21; 21; 21; 21; 21; 21; 21; 21; 21; 21; 21; 21; 21;
   21; 21; 21; 21; 21; 21; 21; 21; 21; 21; 21; 21; 21; 21; 21; 21; 21; 21; 21; 21; 21; 21; 21].

Definition av1_nz_map_ctx_offset_32x32 : list Z :=
  [0; 1; 6; 6; 21; 21; 21; 21; 21; 21; 21; 21; 21; 21; 21; 21; 21; 21; 21; 21; 21; 21; 21; 21;
   21; 21; 21; 21; 21; 21; 21; 21; 1; 6; 6; 21; 21; 21; 21; 21; 21; 21; 21; 21; 21; 21; 21; 21;
   21; 21; 21; 21; 21; 21; 21; 21; 21; 21; 21; 21; 21; 21; 21; 21; 6; 6; 21; 21; 21; 21; 21; 21;
   21; 21; 21; 21; 21; 21; 21; 21; 21; 21; 21; 21; 21; 21; 21; 21; 21; 21; 21; 21; 21; 21; 21;
   21; 6; 21; 21; 21; 21; 21; 21; 21; 21; 21; 21; 21; 21; 21; 21; 21; 21; 21; 21; 21; 21; 21;
   21; 21; 21; 21; 21; 21; 21; 21; 21; 21; 21; 21; 21; 21; 21; 21; 21; 21; 21; 21; 21; 21; 21;
   21; 21; 21; 21; 21; 21; 21; 21; 21; 21; 21; 21; 21; 21; 21; 21; 21; 21; 21; 21; 21; 21; 21;
   21; 21; 21; 21; 21; 21; 21; 21; 21; 21; 21; 21; 21; 21; 21; 21; 21; 21; 21; 21; 21; 21; 21;
   21; 21; 21; 21; 21; 21; 21; 21; 21; 21; 21; 21; 21; 21; 21; 21; 21; 21; 21; 21; 21; 21; 21;
   21; 21; 21; 21; 21; 21; 21; 21; 21; 21; 21; 21; 21; 21; 21; 21; 21; 21; 21; 21; 21; 21; 21;
   21; 21; 21; 21; 21; 21; 21; 21; 21; 21; 21; 21; 21; 21; 21; 21; 21; 21; 21; 21; 21; 21; 21;
   21; 21; 21; 21; 21; 21; 21; 21; 21; 21; 21; 21; 21; 21; 21; 21; 21; 21; 21; 21; 21; 21; 21;
   21; 21; 21; 21; 21; 21; 21; 21; 21; 21; 21; 21; 21; 21; 21; 21; 21; 21; 21; 21; 21; 21; 21;
   21; 21; 21; 21; 21; 21; 21; 21; 21; 21; 21; 21; 21; 21; 21; 21; 21; 21; 21; 21; 21; 21; 21;
   21; 21; 21; 21; 21; 21; 21; 21; 21; 21; 21; 21; 21; 21; 21; 21; 21; 21; 21; 21; 21; 21; 21;
   21; 21; 21; 21; 21; 21; 21; 21; 21; 21; 21; 21; 21; 21; 21; 21; 21; 21; 21; 21; 21; 21; 21;
   21; 21; 21; 21; 21; 21; 21; 21; 21; 21; 21; 21; 21; 21; 21; 21; 21; 21; 21; 21; 21; 21; 21;
   21; 21; 21; 21; 21; 21; 21; 21; 21; 21; 21; 21; 21; 21; 21; 21; 21; 21; 21; 21; 21; 21; 21;
   21; 21; 21; 21; 21; 21; 21; 21; 21; 21; 21; 21; 21; 21; 21; 21; 21; 21; 21; 21; 21; 21; 21;
   21; 21; 21; 21; 21; 21; 21; 21; 21; 21; 21; 21; 21; 21; 21; 21; 21; 21; 21; 21; 21; 21; 21;
   21; 21; 21; 21; 21; 21; 21; 21; 21; 21; 21; 21; 21; 21; 21; 21; 21; 21; 21; 21; 21; 21; 21;
   21; 21; 21; 21; 21; 21; 21; 21; 21; 21; 21; 21; 21; 21; 21; 21; 21; 21; 21; 21; 21; 21; 21;
   21; 21; 21; 21; 21; 21; 21; 21; 21; 21; 21; 21; 21; 21; 21; 21; 21; 21; 21; 21; 21; 21; 21;
   21; 21; 21; 21; 21; 21; 21; 21; 21; 21; 21; 21; 21; 21; 21; 21; 21; 21; 21; 21; 21; 21; 21;
   21; 21; 21; 21; 21; 21; 21; 21; 21; 21; 21; 21; 21; 21; 21; 21; 21; 21; 21; 21; 21; 21; 21;
   21; 21; 21; 21; 21; 21; 21; 21; 21; 21; 21; 21; 21; 21; 21; 21; 21; 21; 21; 21; 21; 21; 21;
   21; 21; 21; 21; 21; 21; 21; 21; 21; 21; 21; 21; 21; 21; 21; 21; 21; 21; 21; 21; 21; 21; 21;
   21; 21; 21; 21; 21; 21; 21; 21; 21; 21; 21; 21; 21; 21; 21; 21; 21; 21; 21; 21; 21; 21; 21;
   21; 21; 21; 21; 21; 21; 21; 21; 21; 21; 21; 21; 21; 21; 21; 21; 21; 21; 21; 21; 21; 21; 21;
   21; 21; 21; 21; 21; 21; 21; 21; 21; 21; 21; 21; 21; 21; 21; 21; 21; 21; 21; 21; 21; 21; 21;
   21; 21; 21; 21; 21; 21; 21; 21; 21; 21; 21; 21; 21; 21; 21; 21; 21; 21; 21; 21; 21; 21; 21;
   21; 21; 21; 21; 21; 21; 21; 21; 21; 21; 21; 21; 21; 21; 21; 21; 21; 21; 21; 21; 21; 21; 21;
   21; 21; 21; 21; 21; 21; 21; 21; 21; 21; 21; 21; 21; 21; 21; 21; 21; 21; 21; 21; 21; 21; 21;
   21; 21; 21; 21; 21; 21; 21; 21; 21; 21; 21; 21; 21; 21; 21; 21; 21; 21; 21; 21; 21; 21; 21;
   21; 21; 21; 21; 21; 21; 21; 21; 21; 21; 21; 21; 21; 21; 21; 21; 21; 21; 21; 21; 21; 21; 21;
   21; 21; 21; 21; 21; 21; 21; 21; 21; 21; 21; 21; 21; 21; 21; 21; 21; 21; 21; 21; 21; 21; 21;
   21; 21; 21; 21; 21; 21; 21; 21; 21; 21; 21; 21; 21; 21; 21; 21; 21; 21; 21; 21; 21; 21; 21;
   21; 21; 21; 21; 21; 21; 21; 21; 21; 21; 21; 21; 21; 21; 21; 21; 21; 21; 21; 21; 21; 21; 21;
   21; 21; 21; 21; 21; 21; 21; 21; 21; 21; 21; 21; 21; 21; 21; 21; 21; 21; 21; 21; 21; 21; 21;
   21; 21; 21; 21; 21; 21; 21; 21; 21; 21; 21; 21; 21; 21; 21; 21; 21; 21; 21; 21; 21; 21; 21;
   21; 21; 21; 21; 21; 21; 21; 21; 21; 21; 21; 21; 21; 21; 21; 21; 21; 21; 21; 21; 21; 21; 21;
   21; 21; 21; 21; 21; 21; 21; 21; 21; 21; 21; 21; 21; 21; 21; 21; 21; 21; 21; 21; 21; 21; 21;
   21; 21; 21; 21; 21; 21; 21; 21; 21; 21; 21; 21; 21; 21; 21; 21; 21; 21; 21; 21; 21; 21; 21;
   21; 21; 21; 21; 21; 21; 21; 21; 21; 21; 21; 21; 21; 21; 21; 21; 21; 21; 21; 21; 21; 21; 21;
   21; 21; 21; 21; 21; 21; 21; 21; 21].

Definition av1_nz_map_ctx_offset_4x8 : list Z :=
  [0; 11; 6; 6; 21; 21; 21; 21; 11; 11; 6; 21; 21; 21; 21; 21; 11; 11; 21; 21; 21; 21; 21; 21;
   11; 11; 21; 21; 21; 21; 21; 21].

Definition av1_nz_map_ctx_offset_8x16 : list Z :=
  [0; 11; 6; 6; 21; 21; 21; 21; 21; 21; 21; 21; 21; 21; 21; 21; 11; 11; 6; 21; 21; 21; 21; 21;
   21; 21; 21; 21; 21; 21; 21; 21; 11; 11; 21; 21; 21; 21; 21; 21; 21; 21; 21; 21; 21; 21; 21;
   21; 11; 11; 21; 21; 21; 21; 21; 21; 21; 21; 21; 21; 21; 21; 21; 21; 11; 11; 21; 21; 21; 21;
   21; 21; 21; 21; 21; 21; 21; 21; 21; 21; 11; 11; 21; 21; 21; 21; 21; 21; 21; 21; 21; 21; 21;
   21; 21; 21; 11; 11; 21; 21; 21; 21; 21; 21; 21; 21; 21; 21; 21; 21; 21; 21; 11; 11; 21; 21;
   21; 21; 21; 21; 21; 21; 21; 21; 21; 21; 21; 21].

Definition av1_nz_map_ctx_offset_16x32 : list Z :=
  [0; 11; 6; 6; 21; 21; 21; 21; 21; 21; 21; 21; 21; 21; 21; 21; 21; 21; 21; 21; 21; 21; 21; 21;
   21; 21; 21; 21; 21; 21; 21; 21; 11; 11; 6; 21; 21; 21; 21; 21; 21; 21; 21; 21; 21; 21; 21;
   21; 21; 21; 21; 21; 21; 21; 21; 21; 21; 21; 21; 21; 21; 21; 21; 21; 11; 11; 21; 21; 21; 21;
   21; 21; 21; 21; 21; 21; 21; 21; 21; 21; 21; 21; 21; 21; 21; 21; 21; 21; 21; 21; 21; 21; 21;
   21; 21; 21; 11; 11; 21; 21; 21; 21; 21; 21; 21; 21; 21; 21; 21; 21; 21; 21; 21; 21; 21; 21;
   21; 21; 21; 21; 21; 21; 21; 21; 21; 21; 21; 21; 11; 11; 21; 21; 21; 21; 21; 21; 21; 21; 21;
   21; 21; 21; 21; 21; 21; 21; 21; 21; 21; 21; 21; 21; 21; 21; 21; 21; 21; 21; 21; 21; 11; 11;
   21; 21; 21; 21; 21; 21; 21; 21; 21; 21; 21; 21; 21; 21; 21; 21; 21; 21; 21; 21; 21; 21; 21;
   21; 21; 21; 21; 21; 21; 21; 11; 11; 21; 21; 21; 21; 21; 21; 21; 21; 21; 21; 21; 21; 21; 21;
   21; 21; 21; 21; 21; 21; 21; 21; 21; 21; 21; 21; 21; 21; 21; 21; 11; 11; 21; 21; 21; 21; 21;
   21; 21; 21; 21; 21; 21; 21; 21; 21; 21; 21; 21; 21; 21; 21; 21; 21; 21; 21; 21; 21; 21; 21;
   21; 21; 11; 11; 21; 21; 21; 21; 21; 21; 21; 21; 21; 21; 21; 21; 21; 21; 21; 21; 21; 21; 21;
   21; 21; 21; 21; 21; 21; 21; 21; 21; 21; 21; 11; 11; 21; 21; 21; 21; 21; 21; 21; 21; 21; 21;
   21; 21; 21; 21; 21; 21; 21; 21; 21; 21; 21; 21; 21; 21; 21; 21; 21; 21; 21; 21; 11; 11; 21;
   21; 21; 21; 21; 21; 21; 21; 21; 21; 21; 21; 21; 21; 21; 21; 21; 21; 21; 21; 21; 21; 21; 21;
   21; 21; 21; 21; 21; 21; 11; 11; 21; 21; 21; 21; 21; 21; 21; 21; 21; 21; 21; 21; 21; 21; 21;
   21; 21; 21; 21; 21; 21; 21; 21; 21; 21; 21; 21; 21; 21; 21; 11; 11; 21; 21; 21; 21; 21; 21;
   21; 21; 21; 21; 21; 21; 21; 21; 21; 21; 21; 21; 21; 21; 21; 21; 21; 21; 21; 21; 21; 21; 21;
   21; 11; 11; 21; 21; 21; 21; 21; 21; 21; 21; 21; 21; 21; 21; 21; 21; 21; 21; 21; 21; 21; 21;
   21; 21; 21; 21; 21; 21; 21; 21; 21; 21; 11; 11; 21; 21; 21; 21; 21; 21; 21; 21; 21; 21; 21;
   21; 21; 21; 21; 21; 21; 21; 21; 21; 21; 21; 21; 21; 21; 21; 21; 21; 21; 21; 11; 11; 21; 21;
   21; 21; 21; 21; 21; 21; 21; 21; 21; 21; 21; 21; 21; 21; 21; 21; 21; 21; 21; 21; 21; 21; 21;
   21; 21; 21; 21; 21].

Definition av1_nz_map_ctx_offset_32x16 : list Z :=
  [0; 16; 16; 16; 16; 16; 16; 16; 16; 16; 16; 16; 16; 16; 16; 16; 16; 16; 16; 16; 16; 16; 16;
   16; 16; 16; 16; 16; 16; 16; 16; 16; 6; 6; 21; 21; 21; 21; 21; 21; 21; 21; 21; 21; 21; 21; 21;
   21; 6; 21; 21; 21; 21; 21; 21; 21; 21; 21; 21; 21; 21; 21; 21; 21; 21; 21; 21; 21; 21; 21;
   21; 21; 21; 21; 21; 21; 21; 21; 21; 21; 21; 21; 21; 21; 21; 21; 21; 21; 21; 21; 21; 21; 21;
   21; 21; 21; 21; 21; 21; 21; 21; 21; 21; 21; 21; 21; 21; 21; 21; 21; 21; 21; 21; 21; 21; 21;
   21; 21; 21; 21; 21; 21; 21; 21; 21; 21; 21; 21; 21; 21; 21; 21; 21; 21; 21; 21; 21; 21; 21;
   21; 21; 21; 21; 21; 21; 21; 21; 21; 21; 21; 21; 21; 21; 21; 21; 21; 21; 21; 21; 21; 21; 21;
   21; 21; 21; 21; 21; 21; 21; 21; 21; 21; 21; 21; 21; 21; 21; 21; 21; 21; 21; 21; 21; 21; 21;
   21; 21; 21; 21; 21; 21; 21; 21; 21; 21; 21; 21; 21; 21; 21; 21; 21; 21; 21; 21; 21; 21; 21;
   21; 21; 21; 21; 21; 21; 21; 21; 21; 21; 21; 21; 21; 21; 21; 21; 21; 21; 21; 21; 21; 21; 21;
   21; 21; 21; 21; 21; 21; 21; 21; 21; 21; 21; 21; 21; 21; 21; 21; 21; 21; 21; 21; 21; 21; 21;
   21; 21; 21; 21; 21; 21; 21; 21; 21; 21; 21; 21; 21; 21; 21; 21; 21; 21; 21; 21; 21; 21; 21;
   21; 21; 21; 21; 21; 21; 21; 21; 21; 21; 21; 21; 21; 21; 21; 21; 21; 21; 21; 21; 21; 21; 21;
   21; 21; 21; 21; 21; 21; 21; 21; 21; 21; 21; 21; 21; 21; 21; 21; 21; 21; 21; 21; 21; 21; 21;
   21; 21; 21; 21; 21; 21; 21; 21; 21; 21; 21; 21; 21; 21; 21; 21; 21; 21; 21; 21; 21; 21; 21;
   21; 21; 21; 21; 21; 21; 21; 21; 21; 21; 21; 21; 21; 21; 21; 21; 21; 21; 21; 21; 21; 21; 21;
   21; 21; 21; 21; 21; 21; 21; 21; 21; 21; 21; 21; 21; 21; 21; 21; 21; 21; 21; 21; 21; 21; 21;
   21; 21; 21; 21; 21; 21; 21; 21; 21; 21; 21; 21; 21; 21; 21; 21; 21; 21; 21; 21; 21; 21; 21;
   21; 21; 21; 21; 21; 21; 21; 21; 21; 21; 21; 21; 21; 21; 21; 21; 21; 21; 21; 21; 21; 21; 21;
   21; 21; 21; 21; 21; 21; 21; 21; 21; 21; 21; 21; 21; 21; 21; 21; 21; 21; 21; 21; 21; 21; 21;
   21; 21; 21; 21; 21; 21; 21; 21; 21; 21; 21; 21; 21; 21; 21; 21; 21; 21; 21; 21; 21; 21; 21;
   21; 21; 21; 21; 21; 21; 21; 21; 21; 21; 21; 21; 21; 21; 21; 21; 21; 21; 21; 21; 21; 21; 21;
   21; 21; 21; 21; 21].

Definition av1_nz_map_ctx_offset_32x64 : list Z :=
  [0; 11; 6; 6; 21; 21; 21; 21; 21; 21; 21; 21; 21; 21; 21; 21; 21; 21; 21; 21; 21; 21; 21; 21;
   21; 21; 21; 21; 21; 21; 21; 21; 11; 11; 6; 21; 21; 21; 21; 21; 21; 21; 21; 21; 21; 21; 21;
   21; 21; 21; 21; 21; 21; 21; 21; 21; 21; 21; 21; 21; 21; 21; 21; 21; 11; 11; 21; 21; 21; 21;
   21; 21; 21; 21; 21; 21; 21; 21; 21; 21; 21; 21; 21; 21; 21; 21; 21; 21; 21; 21; 21; 21; 21;
   21; 21; 21; 11; 11; 21; 21; 21; 21; 21; 21; 21; 21; 21; 21; 21; 21; 21; 21; 21; 21; 21; 21;
   21; 21; 21; 21; 21; 21; 21; 21; 21; 21; 21; 21; 11; 11; 21; 21; 21; 21; 21; 21; 21; 21; 21;
   21; 21; 21; 21; 21; 21; 21; 21; 21; 21; 21; 21; 21; 21; 21; 21; 21; 21; 21; 21; 21; 11; 11;
   21; 21; 21; 21; 21; 21; 21; 21; 21; 21; 21; 21; 21; 21; 21; 21; 21; 21; 21; 21; 21; 21; 21;
   21; 21; 21; 21; 21; 21; 21; 11; 11; 21; 21; 21; 21; 21; 21; 21; 21; 21; 21; 21; 21; 21; 21;
   21; 21; 21; 21; 21; 21; 21; 21; 21; 21; 21; 21; 21; 21; 21; 21; 11; 11; 21; 21; 21; 21; 21;
   21; 21; 21; 21; 21; 21; 21; 21; 21; 21; 21; 21; 21; 21; 21; 21; 21; 21; 21; 21; 21; 21; 21;
   21; 21; 11; 11; 21; 21; 21; 21; 21; 21; 21; 21; 21; 21; 21; 21; 21; 21; 21; 21; 21; 21; 21;
   21; 21; 21; 21; 21; 21; 21; 21; 21; 21; 21; 11; 11; 21; 21; 21; 21; 21; 21; 21; 21; 21; 21;
   21; 21; 21; 21; 21; 21; 21; 21; 21; 21; 21; 21; 21; 21; 21; 21; 21; 21; 21; 21; 11; 11; 21;
   21; 21; 21; 21; 21; 21; 21; 21; 21; 21; 21; 21; 21; 21; 21; 21; 21; 21; 21; 21; 21; 21; 21;
   21; 21; 21; 21; 21; 21; 11; 11; 21; 21; 21; 21; 21; 21; 21; 21; 21; 21; 21; 21; 21; 21; 21;
   21; 21; 21; 21; 21; 21; 21; 21; 21; 21; 21; 21; 21; 21; 21; 11; 11; 21; 21; 21; 21; 21; 21;
   21; 21; 21; 21; 21; 21; 21; 21; 21; 21; 21; 21; 21; 21; 21; 21; 21; 21; 21; 21; 21; 21; 21;
   21; 11; 11; 21; 21; 21; 21; 21; 21; 21; 21; 21; 21; 21; 21; 21; 21; 21; 21; 21; 21; 21; 21;
   21; 21; 21; 21; 21; 21; 21; 21; 21; 21; 11; 11; 21; 21; 21; 21; 21; 21; 21; 21; 21; 21; 21;
   21; 21; 21; 21; 21; 21; 21; 21; 21; 21; 21; 21; 21; 21; 21; 21; 21; 21; 21; 11; 11; 21; 21;
   21; 21; 21; 21; 21; 21; 21; 21; 21; 21; 21; 21; 21; 21; 21; 21; 21; 21; 21; 21; 21; 21; 21;
   21; 21; 21; 21; 21; 11; 11; 21; 21; 21; 21; 21; 21; 21; 21; 21; 21; 21; 21; 21; 21; 21; 21;
   21; 21; 21; 21; 21; 21; 21; 21; 21; 21; 21; 21; 21; 21; 11; 11; 21; 21; 21; 21; 21; 21; 21;
   21; 21; 21; 21; 21; 21; 21; 21; 21; 21; 21; 21; 21; 21; 21; 21; 21; 21; 21; 21; 21; 21; 21;
   11; 11; 21; 21; 21; 21; 21; 21; 21; 21; 21; 21; 21; 21; 21; 21; 21; 21; 21; 21; 21; 21; 21;
   21; 21; 21; 21; 21; 21; 21; 21; 21; 11; 11; 21; 21; 21; 21; 21; 21; 21; 21; 21; 21; 21; 21;
   21; 21; 21; 21; 21; 21; 21; 21; 21; 21; 21; 21; 21; 21; 21; 21; 21; 21; 11; 11; 21; 21; 21;
   21; 21; 21; 21; 21; 21; 21; 21; 21; 21; 21; 21; 21; 21; 21; 21; 21; 21; 21; 21; 21; 21; 21;
   21; 21; 21; 21; 11; 11; 21; 21; 21; 21; 21; 21; 21; 21; 21; 21; 21; 21; 21; 21; 21; 21; 21;
   21; 21; 21; 21; 21; 21; 21; 21; 21; 21; 21; 21; 21; 11; 11; 21; 21; 21; 21; 21; 21; 21; 21;
   21; 21; 21; 21; 21; 21; 21; 21; 21; 21; 21; 21; 21; 21; 21; 21; 21; 21; 21; 21; 21; 21; 11;
   11; 21; 21; 21; 21; 21; 21; 21; 21; 21; 21; 21; 21; 21; 21; 21; 21; 21; 21; 21; 21; 21; 21;
   21; 21; 21; 21; 21; 21; 21; 21; 11; 11; 21; 21; 21; 21; 21; 21; 21; 21; 21; 21; 21; 21; 21;
   21; 21; 21; 21; 21; 21; 21; 21; 21; 21; 21; 21; 21; 21; 21; 21; 21; 11; 11; 21; 21; 21; 21;
   21; 21; 21; 21; 21; 21; 21; 21; 21; 21; 21; 21; 21; 21; 21; 21; 21; 21; 21; 21; 21; 21; 21;
   21; 21; 21; 11; 11; 21; 21; 21; 21; 21; 21; 21; 21; 21; 21; 21; 21; 21; 21; 21; 21; 21; 21;
   21; 21; 21; 21; 21; 21; 21; 21; 21; 21; 21; 21; 11; 11; 21; 21; 21; 21; 21; 21; 21; 21; 21;
   21; 21; 21; 21; 21; 21; 21; 21; 21; 21; 21; 21; 21; 21; 21; 21; 21; 21; 21; 21; 21; 11; 11;
   21; 21; 21; 21; 21; 21; 21; 21; 21; 21; 21; 21; 21; 21; 21; 21; 21; 21; 21; 21; 21; 21; 21;
   21; 21; 21; 21; 21; 21; 21; 11; 11; 21; 21; 21; 21; 21; 21; 21; 21; 21; 21; 21; 21; 21; 21;
   21; 21; 21; 21; 21; 21; 21; 21; 21; 21; 21; 21; 21; 21; 21; 21; 11; 11; 21; 21; 21; 21; 21;
   21; 21; 21; 21; 21; 21; 21; 21; 21; 21; 21; 21; 21; 21; 21; 21; 21; 21; 21; 21; 21; 21; 21;
   21; 21; 11; 11; 21; 21; 21; 21; 21; 21; 21; 21; 21; 21; 21; 21; 21; 21; 21; 21; 21; 21; 21;
   21; 21; 21; 21; 21; 21; 21; 21; 21; 21; 21].

Definition av1_nz_map_ctx_offset_64x32 : list Z :=
  [0; 16; 16; 16; 16; 16; 16; 16; 16; 16; 16; 16; 16; 16; 16; 16; 16; 16; 16; 16; 16; 16; 16;
   16; 16; 16; 16; 16; 16; 16; 16; 16; 16; 16; 16; 16; 16; 16; 16; 16; 16; 16; 16; 16; 16; 16;
   16; 16; 16; 16; 16; 16; 16; 16; 16; 16; 16; 16; 16; 16; 16; 16; 16; 16; 6; 6; 21; 21; 21; 21;
   21; 21; 21; 21; 21; 21; 21; 21; 21; 21; 21; 21; 21; 21; 21; 21; 21; 21; 21; 21; 21; 21; 21;
   21; 21; 21; 6; 21; 21; 21; 21; 21; 21; 21; 21; 21; 21; 21; 21; 21; 21; 21; 21; 21; 21; 21;
   21; 21; 21; 21; 21; 21; 21; 21; 21; 21; 21; 21; 21; 21; 21; 21; 21; 21; 21; 21; 21; 21; 21;
   21; 21; 21; 21; 21; 21; 21; 21; 21; 21; 21; 21; 21; 21; 21; 21; 21; 21; 21; 21; 21; 21; 21;
   21; 21; 21; 21; 21; 21; 21; 21; 21; 21; 21; 21; 21; 21; 21; 21; 21; 21; 21; 21; 21; 21; 21;
   21; 21; 21; 21; 21; 21; 21; 21; 21; 21; 21; 21; 21; 21; 21; 21; 21; 21; 21; 21; 21; 21; 21;
   21; 21; 21; 21; 21; 21; 21; 21; 21; 21; 21; 21; 21; 21; 21; 21; 21; 21; 21; 21; 21; 21; 21;
   21; 21; 21; 21; 21; 21; 21; 21; 21; 21; 21; 21; 21; 21; 21; 21; 21; 21; 21; 21; 21; 21; 21;
   21; 21; 21; 21; 21; 21; 21; 21; 21; 21; 21; 21; 21; 21; 21; 21; 21; 21; 21; 21; 21; 21; 21;
   21; 21; 21; 21; 21; 21; 21; 21; 21; 21; 21; 21; 21; 21; 21; 21; 21; 21; 21; 21; 21; 21; 21;
   21; 21; 21; 21; 21; 21; 21; 21; 21; 21; 21; 21; 21; 21; 21; 21; 21; 21; 21; 21; 21; 21; 21;
   21; 21; 21; 21; 21; 21; 21; 21; 21; 21; 21; 21; 21; 21; 21; 21; 21; 21; 21; 21; 21; 21; 21;
   21; 21; 21; 21; 21; 21; 21; 21; 21; 21; 21; 21; 21; 21; 21; 21; 21; 21; 21; 21; 21; 21; 21;
   21; 21; 21; 21; 21; 21; 21; 21; 21; 21; 21; 21; 21; 21; 21; 21; 21; 21; 21; 21; 21; 21; 21;
   21; 21; 21; 21; 21; 21; 21; 21; 21; 21; 21; 21; 21; 21; 21; 21; 21; 21; 21; 21; 21; 21; 21;
   21; 21; 21; 21; 21; 21; 21; 21; 21; 21; 21; 21; 21; 21; 21; 21; 21; 21; 21; 21; 21; 21; 21;
   21; 21; 21; 21; 21; 21; 21; 21; 21; 21; 21; 21; 21; 21; 21; 21; 21; 21; 21; 21; 21; 21; 21;
   21; 21; 21; 21; 21; 21; 21; 21; 21; 21; 21; 21; 21; 21; 21; 21; 21; 21; 21; 21; 21; 21; 21;
   21; 21; 21; 21; 21; 21; 21; 21; 21; 21; 21; 21; 21; 21; 21; 21; 21; 21; 21; 21; 21; 21; 21;
   21; 21; 21; 21; 21; 21; 21; 21; 21; 21; 21; 21; 21; 21; 21; 21; 21; 21; 21; 21; 21; 21; 21;
   21; 21; 21; 21; 21; 21; 21; 21; 21; 21; 21; 21; 21; 21; 21; 21; 21; 21; 21; 21; 21; 21; 21;
   21; 21; 21; 21; 21; 21; 21; 21; 21; 21; 21; 21; 21; 21; 21; 21; 21; 21; 21; 21; 21; 21; 21;
   21; 21; 21; 21; 21; 21; 21; 21; 21; 21; 21; 21; 21; 21; 21; 21; 21; 21; 21; 21; 21; 21; 21;
   21; 21; 21; 21; 21; 21; 21; 21; 21; 21; 21; 21; 21; 21; 21; 21; 21; 21; 21; 21; 21; 21; 21;
   21; 21; 21; 21; 21; 21; 21; 21; 21; 21; 21; 21; 21; 21; 21; 21; 21; 21; 21; 21; 21; 21; 21;
   21; 21; 21; 21; 21; 21; 21; 21; 21; 21; 21; 21; 21; 21; 21; 21; 21; 21; 21; 21; 21; 21; 21;
   21; 21; 21; 21; 21; 21; 21; 21; 21; 21; 21; 21; 21; 21; 21; 21; 21; 21; 21; 21; 21; 21; 21;
   21; 21; 21; 21; 21; 21; 21; 21; 21; 21; 21; 21; 21; 21; 21; 21; 21; 21; 21; 21; 21; 21; 21;
   21; 21; 21; 21; 21; 21; 21; 21; 21; 21; 21; 21; 21; 21; 21; 21; 21; 21; 21; 21; 21; 21; 21;
   21; 21; 21; 21; 21; 21; 21; 21; 21; 21; 21; 21; 21; 21; 21; 21; 21; 21; 21; 21; 21; 21; 21;
   21; 21; 21; 21; 21; 21; 21; 21; 21; 21; 21; 21; 21; 21; 21; 21; 21; 21; 21; 21; 21; 21; 21;
   21; 21; 21; 21; 21; 21; 21; 21; 21; 21; 21; 21; 21; 21; 21; 21; 21; 21; 21; 21; 21; 21; 21;
   21; 21; 21; 21; 21; 21; 21; 21; 21; 21; 21; 21; 21; 21; 21; 21; 21; 21; 21; 21; 21; 21; 21;
   21; 21; 21; 21; 21; 21; 21; 21; 21; 21; 21; 21; 21; 21; 21; 21; 21; 21; 21; 21; 21; 21; 21;
   21; 21; 21; 21; 21; 21; 21; 21; 21; 21; 21; 21; 21; 21; 21; 21; 21; 21; 21; 21; 21; 21; 21;
   21; 21; 21; 21; 21; 21; 21; 21; 21; 21; 21; 21; 21; 21; 21; 21; 21; 21; 21; 21; 21; 21; 21;
   21; 21; 21; 21; 21; 21; 21; 21; 21; 21; 21; 21; 21; 21; 21; 21; 21; 21; 21; 21; 21; 21; 21;
   21; 21; 21; 21; 21; 21; 21; 21; 21; 21; 21; 21; 21; 21; 21; 21; 21; 21; 21; 21; 21; 21; 21;
   21; 21; 21; 21; 21; 21; 21; 21; 21; 21; 21; 21; 21; 21; 21; 21; 21; 21; 21; 21; 21; 21; 21;
   21; 21; 21; 21; 21; 21; 21; 21; 21; 21; 21; 21; 21; 21; 21; 21; 21; 21; 21; 21; 21; 21; 21;
   21; 21; 21; 21; 21; 21; 21; 21; 21; 21; 21; 21; 21; 21; 21; 21; 21; 21; 21; 21; 21; 21; 21;
   21; 21; 21; 21; 21; 21; 21; 21; 21; 21; 21].

Definition av1_nz_map_ctx_offset_4x16 : list Z :=
  [0; 11; 6; 6; 21; 21; 21; 21; 21; 21; 21; 21; 21; 21; 21; 21; 11; 11; 6; 21; 21; 21; 21; 21;
   21; 21; 21; 21; 21; 21; 21; 21; 11; 11; 21; 21; 21; 21; 21; 21; 21; 21; 21; 21; 21; 21; 21;
   21; 11; 11; 21; 21; 21; 21; 21; 21; 21; 21; 21; 21; 21; 21; 21; 21].

Definition av1_nz_map_ctx_offset_16x4 : list Z :=
  [0; 16; 16; 16; 16; 16; 16; 16; 6; 6; 21; 21; 6; 21; 21; 21; 21; 21; 21; 21; 21; 21; 21; 21;
   21; 21; 21; 21; 21; 21; 21; 21; 21; 21; 21; 21; 21; 21; 21; 21; 21; 21; 21; 21; 21; 21; 21;
   21; 21; 21; 21; 21; 21; 21; 21; 21; 21; 21; 21; 21; 21; 21; 21; 21].

Definition av1_nz_map_ctx_offset_8x32 : list Z :=
  [0; 11; 6; 6; 21; 21; 21; 21; 21; 21; 21; 21; 21; 21; 21; 21; 21; 21; 21; 21; 21; 21; 21; 21;
   21; 21; 21; 21; 21; 21; 21; 21; 11; 11; 6; 21; 21; 21; 21; 21; 21; 21; 21; 21; 21; 21; 21;
   21; 21; 21; 21; 21; 21; 21; 21; 21; 21; 21; 21; 21; 21; 21; 21; 21; 11; 11; 21; 21; 21; 21;
   21; 21; 21; 21; 21; 21; 21; 21; 21; 21; 21; 21; 21; 21; 21; 21; 21; 21; 21; 21; 21; 21; 21;
   21; 21; 21; 11; 11; 21; 21; 21; 21; 21; 21; 21; 21; 21; 21; 21; 21; 21; 21; 21; 21; 21; 21;
   21; 21; 21; 21; 21; 21; 21; 21; 21; 21; 21; 21; 11; 11; 21; 21; 21; 21; 21; 21; 21; 21; 21;
   21; 21; 21; 21; 21; 21; 21; 21; 21; 21; 21; 21; 21; 21; 21; 21; 21; 21; 21; 21; 21; 11; 11;
   21; 21; 21; 21; 21; 21; 21; 21; 21; 21; 21; 21; 21; 21; 21; 21; 21; 21; 21; 21; 21; 21; 21;
   21; 21; 21; 21; 21; 21; 21; 11; 11; 21; 21; 21; 21; 21; 21; 21; 21; 21; 21; 21; 21; 21; 21;
   21; 21; 21; 21; 21; 21; 21; 21; 21; 21; 21; 21; 21; 21; 21; 21; 11; 11; 21; 21; 21; 21; 21;
   21; 21; 21; 21; 21; 21; 21; 21; 21; 21; 21; 21; 21; 21; 21; 21; 21; 21; 21; 21; 21; 21; 21;
   21; 21].

Definition av1_nz_map_ctx_offset_32x8 : list Z :=
  [0; 16; 16; 16; 16; 16; 16; 16; 16; 16; 16; 16; 16; 16; 16; 16; 6; 6; 21; 21; 21; 21; 21; 21;
   6; 21; 21; 21; 21; 21; 21; 21; 21; 21; 21; 21; 21; 21; 21; 21; 21; 21; 21; 21; 21; 21; 21;
   21; 21; 21; 21; 21; 21; 21; 21; 21; 21; 21; 21; 21; 21; 21; 21; 21; 21; 21; 21; 21; 21; 21;
   21; 21; 21; 21; 21; 21; 21; 21; 21; 21; 21; 21; 21; 21; 21; 21; 21; 21; 21; 21; 21; 21; 21;
   21; 21; 21; 21; 21; 21; 21; 21; 21; 21; 21; 21; 21; 21; 21; 21; 21; 21; 21; 21; 21; 21; 21;
   21; 21; 21; 21; 21; 21; 21; 21; 21; 21; 21; 21; 21; 21; 21; 21; 21; 21; 21; 21; 21; 21; 21;
   21; 21; 21; 21; 21; 21; 21; 21; 21; 21; 21; 21; 21; 21; 21; 21; 21; 21; 21; 21; 21; 21; 21;
   21; 21; 21; 21; 21; 21; 21; 21; 21; 21; 21; 21; 21; 21; 21; 21; 21; 21; 21; 21; 21; 21; 21;
   21; 21; 21; 21; 21; 21; 21; 21; 21; 21; 21; 21; 21; 21; 21; 21; 21; 21; 21; 21; 21; 21; 21;
   21; 21; 21; 21; 21; 21; 21; 21; 21; 21; 21; 21; 21; 21; 21; 21; 21; 21; 21; 21; 21; 21; 21;
   21; 21; 21; 21; 21; 21; 21; 21; 21; 21; 21; 21; 21; 21; 21; 21; 21; 21; 21; 21; 21; 21; 21;
   21; 21].

Definition av1_nz_map_ctx_offset (tx_size : TX_SIZE) : list Z :=
  match tx_size with
  | TX_4X4 => av1_nz_map_ctx_offset_4x4
  | TX_8X8 => av1_nz_map_ctx_offset_8x8
  | TX_16X16 => av1_nz_map_ctx_offset_16x16
  | TX_32X32 | TX_64X64 => av1_nz_map_ctx_offset_32x32
  | TX_4X8 => av1_nz_map_ctx_offset_4x8
  | TX_8X4 | TX_16X4 => av1_nz_map_ctx_offset_16x4
  | TX_8X16 => av1_nz_map_ctx_offset_8x16
  | TX_16X8 | TX_32X8 => av1_nz_map_ctx_offset_32x8
  | TX_16X32 => av1_nz_map_ctx_offset_16x32
  | TX_32X16 | TX_64X16 => av1_nz_map_ctx_offset_32x16
  | TX_32X64 | TX_16X64 => av1_nz_map_ctx_offset_32x64
  | TX_64X32 => av1_nz_map_ctx_offset_64x32
  | TX_4X16 => av1_nz_map_ctx_offset_4x16
  | TX_8X32 => av1_nz_map_ctx_offset_8x32
  end.

Definition av1_eob_group_start : list Z :=
  [0; 1; 2; 3; 5; 9; 17; 33; 65; 129; 257; 513].

Definition av1_eob_offset_bits : list Z :=
  [0; 0; 0; 1; 2; 3; 4; 5; 6; 7; 8; 9].

(** ** Tables of [txb_common.h] *)

Definition clip_max3 : list Z :=
  [0; 1; 2; 3; 3; 3; 3; 3; 3; 3; 3; 3; 3; 3; 3; 3; 3; 3; 3; 3; 3; 3; 3; 3; 3; 3; 3; 3; 3; 3; 3;
   3; 3; 3; 3; 3; 3; 3; 3; 3; 3; 3; 3; 3; 3; 3; 3; 3; 3; 3; 3; 3; 3; 3; 3; 3; 3; 3; 3; 3; 3; 3;
   3; 3; 3; 3; 3; 3; 3; 3; 3; 3; 3; 3; 3; 3; 3; 3; 3; 3; 3; 3; 3; 3; 3; 3; 3; 3; 3; 3; 3; 3; 3;
   3; 3; 3; 3; 3; 3; 3; 3; 3; 3; 3; 3; 3; 3; 3; 3; 3; 3; 3; 3; 3; 3; 3; 3; 3; 3; 3; 3; 3; 3; 3;
   3; 3; 3; 3; 3; 3; 3; 3; 3; 3; 3; 3; 3; 3; 3; 3; 3; 3; 3; 3; 3; 3; 3; 3; 3; 3; 3; 3; 3; 3; 3;
   3; 3; 3; 3; 3; 3; 3; 3; 3; 3; 3; 3; 3; 3; 3; 3; 3; 3; 3; 3; 3; 3; 3; 3; 3; 3; 3; 3; 3; 3; 3;
   3; 3; 3; 3; 3; 3; 3; 3; 3; 3; 3; 3; 3; 3; 3; 3; 3; 3; 3; 3; 3; 3; 3; 3; 3; 3; 3; 3; 3; 3; 3;
   3; 3; 3; 3; 3; 3; 3; 3; 3; 3; 3; 3; 3; 3; 3; 3; 3; 3; 3; 3; 3; 3; 3; 3; 3; 3; 3; 3; 3; 3; 3;
   3; 3; 3; 3; 3; 3; 3; 3].

Definition kTxbCtxSigns : list Z :=
  [0; -1; 1].

Definition kTxbCtxDcSignContexts : list Z :=
  [1; 1; 1; 1; 1; 1; 1; 1; 1; 1; 1; 1; 1; 1; 1; 1; 1; 1; 1; 1; 1; 1; 1; 1; 1; 1; 1; 1; 1; 1; 1;
   1; 0; 2; 2; 2; 2; 2; 2; 2; 2; 2; 2; 2; 2; 2; 2; 2; 2; 2; 2; 2; 2; 2; 2; 2; 2; 2; 2; 2; 2; 2;
   2; 2; 2].

Definition kTxbCtxSkipContexts : list (list Z) :=
  [[1; 2; 2; 2; 3];
   [2; 4; 4; 4; 5];
   [2; 4; 4; 4; 5];
   [2; 4; 4; 4; 5];
   [3; 5; 5; 5; 6]].

Definition nz_map_ctx_offset_1d : list Z :=
  [SIG_COEF_CONTEXTS_2D; SIG_COEF_CONTEXTS_2D + 5] ++ replicate 30 (SIG_COEF_CONTEXTS_2D + 10).

(** ** Geometry *)

Definition av1_get_adjusted_tx_size (tx_size : TX_SIZE) : TX_SIZE :=
  match tx_size with
  | TX_64X64 | TX_64X32 | TX_32X64 => TX_32X32
  | TX_64X16 => TX_32X16
  | TX_16X64 => TX_16X32
  | _ => tx_size
  end.

Definition get_txb_bhl (tx_size : TX_SIZE) : Z := tx_size_high_log2 (av1_get_adjusted_tx_size tx_size).
Definition get_txb_wide (tx_size : TX_SIZE) : Z := tx_size_wide (av1_get_adjusted_tx_size tx_size).
Definition get_txb_high (tx_size : TX_SIZE) : Z := tx_size_high (av1_get_adjusted_tx_size tx_size).

Definition get_txsize_entropy_ctx (txsize : TX_SIZE) : Z :=
  Z.shiftr (tx_size_value (txsize_sqr_map txsize) + tx_size_value (txsize_sqr_up_map txsize) + 1) 1.

(** The bytes from [levels_buf + TX_PAD_TOP * (height + TX_PAD_HOR)] on. *)
Definition set_levels (levels_buf : list Z) (height : Z) : list Z :=
  drop (Z.to_nat (TX_PAD_TOP * (height + TX_PAD_HOR))) levels_buf.

Definition get_padded_idx (idx bhl : Z) : Z := idx + Z.shiftl (Z.shiftr idx bhl) TX_PAD_HOR_LOG2.

(** ** Contexts of the magnitudes *)

Definition get_br_ctx_2d (levels : list Z) (c bhl : Z) : option Z :=
  let col := Z.shiftr c bhl in
  let row := c - Z.shiftl col bhl in
  let stride := Z.shiftl 1 bhl + TX_PAD_HOR in
  let pos := col * stride + row in
  l1 ← arr_get levels (pos + 1);
  l2 ← arr_get levels (pos + stride);
  l3 ← arr_get levels (pos + 1 + stride);
  let mag := Z.min l1 MAX_BASE_BR_RANGE + Z.min l2 MAX_BASE_BR_RANGE + Z.min l3 MAX_BASE_BR_RANGE in
  let mag := Z.min (Z.shiftr (mag + 1) 1) 6 in
  Some (if Z.lor row col <? 2 then mag + 7 else mag + 14).

Definition get_br_ctx_eob (c bhl : Z) (tx_class : TX_CLASS) : Z :=
  let col := Z.shiftr c bhl in
  let row := c - Z.shiftl col bhl in
  if c =? 0 then 0
  else if match tx_class with
          | TX_CLASS_2D => (row <? 2) && (col <? 2)
          | TX_CLASS_HORIZ => col =? 0
          | TX_CLASS_VERT => row =? 0
          end
  then 7 else 14.

Definition get_br_ctx (levels : list Z) (c bhl : Z) (tx_class : TX_CLASS) : option Z :=
  let col := Z.shiftr c bhl in
  let row := c - Z.shiftl col bhl in
  let stride := Z.shiftl 1 bhl + TX_PAD_HOR in
  let pos := col * stride + row in
  l1 ← arr_get levels (pos + 1);
  l2 ← arr_get levels (pos + stride);
  match tx_class with
  | TX_CLASS_2D =>
      l3 ← arr_get levels (pos + stride + 1);
      let mag := Z.min (Z.shiftr (l1 + l2 + l3 + 1) 1) 6 in
      Some (if c =? 0 then mag else if (row <? 2) && (col <? 2) then mag + 7 else mag + 14)
  | TX_CLASS_HORIZ =>
      l3 ← arr_get levels (pos + Z.shiftl stride 1);
      let mag := Z.min (Z.shiftr (l1 + l2 + l3 + 1) 1) 6 in
      Some (if c =? 0 then mag else if col =? 0 then mag + 7 else mag + 14)
  | TX_CLASS_VERT =>
      l3 ← arr_get levels (pos + 2);
      let mag := Z.min (Z.shiftr (l1 + l2 + l3 + 1) 1) 6 in
      Some (if c =? 0 then mag else if row =? 0 then mag + 7 else mag + 14)
  end.

(** [clip_max3[levels[base + k]]] *)
Definition clipped (levels : list Z) (base k : Z) : option Z :=
  l ← arr_get levels (base + k); arr_get clip_max3 l.

(** [get_nz_mag(levels + base, ...)] *)
Definition get_nz_mag (levels : list Z) (base bhl : Z) (tx_class : TX_CLASS) : option Z :=
  m1 ← clipped levels base (Z.shiftl 1 bhl + TX_PAD_HOR);
  m2 ← clipped levels base 1;
  match tx_class with
  | TX_CLASS_2D =>
      m3 ← clipped levels base (Z.shiftl 1 bhl + TX_PAD_HOR + 1);
      m4 ← clipped levels base (Z.shiftl 2 bhl + Z.shiftl 2 TX_PAD_HOR_LOG2);
      m5 ← clipped levels base 2;
      Some (m1 + m2 + m3 + m4 + m5)
  | TX_CLASS_VERT =>
      m3 ← clipped levels base 2;
      m4 ← clipped levels base 3;
      m5 ← clipped levels base 4;
      Some (m1 + m2 + m3 + m4 + m5)
  | TX_CLASS_HORIZ =>
      m3 ← clipped levels base (Z.shiftl 2 bhl + Z.shiftl 2 TX_PAD_HOR_LOG2);
      m4 ← clipped levels base (Z.shiftl 3 bhl + Z.shiftl 3 TX_PAD_HOR_LOG2);
      m5 ← clipped levels base (Z.shiftl 4 bhl + Z.shiftl 4 TX_PAD_HOR_LOG2);
      Some (m1 + m2 + m3 + m4 + m5)
  end.

Definition get_nz_map_ctx_from_stats (stats coeff_idx bhl : Z) (tx_size : TX_SIZE)
    (tx_class : TX_CLASS) : option Z :=
  let ctx := Z.min (Z.shiftr (stats + 1) 1) 4 in
  match tx_class with
  | TX_CLASS_2D =>
      if coeff_idx =? 0 then Some 0
      else o ← arr_get (av1_nz_map_ctx_offset tx_size) coeff_idx; Some (ctx + o)
  | TX_CLASS_HORIZ =>
      let col := Z.shiftr coeff_idx bhl in
      o ← arr_get nz_map_ctx_offset_1d col; Some (ctx + o)
  | TX_CLASS_VERT =>
      let col := Z.shiftr coeff_idx bhl in
      let row := coeff_idx - Z.shiftl col bhl in
      o ← arr_get nz_map_ctx_offset_1d row; Some (ctx + o)
  end.

Definition get_lower_levels_ctx_eob (bhl width scan_idx : Z) : Z :=
  if scan_idx =? 0 then 0
  else if scan_idx <=? Z.quot (Z.shiftl width bhl) 8 then 1
  else if scan_idx <=? Z.quot (Z.shiftl width bhl) 4 then 2
  else 3.

Definition get_lower_levels_ctx_2d (levels : list Z) (coeff_idx bhl : Z) (tx_size : TX_SIZE)
  : option Z :=
  let base := get_padded_idx coeff_idx bhl in
  l1 ← arr_get levels (base + (Z.shiftl 1 bhl + TX_PAD_HOR));
  l2 ← arr_get levels (base + 1);
  l3 ← arr_get levels (base + (Z.shiftl 1 bhl + TX_PAD_HOR + 1));
  l4 ← arr_get levels (base + (Z.shiftl 2 bhl + Z.shiftl 2 TX_PAD_HOR_LOG2));
  l5 ← arr_get levels (base + 2);
  let mag := Z.min l1 3 + Z.min l2 3 + Z.min l3 3 + Z.min l4 3 + Z.min l5 3 in
  let ctx := Z.min (Z.shiftr (mag + 1) 1) 4 in
  o ← arr_get (av1_nz_map_ctx_offset tx_size) coeff_idx; Some (ctx + o).

Definition get_lower_levels_ctx (levels : list Z) (coeff_idx bhl : Z) (tx_size : TX_SIZE)
    (tx_class : TX_CLASS) : option Z :=
  stats ← get_nz_mag levels (get_padded_idx coeff_idx bhl) bhl tx_class;
  get_nz_map_ctx_from_stats stats coeff_idx bhl tx_size tx_class.

Definition set_dc_sign (cul_level dc_val : Z) : Z :=
  if dc_val <? 0 then Z.lor cul_level (Z.shiftl 1 COEFF_CONTEXT_BITS)
  else if 0 <? dc_val then cul_level + Z.shiftl 2 COEFF_CONTEXT_BITS
  else cul_level.
