(* ===== verification/Tile.v ===== *)
(** * Tile layout

    [av1/common/tile_common.c]: how a frame is divided into tiles.  Positions are in
    superblocks ([*_sb]) or in 4x4 units ([mi_*]).  [None] is a store or load outside
    one of the start arrays, or a loop that never ends.  Every value computed stays
    far below [2^31] for the frame sizes of AV1 (at most 65536 pixels a side), so the
    [int]s are plain integers; [frame_ok] states that range. *)

From S2P Require Import Prelude.

Definition MAX_TILE_ROWS : Z := 64.
Definition MAX_TILE_COLS : Z := 64.
Definition MAX_TILE_WIDTH : Z := 4096.
Definition MAX_TILE_AREA : Z := 4096 * 2304.
Definition MI_SIZE_LOG2 : Z := 2.

(** [CEIL_POWER_OF_TWO(value, n)] *)
Definition CEIL_POWER_OF_TWO (value n : Z) : Z := Z.shiftr (value + Z.shiftl 1 n - 1) n.

(** ** State *)

Record CommonTileParams := {
  t_cols : Z; t_rows : Z;
  t_max_width_sb : Z; t_max_height_sb : Z;
  t_min_inner_width : Z;
  t_uniform_spacing : bool;
  t_log2_cols : Z; t_log2_rows : Z;
  t_width : Z; t_height : Z;
  t_min_log2_cols : Z; t_min_log2_rows : Z;
  t_max_log2_cols : Z; t_max_log2_rows : Z;
  t_min_log2 : Z;
  t_col_start_sb : list Z; t_row_start_sb : list Z }.

(** The fields of [AV1_COMMON], its sequence header and [mi_params] used here. *)
Record AV1_COMMON := {
  mi_rows : Z; mi_cols : Z;
  mib_size : Z; mib_size_log2 : Z;
  cm_width : Z; superres_upscaled_width : Z; superres_scale_denominator : Z;
  tiles : CommonTileParams }.

Record TileInfo := {
  mi_row_start : Z; mi_row_end : Z;
  mi_col_start : Z; mi_col_end : Z;
  tile_row : Z; tile_col : Z }.

Definition set_tiles (cm : AV1_COMMON) (t : CommonTileParams) : AV1_COMMON :=
  {| mi_rows := mi_rows cm; mi_cols := mi_cols cm; mib_size := mib_size cm;
     mib_size_log2 := mib_size_log2 cm; cm_width := cm_width cm;
     superres_upscaled_width := superres_upscaled_width cm;
     superres_scale_denominator := superres_scale_denominator cm; tiles := t |}.

(** Assignments to groups of fields. *)

Definition with_limits (t : CommonTileParams)
    (max_width_sb min_log2_cols max_log2_cols max_log2_rows min_log2 : Z) : CommonTileParams :=
  {| t_cols := t_cols t; t_rows := t_rows t; t_max_width_sb := max_width_sb;
     t_max_height_sb := t_max_height_sb t; t_min_inner_width := t_min_inner_width t;
     t_uniform_spacing := t_uniform_spacing t; t_log2_cols := t_log2_cols t;
     t_log2_rows := t_log2_rows t; t_width := t_width t; t_height := t_height t;
     t_min_log2_cols := min_log2_cols; t_min_log2_rows := t_min_log2_rows t;
     t_max_log2_cols := max_log2_cols; t_max_log2_rows := max_log2_rows;
     t_min_log2 := min_log2; t_col_start_sb := t_col_start_sb t;
     t_row_start_sb := t_row_start_sb t |}.

Definition with_cols (t : CommonTileParams) (uniform : bool) (log2_cols cols : Z)
    (col_start_sb : list Z) : CommonTileParams :=
  {| t_cols := cols; t_rows := t_rows t; t_max_width_sb := t_max_width_sb t;
     t_max_height_sb := t_max_height_sb t; t_min_inner_width := t_min_inner_width t;
     t_uniform_spacing := uniform; t_log2_cols := log2_cols;
     t_log2_rows := t_log2_rows t; t_width := t_width t; t_height := t_height t;
     t_min_log2_cols := t_min_log2_cols t; t_min_log2_rows := t_min_log2_rows t;
     t_max_log2_cols := t_max_log2_cols t; t_max_log2_rows := t_max_log2_rows t;
     t_min_log2 := t_min_log2 t; t_col_start_sb := col_start_sb;
     t_row_start_sb := t_row_start_sb t |}.

Definition with_col_sizes (t : CommonTileParams)
    (min_log2_rows max_height_sb width min_inner_width : Z) : CommonTileParams :=
  {| t_cols := t_cols t; t_rows := t_rows t; t_max_width_sb := t_max_width_sb t;
     t_max_height_sb := max_height_sb; t_min_inner_width := min_inner_width;
     t_uniform_spacing := t_uniform_spacing t; t_log2_cols := t_log2_cols t;
     t_log2_rows := t_log2_rows t; t_width := width; t_height := t_height t;
     t_min_log2_cols := t_min_log2_cols t; t_min_log2_rows := min_log2_rows;
     t_max_log2_cols := t_max_log2_cols t; t_max_log2_rows := t_max_log2_rows t;
     t_min_log2 := t_min_log2 t; t_col_start_sb := t_col_start_sb t;
     t_row_start_sb := t_row_start_sb t |}.

Definition with_rows (t : CommonTileParams) (log2_rows rows height : Z)
    (row_start_sb : list Z) : CommonTileParams :=
  {| t_cols := t_cols t; t_rows := rows; t_max_width_sb := t_max_width_sb t;
     t_max_height_sb := t_max_height_sb t; t_min_inner_width := t_min_inner_width t;
     t_uniform_spacing := t_uniform_spacing t; t_log2_cols := t_log2_cols t;
     t_log2_rows := log2_rows; t_width := t_width t; t_height := height;
     t_min_log2_cols := t_min_log2_cols t; t_min_log2_rows := t_min_log2_rows t;
     t_max_log2_cols := t_max_log2_cols t; t_max_log2_rows := t_max_log2_rows t;
     t_min_log2 := t_min_log2 t; t_col_start_sb := t_col_start_sb t;
     t_row_start_sb := row_start_sb |}.

(** ** Limits *)

(** [for (k = 0; (blk_size << k) < target; k++)]; shifting an [int] by 32 or more
    is undefined, so 32 passes are all there can be. *)
Fixpoint tile_log2_loop (fuel : nat) (k blk_size target : Z) : option Z :=
  match fuel with
  | O => None
  | S fuel' =>
      if Z.shiftl blk_size k <? target then tile_log2_loop fuel' (k + 1) blk_size target
      else Some k
  end.

Definition tile_log2 (blk_size target : Z) : option Z := tile_log2_loop 32 0 blk_size target.

Definition sb_cols_of (cm : AV1_COMMON) : Z := CEIL_POWER_OF_TWO (mi_cols cm) (mib_size_log2 cm).
Definition sb_rows_of (cm : AV1_COMMON) : Z := CEIL_POWER_OF_TWO (mi_rows cm) (mib_size_log2 cm).

Definition av1_get_tile_limits (cm : AV1_COMMON) : option AV1_COMMON :=
  let sb_cols := sb_cols_of cm in
  let sb_rows := sb_rows_of cm in
  let sb_size_log2 := mib_size_log2 cm + MI_SIZE_LOG2 in
  let max_width_sb := Z.shiftr MAX_TILE_WIDTH sb_size_log2 in
  let max_tile_area_sb := Z.shiftr MAX_TILE_AREA (2 * sb_size_log2) in
  min_log2_cols ← tile_log2 max_width_sb sb_cols;
  max_log2_cols ← tile_log2 1 (Z.min sb_cols MAX_TILE_COLS);
  max_log2_rows ← tile_log2 1 (Z.min sb_rows MAX_TILE_ROWS);
  min_log2 ← tile_log2 max_tile_area_sb (sb_cols * sb_rows);
  Some (set_tiles cm (with_limits (tiles cm) max_width_sb min_log2_cols max_log2_cols
                        max_log2_rows (Z.max min_log2 min_log2_cols))).

(** ** Layout *)

(** [for (i = 0, start_sb = 0; start_sb < n; i++) { a[i] = start_sb; start_sb += size_sb; }]:
    each pass stores one element further on, so the 66th pass is outside the array. *)
Fixpoint uniform_loop (fuel : nat) (i start_sb size_sb n : Z) (a : list Z)
  : option (Z * list Z) :=
  match fuel with
  | O => None
  | S fuel' =>
      if start_sb <? n then
        a ← arr_set a i start_sb; uniform_loop fuel' (i + 1) (start_sb + size_sb) size_sb n a
      else Some (i, a)
  end.

(** The loop over the explicit columns, from column [i] on ([left] columns to go):
    [widest_tile_sb] and [narrowest_inner_tile_sb]. *)
Fixpoint widths_loop (left : nat) (i cols : Z) (a : list Z) (widest narrowest : Z)
  : option (Z * Z) :=
  match left with
  | O => Some (widest, narrowest)
  | S left' =>
      e ← arr_get a (i + 1); s ← arr_get a i;
      let size_sb := e - s in
      widths_loop left' (i + 1) cols a (Z.max widest size_sb)
        (if i <? cols - 1 then Z.min narrowest size_sb else narrowest)
  end.

Definition av1_calculate_tile_cols (mib_size_log2 cm_mi_rows cm_mi_cols : Z)
    (t : CommonTileParams) : option CommonTileParams :=
  let sb_cols := CEIL_POWER_OF_TWO cm_mi_cols mib_size_log2 in
  let sb_rows := CEIL_POWER_OF_TWO cm_mi_rows mib_size_log2 in
  if t_uniform_spacing t then
    let size_sb := CEIL_POWER_OF_TWO sb_cols (t_log2_cols t) in
    '(i, a) ← uniform_loop 66 0 0 size_sb sb_cols (t_col_start_sb t);
    a ← arr_set a i sb_cols;
    let min_log2_rows := Z.max (t_min_log2 t - t_log2_cols t) 0 in
    let width := Z.min (Z.shiftl size_sb mib_size_log2) cm_mi_cols in
    Some (with_col_sizes (with_cols t true (t_log2_cols t) i a)
            min_log2_rows (Z.shiftr sb_rows min_log2_rows) width (if 1 <? i then width else -1))
  else
    log2_cols ← tile_log2 1 (t_cols t);
    '(widest_tile_sb, narrowest_inner_tile_sb) ←
      widths_loop (Z.to_nat (t_cols t)) 0 (t_cols t) (t_col_start_sb t) 1 65536;
    let max_tile_area_sb :=
      if t_min_log2 t =? 0 then sb_rows * sb_cols
      else Z.shiftr (sb_rows * sb_cols) (t_min_log2 t + 1) in
    Some (with_col_sizes (with_cols t false log2_cols (t_cols t) (t_col_start_sb t))
            (t_min_log2_rows t) (Z.max (max_tile_area_sb ÷ widest_tile_sb) 1) (t_width t)
            (if 1 <? t_cols t then Z.shiftl narrowest_inner_tile_sb mib_size_log2 else -1)).

Definition av1_calculate_tile_rows (mib_size_log2 cm_mi_rows : Z) (t : CommonTileParams)
  : option CommonTileParams :=
  let sb_rows := CEIL_POWER_OF_TWO cm_mi_rows mib_size_log2 in
  if t_uniform_spacing t then
    let size_sb := CEIL_POWER_OF_TWO sb_rows (t_log2_rows t) in
    '(i, a) ← uniform_loop 66 0 0 size_sb sb_rows (t_row_start_sb t);
    a ← arr_set a i sb_rows;
    Some (with_rows t (t_log2_rows t) i (Z.min (Z.shiftl size_sb mib_size_log2) cm_mi_rows) a)
  else
    log2_rows ← tile_log2 1 (t_rows t);
    Some (with_rows t log2_rows (t_rows t) (t_height t) (t_row_start_sb t)).

(** ** One tile *)

Definition av1_tile_set_row (tile : TileInfo) (cm : AV1_COMMON) (row : Z) : option TileInfo :=
  s ← arr_get (t_row_start_sb (tiles cm)) row;
  e ← arr_get (t_row_start_sb (tiles cm)) (row + 1);
  Some {| tile_row := row; mi_row_start := Z.shiftl s (mib_size_log2 cm);
          mi_row_end := Z.min (Z.shiftl e (mib_size_log2 cm)) (mi_rows cm);
          tile_col := tile_col tile; mi_col_start := mi_col_start tile;
          mi_col_end := mi_col_end tile |}.

Definition av1_tile_set_col (tile : TileInfo) (cm : AV1_COMMON) (col : Z) : option TileInfo :=
  s ← arr_get (t_col_start_sb (tiles cm)) col;
  e ← arr_get (t_col_start_sb (tiles cm)) (col + 1);
  Some {| tile_row := tile_row tile; mi_row_start := mi_row_start tile;
          mi_row_end := mi_row_end tile;
          tile_col := col; mi_col_start := Z.shiftl s (mib_size_log2 cm);
          mi_col_end := Z.min (Z.shiftl e (mib_size_log2 cm)) (mi_cols cm) |}.

Definition av1_tile_init (tile : TileInfo) (cm : AV1_COMMON) (row col : Z) : option TileInfo :=
  tile ← av1_tile_set_row tile cm row; av1_tile_set_col tile cm col.

Definition av1_get_sb_rows_in_tile (cm : AV1_COMMON) (tile : TileInfo) : Z :=
  CEIL_POWER_OF_TWO (mi_row_end tile - mi_row_start tile) (mib_size_log2 cm).

Definition av1_get_sb_cols_in_tile (cm : AV1_COMMON) (tile : TileInfo) : Z :=
  CEIL_POWER_OF_TWO (mi_col_end tile - mi_col_start tile) (mib_size_log2 cm).

(** One of the two loops of [av1_get_uniform_tile_size]: [Some (Some v)] when all
    [left] sizes from index [i] on agree, [Some None] for [return false]; [v] is
    what [*w] or [*h] holds on entry. *)
Fixpoint same_size_loop (left : nat) (i mib : Z) (a : list Z) (v : Z) : option (option Z) :=
  match left with
  | O => Some (Some v)
  | S left' =>
      e ← arr_get a (i + 1); s ← arr_get a i;
      let tile_sz := (e - s) * mib in
      if negb (i =? 0) && negb (tile_sz =? v) then Some None
      else same_size_loop left' (i + 1) mib a tile_sz
  end.

(** The outer option is memory safety, the inner one the returned [bool]; [w] and
    [h] are the caller's variables. *)
Definition av1_get_uniform_tile_size (cm : AV1_COMMON) (w h : Z) : option (option (Z * Z)) :=
  let t := tiles cm in
  if t_uniform_spacing t then Some (Some (t_width t, t_height t))
  else
    rw ← same_size_loop (Z.to_nat (t_cols t)) 0 (mib_size cm) (t_col_start_sb t) w;
    match rw with
    | None => Some None
    | Some w =>
        rh ← same_size_loop (Z.to_nat (t_rows t)) 0 (mib_size cm) (t_row_start_sb t) h;
        match rh with None => Some None | Some h => Some (Some (w, h)) end
    end.

Definition av1_superres_scaled (cm : AV1_COMMON) : bool :=
  negb (cm_width cm =? superres_upscaled_width cm).

Definition av1_is_min_tile_width_satisfied (cm : AV1_COMMON) : bool :=
  if t_cols (tiles cm) =? 1 then true
  else Z.shiftl 64 (b2z (av1_superres_scaled cm))
       <=? Z.shiftl (t_min_inner_width (tiles cm)) MI_SIZE_LOG2.

(** ** Arithmetic *)

Lemma ceil_spec v n : 0 <= n -> 1 <= v ->
  1 <= CEIL_POWER_OF_TWO v n /\ (CEIL_POWER_OF_TWO v n - 1) * 2 ^ n < v <= CEIL_POWER_OF_TWO v n * 2 ^ n.
Proof.
  intros Hn Hv. unfold CEIL_POWER_OF_TWO.
  rewrite Z.shiftl_mul_pow2, Z.shiftr_div_pow2, Z.mul_1_l by lia.
  pose proof (pow2_pos n Hn) as Hp. set (p := 2 ^ n) in *.
  pose proof (Z.div_mod (v + p - 1) p ltac:(lia)). pose proof (Z.mod_pos_bound (v + p - 1) p Hp).
  set (q := (v + p - 1) / p) in *. assert (0 < q) by nia. nia.
Qed.

Lemma ceil_unique v n q : 0 <= n -> (q - 1) * 2 ^ n < v <= q * 2 ^ n -> CEIL_POWER_OF_TWO v n = q.
Proof.
  intros Hn Hv. unfold CEIL_POWER_OF_TWO.
  rewrite Z.shiftl_mul_pow2, Z.shiftr_div_pow2, Z.mul_1_l by lia.
  pose proof (pow2_pos n Hn). symmetry.
  apply (Z.div_unique _ _ q (v + 2 ^ n - 1 - 2 ^ n * q)); lia.
Qed.

Lemma tile_log2_loop_ok fuel k blk target :
  0 <= k -> 1 <= blk -> target <= 2 ^ (k + Z.of_nat fuel - 1) -> (0 < fuel)%nat ->
  (k = 0 \/ blk * 2 ^ (k - 1) < target) ->
  exists j, tile_log2_loop fuel k blk target = Some j /\ k <= j /\ target <= blk * 2 ^ j /\
    (j = 0 \/ blk * 2 ^ (j - 1) < target).
Proof.
  revert k. induction fuel as [|fuel IH]; intros k Hk Hb Ht Hf Hlow; [lia |].
  cbn [tile_log2_loop]. rewrite Z.shiftl_mul_pow2 by lia.
  destruct (Z.ltb_spec (blk * 2 ^ k) target) as [Hlt | Hge]; [| exists k; split_and!; done || lia].
  destruct fuel as [|fuel].
  { exfalso. replace (k + Z.of_nat 1 - 1) with k in Ht by lia. pose proof (pow2_pos k Hk). nia. }
  destruct (IH (k + 1)) as (j & E & Hj & Hr); try lia.
  - by replace (k + 1 + Z.of_nat (S fuel) - 1) with (k + Z.of_nat (S (S fuel)) - 1) by lia.
  - right. by replace (k + 1 - 1) with k by lia.
  - exists j. split_and!; [done | lia | apply Hr | apply Hr].
Qed.

(** [tile_log2] is the least [k] with [blk_size << k >= target]. *)
Lemma tile_log2_ok blk target : 1 <= blk -> target <= 2 ^ 31 ->
  exists k, tile_log2 blk target = Some k /\ 0 <= k /\ target <= blk * 2 ^ k /\
    (k = 0 \/ blk * 2 ^ (k - 1) < target).
Proof. intros. apply tile_log2_loop_ok; simpl; lia || (by left). Qed.

Lemma tile_log2_le blk target k j : 0 <= j ->
  tile_log2 blk target = Some k -> 1 <= blk -> target <= 2 ^ 31 -> target <= blk * 2 ^ j -> k <= j.
Proof.
  intros Hj E Hb Ht Hle. destruct (tile_log2_ok blk target Hb Ht) as (k' & E' & Hk & _ & Hlow).
  rewrite E in E'. injection E' as <-. destruct Hlow as [-> | Hlow]; [lia |].
  destruct (Z.le_gt_cases k j) as [| Hgt]; [done |].
  pose proof (pow2_le j (k - 1) ltac:(lia)). nia.
Qed.

(** ** Cuts

    The first [k] tiles of a start array divide [0, n) into non-empty intervals. *)

Definition cut (a : list Z) (k n : Z) : Prop :=
  Z.of_nat (length a) = 65 /\ 1 <= k <= 64 /\ nthz a 0 = 0 /\ nthz a k = n /\
  forall i, 0 <= i < k -> nthz a i < nthz a (i + 1).

Section Cut.
Context (a : list Z) (k n : Z) (Hcut : cut a k n).

Lemma cut_get i : 0 <= i <= k -> arr_get a i = Some (nthz a i).
Proof. intros Hi. destruct Hcut as (Hl & Hk & _). apply arr_get_nth. lia. Qed.

Lemma cut_mono i j : 0 <= i -> i < j -> j <= k -> nthz a i < nthz a j.
Proof.
  intros Hi Hij Hj. destruct Hcut as (_ & _ & _ & _ & Hs).
  assert (exists d, j = i + 1 + Z.of_nat d) as [d ->] by (exists (Z.to_nat (j - i - 1)); lia).
  clear Hij. induction d as [|d IH].
  - replace (i + 1 + Z.of_nat 0) with (i + 1) by lia. apply Hs. lia.
  - replace (i + 1 + Z.of_nat (S d)) with (i + 1 + Z.of_nat d + 1) in * by lia.
    specialize (Hs (i + 1 + Z.of_nat d) ltac:(lia)). specialize (IH ltac:(lia)). lia.
Qed.

Lemma cut_le i j : 0 <= i <= j -> j <= k -> nthz a i <= nthz a j.
Proof.
  intros Hi Hj. destruct (Z.eq_dec i j) as [-> | Hne]; [lia |].
  pose proof (cut_mono i j). lia.
Qed.

Lemma cut_find x : 0 <= x < n -> exists i, 0 <= i < k /\ nthz a i <= x < nthz a (i + 1).
Proof.
  intros Hx. destruct Hcut as (_ & Hk & H0 & Hn & Hs).
  assert (Hd : forall d, Z.of_nat d <= k ->
    (exists i, 0 <= i < Z.of_nat d /\ nthz a i <= x < nthz a (i + 1)) \/ nthz a (Z.of_nat d) <= x).
  { induction d as [|d IH]; intros Hd; [right; change (Z.of_nat 0) with 0; lia |].
    destruct IH as [(i & Hi & Hr) | Hle]; [lia | left; exists i; split; [lia | done] |].
    replace (Z.of_nat (S d)) with (Z.of_nat d + 1) by lia.
    destruct (Z.lt_ge_cases x (nthz a (Z.of_nat d + 1))); [left | by right].
    exists (Z.of_nat d). split; lia. }
  destruct (Hd (Z.to_nat k)) as [(i & Hi & Hr) | Hle]; [lia | exists i; split; [lia | done] |].
  rewrite Z2Nat.id in Hle by lia. lia.
Qed.

Lemma cut_unique x i j : 0 <= i < k -> 0 <= j < k ->
  nthz a i <= x < nthz a (i + 1) -> nthz a j <= x < nthz a (j + 1) -> i = j.
Proof.
  intros Hi Hj Hxi Hxj. destruct (Z.lt_trichotomy i j) as [Hl | [-> | Hl]]; [| done |];
    exfalso; [pose proof (cut_le (i + 1) j) | pose proof (cut_le (j + 1) i)]; lia.
Qed.
End Cut.

(** The uniform loop stores the multiples of [size] below [n]. *)
Lemma uniform_loop_ok size n k fuel i a :
  1 <= size -> (k - 1) * size < n <= k * size -> 0 <= i <= k -> k <= 65 -> k - i < Z.of_nat fuel ->
  Z.of_nat (length a) = 65 ->
  exists a', uniform_loop fuel i (i * size) size n a = Some (k, a') /\
    Z.of_nat (length a') = 65 /\ (forall j, i <= j < k -> nthz a' j = j * size) /\
    (forall j, 0 <= j < i -> nthz a' j = nthz a j).
Proof.
  intros Hsz Hn. revert i a. induction fuel as [|fuel IH]; intros i a Hi Hk Hf Hl; [lia |].
  cbn [uniform_loop]. destruct (Z.ltb_spec (i * size) n) as [Hlt | Hge].
  - assert (i < k) by nia.
    destruct (arr_set_ok a i (i * size)) as (a1 & E1 & L1 & N1 & O1); [lia |].
    rewrite E1. cbn [mbind option_bind].
    replace (i * size + size) with ((i + 1) * size) by lia.
    destruct (IH (i + 1) a1) as (a' & E & L & N & O); try lia.
    exists a'. split_and!; [done | done | |].
    + intros j Hj. destruct (Z.eq_dec j i) as [-> | Hne]; [| apply N; lia]. rewrite O by lia. done.
    + intros j Hj. rewrite O, O1 by lia. done.
  - assert (i = k) as -> by nia. exists a. split_and!; try done. intros j Hj. lia.
Qed.

Lemma uniform_cut n lg a :
  0 <= lg <= 6 -> 1 <= n -> Z.of_nat (length a) = 65 ->
  exists k a1 a', uniform_loop 66 0 0 (CEIL_POWER_OF_TWO n lg) n a = Some (k, a1) /\
    arr_set a1 k n = Some a' /\ cut a' k n /\ k <= 2 ^ lg /\ (1 <= lg -> 2 <= n -> 2 <= k) /\
    forall j, 0 <= j < k -> nthz a' (j + 1) - nthz a' j <= CEIL_POWER_OF_TWO n lg.
Proof.
  intros Hlg Hn Hl. destruct (ceil_spec n lg ltac:(lia) Hn) as [Hs Hr].
  set (size := CEIL_POWER_OF_TWO n lg) in *. pose proof (pow2_pos lg ltac:(lia)).
  pose proof (pow2_le lg 6 ltac:(lia)). change (2 ^ 6) with 64 in *.
  pose proof (Z.div_mod (n + size - 1) size ltac:(lia)).
  pose proof (Z.mod_pos_bound (n + size - 1) size ltac:(lia)).
  set (k := (n + size - 1) / size) in *.
  assert ((k - 1) * size < n <= k * size) as Hk by lia. assert (1 <= k) by nia.
  assert (k <= 2 ^ lg) by nia.
  destruct (uniform_loop_ok size n k 66 0 a) as (a1 & E & L & N & _); try lia.
  destruct (arr_set_ok a1 k n) as (a' & E' & L' & N' & O'); [lia |].
  exists k, a1, a'. split; [exact E |]. split; [exact E' |].
  assert (Hj : forall j, 0 <= j < k -> nthz a' j = j * size) by (intros; rewrite O', N by lia; done).
  assert (Hstep : forall j, 0 <= j < k -> nthz a' j < nthz a' (j + 1) <= nthz a' j + size).
  { intros j Hjk. rewrite Hj by lia.
    destruct (Z.eq_dec (j + 1) k) as [Ej | Hne]; [| rewrite Hj by lia; lia].
    rewrite Ej, N'. assert (j * size = (k - 1) * size) by (f_equal; lia). lia. }
  split_and!; [| done | | intros j Hjk; specialize (Hstep j Hjk); lia].
  2: { intros Hlg1 Hn2. pose proof (pow2_le 1 lg ltac:(lia)). change (2 ^ 1) with 2 in *.
       destruct (Z.le_gt_cases 2 k); [done | exfalso]. assert (k = 1) as Ek by lia.
       rewrite Ek in Hk. nia. }
  unfold cut. split_and!; try lia; [by rewrite Hj by lia | intros; by apply Hstep].
Qed.

(** ** Tilings of a frame *)

(** The sizes AV1 allows: 65536 pixels a side, superblocks of 64 or 128 pixels. *)
Definition frame_ok (cm : AV1_COMMON) : Prop :=
  1 <= mi_rows cm <= 16384 /\ 1 <= mi_cols cm <= 16384 /\
  (mib_size_log2 cm = 4 \/ mib_size_log2 cm = 5) /\ mib_size cm = 2 ^ mib_size_log2 cm /\
  Z.of_nat (length (t_col_start_sb (tiles cm))) = 65 /\
  Z.of_nat (length (t_row_start_sb (tiles cm))) = 65.

Definition tiling (cm : AV1_COMMON) : Prop :=
  cut (t_col_start_sb (tiles cm)) (t_cols (tiles cm)) (sb_cols_of cm) /\
  cut (t_row_start_sb (tiles cm)) (t_rows (tiles cm)) (sb_rows_of cm).

Definition in_tile (ti : TileInfo) (r c : Z) : Prop :=
  mi_row_start ti <= r < mi_row_end ti /\ mi_col_start ti <= c < mi_col_end ti.

(** The [mi] interval of one tile of a cut, as the setters compute it. *)
Lemma cut_interval a k n b total i :
  cut a k n -> 0 <= b -> 1 <= total -> n = CEIL_POWER_OF_TWO total b -> 0 <= i < k ->
  0 <= Z.shiftl (nthz a i) b < Z.min (Z.shiftl (nthz a (i + 1)) b) total /\
  CEIL_POWER_OF_TWO (Z.min (Z.shiftl (nthz a (i + 1)) b) total - Z.shiftl (nthz a i) b) b
    = nthz a (i + 1) - nthz a i /\
  forall x, 0 <= x < total ->
    (Z.shiftl (nthz a i) b <= x < Z.min (Z.shiftl (nthz a (i + 1)) b) total <->
     nthz a i <= x / 2 ^ b < nthz a (i + 1)).
Proof.
  intros Hc Hb Ht Hn Hi. rewrite !Z.shiftl_mul_pow2 by lia.
  destruct (ceil_spec total b Hb Ht) as [Hc1 Hc2]. rewrite <- Hn in Hc1, Hc2.
  pose proof (cut_mono a k n Hc i (i + 1) ltac:(lia) ltac:(lia) ltac:(lia)).
  pose proof (cut_le a k n Hc 0 i ltac:(lia) ltac:(lia)).
  pose proof (cut_le a k n Hc (i + 1) k ltac:(lia) ltac:(lia)).
  destruct Hc as (_ & _ & Hz & Hk & _). rewrite Hz, Hk in *.
  pose proof (pow2_pos b Hb). set (p := 2 ^ b) in *. set (x := nthz a i) in *.
  set (y := nthz a (i + 1)) in *.
  assert ((y - 1) * p < total) by nia. assert (x * p <= (y - 1) * p) by nia.
  split_and!; [nia | lia | |].
  - apply ceil_unique; [done |]. fold p. destruct (Z.min_spec (y * p) total); nia.
  - intros z Hzr. pose proof (Z.div_mod z p ltac:(lia)). pose proof (Z.mod_pos_bound z p ltac:(lia)).
    split; intros; destruct (Z.min_spec (y * p) total); nia.
Qed.

Lemma cut_covers a k n b total x :
  cut a k n -> 0 <= b -> 1 <= total -> n = CEIL_POWER_OF_TWO total b -> 0 <= x < total ->
  0 <= x / 2 ^ b < n.
Proof.
  intros Hc Hb Ht Hn Hx. destruct (ceil_spec total b Hb Ht) as [_ Hc2]. rewrite <- Hn in Hc2.
  pose proof (pow2_pos b Hb). split; [apply Z.div_pos; lia |].
  apply Z.div_lt_upper_bound; lia.
Qed.

Lemma tile_init_ok cm t0 row col :
  frame_ok cm -> tiling cm -> 0 <= row < t_rows (tiles cm) -> 0 <= col < t_cols (tiles cm) ->
  exists ti, av1_tile_init t0 cm row col = Some ti /\ tile_row ti = row /\ tile_col ti = col /\
    0 <= mi_row_start ti < mi_row_end ti /\ mi_row_end ti <= mi_rows cm /\
    0 <= mi_col_start ti < mi_col_end ti /\ mi_col_end ti <= mi_cols cm /\
    av1_get_sb_rows_in_tile cm ti =
      nthz (t_row_start_sb (tiles cm)) (row + 1) - nthz (t_row_start_sb (tiles cm)) row /\
    av1_get_sb_cols_in_tile cm ti =
      nthz (t_col_start_sb (tiles cm)) (col + 1) - nthz (t_col_start_sb (tiles cm)) col /\
    forall r c, 0 <= r < mi_rows cm -> 0 <= c < mi_cols cm ->
      (in_tile ti r c <->
       nthz (t_row_start_sb (tiles cm)) row <= r / 2 ^ mib_size_log2 cm
         < nthz (t_row_start_sb (tiles cm)) (row + 1) /\
       nthz (t_col_start_sb (tiles cm)) col <= c / 2 ^ mib_size_log2 cm
         < nthz (t_col_start_sb (tiles cm)) (col + 1)).
Proof.
  intros (Hr & Hc & Hb & _) [Hcc Hcr] Hrow Hcol.
  assert (0 <= mib_size_log2 cm) as Hb0 by lia.
  destruct (cut_interval _ _ _ _ (mi_rows cm) row Hcr Hb0 ltac:(lia) eq_refl Hrow) as (R1 & R2 & R3).
  destruct (cut_interval _ _ _ _ (mi_cols cm) col Hcc Hb0 ltac:(lia) eq_refl Hcol) as (C1 & C2 & C3).
  unfold av1_tile_init, av1_tile_set_row, av1_tile_set_col.
  rewrite !(cut_get _ _ _ Hcr) by lia. cbn [mbind option_bind].
  rewrite !(cut_get _ _ _ Hcc) by lia. cbn [mbind option_bind].
  eexists. split; [done |]. unfold av1_get_sb_rows_in_tile, av1_get_sb_cols_in_tile, in_tile.
  cbn [tile_row tile_col mi_row_start mi_row_end mi_col_start mi_col_end].
  split_and!; try done; try lia. intros r c Hrr Hcr'. by rewrite R3, C3.
Qed.

(** C36: A tiled frame is partitioned by its tiles: every tile [av1_tile_init] sets up is a
    non-empty rectangle inside the frame spanning the superblocks of its row and
    column, and every 4x4 unit of the frame belongs to exactly one tile. *)
Theorem tiles_partition_frame cm t0 :
  frame_ok cm -> tiling cm ->
  (forall row col, 0 <= row < t_rows (tiles cm) -> 0 <= col < t_cols (tiles cm) ->
     exists ti, av1_tile_init t0 cm row col = Some ti /\
       0 <= mi_row_start ti < mi_row_end ti /\ mi_row_end ti <= mi_rows cm /\
       0 <= mi_col_start ti < mi_col_end ti /\ mi_col_end ti <= mi_cols cm /\
       av1_get_sb_rows_in_tile cm ti =
         nthz (t_row_start_sb (tiles cm)) (row + 1) - nthz (t_row_start_sb (tiles cm)) row /\
       av1_get_sb_cols_in_tile cm ti =
         nthz (t_col_start_sb (tiles cm)) (col + 1) - nthz (t_col_start_sb (tiles cm)) col) /\
  (forall r c, 0 <= r < mi_rows cm -> 0 <= c < mi_cols cm ->
     exists row col ti,
       0 <= row < t_rows (tiles cm) /\ 0 <= col < t_cols (tiles cm) /\
       av1_tile_init t0 cm row col = Some ti /\ in_tile ti r c /\
       forall row' col' ti', 0 <= row' < t_rows (tiles cm) -> 0 <= col' < t_cols (tiles cm) ->
         av1_tile_init t0 cm row' col' = Some ti' -> in_tile ti' r c ->
         row' = row /\ col' = col /\ ti' = ti).
Proof.
  intros Hf Ht. split.
  { intros row col Hrow Hcol. destruct (tile_init_ok cm t0 row col Hf Ht Hrow Hcol)
      as (ti & E & _ & _ & H1 & H2 & H3 & H4 & H5 & H6 & _). by exists ti. }
  intros r c Hr Hc. pose proof Ht as [Hcc Hcr]. pose proof Hf as (Hmr & Hmc & Hb & _).
  assert (0 <= mib_size_log2 cm) as Hb0 by lia.
  destruct (cut_find _ _ _ Hcr (r / 2 ^ mib_size_log2 cm)) as (row & Hrow & Hir).
  { eapply cut_covers; [exact Hcr | done | | reflexivity | done]. lia. }
  destruct (cut_find _ _ _ Hcc (c / 2 ^ mib_size_log2 cm)) as (col & Hcol & Hic).
  { eapply cut_covers; [exact Hcc | done | | reflexivity | done]. lia. }
  destruct (tile_init_ok cm t0 row col Hf Ht Hrow Hcol) as (ti & E & _ & _ & _ & _ & _ & _ & _ & _ & Hin).
  exists row, col, ti. split_and!; try done; try lia; [by apply Hin |].
  intros row' col' ti' Hrow' Hcol' E' Hin'.
  destruct (tile_init_ok cm t0 row' col' Hf Ht Hrow' Hcol')
    as (ti2 & E2 & _ & _ & _ & _ & _ & _ & _ & _ & Hin2).
  rewrite E' in E2. injection E2 as <-. apply Hin2 in Hin' as [Hr2 Hc2]; [| done | done].
  assert (row' = row) as -> by (eapply (cut_unique _ _ _ Hcr); eauto).
  assert (col' = col) as -> by (eapply (cut_unique _ _ _ Hcc); eauto).
  rewrite E in E'. injection E' as <-. done.
Qed.

(** 256x192 pixels in superblocks of 64: a uniform 2x2 tiling of 4x3 superblocks. *)
Definition demo_starts (l : list Z) : list Z := l ++ replicate (65 - length l) 0.

Definition demo_cm : AV1_COMMON :=
  {| mi_rows := 48; mi_cols := 64; mib_size := 16; mib_size_log2 := 4; cm_width := 256;
     superres_upscaled_width := 256; superres_scale_denominator := 8;
     tiles := {| t_cols := 2; t_rows := 2; t_max_width_sb := 64; t_max_height_sb := 3;
                 t_min_inner_width := 32; t_uniform_spacing := true; t_log2_cols := 1;
                 t_log2_rows := 1; t_width := 32; t_height := 32; t_min_log2_cols := 0;
                 t_min_log2_rows := 0; t_max_log2_cols := 2; t_max_log2_rows := 2;
                 t_min_log2 := 0; t_col_start_sb := demo_starts [0; 2; 4];
                 t_row_start_sb := demo_starts [0; 2; 3] |} |}.

Definition demo_tile : TileInfo :=
  {| mi_row_start := 0; mi_row_end := 0; mi_col_start := 0; mi_col_end := 0;
     tile_row := 0; tile_col := 0 |}.

Lemma demo_frame_ok : frame_ok demo_cm.
Proof. unfold frame_ok; simpl; split_and!; lia || (by left). Qed.

Lemma demo_tiling : tiling demo_cm.
Proof.
  unfold tiling, cut; split; (split_and!; [done | done | done | done | done |]);
    intros i Hi; assert (i = 0 \/ i = 1) as [-> | ->] by (simpl in Hi; lia); done.
Qed.

Lemma tiles_partition_frame_witness :
  frame_ok demo_cm /\ tiling demo_cm /\
  exists row col ti, 0 <= row < 2 /\ 0 <= col < 2 /\
    av1_tile_init demo_tile demo_cm row col = Some ti /\ in_tile ti 40 31.
Proof.
  split; [exact demo_frame_ok |]. split; [exact demo_tiling |].
  destruct (tiles_partition_frame demo_cm demo_tile demo_frame_ok demo_tiling) as [_ Hcover].
  destruct (Hcover 40 31 ltac:(simpl; lia) ltac:(simpl; lia))
    as (row & col & ti & Hrow & Hcol & E & Hin & _).
  exists row, col, ti. auto.
Defined.
