(* ===== verification/TxbContext.v ===== *)
(** * Contexts between transform blocks

    A coded block leaves a byte, its entropy context, above the blocks below it and to the
    left of the blocks to its right: the sum of its magnitudes, capped, and the sign of
    its first coefficient.  [get_txb_ctx] ([av1/common/txb_common.h]) makes the contexts of
    a block from these bytes, [av1_set_entropy_contexts] ([av1/common/blockd.c]) stores them.

    The code finds the largest neighbour with bitwise or, loads several bytes at once, and
    looks results up in tables; here it is compared with the rule in the comments. *)

From S2P Require Import Prelude CodecTypes TxCommon Tile.

#[local] Arguments Z.of_nat : simpl never.
#[local] Arguments Z.mul : simpl never.

(** ** [entropy.h] *)

(** [*(const uintN_t * )p]: [n] bytes, lowest first. *)
Fixpoint load_le (n : nat) (p : list Z) (i : Z) : option Z :=
  match n with
  | O => Some 0
  | S n' => b ← arr_get p i; v ← load_le n' p (i + 1); Some (u8 b + 256 * v)
  end.

Definition nonzero (o : option Z) : option Z := v ← o; Some (b2z (negb (v =? 0))).

Definition combine_entropy_contexts (a b : Z) : Z := b2z (negb (a =? 0)) + b2z (negb (b =? 0)).

(** The two words of a 64-sample edge. *)
Definition load_16 (p : list Z) : option Z := x ← load_le 8 p 0; y ← load_le 8 p 8; Some (Z.lor x y).

Definition get_entropy_context (tx_size : TX_SIZE) (a l : list Z) : option Z :=
  let u8 p := nonzero (arr_get p 0) in
  let u16 p := nonzero (load_le 2 p 0) in
  let u32 p := nonzero (load_le 4 p 0) in
  let u64 p := nonzero (load_le 8 p 0) in
  let u128 p := nonzero (load_16 p) in
  let '(above_ec, left_ec) :=
    match tx_size with
    | TX_4X4 => (u8 a, u8 l)
    | TX_4X8 => (u8 a, u16 l)
    | TX_8X4 => (u16 a, u8 l)
    | TX_8X16 => (u16 a, u32 l)
    | TX_16X8 => (u32 a, u16 l)
    | TX_16X32 => (u32 a, u64 l)
    | TX_32X16 => (u64 a, u32 l)
    | TX_8X8 => (u16 a, u16 l)
    | TX_16X16 => (u32 a, u32 l)
    | TX_32X32 => (u64 a, u64 l)
    | TX_64X64 => (u128 a, u128 l)
    | TX_32X64 => (u64 a, u128 l)
    | TX_64X32 => (u128 a, u64 l)
    | TX_4X16 => (u8 a, u32 l)
    | TX_16X4 => (u32 a, u8 l)
    | TX_8X32 => (u16 a, u64 l)
    | TX_32X8 => (u64 a, u16 l)
    | TX_16X64 => (u32 a, u128 l)
    | TX_64X16 => (u128 a, u32 l)
    end in
  above_ec ← above_ec; left_ec ← left_ec;
  Some (combine_entropy_contexts above_ec left_ec).

(** ** [txb_common.h] *)

Record TXB_CTX := { txb_skip_ctx : Z; dc_sign_ctx : Z }.

Definition MAX_TX_SIZE_UNIT : Z := 16.

(** [do { dc_sign += kTxbCtxSigns[((uint8_t)p[k]) >> COEFF_CONTEXT_BITS]; } while (++k < n)]:
    [n] of them from [k]. *)
Fixpoint sign_loop (n : nat) (p : list Z) (k dc_sign : Z) : option Z :=
  match n with
  | O => Some dc_sign
  | S n' =>
      x ← arr_get p k;
      s ← arr_get kTxbCtxSigns (Z.shiftr (u8 x) COEFF_CONTEXT_BITS);
      sign_loop n' p (k + 1) (dc_sign + s)
  end.

(** [do { top |= p[k]; } while (++k < n)] *)
Fixpoint or_loop (n : nat) (p : list Z) (k top : Z) : option Z :=
  match n with
  | O => Some top
  | S n' => x ← arr_get p k; or_loop n' p (k + 1) (Z.lor top x)
  end.

Definition get_txb_ctx_general (plane_bsize : BLOCK_SIZE) (tx_size : TX_SIZE) (plane : Z) (a l : list Z)
  : option TXB_CTX :=
  let txb_w_unit := Z.to_nat (tx_size_wide_unit tx_size) in
  let txb_h_unit := Z.to_nat (tx_size_high_unit tx_size) in
  dc_sign ← sign_loop txb_w_unit a 0 0;
  dc_sign ← sign_loop txb_h_unit l 0 dc_sign;
  dc_sign_ctx ← arr_get kTxbCtxDcSignContexts (dc_sign + 2 * MAX_TX_SIZE_UNIT);
  txb_skip_ctx ←
    (if plane =? 0 then
       if decide (plane_bsize = txsize_to_bsize tx_size) then Some 0
       else
         top ← or_loop txb_w_unit a 0 0;
         let top := Z.min (Z.land top COEFF_CONTEXT_MASK) 4 in
         left ← or_loop txb_h_unit l 0 0;
         let left := Z.min (Z.land left COEFF_CONTEXT_MASK) 4 in
         row ← kTxbCtxSkipContexts !! Z.to_nat top;
         arr_get row left
     else
       ctx_base ← get_entropy_context tx_size a l;
       let ctx_offset :=
         if num_pels_log2_lookup (txsize_to_bsize tx_size) <? num_pels_log2_lookup plane_bsize then 10 else 7 in
       Some (ctx_base + ctx_offset));
  Some {| txb_skip_ctx := txb_skip_ctx; dc_sign_ctx := dc_sign_ctx |}.

(** [SPECIALIZE_GET_TXB_CTX] repeats the body for a fixed size. *)
Definition get_txb_ctx_4x4 (plane_bsize : BLOCK_SIZE) := get_txb_ctx_general plane_bsize TX_4X4.
Definition get_txb_ctx_8x8 (plane_bsize : BLOCK_SIZE) := get_txb_ctx_general plane_bsize TX_8X8.
Definition get_txb_ctx_16x16 (plane_bsize : BLOCK_SIZE) := get_txb_ctx_general plane_bsize TX_16X16.
Definition get_txb_ctx_32x32 (plane_bsize : BLOCK_SIZE) := get_txb_ctx_general plane_bsize TX_32X32.

Definition get_txb_ctx (plane_bsize : BLOCK_SIZE) (tx_size : TX_SIZE) (plane : Z) (a l : list Z)
  : option TXB_CTX :=
  match tx_size with
  | TX_4X4 => get_txb_ctx_4x4 plane_bsize plane a l
  | TX_8X8 => get_txb_ctx_8x8 plane_bsize plane a l
  | TX_16X16 => get_txb_ctx_16x16 plane_bsize plane a l
  | TX_32X32 => get_txb_ctx_32x32 plane_bsize plane a l
  | _ => get_txb_ctx_general plane_bsize tx_size plane a l
  end.

(** ** The rule

    A context byte is below 24: a magnitude in its three low bits, and 0, 1 (negative) or
    2 (positive) above. *)

Definition ectx_ok (x : Z) : Prop := 0 <= x < 24.

Definition ectx_sign (x : Z) : Z := if x <? 8 then 0 else if x <? 16 then -1 else 1.
Definition ectx_mag (x : Z) : Z := x mod 8.

Definition dc_rule (xs : list Z) : Z :=
  let s := foldr (fun x s => ectx_sign x + s) 0 xs in
  if s <? 0 then 1 else if 0 <? s then 2 else 0.

Definition max_mag (xs : list Z) : Z := foldr (fun x m => Z.max (ectx_mag x) m) 0 xs.

(** The rule for luma, from the largest magnitudes above and to the left. *)
Definition luma_rule (top left : Z) : Z :=
  let max := Z.max top left in
  let min := Z.min top left in
  if max =? 0 then 1
  else if min =? 0 then 2 + b2z (3 <? max)
  else if max <=? 3 then 4
  else if min <=? 3 then 5
  else 6.

Definition any_nonzero (xs : list Z) : Z := b2z (existsb (fun x => negb (x =? 0)) xs).

Definition skip_rule (plane_bsize : BLOCK_SIZE) (tx_size : TX_SIZE) (plane : Z) (above left : list Z) : Z :=
  if plane =? 0 then
    if decide (plane_bsize = txsize_to_bsize tx_size) then 0 else luma_rule (max_mag above) (max_mag left)
  else
    any_nonzero above + any_nonzero left +
    (if num_pels_log2_lookup (txsize_to_bsize tx_size) <? num_pels_log2_lookup plane_bsize then 10 else 7).

(** ** The code follows the rule *)

Lemma take_S_get (p : list Z) k n : 0 <= k -> k + 1 + Z.of_nat n <= Z.of_nat (length p) ->
  take (S n) (drop (Z.to_nat k) p) = nthz p k :: take n (drop (Z.to_nat (k + 1)) p).
Proof.
  intros Hk Hl. unfold nthz. replace (Z.to_nat (k + 1)) with (S (Z.to_nat k)) by lia.
  assert (p !! Z.to_nat k = Some (nth (Z.to_nat k) p 0)) as E by (apply nth_lookup_Z; lia).
  rewrite (drop_S p _ _ E). done.
Qed.

Lemma ectx_cases (P : Z -> Prop) : (forall i, (i < 24)%nat -> P (Z.of_nat i)) -> forall x, ectx_ok x -> P x.
Proof. intros H x Hx. rewrite <- (Z2Nat.id x) by apply Hx. apply H. destruct Hx. lia. Qed.

Lemma sign_lookup x : ectx_ok x -> arr_get kTxbCtxSigns (Z.shiftr (u8 x) COEFF_CONTEXT_BITS) = Some (ectx_sign x).
Proof. revert x. apply ectx_cases. intros i Hi. do 24 (destruct i; [reflexivity |]). lia. Qed.

(** The largest magnitudes agree with the or of all bytes up to the three classes
    the rule distinguishes. *)
Definition mag_class (m : Z) : Z := if m =? 0 then 0 else if m <=? 3 then 1 else 2.

Lemma mag_class_nonneg m : 0 <= mag_class m.
Proof. unfold mag_class. repeat case_match; lia. Qed.

Lemma class_or x y : 0 <= x < 8 -> 0 <= y < 8 -> mag_class (Z.lor x y) = Z.max (mag_class x) (mag_class y).
Proof.
  assert (H : forallb (fun i => forallb (fun j => let x := Z.of_nat i in let y := Z.of_nat j in
    mag_class (Z.lor x y) =? Z.max (mag_class x) (mag_class y)) (seq 0 8)) (seq 0 8) = true) by (vm_compute; reflexivity).
  intros Hx Hy. rewrite forallb_forall in H. specialize (H (Z.to_nat x) ltac:(apply in_seq; lia)).
  rewrite forallb_forall in H. specialize (H (Z.to_nat y) ltac:(apply in_seq; lia)).
  cbv zeta in H. rewrite !Z2Nat.id in H by lia. lia.
Qed.

Lemma class_max x y : mag_class (Z.max x y) = Z.max (mag_class x) (mag_class y) \/ x < 0 \/ y < 0.
Proof.
  unfold mag_class. destruct (Z.eqb_spec x 0), (Z.eqb_spec y 0), (Z.eqb_spec (Z.max x y) 0),
    (Z.leb_spec x 3), (Z.leb_spec y 3), (Z.leb_spec (Z.max x y) 3); lia.
Qed.

Lemma land7 x : Z.land x COEFF_CONTEXT_MASK = x mod 8.
Proof. change COEFF_CONTEXT_MASK with (Z.ones 3). rewrite Z.land_ones by lia. done. Qed.

Lemma max_mag_nonneg xs : 0 <= max_mag xs.
Proof. induction xs; simpl; lia. Qed.

Section Loops.
Context (p : list Z).

Lemma sign_loop_ok n k acc : 0 <= k -> k + Z.of_nat n <= Z.of_nat (length p) ->
  Forall ectx_ok (take n (drop (Z.to_nat k) p)) ->
  sign_loop n p k acc = Some (acc + foldr (fun x s => ectx_sign x + s) 0 (take n (drop (Z.to_nat k) p))).
Proof.
  revert k acc. induction n as [|n IH]; intros k acc Hk Hl Hf; cbn [sign_loop].
  - by rewrite take_0, Z.add_0_r.
  - rewrite take_S_get in Hf |- * by lia. apply Forall_cons_1 in Hf as [Hx Hf].
    rewrite arr_get_nth by lia. cbn [mbind option_bind]. rewrite sign_lookup by done. cbn [mbind option_bind].
    rewrite IH by (done || lia). cbn [foldr]. f_equal. lia.
Qed.

Lemma or_loop_ok n k acc : 0 <= k -> k + Z.of_nat n <= Z.of_nat (length p) ->
  Forall ectx_ok (take n (drop (Z.to_nat k) p)) -> 0 <= acc ->
  exists v, or_loop n p k acc = Some v /\
    mag_class (v mod 8) = Z.max (mag_class (acc mod 8)) (mag_class (max_mag (take n (drop (Z.to_nat k) p)))).
Proof.
  revert k acc. induction n as [|n IH]; intros k acc Hk Hl Hf Ha; cbn [or_loop].
  - exists acc. split; [done |]. rewrite take_0. cbn. unfold mag_class. repeat case_match; lia.
  - rewrite take_S_get in Hf |- * by lia. apply Forall_cons_1 in Hf as [Hx Hf].
    rewrite arr_get_nth by lia. cbn [mbind option_bind]. set (x := nthz p k) in *.
    destruct (IH (k + 1) (Z.lor acc x)) as (v & -> & Ev); [lia | lia | done | apply Z.lor_nonneg; split; [lia | apply Hx] |].
    exists v. split; [done |]. rewrite Ev. cbn [max_mag foldr]. fold (max_mag (take n (drop (Z.to_nat (k + 1)) p))).
    rewrite <- !land7, Z.land_lor_distr_l, !land7, class_or by (apply Z.mod_pos_bound; lia).
    unfold ectx_mag. destruct (class_max (x mod 8) (max_mag (take n (drop (Z.to_nat (k + 1)) p)))) as [-> | Hneg]; [lia |].
    pose proof (Z.mod_pos_bound x 8 ltac:(lia)). exfalso. destruct Hneg; [lia |].
    pose proof (max_mag_nonneg (take n (drop (Z.to_nat (k + 1)) p))). lia.
Qed.

Lemma load_le_ok n k : 0 <= k -> k + Z.of_nat n <= Z.of_nat (length p) ->
  Forall ectx_ok (take n (drop (Z.to_nat k) p)) ->
  exists v, load_le n p k = Some v /\ 0 <= v /\ (v =? 0) = forallb (fun x => x =? 0) (take n (drop (Z.to_nat k) p)).
Proof.
  revert k. induction n as [|n IH]; intros k Hk Hl Hf; cbn [load_le]; [by exists 0 |].
  rewrite take_S_get in Hf |- * by lia. apply Forall_cons_1 in Hf as [Hx Hf].
  rewrite arr_get_nth by lia. cbn [mbind option_bind].
  destruct (IH (k + 1)) as (v & -> & Hv & Ev); [lia | lia | done |]. cbn [mbind option_bind forallb].
  unfold ectx_ok in Hx. assert (u8 (nthz p k) = nthz p k) as -> by (unfold u8, wrap; apply Z.mod_small; lia).
  eexists. split; [done |]. split; [lia |]. rewrite <- Ev.
  destruct (Z.eqb_spec (nthz p k) 0), (Z.eqb_spec v 0), (Z.eqb_spec (nthz p k + 256 * v) 0); simpl; lia || done.
Qed.
End Loops.

Lemma forallb_zero xs : forallb (fun x => x =? 0) xs = negb (existsb (fun x => negb (x =? 0)) xs).
Proof. induction xs as [|x xs IH]; simpl; [done |]. rewrite IH. by destruct (x =? 0), (existsb _ xs). Qed.

(** The width of a load is the number of units of the edge. *)
Lemma load_edge n p : Z.of_nat n <= Z.of_nat (length p) -> Forall ectx_ok (take n p) ->
  nonzero (load_le n p 0) = Some (any_nonzero (take n p)).
Proof.
  intros Hl Hf. destruct (load_le_ok p n 0) as (v & -> & Hv & Ev); [lia | lia | done |].
  cbn. rewrite Ev, forallb_zero, negb_involutive. done.
Qed.

Lemma load_edge_16 p : 16 <= Z.of_nat (length p) -> Forall ectx_ok (take 16 p) ->
  nonzero (load_16 p) = Some (any_nonzero (take 16 p)).
Proof.
  intros Hl Hf. unfold load_16. replace (take 16 p) with (take 8 p ++ take 8 (drop 8 p)) in *
    by (rewrite take_take_drop; done). apply Forall_app in Hf as [H1 H2].
  destruct (load_le_ok p 8 0) as (x & -> & Hx & Ex); [lia | lia | done |].
  destruct (load_le_ok p 8 8) as (y & -> & Hy & Ey); [lia | lia | done |].
  cbn. unfold any_nonzero. rewrite existsb_app. do 2 f_equal.
  change (Z.to_nat 8) with 8%nat in Ey. change (drop (Z.to_nat 0) p) with p in Ex. rewrite forallb_zero in Ex, Ey.
  pose proof (Z.lor_eq_0_iff x y) as Hor.
  destruct (existsb _ (take 8 p)), (existsb _ (take 8 (drop 8 p))); simpl in *; rewrite ?negb_true_iff, ?negb_false_iff; lia.
Qed.

Lemma load_byte p : 1 <= Z.of_nat (length p) -> nonzero (arr_get p 0) = Some (any_nonzero (take 1 p)).
Proof. destruct p as [|x p]; simpl; [lia |]. intros _. unfold any_nonzero. simpl. by rewrite orb_false_r. Qed.

Section Rule.
Context (plane_bsize : BLOCK_SIZE) (t : TX_SIZE) (plane : Z) (a l : list Z).
#[local] Abbreviation nw := (Z.to_nat (tx_size_wide_unit t)).
#[local] Abbreviation nh := (Z.to_nat (tx_size_high_unit t)).

Record edges_ok : Prop := {
  ed_above : tx_size_wide_unit t <= Z.of_nat (length a);
  ed_left : tx_size_high_unit t <= Z.of_nat (length l);
  ed_above_ok : Forall ectx_ok (take nw a);
  ed_left_ok : Forall ectx_ok (take nh l) }.

Lemma entropy_context_rule : edges_ok ->
  get_entropy_context t a l = Some (any_nonzero (take nw a) + any_nonzero (take nh l)).
Proof.
  intros [Ha Hl Hfa Hfl]. unfold get_entropy_context.
  assert (forall n p, combine_entropy_contexts (any_nonzero n) (any_nonzero p) = any_nonzero n + any_nonzero p) as Hc.
  { intros n p. unfold combine_entropy_contexts, any_nonzero. by destruct (existsb _ n), (existsb _ p). }
  destruct t; cbn [tx_size_wide_unit tx_size_high_unit] in *; cbn in Hfa, Hfl;
    cbn -[load_le load_16 any_nonzero nonzero arr_get combine_entropy_contexts take];
    rewrite ?load_byte, ?(load_edge 2), ?(load_edge 4), ?(load_edge 8), ?load_edge_16 by (done || lia);
    cbn [mbind option_bind]; by rewrite Hc.
Qed.

Lemma units_range : 1 <= tx_size_wide_unit t <= 16 /\ 1 <= tx_size_high_unit t <= 16.
Proof. destruct t; cbn; lia. Qed.

Lemma sign_sum_range xs : Forall ectx_ok xs ->
  - Z.of_nat (length xs) <= foldr (fun x s => ectx_sign x + s) 0 xs <= Z.of_nat (length xs).
Proof.
  induction 1 as [|x xs Hx _ IH]; cbn [foldr length]; [lia |].
  assert (-1 <= ectx_sign x <= 1) by (unfold ectx_sign; repeat case_match; lia). lia.
Qed.

Lemma sign_sum_app xs ys : foldr (fun x s => ectx_sign x + s) 0 (xs ++ ys) =
  foldr (fun x s => ectx_sign x + s) 0 xs + foldr (fun x s => ectx_sign x + s) 0 ys.
Proof. induction xs as [|x xs IH]; simpl; [lia |]. rewrite IH. lia. Qed.

Lemma dc_sign_table s : -32 <= s <= 32 ->
  arr_get kTxbCtxDcSignContexts (s + 2 * MAX_TX_SIZE_UNIT) = Some (if s <? 0 then 1 else if 0 <? s then 2 else 0).
Proof.
  assert (H : forallb (fun i => let s := Z.of_nat i - 32 in
    bool_decide (arr_get kTxbCtxDcSignContexts (s + 2 * MAX_TX_SIZE_UNIT) =
      Some (if s <? 0 then 1 else if 0 <? s then 2 else 0))) (seq 0 65) = true) by (vm_compute; reflexivity).
  intros Hs. rewrite forallb_forall in H. specialize (H (Z.to_nat (s + 32)) ltac:(apply in_seq; lia)).
  cbv zeta in H. rewrite Z2Nat.id, bool_decide_eq_true in H by lia. by replace (s + 32 - 32) with s in H by lia.
Qed.

(** The table of the luma contexts, for all classes of the largest magnitudes. *)
Lemma skip_table top left mt ml : 0 <= top < 8 -> 0 <= left < 8 -> 0 <= mt < 8 -> 0 <= ml < 8 ->
  mag_class top = mag_class mt -> mag_class left = mag_class ml ->
  (row ← kTxbCtxSkipContexts !! Z.to_nat (Z.min top 4); arr_get row (Z.min left 4)) = Some (luma_rule mt ml).
Proof.
  set (test := fun i j m n => let top := Z.of_nat i in let left := Z.of_nat j in
    let mt := Z.of_nat m in let ml := Z.of_nat n in
    negb (mag_class top =? mag_class mt) || negb (mag_class left =? mag_class ml) ||
    bool_decide ((row ← kTxbCtxSkipContexts !! Z.to_nat (Z.min top 4); arr_get row (Z.min left 4))
      = Some (luma_rule mt ml))).
  assert (H : forallb (fun i => forallb (fun j => forallb (fun m => forallb (test i j m) (seq 0 8)) (seq 0 8)) (seq 0 8))
    (seq 0 8) = true) by (vm_compute; reflexivity).
  intros H1 H2 H3 H4 E1 E2. rewrite forallb_forall in H. specialize (H (Z.to_nat top) ltac:(apply in_seq; lia)).
  rewrite forallb_forall in H. specialize (H (Z.to_nat left) ltac:(apply in_seq; lia)).
  rewrite forallb_forall in H. specialize (H (Z.to_nat mt) ltac:(apply in_seq; lia)).
  rewrite forallb_forall in H. specialize (H (Z.to_nat ml) ltac:(apply in_seq; lia)).
  unfold test in H. cbv zeta in H. rewrite !Z2Nat.id, E1, E2, !Z.eqb_refl in H by lia. simpl in H.
  by apply bool_decide_eq_true in H.
Qed.

Lemma max_mag_range xs : 0 <= max_mag xs < 8.
Proof. induction xs as [|x xs IH]; simpl; [lia |]. unfold ectx_mag. pose proof (Z.mod_pos_bound x 8 ltac:(lia)). lia. Qed.

Lemma get_txb_ctx_general_eq : get_txb_ctx plane_bsize t plane a l = get_txb_ctx_general plane_bsize t plane a l.
Proof. by destruct t. Qed.

Lemma get_txb_ctx_rule : edges_ok ->
  get_txb_ctx plane_bsize t plane a l =
    Some {| txb_skip_ctx := skip_rule plane_bsize t plane (take nw a) (take nh l);
            dc_sign_ctx := dc_rule (take nw a ++ take nh l) |}.
Proof.
  intros He. rewrite get_txb_ctx_general_eq. destruct (He) as [Ha Hl Hfa Hfl].
  destruct units_range as [Uw Uh]. unfold get_txb_ctx_general. cbv zeta.
  rewrite (sign_loop_ok a) by (done || lia). cbn [mbind option_bind].
  rewrite (sign_loop_ok l) by (done || lia). cbn [mbind option_bind]. rewrite Z.add_0_l.
  change (drop (Z.to_nat 0) ?x) with x. rewrite <- sign_sum_app.
  assert (Forall ectx_ok (take nw a ++ take nh l)) as Hf by (by apply Forall_app).
  pose proof (sign_sum_range _ Hf) as Hs. rewrite length_app, !length_take in Hs.
  rewrite dc_sign_table by lia. cbn [mbind option_bind]. unfold dc_rule.
  enough ((if plane =? 0 then _ else _) = Some (skip_rule plane_bsize t plane (take nw a) (take nh l))) as ->
    by reflexivity.
  unfold skip_rule. destruct (plane =? 0); [| by rewrite entropy_context_rule].
  destruct (decide _); [done |].
  destruct (or_loop_ok a nw 0 0) as (vt & -> & Et); [lia | lia | done | lia |]. cbn [mbind option_bind].
  destruct (or_loop_ok l nh 0 0) as (vl & -> & El); [lia | lia | done | lia |]. cbn [mbind option_bind].
  change (drop (Z.to_nat 0) ?x) with x in *. rewrite !land7.
  apply skip_table; try apply max_mag_range; try (apply Z.mod_pos_bound; lia).
  - rewrite Et. apply Z.max_r, mag_class_nonneg.
  - rewrite El. apply Z.max_r, mag_class_nonneg.
Qed.

Lemma luma_rule_range top left : 0 <= luma_rule top left < 7.
Proof. unfold luma_rule. cbv zeta. destruct (3 <? Z.max top left); cbn [b2z]; repeat case_match; lia. Qed.

Lemma skip_rule_range above left : 0 <= skip_rule plane_bsize t plane above left < TXB_SKIP_CONTEXTS.
Proof.
  unfold skip_rule, TXB_SKIP_CONTEXTS. pose proof (luma_rule_range (max_mag above) (max_mag left)).
  unfold any_nonzero. destruct (existsb _ above), (existsb _ left); cbn [b2z]; repeat case_match; lia.
Qed.

Lemma dc_rule_range xs : 0 <= dc_rule xs < DC_SIGN_CONTEXTS.
Proof. unfold dc_rule, DC_SIGN_CONTEXTS. repeat case_match; lia. Qed.
End Rule.

(** C30: The contexts [get_txb_ctx] gives a transform block are those of the rule: the sign
    context compares how many neighbours above and to the left have a positive and a
    negative first coefficient, the skip context of luma depends on the largest magnitude
    above and the largest to the left, and that of chroma on whether there is any nonzero
    context above and to the left.  Both select a model. *)
Theorem txb_contexts_follow_rule plane_bsize t plane a l : edges_ok t a l ->
  exists ctx, get_txb_ctx plane_bsize t plane a l = Some ctx /\
    let above := take (Z.to_nat (tx_size_wide_unit t)) a in
    let left := take (Z.to_nat (tx_size_high_unit t)) l in
    txb_skip_ctx ctx = skip_rule plane_bsize t plane above left /\ dc_sign_ctx ctx = dc_rule (above ++ left) /\
    0 <= txb_skip_ctx ctx < TXB_SKIP_CONTEXTS /\ 0 <= dc_sign_ctx ctx < DC_SIGN_CONTEXTS.
Proof.
  intros He. eexists. split; [by apply get_txb_ctx_rule |]. cbn.
  split_and!; [done | done | apply skip_rule_range .. | apply dc_rule_range | apply dc_rule_range].
Qed.

Lemma txb_contexts_follow_rule_witness :
  let a := [9; 0; 18; 3] in let l := [16; 23] in
  exists ctx, get_txb_ctx BLOCK_16X16 TX_16X8 0 a l = Some ctx /\
    let above := take 4 a in let left := take 2 l in
    txb_skip_ctx ctx = skip_rule BLOCK_16X16 TX_16X8 0 above left /\ dc_sign_ctx ctx = dc_rule (above ++ left) /\
    0 <= txb_skip_ctx ctx < TXB_SKIP_CONTEXTS /\ 0 <= dc_sign_ctx ctx < DC_SIGN_CONTEXTS.
Proof.
  apply (txb_contexts_follow_rule BLOCK_16X16 TX_16X8 0).
  split; [cbn; lia | cbn; lia | |]; repeat constructor; unfold ectx_ok; lia.
Defined.

(** ** Storing contexts *)

Definition block_size_wide (bsize : BLOCK_SIZE) : Z :=
  match bsize with
  | BLOCK_4X4 | BLOCK_4X8 | BLOCK_4X16 => 4
  | BLOCK_8X4 | BLOCK_8X8 | BLOCK_8X16 | BLOCK_8X32 => 8
  | BLOCK_16X4 | BLOCK_16X8 | BLOCK_16X16 | BLOCK_16X32 | BLOCK_16X64 => 16
  | BLOCK_32X8 | BLOCK_32X16 | BLOCK_32X32 | BLOCK_32X64 => 32
  | BLOCK_64X16 | BLOCK_64X32 | BLOCK_64X64 | BLOCK_64X128 => 64
  | BLOCK_128X64 | BLOCK_128X128 => 128
  end.

Definition block_size_high (bsize : BLOCK_SIZE) : Z :=
  match bsize with
  | BLOCK_4X4 | BLOCK_8X4 | BLOCK_16X4 => 4
  | BLOCK_4X8 | BLOCK_8X8 | BLOCK_16X8 | BLOCK_32X8 => 8
  | BLOCK_4X16 | BLOCK_8X16 | BLOCK_16X16 | BLOCK_32X16 | BLOCK_64X16 => 16
  | BLOCK_8X32 | BLOCK_16X32 | BLOCK_32X32 | BLOCK_64X32 => 32
  | BLOCK_16X64 | BLOCK_32X64 | BLOCK_64X64 | BLOCK_128X64 => 64
  | BLOCK_64X128 | BLOCK_128X128 => 128
  end.

(** [xd->mb_to_right_edge], [xd->mb_to_bottom_edge] (eighths of a sample) and the
    subsampling of the plane. *)
Record block_edges := { mb_to_right_edge : Z; mb_to_bottom_edge : Z; eg_ss_x : Z; eg_ss_y : Z }.

Definition max_block_wide (e : block_edges) (bsize : BLOCK_SIZE) : Z :=
  let max_blocks_wide := block_size_wide bsize in
  let max_blocks_wide :=
    if mb_to_right_edge e <? 0 then max_blocks_wide + Z.shiftr (mb_to_right_edge e) (3 + eg_ss_x e)
    else max_blocks_wide in
  Z.shiftr max_blocks_wide MI_SIZE_LOG2.

Definition max_block_high (e : block_edges) (bsize : BLOCK_SIZE) : Z :=
  let max_blocks_high := block_size_high bsize in
  let max_blocks_high :=
    if mb_to_bottom_edge e <? 0 then max_blocks_high + Z.shiftr (mb_to_bottom_edge e) (3 + eg_ss_y e)
    else max_blocks_high in
  Z.shiftr max_blocks_high MI_SIZE_LOG2.

(** [memset(p + at_, v, n)]; a negative [n] is a huge size. *)
Definition memset (p : list Z) (at_ v n : Z) : option (list Z) :=
  if n <? 0 then None else '(p, _) ← stores p at_ (replicate (Z.to_nat n) v); Some p.

(** One of the two edges of [av1_set_entropy_contexts]: [units] contexts from [off] on, of
    which those at or after [blocks] are outside the frame when it ends in the block. *)
Definition set_edge (p : list Z) (off units has_eob : Z) (ends : bool) (blocks : Z) : option (list Z) :=
  if negb (has_eob =? 0) && ends then
    let contexts := Z.min units (blocks - off) in
    p ← memset p off has_eob contexts;
    memset p (off + contexts) 0 (units - contexts)
  else memset p off has_eob units.

Definition av1_set_entropy_contexts (e : block_edges) (above left : list Z) (plane_bsize : BLOCK_SIZE)
    (tx_size : TX_SIZE) (has_eob aoff loff : Z) : option (list Z * list Z) :=
  above ← set_edge above aoff (tx_size_wide_unit tx_size) has_eob (mb_to_right_edge e <? 0)
            (max_block_wide e plane_bsize);
  left ← set_edge left loff (tx_size_high_unit tx_size) has_eob (mb_to_bottom_edge e <? 0)
           (max_block_high e plane_bsize);
  Some (above, left).

Lemma memset_ok p at_ v n : 0 <= at_ -> 0 <= n -> at_ + n <= Z.of_nat (length p) ->
  exists p', memset p at_ v n = Some p' /\ length p' = length p /\
    (forall k, 0 <= k -> nthz p' k = if (at_ <=? k) && (k <? at_ + n) then v else nthz p k).
Proof.
  intros Ha Hn Hl. unfold memset. rewrite (proj2 (Z.ltb_ge n 0)) by lia.
  destruct (stores_ok (replicate (Z.to_nat n) v) p at_) as (p' & -> & L & E & O);
    rewrite ?length_replicate in *; [lia | lia |].
  exists p'. split; [done |]. split; [done |]. intros k Hk.
  destruct (Z.leb_spec at_ k), (Z.ltb_spec k (at_ + n)); simpl; try (apply O; lia).
  replace k with (at_ + (k - at_)) by lia. rewrite E by lia. apply nthz_replicate. lia.
Qed.

(** The contexts of an edge afterwards. *)
Definition edge_after (p : list Z) (off units has_eob : Z) (ends : bool) (blocks k : Z) : Z :=
  if (off <=? k) && (k <? off + units)
  then if ends && (blocks <=? k) then 0 else has_eob
  else nthz p k.

Lemma set_edge_ok p off units has_eob ends blocks : 0 <= off -> 0 <= units -> off + units <= Z.of_nat (length p) ->
  (ends = true -> off <= blocks) ->
  exists p', set_edge p off units has_eob ends blocks = Some p' /\ length p' = length p /\
    forall k, 0 <= k -> nthz p' k = edge_after p off units has_eob ends blocks k.
Proof.
  intros Ho Hu Hl Hb. unfold set_edge, edge_after. destruct (Z.eqb_spec has_eob 0) as [-> | Hn]; simpl.
  { destruct (memset_ok p off 0 units) as (p' & -> & L & E); [lia .. |]. exists p'. split_and!; try done.
    intros k Hk. rewrite E by done. by destruct (ends && (blocks <=? k)). }
  destruct ends; simpl.
  - specialize (Hb eq_refl). set (n := Z.min units (blocks - off)).
    destruct (memset_ok p off has_eob n) as (p1 & -> & L1 & E1); [lia .. |]. cbn [mbind option_bind].
    destruct (memset_ok p1 (off + n) 0 (units - n)) as (p2 & -> & L2 & E2); [lia .. |].
    exists p2. split_and!; [done | lia |]. intros k Hk. rewrite E2, E1 by done.
    destruct (Z.leb_spec (off + n) k), (Z.ltb_spec k (off + n + (units - n))), (Z.leb_spec off k),
      (Z.ltb_spec k (off + n)), (Z.ltb_spec k (off + units)), (Z.leb_spec blocks k); simpl; lia || done.
  - destruct (memset_ok p off has_eob units) as (p' & -> & L & E); [lia .. |]. by exists p'.
Qed.

Lemma set_edge_valid p off units has_eob ends blocks p' : Forall ectx_ok p -> ectx_ok has_eob ->
  0 <= off -> 0 <= units -> off + units <= Z.of_nat (length p) -> (ends = true -> off <= blocks) ->
  set_edge p off units has_eob ends blocks = Some p' -> length p' = length p /\ Forall ectx_ok p'.
Proof.
  intros Hf He Ho Hu Hl Hb E. destruct (set_edge_ok p off units has_eob ends blocks) as (q & Eq & L & Hq); try done.
  simplify_eq. split; [done |]. apply Forall_lookup. intros i x Hx.
  assert (nthz p' (Z.of_nat i) = x) as <- by (unfold nthz; by rewrite Nat2Z.id, nth_lookup, Hx).
  apply lookup_lt_Some in Hx. rewrite Hq by lia. unfold edge_after.
  destruct (_ && _); [destruct (_ && _); [unfold ectx_ok; lia | done] |].
  unfold nthz. rewrite Nat2Z.id. rewrite Forall_forall in Hf. apply Hf, nth_In. lia.
Qed.
