(* ===== verification/Scan.v ===== *)
(** * Scan orders

    What coefficient coding relies on in the tables of [av1/common/scan.c]: each scan
    visits every position of its block once, its inverse table is its inverse, and a
    position comes before its neighbours below and to the right, so that a decoder that
    runs a scan backwards knows them when it needs their magnitudes. *)

From S2P Require Import Prelude TxCommon ScanTables.

#[local] Arguments Z.of_nat : simpl never.
#[local] Arguments Z.mul : simpl never.

(** A block of [w] columns of [h] positions. *)
Record scan_ok (w h : Z) (so : SCAN_ORDER) : Prop := {
  scan_length : Z.of_nat (length (scan so)) = w * h;
  scan_first : nthz (scan so) 0 = 0;
  scan_range : forall i, 0 <= i < w * h -> 0 <= nthz (scan so) i < w * h;
  iscan_range : forall p, 0 <= p < w * h -> 0 <= nthz (iscan so) p < w * h;
  iscan_scan : forall i, 0 <= i < w * h -> nthz (iscan so) (nthz (scan so) i) = i;
  scan_iscan : forall p, 0 <= p < w * h -> nthz (scan so) (nthz (iscan so) p) = p;
  scan_down : forall p, 0 <= p < w * h -> p mod h + 1 < h ->
    nthz (iscan so) p < nthz (iscan so) (p + 1);
  scan_right : forall p, 0 <= p < w * h -> p + h < w * h ->
    nthz (iscan so) p < nthz (iscan so) (p + h) }.

(** [f] on every index and element of [l], the first index being [i]. *)
Fixpoint check_from (f : Z -> Z -> bool) (i : Z) (l : list Z) : bool :=
  match l with
  | [] => true
  | x :: l' => f i x && check_from f (i + 1) l'
  end.

Lemma check_from_true f l i : check_from f i l = true ->
  forall j, 0 <= j < Z.of_nat (length l) -> f (i + j) (nthz l j) = true.
Proof.
  revert i. induction l as [|x l IH]; intros i; cbn [check_from length]; [lia |].
  intros [Hx Hl]%andb_true_iff j Hj. destruct (Z.eq_dec j 0) as [-> | Hne].
  - by rewrite Z.add_0_r.
  - specialize (IH (i + 1) Hl (j - 1) ltac:(lia)).
    replace (i + 1 + (j - 1)) with (i + j) in IH by lia. rewrite <- IH. f_equal.
    unfold nthz. by replace (Z.to_nat j) with (S (Z.to_nat (j - 1))) by lia.
Qed.

Definition in_block (n x : Z) : bool := (0 <=? x) && (x <? n).

(** Element [i] against element [i + d]. *)
Definition before (d : nat) (skip : Z -> bool) (l : list Z) : bool :=
  check_from (fun i y => skip i || (nthz l i <? y)) 0 (drop d l).

Lemma before_true d skip l i : before d skip l = true -> 0 <= i -> i + Z.of_nat d < Z.of_nat (length l) ->
  skip i = false -> nthz l i < nthz l (i + Z.of_nat d).
Proof.
  intros H Hi Hd Hk. pose proof (check_from_true _ _ _ H i) as Hx. rewrite length_drop in Hx.
  specialize (Hx ltac:(lia)). rewrite Z.add_0_l, Hk in Hx. apply Z.ltb_lt in Hx.
  revert Hx. unfold nthz. rewrite (nth_lookup (drop d l)), lookup_drop, (nth_lookup l).
  replace (d + Z.to_nat i)%nat with (Z.to_nat (i + Z.of_nat d)) by lia.
  by rewrite (nth_lookup l (Z.to_nat (i + _))).
Qed.

Definition scan_okb (w h : Z) (so : SCAN_ORDER) : bool :=
  let n := w * h in
  (Z.of_nat (length (scan so)) =? n) && (Z.of_nat (length (iscan so)) =? n) &&
  (nthz (scan so) 0 =? 0) &&
  check_from (fun i x => in_block n x && (nthz (iscan so) x =? i)) 0 (scan so) &&
  check_from (fun i x => in_block n x && (nthz (scan so) x =? i)) 0 (iscan so) &&
  before 1 (fun i => h <=? i mod h + 1) (iscan so) &&
  before (Z.to_nat h) (fun _ => false) (iscan so).

Lemma scan_okb_ok w h so : 0 < h -> scan_okb w h so = true -> scan_ok w h so.
Proof.
  intros Hh. unfold scan_okb, in_block. rewrite !andb_true_iff.
  intros [[[[[[Hl Hl'] H0] Hs] Hp] Hd] Hr].
  pose proof (check_from_true _ _ _ Hs) as Hs'. pose proof (check_from_true _ _ _ Hp) as Hp'.
  cbn beta in Hs', Hp'. setoid_rewrite andb_true_iff in Hs'. setoid_rewrite andb_true_iff in Hp'.
  assert (Hs2 := fun i Hi => Hs' i Hi). assert (Hp2 := fun i Hi => Hp' i Hi).
  split; [lia | lia | | | | | |].
  - intros i Hi. specialize (Hs2 i ltac:(lia)). lia.
  - intros i Hi. specialize (Hp2 i ltac:(lia)). lia.
  - intros i Hi. specialize (Hs2 i ltac:(lia)). lia.
  - intros i Hi. specialize (Hp2 i ltac:(lia)). lia.
  - intros p Hp0 Hm. pose proof (Z.div_mod p h ltac:(lia)) as Hdm.
    assert (p / h < w) by (apply Z.div_lt_upper_bound; lia).
    apply (before_true 1 _ _ _ Hd); [lia | nia | lia].
  - intros p Hp0 Hm. pose proof (before_true _ _ _ p Hr) as H. rewrite Z2Nat.id in H by lia.
    apply H; lia || done.
Qed.

Definition scan_ok_of (tx_size : TX_SIZE) : SCAN_ORDER -> bool :=
  scan_okb (get_txb_wide tx_size) (get_txb_high tx_size).

(** The sizes that share tables with no earlier one. *)
Definition scanned_sizes : list TX_SIZE :=
  [TX_4X4; TX_8X8; TX_16X16; TX_32X32; TX_4X8; TX_8X4; TX_8X16; TX_16X8; TX_16X32; TX_32X16;
   TX_4X16; TX_16X4; TX_8X32; TX_32X8].

Lemma scan_rows_ok : forallb (fun t =>
  let '(diag, row, col) := scan_row t in
  scan_ok_of t diag && scan_ok_of t row && scan_ok_of t col) scanned_sizes = true.
Proof. vm_compute. reflexivity. Qed.

Lemma scanned t : In (av1_get_adjusted_tx_size t) scanned_sizes /\
  scan_row (av1_get_adjusted_tx_size t) = scan_row t.
Proof. destruct t; (split; [vm_compute; tauto | reflexivity]). Qed.

Lemma txb_geometry t : get_txb_high t = 2 ^ get_txb_bhl t /\ 2 <= get_txb_bhl t <= 5 /\
  4 <= get_txb_wide t <= 32 /\ 4 <= get_txb_high t <= 32.
Proof. destruct t; vm_compute; split_and!; congruence. Qed.

Lemma adjusted_twice t : av1_get_adjusted_tx_size (av1_get_adjusted_tx_size t) = av1_get_adjusted_tx_size t.
Proof. by destruct t. Qed.

(** Every scan of every transform size is sound. *)
Lemma get_scan_ok t ty : scan_ok (get_txb_wide t) (get_txb_high t) (get_scan t ty).
Proof.
  apply scan_okb_ok; [pose proof (txb_geometry t); lia |].
  pose proof scan_rows_ok as H. rewrite forallb_forall in H. destruct (scanned t) as [Hin E].
  specialize (H _ Hin). rewrite E in H. unfold scan_ok_of, get_txb_wide, get_txb_high in H.
  rewrite adjusted_twice in H. unfold get_scan, av1_scan_orders.
  destruct (scan_row t) as [[d r] c]. rewrite !andb_true_iff in H. destruct H as [[Hd Hr] Hc].
  by destruct ty.
Qed.

Section Sound.
Context {w h : Z} {so : SCAN_ORDER} (Hs : scan_ok w h so) (Hh : 0 < h) (Hw : 0 < w).

Lemma scan_get i : 0 <= i < w * h -> arr_get (scan so) i = Some (nthz (scan so) i).
Proof. intros Hi. apply arr_get_nth. rewrite (scan_length _ _ _ Hs). lia. Qed.

Lemma scan_inj i j : 0 <= i < w * h -> 0 <= j < w * h ->
  nthz (scan so) i = nthz (scan so) j -> i = j.
Proof. intros Hi Hj E. rewrite <- (iscan_scan _ _ _ Hs i), <- (iscan_scan _ _ _ Hs j) by lia. congruence. Qed.

(** Position of column [c] and row [r]. *)
Lemma cell_range c r : 0 <= c < w -> 0 <= r < h -> 0 <= c * h + r < w * h.
Proof. nia. Qed.

Lemma iscan_down c r d : 0 <= c < w -> 0 <= r -> 0 <= d -> r + d < h ->
  nthz (iscan so) (c * h + r) + d <= nthz (iscan so) (c * h + (r + d)).
Proof.
  intros Hc Hr Hd. revert d Hd. apply (natlike_ind (fun d => r + d < h -> _)).
  - intros _. rewrite !Z.add_0_r. lia.
  - intros d Hd IH Hlt. pose proof (scan_down _ _ _ Hs (c * h + (r + d))) as Hn.
    rewrite Z.add_comm, Z.mod_add, Z.mod_small in Hn by lia.
    specialize (IH ltac:(lia)). specialize (Hn ltac:(nia) ltac:(lia)).
    replace (c * h + (r + Z.succ d)) with (r + d + c * h + 1) by lia.
    replace (c * h + (r + d)) with (r + d + c * h) in * by lia. lia.
Qed.

Lemma iscan_right c r d : 0 <= c -> 0 <= r < h -> 0 <= d -> c + d < w ->
  nthz (iscan so) (c * h + r) + d <= nthz (iscan so) ((c + d) * h + r).
Proof.
  intros Hc Hr Hd. revert d Hd. apply (natlike_ind (fun d => c + d < w -> _)).
  - intros _. rewrite !Z.add_0_r. lia.
  - intros d Hd IH Hlt. pose proof (scan_right _ _ _ Hs ((c + d) * h + r)) as Hn.
    specialize (IH ltac:(lia)). specialize (Hn ltac:(nia) ltac:(nia)).
    replace ((c + Z.succ d) * h + r) with ((c + d) * h + r + h) by lia. lia.
Qed.

(** A neighbour below or to the right is visited later. *)
Lemma iscan_later c r dc dr : 0 <= c -> 0 <= r -> 0 <= dc -> 0 <= dr -> 0 < dc + dr ->
  c + dc < w -> r + dr < h ->
  nthz (iscan so) (c * h + r) < nthz (iscan so) ((c + dc) * h + (r + dr)).
Proof.
  intros. pose proof (iscan_down (c + dc) r dr ltac:(lia) ltac:(lia) ltac:(lia) ltac:(lia)).
  pose proof (iscan_right c r dc ltac:(lia) ltac:(lia) ltac:(lia) ltac:(lia)). lia.
Qed.
End Sound.

Lemma scan_ok_perm w h so : scan_ok w h so -> scan so ≡ₚ (Z.of_nat <$> seq 0 (Z.to_nat (w * h))).
Proof.
  intros Hs. pose proof (scan_length _ _ _ Hs) as Hl. apply NoDup_Permutation.
  - apply NoDup_alt. intros i j x Hi Hj. pose proof (lookup_lt_Some _ _ _ Hi).
    pose proof (lookup_lt_Some _ _ _ Hj). apply Nat2Z.inj, (scan_inj Hs); try lia.
    unfold nthz. by rewrite !Nat2Z.id, !nth_lookup, Hi, Hj.
  - apply NoDup_fmap_2; [apply _ | apply NoDup_seq].
  - intros x. rewrite list_elem_of_lookup, list_elem_of_fmap. split.
    + intros (i & Hi). pose proof (lookup_lt_Some _ _ _ Hi).
      pose proof (scan_range _ _ _ Hs (Z.of_nat i) ltac:(lia)) as Hr. unfold nthz in Hr.
      rewrite Nat2Z.id, nth_lookup, Hi in Hr. simpl in Hr. exists (Z.to_nat x).
      split; [lia | apply elem_of_seq; lia].
    + intros (y & -> & Hy%elem_of_seq). pose proof (iscan_range _ _ _ Hs (Z.of_nat y) ltac:(lia)).
      exists (Z.to_nat (nthz (iscan so) (Z.of_nat y))). rewrite nth_lookup_Z by lia.
      f_equal. apply (scan_iscan _ _ _ Hs). lia.
Qed.

(** C34: Every scan table of every transform size and type visits each position of its
    coefficient block exactly once, starting at the DC coefficient; the inverse table is
    its inverse; and every position is visited before all positions below it, to its
    right, or both, which is what makes the contexts of coefficients, taken from these
    neighbours, known to a decoder that runs the scan backwards. *)
Theorem scans_sound t ty :
  let w := get_txb_wide t in
  let h := get_txb_high t in
  let so := get_scan t ty in
  scan so ≡ₚ (Z.of_nat <$> seq 0 (Z.to_nat (w * h))) /\ nthz (scan so) 0 = 0 /\
  (forall i, 0 <= i < w * h -> nthz (iscan so) (nthz (scan so) i) = i) /\
  (forall c r dc dr, 0 <= c -> 0 <= r -> 0 <= dc -> 0 <= dr -> 0 < dc + dr -> c + dc < w -> r + dr < h ->
     nthz (iscan so) (c * h + r) < nthz (iscan so) ((c + dc) * h + (r + dr))).
Proof.
  cbv zeta. pose proof (get_scan_ok t ty) as Hs. destruct (txb_geometry t) as (_ & _ & Hw & Hh).
  split_and!; [by apply scan_ok_perm | apply Hs | apply Hs |].
  intros. by apply (iscan_later Hs); try lia.
Qed.
