(* ===== verification/DefaultCdfs.v ===== *)
(** * The default probability models of AV1

    The tables of [av1/common/entropymode.c] and [av1/common/entropymv.c] every
    coded video sequence starts from, transcribed entry by entry, and the routines
    that install them in a frame context.  An array whose declared size exceeds its
    initialiser is represented by the words of its alphabet (inverse CDF and
    counter); the zero words after them are never read with that alphabet.  The
    theorem at the end closes the chain from these tables to lossless tile data. *)

From S2P Require Import Prelude CodecTypes BitChannel EntCoder RangeSpec Cdf EntEncProof EntDecProof EntRoundTrip SymbolIO.

(** [AOM_CDF2] .. [AOM_CDF16]: the inverse CDF of the cumulative frequencies [a],
    closed by the total, and a zero counter. *)
Definition AOM_CDF (a : list Z) : list Z := (AOM_ICDF <$> a) ++ [AOM_ICDF CDF_PROB_TOP; 0].

(** [{ 0 }]: an entry of [CDF_SIZE(TX_TYPES)] words that codes nothing. *)
Definition ZERO_CDF : list Z := replicate 17 0.

Definition default_kf_y_mode_cdf : list (list (list Z)) :=
  [[AOM_CDF [15588; 17027; 19338; 20218; 20682; 21110; 21825; 23244; 24189; 28165; 29093; 30466];
    AOM_CDF [12016; 18066; 19516; 20303; 20719; 21444; 21888; 23032; 24434; 28658; 30172; 31409];
    AOM_CDF [10052; 10771; 22296; 22788; 23055; 23239; 24133; 25620; 26160; 29336; 29929; 31567];
    AOM_CDF [14091; 15406; 16442; 18808; 19136; 19546; 19998; 22096; 24746; 29585; 30958; 32462];
    AOM_CDF [12122; 13265; 15603; 16501; 18609; 20033; 22391; 25583; 26437; 30261; 31073; 32475]];
   [AOM_CDF [10023; 19585; 20848; 21440; 21832; 22760; 23089; 24023; 25381; 29014; 30482; 31436];
    AOM_CDF [5983; 24099; 24560; 24886; 25066; 25795; 25913; 26423; 27610; 29905; 31276; 31794];
    AOM_CDF [7444; 12781; 20177; 20728; 21077; 21607; 22170; 23405; 24469; 27915; 29090; 30492];
    AOM_CDF [8537; 14689; 15432; 17087; 17408; 18172; 18408; 19825; 24649; 29153; 31096; 32210];
    AOM_CDF [7543; 14231; 15496; 16195; 17905; 20717; 21984; 24516; 26001; 29675; 30981; 31994]];
   [AOM_CDF [12613; 13591; 21383; 22004; 22312; 22577; 23401; 25055; 25729; 29538; 30305; 32077];
    AOM_CDF [9687; 13470; 18506; 19230; 19604; 20147; 20695; 22062; 23219; 27743; 29211; 30907];
    AOM_CDF [6183; 6505; 26024; 26252; 26366; 26434; 27082; 28354; 28555; 30467; 30794; 32086];
    AOM_CDF [10718; 11734; 14954; 17224; 17565; 17924; 18561; 21523; 23878; 28975; 30287; 32252];
    AOM_CDF [9194; 9858; 16501; 17263; 18424; 19171; 21563; 25961; 26561; 30072; 30737; 32463]];
   [AOM_CDF [12602; 14399; 15488; 18381; 18778; 19315; 19724; 21419; 25060; 29696; 30917; 32409];
    AOM_CDF [8203; 13821; 14524; 17105; 17439; 18131; 18404; 19468; 25225; 29485; 31158; 32342];
    AOM_CDF [8451; 9731; 15004; 17643; 18012; 18425; 19070; 21538; 24605; 29118; 30078; 32018];
    AOM_CDF [7714; 9048; 9516; 16667; 16817; 16994; 17153; 18767; 26743; 30389; 31536; 32528];
    AOM_CDF [8843; 10280; 11496; 15317; 16652; 17943; 19108; 22718; 25769; 29953; 30983; 32485]];
   [AOM_CDF [12578; 13671; 15979; 16834; 19075; 20913; 22989; 25449; 26219; 30214; 31150; 32477];
    AOM_CDF [9563; 13626; 15080; 15892; 17756; 20863; 22207; 24236; 25380; 29653; 31143; 32277];
    AOM_CDF [8356; 8901; 17616; 18256; 19350; 20106; 22598; 25947; 26466; 29900; 30523; 32261];
    AOM_CDF [10835; 11815; 13124; 16042; 17018; 18039; 18947; 22753; 24615; 29489; 30883; 32482];
    AOM_CDF [7618; 8288; 9859; 10509; 15386; 18657; 22903; 28776; 29180; 31355; 31802; 32593]]].

Definition default_angle_delta_cdf : list (list Z) :=
  [AOM_CDF [2180; 5032; 7567; 22776; 26989; 30217];
   AOM_CDF [2301; 5608; 8801; 23487; 26974; 30330];
   AOM_CDF [3780; 11018; 13699; 19354; 23083; 31286];
   AOM_CDF [4581; 11226; 15147; 17138; 21834; 28397];
   AOM_CDF [1737; 10927; 14509; 19588; 22745; 28823];
   AOM_CDF [2664; 10176; 12485; 17650; 21600; 30495];
   AOM_CDF [2240; 11096; 15453; 20341; 22561; 28917];
   AOM_CDF [3605; 10428; 12459; 17676; 21244; 30655]].

Definition default_if_y_mode_cdf : list (list Z) :=
  [AOM_CDF [22801; 23489; 24293; 24756; 25601; 26123; 26606; 27418; 27945; 29228; 29685; 30349];
   AOM_CDF [18673; 19845; 22631; 23318; 23950; 24649; 25527; 27364; 28152; 29701; 29984; 30852];
   AOM_CDF [19770; 20979; 23396; 23939; 24241; 24654; 25136; 27073; 27830; 29360; 29730; 30659];
   AOM_CDF [20155; 21301; 22838; 23178; 23261; 23533; 23703; 24804; 25352; 26575; 27016; 28049]].

Definition default_uv_mode_cdf : list (list (list Z)) :=
  [[AOM_CDF [22631; 24152; 25378; 25661; 25986; 26520; 27055; 27923; 28244; 30059; 30941; 31961];
    AOM_CDF [9513; 26881; 26973; 27046; 27118; 27664; 27739; 27824; 28359; 29505; 29800; 31796];
    AOM_CDF [9845; 9915; 28663; 28704; 28757; 28780; 29198; 29822; 29854; 30764; 31777; 32029];
    AOM_CDF [13639; 13897; 14171; 25331; 25606; 25727; 25953; 27148; 28577; 30612; 31355; 32493];
    AOM_CDF [9764; 9835; 9930; 9954; 25386; 27053; 27958; 28148; 28243; 31101; 31744; 32363];
    AOM_CDF [11825; 13589; 13677; 13720; 15048; 29213; 29301; 29458; 29711; 31161; 31441; 32550];
    AOM_CDF [14175; 14399; 16608; 16821; 17718; 17775; 28551; 30200; 30245; 31837; 32342; 32667];
    AOM_CDF [12885; 13038; 14978; 15590; 15673; 15748; 16176; 29128; 29267; 30643; 31961; 32461];
    AOM_CDF [12026; 13661; 13874; 15305; 15490; 15726; 15995; 16273; 28443; 30388; 30767; 32416];
    AOM_CDF [19052; 19840; 20579; 20916; 21150; 21467; 21885; 22719; 23174; 28861; 30379; 32175];
    AOM_CDF [18627; 19649; 20974; 21219; 21492; 21816; 22199; 23119; 23527; 27053; 31397; 32148];
    AOM_CDF [17026; 19004; 19997; 20339; 20586; 21103; 21349; 21907; 22482; 25896; 26541; 31819];
    AOM_CDF [12124; 13759; 14959; 14992; 15007; 15051; 15078; 15166; 15255; 15753; 16039; 16606]];
   [AOM_CDF [10407; 11208; 12900; 13181; 13823; 14175; 14899; 15656; 15986; 20086; 20995; 22455;
       24212];
    AOM_CDF [4532; 19780; 20057; 20215; 20428; 21071; 21199; 21451; 22099; 24228; 24693; 27032;
        29472];
    AOM_CDF [5273; 5379; 20177; 20270; 20385; 20439; 20949; 21695; 21774; 23138; 24256; 24703;
        26679];
    AOM_CDF [6740; 7167; 7662; 14152; 14536; 14785; 15034; 16741; 18371; 21520; 22206; 23389;
        24182];
    AOM_CDF [4987; 5368; 5928; 6068; 19114; 20315; 21857; 22253; 22411; 24911; 25380; 26027; 26376];
    AOM_CDF [5370; 6889; 7247; 7393; 9498; 21114; 21402; 21753; 21981; 24780; 25386; 26517; 27176];
    AOM_CDF [4816; 4961; 7204; 7326; 8765; 8930; 20169; 20682; 20803; 23188; 23763; 24455; 24940];
    AOM_CDF [6608; 6740; 8529; 9049; 9257; 9356; 9735; 18827; 19059; 22336; 23204; 23964; 24793];
    AOM_CDF [5998; 7419; 7781; 8933; 9255; 9549; 9753; 10417; 18898; 22494; 23139; 24764; 25989];
    AOM_CDF [10660; 11298; 12550; 12957; 13322; 13624; 14040; 15004; 15534; 20714; 21789; 23443;
        24861];
    AOM_CDF [10522; 11530; 12552; 12963; 13378; 13779; 14245; 15235; 15902; 20102; 22696; 23774;
        25838];
    AOM_CDF [10099; 10691; 12639; 13049; 13386; 13665; 14125; 15163; 15636; 19676; 20474; 23519;
        25208];
    AOM_CDF [3144; 5087; 7382; 7504; 7593; 7690; 7801; 8064; 8232; 9248; 9875; 10521; 29048]]].

Definition default_partition_cdf : list (list Z) :=
  [AOM_CDF [19132; 25510; 30392];
   AOM_CDF [13928; 19855; 28540];
   AOM_CDF [12522; 23679; 28629];
   AOM_CDF [9896; 18783; 25853];
   AOM_CDF [15597; 20929; 24571; 26706; 27664; 28821; 29601; 30571; 31902];
   AOM_CDF [7925; 11043; 16785; 22470; 23971; 25043; 26651; 28701; 29834];
   AOM_CDF [5414; 13269; 15111; 20488; 22360; 24500; 25537; 26336; 32117];
   AOM_CDF [2662; 6362; 8614; 20860; 23053; 24778; 26436; 27829; 31171];
   AOM_CDF [18462; 20920; 23124; 27647; 28227; 29049; 29519; 30178; 31544];
   AOM_CDF [7689; 9060; 12056; 24992; 25660; 26182; 26951; 28041; 29052];
   AOM_CDF [6015; 9009; 10062; 24544; 25409; 26545; 27071; 27526; 32047];
   AOM_CDF [1394; 2208; 2796; 28614; 29061; 29466; 29840; 30185; 31899];
   AOM_CDF [20137; 21547; 23078; 29566; 29837; 30261; 30524; 30892; 31724];
   AOM_CDF [6732; 7490; 9497; 27944; 28250; 28515; 28969; 29630; 30104];
   AOM_CDF [5945; 7663; 8348; 28683; 29117; 29749; 30064; 30298; 32238];
   AOM_CDF [870; 1212; 1487; 31198; 31394; 31574; 31743; 31881; 32332];
   AOM_CDF [27899; 28219; 28529; 32484; 32539; 32619; 32639];
   AOM_CDF [6607; 6990; 8268; 32060; 32219; 32338; 32371];
   AOM_CDF [5429; 6676; 7122; 32027; 32227; 32531; 32582];
   AOM_CDF [711; 966; 1172; 32448; 32538; 32617; 32664]].

Definition default_intra_ext_tx_cdf : list (list (list (list Z))) :=
  [[[ZERO_CDF;
     ZERO_CDF;
     ZERO_CDF;
     ZERO_CDF;
     ZERO_CDF;
     ZERO_CDF;
     ZERO_CDF;
     ZERO_CDF;
     ZERO_CDF;
     ZERO_CDF;
     ZERO_CDF;
     ZERO_CDF;
     ZERO_CDF];
    [ZERO_CDF;
     ZERO_CDF;
     ZERO_CDF;
     ZERO_CDF;
     ZERO_CDF;
     ZERO_CDF;
     ZERO_CDF;
     ZERO_CDF;
     ZERO_CDF;
     ZERO_CDF;
     ZERO_CDF;
     ZERO_CDF;
     ZERO_CDF];
    [ZERO_CDF;
     ZERO_CDF;
     ZERO_CDF;
     ZERO_CDF;
     ZERO_CDF;
     ZERO_CDF;
     ZERO_CDF;
     ZERO_CDF;
     ZERO_CDF;
     ZERO_CDF;
     ZERO_CDF;
     ZERO_CDF;
     ZERO_CDF];
    [ZERO_CDF;
     ZERO_CDF;
     ZERO_CDF;
     ZERO_CDF;
     ZERO_CDF;
     ZERO_CDF;
     ZERO_CDF;
     ZERO_CDF;
     ZERO_CDF;
     ZERO_CDF;
     ZERO_CDF;
     ZERO_CDF;
     ZERO_CDF]];
   [[AOM_CDF [1535; 8035; 9461; 12751; 23467; 27825];
     AOM_CDF [564; 3335; 9709; 10870; 18143; 28094];
     AOM_CDF [672; 3247; 3676; 11982; 19415; 23127];
     AOM_CDF [5279; 13885; 15487; 18044; 23527; 30252];
     AOM_CDF [4423; 6074; 7985; 10416; 25693; 29298];
     AOM_CDF [1486; 4241; 9460; 10662; 16456; 27694];
     AOM_CDF [439; 2838; 3522; 6737; 18058; 23754];
     AOM_CDF [1190; 4233; 4855; 11670; 20281; 24377];
     AOM_CDF [1045; 4312; 8647; 10159; 18644; 29335];
     AOM_CDF [202; 3734; 4747; 7298; 17127; 24016];
     AOM_CDF [447; 4312; 6819; 8884; 16010; 23858];
     AOM_CDF [277; 4369; 5255; 8905; 16465; 22271];
     AOM_CDF [3409; 5436; 10599; 15599; 19687; 24040]];
    [AOM_CDF [1870; 13742; 14530; 16498; 23770; 27698];
     AOM_CDF [326; 8796; 14632; 15079; 19272; 27486];
     AOM_CDF [484; 7576; 7712; 14443; 19159; 22591];
     AOM_CDF [1126; 15340; 15895; 17023; 20896; 30279];
     AOM_CDF [655; 4854; 5249; 5913; 22099; 27138];
     AOM_CDF [1299; 6458; 8885; 9290; 14851; 25497];
     AOM_CDF [311; 5295; 5552; 6885; 16107; 22672];
     AOM_CDF [883; 8059; 8270; 11258; 17289; 21549];
     AOM_CDF [741; 7580; 9318; 10345; 16688; 29046];
     AOM_CDF [110; 7406; 7915; 9195; 16041; 23329];
     AOM_CDF [363; 7974; 9357; 10673; 15629; 24474];
     AOM_CDF [153; 7647; 8112; 9936; 15307; 19996];
     AOM_CDF [3511; 6332; 11165; 15335; 19323; 23594]];
    [AOM_CDF [4681; 9362; 14043; 18725; 23406; 28087];
     AOM_CDF [4681; 9362; 14043; 18725; 23406; 28087];
     AOM_CDF [4681; 9362; 14043; 18725; 23406; 28087];
     AOM_CDF [4681; 9362; 14043; 18725; 23406; 28087];
     AOM_CDF [4681; 9362; 14043; 18725; 23406; 28087];
     AOM_CDF [4681; 9362; 14043; 18725; 23406; 28087];
     AOM_CDF [4681; 9362; 14043; 18725; 23406; 28087];
     AOM_CDF [4681; 9362; 14043; 18725; 23406; 28087];
     AOM_CDF [4681; 9362; 14043; 18725; 23406; 28087];
     AOM_CDF [4681; 9362; 14043; 18725; 23406; 28087];
     AOM_CDF [4681; 9362; 14043; 18725; 23406; 28087];
     AOM_CDF [4681; 9362; 14043; 18725; 23406; 28087];
     AOM_CDF [4681; 9362; 14043; 18725; 23406; 28087]];
    [AOM_CDF [4681; 9362; 14043; 18725; 23406; 28087];
     AOM_CDF [4681; 9362; 14043; 18725; 23406; 28087];
     AOM_CDF [4681; 9362; 14043; 18725; 23406; 28087];
     AOM_CDF [4681; 9362; 14043; 18725; 23406; 28087];
     AOM_CDF [4681; 9362; 14043; 18725; 23406; 28087];
     AOM_CDF [4681; 9362; 14043; 18725; 23406; 28087];
     AOM_CDF [4681; 9362; 14043; 18725; 23406; 28087];
     AOM_CDF [4681; 9362; 14043; 18725; 23406; 28087];
     AOM_CDF [4681; 9362; 14043; 18725; 23406; 28087];
     AOM_CDF [4681; 9362; 14043; 18725; 23406; 28087];
     AOM_CDF [4681; 9362; 14043; 18725; 23406; 28087];
     AOM_CDF [4681; 9362; 14043; 18725; 23406; 28087];
     AOM_CDF [4681; 9362; 14043; 18725; 23406; 28087]]];
   [[AOM_CDF [6554; 13107; 19661; 26214];
     AOM_CDF [6554; 13107; 19661; 26214];
     AOM_CDF [6554; 13107; 19661; 26214];
     AOM_CDF [6554; 13107; 19661; 26214];
     AOM_CDF [6554; 13107; 19661; 26214];
     AOM_CDF [6554; 13107; 19661; 26214];
     AOM_CDF [6554; 13107; 19661; 26214];
     AOM_CDF [6554; 13107; 19661; 26214];
     AOM_CDF [6554; 13107; 19661; 26214];
     AOM_CDF [6554; 13107; 19661; 26214];
     AOM_CDF [6554; 13107; 19661; 26214];
     AOM_CDF [6554; 13107; 19661; 26214];
     AOM_CDF [6554; 13107; 19661; 26214]];
    [AOM_CDF [6554; 13107; 19661; 26214];
     AOM_CDF [6554; 13107; 19661; 26214];
     AOM_CDF [6554; 13107; 19661; 26214];
     AOM_CDF [6554; 13107; 19661; 26214];
     AOM_CDF [6554; 13107; 19661; 26214];
     AOM_CDF [6554; 13107; 19661; 26214];
     AOM_CDF [6554; 13107; 19661; 26214];
     AOM_CDF [6554; 13107; 19661; 26214];
     AOM_CDF [6554; 13107; 19661; 26214];
     AOM_CDF [6554; 13107; 19661; 26214];
     AOM_CDF [6554; 13107; 19661; 26214];
     AOM_CDF [6554; 13107; 19661; 26214];
     AOM_CDF [6554; 13107; 19661; 26214]];
    [AOM_CDF [1127; 12814; 22772; 27483];
     AOM_CDF [145; 6761; 11980; 26667];
     AOM_CDF [362; 5887; 11678; 16725];
     AOM_CDF [385; 15213; 18587; 30693];
     AOM_CDF [25; 2914; 23134; 27903];
     AOM_CDF [60; 4470; 11749; 23991];
     AOM_CDF [37; 3332; 14511; 21448];
     AOM_CDF [157; 6320; 13036; 17439];
     AOM_CDF [119; 6719; 12906; 29396];
     AOM_CDF [47; 5537; 12576; 21499];
     AOM_CDF [269; 6076; 11258; 23115];
     AOM_CDF [83; 5615; 12001; 17228];
     AOM_CDF [1968; 5556; 12023; 18547]];
    [AOM_CDF [6554; 13107; 19661; 26214];
     AOM_CDF [6554; 13107; 19661; 26214];
     AOM_CDF [6554; 13107; 19661; 26214];
     AOM_CDF [6554; 13107; 19661; 26214];
     AOM_CDF [6554; 13107; 19661; 26214];
     AOM_CDF [6554; 13107; 19661; 26214];
     AOM_CDF [6554; 13107; 19661; 26214];
     AOM_CDF [6554; 13107; 19661; 26214];
     AOM_CDF [6554; 13107; 19661; 26214];
     AOM_CDF [6554; 13107; 19661; 26214];
     AOM_CDF [6554; 13107; 19661; 26214];
     AOM_CDF [6554; 13107; 19661; 26214];
     AOM_CDF [6554; 13107; 19661; 26214]]]].

Definition default_inter_ext_tx_cdf : list (list (list Z)) :=
  [[ZERO_CDF;
    ZERO_CDF;
    ZERO_CDF;
    ZERO_CDF];
   [AOM_CDF [4458; 5560; 7695; 9709; 13330; 14789; 17537; 20266; 21504; 22848; 23934; 25474;
       27727; 28915; 30631];
    AOM_CDF [1645; 2573; 4778; 5711; 7807; 8622; 10522; 15357; 17674; 20408; 22517; 25010; 27116;
        28856; 30749];
    AOM_CDF [2048; 4096; 6144; 8192; 10240; 12288; 14336; 16384; 18432; 20480; 22528; 24576;
        26624; 28672; 30720];
    AOM_CDF [2048; 4096; 6144; 8192; 10240; 12288; 14336; 16384; 18432; 20480; 22528; 24576;
        26624; 28672; 30720]];
   [AOM_CDF [2731; 5461; 8192; 10923; 13653; 16384; 19115; 21845; 24576; 27307; 30037];
    AOM_CDF [2731; 5461; 8192; 10923; 13653; 16384; 19115; 21845; 24576; 27307; 30037];
    AOM_CDF [770; 2421; 5225; 12907; 15819; 18927; 21561; 24089; 26595; 28526; 30529];
    AOM_CDF [2731; 5461; 8192; 10923; 13653; 16384; 19115; 21845; 24576; 27307; 30037]];
   [AOM_CDF [16384];
    AOM_CDF [4167];
    AOM_CDF [1998];
    AOM_CDF [748]]].

Definition default_cfl_sign_cdf : list Z :=
  AOM_CDF [1418; 2123; 13340; 18405; 26972; 28343; 32294].

Definition default_cfl_alpha_cdf : list (list Z) :=
  [AOM_CDF [7637; 20719; 31401; 32481; 32657; 32688; 32692; 32696; 32700; 32704; 32708; 32712;
      32716; 32720; 32724];
   AOM_CDF [14365; 23603; 28135; 31168; 32167; 32395; 32487; 32573; 32620; 32647; 32668; 32672;
       32676; 32680; 32684];
   AOM_CDF [11532; 22380; 28445; 31360; 32349; 32523; 32584; 32649; 32673; 32677; 32681; 32685;
       32689; 32693; 32697];
   AOM_CDF [26990; 31402; 32282; 32571; 32692; 32696; 32700; 32704; 32708; 32712; 32716; 32720;
       32724; 32728; 32732];
   AOM_CDF [17248; 26058; 28904; 30608; 31305; 31877; 32126; 32321; 32394; 32464; 32516; 32560;
       32576; 32593; 32622];
   AOM_CDF [14738; 21678; 25779; 27901; 29024; 30302; 30980; 31843; 32144; 32413; 32520; 32594;
       32622; 32656; 32660]].

Definition default_switchable_interp_cdf : list (list Z) :=
  [AOM_CDF [31935; 32720];
   AOM_CDF [5568; 32719];
   AOM_CDF [422; 2938];
   AOM_CDF [28244; 32608];
   AOM_CDF [31206; 31953];
   AOM_CDF [4862; 32121];
   AOM_CDF [770; 1152];
   AOM_CDF [20889; 25637];
   AOM_CDF [31910; 32724];
   AOM_CDF [4120; 32712];
   AOM_CDF [305; 2247];
   AOM_CDF [27403; 32636];
   AOM_CDF [31022; 32009];
   AOM_CDF [2963; 32093];
   AOM_CDF [601; 943];
   AOM_CDF [14969; 21398]].

Definition default_newmv_cdf : list (list Z) :=
  [AOM_CDF [24035];
   AOM_CDF [16630];
   AOM_CDF [15339];
   AOM_CDF [8386];
   AOM_CDF [12222];
   AOM_CDF [4676]].

Definition default_zeromv_cdf : list (list Z) :=
  [AOM_CDF [2175];
   AOM_CDF [1054]].

Definition default_refmv_cdf : list (list Z) :=
  [AOM_CDF [23974];
   AOM_CDF [24188];
   AOM_CDF [17848];
   AOM_CDF [28622];
   AOM_CDF [24312];
   AOM_CDF [19923]].

Definition default_drl_cdf : list (list Z) :=
  [AOM_CDF [13104];
   AOM_CDF [24560];
   AOM_CDF [18945]].

Definition default_inter_compound_mode_cdf : list (list Z) :=
  [AOM_CDF [7760; 13823; 15808; 17641; 19156; 20666; 26891];
   AOM_CDF [10730; 19452; 21145; 22749; 24039; 25131; 28724];
   AOM_CDF [10664; 20221; 21588; 22906; 24295; 25387; 28436];
   AOM_CDF [13298; 16984; 20471; 24182; 25067; 25736; 26422];
   AOM_CDF [18904; 23325; 25242; 27432; 27898; 28258; 30758];
   AOM_CDF [10725; 17454; 20124; 22820; 24195; 25168; 26046];
   AOM_CDF [17125; 24273; 25814; 27492; 28214; 28704; 30592];
   AOM_CDF [13046; 23214; 24505; 25942; 27435; 28442; 29330]].

Definition default_interintra_cdf : list (list Z) :=
  [AOM_CDF [16384];
   AOM_CDF [26887];
   AOM_CDF [27597];
   AOM_CDF [30237]].

Definition default_interintra_mode_cdf : list (list Z) :=
  [AOM_CDF [8192; 16384; 24576];
   AOM_CDF [1875; 11082; 27332];
   AOM_CDF [2473; 9996; 26388];
   AOM_CDF [4238; 11537; 25926]].

Definition default_wedge_interintra_cdf : list (list Z) :=
  [AOM_CDF [16384];
   AOM_CDF [16384];
   AOM_CDF [16384];
   AOM_CDF [20036];
   AOM_CDF [24957];
   AOM_CDF [26704];
   AOM_CDF [27530];
   AOM_CDF [29564];
   AOM_CDF [29444];
   AOM_CDF [26872];
   AOM_CDF [16384];
   AOM_CDF [16384];
   AOM_CDF [16384];
   AOM_CDF [16384];
   AOM_CDF [16384];
   AOM_CDF [16384];
   AOM_CDF [16384];
   AOM_CDF [16384];
   AOM_CDF [16384];
   AOM_CDF [16384];
   AOM_CDF [16384];
   AOM_CDF [16384]].

Definition default_compound_type_cdf : list (list Z) :=
  [AOM_CDF [16384];
   AOM_CDF [16384];
   AOM_CDF [16384];
   AOM_CDF [23431];
   AOM_CDF [13171];
   AOM_CDF [11470];
   AOM_CDF [9770];
   AOM_CDF [9100];
   AOM_CDF [8233];
   AOM_CDF [6172];
   AOM_CDF [16384];
   AOM_CDF [16384];
   AOM_CDF [16384];
   AOM_CDF [16384];
   AOM_CDF [16384];
   AOM_CDF [16384];
   AOM_CDF [16384];
   AOM_CDF [16384];
   AOM_CDF [11820];
   AOM_CDF [7701];
   AOM_CDF [16384];
   AOM_CDF [16384]].

Definition default_wedge_idx_cdf : list (list Z) :=
  [AOM_CDF [2048; 4096; 6144; 8192; 10240; 12288; 14336; 16384; 18432; 20480; 22528; 24576;
      26624; 28672; 30720];
   AOM_CDF [2048; 4096; 6144; 8192; 10240; 12288; 14336; 16384; 18432; 20480; 22528; 24576;
       26624; 28672; 30720];
   AOM_CDF [2048; 4096; 6144; 8192; 10240; 12288; 14336; 16384; 18432; 20480; 22528; 24576;
       26624; 28672; 30720];
   AOM_CDF [2438; 4440; 6599; 8663; 11005; 12874; 15751; 18094; 20359; 22362; 24127; 25702;
       27752; 29450; 31171];
   AOM_CDF [806; 3266; 6005; 6738; 7218; 7367; 7771; 14588; 16323; 17367; 18452; 19422; 22839;
       26127; 29629];
   AOM_CDF [2779; 3738; 4683; 7213; 7775; 8017; 8655; 14357; 17939; 21332; 24520; 27470; 29456;
       30529; 31656];
   AOM_CDF [1684; 3625; 5675; 7108; 9302; 11274; 14429; 17144; 19163; 20961; 22884; 24471; 26719;
       28714; 30877];
   AOM_CDF [1142; 3491; 6277; 7314; 8089; 8355; 9023; 13624; 15369; 16730; 18114; 19313; 22521;
       26012; 29550];
   AOM_CDF [2742; 4195; 5727; 8035; 8980; 9336; 10146; 14124; 17270; 20533; 23434; 25972; 27944;
       29570; 31416];
   AOM_CDF [1727; 3948; 6101; 7796; 9841; 12344; 15766; 18944; 20638; 22038; 23963; 25311; 26988;
       28766; 31012];
   AOM_CDF [2048; 4096; 6144; 8192; 10240; 12288; 14336; 16384; 18432; 20480; 22528; 24576;
       26624; 28672; 30720];
   AOM_CDF [2048; 4096; 6144; 8192; 10240; 12288; 14336; 16384; 18432; 20480; 22528; 24576;
       26624; 28672; 30720];
   AOM_CDF [2048; 4096; 6144; 8192; 10240; 12288; 14336; 16384; 18432; 20480; 22528; 24576;
       26624; 28672; 30720];
   AOM_CDF [2048; 4096; 6144; 8192; 10240; 12288; 14336; 16384; 18432; 20480; 22528; 24576;
       26624; 28672; 30720];
   AOM_CDF [2048; 4096; 6144; 8192; 10240; 12288; 14336; 16384; 18432; 20480; 22528; 24576;
       26624; 28672; 30720];
   AOM_CDF [2048; 4096; 6144; 8192; 10240; 12288; 14336; 16384; 18432; 20480; 22528; 24576;
       26624; 28672; 30720];
   AOM_CDF [2048; 4096; 6144; 8192; 10240; 12288; 14336; 16384; 18432; 20480; 22528; 24576;
       26624; 28672; 30720];
   AOM_CDF [2048; 4096; 6144; 8192; 10240; 12288; 14336; 16384; 18432; 20480; 22528; 24576;
       26624; 28672; 30720];
   AOM_CDF [154; 987; 1925; 2051; 2088; 2111; 2151; 23033; 23703; 24284; 24985; 25684; 27259;
       28883; 30911];
   AOM_CDF [1135; 1322; 1493; 2635; 2696; 2737; 2770; 21016; 22935; 25057; 27251; 29173; 30089;
       30960; 31933];
   AOM_CDF [2048; 4096; 6144; 8192; 10240; 12288; 14336; 16384; 18432; 20480; 22528; 24576;
       26624; 28672; 30720];
   AOM_CDF [2048; 4096; 6144; 8192; 10240; 12288; 14336; 16384; 18432; 20480; 22528; 24576;
       26624; 28672; 30720]].

Definition default_motion_mode_cdf : list (list Z) :=
  [AOM_CDF [10923; 21845];
   AOM_CDF [10923; 21845];
   AOM_CDF [10923; 21845];
   AOM_CDF [7651; 24760];
   AOM_CDF [4738; 24765];
   AOM_CDF [5391; 25528];
   AOM_CDF [19419; 26810];
   AOM_CDF [5123; 23606];
   AOM_CDF [11606; 24308];
   AOM_CDF [26260; 29116];
   AOM_CDF [20360; 28062];
   AOM_CDF [21679; 26830];
   AOM_CDF [29516; 30701];
   AOM_CDF [28898; 30397];
   AOM_CDF [30878; 31335];
   AOM_CDF [32507; 32558];
   AOM_CDF [10923; 21845];
   AOM_CDF [10923; 21845];
   AOM_CDF [28799; 31390];
   AOM_CDF [26431; 30774];
   AOM_CDF [28973; 31594];
   AOM_CDF [29742; 31203]].

Definition default_obmc_cdf : list (list Z) :=
  [AOM_CDF [16384];
   AOM_CDF [16384];
   AOM_CDF [16384];
   AOM_CDF [10437];
   AOM_CDF [9371];
   AOM_CDF [9301];
   AOM_CDF [17432];
   AOM_CDF [14423];
   AOM_CDF [15142];
   AOM_CDF [25817];
   AOM_CDF [22823];
   AOM_CDF [22083];
   AOM_CDF [30128];
   AOM_CDF [31014];
   AOM_CDF [31560];
   AOM_CDF [32638];
   AOM_CDF [16384];
   AOM_CDF [16384];
   AOM_CDF [23664];
   AOM_CDF [20901];
   AOM_CDF [24008];
   AOM_CDF [26879]].

Definition default_intra_inter_cdf : list (list Z) :=
  [AOM_CDF [806];
   AOM_CDF [16662];
   AOM_CDF [20186];
   AOM_CDF [26538]].

Definition default_comp_inter_cdf : list (list Z) :=
  [AOM_CDF [26828];
   AOM_CDF [24035];
   AOM_CDF [12031];
   AOM_CDF [10640];
   AOM_CDF [2901]].

Definition default_comp_ref_type_cdf : list (list Z) :=
  [AOM_CDF [1198];
   AOM_CDF [2070];
   AOM_CDF [9166];
   AOM_CDF [7499];
   AOM_CDF [22475]].

Definition default_uni_comp_ref_cdf : list (list (list Z)) :=
  [[AOM_CDF [5284];
    AOM_CDF [3865];
    AOM_CDF [3128]];
   [AOM_CDF [23152];
    AOM_CDF [14173];
    AOM_CDF [15270]];
   [AOM_CDF [31774];
    AOM_CDF [25120];
    AOM_CDF [26710]]].

Definition default_single_ref_cdf : list (list (list Z)) :=
  [[AOM_CDF [4897];
    AOM_CDF [1555];
    AOM_CDF [4236];
    AOM_CDF [8650];
    AOM_CDF [904];
    AOM_CDF [1444]];
   [AOM_CDF [16973];
    AOM_CDF [16751];
    AOM_CDF [19647];
    AOM_CDF [24773];
    AOM_CDF [11014];
    AOM_CDF [15087]];
   [AOM_CDF [29744];
    AOM_CDF [30279];
    AOM_CDF [31194];
    AOM_CDF [31895];
    AOM_CDF [26875];
    AOM_CDF [30304]]].

Definition default_comp_ref_cdf : list (list (list Z)) :=
  [[AOM_CDF [4946];
    AOM_CDF [9468];
    AOM_CDF [1503]];
   [AOM_CDF [19891];
    AOM_CDF [22441];
    AOM_CDF [15160]];
   [AOM_CDF [30731];
    AOM_CDF [31059];
    AOM_CDF [27544]]].

Definition default_comp_bwdref_cdf : list (list (list Z)) :=
  [[AOM_CDF [2235];
    AOM_CDF [1423]];
   [AOM_CDF [17182];
    AOM_CDF [15175]];
   [AOM_CDF [30606];
    AOM_CDF [30489]]].

Definition default_palette_y_size_cdf : list (list Z) :=
  [AOM_CDF [7952; 13000; 18149; 21478; 25527; 29241];
   AOM_CDF [7139; 11421; 16195; 19544; 23666; 28073];
   AOM_CDF [7788; 12741; 17325; 20500; 24315; 28530];
   AOM_CDF [8271; 14064; 18246; 21564; 25071; 28533];
   AOM_CDF [12725; 19180; 21863; 24839; 27535; 30120];
   AOM_CDF [9711; 14888; 16923; 21052; 25661; 27875];
   AOM_CDF [14940; 20797; 21678; 24186; 27033; 28999]].

Definition default_palette_uv_size_cdf : list (list Z) :=
  [AOM_CDF [8713; 19979; 27128; 29609; 31331; 32272];
   AOM_CDF [5839; 15573; 23581; 26947; 29848; 31700];
   AOM_CDF [4426; 11260; 17999; 21483; 25863; 29430];
   AOM_CDF [3228; 9464; 14993; 18089; 22523; 27420];
   AOM_CDF [3768; 8886; 13091; 17852; 22495; 27207];
   AOM_CDF [2464; 8451; 12861; 21632; 25525; 28555];
   AOM_CDF [1269; 5435; 10433; 18963; 21700; 25865]].

Definition default_palette_y_mode_cdf : list (list (list Z)) :=
  [[AOM_CDF [31676];
    AOM_CDF [3419];
    AOM_CDF [1261]];
   [AOM_CDF [31912];
    AOM_CDF [2859];
    AOM_CDF [980]];
   [AOM_CDF [31823];
    AOM_CDF [3400];
    AOM_CDF [781]];
   [AOM_CDF [32030];
    AOM_CDF [3561];
    AOM_CDF [904]];
   [AOM_CDF [32309];
    AOM_CDF [7337];
    AOM_CDF [1462]];
   [AOM_CDF [32265];
    AOM_CDF [4015];
    AOM_CDF [1521]];
   [AOM_CDF [32450];
    AOM_CDF [7946];
    AOM_CDF [129]]].

Definition default_palette_uv_mode_cdf : list (list Z) :=
  [AOM_CDF [32461];
   AOM_CDF [21488]].

Definition default_palette_y_color_index_cdf : list (list (list Z)) :=
  [[AOM_CDF [28710];
    AOM_CDF [16384];
    AOM_CDF [10553];
    AOM_CDF [27036];
    AOM_CDF [31603]];
   [AOM_CDF [27877; 30490];
    AOM_CDF [11532; 25697];
    AOM_CDF [6544; 30234];
    AOM_CDF [23018; 28072];
    AOM_CDF [31915; 32385]];
   [AOM_CDF [25572; 28046; 30045];
    AOM_CDF [9478; 21590; 27256];
    AOM_CDF [7248; 26837; 29824];
    AOM_CDF [19167; 24486; 28349];
    AOM_CDF [31400; 31825; 32250]];
   [AOM_CDF [24779; 26955; 28576; 30282];
    AOM_CDF [8669; 20364; 24073; 28093];
    AOM_CDF [4255; 27565; 29377; 31067];
    AOM_CDF [19864; 23674; 26716; 29530];
    AOM_CDF [31646; 31893; 32147; 32426]];
   [AOM_CDF [23132; 25407; 26970; 28435; 30073];
    AOM_CDF [7443; 17242; 20717; 24762; 27982];
    AOM_CDF [6300; 24862; 26944; 28784; 30671];
    AOM_CDF [18916; 22895; 25267; 27435; 29652];
    AOM_CDF [31270; 31550; 31808; 32059; 32353]];
   [AOM_CDF [23105; 25199; 26464; 27684; 28931; 30318];
    AOM_CDF [6950; 15447; 18952; 22681; 25567; 28563];
    AOM_CDF [7560; 23474; 25490; 27203; 28921; 30708];
    AOM_CDF [18544; 22373; 24457; 26195; 28119; 30045];
    AOM_CDF [31198; 31451; 31670; 31882; 32123; 32391]];
   [AOM_CDF [21689; 23883; 25163; 26352; 27506; 28827; 30195];
    AOM_CDF [6892; 15385; 17840; 21606; 24287; 26753; 29204];
    AOM_CDF [5651; 23182; 25042; 26518; 27982; 29392; 30900];
    AOM_CDF [19349; 22578; 24418; 25994; 27524; 29031; 30448];
    AOM_CDF [31028; 31270; 31504; 31705; 31927; 32153; 32392]]].

Definition default_palette_uv_color_index_cdf : list (list (list Z)) :=
  [[AOM_CDF [29089];
    AOM_CDF [16384];
    AOM_CDF [8713];
    AOM_CDF [29257];
    AOM_CDF [31610]];
   [AOM_CDF [25257; 29145];
    AOM_CDF [12287; 27293];
    AOM_CDF [7033; 27960];
    AOM_CDF [20145; 25405];
    AOM_CDF [30608; 31639]];
   [AOM_CDF [24210; 27175; 29903];
    AOM_CDF [9888; 22386; 27214];
    AOM_CDF [5901; 26053; 29293];
    AOM_CDF [18318; 22152; 28333];
    AOM_CDF [30459; 31136; 31926]];
   [AOM_CDF [22980; 25479; 27781; 29986];
    AOM_CDF [8413; 21408; 24859; 28874];
    AOM_CDF [2257; 29449; 30594; 31598];
    AOM_CDF [19189; 21202; 25915; 28620];
    AOM_CDF [31844; 32044; 32281; 32518]];
   [AOM_CDF [22217; 24567; 26637; 28683; 30548];
    AOM_CDF [7307; 16406; 19636; 24632; 28424];
    AOM_CDF [4441; 25064; 26879; 28942; 30919];
    AOM_CDF [17210; 20528; 23319; 26750; 29582];
    AOM_CDF [30674; 30953; 31396; 31735; 32207]];
   [AOM_CDF [21239; 23168; 25044; 26962; 28705; 30506];
    AOM_CDF [6545; 15012; 18004; 21817; 25503; 28701];
    AOM_CDF [3448; 26295; 27437; 28704; 30126; 31442];
    AOM_CDF [15889; 18323; 21704; 24698; 26976; 29690];
    AOM_CDF [30988; 31204; 31479; 31734; 31983; 32325]];
   [AOM_CDF [21442; 23288; 24758; 26246; 27649; 28980; 30563];
    AOM_CDF [5863; 14933; 17552; 20668; 23683; 26411; 29273];
    AOM_CDF [3415; 25810; 26877; 27990; 29223; 30394; 31618];
    AOM_CDF [17965; 20084; 22232; 23974; 26274; 28402; 30390];
    AOM_CDF [31190; 31329; 31516; 31679; 31825; 32026; 32322]]].

Definition default_txfm_partition_cdf : list (list Z) :=
  [AOM_CDF [28581];
   AOM_CDF [23846];
   AOM_CDF [20847];
   AOM_CDF [24315];
   AOM_CDF [18196];
   AOM_CDF [12133];
   AOM_CDF [18791];
   AOM_CDF [10887];
   AOM_CDF [11005];
   AOM_CDF [27179];
   AOM_CDF [20004];
   AOM_CDF [11281];
   AOM_CDF [26549];
   AOM_CDF [19308];
   AOM_CDF [14224];
   AOM_CDF [28015];
   AOM_CDF [21546];
   AOM_CDF [14400];
   AOM_CDF [28165];
   AOM_CDF [22401];
   AOM_CDF [16088]].

Definition default_skip_txfm_cdfs : list (list Z) :=
  [AOM_CDF [31671];
   AOM_CDF [16515];
   AOM_CDF [4576]].

Definition default_skip_mode_cdfs : list (list Z) :=
  [AOM_CDF [32621];
   AOM_CDF [20708];
   AOM_CDF [8127]].

Definition default_compound_idx_cdfs : list (list Z) :=
  [AOM_CDF [18244];
   AOM_CDF [12865];
   AOM_CDF [7053];
   AOM_CDF [13259];
   AOM_CDF [9334];
   AOM_CDF [4644]].

Definition default_comp_group_idx_cdfs : list (list Z) :=
  [AOM_CDF [26607];
   AOM_CDF [22891];
   AOM_CDF [18840];
   AOM_CDF [24594];
   AOM_CDF [19934];
   AOM_CDF [22674]].

Definition default_intrabc_cdf : list Z :=
  AOM_CDF [30531].

Definition default_filter_intra_mode_cdf : list Z :=
  AOM_CDF [8949; 12776; 17211; 29558].

Definition default_filter_intra_cdfs : list (list Z) :=
  [AOM_CDF [4621];
   AOM_CDF [6743];
   AOM_CDF [5893];
   AOM_CDF [7866];
   AOM_CDF [12551];
   AOM_CDF [9394];
   AOM_CDF [12408];
   AOM_CDF [14301];
   AOM_CDF [12756];
   AOM_CDF [22343];
   AOM_CDF [16384];
   AOM_CDF [16384];
   AOM_CDF [16384];
   AOM_CDF [16384];
   AOM_CDF [16384];
   AOM_CDF [16384];
   AOM_CDF [12770];
   AOM_CDF [10368];
   AOM_CDF [20229];
   AOM_CDF [18101];
   AOM_CDF [16384];
   AOM_CDF [16384]].

Definition default_switchable_restore_cdf : list Z :=
  AOM_CDF [9413; 22581].

Definition default_wiener_restore_cdf : list Z :=
  AOM_CDF [11570].

Definition default_sgrproj_restore_cdf : list Z :=
  AOM_CDF [16855].

Definition default_delta_q_cdf : list Z :=
  AOM_CDF [28160; 32120; 32677].

Definition default_delta_lf_multi_cdf : list (list Z) :=
  [AOM_CDF [28160; 32120; 32677];
   AOM_CDF [28160; 32120; 32677];
   AOM_CDF [28160; 32120; 32677];
   AOM_CDF [28160; 32120; 32677]].

Definition default_delta_lf_cdf : list Z :=
  AOM_CDF [28160; 32120; 32677].

Definition default_segment_pred_cdf : list (list Z) :=
  [AOM_CDF [128 * 128];
   AOM_CDF [128 * 128];
   AOM_CDF [128 * 128]].

Definition default_spatial_pred_seg_tree_cdf : list (list Z) :=
  [AOM_CDF [5622; 7893; 16093; 18233; 27809; 28373; 32533];
   AOM_CDF [14274; 18230; 22557; 24935; 29980; 30851; 32344];
   AOM_CDF [27527; 28487; 28723; 28890; 32397; 32647; 32679]].

Definition default_tx_size_cdf : list (list (list Z)) :=
  [[AOM_CDF [19968];
    AOM_CDF [19968];
    AOM_CDF [24320]];
   [AOM_CDF [12272; 30172];
    AOM_CDF [12272; 30172];
    AOM_CDF [18677; 30848]];
   [AOM_CDF [12986; 15180];
    AOM_CDF [12986; 15180];
    AOM_CDF [24302; 25602]];
   [AOM_CDF [5782; 11475];
    AOM_CDF [5782; 11475];
    AOM_CDF [16803; 22759]]].

(** ** The frame context *)

Record FRAME_CONTEXT := {
  fc_palette_y_size_cdf : list (list Z);
  fc_palette_uv_size_cdf : list (list Z);
  fc_palette_y_color_index_cdf : list (list (list Z));
  fc_palette_uv_color_index_cdf : list (list (list Z));
  fc_kf_y_cdf : list (list (list Z));
  fc_angle_delta_cdf : list (list Z);
  fc_comp_inter_cdf : list (list Z);
  fc_comp_ref_type_cdf : list (list Z);
  fc_uni_comp_ref_cdf : list (list (list Z));
  fc_palette_y_mode_cdf : list (list (list Z));
  fc_palette_uv_mode_cdf : list (list Z);
  fc_comp_ref_cdf : list (list (list Z));
  fc_comp_bwdref_cdf : list (list (list Z));
  fc_single_ref_cdf : list (list (list Z));
  fc_txfm_partition_cdf : list (list Z);
  fc_compound_index_cdf : list (list Z);
  fc_comp_group_idx_cdf : list (list Z);
  fc_newmv_cdf : list (list Z);
  fc_zeromv_cdf : list (list Z);
  fc_refmv_cdf : list (list Z);
  fc_drl_cdf : list (list Z);
  fc_motion_mode_cdf : list (list Z);
  fc_obmc_cdf : list (list Z);
  fc_inter_compound_mode_cdf : list (list Z);
  fc_compound_type_cdf : list (list Z);
  fc_wedge_idx_cdf : list (list Z);
  fc_interintra_cdf : list (list Z);
  fc_wedge_interintra_cdf : list (list Z);
  fc_interintra_mode_cdf : list (list Z);
  fc_seg_pred_cdf : list (list Z);
  fc_filter_intra_cdfs : list (list Z);
  fc_filter_intra_mode_cdf : list Z;
  fc_switchable_restore_cdf : list Z;
  fc_wiener_restore_cdf : list Z;
  fc_sgrproj_restore_cdf : list Z;
  fc_y_mode_cdf : list (list Z);
  fc_uv_mode_cdf : list (list (list Z));
  fc_switchable_interp_cdf : list (list Z);
  fc_partition_cdf : list (list Z);
  fc_intra_ext_tx_cdf : list (list (list (list Z)));
  fc_inter_ext_tx_cdf : list (list (list Z));
  fc_skip_mode_cdfs : list (list Z);
  fc_skip_txfm_cdfs : list (list Z);
  fc_intra_inter_cdf : list (list Z);
  fc_seg_spatial_pred_seg_cdf : list (list Z);
  fc_tx_size_cdf : list (list (list Z));
  fc_delta_q_cdf : list Z;
  fc_delta_lf_cdf : list Z;
  fc_delta_lf_multi_cdf : list (list Z);
  fc_cfl_sign_cdf : list Z;
  fc_cfl_alpha_cdf : list (list Z);
  fc_intrabc_cdf : list Z }.

(** [av1_copy] of every table. *)
Definition av1_init_mode_probs : FRAME_CONTEXT :=
  {| fc_palette_y_size_cdf := default_palette_y_size_cdf;
     fc_palette_uv_size_cdf := default_palette_uv_size_cdf;
     fc_palette_y_color_index_cdf := default_palette_y_color_index_cdf;
     fc_palette_uv_color_index_cdf := default_palette_uv_color_index_cdf;
     fc_kf_y_cdf := default_kf_y_mode_cdf;
     fc_angle_delta_cdf := default_angle_delta_cdf;
     fc_comp_inter_cdf := default_comp_inter_cdf;
     fc_comp_ref_type_cdf := default_comp_ref_type_cdf;
     fc_uni_comp_ref_cdf := default_uni_comp_ref_cdf;
     fc_palette_y_mode_cdf := default_palette_y_mode_cdf;
     fc_palette_uv_mode_cdf := default_palette_uv_mode_cdf;
     fc_comp_ref_cdf := default_comp_ref_cdf;
     fc_comp_bwdref_cdf := default_comp_bwdref_cdf;
     fc_single_ref_cdf := default_single_ref_cdf;
     fc_txfm_partition_cdf := default_txfm_partition_cdf;
     fc_compound_index_cdf := default_compound_idx_cdfs;
     fc_comp_group_idx_cdf := default_comp_group_idx_cdfs;
     fc_newmv_cdf := default_newmv_cdf;
     fc_zeromv_cdf := default_zeromv_cdf;
     fc_refmv_cdf := default_refmv_cdf;
     fc_drl_cdf := default_drl_cdf;
     fc_motion_mode_cdf := default_motion_mode_cdf;
     fc_obmc_cdf := default_obmc_cdf;
     fc_inter_compound_mode_cdf := default_inter_compound_mode_cdf;
     fc_compound_type_cdf := default_compound_type_cdf;
     fc_wedge_idx_cdf := default_wedge_idx_cdf;
     fc_interintra_cdf := default_interintra_cdf;
     fc_wedge_interintra_cdf := default_wedge_interintra_cdf;
     fc_interintra_mode_cdf := default_interintra_mode_cdf;
     fc_seg_pred_cdf := default_segment_pred_cdf;
     fc_filter_intra_cdfs := default_filter_intra_cdfs;
     fc_filter_intra_mode_cdf := default_filter_intra_mode_cdf;
     fc_switchable_restore_cdf := default_switchable_restore_cdf;
     fc_wiener_restore_cdf := default_wiener_restore_cdf;
     fc_sgrproj_restore_cdf := default_sgrproj_restore_cdf;
     fc_y_mode_cdf := default_if_y_mode_cdf;
     fc_uv_mode_cdf := default_uv_mode_cdf;
     fc_switchable_interp_cdf := default_switchable_interp_cdf;
     fc_partition_cdf := default_partition_cdf;
     fc_intra_ext_tx_cdf := default_intra_ext_tx_cdf;
     fc_inter_ext_tx_cdf := default_inter_ext_tx_cdf;
     fc_skip_mode_cdfs := default_skip_mode_cdfs;
     fc_skip_txfm_cdfs := default_skip_txfm_cdfs;
     fc_intra_inter_cdf := default_intra_inter_cdf;
     fc_seg_spatial_pred_seg_cdf := default_spatial_pred_seg_tree_cdf;
     fc_tx_size_cdf := default_tx_size_cdf;
     fc_delta_q_cdf := default_delta_q_cdf;
     fc_delta_lf_cdf := default_delta_lf_cdf;
     fc_delta_lf_multi_cdf := default_delta_lf_multi_cdf;
     fc_cfl_sign_cdf := default_cfl_sign_cdf;
     fc_cfl_alpha_cdf := default_cfl_alpha_cdf;
     fc_intrabc_cdf := default_intrabc_cdf |}.

(** Every CDF of a context. *)
Definition mode_cdfs (fc : FRAME_CONTEXT) : list (list Z) :=
  fc_palette_y_size_cdf fc ++
  fc_palette_uv_size_cdf fc ++
  concat (fc_palette_y_color_index_cdf fc) ++
  concat (fc_palette_uv_color_index_cdf fc) ++
  concat (fc_kf_y_cdf fc) ++
  fc_angle_delta_cdf fc ++
  fc_comp_inter_cdf fc ++
  fc_comp_ref_type_cdf fc ++
  concat (fc_uni_comp_ref_cdf fc) ++
  concat (fc_palette_y_mode_cdf fc) ++
  fc_palette_uv_mode_cdf fc ++
  concat (fc_comp_ref_cdf fc) ++
  concat (fc_comp_bwdref_cdf fc) ++
  concat (fc_single_ref_cdf fc) ++
  fc_txfm_partition_cdf fc ++
  fc_compound_index_cdf fc ++
  fc_comp_group_idx_cdf fc ++
  fc_newmv_cdf fc ++
  fc_zeromv_cdf fc ++
  fc_refmv_cdf fc ++
  fc_drl_cdf fc ++
  fc_motion_mode_cdf fc ++
  fc_obmc_cdf fc ++
  fc_inter_compound_mode_cdf fc ++
  fc_compound_type_cdf fc ++
  fc_wedge_idx_cdf fc ++
  fc_interintra_cdf fc ++
  fc_wedge_interintra_cdf fc ++
  fc_interintra_mode_cdf fc ++
  fc_seg_pred_cdf fc ++
  fc_filter_intra_cdfs fc ++
  [fc_filter_intra_mode_cdf fc] ++
  [fc_switchable_restore_cdf fc] ++
  [fc_wiener_restore_cdf fc] ++
  [fc_sgrproj_restore_cdf fc] ++
  fc_y_mode_cdf fc ++
  concat (fc_uv_mode_cdf fc) ++
  fc_switchable_interp_cdf fc ++
  fc_partition_cdf fc ++
  concat (concat (fc_intra_ext_tx_cdf fc)) ++
  concat (fc_inter_ext_tx_cdf fc) ++
  fc_skip_mode_cdfs fc ++
  fc_skip_txfm_cdfs fc ++
  fc_intra_inter_cdf fc ++
  fc_seg_spatial_pred_seg_cdf fc ++
  concat (fc_tx_size_cdf fc) ++
  [fc_delta_q_cdf fc] ++
  [fc_delta_lf_cdf fc] ++
  fc_delta_lf_multi_cdf fc ++
  [fc_cfl_sign_cdf fc] ++
  fc_cfl_alpha_cdf fc ++
  [fc_intrabc_cdf fc].

(** ** Motion vectors *)

Record nmv_component := {
  classes_cdf : list Z; class0_fp_cdf : list (list Z); fp_cdf : list Z; sign_cdf : list Z;
  class0_hp_cdf : list Z; hp_cdf : list Z; class0_cdf : list Z; bits_cdf : list (list Z) }.

Record nmv_context := { joints_cdf : list Z; comps : list nmv_component }.

Definition default_nmv_component : nmv_component :=
  {| classes_cdf := AOM_CDF [28672; 30976; 31858; 32320; 32551; 32656; 32740; 32757; 32762; 32767];
     class0_fp_cdf := [AOM_CDF [16384; 24576; 26624]; AOM_CDF [12288; 21248; 24128]];
     fp_cdf := AOM_CDF [8192; 17408; 21248];
     sign_cdf := AOM_CDF [128 * 128];
     class0_hp_cdf := AOM_CDF [160 * 128];
     hp_cdf := AOM_CDF [128 * 128];
     class0_cdf := AOM_CDF [216 * 128];
     bits_cdf := [AOM_CDF [128 * 136]; AOM_CDF [128 * 140]; AOM_CDF [128 * 148]; AOM_CDF [128 * 160];
                  AOM_CDF [128 * 176]; AOM_CDF [128 * 192]; AOM_CDF [128 * 224]; AOM_CDF [128 * 234];
                  AOM_CDF [128 * 234]; AOM_CDF [128 * 240]] |}.

(** The vertical and the horizontal component have the same defaults. *)
Definition default_nmv_context : nmv_context :=
  {| joints_cdf := AOM_CDF [4096; 11264; 19328]; comps := [default_nmv_component; default_nmv_component] |}.

(** [fc->nmvc] and [fc->ndvc]. *)
Definition av1_init_mv_probs : nmv_context * nmv_context := (default_nmv_context, default_nmv_context).

Definition nmv_cdfs (c : nmv_context) : list (list Z) :=
  joints_cdf c :: concat ((fun n =>
    [classes_cdf n] ++ class0_fp_cdf n ++ [fp_cdf n; sign_cdf n; class0_hp_cdf n; hp_cdf n; class0_cdf n]
    ++ bits_cdf n) <$> comps c).

(** ** Well-formedness *)

(** The alphabet an initialised table entry stands for. *)
Definition cdf_model (l : list Z) : model := (l, Z.of_nat (length l) - 1).

Definition is_zero_cdf (l : list Z) : bool := forallb (fun x => x =? 0) l.

Definition default_models : list model :=
  cdf_model <$> List.filter (fun l => negb (is_zero_cdf l))
    (mode_cdfs av1_init_mode_probs ++ nmv_cdfs (fst av1_init_mv_probs) ++ nmv_cdfs (snd av1_init_mv_probs)).

Definition model_okb (md : model) : bool :=
  icdf_okb md.1 md.2 && (md.2 <? Z.of_nat (length md.1)) &&
  (0 <=? nth (Z.to_nat md.2) md.1 0) && (nth (Z.to_nat md.2) md.1 0 <=? 32).

Lemma models_okb_ok l : forallb model_okb l = true -> Forall model_ok l.
Proof.
  intros H. apply List.Forall_forall. intros md Hin.
  rewrite forallb_forall in H. specialize (H md Hin). unfold model_okb in H.
  rewrite !andb_true_iff in H. destruct H as [[[H1 H2] H3] H4].
  split; [by apply icdf_okb_ok |]. split; [by apply Z.ltb_lt |]. split; by apply Z.leb_le.
Qed.

Lemma default_models_ok : Forall model_ok default_models.
Proof. apply models_okb_ok. vm_compute. reflexivity. Qed.

(** Every default CDF of AV1 that codes anything is a proper model: at least two
    symbols, a non-increasing inverse CDF from below 2^15 to 0, and a counter in range;
    hence, whatever the syntax codes from the default contexts, in whatever order it
    selects them, survives in tile data. *)
Theorem default_contexts_roundtrip ctx al adaptive vals :
  grants_all al -> in_alphabets ctx default_models [] vals ->
  15 * (Z.of_nat (length vals) + 1) < 2 ^ 29 ->
  Forall model_ok default_models /\
  exists tbl', Forall model_ok tbl' /\
    tile_survives al adaptive (fun w => write_symbols ctx al w default_models [] vals) tbl'
      (read_symbols ctx (length vals) default_models []) (vals, tbl').
Proof.
  intros Hal Hin Hlen. split; [exact default_models_ok |].
  destruct (symbols_ok ctx al Hal adaptive vals default_models [] default_models_ok Hin)
    as (evs & tbl' & El & Htbl' & Hw & Hr).
  exists tbl'. split; [done |]. eapply tile_link; try done. by rewrite El.
Qed.

Lemma default_contexts_roundtrip_witness :
  in_alphabets (fun hist => length hist) default_models [] [6; 5; 4; 3] /\
  Forall model_ok default_models /\
  exists tbl', Forall model_ok tbl' /\
    tile_survives demo_alloc true
      (fun w => write_symbols (fun hist => length hist) demo_alloc w default_models [] [6; 5; 4; 3]) tbl'
      (read_symbols (fun hist => length hist) 4 default_models []) ([6; 5; 4; 3], tbl').
Proof.
  assert (in_alphabets (fun hist => length hist) default_models [] [6; 5; 4; 3]) as Hin.
  { assert (Hl : forall i cdf n, default_models !! i = Some (cdf, n) -> forall v, 0 <= v < n ->
      exists md : model, default_models !! i = Some md /\ 0 <= v < md.2) by (intros; eexists; split; eauto).
    cbn [in_alphabets length app].
    repeat (split; [eapply Hl; [vm_compute; reflexivity | lia] |]). exact I. }
  split; [exact Hin |].
  exact (default_contexts_roundtrip (fun hist => length hist) demo_alloc true [6; 5; 4; 3]
           demo_grants Hin ltac:(simpl; lia)).
Defined.
