(* ===== verification/FrameContext.v ===== *)
(** * The frame context

    [FRAME_CONTEXT] ([av1/common/entropymode.h]) as the context of [SyntaxIO]: a key is a
    field and its indices, the layout gives the dimensions of the fields and the alphabet
    each model is used with, and the routines of [av1/common/entropy.c] fill the context
    and reset its counters.  [nmvc] and [ndvc] share their fields, told apart by the first
    index (0 and 1). *)

From S2P Require Import Prelude CodecTypes BitChannel EntCoder RangeSpec Cdf EntEncProof EntDecProof EntRoundTrip SymbolIO SyntaxIO DefaultCdfs CoefCdfs.

#[local] Arguments Z.of_nat : simpl never.
#[local] Arguments Z.mul : simpl never.

Inductive fc_field :=
| F_txb_skip_cdf | F_eob_extra_cdf | F_dc_sign_cdf | F_eob_flag_cdf16 | F_eob_flag_cdf32
| F_eob_flag_cdf64 | F_eob_flag_cdf128 | F_eob_flag_cdf256 | F_eob_flag_cdf512
| F_eob_flag_cdf1024 | F_coeff_base_eob_cdf | F_coeff_base_cdf | F_coeff_br_cdf | F_newmv_cdf
| F_zeromv_cdf | F_refmv_cdf | F_drl_cdf | F_inter_compound_mode_cdf | F_compound_type_cdf
| F_wedge_idx_cdf | F_interintra_cdf | F_wedge_interintra_cdf | F_interintra_mode_cdf
| F_motion_mode_cdf | F_obmc_cdf | F_palette_y_size_cdf | F_palette_uv_size_cdf
| F_palette_y_color_index_cdf | F_palette_uv_color_index_cdf | F_palette_y_mode_cdf
| F_palette_uv_mode_cdf | F_comp_inter_cdf | F_single_ref_cdf | F_comp_ref_type_cdf
| F_uni_comp_ref_cdf | F_comp_ref_cdf | F_comp_bwdref_cdf | F_txfm_partition_cdf
| F_compound_index_cdf | F_comp_group_idx_cdf | F_skip_mode_cdfs | F_skip_txfm_cdfs
| F_intra_inter_cdf | F_mv_joints_cdf | F_mv_classes_cdf | F_mv_class0_fp_cdf | F_mv_fp_cdf
| F_mv_sign_cdf | F_mv_class0_hp_cdf | F_mv_hp_cdf | F_mv_class0_cdf | F_mv_bits_cdf
| F_intrabc_cdf | F_seg_pred_cdf | F_seg_spatial_pred_seg_cdf | F_filter_intra_cdfs
| F_filter_intra_mode_cdf | F_switchable_restore_cdf | F_wiener_restore_cdf
| F_sgrproj_restore_cdf | F_y_mode_cdf | F_uv_mode_cdf | F_partition_cdf
| F_switchable_interp_cdf | F_kf_y_cdf | F_angle_delta_cdf | F_tx_size_cdf | F_delta_q_cdf
| F_delta_lf_multi_cdf | F_delta_lf_cdf | F_intra_ext_tx_cdf | F_inter_ext_tx_cdf
| F_cfl_sign_cdf | F_cfl_alpha_cdf.

Definition fc_field_number (f : fc_field) : nat :=
  match f with
  | F_txb_skip_cdf => 0
  | F_eob_extra_cdf => 1
  | F_dc_sign_cdf => 2
  | F_eob_flag_cdf16 => 3
  | F_eob_flag_cdf32 => 4
  | F_eob_flag_cdf64 => 5
  | F_eob_flag_cdf128 => 6
  | F_eob_flag_cdf256 => 7
  | F_eob_flag_cdf512 => 8
  | F_eob_flag_cdf1024 => 9
  | F_coeff_base_eob_cdf => 10
  | F_coeff_base_cdf => 11
  | F_coeff_br_cdf => 12
  | F_newmv_cdf => 13
  | F_zeromv_cdf => 14
  | F_refmv_cdf => 15
  | F_drl_cdf => 16
  | F_inter_compound_mode_cdf => 17
  | F_compound_type_cdf => 18
  | F_wedge_idx_cdf => 19
  | F_interintra_cdf => 20
  | F_wedge_interintra_cdf => 21
  | F_interintra_mode_cdf => 22
  | F_motion_mode_cdf => 23
  | F_obmc_cdf => 24
  | F_palette_y_size_cdf => 25
  | F_palette_uv_size_cdf => 26
  | F_palette_y_color_index_cdf => 27
  | F_palette_uv_color_index_cdf => 28
  | F_palette_y_mode_cdf => 29
  | F_palette_uv_mode_cdf => 30
  | F_comp_inter_cdf => 31
  | F_single_ref_cdf => 32
  | F_comp_ref_type_cdf => 33
  | F_uni_comp_ref_cdf => 34
  | F_comp_ref_cdf => 35
  | F_comp_bwdref_cdf => 36
  | F_txfm_partition_cdf => 37
  | F_compound_index_cdf => 38
  | F_comp_group_idx_cdf => 39
  | F_skip_mode_cdfs => 40
  | F_skip_txfm_cdfs => 41
  | F_intra_inter_cdf => 42
  | F_mv_joints_cdf => 43
  | F_mv_classes_cdf => 44
  | F_mv_class0_fp_cdf => 45
  | F_mv_fp_cdf => 46
  | F_mv_sign_cdf => 47
  | F_mv_class0_hp_cdf => 48
  | F_mv_hp_cdf => 49
  | F_mv_class0_cdf => 50
  | F_mv_bits_cdf => 51
  | F_intrabc_cdf => 52
  | F_seg_pred_cdf => 53
  | F_seg_spatial_pred_seg_cdf => 54
  | F_filter_intra_cdfs => 55
  | F_filter_intra_mode_cdf => 56
  | F_switchable_restore_cdf => 57
  | F_wiener_restore_cdf => 58
  | F_sgrproj_restore_cdf => 59
  | F_y_mode_cdf => 60
  | F_uv_mode_cdf => 61
  | F_partition_cdf => 62
  | F_switchable_interp_cdf => 63
  | F_kf_y_cdf => 64
  | F_angle_delta_cdf => 65
  | F_tx_size_cdf => 66
  | F_delta_q_cdf => 67
  | F_delta_lf_multi_cdf => 68
  | F_delta_lf_cdf => 69
  | F_intra_ext_tx_cdf => 70
  | F_inter_ext_tx_cdf => 71
  | F_cfl_sign_cdf => 72
  | F_cfl_alpha_cdf => 73
  end.

Definition fc_fields : list fc_field :=
  [F_txb_skip_cdf; F_eob_extra_cdf; F_dc_sign_cdf; F_eob_flag_cdf16; F_eob_flag_cdf32;
   F_eob_flag_cdf64; F_eob_flag_cdf128; F_eob_flag_cdf256; F_eob_flag_cdf512;
   F_eob_flag_cdf1024; F_coeff_base_eob_cdf; F_coeff_base_cdf; F_coeff_br_cdf; F_newmv_cdf;
   F_zeromv_cdf; F_refmv_cdf; F_drl_cdf; F_inter_compound_mode_cdf; F_compound_type_cdf;
   F_wedge_idx_cdf; F_interintra_cdf; F_wedge_interintra_cdf; F_interintra_mode_cdf;
   F_motion_mode_cdf; F_obmc_cdf; F_palette_y_size_cdf; F_palette_uv_size_cdf;
   F_palette_y_color_index_cdf; F_palette_uv_color_index_cdf; F_palette_y_mode_cdf;
   F_palette_uv_mode_cdf; F_comp_inter_cdf; F_single_ref_cdf; F_comp_ref_type_cdf;
   F_uni_comp_ref_cdf; F_comp_ref_cdf; F_comp_bwdref_cdf; F_txfm_partition_cdf;
   F_compound_index_cdf; F_comp_group_idx_cdf; F_skip_mode_cdfs; F_skip_txfm_cdfs;
   F_intra_inter_cdf; F_mv_joints_cdf; F_mv_classes_cdf; F_mv_class0_fp_cdf; F_mv_fp_cdf;
   F_mv_sign_cdf; F_mv_class0_hp_cdf; F_mv_hp_cdf; F_mv_class0_cdf; F_mv_bits_cdf;
   F_intrabc_cdf; F_seg_pred_cdf; F_seg_spatial_pred_seg_cdf; F_filter_intra_cdfs;
   F_filter_intra_mode_cdf; F_switchable_restore_cdf; F_wiener_restore_cdf;
   F_sgrproj_restore_cdf; F_y_mode_cdf; F_uv_mode_cdf; F_partition_cdf; F_switchable_interp_cdf;
   F_kf_y_cdf; F_angle_delta_cdf; F_tx_size_cdf; F_delta_q_cdf; F_delta_lf_multi_cdf;
   F_delta_lf_cdf; F_intra_ext_tx_cdf; F_inter_ext_tx_cdf; F_cfl_sign_cdf; F_cfl_alpha_cdf].

Lemma fc_field_listed f : fc_fields !! fc_field_number f = Some f.
Proof. by destruct f. Qed.

#[export] Instance fc_field_eq_dec : EqDecision fc_field.
Proof.
  intros f g. destruct (decide (fc_field_number f = fc_field_number g)) as [E | E].
  - left. pose proof (fc_field_listed f) as Hf. pose proof (fc_field_listed g) as Hg. congruence.
  - right. congruence.
Defined.

(** ** Layout *)

Definition fc_dims (f : fc_field) : list Z :=
  match f with
  | F_txb_skip_cdf => [5; 13]
  | F_eob_extra_cdf => [5; 2; 9]
  | F_dc_sign_cdf => [2; 3]
  | F_eob_flag_cdf16 | F_eob_flag_cdf32 | F_eob_flag_cdf64 | F_eob_flag_cdf128
  | F_eob_flag_cdf256 | F_eob_flag_cdf512 | F_eob_flag_cdf1024 | F_mv_classes_cdf | F_mv_fp_cdf
  | F_mv_sign_cdf | F_mv_class0_hp_cdf | F_mv_hp_cdf | F_mv_class0_cdf => [2; 2]
  | F_coeff_base_eob_cdf => [5; 2; 4]
  | F_coeff_base_cdf => [5; 2; 42]
  | F_coeff_br_cdf => [5; 2; 21]
  | F_newmv_cdf | F_refmv_cdf | F_compound_index_cdf | F_comp_group_idx_cdf | F_cfl_alpha_cdf => [6]
  | F_zeromv_cdf | F_palette_uv_mode_cdf | F_mv_joints_cdf => [2]
  | F_drl_cdf | F_skip_mode_cdfs | F_skip_txfm_cdfs | F_seg_pred_cdf
  | F_seg_spatial_pred_seg_cdf => [3]
  | F_inter_compound_mode_cdf | F_angle_delta_cdf => [8]
  | F_compound_type_cdf | F_wedge_idx_cdf | F_wedge_interintra_cdf | F_motion_mode_cdf
  | F_obmc_cdf | F_filter_intra_cdfs => [22]
  | F_interintra_cdf | F_interintra_mode_cdf | F_intra_inter_cdf | F_y_mode_cdf
  | F_delta_lf_multi_cdf => [4]
  | F_palette_y_size_cdf | F_palette_uv_size_cdf => [7]
  | F_palette_y_color_index_cdf | F_palette_uv_color_index_cdf => [7; 5]
  | F_palette_y_mode_cdf => [7; 3]
  | F_comp_inter_cdf | F_comp_ref_type_cdf => [5]
  | F_single_ref_cdf => [3; 6]
  | F_uni_comp_ref_cdf | F_comp_ref_cdf => [3; 3]
  | F_comp_bwdref_cdf => [3; 2]
  | F_txfm_partition_cdf => [21]
  | F_mv_class0_fp_cdf => [2; 2; 2]
  | F_mv_bits_cdf => [2; 2; 10]
  | F_intrabc_cdf | F_filter_intra_mode_cdf | F_switchable_restore_cdf | F_wiener_restore_cdf
  | F_sgrproj_restore_cdf | F_delta_q_cdf | F_delta_lf_cdf | F_cfl_sign_cdf => []
  | F_uv_mode_cdf => [2; 13]
  | F_partition_cdf => [20]
  | F_switchable_interp_cdf => [16]
  | F_kf_y_cdf => [5; 5]
  | F_tx_size_cdf => [4; 3]
  | F_intra_ext_tx_cdf => [3; 4; 13]
  | F_inter_ext_tx_cdf => [4; 4]
  end.

(** The alphabet of an entry, which for some fields depends on where it is. *)
Definition fc_alphabet (f : fc_field) (idx : list Z) : Z :=
  match f with
  | F_txb_skip_cdf | F_eob_extra_cdf | F_dc_sign_cdf | F_newmv_cdf | F_zeromv_cdf | F_refmv_cdf
  | F_drl_cdf | F_compound_type_cdf | F_interintra_cdf | F_wedge_interintra_cdf | F_obmc_cdf
  | F_palette_y_mode_cdf | F_palette_uv_mode_cdf | F_comp_inter_cdf | F_single_ref_cdf
  | F_comp_ref_type_cdf | F_uni_comp_ref_cdf | F_comp_ref_cdf | F_comp_bwdref_cdf
  | F_txfm_partition_cdf | F_compound_index_cdf | F_comp_group_idx_cdf | F_skip_mode_cdfs
  | F_skip_txfm_cdfs | F_intra_inter_cdf | F_mv_sign_cdf | F_mv_class0_hp_cdf | F_mv_hp_cdf
  | F_mv_class0_cdf | F_mv_bits_cdf | F_intrabc_cdf | F_seg_pred_cdf | F_filter_intra_cdfs
  | F_wiener_restore_cdf | F_sgrproj_restore_cdf => 2
  | F_eob_flag_cdf16 | F_filter_intra_mode_cdf => 5
  | F_eob_flag_cdf32 => 6
  | F_eob_flag_cdf64 | F_palette_y_size_cdf | F_palette_uv_size_cdf | F_angle_delta_cdf => 7
  | F_eob_flag_cdf128 | F_inter_compound_mode_cdf | F_seg_spatial_pred_seg_cdf | F_cfl_sign_cdf => 8
  | F_eob_flag_cdf256 => 9
  | F_eob_flag_cdf512 => 10
  | F_eob_flag_cdf1024 | F_mv_classes_cdf => 11
  | F_coeff_base_eob_cdf | F_motion_mode_cdf | F_switchable_restore_cdf
  | F_switchable_interp_cdf => 3
  | F_coeff_base_cdf | F_coeff_br_cdf | F_interintra_mode_cdf | F_mv_joints_cdf
  | F_mv_class0_fp_cdf | F_mv_fp_cdf | F_delta_q_cdf | F_delta_lf_multi_cdf | F_delta_lf_cdf => 4
  | F_wedge_idx_cdf | F_cfl_alpha_cdf => 16
  | F_palette_y_color_index_cdf | F_palette_uv_color_index_cdf => hd 0 idx + 2
  | F_y_mode_cdf | F_kf_y_cdf => 13
  | F_uv_mode_cdf => if hd 0 idx =? 0 then 13 else 14
  | F_partition_cdf => if hd 0 idx <? 4 then 4 else if hd 0 idx <? 16 then 10 else 8
  | F_tx_size_cdf => if hd 0 idx =? 0 then 2 else 3
  | F_intra_ext_tx_cdf => if hd 0 idx =? 1 then 7 else 5
  | F_inter_ext_tx_cdf => if hd 0 idx =? 1 then 16 else if hd 0 idx =? 2 then 12 else 2
  end.

(** Set 0 of the transform types has a single member and is not coded. *)
Definition fc_coded (f : fc_field) (idx : list Z) : bool :=
  match f with
  | F_intra_ext_tx_cdf | F_inter_ext_tx_cdf => negb (hd 0 idx =? 0)
  | _ => true
  end.

Fixpoint idx_in (dims idx : list Z) : bool :=
  match dims, idx with
  | [], [] => true
  | d :: dims', i :: idx' => (0 <=? i) && (i <? d) && idx_in dims' idx'
  | _, _ => false
  end.

Definition fc_key : Type := fc_field * list Z.

#[export] Instance fc_layout : CdfLayout fc_key := {|
  layout_dec := _;
  in_layout := fun '(f, idx) => idx_in (fc_dims f) idx && fc_coded f idx;
  alphabet := fun '(f, idx) => fc_alphabet f idx |}.

(** ** Default contexts *)

Definition zget {A} (l : list A) (i : Z) : option A := if 0 <=? i then l !! Z.to_nat i else None.
Definition zget2 {A} (l : list (list A)) (i j : Z) : option A := x ← zget l i; zget x j.
Definition zget3 {A} (l : list (list (list A))) (i j k : Z) : option A := x ← zget l i; zget2 x j k.

Definition get_q_ctx (q : Z) : Z := if q <=? 20 then 0 else if q <=? 60 then 1 else if q <=? 120 then 2 else 3.

Definition nmv_of (w : Z) : option nmv_context :=
  zget [fst av1_init_mv_probs; snd av1_init_mv_probs] w.

(** What [av1_default_coef_probs], [av1_init_mode_probs] and [av1_init_mv_probs] leave in
    [cm->fc]. *)
Definition default_fc (base_qindex : Z) : cdfs fc_key := fun '(f, idx) =>
  match f, idx with
  | F_txb_skip_cdf, [a; b] => t ← zget av1_default_txb_skip_cdfs (get_q_ctx base_qindex); zget2 t a b
  | F_eob_extra_cdf, [a; b; c] => t ← zget av1_default_eob_extra_cdfs (get_q_ctx base_qindex); zget3 t a b c
  | F_dc_sign_cdf, [a; b] => t ← zget av1_default_dc_sign_cdfs (get_q_ctx base_qindex); zget2 t a b
  | F_eob_flag_cdf16, [a; b] => t ← zget av1_default_eob_multi16_cdfs (get_q_ctx base_qindex); zget2 t a b
  | F_eob_flag_cdf32, [a; b] => t ← zget av1_default_eob_multi32_cdfs (get_q_ctx base_qindex); zget2 t a b
  | F_eob_flag_cdf64, [a; b] => t ← zget av1_default_eob_multi64_cdfs (get_q_ctx base_qindex); zget2 t a b
  | F_eob_flag_cdf128, [a; b] => t ← zget av1_default_eob_multi128_cdfs (get_q_ctx base_qindex); zget2 t a b
  | F_eob_flag_cdf256, [a; b] => t ← zget av1_default_eob_multi256_cdfs (get_q_ctx base_qindex); zget2 t a b
  | F_eob_flag_cdf512, [a; b] => t ← zget av1_default_eob_multi512_cdfs (get_q_ctx base_qindex); zget2 t a b
  | F_eob_flag_cdf1024, [a; b] => t ← zget av1_default_eob_multi1024_cdfs (get_q_ctx base_qindex); zget2 t a b
  | F_coeff_base_eob_cdf, [a; b; c] => t ← zget av1_default_coeff_base_eob_multi_cdfs (get_q_ctx base_qindex); zget3 t a b c
  | F_coeff_base_cdf, [a; b; c] => t ← zget av1_default_coeff_base_multi_cdfs (get_q_ctx base_qindex); zget3 t a b c
  | F_coeff_br_cdf, [a; b; c] => t ← zget av1_default_coeff_lps_multi_cdfs (get_q_ctx base_qindex); zget3 t a b c
  | F_newmv_cdf, [a] => zget (fc_newmv_cdf av1_init_mode_probs) a
  | F_zeromv_cdf, [a] => zget (fc_zeromv_cdf av1_init_mode_probs) a
  | F_refmv_cdf, [a] => zget (fc_refmv_cdf av1_init_mode_probs) a
  | F_drl_cdf, [a] => zget (fc_drl_cdf av1_init_mode_probs) a
  | F_inter_compound_mode_cdf, [a] => zget (fc_inter_compound_mode_cdf av1_init_mode_probs) a
  | F_compound_type_cdf, [a] => zget (fc_compound_type_cdf av1_init_mode_probs) a
  | F_wedge_idx_cdf, [a] => zget (fc_wedge_idx_cdf av1_init_mode_probs) a
  | F_interintra_cdf, [a] => zget (fc_interintra_cdf av1_init_mode_probs) a
  | F_wedge_interintra_cdf, [a] => zget (fc_wedge_interintra_cdf av1_init_mode_probs) a
  | F_interintra_mode_cdf, [a] => zget (fc_interintra_mode_cdf av1_init_mode_probs) a
  | F_motion_mode_cdf, [a] => zget (fc_motion_mode_cdf av1_init_mode_probs) a
  | F_obmc_cdf, [a] => zget (fc_obmc_cdf av1_init_mode_probs) a
  | F_palette_y_size_cdf, [a] => zget (fc_palette_y_size_cdf av1_init_mode_probs) a
  | F_palette_uv_size_cdf, [a] => zget (fc_palette_uv_size_cdf av1_init_mode_probs) a
  | F_palette_y_color_index_cdf, [a; b] => zget2 (fc_palette_y_color_index_cdf av1_init_mode_probs) a b
  | F_palette_uv_color_index_cdf, [a; b] => zget2 (fc_palette_uv_color_index_cdf av1_init_mode_probs) a b
  | F_palette_y_mode_cdf, [a; b] => zget2 (fc_palette_y_mode_cdf av1_init_mode_probs) a b
  | F_palette_uv_mode_cdf, [a] => zget (fc_palette_uv_mode_cdf av1_init_mode_probs) a
  | F_comp_inter_cdf, [a] => zget (fc_comp_inter_cdf av1_init_mode_probs) a
  | F_single_ref_cdf, [a; b] => zget2 (fc_single_ref_cdf av1_init_mode_probs) a b
  | F_comp_ref_type_cdf, [a] => zget (fc_comp_ref_type_cdf av1_init_mode_probs) a
  | F_uni_comp_ref_cdf, [a; b] => zget2 (fc_uni_comp_ref_cdf av1_init_mode_probs) a b
  | F_comp_ref_cdf, [a; b] => zget2 (fc_comp_ref_cdf av1_init_mode_probs) a b
  | F_comp_bwdref_cdf, [a; b] => zget2 (fc_comp_bwdref_cdf av1_init_mode_probs) a b
  | F_txfm_partition_cdf, [a] => zget (fc_txfm_partition_cdf av1_init_mode_probs) a
  | F_compound_index_cdf, [a] => zget (fc_compound_index_cdf av1_init_mode_probs) a
  | F_comp_group_idx_cdf, [a] => zget (fc_comp_group_idx_cdf av1_init_mode_probs) a
  | F_skip_mode_cdfs, [a] => zget (fc_skip_mode_cdfs av1_init_mode_probs) a
  | F_skip_txfm_cdfs, [a] => zget (fc_skip_txfm_cdfs av1_init_mode_probs) a
  | F_intra_inter_cdf, [a] => zget (fc_intra_inter_cdf av1_init_mode_probs) a
  | F_mv_joints_cdf, [w] => m ← nmv_of w; Some (joints_cdf m)
  | F_mv_classes_cdf, [w; i] => m ← nmv_of w; c ← zget (comps m) i; Some (classes_cdf c)
  | F_mv_class0_fp_cdf, [w; i; b] => m ← nmv_of w; c ← zget (comps m) i; zget (class0_fp_cdf c) b
  | F_mv_fp_cdf, [w; i] => m ← nmv_of w; c ← zget (comps m) i; Some (fp_cdf c)
  | F_mv_sign_cdf, [w; i] => m ← nmv_of w; c ← zget (comps m) i; Some (sign_cdf c)
  | F_mv_class0_hp_cdf, [w; i] => m ← nmv_of w; c ← zget (comps m) i; Some (class0_hp_cdf c)
  | F_mv_hp_cdf, [w; i] => m ← nmv_of w; c ← zget (comps m) i; Some (hp_cdf c)
  | F_mv_class0_cdf, [w; i] => m ← nmv_of w; c ← zget (comps m) i; Some (class0_cdf c)
  | F_mv_bits_cdf, [w; i; b] => m ← nmv_of w; c ← zget (comps m) i; zget (bits_cdf c) b
  | F_intrabc_cdf, [] => Some (fc_intrabc_cdf av1_init_mode_probs)
  | F_seg_pred_cdf, [a] => zget (fc_seg_pred_cdf av1_init_mode_probs) a
  | F_seg_spatial_pred_seg_cdf, [a] => zget (fc_seg_spatial_pred_seg_cdf av1_init_mode_probs) a
  | F_filter_intra_cdfs, [a] => zget (fc_filter_intra_cdfs av1_init_mode_probs) a
  | F_filter_intra_mode_cdf, [] => Some (fc_filter_intra_mode_cdf av1_init_mode_probs)
  | F_switchable_restore_cdf, [] => Some (fc_switchable_restore_cdf av1_init_mode_probs)
  | F_wiener_restore_cdf, [] => Some (fc_wiener_restore_cdf av1_init_mode_probs)
  | F_sgrproj_restore_cdf, [] => Some (fc_sgrproj_restore_cdf av1_init_mode_probs)
  | F_y_mode_cdf, [a] => zget (fc_y_mode_cdf av1_init_mode_probs) a
  | F_uv_mode_cdf, [a; b] => zget2 (fc_uv_mode_cdf av1_init_mode_probs) a b
  | F_partition_cdf, [a] => zget (fc_partition_cdf av1_init_mode_probs) a
  | F_switchable_interp_cdf, [a] => zget (fc_switchable_interp_cdf av1_init_mode_probs) a
  | F_kf_y_cdf, [a; b] => zget2 (fc_kf_y_cdf av1_init_mode_probs) a b
  | F_angle_delta_cdf, [a] => zget (fc_angle_delta_cdf av1_init_mode_probs) a
  | F_tx_size_cdf, [a; b] => zget2 (fc_tx_size_cdf av1_init_mode_probs) a b
  | F_delta_q_cdf, [] => Some (fc_delta_q_cdf av1_init_mode_probs)
  | F_delta_lf_multi_cdf, [a] => zget (fc_delta_lf_multi_cdf av1_init_mode_probs) a
  | F_delta_lf_cdf, [] => Some (fc_delta_lf_cdf av1_init_mode_probs)
  | F_intra_ext_tx_cdf, [a; b; c] => zget3 (fc_intra_ext_tx_cdf av1_init_mode_probs) a b c
  | F_inter_ext_tx_cdf, [a; b] => zget2 (fc_inter_ext_tx_cdf av1_init_mode_probs) a b
  | F_cfl_sign_cdf, [] => Some (fc_cfl_sign_cdf av1_init_mode_probs)
  | F_cfl_alpha_cdf, [a] => zget (fc_cfl_alpha_cdf av1_init_mode_probs) a
  | _, _ => None
  end.

(** ** Symbol counters *)

(** The word [av1_reset_cdf_symbol_counters] clears in an entry. *)
Definition reset_nsymbs (f : fc_field) (idx : list Z) : option Z :=
  match f with
  | F_txb_skip_cdf | F_eob_extra_cdf | F_dc_sign_cdf | F_newmv_cdf | F_zeromv_cdf | F_refmv_cdf
  | F_drl_cdf | F_compound_type_cdf | F_interintra_cdf | F_wedge_interintra_cdf | F_obmc_cdf
  | F_palette_y_mode_cdf | F_palette_uv_mode_cdf | F_comp_inter_cdf | F_single_ref_cdf
  | F_comp_ref_type_cdf | F_uni_comp_ref_cdf | F_comp_ref_cdf | F_comp_bwdref_cdf
  | F_txfm_partition_cdf | F_compound_index_cdf | F_comp_group_idx_cdf | F_skip_mode_cdfs
  | F_skip_txfm_cdfs | F_intra_inter_cdf | F_mv_sign_cdf | F_mv_class0_hp_cdf | F_mv_hp_cdf
  | F_mv_class0_cdf | F_mv_bits_cdf | F_intrabc_cdf | F_seg_pred_cdf | F_filter_intra_cdfs
  | F_wiener_restore_cdf | F_sgrproj_restore_cdf => Some 2
  | F_eob_flag_cdf16 | F_filter_intra_mode_cdf => Some 5
  | F_eob_flag_cdf32 => Some 6
  | F_eob_flag_cdf64 | F_palette_y_size_cdf | F_palette_uv_size_cdf | F_angle_delta_cdf => Some 7
  | F_eob_flag_cdf128 | F_inter_compound_mode_cdf | F_seg_spatial_pred_seg_cdf | F_cfl_sign_cdf => Some 8
  | F_eob_flag_cdf256 => Some 9
  | F_eob_flag_cdf512 => Some 10
  | F_eob_flag_cdf1024 | F_mv_classes_cdf => Some 11
  | F_coeff_base_eob_cdf | F_motion_mode_cdf | F_switchable_restore_cdf
  | F_switchable_interp_cdf => Some 3
  | F_coeff_base_cdf | F_coeff_br_cdf | F_interintra_mode_cdf | F_mv_joints_cdf
  | F_mv_class0_fp_cdf | F_mv_fp_cdf | F_delta_q_cdf | F_delta_lf_multi_cdf | F_delta_lf_cdf => Some 4
  | F_wedge_idx_cdf | F_cfl_alpha_cdf => Some 16
  | F_palette_y_color_index_cdf | F_palette_uv_color_index_cdf => Some (hd 0 idx + 2)
  | F_y_mode_cdf | F_kf_y_cdf => Some 13
  | F_uv_mode_cdf => Some (if hd 0 idx =? 0 then 14 - 1 else 14)
  | F_partition_cdf => Some (if hd 0 idx <? 4 then 4 else if hd 0 idx <? 16 then 10 else 8)
  | F_tx_size_cdf => Some (if hd 0 idx =? 0 then 2 else 2 + 1)
  | F_intra_ext_tx_cdf => if hd 0 idx =? 1 then Some 7 else if hd 0 idx =? 2 then Some 5 else None
  | F_inter_ext_tx_cdf => if hd 0 idx =? 1 then Some 16 else if hd 0 idx =? 2 then Some 12
      else if hd 0 idx =? 3 then Some 2 else None
  end.

Definition av1_reset_cdf_symbol_counters (fc : cdfs fc_key) : cdfs fc_key := fun '(f, idx) =>
  cdf ← fc (f, idx);
  match reset_nsymbs f idx with
  | Some nsymbs => arr_set cdf nsymbs 0
  | None => Some cdf
  end.

(** ** The default contexts are valid *)

Fixpoint all_indices (dims : list Z) : list (list Z) :=
  match dims with
  | [] => [[]]
  | d :: dims' =>
      flat_map (fun i => cons (Z.of_nat i) <$> all_indices dims') (seq 0 (Z.to_nat d))
  end.

Lemma idx_in_listed dims idx : idx_in dims idx = true -> In idx (all_indices dims).
Proof.
  revert idx. induction dims as [|d dims IH]; intros [|i idx]; cbn [idx_in all_indices]; try done.
  - by left.
  - rewrite !andb_true_iff. intros [[H0 Hd] Hi]. apply in_flat_map. exists (Z.to_nat i).
    split; [apply in_seq; lia |]. rewrite Z2Nat.id by lia. apply in_map. by apply IH.
Qed.

Definition fc_okb (fc : cdfs fc_key) : bool :=
  forallb (fun f => forallb (fun idx =>
    negb (fc_coded f idx) ||
    match fc (f, idx) with Some cdf => model_okb (cdf, fc_alphabet f idx) | None => false end)
    (all_indices (fc_dims f))) fc_fields.

Lemma model_okb_ok md : model_okb md = true -> model_ok md.
Proof.
  intros H. pose proof (models_okb_ok [md]) as Hm. simpl in Hm. rewrite H in Hm.
  by apply Forall_inv in Hm.
Qed.

Lemma fc_okb_ok fc : fc_okb fc = true -> fc_ok fc.
Proof.
  intros H [f idx] Hk. cbn in Hk. apply andb_true_iff in Hk as [Hi Hc].
  unfold fc_okb in H. rewrite forallb_forall in H.
  specialize (H f ltac:(eapply list_elem_of_In, list_elem_of_lookup_2, fc_field_listed)).
  rewrite forallb_forall in H. specialize (H idx (idx_in_listed _ _ Hi)). rewrite Hc in H. cbn in H.
  destruct (fc (f, idx)) as [cdf|]; [| done]. exists cdf. split; [done |].
  exact (model_okb_ok (cdf, fc_alphabet f idx) H).
Qed.

(** The contexts of the four quantizer categories. *)
Lemma default_fc_checked : forallb (fun q => fc_okb (default_fc q)) [0; 21; 61; 121] = true.
Proof. vm_compute. reflexivity. Qed.

Lemma fc_okb_ext fc fc' : (forall k, fc k = fc' k) -> fc_ok fc -> fc_ok fc'.
Proof. intros E H k Hk. destruct (H k Hk) as (cdf & ? & ?). exists cdf. by rewrite <- E. Qed.

Lemma default_fc_category q : exists q', In q' [0; 21; 61; 121] /\ get_q_ctx q = get_q_ctx q'.
Proof.
  unfold get_q_ctx. repeat case_cmp;
    [exists 0 | exists 21 | exists 61 | exists 121]; (split; [simpl; tauto | reflexivity]).
Qed.

Lemma default_fc_ok q : fc_ok (default_fc q).
Proof.
  destruct (default_fc_category q) as (q' & Hin & E). pose proof default_fc_checked as H.
  rewrite forallb_forall in H. apply (fc_okb_ext (default_fc q')); [| by apply fc_okb_ok, H].
  intros [f idx]. unfold default_fc. by rewrite E.
Qed.

(** ** Resetting *)

(** The word that is cleared is the counter of the alphabet the entry is used with. *)
Lemma reset_nsymbs_alphabet f idx :
  idx_in (fc_dims f) idx = true -> fc_coded f idx = true -> reset_nsymbs f idx = Some (fc_alphabet f idx).
Proof.
  destruct f; cbn [reset_nsymbs fc_alphabet]; intros Hi Hc; try done;
    destruct idx as [|i idx]; try done; cbn [idx_in fc_dims hd fc_coded] in *;
    rewrite !andb_true_iff in Hi; repeat case_cmp; try done; exfalso; lia.
Qed.

Lemma cdf_ok_cleared cdf nsymbs : cdf_ok cdf nsymbs -> cdf_ok (<[Z.to_nat nsymbs := 0]> cdf) nsymbs.
Proof.
  intros ((Hn & Hl & Hz & Hr & Hm) & Hc & _).
  assert (Hne : forall i, 0 <= i < nsymbs ->
    nth (Z.to_nat i) (<[Z.to_nat nsymbs := 0]> cdf) 0 = nth (Z.to_nat i) cdf 0)
    by (intros i Hi; rewrite !nth_lookup, list_lookup_insert_ne by lia; done).
  split; [split_and!; try lia | split].
  - rewrite length_insert. lia.
  - rewrite Hne by lia. done.
  - intros i Hi. rewrite Hne by lia. by apply Hr.
  - intros i Hi. rewrite !Hne by lia. by apply Hm.
  - by rewrite length_insert.
  - rewrite nth_lookup, list_lookup_insert_eq by lia. simpl. lia.
Qed.

(** C29: The contexts a coded video sequence starts from are valid for every quantizer:
    each entry of [FRAME_CONTEXT] that codes anything, coefficients, modes and motion
    vectors, is a proper model of the alphabet it is used with.  Resetting the counters
    of any valid context clears the counter of every such entry, changes no probability,
    and leaves a valid context. *)
Theorem frame_contexts_valid q fc :
  fc_ok (default_fc q) /\
  (fc_ok fc -> fc_ok (av1_reset_cdf_symbol_counters fc) /\
     forall k, in_layout k = true -> exists cdf cdf', fc k = Some cdf /\
       av1_reset_cdf_symbol_counters fc k = Some cdf' /\ length cdf' = length cdf /\
       nthz cdf' (alphabet k) = 0 /\
       forall j, 0 <= j -> j <> alphabet k -> nthz cdf' j = nthz cdf j).
Proof.
  split; [apply default_fc_ok |]. intros Hfc.
  assert (H : forall k, in_layout k = true -> exists cdf cdf', fc k = Some cdf /\
    av1_reset_cdf_symbol_counters fc k = Some cdf' /\ cdf_ok cdf' (alphabet k) /\
    length cdf' = length cdf /\ nthz cdf' (alphabet k) = 0 /\
    forall j, 0 <= j -> j <> alphabet k -> nthz cdf' j = nthz cdf j).
  { intros [f idx] Hk. destruct (Hfc _ Hk) as (cdf & E & Hok). cbn in Hk.
    apply andb_true_iff in Hk as [Hi Hc]. cbn [alphabet fc_layout] in *.
    assert (2 <= fc_alphabet f idx /\ fc_alphabet f idx < Z.of_nat (length cdf)) as [? ?]
      by (destruct Hok as ((? & _) & ? & _); lia).
    destruct (arr_set_ok cdf (fc_alphabet f idx) 0 ltac:(lia)) as (cdf' & Es & Hl & Hz & Hj).
    exists cdf, cdf'. unfold av1_reset_cdf_symbol_counters. rewrite E. cbn [mbind option_bind].
    rewrite (reset_nsymbs_alphabet f idx Hi Hc), Es. split_and!; try done.
    unfold arr_set in Es. destruct (_ && _); [| done]. injection Es as <-. by apply cdf_ok_cleared. }
  split.
  - intros k Hk. destruct (H k Hk) as (cdf & cdf' & _ & E & Hok & _). by exists cdf'.
  - intros k Hk. destruct (H k Hk) as (cdf & cdf' & ? & ? & _ & ?). by exists cdf, cdf'.
Qed.

Lemma frame_contexts_valid_witness :
  fc_ok (default_fc 100) /\ fc_ok (av1_reset_cdf_symbol_counters (default_fc 100)).
Proof.
  destruct (frame_contexts_valid 100 (default_fc 100)) as [H1 H2]. split; [exact H1 |].
  exact (proj1 (H2 H1)).
Defined.

(** A key is inside the arrays. *)
Ltac layout := cbn -[Z.leb Z.ltb Z.add Z.sub Z.min]; lia.
