(* ===== verification/MvCoding.v ===== *)
(** * Motion vectors

    [av1_encode_mv] and [av1_encode_dv] ([av1/encoder/encodemv.c]) and [read_mv]
    ([av1/decoder/decodemv.c]): a vector is coded as its difference from a reference, each
    component as a sign, a class (the size of the magnitude) and an offset in the class,
    whose fractional bits are left out at lower precisions. *)

From S2P Require Import Prelude CodecTypes BitChannel EntCoder RangeSpec Cdf EntEncProof EntDecProof EntRoundTrip SymbolIO SyntaxIO TileSafety TxCommon DefaultCdfs FrameContext.

#[local] Arguments Z.of_nat : simpl never.
#[local] Arguments Z.mul : simpl never.

(** ** Data *)

(** In eighths of a sample; [int16_t] each. *)
Record MV := { mv_row : Z; mv_col : Z }.

Definition MV_SUBPEL_NONE : Z := -1.
Definition MV_SUBPEL_LOW_PRECISION : Z := 0.
Definition MV_SUBPEL_HIGH_PRECISION : Z := 1.

Definition MV_JOINTS : Z := 4.
Definition MV_JOINT_HNZVZ : Z := 1.
Definition MV_JOINT_HZVNZ : Z := 2.
Definition MV_JOINT_HNZVNZ : Z := 3.
Definition MV_CLASSES : Z := 11.
Definition MV_CLASS_0 : Z := 0.
Definition CLASS0_BITS : Z := 1.
Definition CLASS0_SIZE : Z := Z.shiftl 1 CLASS0_BITS.
Definition MV_FP_SIZE : Z := 4.
Definition MV_UPP : Z := Z.shiftl 1 14.
Definition MV_LOW : Z := - Z.shiftl 1 14.

Definition mv_joint_vertical (type : Z) : bool := (type =? MV_JOINT_HZVNZ) || (type =? MV_JOINT_HNZVNZ).
Definition mv_joint_horizontal (type : Z) : bool := (type =? MV_JOINT_HNZVZ) || (type =? MV_JOINT_HNZVNZ).

Definition av1_get_mv_joint (mv : MV) : Z :=
  Z.lor (b2z (negb (mv_col mv =? 0))) (Z.shiftl (b2z (negb (mv_row mv =? 0))) 1).

Definition av1_mv_class_base (c : Z) : Z := if c =? 0 then 0 else Z.shiftl CLASS0_SIZE (c + 2).

Definition av1_log_in_base_2 (n : Z) : Z := if n =? 0 then 0 else get_msb n.

(** The class and [*offset]. *)
Definition av1_get_mv_class (z : Z) : Z * Z :=
  let c := av1_log_in_base_2 (Z.shiftr z 3) in (c, z - av1_mv_class_base c).

(** ** Writing *)

Section Write.
Context (al : allocator).

(** The models of component [comp] of [nmvc] ([which] 0) or [ndvc] (1). *)
Section Component.
Context (which comp_i : Z).

Fixpoint write_mv_bits (n : nat) (i d : Z) : writer (aom_writer * cdfs fc_key) unit :=
  match n with
  | O => mret tt
  | S n' => _ ← w_symbol al (Z.land (Z.shiftr d i) 1) (F_mv_bits_cdf, [which; comp_i; i]) 2;
            write_mv_bits n' (i + 1) d
  end.

Definition encode_mv_component (comp precision : Z) : writer (aom_writer * cdfs fc_key) unit :=
  let sign := b2z (comp <? 0) in
  let mag := if comp <? 0 then - comp else comp in
  let '(mv_class, offset) := av1_get_mv_class (mag - 1) in
  let d := Z.shiftr offset 3 in
  let fr := Z.land (Z.shiftr offset 1) 3 in
  let hp := Z.land offset 1 in
  _ ← w_symbol al sign (F_mv_sign_cdf, [which; comp_i]) 2;
  _ ← w_symbol al mv_class (F_mv_classes_cdf, [which; comp_i]) MV_CLASSES;
  _ ← (if mv_class =? MV_CLASS_0 then w_symbol al d (F_mv_class0_cdf, [which; comp_i]) CLASS0_SIZE
       else write_mv_bits (Z.to_nat (mv_class + CLASS0_BITS - 1)) 0 d);
  _ ← (if MV_SUBPEL_NONE <? precision then
         w_symbol al fr (if mv_class =? MV_CLASS_0 then (F_mv_class0_fp_cdf, [which; comp_i; d])
                         else (F_mv_fp_cdf, [which; comp_i])) MV_FP_SIZE
       else mret tt);
  if MV_SUBPEL_LOW_PRECISION <? precision then
    w_symbol al hp (if mv_class =? MV_CLASS_0 then (F_mv_class0_hp_cdf, [which; comp_i])
                    else (F_mv_hp_cdf, [which; comp_i])) 2
  else mret tt.
End Component.

Definition mv_diff (mv ref : MV) : MV :=
  {| mv_row := s16 (mv_row mv - mv_row ref); mv_col := s16 (mv_col mv - mv_col ref) |}.

(** The symbols of a difference. *)
Definition encode_mv_diff (which : Z) (diff : MV) (precision : Z) : writer (aom_writer * cdfs fc_key) unit :=
  let j := av1_get_mv_joint diff in
  _ ← w_symbol al j (F_mv_joints_cdf, [which]) MV_JOINTS;
  _ ← (if mv_joint_vertical j then encode_mv_component which 0 (mv_row diff) precision else mret tt);
  if mv_joint_horizontal j then encode_mv_component which 1 (mv_col diff) precision else mret tt.

(** Result: [td->max_mv_magnitude] afterwards. *)
Definition av1_encode_mv (force_integer_mv auto_mv_step_size : bool) (max_mv_magnitude : Z) (mv ref : MV)
    (which usehp : Z) : writer (aom_writer * cdfs fc_key) Z :=
  let usehp := if force_integer_mv then MV_SUBPEL_NONE else usehp in
  _ ← encode_mv_diff which (mv_diff mv ref) usehp;
  mret (if auto_mv_step_size
        then Z.max (Z.shiftr (Z.max (Z.abs (mv_row mv)) (Z.abs (mv_col mv))) 3) max_mv_magnitude
        else max_mv_magnitude).

Definition av1_encode_dv (mv ref : MV) (which : Z) : writer (aom_writer * cdfs fc_key) unit :=
  encode_mv_diff which (mv_diff mv ref) MV_SUBPEL_NONE.
End Write.

(** ** Reading *)

Fixpoint read_mv_bits (which comp_i : Z) (n : nat) (i d : Z) : reader (aom_reader * cdfs fc_key) Z :=
  match n with
  | O => mret d
  | S n' => b ← r_symbol (F_mv_bits_cdf, [which; comp_i; i]) 2;
            read_mv_bits which comp_i n' (i + 1) (Z.lor d (Z.shiftl b i))
  end.

Definition read_mv_component (which comp_i : Z) (use_subpel usehp : bool) : reader (aom_reader * cdfs fc_key) Z :=
  sign ← r_symbol (F_mv_sign_cdf, [which; comp_i]) 2;
  mv_class ← r_symbol (F_mv_classes_cdf, [which; comp_i]) MV_CLASSES;
  let class0 := mv_class =? MV_CLASS_0 in
  '(d, mag) ←
    (if class0 then
       d ← r_symbol (F_mv_class0_cdf, [which; comp_i]) CLASS0_SIZE; mret (d, 0)
     else
       d ← read_mv_bits which comp_i (Z.to_nat (mv_class + CLASS0_BITS - 1)) 0 0;
       mret (d, Z.shiftl CLASS0_SIZE (mv_class + 2)));
  '(fr, hp) ←
    (if use_subpel then
       fr ← r_symbol (if class0 then (F_mv_class0_fp_cdf, [which; comp_i; d])
                      else (F_mv_fp_cdf, [which; comp_i])) MV_FP_SIZE;
       hp ← (if usehp then
               r_symbol (if class0 then (F_mv_class0_hp_cdf, [which; comp_i])
                         else (F_mv_hp_cdf, [which; comp_i])) 2
             else mret 1);
       mret (fr, hp)
     else mret (3, 1));
  let mag := mag + (Z.lor (Z.lor (Z.shiftl d 3) (Z.shiftl fr 1)) hp + 1) in
  mret (if sign =? 0 then mag else - mag).

Definition read_mv (ref : MV) (which precision : Z) : reader (aom_reader * cdfs fc_key) MV :=
  joint_type ← r_symbol (F_mv_joints_cdf, [which]) MV_JOINTS;
  let use_subpel := MV_SUBPEL_NONE <? precision in
  let usehp := MV_SUBPEL_LOW_PRECISION <? precision in
  row ← (if mv_joint_vertical joint_type then d ← read_mv_component which 0 use_subpel usehp; mret (s16 d)
         else mret 0);
  col ← (if mv_joint_horizontal joint_type then d ← read_mv_component which 1 use_subpel usehp; mret (s16 d)
         else mret 0);
  mret {| mv_row := s16 (mv_row ref + row); mv_col := s16 (mv_col ref + col) |}.

Definition is_mv_valid (mv : MV) : bool :=
  (MV_LOW <? mv_row mv) && (mv_row mv <? MV_UPP) && (MV_LOW <? mv_col mv) && (mv_col mv <? MV_UPP).

(** ** Classes *)

Lemma mv_class_spec z : 0 <= z < 16384 ->
  exists c, av1_get_mv_class z = (c, z - av1_mv_class_base c) /\ 0 <= c <= 10 /\
    0 <= av1_mv_class_base c <= z /\ av1_mv_class_base c mod 8 = 0 /\
    Z.shiftr (z - av1_mv_class_base c) 3 < (if c =? 0 then 2 else 2 ^ c).
Proof.
  intros Hz. unfold av1_get_mv_class, av1_log_in_base_2. eexists. split; [reflexivity |].
  rewrite !Z.shiftr_div_pow2 by lia. change (2 ^ 3) with 8.
  assert (0 <= z / 8 < 2048) by (split; [apply Z.div_pos | apply Z.div_lt_upper_bound]; lia).
  pose proof (Z.div_mod z 8 ltac:(lia)). pose proof (Z.mod_pos_bound z 8 ltac:(lia)).
  destruct (Z.eqb_spec (z / 8) 0) as [E0 | Hn].
  { change (av1_mv_class_base 0) with 0. change (0 =? 0) with true. rewrite Z.sub_0_r. split_and!; lia || done. }
  unfold get_msb. pose proof (Z.log2_spec (z / 8) ltac:(lia)) as Hl.
  set (c := Z.log2 (z / 8)) in *. pose proof (Z.log2_nonneg (z / 8)) as Hc0. fold c in Hc0.
  assert (c <= 10).
  { destruct (Z_lt_le_dec 10 c); [| done]. assert (2 ^ 11 <= 2 ^ c) by (apply pow2_le; lia).
    change (2 ^ 11) with 2048 in *. lia. }
  rewrite Z.pow_succ_r in Hl by lia. unfold av1_mv_class_base. destruct (Z.eqb_spec c 0) as [Ec | Hc].
  - rewrite Ec in *. cbn in Hl. rewrite Z.sub_0_r. split_and!; lia || done.
  - change CLASS0_SIZE with 2. rewrite Z.shiftl_mul_pow2 by lia.
    assert (2 * 2 ^ (c + 2) = 2 ^ c * 8) as -> by (rewrite Z.pow_add_r by lia; change (2 ^ 2) with 4; lia).
    pose proof (pow2_pos c Hc0). split_and!; [lia | lia | lia | lia | apply Z.mod_mul; lia |].
    apply Z.div_lt_upper_bound; lia.
Qed.

(** An offset is its three parts. *)
Lemma offset_parts o : 0 <= o ->
  Z.lor (Z.lor (Z.shiftl (Z.shiftr o 3) 3) (Z.shiftl (Z.land (Z.shiftr o 1) 3) 1)) (Z.land o 1) = o.
Proof.
  intros Ho. change (Z.land (Z.shiftr o 1) 3) with (Z.land (Z.shiftr o 1) (Z.ones 2)).
  change (Z.land o 1) with (Z.land o (Z.ones 1)). apply Z.bits_inj'. intros n Hn.
  rewrite !Z.lor_spec, !Z.shiftl_spec, !Z.land_spec by lia.
  destruct (Z_lt_le_dec n 1); [| destruct (Z_lt_le_dec n 3)].
  - rewrite (Z.testbit_neg_r _ (n - 3)), (Z.testbit_neg_r _ (n - 1)), (Z.ones_spec_low 1 n) by lia.
    by rewrite andb_true_r.
  - rewrite (Z.testbit_neg_r _ (n - 3)), (Z.ones_spec_high 1 n), Z.shiftr_spec by lia.
    rewrite Z.ones_spec_low by lia. replace (n - 1 + 1) with n by lia. by rewrite andb_true_r, andb_false_r, orb_false_r.
  - rewrite (Z.ones_spec_high 2), (Z.ones_spec_high 1), (Z.shiftr_spec o) by lia.
    replace (n - 3 + 3) with n by lia. by rewrite !andb_false_r, !orb_false_r.
Qed.

(** What each precision can express. *)
Definition precision_ok (precision comp : Z) : Prop :=
  (precision = MV_SUBPEL_NONE /\ comp mod 8 = 0) \/ (precision = MV_SUBPEL_LOW_PRECISION /\ comp mod 2 = 0) \/
  precision = MV_SUBPEL_HIGH_PRECISION.

Lemma dropped_parts precision comp c : comp <> 0 -> precision_ok precision comp ->
  av1_mv_class_base c mod 8 = 0 ->
  let o := (if comp <? 0 then - comp else comp) - 1 - av1_mv_class_base c in
  (precision = MV_SUBPEL_NONE -> Z.land (Z.shiftr o 1) 3 = 3) /\
  (precision <= MV_SUBPEL_LOW_PRECISION -> Z.land o 1 = 1).
Proof.
  intros Hn Hp Hb. cbv zeta. set (mag := if comp <? 0 then - comp else comp).
  assert (Hm : forall k, comp mod k = 0 -> mag mod k = 0 \/ k = 0).
  { intros k Hk. unfold mag. destruct (Z.eq_dec k 0); [by right | left].
    destruct (comp <? 0); [rewrite Z.mod_opp_l_z by done; done | done]. }
  set (base := av1_mv_class_base c) in *. change 3 with (Z.ones 2). change (Z.land (mag - 1 - base) 1) with (Z.land (mag - 1 - base) (Z.ones 1)).
  rewrite !Z.land_ones, Z.shiftr_div_pow2 by lia. change (2 ^ 1) with 2. change (2 ^ 2) with 4. change (Z.ones 2) with 3.
  pose proof (Z.div_mod base 8 ltac:(lia)) as Eb. pose proof (Z.div_mod mag 2 ltac:(lia)) as E2.
  pose proof (Z.mod_pos_bound mag 2 ltac:(lia)).
  unfold precision_ok, MV_SUBPEL_NONE, MV_SUBPEL_LOW_PRECISION, MV_SUBPEL_HIGH_PRECISION in *.
  split; intros Hpr.
  - destruct Hp as [[_ H8] | [[? _] | ?]]; [| lia | lia]. destruct (Hm 8 H8) as [H' | H']; [| lia].
    pose proof (Z.div_mod mag 8 ltac:(lia)) as E8.
    replace (mag - 1 - base) with (2 * (4 * (mag / 8 - base / 8 - 1) + 3) + 1) by lia.
    rewrite <- (Z.div_unique (2 * (4 * (mag / 8 - base / 8 - 1) + 3) + 1) 2 (4 * (mag / 8 - base / 8 - 1) + 3) 1) by lia.
    rewrite <- (Z.mod_unique (4 * (mag / 8 - base / 8 - 1) + 3) 4 (mag / 8 - base / 8 - 1) 3) by lia. done.
  - assert (mag mod 2 = 0) as He.
    { destruct Hp as [[_ H8] | [[_ H2] | ?]]; [| | lia].
      - destruct (Hm 8 H8) as [H' | ?]; [| lia]. pose proof (Z.div_mod mag 8 ltac:(lia)).
        rewrite <- (Z.mod_unique mag 2 (4 * (mag / 8)) 0) by lia. done.
      - by destruct (Hm 2 H2) as [H' | ?]; [| lia]. }
    rewrite <- (Z.mod_unique (mag - 1 - base) 2 (mag / 2 - 4 * (base / 8) - 1) 1) by lia. done.
Qed.

(** ** Vectors survive *)

Section Transfer.
Context (al : allocator) (Hal : grants_all al) (adaptive : bool).
#[local] Abbreviation transfers := (transfers al adaptive).
Context (which comp_i : Z) (Hw : 0 <= which < 2) (Hc : 0 <= comp_i < 2).

Lemma transfers_mv_bits n i d acc : 0 <= i -> i + Z.of_nat n <= 10 -> 0 <= acc < 2 ^ i ->
  transfers (Z.of_nat n) (write_mv_bits al which comp_i n i d) (read_mv_bits which comp_i n i acc) tt
    (acc + (Z.shiftr d i) mod 2 ^ Z.of_nat n * 2 ^ i).
Proof.
  revert i acc. induction n as [|n IH]; intros i acc Hi Hn Ha; cbn [write_mv_bits read_mv_bits].
  - change (2 ^ Z.of_nat 0) with 1. rewrite Z.mod_1_r, Z.mul_0_l, Z.add_0_r. apply transfers_ret.
  - rewrite land_shiftr_bit by lia. replace (Z.of_nat (S n)) with (1 + Z.of_nat n) by lia.
    eapply transfers_bind.
    { apply transfers_symbol; [done | layout | reflexivity | destruct (Z.testbit d i); simpl; lia]. }
    cbv beta. pose proof (pow2_pos i Hi).
    rewrite lor_low_high by done.
    replace (acc + Z.shiftr d i mod 2 ^ (1 + Z.of_nat n) * 2 ^ i)
      with (acc + b2z (Z.testbit d i) * 2 ^ i + Z.shiftr d (i + 1) mod 2 ^ Z.of_nat n * 2 ^ (i + 1)).
    { apply IH; [lia | lia |]. rewrite Z.pow_add_r, Z.pow_1_r by lia. destruct (Z.testbit d i); cbn [b2z]; lia. }
    rewrite <- (Z.shiftr_shiftr d i 1) by lia. rewrite (Z.shiftr_div_pow2 (Z.shiftr d i) 1) by lia.
    rewrite (Z.pow_add_r 2 1), (Z.pow_add_r 2 i 1), !Z.pow_1_r by lia.
    pose proof (pow2_pos (Z.of_nat n) ltac:(lia)). rewrite Z.rem_mul_r by lia.
    rewrite (Z.shiftr_div_pow2 d i), <- testbit_b2z by lia.
    change (2 ^ 1) with 2. ring.
Qed.

(** The integer part. *)
Lemma transfers_mv_int c d : 0 <= c <= 10 -> 0 <= d < (if c =? 0 then 2 else 2 ^ c) ->
  transfers 10
    (if c =? MV_CLASS_0 then w_symbol al d (F_mv_class0_cdf, [which; comp_i]) CLASS0_SIZE
     else write_mv_bits al which comp_i (Z.to_nat (c + CLASS0_BITS - 1)) 0 d)
    (if c =? MV_CLASS_0 then d ← r_symbol (F_mv_class0_cdf, [which; comp_i]) CLASS0_SIZE; mret (d, 0)
     else d ← read_mv_bits which comp_i (Z.to_nat (c + CLASS0_BITS - 1)) 0 0;
          mret (d, Z.shiftl CLASS0_SIZE (c + 2))) tt (d, av1_mv_class_base c).
Proof.
  intros Hcl Hd. unfold MV_CLASS_0, av1_mv_class_base, CLASS0_BITS. destruct (Z.eqb_spec c 0) as [-> | Hn].
  - apply (transfers_le _ _ 1); [lia |]. eapply transfers_post; [| done].
    apply transfers_symbol; [done | layout | reflexivity | exact Hd].
  - replace (c + 1 - 1) with c by lia. pose proof (transfers_mv_bits (Z.to_nat c) 0 d 0) as T.
    rewrite Z2Nat.id, Z.shiftr_0_r, Z.mod_small, Z.mul_1_r, Z.add_0_l in T by lia.
    eapply transfers_post; [| done]. apply (transfers_le _ _ c); [lia |]. apply T; lia.
Qed.

(** The fractional part. *)
Lemma transfers_mv_frac c d fr hp precision : -1 <= precision <= 1 -> 0 <= c <= 10 -> 0 <= fr < 4 -> 0 <= hp < 2 ->
  (c = 0 -> 0 <= d < 2) -> (precision = MV_SUBPEL_NONE -> fr = 3) -> (precision <= MV_SUBPEL_LOW_PRECISION -> hp = 1) ->
  transfers 2
    (_ ← (if MV_SUBPEL_NONE <? precision then
            w_symbol al fr (if c =? MV_CLASS_0 then (F_mv_class0_fp_cdf, [which; comp_i; d])
                            else (F_mv_fp_cdf, [which; comp_i])) MV_FP_SIZE
          else mret tt);
     if MV_SUBPEL_LOW_PRECISION <? precision then
       w_symbol al hp (if c =? MV_CLASS_0 then (F_mv_class0_hp_cdf, [which; comp_i])
                       else (F_mv_hp_cdf, [which; comp_i])) 2
     else mret tt)
    (if MV_SUBPEL_NONE <? precision then
       fr ← r_symbol (if c =? MV_CLASS_0 then (F_mv_class0_fp_cdf, [which; comp_i; d])
                      else (F_mv_fp_cdf, [which; comp_i])) MV_FP_SIZE;
       hp ← (if MV_SUBPEL_LOW_PRECISION <? precision then
               r_symbol (if c =? MV_CLASS_0 then (F_mv_class0_hp_cdf, [which; comp_i])
                         else (F_mv_hp_cdf, [which; comp_i])) 2
             else mret 1);
       mret (fr, hp)
     else mret (3, 1)) tt (fr, hp).
Proof.
  unfold MV_SUBPEL_NONE, MV_SUBPEL_LOW_PRECISION, MV_CLASS_0, MV_FP_SIZE. intros Hp Hcl Hfr Hhp Hd H3 H1.
  set (kf := if c =? 0 then (F_mv_class0_fp_cdf, [which; comp_i; d]) else (F_mv_fp_cdf, [which; comp_i])).
  set (kh := if c =? 0 then (F_mv_class0_hp_cdf, [which; comp_i]) else (F_mv_hp_cdf, [which; comp_i])).
  assert (in_layout kf = true /\ alphabet kf = 4) as [Kf Af].
  { unfold kf. destruct (Z.eqb_spec c 0); (split; [layout | reflexivity]). }
  assert (in_layout kh = true /\ alphabet kh = 2) as [Kh Ah].
  { unfold kh. destruct (Z.eqb_spec c 0); (split; [layout | reflexivity]). }
  destruct (Z.ltb_spec (-1) precision).
  - apply (transfers_le _ _ (1 + 1)); [lia |]. eapply transfers_bind; [by apply transfers_symbol |]. cbv beta.
    destruct (Z.ltb_spec 0 precision).
    + eapply transfers_post; [by apply transfers_symbol | done].
    + rewrite H1 by lia. apply (transfers_le _ _ 0); [lia |]. apply transfers_ret.
  - destruct (Z.ltb_spec 0 precision); [lia |]. rewrite H3, H1 by lia.
    apply (transfers_le _ _ 0); [lia |]. apply transfers_ret.
Qed.

Lemma transfers_mv_component comp precision : -1 <= precision <= 1 -> comp <> 0 -> Z.abs comp <= 16384 ->
  precision_ok precision comp ->
  transfers 14 (encode_mv_component al which comp_i comp precision)
    (read_mv_component which comp_i (MV_SUBPEL_NONE <? precision) (MV_SUBPEL_LOW_PRECISION <? precision)) tt comp.
Proof.
  intros Hp Hn Hm Hpr. unfold encode_mv_component, read_mv_component.
  set (mag := if comp <? 0 then - comp else comp). assert (mag = Z.abs comp) as Emag by (unfold mag; destruct (Z.ltb_spec comp 0); lia).
  destruct (mv_class_spec (mag - 1) ltac:(lia)) as (c & -> & Hcl & Hbase & Hb8 & Hd).
  destruct (dropped_parts precision comp c Hn Hpr Hb8) as [H3 H1]. fold mag in H3, H1.
  set (o := mag - 1 - av1_mv_class_base c) in *. assert (0 <= o) as Ho by lia.
  assert (0 <= Z.shiftr o 3) by (apply Z.shiftr_nonneg; lia).
  apply (transfers_le _ _ (1 + (1 + (10 + 2)))); [lia |].
  eapply transfers_bind; [apply transfers_symbol; [done | layout | reflexivity | destruct (comp <? 0); simpl; lia] |].
  cbv beta. eapply transfers_bind; [apply transfers_symbol; [done | layout | reflexivity | unfold MV_CLASSES; lia] |].
  cbv beta zeta. eapply transfers_bind; [apply transfers_mv_int; [done | split; [done | exact Hd]] |]. cbv beta iota.
  eapply transfers_post.
  { apply transfers_mv_frac; [done | done | | | | exact H3 | exact H1].
    - change 3 with (Z.ones 2). rewrite Z.land_ones by lia. apply Z.mod_pos_bound. lia.
    - change 1 with (Z.ones 1). rewrite Z.land_ones by lia. apply Z.mod_pos_bound. lia.
    - intros ->. split; [done | exact Hd]. }
  intros r. cbv beta iota. rewrite offset_parts by done. unfold mret, reader_ret. do 2 f_equal.
  unfold o. destruct (Z.ltb_spec comp 0); simpl; lia.
Qed.
End Transfer.

Lemma mv_joint_split mv :
  let j := av1_get_mv_joint mv in
  0 <= j < MV_JOINTS /\ mv_joint_vertical j = negb (mv_row mv =? 0) /\ mv_joint_horizontal j = negb (mv_col mv =? 0).
Proof. unfold av1_get_mv_joint. destruct (mv_row mv =? 0), (mv_col mv =? 0); vm_compute; split_and!; congruence. Qed.

(** A vector the encoder may code from a reference at a precision. *)
Record mv_codable (mv ref : MV) (precision : Z) : Prop := {
  mc_range : - 32768 <= mv_row mv < 32768 /\ - 32768 <= mv_col mv < 32768;
  mc_row : Z.abs (mv_row mv - mv_row ref) <= 16384;
  mc_col : Z.abs (mv_col mv - mv_col ref) <= 16384;
  mc_row_precision : precision_ok precision (mv_row mv - mv_row ref);
  mc_col_precision : precision_ok precision (mv_col mv - mv_col ref) }.

Lemma precision_range precision comp : precision_ok precision comp -> -1 <= precision <= 1.
Proof. unfold precision_ok, MV_SUBPEL_NONE, MV_SUBPEL_LOW_PRECISION, MV_SUBPEL_HIGH_PRECISION. lia. Qed.

Lemma transfers_mv al (Hal : grants_all al) adaptive which mv ref precision : 0 <= which < 2 ->
  mv_codable mv ref precision ->
  transfers al adaptive 29 (encode_mv_diff al which (mv_diff mv ref) precision) (read_mv ref which precision) tt mv.
Proof.
  intros Hw [Hr Hrow Hcol Hpr Hpc]. pose proof (precision_range _ _ Hpr) as Hp.
  unfold encode_mv_diff, read_mv, mv_diff. rewrite !s16_small by lia.
  set (diff := {| mv_row := mv_row mv - mv_row ref; mv_col := mv_col mv - mv_col ref |}).
  destruct (mv_joint_split diff) as (Hj & Ev & Eh). cbv zeta. set (j := av1_get_mv_joint diff) in *.
  apply (transfers_le _ _ (1 + (14 + 14))); [lia |].
  eapply transfers_bind; [apply transfers_symbol; [done | layout | reflexivity | done] |]. cbv beta. rewrite Ev, Eh.
  apply (transfers_bind _ _ 14 14 _ _ tt (mv_row mv - mv_row ref)).
  - cbn [mv_row diff]. destruct (Z.eqb_spec (mv_row mv - mv_row ref) 0) as [-> | Hn]; simpl.
    + apply (transfers_le _ _ 0); [lia | apply transfers_ret].
    + eapply transfers_post; [by apply transfers_mv_component |]. intros r. by rewrite s16_small by lia.
  - eapply (transfers_post _ _ _ _ _ _ (mv_col mv - mv_col ref)).
    + cbn [mv_col diff]. destruct (Z.eqb_spec (mv_col mv - mv_col ref) 0) as [-> | Hn]; simpl.
      * apply (transfers_le _ _ 0); [lia | apply transfers_ret].
      * eapply transfers_post; [by apply transfers_mv_component |]. intros r. by rewrite s16_small by lia.
    + intros r. unfold mret, reader_ret. replace (mv_row ref + (mv_row mv - mv_row ref)) with (mv_row mv) by lia.
      replace (mv_col ref + (mv_col mv - mv_col ref)) with (mv_col mv) by lia. rewrite !s16_small by lia.
      by destruct mv.
Qed.

(** ** Arbitrary data *)

Section Safe.
Context (which comp_i : Z) (Hw : 0 <= which < 2) (Hc : 0 <= comp_i < 2).

Lemma safe_mv_bits n i d : 0 <= i -> i + Z.of_nat n <= 10 -> 0 <= d < 2 ^ i ->
  safe (fun v => 0 <= v < 2 ^ (i + Z.of_nat n)) (read_mv_bits which comp_i n i d).
Proof.
  revert i d. induction n as [|n IH]; intros i d Hi Hn Hd; cbn [read_mv_bits].
  - apply safe_ret. by rewrite Z.add_0_r.
  - eapply safe_bind; [apply safe_symbol; [layout | reflexivity] |]. cbv beta. intros b Hb.
    replace (i + Z.of_nat (S n)) with (i + 1 + Z.of_nat n) by lia.
    apply IH; [lia | lia |]. rewrite lor_low_high, Z.pow_add_r, Z.pow_1_r by lia. nia.
Qed.

(** A component is never zero and at most [2^14]. *)
Lemma safe_mv_component use_subpel usehp :
  safe (fun v => 0 < Z.abs v <= 16384) (read_mv_component which comp_i use_subpel usehp).
Proof.
  unfold read_mv_component, MV_CLASS_0, CLASS0_BITS.
  eapply safe_bind; [apply safe_symbol; [layout | reflexivity] |]. cbv beta. intros sign _.
  eapply safe_bind; [apply safe_symbol; [layout | reflexivity] |]. cbv beta. intros c Hcl. unfold MV_CLASSES in Hcl.
  eapply (safe_bind (fun '(d, mag) => 0 <= d /\ (c = 0 -> d < 2) /\ 0 <= mag /\ mag + d * 8 + 8 <= 16384)).
  { destruct (Z.eqb_spec c 0) as [-> | Hn].
    - eapply safe_bind; [apply safe_symbol; [layout | reflexivity] |]. cbv beta. intros d Hd.
      change CLASS0_SIZE with 2 in Hd. apply safe_ret. lia.
    - eapply safe_bind; [apply (safe_mv_bits (Z.to_nat (c + 1 - 1)) 0 0); lia |]. cbv beta. intros d Hd.
      apply safe_ret. replace (0 + Z.of_nat (Z.to_nat (c + 1 - 1))) with c in Hd by lia.
      change CLASS0_SIZE with 2. rewrite Z.shiftl_mul_pow2, Z.pow_add_r by lia. change (2 ^ 2) with 4.
      assert (2 ^ c <= 2 ^ 10) by (apply pow2_le; lia). change (2 ^ 10) with 1024 in *. split_and!; lia. }
  intros [d mag] (Hd & Hd0 & Hm & Hs).
  eapply (safe_bind (fun '(fr, hp) => 0 <= fr < 4 /\ 0 <= hp < 2)).
  { destruct use_subpel; [| apply safe_ret; lia]. eapply safe_bind.
    { apply safe_symbol; [destruct (Z.eqb_spec c 0); layout | by destruct (c =? 0)]. }
    cbv beta. intros fr Hfr. eapply (safe_bind (fun hp => 0 <= hp < 2)).
    - destruct usehp; [| apply safe_ret; lia]. apply safe_symbol; [destruct (c =? 0); layout | by destruct (c =? 0)].
    - intros hp Hhp. apply safe_ret. by split. }
  intros [fr hp] [Hfr Hhp]. cbv zeta. apply safe_ret.
  assert (0 <= Z.lor (Z.lor (Z.shiftl d 3) (Z.shiftl fr 1)) hp < d * 8 + 8); [| destruct (sign =? 0); lia].
  assert (Z.shiftl fr 1 = fr * 2) as Ef by (rewrite Z.shiftl_mul_pow2 by lia; done).
  rewrite (Z.lor_comm (Z.shiftl d 3)), lor_low_high by (rewrite ?Ef; change (2 ^ 3) with 8; lia).
  rewrite Ef, Z.lor_comm. replace (fr * 2 + d * 2 ^ 3) with (Z.shiftl (fr + d * 4) 1).
  - rewrite lor_low_high by (change (2 ^ 1) with 2; lia). change (2 ^ 1) with 2. lia.
  - rewrite Z.shiftl_mul_pow2 by lia. change (2 ^ 1) with 2. change (2 ^ 3) with 8. lia.
Qed.
End Safe.

(** A stored vector. *)
Definition mv_in_range (mv : MV) : Prop := - 32768 <= mv_row mv < 32768 /\ - 32768 <= mv_col mv < 32768.

Lemma safe_read_mv ref which precision : 0 <= which < 2 ->
  safe mv_in_range (read_mv ref which precision).
Proof.
  intros Hw. unfold read_mv. eapply safe_bind; [apply safe_symbol; [layout | reflexivity] |]. cbv beta. intros j _.
  assert (Hcomp : forall comp_i (v : bool), 0 <= comp_i < 2 ->
    safe (fun _ => True) (if v then d ← read_mv_component which comp_i (MV_SUBPEL_NONE <? precision)
                                        (MV_SUBPEL_LOW_PRECISION <? precision); mret (s16 d) else mret 0)).
  { intros comp_i v Hc. destruct v; [| by apply safe_ret].
    eapply safe_bind; [by apply safe_mv_component |]. intros d _. by apply safe_ret. }
  eapply safe_bind; [apply Hcomp; lia |]. intros row _.
  eapply safe_bind; [apply Hcomp; lia |]. intros col _. apply safe_ret. split; apply s16_range.
Qed.
