(* ===== verification/InterMv.v ===== *)
(** * Vectors of a block

    How a block gets its vectors.  An inter block takes them from its candidates, from
    global motion, or codes them ([pack_inter_mode_mvs] of [av1/encoder/bitstream.c] and
    [assign_mv] of [av1/decoder/decodemv.c]); a block copied from the same frame codes
    one vector ([write_intrabc_info], [read_intrabc_info]), which must point at samples
    that are already decoded ([av1_is_dv_valid] of [av1/common/mvref_common.h]). *)

From S2P Require Import Prelude CodecTypes BitChannel EntCoder RangeSpec Cdf EntEncProof EntDecProof EntRoundTrip SymbolIO SyntaxIO TileSafety TxCommon Tile TxbContext DefaultCdfs FrameContext MvCoding.

#[local] Arguments Z.of_nat : simpl never.
#[local] Arguments Z.mul : simpl never.

(** ** Data *)

(** The inter modes of [PREDICTION_MODE]. *)
Definition NEARESTMV : Z := 13.
Definition NEARMV : Z := 14.
Definition GLOBALMV : Z := 15.
Definition NEWMV : Z := 16.
Definition NEAREST_NEARESTMV : Z := 17.
Definition NEAR_NEARMV : Z := 18.
Definition NEAREST_NEWMV : Z := 19.
Definition NEW_NEARESTMV : Z := 20.
Definition NEAR_NEWMV : Z := 21.
Definition NEW_NEARMV : Z := 22.
Definition GLOBAL_GLOBALMV : Z := 23.
Definition NEW_NEWMV : Z := 24.

Definition MI_SIZE : Z := 4.

(** [int_mv] compared as an integer with zero. *)
Definition mv_is_zero (mv : MV) : bool := (mv_row mv =? 0) && (mv_col mv =? 0).

(** ** Global motion *)

Inductive TransformationType := IDENTITY | TRANSLATION | ROTZOOM | AFFINE.

Record WarpedMotionParams := { wmmat : list Z; wmtype : TransformationType }.

Definition WARPEDMODEL_PREC_BITS : Z := 16.
Definition GM_TRANS_ONLY_PREC_DIFF : Z := WARPEDMODEL_PREC_BITS - 3.

Definition ROUND_POWER_OF_TWO (value n : Z) : Z := Z.shiftr (value + Z.shiftr (Z.shiftl 1 n) 1) n.
Definition ROUND_POWER_OF_TWO_SIGNED (value n : Z) : Z :=
  if value <? 0 then - ROUND_POWER_OF_TWO (- value) n else ROUND_POWER_OF_TWO value n.

Definition block_center_x (mi_col : Z) (bs : BLOCK_SIZE) : Z := mi_col * MI_SIZE + block_size_wide bs ÷ 2 - 1.
Definition block_center_y (mi_row : Z) (bs : BLOCK_SIZE) : Z := mi_row * MI_SIZE + block_size_high bs ÷ 2 - 1.

Definition convert_to_trans_prec (allow_hp : bool) (coor : Z) : Z :=
  if allow_hp then ROUND_POWER_OF_TWO_SIGNED coor (WARPEDMODEL_PREC_BITS - 3)
  else ROUND_POWER_OF_TWO_SIGNED coor (WARPEDMODEL_PREC_BITS - 2) * 2.

(** One component of [integer_mv_precision]; each assignment is to an [int16_t]. *)
Definition integer_precision (v : Z) : Z :=
  let mod_ := Z.rem v 8 in
  if mod_ =? 0 then v
  else
    let v := s16 (v - mod_) in
    if 4 <? Z.abs mod_ then (if 0 <? mod_ then s16 (v + 8) else s16 (v - 8)) else v.

Definition integer_mv_precision (mv : MV) : MV :=
  {| mv_row := integer_precision (mv_row mv); mv_col := integer_precision (mv_col mv) |}.

(** The products fit an [int]: a coefficient is within [2^13] of its identity, a position
    below [2^16] plus half a block. *)
Definition gm_get_motion_vector (gm : WarpedMotionParams) (allow_hp : bool) (bsize : BLOCK_SIZE)
    (mi_col mi_row : Z) (is_integer : bool) : MV :=
  let mat := nthz (wmmat gm) in
  match wmtype gm with
  | IDENTITY => {| mv_row := 0; mv_col := 0 |}
  | TRANSLATION =>
      let res := {| mv_row := s16 (Z.shiftr (mat 0) GM_TRANS_ONLY_PREC_DIFF);
                    mv_col := s16 (Z.shiftr (mat 1) GM_TRANS_ONLY_PREC_DIFF) |} in
      if is_integer then integer_mv_precision res else res
  | ROTZOOM | AFFINE =>
      let x := block_center_x mi_col bsize in
      let y := block_center_y mi_row bsize in
      let xc := (mat 2 - Z.shiftl 1 WARPEDMODEL_PREC_BITS) * x + mat 3 * y + mat 0 in
      let yc := mat 4 * x + (mat 5 - Z.shiftl 1 WARPEDMODEL_PREC_BITS) * y + mat 1 in
      let tx := convert_to_trans_prec allow_hp xc in
      let ty := convert_to_trans_prec allow_hp yc in
      let res := {| mv_row := s16 ty; mv_col := s16 tx |} in
      if is_integer then integer_mv_precision res else res
  end.

(** ** Vectors of an inter block *)

(** What the frame and the position of a block determine. *)
Record mv_site := {
  vs_force_integer_mv : bool;
  vs_allow_high_precision_mv : bool;
  vs_global_motion : list WarpedMotionParams;
  vs_mi_row : Z; vs_mi_col : Z; vs_bsize : BLOCK_SIZE }.

Definition global_mv (s : mv_site) (ref_frame : Z) : option MV :=
  gm ← vs_global_motion s !! Z.to_nat ref_frame;
  Some (gm_get_motion_vector gm (vs_allow_high_precision_mv s) (vs_bsize s) (vs_mi_col s) (vs_mi_row s)
          (vs_force_integer_mv s)).

(** The vectors a block may take: [ref_mv], [nearest_mv] and [near_mv], two of each. *)
Record mv_candidates := { vc_ref : MV * MV; vc_nearest : MV * MV; vc_near : MV * MV }.

(** The vectors coded in [pack_inter_mode_mvs].  [td->max_mv_magnitude] is carried on. *)
Definition pack_new_mvs (al : allocator) (s : mv_site) (auto_mv_step_size : bool) (max_mv_magnitude : Z)
    (mode : Z) (is_compound : bool) (mv refs : MV * MV) : writer (aom_writer * cdfs fc_key) Z :=
  let encode m v r := av1_encode_mv al (vs_force_integer_mv s) auto_mv_step_size m v r 0
                        (b2z (vs_allow_high_precision_mv s)) in
  if (mode =? NEWMV) || (mode =? NEW_NEWMV) then
    m ← encode max_mv_magnitude mv.1 refs.1;
    if is_compound then encode m mv.2 refs.2 else mret m
  else if (mode =? NEAREST_NEWMV) || (mode =? NEAR_NEWMV) then encode max_mv_magnitude mv.2 refs.2
  else if (mode =? NEW_NEARESTMV) || (mode =? NEW_NEARMV) then encode max_mv_magnitude mv.1 refs.1
  else mret max_mv_magnitude.

(** Result: whether the vectors are valid, and [mv]. *)
Definition assign_mv (s : mv_site) (mode : Z) (ref_frame : Z * Z) (mv : MV * MV) (c : mv_candidates)
    (is_compound : bool) : reader (aom_reader * cdfs fc_key) (bool * (MV * MV)) :=
  let allow_hp := if vs_force_integer_mv s then MV_SUBPEL_NONE else b2z (vs_allow_high_precision_mv s) in
  let new ref := read_mv ref 0 allow_hp in
  let valid mv := mret (is_mv_valid mv.1 && (negb is_compound || is_mv_valid mv.2), mv) in
  if mode =? NEWMV then
    m ← new (vc_ref c).1; valid (m, mv.2)
  else if mode =? NEARESTMV then valid ((vc_nearest c).1, mv.2)
  else if mode =? NEARMV then valid ((vc_near c).1, mv.2)
  else if mode =? GLOBALMV then
    m ← r_lift (global_mv s ref_frame.1); valid (m, mv.2)
  else if mode =? NEW_NEWMV then
    m0 ← new (vc_ref c).1; m1 ← new (vc_ref c).2; valid (m0, m1)
  else if mode =? NEAREST_NEARESTMV then valid (vc_nearest c)
  else if mode =? NEAR_NEARMV then valid (vc_near c)
  else if mode =? NEW_NEARESTMV then
    m0 ← new (vc_ref c).1; valid (m0, (vc_nearest c).2)
  else if mode =? NEAREST_NEWMV then
    m1 ← new (vc_ref c).2; valid ((vc_nearest c).1, m1)
  else if mode =? NEAR_NEWMV then
    m1 ← new (vc_ref c).2; valid ((vc_near c).1, m1)
  else if mode =? NEW_NEARMV then
    m0 ← new (vc_ref c).1; valid (m0, (vc_near c).2)
  else if mode =? GLOBAL_GLOBALMV then
    m0 ← r_lift (global_mv s ref_frame.1); m1 ← r_lift (global_mv s ref_frame.2); valid (m0, m1)
  else mret (false, mv).

(** ** Vectors inside the frame *)

Definition INTRABC_DELAY_PIXELS : Z := 256.
Definition INTRABC_DELAY_SB64 : Z := INTRABC_DELAY_PIXELS ÷ 64.

(** [get_mv_from_fullmv] *)
Definition get_mv_from_fullmv (full : MV) : MV :=
  {| mv_row := s16 (mv_row full * 8); mv_col := s16 (mv_col full * 8) |}.

Definition av1_find_ref_dv (tile : TileInfo) (mib_size mi_row : Z) : MV :=
  get_mv_from_fullmv
    (if mi_row - mib_size <? mi_row_start tile then
       {| mv_row := 0; mv_col := s16 (- MI_SIZE * mib_size - INTRABC_DELAY_PIXELS) |}
     else {| mv_row := s16 (- MI_SIZE * mib_size); mv_col := 0 |}).

(** What [cm] and [xd] say about a block copied from the frame. *)
Record dv_site := {
  ds_tile : TileInfo;
  ds_mib_size_log2 : Z;
  ds_mi_row : Z; ds_mi_col : Z; ds_bsize : BLOCK_SIZE;
  ds_is_chroma_ref : bool; ds_num_planes : Z;
  ds_ss_x : Z; ds_ss_y : Z }.

Definition av1_is_dv_valid (dv : MV) (s : dv_site) : bool :=
  let tile := ds_tile s in
  let bw := block_size_wide (ds_bsize s) in
  let bh := block_size_high (ds_bsize s) in
  let SCALE_PX_TO_MV := 8 in
  if negb (Z.land (mv_row dv) (SCALE_PX_TO_MV - 1) =? 0) || negb (Z.land (mv_col dv) (SCALE_PX_TO_MV - 1) =? 0)
  then false else
  let src_top_edge := ds_mi_row s * MI_SIZE * SCALE_PX_TO_MV + mv_row dv in
  let tile_top_edge := mi_row_start tile * MI_SIZE * SCALE_PX_TO_MV in
  if src_top_edge <? tile_top_edge then false else
  let src_left_edge := ds_mi_col s * MI_SIZE * SCALE_PX_TO_MV + mv_col dv in
  let tile_left_edge := mi_col_start tile * MI_SIZE * SCALE_PX_TO_MV in
  if src_left_edge <? tile_left_edge then false else
  let src_bottom_edge := (ds_mi_row s * MI_SIZE + bh) * SCALE_PX_TO_MV + mv_row dv in
  let tile_bottom_edge := mi_row_end tile * MI_SIZE * SCALE_PX_TO_MV in
  if tile_bottom_edge <? src_bottom_edge then false else
  let src_right_edge := (ds_mi_col s * MI_SIZE + bw) * SCALE_PX_TO_MV + mv_col dv in
  let tile_right_edge := mi_col_end tile * MI_SIZE * SCALE_PX_TO_MV in
  if tile_right_edge <? src_right_edge then false else
  if ds_is_chroma_ref s && (1 <? ds_num_planes s) &&
     ((bw <? 8) && negb (ds_ss_x s =? 0) && (src_left_edge <? tile_left_edge + 4 * SCALE_PX_TO_MV) ||
      (bh <? 8) && negb (ds_ss_y s =? 0) && (src_top_edge <? tile_top_edge + 4 * SCALE_PX_TO_MV))
  then false else
  let max_mib_size := Z.shiftl 1 (ds_mib_size_log2 s) in
  let active_sb_row := Z.shiftr (ds_mi_row s) (ds_mib_size_log2 s) in
  let active_sb64_col := Z.shiftr (ds_mi_col s * MI_SIZE) 6 in
  let sb_size := max_mib_size * MI_SIZE in
  let src_sb_row := (Z.shiftr src_bottom_edge 3 - 1) ÷ sb_size in
  let src_sb64_col := Z.shiftr (Z.shiftr src_right_edge 3 - 1) 6 in
  let total_sb64_per_row := Z.shiftr (mi_col_end tile - mi_col_start tile - 1) 4 + 1 in
  let active_sb64 := active_sb_row * total_sb64_per_row + active_sb64_col in
  let src_sb64 := src_sb_row * total_sb64_per_row + src_sb64_col in
  if active_sb64 - INTRABC_DELAY_SB64 <=? src_sb64 then false else
  let gradient := 1 + INTRABC_DELAY_SB64 + b2z (64 <? sb_size) in
  let wf_offset := gradient * (active_sb_row - src_sb_row) in
  if (active_sb_row <? src_sb_row) || (active_sb64_col - INTRABC_DELAY_SB64 + wf_offset <=? src_sb64_col)
  then false else true.

(** [(v >> 3) * 8] *)
Definition whole_pixels (mv : MV) : MV :=
  {| mv_row := s16 (Z.shiftr (mv_row mv) 3 * 8); mv_col := s16 (Z.shiftr (mv_col mv) 3 * 8) |}.

Definition assign_dv (s : dv_site) (ref_mv : MV) : reader (aom_reader * cdfs fc_key) (bool * MV) :=
  mv ← read_mv ref_mv 1 MV_SUBPEL_NONE;
  let mv := whole_pixels mv in
  mret (is_mv_valid mv && av1_is_dv_valid mv s, mv).

(** [nearestmv], [nearmv]: what [av1_find_best_ref_mvs] finds.  Result: [mbmi->mv[0]] of a
    block copied from the frame. *)
Definition read_intrabc_info (s : dv_site) (nearestmv nearmv : MV)
  : reader (aom_reader * cdfs fc_key) (option MV) :=
  use_intrabc ← r_symbol (F_intrabc_cdf, []) 2;
  if use_intrabc =? 0 then mret None
  else
    let dv_ref := if mv_is_zero nearestmv then nearmv else nearestmv in
    let dv_ref := if mv_is_zero dv_ref
                  then av1_find_ref_dv (ds_tile s) (Z.shiftl 1 (ds_mib_size_log2 s)) (ds_mi_row s) else dv_ref in
    let valid_dv := (Z.land (mv_col dv_ref) 7 =? 0) && (Z.land (mv_row dv_ref) 7 =? 0) in
    let dv_ref := whole_pixels dv_ref in
    if valid_dv then
      '(valid, mv) ← assign_dv s dv_ref;
      if valid : bool then mret (Some mv) else raise AOM_CODEC_CORRUPT_FRAME
    else raise AOM_CODEC_CORRUPT_FRAME.

Definition INVALID_MV : MV := {| mv_row := -32768; mv_col := -32768 |}.

(** The reference the encoder keeps in [mbmi_ext->ref_mv_stack[INTRA_FRAME][0]]
    ([rd_pick_intrabc_mode_sb]). *)
Definition rd_dv_ref (s : dv_site) (nearestmv nearmv : MV) : MV :=
  let zeroed mv := if (mv_row mv =? mv_row INVALID_MV) && (mv_col mv =? mv_col INVALID_MV)
                   then {| mv_row := 0; mv_col := 0 |} else mv in
  let nearestmv := zeroed nearestmv in
  let nearmv := zeroed nearmv in
  let dv_ref := if mv_is_zero nearestmv then nearmv else nearestmv in
  if mv_is_zero dv_ref then av1_find_ref_dv (ds_tile s) (Z.shiftl 1 (ds_mib_size_log2 s)) (ds_mi_row s) else dv_ref.

Definition write_intrabc_info (al : allocator) (mv : option MV) (dv_ref : MV)
  : writer (aom_writer * cdfs fc_key) unit :=
  _ ← w_symbol al (match mv with Some _ => 1 | None => 0 end) (F_intrabc_cdf, []) 2;
  match mv with
  | Some mv => av1_encode_dv al mv dv_ref 1
  | None => mret tt
  end.

(** ** The vectors of an inter block survive *)

(** [s->allow_hp] as a precision. *)
Definition site_precision (s : mv_site) : Z :=
  if vs_force_integer_mv s then MV_SUBPEL_NONE else b2z (vs_allow_high_precision_mv s).

(** What a mode says about one of the vectors of a block. *)
Inductive mv_source := FromNew | FromNearest | FromNear | FromGlobal.

(** The sources of a single and a compound mode. *)
Definition single_source (mode : Z) : option mv_source :=
  if mode =? NEWMV then Some FromNew else if mode =? NEARESTMV then Some FromNearest
  else if mode =? NEARMV then Some FromNear else if mode =? GLOBALMV then Some FromGlobal else None.

Definition compound_sources (mode : Z) : option (mv_source * mv_source) :=
  if mode =? NEAREST_NEARESTMV then Some (FromNearest, FromNearest)
  else if mode =? NEAR_NEARMV then Some (FromNear, FromNear)
  else if mode =? NEAREST_NEWMV then Some (FromNearest, FromNew)
  else if mode =? NEW_NEARESTMV then Some (FromNew, FromNearest)
  else if mode =? NEAR_NEWMV then Some (FromNear, FromNew)
  else if mode =? NEW_NEARMV then Some (FromNew, FromNear)
  else if mode =? GLOBAL_GLOBALMV then Some (FromGlobal, FromGlobal)
  else if mode =? NEW_NEWMV then Some (FromNew, FromNew)
  else None.

(** A vector agrees with its source. *)
Definition agrees (s : mv_site) (src : mv_source) (ref_frame : Z) (mv ref nearest near : MV) : Prop :=
  is_mv_valid mv = true /\
  match src with
  | FromNew => mv_codable mv ref (site_precision s)
  | FromNearest => mv = nearest
  | FromNear => mv = near
  | FromGlobal => global_mv s ref_frame = Some mv
  end.

(** A block whose vectors are those its mode says. *)
Definition mvs_ok (s : mv_site) (mode : Z) (is_compound : bool) (ref_frame : Z * Z) (mv : MV * MV)
    (c : mv_candidates) : Prop :=
  if is_compound then
    exists a b, compound_sources mode = Some (a, b) /\
      agrees s a ref_frame.1 mv.1 (vc_ref c).1 (vc_nearest c).1 (vc_near c).1 /\
      agrees s b ref_frame.2 mv.2 (vc_ref c).2 (vc_nearest c).2 (vc_near c).2
  else exists a, single_source mode = Some a /\
      agrees s a ref_frame.1 mv.1 (vc_ref c).1 (vc_nearest c).1 (vc_near c).1.

Section Survive.
Context (al : allocator) (Hal : grants_all al) (adaptive : bool).
#[local] Abbreviation transfers := (transfers al adaptive).

(** The largest magnitude seen, after a vector. *)
Definition note_magnitude (auto_mv_step_size : bool) (m : Z) (mv : MV) : Z :=
  if auto_mv_step_size then Z.max (Z.shiftr (Z.max (Z.abs (mv_row mv)) (Z.abs (mv_col mv))) 3) m else m.

Lemma transfers_encode_mv s auto m mv ref : mv_codable mv ref (site_precision s) ->
  transfers 29 (av1_encode_mv al (vs_force_integer_mv s) auto m mv ref 0 (b2z (vs_allow_high_precision_mv s)))
    (read_mv ref 0 (site_precision s)) (note_magnitude auto m mv) mv.
Proof.
  intros H. unfold av1_encode_mv. eapply transfers_post_w; [by apply transfers_mv | done].
Qed.

(** The tests on a known mode. *)
Ltac known_mode := repeat match goal with
  | |- context [?a =? ?b] => let v := eval vm_compute in (a =? b) in change (a =? b) with v
  end; cbn [orb andb negb].

(** No vector, one or two are coded, the others are looked up. *)
Ltac settle :=
  repeat match goal with H : global_mv _ _ = Some _ |- _ => rewrite H; clear H end; rewrite ?r_lift_some;
  cbv beta iota;
  match goal with
  | H1 : mv_codable _ _ _, H2 : mv_codable _ _ _ |- _ =>
      eexists; apply (transfers_le _ _ (29 + 29)); [lia |];
      eapply transfers_bind; [by apply transfers_encode_mv |]; cbv beta;
      eapply transfers_post; [by apply transfers_encode_mv |]
  | H1 : mv_codable _ _ _ |- _ =>
      eexists; apply (transfers_le _ _ 29); [lia |]; eapply transfers_post;
      [first [by apply transfers_encode_mv | eapply transfers_post_w; [by apply transfers_encode_mv | done]] |]
  | _ => eexists; apply (transfers_le _ _ 0); [lia |]
  end;
  intros; cbn [fst snd]; repeat match goal with H : is_mv_valid _ = true |- _ => rewrite H; clear H end;
  cbn [andb orb negb]; first [reflexivity | apply transfers_ret].

(** Two vectors at most, of 29 symbols each. *)
Lemma transfers_pack_mvs s auto m mode is_compound ref_frame mv old c :
  mvs_ok s mode is_compound ref_frame mv c ->
  exists m', transfers 58 (pack_new_mvs al s auto m mode is_compound mv (vc_ref c))
    (assign_mv s mode ref_frame old c is_compound) m' (true, (mv.1, if is_compound then mv.2 else old.2)).
Proof.
  destruct mv as [mv0 mv1], c as [[r0 r1] [n0 n1] [p0 p1]], is_compound; cbn [fst snd vc_ref vc_nearest vc_near].
  - intros (a & b & Hm & [V0 Ha] & [V1 Hb]). cbn [fst snd vc_ref vc_nearest vc_near] in *.
    unfold compound_sources in Hm. unfold pack_new_mvs, assign_mv. fold (site_precision s).
    repeat match type of Hm with
    | (if mode =? ?k then _ else _) = _ => destruct (Z.eqb_spec mode k) as [-> | _]; [injection Hm as <- <- |]
    end; [.. | done]; known_mode; cbn [fst snd vc_ref vc_nearest vc_near]; subst; settle.
  - intros (a & Hm & [V0 Ha]). cbn [fst snd vc_ref vc_nearest vc_near] in *.
    unfold single_source in Hm. unfold pack_new_mvs, assign_mv. fold (site_precision s).
    repeat match type of Hm with
    | (if mode =? ?k then _ else _) = _ => destruct (Z.eqb_spec mode k) as [-> | _]; [injection Hm as <- |]
    end; [.. | done]; known_mode; cbn [fst snd vc_ref vc_nearest vc_near]; subst; settle.
Qed.
End Survive.

(** ** Where a block vector may point *)

Section Source.
Context (s : dv_site).

Definition sb_size : Z := Z.shiftl 1 (ds_mib_size_log2 s) * MI_SIZE.
Definition active_sb_row : Z := Z.shiftr (ds_mi_row s) (ds_mib_size_log2 s).

(** The sample at row [y] and column [x] is in the tile and in a superblock before the
    current one; a row of superblocks above may be ahead by [1 + 4] blocks of 64 samples
    (one more with superblocks of 128 samples), so that the rows can be decoded in
    parallel. *)
Record sample_ready (y x : Z) : Prop := {
  sr_row : mi_row_start (ds_tile s) * 4 <= y < mi_row_end (ds_tile s) * 4;
  sr_col : mi_col_start (ds_tile s) * 4 <= x < mi_col_end (ds_tile s) * 4;
  sr_before : y / sb_size < active_sb_row \/
    y / sb_size = active_sb_row /\ x / sb_size < Z.shiftr (ds_mi_col s) (ds_mib_size_log2 s);
  sr_wavefront : x / 64 + 4 < ds_mi_col s * 4 / 64 +
    (5 + b2z (64 <? sb_size)) * (active_sb_row - y / sb_size) }.

(** The samples a vector points at: the block, and with chroma of a narrow block also
    the samples before it. *)
Definition in_source (dv : MV) (y x : Z) : Prop :=
  let chroma := ds_is_chroma_ref s && (1 <? ds_num_planes s) in
  let bw := block_size_wide (ds_bsize s) in
  let bh := block_size_high (ds_bsize s) in
  let above := if chroma && (bh <? 8) && negb (ds_ss_y s =? 0) then 4 else 0 in
  let lefts := if chroma && (bw <? 8) && negb (ds_ss_x s =? 0) then 4 else 0 in
  ds_mi_row s * 4 + mv_row dv / 8 - above <= y < ds_mi_row s * 4 + mv_row dv / 8 + bh /\
  ds_mi_col s * 4 + mv_col dv / 8 - lefts <= x < ds_mi_col s * 4 + mv_col dv / 8 + bw.

Record dv_site_ok : Prop := {
  dk_start : 0 <= mi_row_start (ds_tile s) /\ 0 <= mi_col_start (ds_tile s);
  dk_size : ds_mib_size_log2 s = 4 \/ ds_mib_size_log2 s = 5 }.

Lemma land7_mod v : (Z.land v 7 =? 0) = (v mod 8 =? 0).
Proof. change 7 with (Z.ones 3). by rewrite Z.land_ones by lia. Qed.

Lemma shiftr3_mul v : Z.shiftr (v * 8) 3 = v.
Proof. rewrite Z.shiftr_div_pow2 by lia. apply Z.div_mul. lia. Qed.

Lemma block_size_pos b : 0 < block_size_wide b /\ 0 < block_size_high b.
Proof. destruct b; cbn; lia. Qed.

(** The tests of [av1_is_dv_valid], in samples. *)
Lemma dv_valid_inv dv : av1_is_dv_valid dv s = true ->
  let chroma := ds_is_chroma_ref s && (1 <? ds_num_planes s) in
  let bw := block_size_wide (ds_bsize s) in
  let bh := block_size_high (ds_bsize s) in
  let top := ds_mi_row s * 4 + mv_row dv / 8 in
  let lefts := ds_mi_col s * 4 + mv_col dv / 8 in
  let src_row := (top + bh - 1) ÷ sb_size in
  mv_row dv mod 8 = 0 /\ mv_col dv mod 8 = 0 /\
  mi_row_start (ds_tile s) * 4 + (if chroma && (bh <? 8) && negb (ds_ss_y s =? 0) then 4 else 0) <= top /\
  mi_col_start (ds_tile s) * 4 + (if chroma && (bw <? 8) && negb (ds_ss_x s =? 0) then 4 else 0) <= lefts /\
  top + bh <= mi_row_end (ds_tile s) * 4 /\ lefts + bw <= mi_col_end (ds_tile s) * 4 /\
  src_row <= active_sb_row /\
  (lefts + bw - 1) / 64 < ds_mi_col s * 4 / 64 - 4 + (5 + b2z (64 <? sb_size)) * (active_sb_row - src_row).
Proof.
  unfold av1_is_dv_valid. change (8 - 1) with 7. rewrite !land7_mod. cbv zeta.
  destruct (Z.eqb_spec (mv_row dv mod 8) 0) as [Er |]; [| done].
  destruct (Z.eqb_spec (mv_col dv mod 8) 0) as [Ec |]; [| done]. cbn [negb orb].
  pose proof (Z.div_mod (mv_row dv) 8 ltac:(lia)) as Dr. pose proof (Z.div_mod (mv_col dv) 8 ltac:(lia)) as Dc.
  rewrite Er in Dr. rewrite Ec in Dc. set (r := mv_row dv / 8) in *. set (c := mv_col dv / 8) in *.
  set (bw := block_size_wide (ds_bsize s)). set (bh := block_size_high (ds_bsize s)). unfold MI_SIZE.
  fold MI_SIZE. fold sb_size active_sb_row. change MI_SIZE with 4. change INTRABC_DELAY_SB64 with 4.
  replace ((ds_mi_row s * 4 + bh) * 8 + mv_row dv) with ((ds_mi_row s * 4 + r + bh) * 8) by lia.
  replace ((ds_mi_col s * 4 + bw) * 8 + mv_col dv) with ((ds_mi_col s * 4 + c + bw) * 8) by lia.
  rewrite !shiftr3_mul, !Z.shiftr_div_pow2 by lia. change (2 ^ 6) with 64. change (2 ^ 4) with 16.
  repeat match goal with |- context [if ?a <? ?b then false else _] => destruct (Z.ltb_spec a b); [done |] end.
  destruct (ds_is_chroma_ref s && (1 <? ds_num_planes s)) eqn:Ech; cbn [andb];
  [destruct (Z.ltb_spec bw 8), (Z.ltb_spec bh 8), (ds_ss_x s =? 0), (ds_ss_y s =? 0); cbn [andb orb negb] |];
  repeat match goal with |- context [?a <? ?b] => destruct (Z.ltb_spec a b); cbn [orb]; try done end;
  repeat match goal with |- context [?a <=? ?b] => destruct (Z.leb_spec a b); cbn [orb]; try done end;
  intros _; split_and!; try lia.
Qed.

(** What a valid vector points at is ready. *)
Lemma dv_valid_ready dv y x : dv_site_ok -> av1_is_dv_valid dv s = true -> in_source dv y x -> sample_ready y x.
Proof.
  intros [Hs Hk] Hv. apply dv_valid_inv in Hv. unfold in_source. cbv zeta in *.
  set (chroma := ds_is_chroma_ref s && (1 <? ds_num_planes s)) in *.
  destruct Hv as (_ & _ & Ht & Hl & Hb & Hr & Hrow & Hw). intros [Hy Hx].
  set (above := if chroma && _ && negb (ds_ss_y s =? 0) then 4 else 0) in *.
  set (lefts := if chroma && _ && negb (ds_ss_x s =? 0) then 4 else 0) in *.
  assert (0 <= above /\ 0 <= lefts) by (unfold above, lefts; split; repeat case_match; lia).
  pose proof (block_size_pos (ds_bsize s)) as [Hbw Hbh].
  assert (sb_size = 64 \/ sb_size = 128) as Hsz by (unfold sb_size, MI_SIZE; destruct Hk as [-> | ->]; auto).
  rewrite Z.quot_div_nonneg in Hrow, Hw by lia.
  assert (y / sb_size <= (ds_mi_row s * 4 + mv_row dv / 8 + block_size_high (ds_bsize s) - 1) / sb_size)
    by (apply Z.div_le_mono; lia).
  assert (x / 64 <= (ds_mi_col s * 4 + mv_col dv / 8 + block_size_wide (ds_bsize s) - 1) / 64)
    by (apply Z.div_le_mono; lia).
  set (src := (_ + block_size_high _ - 1) / sb_size) in *.
  assert (x / 64 + 4 < ds_mi_col s * 4 / 64 + (5 + b2z (64 <? sb_size)) * (active_sb_row - y / sb_size)) as Hwf.
  { assert ((5 + b2z (64 <? sb_size)) * (active_sb_row - src) <= (5 + b2z (64 <? sb_size)) * (active_sb_row - y / sb_size)).
    { apply Z.mul_le_mono_nonneg_l; [destruct (64 <? sb_size); cbn; lia | lia]. } lia. }
  split; [lia | lia | | exact Hwf].
  destruct (Z_lt_le_dec (y / sb_size) active_sb_row) as [? | Hge]; [by left | right].
  assert (y / sb_size = active_sb_row) as Ey by lia. split; [done |].
  rewrite Ey, Z.sub_diag, Z.mul_0_r, Z.add_0_r in Hwf.
  rewrite Z.shiftr_div_pow2 by lia. clear - Hk Hwf.
  unfold sb_size, MI_SIZE in *. destruct Hk as [-> | ->].
  - change (Z.shiftl 1 4 * 4) with 64. change (2 ^ 4) with 16.
    Z.to_euclidean_division_equations. lia.
  - change (Z.shiftl 1 5 * 4) with 128. change (2 ^ 5) with 32.
    Z.to_euclidean_division_equations. lia.
Qed.
End Source.

(** ** Block vectors survive *)

Lemma whole_pixels_id mv : mv_in_range mv -> mv_row mv mod 8 = 0 -> mv_col mv mod 8 = 0 -> whole_pixels mv = mv.
Proof.
  intros [Hr Hc] Er Ec. unfold whole_pixels. rewrite !Z.shiftr_div_pow2 by lia. change (2 ^ 3) with 8.
  pose proof (Z.div_mod (mv_row mv) 8 ltac:(lia)). pose proof (Z.div_mod (mv_col mv) 8 ltac:(lia)).
  replace (mv_row mv / 8 * 8) with (mv_row mv) by lia. replace (mv_col mv / 8 * 8) with (mv_col mv) by lia.
  rewrite !s16_small by lia. by destruct mv.
Qed.

(** Vectors by whole samples. *)
Definition whole_mv (mv : MV) : Prop := mv_in_range mv /\ mv_row mv mod 8 = 0 /\ mv_col mv mod 8 = 0.

Lemma s16_mul8 x : s16 (x * 8) mod 8 = 0.
Proof.
  unfold s16, swrap. change (2 ^ (16 - 1)) with 32768. change (2 ^ 16) with 65536.
  rewrite (Z.mod_eq (x * 8 + 32768)) by lia. set (q := (x * 8 + 32768) / 65536).
  replace (x * 8 + 32768 - 65536 * q - 32768) with ((x - 8192 * q) * 8) by lia. by apply Z.mod_mul.
Qed.

Lemma find_ref_dv_whole tile mib_size mi_row : whole_mv (av1_find_ref_dv tile mib_size mi_row).
Proof. split; [split; apply s16_range |]. split; apply s16_mul8. Qed.

(** What the search for candidates leaves. *)
Definition candidate_ok (mv : MV) : Prop := whole_mv mv /\ mv <> INVALID_MV.

(** The reference both sides use. *)
Definition dv_reference (s : dv_site) (nearestmv nearmv : MV) : MV :=
  let dv_ref := if mv_is_zero nearestmv then nearmv else nearestmv in
  if mv_is_zero dv_ref then av1_find_ref_dv (ds_tile s) (Z.shiftl 1 (ds_mib_size_log2 s)) (ds_mi_row s) else dv_ref.

Lemma dv_reference_whole s a b : whole_mv a -> whole_mv b -> whole_mv (dv_reference s a b).
Proof.
  intros Ha Hb. unfold dv_reference. repeat case_match; try done; apply find_ref_dv_whole.
Qed.

Lemma rd_dv_ref_eq s a b : candidate_ok a -> candidate_ok b -> rd_dv_ref s a b = dv_reference s a b.
Proof.
  assert (H : forall mv, candidate_ok mv ->
    (mv_row mv =? mv_row INVALID_MV) && (mv_col mv =? mv_col INVALID_MV) = false).
  { intros [r c] [_ Hn]. cbn [mv_row mv_col INVALID_MV].
    destruct (Z.eqb_spec r (-32768)), (Z.eqb_spec c (-32768)); try done. subst. by destruct Hn. }
  intros Ha Hb. unfold rd_dv_ref. by rewrite (H a Ha), (H b Hb).
Qed.

(** A block vector the encoder may choose. *)
Definition dv_ok (s : dv_site) (nearestmv nearmv dv : MV) : Prop :=
  is_mv_valid dv = true /\ av1_is_dv_valid dv s = true /\
  let ref := dv_reference s nearestmv nearmv in
  Z.abs (mv_row dv - mv_row ref) <= 16384 /\ Z.abs (mv_col dv - mv_col ref) <= 16384.

Lemma dv_ok_codable s a b dv : whole_mv a -> whole_mv b -> dv_ok s a b dv ->
  mv_codable dv (dv_reference s a b) MV_SUBPEL_NONE /\ whole_mv dv.
Proof.
  intros Ha Hb (Hv & Hd & Hr & Hc). destruct (dv_reference_whole s a b Ha Hb) as (_ & Er & Ec).
  apply dv_valid_inv in Hd as (Dr & Dc & _). unfold is_mv_valid, MV_LOW, MV_UPP in Hv.
  change (Z.shiftl 1 14) with 16384 in Hv.
  assert (mv_in_range dv) as Hin by (unfold mv_in_range; lia).
  split; [split; try done; left; (split; [done |]); rewrite Zminus_mod, ?Dr, ?Dc, ?Er, ?Ec; done |]. done.
Qed.

Lemma transfers_intrabc al (Hal : grants_all al) adaptive s a b dv : candidate_ok a -> candidate_ok b ->
  (forall v, dv = Some v -> dv_ok s a b v) ->
  transfers al adaptive 30 (write_intrabc_info al dv (rd_dv_ref s a b)) (read_intrabc_info s a b) tt dv.
Proof.
  intros Ha Hb Hdv. rewrite rd_dv_ref_eq by done. destruct Ha as [Ha _], Hb as [Hb _].
  unfold write_intrabc_info, read_intrabc_info. apply (transfers_le _ _ (1 + 29)); [lia |].
  eapply transfers_bind; [apply transfers_symbol; [done | layout | reflexivity | destruct dv; lia] |]. cbv beta.
  destruct dv as [v|]; cbn [Z.eqb]; [| apply (transfers_le _ _ 0); [lia | apply transfers_ret]].
  destruct (dv_ok_codable s a b v Ha Hb (Hdv v eq_refl)) as [Hcod (Hin & Er & Ec)].
  destruct (Hdv v eq_refl) as (Hv & Hd & _). cbv zeta. fold (dv_reference s a b).
  destruct (dv_reference_whole s a b Ha Hb) as (Hrin & Rr & Rc).
  rewrite !land7_mod, Rr, Rc, (whole_pixels_id (dv_reference s a b)) by done. cbn [Z.eqb andb].
  unfold assign_dv. apply transfers_regroup_r. eapply transfers_post; [by apply transfers_mv |].
  intros r. cbv beta zeta. rewrite whole_pixels_id, Hv, Hd by done. done.
Qed.

(** ** A tile's vectors *)

Inductive block_mvs :=
| InterMvs (s : mv_site) (mode : Z) (is_compound : bool) (ref_frame : Z * Z) (mv old : MV * MV) (c : mv_candidates)
| CopiedMv (s : dv_site) (mv : option MV) (nearestmv nearmv : MV).

Inductive decoded_mvs :=
| InterDecoded (valid : bool) (mv : MV * MV)
| CopiedDecoded (mv : option MV).

Fixpoint write_vectors (al : allocator) (auto_mv_step_size : bool) (m : Z) (bs : list block_mvs)
  : writer (aom_writer * cdfs fc_key) Z :=
  match bs with
  | [] => mret m
  | b :: bs =>
      m ← match b with
          | InterMvs s mode is_compound ref_frame mv _ c =>
              pack_new_mvs al s auto_mv_step_size m mode is_compound mv (vc_ref c)
          | CopiedMv s mv nearestmv nearmv =>
              _ ← write_intrabc_info al mv (rd_dv_ref s nearestmv nearmv); mret m
          end;
      write_vectors al auto_mv_step_size m bs
  end.

Fixpoint read_vectors (bs : list block_mvs) : reader (aom_reader * cdfs fc_key) (list decoded_mvs) :=
  match bs with
  | [] => mret []
  | b :: bs =>
      d ← match b with
          | InterMvs s mode is_compound ref_frame _ old c =>
              '(valid, mv) ← assign_mv s mode ref_frame old c is_compound; mret (InterDecoded valid mv)
          | CopiedMv s _ nearestmv nearmv =>
              mv ← read_intrabc_info s nearestmv nearmv; mret (CopiedDecoded mv)
          end;
      ds ← read_vectors bs;
      mret (d :: ds)
  end.

(** What the decoder should find. *)
Definition expected_mvs (b : block_mvs) : decoded_mvs :=
  match b with
  | InterMvs _ _ is_compound _ mv old _ => InterDecoded true (mv.1, if is_compound then mv.2 else old.2)
  | CopiedMv _ mv _ _ => CopiedDecoded mv
  end.

Definition block_mvs_ok (b : block_mvs) : Prop :=
  match b with
  | InterMvs s mode is_compound ref_frame mv _ c => mvs_ok s mode is_compound ref_frame mv c
  | CopiedMv s mv nearestmv nearmv =>
      candidate_ok nearestmv /\ candidate_ok nearmv /\ (forall v, mv = Some v -> dv_ok s nearestmv nearmv v)
  end.

Lemma transfers_vectors al (Hal : grants_all al) adaptive auto m bs : Forall block_mvs_ok bs ->
  exists m', transfers al adaptive (58 * Z.of_nat (length bs)) (write_vectors al auto m bs) (read_vectors bs) m'
    (expected_mvs <$> bs).
Proof.
  intros Hbs. revert m. induction Hbs as [|b bs Hb Hbs IH]; intros m; cbn [write_vectors read_vectors length].
  - exists m. apply transfers_ret.
  - assert (exists m1, transfers al adaptive 58
      (match b with
       | InterMvs s mode is_compound ref_frame mv _ c => pack_new_mvs al s auto m mode is_compound mv (vc_ref c)
       | CopiedMv s mv nearestmv nearmv => _ ← write_intrabc_info al mv (rd_dv_ref s nearestmv nearmv); mret m
       end)
      (match b with
       | InterMvs s mode is_compound ref_frame _ old c =>
           '(valid, mv) ← assign_mv s mode ref_frame old c is_compound; mret (InterDecoded valid mv)
       | CopiedMv s _ nearestmv nearmv => mv ← read_intrabc_info s nearestmv nearmv; mret (CopiedDecoded mv)
       end) m1 (expected_mvs b)) as [m1 T1].
    { destruct b as [s mode ic rf mv old c | s mv a b].
      - destruct (transfers_pack_mvs al Hal adaptive s auto m mode ic rf mv old c Hb) as [m1 T]. exists m1.
        by eapply transfers_post; [exact T |].
      - destruct Hb as (Ha & Hb & Hv). exists m. apply (transfers_le _ _ 30); [lia |].
        eapply transfers_post; [eapply transfers_post_w; [by apply transfers_intrabc |] |]; done. }
    destruct (IH m1) as [m2 T2]. exists m2.
    replace (58 * Z.of_nat (S (length bs))) with (58 + 58 * Z.of_nat (length bs)) by lia.
    eapply transfers_bind; [exact T1 |]. by eapply transfers_post; [exact T2 |].
Qed.

(** C9: The vectors of any sequence of inter and copied blocks survive the tile: written
    between [aom_start_encode] and [aom_stop_encode], from any valid frame context, each block
    comes back from [assign_mv] or [read_intrabc_info] with the vectors of the encoder,
    accepted as valid, whichever of its vectors the mode codes, looks up among the
    candidates or derives from global motion; models are left equal. *)
Theorem vectors_roundtrip al adaptive auto m bs fc :
  grants_all al -> fc_ok fc -> Forall block_mvs_ok bs -> 15 * (58 * Z.of_nat (length bs) + 1) < 2 ^ 29 ->
  exists m' fc', fc_ok fc' /\
    tile_survives al adaptive (wrun fc (write_vectors al auto m bs)) (m', fc')
      (rrun fc (read_vectors bs)) (expected_mvs <$> bs, fc').
Proof.
  intros Hal Hfc Hbs HN. destruct (transfers_vectors al Hal adaptive auto m bs Hbs) as [m' T].
  destruct (transfers_survive al Hal adaptive _ _ _ _ _ fc T Hfc HN) as (fc' & ? & ?). by exists m', fc'.
Qed.

(** ** Arbitrary data *)

(** Global motion is set up for the frames a block refers to. *)
Definition global_ok (s : mv_site) (ref_frame : Z * Z) : Prop :=
  is_Some (global_mv s ref_frame.1) /\ is_Some (global_mv s ref_frame.2).

Lemma safe_assign_mv s mode ref_frame old c is_compound : global_ok s ref_frame ->
  safe (fun '(valid, mv) => valid = true -> is_mv_valid mv.1 = true /\ (is_compound = true -> is_mv_valid mv.2 = true))
    (assign_mv s mode ref_frame old c is_compound).
Proof.
  intros [[g0 G0] [g1 G1]].
  assert (V : forall mv : MV * MV,
    safe (fun '(valid, mv) => valid = true -> is_mv_valid mv.1 = true /\ (is_compound = true -> is_mv_valid mv.2 = true))
      (mret (is_mv_valid mv.1 && (negb is_compound || is_mv_valid mv.2), mv))).
  { intros mv. apply safe_ret. intros [Ha Hb]%andb_true_iff. split; [done |]. intros ->. exact Hb. }
  unfold assign_mv. rewrite G0, G1, !r_lift_some.
  repeat match goal with |- safe _ (if ?c then _ else _) => destruct c end;
    try (eapply safe_bind; [apply safe_read_mv; lia |]; intros ? _);
    try (eapply safe_bind; [apply safe_read_mv; lia |]; intros ? _); try apply V.
  by apply safe_ret.
Qed.

(** A copied block's vector points at samples that are ready. *)
Definition copied_fine (s : dv_site) (mv : option MV) : Prop :=
  match mv with
  | Some mv => is_mv_valid mv = true /\ forall y x, in_source s mv y x -> sample_ready s y x
  | None => True
  end.

Lemma safe_read_intrabc s a b : dv_site_ok s -> safe (copied_fine s) (read_intrabc_info s a b).
Proof.
  intros Hs. unfold read_intrabc_info. eapply safe_bind; [apply safe_symbol; [layout | reflexivity] |].
  cbv beta. intros u _. destruct (u =? 0); [by apply safe_ret |]. cbv zeta.
  destruct (_ && _); [| apply safe_raise].
  eapply (safe_bind (fun '(valid, mv) => valid = true -> copied_fine s (Some mv))).
  - unfold assign_dv. eapply safe_bind; [apply safe_read_mv; lia |]. intros mv _. cbv zeta. apply safe_ret.
    intros [Hv Hd]%andb_true_iff. split; [done |]. intros y x. by apply dv_valid_ready.
  - intros [valid mv] H. destruct valid; [by apply safe_ret, H | apply safe_raise].
Qed.

(** What the decoder knows about the vectors of a block. *)
Definition decoded_fine (b : block_mvs) (d : decoded_mvs) : Prop :=
  match b, d with
  | InterMvs _ _ is_compound _ _ _ _, InterDecoded valid mv =>
      valid = true -> is_mv_valid mv.1 = true /\ (is_compound = true -> is_mv_valid mv.2 = true)
  | CopiedMv s _ _ _, CopiedDecoded mv => copied_fine s mv
  | _, _ => False
  end.

Definition block_mvs_readable (b : block_mvs) : Prop :=
  match b with
  | InterMvs s _ _ ref_frame _ _ _ => global_ok s ref_frame
  | CopiedMv s _ _ _ => dv_site_ok s
  end.

Lemma safe_read_vectors bs : Forall block_mvs_readable bs -> safe (Forall2 decoded_fine bs) (read_vectors bs).
Proof.
  induction 1 as [|b bs Hb Hbs IH]; cbn [read_vectors]; [by apply safe_ret |].
  eapply (safe_bind (decoded_fine b)).
  - destruct b as [s mode ic rf mv old c | s mv a b].
    + eapply safe_bind; [by apply safe_assign_mv |]. intros [valid v] H. by apply safe_ret.
    + eapply safe_bind; [by apply safe_read_intrabc |]. intros v H. by apply safe_ret.
  - intros d Hd. eapply safe_bind; [exact IH |]. intros ds Hds. apply safe_ret. by constructor.
Qed.

(** C10: Whatever bytes a tile holds, reading the vectors of any sequence of blocks ends
    without leaving the models, and either reports a corrupt frame or gives every block
    copied from the frame a vector all of whose source samples, those for the chroma of
    narrow blocks included, are in the tile, in superblocks decoded before the current one
    and behind the wavefront of parallel rows; an inter block whose vectors are accepted
    has them inside the range of valid vectors. *)
Theorem vectors_safe bs bytes size r0 fc :
  Forall is_byte bytes -> fc_ok fc -> Forall block_mvs_readable bs ->
  match rrun fc (read_vectors bs) (aom_reader_init r0 (Some bytes) size).2 with
  | Ok ((ds, fc'), _) => Forall2 decoded_fine bs ds /\ fc_ok fc'
  | Raise e => e = AOM_CODEC_CORRUPT_FRAME
  | Fault => False
  end.
Proof.
  intros Hb Hfc Hbs. by apply (safe_tile (Forall2 decoded_fine bs)); [apply safe_read_vectors | |].
Qed.

(** ** An instance *)

Definition demo_mv (r c : Z) : MV := {| mv_row := r; mv_col := c |}.

Definition demo_site : mv_site :=
  {| vs_force_integer_mv := false; vs_allow_high_precision_mv := true;
     vs_global_motion := replicate 4 {| wmmat := [0; 0; 65536; 0; 0; 65536]; wmtype := IDENTITY |} ++
       replicate 4 {| wmmat := [8192; -65536; 65596; 7; -7; 65596]; wmtype := ROTZOOM |};
     vs_mi_row := 20; vs_mi_col := 300; vs_bsize := BLOCK_16X32 |}.

Definition demo_dv_site : dv_site :=
  {| ds_tile := {| mi_row_start := 0; mi_row_end := 64; mi_col_start := 0; mi_col_end := 64; tile_row := 0; tile_col := 0 |};
     ds_mib_size_log2 := 4; ds_mi_row := 32; ds_mi_col := 16; ds_bsize := BLOCK_4X8; ds_is_chroma_ref := true;
     ds_num_planes := 3; ds_ss_x := 1; ds_ss_y := 1 |}.

Definition demo_candidates : mv_candidates :=
  {| vc_ref := (demo_mv 3 (-7), demo_mv 0 0); vc_nearest := (demo_mv 1 2, demo_mv (-100) 44);
     vc_near := (demo_mv 5 5, demo_mv 6 6) |}.

(** Two new vectors, one new and one looked up, global motion, a copied block, and none. *)
Definition demo_blocks : list block_mvs :=
  [InterMvs demo_site NEW_NEWMV true (1, 5) (demo_mv 1000 (-8), demo_mv (-3) 0) (demo_mv 9 9, demo_mv 9 9) demo_candidates;
   InterMvs demo_site NEW_NEARESTMV true (1, 5) (demo_mv 3 500, demo_mv (-100) 44) (demo_mv 9 9, demo_mv 9 9) demo_candidates;
   InterMvs demo_site GLOBALMV false (5, -1) (demo_mv (-8) 10, demo_mv 0 0) (demo_mv 9 9, demo_mv 9 9) demo_candidates;
   CopiedMv demo_dv_site (Some (demo_mv (-1024) 32)) (demo_mv 0 0) (demo_mv 0 0);
   CopiedMv demo_dv_site None (demo_mv 8 0) (demo_mv 0 0)].

Lemma demo_codable mv ref : mv_in_range mv -> Z.abs (mv_row mv - mv_row ref) <= 16384 ->
  Z.abs (mv_col mv - mv_col ref) <= 16384 -> mv_codable mv ref (site_precision demo_site).
Proof. intros. split; try done; right; right; reflexivity. Qed.

Lemma demo_candidate r c : r = 0 \/ r = 8 -> c = 0 -> candidate_ok (demo_mv r c).
Proof. intros [-> | ->] ->; (split; [unfold whole_mv, mv_in_range; split_and!; cbn; lia || reflexivity | discriminate]). Qed.

Lemma demo_blocks_ok : Forall block_mvs_ok demo_blocks.
Proof.
  repeat apply Forall_cons_2; [.. | constructor].
  - exists FromNew, FromNew. split; [reflexivity |].
    split; (split; [reflexivity |]; apply demo_codable; unfold mv_in_range; cbn; lia).
  - exists FromNew, FromNearest. split; [reflexivity |].
    split; (split; [reflexivity |]); [| reflexivity]. apply demo_codable; unfold mv_in_range; cbn; lia.
  - exists FromGlobal. split; [reflexivity |]. split; reflexivity.
  - split; [by apply demo_candidate; auto |]. split; [by apply demo_candidate; auto |]. intros v [= <-].
    unfold dv_ok. cbv zeta. split_and!; try reflexivity; vm_compute; discriminate.
  - split; [by apply demo_candidate; auto |]. split; [by apply demo_candidate; auto | done].
Qed.

Lemma vectors_roundtrip_witness : exists m' fc', fc_ok fc' /\
  tile_survives demo_alloc true (wrun (default_fc 100) (write_vectors demo_alloc true 0 demo_blocks)) (m', fc')
    (rrun (default_fc 100) (read_vectors demo_blocks)) (expected_mvs <$> demo_blocks, fc').
Proof.
  apply vectors_roundtrip; [apply demo_grants | apply default_fc_ok | apply demo_blocks_ok | reflexivity].
Defined.

Lemma demo_blocks_readable : Forall block_mvs_readable demo_blocks.
Proof.
  repeat apply Forall_cons_2; [split; by eexists .. | | | constructor];
    (split; [cbn; lia | by left]).
Qed.

Lemma vectors_safe_witness :
  match rrun (default_fc 100) (read_vectors demo_blocks)
    (aom_reader_init {| r_buffer := []; r_ec := od_ec_dec_init []; r_allow_update_cdf := true |}
       (Some [7; 200; 17; 34; 51; 68]) 6).2 with
  | Ok ((ds, fc'), _) => Forall2 decoded_fine demo_blocks ds /\ fc_ok fc'
  | Raise e => e = AOM_CODEC_CORRUPT_FRAME
  | Fault => False
  end.
Proof.
  apply vectors_safe; [| apply default_fc_ok | apply demo_blocks_readable]. repeat constructor; lia.
Defined.
