(* ===== verification/TxType.v ===== *)
(** * Transform types

    How the transform type of a block is coded ([av1_write_tx_type] of
    [av1/encoder/bitstream.c], [av1_read_tx_type] of [av1/decoder/decodemv.c]) and found
    ([av1_get_tx_type] of [av1/common/blockd.h]), with the tables of transform sets.  The
    structures keep the fields these functions read. *)

From S2P Require Import Prelude CodecTypes BitChannel EntCoder RangeSpec Cdf EntEncProof EntDecProof EntRoundTrip SymbolIO SyntaxIO TxCommon DefaultCdfs FrameContext.

#[local] Arguments Z.of_nat : simpl never.
#[local] Arguments Z.mul : simpl never.

(** ** Sets of transform types *)

Inductive TxSetType :=
| EXT_TX_SET_DCTONLY | EXT_TX_SET_DCT_IDTX | EXT_TX_SET_DTT4_IDTX | EXT_TX_SET_DTT4_IDTX_1DDCT
| EXT_TX_SET_DTT9_IDTX_1DDCT | EXT_TX_SET_ALL16.

Definition av1_num_ext_tx_set (s : TxSetType) : Z :=
  match s with
  | EXT_TX_SET_DCTONLY => 1 | EXT_TX_SET_DCT_IDTX => 2 | EXT_TX_SET_DTT4_IDTX => 5
  | EXT_TX_SET_DTT4_IDTX_1DDCT => 7 | EXT_TX_SET_DTT9_IDTX_1DDCT => 12 | EXT_TX_SET_ALL16 => 16
  end.

Definition av1_ext_tx_used (s : TxSetType) : list Z :=
  match s with
  | EXT_TX_SET_DCTONLY => [1; 0; 0; 0; 0; 0; 0; 0; 0; 0; 0; 0; 0; 0; 0; 0]
  | EXT_TX_SET_DCT_IDTX => [1; 0; 0; 0; 0; 0; 0; 0; 0; 1; 0; 0; 0; 0; 0; 0]
  | EXT_TX_SET_DTT4_IDTX => [1; 1; 1; 1; 0; 0; 0; 0; 0; 1; 0; 0; 0; 0; 0; 0]
  | EXT_TX_SET_DTT4_IDTX_1DDCT => [1; 1; 1; 1; 0; 0; 0; 0; 0; 1; 1; 1; 0; 0; 0; 0]
  | EXT_TX_SET_DTT9_IDTX_1DDCT => [1; 1; 1; 1; 1; 1; 1; 1; 1; 1; 1; 1; 0; 0; 0; 0]
  | EXT_TX_SET_ALL16 => [1; 1; 1; 1; 1; 1; 1; 1; 1; 1; 1; 1; 1; 1; 1; 1]
  end.

Definition av1_ext_tx_ind (s : TxSetType) : list Z :=
  match s with
  | EXT_TX_SET_DCTONLY => [0; 0; 0; 0; 0; 0; 0; 0; 0; 0; 0; 0; 0; 0; 0; 0]
  | EXT_TX_SET_DCT_IDTX => [1; 0; 0; 0; 0; 0; 0; 0; 0; 0; 0; 0; 0; 0; 0; 0]
  | EXT_TX_SET_DTT4_IDTX => [1; 3; 4; 2; 0; 0; 0; 0; 0; 0; 0; 0; 0; 0; 0; 0]
  | EXT_TX_SET_DTT4_IDTX_1DDCT => [1; 5; 6; 4; 0; 0; 0; 0; 0; 0; 2; 3; 0; 0; 0; 0]
  | EXT_TX_SET_DTT9_IDTX_1DDCT => [3; 4; 5; 8; 6; 7; 9; 10; 11; 0; 1; 2; 0; 0; 0; 0]
  | EXT_TX_SET_ALL16 => [7; 8; 9; 12; 10; 11; 13; 14; 15; 0; 1; 2; 3; 4; 5; 6]
  end.

Definition av1_ext_tx_inv (s : TxSetType) : list Z :=
  match s with
  | EXT_TX_SET_DCTONLY => [0; 0; 0; 0; 0; 0; 0; 0; 0; 0; 0; 0; 0; 0; 0; 0]
  | EXT_TX_SET_DCT_IDTX => [9; 0; 0; 0; 0; 0; 0; 0; 0; 0; 0; 0; 0; 0; 0; 0]
  | EXT_TX_SET_DTT4_IDTX => [9; 0; 3; 1; 2; 0; 0; 0; 0; 0; 0; 0; 0; 0; 0; 0]
  | EXT_TX_SET_DTT4_IDTX_1DDCT => [9; 0; 10; 11; 3; 1; 2; 0; 0; 0; 0; 0; 0; 0; 0; 0]
  | EXT_TX_SET_DTT9_IDTX_1DDCT => [9; 10; 11; 0; 1; 2; 4; 5; 3; 6; 7; 8; 0; 0; 0; 0]
  | EXT_TX_SET_ALL16 => [9; 10; 11; 12; 13; 14; 15; 0; 1; 2; 4; 5; 3; 6; 7; 8]
  end.

Definition av1_ext_tx_set_lookup (is_inter is_16x16 : bool) : TxSetType :=
  match is_inter, is_16x16 with
  | false, false => EXT_TX_SET_DTT4_IDTX_1DDCT
  | false, true => EXT_TX_SET_DTT4_IDTX
  | true, false => EXT_TX_SET_ALL16
  | true, true => EXT_TX_SET_DTT9_IDTX_1DDCT
  end.

Definition av1_get_ext_tx_set_type (tx_size : TX_SIZE) (is_inter use_reduced_set : bool) : TxSetType :=
  let tx_size_sqr_up := tx_size_value (txsize_sqr_up_map tx_size) in
  if tx_size_value TX_32X32 <? tx_size_sqr_up then EXT_TX_SET_DCTONLY
  else if tx_size_sqr_up =? tx_size_value TX_32X32
  then (if is_inter then EXT_TX_SET_DCT_IDTX else EXT_TX_SET_DCTONLY)
  else if use_reduced_set
  then (if is_inter then EXT_TX_SET_DCT_IDTX else EXT_TX_SET_DTT4_IDTX)
  else
    let tx_size_sqr := txsize_sqr_map tx_size in
    av1_ext_tx_set_lookup is_inter (bool_decide (tx_size_sqr = TX_16X16)).

Definition ext_tx_set_index (is_inter : bool) (s : TxSetType) : Z :=
  match is_inter, s with
  | _, EXT_TX_SET_DCTONLY => 0
  | false, EXT_TX_SET_DTT4_IDTX => 2
  | false, EXT_TX_SET_DTT4_IDTX_1DDCT => 1
  | true, EXT_TX_SET_DCT_IDTX => 3
  | true, EXT_TX_SET_DTT9_IDTX_1DDCT => 2
  | true, EXT_TX_SET_ALL16 => 1
  | _, _ => -1
  end.

Definition get_ext_tx_set (tx_size : TX_SIZE) (is_inter use_reduced_set : bool) : Z :=
  ext_tx_set_index is_inter (av1_get_ext_tx_set_type tx_size is_inter use_reduced_set).

Definition get_ext_tx_types (tx_size : TX_SIZE) (is_inter use_reduced_set : bool) : Z :=
  av1_num_ext_tx_set (av1_get_ext_tx_set_type tx_size is_inter use_reduced_set).

(** ** Block state *)

Record MB_MODE_INFO := {
  mb_mode : Z;
  mb_uv_mode : Z;
  mb_segment_id : Z;
  mb_skip_txfm : bool;
  mb_use_intrabc : bool;
  mb_ref_frame0 : Z;
  mb_use_filter_intra : bool;
  mb_filter_intra_mode : Z }.

(** Fields of [AV1_COMMON]. *)
Record frame_params := {
  fp_reduced_tx_set_used : bool;
  fp_seg_enabled : bool;
  fp_seg_feature_mask : list Z;
  fp_base_qindex : Z }.

(** [ss_x], [ss_y]: the subsampling of the chroma planes. *)
Record MACROBLOCKD := {
  xd_mi : MB_MODE_INFO;
  xd_lossless : list Z;
  xd_qindex : list Z;
  xd_tx_type_map : list Z;
  xd_tx_type_map_stride : Z;
  xd_ss_x : Z;
  xd_ss_y : Z }.

Definition set_tx_type_map (xd : MACROBLOCKD) (m : list Z) : MACROBLOCKD :=
  {| xd_mi := xd_mi xd; xd_lossless := xd_lossless xd; xd_qindex := xd_qindex xd;
     xd_tx_type_map := m; xd_tx_type_map_stride := xd_tx_type_map_stride xd;
     xd_ss_x := xd_ss_x xd; xd_ss_y := xd_ss_y xd |}.

Definition INTRA_FRAME : Z := 0.
Definition SEG_LVL_SKIP : Z := 6.
Definition INTRA_MODES : Z := 13.

Definition is_inter_block (mbmi : MB_MODE_INFO) : bool :=
  mb_use_intrabc mbmi || (INTRA_FRAME <? mb_ref_frame0 mbmi).

Definition segfeature_active (cm : frame_params) (segment_id feature_id : Z) : option bool :=
  if fp_seg_enabled cm then
    m ← arr_get (fp_seg_feature_mask cm) segment_id;
    Some (negb (Z.land m (Z.shiftl 1 feature_id) =? 0))
  else Some false.

(** [DC_PRED, V_PRED, H_PRED, D157_PRED, DC_PRED] *)
Definition fimode_to_intradir : list Z := [0; 1; 2; 6; 0].

(** By [UV_PREDICTION_MODE]; [UV_CFL_PRED] is 13. *)
Definition get_uv_mode (mode : Z) : option Z :=
  arr_get [0; 1; 2; 3; 4; 5; 6; 7; 8; 9; 10; 11; 12; 0; 25; 25] mode.

(** By [PREDICTION_MODE], from [DC_PRED] to [PAETH_PRED]. *)
Definition intra_tx_types : list TX_TYPE :=
  [DCT_DCT; ADST_DCT; DCT_ADST; DCT_DCT; ADST_ADST; ADST_DCT; DCT_ADST; DCT_ADST; ADST_DCT;
   ADST_ADST; ADST_DCT; DCT_ADST; ADST_ADST].

Definition intra_mode_to_tx_type (mbmi : MB_MODE_INFO) (plane_type : Z) : option TX_TYPE :=
  mode ← (if plane_type =? 0 then Some (mb_mode mbmi) else get_uv_mode (mb_uv_mode mbmi));
  zget intra_tx_types mode.

(** ** Finding the type *)

Definition av1_get_tx_type (xd : MACROBLOCKD) (plane_type blk_row blk_col : Z) (tx_size : TX_SIZE)
    (reduced_tx_set : bool) : option TX_TYPE :=
  let mbmi := xd_mi xd in
  lossless ← arr_get (xd_lossless xd) (mb_segment_id mbmi);
  if negb (lossless =? 0) || (tx_size_value TX_32X32 <? tx_size_value (txsize_sqr_up_map tx_size))
  then Some DCT_DCT
  else if plane_type =? 0 then
    v ← arr_get (xd_tx_type_map xd) (blk_row * xd_tx_type_map_stride xd + blk_col);
    zget TX_TYPES v
  else
    tx_type ← (if is_inter_block mbmi then
                 v ← arr_get (xd_tx_type_map xd)
                       (Z.shiftl blk_row (xd_ss_y xd) * xd_tx_type_map_stride xd +
                        Z.shiftl blk_col (xd_ss_x xd));
                 zget TX_TYPES v
               else intra_mode_to_tx_type mbmi 1);
    used ← arr_get (av1_ext_tx_used
                      (av1_get_ext_tx_set_type tx_size (is_inter_block mbmi) reduced_tx_set))
             (tx_type_value tx_type);
    Some (if used =? 0 then DCT_DCT else tx_type).

(** ** Coding the type *)

(** [PREDICTION_MODE] whose models code the type of an intra block. *)
Definition intra_direction (mbmi : MB_MODE_INFO) : option Z :=
  if mb_use_filter_intra mbmi then arr_get fimode_to_intradir (mb_filter_intra_mode mbmi)
  else Some (mb_mode mbmi).

Section Writer.
Context (al : allocator).

Definition av1_write_tx_type (cm : frame_params) (xd : MACROBLOCKD) (tx_type : TX_TYPE)
    (tx_size : TX_SIZE) : writer (aom_writer * cdfs fc_key) unit :=
  let mbmi := xd_mi xd in
  let is_inter := is_inter_block mbmi in
  qindex ← w_lift (arr_get (xd_qindex xd) (mb_segment_id mbmi));
  skip ← w_lift (segfeature_active cm (mb_segment_id mbmi) SEG_LVL_SKIP);
  if (1 <? get_ext_tx_types tx_size is_inter (fp_reduced_tx_set_used cm)) &&
     ((negb (fp_seg_enabled cm) && (0 <? fp_base_qindex cm)) || (fp_seg_enabled cm && (0 <? qindex))) &&
     negb (mb_skip_txfm mbmi) && negb skip
  then
    let square_tx_size := tx_size_value (txsize_sqr_map tx_size) in
    let tx_set_type := av1_get_ext_tx_set_type tx_size is_inter (fp_reduced_tx_set_used cm) in
    let eset := get_ext_tx_set tx_size is_inter (fp_reduced_tx_set_used cm) in
    ind ← w_lift (arr_get (av1_ext_tx_ind tx_set_type) (tx_type_value tx_type));
    if is_inter then
      w_symbol al ind (F_inter_ext_tx_cdf, [eset; square_tx_size]) (av1_num_ext_tx_set tx_set_type)
    else
      intra_dir ← w_lift (intra_direction mbmi);
      w_symbol al ind (F_intra_ext_tx_cdf, [eset; square_tx_size; intra_dir])
        (av1_num_ext_tx_set tx_set_type)
  else mret tt.
End Writer.

(** Result: [xd] with its type map updated. *)
Definition av1_read_tx_type (cm : frame_params) (xd : MACROBLOCKD) (blk_row blk_col : Z)
    (tx_size : TX_SIZE) : reader (aom_reader * cdfs fc_key) MACROBLOCKD :=
  let mbmi := xd_mi xd in
  let at_ := blk_row * xd_tx_type_map_stride xd + blk_col in
  m ← r_lift (arr_set (xd_tx_type_map xd) at_ (tx_type_value DCT_DCT));
  skip ← r_lift (segfeature_active cm (mb_segment_id mbmi) SEG_LVL_SKIP);
  if mb_skip_txfm mbmi || skip then mret (set_tx_type_map xd m)
  else
    qindex ← r_lift (arr_get (xd_qindex xd) (mb_segment_id mbmi));
    if qindex =? 0 then mret (set_tx_type_map xd m)
    else
      let inter_block := is_inter_block mbmi in
      if 1 <? get_ext_tx_types tx_size inter_block (fp_reduced_tx_set_used cm) then
        let tx_set_type := av1_get_ext_tx_set_type tx_size inter_block (fp_reduced_tx_set_used cm) in
        let eset := get_ext_tx_set tx_size inter_block (fp_reduced_tx_set_used cm) in
        let square_tx_size := tx_size_value (txsize_sqr_map tx_size) in
        symb ← (if inter_block then
                  r_symbol (F_inter_ext_tx_cdf, [eset; square_tx_size]) (av1_num_ext_tx_set tx_set_type)
                else
                  intra_mode ← r_lift (intra_direction mbmi);
                  r_symbol (F_intra_ext_tx_cdf, [eset; square_tx_size; intra_mode])
                    (av1_num_ext_tx_set tx_set_type));
        ty ← r_lift (arr_get (av1_ext_tx_inv tx_set_type) symb);
        m ← r_lift (arr_set m at_ ty);
        mret (set_tx_type_map xd m)
      else mret (set_tx_type_map xd m).

(** ** Agreement *)

(** What the encoder and the decoder rely on: the segment is in range, without
    segmentation every segment has the base quantizer, and the direction of an intra
    block selects a model. *)
Record tx_state_ok (cm : frame_params) (xd : MACROBLOCKD) (q : Z) (skip : bool) : Prop := {
  ts_qindex : arr_get (xd_qindex xd) (mb_segment_id (xd_mi xd)) = Some q;
  ts_qindex_nonneg : 0 <= q;
  ts_base : fp_seg_enabled cm = false -> q = fp_base_qindex cm;
  ts_skip : segfeature_active cm (mb_segment_id (xd_mi xd)) SEG_LVL_SKIP = Some skip;
  ts_direction : is_inter_block (xd_mi xd) = false ->
    exists d, intra_direction (xd_mi xd) = Some d /\ 0 <= d < INTRA_MODES }.

(** Whether the type of a block is in the stream. *)
Definition tx_type_sent (cm : frame_params) (xd : MACROBLOCKD) (q : Z) (skip : bool) (t : TX_SIZE) : bool :=
  (1 <? get_ext_tx_types t (is_inter_block (xd_mi xd)) (fp_reduced_tx_set_used cm)) && (0 <? q) &&
  negb (mb_skip_txfm (xd_mi xd)) && negb skip.

(** The types an encoder may choose: one of the set of the block, and the default where
    none is sent. *)
Definition tx_type_allowed (cm : frame_params) (xd : MACROBLOCKD) (q : Z) (skip : bool) (t : TX_SIZE)
    (ty : TX_TYPE) : Prop :=
  if tx_type_sent cm xd q skip t
  then nthz (av1_ext_tx_used (av1_get_ext_tx_set_type t (is_inter_block (xd_mi xd))
         (fp_reduced_tx_set_used cm))) (tx_type_value ty) <> 0
  else ty = DCT_DCT.

Lemma tx_type_value_range ty : 0 <= tx_type_value ty < 16.
Proof. destruct ty; vm_compute; split; congruence. Qed.

Lemma tx_type_of_value ty : zget TX_TYPES (tx_type_value ty) = Some ty.
Proof. by destruct ty. Qed.

(** The index tables of a set are inverse to each other on its members. *)
Lemma ext_tx_inverse s ty : nthz (av1_ext_tx_used s) (tx_type_value ty) <> 0 ->
  exists i, arr_get (av1_ext_tx_ind s) (tx_type_value ty) = Some i /\ 0 <= i < av1_num_ext_tx_set s /\
    arr_get (av1_ext_tx_inv s) i = Some (tx_type_value ty).
Proof.
  destruct s, ty; vm_compute; intros H; try done;
    (eexists; split; [reflexivity |]; split; [split; congruence | reflexivity]).
Qed.

(** A set of more than one type has a model for every size it is used with. *)
Lemma ext_tx_models t inter reduced d :
  1 < get_ext_tx_types t inter reduced -> 0 <= d < INTRA_MODES ->
  let k := if inter then (F_inter_ext_tx_cdf, [get_ext_tx_set t inter reduced; tx_size_value (txsize_sqr_map t)])
           else (F_intra_ext_tx_cdf, [get_ext_tx_set t inter reduced; tx_size_value (txsize_sqr_map t); d]) in
  in_layout k = true /\ alphabet k = get_ext_tx_types t inter reduced.
Proof.
  unfold INTRA_MODES. intros H Hd. assert ((0 <=? d) = true /\ (d <? 13) = true) as [E1 E2] by lia.
  destruct t, inter, reduced; vm_compute in H; try done; cbn -[Z.leb Z.ltb]; rewrite ?E1, ?E2; done.
Qed.

Section Transfer.
Context (al : allocator) (Hal : grants_all al) (adaptive : bool).

Lemma transfers_tx_type cm xe xd q skip t ty row col m :
  xd_mi xe = xd_mi xd -> xd_qindex xe = xd_qindex xd -> tx_state_ok cm xd q skip ->
  tx_type_allowed cm xd q skip t ty ->
  arr_set (xd_tx_type_map xd) (row * xd_tx_type_map_stride xd + col) (tx_type_value ty) = Some m ->
  transfers al adaptive 1 (av1_write_tx_type al cm xe ty t) (av1_read_tx_type cm xd row col t) tt
    (set_tx_type_map xd m).
Proof.
  intros Em Eq [Hq Hq0 Hb Hs Hd] Ha Hm. unfold av1_write_tx_type, av1_read_tx_type.
  set (at_ := row * xd_tx_type_map_stride xd + col) in *.
  assert (exists m0, arr_set (xd_tx_type_map xd) at_ (tx_type_value DCT_DCT) = Some m0 /\
    arr_set m0 at_ (tx_type_value ty) = Some m /\ (ty = DCT_DCT -> m0 = m)) as (m0 & E0 & E1 & E2).
  { revert Hm. unfold arr_set. destruct (_ && _) eqn:Hr; [| done]. intros [= <-].
    eexists. split; [done |]. rewrite length_insert, Hr. split; [by rewrite list_insert_insert_eq |].
    by intros ->. }
  rewrite Em, Eq, Hq, Hs, E0, !w_lift_some, !r_lift_some. cbv zeta.
  unfold tx_type_allowed, tx_type_sent in Ha.
  assert ((negb (fp_seg_enabled cm) && (0 <? fp_base_qindex cm) || fp_seg_enabled cm && (0 <? q)) = (0 <? q))
    as -> by (destruct (fp_seg_enabled cm); cbn; [done | by rewrite Hb, orb_false_r]).
  set (inter := is_inter_block (xd_mi xd)) in *. set (red := fp_reduced_tx_set_used cm) in *.
  destruct (mb_skip_txfm (xd_mi xd)); cbn [orb negb] in *; rewrite ?andb_false_r in *; cbn [andb] in *.
  { rewrite (E2 Ha). apply (transfers_le _ _ 0); [lia |]. apply transfers_ret. }
  destruct skip; cbn [negb] in *; rewrite ?andb_false_r in *.
  { rewrite (E2 Ha). apply (transfers_le _ _ 0); [lia |]. apply transfers_ret. }
  destruct (Z.ltb_spec 0 q) as [Hq1 | Hq1]; rewrite ?andb_false_r, ?andb_true_r in *.
  2:{ rewrite (proj2 (Z.eqb_eq q 0)) by lia. rewrite (E2 Ha). apply (transfers_le _ _ 0); [lia |].
      apply transfers_ret. }
  rewrite (proj2 (Z.eqb_neq q 0)) by lia.
  destruct (Z.ltb_spec 1 (get_ext_tx_types t inter red)) as [Hn | Hn].
  2:{ rewrite (E2 Ha). apply (transfers_le _ _ 0); [lia |]. apply transfers_ret. }
  destruct (ext_tx_inverse _ _ Ha) as (i & Ei & Hi & Einv). rewrite Ei, w_lift_some.
  assert (exists d, (inter = false -> intra_direction (xd_mi xd) = Some d) /\ 0 <= d < INTRA_MODES)
    as (d & Ed & Hdr).
  { destruct inter; [by exists 0; split; [| unfold INTRA_MODES; lia] |].
    destruct (Hd eq_refl) as (d & ? & ?). by exists d. }
  destruct (ext_tx_models t inter red d Hn Hdr) as [Hk Hal'].
  assert (Hsym := transfers_symbol al Hal adaptive _ i (get_ext_tx_types t inter red) Hk (eq_sym Hal') Hi).
  destruct inter.
  - refine (transfers_post al adaptive 1 _ _ tt i _ _ Hsym _). intros r.
    by rewrite Einv, r_lift_some, E1.
  - rewrite (Ed eq_refl), w_lift_some, r_lift_some.
    refine (transfers_post al adaptive 1 _ _ tt i _ _ Hsym _). intros r.
    by rewrite Einv, r_lift_some, E1.
Qed.
End Transfer.
