(* ===== verification/Coefs.v ===== *)
(** * Transform coefficients

    [av1_write_coeffs_txb] ([av1/encoder/encodetxb.c]) and [read_coeffs_txb]
    ([av1/decoder/decodetxb.c]): the syntax of the coefficients of a transform block.  The
    position of the last coefficient comes first, then the magnitudes up to 14 in reverse
    scan order, each in a context made of its neighbours' magnitudes, then signs and the
    rest of large magnitudes in scan order.

    Buffers are lists; what a buffer holds before it is written is an argument. *)

From S2P Require Import Prelude CodecTypes BitChannel EntCoder RangeSpec Cdf EntEncProof EntDecProof EntRoundTrip SymbolIO SyntaxIO TxCommon TxbContext ScanTables Scan DefaultCdfs FrameContext TxType.

#[local] Arguments Z.of_nat : simpl never.
#[local] Arguments Z.mul : simpl never.

(** ** Golomb codes *)

(** [while (i) { i >>= 1; ++length; }]; an [int] has 31 value bits. *)
Fixpoint golomb_length_loop (fuel : nat) (i length : Z) : Z :=
  match fuel with
  | O => length
  | S fuel' => if i =? 0 then length else golomb_length_loop fuel' (Z.shiftr i 1) (length + 1)
  end.

Section Golomb.
Context (al : allocator).

Fixpoint write_zeros (n : nat) : writer (aom_writer * cdfs fc_key) unit :=
  match n with
  | O => mret tt
  | S n' => _ ← w_bit al 0; write_zeros n'
  end.

(** [for (i = n - 1; i >= 0; --i) aom_write_bit(w, (x >> i) & 0x01)] *)
Fixpoint write_bits (n : nat) (x : Z) : writer (aom_writer * cdfs fc_key) unit :=
  match n with
  | O => mret tt
  | S n' => _ ← w_bit al (Z.land (Z.shiftr x (Z.of_nat n')) 1); write_bits n' x
  end.

Definition write_golomb (level : Z) : writer (aom_writer * cdfs fc_key) unit :=
  let x := level + 1 in
  let length := golomb_length_loop 31 x 0 in
  _ ← write_zeros (Z.to_nat (length - 1));
  write_bits (Z.to_nat length) x.
End Golomb.

(** [while (!i) { ... }]; it leaves at the latest with [length] 21. *)
Fixpoint golomb_zeros_loop (fuel : nat) (length : Z) : reader (aom_reader * cdfs fc_key) Z :=
  match fuel with
  | O => fault
  | S fuel' =>
      i ← r_bit;
      let length := length + 1 in
      if 20 <? length then raise AOM_CODEC_CORRUPT_FRAME
      else if i =? 0 then golomb_zeros_loop fuel' length else mret length
  end.

Fixpoint golomb_bits_loop (n : nat) (x : Z) : reader (aom_reader * cdfs fc_key) Z :=
  match n with
  | O => mret x
  | S n' => b ← r_bit; golomb_bits_loop n' (Z.shiftl x 1 + b)
  end.

Definition read_golomb : reader (aom_reader * cdfs fc_key) Z :=
  length ← golomb_zeros_loop 21 0;
  x ← golomb_bits_loop (Z.to_nat (length - 1)) 1;
  mret (x - 1).

(** ** Position of the last coefficient *)

Definition eob_to_pos_small : list Z :=
  [0; 1; 2; 3; 3; 4; 4; 4; 4; 5; 5; 5; 5; 5; 5; 5; 5;
   6; 6; 6; 6; 6; 6; 6; 6; 6; 6; 6; 6; 6; 6; 6; 6].

Definition eob_to_pos_large : list Z := [6; 7; 8; 8; 9; 9; 9; 9; 10; 10; 10; 10; 10; 10; 10; 10; 11].

(** The token and [*extra]. *)
Definition av1_get_eob_pos_token (eob : Z) : option (Z * Z) :=
  t ← (if eob <? 33 then arr_get eob_to_pos_small eob
       else arr_get eob_to_pos_large (Z.min (Z.shiftr (eob - 1) 5) 16));
  s ← arr_get av1_eob_group_start t;
  Some (t, eob - s).

Definition rec_eob_pos (eob_token extra : Z) : option Z :=
  eob ← arr_get av1_eob_group_start eob_token;
  Some (if 2 <? eob then eob + extra else eob).

(** The model of the token by [eob_multi_size], and its alphabet. *)
Definition eob_flag_cdf (eob_multi_size plane_type eob_multi_ctx : Z) : fc_key * Z :=
  let idx := [plane_type; eob_multi_ctx] in
  if eob_multi_size =? 0 then ((F_eob_flag_cdf16, idx), 5)
  else if eob_multi_size =? 1 then ((F_eob_flag_cdf32, idx), 6)
  else if eob_multi_size =? 2 then ((F_eob_flag_cdf64, idx), 7)
  else if eob_multi_size =? 3 then ((F_eob_flag_cdf128, idx), 8)
  else if eob_multi_size =? 4 then ((F_eob_flag_cdf256, idx), 9)
  else if eob_multi_size =? 5 then ((F_eob_flag_cdf512, idx), 10)
  else ((F_eob_flag_cdf1024, idx), 11).

Definition eob_multi_ctx (tx_class : TX_CLASS) : Z :=
  match tx_class with TX_CLASS_2D => 0 | _ => 1 end.

(** ** Levels *)

Definition INT8_MAX : Z := 127.

(** The columns from [i] on, [n] of them. *)
Fixpoint init_levels_loop (n : nat) (coeff : list Z) (i height : Z) (levels : list Z) (ls : Z)
  : option (list Z) :=
  match n with
  | O => Some levels
  | S n' =>
      col ← mapM (fun j => arr_get coeff (i * height + Z.of_nat j)) (seq 0 (Z.to_nat height));
      '(levels, ls) ← stores levels ls ((fun v => u8 (clamp (Z.abs v) 0 INT8_MAX)) <$> col);
      '(levels, ls) ← stores levels ls (replicate (Z.to_nat TX_PAD_HOR) 0);
      init_levels_loop n' coeff (i + 1) height levels ls
  end.

Definition av1_txb_init_levels (coeff : list Z) (width height : Z) (levels : list Z)
  : option (list Z) :=
  let stride := height + TX_PAD_HOR in
  '(levels, _) ← stores levels (stride * width)
                   (replicate (Z.to_nat (TX_PAD_BOTTOM * stride + TX_PAD_END)) 0);
  init_levels_loop (Z.to_nat width) coeff 0 height levels 0.

Definition get_nz_map_ctx (levels : list Z) (coeff_idx bhl width scan_idx : Z) (is_eob : bool)
    (tx_size : TX_SIZE) (tx_class : TX_CLASS) : option Z :=
  if is_eob then
    Some (if scan_idx =? 0 then 0
          else if scan_idx <=? Z.quot (Z.shiftl width bhl) 8 then 1
          else if scan_idx <=? Z.quot (Z.shiftl width bhl) 4 then 2
          else 3)
  else
    stats ← get_nz_mag levels (get_padded_idx coeff_idx bhl) bhl tx_class;
    get_nz_map_ctx_from_stats stats coeff_idx bhl tx_size tx_class.

(** Indices [i] to [eob - 1], [n] of them. *)
Fixpoint nz_map_loop (n : nat) (i : Z) (levels scan : list Z) (eob : Z) (tx_size : TX_SIZE)
    (tx_class : TX_CLASS) (coeff_contexts : list Z) : option (list Z) :=
  match n with
  | O => Some coeff_contexts
  | S n' =>
      pos ← arr_get scan i;
      ctx ← get_nz_map_ctx levels pos (get_txb_bhl tx_size) (get_txb_wide tx_size) i (i =? eob - 1)
              tx_size tx_class;
      coeff_contexts ← arr_set coeff_contexts pos (swrap 8 ctx);
      nz_map_loop n' (i + 1) levels scan eob tx_size tx_class coeff_contexts
  end.

Definition av1_get_nz_map_contexts (levels scan : list Z) (eob : Z) (tx_size : TX_SIZE)
    (tx_class : TX_CLASS) (coeff_contexts : list Z) : option (list Z) :=
  nz_map_loop (Z.to_nat eob) 0 levels scan eob tx_size tx_class coeff_contexts.

(** ** Writing a block *)

(** The block as the encoder holds it: [eob], the packed contexts [entropy_ctx[block]] and
    the quantized coefficients. *)
Record txb := { txb_eob : Z; txb_entropy_ctx : Z; txb_coeff : list Z }.

Definition TXB_SKIP_CTX_MASK : Z := 15.
Definition DC_SIGN_CTX_SHIFT : Z := 4.
Definition DC_SIGN_CTX_MASK : Z := 3.

Definition get_plane_type (plane : Z) : Z := if plane =? 0 then 0 else 1.

Section Write.
Context (al : allocator).

(** The bits of [eob_extra] below the first, from [i] on. *)
Fixpoint write_eob_extra (n : nat) (i eob_offset_bits eob_extra : Z)
  : writer (aom_writer * cdfs fc_key) unit :=
  match n with
  | O => mret tt
  | S n' =>
      let eob_shift := eob_offset_bits - 1 - i in
      _ ← w_bit al (if Z.land eob_extra (Z.shiftl 1 eob_shift) =? 0 then 0 else 1);
      write_eob_extra n' (i + 1) eob_offset_bits eob_extra
  end.

Definition write_eob (tx_size : TX_SIZE) (tx_class : TX_CLASS) (plane_type eob : Z)
  : writer (aom_writer * cdfs fc_key) unit :=
  '(eob_pt, eob_extra) ← w_lift (av1_get_eob_pos_token eob);
  let '(cdf, nsymbs) := eob_flag_cdf (txsize_log2_minus4 tx_size) plane_type (eob_multi_ctx tx_class) in
  _ ← w_symbol al (eob_pt - 1) cdf nsymbs;
  eob_offset_bits ← w_lift (arr_get av1_eob_offset_bits eob_pt);
  if 0 <? eob_offset_bits then
    let eob_ctx := eob_pt - 3 in
    let eob_shift := eob_offset_bits - 1 in
    let bit := if Z.land eob_extra (Z.shiftl 1 eob_shift) =? 0 then 0 else 1 in
    _ ← w_symbol al bit (F_eob_extra_cdf, [get_txsize_entropy_ctx tx_size; plane_type; eob_ctx]) 2;
    write_eob_extra (Z.to_nat (eob_offset_bits - 1)) 1 eob_offset_bits eob_extra
  else mret tt.

(** [for (idx = 0; idx < COEFF_BASE_RANGE; idx += BR_CDF_SIZE - 1)] *)
Fixpoint write_br (n : nat) (idx base_range : Z) (cdf : fc_key)
  : writer (aom_writer * cdfs fc_key) unit :=
  match n with
  | O => mret tt
  | S n' =>
      let k := Z.min (base_range - idx) (BR_CDF_SIZE - 1) in
      _ ← w_symbol al k cdf BR_CDF_SIZE;
      if k <? BR_CDF_SIZE - 1 then mret tt else write_br n' (idx + (BR_CDF_SIZE - 1)) base_range cdf
  end.

Section Block.
Context (tx_size : TX_SIZE) (tx_class : TX_CLASS) (plane_type : Z) (scan : list Z).

Definition br_cdf (br_ctx : Z) : fc_key :=
  (F_coeff_br_cdf, [Z.min (get_txsize_entropy_ctx tx_size) (tx_size_value TX_32X32); plane_type; br_ctx]).

(** The body of the loop over the magnitudes. *)
Definition write_level (b : txb) (levels coeff_contexts : list Z) (c : Z)
  : writer (aom_writer * cdfs fc_key) unit :=
  let txs_ctx := get_txsize_entropy_ctx tx_size in
  pos ← w_lift (arr_get scan c);
  coeff_ctx ← w_lift (arr_get coeff_contexts pos);
  v ← w_lift (arr_get (txb_coeff b) pos);
  let level := Z.abs v in
  _ ← (if c =? txb_eob b - 1 then
         w_symbol al (Z.min level 3 - 1) (F_coeff_base_eob_cdf, [txs_ctx; plane_type; coeff_ctx]) 3
       else w_symbol al (Z.min level 3) (F_coeff_base_cdf, [txs_ctx; plane_type; coeff_ctx]) 4);
  if NUM_BASE_LEVELS <? level then
    let base_range := level - 1 - NUM_BASE_LEVELS in
    br_ctx ← w_lift (get_br_ctx levels pos (get_txb_bhl tx_size) tx_class);
    write_br 4 0 base_range (br_cdf br_ctx)
  else mret tt.

(** [c] from [n - 1] down to 0. *)
Fixpoint write_levels (n : nat) (b : txb) (levels coeff_contexts : list Z)
  : writer (aom_writer * cdfs fc_key) unit :=
  match n with
  | O => mret tt
  | S n' => _ ← write_level b levels coeff_contexts (Z.of_nat n'); write_levels n' b levels coeff_contexts
  end.

Definition write_sign (b : txb) (c : Z) : writer (aom_writer * cdfs fc_key) unit :=
  pos ← w_lift (arr_get scan c);
  v ← w_lift (arr_get (txb_coeff b) pos);
  let level := Z.abs v in
  let sign := if v <? 0 then 1 else 0 in
  if level =? 0 then mret tt
  else
    _ ← (if c =? 0 then
           let dc_sign_ctx := Z.land (Z.shiftr (txb_entropy_ctx b) DC_SIGN_CTX_SHIFT) DC_SIGN_CTX_MASK in
           w_symbol al sign (F_dc_sign_cdf, [plane_type; dc_sign_ctx]) 2
         else w_bit al sign);
    if COEFF_BASE_RANGE + NUM_BASE_LEVELS <? level
    then write_golomb al (level - COEFF_BASE_RANGE - 1 - NUM_BASE_LEVELS)
    else mret tt.

(** [c] from [c] on, [n] of them. *)
Fixpoint write_signs (n : nat) (c : Z) (b : txb) : writer (aom_writer * cdfs fc_key) unit :=
  match n with
  | O => mret tt
  | S n' => _ ← write_sign b c; write_signs n' (c + 1) b
  end.
End Block.

(** [levels_buf] and [coeff_contexts] hold what was on the stack. *)
Definition av1_write_coeffs_txb (cm : frame_params) (xd : MACROBLOCKD) (blk_row blk_col plane : Z)
    (b : txb) (tx_size : TX_SIZE) (levels_buf coeff_contexts : list Z)
  : writer (aom_writer * cdfs fc_key) unit :=
  let plane_type := get_plane_type plane in
  let eob := txb_eob b in
  let txb_skip_ctx := Z.land (txb_entropy_ctx b) TXB_SKIP_CTX_MASK in
  _ ← w_symbol al (b2z (eob =? 0)) (F_txb_skip_cdf, [get_txsize_entropy_ctx tx_size; txb_skip_ctx]) 2;
  if eob =? 0 then mret tt
  else
    tx_type ← w_lift (av1_get_tx_type xd plane_type blk_row blk_col tx_size (fp_reduced_tx_set_used cm));
    _ ← (if plane =? 0 then av1_write_tx_type al cm xd tx_type tx_size else mret tt);
    let tx_class := tx_type_to_class tx_type in
    _ ← write_eob tx_size tx_class plane_type eob;
    let width := get_txb_wide tx_size in
    let height := get_txb_high tx_size in
    levels ← w_lift (av1_txb_init_levels (txb_coeff b) width height (set_levels levels_buf height));
    let scan := scan (get_scan tx_size tx_type) in
    coeff_contexts ← w_lift (av1_get_nz_map_contexts levels scan eob tx_size tx_class coeff_contexts);
    _ ← write_levels tx_size tx_class plane_type scan (Z.to_nat eob) b levels coeff_contexts;
    write_signs plane_type scan (Z.to_nat eob) 0 b.
End Write.

(** ** Reading a block *)

Fixpoint read_eob_extra (n : nat) (i eob_offset_bits eob_extra : Z)
  : reader (aom_reader * cdfs fc_key) Z :=
  match n with
  | O => mret eob_extra
  | S n' =>
      bit ← r_bit;
      read_eob_extra n' (i + 1) eob_offset_bits
        (if bit =? 0 then eob_extra else eob_extra + Z.shiftl 1 (eob_offset_bits - 1 - i))
  end.

Definition read_eob (tx_size : TX_SIZE) (tx_class : TX_CLASS) (plane_type : Z)
  : reader (aom_reader * cdfs fc_key) Z :=
  let '(cdf, nsymbs) := eob_flag_cdf (txsize_log2_minus4 tx_size) plane_type (eob_multi_ctx tx_class) in
  s ← r_symbol cdf nsymbs;
  let eob_pt := s + 1 in
  eob_offset_bits ← r_lift (arr_get av1_eob_offset_bits eob_pt);
  eob_extra ←
    (if 0 <? eob_offset_bits then
       let eob_ctx := eob_pt - 3 in
       bit ← r_symbol (F_eob_extra_cdf, [get_txsize_entropy_ctx tx_size; plane_type; eob_ctx]) 2;
       read_eob_extra (Z.to_nat (eob_offset_bits - 1)) 1 eob_offset_bits
         (if bit =? 0 then 0 else Z.shiftl 1 (eob_offset_bits - 1))
     else mret 0);
  r_lift (rec_eob_pos eob_pt eob_extra).

Fixpoint read_br (n : nat) (level : Z) (cdf : fc_key) : reader (aom_reader * cdfs fc_key) Z :=
  match n with
  | O => mret level
  | S n' =>
      k ← r_symbol cdf BR_CDF_SIZE;
      if k <? BR_CDF_SIZE - 1 then mret (level + k) else read_br n' (level + k) cdf
  end.

Section Block.
Context (tx_size : TX_SIZE) (plane_type : Z) (scan : list Z).

(** The body of the loop of [read_coeffs_reverse_2d]. *)
Definition read_level_2d (c : Z) (levels : list Z) : reader (aom_reader * cdfs fc_key) (list Z) :=
  let bhl := get_txb_bhl tx_size in
  pos ← r_lift (arr_get scan c);
  coeff_ctx ← r_lift (get_lower_levels_ctx_2d levels pos bhl tx_size);
  level ← r_symbol (F_coeff_base_cdf, [get_txsize_entropy_ctx tx_size; plane_type; coeff_ctx]) 4;
  level ← (if NUM_BASE_LEVELS <? level then
             br_ctx ← r_lift (get_br_ctx_2d levels pos bhl);
             read_br 4 level (br_cdf tx_size plane_type br_ctx)
           else mret level);
  r_lift (arr_set levels (get_padded_idx pos bhl) (u8 level)).

(** [c] from [start_si + n - 1] down to [start_si]. *)
Fixpoint read_coeffs_reverse_2d (n : nat) (start_si : Z) (levels : list Z)
  : reader (aom_reader * cdfs fc_key) (list Z) :=
  match n with
  | O => mret levels
  | S n' => levels ← read_level_2d (start_si + Z.of_nat n') levels;
            read_coeffs_reverse_2d n' start_si levels
  end.

(** The body of the loop of [read_coeffs_reverse]. *)
Definition read_level (tx_class : TX_CLASS) (c : Z) (levels : list Z)
  : reader (aom_reader * cdfs fc_key) (list Z) :=
  let bhl := get_txb_bhl tx_size in
  pos ← r_lift (arr_get scan c);
  coeff_ctx ← r_lift (get_lower_levels_ctx levels pos bhl tx_size tx_class);
  level ← r_symbol (F_coeff_base_cdf, [get_txsize_entropy_ctx tx_size; plane_type; coeff_ctx]) 4;
  level ← (if NUM_BASE_LEVELS <? level then
             br_ctx ← r_lift (get_br_ctx levels pos bhl tx_class);
             read_br 4 level (br_cdf tx_size plane_type br_ctx)
           else mret level);
  r_lift (arr_set levels (get_padded_idx pos bhl) (u8 level)).

Fixpoint read_coeffs_reverse (n : nat) (tx_class : TX_CLASS) (start_si : Z) (levels : list Z)
  : reader (aom_reader * cdfs fc_key) (list Z) :=
  match n with
  | O => mret levels
  | S n' => levels ← read_level tx_class (start_si + Z.of_nat n') levels;
            read_coeffs_reverse n' tx_class start_si levels
  end.

(** The coefficient with scan index [eob - 1]. *)
Definition read_last_coeff (tx_class : TX_CLASS) (eob : Z) (levels : list Z)
  : reader (aom_reader * cdfs fc_key) (list Z) :=
  let bhl := get_txb_bhl tx_size in
  let c := eob - 1 in
  pos ← r_lift (arr_get scan c);
  let coeff_ctx := get_lower_levels_ctx_eob bhl (get_txb_wide tx_size) c in
  s ← r_symbol (F_coeff_base_eob_cdf, [get_txsize_entropy_ctx tx_size; plane_type; coeff_ctx]) 3;
  let level := s + 1 in
  level ← (if NUM_BASE_LEVELS <? level
           then read_br 4 level (br_cdf tx_size plane_type (get_br_ctx_eob pos bhl tx_class))
           else mret level);
  r_lift (arr_set levels (get_padded_idx pos bhl) (u8 level)).

(** From the clearing of the levels to the last of the two loops: all magnitudes up to 15. *)
Definition read_magnitudes (tx_class : TX_CLASS) (eob : Z) (levels_buf : list Z)
  : reader (aom_reader * cdfs fc_key) (list Z) :=
  let height := get_txb_high tx_size in
  let width := get_txb_wide tx_size in
  '(levels_buf, _) ←
    (if 1 <? eob then
       r_lift (stores levels_buf 0
         (replicate (Z.to_nat ((height + TX_PAD_HOR) * (width + TX_PAD_VER) + TX_PAD_END)) 0))
     else mret (levels_buf, 0));
  let levels := set_levels levels_buf height in
  levels ← read_last_coeff tx_class eob levels;
  if 1 <? eob then
    match tx_class with
    | TX_CLASS_2D =>
        levels ← read_coeffs_reverse_2d (Z.to_nat (eob - 2)) 1 levels;
        read_coeffs_reverse 1 tx_class 0 levels
    | _ => read_coeffs_reverse (Z.to_nat (eob - 1)) tx_class 0 levels
    end
  else mret levels.

Definition AOM_QM_BITS : Z := 5.

Definition get_dqv (dequant : list Z) (coeff_idx : Z) (iqmatrix : option (list Z)) : option Z :=
  dqv ← arr_get dequant (b2z (negb (coeff_idx =? 0)));
  match iqmatrix with
  | None => Some dqv
  | Some m => q ← arr_get m coeff_idx;
              Some (Z.shiftr (q * dqv + Z.shiftl 1 (AOM_QM_BITS - 1)) AOM_QM_BITS)
  end.

(** [xd->bd], the dequantizer of the segment, the matrix and [av1_get_tx_scale]. *)
Record dequantizer := { dq_bd : Z; dq_dequant : list Z; dq_iqmatrix : option (list Z); dq_shift : Z }.

Definition dequantize (q : dequantizer) (pos level : Z) (sign : bool) : option Z :=
  let max_value := Z.shiftl 1 (7 + dq_bd q) - 1 in
  let min_value := - Z.shiftl 1 (7 + dq_bd q) in
  dqv ← get_dqv (dq_dequant q) pos (dq_iqmatrix q);
  let dq_coeff := Z.shiftr (Z.land (level * dqv) 16777215) (dq_shift q) in
  let dq_coeff := if sign then - dq_coeff else dq_coeff in
  Some (clamp dq_coeff min_value max_value).

(** What the last loop accumulates. *)
Record txb_out := { out_coeffs : list Z; out_cul_level : Z; out_dc_val : Z; out_max_scan_line : Z }.

Definition read_sign (q : dequantizer) (dc_sign_ctx : Z) (levels : list Z) (c : Z) (o : txb_out)
  : reader (aom_reader * cdfs fc_key) txb_out :=
  pos ← r_lift (arr_get scan c);
  level ← r_lift (arr_get levels (get_padded_idx pos (get_txb_bhl tx_size)));
  if level =? 0 then mret o
  else
    sign ← (if c =? 0 then r_symbol (F_dc_sign_cdf, [plane_type; dc_sign_ctx]) 2 else r_bit);
    level ← (if MAX_BASE_BR_RANGE <=? level then g ← read_golomb; mret (level + g) else mret level);
    let dc_val := if c =? 0 then (if sign =? 0 then level else - level) else out_dc_val o in
    let level := Z.land level 1048575 in
    dq ← r_lift (dequantize q pos level (negb (sign =? 0)));
    coeffs ← r_lift (arr_set (out_coeffs o) pos dq);
    mret {| out_coeffs := coeffs; out_cul_level := out_cul_level o + level; out_dc_val := dc_val;
            out_max_scan_line := Z.max (out_max_scan_line o) pos |}.

Fixpoint read_signs (n : nat) (c : Z) (q : dequantizer) (dc_sign_ctx : Z) (levels : list Z) (o : txb_out)
  : reader (aom_reader * cdfs fc_key) txb_out :=
  match n with
  | O => mret o
  | S n' => o ← read_sign q dc_sign_ctx levels c o; read_signs n' (c + 1) q dc_sign_ctx levels o
  end.
End Block.

(** What a call leaves behind: the returned [cul_level], [eob], [max_scan_line], the
    coefficients and [xd]. *)
Record txb_read := {
  rd_cul_level : Z; rd_eob : Z; rd_max_scan_line : Z; rd_coeffs : list Z; rd_xd : MACROBLOCKD }.

(** [levels_buf] holds what was on the stack, [tcoeffs] the coefficient buffer of the
    block; [q] is the dequantizer once the transform type is known. *)
Definition read_coeffs_txb (cm : frame_params) (xd : MACROBLOCKD) (blk_row blk_col plane : Z)
    (ctx : TXB_CTX) (tx_size : TX_SIZE) (q : TX_TYPE -> dequantizer) (levels_buf tcoeffs : list Z)
  : reader (aom_reader * cdfs fc_key) txb_read :=
  let plane_type := get_plane_type plane in
  let height := get_txb_high tx_size in
  let width := get_txb_wide tx_size in
  all_zero ← r_symbol (F_txb_skip_cdf, [get_txsize_entropy_ctx tx_size; txb_skip_ctx ctx]) 2;
  if negb (all_zero =? 0) then
    xd ← (if plane =? 0 then
            m ← r_lift (arr_set (xd_tx_type_map xd) (blk_row * xd_tx_type_map_stride xd + blk_col)
                          (tx_type_value DCT_DCT));
            mret (set_tx_type_map xd m)
          else mret xd);
    mret {| rd_cul_level := 0; rd_eob := 0; rd_max_scan_line := 0; rd_coeffs := tcoeffs; rd_xd := xd |}
  else
    xd ← (if plane =? 0 then av1_read_tx_type cm xd blk_row blk_col tx_size else mret xd);
    tx_type ← r_lift (av1_get_tx_type xd plane_type blk_row blk_col tx_size (fp_reduced_tx_set_used cm));
    let tx_class := tx_type_to_class tx_type in
    let scan := scan (get_scan tx_size tx_type) in
    eob ← read_eob tx_size tx_class plane_type;
    levels ← read_magnitudes tx_size plane_type scan tx_class eob levels_buf;
    o ← read_signs tx_size plane_type scan (Z.to_nat eob) 0 (q tx_type) (dc_sign_ctx ctx) levels
          {| out_coeffs := tcoeffs; out_cul_level := 0; out_dc_val := 0; out_max_scan_line := 0 |};
    let cul_level := set_dc_sign (Z.min COEFF_CONTEXT_MASK (out_cul_level o)) (out_dc_val o) in
    mret {| rd_cul_level := u8 cul_level; rd_eob := eob; rd_max_scan_line := out_max_scan_line o;
            rd_coeffs := out_coeffs o; rd_xd := xd |}.

(** ** The encoder's context of a coded block ([av1_get_txb_entropy_context]) *)

Fixpoint entropy_context_loop (n : nat) (c : Z) (scan qcoeff : list Z) (cul_level : Z) : option Z :=
  match n with
  | O => Some cul_level
  | S n' =>
      pos ← arr_get scan c; v ← arr_get qcoeff pos;
      if v =? 0 then entropy_context_loop n' (c + 1) scan qcoeff cul_level
      else
        let cul_level := cul_level + Z.abs v in
        if COEFF_CONTEXT_MASK <? cul_level then Some cul_level
        else entropy_context_loop n' (c + 1) scan qcoeff cul_level
  end.

Definition av1_get_txb_entropy_context (qcoeff scan : list Z) (eob : Z) : option Z :=
  if eob =? 0 then Some 0
  else
    cul_level ← entropy_context_loop (Z.to_nat eob) 0 scan qcoeff 0;
    v0 ← arr_get qcoeff 0;
    Some (u8 (set_dc_sign (Z.min COEFF_CONTEXT_MASK cul_level) v0)).
