(* ===== verification/CoefLevels.v ===== *)
(** * Contexts of coefficient magnitudes

    Encoder and decoder keep the magnitudes of a block in a padded array and take the
    context of each from its neighbours below and to the right.  Here such an array is
    represented by a function of column and row; the contexts become functions of the
    represented magnitudes, and they are shown equal whenever one side caps magnitudes at
    15 and the other at 127. *)

From S2P Require Import Prelude CodecTypes BitChannel EntCoder RangeSpec Cdf EntEncProof EntDecProof EntRoundTrip SymbolIO SyntaxIO TxCommon TxbContext ScanTables Scan Coefs.

#[local] Arguments Z.of_nat : simpl never.
#[local] Arguments Z.mul : simpl never.

(** ** Positions *)

Section Cell.
Context (bhl c r : Z) (Hb : 0 <= bhl) (Hc : 0 <= c) (Hr : 0 <= r < 2 ^ bhl).

Lemma cell_col : Z.shiftr (c * 2 ^ bhl + r) bhl = c.
Proof. rewrite Z.shiftr_div_pow2, Z.div_add_l, Z.div_small by lia. lia. Qed.

Lemma cell_row : c * 2 ^ bhl + r - Z.shiftl (Z.shiftr (c * 2 ^ bhl + r) bhl) bhl = r.
Proof. rewrite cell_col, Z.shiftl_mul_pow2 by lia. lia. Qed.

Lemma cell_padded : get_padded_idx (c * 2 ^ bhl + r) bhl = c * (2 ^ bhl + 4) + r.
Proof.
  unfold get_padded_idx. rewrite cell_col, Z.shiftl_mul_pow2 by (unfold TX_PAD_HOR_LOG2; lia).
  unfold TX_PAD_HOR_LOG2. lia.
Qed.

Lemma cell_zero : (c * 2 ^ bhl + r =? 0) = (c =? 0) && (r =? 0).
Proof.
  destruct (Z.eqb_spec c 0) as [-> | Hn], (Z.eqb_spec r 0) as [-> | Hm]; simpl; lia || nia.
Qed.
End Cell.

(** Every position is a cell. *)
Lemma cell_of w h p : 0 < h -> 0 <= p < w * h ->
  exists c r, p = c * h + r /\ 0 <= c < w /\ 0 <= r < h.
Proof.
  intros Hh Hp. exists (p / h), (p mod h). pose proof (Z.div_mod p h ltac:(lia)).
  pose proof (Z.mod_pos_bound p h ltac:(lia)). split_and!; try lia.
  - apply Z.div_pos; lia.
  - apply Z.div_lt_upper_bound; lia.
Qed.

Lemma cell_inj k c r c' r' : 0 <= r < k -> 0 <= r' < k -> c * k + r = c' * k + r' -> c = c' /\ r = r'.
Proof. intros Hr Hr' E. apply (Z.div_mod_unique k); lia. Qed.

Lemma lor_lt2 a b : 0 <= a -> 0 <= b -> (Z.lor a b <? 2) = (a <? 2) && (b <? 2).
Proof.
  intros Ha Hb. assert (H : forall x, 0 <= x -> (x <? 2) = (x / 2 =? 0)).
  { intros x Hx. pose proof (Z.div_mod x 2 ltac:(lia)). pose proof (Z.mod_pos_bound x 2 ltac:(lia)).
    destruct (Z.ltb_spec x 2), (Z.eqb_spec (x / 2) 0); lia. }
  assert (Hs : forall x, x / 2 = Z.shiftr x 1) by (intros x; by rewrite Z.shiftr_div_pow2).
  rewrite !H, !Hs, Z.shiftr_lor by (try apply Z.lor_nonneg; lia).
  pose proof (Z.lor_eq_0_iff (Z.shiftr a 1) (Z.shiftr b 1)) as [H1 H2].
  destruct (Z.eqb_spec (Z.shiftr a 1) 0), (Z.eqb_spec (Z.shiftr b 1) 0),
    (Z.eqb_spec (Z.lor (Z.shiftr a 1) (Z.shiftr b 1)) 0); simpl; tauto.
Qed.

(** ** Represented magnitudes *)

(** Sum of the neighbours in the context of the base level, and in that of the rest. *)
Definition nz_sum (f : Z -> Z -> Z) (cls : TX_CLASS) (c r : Z) : Z :=
  let g c r := Z.min (f c r) 3 in
  match cls with
  | TX_CLASS_2D => g (c + 1) r + g c (r + 1) + g (c + 1) (r + 1) + g (c + 2) r + g c (r + 2)
  | TX_CLASS_VERT => g (c + 1) r + g c (r + 1) + g c (r + 2) + g c (r + 3) + g c (r + 4)
  | TX_CLASS_HORIZ => g (c + 1) r + g c (r + 1) + g (c + 2) r + g (c + 3) r + g (c + 4) r
  end.

Definition br_sum (f : Z -> Z -> Z) (cls : TX_CLASS) (c r : Z) : Z :=
  match cls with
  | TX_CLASS_2D => f c (r + 1) + f (c + 1) r + f (c + 1) (r + 1)
  | TX_CLASS_HORIZ => f c (r + 1) + f (c + 1) r + f (c + 2) r
  | TX_CLASS_VERT => f c (r + 1) + f (c + 1) r + f c (r + 2)
  end.

Definition br_context (f : Z -> Z -> Z) (cls : TX_CLASS) (c r : Z) : Z :=
  let mag := Z.min (Z.shiftr (br_sum f cls c r + 1) 1) 6 in
  if (c =? 0) && (r =? 0) then mag
  else if match cls with
          | TX_CLASS_2D => (r <? 2) && (c <? 2)
          | TX_CLASS_HORIZ => c =? 0
          | TX_CLASS_VERT => r =? 0
          end
  then mag + 7 else mag + 14.

(** [f] and [g] agree, up to the cap, on what is below and to the right of a cell. *)
Definition agree_after (f g : Z -> Z -> Z) (c r : Z) : Prop :=
  forall dc dr, 0 <= dc <= 4 -> 0 <= dr <= 4 -> 0 < dc + dr -> Z.min (f (c + dc) (r + dr)) 15 = Z.min (g (c + dc) (r + dr)) 15.

Definition level_bounded (f : Z -> Z -> Z) : Prop := forall c r, 0 <= f c r <= 127.

Lemma agree_cell {f g c r} (H : agree_after f g c r) c' r' : c <= c' <= c + 4 -> r <= r' <= r + 4 ->
  c + r < c' + r' -> Z.min (f c' r') 15 = Z.min (g c' r') 15.
Proof.
  intros Hc Hr Hn. specialize (H (c' - c) (r' - r) ltac:(lia) ltac:(lia) ltac:(lia)).
  replace (c + (c' - c)) with c' in H by lia. by replace (r + (r' - r)) with r' in H by lia.
Qed.

Lemma nz_sum_agree f g cls c r : agree_after f g c r -> nz_sum f cls c r = nz_sum g cls c r.
Proof.
  intros Ha. assert (H : forall c' r', c <= c' <= c + 4 -> r <= r' <= r + 4 -> c + r < c' + r' ->
    Z.min (f c' r') 3 = Z.min (g c' r') 3).
  { intros c' r' H1 H2 H3. pose proof (agree_cell Ha c' r' H1 H2 H3). lia. }
  unfold nz_sum. destruct cls; rewrite !H by lia; lia.
Qed.

Lemma half_capped x y : Z.min x 11 = Z.min y 11 ->
  Z.min (Z.shiftr (x + 1) 1) 6 = Z.min (Z.shiftr (y + 1) 1) 6.
Proof.
  intros H. rewrite !Z.shiftr_div_pow2 by lia. change (2 ^ 1) with 2.
  pose proof (Z.div_mod (x + 1) 2 ltac:(lia)). pose proof (Z.mod_pos_bound (x + 1) 2 ltac:(lia)).
  pose proof (Z.div_mod (y + 1) 2 ltac:(lia)). pose proof (Z.mod_pos_bound (y + 1) 2 ltac:(lia)). lia.
Qed.

Lemma br_context_agree f g cls c r : level_bounded f -> level_bounded g -> agree_after f g c r ->
  br_context f cls c r = br_context g cls c r.
Proof.
  intros Hf Hg Ha. unfold br_context.
  assert (Z.min (br_sum f cls c r) 11 = Z.min (br_sum g cls c r) 11) as E%half_capped; [| by rewrite E].
  pose proof (agree_cell Ha c (r + 1) ltac:(lia) ltac:(lia) ltac:(lia)).
  pose proof (agree_cell Ha (c + 1) r ltac:(lia) ltac:(lia) ltac:(lia)).
  pose proof (Hf c (r + 1)). pose proof (Hg c (r + 1)). pose proof (Hf (c + 1) r). pose proof (Hg (c + 1) r).
  unfold br_sum. destruct cls.
  - pose proof (agree_cell Ha (c + 1) (r + 1) ltac:(lia) ltac:(lia) ltac:(lia)).
    pose proof (Hf (c + 1) (r + 1)). pose proof (Hg (c + 1) (r + 1)). lia.
  - pose proof (agree_cell Ha (c + 2) r ltac:(lia) ltac:(lia) ltac:(lia)).
    pose proof (Hf (c + 2) r). pose proof (Hg (c + 2) r). lia.
  - pose proof (agree_cell Ha c (r + 2) ltac:(lia) ltac:(lia) ltac:(lia)).
    pose proof (Hf c (r + 2)). pose proof (Hg c (r + 2)). lia.
Qed.

Lemma br_sum_nonneg f cls c r : level_bounded f -> 0 <= br_sum f cls c r.
Proof.
  intros Hf. unfold br_sum. pose proof (Hf c (r + 1)). pose proof (Hf (c + 1) r).
  destruct cls; [pose proof (Hf (c + 1) (r + 1)) | pose proof (Hf (c + 2) r) | pose proof (Hf c (r + 2))]; lia.
Qed.

Lemma br_context_range f cls c r : level_bounded f -> 0 <= br_context f cls c r < 21.
Proof.
  intros Hf. pose proof (br_sum_nonneg f cls c r Hf). unfold br_context.
  assert (0 <= Z.shiftr (br_sum f cls c r + 1) 1) by (apply Z.shiftr_nonneg; lia).
  destruct ((c =? 0) && (r =? 0)); [lia |]. destruct cls; case_match; lia.
Qed.

Lemma nz_sum_range f cls c r : level_bounded f -> 0 <= nz_sum f cls c r <= 15.
Proof.
  intros Hf. assert (H : forall c r, 0 <= Z.min (f c r) 3 <= 3) by (intros c' r'; specialize (Hf c' r'); lia).
  unfold nz_sum. destruct cls;
    repeat match goal with |- context [Z.min (f ?a ?b) 3] => generalize (Z.min (f a b) 3) (H a b); intros end; lia.
Qed.

(** ** Arrays that represent magnitudes *)

Lemma clip_max3_spec l : 0 <= l <= 127 -> arr_get clip_max3 l = Some (Z.min l 3).
Proof.
  assert (H : forallb (fun i => bool_decide (arr_get clip_max3 (Z.of_nat i) = Some (Z.min (Z.of_nat i) 3)))
                (seq 0 128) = true) by (vm_compute; reflexivity).
  rewrite forallb_forall in H. intros Hl. specialize (H (Z.to_nat l) ltac:(apply in_seq; lia)).
  rewrite bool_decide_eq_true, Z2Nat.id in H by lia. done.
Qed.

Section Rep.
Context (t : TX_SIZE).
#[local] Abbreviation w := (get_txb_wide t).
#[local] Abbreviation h := (get_txb_high t).
#[local] Abbreviation bhl := (get_txb_bhl t).

Definition levels_rep (lv : list Z) (f : Z -> Z -> Z) : Prop :=
  forall c r, 0 <= c < w + 4 -> 0 <= r < h + 4 -> arr_get lv (c * (h + 4) + r) = Some (f c r).

Section Contexts.
Context {lv : list Z} {f : Z -> Z -> Z} (Hrep : levels_rep lv f) (Hf : level_bounded f).
Context {c r : Z} (Hc : 0 <= c < w) (Hr : 0 <= r < h).

Lemma rep_get i c' r' : i = c' * (h + 4) + r' -> 0 <= c' < w + 4 -> 0 <= r' < h + 4 ->
  arr_get lv i = Some (f c' r').
Proof. intros -> H1 H2. by apply Hrep. Qed.

Lemma rep_clipped base k c' r' : base + k = c' * (h + 4) + r' -> 0 <= c' < w + 4 -> 0 <= r' < h + 4 ->
  clipped lv base k = Some (Z.min (f c' r') 3).
Proof.
  intros E H1 H2. unfold clipped. rewrite (rep_get _ c' r' E H1 H2). apply clip_max3_spec, Hf.
Qed.

Lemma shiftl_pow k : Z.shiftl k bhl = k * h.
Proof. destruct (txb_geometry t) as (-> & ? & _). by rewrite Z.shiftl_mul_pow2 by lia. Qed.

Lemma shiftl_pad k : Z.shiftl k TX_PAD_HOR_LOG2 = k * 4.
Proof. by rewrite Z.shiftl_mul_pow2 by (unfold TX_PAD_HOR_LOG2; lia). Qed.

Lemma padded_cell : get_padded_idx (c * h + r) bhl = c * (h + 4) + r.
Proof. destruct (txb_geometry t) as (E & ? & _). rewrite E in *. apply cell_padded; lia. Qed.

Lemma nz_mag_rep cls : get_nz_mag lv (get_padded_idx (c * h + r) bhl) bhl cls = Some (nz_sum f cls c r).
Proof.
  rewrite padded_cell. unfold get_nz_mag. rewrite !shiftl_pow, !shiftl_pad. unfold TX_PAD_HOR.
  rewrite (rep_clipped _ (1 * h + 4) (c + 1) r), (rep_clipped _ 1 c (r + 1)) by lia. cbn [mbind option_bind].
  destruct cls.
  - rewrite (rep_clipped _ (1 * h + 4 + 1) (c + 1) (r + 1)), (rep_clipped _ (2 * h + 2 * 4) (c + 2) r), (rep_clipped _ 2 c (r + 2)) by lia.
    done.
  - rewrite (rep_clipped _ (2 * h + 2 * 4) (c + 2) r), (rep_clipped _ (3 * h + 3 * 4) (c + 3) r), (rep_clipped _ (4 * h + 4 * 4) (c + 4) r) by lia. done.
  - rewrite (rep_clipped _ 2 c (r + 2)), (rep_clipped _ 3 c (r + 3)), (rep_clipped _ 4 c (r + 4)) by lia. done.
Qed.

Lemma br_ctx_rep cls : get_br_ctx lv (c * h + r) bhl cls = Some (br_context f cls c r).
Proof.
  destruct (txb_geometry t) as (E & ? & _). unfold get_br_ctx. cbv zeta.
  rewrite !shiftl_pow. rewrite E in Hr |- *. rewrite cell_col, cell_zero by lia. rewrite <- E in *.
  unfold TX_PAD_HOR. replace (c * h + r - c * h) with r by lia.
  rewrite (rep_get (c * (1 * h + 4) + r + 1) c (r + 1)),
    (rep_get (c * (1 * h + 4) + r + (1 * h + 4)) (c + 1) r) by lia. cbn [mbind option_bind].
  unfold br_context, br_sum. destruct cls.
  - rewrite (rep_get _ (c + 1) (r + 1)) by lia. done.
  - rewrite Z.shiftl_mul_pow2 by lia. rewrite (rep_get _ (c + 2) r) by lia. done.
  - rewrite (rep_get _ c (r + 2)) by lia. done.
Qed.

(** The variants for two-dimensional transforms, away from the first coefficient. *)
Lemma lower_levels_2d : c * h + r <> 0 ->
  get_lower_levels_ctx_2d lv (c * h + r) bhl t = get_lower_levels_ctx lv (c * h + r) bhl t TX_CLASS_2D.
Proof.
  intros Hn. unfold get_lower_levels_ctx. rewrite nz_mag_rep. cbn [mbind option_bind].
  unfold get_nz_map_ctx_from_stats. rewrite (proj2 (Z.eqb_neq _ _)) by done.
  unfold get_lower_levels_ctx_2d. cbv zeta. rewrite padded_cell, !shiftl_pow, !shiftl_pad. unfold TX_PAD_HOR.
  set (b := c * (h + 4) + r).
  by rewrite (rep_get (b + (1 * h + 4)) (c + 1) r), (rep_get (b + 1) c (r + 1)),
    (rep_get (b + (1 * h + 4 + 1)) (c + 1) (r + 1)), (rep_get (b + (2 * h + 2 * 4)) (c + 2) r),
    (rep_get (b + 2) c (r + 2)) by lia.
Qed.

Lemma br_ctx_2d : c * h + r <> 0 -> (forall c r, f c r <= MAX_BASE_BR_RANGE) ->
  get_br_ctx_2d lv (c * h + r) bhl = Some (br_context f TX_CLASS_2D c r).
Proof.
  intros Hn Hcap. destruct (txb_geometry t) as (E & ? & _). unfold get_br_ctx_2d. cbv zeta.
  rewrite !shiftl_pow. assert ((c =? 0) && (r =? 0) = false) as Hz by nia.
  rewrite E in Hr |- *. rewrite cell_col by lia. rewrite <- E in *.
  unfold TX_PAD_HOR. replace (c * h + r - c * h) with r by lia.
  rewrite (rep_get (c * (1 * h + 4) + r + 1) c (r + 1)),
    (rep_get (c * (1 * h + 4) + r + (1 * h + 4)) (c + 1) r),
    (rep_get (c * (1 * h + 4) + r + 1 + (1 * h + 4)) (c + 1) (r + 1)) by lia.
  cbn [mbind option_bind]. rewrite (Z.min_l (f c (r + 1))), (Z.min_l (f (c + 1) r)), (Z.min_l (f (c + 1) (r + 1))) by apply Hcap. rewrite lor_lt2 by lia.
  unfold br_context, br_sum. by rewrite Hz.
Qed.
End Contexts.

(** With no neighbour read yet. *)
Lemma br_ctx_eob cls c r : 0 <= c < w -> 0 <= r < h ->
  get_br_ctx_eob (c * h + r) bhl cls = br_context (fun _ _ => 0) cls c r.
Proof.
  intros Hc Hr. destruct (txb_geometry t) as (E & ? & _). unfold get_br_ctx_eob. cbv zeta.
  rewrite E in *. rewrite cell_row, cell_col, cell_zero by lia.
  unfold br_context. destruct cls; repeat case_match; done.
Qed.

(** ** Ranges of the contexts of the base level *)

Lemma offsets_checked : forallb (fun t =>
  (get_txb_wide t * get_txb_high t <=? Z.of_nat (length (av1_nz_map_ctx_offset t))) &&
  forallb (fun x => (0 <=? x) && (x <=? 21)) (av1_nz_map_ctx_offset t))
  [TX_4X4; TX_8X8; TX_16X16; TX_32X32; TX_64X64; TX_4X8; TX_8X4; TX_8X16; TX_16X8; TX_16X32; TX_32X16;
   TX_32X64; TX_64X32; TX_4X16; TX_16X4; TX_8X32; TX_32X8; TX_16X64; TX_64X16] = true.
Proof. vm_compute. reflexivity. Qed.

Lemma offset_range p : 0 <= p < w * h -> exists o, arr_get (av1_nz_map_ctx_offset t) p = Some o /\ 0 <= o <= 21.
Proof.
  intros Hp. pose proof offsets_checked as H. rewrite forallb_forall in H.
  specialize (H t ltac:(destruct t; simpl; tauto)). apply andb_true_iff in H as [Hl H].
  rewrite forallb_forall in H. exists (nthz (av1_nz_map_ctx_offset t) p).
  split; [apply arr_get_nth; lia |].
  specialize (H (nthz (av1_nz_map_ctx_offset t) p) ltac:(apply nth_In; lia)). lia.
Qed.

Lemma offset_1d k : 0 <= k < 32 -> exists o, arr_get nz_map_ctx_offset_1d k = Some o /\ 26 <= o <= 36.
Proof.
  intros Hk. assert (H : forallb (fun x => (26 <=? x) && (x <=? 36)) nz_map_ctx_offset_1d = true) by (vm_compute; reflexivity).
  rewrite forallb_forall in H. exists (nthz nz_map_ctx_offset_1d k).
  split; [apply arr_get_nth; change (length nz_map_ctx_offset_1d) with 32%nat; lia |].
  specialize (H (nthz nz_map_ctx_offset_1d k)
    ltac:(apply nth_In; change (length nz_map_ctx_offset_1d) with 32%nat; lia)). lia.
Qed.

Lemma nz_ctx_range stats c r cls : 0 <= c < w -> 0 <= r < h -> 0 <= stats ->
  exists ctx, get_nz_map_ctx_from_stats stats (c * h + r) bhl t cls = Some ctx /\ 0 <= ctx < 42.
Proof.
  intros Hc Hr Hs. destruct (txb_geometry t) as (E & ? & ? & ?). unfold get_nz_map_ctx_from_stats. cbv zeta.
  assert (0 <= Z.shiftr (stats + 1) 1) by (apply Z.shiftr_nonneg; lia).
  pose proof (cell_range (w := w) (h := h) ltac:(lia) ltac:(lia) c r Hc Hr).
  destruct cls.
  - destruct (Z.eqb_spec (c * h + r) 0); [exists 0; split; [done | lia] |].
    destruct (offset_range (c * h + r) ltac:(lia)) as (o & -> & Ho).
    eexists. split; [reflexivity | lia].
  - rewrite E in *. rewrite cell_col by lia. destruct (offset_1d c ltac:(lia)) as (o & -> & Ho).
    eexists. split; [reflexivity | lia].
  - rewrite E in *. rewrite cell_row by lia. destruct (offset_1d r ltac:(lia)) as (o & -> & Ho).
    eexists. split; [reflexivity | lia].
Qed.
End Rep.

(** ** Filling arrays *)

Lemma nthz_fmap_seq (g : nat -> Z) n k : 0 <= k < Z.of_nat n -> nthz (g <$> seq 0 n) k = g (Z.to_nat k).
Proof. intros Hk. unfold nthz. by rewrite nth_lookup, list_lookup_fmap, lookup_seq_lt by lia. Qed.

Lemma mapM_get (a : list Z) base n : 0 <= base -> base + Z.of_nat n <= Z.of_nat (length a) ->
  mapM (fun j => arr_get a (base + Z.of_nat j)) (seq 0 n) =
    Some ((fun j => nthz a (base + Z.of_nat j)) <$> seq 0 n).
Proof.
  intros Hb Hl. apply mapM_Some. apply Forall2_fmap_r, Forall_Forall2_diag, Forall_forall.
  intros j Hj%in_seq. apply arr_get_nth. lia.
Qed.

Section Encoder.
Context (t : TX_SIZE).
#[local] Abbreviation w := (get_txb_wide t).
#[local] Abbreviation h := (get_txb_high t).
#[local] Abbreviation bhl := (get_txb_bhl t).

(** What the encoder's array represents. *)
Definition enc_level (C : list Z) (c r : Z) : Z :=
  if (c <? w) && (r <? h) then Z.min (Z.abs (nthz C (c * h + r))) 127 else 0.

Lemma enc_level_bounded C : level_bounded (enc_level C).
Proof. intros c r. unfold enc_level. case_match; lia. Qed.

Lemma u8_clamped v : u8 (clamp (Z.abs v) 0 INT8_MAX) = Z.min (Z.abs v) 127.
Proof. unfold clamp, INT8_MAX, u8, wrap. repeat case_match; rewrite Z.mod_small; lia. Qed.

Lemma init_levels_columns C n i lv : Z.of_nat (length C) >= w * h ->
  0 <= i -> i + Z.of_nat n = w -> Z.of_nat (length lv) >= (h + 4) * (w + 4) ->
  (forall c r, 0 <= c < i \/ w <= c < w + 4 -> 0 <= r < h + 4 -> nthz lv (c * (h + 4) + r) = enc_level C c r) ->
  exists lv', init_levels_loop n C i h lv (i * (h + 4)) = Some lv' /\ levels_rep t lv' (enc_level C).
Proof.
  intros HC. destruct (txb_geometry t) as (_ & _ & Hw & Hh). revert i lv.
  induction n as [|n IH]; intros i lv Hi Hn Hl Hcol; cbn [init_levels_loop].
  - exists lv. split; [done |]. intros c r Hc Hr. rewrite <- Hcol by lia. apply arr_get_nth. nia.
  - rewrite mapM_get by nia. cbn [mbind option_bind]. rewrite <- list_fmap_compose.
    match goal with |- context [stores lv _ ?vs] => set (vals := vs) end.
    assert (length vals = Z.to_nat h) as Lv by (unfold vals; by rewrite length_fmap, length_seq).
    destruct (stores_ok vals lv (i * (h + 4)) ltac:(nia) ltac:(nia)) as (l1 & -> & L1 & E1 & O1).
    cbn [mbind option_bind]. rewrite Lv, Z2Nat.id in * by lia.
    destruct (stores_ok (replicate (Z.to_nat TX_PAD_HOR) 0) l1 (i * (h + 4) + h)) as (l2 & -> & L2 & E2 & O2);
      [nia | rewrite length_replicate; unfold TX_PAD_HOR; nia |].
    rewrite length_replicate in *. change (Z.of_nat (Z.to_nat TX_PAD_HOR)) with 4 in *. cbn [mbind option_bind].
    replace (i * (h + 4) + h + 4) with ((i + 1) * (h + 4)) by lia.
    apply IH; [lia | lia | lia |]. intros c r Hc Hr. destruct (Z.eq_dec c i) as [-> | Hne].
    + unfold enc_level. rewrite (proj2 (Z.ltb_lt i w)) by lia. destruct (Z.ltb_spec r h); simpl.
      * rewrite O2, E1 by lia. unfold vals. rewrite nthz_fmap_seq by lia. cbn [compose].
        unfold compose. rewrite Z2Nat.id, u8_clamped by lia. done.
      * replace (i * (h + 4) + r) with (i * (h + 4) + h + (r - h)) by lia.
        rewrite E2 by lia. rewrite nthz_replicate; [done | unfold TX_PAD_HOR; lia].
    + rewrite O2, O1 by nia. apply Hcol; lia.
Qed.

Lemma init_levels_rep C lv : Z.of_nat (length C) >= w * h ->
  Z.of_nat (length lv) >= (h + 4) * (w + 4) + 16 ->
  exists lv', av1_txb_init_levels C w h lv = Some lv' /\ levels_rep t lv' (enc_level C).
Proof.
  intros HC Hl. destruct (txb_geometry t) as (_ & _ & Hw & Hh).
  unfold av1_txb_init_levels, TX_PAD_HOR, TX_PAD_BOTTOM, TX_PAD_END.
  match goal with |- context [stores lv _ (replicate ?k 0)] => set (m := k) end.
  assert (Z.of_nat m = 4 * (h + 4) + 16) as Em by lia.
  destruct (stores_ok (replicate m 0) lv ((h + 4) * w)) as (l1 & -> & L1 & E1 & O1);
    rewrite ?length_replicate; [nia | nia |]. rewrite length_replicate in *. cbn [mbind option_bind].
  apply (init_levels_columns C _ 0); [done | lia | lia | lia |].
  intros c r [Hc | Hc] Hr; [lia |]. unfold enc_level. rewrite (proj2 (Z.ltb_ge c w)) by lia. simpl.
  replace (c * (h + 4) + r) with ((h + 4) * w + ((c - w) * (h + 4) + r)) by lia.
  rewrite E1 by nia. apply nthz_replicate. nia.
Qed.

(** ** The contexts the encoder stores *)

Lemma nz_map_contexts so (Hs : scan_ok w h so) cls eob lv (ctx : Z -> Z) n i arr :
  (forall j, i <= j < i + Z.of_nat n ->
     get_nz_map_ctx lv (nthz (scan so) j) bhl w j (j =? eob - 1) t cls = Some (ctx j) /\ 0 <= ctx j < 42) ->
  0 <= i -> i + Z.of_nat n <= w * h -> w * h <= Z.of_nat (length arr) ->
  exists arr', nz_map_loop n i lv (scan so) eob t cls arr = Some arr' /\ length arr' = length arr /\
    (forall j, i <= j < i + Z.of_nat n -> nthz arr' (nthz (scan so) j) = ctx j) /\
    (forall p, 0 <= p -> (forall j, i <= j < i + Z.of_nat n -> nthz (scan so) j <> p) -> nthz arr' p = nthz arr p).
Proof.
  revert i arr. induction n as [|n IH]; intros i arr Hctx Hi Hn Hl; cbn [nz_map_loop].
  - exists arr. split_and!; [done .. | intros; lia | done].
  - rewrite (scan_get Hs) by lia. cbn [mbind option_bind].
    destruct (Hctx i ltac:(lia)) as [-> Hr]. cbn [mbind option_bind].
    rewrite swrap_small by (simpl; lia). pose proof (scan_range _ _ _ Hs i ltac:(lia)).
    destruct (arr_set_ok arr (nthz (scan so) i) (ctx i) ltac:(lia)) as (a1 & -> & L1 & E1 & O1).
    cbn [mbind option_bind].
    destruct (IH (i + 1) a1) as (a2 & -> & L2 & E2 & O2); [intros; apply Hctx; lia | lia .. |].
    exists a2. split_and!; [done | lia | |].
    + intros j Hj. destruct (Z.eq_dec j i) as [-> | Hne]; [| apply E2; lia]. rewrite O2; [done | lia |].
      intros k Hk E. pose proof (scan_inj Hs k i ltac:(lia) ltac:(lia) E). lia.
    + intros p Hp Ho. rewrite O2, O1; [done | lia | | lia |]; [| intros j Hj; apply Ho; lia].
      intros ->. apply (Ho i); [lia | done].
Qed.
End Encoder.

(** ** The decoder's array *)

Lemma levels_rep_ext t lv f g : (forall c r, 0 <= c -> 0 <= r -> f c r = g c r) ->
  levels_rep t lv f -> levels_rep t lv g.
Proof. intros E H c r Hc Hr. rewrite <- E by lia. by apply H. Qed.

(** A store to a cell of the block. *)
Lemma levels_rep_set t lv f c r v : levels_rep t lv f -> 0 <= c < get_txb_wide t -> 0 <= r < get_txb_high t ->
  exists lv', arr_set lv (c * (get_txb_high t + 4) + r) v = Some lv' /\
    levels_rep t lv' (fun c' r' => if (c' =? c) && (r' =? r) then v else f c' r').
Proof.
  set (h := get_txb_high t). intros Hrep Hc Hr.
  assert (Hin : forall c r, 0 <= c < get_txb_wide t + 4 -> 0 <= r < h + 4 ->
    0 <= c * (h + 4) + r < Z.of_nat (length lv)).
  { intros c' r' Hc' Hr'. pose proof (Hrep c' r' Hc' Hr') as Hg. fold h in Hg. unfold arr_get in Hg.
    destruct (Z.leb_spec 0 (c' * (h + 4) + r')); [| done]. apply lookup_lt_Some in Hg. lia. }
  destruct (arr_set_ok lv (c * (h + 4) + r) v) as (lv' & Es & L & Eq & O); [apply Hin; lia |].
  exists lv'. split; [done |]. intros c' r' Hc' Hr'. fold h in Hr' |- *.
  pose proof (Hrep c' r' Hc' Hr') as Hg. fold h in Hg. pose proof (Hin c' r' Hc' Hr').
  rewrite arr_get_nth in Hg |- * by lia. f_equal. injection Hg as Hg.
  destruct (Z.eqb_spec c' c) as [-> | Hn], (Z.eqb_spec r' r) as [-> | Hm]; cbn [andb]; [done | ..];
    rewrite O, Hg; try done; try lia; intros E; apply cell_inj in E; lia.
Qed.

Section Decoder.
Context (t : TX_SIZE) (so : SCAN_ORDER).
#[local] Abbreviation w := (get_txb_wide t).
#[local] Abbreviation h := (get_txb_high t).
#[local] Abbreviation bhl := (get_txb_bhl t).
Context (Hs : scan_ok w h so).

(** What it represents when the magnitudes with scan index [i] and more are read. *)
Definition dec_level (C : list Z) (i c r : Z) : Z :=
  if (c <? w) && (r <? h) && (i <=? nthz (iscan so) (c * h + r))
  then Z.min (Z.abs (nthz C (c * h + r))) 15 else 0.

Lemma dec_level_cap C i c r : 0 <= dec_level C i c r <= 15.
Proof. unfold dec_level. case_match; lia. Qed.

Lemma dec_level_bounded C i : level_bounded (dec_level C i).
Proof. intros c r. pose proof (dec_level_cap C i c r). lia. Qed.

Lemma dec_enc_agree C i c r : 0 <= c < w -> 0 <= r < h -> nthz (iscan so) (c * h + r) = i ->
  agree_after (dec_level C (i + 1)) (enc_level t C) c r.
Proof.
  intros Hc Hr Hi dc dr Hdc Hdr Hd. unfold dec_level, enc_level.
  destruct (Z.ltb_spec (c + dc) w), (Z.ltb_spec (r + dr) h); simpl; try done.
  destruct (txb_geometry t) as (_ & _ & Hw & Hh).
  pose proof (iscan_later Hs ltac:(lia) ltac:(lia) c r dc dr ltac:(lia) ltac:(lia) ltac:(lia) ltac:(lia) Hd
    ltac:(lia) ltac:(lia)).
  rewrite (proj2 (Z.leb_le _ _)) by lia. lia.
Qed.

Lemma dec_level_set C lv i : 0 <= i < w * h -> levels_rep t lv (dec_level C (i + 1)) ->
  exists lv', arr_set lv (get_padded_idx (nthz (scan so) i) bhl) (Z.min (Z.abs (nthz C (nthz (scan so) i))) 15)
    = Some lv' /\ levels_rep t lv' (dec_level C i).
Proof.
  intros Hi Hrep. destruct (txb_geometry t) as (E & Hb & Hw & Hh).
  pose proof (scan_range _ _ _ Hs i Hi) as Hp. pose proof (iscan_scan _ _ _ Hs i Hi) as Hinv.
  destruct (cell_of w h (nthz (scan so) i) ltac:(lia) Hp) as (c & r & Ep & Hc & Hr). rewrite Ep in *.
  rewrite padded_cell by done.
  destruct (levels_rep_set t lv _ c r (Z.min (Z.abs (nthz C (c * h + r))) 15) Hrep Hc Hr) as (lv' & -> & Hrep').
  exists lv'. split; [done |]. revert Hrep'. apply levels_rep_ext. intros c' r' Hc' Hr'.
  assert (Hcell : forall c' r', 0 <= c' < w -> 0 <= r' < h -> nthz (iscan so) (c' * h + r') = i -> c' = c /\ r' = r).
  { intros x y Hx Hy Ei. pose proof (cell_range (w := w) (h := h) ltac:(lia) ltac:(lia) x y Hx Hy) as Hxy.
    pose proof (scan_iscan _ _ _ Hs _ Hxy) as Ex. rewrite Ei, Ep in Ex. apply cell_inj in Ex; lia. }
  unfold dec_level.
  destruct (Z.ltb_spec c' w), (Z.ltb_spec r' h); simpl.
  - set (x := nthz (iscan so) (c' * h + r')). destruct ((c' =? c) && (r' =? r)) eqn:Ec.
    + assert (c' = c) as -> by lia. assert (r' = r) as -> by lia.
      by rewrite (proj2 (Z.leb_le i x)) by (unfold x; lia).
    + assert (x <> i) by (intros Ei; apply Hcell in Ei; lia).
      destruct (Z.leb_spec (i + 1) x), (Z.leb_spec i x); done || lia.
  - rewrite (proj2 (Z.eqb_neq r' r)), andb_false_r by lia. done.
  - rewrite (proj2 (Z.eqb_neq c' c)) by lia. done.
  - rewrite (proj2 (Z.eqb_neq c' c)) by lia. done.
Qed.
End Decoder.

(** ** The table of contexts *)

(** "The algorithm to generate [av1_nz_map_ctx_offset]", as the comment in
    [get_nz_map_ctx_from_stats] has it; the positions of a one-dimensional transform are
    in three groups. *)
Definition nz_map_rule (ctx : Z) (t : TX_SIZE) (cl : TX_CLASS) (col row : Z) : Z :=
  match cl with
  | TX_CLASS_2D =>
      if (col =? 0) && (row =? 0) then 0
      else if (tx_size_wide t <? tx_size_high t) && (row <? 2) then 11 + ctx
      else if (tx_size_high t <? tx_size_wide t) && (col <? 2) then 16 + ctx
      else if row + col <? 2 then ctx + 1
      else if row + col <? 4 then 5 + ctx + 1
      else 21 + ctx
  | TX_CLASS_HORIZ => SIG_COEF_CONTEXTS_2D + 5 * Z.min col 2 + ctx
  | TX_CLASS_VERT => SIG_COEF_CONTEXTS_2D + 5 * Z.min row 2 + ctx
  end.

Definition nz_table_ok (t : TX_SIZE) : bool :=
  forallb (fun c => forallb (fun r => let col := Z.of_nat c in let row := Z.of_nat r in
    ((col =? 0) && (row =? 0)) ||
    match arr_get (av1_nz_map_ctx_offset t) (col * get_txb_high t + row) with
    | Some o => o =? nz_map_rule 0 t TX_CLASS_2D col row
    | None => false
    end) (seq 0 (Z.to_nat (get_txb_high t)))) (seq 0 (Z.to_nat (get_txb_wide t))).

Lemma nz_tables_ok t : nz_table_ok t = true.
Proof. destruct t; vm_compute; reflexivity. Qed.

Lemma nz_offset_1d i : 0 <= i < 32 ->
  arr_get nz_map_ctx_offset_1d i = Some (SIG_COEF_CONTEXTS_2D + 5 * Z.min i 2).
Proof.
  intros Hi. assert (forallb (fun i => match arr_get nz_map_ctx_offset_1d (Z.of_nat i) with
    | Some o => o =? SIG_COEF_CONTEXTS_2D + 5 * Z.min (Z.of_nat i) 2 | None => false end) (seq 0 32) = true) as H
    by (vm_compute; reflexivity).
  rewrite forallb_forall in H. specialize (H (Z.to_nat i) ltac:(apply in_seq; lia)). rewrite Z2Nat.id in H by lia.
  destruct (arr_get _ _) as [o|]; [| done]. f_equal. lia.
Qed.

(** C33: The context of a coefficient that [get_nz_map_ctx_from_stats] looks up in its tables
    is, for every transform size, class and position, the one the comment's algorithm
    computes from the shape of the block and the position, and it is one of the 42 contexts
    the models have. *)
Theorem nz_map_follows_rule t cl stats col row :
  0 <= stats -> 0 <= col < get_txb_wide t -> 0 <= row < get_txb_high t ->
  let ctx := Z.min ((stats + 1) / 2) 4 in
  get_nz_map_ctx_from_stats stats (col * get_txb_high t + row) (get_txb_bhl t) t cl
    = Some (nz_map_rule ctx t cl col row) /\
  0 <= nz_map_rule ctx t cl col row < 42.
Proof.
  intros Hs Hc Hr. cbv zeta. destruct (txb_geometry t) as (Eh & Hb & Hw & Hh).
  unfold get_nz_map_ctx_from_stats. rewrite (Z.shiftr_div_pow2 (stats + 1)) by lia. change (2 ^ 1) with 2.
  assert (0 <= Z.min ((stats + 1) / 2) 4 <= 4) as Hctx by (pose proof (Z.div_pos (stats + 1) 2); lia).
  set (ctx := Z.min ((stats + 1) / 2) 4) in *.
  assert (0 <= col * get_txb_high t + row /\ (col * get_txb_high t + row =? 0) = (col =? 0) && (row =? 0)) as [Hp E0].
  { rewrite Eh in *. split; [nia | apply cell_zero; lia]. }
  destruct cl.
  - split; [| unfold nz_map_rule; repeat case_match; lia]. rewrite E0. unfold nz_map_rule.
    destruct ((col =? 0) && (row =? 0)) eqn:Ez; [done |].
    pose proof (nz_tables_ok t) as H. unfold nz_table_ok in H. rewrite forallb_forall in H.
    specialize (H (Z.to_nat col) ltac:(apply in_seq; lia)). rewrite forallb_forall in H.
    specialize (H (Z.to_nat row) ltac:(apply in_seq; lia)). cbv zeta in H. rewrite !Z2Nat.id, Ez in H by lia.
    unfold nz_map_rule in H. rewrite Ez in H. cbn [orb] in H.
    destruct (arr_get _ _) as [o|]; [| done]. apply Z.eqb_eq in H. subst o. cbn [mbind option_bind]. f_equal.
    repeat case_match; lia.
  - rewrite Eh, cell_col by lia. rewrite nz_offset_1d by lia. cbn [mbind option_bind nz_map_rule].
    unfold SIG_COEF_CONTEXTS_2D. split; [f_equal |]; lia.
  - rewrite Eh, cell_row by lia. rewrite nz_offset_1d by lia. cbn [mbind option_bind nz_map_rule].
    unfold SIG_COEF_CONTEXTS_2D. split; [f_equal |]; lia.
Qed.

Lemma nz_map_follows_rule_witness :
  get_nz_map_ctx_from_stats 5 (17 * get_txb_high TX_64X16 + 1) (get_txb_bhl TX_64X16) TX_64X16 TX_CLASS_2D
    = Some (nz_map_rule 3 TX_64X16 TX_CLASS_2D 17 1) /\ 0 <= nz_map_rule 3 TX_64X16 TX_CLASS_2D 17 1 < 42.
Proof. apply (nz_map_follows_rule TX_64X16 TX_CLASS_2D 5 17 1); cbn; lia. Defined.
