(* ===== verification/CoefsProof.v ===== *)
(** * Coefficients survive

    Encoder and decoder compute the context of every magnitude from different data: the
    encoder from all magnitudes of the block, the decoder from those it has read, capped
    at 15.  The two agree because the scans are sound ([Scan]).  From this the round trip
    of a whole transform block follows. *)

From S2P Require Import Prelude CodecTypes BitChannel EntCoder RangeSpec Cdf EntEncProof EntDecProof EntRoundTrip SymbolIO SyntaxIO TxCommon TxbContext ScanTables Scan DefaultCdfs FrameContext TxType Coefs CoefLevels.

#[local] Arguments Z.of_nat : simpl never.
#[local] Arguments Z.mul : simpl never.

Lemma land_bit x k : 0 <= k -> (if Z.land x (Z.shiftl 1 k) =? 0 then 0 else 1) = b2z (Z.testbit x k).
Proof.
  intros Hk. assert (Z.land x (Z.shiftl 1 k) = if Z.testbit x k then 2 ^ k else 0) as ->.
  { rewrite Z.shiftl_1_l. apply Z.bits_inj'. intros i Hi. rewrite Z.land_spec, Z.pow2_bits_eqb by lia.
    destruct (Z.eqb_spec k i) as [-> | Hne].
    - destruct (Z.testbit x i); [by rewrite Z.pow2_bits_true by lia | by rewrite Z.bits_0].
    - rewrite andb_false_r. destruct (Z.testbit x k); [| by rewrite Z.bits_0].
      by rewrite Z.pow2_bits_false. }
  destruct (Z.testbit x k); [| done]. pose proof (pow2_pos k Hk). by rewrite (proj2 (Z.eqb_neq _ _)) by lia.
Qed.

(** The lowest [k + 1] bits are bit [k] and the lowest [k] bits. *)
Lemma mod_pow2_top x k : 0 <= k -> x mod 2 ^ (k + 1) = b2z (Z.testbit x k) * 2 ^ k + x mod 2 ^ k.
Proof.
  intros Hk. rewrite testbit_b2z by lia. pose proof (pow2_pos k Hk).
  rewrite Z.pow_add_r, Z.pow_1_r, Z.rem_mul_r by lia. lia.
Qed.

Section Codes.
Context (al : allocator) (Hal : grants_all al) (adaptive : bool).
#[local] Abbreviation transfers := (transfers al adaptive).

Lemma transfers_testbit x k : 0 <= k ->
  transfers 1 (w_bit al (Z.land (Z.shiftr x k) 1)) r_bit tt (b2z (Z.testbit x k)).
Proof. intros Hk. rewrite land_shiftr_bit by lia. by apply transfers_bit. Qed.

(** ** Golomb codes *)

Lemma golomb_length x : 0 < x < 2 ^ 31 -> golomb_length_loop 31 x 0 = Z.log2 x + 1.
Proof.
  assert (H : forall n x l, 0 < x < 2 ^ Z.of_nat n -> golomb_length_loop n x l = l + Z.log2 x + 1).
  { induction n as [|n IH]; intros y l Hy; [change (2 ^ Z.of_nat 0) with 1 in Hy; lia |].
    cbn [golomb_length_loop]. rewrite (proj2 (Z.eqb_neq _ _)) by lia.
    rewrite Nat2Z.inj_succ, Z.pow_succ_r in Hy by lia. rewrite Z.shiftr_div_pow2 by lia.
    change (2 ^ 1) with 2. destruct (Z.eq_dec y 1) as [-> | Hne].
    - change (1 / 2) with 0. destruct n; simpl; lia.
    - rewrite IH by (split; [apply Z.div_str_pos; lia | apply Z.div_lt_upper_bound; lia]).
      assert (1 <= Z.log2 y) by (apply Z.log2_le_pow2; lia).
      pose proof (Z.log2_shiftr y 1 ltac:(lia)) as Hl. rewrite Z.shiftr_div_pow2 in Hl by lia.
      change (2 ^ 1) with 2 in Hl. lia. }
  intros Hx. rewrite H; [lia | done].
Qed.

Lemma transfers_zeros n l fuel : 0 <= l -> l + Z.of_nat n + 1 <= 20 -> (n < fuel)%nat ->
  transfers (Z.of_nat n + 1) (_ ← write_zeros al n; w_bit al 1) (golomb_zeros_loop fuel l) tt
    (l + Z.of_nat n + 1).
Proof.
  revert l fuel. induction n as [|n IH]; intros l [|fuel] Hl Hn Hf; try lia; cbn [golomb_zeros_loop write_zeros].
  - apply (transfers_ext _ _ _ (w_bit al 1) _ (r_bit ≫= fun i => if 20 <? l + 1 then
      raise AOM_CODEC_CORRUPT_FRAME else if i =? 0 then golomb_zeros_loop fuel (l + 1) else mret (l + 1)));
      [done | done |].
    replace (l + Z.of_nat 0 + 1) with (l + 1) by lia.
    apply (transfers_post _ _ _ _ _ _ (b2z true)); [apply (transfers_bit al Hal adaptive true) |].
    intros r. rewrite (proj2 (Z.ltb_ge _ _)) by lia. done.
  - replace (Z.of_nat (S n) + 1) with (1 + (Z.of_nat n + 1)) by lia.
    apply (transfers_ext _ _ _ (w_bit al 0 ≫= fun _ => (write_zeros al n ≫= fun _ => w_bit al 1)) _
      (r_bit ≫= fun i => if 20 <? l + 1 then
      raise AOM_CODEC_CORRUPT_FRAME else if i =? 0 then golomb_zeros_loop fuel (l + 1) else mret (l + 1)));
      [| done |].
    { intros w. unfold mbind, writer_bind. by destruct (w_bit al 0 w) as [[[] ?]|]. }
    eapply (transfers_bind al adaptive 1 _ _ _ tt (b2z false)); [apply (transfers_bit al Hal adaptive false) |].
    cbn [b2z]. rewrite (proj2 (Z.ltb_ge _ _)) by lia. cbn [Z.eqb].
    replace (l + Z.of_nat (S n) + 1) with (l + 1 + Z.of_nat n + 1) by lia. apply IH; lia.
Qed.

Lemma transfers_bits k x acc :
  transfers (Z.of_nat k) (write_bits al k x) (golomb_bits_loop k acc) tt
    (acc * 2 ^ Z.of_nat k + x mod 2 ^ Z.of_nat k).
Proof.
  revert acc. induction k as [|k IH]; intros acc; cbn [write_bits golomb_bits_loop].
  - change (2 ^ Z.of_nat 0) with 1. rewrite Z.mod_1_r, Z.mul_1_r, Z.add_0_r. apply transfers_ret.
  - replace (Z.of_nat (S k)) with (1 + Z.of_nat k) by lia.
    eapply transfers_bind; [apply transfers_testbit; lia |]. cbv beta.
    rewrite (Z.add_comm 1 (Z.of_nat k)), mod_pow2_top by lia.
    replace (acc * 2 ^ (Z.of_nat k + 1) + (b2z (Z.testbit x (Z.of_nat k)) * 2 ^ Z.of_nat k + x mod 2 ^ Z.of_nat k))
      with ((Z.shiftl acc 1 + b2z (Z.testbit x (Z.of_nat k))) * 2 ^ Z.of_nat k + x mod 2 ^ Z.of_nat k).
    + apply IH.
    + rewrite Z.shiftl_mul_pow2, Z.pow_add_r by lia. lia.
Qed.

Lemma transfers_golomb g : 0 <= g -> g + 1 < 2 ^ 20 ->
  transfers 40 (write_golomb al g) read_golomb tt g.
Proof.
  intros Hg Hb. unfold write_golomb, read_golomb. rewrite golomb_length by lia. set (x := g + 1).
  pose proof (Z.log2_spec x ltac:(lia)) as Hs. set (k := Z.log2 x) in *.
  assert (0 <= k < 20) as Hk by (subst k; apply log2_bound; lia).
  replace (Z.to_nat (k + 1)) with (S (Z.to_nat k)) by lia. cbn [write_bits].
  replace (k + 1 - 1) with k by lia. rewrite Z2Nat.id by lia.
  assert (Z.land (Z.shiftr x k) 1 = 1) as ->.
  { rewrite land_shiftr_bit, testbit_b2z by lia.
    replace (x / 2 ^ k) with 1; [done |]. apply (Z.div_unique _ _ _ (x - 2 ^ k)); [| lia].
    rewrite Z.pow_succ_r in Hs by lia. lia. }
  apply (transfers_assoc_w al adaptive _ (write_zeros al (Z.to_nat k)) (fun _ => w_bit al 1)
           (fun _ => write_bits al (Z.to_nat k) x)).
  apply (transfers_le _ _ (k + 1 + k)); [lia |].
  eapply transfers_bind.
  { pose proof (transfers_zeros (Z.to_nat k) 0 21 ltac:(lia) ltac:(lia) ltac:(lia)) as Ht.
    rewrite Z2Nat.id in Ht by lia. exact Ht. }
  cbv beta. replace (Z.to_nat (0 + k + 1 - 1)) with (Z.to_nat k) by lia.
  eapply (transfers_post _ _ _ _ _ _ x).
  - pose proof (transfers_bits (Z.to_nat k) x 1) as Ht. rewrite Z2Nat.id in Ht by lia.
    replace (1 * 2 ^ k + x mod 2 ^ k) with x in Ht; [exact Ht |].
    rewrite (Z.mod_eq x (2 ^ k)) by (pose proof (pow2_pos k); lia).
    replace (x / 2 ^ k) with 1; [lia |]. apply (Z.div_unique _ _ _ (x - 2 ^ k)); [| lia].
    rewrite Z.pow_succ_r in Hs by lia. lia.
  - intros r. unfold mret, reader_ret. do 2 f_equal. lia.
Qed.

(** ** Magnitudes up to 15 *)

Lemma transfers_br n idx br lev key : in_layout key = true -> alphabet key = BR_CDF_SIZE -> 0 <= br - idx ->
  transfers (Z.of_nat n) (write_br al n idx br key) (read_br n lev key) tt
    (lev + Z.min (br - idx) (3 * Z.of_nat n)).
Proof.
  intros Hk Ha. revert idx lev. induction n as [|n IH]; intros idx lev Hr; cbn [write_br read_br].
  - replace (lev + Z.min (br - idx) (3 * Z.of_nat 0)) with lev by lia. apply transfers_ret.
  - replace (Z.of_nat (S n)) with (1 + Z.of_nat n) by lia. unfold BR_CDF_SIZE in *. change (4 - 1) with 3.
    eapply transfers_bind; [apply transfers_symbol; [done .. | lia] |]. cbv beta.
    destruct (Z.ltb_spec (Z.min (br - idx) 3) 3).
    + replace (lev + Z.min (br - idx) (3 * (1 + Z.of_nat n))) with (lev + Z.min (br - idx) 3) by lia.
      apply (transfers_le _ _ 0); [lia | apply transfers_ret].
    + replace (lev + Z.min (br - idx) (3 * (1 + Z.of_nat n)))
        with (lev + Z.min (br - idx) 3 + Z.min (br - (idx + 3)) (3 * Z.of_nat n)) by lia.
      apply IH. lia.
Qed.

(** ** Position of the last coefficient *)

Lemma transfers_eob_extra n i bits ex acc : 0 <= i -> i + Z.of_nat n = bits ->
  transfers (Z.of_nat n) (write_eob_extra al n i bits ex) (read_eob_extra n i bits acc) tt
    (acc + ex mod 2 ^ Z.of_nat n).
Proof.
  revert i acc. induction n as [|n IH]; intros i acc Hi Hn; cbn [write_eob_extra read_eob_extra].
  - change (2 ^ Z.of_nat 0) with 1. rewrite Z.mod_1_r, Z.add_0_r. apply transfers_ret.
  - replace (bits - 1 - i) with (Z.of_nat n) by lia. rewrite land_bit by lia.
    replace (Z.of_nat (S n)) with (1 + Z.of_nat n) by lia.
    eapply transfers_bind; [apply transfers_bit; done |]. cbv beta.
    rewrite (Z.add_comm 1 (Z.of_nat n)), mod_pow2_top by lia.
    rewrite Z.shiftl_1_l. destruct (Z.testbit ex (Z.of_nat n)); cbn [b2z Z.eqb].
    + replace (acc + (1 * 2 ^ Z.of_nat n + ex mod 2 ^ Z.of_nat n))
        with (acc + 2 ^ Z.of_nat n + ex mod 2 ^ Z.of_nat n) by lia. apply IH; lia.
    + rewrite Z.mul_0_l, Z.add_0_l. apply IH; lia.
Qed.
End Codes.

(** The token of a position, checked for every block size. *)
Definition eob_token_ok (eob : Z) : bool :=
  match av1_get_eob_pos_token eob with
  | Some (tk, ex) =>
      match arr_get av1_eob_offset_bits tk with
      | Some bits =>
          (1 <=? tk) && (tk <=? 11) && (0 <=? bits) && (bits <=? 9) && (0 <=? ex) && (ex <? 2 ^ bits) &&
          bool_decide (rec_eob_pos tk ex = Some eob) && ((bits =? 0) || (3 <=? tk)) &&
          forallb (fun s => (2 ^ (4 + s) <? eob) || (tk <=? 5 + s)) [0; 1; 2; 3; 4; 5; 6]
      | None => false
      end
  | None => false
  end.

Lemma eob_tokens_checked : forallb (fun i => eob_token_ok (Z.of_nat i)) (seq 1 1024) = true.
Proof. vm_compute. reflexivity. Qed.

Lemma eob_token eob s : 1 <= eob <= 2 ^ (4 + s) -> 0 <= s <= 6 ->
  exists tk ex bits, av1_get_eob_pos_token eob = Some (tk, ex) /\
    arr_get av1_eob_offset_bits tk = Some bits /\ 1 <= tk <= 5 + s /\ 0 <= bits <= 9 /\
    0 <= ex < 2 ^ bits /\ rec_eob_pos tk ex = Some eob /\ (0 < bits -> 3 <= tk).
Proof.
  intros He Hs. pose proof eob_tokens_checked as H. rewrite forallb_forall in H.
  assert (2 ^ (4 + s) <= 2 ^ 10) by (apply pow2_le; lia). change (2 ^ 10) with 1024 in *.
  specialize (H (Z.to_nat eob) ltac:(apply in_seq; lia)). rewrite Z2Nat.id in H by lia.
  unfold eob_token_ok in H. destruct (av1_get_eob_pos_token eob) as [[tk ex]|]; [| done].
  destruct (arr_get av1_eob_offset_bits tk) as [bits|] eqn:Eb; [| done].
  rewrite !andb_true_iff, bool_decide_eq_true in H.
  destruct H as [[[[[[[[H1 H2] H3] H4] H5] H6] H7] H8] H9].
  exists tk, ex, bits. split_and!; try done; try lia.
  rewrite forallb_forall in H9. assert (In s [0; 1; 2; 3; 4; 5; 6]) as Hin.
  { assert (s = 0 \/ s = 1 \/ s = 2 \/ s = 3 \/ s = 4 \/ s = 5 \/ s = 6) as Hc by lia. simpl. intuition. }
  specialize (H9 s Hin). cbv beta in H9. lia.
Qed.

Lemma eob_flag_ok s pt ctx : 0 <= s <= 6 -> 0 <= pt < 2 -> 0 <= ctx < 2 ->
  in_layout (eob_flag_cdf s pt ctx).1 = true /\ (eob_flag_cdf s pt ctx).2 = 5 + s /\
  alphabet (eob_flag_cdf s pt ctx).1 = 5 + s.
Proof.
  intros Hs Hp Hc. assert (s = 0 \/ s = 1 \/ s = 2 \/ s = 3 \/ s = 4 \/ s = 5 \/ s = 6) as Hc7 by lia.
  destruct Hc7 as [-> | [-> | [-> | [-> | [-> | [-> | ->]]]]]];
    (split; [layout | split; reflexivity]).
Qed.

Lemma txb_pels t : get_txb_wide t * get_txb_high t = 2 ^ (4 + txsize_log2_minus4 t) /\
  0 <= txsize_log2_minus4 t <= 6 /\ 0 <= get_txsize_entropy_ctx t < 5.
Proof. destruct t; vm_compute; split_and!; congruence. Qed.

Section Eob.
Context (al : allocator) (Hal : grants_all al) (adaptive : bool).
#[local] Abbreviation transfers := (transfers al adaptive).

Lemma transfers_eob t cls pt eob : 0 <= pt < 2 -> 1 <= eob <= get_txb_wide t * get_txb_high t ->
  transfers 11 (write_eob al t cls pt eob) (read_eob t cls pt) tt eob.
Proof.
  intros Hp He. destruct (txb_pels t) as (Ep & Hs & Hx). rewrite Ep in He.
  destruct (eob_token eob _ He Hs) as (tk & ex & bits & Et & Eb & Htk & Hb & Hex & Er & H3).
  assert (0 <= eob_multi_ctx cls < 2) as Hc by (destruct cls; simpl; lia).
  destruct (eob_flag_ok _ pt _ Hs Hp Hc) as (Hk & Hn & Ha).
  unfold write_eob, read_eob. rewrite Et, w_lift_some.
  destruct (eob_flag_cdf _ _ _) as [key n]. cbn [fst snd] in *. subst n.
  apply (transfers_le _ _ (1 + 10)); [lia |].
  eapply transfers_bind; [apply transfers_symbol; [done | done | done | lia] |]. cbv beta.
  replace (tk - 1 + 1) with tk by lia. rewrite Eb, w_lift_some, r_lift_some. cbv zeta.
  eapply (transfers_post _ _ _ _ _ _ ex); [| intros r; by rewrite Er].
  destruct (Z.ltb_spec 0 bits) as [Hpos | Hz].
  - rewrite land_bit by lia. apply (transfers_le _ _ (1 + (bits - 1))); [lia |].
    eapply transfers_bind.
    { apply transfers_symbol; [done | layout | done | destruct (Z.testbit _ _); simpl; lia]. }
    cbv beta. set (top := Z.testbit ex (bits - 1)).
    replace ex with ((if b2z top =? 0 then 0 else Z.shiftl 1 (bits - 1)) + ex mod 2 ^ (bits - 1)) at 2.
    2:{ pose proof (mod_pow2_top ex (bits - 1) ltac:(lia)) as Hm.
        replace (bits - 1 + 1) with bits in Hm by lia. rewrite Z.mod_small in Hm by lia.
        rewrite Z.shiftl_1_l. fold top in Hm. destruct top; cbn [b2z Z.eqb] in *; lia. }
    pose proof (transfers_eob_extra al Hal adaptive (Z.to_nat (bits - 1)) 1 bits ex
      (if b2z top =? 0 then 0 else Z.shiftl 1 (bits - 1)) ltac:(lia) ltac:(lia)) as Ht.
    rewrite Z2Nat.id in Ht by lia. exact Ht.
  - assert (bits = 0) as -> by lia. change (2 ^ 0) with 1 in Hex. assert (ex = 0) as -> by lia.
    apply (transfers_le _ _ 0); [lia | apply transfers_ret].
Qed.
End Eob.

(** ** Magnitudes *)

Section Levels.
Context (al : allocator) (Hal : grants_all al) (adaptive : bool).
#[local] Abbreviation transfers := (transfers al adaptive).
Context (t : TX_SIZE) (ty : TX_TYPE) (pt : Z) (b : txb).
#[local] Abbreviation w := (get_txb_wide t).
#[local] Abbreviation h := (get_txb_high t).
#[local] Abbreviation bhl := (get_txb_bhl t).
#[local] Abbreviation so := (get_scan t ty).
#[local] Abbreviation cls := (tx_type_to_class ty).
#[local] Abbreviation C := (txb_coeff b).
#[local] Abbreviation eob := (txb_eob b).
#[local] Abbreviation pos i := (nthz (scan so) i).

(** A block the encoder may write: [eob] is one more than the scan index of the last
    nonzero coefficient, and magnitudes have at most 20 bits. *)
Record block_ok : Prop := {
  bk_eob : 1 <= eob <= w * h;
  bk_length : w * h <= Z.of_nat (length C);
  bk_range : forall i, 0 <= i < w * h -> Z.abs (nthz C (pos i)) < 2 ^ 20;
  bk_last : nthz C (pos (eob - 1)) <> 0;
  bk_rest : forall i, eob <= i < w * h -> nthz C (pos i) = 0 }.

Context (Hpt : 0 <= pt < 2) (Hb : block_ok).

Lemma so_ok : scan_ok w h so.
Proof. apply get_scan_ok. Qed.

Lemma coeff_get i : 0 <= i < eob -> arr_get C (pos i) = Some (nthz C (pos i)).
Proof.
  intros Hi. apply arr_get_nth. destruct Hb. pose proof (scan_range _ _ _ so_ok i ltac:(lia)). lia.
Qed.

Lemma scan_pos i : 0 <= i < eob -> arr_get (scan so) i = Some (pos i).
Proof. intros Hi. apply (scan_get so_ok). destruct Hb. lia. Qed.

Lemma pos_cell i : 0 <= i < eob -> exists c r, pos i = c * h + r /\ 0 <= c < w /\ 0 <= r < h /\
  nthz (iscan so) (c * h + r) = i.
Proof.
  intros Hi. destruct Hb. destruct (txb_geometry t) as (_ & _ & _ & Hh).
  destruct (cell_of w h (pos i)) as (c & r & E & Hc & Hr); [lia | apply so_ok; lia |].
  exists c, r. split_and!; try lia. rewrite <- E. apply so_ok. lia.
Qed.

(** The part of a magnitude above 2. *)
Lemma transfers_rest level k : 0 <= level -> 0 <= k < 21 ->
  transfers 4
    (if NUM_BASE_LEVELS <? level
     then br_ctx ← w_lift (Some k); write_br al 4 0 (level - 1 - NUM_BASE_LEVELS) (br_cdf t pt br_ctx)
     else mret tt)
    (if NUM_BASE_LEVELS <? Z.min level 3
     then br_ctx ← r_lift (Some k); read_br 4 (Z.min level 3) (br_cdf t pt br_ctx)
     else mret (Z.min level 3)) tt (Z.min level 15).
Proof.
  intros Hl Hk. unfold NUM_BASE_LEVELS. rewrite w_lift_some, r_lift_some.
  destruct (txb_pels t) as (_ & _ & Hx).
  destruct (Z.ltb_spec 2 level), (Z.ltb_spec 2 (Z.min level 3)); try lia.
  - replace (Z.min level 15) with (Z.min level 3 + Z.min (level - 1 - 2 - 0) (3 * Z.of_nat 4)) by lia.
    apply (transfers_br al Hal adaptive 4); [| reflexivity | lia].
    unfold br_cdf. change (tx_size_value TX_32X32) with 3. layout.
  - replace (Z.min level 3) with (Z.min level 15) by lia. apply (transfers_le _ _ 0); [lia | apply transfers_ret].
Qed.

Lemma u8_level x : u8 (Z.min (Z.abs x) 15) = Z.min (Z.abs x) 15.
Proof. unfold u8, wrap. apply Z.mod_small. lia. Qed.

(** Nothing is read at first. *)
Lemma dec_level_eob c r : 0 <= c -> 0 <= r -> dec_level t so C eob c r = 0.
Proof.
  intros Hc Hr. unfold dec_level. destruct (Z.ltb_spec c w), (Z.ltb_spec r h); simpl; try done.
  destruct (Z.leb_spec eob (nthz (iscan so) (c * h + r))) as [Hle |]; [| done].
  destruct (txb_geometry t) as (_ & _ & Hw & Hh), Hb.
  pose proof (cell_range (w := w) (h := h) ltac:(lia) ltac:(lia) c r ltac:(lia) ltac:(lia)) as Hp.
  pose proof (iscan_range _ _ _ so_ok _ Hp). pose proof (bk_rest0 _ ltac:(split; [apply Hle | lia])) as E.
  rewrite (scan_iscan _ _ _ so_ok) in E by done. by rewrite E.
Qed.

Section Written.
Context (lv cc : list Z) (Hrep : levels_rep t lv (enc_level t C)).

(** The context of the base level of scan index [i]. *)
Definition ctx_of (i : Z) : Z := default 0 (get_nz_map_ctx lv (pos i) bhl w i (i =? eob - 1) t cls).

Lemma ctx_of_last : get_nz_map_ctx lv (pos (eob - 1)) bhl w (eob - 1) true t cls =
    Some (get_lower_levels_ctx_eob bhl w (eob - 1)).
Proof. reflexivity. Qed.

Lemma eob_ctx_range i : 0 <= get_lower_levels_ctx_eob bhl w i < 4.
Proof. unfold get_lower_levels_ctx_eob. repeat case_match; lia. Qed.

Lemma ctx_of_some i : 0 <= i < eob ->
  get_nz_map_ctx lv (pos i) bhl w i (i =? eob - 1) t cls = Some (ctx_of i) /\ 0 <= ctx_of i < 42.
Proof.
  intros Hi. unfold ctx_of. destruct (pos_cell i Hi) as (c & r & E & Hc & Hr & _). rewrite E.
  destruct (i =? eob - 1) eqn:Ei; unfold get_nz_map_ctx.
  - fold (get_lower_levels_ctx_eob bhl w i). split; [done |].
    pose proof (eob_ctx_range i). cbn [default id]. lia.
  - rewrite (nz_mag_rep t Hrep (enc_level_bounded t C) Hc Hr). cbn [mbind option_bind].
    pose proof (nz_sum_range (enc_level t C) cls c r (enc_level_bounded t C)).
    destruct (nz_ctx_range t (nz_sum (enc_level t C) cls c r) c r cls Hc Hr ltac:(lia)) as (x & -> & Hx).
    done.
Qed.

(** The decoder finds the same contexts. *)
Lemma base_ctx_agrees i lvd : 0 <= i < eob - 1 -> levels_rep t lvd (dec_level t so C (i + 1)) ->
  get_lower_levels_ctx lvd (pos i) bhl t cls = Some (ctx_of i).
Proof.
  intros Hi Hd. destruct (ctx_of_some i ltac:(lia)) as [E _]. rewrite <- E.
  rewrite (proj2 (Z.eqb_neq i _)) by lia. destruct (pos_cell i ltac:(lia)) as (c & r & -> & Hc & Hr & Hi').
  unfold get_lower_levels_ctx, get_nz_map_ctx.
  rewrite (nz_mag_rep t Hd (dec_level_bounded t so C _) Hc Hr), (nz_mag_rep t Hrep (enc_level_bounded t C) Hc Hr).
  by rewrite (nz_sum_agree _ _ cls c r (dec_enc_agree t so so_ok C i c r Hc Hr Hi')).
Qed.

(** The context of the rest of the magnitude. *)
Definition rest_ctx (i : Z) : Z := br_context (enc_level t C) cls (pos i / h) (pos i mod h).

Lemma rest_ctx_cell i c r : pos i = c * h + r -> 0 <= r < h -> rest_ctx i = br_context (enc_level t C) cls c r.
Proof.
  intros E Hr. unfold rest_ctx. rewrite E, Z.div_add_l, Z.div_small by lia.
  rewrite <- (Z.mod_unique (c * h + r) h c r) by lia. by rewrite Z.add_0_r.
Qed.

Lemma rest_ctx_range i : 0 <= rest_ctx i < 21.
Proof. apply br_context_range, enc_level_bounded. Qed.

Lemma rest_ctx_enc i : 0 <= i < eob -> get_br_ctx lv (pos i) bhl cls = Some (rest_ctx i).
Proof.
  intros Hi. destruct (pos_cell i Hi) as (c & r & E & Hc & Hr & _).
  rewrite (rest_ctx_cell i c r E Hr), E. by apply br_ctx_rep.
Qed.

Lemma rest_ctx_dec i lvd : 0 <= i < eob -> levels_rep t lvd (dec_level t so C (i + 1)) ->
  get_br_ctx lvd (pos i) bhl cls = Some (rest_ctx i).
Proof.
  intros Hi Hd. destruct (pos_cell i Hi) as (c & r & E & Hc & Hr & Hi').
  rewrite (rest_ctx_cell i c r E Hr), E, (br_ctx_rep t Hd Hc Hr). f_equal.
  apply br_context_agree; [apply dec_level_bounded | apply enc_level_bounded |].
  by apply dec_enc_agree; [apply so_ok | ..].
Qed.

Context (Hcl : w * h <= Z.of_nat (length cc)) (Hcc : forall i, 0 <= i < eob -> nthz cc (pos i) = ctx_of i).

Lemma cc_get i : 0 <= i < eob -> arr_get cc (pos i) = Some (ctx_of i).
Proof.
  intros Hi. rewrite <- Hcc by done. apply arr_get_nth. destruct Hb.
  pose proof (scan_range _ _ _ so_ok i ltac:(lia)). lia.
Qed.

(** The steps both readers of a magnitude share, given the decoder's contexts. *)
Lemma transfers_level_with i lvd (base rest : option Z) :
  0 <= i < eob - 1 -> levels_rep t lvd (dec_level t so C (i + 1)) ->
  base = Some (ctx_of i) -> rest = Some (rest_ctx i) ->
  exists lvd', levels_rep t lvd' (dec_level t so C i) /\
  transfers 5 (write_level al t cls pt (scan so) b lv cc i)
    (coeff_ctx ← r_lift base;
     level ← r_symbol (F_coeff_base_cdf, [get_txsize_entropy_ctx t; pt; coeff_ctx]) 4;
     level ← (if NUM_BASE_LEVELS <? level then br_ctx ← r_lift rest; read_br 4 level (br_cdf t pt br_ctx)
              else mret level);
     r_lift (arr_set lvd (get_padded_idx (pos i) bhl) (u8 level))) tt lvd'.
Proof.
  intros Hi Hd -> ->. destruct Hb. destruct (dec_level_set t so so_ok C lvd i ltac:(lia) Hd) as (lvd' & Es & Hd').
  exists lvd'. split; [done |]. unfold write_level. cbv zeta.
  rewrite scan_pos, w_lift_some, cc_get, w_lift_some, coeff_get, w_lift_some, rest_ctx_enc, r_lift_some by lia.
  rewrite (proj2 (Z.eqb_neq i _)) by lia.
  destruct (txb_pels t) as (_ & _ & Hx). pose proof (proj2 (ctx_of_some i ltac:(lia))).
  apply (transfers_le _ _ (1 + 4)); [lia |]. eapply transfers_bind.
  { apply transfers_symbol; [done | layout | reflexivity | lia]. }
  cbv beta. eapply transfers_post; [apply transfers_rest; [lia | apply rest_ctx_range] |].
  intros r. by rewrite u8_level, Es.
Qed.

Lemma transfers_level i lvd : 0 <= i < eob - 1 -> levels_rep t lvd (dec_level t so C (i + 1)) ->
  exists lvd', levels_rep t lvd' (dec_level t so C i) /\
  transfers 5 (write_level al t cls pt (scan so) b lv cc i) (read_level t pt (scan so) cls i lvd) tt lvd'.
Proof.
  intros Hi Hd. unfold read_level. rewrite scan_pos, r_lift_some by lia.
  apply transfers_level_with; [done | done | by apply base_ctx_agrees |].
  apply rest_ctx_dec; [lia | done].
Qed.

Lemma transfers_level_2d i lvd : cls = TX_CLASS_2D -> 0 < i < eob - 1 ->
  levels_rep t lvd (dec_level t so C (i + 1)) ->
  exists lvd', levels_rep t lvd' (dec_level t so C i) /\
  transfers 5 (write_level al t cls pt (scan so) b lv cc i) (read_level_2d t pt (scan so) i lvd) tt lvd'.
Proof.
  intros E2 Hi Hd. unfold read_level_2d. rewrite scan_pos, r_lift_some by lia.
  destruct Hb. destruct (pos_cell i ltac:(lia)) as (c & r & Ep & Hc & Hr & _).
  assert (c * h + r <> 0) as Hn.
  { rewrite <- Ep. intros E0. pose proof (scan_first _ _ _ so_ok) as H0.
    pose proof (scan_inj so_ok 0 i ltac:(lia) ltac:(lia) ltac:(congruence)). lia. }
  apply transfers_level_with; [lia | done | |].
  - rewrite <- (base_ctx_agrees i lvd) by (lia || done). rewrite Ep, E2.
    apply (lower_levels_2d t Hd (dec_level_bounded t so C _) Hc Hr Hn).
  - rewrite <- (rest_ctx_dec i lvd) by (lia || done). rewrite Ep, E2, (br_ctx_rep t Hd Hc Hr).
    apply (br_ctx_2d t Hd Hc Hr Hn). intros c' r'.
    pose proof (dec_level_cap t so C (i + 1) c' r'). change MAX_BASE_BR_RANGE with 15. lia.
Qed.

(** The last coefficient, whose neighbours are all zero. *)
Lemma rest_ctx_last : get_br_ctx_eob (pos (eob - 1)) bhl cls = rest_ctx (eob - 1).
Proof.
  destruct (txb_geometry t) as (_ & _ & Hw & Hh), Hb.
  destruct (pos_cell (eob - 1) ltac:(lia)) as (c & r & E & Hc & Hr & Hi').
  rewrite (rest_ctx_cell _ c r E Hr), E, br_ctx_eob by done.
  apply br_context_agree; [intros ? ?; lia | apply enc_level_bounded |].
  intros dc dr Hdc Hdr Hd. rewrite <- (dec_enc_agree t so so_ok C _ c r Hc Hr Hi' dc dr) by lia.
  replace (eob - 1 + 1) with eob by lia. by rewrite dec_level_eob by lia.
Qed.

Lemma transfers_last lvd lvd' :
  arr_set lvd (get_padded_idx (pos (eob - 1)) bhl) (Z.min (Z.abs (nthz C (pos (eob - 1)))) 15) = Some lvd' ->
  transfers 5 (write_level al t cls pt (scan so) b lv cc (eob - 1))
    (read_last_coeff t pt (scan so) cls eob lvd) tt lvd'.
Proof.
  intros Es. destruct Hb. unfold write_level, read_last_coeff. cbv zeta.
  rewrite scan_pos, w_lift_some, cc_get, w_lift_some, coeff_get, w_lift_some, r_lift_some by lia.
  rewrite rest_ctx_enc, rest_ctx_last, Z.eqb_refl by lia.
  assert (ctx_of (eob - 1) = get_lower_levels_ctx_eob bhl w (eob - 1)) as ->
    by (unfold ctx_of; by rewrite Z.eqb_refl).
  destruct (txb_pels t) as (_ & _ & Hx). pose proof (eob_ctx_range (eob - 1)).
  apply (transfers_le _ _ (1 + 4)); [lia |]. eapply transfers_bind.
  { apply transfers_symbol; [done | layout | reflexivity | lia]. }
  cbv beta. set (v := Z.abs _). replace (Z.min v 3 - 1 + 1) with (Z.min v 3) by lia.
  eapply transfers_post; [apply (transfers_rest v (rest_ctx (eob - 1))); [lia | apply rest_ctx_range] |].
  intros r. unfold v. by rewrite u8_level, Es.
Qed.

(** ** The loops *)

Lemma transfers_levels n lvd : Z.of_nat n <= eob - 1 -> levels_rep t lvd (dec_level t so C (Z.of_nat n)) ->
  exists lvd', levels_rep t lvd' (dec_level t so C 0) /\
  transfers (5 * Z.of_nat n) (write_levels al t cls pt (scan so) n b lv cc)
    (read_coeffs_reverse t pt (scan so) n cls 0 lvd) tt lvd'.
Proof.
  revert lvd. induction n as [|n IH]; intros lvd Hn Hd; cbn [write_levels read_coeffs_reverse].
  - exists lvd. split; [done | apply transfers_ret].
  - rewrite Nat2Z.inj_succ in *.
    destruct (transfers_level (Z.of_nat n) lvd ltac:(lia) Hd) as (l1 & Hd1 & T1).
    destruct (IH l1 ltac:(lia) Hd1) as (l2 & Hd2 & T2). exists l2. split; [done |].
    replace (5 * Z.succ (Z.of_nat n)) with (5 + 5 * Z.of_nat n) by lia.
    rewrite Z.add_0_l. eapply transfers_bind; [exact T1 | exact T2].
Qed.

Lemma transfers_levels_2d n lvd : cls = TX_CLASS_2D -> Z.of_nat (S n) <= eob - 1 ->
  levels_rep t lvd (dec_level t so C (Z.of_nat (S n))) ->
  exists lvd', levels_rep t lvd' (dec_level t so C 0) /\
  transfers (5 * Z.of_nat (S n)) (write_levels al t cls pt (scan so) (S n) b lv cc)
    (lvd ← read_coeffs_reverse_2d t pt (scan so) n 1 lvd;
     read_coeffs_reverse t pt (scan so) 1 cls 0 lvd) tt lvd'.
Proof.
  intros E2. revert lvd. induction n as [|n IH]; intros lvd Hn Hd.
  - cbn [read_coeffs_reverse_2d]. destruct (transfers_levels 1 lvd Hn Hd) as (l & Hl & T).
    exists l. split; [done |]. eapply transfers_pre; [done | exact T].
  - destruct (transfers_level_2d (Z.of_nat (S n)) lvd E2 ltac:(lia)) as (l1 & Hd1 & T1).
    { by replace (Z.of_nat (S n) + 1) with (Z.of_nat (S (S n))) by lia. }
    destruct (IH l1 ltac:(lia) Hd1) as (l2 & Hd2 & T2). exists l2. split; [done |].
    change (write_levels al t cls pt (scan so) (S (S n)) b lv cc)
      with (_ ← write_level al t cls pt (scan so) b lv cc (Z.of_nat (S n));
            write_levels al t cls pt (scan so) (S n) b lv cc).
    cbn [read_coeffs_reverse_2d]. replace (1 + Z.of_nat n) with (Z.of_nat (S n)) by lia.
    replace (5 * Z.of_nat (S (S n))) with (5 + 5 * Z.of_nat (S n)) by lia.
    apply transfers_regroup_r. eapply transfers_bind; [exact T1 | exact T2].
Qed.
End Written.
End Levels.
