(* ===== verification/CoefBlock.v ===== *)
(** * Transform blocks survive

    Signs and large magnitudes, the context a coded block leaves for its neighbours, and
    the transfer of a block from [av1_write_coeffs_txb] to [read_coeffs_txb]. *)

From S2P Require Import Prelude CodecTypes BitChannel EntCoder RangeSpec Cdf EntEncProof EntDecProof EntRoundTrip SymbolIO SyntaxIO TxCommon TxbContext ScanTables Scan DefaultCdfs FrameContext TxType Coefs CoefLevels CoefsProof.

#[local] Arguments Z.of_nat : simpl never.
#[local] Arguments Z.mul : simpl never.

(** The dequantizer has a step for every position. *)
Definition dequantizer_ok (q : dequantizer) (n : Z) : Prop :=
  2 <= Z.of_nat (length (dq_dequant q)) /\
  match dq_iqmatrix q with Some m => n <= Z.of_nat (length m) | None => True end.

Lemma dequantize_some q n p level sign : dequantizer_ok q n -> 0 <= p < n ->
  exists v, dequantize q p level sign = Some v.
Proof.
  intros [Hd Hm] Hp. unfold dequantize, get_dqv.
  rewrite (arr_get_nth (dq_dequant q)) by (destruct (p =? 0); simpl; lia). cbn [mbind option_bind].
  destruct (dq_iqmatrix q); [rewrite arr_get_nth by lia |]; by eexists.
Qed.

Section Signs.
Context (al : allocator) (Hal : grants_all al) (adaptive : bool).
#[local] Abbreviation transfers := (transfers al adaptive).
Context (t : TX_SIZE) (ty : TX_TYPE) (pt : Z) (b : txb) (q : dequantizer) (tcoeffs : list Z).
#[local] Abbreviation w := (get_txb_wide t).
#[local] Abbreviation h := (get_txb_high t).
#[local] Abbreviation bhl := (get_txb_bhl t).
#[local] Abbreviation so := (get_scan t ty).
#[local] Abbreviation C := (txb_coeff b).
#[local] Abbreviation eob := (txb_eob b).
#[local] Abbreviation pos i := (nthz (scan so) i).
#[local] Abbreviation coef i := (nthz C (pos i)).

(** Sum of the magnitudes of the first [n] coefficients from scan index [c] on. *)
Fixpoint magnitude_sum (n : nat) (c : Z) : Z :=
  match n with
  | O => 0
  | S n' => Z.abs (coef c) + magnitude_sum n' (c + 1)
  end.

Lemma magnitude_sum_nonneg n c : 0 <= magnitude_sum n c.
Proof. revert c. induction n as [|n IH]; intros c; simpl; [lia |]. specialize (IH (c + 1)). lia. Qed.

Lemma magnitude_sum_S n c : magnitude_sum (S n) c = magnitude_sum n c + Z.abs (coef (c + Z.of_nat n)).
Proof.
  revert c. induction n as [|n IH]; intros c.
  - cbn [magnitude_sum]. replace (c + Z.of_nat 0) with c by lia. lia.
  - change (magnitude_sum (S (S n)) c) with (Z.abs (coef c) + magnitude_sum (S n) (c + 1)).
    rewrite IH. cbn [magnitude_sum]. replace (c + 1 + Z.of_nat n) with (c + Z.of_nat (S n)) by lia. lia.
Qed.

(** What the reader has accumulated when the coefficients before scan index [c] are done. *)
Record signs_read (c : Z) (o : txb_out) : Prop := {
  sr_length : length (out_coeffs o) = length tcoeffs;
  sr_coded : forall i, 0 <= i < c -> coef i <> 0 ->
    dequantize q (pos i) (Z.abs (coef i)) (coef i <? 0) = Some (nthz (out_coeffs o) (pos i));
  sr_kept : forall p, 0 <= p -> (forall i, 0 <= i < c -> coef i <> 0 -> pos i <> p) ->
    nthz (out_coeffs o) p = nthz tcoeffs p;
  sr_sum : out_cul_level o = magnitude_sum (Z.to_nat c) 0;
  sr_dc : out_dc_val o = if 0 <? c then coef 0 else 0;
  sr_line : 0 <= out_max_scan_line o /\
    (forall i, 0 <= i < c -> coef i <> 0 -> pos i <= out_max_scan_line o) /\
    (out_max_scan_line o = 0 \/ exists i, 0 <= i < c /\ coef i <> 0 /\ out_max_scan_line o = pos i) }.

Context (Hpt : 0 <= pt < 2) (Hb : block_ok t ty b) (Hq : dequantizer_ok q (w * h)).
Context (Htc : w * h <= Z.of_nat (length tcoeffs)).

(** The output after a nonzero coefficient. *)
Definition coded_out (o : txb_out) (c : Z) (coeffs : list Z) : txb_out :=
  {| out_coeffs := coeffs; out_cul_level := out_cul_level o + Z.abs (coef c);
     out_dc_val := if c =? 0 then coef c else out_dc_val o;
     out_max_scan_line := Z.max (out_max_scan_line o) (pos c) |}.

Lemma signs_read_zero c o : 0 <= c -> coef c = 0 -> signs_read c o -> signs_read (c + 1) o.
Proof.
  intros Hc Hz [L R K S D (M0 & M1 & M2)]. split; [done | | | | |].
  - intros i Hi Hn. apply R; [| done]. destruct (Z.eq_dec i c) as [-> |]; [done | lia].
  - intros p Hp Ho. apply K; [done |]. intros i Hi Hn. apply Ho; [lia | done].
  - rewrite S. replace (Z.to_nat (c + 1)) with (Datatypes.S (Z.to_nat c)) by lia.
    rewrite magnitude_sum_S. replace (0 + Z.of_nat (Z.to_nat c)) with c by lia. rewrite Hz. simpl. lia.
  - rewrite D, (proj2 (Z.ltb_lt 0 (c + 1))) by lia. destruct (Z.ltb_spec 0 c); [done |].
    by replace c with 0 in Hz by lia.
  - split_and!; [done | |].
    + intros i Hi Hn. apply M1; [| done]. destruct (Z.eq_dec i c) as [-> |]; [done | lia].
    + destruct M2 as [-> | (i & ? & ? & ->)]; [by left | right]. exists i. split_and!; lia || done.
Qed.

Lemma signs_read_coded c o : 0 <= c < eob -> coef c <> 0 -> signs_read c o ->
  exists dq coeffs, dequantize q (pos c) (Z.abs (coef c)) (coef c <? 0) = Some dq /\
    arr_set (out_coeffs o) (pos c) dq = Some coeffs /\ signs_read (c + 1) (coded_out o c coeffs).
Proof.
  intros Hc Hn [L R K S D (M0 & M1 & M2)]. destruct Hb.
  pose proof (scan_range _ _ _ (so_ok t ty) c ltac:(lia)) as Hp.
  destruct (dequantize_some q (w * h) (pos c) (Z.abs (coef c)) (coef c <? 0) Hq Hp) as (dq & Ed).
  destruct (arr_set_ok (out_coeffs o) (pos c) dq ltac:(lia)) as (co & Es & L1 & E1 & O1).
  exists dq, co. split_and!; [done | done |].
  assert (Hinj : forall i, 0 <= i < c -> pos i <> pos c).
  { intros i Hi E. pose proof (scan_inj (so_ok t ty) i c ltac:(lia) ltac:(lia) E). lia. }
  split; cbn [coded_out out_coeffs out_cul_level out_dc_val out_max_scan_line].
  - lia.
  - intros i Hi Hni. destruct (Z.eq_dec i c) as [-> | Hne]; [by rewrite E1 |].
    pose proof (scan_range _ _ _ (so_ok t ty) i ltac:(lia)).
    rewrite O1 by (lia || (apply Hinj; lia)). apply R; [lia | done].
  - intros p Hp0 Ho. rewrite O1; [| done | intros ->; by apply (Ho c); [lia | |]].
    apply K; [done |]. intros i Hi Hni. apply Ho; [lia | done].
  - rewrite S. replace (Z.to_nat (c + 1)) with (Datatypes.S (Z.to_nat c)) by lia.
    rewrite magnitude_sum_S. replace (0 + Z.of_nat (Z.to_nat c)) with c by lia. done.
  - rewrite D, (proj2 (Z.ltb_lt 0 (c + 1))) by lia.
    destruct (Z.eqb_spec c 0) as [-> |]; [done |]. by rewrite (proj2 (Z.ltb_lt 0 c)) by lia.
  - split_and!; [lia | |].
    + intros i Hi Hni. destruct (Z.eq_dec i c) as [-> | Hne]; [lia |].
      pose proof (M1 i ltac:(lia) Hni). lia.
    + destruct (Z.max_spec (out_max_scan_line o) (pos c)) as [[_ ->] | [_ ->]].
      * right. exists c. split_and!; lia || done.
      * destruct M2 as [-> | (i & ? & ? & ->)]; [by left | right]. exists i. split_and!; lia || done.
Qed.

(** ** The loop over the signs *)

Context (dctx : Z) (lvd : list Z).
Context (Hdc : coef 0 <> 0 -> 0 <= dctx < 3 /\
  Z.land (Z.shiftr (txb_entropy_ctx b) DC_SIGN_CTX_SHIFT) DC_SIGN_CTX_MASK = dctx).
Context (Hlv : forall i, 0 <= i < eob -> arr_get lvd (get_padded_idx (pos i) bhl) = Some (Z.min (Z.abs (coef i)) 15)).

Lemma transfers_sign_bit c : 0 <= c < eob -> coef c <> 0 ->
  transfers 1
    (if c =? 0 then
       w_symbol al (if coef c <? 0 then 1 else 0)
         (F_dc_sign_cdf, [pt; Z.land (Z.shiftr (txb_entropy_ctx b) DC_SIGN_CTX_SHIFT) DC_SIGN_CTX_MASK]) 2
     else w_bit al (if coef c <? 0 then 1 else 0))
    (if c =? 0 then r_symbol (F_dc_sign_cdf, [pt; dctx]) 2 else r_bit) tt (if coef c <? 0 then 1 else 0).
Proof.
  intros Hc Hn. destruct (Z.eqb_spec c 0) as [-> | Hne].
  - destruct (Hdc Hn) as [Hr ->]. apply transfers_symbol; [done | layout | reflexivity |].
    destruct (_ <? 0); lia.
  - apply (transfers_bit al Hal adaptive (coef c <? 0)).
Qed.

Lemma transfers_magnitude c : 0 <= c < eob -> coef c <> 0 ->
  transfers 40
    (if COEFF_BASE_RANGE + NUM_BASE_LEVELS <? Z.abs (coef c)
     then write_golomb al (Z.abs (coef c) - COEFF_BASE_RANGE - 1 - NUM_BASE_LEVELS) else mret tt)
    (if MAX_BASE_BR_RANGE <=? Z.min (Z.abs (coef c)) 15
     then g ← read_golomb; mret (Z.min (Z.abs (coef c)) 15 + g) else mret (Z.min (Z.abs (coef c)) 15))
    tt (Z.abs (coef c)).
Proof.
  intros Hc Hn. destruct Hb. pose proof (bk_range c ltac:(lia)) as Hr.
  change MAX_BASE_BR_RANGE with 15. change COEFF_BASE_RANGE with 12. change NUM_BASE_LEVELS with 2. set (v := Z.abs (coef c)) in *.
  destruct (Z.ltb_spec (12 + 2) v), (Z.leb_spec 15 (Z.min v 15)); try lia.
  - eapply transfers_post; [apply (transfers_golomb al Hal adaptive (v - 12 - 1 - 2)); lia |].
    intros r. unfold mret, reader_ret. do 2 f_equal. lia.
  - replace (Z.min v 15) with v by lia. apply (transfers_le _ _ 0); [lia | apply transfers_ret].
Qed.

Lemma land_level c : 0 <= c < eob -> Z.land (Z.abs (coef c)) 1048575 = Z.abs (coef c).
Proof.
  intros Hc. destruct Hb. pose proof (bk_range c ltac:(lia)). change 1048575 with (Z.ones 20).
  rewrite Z.land_ones by lia. apply Z.mod_small. lia.
Qed.

Lemma transfers_sign c o : 0 <= c < eob -> signs_read c o ->
  exists o', signs_read (c + 1) o' /\
  transfers 41 (write_sign al pt (scan so) b c) (read_sign t pt (scan so) q dctx lvd c o) tt o'.
Proof.
  intros Hc Ho. unfold write_sign, read_sign. cbv zeta.
  rewrite (scan_pos t ty b Hb), w_lift_some, r_lift_some, (coeff_get t ty b Hb), w_lift_some by lia.
  rewrite Hlv, r_lift_some by lia. destruct (Z.eq_dec (coef c) 0) as [Hz | Hn].
  - exists o. split; [apply signs_read_zero; [lia | done ..] |]. rewrite Hz.
    apply (transfers_le _ _ 0); [lia | apply transfers_ret].
  - destruct (signs_read_coded c o Hc Hn Ho) as (dq & co & Ed & Es & Ho').
    exists (coded_out o c co). split; [done |].
    rewrite (proj2 (Z.eqb_neq (Z.abs (coef c)) 0)), (proj2 (Z.eqb_neq (Z.min (Z.abs (coef c)) 15) 0)) by lia.
    apply (transfers_le _ _ (1 + 40)); [lia |].
    eapply transfers_bind; [by apply transfers_sign_bit |]. cbv beta.
    eapply transfers_post; [by apply transfers_magnitude |]. intros r. cbv beta zeta.
    rewrite land_level by done.
    assert (negb ((if coef c <? 0 then 1 else 0) =? 0) = (coef c <? 0)) as -> by (by destruct (_ <? 0)).
    rewrite Ed, r_lift_some, Es, r_lift_some. unfold mret, reader_ret, coded_out. do 4 f_equal.
    destruct (Z.eqb_spec c 0); [| done]. destruct (Z.ltb_spec (coef c) 0); simpl; lia.
Qed.

Lemma transfers_signs n c o : 0 <= c -> c + Z.of_nat n = eob -> signs_read c o ->
  exists o', signs_read eob o' /\
  transfers (41 * Z.of_nat n) (write_signs al pt (scan so) n c b)
    (read_signs t pt (scan so) n c q dctx lvd o) tt o'.
Proof.
  revert c o. induction n as [|n IH]; intros c o Hc Hn Ho; cbn [write_signs read_signs].
  - exists o. replace eob with c by lia. split; [done | apply transfers_ret].
  - destruct (transfers_sign c o ltac:(lia) Ho) as (o1 & H1 & T1).
    destruct (IH (c + 1) o1 ltac:(lia) ltac:(lia) H1) as (o2 & H2 & T2).
    exists o2. split; [done |]. replace (41 * Z.of_nat (S n)) with (41 + 41 * Z.of_nat n) by lia.
    eapply transfers_bind; [exact T1 | exact T2].
Qed.

Lemma signs_read_start : signs_read 0
  {| out_coeffs := tcoeffs; out_cul_level := 0; out_dc_val := 0; out_max_scan_line := 0 |}.
Proof. split; try done; cbn; [intros; lia | split_and!; [lia | intros; lia | by left]]. Qed.

(** ** The context left behind *)

Lemma entropy_loop n c acc : 0 <= c -> c + Z.of_nat n <= eob -> 0 <= acc ->
  exists s, entropy_context_loop n c (scan so) C acc = Some s /\
    Z.min COEFF_CONTEXT_MASK s = Z.min COEFF_CONTEXT_MASK (acc + magnitude_sum n c).
Proof.
  revert c acc. induction n as [|n IH]; intros c acc Hc Hn Ha; cbn [entropy_context_loop magnitude_sum].
  - exists acc. by rewrite Z.add_0_r.
  - rewrite (scan_pos t ty b Hb) by lia. cbn [mbind option_bind].
    rewrite (coeff_get t ty b Hb) by lia. cbn [mbind option_bind].
    pose proof (magnitude_sum_nonneg n (c + 1)).
    destruct (Z.eqb_spec (coef c) 0) as [Hz | Hnz].
    { rewrite Hz. destruct (IH (c + 1) acc) as (s & -> & Es); [lia .. |]. exists s. split; [done |].
      rewrite Es. by f_equal. }
    destruct (Z.ltb_spec COEFF_CONTEXT_MASK (acc + Z.abs (coef c))).
    + eexists. split; [reflexivity |]. lia.
    + destruct (IH (c + 1) (acc + Z.abs (coef c))) as (s & -> & Es); [lia .. |]. exists s.
      split; [done |]. rewrite Es. f_equal. lia.
Qed.

Lemma entropy_context_read o : signs_read eob o ->
  av1_get_txb_entropy_context C (scan so) eob =
    Some (u8 (set_dc_sign (Z.min COEFF_CONTEXT_MASK (out_cul_level o)) (out_dc_val o))).
Proof.
  intros Ho. destruct (bk_eob _ _ _ Hb) as [H1 H2]. unfold av1_get_txb_entropy_context.
  rewrite (proj2 (Z.eqb_neq eob 0)) by lia.
  destruct (entropy_loop (Z.to_nat eob) 0 0) as (s & -> & Es); [lia .. |]. cbn [mbind option_bind].
  pose proof (coeff_get t ty b Hb 0 ltac:(lia)) as E0. rewrite (scan_first _ _ _ (so_ok t ty)) in E0.
  rewrite E0. cbn [mbind option_bind]. rewrite Es, (sr_sum _ _ Ho), (sr_dc _ _ Ho), Z.add_0_l.
  rewrite (proj2 (Z.ltb_lt 0 eob)) by lia. by rewrite (scan_first _ _ _ (so_ok t ty)).
Qed.
End Signs.

(** ** A whole block *)

Section Block.
Context (al : allocator) (Hal : grants_all al) (adaptive : bool).
#[local] Abbreviation transfers := (transfers al adaptive).
Context (t : TX_SIZE) (ty : TX_TYPE) (b : txb).
#[local] Abbreviation w := (get_txb_wide t).
#[local] Abbreviation h := (get_txb_high t).
#[local] Abbreviation bhl := (get_txb_bhl t).
#[local] Abbreviation so := (get_scan t ty).
#[local] Abbreviation cls := (tx_type_to_class ty).
#[local] Abbreviation C := (txb_coeff b).
#[local] Abbreviation eob := (txb_eob b).
#[local] Abbreviation pos i := (nthz (scan so) i).
#[local] Abbreviation coef i := (nthz C (pos i)).

(** Bytes of [levels_buf] a block uses. *)
Definition levels_size : Z := (h + TX_PAD_HOR) * (w + TX_PAD_VER) + TX_PAD_END.

Lemma rep_positions lvd : block_ok t ty b -> levels_rep t lvd (dec_level t so C 0) ->
  forall i, 0 <= i < eob -> arr_get lvd (get_padded_idx (pos i) bhl) = Some (Z.min (Z.abs (coef i)) 15).
Proof.
  intros Hb Hd i Hi. destruct (pos_cell t ty b Hb i Hi) as (c & r & E & Hc & Hr & Hi').
  rewrite E, padded_cell, (Hd c r) by lia. f_equal. unfold dec_level.
  by rewrite (proj2 (Z.ltb_lt c w)), (proj2 (Z.ltb_lt r h)), (proj2 (Z.leb_le 0 _)) by lia.
Qed.

(** The decoder's array of levels, once cleared. *)
Lemma cleared_zero buf : levels_size <= Z.of_nat (length buf) ->
  exists lvd n, stores buf 0 (replicate (Z.to_nat levels_size) 0) = Some (lvd, n) /\
    length lvd = length buf /\ levels_rep t lvd (fun _ _ => 0).
Proof.
  unfold levels_size, TX_PAD_HOR, TX_PAD_VER, TX_PAD_TOP, TX_PAD_BOTTOM, TX_PAD_END. intros Hl.
  destruct (txb_geometry t) as (_ & _ & Hw & Hh). set (m := Z.to_nat _).
  assert (Z.of_nat m = (h + 4) * (w + 4) + 16) as Em by (unfold m; nia).
  destruct (stores_ok (replicate m 0) buf 0) as (lvd & -> & L & E & _);
    [lia | rewrite length_replicate; lia |].
  rewrite length_replicate in *. do 2 eexists. split; [reflexivity |]. split; [done |]. intros c r Hc Hr.
  assert (0 <= c * (h + 4) + r < (w + 4) * (h + 4)) by nia.
  rewrite arr_get_nth by lia. f_equal.
  rewrite <- (Z.add_0_l (c * (h + 4) + r)), E, nthz_replicate by lia. done.
Qed.

Lemma cleared_rep buf : levels_size <= Z.of_nat (length buf) -> block_ok t ty b ->
  exists lvd n, stores buf 0 (replicate (Z.to_nat levels_size) 0) = Some (lvd, n) /\
    levels_rep t lvd (dec_level t so C eob).
Proof.
  intros Hl Hb. destruct (cleared_zero buf Hl) as (lvd & n & E & _ & Hz). exists lvd, n. split; [done |].
  revert Hz. apply levels_rep_ext. intros c r Hc Hr. by rewrite (dec_level_eob t ty b Hb).
Qed.

Section Magnitudes.
Context (pt : Z) (lv cc buf : list Z).
Context (Hpt : 0 <= pt < 2) (Hb : block_ok t ty b) (Hrep : levels_rep t lv (enc_level t C)).
Context (Hcl : w * h <= Z.of_nat (length cc)) (Hcc : forall i, 0 <= i < eob -> nthz cc (pos i) = ctx_of t ty b lv i).
Context (Hbuf : levels_size <= Z.of_nat (length buf)).

Lemma transfers_first_level : eob = 1 -> exists lvd',
  transfers 5 (write_levels al t cls pt (scan so) 1 b lv cc) (read_last_coeff t pt (scan so) cls 1 buf) tt lvd' /\
  forall i, 0 <= i < eob -> arr_get lvd' (get_padded_idx (pos i) bhl) = Some (Z.min (Z.abs (coef i)) 15).
Proof.
  intros E1. assert (pos 0 = 0) as E0 by apply (so_ok t ty).
  assert (get_padded_idx (pos 0) bhl = 0) as Ep by (rewrite E0; unfold get_padded_idx; by rewrite Z.shiftr_0_l).
  assert (0 < levels_size) as Hls.
  { unfold levels_size, TX_PAD_HOR, TX_PAD_VER, TX_PAD_TOP, TX_PAD_BOTTOM, TX_PAD_END.
    destruct (txb_geometry t) as (_ & _ & Hw & Hh). nia. }
  destruct (arr_set_ok buf 0 (Z.min (Z.abs (coef 0)) 15) ltac:(lia)) as (lvd' & Es & L & E & _).
  exists lvd'. split.
  - apply (transfers_le _ _ (5 + 0)); [lia |]. cbn [write_levels]. change (Z.of_nat 0) with 0.
    apply transfers_tail_w. pose proof (transfers_last al Hal adaptive t ty pt b Hpt Hb lv cc Hrep Hcl Hcc buf lvd') as T.
    rewrite E1 in T. apply T. change (1 - 1) with 0. by rewrite Ep.
  - intros i Hi. replace i with 0 by lia. rewrite Ep, arr_get_nth, E by lia. done.
Qed.

Lemma transfers_many_levels : 1 < eob -> exists lvd', levels_rep t lvd' (dec_level t so C 0) /\
  transfers (5 * eob) (write_levels al t cls pt (scan so) (Z.to_nat eob) b lv cc)
    (read_magnitudes t pt (scan so) cls eob buf) tt lvd'.
Proof.
  intros He. destruct (cleared_rep buf Hbuf Hb) as (l0 & n0 & Es0 & Hd0). destruct (bk_eob _ _ _ Hb) as [_ He2].
  destruct (dec_level_set t so (so_ok t ty) C l0 (eob - 1) ltac:(lia)) as (l1 & Es & Hd1).
  { by replace (eob - 1 + 1) with eob by lia. }
  pose proof (transfers_last al Hal adaptive t ty pt b Hpt Hb lv cc Hrep Hcl Hcc l0 l1 Es) as T1.
  replace (Z.to_nat eob) with (S (S (Z.to_nat (eob - 2)))) by lia. set (n := Z.to_nat (eob - 2)).
  assert (Z.of_nat (S n) = eob - 1) as En by lia. rewrite <- En in Hd1.
  assert (exists l2, levels_rep t l2 (dec_level t so C 0) /\
    transfers (5 * Z.of_nat (S n)) (write_levels al t cls pt (scan so) (S n) b lv cc)
      match cls with
      | TX_CLASS_2D => levels ← read_coeffs_reverse_2d t pt (scan so) n 1 l1;
                       read_coeffs_reverse t pt (scan so) 1 cls 0 levels
      | _ => read_coeffs_reverse t pt (scan so) (S n) cls 0 l1
      end tt l2) as (l2 & Hd2 & T2).
  { pose proof (transfers_levels al Hal adaptive t ty pt b Hpt Hb lv cc Hrep Hcl Hcc (S n) l1 ltac:(lia) Hd1).
    destruct cls eqn:E2; [| done ..].
    pose proof (transfers_levels_2d al Hal adaptive t ty pt b Hpt Hb lv cc Hrep Hcl Hcc n l1 E2 ltac:(lia) Hd1) as H2.
    rewrite E2 in H2. done. }
  exists l2. split; [done |]. unfold read_magnitudes. fold levels_size.
  rewrite (proj2 (Z.ltb_lt 1 eob)), Es0, r_lift_some by lia. cbv beta iota zeta.
  change (write_levels al t cls pt (scan so) (S (S n)) b lv cc)
    with (_ ← write_level al t cls pt (scan so) b lv cc (Z.of_nat (S n));
          write_levels al t cls pt (scan so) (S n) b lv cc).
  replace (5 * eob) with (5 + 5 * Z.of_nat (S n)) by lia. rewrite En in T2 |- *.
  replace (Z.to_nat (eob - 1)) with (S n) by lia.
  eapply transfers_bind; [exact T1 | exact T2].
Qed.

Lemma transfers_magnitudes : exists lvd',
  transfers (5 * eob) (write_levels al t cls pt (scan so) (Z.to_nat eob) b lv cc)
    (read_magnitudes t pt (scan so) cls eob buf) tt lvd' /\
  forall i, 0 <= i < eob -> arr_get lvd' (get_padded_idx (pos i) bhl) = Some (Z.min (Z.abs (coef i)) 15).
Proof.
  destruct (bk_eob _ _ _ Hb) as [He1 He2]. destruct (Z.eq_dec eob 1) as [E1 | Hn].
  - destruct (transfers_first_level E1) as (l & T & H). exists l. split; [| done].
    unfold read_magnitudes. rewrite E1. apply transfers_pre with (a := (buf, 0)); [done |].
    cbv beta iota zeta. eapply transfers_post; [exact T | done].
  - destruct (transfers_many_levels ltac:(lia)) as (l & Hl & T). exists l. split; [done |].
    by apply rep_positions.
Qed.
End Magnitudes.

Section Call.
Context (cm : frame_params) (xe xd : MACROBLOCKD) (row col plane qz : Z) (sk : bool).
Context (ctx : TXB_CTX) (q : TX_TYPE -> dequantizer) (lbuf cbuf dbuf tcoeffs : list Z).

(** The encoder ([xe]) and the decoder ([xd]) are at the same block.  For luma the type is
    one the encoder may choose and has its place in the decoder's map; for chroma the
    decoder derives it as the encoder does. *)
Record same_block : Prop := {
  sb_mi : xd_mi xe = xd_mi xd;
  sb_lossless : xd_lossless xe = xd_lossless xd;
  sb_qindex : xd_qindex xe = xd_qindex xd;
  sb_type : av1_get_tx_type xe (get_plane_type plane) row col t (fp_reduced_tx_set_used cm) = Some ty;
  sb_luma : plane = 0 -> tx_state_ok cm xd qz sk /\ tx_type_allowed cm xd qz sk t ty /\
    0 <= row * xd_tx_type_map_stride xd + col < Z.of_nat (length (xd_tx_type_map xd));
  sb_chroma : plane <> 0 ->
    av1_get_tx_type xd (get_plane_type plane) row col t (fp_reduced_tx_set_used cm) = Some ty }.

(** [get_txb_ctx] gave both sides the same contexts; the encoder has packed them. *)
Record same_contexts : Prop := {
  sc_skip : Z.land (txb_entropy_ctx b) TXB_SKIP_CTX_MASK = txb_skip_ctx ctx;
  sc_skip_range : 0 <= txb_skip_ctx ctx < TXB_SKIP_CONTEXTS;
  sc_dc : nthz C 0 <> 0 ->
    Z.land (Z.shiftr (txb_entropy_ctx b) DC_SIGN_CTX_SHIFT) DC_SIGN_CTX_MASK = dc_sign_ctx ctx;
  sc_dc_range : 0 <= dc_sign_ctx ctx < DC_SIGN_CONTEXTS }.

(** The buffers are as large as the block needs. *)
Record buffers_ok : Prop := {
  bo_levels : levels_size <= Z.of_nat (length lbuf);
  bo_contexts : w * h <= Z.of_nat (length cbuf);
  bo_dec_levels : levels_size <= Z.of_nat (length dbuf);
  bo_coeffs : w * h <= Z.of_nat (length tcoeffs);
  bo_dequant : dequantizer_ok (q ty) (w * h) }.

(** [xd] with the type of the block in its map. *)
Definition typed_xd : MACROBLOCKD :=
  if plane =? 0
  then set_tx_type_map xd (<[Z.to_nat (row * xd_tx_type_map_stride xd + col) := tx_type_value ty]> (xd_tx_type_map xd))
  else xd.

Lemma typed_xd_type : same_block ->
  av1_get_tx_type typed_xd (get_plane_type plane) row col t (fp_reduced_tx_set_used cm) = Some ty.
Proof.
  intros [Em El _ Ht Hl Hc]. unfold typed_xd. destruct (Z.eqb_spec plane 0) as [-> | Hn]; [| by apply Hc].
  destruct (Hl eq_refl) as (_ & _ & Hr). revert Ht. unfold av1_get_tx_type, get_plane_type. simpl.
  rewrite Em, El. destruct (arr_get (xd_lossless xd) _) as [l|]; [| done]. cbn [mbind option_bind].
  destruct (negb (l =? 0) || _); [done |]. intros _. unfold arr_get.
  rewrite (proj2 (Z.leb_le 0 _)), list_lookup_insert_eq by lia. cbn [mbind option_bind].
  apply tx_type_of_value.
Qed.

(** The result of reading the block. *)
Record txb_recovered (o : txb_read) : Prop := {
  rc_eob : rd_eob o = eob;
  rc_xd : rd_xd o = typed_xd;
  rc_length : length (rd_coeffs o) = length tcoeffs;
  rc_coded : forall i, 0 <= i < w * h -> coef i <> 0 ->
    dequantize (q ty) (pos i) (Z.abs (coef i)) (coef i <? 0) = Some (nthz (rd_coeffs o) (pos i));
  rc_kept : forall p, 0 <= p -> (p < w * h -> nthz C p = 0) -> nthz (rd_coeffs o) p = nthz tcoeffs p;
  rc_context : av1_get_txb_entropy_context C (scan so) eob = Some (rd_cul_level o);
  rc_line : forall i, 0 <= i < w * h -> coef i <> 0 -> pos i <= rd_max_scan_line o }.

Lemma signs_recovered o : block_ok t ty b -> signs_read t ty b (q ty) tcoeffs eob o ->
  txb_recovered {| rd_cul_level := u8 (set_dc_sign (Z.min COEFF_CONTEXT_MASK (out_cul_level o)) (out_dc_val o));
    rd_eob := eob; rd_max_scan_line := out_max_scan_line o; rd_coeffs := out_coeffs o; rd_xd := typed_xd |}.
Proof.
  intros Hb Ho. pose proof (entropy_context_read t ty b (q ty) tcoeffs Hb o Ho) as Ec.
  destruct Ho as [L R K _ _ (_ & M & _)], Hb.
  assert (Hin : forall i, 0 <= i < w * h -> coef i <> 0 -> 0 <= i < eob).
  { intros i Hi Hn. destruct (Z_lt_le_dec i eob); [lia |]. by rewrite bk_rest in Hn by lia. }
  split; simpl; try done.
  - intros i Hi Hn. apply R; [by apply Hin | done].
  - intros p Hp Hz. apply K; [done |]. intros i Hi Hn <-. apply Hn, Hz.
    pose proof (scan_range _ _ _ (so_ok t ty) i ltac:(lia)). lia.
  - intros i Hi Hn. apply M; [by apply Hin | done].
Qed.

Lemma plane_type_range : 0 <= get_plane_type plane < 2.
Proof. unfold get_plane_type. case_match; lia. Qed.

Lemma transfers_type : same_block -> transfers 1
  (if plane =? 0 then av1_write_tx_type al cm xe ty t else mret tt)
  (if plane =? 0 then av1_read_tx_type cm xd row col t else mret xd) tt typed_xd.
Proof.
  intros [Em El Eq Ht Hl Hc]. unfold typed_xd. destruct (Z.eqb_spec plane 0) as [E | Hn].
  - destruct (Hl E) as (Hs & Ha & Hr). eapply transfers_tx_type; try done.
    unfold arr_set. by rewrite (proj2 (Z.leb_le 0 _)), (proj2 (Z.ltb_lt _ _)) by lia.
  - apply (transfers_le _ _ 0); [lia | apply transfers_ret].
Qed.

Lemma transfers_txb : block_ok t ty b -> same_block -> same_contexts -> buffers_ok ->
  exists o, txb_recovered o /\
  transfers (13 + 46 * eob) (av1_write_coeffs_txb al cm xe row col plane b t lbuf cbuf)
    (read_coeffs_txb cm xd row col plane ctx t q dbuf tcoeffs) tt o.
Proof.
  intros Hb Hsb [Hs Hsr Hd Hdr] [B1 B2 B3 B4 B5]. pose proof plane_type_range as Hpt.
  destruct (bk_eob _ _ _ Hb) as [He1 He2]. destruct (txb_pels t) as (Ep & Hs6 & Hx).
  destruct (init_levels_rep t C lbuf) as (lv & Elv & Hrep);
    [destruct Hb; lia | revert B1; unfold levels_size, TX_PAD_HOR, TX_PAD_VER, TX_PAD_TOP, TX_PAD_BOTTOM, TX_PAD_END; lia |].
  destruct (nz_map_contexts t so (so_ok t ty) cls eob lv (ctx_of t ty b lv) (Z.to_nat eob) 0 cbuf)
    as (cc & Ecc & Lcc & Hcc & _); [| lia .. |].
  { intros j Hj. apply ctx_of_some; [done | done | lia]. }
  destruct (transfers_magnitudes (get_plane_type plane) lv cc dbuf Hpt Hb Hrep) as (lvd & T3 & Hlv);
    [lia | intros; apply Hcc; lia | done |].
  assert (Hdc : coef 0 <> 0 -> 0 <= dc_sign_ctx ctx < 3 /\
    Z.land (Z.shiftr (txb_entropy_ctx b) DC_SIGN_CTX_SHIFT) DC_SIGN_CTX_MASK = dc_sign_ctx ctx).
  { rewrite (scan_first _ _ _ (so_ok t ty)). intros Hnz. split; [done | by apply Hd]. }
  destruct (transfers_signs al Hal adaptive t ty (get_plane_type plane) b (q ty) tcoeffs Hpt Hb B5 B4
    (dc_sign_ctx ctx) lvd Hdc Hlv (Z.to_nat eob) 0 _ ltac:(lia) ltac:(lia)
    (signs_read_start t ty b (q ty) tcoeffs)) as (o & Ho & T4).
  eexists. split; [by apply signs_recovered |]. unfold av1_write_coeffs_txb, read_coeffs_txb. cbv zeta.
  rewrite Hs. apply (transfers_le _ _ (1 + (1 + (11 + (5 * eob + 41 * Z.of_nat (Z.to_nat eob)))))); [lia |].
  rewrite (proj2 (Z.eqb_neq eob 0)) by lia.
  eapply transfers_bind; [apply transfers_symbol; [done | | reflexivity | simpl; lia] |].
  { unfold TXB_SKIP_CONTEXTS in Hsr. layout. }
  cbv beta. cbn [b2z Z.eqb negb]. rewrite (sb_type Hsb), w_lift_some.
  eapply transfers_bind; [by apply transfers_type |]. cbv beta.
  rewrite (typed_xd_type Hsb), r_lift_some.
  eapply transfers_bind; [by apply transfers_eob |]. cbv beta.
  unfold set_levels. change (Z.to_nat (TX_PAD_TOP * (h + TX_PAD_HOR))) with 0%nat. rewrite drop_0, Elv, w_lift_some.
  unfold av1_get_nz_map_contexts. rewrite Ecc, w_lift_some.
  eapply transfers_bind; [exact T3 |]. cbv beta.
  eapply transfers_post; [exact T4 | done].
Qed.

(** A block without coefficients. *)
Lemma transfers_txb_empty : eob = 0 -> Z.land (txb_entropy_ctx b) TXB_SKIP_CTX_MASK = txb_skip_ctx ctx ->
  0 <= txb_skip_ctx ctx < TXB_SKIP_CONTEXTS ->
  (plane = 0 -> 0 <= row * xd_tx_type_map_stride xd + col < Z.of_nat (length (xd_tx_type_map xd))) ->
  transfers 1 (av1_write_coeffs_txb al cm xe row col plane b t lbuf cbuf)
    (read_coeffs_txb cm xd row col plane ctx t q dbuf tcoeffs) tt
    {| rd_cul_level := 0; rd_eob := 0; rd_max_scan_line := 0; rd_coeffs := tcoeffs;
       rd_xd := if plane =? 0
                then set_tx_type_map xd (<[Z.to_nat (row * xd_tx_type_map_stride xd + col) := tx_type_value DCT_DCT]>
                       (xd_tx_type_map xd))
                else xd |}.
Proof.
  intros E0 Hs Hsr Hm. destruct (txb_pels t) as (_ & _ & Hx). unfold av1_write_coeffs_txb, read_coeffs_txb. cbv zeta.
  rewrite Hs, E0, Z.eqb_refl. apply (transfers_le _ _ (1 + 0)); [lia |].
  eapply transfers_bind; [apply transfers_symbol; [done | | reflexivity | simpl; lia] |].
  { unfold TXB_SKIP_CONTEXTS in Hsr. layout. }
  cbv beta. cbn [b2z Z.eqb negb]. destruct (Z.eqb_spec plane 0) as [Ep | Hn]; [| apply transfers_ret].
  specialize (Hm Ep). unfold arr_set. rewrite (proj2 (Z.leb_le 0 _)), (proj2 (Z.ltb_lt _ _)) by lia.
  apply transfers_ret.
Qed.
End Call.
End Block.

