(* ===== verification/CoefSafety.v ===== *)
(** * Coefficients from arbitrary data

    [read_coeffs_txb] on any bytes: the end of block stays inside the block, every access
    to the levels, scans, contexts and coefficient buffers is inside them, the loops end,
    and the coefficients that come out are in the range of the bit depth. *)

From S2P Require Import Prelude CodecTypes BitChannel EntCoder RangeSpec Cdf EntEncProof EntDecProof EntRoundTrip SymbolIO SyntaxIO TileSafety TxCommon TxbContext ScanTables Scan DefaultCdfs FrameContext TxType Coefs CoefLevels CoefsProof CoefBlock.

#[local] Arguments Z.of_nat : simpl never.
#[local] Arguments Z.mul : simpl never.

(** ** Golomb codes *)

Lemma safe_golomb_zeros fuel l : 0 <= l <= 20 -> 21 <= l + Z.of_nat fuel ->
  safe (fun n => 1 <= n <= 20) (golomb_zeros_loop fuel l).
Proof.
  revert l. induction fuel as [|fuel IH]; intros l Hl Hf; cbn [golomb_zeros_loop]; [lia |].
  eapply safe_bind; [apply safe_bit |]. intros i Hi. cbv zeta.
  destruct (Z.ltb_spec 20 (l + 1)); [apply safe_raise |].
  destruct (i =? 0); [apply IH; lia | apply safe_ret; lia].
Qed.

Lemma safe_golomb_bits n x : 1 <= x ->
  safe (fun v => x * 2 ^ Z.of_nat n <= v < (x + 1) * 2 ^ Z.of_nat n) (golomb_bits_loop n x).
Proof.
  revert x. induction n as [|n IH]; intros x Hx; cbn [golomb_bits_loop].
  - apply safe_ret. change (2 ^ Z.of_nat 0) with 1. lia.
  - eapply safe_bind; [apply safe_bit |]. intros b Hb. cbv beta in Hb.
    rewrite Z.shiftl_mul_pow2 by lia. change (2 ^ 1) with 2.
    eapply safe_weaken; [| apply IH; lia]. intros v. cbv beta.
    rewrite Nat2Z.inj_succ, Z.pow_succ_r by lia. pose proof (pow2_pos (Z.of_nat n) ltac:(lia)). nia.
Qed.

Lemma safe_golomb : safe (fun v => 0 <= v < 2 ^ 20) read_golomb.
Proof.
  unfold read_golomb. eapply safe_bind; [apply safe_golomb_zeros; simpl; lia |]. intros n Hn. cbv beta in Hn.
  eapply safe_bind; [apply safe_golomb_bits; lia |]. intros x Hx. cbv beta in Hx. apply safe_ret.
  rewrite Z2Nat.id in Hx by lia. pose proof (pow2_pos (n - 1) ltac:(lia)).
  assert (2 ^ (n - 1) <= 2 ^ 19) by (apply pow2_le; lia). lia.
Qed.

(** ** Magnitudes and positions *)

Lemma safe_br n lev key : in_layout key = true -> alphabet key = BR_CDF_SIZE ->
  safe (fun v => lev <= v <= lev + 3 * Z.of_nat n) (read_br n lev key).
Proof.
  intros Hk Ha. revert lev. induction n as [|n IH]; intros lev; cbn [read_br]; [apply safe_ret; lia |].
  eapply safe_bind; [by apply safe_symbol |]. intros k Hv. cbv beta in Hv. unfold BR_CDF_SIZE in *.
  destruct (Z.ltb_spec k (4 - 1)); [apply safe_ret; lia |].
  eapply safe_weaken; [| apply IH]. cbv beta. lia.
Qed.

Lemma safe_eob_extra n i bits acc : i + Z.of_nat n = bits -> 0 <= i ->
  safe (fun v => acc <= v < acc + 2 ^ Z.of_nat n) (read_eob_extra n i bits acc).
Proof.
  revert i acc. induction n as [|n IH]; intros i acc Hn Hi; cbn [read_eob_extra].
  - apply safe_ret. change (2 ^ Z.of_nat 0) with 1. lia.
  - eapply safe_bind; [apply safe_bit |]. intros b Hb. cbv beta in Hb.
    replace (bits - 1 - i) with (Z.of_nat n) by lia. rewrite Z.shiftl_1_l.
    eapply safe_weaken; [| apply IH; lia]. intros v. cbv beta.
    replace (Z.of_nat (S n)) with (Z.of_nat n + 1) by lia. rewrite Z.pow_add_r, Z.pow_1_r by lia.
    pose proof (pow2_pos (Z.of_nat n) ltac:(lia)). destruct (b =? 0); lia.
Qed.

(** Every token a model can give names positions of the block. *)
Definition eob_groups_ok (s : Z) : bool :=
  forallb (fun j => let tk := Z.of_nat j in
    match arr_get av1_eob_group_start tk, arr_get av1_eob_offset_bits tk with
    | Some start, Some bits =>
        (1 <=? start) && (0 <=? bits) && (bits <=? 9) && (start + (2 ^ bits - 1) <=? 2 ^ (4 + s)) &&
        ((bits =? 0) || (3 <=? tk))
    | _, _ => false
    end) (seq 1 (Z.to_nat (5 + s))).

Lemma eob_groups_checked : forallb eob_groups_ok [0; 1; 2; 3; 4; 5; 6] = true.
Proof. vm_compute. reflexivity. Qed.

Lemma eob_group s tk : 0 <= s <= 6 -> 1 <= tk <= 5 + s -> exists start bits,
  arr_get av1_eob_group_start tk = Some start /\ arr_get av1_eob_offset_bits tk = Some bits /\
  1 <= start /\ 0 <= bits <= 9 /\ start + (2 ^ bits - 1) <= 2 ^ (4 + s) /\ (0 < bits -> 3 <= tk).
Proof.
  intros Hs Htk. pose proof eob_groups_checked as H. rewrite forallb_forall in H.
  assert (s = 0 \/ s = 1 \/ s = 2 \/ s = 3 \/ s = 4 \/ s = 5 \/ s = 6) as Hc by lia.
  specialize (H s ltac:(simpl; intuition)). unfold eob_groups_ok in H. rewrite forallb_forall in H.
  specialize (H (Z.to_nat tk) ltac:(apply in_seq; lia)). cbv zeta in H. rewrite Z2Nat.id in H by lia.
  destruct (arr_get av1_eob_group_start tk) as [start|]; [| done].
  destruct (arr_get av1_eob_offset_bits tk) as [bits|]; [| done].
  exists start, bits. split_and!; try done; lia.
Qed.

Lemma safe_eob t cls pt : 0 <= pt < 2 ->
  safe (fun e => 1 <= e <= get_txb_wide t * get_txb_high t) (read_eob t cls pt).
Proof.
  intros Hp. destruct (txb_pels t) as (Ep & Hs & Hx). rewrite Ep.
  assert (0 <= eob_multi_ctx cls < 2) as Hc by (destruct cls; simpl; lia).
  destruct (eob_flag_ok _ pt _ Hs Hp Hc) as (Hk & Hn & Ha). unfold read_eob.
  destruct (eob_flag_cdf _ _ _) as [key n]. cbn [fst snd] in *. subst n.
  eapply safe_bind; [by apply safe_symbol |]. intros s Hsym. cbv beta zeta in *.
  destruct (eob_group _ (s + 1) Hs ltac:(lia)) as (start & bits & Es & Eb & H1 & Hb & Hle & H3).
  rewrite Eb, r_lift_some.
  eapply (safe_bind (fun x => 0 <= x < 2 ^ bits)).
  - destruct (Z.ltb_spec 0 bits).
    + eapply safe_bind; [apply safe_symbol; [layout | reflexivity] |]. intros b Hb'. cbv beta in Hb'.
      eapply safe_weaken; [| apply safe_eob_extra; lia]. intros v. cbv beta.
      rewrite Z2Nat.id, Z.shiftl_1_l by lia.
      assert (2 ^ bits = 2 * 2 ^ (bits - 1)) by (rewrite <- Z.pow_succ_r by lia; f_equal; lia).
      pose proof (pow2_pos (bits - 1) ltac:(lia)). destruct (b =? 0); lia.
    + apply safe_ret. pose proof (pow2_pos bits ltac:(lia)). lia.
  - intros x Hx'. cbv beta in Hx'. eapply safe_lift; [unfold rec_eob_pos; rewrite Es; reflexivity |].
    cbn. destruct (2 <? start); lia.
Qed.

(** ** Levels *)

Section Levels.
Context (t : TX_SIZE) (ty : TX_TYPE) (pt : Z) (Hpt : 0 <= pt < 2).
#[local] Abbreviation w := (get_txb_wide t).
#[local] Abbreviation h := (get_txb_high t).
#[local] Abbreviation bhl := (get_txb_bhl t).
#[local] Abbreviation so := (get_scan t ty).
#[local] Abbreviation cls := (tx_type_to_class ty).
#[local] Abbreviation pos i := (nthz (scan so) i).

(** An array of levels of at most 15. *)
Definition levels_fine (lv : list Z) : Prop :=
  exists f, levels_rep t lv f /\ forall c r, 0 <= f c r <= 15.

Lemma fine_bounded f : (forall c r, 0 <= f c r <= 15) -> level_bounded f.
Proof. intros Hf c r. specialize (Hf c r). lia. Qed.

Lemma scan_cell i : 0 <= i < w * h -> exists c r, arr_get (scan so) i = Some (c * h + r) /\ 0 <= c < w /\ 0 <= r < h.
Proof.
  intros Hi. destruct (txb_geometry t) as (_ & _ & _ & Hh). pose proof (get_scan_ok t ty) as Hs.
  rewrite (scan_get Hs) by done.
  destruct (cell_of w h (pos i)) as (c & r & -> & Hc & Hr); [lia | by apply Hs |]. by exists c, r.
Qed.

Lemma fine_set lv c r level : levels_fine lv -> 0 <= c < w -> 0 <= r < h -> 0 <= level <= 15 ->
  exists lv', arr_set lv (get_padded_idx (c * h + r) bhl) (u8 level) = Some lv' /\ levels_fine lv'.
Proof.
  intros (f & Hrep & Hf) Hc Hr Hl. rewrite padded_cell by done.
  assert (u8 level = level) as -> by (unfold u8, wrap; apply Z.mod_small; lia).
  destruct (levels_rep_set t lv f c r level Hrep Hc Hr) as (lv' & E & Hrep'). exists lv'. split; [done |].
  eexists. split; [exact Hrep' |]. intros c' r'. cbv beta. case_match; [lia | apply Hf].
Qed.

Lemma safe_rest level k : 0 <= level <= 3 -> 0 <= k < 21 ->
  safe (fun v => 0 <= v <= 15) (if NUM_BASE_LEVELS <? level then read_br 4 level (br_cdf t pt k) else mret level).
Proof.
  intros Hl Hk. destruct (txb_pels t) as (_ & _ & Hx). destruct (NUM_BASE_LEVELS <? level); [| apply safe_ret; lia].
  eapply safe_weaken; [| apply (safe_br 4)]; [cbv beta; lia | | reflexivity].
  unfold br_cdf. change (tx_size_value TX_32X32) with 3. layout.
Qed.

(** The steps both readers of a magnitude share. *)
Lemma safe_level_with lv c r base rest ctx k : levels_fine lv -> 0 <= c < w -> 0 <= r < h ->
  base = Some ctx -> 0 <= ctx < 42 -> rest = Some k -> 0 <= k < 21 ->
  safe levels_fine
    (coeff_ctx ← r_lift base;
     level ← r_symbol (F_coeff_base_cdf, [get_txsize_entropy_ctx t; pt; coeff_ctx]) 4;
     level ← (if NUM_BASE_LEVELS <? level then br_ctx ← r_lift rest; read_br 4 level (br_cdf t pt br_ctx)
              else mret level);
     r_lift (arr_set lv (get_padded_idx (c * h + r) bhl) (u8 level))).
Proof.
  intros Hlv Hc Hr -> Hctx -> Hk. rewrite r_lift_some. destruct (txb_pels t) as (_ & _ & Hx).
  eapply safe_bind; [apply safe_symbol; [layout | reflexivity] |]. intros level Hl. cbv beta in Hl.
  rewrite r_lift_some. eapply safe_bind; [apply safe_rest; [lia | done] |]. intros v Hv. cbv beta in Hv.
  destruct (fine_set lv c r v Hlv Hc Hr Hv) as (lv' & E & Hlv'). by eapply safe_lift.
Qed.

Lemma base_ctx_fine lv f c r cl : levels_rep t lv f -> (forall c r, 0 <= f c r <= 15) -> 0 <= c < w -> 0 <= r < h ->
  exists ctx, get_lower_levels_ctx lv (c * h + r) bhl t cl = Some ctx /\ 0 <= ctx < 42.
Proof.
  intros Hrep Hf Hc Hr. unfold get_lower_levels_ctx. rewrite (nz_mag_rep t Hrep (fine_bounded f Hf) Hc Hr).
  cbn [mbind option_bind]. apply nz_ctx_range; [done | done |].
  pose proof (nz_sum_range f cl c r (fine_bounded f Hf)). lia.
Qed.

Lemma safe_level i lv : 0 <= i < w * h -> levels_fine lv -> safe levels_fine (read_level t pt (scan so) cls i lv).
Proof.
  intros Hi Hlv. unfold read_level. destruct (scan_cell i Hi) as (c & r & -> & Hc & Hr). rewrite r_lift_some.
  destruct Hlv as (f & Hrep & Hf). destruct (base_ctx_fine lv f c r cls Hrep Hf Hc Hr) as (ctx & Ectx & Hctx).
  eapply safe_level_with; [by exists f | done | done | exact Ectx | done | by apply br_ctx_rep |].
  apply br_context_range, fine_bounded, Hf.
Qed.

Lemma safe_level_2d i lv : 0 < i < w * h -> levels_fine lv -> safe levels_fine (read_level_2d t pt (scan so) i lv).
Proof.
  intros Hi Hlv. unfold read_level_2d. destruct (scan_cell i ltac:(lia)) as (c & r & E & Hc & Hr).
  pose proof (get_scan_ok t ty) as Hs. assert (c * h + r <> 0) as Hn.
  { rewrite (scan_get Hs) in E by lia. injection E as E. rewrite <- E. intros E0.
    pose proof (scan_first _ _ _ Hs). pose proof (scan_inj Hs 0 i ltac:(lia) ltac:(lia) ltac:(congruence)). lia. }
  rewrite E, r_lift_some. destruct Hlv as (f & Hrep & Hf).
  destruct (base_ctx_fine lv f c r TX_CLASS_2D Hrep Hf Hc Hr) as (ctx & Ectx & Hctx).
  eapply safe_level_with; [by exists f | done | done | | exact Hctx | |].
  - rewrite <- Ectx. apply (lower_levels_2d t Hrep (fine_bounded f Hf) Hc Hr Hn).
  - apply (br_ctx_2d t Hrep Hc Hr Hn). apply Hf.
  - apply br_context_range, fine_bounded, Hf.
Qed.

Lemma safe_levels n lv : Z.of_nat n <= w * h -> levels_fine lv ->
  safe levels_fine (read_coeffs_reverse t pt (scan so) n cls 0 lv).
Proof.
  revert lv. induction n as [|n IH]; intros lv Hn Hlv; cbn [read_coeffs_reverse]; [by apply safe_ret |].
  eapply safe_bind; [apply safe_level; [lia | done] |]. intros lv' Hlv'. apply IH; [lia | done].
Qed.

Lemma safe_levels_2d n lv : Z.of_nat n + 1 <= w * h -> levels_fine lv ->
  safe levels_fine (read_coeffs_reverse_2d t pt (scan so) n 1 lv).
Proof.
  revert lv. induction n as [|n IH]; intros lv Hn Hlv; cbn [read_coeffs_reverse_2d]; [by apply safe_ret |].
  eapply safe_bind; [apply safe_level_2d; [lia | done] |]. intros lv' Hlv'. apply IH; [lia | done].
Qed.

(** The first magnitude read: only its own cell is known to hold a level. *)
Lemma safe_last eob buf : 1 <= eob <= w * h -> levels_size t <= Z.of_nat (length buf) ->
  safe (fun lv => exists v c r, 0 <= v <= 15 /\ arr_get (scan so) (eob - 1) = Some (c * h + r) /\ 0 <= c < w /\ 0 <= r < h /\
          arr_set buf (get_padded_idx (c * h + r) bhl) (u8 v) = Some lv)
    (read_last_coeff t pt (scan so) cls eob buf).
Proof.
  intros He Hb. destruct (scan_cell (eob - 1) ltac:(lia)) as (c & r & E & Hc & Hr). unfold read_last_coeff.
  destruct (txb_pels t) as (_ & _ & Hx). pose proof (eob_ctx_range t (eob - 1)).
  rewrite E, r_lift_some. cbv zeta. eapply safe_bind; [apply safe_symbol; [layout | reflexivity] |].
  intros s Hs. cbv beta in Hs. rewrite br_ctx_eob by done.
  eapply safe_bind; [apply safe_rest; [lia |] |]; [apply br_context_range; intros ? ?; lia |].
  intros v Hv. cbv beta in Hv. rewrite padded_cell by done.
  destruct (arr_set_ok buf (c * (h + 4) + r) (u8 v)) as (lv & Es & _).
  { revert Hb. unfold levels_size, TX_PAD_HOR, TX_PAD_VER, TX_PAD_TOP, TX_PAD_BOTTOM, TX_PAD_END. nia. }
  eapply safe_lift; [exact Es |]. exists v, c, r. rewrite padded_cell by done.
  split_and!; done || lia.
Qed.

(** What the loop over the signs relies on. *)
Definition positions_known (eob : Z) (lv : list Z) : Prop :=
  forall i, 0 <= i < eob -> exists v, arr_get lv (get_padded_idx (pos i) bhl) = Some v /\ 0 <= v <= 15.

Lemma fine_known eob lv : eob <= w * h -> levels_fine lv -> positions_known eob lv.
Proof.
  intros He (f & Hrep & Hf) i Hi. destruct (scan_cell i ltac:(lia)) as (c & r & E & Hc & Hr).
  rewrite (scan_get (get_scan_ok t ty)) in E by lia. injection E as ->.
  rewrite padded_cell by done. exists (f c r). split; [apply Hrep; lia | apply Hf].
Qed.

Lemma safe_magnitudes eob buf : 1 <= eob <= w * h -> levels_size t <= Z.of_nat (length buf) ->
  safe (positions_known eob) (read_magnitudes t pt (scan so) cls eob buf).
Proof.
  intros He Hb. unfold read_magnitudes. fold (levels_size t). cbv zeta. destruct (Z.ltb_spec 1 eob) as [H1 | H1].
  - destruct (cleared_zero t buf Hb) as (l0 & n0 & -> & L0 & Hz). rewrite r_lift_some. cbv beta iota.
    unfold set_levels. change (Z.to_nat (TX_PAD_TOP * (h + TX_PAD_HOR))) with 0%nat. rewrite drop_0.
    eapply safe_bind; [apply safe_last; [done | lia] |]. intros l1 (v & c & r & Hv & E & Hc & Hr & Es).
    assert (levels_fine l1) as Hf1.
    { destruct (fine_set l0 c r v) as (l & E' & Hl); [| done | done | done |].
      - exists (fun _ _ => 0). split; [done | lia].
      - by simplify_eq. }
    eapply safe_weaken; [intros lv Hlv; apply (fine_known eob lv); [lia | exact Hlv] |].
    pose proof (safe_levels (Z.to_nat (eob - 1)) l1 ltac:(lia) Hf1) as Hl. destruct cls eqn:Ec; [| done ..].
    eapply safe_bind; [apply safe_levels_2d; [lia | done] |]. intros l2 Hl2. cbv beta.
    rewrite <- Ec. apply safe_levels; [lia | done].
  - assert (eob = 1) as -> by lia. eapply (safe_bind (fun p => p.1 = buf)); [by apply safe_ret |].
    intros [b0 n0] Eb. simpl in Eb. subst b0. cbv iota.
    unfold set_levels. change (Z.to_nat (TX_PAD_TOP * (h + TX_PAD_HOR))) with 0%nat. rewrite drop_0.
    eapply safe_bind; [apply safe_last; [done | lia] |]. intros l1 (v & c & r & Hv & E & Hc & Hr & Es).
    apply safe_ret. intros i Hi. replace i with 0 by lia. change (1 - 1) with 0 in E.
    rewrite (scan_get (get_scan_ok t ty)) in E by lia. injection E as ->.
    assert (u8 v = v) as Ev by (unfold u8, wrap; apply Z.mod_small; lia).
    exists v. split; [| done]. rewrite Ev in Es. revert Es. apply arr_get_set.
Qed.
End Levels.

(** ** Signs and values *)

(** The range of a coefficient at the bit depth. *)
Definition coeff_in_range (q : dequantizer) (v : Z) : Prop := - 2 ^ (7 + dq_bd q) <= v <= 2 ^ (7 + dq_bd q) - 1.

Lemma dequantize_range q n p level sign : dequantizer_ok q n -> 0 <= p < n -> 0 <= dq_bd q ->
  exists v, dequantize q p level sign = Some v /\ coeff_in_range q v.
Proof.
  intros Hq Hp Hb. destruct (dequantize_some q n p level sign Hq Hp) as (v & E). exists v. split; [done |].
  revert E. unfold dequantize. destruct (get_dqv _ _ _) as [dqv|]; [| done]. cbn [mbind option_bind].
  intros [= <-]. unfold coeff_in_range, clamp. rewrite !Z.shiftl_1_l. pose proof (pow2_pos (7 + dq_bd q) ltac:(lia)).
  repeat case_match; lia.
Qed.

Section Signs.
Context (t : TX_SIZE) (ty : TX_TYPE) (pt : Z) (q : dequantizer) (tcoeffs : list Z).
#[local] Abbreviation w := (get_txb_wide t).
#[local] Abbreviation h := (get_txb_high t).
#[local] Abbreviation so := (get_scan t ty).

Definition out_fine (o : txb_out) : Prop :=
  length (out_coeffs o) = length tcoeffs /\ 0 <= out_cul_level o /\ 0 <= out_max_scan_line o < w * h /\
  (Forall (coeff_in_range q) tcoeffs -> Forall (coeff_in_range q) (out_coeffs o)).

Context (Hpt : 0 <= pt < 2) (Hq : dequantizer_ok q (w * h)) (Hbd : 0 <= dq_bd q).
Context (Htc : w * h <= Z.of_nat (length tcoeffs)).
Context (eob dctx : Z) (lv : list Z) (He : eob <= w * h) (Hd : 0 <= dctx < DC_SIGN_CONTEXTS).
Context (Hlv : positions_known t ty eob lv).

Lemma safe_sign c o : 0 <= c < eob -> out_fine o -> safe out_fine (read_sign t pt (scan so) q dctx lv c o).
Proof.
  intros Hc (L & S & M & F). pose proof (get_scan_ok t ty) as Hs. unfold DC_SIGN_CONTEXTS in Hd. unfold read_sign.
  rewrite (scan_get Hs), r_lift_some by lia. destruct (Hlv c Hc) as (v & -> & Hv). rewrite r_lift_some.
  pose proof (scan_range _ _ _ Hs c ltac:(lia)) as Hp. set (p := nthz (scan so) c) in *.
  destruct (v =? 0); [by apply safe_ret |].
  eapply (safe_bind (fun _ => True)).
  { destruct (c =? 0); (eapply safe_weaken; [done |]); [| apply safe_bit].
    apply safe_symbol; [layout | reflexivity]. }
  intros sign _. eapply (safe_bind (fun x => 0 <= x)).
  { destruct (MAX_BASE_BR_RANGE <=? v); [| apply safe_ret; lia].
    eapply safe_bind; [apply safe_golomb |]. intros g Hg. cbv beta in Hg. apply safe_ret. lia. }
  intros level Hl. cbv beta zeta in *.
  destruct (dequantize_range q (w * h) p (Z.land level 1048575) (negb (sign =? 0)) Hq Hp Hbd) as (dq & -> & Hdq).
  rewrite r_lift_some. destruct (arr_set_ok (out_coeffs o) p dq ltac:(lia)) as (co & Es & Lc & _).
  rewrite Es, r_lift_some. apply safe_ret. split_and!; cbn; try lia.
  - assert (0 <= Z.land level 1048575) by (apply Z.land_nonneg; lia). lia.
  - intros Hf. specialize (F Hf). revert Es. unfold arr_set. case_match; [| done]. intros [= <-].
    by apply Forall_insert.
Qed.

Lemma safe_signs n c o : 0 <= c -> c + Z.of_nat n <= eob -> out_fine o ->
  safe out_fine (read_signs t pt (scan so) n c q dctx lv o).
Proof.
  revert c o. induction n as [|n IH]; intros c o Hc Hn Ho; cbn [read_signs]; [by apply safe_ret |].
  eapply safe_bind; [apply safe_sign; [lia | done] |]. intros o' Ho'. apply IH; [lia | lia | done].
Qed.
End Signs.

(** ** Transform types *)

Lemma inv_values s i : 0 <= i < av1_num_ext_tx_set s ->
  exists ty, arr_get (av1_ext_tx_inv s) i = Some (tx_type_value ty).
Proof.
  assert (H : forallb (fun s => forallb (fun j => match arr_get (av1_ext_tx_inv s) (Z.of_nat j) with
      | Some v => match zget TX_TYPES v with Some ty => tx_type_value ty =? v | None => false end
      | None => false end) (seq 0 (Z.to_nat (av1_num_ext_tx_set s))))
    [EXT_TX_SET_DCTONLY; EXT_TX_SET_DCT_IDTX; EXT_TX_SET_DTT4_IDTX; EXT_TX_SET_DTT4_IDTX_1DDCT;
     EXT_TX_SET_DTT9_IDTX_1DDCT; EXT_TX_SET_ALL16] = true) by (vm_compute; reflexivity).
  intros Hi. rewrite forallb_forall in H. specialize (H s ltac:(destruct s; simpl; tauto)).
  rewrite forallb_forall in H. specialize (H (Z.to_nat i) ltac:(apply in_seq; lia)). cbv beta in H.
  rewrite Z2Nat.id in H by lia. destruct (arr_get _ i) as [v|]; [| done].
  destruct (zget TX_TYPES v) as [ty|]; [| done]. exists ty. f_equal. lia.
Qed.

(** What a decoder relies on when it reads the type of a block. *)
Record tx_read_ok (cm : frame_params) (xd : MACROBLOCKD) (row col plane : Z) (t : TX_SIZE) : Prop := {
  tr_luma : plane = 0 -> (exists q skip, tx_state_ok cm xd q skip) /\
    (exists l, arr_get (xd_lossless xd) (mb_segment_id (xd_mi xd)) = Some l) /\
    0 <= row * xd_tx_type_map_stride xd + col < Z.of_nat (length (xd_tx_type_map xd));
  tr_chroma : plane <> 0 -> exists ty,
    av1_get_tx_type xd (get_plane_type plane) row col t (fp_reduced_tx_set_used cm) = Some ty }.

(** The reader's state afterwards: a type is found, and only the map has changed. *)
Definition typed (cm : frame_params) (xd : MACROBLOCKD) (row col plane : Z) (t : TX_SIZE) (xd' : MACROBLOCKD) : Prop :=
  (exists ty, av1_get_tx_type xd' (get_plane_type plane) row col t (fp_reduced_tx_set_used cm) = Some ty) /\
  (exists m, length m = length (xd_tx_type_map xd) /\ xd' = set_tx_type_map xd m).

Lemma set_typed cm xd row col t m ty l :
  arr_get (xd_lossless xd) (mb_segment_id (xd_mi xd)) = Some l ->
  arr_get m (row * xd_tx_type_map_stride xd + col) = Some (tx_type_value ty) ->
  length m = length (xd_tx_type_map xd) -> typed cm xd row col 0 t (set_tx_type_map xd m).
Proof.
  intros El Em L. split; [| by exists m]. unfold av1_get_tx_type, get_plane_type. simpl.
  rewrite El. cbn [mbind option_bind]. case_match; [by exists DCT_DCT |].
  rewrite Em. cbn [mbind option_bind]. exists ty. apply tx_type_of_value.
Qed.

Lemma safe_read_tx_type cm xd row col t : tx_read_ok cm xd row col 0 t ->
  safe (typed cm xd row col 0 t) (av1_read_tx_type cm xd row col t).
Proof.
  intros [H _]. destruct (H eq_refl) as ((q & skip & [Eq Hq0 _ Es Hd]) & (l & El) & Hr).
  unfold av1_read_tx_type. cbv zeta. set (at_ := row * xd_tx_type_map_stride xd + col) in *.
  destruct (arr_set_ok (xd_tx_type_map xd) at_ (tx_type_value DCT_DCT) Hr) as (m & Em & Lm & _).
  rewrite Em, r_lift_some, Es, r_lift_some, Eq.
  assert (typed cm xd row col 0 t (set_tx_type_map xd m)) as Hm.
  { eapply set_typed; [exact El | by eapply arr_get_set | done]. }
  destruct (mb_skip_txfm (xd_mi xd) || skip); [by apply safe_ret |]. rewrite r_lift_some.
  destruct (q =? 0); [by apply safe_ret |].
  set (inter := is_inter_block (xd_mi xd)) in *. set (red := fp_reduced_tx_set_used cm).
  destruct (Z.ltb_spec 1 (get_ext_tx_types t inter red)) as [Hn |]; [| by apply safe_ret].
  eapply (safe_bind (fun s => 0 <= s < get_ext_tx_types t inter red)).
  - destruct inter eqn:Ei.
    + destruct (ext_tx_models t true red 0 Hn ltac:(unfold INTRA_MODES; lia)) as [Hk Ha]. by apply safe_symbol.
    + destruct (Hd eq_refl) as (d & -> & Hdr). rewrite r_lift_some.
      destruct (ext_tx_models t false red d Hn Hdr) as [Hk Ha]. by apply safe_symbol.
  - intros s Hs. cbv beta in Hs. destruct (inv_values _ s Hs) as (ty & ->). rewrite r_lift_some.
    destruct (arr_set_ok m at_ (tx_type_value ty) ltac:(lia)) as (m' & Em' & Lm' & _). rewrite Em', r_lift_some.
    apply safe_ret. eapply set_typed; [exact El | by eapply arr_get_set | lia].
Qed.

Lemma same_xd xd : xd = set_tx_type_map xd (xd_tx_type_map xd).
Proof. by destruct xd. Qed.

(** A luma block without coefficients has the default type. *)
Lemma typed_read cm xd row col plane t : tx_read_ok cm xd row col plane t ->
  typed cm xd row col plane t
    (if plane =? 0
     then set_tx_type_map xd (<[Z.to_nat (row * xd_tx_type_map_stride xd + col) := tx_type_value DCT_DCT]> (xd_tx_type_map xd))
     else xd).
Proof.
  intros [Hl Hc]. destruct (Z.eqb_spec plane 0) as [-> | Hn].
  - destruct (Hl eq_refl) as (_ & (l & El) & Hr). eapply set_typed; [exact El | | by rewrite length_insert].
    unfold arr_get. rewrite (proj2 (Z.leb_le 0 _)) by lia. apply list_lookup_insert_eq. lia.
  - split; [by apply Hc |]. exists (xd_tx_type_map xd). split; [done | apply same_xd].
Qed.

(** ** A block *)

Section Block.
Context (bd : Z) (cm : frame_params) (xd : MACROBLOCKD) (row col plane : Z) (ctx : TXB_CTX) (t : TX_SIZE).
Context (q : TX_TYPE -> dequantizer) (dbuf tcoeffs : list Z).
#[local] Abbreviation w := (get_txb_wide t).
#[local] Abbreviation h := (get_txb_high t).

(** What the decoder has set up before it reads a block. *)
Record readable : Prop := {
  re_type : tx_read_ok cm xd row col plane t;
  re_skip : 0 <= txb_skip_ctx ctx < TXB_SKIP_CONTEXTS;
  re_dc : 0 <= dc_sign_ctx ctx < DC_SIGN_CONTEXTS;
  re_dequant : forall ty, dequantizer_ok (q ty) (w * h) /\ dq_bd (q ty) = bd;
  re_levels : levels_size t <= Z.of_nat (length dbuf);
  re_coeffs : w * h <= Z.of_nat (length tcoeffs) }.

Definition coeff_depth (v : Z) : Prop := - 2 ^ (7 + bd) <= v <= 2 ^ (7 + bd) - 1.

(** What any data leaves. *)
Record read_fine (o : txb_read) : Prop := {
  rf_eob : 0 <= rd_eob o <= w * h;
  rf_line : 0 <= rd_max_scan_line o < w * h;
  rf_context : 0 <= rd_cul_level o < 24;
  rf_length : length (rd_coeffs o) = length tcoeffs;
  rf_range : Forall coeff_depth tcoeffs -> Forall coeff_depth (rd_coeffs o);
  rf_xd : typed cm xd row col plane t (rd_xd o) }.

Lemma dc_sign_range cul dc : 0 <= cul ->
  0 <= u8 (set_dc_sign (Z.min COEFF_CONTEXT_MASK cul) dc) < 24.
Proof.
  intros Hc. change COEFF_CONTEXT_MASK with 7. unfold set_dc_sign.
  change (Z.shiftl 1 COEFF_CONTEXT_BITS) with 8. change (Z.shiftl 2 COEFF_CONTEXT_BITS) with 16.
  assert (0 <= Z.min 7 cul < 8) as Hm by lia. set (m := Z.min 7 cul) in *.
  assert (m = 0 \/ m = 1 \/ m = 2 \/ m = 3 \/ m = 4 \/ m = 5 \/ m = 6 \/ m = 7) as Hcases by lia.
  destruct Hcases as [-> | [-> | [-> | [-> | [-> | [-> | [-> | ->]]]]]]];
    destruct (dc <? 0), (0 <? dc); vm_compute; split; congruence.
Qed.

Lemma safe_type_step : readable ->
  safe (typed cm xd row col plane t)
    (if plane =? 0 then av1_read_tx_type cm xd row col t else mret xd).
Proof.
  intros [Ht _ _ _ _ _]. destruct (Z.eqb_spec plane 0) as [-> | Hn]; [by apply safe_read_tx_type |].
  apply safe_ret. split; [by apply (tr_chroma _ _ _ _ _ _ Ht) |]. exists (xd_tx_type_map xd).
  split; [done | apply same_xd].
Qed.

Lemma safe_read_coeffs : 0 <= bd -> readable ->
  safe read_fine (read_coeffs_txb cm xd row col plane ctx t q dbuf tcoeffs).
Proof.
  intros Hbd Hre. pose proof (plane_type_range plane) as Hpt. destruct (txb_geometry t) as (_ & _ & Hw & Hh).
  destruct (txb_pels t) as (_ & _ & Hx). unfold read_coeffs_txb. cbv zeta.
  eapply safe_bind.
  { apply safe_symbol; [| reflexivity]. pose proof (re_skip Hre) as Hs. unfold TXB_SKIP_CONTEXTS in Hs. layout. }
  intros z _. destruct (negb (z =? 0)).
  - eapply (safe_bind (typed cm xd row col plane t)).
    + pose proof (typed_read _ _ _ _ _ _ (re_type Hre)) as Ht. destruct (Z.eqb_spec plane 0) as [E0 | Hn].
      * destruct (tr_luma _ _ _ _ _ _ (re_type Hre) E0) as (_ & _ & Hr).
        unfold arr_set. rewrite (proj2 (Z.leb_le 0 _)), (proj2 (Z.ltb_lt _ _)) by lia. cbn [andb].
        rewrite r_lift_some. by apply safe_ret.
      * by apply safe_ret.
    + intros xd' Hxd. apply safe_ret. split; cbn; try done; nia.
  - eapply safe_bind; [by apply safe_type_step |]. intros xd' Htd. destruct (Htd) as ((ty & Ety) & _). rewrite Ety, r_lift_some.
    destruct (re_dequant Hre ty) as [Hq Hqb].
    eapply safe_bind; [by apply safe_eob |]. intros eob He. cbv beta in He.
    eapply safe_bind; [apply safe_magnitudes; [done | done | apply Hre] |]. intros lv Hlv.
    eapply safe_bind.
    { apply (safe_signs t ty (get_plane_type plane) (q ty) tcoeffs Hpt Hq ltac:(lia) (re_coeffs Hre) eob (dc_sign_ctx ctx) lv
        ltac:(lia) (re_dc Hre) Hlv); [lia | lia |].
      split_and!; cbn; try done; nia. }
    intros o (L & S & M & F). apply safe_ret. split; cbn; try done; [lia | by apply dc_sign_range |].
    revert F. unfold coeff_in_range, coeff_depth. by rewrite Hqb.
Qed.
End Block.
