(* ===== verification/CoefTile.v ===== *)
(** * The coefficients of a tile

    The encoder records the transform blocks of a tile first
    ([av1_record_txb_context], [av1/encoder/encodetxb.c]), with the contexts packed for the
    writing pass, and writes them later; the decoder computes the contexts as it reads
    ([av1_read_coeffs_txb], [av1/decoder/decodetxb.c]).  Both keep the contexts above and to
    the left of each plane.  For any sequence of blocks the two stay in step, and on any
    bytes the decoder stays inside its arrays. *)

From S2P Require Import Prelude CodecTypes BitChannel EntCoder RangeSpec Cdf EntEncProof EntDecProof EntRoundTrip SymbolIO SyntaxIO TileSafety TxCommon TxbContext ScanTables Scan DefaultCdfs FrameContext TxType Coefs CoefLevels CoefsProof CoefBlock CoefSafety.

#[local] Arguments Z.of_nat : simpl never.
#[local] Arguments Z.mul : simpl never.

(** ** State *)

(** [above_entropy_context] and [left_entropy_context] of each plane. *)
Definition ectxs : Type := Z -> list Z * list Z.

Definition set_ectx (st : ectxs) (plane : Z) (p : list Z * list Z) : ectxs :=
  fun k => if k =? plane then p else st k.

(** A block: where it is, and what the two sides have at hand for it. *)
Record tile_txb := {
  tt_bsize : BLOCK_SIZE;       (* plane_bsize *)
  tt_edges : block_edges;
  tt_size : TX_SIZE; tt_row : Z; tt_col : Z; tt_plane : Z;
  tt_cm : frame_params;
  (* the encoder: [xd], [eob], [qcoeff], the coefficient buffer, the stack *)
  tt_xe : MACROBLOCKD; tt_eob : Z; tt_qcoeff : list Z; tt_tcoeff : list Z;
  tt_levels : list Z; tt_contexts : list Z;
  (* the decoder: [xd], the dequantizer, the stack, the coefficient buffer *)
  tt_xd : MACROBLOCKD; tt_dequant : TX_TYPE -> dequantizer; tt_dec_levels : list Z; tt_coeffs : list Z }.

(** ** The encoder's recording pass *)

Definition av1_get_max_eob (tx_size : TX_SIZE) : Z :=
  match tx_size with
  | TX_64X64 | TX_64X32 | TX_32X64 => 1024
  | TX_16X64 | TX_64X16 => 512
  | _ => tx_size_wide tx_size * tx_size_high tx_size
  end.

Definition av1_get_tx_eob (cm : frame_params) (segment_id : Z) (tx_size : TX_SIZE) : option Z :=
  skip ← segfeature_active cm segment_id SEG_LVL_SKIP;
  Some (if (skip : bool) then 0 else av1_get_max_eob tx_size).

(** The recorded block and the contexts after it. *)
Definition av1_record_txb_context (st : ectxs) (x : tile_txb) : option (txb * ectxs) :=
  let '(above, lefts) := st (tt_plane x) in
  tx_type ← av1_get_tx_type (tt_xe x) (get_plane_type (tt_plane x)) (tt_row x) (tt_col x) (tt_size x)
              (fp_reduced_tx_set_used (tt_cm x));
  let scan := scan (get_scan (tt_size x) tx_type) in
  txb_ctx ← get_txb_ctx (tt_bsize x) (tt_size x) (tt_plane x) (drop (Z.to_nat (tt_col x)) above)
              (drop (Z.to_nat (tt_row x)) lefts);
  let entropy_ctx := u8 (txb_skip_ctx txb_ctx) in
  if tt_eob x =? 0 then
    p ← av1_set_entropy_contexts (tt_edges x) above lefts (tt_bsize x) (tt_size x) 0 (tt_col x) (tt_row x);
    Some ({| txb_eob := 0; txb_entropy_ctx := entropy_ctx; txb_coeff := tt_tcoeff x |}, set_ectx st (tt_plane x) p)
  else
    seg_eob ← av1_get_tx_eob (tt_cm x) (mb_segment_id (xd_mi (tt_xe x))) (tt_size x);
    src ← mapM (fun j => arr_get (tt_qcoeff x) (Z.of_nat j)) (seq 0 (Z.to_nat seg_eob));
    '(tcoeff, _) ← stores (tt_tcoeff x) 0 src;
    v0 ← arr_get tcoeff 0;
    let entropy_ctx :=
      if negb (v0 =? 0) then u8 (Z.lor entropy_ctx (Z.shiftl (dc_sign_ctx txb_ctx) DC_SIGN_CTX_SHIFT))
      else entropy_ctx in
    cul_level ← av1_get_txb_entropy_context tcoeff scan (tt_eob x);
    p ← av1_set_entropy_contexts (tt_edges x) above lefts (tt_bsize x) (tt_size x) cul_level (tt_col x) (tt_row x);
    Some ({| txb_eob := tt_eob x; txb_entropy_ctx := entropy_ctx; txb_coeff := tcoeff |}, set_ectx st (tt_plane x) p).

Fixpoint record_txbs (st : ectxs) (xs : list tile_txb) : option (list txb * ectxs) :=
  match xs with
  | [] => Some ([], st)
  | x :: xs' =>
      '(b, st) ← av1_record_txb_context st x;
      '(bs, st) ← record_txbs st xs';
      Some (b :: bs, st)
  end.

(** The writing pass. *)
Fixpoint write_txbs (al : allocator) (xs : list tile_txb) (bs : list txb)
  : writer (aom_writer * cdfs fc_key) unit :=
  match xs, bs with
  | x :: xs', b :: bs' =>
      _ ← av1_write_coeffs_txb al (tt_cm x) (tt_xe x) (tt_row x) (tt_col x) (tt_plane x) b (tt_size x)
            (tt_levels x) (tt_contexts x);
      write_txbs al xs' bs'
  | _, _ => mret tt
  end.

(** ** The decoder *)

(** [for (v = 0; v < n; v += step)] *)
Definition steps (n step : Z) : list Z :=
  (fun i => Z.of_nat i * step) <$> seq 0 (Z.to_nat ((n + step - 1) / step)).

(** Stores of [v] at the offsets. *)
Fixpoint store_each (m : list Z) (at_ : list Z) (v : Z) : option (list Z) :=
  match at_ with
  | [] => Some m
  | i :: at_' => m ← arr_set m i v; store_each m at_' v
  end.

(** The places of the type map a 64-sample transform fills. *)
Definition filled_places (xd : MACROBLOCKD) (row col : Z) (tx_size : TX_SIZE) : list Z :=
  let txw := tx_size_wide_unit tx_size in
  let txh := tx_size_high_unit tx_size in
  if (txw =? tx_size_wide_unit TX_64X64) || (txh =? tx_size_high_unit TX_64X64) then
    let tx_unit := tx_size_wide_unit TX_16X16 in
    idy ← steps txh tx_unit; idx ← steps txw tx_unit;
    [(row + idy) * xd_tx_type_map_stride xd + col + idx]
  else [].

(** Result: what [read_coeffs_txb] gives, the final [xd], and the contexts. *)
Definition av1_read_coeffs_txb (st : ectxs) (x : tile_txb)
  : reader (aom_reader * cdfs fc_key) (txb_read * MACROBLOCKD * ectxs) :=
  let plane := tt_plane x in
  let '(above, lefts) := st plane in
  txb_ctx ← r_lift (get_txb_ctx (tt_bsize x) (tt_size x) plane (drop (Z.to_nat (tt_col x)) above)
                      (drop (Z.to_nat (tt_row x)) lefts));
  o ← read_coeffs_txb (tt_cm x) (tt_xd x) (tt_row x) (tt_col x) plane txb_ctx (tt_size x) (tt_dequant x)
        (tt_dec_levels x) (tt_coeffs x);
  p ← r_lift (av1_set_entropy_contexts (tt_edges x) above lefts (tt_bsize x) (tt_size x) (rd_cul_level o)
                (tt_col x) (tt_row x));
  let xd := rd_xd o in
  xd ← (if is_inter_block (xd_mi xd) then
          tx_type ← r_lift (av1_get_tx_type xd (get_plane_type plane) (tt_row x) (tt_col x) (tt_size x)
                              (fp_reduced_tx_set_used (tt_cm x)));
          if plane =? 0 then
            m ← r_lift (store_each (xd_tx_type_map xd) (filled_places xd (tt_row x) (tt_col x) (tt_size x))
                          (tx_type_value tx_type));
            mret (set_tx_type_map xd m)
          else mret xd
        else mret xd);
  mret (o, xd, set_ectx st plane p).

Fixpoint read_txbs (st : ectxs) (xs : list tile_txb)
  : reader (aom_reader * cdfs fc_key) (list (txb_read * MACROBLOCKD) * ectxs) :=
  match xs with
  | [] => mret ([], st)
  | x :: xs' =>
      '(o, xd, st) ← av1_read_coeffs_txb st x;
      '(os, st) ← read_txbs st xs';
      mret ((o, xd) :: os, st)
  end.

(** ** Contexts stay valid *)

Section Contexts.
(** The sizes of the two context arrays of each plane. *)
Context (shape : Z -> Z * Z).

Record ectxs_ok (st : ectxs) : Prop := {
  es_shape : forall k, Z.of_nat (length (st k).1) = (shape k).1 /\ Z.of_nat (length (st k).2) = (shape k).2;
  es_valid : forall k, Forall ectx_ok (st k).1 /\ Forall ectx_ok (st k).2 }.

(** The block lies inside the arrays and starts inside the frame. *)
Record site_ok (x : tile_txb) : Prop := {
  so_above : 0 <= tt_col x /\ tt_col x + tx_size_wide_unit (tt_size x) <= (shape (tt_plane x)).1;
  so_left : 0 <= tt_row x /\ tt_row x + tx_size_high_unit (tt_size x) <= (shape (tt_plane x)).2;
  so_right : mb_to_right_edge (tt_edges x) < 0 -> tt_col x <= max_block_wide (tt_edges x) (tt_bsize x);
  so_bottom : mb_to_bottom_edge (tt_edges x) < 0 -> tt_row x <= max_block_high (tt_edges x) (tt_bsize x) }.

Lemma site_edges st x : ectxs_ok st -> site_ok x ->
  edges_ok (tt_size x) (drop (Z.to_nat (tt_col x)) (st (tt_plane x)).1) (drop (Z.to_nat (tt_row x)) (st (tt_plane x)).2).
Proof.
  intros [Hs Hv] [Ha Hl _ _]. destruct (Hs (tt_plane x)) as [La Ll]. destruct (Hv (tt_plane x)) as [Va Vl].
  split; rewrite ?length_drop; [lia | lia | |]; by apply Forall_take, Forall_drop.
Qed.

Lemma site_ctx st x : ectxs_ok st -> site_ok x ->
  exists ctx, get_txb_ctx (tt_bsize x) (tt_size x) (tt_plane x) (drop (Z.to_nat (tt_col x)) (st (tt_plane x)).1)
    (drop (Z.to_nat (tt_row x)) (st (tt_plane x)).2) = Some ctx /\
    0 <= txb_skip_ctx ctx < TXB_SKIP_CONTEXTS /\ 0 <= dc_sign_ctx ctx < DC_SIGN_CONTEXTS.
Proof.
  intros Hst Hx. eexists. split; [by apply get_txb_ctx_rule, site_edges |]. cbn.
  split; [apply skip_rule_range | apply dc_rule_range].
Qed.

Lemma site_set st x cul : ectxs_ok st -> site_ok x -> ectx_ok cul ->
  exists p, av1_set_entropy_contexts (tt_edges x) (st (tt_plane x)).1 (st (tt_plane x)).2 (tt_bsize x) (tt_size x) cul
    (tt_col x) (tt_row x) = Some p /\ ectxs_ok (set_ectx st (tt_plane x) p).
Proof.
  intros [Hs Hv] [Ha Hl Hr Hb] Hc. destruct (Hs (tt_plane x)) as [La Ll]. destruct (Hv (tt_plane x)) as [Va Vl].
  destruct (units_range (tt_size x)) as [Uw Uh]. unfold av1_set_entropy_contexts.
  assert (Hr' : (mb_to_right_edge (tt_edges x) <? 0) = true -> tt_col x <= max_block_wide (tt_edges x) (tt_bsize x))
    by (intros; apply Hr; lia).
  assert (Hb' : (mb_to_bottom_edge (tt_edges x) <? 0) = true -> tt_row x <= max_block_high (tt_edges x) (tt_bsize x))
    by (intros; apply Hb; lia).
  destruct (set_edge_ok (st (tt_plane x)).1 (tt_col x) (tx_size_wide_unit (tt_size x)) cul
    (mb_to_right_edge (tt_edges x) <? 0) (max_block_wide (tt_edges x) (tt_bsize x))) as (a & Ea & _); [lia | lia | lia | done |].
  destruct (fun H1 H2 H3 => set_edge_valid _ _ _ _ _ _ _ Va Hc H1 H2 H3 Hr' Ea) as [La' Va']; [lia .. |].
  destruct (set_edge_ok (st (tt_plane x)).2 (tt_row x) (tx_size_high_unit (tt_size x)) cul
    (mb_to_bottom_edge (tt_edges x) <? 0) (max_block_high (tt_edges x) (tt_bsize x))) as (b & Eb & _); [lia | lia | lia | done |].
  destruct (fun H1 H2 H3 => set_edge_valid _ _ _ _ _ _ _ Vl Hc H1 H2 H3 Hb' Eb) as [Lb' Vb']; [lia .. |].
  rewrite Ea. cbn [mbind option_bind]. rewrite Eb. eexists. split; [done |].
  split; intros k; unfold set_ectx; destruct (Z.eqb_spec k (tt_plane x)) as [-> | _]; cbn;
    try apply Hs; try apply Hv; [lia | done].
Qed.

(** ** The type map *)

Lemma store_each_ok v at_ m : Forall (fun i => 0 <= i < Z.of_nat (length m)) at_ ->
  exists m', store_each m at_ v = Some m' /\ length m' = length m.
Proof.
  revert m. induction at_ as [|i at_ IH]; intros m Hf; cbn [store_each]; [by exists m |].
  apply Forall_cons_1 in Hf as [Hi Hf]. destruct (arr_set_ok m i v Hi) as (m1 & -> & L1 & _).
  cbn [mbind option_bind]. destruct (IH m1) as (m2 & -> & L2); [by rewrite L1 |]. exists m2. split; [done | lia].
Qed.

Definition fill_ok (x : tile_txb) : Prop :=
  is_inter_block (xd_mi (tt_xd x)) = true -> tt_plane x = 0 ->
  Forall (fun i => 0 <= i < Z.of_nat (length (xd_tx_type_map (tt_xd x))))
    (filled_places (tt_xd x) (tt_row x) (tt_col x) (tt_size x)).

(** The last part of [av1_read_coeffs_txb] once a type is known. *)
Lemma fill_total x xd : fill_ok x ->
  typed (tt_cm x) (tt_xd x) (tt_row x) (tt_col x) (tt_plane x) (tt_size x) xd ->
  exists xd' m, length m = length (xd_tx_type_map (tt_xd x)) /\ xd' = set_tx_type_map (tt_xd x) m /\
  forall r, (if is_inter_block (xd_mi xd) then
     tx_type ← r_lift (av1_get_tx_type xd (get_plane_type (tt_plane x)) (tt_row x) (tt_col x) (tt_size x)
                         (fp_reduced_tx_set_used (tt_cm x)));
     if tt_plane x =? 0 then
       m ← r_lift (store_each (xd_tx_type_map xd) (filled_places xd (tt_row x) (tt_col x) (tt_size x))
                     (tx_type_value tx_type));
       mret (set_tx_type_map xd m)
     else mret xd
   else mret (M := reader (aom_reader * cdfs fc_key)) xd) r = Ok (xd', r).
Proof.
  intros Hf ((ty & Ety) & (m & Lm & ->)). rewrite Ety. cbn [xd_mi set_tx_type_map].
  destruct (is_inter_block (xd_mi (tt_xd x))) eqn:Ei; [| by exists (set_tx_type_map (tt_xd x) m), m].
  destruct (Z.eqb_spec (tt_plane x) 0) as [Ep | Hn]; [| by exists (set_tx_type_map (tt_xd x) m), m].
  destruct (store_each_ok (tx_type_value ty) (filled_places (tt_xd x) (tt_row x) (tt_col x) (tt_size x)) m)
    as (m' & Em & Lm'); [rewrite Lm; by apply Hf |].
  exists (set_tx_type_map (tt_xd x) m'), m'. split; [lia |]. split; [by destruct (tt_xd x) |].
  intros r. rewrite r_lift_some. cbn [xd_tx_type_map set_tx_type_map].
  change (filled_places (set_tx_type_map (tt_xd x) m)) with (filled_places (tt_xd x)). rewrite Em.
  by destruct (tt_xd x).
Qed.
End Contexts.

(** ** Recording *)

Lemma max_eob_pels t : av1_get_max_eob t = get_txb_wide t * get_txb_high t.
Proof. by destruct t. Qed.

(** What the coefficient buffer holds after the copy. *)
Lemma copy_coeffs q buf n : 0 <= n -> n <= Z.of_nat (length q) -> n <= Z.of_nat (length buf) ->
  exists src buf' e, mapM (fun j => arr_get q (Z.of_nat j)) (seq 0 (Z.to_nat n)) = Some src /\
    stores buf 0 src = Some (buf', e) /\ length buf' = length buf /\ forall p, 0 <= p < n -> nthz buf' p = nthz q p.
Proof.
  intros Hn Hq Hb. pose proof (mapM_get q 0 (Z.to_nat n) ltac:(lia) ltac:(lia)) as Hm. cbn beta in Hm.
  change (fun j : nat => arr_get q (0 + Z.of_nat j)) with (fun j : nat => arr_get q (Z.of_nat j)) in Hm.
  eexists. destruct (stores_ok ((fun j => nthz q (0 + Z.of_nat j)) <$> seq 0 (Z.to_nat n)) buf 0) as (buf' & Es & L & E & _);
    [lia | rewrite length_fmap, length_seq; lia |]. exists buf'. eexists. split_and!; [exact Hm | exact Es | done |].
  rewrite length_fmap, length_seq in E. intros p Hp. specialize (E p ltac:(lia)). rewrite Z.add_0_l in E. rewrite E.
  rewrite nthz_fmap_seq by lia. f_equal. lia.
Qed.

(** The packed contexts hold both contexts. *)
Lemma packed_skip s : 0 <= s < TXB_SKIP_CONTEXTS -> Z.land (u8 s) TXB_SKIP_CTX_MASK = s.
Proof.
  unfold TXB_SKIP_CONTEXTS. intros Hs. unfold u8, wrap. rewrite Z.mod_small by lia.
  change TXB_SKIP_CTX_MASK with (Z.ones 4). rewrite Z.land_ones by lia. apply Z.mod_small. lia.
Qed.

Lemma packed_both s d : 0 <= s < TXB_SKIP_CONTEXTS -> 0 <= d < DC_SIGN_CONTEXTS ->
  let e := u8 (Z.lor (u8 s) (Z.shiftl d DC_SIGN_CTX_SHIFT)) in
  Z.land e TXB_SKIP_CTX_MASK = s /\ Z.land (Z.shiftr e DC_SIGN_CTX_SHIFT) DC_SIGN_CTX_MASK = d.
Proof.
  assert (H : forallb (fun i => forallb (fun j => let s := Z.of_nat i in let d := Z.of_nat j in
    let e := u8 (Z.lor (u8 s) (Z.shiftl d DC_SIGN_CTX_SHIFT)) in
    (Z.land e TXB_SKIP_CTX_MASK =? s) && (Z.land (Z.shiftr e DC_SIGN_CTX_SHIFT) DC_SIGN_CTX_MASK =? d))
    (seq 0 3)) (seq 0 13) = true) by (vm_compute; reflexivity).
  unfold TXB_SKIP_CONTEXTS, DC_SIGN_CONTEXTS. intros Hs Hd. rewrite forallb_forall in H.
  specialize (H (Z.to_nat s) ltac:(apply in_seq; lia)). rewrite forallb_forall in H.
  specialize (H (Z.to_nat d) ltac:(apply in_seq; lia)). cbv zeta in H |- *. rewrite !Z2Nat.id in H by lia. lia.
Qed.

(** ** A block survives *)

(** The block as the encoder has quantized it. *)
Definition quantized (x : tile_txb) : txb :=
  {| txb_eob := tt_eob x; txb_entropy_ctx := 0; txb_coeff := tt_qcoeff x |}.

Definition block_type (xd : MACROBLOCKD) (x : tile_txb) : option TX_TYPE :=
  av1_get_tx_type xd (get_plane_type (tt_plane x)) (tt_row x) (tt_col x) (tt_size x)
    (fp_reduced_tx_set_used (tt_cm x)).

(** A block with coefficients that the encoder may code with type [ty]. *)
Record coded_ok (x : tile_txb) (ty : TX_TYPE) : Prop := {
  co_block : block_ok (tt_size x) ty (quantized x);
  co_same : exists qz sk, same_block (tt_size x) ty (tt_cm x) (tt_xe x) (tt_xd x) (tt_row x) (tt_col x) (tt_plane x) qz sk;
  co_buffers : buffers_ok (tt_size x) ty (tt_dequant x) (tt_levels x) (tt_contexts x) (tt_dec_levels x) (tt_coeffs x);
  co_tcoeff : get_txb_wide (tt_size x) * get_txb_high (tt_size x) <= Z.of_nat (length (tt_tcoeff x));
  co_segment : segfeature_active (tt_cm x) (mb_segment_id (xd_mi (tt_xe x))) SEG_LVL_SKIP = Some false }.

Record tile_txb_ok (x : tile_txb) : Prop := {
  to_read : tx_read_ok (tt_cm x) (tt_xd x) (tt_row x) (tt_col x) (tt_plane x) (tt_size x);
  to_fill : fill_ok x;
  to_type : exists ty, block_type (tt_xe x) x = Some ty /\ (tt_eob x <> 0 -> coded_ok x ty) }.

(** The coefficient at a position of the block as the decoder gets it: nothing is sent
    of a block with [eob] 0. *)
Definition sent_coeff (x : tile_txb) (p : Z) : Z := if tt_eob x =? 0 then 0 else nthz (tt_qcoeff x) p.

Record decoded (x : tile_txb) (o : txb_read) : Prop := {
  de_eob : rd_eob o = tt_eob x;
  de_type : tt_eob x <> 0 -> block_type (rd_xd o) x = block_type (tt_xe x) x;
  de_length : length (rd_coeffs o) = length (tt_coeffs x);
  de_coded : forall ty p, block_type (tt_xe x) x = Some ty ->
    0 <= p < get_txb_wide (tt_size x) * get_txb_high (tt_size x) -> sent_coeff x p <> 0 ->
    dequantize (tt_dequant x ty) p (Z.abs (sent_coeff x p)) (sent_coeff x p <? 0) = Some (nthz (rd_coeffs o) p);
  de_kept : forall p, 0 <= p ->
    (p < get_txb_wide (tt_size x) * get_txb_high (tt_size x) -> sent_coeff x p = 0) ->
    nthz (rd_coeffs o) p = nthz (tt_coeffs x) p }.

(** [block_ok] depends on the coefficients of the block only. *)
Lemma block_ok_copy t ty b b' : block_ok t ty b -> txb_eob b' = txb_eob b ->
  get_txb_wide t * get_txb_high t <= Z.of_nat (length (txb_coeff b')) ->
  (forall p, 0 <= p < get_txb_wide t * get_txb_high t -> nthz (txb_coeff b') p = nthz (txb_coeff b) p) ->
  block_ok t ty b'.
Proof.
  intros [He Hl Hr Hn Hz] Ee Hl' Hc. assert (Hp := scan_range _ _ _ (so_ok t ty)).
  split; rewrite ?Ee; try done.
  - intros i Hi. rewrite Hc by (by apply Hp). by apply Hr.
  - rewrite Hc by (apply Hp; lia). done.
  - intros i Hi. rewrite Hc by (apply Hp; lia). by apply Hz.
Qed.

Lemma typed_xd_map ty xd row col plane :
  exists m, length m = length (xd_tx_type_map xd) /\ typed_xd ty xd row col plane = set_tx_type_map xd m.
Proof.
  unfold typed_xd. destruct (plane =? 0); eexists; (split; [| first [reflexivity | apply same_xd]]);
    [by rewrite length_insert | done].
Qed.

(** What the decoder recovers of the recorded coefficients, in terms of the quantized ones. *)
Lemma recovered_decoded x ty b o : let n := get_txb_wide (tt_size x) * get_txb_high (tt_size x) in
  tt_eob x <> 0 -> block_type (tt_xe x) x = Some ty -> txb_eob b = tt_eob x ->
  (forall p, 0 <= p < n -> nthz (txb_coeff b) p = nthz (tt_qcoeff x) p) ->
  block_type (rd_xd o) x = Some ty ->
  txb_recovered (tt_size x) ty b (tt_xd x) (tt_row x) (tt_col x) (tt_plane x) (tt_dequant x) (tt_coeffs x) o ->
  decoded x o.
Proof.
  intros n Hn Ety Ee Hc Htx [R1 R2 R3 R4 R5 R6 R7]. fold n in R4, R5.
  assert (Hsent : forall p, 0 <= p < n -> sent_coeff x p = nthz (txb_coeff b) p).
  { intros p' Hp'. unfold sent_coeff. rewrite (proj2 (Z.eqb_neq _ _) Hn). symmetry. by apply Hc. }
  split; fold n; try done; [congruence | congruence | |].
  - intros ty' p' Ety' Hp'. rewrite Ety in Ety'. injection Ety' as <-. rewrite (Hsent p' Hp').
    pose proof (scan_iscan _ _ _ (so_ok (tt_size x) ty) p' Hp') as Ei.
    pose proof (R4 (nthz (iscan (get_scan (tt_size x) ty)) p')
      ltac:(by apply (iscan_range _ _ _ (so_ok (tt_size x) ty)))) as R4'. by rewrite Ei in R4'.
  - intros p' Hp' Hz. apply R5; [done |]. intros Hlt. rewrite <- (Hsent p') by lia. by apply Hz.
Qed.

Lemma entropy_context_valid C sc eob v : av1_get_txb_entropy_context C sc eob = Some v -> ectx_ok v.
Proof.
  unfold av1_get_txb_entropy_context. destruct (eob =? 0); [intros [= <-]; unfold ectx_ok; lia |].
  assert (Hn : forall n c acc s, 0 <= acc -> entropy_context_loop n c sc C acc = Some s -> 0 <= s).
  { induction n as [|n IH]; intros c acc s Ha; cbn [entropy_context_loop]; [by intros [= <-] |].
    destruct (arr_get sc c) as [p|]; [| done]. cbn [mbind option_bind].
    destruct (arr_get C p) as [y|]; [| done]. cbn [mbind option_bind].
    destruct (y =? 0); [by apply IH |]. destruct (_ <? _); [intros [= <-]; lia | apply IH; lia]. }
  destruct (entropy_context_loop _ _ _ _ _) as [s|] eqn:Es; [| done]. cbn [mbind option_bind].
  destruct (arr_get C 0) as [v0|]; [| done]. cbn [mbind option_bind]. intros [= <-].
  apply dc_sign_range. by eapply Hn.
Qed.

Section Transfer.
Context (shape : Z -> Z * Z) (al : allocator) (Hal : grants_all al) (adaptive : bool).
#[local] Abbreviation transfers := (transfers al adaptive).

(** The reader once the block itself is read. *)
Lemma transfers_finish N st x ctx m o p : fill_ok x ->
  get_txb_ctx (tt_bsize x) (tt_size x) (tt_plane x) (drop (Z.to_nat (tt_col x)) (st (tt_plane x)).1)
    (drop (Z.to_nat (tt_row x)) (st (tt_plane x)).2) = Some ctx ->
  av1_set_entropy_contexts (tt_edges x) (st (tt_plane x)).1 (st (tt_plane x)).2 (tt_bsize x) (tt_size x)
    (rd_cul_level o) (tt_col x) (tt_row x) = Some p ->
  typed (tt_cm x) (tt_xd x) (tt_row x) (tt_col x) (tt_plane x) (tt_size x) (rd_xd o) ->
  transfers N m (read_coeffs_txb (tt_cm x) (tt_xd x) (tt_row x) (tt_col x) (tt_plane x) ctx (tt_size x) (tt_dequant x)
    (tt_dec_levels x) (tt_coeffs x)) tt o ->
  exists xd', transfers N m (av1_read_coeffs_txb st x) tt (o, xd', set_ectx st (tt_plane x) p).
Proof.
  intros Hf Ec Ep Ht T. destruct (fill_total x (rd_xd o) Hf Ht) as (xd' & mp & _ & _ & E). exists xd'.
  unfold av1_read_coeffs_txb. destruct (st (tt_plane x)) as [above lefts]. cbn [fst snd] in *.
  cbv zeta. rewrite Ec, r_lift_some. eapply transfers_post; [exact T |]. intros r.
  rewrite Ep, r_lift_some. unfold mbind at 1, reader_bind at 1. by rewrite E.
Qed.

Lemma transfers_tile_empty st x : ectxs_ok shape st -> site_ok shape x -> tile_txb_ok x -> tt_eob x = 0 ->
  exists b st' o xd', av1_record_txb_context st x = Some (b, st') /\ ectxs_ok shape st' /\ decoded x o /\
  transfers (13 + 46 * tt_eob x) (av1_write_coeffs_txb al (tt_cm x) (tt_xe x) (tt_row x) (tt_col x) (tt_plane x) b
    (tt_size x) (tt_levels x) (tt_contexts x)) (av1_read_coeffs_txb st x) tt (o, xd', st').
Proof.
  intros Hst Hsite [Hr Hf (ty & Ety & _)] E0. destruct (site_ctx shape st x Hst Hsite) as (ctx & Ec & Hs & Hd).
  destruct (site_set shape st x 0 Hst Hsite ltac:(unfold ectx_ok; lia)) as (p & Ep & Hst').
  set (b := {| txb_eob := 0; txb_entropy_ctx := u8 (txb_skip_ctx ctx); txb_coeff := tt_tcoeff x |}).
  set (o := {| rd_cul_level := 0; rd_eob := 0; rd_max_scan_line := 0; rd_coeffs := tt_coeffs x;
     rd_xd := if tt_plane x =? 0
              then set_tx_type_map (tt_xd x) (<[Z.to_nat (tt_row x * xd_tx_type_map_stride (tt_xd x) + tt_col x) :=
                     tx_type_value DCT_DCT]> (xd_tx_type_map (tt_xd x)))
              else tt_xd x |}).
  pose proof (transfers_txb_empty al Hal adaptive (tt_size x) b (tt_cm x) (tt_xe x) (tt_xd x) (tt_row x) (tt_col x)
    (tt_plane x) ctx (tt_dequant x) (tt_levels x) (tt_contexts x) (tt_dec_levels x) (tt_coeffs x) eq_refl
    (packed_skip _ Hs) Hs (fun E => proj2 (proj2 (tr_luma _ _ _ _ _ _ Hr E)))) as T.
  destruct (transfers_finish 1 st x ctx _ o p Hf Ec Ep (typed_read _ _ _ _ _ _ Hr) T) as (xd' & T').
  exists b, (set_ectx st (tt_plane x) p), o, xd'. split_and!; [| done | | eapply transfers_le; [| exact T']; lia].
  - unfold av1_record_txb_context. unfold block_type in Ety. destruct (st (tt_plane x)) as [above lefts]. cbn [fst snd] in *.
    rewrite Ety. cbn [mbind option_bind]. rewrite Ec. cbn [mbind option_bind]. rewrite E0. cbn [Z.eqb].
    rewrite Ep. done.
  - split; cbn; try done. intros ty' p' _ _. unfold sent_coeff. by rewrite E0.
Qed.

Lemma transfers_tile_coded st x : ectxs_ok shape st -> site_ok shape x -> tile_txb_ok x -> tt_eob x <> 0 ->
  exists b st' o xd', av1_record_txb_context st x = Some (b, st') /\ ectxs_ok shape st' /\ decoded x o /\
  transfers (13 + 46 * tt_eob x) (av1_write_coeffs_txb al (tt_cm x) (tt_xe x) (tt_row x) (tt_col x) (tt_plane x) b
    (tt_size x) (tt_levels x) (tt_contexts x)) (av1_read_coeffs_txb st x) tt (o, xd', st').
Proof.
  intros Hst Hsite [Hr Hf (ty & Ety & Hco)] Hn. destruct (Hco Hn) as [Hb (qz & sk & Hsb) Hbo Htc Hseg].
  destruct (site_ctx shape st x Hst Hsite) as (ctx & Ec & Hs & Hd).
  set (n := get_txb_wide (tt_size x) * get_txb_high (tt_size x)) in *.
  assert (0 <= n) by (unfold n; destruct (txb_geometry (tt_size x)) as (_ & _ & ? & ?); nia).
  destruct (copy_coeffs (tt_qcoeff x) (tt_tcoeff x) n ltac:(lia) (bk_length _ _ _ Hb) Htc) as (src & tc & e & Em & Es & Lc & Hc).
  set (ec := if negb (nthz tc 0 =? 0) then u8 (Z.lor (u8 (txb_skip_ctx ctx)) (Z.shiftl (dc_sign_ctx ctx) DC_SIGN_CTX_SHIFT))
             else u8 (txb_skip_ctx ctx)).
  set (b := {| txb_eob := tt_eob x; txb_entropy_ctx := ec; txb_coeff := tc |}).
  assert (block_ok (tt_size x) ty b) as Hb' by (by eapply block_ok_copy; [exact Hb | | cbn; lia |]).
  assert (same_contexts b ctx) as Hsc.
  { destruct (packed_both _ _ Hs Hd) as [P1 P2]. split; cbn [txb_entropy_ctx txb_coeff b]; try done; unfold ec.
    - destruct (negb (nthz tc 0 =? 0)); [exact P1 | by apply packed_skip].
    - intros H0. rewrite (proj2 (Z.eqb_neq _ _) H0). exact P2. }
  destruct (transfers_txb al Hal adaptive _ _ _ _ _ _ _ _ _ _ _ _ _ _ _ _ _ Hb' Hsb Hsc Hbo) as (o & Ho & T).
  pose proof (entropy_context_valid _ _ _ _ (rc_context _ _ _ _ _ _ _ _ _ _ Ho)) as Hcul.
  destruct (site_set shape st x (rd_cul_level o) Hst Hsite Hcul) as (p & Ep & Hst').
  pose proof (typed_xd_type _ _ _ _ _ _ _ _ _ _ Hsb) as Htx.
  assert (typed (tt_cm x) (tt_xd x) (tt_row x) (tt_col x) (tt_plane x) (tt_size x) (rd_xd o)) as Htd.
  { rewrite (rc_xd _ _ _ _ _ _ _ _ _ _ Ho). split; [by eexists |]. apply typed_xd_map. }
  destruct (transfers_finish _ st x ctx _ o p Hf Ec Ep Htd T) as (xd' & T').
  exists b, (set_ectx st (tt_plane x) p), o, xd'. split_and!; [| done | | exact T'].
  - unfold av1_record_txb_context. unfold block_type in Ety. destruct (st (tt_plane x)) as [above lefts]. cbn [fst snd] in *.
    rewrite Ety. cbn [mbind option_bind]. rewrite Ec. cbn [mbind option_bind].
    rewrite (proj2 (Z.eqb_neq _ _) Hn). unfold av1_get_tx_eob. rewrite Hseg. cbn [mbind option_bind].
    rewrite max_eob_pels. fold n. rewrite Em. cbn [mbind option_bind]. rewrite Es. cbn [mbind option_bind].
    rewrite (arr_get_nth tc 0) by (destruct Hb'; cbn in *; unfold n in *; lia). cbn [mbind option_bind].
    pose proof (rc_context _ _ _ _ _ _ _ _ _ _ Ho) as Hcx. cbn [txb_coeff txb_eob b] in Hcx. rewrite Hcx.
    cbn [mbind option_bind]. rewrite Ep. done.
  - apply (recovered_decoded x ty b o Hn Ety eq_refl Hc); [| exact Ho].
    rewrite (rc_xd _ _ _ _ _ _ _ _ _ _ Ho). exact Htx.
Qed.

Lemma transfers_tile_txb st x : ectxs_ok shape st -> site_ok shape x -> tile_txb_ok x ->
  exists b st' o xd', av1_record_txb_context st x = Some (b, st') /\ ectxs_ok shape st' /\ decoded x o /\
  transfers (13 + 46 * tt_eob x) (av1_write_coeffs_txb al (tt_cm x) (tt_xe x) (tt_row x) (tt_col x) (tt_plane x) b
    (tt_size x) (tt_levels x) (tt_contexts x)) (av1_read_coeffs_txb st x) tt (o, xd', st').
Proof.
  intros. destruct (Z.eq_dec (tt_eob x) 0); [by apply transfers_tile_empty | by apply transfers_tile_coded].
Qed.
End Transfer.

(** ** The tile *)

Definition txbs_events (xs : list tile_txb) : Z := foldr (fun x n => 13 + 46 * tt_eob x + n) 0 xs.

Lemma transfers_tile shape al (Hal : grants_all al) adaptive st xs :
  ectxs_ok shape st -> Forall (site_ok shape) xs -> Forall tile_txb_ok xs ->
  exists bs os st', record_txbs st xs = Some (bs, st') /\ Forall2 decoded xs (fst <$> os) /\ ectxs_ok shape st' /\
  transfers al adaptive (txbs_events xs) (write_txbs al xs bs) (read_txbs st xs) tt (os, st').
Proof.
  intros Hst Hsite Hok. revert st Hst. induction xs as [|x xs IH]; intros st Hst.
  - exists [], [], st. split_and!; try done. apply transfers_ret.
  - apply Forall_cons_1 in Hsite as [Hx Hsite]. apply Forall_cons_1 in Hok as [Ho Hok].
    destruct (transfers_tile_txb shape al Hal adaptive st x Hst Hx Ho) as (b & st1 & o & xd & Er & Hst1 & Hd & T1).
    destruct (IH Hsite Hok st1 Hst1) as (bs & os & st2 & Ers & Hds & Hst2 & T2).
    exists (b :: bs), ((o, xd) :: os), st2. split_and!; [| by constructor | done |].
    + cbn [record_txbs]. rewrite Er. cbn [mbind option_bind]. by rewrite Ers.
    + cbn [write_txbs read_txbs]. eapply transfers_bind; [exact T1 |]. cbv beta iota.
      eapply transfers_post; [exact T2 | done].
Qed.

(** C2: Any sequence of transform blocks of a tile, of any sizes, types and planes, with or
    without coefficients of up to 20 bits, survives from the encoder's recording pass to
    the decoder.  With equal contexts above and to the left at the start,
    [av1_record_txb_context] records every block, and what [av1_write_coeffs_txb] then writes
    in any valid frame context, adaptive or not, [av1_read_coeffs_txb] reads back: the
    end of block, the transform type, the dequantized value of every nonzero coefficient
    with every other place of the coefficient buffer untouched.  Both sides end with the
    same models and the same contexts, and the reader has not run past the data. *)
Theorem tile_coeffs_roundtrip shape al adaptive st xs fc :
  grants_all al -> fc_ok fc -> ectxs_ok shape st -> Forall (site_ok shape) xs -> Forall tile_txb_ok xs ->
  15 * (txbs_events xs + 1) < 2 ^ 29 ->
  exists bs os st' fc', record_txbs st xs = Some (bs, st') /\ Forall2 decoded xs (fst <$> os) /\ fc_ok fc' /\
    tile_survives al adaptive (wrun fc (write_txbs al xs bs)) (tt, fc') (rrun fc (read_txbs st xs)) ((os, st'), fc').
Proof.
  intros Hal Hfc Hst Hsite Hok HN.
  destruct (transfers_tile shape al Hal adaptive st xs Hst Hsite Hok) as (bs & os & st' & Er & Hd & _ & T).
  destruct (transfers_survive al Hal adaptive _ _ _ _ _ fc T Hfc HN) as (fc' & Hfc' & Ht).
  by exists bs, os, st', fc'.
Qed.

(** ** Arbitrary data *)

Section Safety.
Context (shape : Z -> Z * Z) (bd : Z) (Hbd : 0 <= bd).

(** What the decoder has set up for a block. *)
Record tile_readable (x : tile_txb) : Prop := {
  ti_site : site_ok shape x;
  ti_fill : fill_ok x;
  ti_read : tx_read_ok (tt_cm x) (tt_xd x) (tt_row x) (tt_col x) (tt_plane x) (tt_size x);
  ti_dequant : forall ty, dequantizer_ok (tt_dequant x ty) (get_txb_wide (tt_size x) * get_txb_high (tt_size x)) /\
    dq_bd (tt_dequant x ty) = bd;
  ti_levels : levels_size (tt_size x) <= Z.of_nat (length (tt_dec_levels x));
  ti_coeffs : get_txb_wide (tt_size x) * get_txb_high (tt_size x) <= Z.of_nat (length (tt_coeffs x)) }.

(** What it has afterwards. *)
Definition tile_read_fine (x : tile_txb) (r : txb_read * MACROBLOCKD) : Prop :=
  read_fine bd (tt_cm x) (tt_xd x) (tt_row x) (tt_col x) (tt_plane x) (tt_size x) (tt_coeffs x) r.1 /\
  exists m, length m = length (xd_tx_type_map (tt_xd x)) /\ r.2 = set_tx_type_map (tt_xd x) m.

Lemma safe_read_coeffs_txb st x : ectxs_ok shape st -> tile_readable x ->
  safe (fun '(o, xd, st') => tile_read_fine x (o, xd) /\ ectxs_ok shape st') (av1_read_coeffs_txb st x).
Proof.
  intros Hst [Hsite Hf Hr Hq Hl Hc]. destruct (site_ctx shape st x Hst Hsite) as (ctx & Ec & Hs & Hd).
  pose proof (fun cul => site_set shape st x cul Hst Hsite) as Hset. unfold av1_read_coeffs_txb.
  destruct (st (tt_plane x)) as [above lefts]. cbn [fst snd] in *. cbv zeta. rewrite Ec, r_lift_some.
  eapply safe_bind; [by apply (safe_read_coeffs bd) |]. intros o Ho.
  destruct (Hset (rd_cul_level o) (rf_context _ _ _ _ _ _ _ _ _ Ho)) as (p & Ep & Hst').
  rewrite Ep, r_lift_some.
  destruct (fill_total x (rd_xd o) Hf (rf_xd _ _ _ _ _ _ _ _ _ Ho)) as (xd' & m & Lm & Em & E).
  eapply (safe_bind (fun xd => xd = xd')).
  - intros r fc Hrs Hfc. by rewrite E.
  - intros xd ->. apply safe_ret. split; [| done]. split; [done |]. by exists m.
Qed.

Lemma safe_read_txbs st xs : ectxs_ok shape st -> Forall tile_readable xs ->
  safe (fun '(os, st') => Forall2 tile_read_fine xs os /\ ectxs_ok shape st') (read_txbs st xs).
Proof.
  intros Hst Hxs. revert st Hst. induction xs as [|x xs IH]; intros st Hst; cbn [read_txbs].
  - apply safe_ret. by split.
  - apply Forall_cons_1 in Hxs as [Hx Hxs].
    eapply safe_bind; [by apply safe_read_coeffs_txb |]. intros [[o xd] st1] [Ho Hst1].
    eapply safe_bind; [by apply IH |]. intros [os st2] [Hos Hst2]. apply safe_ret. split; [by constructor | done].
Qed.
End Safety.

(** C3: Whatever bytes a tile holds, reading any sequence of transform blocks with
    [av1_read_coeffs_txb] ends, never leaves its scans, levels, models, maps, context
    arrays or coefficient buffers, and either reports a corrupt frame or leaves, for
    every block, an end of block and a last position inside the block, a known transform
    type and coefficients in the range of the bit depth; models and contexts stay
    valid, so that the same holds for what is read next. *)
Theorem tile_coeffs_safe shape bd st xs bytes size r0 fc :
  Forall is_byte bytes -> fc_ok fc -> 0 <= bd -> ectxs_ok shape st -> Forall (tile_readable shape bd) xs ->
  match rrun fc (read_txbs st xs) (aom_reader_init r0 (Some bytes) size).2 with
  | Ok ((os, st', fc'), _) => Forall2 (tile_read_fine bd) xs os /\ ectxs_ok shape st' /\ fc_ok fc'
  | Raise e => e = AOM_CODEC_CORRUPT_FRAME
  | Fault => False
  end.
Proof.
  intros Hb Hfc Hbd Hst Hxs.
  pose proof (safe_tile _ _ bytes size r0 fc (safe_read_txbs shape bd Hbd st xs Hst Hxs) Hb Hfc) as H.
  destruct (rrun _ _ _) as [[[[os st'] fc'] r] | e |]; [tauto | exact H | exact H].
Qed.

(** ** An instance *)

(** [block_ok] decided. *)
Definition block_okb (t : TX_SIZE) (ty : TX_TYPE) (b : txb) : bool :=
  let n := get_txb_wide t * get_txb_high t in
  let coef i := nthz (txb_coeff b) (nthz (scan (get_scan t ty)) i) in
  (1 <=? txb_eob b) && (txb_eob b <=? n) && (n <=? Z.of_nat (length (txb_coeff b))) &&
  negb (coef (txb_eob b - 1) =? 0) &&
  forallb (fun j => let i := Z.of_nat j in
    (Z.abs (coef i) <? 2 ^ 20) && ((i <? txb_eob b) || (coef i =? 0))) (seq 0 (Z.to_nat n)).

Lemma block_okb_ok t ty b : block_okb t ty b = true -> block_ok t ty b.
Proof.
  unfold block_okb. rewrite !andb_true_iff, negb_true_iff, forallb_forall.
  intros [[[[H1 H2] H3] H4] H5].
  assert (H : forall i, 0 <= i < get_txb_wide t * get_txb_high t ->
    let v := nthz (txb_coeff b) (nthz (scan (get_scan t ty)) i) in
    (Z.abs v <? 2 ^ 20) = true /\ ((i <? txb_eob b) || (v =? 0)) = true).
  { intros i Hi. specialize (H5 (Z.to_nat i) ltac:(apply in_seq; lia)). cbv zeta in H5.
    rewrite Z2Nat.id, andb_true_iff in H5 by lia. exact H5. }
  split; [lia | lia | | lia |]; intros i Hi; specialize (H i ltac:(lia)); cbv zeta in H; lia.
Qed.

Definition demo_cm : frame_params :=
  {| fp_reduced_tx_set_used := false; fp_seg_enabled := false; fp_seg_feature_mask := replicate 8 0;
     fp_base_qindex := 100 |}.

Definition demo_xd (map : Z) : MACROBLOCKD :=
  {| xd_mi := {| mb_mode := 1; mb_uv_mode := 0; mb_segment_id := 0; mb_skip_txfm := false;
                 mb_use_intrabc := false; mb_ref_frame0 := 0; mb_use_filter_intra := false;
                 mb_filter_intra_mode := 0 |};
     xd_lossless := replicate 8 0; xd_qindex := replicate 8 100; xd_tx_type_map := replicate 16 map;
     xd_tx_type_map_stride := 4; xd_ss_x := 1; xd_ss_y := 1 |}.

Definition demo_txb (t : TX_SIZE) (bsize : BLOCK_SIZE) (plane row col eob : Z) (q : list Z) : tile_txb :=
  {| tt_bsize := bsize;
     tt_edges := {| mb_to_right_edge := -64; mb_to_bottom_edge := 0; eg_ss_x := b2z (negb (plane =? 0));
                    eg_ss_y := b2z (negb (plane =? 0)) |};
     tt_size := t; tt_row := row; tt_col := col; tt_plane := plane; tt_cm := demo_cm;
     tt_xe := demo_xd 11; tt_eob := eob; tt_qcoeff := q; tt_tcoeff := replicate 1024 3;
     tt_levels := replicate 1312 77; tt_contexts := replicate 1024 5;
     tt_xd := demo_xd 0;
     tt_dequant := fun _ => {| dq_bd := 8; dq_dequant := [10; 12]; dq_iqmatrix := None; dq_shift := 0 |};
     tt_dec_levels := replicate 1312 99; tt_coeffs := replicate 1024 0 |}.

(** A luma block with coefficients of all sizes, coded with a one-dimensional transform,
    an empty one, and a chroma block with one coefficient. *)
Definition demo_txbs : list tile_txb :=
  [demo_txb TX_4X4 BLOCK_16X16 0 1 1 13 [-40; 3; 0; -1; 2; 7; 0; 0; -200; 0; 0; 0; 1000000; 0; 0; 0];
   demo_txb TX_4X4 BLOCK_16X16 0 2 1 0 (replicate 16 0);
   demo_txb TX_8X8 BLOCK_8X8 2 0 0 1 (-1 :: replicate 63 0)].

Definition demo_shape (k : Z) : Z * Z := (4, 4).
Definition demo_ectxs : ectxs := fun k => ([0; 18; 9; 3], [23; 0; 0; 1]).

Lemma demo_ectxs_ok : ectxs_ok demo_shape demo_ectxs.
Proof. split; intros k; cbn; [lia |]. split; repeat constructor; unfold ectx_ok; lia. Qed.

Lemma demo_sites : Forall (site_ok demo_shape) demo_txbs.
Proof. repeat constructor; vm_compute; intros; congruence. Qed.

Lemma demo_read_ok t plane row col : plane = 0 \/ plane = 2 -> 0 <= row * 4 + col < 16 ->
  tx_read_ok demo_cm (demo_xd 0) row col plane t.
Proof.
  intros Hp Hr. split.
  - intros _. split_and!; [| by exists 0 | cbn; lia | cbn; lia]. exists 100, false.
    split; try reflexivity; [lia |]. intros _. exists 1. split; [reflexivity | unfold INTRA_MODES; lia].
  - intros Hn. destruct Hp as [-> | ->]; [done |]. destruct t; by eexists.
Qed.

Lemma demo_txbs_ok : Forall tile_txb_ok demo_txbs.
Proof.
  constructor; [| constructor; [| constructor; [| constructor]]].
  - split; [apply demo_read_ok; [by left | cbn; lia] | done |]. exists H_DCT. split; [reflexivity |]. intros _.
    split; [apply block_okb_ok; vm_compute; reflexivity | | | vm_compute; congruence | reflexivity].
    + exists 100, false. split; try reflexivity; [| done]. intros _.
      destruct (tr_luma _ _ _ _ _ _ (demo_read_ok TX_4X4 0 1 1 ltac:(by left) ltac:(lia)) eq_refl) as (_ & _ & Hr).
      split; [| split; [vm_compute; congruence | exact Hr]].
      split; try reflexivity; [lia |]. intros _. exists 1. split; [reflexivity | unfold INTRA_MODES; lia].
    + split; vm_compute; split_and?; try congruence. done.
  - split; [apply demo_read_ok; [by left | cbn; lia] | done |]. exists H_DCT. split; [reflexivity | done].
  - split; [apply demo_read_ok; [by right | cbn; lia] | done |]. exists DCT_DCT. split; [reflexivity |]. intros _.
    split; [apply block_okb_ok; vm_compute; reflexivity | | | vm_compute; congruence | reflexivity].
    + exists 100, false. split; try reflexivity. done.
    + split; vm_compute; split_and?; try congruence. done.
Qed.

Lemma tile_coeffs_roundtrip_witness : exists bs os st' fc',
  record_txbs demo_ectxs demo_txbs = Some (bs, st') /\ Forall2 decoded demo_txbs (fst <$> os) /\ fc_ok fc' /\
  tile_survives demo_alloc true (wrun (default_fc 100) (write_txbs demo_alloc demo_txbs bs)) (tt, fc')
    (rrun (default_fc 100) (read_txbs demo_ectxs demo_txbs)) ((os, st'), fc').
Proof.
  apply (tile_coeffs_roundtrip demo_shape); [apply demo_grants | apply default_fc_ok | apply demo_ectxs_ok |
    apply demo_sites | apply demo_txbs_ok | reflexivity].
Defined.

Lemma demo_readable : Forall (tile_readable demo_shape 8) demo_txbs.
Proof.
  pose proof demo_sites as Hs. constructor; [| constructor; [| constructor; [| constructor]]].
  - split; [by inversion Hs | done | apply demo_read_ok; [by left | cbn; lia] | | vm_compute; congruence ..].
    intros ty. split; [| done]. by vm_compute.
  - split; [by inversion Hs as [| ? ? ? Hs1]; inversion Hs1 | done | apply demo_read_ok; [by left | cbn; lia] |
      | vm_compute; congruence ..]. intros ty. split; [| done]. by vm_compute.
  - split; [inversion Hs as [| ? ? ? Hs1]; inversion Hs1 as [| ? ? ? Hs2]; by inversion Hs2 | done |
      apply demo_read_ok; [by right | cbn; lia] | | vm_compute; congruence ..]. intros ty. split; [| done]. by vm_compute.
Qed.

Lemma tile_coeffs_safe_witness :
  match rrun (default_fc 100) (read_txbs demo_ectxs demo_txbs)
    (aom_reader_init {| r_buffer := []; r_ec := od_ec_dec_init []; r_allow_update_cdf := true |}
       (Some [255; 0; 17; 34; 51; 68]) 6).2 with
  | Ok ((os, st', fc'), _) => Forall2 (tile_read_fine 8) demo_txbs os /\ ectxs_ok demo_shape st' /\ fc_ok fc'
  | Raise e => e = AOM_CODEC_CORRUPT_FRAME
  | Fault => False
  end.
Proof.
  apply (tile_coeffs_safe demo_shape); [| apply default_fc_ok | lia | apply demo_ectxs_ok | apply demo_readable].
  repeat constructor; lia.
Defined.
