(* ===== verification/Palette.v ===== *)
(** * Palette colour contexts

    [av1_get_palette_color_index_context] ([av1/common/entropymode.c]): the colours of
    a palette block are coded as positions in an order that puts the colours of the
    left, top-left and top neighbours first.  The encoder asks for the position of the
    current colour; the decoder, which does not know it yet, computes the same order
    and looks the position it read up in it. *)

From S2P Require Import Prelude.

Definition PALETTE_MAX_SIZE : Z := 8.
Definition PALETTE_COLOR_INDEX_CONTEXTS : Z := 5.

Definition av1_palette_color_index_context_lookup : list Z := [-1; -1; 0; -1; -1; 4; 3; 2; 1].

(** [(c - 1 >= 0) ? color_map[r * stride + c - 1] : -1], and so on. *)
Definition palette_neighbors (color_map : list Z) (stride r c : Z) : option (Z * Z * Z) :=
  n0 ← (if 0 <=? c - 1 then arr_get color_map (r * stride + c - 1) else Some (-1));
  n1 ← (if (0 <=? c - 1) && (0 <=? r - 1) then arr_get color_map ((r - 1) * stride + c - 1)
        else Some (-1));
  n2 ← (if 0 <=? r - 1 then arr_get color_map ((r - 1) * stride + c) else Some (-1));
  Some (n0, n1, n2).

(** [if (color_neighbors[i] >= 0) scores[color_neighbors[i]] += weights[i];] *)
Definition add_score (scores : list Z) (n weight : Z) : option (list Z) :=
  if 0 <=? n then s ← arr_get scores n; arr_set scores n (s + weight) else Some scores.

(** [for (i = 0; i < PALETTE_MAX_SIZE; ++i)], [todo] entries to go. *)
Fixpoint identity_loop (todo : nat) (i : Z) (color_order inverse : list Z)
  : option (list Z * list Z) :=
  match todo with
  | O => Some (color_order, inverse)
  | S todo' =>
      color_order ← arr_set color_order i i;
      inverse ← arr_set inverse i i;
      identity_loop todo' (i + 1) color_order inverse
  end.

(** [for (int j = i + 1; j < palette_size; ++j)]: the first largest score. *)
Fixpoint max_loop (todo : nat) (j : Z) (scores : list Z) (max max_idx : Z) : option (Z * Z) :=
  match todo with
  | O => Some (max, max_idx)
  | S todo' =>
      s ← arr_get scores j;
      if max <? s then max_loop todo' (j + 1) scores s j
      else max_loop todo' (j + 1) scores max max_idx
  end.

(** [for (int k = max_idx; k > i; --k)], [todo = k - i]. *)
Fixpoint shift_loop (todo : nat) (k : Z) (scores color_order inverse : list Z)
  : option (list Z * list Z * list Z) :=
  match todo with
  | O => Some (scores, color_order, inverse)
  | S todo' =>
      s ← arr_get scores (k - 1); scores ← arr_set scores k s;
      o ← arr_get color_order (k - 1); color_order ← arr_set color_order k o;
      inverse ← arr_set inverse o k;
      shift_loop todo' (k - 1) scores color_order inverse
  end.

(** One pass of the sort: the largest remaining score moves to position [i]. *)
Definition sort_pass (palette_size i : Z) (st : list Z * list Z * list Z)
  : option (list Z * list Z * list Z) :=
  let '(scores, color_order, inverse) := st in
  s ← arr_get scores i;
  '(max, max_idx) ← max_loop (Z.to_nat (palette_size - (i + 1))) (i + 1) scores s i;
  if max_idx =? i then Some st
  else
    max_score ← arr_get scores max_idx;
    max_color_order ← arr_get color_order max_idx;
    '(scores, color_order, inverse) ←
      shift_loop (Z.to_nat (max_idx - i)) max_idx scores color_order inverse;
    scores ← arr_set scores i max_score;
    color_order ← arr_set color_order i max_color_order;
    inverse ← arr_set inverse max_color_order i;
    Some (scores, color_order, inverse).

(** From the neighbours to the sorted scores, the order and its inverse. *)
Definition palette_sort (n0 n1 n2 palette_size : Z) (color_order : list Z)
  : option (list Z * list Z * list Z) :=
  scores ← add_score (replicate 18 0) n0 2;
  scores ← add_score scores n1 1;
  scores ← add_score scores n2 2;
  '(color_order, inverse) ← identity_loop 8 0 color_order (replicate 8 0);
  st ← sort_pass palette_size 0 (scores, color_order, inverse);
  st ← sort_pass palette_size 1 st;
  sort_pass palette_size 2 st.

Definition palette_context (scores : list Z) : option Z :=
  s0 ← arr_get scores 0; s1 ← arr_get scores 1; s2 ← arr_get scores 2;
  arr_get av1_palette_color_index_context_lookup (s0 * 1 + s1 * 2 + s2 * 2).

(** The context, the order left in [color_order], and what [*color_idx] gets (nothing
    when [color_idx] is [NULL]). *)
Definition av1_get_palette_color_index_context (color_map : list Z) (stride r c palette_size : Z)
    (color_order : list Z) (color_idx : bool) : option (Z * list Z * option Z) :=
  '(n0, n1, n2) ← palette_neighbors color_map stride r c;
  '(scores, color_order, inverse) ← palette_sort n0 n1 n2 palette_size color_order;
  idx ← (if color_idx then
           color ← arr_get color_map (r * stride + c);
           i ← arr_get inverse color; Some (Some i)
         else Some None);
  ctx ← palette_context scores;
  Some (ctx, color_order, idx).

(** ** Every combination of neighbours *)

(** At least the left or the top neighbour exists, and the top-left one when both do. *)
Definition neighbors_ok (n0 n1 n2 palette_size : Z) : Prop :=
  -1 <= n0 < palette_size /\ -1 <= n1 < palette_size /\ -1 <= n2 < palette_size /\
  (n1 = -1 <-> n0 = -1 \/ n2 = -1) /\ ~ (n0 = -1 /\ n2 = -1).

(** The check of one combination: a context in range, and an order that is inverted by
    the table the encoder uses, on every colour and every position of the palette. *)
Definition sort_checked (n0 n1 n2 palette_size : Z) : bool :=
  match palette_sort n0 n1 n2 palette_size (seqZ 0 8) with
  | Some (scores, order, inverse) =>
      match palette_context scores with
      | Some ctx =>
          (0 <=? ctx) && (ctx <? PALETTE_COLOR_INDEX_CONTEXTS) &&
          (length order =? 8)%nat && (length inverse =? 8)%nat &&
          forallb (fun v => (0 <=? nthz inverse v) && (nthz inverse v <? palette_size) &&
                            (nthz order (nthz inverse v) =? v) &&
                            (0 <=? nthz order v) && (nthz order v <? palette_size) &&
                            (nthz inverse (nthz order v) =? v)) (seqZ 0 palette_size)
      | None => false
      end
  | None => false
  end.

Definition all_checked : bool :=
  forallb (fun size =>
    forallb (fun n0 => forallb (fun n1 => forallb (fun n2 =>
      implb (eqb (n1 =? -1) ((n0 =? -1) || (n2 =? -1)) && negb ((n0 =? -1) && (n2 =? -1)))
        (sort_checked n0 n1 n2 size))
      (seqZ (-1) (size + 1))) (seqZ (-1) (size + 1))) (seqZ (-1) (size + 1)))
    (seqZ 2 7).

Lemma all_checked_true : all_checked = true.
Proof. vm_compute. reflexivity. Qed.

Lemma sort_checked_ok n0 n1 n2 size : 2 <= size <= 8 -> neighbors_ok n0 n1 n2 size ->
  sort_checked n0 n1 n2 size = true.
Proof.
  intros Hs (H0 & H1 & H2 & Hiff & Hnot). pose proof all_checked_true as H. unfold all_checked in H.
  rewrite forallb_forall in H. specialize (H size ltac:(apply list_elem_of_In, elem_of_seqZ; lia)).
  cbv beta in H. rewrite forallb_forall in H.
  specialize (H n0 ltac:(apply list_elem_of_In, elem_of_seqZ; lia)). cbv beta in H.
  rewrite forallb_forall in H. specialize (H n1 ltac:(apply list_elem_of_In, elem_of_seqZ; lia)).
  cbv beta in H. rewrite forallb_forall in H.
  specialize (H n2 ltac:(apply list_elem_of_In, elem_of_seqZ; lia)). cbv beta in H.
  assert (eqb (n1 =? -1) ((n0 =? -1) || (n2 =? -1)) && negb ((n0 =? -1) && (n2 =? -1)) = true) as E.
  { destruct (Z.eqb_spec n0 (-1)), (Z.eqb_spec n1 (-1)), (Z.eqb_spec n2 (-1)); cbn; try done;
      exfalso; intuition lia. }
  rewrite E in H. exact H.
Qed.

(** What a palette block's order promises. *)
Lemma palette_sort_ok n0 n1 n2 size order : 2 <= size <= 8 -> neighbors_ok n0 n1 n2 size ->
  length order = 8%nat ->
  exists scores ord inverse ctx,
    palette_sort n0 n1 n2 size order = Some (scores, ord, inverse) /\
    palette_context scores = Some ctx /\ 0 <= ctx < PALETTE_COLOR_INDEX_CONTEXTS /\
    length ord = 8%nat /\ length inverse = 8%nat /\
    forall v, 0 <= v < size -> 0 <= nthz inverse v < size /\ nthz ord (nthz inverse v) = v.
Proof.
  intros Hs Hn Hl. pose proof (sort_checked_ok n0 n1 n2 size Hs Hn) as Hc. unfold sort_checked in Hc.
  assert (palette_sort n0 n1 n2 size order = palette_sort n0 n1 n2 size (seqZ 0 8)) as ->.
  { do 8 (destruct order as [|? order]; [done |]). destruct order; [| done]. reflexivity. }
  destruct (palette_sort n0 n1 n2 size (seqZ 0 8)) as [[[scores ord] inverse] |]; [| done].
  destruct (palette_context scores) as [ctx |] eqn:Ectx; [| done].
  rewrite !andb_true_iff in Hc. destruct Hc as ((((C1 & C2) & C3) & C4) & C5).
  exists scores, ord, inverse, ctx. rewrite Z.leb_le in C1. rewrite Z.ltb_lt in C2.
  apply Nat.eqb_eq in C3, C4.
  do 2 (split; [done |]). split; [done |]. do 2 (split; [done |]).
  intros v Hv. rewrite forallb_forall in C5.
  specialize (C5 v ltac:(apply list_elem_of_In, elem_of_seqZ; lia)). cbv beta in C5.
  rewrite !andb_true_iff, !Z.leb_le, !Z.ltb_lt, !Z.eqb_eq in C5. lia.
Qed.

(** The neighbours of a position inside the block. *)
Lemma palette_neighbors_ok color_map stride r c size :
  Forall (fun v => 0 <= v < size) color_map -> 0 <= r -> 0 <= c < stride -> 0 < r + c ->
  r * stride + c < Z.of_nat (length color_map) ->
  exists n0 n1 n2, palette_neighbors color_map stride r c = Some (n0, n1, n2) /\
    neighbors_ok n0 n1 n2 size.
Proof.
  intros Hm Hr Hc Hrc Hlen.
  assert (Hget : forall i, 0 <= i < Z.of_nat (length color_map) ->
    exists v, arr_get color_map i = Some v /\ 0 <= v < size).
  { intros i Hi. rewrite arr_get_nth by done. eexists. split; [done |]. unfold nthz.
    assert (color_map !! Z.to_nat i = Some (nth (Z.to_nat i) color_map 0)) as E
      by (apply nth_lookup_Z; lia).
    exact (Forall_lookup_1 _ _ _ _ Hm E). }
  unfold palette_neighbors.
  destruct (Hget (r * stride + c)) as (v0 & _ & Hpos); [nia |].
  destruct (Z.leb_spec 0 (c - 1)), (Z.leb_spec 0 (r - 1)); cbn [andb]; try lia.
  - destruct (Hget (r * stride + c - 1)) as (a & -> & ?); [nia |].
    destruct (Hget ((r - 1) * stride + c - 1)) as (b & -> & ?); [nia |].
    destruct (Hget ((r - 1) * stride + c)) as (d & -> & ?); [nia |].
    do 3 eexists. split; [done |]. unfold neighbors_ok. lia.
  - destruct (Hget (r * stride + c - 1)) as (a & -> & ?); [nia |].
    do 3 eexists. split; [done |]. unfold neighbors_ok. lia.
  - destruct (Hget ((r - 1) * stride + c)) as (d & -> & ?); [nia |].
    do 3 eexists. split; [done |]. unfold neighbors_ok. lia.
Qed.

(** The order depends on the neighbours only. *)
Lemma palette_neighbors_insert color_map stride r c x :
  0 <= r -> 0 <= c < stride -> r * stride + c < Z.of_nat (length color_map) ->
  palette_neighbors (<[Z.to_nat (r * stride + c) := x]> color_map) stride r c
    = palette_neighbors color_map stride r c.
Proof.
  intros Hr Hc Hlen.
  assert (Hget : forall i, 0 <= i -> i <> r * stride + c ->
    arr_get (<[Z.to_nat (r * stride + c) := x]> color_map) i = arr_get color_map i).
  { intros i Hi Hne. unfold arr_get. rewrite (proj2 (Z.leb_le _ _)) by lia.
    apply list_lookup_insert_ne. nia. }
  unfold palette_neighbors.
  destruct (Z.leb_spec 0 (c - 1)), (Z.leb_spec 0 (r - 1)); cbn [andb]; rewrite ?Hget by nia; done.
Qed.

(** A palette colour survives: the encoder finds the position of the colour in an order
    and a valid context, and the decoder, on a map that agrees except at the position
    being decoded, computes the same context and the same order, in which the position
    it read stands for the colour. *)
Theorem palette_color_roundtrip color_map stride r c size order order' x :
  2 <= size <= 8 -> Forall (fun v => 0 <= v < size) color_map ->
  0 <= r -> 0 <= c < stride -> 0 < r + c -> r * stride + c < Z.of_nat (length color_map) ->
  length order = 8%nat -> length order' = 8%nat ->
  exists ctx ord idx,
    av1_get_palette_color_index_context color_map stride r c size order true = Some (ctx, ord, Some idx) /\
    0 <= ctx < PALETTE_COLOR_INDEX_CONTEXTS /\ 0 <= idx < size /\
    av1_get_palette_color_index_context (<[Z.to_nat (r * stride + c) := x]> color_map) stride r c size
      order' false = Some (ctx, ord, None) /\
    arr_get ord idx = arr_get color_map (r * stride + c).
Proof.
  intros Hs Hm Hr Hc Hrc Hlen Ho Ho'.
  destruct (palette_neighbors_ok color_map stride r c size) as (n0 & n1 & n2 & En & Hn); try done.
  destruct (palette_sort_ok n0 n1 n2 size order Hs Hn Ho) as (sc & ord & inv & ctx & Es & Ec & Hctx & Hlo & Hli & Hv).
  destruct (palette_sort_ok n0 n1 n2 size order' Hs Hn Ho') as (sc' & ord' & inv' & ctx' & Es' & Ec' & _).
  assert (palette_sort n0 n1 n2 size order = palette_sort n0 n1 n2 size order') as Eo.
  { do 8 (destruct order as [|? order]; [done |]). destruct order; [| done].
    do 8 (destruct order' as [|? order']; [done |]). destruct order'; [| done]. reflexivity. }
  rewrite Es, Es' in Eo. injection Eo as <- <- <-. assert (ctx' = ctx) as -> by congruence.
  set (color := nthz color_map (r * stride + c)).
  assert (0 <= color < size) as Hcol.
  { apply (Forall_lookup_1 (fun v => 0 <= v < size) color_map (Z.to_nat (r * stride + c))); [done |].
    apply nth_lookup_Z. nia. }
  destruct (Hv color Hcol) as [Hidx Hback].
  exists ctx, ord, (nthz inv color). unfold av1_get_palette_color_index_context.
  rewrite palette_neighbors_insert by done. rewrite En. cbn [mbind option_bind]. rewrite Es, Es'.
  cbn [mbind option_bind]. rewrite (arr_get_nth color_map) by nia. fold color. cbn [mbind option_bind].
  rewrite (arr_get_nth inv) by lia. cbn [mbind option_bind]. rewrite Ec. cbn [mbind option_bind].
  split_and!; try done; try lia. rewrite arr_get_nth by lia. by rewrite Hback.
Qed.

Lemma palette_color_roundtrip_witness :
  let color_map := [3; 1; 1; 0; 3; 2] in
  exists ctx ord idx,
    av1_get_palette_color_index_context color_map 3 1 2 4 (replicate 8 9) true = Some (ctx, ord, Some idx) /\
    0 <= ctx < PALETTE_COLOR_INDEX_CONTEXTS /\ 0 <= idx < 4 /\
    av1_get_palette_color_index_context (<[Z.to_nat (1 * 3 + 2) := 255]> color_map) 3 1 2 4
      (replicate 8 7) false = Some (ctx, ord, None) /\
    arr_get ord idx = arr_get color_map (1 * 3 + 2).
Proof.
  intros color_map. apply (palette_color_roundtrip color_map 3 1 2 4); try (simpl; lia); try done.
  repeat constructor; done.
Defined.
