(* ===== verification/PaletteColors.v ===== *)
(** * Palette colours

    [write_palette_mode_info] ([av1/encoder/bitstream.c]) and [read_palette_mode_info]
    ([av1/decoder/decodemv.c]): a block predicted from a palette sends its base colours.
    Those that the blocks above and to the left have are sent as one bit per colour of the
    cache formed from them ([av1_get_palette_cache], [av1/common/pred_common.c]), the others
    as increasing differences whose width shrinks with what is left of the range; the second
    chroma plane, whose colours are not sorted, is sent as signed differences modulo the
    range or as plain values, whichever is shorter.

    [palette_colors] is one array of 24 colours, 8 for each plane.  An array that the code
    fills from its start is the list of the elements stored so far; [push] is a store at its
    end. *)

From stdpp Require Import sorting.
From S2P Require Import Prelude CodecTypes BitChannel EntCoder RangeSpec Cdf EntEncProof EntDecProof EntRoundTrip SymbolIO SyntaxIO TileSafety TxCommon TxbContext DefaultCdfs FrameContext.

#[local] Open Scope Z_scope.
#[local] Arguments Z.of_nat : simpl never.
#[local] Arguments Z.mul : simpl never.

(** ** Data *)

Definition PALETTE_MAX_SIZE : Z := 8.
Definition PALETTE_MIN_SIZE : Z := 2.
Definition PALETTE_SIZES : Z := 7.
Definition MAX_PALETTE_BLOCK_WIDTH : Z := 64.
Definition MAX_PALETTE_BLOCK_HEIGHT : Z := 64.
Definition MIN_SB_SIZE_LOG2 : Z := 6.

(** [palette_size[0]] and [palette_size[1]]. *)
Record PALETTE_MODE_INFO := { palette_colors : list Z; palette_size_y : Z; palette_size_uv : Z }.

(** What the cache and the contexts look at. *)
Record palette_site := {
  ps_above : option PALETTE_MODE_INFO; ps_left : option PALETTE_MODE_INFO; ps_mb_to_top_edge : Z }.

Definition aom_ceil_log2 (n : Z) : Z := if n <? 2 then 0 else get_msb (n - 1) + 1.

(** A store behind the elements of an array of [cap] elements. *)
Definition push (cap : Z) (l : list Z) (v : Z) : option (list Z) :=
  if Z.of_nat (length l) <? cap then Some (l ++ [v]) else None.

(** ** The colour cache *)

Definition palette_add_to_cache (cache : list Z) (val : Z) : option (list Z) :=
  match cache !! (length cache - 1)%nat with
  | Some v => if val =? v then Some cache else push (2 * PALETTE_MAX_SIZE) cache val
  | None => push (2 * PALETTE_MAX_SIZE) cache val
  end.

Fixpoint add_all (cache : list Z) (vals : list Z) : option (list Z) :=
  match vals with
  | [] => Some cache
  | v :: vals' => cache ← palette_add_to_cache cache v; add_all cache vals'
  end.

(** The three loops over the colours of the two neighbours. *)
Fixpoint merge_cache (above : list Z) : list Z -> list Z -> option (list Z) :=
  fix merge_left (left_ cache : list Z) : option (list Z) :=
    match above, left_ with
    | [], _ => add_all cache left_
    | _, [] => add_all cache above
    | v_above :: above', v_left :: left' =>
        if v_left <? v_above then
          cache ← palette_add_to_cache cache v_left; merge_left left' cache
        else
          cache ← palette_add_to_cache cache v_above;
          merge_cache above' (if v_left =? v_above then left' else left_) cache
    end.

Definition plane_size (p : PALETTE_MODE_INFO) (plane : Z) : Z :=
  if plane =? 0 then palette_size_y p else palette_size_uv p.

(** The first [n] colours of a plane. *)
Definition plane_colors (colors : list Z) (plane n : Z) : option (list Z) :=
  mapM (fun i => arr_get colors (plane * PALETTE_MAX_SIZE + i)) (seqZ 0 n).

Definition neighbor_colors (p : option PALETTE_MODE_INFO) (plane : Z) : option (list Z) :=
  match p with
  | Some p => plane_colors (palette_colors p) plane (plane_size p plane)
  | None => Some []
  end.

(** [-xd->mb_to_top_edge >> 3] is the row in samples; it is not negative. *)
Definition av1_get_palette_cache (s : palette_site) (plane : Z) : option (list Z) :=
  let row := Z.shiftr (- ps_mb_to_top_edge s) 3 in
  let above_mi := if row mod Z.shiftl 1 MIN_SB_SIZE_LOG2 =? 0 then None else ps_above s in
  above ← neighbor_colors above_mi plane;
  left_ ← neighbor_colors (ps_left s) plane;
  merge_cache above left_ [].

(** ** Writing *)

(** The first place of a colour. *)
Fixpoint find_color (colors : list Z) (v : Z) : option nat :=
  match colors with
  | [] => None
  | c :: colors' => if c =? v then Some 0%nat else S <$> find_color colors' v
  end.

(** Result: [cache_color_found] and [in_cache_flags]. *)
Fixpoint index_cache_loop (cache colors flags : list Z) (n_in_cache : Z) : option (list Z * list Z) :=
  match cache with
  | [] => Some ([], flags)
  | v :: cache' =>
      if n_in_cache <? Z.of_nat (length colors) then
        match find_color colors v with
        | Some j =>
            flags ← arr_set flags (Z.of_nat j) 1;
            '(found, flags) ← index_cache_loop cache' colors flags (n_in_cache + 1);
            Some (1 :: found, flags)
        | None =>
            '(found, flags) ← index_cache_loop cache' colors flags n_in_cache;
            Some (0 :: found, flags)
        end
      else Some (replicate (length cache) 0, flags)
  end.

(** The colours whose flag is not set. *)
Fixpoint unflagged (colors flags out : list Z) : option (list Z) :=
  match colors, flags with
  | [], _ => Some out
  | c :: colors', f :: flags' =>
      if f =? 0 then out ← push PALETTE_MAX_SIZE out c; unflagged colors' flags' out
      else unflagged colors' flags' out
  | _, [] => None
  end.

(** Result: [cache_color_found] and [out_cache_colors]. *)
Definition av1_index_color_cache (color_cache colors : list Z) : option (list Z * list Z) :=
  if Z.of_nat (length color_cache) <=? 0 then
    out ← unflagged colors (replicate 8 0) []; Some ([], out)
  else
    '(found, flags) ← index_cache_loop color_cache colors (replicate 8 0) 0;
    out ← unflagged colors flags [];
    Some (found, out).

#[local] Abbreviation pwriter := (writer (aom_writer * cdfs fc_key) unit).

Section Write.
Context (al : allocator).

Fixpoint write_found (found : list Z) (n_in_cache n : Z) : pwriter :=
  match found with
  | [] => mret tt
  | f :: found' =>
      if n_in_cache <? n then _ ← w_bit al f; write_found found' (n_in_cache + f) n else mret tt
  end.

Fixpoint color_deltas (prev : Z) (colors : list Z) : list Z :=
  match colors with
  | [] => []
  | c :: colors' => c - prev :: color_deltas c colors'
  end.

Fixpoint write_deltas (deltas : list Z) (min_val bits range : Z) : pwriter :=
  match deltas with
  | [] => mret tt
  | d :: deltas' =>
      _ ← w_literal al (d - min_val) bits;
      let range := range - d in
      write_deltas deltas' min_val (Z.min bits (aom_ceil_log2 range)) range
  end.

Definition delta_encode_palette_colors (colors : list Z) (bit_depth min_val : Z) : pwriter :=
  match colors with
  | [] => mret tt
  | [c] => w_literal al c bit_depth
  | c :: colors' =>
      _ ← w_literal al c bit_depth;
      let deltas := color_deltas c colors' in
      let max_delta := foldl Z.max 0 deltas in
      let min_bits := bit_depth - 3 in
      let bits := Z.max (aom_ceil_log2 (max_delta + 1 - min_val)) min_bits in
      _ ← w_literal al (bits - min_bits) 2;
      write_deltas deltas min_val bits (Z.shiftl 1 bit_depth - c - min_val)
  end.

(** What [write_palette_colors_y] and the first part of [write_palette_colors_uv] share. *)
Definition write_sorted_colors (s : palette_site) (p : PALETTE_MODE_INFO) (plane bit_depth min_val : Z) : pwriter :=
  let n := plane_size p plane in
  color_cache ← w_lift (av1_get_palette_cache s plane);
  colors ← w_lift (plane_colors (palette_colors p) plane n);
  '(cache_color_found, out_cache_colors) ← w_lift (av1_index_color_cache color_cache colors);
  _ ← write_found cache_color_found 0 n;
  delta_encode_palette_colors out_cache_colors bit_depth min_val.

Definition write_palette_colors_y (s : palette_site) (p : PALETTE_MODE_INFO) (bit_depth : Z) : pwriter :=
  write_sorted_colors s p 0 bit_depth 1.

(** The distance between two colours modulo the range. *)
Definition delta_v (max_val a b : Z) : Z := let v := Z.abs (b - a) in Z.min v (max_val - v).

(** [max_d] and [zero_count] over neighbouring pairs. *)
Fixpoint delta_bits_loop (max_val prev : Z) (colors : list Z) (max_d zero_count : Z) : Z * Z :=
  match colors with
  | [] => (max_d, zero_count)
  | c :: colors' =>
      let d := delta_v max_val prev c in
      delta_bits_loop max_val c colors' (if max_d <? d then d else max_d)
        (if d =? 0 then zero_count + 1 else zero_count)
  end.

(** Result: the number of bits, [zero_count], [min_bits]. *)
Definition av1_get_palette_delta_bits_v (colors_v : list Z) (bit_depth : Z) : Z * Z * Z :=
  let max_val := Z.shiftl 1 bit_depth in
  let min_bits := bit_depth - 4 in
  let '(max_d, zero_count) :=
    match colors_v with
    | [] => (0, 0)
    | c :: colors' => delta_bits_loop max_val c colors' 0 0
    end in
  (Z.max (aom_ceil_log2 (max_d + 1)) min_bits, zero_count, min_bits).

Fixpoint write_deltas_v (max_val bits_v prev : Z) (colors : list Z) : pwriter :=
  match colors with
  | [] => mret tt
  | c :: colors' =>
      _ ← (if c =? prev then w_literal al 0 bits_v
           else
             let delta := Z.abs (c - prev) in
             let sign_bit := c <? prev in
             if delta <=? max_val - delta then
               _ ← w_literal al delta bits_v; w_bit al (b2z sign_bit)
             else
               _ ← w_literal al (max_val - delta) bits_v; w_bit al (b2z (negb sign_bit)));
      write_deltas_v max_val bits_v c colors'
  end.

Fixpoint write_raw (colors : list Z) (bit_depth : Z) : pwriter :=
  match colors with
  | [] => mret tt
  | c :: colors' => _ ← w_literal al c bit_depth; write_raw colors' bit_depth
  end.

(** The second chroma plane. *)
Definition write_colors_v (colors_v : list Z) (bit_depth : Z) : pwriter :=
  let n := Z.of_nat (length colors_v) in
  let max_val := Z.shiftl 1 bit_depth in
  let '(bits_v, zero_count, min_bits_v) := av1_get_palette_delta_bits_v colors_v bit_depth in
  let rate_using_delta := 2 + bit_depth + (bits_v + 1) * (n - 1) - zero_count in
  let rate_using_raw := bit_depth * n in
  if rate_using_delta <? rate_using_raw then
    _ ← w_bit al 1;
    _ ← w_literal al (bits_v - min_bits_v) 2;
    match colors_v with
    | [] => w_lift None
    | c :: colors' => _ ← w_literal al c bit_depth; write_deltas_v max_val bits_v c colors'
    end
  else _ ← w_bit al 0; write_raw colors_v bit_depth.

Definition write_palette_colors_uv (s : palette_site) (p : PALETTE_MODE_INFO) (bit_depth : Z) : pwriter :=
  _ ← write_sorted_colors s p 1 bit_depth 0;
  colors_v ← w_lift (plane_colors (palette_colors p) 2 (palette_size_uv p));
  write_colors_v colors_v bit_depth.
End Write.

(** The models of the sizes and of the flags. *)
Definition av1_get_palette_bsize_ctx (bsize : BLOCK_SIZE) : Z :=
  num_pels_log2_lookup bsize - num_pels_log2_lookup BLOCK_8X8.

Definition has_palette (p : option PALETTE_MODE_INFO) : Z :=
  match p with Some p => b2z (0 <? palette_size_y p) | None => 0 end.

Definition av1_get_palette_mode_ctx (s : palette_site) : Z := has_palette (ps_above s) + has_palette (ps_left s).

(** [sb_type >= BLOCK_8X8] leaves out the three smallest sizes. *)
Definition av1_allow_palette (allow_screen_content_tools : bool) (sb_type : BLOCK_SIZE) : bool :=
  allow_screen_content_tools && (block_size_wide sb_type <=? MAX_PALETTE_BLOCK_WIDTH) &&
  (block_size_high sb_type <=? MAX_PALETTE_BLOCK_HEIGHT) &&
  match sb_type with BLOCK_4X4 | BLOCK_4X8 | BLOCK_8X4 => false | _ => true end.

Section WriteInfo.
Context (al : allocator).

(** [dc_pred]: [mbmi->mode == DC_PRED]; [uv_dc_pred]: there is chroma and it is predicted by
    its mean. *)
Definition write_palette_mode_info (s : palette_site) (bsize : BLOCK_SIZE) (dc_pred uv_dc_pred : bool)
    (bit_depth : Z) (p : PALETTE_MODE_INFO) : pwriter :=
  let bsize_ctx := av1_get_palette_bsize_ctx bsize in
  _ ← (if dc_pred then
         let n := palette_size_y p in
         let palette_y_mode_ctx := av1_get_palette_mode_ctx s in
         _ ← w_symbol al (b2z (0 <? n)) (F_palette_y_mode_cdf, [bsize_ctx; palette_y_mode_ctx]) 2;
         if 0 <? n then
           _ ← w_symbol al (n - PALETTE_MIN_SIZE) (F_palette_y_size_cdf, [bsize_ctx]) PALETTE_SIZES;
           write_palette_colors_y al s p bit_depth
         else mret tt
       else mret tt);
  if uv_dc_pred then
    let n := palette_size_uv p in
    let palette_uv_mode_ctx := b2z (0 <? palette_size_y p) in
    _ ← w_symbol al (b2z (0 <? n)) (F_palette_uv_mode_cdf, [palette_uv_mode_ctx]) 2;
    if 0 <? n then
      _ ← w_symbol al (n - PALETTE_MIN_SIZE) (F_palette_uv_size_cdf, [bsize_ctx]) PALETTE_SIZES;
      write_palette_colors_uv al s p bit_depth
    else mret tt
  else mret tt.
End WriteInfo.

(** ** Reading *)

#[local] Abbreviation preader := (reader (aom_reader * cdfs fc_key)).

(** Result: [cached_colors]. *)
Fixpoint read_found (color_cache : list Z) (n : Z) (cached : list Z) : preader (list Z) :=
  match color_cache with
  | [] => mret cached
  | c :: cache' =>
      if Z.of_nat (length cached) <? n then
        b ← r_bit;
        if negb (b =? 0) then cached ← r_lift (push PALETTE_MAX_SIZE cached c); read_found cache' n cached
        else read_found cache' n cached
      else mret cached
  end.

(** [palette_colors[idx]] and those after it. *)
Fixpoint read_deltas (todo : nat) (colors : list Z) (idx min_val bit_depth bits range : Z) : preader (list Z) :=
  match todo with
  | O => mret colors
  | S todo' =>
      d ← r_literal bits;
      let delta := d + min_val in
      prev ← r_lift (arr_get colors (idx - 1));
      let c := clamp (prev + delta) 0 (Z.shiftl 1 bit_depth - 1) in
      colors ← r_lift (arr_set colors idx c);
      let range := range - (c - prev) in
      read_deltas todo' colors (idx + 1) min_val bit_depth (Z.min bits (aom_ceil_log2 range)) range
  end.

(** In place: the transmitted colours are those from [base + n_cached_colors] on. *)
Fixpoint merge_loop (todo : nat) (colors cached_colors : list Z) (base n_colors i cache_idx trans_idx : Z)
  : option (list Z) :=
  match todo with
  | O => Some colors
  | S todo' =>
      let n_cached_colors := Z.of_nat (length cached_colors) in
      from_cache ←
        (if cache_idx <? n_cached_colors then
           if n_colors <=? trans_idx then Some true
           else a ← arr_get cached_colors cache_idx; b ← arr_get colors (base + trans_idx); Some (a <=? b)
         else Some false);
      if from_cache : bool then
        c ← arr_get cached_colors cache_idx;
        colors ← arr_set colors (base + i) c;
        merge_loop todo' colors cached_colors base n_colors (i + 1) (cache_idx + 1) trans_idx
      else
        c ← arr_get colors (base + trans_idx);
        colors ← arr_set colors (base + i) c;
        merge_loop todo' colors cached_colors base n_colors (i + 1) cache_idx (trans_idx + 1)
  end.

Definition merge_colors (colors cached_colors : list Z) (base n_colors : Z) : option (list Z) :=
  if Z.of_nat (length cached_colors) =? 0 then Some colors
  else merge_loop (Z.to_nat n_colors) colors cached_colors base n_colors 0 0 (Z.of_nat (length cached_colors)).

(** [memcpy] to [palette_colors + base]. *)
Fixpoint copy_colors (colors : list Z) (base : Z) (src : list Z) : option (list Z) :=
  match src with
  | [] => Some colors
  | c :: src' => colors ← arr_set colors base c; copy_colors colors (base + 1) src'
  end.

(** What [read_palette_colors_y] and the first part of [read_palette_colors_uv] share. *)
Definition read_sorted_colors (s : palette_site) (colors : list Z) (plane n bit_depth min_val : Z)
  : preader (list Z) :=
  let base := plane * PALETTE_MAX_SIZE in
  color_cache ← r_lift (av1_get_palette_cache s plane);
  cached_colors ← read_found color_cache n [];
  let idx := Z.of_nat (length cached_colors) in
  if idx <? n then
    c ← r_literal bit_depth;
    colors ← r_lift (arr_set colors (base + idx) c);
    let idx := idx + 1 in
    colors ←
      (if idx <? n then
         let min_bits := bit_depth - 3 in
         b ← r_literal 2;
         let bits := min_bits + b in
         prev ← r_lift (arr_get colors (base + idx - 1));
         read_deltas (Z.to_nat (n - idx)) colors (base + idx) min_val bit_depth bits
           (Z.shiftl 1 bit_depth - prev - min_val)
       else mret colors);
    r_lift (merge_colors colors cached_colors base n)
  else r_lift (copy_colors colors base (take (Z.to_nat n) cached_colors)).

Definition read_palette_colors_y (s : palette_site) (p : PALETTE_MODE_INFO) (bit_depth : Z)
  : preader PALETTE_MODE_INFO :=
  colors ← read_sorted_colors s (palette_colors p) 0 (palette_size_y p) bit_depth 1;
  mret {| palette_colors := colors; palette_size_y := palette_size_y p; palette_size_uv := palette_size_uv p |}.

Fixpoint read_deltas_v (todo : nat) (colors : list Z) (i max_val bits : Z) : preader (list Z) :=
  match todo with
  | O => mret colors
  | S todo' =>
      delta ← r_literal bits;
      sign ← (if negb (delta =? 0) then r_bit else mret 0);
      let delta := if negb (sign =? 0) then - delta else delta in
      prev ← r_lift (arr_get colors (2 * PALETTE_MAX_SIZE + i - 1));
      let val := prev + delta in
      let val := if val <? 0 then val + max_val else val in
      let val := if max_val <=? val then val - max_val else val in
      colors ← r_lift (arr_set colors (2 * PALETTE_MAX_SIZE + i) (u16 val));
      read_deltas_v todo' colors (i + 1) max_val bits
  end.

Fixpoint read_raw (todo : nat) (colors : list Z) (i bit_depth : Z) : preader (list Z) :=
  match todo with
  | O => mret colors
  | S todo' =>
      c ← r_literal bit_depth;
      colors ← r_lift (arr_set colors (2 * PALETTE_MAX_SIZE + i) c);
      read_raw todo' colors (i + 1) bit_depth
  end.

(** The second chroma plane. *)
Definition read_colors_v (colors : list Z) (n bit_depth : Z) : preader (list Z) :=
  delta_encoding ← r_bit;
  if negb (delta_encoding =? 0) then
    let min_bits_v := bit_depth - 4 in
    let max_val := Z.shiftl 1 bit_depth in
    b ← r_literal 2;
    let bits := min_bits_v + b in
    c ← r_literal bit_depth;
    colors ← r_lift (arr_set colors (2 * PALETTE_MAX_SIZE) c);
    read_deltas_v (Z.to_nat (n - 1)) colors 1 max_val bits
  else read_raw (Z.to_nat n) colors 0 bit_depth.

Definition read_palette_colors_uv (s : palette_site) (p : PALETTE_MODE_INFO) (bit_depth : Z)
  : preader PALETTE_MODE_INFO :=
  let n := palette_size_uv p in
  colors ← read_sorted_colors s (palette_colors p) 1 n bit_depth 0;
  colors ← read_colors_v colors n bit_depth;
  mret {| palette_colors := colors; palette_size_y := palette_size_y p; palette_size_uv := n |}.

(** [p] has been cleared of its sizes. *)
Definition read_palette_mode_info (s : palette_site) (bsize : BLOCK_SIZE) (dc_pred uv_dc_pred : bool)
    (bit_depth : Z) (p : PALETTE_MODE_INFO) : preader PALETTE_MODE_INFO :=
  let bsize_ctx := av1_get_palette_bsize_ctx bsize in
  p ← (if dc_pred then
         let palette_mode_ctx := av1_get_palette_mode_ctx s in
         modev ← r_symbol (F_palette_y_mode_cdf, [bsize_ctx; palette_mode_ctx]) 2;
         if negb (modev =? 0) then
           n ← r_symbol (F_palette_y_size_cdf, [bsize_ctx]) PALETTE_SIZES;
           read_palette_colors_y s
             {| palette_colors := palette_colors p; palette_size_y := n + 2; palette_size_uv := palette_size_uv p |}
             bit_depth
         else mret p
       else mret p);
  if uv_dc_pred then
    let palette_uv_mode_ctx := b2z (0 <? palette_size_y p) in
    modev ← r_symbol (F_palette_uv_mode_cdf, [palette_uv_mode_ctx]) 2;
    if negb (modev =? 0) then
      n ← r_symbol (F_palette_uv_size_cdf, [bsize_ctx]) PALETTE_SIZES;
      read_palette_colors_uv s
        {| palette_colors := palette_colors p; palette_size_y := palette_size_y p; palette_size_uv := n + 2 |}
        bit_depth
    else mret p
  else mret p.

(** ** Sorted lists *)

Lemma sorted_app {A} (R : A -> A -> Prop) l1 l2 :
  StronglySorted R (l1 ++ l2) <-> StronglySorted R l1 /\ StronglySorted R l2 /\ Forall (fun x => Forall (R x) l2) l1.
Proof.
  induction l1 as [| x l1 IH]; cbn [app].
  - split; [intros H; split_and!; [constructor | done | constructor] | tauto].
  - rewrite !StronglySorted_cons, IH, Forall_app, List.Forall_cons_iff. tauto.
Qed.

Lemma sorted_lt_le l : StronglySorted Z.lt l -> StronglySorted Z.le l.
Proof.
  induction 1 as [| x l _ IH Hx]; constructor; [done |]. eapply List.Forall_impl; [| exact Hx]. cbn. lia.
Qed.

Lemma push_ok cap l v : Z.of_nat (length l) < cap -> push cap l v = Some (l ++ [v]).
Proof. intros H. unfold push. by rewrite (proj2 (Z.ltb_lt _ _)). Qed.

Lemma ceil_log2_spec n : 0 <= aom_ceil_log2 n /\ n <= 2 ^ aom_ceil_log2 n.
Proof.
  unfold aom_ceil_log2, get_msb. destruct (Z.ltb_spec n 2); [split; [lia | change (2 ^ 0) with 1; lia] |].
  pose proof (Z.log2_nonneg (n - 1)). pose proof (Z.log2_spec (n - 1) ltac:(lia)).
  replace (Z.succ (Z.log2 (n - 1))) with (Z.log2 (n - 1) + 1) in * by lia. lia.
Qed.

Lemma ceil_log2_le n k : 0 <= k -> n <= 2 ^ k -> aom_ceil_log2 n <= k.
Proof.
  intros Hk Hn. unfold aom_ceil_log2, get_msb. destruct (Z.ltb_spec n 2); [lia |].
  pose proof (Z.log2_lt_pow2 (n - 1) k ltac:(lia)). lia.
Qed.

(** ** The cache is sorted *)

Section Cache.
Context (P : Z -> Prop).

(** A cache whose colours are at most those still to come. *)
Definition cache_below (cache vals : list Z) : Prop := Forall (fun v => Forall (fun c => c <= v) cache) vals.

Lemma add_to_cache_ok cache v : StronglySorted Z.lt cache -> Forall (fun c => c <= v) cache ->
  Z.of_nat (length cache) < 16 -> Forall P cache -> P v ->
  exists cache', palette_add_to_cache cache v = Some cache' /\ StronglySorted Z.lt cache' /\
    Forall (fun c => c <= v) cache' /\ (length cache' <= S (length cache))%nat /\ Forall P cache'.
Proof.
  intros Hs Hv Hl HP Pv. unfold palette_add_to_cache. destruct cache as [| y l _] using rev_ind.
  - exists [v]. split_and!; [done | by repeat constructor | repeat constructor; lia | done | by repeat constructor].
  - rewrite length_app. cbn [length]. rewrite Nat.add_sub, lookup_app_r, Nat.sub_diag by lia. cbn [lookup list_lookup].
    rewrite length_app in Hl. cbn [length] in Hl.
    apply sorted_app in Hs as (Hs1 & Hs2 & Hlt). apply Forall_app in Hv as [Hv1 Hv2].
    apply Forall_cons_1 in Hv2 as [Hy _].
    destruct (Z.eqb_spec v y) as [-> |].
    { exists (l ++ [y]). split_and!; [done | by apply sorted_app | | rewrite length_app; cbn; lia | done].
      apply Forall_app. split; [done |]. by apply Forall_cons_2. }
    rewrite push_ok by (rewrite length_app; unfold PALETTE_MAX_SIZE; cbn [length]; lia). eexists. split; [done |].
    assert (Forall (fun c => c < v) (l ++ [y])) as Hall.
    { apply Forall_app. split; [| apply Forall_cons_2; [lia | done]].
      eapply List.Forall_impl; [| exact Hlt]. intros x Hx. apply Forall_cons_1 in Hx as [Hx _]. lia. }
    split_and!.
    + apply sorted_app. split_and!; [by apply sorted_app | by repeat constructor |].
      eapply List.Forall_impl; [| exact Hall]. intros x Hx. by apply Forall_cons_2.
    + apply Forall_app. split; [eapply List.Forall_impl; [| exact Hall]; cbn; lia | apply Forall_cons_2; [lia | done]].
    + rewrite !length_app. cbn. lia.
    + apply Forall_app. split; [done | by apply Forall_cons_2].
Qed.

Lemma add_all_ok vals cache : StronglySorted Z.lt cache -> StronglySorted Z.le vals -> cache_below cache vals ->
  Z.of_nat (length cache + length vals) <= 16 -> Forall P cache -> Forall P vals ->
  exists cache', add_all cache vals = Some cache' /\ StronglySorted Z.lt cache' /\
    (length cache' <= length cache + length vals)%nat /\ Forall P cache'.
Proof.
  revert cache. induction vals as [| v vals IH]; intros cache Hs Hv Hb Hl HP HPv; cbn [add_all length] in *.
  { exists cache. split_and!; try done. lia. }
  apply StronglySorted_cons in Hv as [Hle Hv]. apply Forall_cons_1 in Hb as [Hbv Hb]. apply Forall_cons_1 in HPv as [Pv HPv].
  destruct (add_to_cache_ok cache v Hs Hbv ltac:(lia) HP Pv) as (c1 & -> & Hs1 & Hb1 & Hl1 & HP1). cbn [mbind option_bind].
  destruct (IH c1 Hs1 Hv) as (c2 & -> & Hs2 & Hl2 & HP2); [| lia | done | done |].
  { eapply List.Forall_impl; [| exact Hle]. intros x Hx. eapply List.Forall_impl; [| exact Hb1]. cbn. lia. }
  exists c2. split_and!; try done. lia.
Qed.

Lemma merge_cache_ok above left_ cache :
  StronglySorted Z.lt cache -> StronglySorted Z.le above -> StronglySorted Z.le left_ ->
  cache_below cache above -> cache_below cache left_ ->
  Z.of_nat (length cache + length above + length left_) <= 16 ->
  Forall P cache -> Forall P above -> Forall P left_ ->
  exists cache', merge_cache above left_ cache = Some cache' /\ StronglySorted Z.lt cache' /\
    (length cache' <= length cache + length above + length left_)%nat /\ Forall P cache'.
Proof.
  revert left_ cache. induction above as [| a above IHa]; intros left_ cache Hs Ha Hl Hca Hcl Hn HP HPa HPl.
  { cbn [length] in *. destruct left_; cbn [merge_cache];
      (destruct (add_all_ok _ cache Hs Hl Hcl ltac:(lia) HP HPl) as (c & -> & ? & ? & ?); exists c; split_and!; try done; lia). }
  revert cache Hs Hca Hcl Hn HP. induction left_ as [| l left_ IHl]; intros cache Hs Hca Hcl Hn HP.
  { cbn [merge_cache]. destruct (add_all_ok _ cache Hs Ha Hca ltac:(lia) HP HPa) as (c & -> & ? & ? & ?).
    exists c. split_and!; try done. lia. }
  cbn [merge_cache length] in *. apply StronglySorted_cons in Hl as [Hle Hl]. apply Forall_cons_1 in HPl as [Pl HPl].
  apply Forall_cons_1 in Hcl as [Hcl1 Hcl]. pose proof Ha as Ha0. apply StronglySorted_cons in Ha as [Hae Ha].
  pose proof HPa as HPa0. apply Forall_cons_1 in HPa as [Pa HPa]. pose proof Hca as Hca0. apply Forall_cons_1 in Hca as [Hca1 Hca].
  assert (forall x c (l : list Z), Forall (fun y => y <= x) c -> Forall (Z.le x) l -> cache_below c l) as Hbelow.
  { intros x c l0 Hc Hx. eapply List.Forall_impl; [| exact Hx]. intros y Hy. eapply List.Forall_impl; [| exact Hc]. cbn. lia. }
  destruct (Z.ltb_spec l a).
  - destruct (add_to_cache_ok cache l Hs Hcl1 ltac:(lia) HP Pl) as (c1 & -> & Hs1 & Hb1 & Hl1 & HP1). cbn [mbind option_bind].
    assert (Forall (Z.le l) (a :: above)) as Hla.
    { apply Forall_cons_2; [lia |]. eapply List.Forall_impl; [| exact Hae]. cbn. lia. }
    destruct (IHl Hl HPl c1 Hs1) as (c2 & E & Hs2 & Hl2 & HP2); [by eapply Hbelow | by eapply Hbelow | lia | done |].
    exists c2. split_and!; [exact E | done | lia | done].
  - destruct (add_to_cache_ok cache a Hs Hca1 ltac:(lia) HP Pa) as (c1 & -> & Hs1 & Hb1 & Hl1 & HP1). cbn [mbind option_bind].
    assert (Forall (Z.le a) left_) as Hal by (eapply List.Forall_impl; [| exact Hle]; cbn; lia).
    destruct (Z.eqb_spec l a).
    + destruct (IHa left_ c1) as (c2 & -> & Hs2 & Hl2 & HP2); try done; [by eapply Hbelow | by eapply Hbelow | lia |].
      exists c2. split_and!; try done. lia.
    + destruct (IHa (l :: left_) c1) as (c2 & -> & Hs2 & Hl2 & HP2); try done;
        [by apply StronglySorted_cons | by eapply Hbelow | | cbn; lia | by apply Forall_cons_2 |].
      { eapply Hbelow; [exact Hb1 |]. apply Forall_cons_2; [lia | done]. }
      exists c2. cbn [length] in *. split_and!; try done. lia.
Qed.
End Cache.

(** ** Colours in the cache and outside it *)

(** The elements whose flag is set, and the others. *)
Fixpoint pick (flags l : list Z) : list Z :=
  match flags, l with
  | f :: flags', x :: l' => if f =? 0 then pick flags' l' else x :: pick flags' l'
  | _, _ => []
  end.

Fixpoint rest (flags l : list Z) : list Z :=
  match flags, l with
  | f :: flags', x :: l' => if f =? 0 then x :: rest flags' l' else rest flags' l'
  | _, _ => []
  end.

Definition is_flag (f : Z) : Prop := f = 0 \/ f = 1.

Lemma pick_zeros n l : pick (replicate n 0) l = [].
Proof. revert l. induction n as [| n IH]; intros [| x l]; try done. apply IH. Qed.

Lemma pick_rest flags l : (length l <= length flags)%nat -> pick flags l ++ rest flags l ≡ₚ l.
Proof.
  revert l. induction flags as [| f flags IH]; intros [| x l] Hl; cbn [length] in *; try done; [lia |].
  cbn [pick rest]. destruct (f =? 0); [rewrite <- Permutation_middle |]; (cbn [app]; constructor; apply IH; lia).
Qed.

Lemma pick_set flags l j v : flags !! j = Some 0 -> l !! j = Some v ->
  pick (<[j := 1]> flags) l ≡ₚ v :: pick flags l.
Proof.
  revert l j. induction flags as [| f flags IH]; intros [| x l] [| j] Hf Hl; try done.
  - injection Hf as ->. by injection Hl as ->.
  - cbn [pick insert list_insert]. destruct (f =? 0); [by apply IH |]. rewrite (IH l j) by done. constructor.
Qed.

Lemma Forall_pick (P : Z -> Prop) flags l : Forall P l -> Forall P (pick flags l).
Proof.
  revert l. induction flags as [| f flags IH]; intros [| x l] HP; try constructor. apply Forall_cons_1 in HP as [Hx HP].
  cbn [pick]. destruct (f =? 0); [by apply IH | apply Forall_cons_2; auto].
Qed.

Lemma Forall_rest (P : Z -> Prop) flags l : Forall P l -> Forall P (rest flags l).
Proof.
  revert l. induction flags as [| f flags IH]; intros [| x l] HP; try constructor. apply Forall_cons_1 in HP as [Hx HP].
  cbn [rest]. destruct (f =? 0); [apply Forall_cons_2; auto | by apply IH].
Qed.

Lemma sorted_pick R flags l : StronglySorted R l -> StronglySorted R (pick flags l).
Proof.
  revert l. induction flags as [| f flags IH]; intros [| x l] Hs; try constructor. apply StronglySorted_cons in Hs as [Hx Hs].
  cbn [pick]. destruct (f =? 0); [by apply IH | apply StronglySorted_cons; split; [by apply Forall_pick | by apply IH]].
Qed.

Lemma sorted_rest R flags l : StronglySorted R l -> StronglySorted R (rest flags l).
Proof.
  revert l. induction flags as [| f flags IH]; intros [| x l] Hs; try constructor. apply StronglySorted_cons in Hs as [Hx Hs].
  cbn [rest]. destruct (f =? 0); [apply StronglySorted_cons; split; [by apply Forall_rest | by apply IH] | by apply IH].
Qed.

Lemma unflagged_ok colors flags out : (length colors <= length flags)%nat ->
  Z.of_nat (length out + length colors) <= 8 ->
  unflagged colors flags out = Some (out ++ rest flags colors).
Proof.
  revert colors out. induction flags as [| f flags IH]; intros [| c colors] out Hl Hn; cbn [length] in *; try lia.
  1, 2: by rewrite app_nil_r.
  cbn [unflagged rest]. destruct (f =? 0).
  - rewrite push_ok by (unfold PALETTE_MAX_SIZE; lia). cbn [mbind option_bind].
    rewrite IH by (rewrite ?length_app; cbn [length]; lia). by rewrite <- app_assoc.
  - apply IH; lia.
Qed.

Lemma find_color_spec colors v :
  match find_color colors v with
  | Some j => colors !! j = Some v
  | None => v ∉ colors
  end.
Proof.
  induction colors as [| c colors IH]; cbn [find_color]; [by apply not_elem_of_nil |].
  destruct (Z.eqb_spec c v) as [-> |]; [done |]. destruct (find_color colors v) as [j|]; cbn [fmap option_fmap option_map]; [done |].
  rewrite not_elem_of_cons. done.
Qed.

(** The colours flagged so far come before those of the cache still to look at. *)
Definition flagged_below (flags colors cache : list Z) : Prop :=
  forall j c, flags !! j = Some 1 -> colors !! j = Some c -> Forall (Z.lt c) cache.

Lemma index_loop_ok cache colors flags n : StronglySorted Z.lt cache -> (length colors <= 8)%nat ->
  length flags = 8%nat -> Forall is_flag flags -> flagged_below flags colors cache ->
  exists found flags', index_cache_loop cache colors flags n = Some (found, flags') /\
    length found = length cache /\ Forall is_flag found /\ length flags' = 8%nat /\
    pick flags' colors ≡ₚ pick flags colors ++ pick found cache.
Proof.
  intros Hs Hc. revert flags n Hs. induction cache as [| v cache IH]; intros flags n Hs Hl Hf Hb; cbn [index_cache_loop].
  { exists [], flags. rewrite app_nil_r. split_and!; try done. }
  destruct (n <? _).
  2: { exists (replicate (S (length cache)) 0), flags. rewrite pick_zeros, app_nil_r.
       split_and!; try done; [by rewrite length_replicate |]. apply Forall_replicate. by left. }
  apply StronglySorted_cons in Hs as [Hv Hs]. pose proof (find_color_spec colors v) as Hfind.
  destruct (find_color colors v) as [j|].
  - pose proof (lookup_lt_Some _ _ _ Hfind) as Hj. destruct (lookup_lt_is_Some_2 flags j ltac:(lia)) as [f Ef].
    assert (f = 0) as ->.
    { destruct (proj1 (Forall_lookup _ _) Hf j f Ef) as [| ->]; [done |].
      specialize (Hb j v Ef Hfind). apply Forall_cons_1 in Hb as [Hb _]. lia. }
    rewrite arr_set_insert by lia. cbn [mbind option_bind].
    destruct (IH (<[j := 1]> flags) (n + 1)) as (found & flags' & -> & Hlf & Hff & Hl' & Hp); [done | by rewrite length_insert | | |].
    + apply Forall_insert; [done | by right].
    + intros i c Ei Ec. destruct (decide (i = j)) as [-> |].
      * assert (c = v) as -> by congruence. done.
      * rewrite list_lookup_insert_ne in Ei by done. specialize (Hb i c Ei Ec). by apply Forall_cons_1 in Hb as [_ Hb].
    + cbn [mbind option_bind]. exists (1 :: found), flags'. split_and!; [done | by cbn; f_equal | by apply Forall_cons_2; [right |] | done |].
      rewrite Hp, pick_set by done. cbn [pick Z.eqb app]. apply Permutation_middle.
  - destruct (IH flags n) as (found & flags' & -> & Hlf & Hff & Hl' & Hp); try done.
    { intros i c Ei Ec. specialize (Hb i c Ei Ec). by apply Forall_cons_1 in Hb as [_ Hb]. }
    cbn [mbind option_bind]. exists (0 :: found), flags'. split_and!; [done | by cbn; f_equal | by apply Forall_cons_2; [left |] | done | done].
Qed.

(** The colours of a block divide into those taken from the cache and the others. *)
Lemma index_color_cache_ok cache colors : StronglySorted Z.lt cache -> (length colors <= 8)%nat ->
  exists found out, av1_index_color_cache cache colors = Some (found, out) /\
    length found = length cache /\ Forall is_flag found /\ pick found cache ++ out ≡ₚ colors /\
    (forall R, StronglySorted R colors -> StronglySorted R out) /\ (forall P, Forall P colors -> Forall P out).
Proof.
  intros Hs Hl. unfold av1_index_color_cache. destruct (Z.leb_spec (Z.of_nat (length cache)) 0).
  - destruct cache; [| cbn [length] in *; lia]. rewrite unflagged_ok by (rewrite ?length_replicate; cbn [length]; lia).
    cbn [mbind option_bind app]. do 2 eexists. split; [done |].
    pose proof (pick_rest (replicate 8 0) colors Hl) as Hp. rewrite pick_zeros in Hp.
    split_and!; [done | constructor | done | intros R; apply sorted_rest | intros P; apply Forall_rest].
  - destruct (index_loop_ok cache colors (replicate 8 0) 0) as (found & flags & -> & Hlf & Hff & Hl' & Hp); try done.
    + apply Forall_replicate. by left.
    + intros j c Ej. apply lookup_replicate in Ej as [Ej _]. done.
    + cbn [mbind option_bind]. rewrite unflagged_ok by (cbn [length]; lia). cbn [mbind option_bind app]. do 2 eexists. split; [done |].
      rewrite pick_zeros in Hp. cbn [app] in Hp.
      split_and!; [done | done | by rewrite <- Hp; apply pick_rest; lia | intros R; apply sorted_rest | intros P; apply Forall_rest].
Qed.

(** ** Merging in place *)

(** Remaining cached colours, and behind as many places the remaining transmitted ones. *)
Lemma merge_loop_ok A B n : forall todo cached_all done_ gap cached trans k,
  drop k cached_all = cached -> (k <= length cached_all)%nat -> length gap = length cached ->
  todo = (length cached + length trans)%nat -> Z.of_nat (length done_ + length cached + length trans) = n ->
  merge_loop todo (A ++ done_ ++ gap ++ trans ++ B) cached_all (Z.of_nat (length A)) n (Z.of_nat (length done_))
    (Z.of_nat k) (Z.of_nat (length done_ + length gap)) =
  Some (A ++ done_ ++ list_merge Z.le cached trans ++ B).
Proof.
  induction todo as [| todo IH]; intros cached_all done_ gap cached trans k Ek Hk Hg Ht Hn.
  { destruct cached, trans; cbn [length] in *; try lia. destruct gap; [done | cbn [length] in *; lia]. }
  cbn [merge_loop].
  assert (length cached = length cached_all - k)%nat as Hlen by (rewrite <- Ek; apply length_drop).
  assert (forall c cached', cached = c :: cached' ->
    arr_get cached_all (Z.of_nat k) = Some c /\ drop (S k) cached_all = cached' /\ (S k <= length cached_all)%nat) as Hnext.
  { intros c cached' Ecached. assert (cached_all !! k = Some c) as Ec.
    { rewrite <- (Nat.add_0_r k), <- lookup_drop, Ek, Ecached. done. }
    split_and!; [unfold arr_get; rewrite (proj2 (Z.leb_le _ _)) by lia; by rewrite Nat2Z.id | | rewrite Ecached in Hlen; cbn [length] in *; lia].
    rewrite <- Nat.add_1_r, <- drop_drop, Ek, Ecached. done. }
  destruct cached as [| c cached'].
  - (* only transmitted colours *)
    rewrite (proj2 (Z.ltb_ge _ _)) by (cbn [length] in *; lia). cbn [mbind option_bind].
    destruct gap; [| cbn [length] in *; lia]. destruct trans as [| t trans]; [cbn [length] in *; lia |]. cbn [app length].
    rewrite app_assoc, arr_get_mid by (rewrite length_app; lia). cbn [mbind option_bind].
    rewrite arr_set_mid by (rewrite length_app; lia). cbn [mbind option_bind].
    specialize (IH cached_all (done_ ++ [t]) [] [] trans k Ek Hk eq_refl). rewrite !length_app in IH. cbn [length app] in *.
    rewrite list_merge_nil_l in IH |- *. rewrite <- !app_assoc in *. cbn [app] in IH |- *.
    rewrite <- IH by lia. f_equal; lia.
  - destruct gap as [| g gap']; [cbn [length] in *; lia |]. cbn [length] in Hg.
    destruct (Hnext c cached' eq_refl) as (Ec & Ed & Hk').
    rewrite (proj2 (Z.ltb_lt _ _)) by (cbn [length] in *; lia).
    assert (forall x, x = c -> merge_loop todo (A ++ done_ ++ (c :: gap') ++ trans ++ B) cached_all (Z.of_nat (length A)) n
      (Z.of_nat (length done_) + 1) (Z.of_nat k + 1) (Z.of_nat (length done_ + length (g :: gap'))) =
      Some (A ++ done_ ++ x :: list_merge Z.le cached' trans ++ B)) as Hcached.
    { intros x ->. specialize (IH cached_all (done_ ++ [c]) gap' cached' trans (S k) Ed Hk' ltac:(lia)).
      rewrite !length_app in IH. cbn [length] in *. rewrite <- !app_assoc in IH. cbn [app] in IH.
      rewrite <- IH by lia. f_equal; lia. }
    destruct trans as [| t trans'].
    + rewrite (proj2 (Z.leb_le _ _)) by (cbn [length] in *; lia). cbn [mbind option_bind].
      rewrite Ec. cbn [mbind option_bind]. cbn [app]. rewrite app_assoc, arr_set_mid by (rewrite length_app; lia).
      cbn [mbind option_bind]. rewrite <- app_assoc. specialize (Hcached c eq_refl). rewrite list_merge_nil_r in *. apply Hcached.
    + rewrite (proj2 (Z.leb_gt _ _)) by (cbn [length] in *; lia). rewrite Ec. cbn [mbind option_bind].
      assert (A ++ done_ ++ (g :: gap') ++ (t :: trans') ++ B = (A ++ done_ ++ g :: gap') ++ t :: trans' ++ B) as Esplit
        by (by rewrite <- !app_assoc).
      rewrite Esplit, arr_get_mid by (rewrite !length_app; cbn [length]; lia). cbn [mbind option_bind]. rewrite <- Esplit.
      rewrite list_merge_cons. destruct (Z.leb_spec c t); [rewrite decide_True by done | rewrite decide_False by lia].
      * cbn [mbind option_bind app]. rewrite app_assoc, arr_set_mid by (rewrite length_app; lia).
        cbn [mbind option_bind]. rewrite <- app_assoc. by apply Hcached.
      * cbn [app]. rewrite app_assoc, arr_set_mid by (rewrite length_app; lia). cbn [mbind option_bind].
        cbn [length] in *.
        specialize (IH cached_all (done_ ++ [t]) (gap' ++ [t]) (c :: cached') trans' k Ek Hk).
        rewrite !length_app in IH. cbn [length] in IH. specialize (IH ltac:(lia) ltac:(lia) ltac:(lia)).
        rewrite <- !app_assoc in *. cbn [app] in *. rewrite <- IH. f_equal; lia.
Qed.

Lemma merge_colors_ok A B gap cached trans : length gap = length cached ->
  merge_colors (A ++ gap ++ trans ++ B) cached (Z.of_nat (length A)) (Z.of_nat (length cached + length trans)) =
  Some (A ++ list_merge Z.le cached trans ++ B).
Proof.
  intros Hg. unfold merge_colors. destruct (Z.eqb_spec (Z.of_nat (length cached)) 0).
  - destruct cached; [| cbn [length] in *; lia]. destruct gap; [| cbn [length] in *; lia]. by rewrite list_merge_nil_l.
  - pose proof (merge_loop_ok A B _ _ cached [] gap cached trans 0 (drop_0 _) ltac:(lia) Hg eq_refl eq_refl) as H.
    cbn [app length] in H. rewrite Nat2Z.id, <- H. cbn [length]. rewrite Hg. done.
Qed.

(** ** Palettes of the neighbours *)

(** The colours a plane has. *)
Definition colors_of (p : PALETTE_MODE_INFO) (plane : Z) : list Z :=
  take (Z.to_nat (plane_size p plane)) (drop (Z.to_nat (8 * plane)) (palette_colors p)).

Definition color_ok (depth c : Z) : Prop := 0 <= c < 2 ^ depth.

(** At most 8 colours in each plane; those of the first two planes are sorted. *)
Record palette_ok (depth : Z) (p : PALETTE_MODE_INFO) : Prop := {
  po_length : length (palette_colors p) = 24%nat;
  po_size : 0 <= palette_size_y p <= 8 /\ 0 <= palette_size_uv p <= 8;
  po_sorted : StronglySorted Z.le (colors_of p 0) /\ StronglySorted Z.le (colors_of p 1);
  po_range : Forall (color_ok depth) (colors_of p 0) /\ Forall (color_ok depth) (colors_of p 1) }.

Definition site_ok (depth : Z) (s : palette_site) : Prop :=
  (forall p, ps_above s = Some p -> palette_ok depth p) /\ (forall p, ps_left s = Some p -> palette_ok depth p).

Lemma plane_colors_ok colors plane n : length colors = 24%nat -> 0 <= plane <= 2 -> 0 <= n <= 8 ->
  plane_colors colors plane n = Some (take (Z.to_nat n) (drop (Z.to_nat (8 * plane)) colors)).
Proof.
  intros Hl Hp Hn. unfold plane_colors, PALETTE_MAX_SIZE. apply mapM_Some_2. apply Forall2_same_length_lookup_2.
  { rewrite length_seqZ, length_take, length_drop. lia. }
  intros i z x Hz Hx. apply lookup_seqZ in Hz as [-> Hi]. rewrite lookup_take, decide_True, lookup_drop in Hx by lia.
  unfold arr_get. rewrite (proj2 (Z.leb_le _ _)) by lia.
  replace (Z.to_nat (plane * 8 + (0 + Z.of_nat i))) with (Z.to_nat (8 * plane) + i)%nat by lia. done.
Qed.

Lemma neighbor_ok depth p plane : 0 <= plane <= 1 -> (forall q, p = Some q -> palette_ok depth q) ->
  exists l, neighbor_colors p plane = Some l /\ StronglySorted Z.le l /\ (length l <= 8)%nat /\ Forall (color_ok depth) l.
Proof.
  intros Hp Hq. destruct p as [q|]; [| exists []; split_and!; first [done | apply SSorted_nil | cbn; lia]].
  destruct (Hq q eq_refl) as [Hl [Hy Hu] [Sy Su] [Ry Ru]]. cbn [neighbor_colors]. unfold plane_size.
  rewrite plane_colors_ok by (try done; destruct (plane =? 0); lia). eexists. split; [done |].
  assert (plane = 0 \/ plane = 1) as [-> | ->] by lia; cbn [Z.eqb]; (split_and!; [exact Sy || exact Su | rewrite length_take; lia | exact Ry || exact Ru]).
Qed.

Lemma palette_cache_ok depth s plane : 0 <= plane <= 1 -> site_ok depth s ->
  exists cache, av1_get_palette_cache s plane = Some cache /\ StronglySorted Z.lt cache /\ (length cache <= 16)%nat /\
    Forall (color_ok depth) cache.
Proof.
  intros Hp [Ha Hl]. unfold av1_get_palette_cache.
  destruct (neighbor_ok depth (if Z.shiftr (- ps_mb_to_top_edge s) 3 mod Z.shiftl 1 MIN_SB_SIZE_LOG2 =? 0 then None else ps_above s) plane Hp)
    as (a & -> & Sa & La & Ra); [destruct (_ =? 0); [done | exact Ha] |]. cbn [mbind option_bind].
  destruct (neighbor_ok depth (ps_left s) plane Hp Hl) as (l & -> & Sl & Ll & Rl). cbn [mbind option_bind].
  destruct (merge_cache_ok (color_ok depth) a l []) as (c & -> & Sc & Lc & Rc); try done; try constructor.
  - apply Forall_true. intros x. constructor.
  - apply Forall_true. intros x. constructor.
  - cbn [length]. lia.
  - exists c. cbn [length] in *. split_and!; try done. lia.
Qed.

(** ** The second chroma plane *)

Lemma delta_v_half depth a b : 0 <= depth -> color_ok depth a -> color_ok depth b -> 2 * delta_v (2 ^ depth) a b <= 2 ^ depth.
Proof. unfold color_ok, delta_v. lia. Qed.

(** The largest distance, and at most all are zero. *)
Lemma delta_bits_ok max_val prev colors m z : forall m' z', delta_bits_loop max_val prev colors m z = (m', z') ->
  m <= m' /\ z' <= z + Z.of_nat (length colors) /\
  forall pre x y post, prev :: colors = pre ++ x :: y :: post -> delta_v max_val x y <= m'.
Proof.
  revert prev m z. induction colors as [| c colors IH]; intros prev m z m' z'; cbn [delta_bits_loop].
  { intros [= <- <-]. split_and!; [lia | cbn [length]; lia |]. intros [| ? [| ? ?]] x y post E; discriminate E. }
  intros E. apply IH in E as (Hm & Hz & Hall). set (d := delta_v max_val prev c) in *. cbn [length]. split_and!.
  - destruct (Z.ltb_spec m d); lia.
  - destruct (d =? 0); lia.
  - intros [| p pre] x y post Ep.
    + injection Ep as <- <- _. fold d. destruct (Z.ltb_spec m d); lia.
    + injection Ep as _ Ep. by apply (Hall pre x y post).
Qed.

(** When differences are chosen, their width can be sent. *)
Lemma delta_bits_fit colors depth bits zeros min_bits : 8 <= depth <= 12 -> colors <> [] ->
  av1_get_palette_delta_bits_v colors depth = (bits, zeros, min_bits) ->
  2 + depth + (bits + 1) * (Z.of_nat (length colors) - 1) - zeros < depth * Z.of_nat (length colors) ->
  min_bits = depth - 4 /\ min_bits <= bits < depth /\
  forall pre x y post, colors = pre ++ x :: y :: post -> delta_v (2 ^ depth) x y < 2 ^ bits.
Proof.
  intros Hd Hne. unfold av1_get_palette_delta_bits_v. destruct colors as [| c colors]; [done |]. cbn [length].
  rewrite Z.shiftl_mul_pow2, Z.mul_1_l by lia.
  destruct (delta_bits_loop (2 ^ depth) c colors 0 0) as [m z] eqn:E. apply delta_bits_ok in E as (Hm & Hz & Hall).
  intros [= <- <- <-] Hrate. destruct (ceil_log2_spec (m + 1)) as [Hc0 Hc1].
  assert (Z.max (aom_ceil_log2 (m + 1)) (depth - 4) < depth) as Hlt.
  { destruct (Z.lt_ge_cases (Z.max (aom_ceil_log2 (m + 1)) (depth - 4)) depth) as [| Hge]; [done | exfalso].
    revert Hrate Hge. generalize (Z.max (aom_ceil_log2 (m + 1)) (depth - 4)). intros b. nia. }
  split_and!; [done | lia | done |]. intros pre x y post Ec. specialize (Hall pre x y post Ec).
  assert (2 ^ aom_ceil_log2 (m + 1) <= 2 ^ Z.max (aom_ceil_log2 (m + 1)) (depth - 4)) by (apply Z.pow_le_mono_r; lia). lia.
Qed.

(** ** Palettes that agree *)

(** Sorted, with a smallest step. *)
Definition spaced (min_val : Z) : list Z -> Prop := StronglySorted (fun a b => a + min_val <= b).

Lemma spaced_le min_val l : 0 <= min_val -> spaced min_val l -> StronglySorted Z.le l.
Proof.
  intros Hm. induction l as [| x l IH]; intros Hs; [constructor |]. apply StronglySorted_cons in Hs as [Hx Hs].
  apply StronglySorted_cons. split; [| by apply IH]. eapply List.Forall_impl; [| exact Hx]. cbn. lia.
Qed.

(** Two descriptions of the same palette: the places behind the colours do not matter. *)
Record agrees (p q : PALETTE_MODE_INFO) : Prop := {
  ag_length : length (palette_colors q) = length (palette_colors p);
  ag_size : palette_size_y q = palette_size_y p /\ palette_size_uv q = palette_size_uv p;
  ag_colors : forall plane, 0 <= plane <= 2 -> colors_of q plane = colors_of p plane }.

Definition neighbors_agree (p q : option PALETTE_MODE_INFO) : Prop :=
  match p, q with Some p, Some q => agrees p q | None, None => True | _, _ => False end.

Definition sites_agree (s t : palette_site) : Prop :=
  neighbors_agree (ps_above s) (ps_above t) /\ neighbors_agree (ps_left s) (ps_left t) /\
  ps_mb_to_top_edge t = ps_mb_to_top_edge s.

Lemma neighbor_colors_agree depth p q plane : 0 <= plane <= 1 -> (forall r, p = Some r -> palette_ok depth r) ->
  neighbors_agree p q -> neighbor_colors q plane = neighbor_colors p plane.
Proof.
  intros Hp Hok Ha. destruct p as [p|], q as [q|]; try done. destruct (Hok p eq_refl) as [Hl [Hy Hu] _ _].
  destruct Ha as [El [Ey Eu] Ec]. cbn [neighbor_colors].
  assert (plane_size q plane = plane_size p plane) as Es by (unfold plane_size; destruct (plane =? 0); done).
  assert (0 <= plane_size p plane <= 8) by (unfold plane_size; destruct (plane =? 0); lia).
  rewrite !plane_colors_ok by (lia || congruence). f_equal. apply (Ec plane). lia.
Qed.

Lemma palette_cache_agree depth s t plane : 0 <= plane <= 1 -> site_ok depth s -> sites_agree s t ->
  av1_get_palette_cache t plane = av1_get_palette_cache s plane.
Proof.
  intros Hp [Hoa Hol] (Ha & Hl & Ee). unfold av1_get_palette_cache. rewrite Ee.
  rewrite (neighbor_colors_agree depth (ps_left s) (ps_left t)) by done.
  destruct (_ =? 0); [done |]. by rewrite (neighbor_colors_agree depth (ps_above s) (ps_above t)).
Qed.

Lemma palette_mode_ctx_agree s t : sites_agree s t -> av1_get_palette_mode_ctx t = av1_get_palette_mode_ctx s.
Proof.
  assert (forall p q, neighbors_agree p q -> has_palette q = has_palette p) as H.
  { intros [p|] [q|] Ha; try done. destruct Ha as [_ [Ey _] _]. cbn. by rewrite Ey. }
  intros (Ha & Hl & _). unfold av1_get_palette_mode_ctx. by rewrite (H _ _ Ha), (H _ _ Hl).
Qed.

(** Colours written over those of a plane. *)
Definition overwrite (old : list Z) (plane : Z) (colors : list Z) : list Z :=
  take (Z.to_nat (8 * plane)) old ++ colors ++ drop (Z.to_nat (8 * plane) + length colors) old.

Lemma length_overwrite old plane colors : length old = 24%nat -> 0 <= plane <= 2 -> (length colors <= 8)%nat ->
  length (overwrite old plane colors) = 24%nat.
Proof. intros Hl Hp Hc. unfold overwrite. rewrite !length_app, length_take, length_drop. lia. Qed.

Lemma overwrite_same old plane colors : length old = 24%nat -> 0 <= plane <= 2 ->
  take (length colors) (drop (Z.to_nat (8 * plane)) (overwrite old plane colors)) = colors.
Proof.
  intros Hl Hp. unfold overwrite. rewrite drop_app_length' by (rewrite length_take; lia). by rewrite take_app_length.
Qed.

Lemma overwrite_other old plane plane' colors n : length old = 24%nat -> 0 <= plane <= 2 -> 0 <= plane' <= 2 ->
  plane' <> plane -> (length colors <= 8)%nat -> (n <= 8)%nat ->
  take n (drop (Z.to_nat (8 * plane')) (overwrite old plane colors)) = take n (drop (Z.to_nat (8 * plane')) old).
Proof.
  intros Hl Hp Hp' Hne Hc Hn. apply list_eq. intros i. rewrite !lookup_take. destruct (decide (i < n)%nat); [| done].
  rewrite !lookup_drop. unfold overwrite. destruct (Z.lt_ge_cases plane' plane).
  - rewrite lookup_app_l by (rewrite length_take; lia). by rewrite lookup_take, decide_True by lia.
  - rewrite lookup_app_r by (rewrite length_take; lia). rewrite lookup_app_r by (rewrite length_take; lia).
    rewrite lookup_drop, length_take. f_equal. lia.
Qed.

(** What a palette must be for it to be sent. *)
Record palette_codable (depth : Z) (dc_pred uv_dc_pred : bool) (p : PALETTE_MODE_INFO) : Prop := {
  pc_length : length (palette_colors p) = 24%nat;
  pc_size : (palette_size_y p = 0 \/ 2 <= palette_size_y p <= 8) /\ (palette_size_uv p = 0 \/ 2 <= palette_size_uv p <= 8);
  pc_none : (dc_pred = false -> palette_size_y p = 0) /\ (uv_dc_pred = false -> palette_size_uv p = 0);
  pc_sorted : spaced 1 (colors_of p 0) /\ spaced 0 (colors_of p 1);
  pc_range : forall plane, 0 <= plane <= 2 -> Forall (color_ok depth) (colors_of p plane) }.

Lemma codable_ok depth a b p : palette_codable depth a b p -> palette_ok depth p.
Proof.
  intros [Hl [Hy Hu] _ [Sy Su] Hr]. split; [done | lia | | split; apply Hr; lia].
  split; [apply (spaced_le 1) | apply (spaced_le 0)]; (lia || done).
Qed.

Lemma palette_ok_agrees depth p q : palette_ok depth p -> agrees p q -> palette_ok depth q.
Proof.
  intros [Hl [Hy Hu] Hs Hr] [El [Ey Eu] Ec]. split; [congruence | by rewrite Ey, Eu | |]; rewrite !Ec by lia; done.
Qed.

Lemma length_colors_of p plane : length (palette_colors p) = 24%nat -> 0 <= plane <= 2 -> 0 <= plane_size p plane <= 8 ->
  Z.of_nat (length (colors_of p plane)) = plane_size p plane.
Proof. intros Hl Hp Hn. unfold colors_of. rewrite length_take, length_drop. lia. Qed.

(** ** What is written is read *)

(** The indices of a model are inside its arrays. *)
Ltac in_arrays := unfold in_layout, fc_layout, fc_dims, fc_coded, idx_in;
  rewrite !(proj2 (Z.leb_le _ _)), !(proj2 (Z.ltb_lt _ _)) by lia; done.

Section Transfer.
Context (al : allocator) (Hal : grants_all al) (adaptive : bool).

#[local] Abbreviation transfers := (transfers al adaptive).

Lemma transfers_found found cache n cached : length found = length cache -> Forall is_flag found -> n <= 8 ->
  Z.of_nat (length cached + length (pick found cache)) <= n ->
  transfers (Z.of_nat (length found)) (write_found al found (Z.of_nat (length cached)) n) (read_found cache n cached)
    tt (cached ++ pick found cache).
Proof.
  intros Hl Hf Hn. revert cache cached Hl. induction found as [| f found IH]; intros [| c cache] cached Hl Hp; try done.
  { cbn [pick]. rewrite app_nil_r. apply transfers_ret. }
  apply Forall_cons_1 in Hf as [Hf1 Hf]. cbn [length] in Hl. cbn [write_found read_found].
  destruct (Z.ltb_spec (Z.of_nat (length cached)) n) as [Hlt |].
  2: { assert (pick (f :: found) (c :: cache) = []) as -> by (apply nil_length_inv; lia). rewrite app_nil_r.
       eapply transfers_le; [| apply transfers_ret]. lia. }
  replace (Z.of_nat (length (f :: found))) with (1 + Z.of_nat (length found)) by (cbn [length]; lia).
  destruct Hf1 as [-> | ->]; (eapply transfers_bind; [apply (transfers_bit al Hal adaptive false) || apply (transfers_bit al Hal adaptive true) |]).
  - cbn [pick Z.eqb negb b2z] in *. rewrite Z.add_0_r. apply IH; [done | lia | done].
  - cbn [pick Z.eqb negb b2z length] in *. rewrite push_ok by (unfold PALETTE_MAX_SIZE; lia). rewrite r_lift_some.
    replace (Z.of_nat (length cached) + 1) with (Z.of_nat (length (cached ++ [c]))) by (rewrite length_app; cbn [length]; lia).
    replace (cached ++ c :: pick found cache) with ((cached ++ [c]) ++ pick found cache) by (by rewrite <- app_assoc).
    apply IH; [done | lia |]. rewrite length_app. cbn [length]. lia.
Qed.

Lemma clamp_id v lo hi : lo <= v <= hi -> clamp v lo hi = v.
Proof. intros H. unfold clamp. by rewrite (proj2 (Z.ltb_ge _ _)), (proj2 (Z.ltb_ge _ _)) by lia. Qed.

(** Colours increasing by at least [min_val], below [2 ^ depth]. *)
Fixpoint increasing (min_val prev : Z) (colors : list Z) : Prop :=
  match colors with
  | [] => True
  | c :: colors' => prev + min_val <= c /\ increasing min_val c colors'
  end.

(** Every difference is bounded by what is left of the range. *)
Lemma deltas_left depth min_val c colors p : 0 <= min_val -> increasing min_val p colors ->
  Forall (fun c => 0 <= c < 2 ^ depth) colors -> c <= p ->
  Forall (fun d => d - min_val < 2 ^ depth - c - min_val) (color_deltas p colors).
Proof.
  intros Hm. revert p. induction colors as [| x colors IH]; intros p Hi Hr Hp; cbn [color_deltas]; [constructor |].
  destruct Hi as [Hx Hi]. apply Forall_cons_1 in Hr as [Hxr Hr]. apply Forall_cons_2; [lia |]. apply IH; [done | done | lia].
Qed.

Lemma transfers_deltas depth min_val (Hd : 8 <= depth <= 12) (Hmv : 0 <= min_val) : forall colors pre prev ys post bits,
  length ys = length colors -> increasing min_val prev colors -> 0 <= prev -> Forall (fun c => 0 <= c < 2 ^ depth) colors ->
  0 <= bits <= depth -> Forall (fun d => d - min_val < 2 ^ bits) (color_deltas prev colors) ->
  transfers (12 * Z.of_nat (length colors))
    (write_deltas al (color_deltas prev colors) min_val bits (2 ^ depth - prev - min_val))
    (read_deltas (length colors) (pre ++ prev :: ys ++ post) (Z.of_nat (length pre) + 1) min_val depth bits
       (2 ^ depth - prev - min_val))
    tt (pre ++ prev :: colors ++ post).
Proof.
  induction colors as [| c colors IH]; intros pre prev ys post bits Hl Hi Hp Hr Hb Hds.
  { destruct ys; [| done]. apply transfers_ret. }
  destruct ys as [| y ys]; [done |]. cbn [length] in Hl. destruct Hi as [Hc Hi].
  apply Forall_cons_1 in Hr as [Hcr Hr]. cbn [color_deltas] in Hds. apply Forall_cons_1 in Hds as [Hdel Hds].
  replace (12 * Z.of_nat (length (c :: colors))) with (12 + 12 * Z.of_nat (length colors)) by (cbn [length]; lia).
  cbn [color_deltas write_deltas read_deltas length].
  eapply transfers_bind; [eapply (transfers_le _ _ bits); [lia |]; apply transfers_literal; [done | lia | lia] |].
  cbv beta zeta. rewrite arr_get_mid by lia. rewrite r_lift_some.
  replace (prev + (c - prev - min_val + min_val)) with c by lia.
  rewrite clamp_id by (rewrite Z.shiftl_mul_pow2 by lia; lia).
  cbn [app]. rewrite (cons_middle prev), app_assoc, arr_set_mid by (rewrite length_app; cbn [length]; lia).
  rewrite r_lift_some.
  replace (2 ^ depth - prev - min_val - (c - prev)) with (2 ^ depth - c - min_val) by lia.
  replace (Z.of_nat (length pre) + 1 + 1) with (Z.of_nat (length (pre ++ [prev])) + 1) by (rewrite length_app; cbn [length]; lia).
  specialize (IH (pre ++ [prev]) c ys post (Z.min bits (aom_ceil_log2 (2 ^ depth - c - min_val))) ltac:(lia) Hi ltac:(lia) Hr).
  destruct (ceil_log2_spec (2 ^ depth - c - min_val)) as [Hcl0 Hcl]. rewrite <- !app_assoc in *. cbn [app] in *. apply IH; [lia |].
  assert (Forall (fun d => d - min_val < 2 ^ depth - c - min_val) (color_deltas c colors)) as Hleft
    by (apply deltas_left; try done; lia).
  eapply List.Forall_impl; [| apply List.Forall_and; [exact Hds | exact Hleft]].
  intros d [H1 H2]. destruct (Z.min_spec bits (aom_ceil_log2 (2 ^ depth - c - min_val))) as [[_ ->] | [_ ->]]; [done | lia].
Qed.

Lemma spaced_increasing min_val c l : spaced min_val (c :: l) -> increasing min_val c l.
Proof.
  revert c. induction l as [| x l IH]; intros c Hs; [done |]. apply StronglySorted_cons in Hs as [Hx Hs].
  apply Forall_cons_1 in Hx as [Hx _]. split; [done | by apply IH].
Qed.

Lemma copy_colors_ok A old B src : length old = length src ->
  copy_colors (A ++ old ++ B) (Z.of_nat (length A)) src = Some (A ++ src ++ B).
Proof.
  revert A old. induction src as [| c src IH]; intros A [| o old] Hl; cbn [length] in *; try lia; [done |].
  cbn [copy_colors app]. rewrite arr_set_mid by done. cbn [mbind option_bind].
  specialize (IH (A ++ [c]) old ltac:(lia)). rewrite <- !app_assoc in IH. rewrite length_app in IH. cbn [app length] in IH.
  rewrite <- IH. f_equal. lia.
Qed.

Lemma foldl_max l m : m <= foldl Z.max m l /\ Forall (fun d => d <= foldl Z.max m l) l.
Proof.
  revert m. induction l as [| x l IH]; intros m; cbn [foldl]; [split; [lia | constructor] |].
  destruct (IH (Z.max m x)) as [H1 H2]. split; [lia |]. apply Forall_cons_2; [lia | done].
Qed.

Lemma foldl_max_bound l m b : m <= b -> Forall (fun d => d <= b) l -> foldl Z.max m l <= b.
Proof.
  revert m. induction l as [| x l IH]; intros m Hm Hl; cbn [foldl]; [done |].
  apply Forall_cons_1 in Hl as [Hx Hl]. apply IH; [lia | done].
Qed.

Lemma sorted_eq l1 l2 : StronglySorted Z.le l1 -> StronglySorted Z.le l2 -> l1 ≡ₚ l2 -> l1 = l2.
Proof. intros H1 H2. apply (StronglySorted_unique Z.le); [done | done]. Qed.

(** The transmitted colours, behind those from the cache. *)
Lemma transfers_transmitted depth min_val out A X Y B cached : 8 <= depth <= 12 -> 0 <= min_val <= 1 ->
  out <> [] -> spaced min_val out -> Forall (fun c => 0 <= c < 2 ^ depth) out ->
  length X = length cached -> length Y = length out ->
  let base := Z.of_nat (length A) in let idx := Z.of_nat (length cached) in
  let n := Z.of_nat (length cached + length out) in
  transfers (14 + 12 * Z.of_nat (length out)) (delta_encode_palette_colors al out depth min_val)
    (c ← r_literal depth;
     colors ← r_lift (arr_set (A ++ X ++ Y ++ B) (base + idx) c);
     let idx := idx + 1 in
     colors ←
       (if idx <? n then
          let min_bits := depth - 3 in
          b ← r_literal 2;
          let bits := min_bits + b in
          prev ← r_lift (arr_get colors (base + idx - 1));
          read_deltas (Z.to_nat (n - idx)) colors (base + idx) min_val depth bits
            (Z.shiftl 1 depth - prev - min_val)
        else mret colors);
     r_lift (merge_colors colors cached base n))
    tt (A ++ list_merge Z.le cached out ++ B).
Proof.
  intros Hd Hm Hne Hs Hr HX HY base idx n. destruct out as [| c out]; [done |]. apply Forall_cons_1 in Hr as [Hc Hr].
  destruct Y as [| y Y]; [done |]. cbn [length] in HY.
  assert (arr_set (A ++ X ++ (y :: Y) ++ B) (base + idx) c = Some (A ++ X ++ (c :: Y) ++ B)) as Eset.
  { cbn [app]. rewrite !(app_assoc A X). apply arr_set_mid. rewrite length_app. unfold base, idx. lia. }
  assert (forall r : aom_reader * cdfs fc_key,
    r_lift (merge_colors (A ++ X ++ (c :: out) ++ B) cached base n) r = Ok (A ++ list_merge Z.le cached (c :: out) ++ B, r)) as Emerge.
  { intros r. unfold base, n. by rewrite merge_colors_ok. }
  destruct out as [| c2 out].
  - cbn [delta_encode_palette_colors]. eapply transfers_le; [| eapply transfers_post; [apply transfers_literal; [done | lia | done] |]].
    { cbn [length]. lia. }
    intros r. rewrite Eset, r_lift_some. rewrite (proj2 (Z.ltb_ge _ _)) by (unfold idx, n; cbn [length]; lia).
    destruct Y; [| done]. apply Emerge.
  - cbn [delta_encode_palette_colors].
    eapply transfers_le; [| eapply transfers_bind; [apply transfers_literal; [done | lia | done] |]].
    2: { cbv beta zeta. rewrite Eset, r_lift_some. rewrite (proj2 (Z.ltb_lt _ _)) by (unfold idx, n; cbn [length]; lia).
      set (ds := color_deltas c (c2 :: out)). set (bits := Z.max _ _).
      eapply transfers_post; [| exact Emerge].
      assert (Forall (fun d => d <= 2 ^ depth - 1) ds) as Hds.
      { pose proof (deltas_left depth min_val c (c2 :: out) c ltac:(lia) (spaced_increasing _ _ _ Hs) Hr ltac:(lia)) as Hl.
        eapply List.Forall_impl; [| exact Hl]. cbn. lia. }
      destruct (ceil_log2_spec (foldl Z.max 0 ds + 1 - min_val)) as [Hl0 Hl1].
      assert (aom_ceil_log2 (foldl Z.max 0 ds + 1 - min_val) <= depth) as Hl2.
      { apply ceil_log2_le; [lia |]. pose proof (foldl_max_bound ds 0 (2 ^ depth - 1) ltac:(lia) Hds). lia. }
      assert (0 <= bits <= depth) as Hbits by (unfold bits; lia).
      eapply transfers_bind; [apply transfers_literal; [done | lia | change (2 ^ 2) with 4; unfold bits; lia] |]. cbv beta.
      cbn [app]. rewrite !(app_assoc A X). rewrite arr_get_mid by (rewrite length_app; unfold base, idx; lia). rewrite r_lift_some.
      replace (depth - 3 + (bits - (depth - 3))) with bits by lia.
      replace (Z.to_nat (n - (idx + 1))) with (length (c2 :: out)) by (unfold n, idx; cbn [length]; lia).
      replace (base + (idx + 1)) with (Z.of_nat (length (A ++ X)) + 1) by (rewrite length_app; unfold base, idx; lia).
      rewrite Z.shiftl_mul_pow2, Z.mul_1_l by lia.
      apply (transfers_deltas depth min_val Hd ltac:(lia) (c2 :: out) (A ++ X) c Y B bits); try done; [lia | by apply spaced_increasing | lia |].
      eapply List.Forall_impl; [| apply (foldl_max ds 0)]. intros d Hdm. cbv beta in Hdm.
      assert (2 ^ aom_ceil_log2 (foldl Z.max 0 ds + 1 - min_val) <= 2 ^ bits) by (apply Z.pow_le_mono_r; unfold bits; lia). lia. }
    cbn [length]. lia.
Qed.

(** A plane of sorted colours. *)
Lemma transfers_sorted s p plane depth min_val A old B : 8 <= depth <= 12 -> 0 <= min_val <= 1 -> 0 <= plane <= 1 ->
  site_ok depth s -> length (palette_colors p) = 24%nat -> 0 <= plane_size p plane <= 8 ->
  spaced min_val (colors_of p plane) -> Forall (color_ok depth) (colors_of p plane) ->
  Z.of_nat (length A) = 8 * plane -> Z.of_nat (length old) = plane_size p plane ->
  transfers 130 (write_sorted_colors al s p plane depth min_val)
    (read_sorted_colors s (A ++ old ++ B) plane (plane_size p plane) depth min_val) tt (A ++ colors_of p plane ++ B).
Proof.
  intros Hd Hm Hp Hs Hl Hn Hsp Hr HA Hold. unfold write_sorted_colors, read_sorted_colors.
  destruct (palette_cache_ok depth s plane Hp Hs) as (cache & -> & Sc & Lc & Rc).
  rewrite plane_colors_ok by (done || lia). fold (colors_of p plane). rewrite !w_lift_some, r_lift_some.
  set (colors := colors_of p plane) in *.
  assert (Z.of_nat (length colors) = plane_size p plane) as Hlen by (unfold colors, colors_of; rewrite length_take, length_drop; lia).
  destruct (index_color_cache_ok cache colors Sc ltac:(lia)) as (found & out & -> & Lf & Ff & Hperm & Hso & Hfo).
  rewrite w_lift_some. pose proof (Permutation_length Hperm) as Hpl. rewrite length_app in Hpl.
  apply (transfers_le al adaptive (Z.of_nat (length found) + (14 + 12 * Z.of_nat (length out)))); [lia |].
  eapply transfers_bind; [apply (transfers_found found cache (plane_size p plane) []); try done; cbn [length]; lia |].
  cbn [app]. set (I := pick found cache) in *. replace (plane * PALETTE_MAX_SIZE) with (Z.of_nat (length A)) by (unfold PALETTE_MAX_SIZE; lia).
  assert (StronglySorted Z.le I) as SI.
  { apply sorted_pick. clear -Sc. induction Sc as [| x l Sl IH Hx]; [constructor |]. apply StronglySorted_cons.
    split; [| done]. eapply List.Forall_impl; [| exact Hx]. cbn. lia. }
  assert (list_merge Z.le I out = colors) as Emerge.
  { apply sorted_eq; [| by eapply (spaced_le min_val); [lia |] | by rewrite merge_Permutation].
    apply Sorted_StronglySorted; [apply _ |]. apply Sorted_list_merge; [apply _ | |]; apply StronglySorted_Sorted; [done |].
    apply (spaced_le min_val); [lia | by apply Hso]. }
  destruct (decide (out = [])) as [-> | Hne].
  - cbn [length] in Hpl. rewrite Nat.add_0_r in Hpl. rewrite list_merge_nil_r in Emerge. rewrite (proj2 (Z.ltb_ge _ _)) by (cbn [length] in *; lia).
    apply (transfers_le al adaptive 0); [lia |]. cbn [delta_encode_palette_colors].
    rewrite take_ge by lia. rewrite copy_colors_ok by lia. rewrite Emerge. apply transfers_ret.
  - rewrite (proj2 (Z.ltb_lt _ _)) by (destruct out; [done | cbn [length] in *; lia]).
    replace (plane_size p plane) with (Z.of_nat (length I + length out)) by lia. rewrite <- Emerge.
    rewrite <- (take_drop (length I) old), <- app_assoc.
    apply transfers_transmitted; try done; [by apply Hso | by apply Hfo | rewrite length_take; lia | rewrite length_drop; lia].
Qed.

Lemma transfers_deltas_v depth bits : 8 <= depth <= 12 -> 0 <= bits < depth -> forall colors A done_ prev ys B,
  length A = 16%nat -> length ys = length colors -> color_ok depth prev -> Forall (color_ok depth) colors ->
  (forall pre x y post, prev :: colors = pre ++ x :: y :: post -> delta_v (2 ^ depth) x y < 2 ^ bits) ->
  transfers (13 * Z.of_nat (length colors)) (write_deltas_v al (2 ^ depth) bits prev colors)
    (read_deltas_v (length colors) (A ++ done_ ++ prev :: ys ++ B) (Z.of_nat (length done_) + 1) (2 ^ depth) bits)
    tt (A ++ done_ ++ prev :: colors ++ B).
Proof.
  intros Hd Hb. induction colors as [| c colors IH]; intros A done_ prev ys B HA Hl Hp Hr Hdel.
  { destruct ys; [| done]. apply transfers_ret. }
  destruct ys as [| y ys]; [done |]. apply Forall_cons_1 in Hr as [Hc Hr]. cbn [length] in Hl.
  replace (13 * Z.of_nat (length (c :: colors))) with (13 + 13 * Z.of_nat (length colors)) by (cbn [length]; lia).
  cbn [write_deltas_v read_deltas_v length].
  assert (2 ^ depth <= 2 ^ 12) as Hpow by (apply Z.pow_le_mono_r; lia). change (2 ^ 12) with 4096 in Hpow.
  (* one colour *)
  assert (transfers 13
    (if c =? prev then w_literal al 0 bits
     else
       let delta := Z.abs (c - prev) in
       let sign_bit := c <? prev in
       if delta <=? 2 ^ depth - delta then _ ← w_literal al delta bits; w_bit al (b2z sign_bit)
       else _ ← w_literal al (2 ^ depth - delta) bits; w_bit al (b2z (negb sign_bit)))
    (delta ← r_literal bits;
     sign ← (if negb (delta =? 0) then r_bit else mret 0);
     mret (let delta := if negb (sign =? 0) then - delta else delta in
           let val := prev + delta in
           let val := if val <? 0 then val + 2 ^ depth else val in
           let val := if 2 ^ depth <=? val then val - 2 ^ depth else val in u16 val))
    tt c) as Hone.
  { specialize (Hdel [] prev c colors eq_refl). unfold delta_v, color_ok in *. cbv zeta.
    apply (transfers_le al adaptive (bits + 1)); [lia |].
    assert (forall (d : Z) (sg : bool), 0 < d < 2 ^ bits ->
      (let val := prev + (if sg then - d else d) in
       let val := if val <? 0 then val + 2 ^ depth else val in
       (if 2 ^ depth <=? val then val - 2 ^ depth else val) = c) ->
      transfers (bits + 1) (_ ← w_literal al d bits; w_bit al (b2z sg))
        (delta ← r_literal bits;
         sign ← (if negb (delta =? 0) then r_bit else mret 0);
         mret (let delta := if negb (sign =? 0) then - delta else delta in
               let val := prev + delta in
               let val := if val <? 0 then val + 2 ^ depth else val in
               let val := if 2 ^ depth <=? val then val - 2 ^ depth else val in u16 val)) tt c) as Hsigned.
    { intros d sg Hd0 Hval. eapply transfers_bind; [apply transfers_literal; [done | lia | lia] |]. cbv beta.
      rewrite (proj2 (Z.eqb_neq d 0)) by lia. cbn [negb]. eapply transfers_post; [apply transfers_bit; done |].
      intros r. destruct sg; cbn [b2z Z.eqb negb]; cbv zeta in *; rewrite Hval, u16_small by lia; done. }
    destruct (Z.eqb_spec c prev) as [-> |].
    - apply (transfers_le al adaptive bits); [lia |]. eapply transfers_post; [apply transfers_literal; [done | lia | lia] |].
      intros r. cbn [Z.eqb negb]. unfold mbind, reader_bind, mret, reader_ret. rewrite Z.add_0_r.
      rewrite (proj2 (Z.ltb_ge _ _)), (proj2 (Z.leb_gt _ _)), u16_small by lia. done.
    - destruct (Z.leb_spec (Z.abs (c - prev)) (2 ^ depth - Z.abs (c - prev))); apply Hsigned; try lia;
        cbv zeta; destruct (Z.ltb_spec c prev); cbn [negb];
        repeat (match goal with |- context [if ?b then _ else _] => destruct b eqn:? end); lia. }
  set (one := r_literal bits ≫= _) in Hone. cbv zeta in Hone |- *.
  eapply (transfers_ext al adaptive _ _ _ (one ≫= fun v =>
    colors' ← r_lift (arr_set (A ++ done_ ++ prev :: (y :: ys) ++ B) (2 * PALETTE_MAX_SIZE + (Z.of_nat (length done_) + 1)) v);
    read_deltas_v (length colors) colors' (Z.of_nat (length done_) + 1 + 1) (2 ^ depth) bits)); [done | |].
  { intros r. unfold one, mbind, reader_bind. destruct (r_literal bits r) as [[delta r1] | |]; [| done | done].
    destruct ((if negb (delta =? 0) then r_bit else mret 0) r1) as [[sign r2] | |]; [| done | done].
    rewrite !(app_assoc A done_), arr_get_mid by (rewrite length_app; unfold PALETTE_MAX_SIZE; lia). reflexivity. }
  eapply transfers_bind; [exact Hone |]. cbv beta. cbn [app].
  rewrite (cons_middle prev), (app_assoc done_), !(app_assoc A), arr_set_mid
    by (rewrite !length_app; unfold PALETTE_MAX_SIZE; cbn [length]; lia).
  rewrite r_lift_some. specialize (IH A (done_ ++ [prev]) c ys B HA ltac:(lia) Hc Hr).
  rewrite length_app in IH. cbn [length] in IH.
  replace (Z.of_nat (length done_) + 1 + 1) with (Z.of_nat (length done_ + 1) + 1) by lia.
  rewrite <- !app_assoc in *. cbn [app] in *. apply IH.
  intros pre x z post E. apply (Hdel (prev :: pre) x z post). by rewrite E.
Qed.

Lemma transfers_raw depth colors A done_ ys B : 8 <= depth <= 12 -> length A = 16%nat -> length ys = length colors ->
  Forall (color_ok depth) colors ->
  transfers (12 * Z.of_nat (length colors)) (write_raw al colors depth)
    (read_raw (length colors) (A ++ done_ ++ ys ++ B) (Z.of_nat (length done_)) depth) tt (A ++ done_ ++ colors ++ B).
Proof.
  intros Hd HA. revert done_ ys. induction colors as [| c colors IH]; intros done_ [| y ys] Hl Hr; try done.
  { apply transfers_ret. }
  apply Forall_cons_1 in Hr as [Hc Hr]. cbn [length] in Hl.
  replace (12 * Z.of_nat (length (c :: colors))) with (12 + 12 * Z.of_nat (length colors)) by (cbn [length]; lia).
  cbn [write_raw read_raw length].
  eapply transfers_bind; [eapply (transfers_le _ _ depth); [lia |]; apply transfers_literal; [done | lia | exact Hc] |]. cbv beta.
  cbn [app]. rewrite !(app_assoc A), arr_set_mid by (rewrite length_app; unfold PALETTE_MAX_SIZE; lia). rewrite r_lift_some.
  specialize (IH (done_ ++ [c]) ys ltac:(lia) Hr). rewrite length_app in IH. cbn [length] in IH.
  replace (Z.of_nat (length done_) + 1) with (Z.of_nat (length done_ + 1)) by lia.
  rewrite <- !app_assoc in *. cbn [app] in *. apply IH.
Qed.

Lemma transfers_colors_v depth colors A old B : 8 <= depth <= 12 -> length A = 16%nat -> colors <> [] -> (length colors <= 8)%nat ->
  length old = length colors -> Forall (color_ok depth) colors ->
  transfers 120 (write_colors_v al colors depth)
    (read_colors_v (A ++ old ++ B) (Z.of_nat (length colors)) depth) tt (A ++ colors ++ B).
Proof.
  intros Hd HA Hne Hl8 Hl Hr. unfold write_colors_v, read_colors_v.
  destruct (av1_get_palette_delta_bits_v colors depth) as [[bits zeros] min_bits] eqn:Eb.
  destruct (Z.ltb_spec (2 + depth + (bits + 1) * (Z.of_nat (length colors) - 1) - zeros) (depth * Z.of_nat (length colors))) as [Hrate |].
  - destruct (delta_bits_fit colors depth bits zeros min_bits Hd Hne Eb Hrate) as (-> & Hb & Hdel).
    destruct colors as [| c colors]; [done |]. destruct old as [| o old]; [done |]. apply Forall_cons_1 in Hr as [Hc Hr]. cbn [length] in *.
    apply (transfers_le al adaptive (1 + (2 + (12 + 13 * Z.of_nat (length colors))))); [lia |].
    eapply transfers_bind; [apply (transfers_bit al Hal adaptive true) |]. cbn [b2z Z.eqb negb].
    eapply transfers_bind; [apply transfers_literal; [done | lia | change (2 ^ 2) with 4; lia] |]. cbv beta.
    eapply transfers_bind; [eapply (transfers_le _ _ depth); [lia |]; apply transfers_literal; [done | lia | exact Hc] |]. cbv beta.
    cbn [app]. rewrite arr_set_mid by (unfold PALETTE_MAX_SIZE; lia). rewrite r_lift_some.
    replace (depth - 4 + (bits - (depth - 4))) with bits by lia. rewrite !Z.shiftl_mul_pow2, !Z.mul_1_l by lia.
    replace (Z.to_nat (Z.of_nat (S (length colors)) - 1)) with (length colors) by lia.
    apply (transfers_deltas_v depth bits Hd ltac:(lia) colors A [] c old B); try done. lia.
  - apply (transfers_le al adaptive (1 + 12 * Z.of_nat (length colors))); [lia |].
    eapply transfers_bind; [apply (transfers_bit al Hal adaptive false) |]. cbn [b2z Z.eqb negb]. rewrite Nat2Z.id.
    by apply (transfers_raw depth colors A [] old B).
Qed.

(** A sorted plane over the decoder's own neighbours and array. *)
Lemma transfers_sorted_plane s t p plane depth min_val old : 8 <= depth <= 12 -> 0 <= min_val <= 1 -> 0 <= plane <= 1 ->
  site_ok depth s -> sites_agree s t -> length (palette_colors p) = 24%nat -> 0 <= plane_size p plane <= 8 ->
  spaced min_val (colors_of p plane) -> Forall (color_ok depth) (colors_of p plane) -> length old = 24%nat ->
  transfers 130 (write_sorted_colors al s p plane depth min_val)
    (read_sorted_colors t old plane (plane_size p plane) depth min_val) tt (overwrite old plane (colors_of p plane)).
Proof.
  intros Hd Hm Hp Hs Hst Hl Hn Hsp Hr Hold.
  pose proof (length_colors_of p plane Hl ltac:(lia) Hn) as Hlc.
  apply (transfers_ext al adaptive _ (write_sorted_colors al s p plane depth min_val) _
           (read_sorted_colors s old plane (plane_size p plane) depth min_val)); [done | |].
  { intros r. unfold read_sorted_colors. by rewrite (palette_cache_agree depth s t). }
  unfold overwrite. rewrite <- (take_drop (Z.to_nat (8 * plane)) old) at 1.
  rewrite <- (take_drop (length (colors_of p plane)) (drop (Z.to_nat (8 * plane)) old)) at 1. rewrite drop_drop.
  apply transfers_sorted; try done; [rewrite length_take; lia | rewrite length_take, length_drop; lia].
Qed.

(** The palette the decoder ends up with. *)
Definition recovered (old : list Z) (p : PALETTE_MODE_INFO) : PALETTE_MODE_INFO :=
  let planes := if 0 <? palette_size_uv p then [1; 2] else [] in
  let planes := if 0 <? palette_size_y p then 0 :: planes else planes in
  {| palette_colors := foldl (fun a plane => overwrite a plane (colors_of p plane)) old planes;
     palette_size_y := palette_size_y p; palette_size_uv := palette_size_uv p |}.

Definition cleared (old : list Z) : PALETTE_MODE_INFO :=
  {| palette_colors := old; palette_size_y := 0; palette_size_uv := 0 |}.

Lemma palette_keys bsize s : av1_allow_palette true bsize = true ->
  let ctx := av1_get_palette_bsize_ctx bsize in 0 <= ctx < 7 /\ 0 <= av1_get_palette_mode_ctx s < 3.
Proof.
  intros Hb. split; [by destruct bsize |]. unfold av1_get_palette_mode_ctx, has_palette.
  destruct (ps_above s) as [a|], (ps_left s) as [l|]; try destruct (0 <? palette_size_y a); try destruct (0 <? palette_size_y l); cbn; lia.
Qed.

Lemma transfers_palette_uv s t p depth old : 8 <= depth <= 12 -> site_ok depth s -> sites_agree s t ->
  palette_codable depth true true p -> 0 < palette_size_uv p -> length old = 24%nat ->
  transfers 250 (write_palette_colors_uv al s p depth)
    (read_palette_colors_uv t {| palette_colors := old; palette_size_y := palette_size_y p; palette_size_uv := palette_size_uv p |} depth)
    tt {| palette_colors := overwrite (overwrite old 1 (colors_of p 1)) 2 (colors_of p 2);
          palette_size_y := palette_size_y p; palette_size_uv := palette_size_uv p |}.
Proof.
  intros Hd Hs Hst [Hl [Hy Hu] _ [_ Su] Hr] Hpos Hold. unfold write_palette_colors_uv, read_palette_colors_uv.
  cbn [palette_colors palette_size_uv palette_size_y].
  apply (transfers_le al adaptive (130 + 120)); [lia |].
  eapply transfers_bind; [apply (transfers_sorted_plane s t p 1 depth 0 old); try done; [cbn; lia | apply Hr; lia] |]. cbv beta.
  rewrite plane_colors_ok by (done || lia). rewrite w_lift_some. change (take _ (drop _ (palette_colors p))) with (colors_of p 2).
  pose proof (length_colors_of p 2 Hl ltac:(lia) ltac:(cbn; lia)) as Hlc. cbn [plane_size Z.eqb] in Hlc.
  pose proof (length_colors_of p 1 Hl ltac:(lia) ltac:(cbn; lia)) as Hlc1. cbn [plane_size Z.eqb] in Hlc1.
  set (arr := overwrite old 1 (colors_of p 1)).
  assert (length arr = 24%nat) as Harr by (apply length_overwrite; lia).
  eapply transfers_post; [| done]. unfold overwrite. rewrite <- (take_drop (Z.to_nat (8 * 2)) arr) at 1.
  rewrite <- (take_drop (length (colors_of p 2)) (drop (Z.to_nat (8 * 2)) arr)) at 1. rewrite drop_drop, <- Hlc.
  apply transfers_colors_v; try done; [rewrite length_take; lia | | lia | rewrite length_take, length_drop; lia | apply Hr; lia].
  intros E. rewrite E in Hlc. cbn in Hlc. lia.
Qed.

Lemma transfers_palette s t bsize dc_pred uv_dc_pred depth p old : 8 <= depth <= 12 -> site_ok depth s -> sites_agree s t ->
  av1_allow_palette true bsize = true -> palette_codable depth dc_pred uv_dc_pred p -> length old = 24%nat ->
  transfers 400 (write_palette_mode_info al s bsize dc_pred uv_dc_pred depth p)
    (read_palette_mode_info t bsize dc_pred uv_dc_pred depth (cleared old)) tt (recovered old p).
Proof.
  intros Hd Hs Hst Hb Hc Hold. destruct (palette_keys bsize s Hb) as [Hk1 Hk2].
  pose proof Hc as [Hl [Hy Hu] [Hny Hnu] [Sy Su] Hr].
  unfold write_palette_mode_info, read_palette_mode_info. rewrite (palette_mode_ctx_agree s t Hst).
  set (arr := if 0 <? palette_size_y p then overwrite old 0 (colors_of p 0) else old).
  apply (transfers_le al adaptive (140 + 260)); [lia |].
  eapply (transfers_bind al adaptive 140 260 _ _ tt {| palette_colors := arr; palette_size_y := palette_size_y p; palette_size_uv := 0 |}).
  - unfold arr. destruct dc_pred.
    + apply (transfers_le al adaptive (1 + (1 + 130))); [lia |].
      eapply transfers_bind; [apply transfers_symbol; [done | | done | destruct (0 <? palette_size_y p); cbn; lia] |].
      { in_arrays. }
      cbv beta. destruct (Z.ltb_spec 0 (palette_size_y p)); cbn [b2z Z.eqb negb].
      * eapply transfers_bind; [apply transfers_symbol; [done | | done | unfold PALETTE_MIN_SIZE, PALETTE_SIZES; lia] |].
        { in_arrays. }
        cbv beta. replace (palette_size_y p - PALETTE_MIN_SIZE + 2) with (palette_size_y p) by (unfold PALETTE_MIN_SIZE; lia).
        unfold write_palette_colors_y, read_palette_colors_y. cbn [palette_colors palette_size_y palette_size_uv cleared].
        eapply transfers_post; [apply (transfers_sorted_plane s t p 0 depth 1 old); try done; [cbn; lia | apply Hr; lia] | done].
      * assert (palette_size_y p = 0) as -> by lia. apply (transfers_le al adaptive 0); [lia |]. apply transfers_ret.
    + rewrite (Hny eq_refl). apply (transfers_le al adaptive 0); [lia |]. apply transfers_ret.
  - cbn [palette_size_y palette_colors palette_size_uv].
    assert (length arr = 24%nat) as Harr.
    { unfold arr. destruct (Z.ltb_spec 0 (palette_size_y p)); [| done]. apply length_overwrite; [done | lia |].
      pose proof (length_colors_of p 0 Hl ltac:(lia) ltac:(cbn; lia)) as H0. cbn in H0. lia. }
    assert (recovered old p = {| palette_colors :=
      if 0 <? palette_size_uv p then overwrite (overwrite arr 1 (colors_of p 1)) 2 (colors_of p 2) else arr;
      palette_size_y := palette_size_y p; palette_size_uv := palette_size_uv p |}) as ->.
    { unfold recovered, arr. destruct (0 <? palette_size_y p), (0 <? palette_size_uv p); done. }
    destruct uv_dc_pred.
    + apply (transfers_le al adaptive (1 + (1 + 250))); [lia |].
      eapply transfers_bind; [apply transfers_symbol; [done | by destruct (0 <? palette_size_y p) | done | destruct (0 <? palette_size_uv p); cbn; lia] |].
      cbv beta. destruct (Z.ltb_spec 0 (palette_size_uv p)); cbn [b2z Z.eqb negb].
      * eapply transfers_bind; [apply transfers_symbol; [done | | done | unfold PALETTE_MIN_SIZE, PALETTE_SIZES; lia] |].
        { in_arrays. }
        cbv beta. replace (palette_size_uv p - PALETTE_MIN_SIZE + 2) with (palette_size_uv p) by (unfold PALETTE_MIN_SIZE; lia).
        apply transfers_palette_uv; try done.
      * assert (palette_size_uv p = 0) as -> by lia. apply (transfers_le al adaptive 0); [lia |]. apply transfers_ret.
    + rewrite (Hnu eq_refl). apply (transfers_le al adaptive 0); [lia |]. apply transfers_ret.
Qed.

Lemma colors_overwrite p q plane plane' : length (palette_colors p) = 24%nat -> 0 <= plane_size p plane <= 8 ->
  0 <= plane_size p plane' <= 8 -> 0 <= plane <= 2 -> 0 <= plane' <= 2 -> length q = 24%nat ->
  take (Z.to_nat (plane_size p plane')) (drop (Z.to_nat (8 * plane')) (overwrite q plane (colors_of p plane))) =
  if plane' =? plane then colors_of p plane'
  else take (Z.to_nat (plane_size p plane')) (drop (Z.to_nat (8 * plane')) q).
Proof.
  intros Hl Hn Hn' Hp Hp' Hq. pose proof (length_colors_of p plane Hl Hp Hn) as Hlc.
  destruct (Z.eqb_spec plane' plane) as [-> |].
  - replace (Z.to_nat (plane_size p plane)) with (length (colors_of p plane)) by lia. by apply overwrite_same.
  - apply overwrite_other; try done; lia.
Qed.

Lemma recovered_agrees depth a b old p : palette_codable depth a b p -> length old = 24%nat -> agrees p (recovered old p).
Proof.
  intros [Hl [Hy Hu] _ _ _] Hold.
  assert (forall plane, 0 <= plane_size p plane <= 8) as Hsz by (intros plane; unfold plane_size; destruct (plane =? 0); lia).
  assert (forall q plane, length q = 24%nat -> 0 <= plane <= 2 -> length (overwrite q plane (colors_of p plane)) = 24%nat) as Hlo.
  { intros q plane Hq Hp. apply length_overwrite; [done | done |]. pose proof (length_colors_of p plane Hl Hp (Hsz plane)). specialize (Hsz plane). lia. }
  split; [| done |].
  - rewrite Hl. unfold recovered. cbn [palette_colors].
    destruct (0 <? palette_size_y p), (0 <? palette_size_uv p); cbn [foldl]; repeat (apply Hlo; [| lia]); done.
  - intros plane Hp. unfold colors_of at 1.
    change (plane_size (recovered old p) plane) with (plane_size p plane).
    destruct (Z.eq_dec (plane_size p plane) 0) as [E0 | Hnz]; [unfold colors_of; by rewrite E0 |].
    unfold recovered. cbn [palette_colors].
    assert (plane = 0 \/ plane = 1 \/ plane = 2) as [-> | [-> | ->]] by lia; cbn [plane_size Z.eqb] in Hnz;
      [rewrite (proj2 (Z.ltb_lt 0 (palette_size_y p))) by lia; destruct (0 <? palette_size_uv p)
      | rewrite (proj2 (Z.ltb_lt 0 (palette_size_uv p))) by lia; destruct (0 <? palette_size_y p) ..];
      cbn [foldl]; repeat (rewrite colors_overwrite by
        (first [done | lia | apply Hsz | repeat (apply Hlo; [| lia]); done]); cbn [Z.eqb Pos.eqb]); done.
Qed.
End Transfer.

(** ** The palettes of a tile *)

(** A block: the earlier blocks above it and to its left, by their place in the order of
    coding, and the array its structure had before it was decoded. *)
Record palette_block := {
  pb_above : option nat; pb_left : option nat; pb_mb_to_top_edge : Z; pb_bsize : BLOCK_SIZE;
  pb_dc_pred : bool; pb_uv_dc_pred : bool; pb_palette : PALETTE_MODE_INFO; pb_stale : list Z }.

(** The neighbours as coded so far. *)
Definition palette_block_site (done_ : list PALETTE_MODE_INFO) (b : palette_block) : palette_site :=
  {| ps_above := pb_above b ≫= (done_ !!.); ps_left := pb_left b ≫= (done_ !!.); ps_mb_to_top_edge := pb_mb_to_top_edge b |}.

Section Tile.
Context (al : allocator) (sct : bool) (depth : Z).

Fixpoint write_palettes (done_ : list PALETTE_MODE_INFO) (bs : list palette_block) : pwriter :=
  match bs with
  | [] => mret tt
  | b :: bs =>
      _ ← (if av1_allow_palette sct (pb_bsize b) then
             write_palette_mode_info al (palette_block_site done_ b) (pb_bsize b) (pb_dc_pred b) (pb_uv_dc_pred b) depth (pb_palette b)
           else mret tt);
      write_palettes (done_ ++ [pb_palette b]) bs
  end.

Fixpoint read_palettes (done_ : list PALETTE_MODE_INFO) (bs : list palette_block) : preader (list PALETTE_MODE_INFO) :=
  match bs with
  | [] => mret done_
  | b :: bs =>
      q ← (if av1_allow_palette sct (pb_bsize b) then
             read_palette_mode_info (palette_block_site done_ b) (pb_bsize b) (pb_dc_pred b) (pb_uv_dc_pred b) depth (cleared (pb_stale b))
           else mret (cleared (pb_stale b)));
      read_palettes (done_ ++ [q]) bs
  end.

(** A palette that can be sent, or none where there cannot be one. *)
Definition palette_block_ok (b : palette_block) : Prop :=
  palette_codable depth (pb_dc_pred b) (pb_uv_dc_pred b) (pb_palette b) /\ length (pb_stale b) = 24%nat /\
  (av1_allow_palette sct (pb_bsize b) = false -> palette_size_y (pb_palette b) = 0 /\ palette_size_uv (pb_palette b) = 0).
End Tile.

Lemma palette_block_site_ok depth done_ b : Forall (palette_ok depth) done_ -> site_ok depth (palette_block_site done_ b).
Proof.
  intros Hd. assert (forall (o : option nat) p, o ≫= (done_ !!.) = Some p -> palette_ok depth p) as H.
  { intros [i|] p E; [| done]. exact (proj1 (Forall_lookup _ _) Hd i p E). }
  split; apply H.
Qed.

Lemma block_sites_agree ps qs b : Forall2 agrees ps qs -> sites_agree (palette_block_site ps b) (palette_block_site qs b).
Proof.
  intros H. assert (forall o : option nat, neighbors_agree (o ≫= (ps !!.)) (o ≫= (qs !!.))) as Hn.
  { intros [i|]; [| done]. cbn [mbind option_bind]. destruct (ps !! i) as [p|] eqn:Ep.
    - destruct (Forall2_lookup_l _ _ _ _ _ H Ep) as (q & -> & Ha). exact Ha.
    - destruct (qs !! i) as [q|] eqn:Eq; [| done]. destruct (Forall2_lookup_r _ _ _ _ _ H Eq) as (p & Ep' & _). congruence. }
  split_and!; [apply Hn | apply Hn | done].
Qed.

Lemma none_agrees p old : length (palette_colors p) = 24%nat -> length old = 24%nat -> palette_size_y p = 0 -> palette_size_uv p = 0 ->
  agrees p (cleared old).
Proof.
  intros Hl Ho Hy Hu. split; [cbn; congruence | by split |]. intros plane _.
  unfold colors_of, plane_size. cbn [cleared palette_size_y palette_size_uv]. rewrite Hy, Hu. by destruct (plane =? 0).
Qed.

Lemma allow_sct sct bsize : av1_allow_palette sct bsize = true -> av1_allow_palette true bsize = true.
Proof. by destruct sct. Qed.

Lemma transfers_palettes al (Hal : grants_all al) adaptive sct depth bs : 8 <= depth <= 12 ->
  Forall (palette_block_ok sct depth) bs -> forall ps qs, Forall (palette_ok depth) ps -> Forall2 agrees ps qs ->
  exists qs', Forall2 agrees (ps ++ (pb_palette <$> bs)) qs' /\
    transfers al adaptive (400 * Z.of_nat (length bs)) (write_palettes al sct depth ps bs) (read_palettes sct depth qs bs) tt qs'.
Proof.
  intros Hd Hbs. induction Hbs as [| b bs (Hc & Hst & Hno) Hbs IH]; intros ps qs Hps Hag.
  - exists qs. rewrite fmap_nil, app_nil_r. split; [done | apply transfers_ret].
  - assert (exists q, agrees (pb_palette b) q /\ transfers al adaptive 400
      (if av1_allow_palette sct (pb_bsize b) then
         write_palette_mode_info al (palette_block_site ps b) (pb_bsize b) (pb_dc_pred b) (pb_uv_dc_pred b) depth (pb_palette b)
       else mret tt)
      (if av1_allow_palette sct (pb_bsize b) then
         read_palette_mode_info (palette_block_site qs b) (pb_bsize b) (pb_dc_pred b) (pb_uv_dc_pred b) depth (cleared (pb_stale b))
       else mret (cleared (pb_stale b))) tt q) as (q & Hq & T).
    { destruct (av1_allow_palette sct (pb_bsize b)) eqn:Ea.
      - exists (recovered (pb_stale b) (pb_palette b)). split; [by eapply recovered_agrees |].
        apply transfers_palette; try done; [by apply palette_block_site_ok | by apply block_sites_agree | by eapply allow_sct].
      - exists (cleared (pb_stale b)). destruct (Hno eq_refl). split; [apply none_agrees; try done; apply Hc |].
        apply (transfers_le _ _ 0); [lia | apply transfers_ret]. }
    destruct (IH (ps ++ [pb_palette b]) (qs ++ [q])) as (qs' & Hqs & T').
    { apply Forall_app. split; [done |]. constructor; [by eapply codable_ok | done]. }
    { apply Forall2_app; [done |]. by apply Forall2_cons_2; [| apply Forall2_nil_2]. }
    exists qs'. rewrite fmap_cons, (cons_middle (pb_palette b)), app_assoc. split; [done |].
    cbn [write_palettes read_palettes length].
    replace (400 * Z.of_nat (S (length bs))) with (400 + 400 * Z.of_nat (length bs)) by lia.
    eapply transfers_bind; [exact T | exact T'].
Qed.

(** C11: The palettes of a tile survive it. Written between [aom_start_encode] and
    [aom_stop_encode], from any valid frame context, the palettes of any sequence of blocks
    come back with the same sizes and the same colours in every plane, although each side
    forms its cache of colours from its own neighbours, and whatever the decoder's structures
    held before; models are left equal. *)
Theorem palettes_roundtrip al adaptive sct depth bs fc :
  grants_all al -> fc_ok fc -> 8 <= depth <= 12 -> Forall (palette_block_ok sct depth) bs ->
  15 * (400 * Z.of_nat (length bs) + 1) < 2 ^ 29 ->
  exists qs fc', Forall2 agrees (pb_palette <$> bs) qs /\ fc_ok fc' /\
    tile_survives al adaptive (wrun fc (write_palettes al sct depth [] bs)) (tt, fc')
      (rrun fc (read_palettes sct depth [] bs)) (qs, fc').
Proof.
  intros Hal Hfc Hd Hbs HN.
  destruct (transfers_palettes al Hal adaptive sct depth bs Hd Hbs [] []) as (qs & Hqs & T); [constructor .. |].
  destruct (transfers_survive al Hal adaptive _ _ _ _ _ fc T Hfc HN) as (fc' & ? & ?). by exists qs, fc'.
Qed.

(** ** Arbitrary data *)

Section Safe.
Context (depth : Z) (Hd : 8 <= depth <= 12).

Lemma safe_found n : n <= 8 -> forall cache cached, StronglySorted Z.lt (cached ++ cache) -> Forall (color_ok depth) (cached ++ cache) ->
  Z.of_nat (length cached) <= n ->
  safe (fun l => StronglySorted Z.le l /\ Forall (color_ok depth) l /\ Z.of_nat (length l) <= n) (read_found cache n cached).
Proof.
  intros Hn cache. induction cache as [| c cache IH]; intros cached Hs Hr Hl; cbn [read_found].
  - rewrite app_nil_r in *. apply safe_ret. split_and!; [by apply sorted_lt_le | done | done].
  - destruct (Z.ltb_spec (Z.of_nat (length cached)) n).
    + eapply safe_bind; [apply safe_bit |]. intros b _. destruct (negb (b =? 0)).
      * rewrite push_ok, r_lift_some by (unfold PALETTE_MAX_SIZE; lia). apply IH; rewrite <- ?app_assoc; [done | done |].
        rewrite length_app. cbn [length]. lia.
      * apply IH; [| | done].
        -- apply sorted_app in Hs as (? & Hs & Hc). apply StronglySorted_cons in Hs as [_ ?].
           apply sorted_app. split_and!; [done | done |]. eapply List.Forall_impl; [| exact Hc]. cbv beta. intros x Hx.
           by apply Forall_cons_1 in Hx as [_ ?].
        -- rewrite Forall_app in *. destruct Hr as [? Hr]. by apply Forall_cons_1 in Hr as [_ ?].
    + apply safe_ret. split_and!; [| | lia].
      * apply sorted_lt_le. by apply sorted_app in Hs as (? & _).
      * by apply Forall_app in Hr as [? _].
Qed.

(** Each colour is at least the one before it. *)
Lemma safe_deltas min_val : 0 <= min_val -> forall ys pre prev post bits range, color_ok depth prev -> 0 <= bits ->
  safe (fun l => exists zs, l = pre ++ prev :: zs ++ post /\ length zs = length ys /\ StronglySorted Z.le (prev :: zs) /\
      Forall (color_ok depth) (prev :: zs))
    (read_deltas (length ys) (pre ++ prev :: ys ++ post) (Z.of_nat (length pre) + 1) min_val depth bits range).
Proof.
  intros Hm ys. induction ys as [| y ys IH]; intros pre prev post bits range Hp Hb; cbn [length read_deltas].
  - apply safe_ret. exists []. split_and!; try done; repeat constructor; apply Hp.
  - eapply safe_bind; [by apply safe_literal |]. cbv beta. intros d Hdr.
    rewrite arr_get_mid, r_lift_some by lia. rewrite Z.shiftl_mul_pow2, Z.mul_1_l by lia.
    set (c := clamp (prev + (d + min_val)) 0 (2 ^ depth - 1)).
    assert (prev <= c /\ color_ok depth c) as [Hpc Hc].
    { unfold c, clamp, color_ok in *. destruct (Z.ltb_spec (prev + (d + min_val)) 0), (Z.ltb_spec (2 ^ depth - 1) (prev + (d + min_val))); lia. }
    cbn [app]. rewrite (cons_middle prev), app_assoc. rewrite arr_set_mid by (rewrite length_app; cbn [length]; lia).
    rewrite r_lift_some.
    replace (Z.of_nat (length pre) + 1 + 1) with (Z.of_nat (length (pre ++ [prev])) + 1) by (rewrite length_app; cbn [length]; lia).
    eapply safe_weaken; [| apply (IH (pre ++ [prev]) c post); [done |]].
    2: { destruct (ceil_log2_spec (range - (c - prev))). lia. }
    intros l (zs & -> & Hlz & Hs & Hr). exists (c :: zs). rewrite <- app_assoc. cbn [app length]. split_and!; [done | lia | |].
    + apply StronglySorted_cons. split; [| done]. apply StronglySorted_cons in Hs as [Hcz _].
      apply Forall_cons_2; [done |]. eapply List.Forall_impl; [| exact Hcz]. cbn. lia.
    + by apply Forall_cons_2.
Qed.

Lemma merge_sorted l1 l2 : StronglySorted Z.le l1 -> StronglySorted Z.le l2 -> StronglySorted Z.le (list_merge Z.le l1 l2).
Proof.
  intros H1 H2. apply Sorted_StronglySorted; [intros x y z; lia |]. apply Sorted_list_merge; [intros x y; lia | by apply StronglySorted_Sorted ..].
Qed.

(** A plane of sorted colours, whatever is read. *)
Lemma safe_sorted s plane n min_val A X B : 0 <= plane <= 1 -> 0 <= n <= 8 -> 0 <= min_val -> site_ok depth s ->
  Z.of_nat (length A) = 8 * plane -> Z.of_nat (length X) = n ->
  safe (fun l => exists C, l = A ++ C ++ B /\ length C = length X /\ StronglySorted Z.le C /\ Forall (color_ok depth) C)
    (read_sorted_colors s (A ++ X ++ B) plane n depth min_val).
Proof.
  intros Hp Hn Hm Hs HA HX. unfold read_sorted_colors, PALETTE_MAX_SIZE.
  destruct (palette_cache_ok depth s plane Hp Hs) as (cache & -> & Sc & _ & Rc). rewrite r_lift_some.
  replace (plane * 8) with (Z.of_nat (length A)) by lia.
  eapply safe_bind; [apply (safe_found n ltac:(lia) cache []); [done | done | cbn [length]; lia] |]. cbv beta.
  intros cached (Sd & Rd & Ld). destruct (Z.ltb_spec (Z.of_nat (length cached)) n) as [Hlt | Hge].
  - rewrite <- (take_drop (length cached) X). set (X1 := take (length cached) X).
    assert (length X1 = length cached) as H1 by (unfold X1; rewrite length_take; lia).
    destruct (drop (length cached) X) as [| x X2] eqn:E2.
    { apply (f_equal length) in E2. rewrite length_drop in E2. cbn [length] in E2. lia. }
    assert (length X = length cached + S (length X2))%nat as HX2.
    { apply (f_equal length) in E2. rewrite length_drop in E2. cbn [length] in E2. lia. }
    eapply safe_bind; [apply safe_literal; lia |]. cbv beta. intros c Hc. rewrite <- !app_assoc. cbn [app].
    rewrite (app_assoc A X1). rewrite arr_set_mid by (rewrite length_app; lia). rewrite r_lift_some.
    eapply (safe_bind (fun l => exists zs, l = A ++ X1 ++ c :: zs ++ B /\ length zs = length X2 /\ StronglySorted Z.le (c :: zs) /\
      Forall (color_ok depth) (c :: zs))).
    + destruct (Z.ltb_spec (Z.of_nat (length cached) + 1) n).
      * eapply safe_bind; [apply safe_literal; lia |]. cbv beta. intros b Hb. rewrite arr_get_mid by (rewrite length_app; lia).
        rewrite r_lift_some. replace (Z.to_nat (n - (Z.of_nat (length cached) + 1))) with (length X2) by lia.
        replace (Z.of_nat (length A) + (Z.of_nat (length cached) + 1)) with (Z.of_nat (length (A ++ X1)) + 1) by (rewrite length_app; lia).
        eapply safe_weaken; [| apply (safe_deltas min_val Hm X2 (A ++ X1) c B); [done | lia]].
        intros l (zs & -> & ?). exists zs. by rewrite <- app_assoc.
      * apply safe_ret. destruct X2; [| cbn [length] in *; lia]. exists []. rewrite <- app_assoc.
        split_and!; try done; repeat constructor; apply Hc.
    + intros l (zs & -> & Hlz & Sz & Rz). eapply safe_lift.
      * replace n with (Z.of_nat (length cached + length (c :: zs))) by (cbn [length]; lia).
        apply (merge_colors_ok A B X1 cached (c :: zs) H1).
      * exists (list_merge Z.le cached (c :: zs)). pose proof (merge_Permutation Z.le cached (c :: zs)) as HP.
        split_and!; [done | | by apply merge_sorted |].
        -- rewrite HP, !length_app, H1. cbn [length]. lia.
        -- rewrite HP. by apply Forall_app.
  - assert (length cached = length X) as Hl by lia. rewrite take_ge by lia. eapply safe_lift; [by apply copy_colors_ok |].
    by exists cached.
Qed.

(** The second chroma plane. *)
Lemma safe_deltas_v bits : 0 <= bits < depth -> forall ys pre prev post i, color_ok depth prev ->
  Z.of_nat (length pre) + 1 = 2 * PALETTE_MAX_SIZE + i ->
  safe (fun l => exists zs, l = pre ++ prev :: zs ++ post /\ length zs = length ys /\ Forall (color_ok depth) zs)
    (read_deltas_v (length ys) (pre ++ prev :: ys ++ post) i (2 ^ depth) bits).
Proof.
  intros Hb ys. induction ys as [| y ys IH]; intros pre prev post i Hp Hi; cbn [length read_deltas_v].
  - apply safe_ret. by exists [].
  - eapply safe_bind; [apply safe_literal; lia |]. cbv beta. intros d Hdr.
    eapply (safe_bind (fun _ => True)); [destruct (negb (d =? 0)); [eapply safe_weaken; [| apply safe_bit]; done | by apply safe_ret] |].
    intros sg _. rewrite arr_get_mid, r_lift_some by lia. cbv zeta.
    set (val := prev + (if negb (sg =? 0) then - d else d)).
    set (c := if 2 ^ depth <=? (if val <? 0 then val + 2 ^ depth else val) then (if val <? 0 then val + 2 ^ depth else val) - 2 ^ depth
              else (if val <? 0 then val + 2 ^ depth else val)).
    assert (color_ok depth c) as Hc.
    { assert (2 ^ bits < 2 ^ depth) by (apply Z.pow_lt_mono_r; lia). unfold color_ok in *.
      assert (- 2 ^ depth < val < 2 * 2 ^ depth) by (unfold val; destruct (negb (sg =? 0)); lia).
      unfold c. destruct (Z.ltb_spec val 0); [destruct (Z.leb_spec (2 ^ depth) (val + 2 ^ depth)) | destruct (Z.leb_spec (2 ^ depth) val)]; lia. }
    assert (u16 c = c) as ->.
    { unfold u16, wrap. apply Z.mod_small. unfold color_ok in Hc.
      assert (2 ^ depth <= 2 ^ 12) by (apply Z.pow_le_mono_r; lia). change (2 ^ 16) with 65536. change (2 ^ 12) with 4096 in *. lia. }
    cbn [app]. rewrite (cons_middle prev), app_assoc. rewrite arr_set_mid by (rewrite length_app; cbn [length]; lia). rewrite r_lift_some.
    eapply safe_weaken; [| apply (IH (pre ++ [prev]) c post (i + 1)); [done | rewrite length_app; cbn [length]; lia]].
    intros l (zs & -> & ? & ?). exists (c :: zs). rewrite <- app_assoc. cbn [app length].
    split_and!; [done | lia | by apply Forall_cons_2].
Qed.

Lemma safe_raw ys pre post i : Z.of_nat (length pre) = 2 * PALETTE_MAX_SIZE + i ->
  safe (fun l => exists zs, l = pre ++ zs ++ post /\ length zs = length ys /\ Forall (color_ok depth) zs)
    (read_raw (length ys) (pre ++ ys ++ post) i depth).
Proof.
  revert pre i. induction ys as [| y ys IH]; intros pre i Hi; cbn [length read_raw].
  - apply safe_ret. by exists [].
  - eapply safe_bind; [apply safe_literal; lia |]. cbv beta. intros c Hc. cbn [app].
    rewrite arr_set_mid, r_lift_some by lia. rewrite (cons_middle c), app_assoc.
    eapply safe_weaken; [| apply (IH (pre ++ [c]) (i + 1)); rewrite length_app; cbn [length]; lia].
    intros l (zs & -> & ? & ?). exists (c :: zs). rewrite <- app_assoc. cbn [app length].
    split_and!; [done | lia | by apply Forall_cons_2].
Qed.

Lemma safe_colors_v A X B : length A = 16%nat -> X <> [] ->
  safe (fun l => exists C, l = A ++ C ++ B /\ length C = length X /\ Forall (color_ok depth) C)
    (read_colors_v (A ++ X ++ B) (Z.of_nat (length X)) depth).
Proof.
  intros HA HX. unfold read_colors_v. destruct X as [| x X]; [done |].
  eapply safe_bind; [apply safe_bit |]. intros b _. destruct (negb (b =? 0)).
  - eapply safe_bind; [apply safe_literal; lia |]. cbv beta. change (2 ^ 2) with 4. intros w Hw.
    eapply safe_bind; [apply safe_literal; lia |]. cbv beta. intros c Hc. cbn [app].
    rewrite arr_set_mid, r_lift_some by (unfold PALETTE_MAX_SIZE; lia).
    replace (Z.to_nat (Z.of_nat (length (x :: X)) - 1)) with (length X) by (cbn [length]; lia).
    rewrite Z.shiftl_mul_pow2, Z.mul_1_l by lia.
    eapply safe_weaken; [| apply (safe_deltas_v (depth - 4 + w) ltac:(lia) X A c B 1 Hc); unfold PALETTE_MAX_SIZE; lia].
    intros l (zs & -> & ? & ?). exists (c :: zs). cbn [app length]. split_and!; [done | lia | by apply Forall_cons_2].
  - rewrite Nat2Z.id. apply safe_raw. unfold PALETTE_MAX_SIZE. lia.
Qed.

(** Colours in range, sorted in the first two planes, and never a single one. *)
Definition palette_fine (p : PALETTE_MODE_INFO) : Prop :=
  palette_ok depth p /\ Forall (color_ok depth) (colors_of p 2) /\ palette_size_y p <> 1 /\ palette_size_uv p <> 1.

Lemma fine_cleared (old : list Z) : length old = 24%nat -> palette_fine (cleared old).
Proof.
  intros Hl. split; [| split; [constructor | done]]. split; [done | cbn; lia | split; constructor | split; constructor].
Qed.

Lemma split_plane (old : list Z) plane n : length old = 24%nat -> 0 <= plane <= 2 -> 0 <= n <= 8 ->
  exists X, old = take (Z.to_nat (8 * plane)) old ++ X ++ drop (Z.to_nat (8 * plane) + Z.to_nat n) old /\ Z.of_nat (length X) = n.
Proof.
  intros Hl Hp Hn. exists (take (Z.to_nat n) (drop (Z.to_nat (8 * plane)) old)).
  rewrite <- drop_drop, take_drop, take_drop. split; [done |]. rewrite length_take, length_drop. lia.
Qed.

Lemma length_plane (old : list Z) plane : length old = 24%nat -> 0 <= plane <= 2 ->
  Z.of_nat (length (take (Z.to_nat (8 * plane)) old)) = 8 * plane.
Proof. intros Hl Hp. rewrite length_take. lia. Qed.

Lemma safe_sorted_plane s plane n min_val old : 0 <= plane <= 1 -> 0 <= n <= 8 -> 0 <= min_val -> site_ok depth s ->
  length old = 24%nat ->
  safe (fun l => exists C, l = overwrite old plane C /\ length C = Z.to_nat n /\ StronglySorted Z.le C /\ Forall (color_ok depth) C)
    (read_sorted_colors s old plane n depth min_val).
Proof.
  intros Hp Hn Hm Hs Hl. destruct (split_plane old plane n Hl ltac:(lia) Hn) as (X & E & HX).
  pose proof (safe_sorted s plane n min_val _ X (drop (Z.to_nat (8 * plane) + Z.to_nat n) old) Hp Hn Hm Hs
    (length_plane old plane Hl ltac:(lia)) HX) as H. rewrite <- E in H. eapply safe_weaken; [| exact H].
  intros l (C & -> & HC & ? & ?). exists C. unfold overwrite. split_and!; try done; [do 3 f_equal; lia | lia].
Qed.

Lemma safe_plane_v n old : 2 <= n <= 8 -> length old = 24%nat ->
  safe (fun l => exists C, l = overwrite old 2 C /\ length C = Z.to_nat n /\ Forall (color_ok depth) C) (read_colors_v old n depth).
Proof.
  intros Hn Hl. destruct (split_plane old 2 n Hl ltac:(lia) ltac:(lia)) as (X & E & HX).
  assert (X <> []) as Hne by (intros ->; cbn in HX; lia). pose proof (length_plane old 2 Hl ltac:(lia)) as H2.
  pose proof (safe_colors_v _ X (drop (Z.to_nat (8 * 2) + Z.to_nat n) old) ltac:(by apply Nat2Z.inj) Hne) as H.
  rewrite <- E, HX in H. eapply safe_weaken; [| exact H].
  intros l (C & -> & HC & ?). exists C. unfold overwrite. split_and!; try done; [do 3 f_equal; lia | lia].
Qed.

Lemma safe_palette_y s bsize p : av1_allow_palette true bsize = true -> site_ok depth s -> length (palette_colors p) = 24%nat ->
  palette_size_y p = 0 -> palette_size_uv p = 0 ->
  safe (fun q => palette_fine q /\ palette_size_uv q = 0)
    (modev ← r_symbol (F_palette_y_mode_cdf, [av1_get_palette_bsize_ctx bsize; av1_get_palette_mode_ctx s]) 2;
     if negb (modev =? 0) then
       n ← r_symbol (F_palette_y_size_cdf, [av1_get_palette_bsize_ctx bsize]) PALETTE_SIZES;
       read_palette_colors_y s
         {| palette_colors := palette_colors p; palette_size_y := n + 2; palette_size_uv := palette_size_uv p |} depth
     else mret p).
Proof.
  intros Hb Hs Hl Hy Hu. destruct (palette_keys bsize s Hb) as [Hk1 Hk2].
  eapply safe_bind; [apply safe_symbol; [in_arrays | done] |]. intros m _. destruct (negb (m =? 0)).
  - eapply safe_bind; [apply safe_symbol; [in_arrays | done] |]. unfold PALETTE_SIZES. cbv beta. intros n Hn.
    unfold read_palette_colors_y. cbn [palette_colors palette_size_y palette_size_uv].
    eapply safe_bind; [apply (safe_sorted_plane s 0 (n + 2) 1); (done || lia) |]. cbv beta. intros l (C & -> & HC & SC & RC).
    apply safe_ret. assert (length (overwrite (palette_colors p) 0 C) = 24%nat) by (apply length_overwrite; lia).
    assert (forall q : Z, colors_of {| palette_colors := overwrite (palette_colors p) 0 C; palette_size_y := n + 2; palette_size_uv := palette_size_uv p |} q =
      if q =? 0 then C else []) as Ec.
    { intros q. unfold colors_of, plane_size. cbn [palette_size_y palette_size_uv palette_colors]. destruct (Z.eqb_spec q 0) as [-> |].
      - rewrite <- HC. by apply overwrite_same.
      - by rewrite Hu. }
    unfold palette_fine. rewrite Ec. cbn [Z.eqb palette_size_y palette_size_uv]. split; [| done].
    split_and!; [| constructor | lia | lia].
    split; rewrite ?Ec; cbn [Z.eqb palette_size_y palette_size_uv palette_colors]; try done.
    + lia.
    + split; [done | constructor].
  - apply safe_ret. destruct p as [cs y u]. cbn [palette_colors palette_size_y palette_size_uv] in *. subst.
    split; [by apply fine_cleared | done].
Qed.

Lemma safe_palette_uv s bsize p : av1_allow_palette true bsize = true -> site_ok depth s ->
  palette_fine p -> palette_size_uv p = 0 ->
  safe palette_fine
    (modev ← r_symbol (F_palette_uv_mode_cdf, [b2z (0 <? palette_size_y p)]) 2;
     if negb (modev =? 0) then
       n ← r_symbol (F_palette_uv_size_cdf, [av1_get_palette_bsize_ctx bsize]) PALETTE_SIZES;
       read_palette_colors_uv s
         {| palette_colors := palette_colors p; palette_size_y := palette_size_y p; palette_size_uv := n + 2 |} depth
     else mret p).
Proof.
  intros Hb Hs Hf Hu. destruct (palette_keys bsize s Hb) as [Hk1 Hk2]. pose proof Hf as ([Hl [Hy _] [Sy _] [Ry _]] & _ & H1 & _).
  eapply safe_bind; [apply safe_symbol; [by destruct (0 <? palette_size_y p) | done] |]. intros m _.
  destruct (negb (m =? 0)); [| by apply safe_ret].
  eapply safe_bind; [apply safe_symbol; [in_arrays | done] |]. unfold PALETTE_SIZES. cbv beta. intros n Hn.
  unfold read_palette_colors_uv. cbn [palette_colors palette_size_y palette_size_uv].
  eapply safe_bind; [apply (safe_sorted_plane s 1 (n + 2) 0); (done || lia) |]. cbv beta. intros l (C & -> & HC & SC & RC).
  assert (length (overwrite (palette_colors p) 1 C) = 24%nat) as Hl1 by (apply length_overwrite; lia).
  eapply safe_bind; [apply safe_plane_v; [lia | done] |]. cbv beta. intros l (D & -> & HD & RD). apply safe_ret.
  assert (length (overwrite (overwrite (palette_colors p) 1 C) 2 D) = 24%nat) by (apply length_overwrite; lia).
  set (q := {| palette_colors := _; palette_size_y := _; palette_size_uv := _ |}).
  assert (colors_of q 0 = colors_of p 0) as E0.
  { unfold colors_of, q. cbn [plane_size Z.eqb palette_size_y palette_colors]. rewrite !overwrite_other by (done || lia). done. }
  assert (colors_of q 1 = C) as E1.
  { unfold colors_of, q. cbn [plane_size Z.eqb palette_size_uv palette_colors]. rewrite overwrite_other by (done || lia).
    rewrite <- HC. by apply overwrite_same. }
  assert (colors_of q 2 = D) as E2.
  { unfold colors_of, q. cbn [plane_size Z.eqb palette_size_uv palette_colors]. rewrite <- HD. by apply overwrite_same. }
  unfold palette_fine. rewrite E2. split_and!; [| done | done | cbn; lia].
  split; rewrite ?E0, ?E1; try done. cbn [q palette_size_y palette_size_uv]. lia.
Qed.

Lemma safe_palette s bsize dc_pred uv_dc_pred old : av1_allow_palette true bsize = true -> site_ok depth s -> length old = 24%nat ->
  safe palette_fine (read_palette_mode_info s bsize dc_pred uv_dc_pred depth (cleared old)).
Proof.
  intros Hb Hs Hl. unfold read_palette_mode_info.
  eapply (safe_bind (fun q => palette_fine q /\ palette_size_uv q = 0)).
  - destruct dc_pred; [by apply safe_palette_y | apply safe_ret]. split; [by apply fine_cleared | done].
  - intros q [Hq Hu]. destruct uv_dc_pred; [by apply safe_palette_uv | by apply safe_ret].
Qed.

Lemma safe_palettes sct bs : Forall (fun b => length (pb_stale b) = 24%nat) bs -> forall ps, Forall palette_fine ps ->
  safe (fun qs => Forall palette_fine qs /\ length qs = (length ps + length bs)%nat) (read_palettes sct depth ps bs).
Proof.
  induction 1 as [| b bs Hb Hbs IH]; intros ps Hps; cbn [read_palettes].
  - apply safe_ret. cbn [length]. split; [done | lia].
  - eapply (safe_bind palette_fine).
    + destruct (av1_allow_palette sct (pb_bsize b)) eqn:Ea; [| by apply safe_ret, fine_cleared].
      apply safe_palette; [by eapply allow_sct | | done]. apply palette_block_site_ok.
      eapply List.Forall_impl; [| exact Hps]. by intros p [? _].
    + intros q Hq. eapply safe_weaken; [| apply (IH (ps ++ [q]))].
      * intros qs [? Hl]. rewrite length_app in Hl. cbn [length] in *. split; [done | lia].
      * apply Forall_app. split; [done |]. by constructor.
Qed.
End Safe.

(** C12: Whatever bytes a tile holds, every palette the decoder reads from it has 0 or 2 to 8
    colours in each plane, all inside the range of samples, sorted in the first two planes;
    so the cache formed from it never outgrows its array, and no store leaves
    [palette_colors], even for the blocks that use earlier palettes as neighbours. *)
Theorem palettes_safe sct depth bs bytes size r0 fc :
  Forall is_byte bytes -> fc_ok fc -> 8 <= depth <= 12 -> Forall (fun b => length (pb_stale b) = 24%nat) bs ->
  match rrun fc (read_palettes sct depth [] bs) (aom_reader_init r0 (Some bytes) size).2 with
  | Ok ((qs, fc'), _) => (Forall (palette_fine depth) qs /\ length qs = length bs) /\ fc_ok fc'
  | Raise e => e = AOM_CODEC_CORRUPT_FRAME
  | Fault => False
  end.
Proof.
  intros Hb Hfc Hd Hbs.
  by apply (safe_tile (fun qs => Forall (palette_fine depth) qs /\ length qs = length bs)); [apply (safe_palettes depth Hd sct bs Hbs []) | |].
Qed.

(** ** An instance *)

Definition demo_palette (y u v : list Z) : PALETTE_MODE_INFO :=
  let pad := fun l : list Z => l ++ replicate (8 - length l) 777 in
  {| palette_colors := pad y ++ pad u ++ pad v; palette_size_y := Z.of_nat (length y); palette_size_uv := Z.of_nat (length u) |}.

(** New colours, the same again below, some of both to the right, and a block too small. *)
Definition demo_palettes : list palette_block :=
  let block := fun above left_ edge bsize p =>
    {| pb_above := above; pb_left := left_; pb_mb_to_top_edge := edge; pb_bsize := bsize; pb_dc_pred := true;
       pb_uv_dc_pred := true; pb_palette := p; pb_stale := seqZ 0 24 |} in
  [block None None 0 BLOCK_16X16 (demo_palette [3; 200; 255] [10; 10; 90; 91] [250; 3; 3; 120]);
   block (Some 0%nat) None (-128) BLOCK_8X8 (demo_palette [3; 7; 200; 255] [] []);
   block (Some 0%nat) (Some 1%nat) (-128) BLOCK_8X16 (demo_palette [7; 8; 9; 10; 11; 12; 13; 255] [10; 91] [1; 254]);
   block (Some 1%nat) (Some 2%nat) (-192) BLOCK_4X8 (demo_palette [] [] [])].

Lemma demo_palettes_ok : Forall (palette_block_ok true 8) demo_palettes.
Proof.
  repeat apply Forall_cons_2; [.. | constructor];
    (split; [split; [done | cbn; lia | split; discriminate || done | split; repeat constructor; cbn; lia |] | split; [done | discriminate || done]]);
    intros plane Hp; assert (plane = 0 \/ plane = 1 \/ plane = 2) as [-> | [-> | ->]] by lia;
    unfold color_ok; change (2 ^ 8) with 256; repeat constructor; cbn; lia.
Qed.

Lemma palettes_roundtrip_witness : exists qs fc', Forall2 agrees (pb_palette <$> demo_palettes) qs /\ fc_ok fc' /\
  tile_survives demo_alloc true (wrun (default_fc 100) (write_palettes demo_alloc true 8 [] demo_palettes)) (tt, fc')
    (rrun (default_fc 100) (read_palettes true 8 [] demo_palettes)) (qs, fc').
Proof.
  apply palettes_roundtrip; [apply demo_grants | apply default_fc_ok | lia | apply demo_palettes_ok | reflexivity].
Defined.

Lemma palettes_safe_witness :
  match rrun (default_fc 100) (read_palettes true 10 [] demo_palettes)
    (aom_reader_init {| r_buffer := []; r_ec := od_ec_dec_init []; r_allow_update_cdf := true |}
       (Some [7; 200; 17; 34; 51; 68; 99; 3; 241; 77]) 10).2 with
  | Ok ((qs, fc'), _) => (Forall (palette_fine 10) qs /\ length qs = length demo_palettes) /\ fc_ok fc'
  | Raise e => e = AOM_CODEC_CORRUPT_FRAME
  | Fault => False
  end.
Proof.
  apply palettes_safe; [| apply default_fc_ok | lia | by repeat constructor]. repeat constructor; lia.
Defined.
