(* ===== verification/Partition.v ===== *)
(** * Partitions

    How a superblock is cut into blocks: the tables of [av1/common/common_data.h] and
    [av1/common/common_data.c], the contexts and the frequencies of a partition
    ([av1/common/av1_common_int.h]), its coding by [write_partition]
    ([av1/encoder/bitstream.c]) and [read_partition] ([av1/decoder/decodeframe.c]), and
    [get_partition], which finds out again from the grid of mode infos how a square was cut.

    Positions and sizes are in units of 4 samples.  An array of models that the code
    combines into a two-symbol model is read through [w_cdf_of] and [r_cdf_of], which do not
    adapt it. *)

From S2P Require Import Prelude CodecTypes BitChannel EntCoder RangeSpec Cdf EntEncProof EntDecProof EntRoundTrip SymbolIO SyntaxIO TileSafety TxCommon Tile TxbContext DefaultCdfs FrameContext.

#[local] Open Scope Z_scope.
#[local] Arguments Z.of_nat : simpl never.
#[local] Arguments Z.mul : simpl never.

(** ** Tables *)

Inductive PARTITION_TYPE :=
| PARTITION_NONE | PARTITION_HORZ | PARTITION_VERT | PARTITION_SPLIT
| PARTITION_HORZ_A | PARTITION_HORZ_B | PARTITION_VERT_A | PARTITION_VERT_B
| PARTITION_HORZ_4 | PARTITION_VERT_4 | PARTITION_INVALID.

#[export] Instance PARTITION_TYPE_eq_dec : EqDecision PARTITION_TYPE.
Proof. solve_decision. Defined.

(** The types that are coded, in the order of their values. *)
Definition PARTITION_TYPES_ALL : list PARTITION_TYPE :=
  [PARTITION_NONE; PARTITION_HORZ; PARTITION_VERT; PARTITION_SPLIT; PARTITION_HORZ_A; PARTITION_HORZ_B;
   PARTITION_VERT_A; PARTITION_VERT_B; PARTITION_HORZ_4; PARTITION_VERT_4].

Definition partition_value : PARTITION_TYPE -> Z := enum_value PARTITION_TYPES_ALL.

Definition PARTITION_TYPES : Z := 4.
Definition EXT_PARTITION_TYPES : Z := 10.
Definition PARTITION_PLOFFSET : Z := 4.
Definition MAX_MIB_MASK : Z := 31.

(** The order of the enumeration of block sizes. *)
Definition BLOCK_SIZES_ALL : list BLOCK_SIZE :=
  [BLOCK_4X4; BLOCK_4X8; BLOCK_8X4; BLOCK_8X8; BLOCK_8X16; BLOCK_16X8; BLOCK_16X16; BLOCK_16X32; BLOCK_32X16;
   BLOCK_32X32; BLOCK_32X64; BLOCK_64X32; BLOCK_64X64; BLOCK_64X128; BLOCK_128X64; BLOCK_128X128; BLOCK_4X16;
   BLOCK_16X4; BLOCK_8X32; BLOCK_32X8; BLOCK_16X64; BLOCK_64X16].

Definition block_size_value : BLOCK_SIZE -> Z := enum_value BLOCK_SIZES_ALL.

Definition mi_size_wide_log2 (bsize : BLOCK_SIZE) : Z :=
  match bsize with
  | BLOCK_4X4 | BLOCK_4X8 | BLOCK_4X16 => 0
  | BLOCK_8X4 | BLOCK_8X8 | BLOCK_8X16 | BLOCK_8X32 => 1
  | BLOCK_16X4 | BLOCK_16X8 | BLOCK_16X16 | BLOCK_16X32 | BLOCK_16X64 => 2
  | BLOCK_32X8 | BLOCK_32X16 | BLOCK_32X32 | BLOCK_32X64 => 3
  | BLOCK_64X16 | BLOCK_64X32 | BLOCK_64X64 | BLOCK_64X128 => 4
  | BLOCK_128X64 | BLOCK_128X128 => 5
  end.

Definition mi_size_wide (bsize : BLOCK_SIZE) : Z :=
  match bsize with
  | BLOCK_4X4 | BLOCK_4X8 | BLOCK_4X16 => 1
  | BLOCK_8X4 | BLOCK_8X8 | BLOCK_8X16 | BLOCK_8X32 => 2
  | BLOCK_16X4 | BLOCK_16X8 | BLOCK_16X16 | BLOCK_16X32 | BLOCK_16X64 => 4
  | BLOCK_32X8 | BLOCK_32X16 | BLOCK_32X32 | BLOCK_32X64 => 8
  | BLOCK_64X16 | BLOCK_64X32 | BLOCK_64X64 | BLOCK_64X128 => 16
  | BLOCK_128X64 | BLOCK_128X128 => 32
  end.

Definition mi_size_high (bsize : BLOCK_SIZE) : Z :=
  match bsize with
  | BLOCK_4X4 | BLOCK_8X4 | BLOCK_16X4 => 1
  | BLOCK_4X8 | BLOCK_8X8 | BLOCK_16X8 | BLOCK_32X8 => 2
  | BLOCK_4X16 | BLOCK_8X16 | BLOCK_16X16 | BLOCK_32X16 | BLOCK_64X16 => 4
  | BLOCK_8X32 | BLOCK_16X32 | BLOCK_32X32 | BLOCK_64X32 => 8
  | BLOCK_16X64 | BLOCK_32X64 | BLOCK_64X64 | BLOCK_128X64 => 16
  | BLOCK_64X128 | BLOCK_128X128 => 32
  end.

(** The contexts above and to the left that a block leaves. *)
Definition partition_context_lookup (bsize : BLOCK_SIZE) : Z * Z :=
  match bsize with
  | BLOCK_4X4 => (31, 31) | BLOCK_4X8 => (31, 30) | BLOCK_8X4 => (30, 31) | BLOCK_8X8 => (30, 30)
  | BLOCK_8X16 => (30, 28) | BLOCK_16X8 => (28, 30) | BLOCK_16X16 => (28, 28) | BLOCK_16X32 => (28, 24)
  | BLOCK_32X16 => (24, 28) | BLOCK_32X32 => (24, 24) | BLOCK_32X64 => (24, 16) | BLOCK_64X32 => (16, 24)
  | BLOCK_64X64 => (16, 16) | BLOCK_64X128 => (16, 0) | BLOCK_128X64 => (0, 16) | BLOCK_128X128 => (0, 0)
  | BLOCK_4X16 => (31, 28) | BLOCK_16X4 => (28, 31) | BLOCK_8X32 => (30, 24) | BLOCK_32X8 => (24, 30)
  | BLOCK_16X64 => (28, 16) | BLOCK_64X16 => (16, 28)
  end.

(** [None] is [BLOCK_INVALID]. *)
Definition get_sqr_bsize_idx (bsize : BLOCK_SIZE) : option nat :=
  match bsize with
  | BLOCK_4X4 => Some 0%nat | BLOCK_8X8 => Some 1%nat | BLOCK_16X16 => Some 2%nat | BLOCK_32X32 => Some 3%nat
  | BLOCK_64X64 => Some 4%nat | BLOCK_128X128 => Some 5%nat
  | _ => None
  end.

Definition subsize_lookup (partition : PARTITION_TYPE) : list (option BLOCK_SIZE) :=
  match partition with
  | PARTITION_NONE =>
      [Some BLOCK_4X4; Some BLOCK_8X8; Some BLOCK_16X16; Some BLOCK_32X32; Some BLOCK_64X64; Some BLOCK_128X128]
  | PARTITION_HORZ => [None; Some BLOCK_8X4; Some BLOCK_16X8; Some BLOCK_32X16; Some BLOCK_64X32; Some BLOCK_128X64]
  | PARTITION_VERT => [None; Some BLOCK_4X8; Some BLOCK_8X16; Some BLOCK_16X32; Some BLOCK_32X64; Some BLOCK_64X128]
  | PARTITION_SPLIT => [None; Some BLOCK_4X4; Some BLOCK_8X8; Some BLOCK_16X16; Some BLOCK_32X32; Some BLOCK_64X64]
  | PARTITION_HORZ_A | PARTITION_HORZ_B =>
      [None; None; Some BLOCK_16X8; Some BLOCK_32X16; Some BLOCK_64X32; Some BLOCK_128X64]
  | PARTITION_VERT_A | PARTITION_VERT_B =>
      [None; None; Some BLOCK_8X16; Some BLOCK_16X32; Some BLOCK_32X64; Some BLOCK_64X128]
  | PARTITION_HORZ_4 => [None; None; Some BLOCK_16X4; Some BLOCK_32X8; Some BLOCK_64X16; None]
  | PARTITION_VERT_4 => [None; None; Some BLOCK_4X16; Some BLOCK_8X32; Some BLOCK_16X64; None]
  | PARTITION_INVALID => []
  end.

Definition get_partition_subsize (bsize : BLOCK_SIZE) (partition : PARTITION_TYPE) : option BLOCK_SIZE :=
  i ← get_sqr_bsize_idx bsize; o ← subsize_lookup partition !! i; o.

(** [av1_ss_size_lookup[bsize][ss_x][ss_y]]. *)
Definition av1_ss_size_lookup (bsize : BLOCK_SIZE) (ss_x ss_y : bool) : option BLOCK_SIZE :=
  let row := fun a b c d => match ss_x, ss_y with false, false => a | false, true => b | true, false => c | true, true => d end in
  match bsize with
  | BLOCK_4X4 => row (Some BLOCK_4X4) (Some BLOCK_4X4) (Some BLOCK_4X4) (Some BLOCK_4X4)
  | BLOCK_4X8 => row (Some BLOCK_4X8) (Some BLOCK_4X4) None (Some BLOCK_4X4)
  | BLOCK_8X4 => row (Some BLOCK_8X4) None (Some BLOCK_4X4) (Some BLOCK_4X4)
  | BLOCK_8X8 => row (Some BLOCK_8X8) (Some BLOCK_8X4) (Some BLOCK_4X8) (Some BLOCK_4X4)
  | BLOCK_8X16 => row (Some BLOCK_8X16) (Some BLOCK_8X8) None (Some BLOCK_4X8)
  | BLOCK_16X8 => row (Some BLOCK_16X8) None (Some BLOCK_8X8) (Some BLOCK_8X4)
  | BLOCK_16X16 => row (Some BLOCK_16X16) (Some BLOCK_16X8) (Some BLOCK_8X16) (Some BLOCK_8X8)
  | BLOCK_16X32 => row (Some BLOCK_16X32) (Some BLOCK_16X16) None (Some BLOCK_8X16)
  | BLOCK_32X16 => row (Some BLOCK_32X16) None (Some BLOCK_16X16) (Some BLOCK_16X8)
  | BLOCK_32X32 => row (Some BLOCK_32X32) (Some BLOCK_32X16) (Some BLOCK_16X32) (Some BLOCK_16X16)
  | BLOCK_32X64 => row (Some BLOCK_32X64) (Some BLOCK_32X32) None (Some BLOCK_16X32)
  | BLOCK_64X32 => row (Some BLOCK_64X32) None (Some BLOCK_32X32) (Some BLOCK_32X16)
  | BLOCK_64X64 => row (Some BLOCK_64X64) (Some BLOCK_64X32) (Some BLOCK_32X64) (Some BLOCK_32X32)
  | BLOCK_64X128 => row (Some BLOCK_64X128) (Some BLOCK_64X64) None (Some BLOCK_32X64)
  | BLOCK_128X64 => row (Some BLOCK_128X64) None (Some BLOCK_64X64) (Some BLOCK_64X32)
  | BLOCK_128X128 => row (Some BLOCK_128X128) (Some BLOCK_128X64) (Some BLOCK_64X128) (Some BLOCK_64X64)
  | BLOCK_4X16 => row (Some BLOCK_4X16) (Some BLOCK_4X8) None (Some BLOCK_4X8)
  | BLOCK_16X4 => row (Some BLOCK_16X4) None (Some BLOCK_8X4) (Some BLOCK_8X4)
  | BLOCK_8X32 => row (Some BLOCK_8X32) (Some BLOCK_8X16) None (Some BLOCK_4X16)
  | BLOCK_32X8 => row (Some BLOCK_32X8) None (Some BLOCK_16X8) (Some BLOCK_16X4)
  | BLOCK_16X64 => row (Some BLOCK_16X64) (Some BLOCK_16X32) None (Some BLOCK_8X32)
  | BLOCK_64X16 => row (Some BLOCK_64X16) None (Some BLOCK_32X16) (Some BLOCK_32X8)
  end.

(** ** Contexts *)

Record partition_ctx := { above_partition_context : list Z; left_partition_context : list Z }.

Definition update_partition_context (x : partition_ctx) (mi_row mi_col : Z) (subsize bsize : BLOCK_SIZE)
  : option partition_ctx :=
  above ← memset (above_partition_context x) mi_col (partition_context_lookup subsize).1 (mi_size_wide bsize);
  left_ ← memset (left_partition_context x) (Z.land mi_row MAX_MIB_MASK) (partition_context_lookup subsize).2 (mi_size_high bsize);
  Some {| above_partition_context := above; left_partition_context := left_ |}.

(** [subsize] and [bsize2] are only used where they are valid. *)
Definition update_ext_partition_context (x : partition_ctx) (mi_row mi_col : Z) (subsize bsize : BLOCK_SIZE)
    (partition : PARTITION_TYPE) : option partition_ctx :=
  if block_size_value BLOCK_8X8 <=? block_size_value bsize then
    let hbs := mi_size_wide bsize / 2 in
    bsize2 ← get_partition_subsize bsize PARTITION_SPLIT;
    match partition with
    | PARTITION_SPLIT =>
        if bool_decide (bsize = BLOCK_8X8) then update_partition_context x mi_row mi_col subsize bsize else Some x
    | PARTITION_NONE | PARTITION_HORZ | PARTITION_VERT | PARTITION_HORZ_4 | PARTITION_VERT_4 =>
        update_partition_context x mi_row mi_col subsize bsize
    | PARTITION_HORZ_A =>
        x ← update_partition_context x mi_row mi_col bsize2 subsize;
        update_partition_context x (mi_row + hbs) mi_col subsize subsize
    | PARTITION_HORZ_B =>
        x ← update_partition_context x mi_row mi_col subsize subsize;
        update_partition_context x (mi_row + hbs) mi_col bsize2 subsize
    | PARTITION_VERT_A =>
        x ← update_partition_context x mi_row mi_col bsize2 subsize;
        update_partition_context x mi_row (mi_col + hbs) subsize subsize
    | PARTITION_VERT_B =>
        x ← update_partition_context x mi_row mi_col subsize subsize;
        update_partition_context x mi_row (mi_col + hbs) bsize2 subsize
    | PARTITION_INVALID => None
    end
  else Some x.

Definition partition_plane_context (x : partition_ctx) (mi_row mi_col : Z) (bsize : BLOCK_SIZE) : option Z :=
  above_ctx ← arr_get (above_partition_context x) mi_col;
  left_ctx ← arr_get (left_partition_context x) (Z.land mi_row MAX_MIB_MASK);
  let bsl := mi_size_wide_log2 bsize - mi_size_wide_log2 BLOCK_8X8 in
  let above := Z.land (Z.shiftr above_ctx bsl) 1 in
  let left_ := Z.land (Z.shiftr left_ctx bsl) 1 in
  Some (left_ * 2 + above + bsl * PARTITION_PLOFFSET).

Definition partition_cdf_length (bsize : BLOCK_SIZE) : Z :=
  if block_size_value bsize <=? block_size_value BLOCK_8X8 then PARTITION_TYPES
  else if bool_decide (bsize = BLOCK_128X128) then EXT_PARTITION_TYPES - 2
  else EXT_PARTITION_TYPES.

(** ** Combined models *)

Definition cdf_element_prob (cdf : list Z) (element : Z) : option Z :=
  before ← (if 0 <? element then arr_get cdf (element - 1) else Some CDF_PROB_TOP);
  at_ ← arr_get cdf element;
  Some (u16 (before - at_)).

(** [out[0] -= cdf_element_prob(in, p)] for each [p]. *)
Fixpoint take_away (out : Z) (cdf : list Z) (ps : list PARTITION_TYPE) : option Z :=
  match ps with
  | [] => Some out
  | p :: ps' => e ← cdf_element_prob cdf (partition_value p); take_away (u16 (out - e)) cdf ps'
  end.

Definition partition_gather_horz_alike (cdf : list Z) (bsize : BLOCK_SIZE) : option (list Z) :=
  out ← take_away CDF_PROB_TOP cdf
    ([PARTITION_HORZ; PARTITION_SPLIT; PARTITION_HORZ_A; PARTITION_HORZ_B; PARTITION_VERT_A] ++
     if bool_decide (bsize = BLOCK_128X128) then [] else [PARTITION_HORZ_4]);
  Some [AOM_ICDF out; AOM_ICDF CDF_PROB_TOP].

Definition partition_gather_vert_alike (cdf : list Z) (bsize : BLOCK_SIZE) : option (list Z) :=
  out ← take_away CDF_PROB_TOP cdf
    ([PARTITION_VERT; PARTITION_SPLIT; PARTITION_HORZ_A; PARTITION_VERT_A; PARTITION_VERT_B] ++
     if bool_decide (bsize = BLOCK_128X128) then [] else [PARTITION_VERT_4]);
  Some [AOM_ICDF out; AOM_ICDF CDF_PROB_TOP].

(** A symbol of a model made from an entry of the frame context, which is left as it is. *)
Definition w_cdf_of (al : allocator) (k : fc_key) (f : list Z -> option (list Z)) (symb nsymbs : Z)
  : writer (aom_writer * cdfs fc_key) unit := fun '(w, fc) =>
  cdf ← fc k; out ← f cdf; w ← aom_write_cdf al w symb out nsymbs; Some (tt, (w, fc)).

Definition r_cdf_of (k : fc_key) (f : list Z -> option (list Z)) (nsymbs : Z) : reader (aom_reader * cdfs fc_key) Z :=
  fun '(r, fc) =>
  match fc k ≫= f with
  | None => Fault
  | Some cdf =>
      match aom_read_cdf cdf nsymbs r with
      | Ok (v, r) => Ok (v, (r, fc))
      | Raise e => Raise e
      | Fault => Fault
      end
  end.

(** ** Coding of a partition *)

(** The part of the frame the code looks at. *)
Record frame_size := { fs_mi_rows : Z; fs_mi_cols : Z }.

Section Coding.
Context (fs : frame_size).

Definition write_partition (al : allocator) (x : partition_ctx) (hbs mi_row mi_col : Z) (p : PARTITION_TYPE)
    (bsize : BLOCK_SIZE) : writer (aom_writer * cdfs fc_key) unit :=
  if block_size_value BLOCK_8X8 <=? block_size_value bsize then
    let has_rows := mi_row + hbs <? fs_mi_rows fs in
    let has_cols := mi_col + hbs <? fs_mi_cols fs in
    ctx ← w_lift (partition_plane_context x mi_row mi_col bsize);
    match has_rows, has_cols with
    | false, false => mret tt
    | true, true => w_symbol al (partition_value p) (F_partition_cdf, [ctx]) (partition_cdf_length bsize)
    | false, true =>
        w_cdf_of al (F_partition_cdf, [ctx]) (fun cdf => partition_gather_vert_alike cdf bsize)
          (b2z (bool_decide (p = PARTITION_SPLIT))) 2
    | true, false =>
        w_cdf_of al (F_partition_cdf, [ctx]) (fun cdf => partition_gather_horz_alike cdf bsize)
          (b2z (bool_decide (p = PARTITION_SPLIT))) 2
    end
  else mret tt.

(** A value that is no partition type is [PARTITION_INVALID]. *)
Definition partition_of (v : Z) : PARTITION_TYPE :=
  match zget PARTITION_TYPES_ALL v with Some p => p | None => PARTITION_INVALID end.

Definition read_partition (x : partition_ctx) (mi_row mi_col : Z) (has_rows has_cols : bool) (bsize : BLOCK_SIZE)
  : reader (aom_reader * cdfs fc_key) PARTITION_TYPE :=
  ctx ← r_lift (partition_plane_context x mi_row mi_col bsize);
  match has_rows, has_cols with
  | false, false => mret PARTITION_SPLIT
  | true, true => v ← r_symbol (F_partition_cdf, [ctx]) (partition_cdf_length bsize); mret (partition_of v)
  | false, true =>
      v ← r_cdf_of (F_partition_cdf, [ctx]) (fun cdf => partition_gather_vert_alike cdf bsize) 2;
      mret (if negb (v =? 0) then PARTITION_SPLIT else PARTITION_HORZ)
  | true, false =>
      v ← r_cdf_of (F_partition_cdf, [ctx]) (fun cdf => partition_gather_horz_alike cdf bsize) 2;
      mret (if negb (v =? 0) then PARTITION_SPLIT else PARTITION_VERT)
  end.
End Coding.

(** ** The grid of mode infos *)

(** [mi_grid_base] holds what the blocks at each position are, by value; [None] is a
    position nothing has been stored at. *)
Record mode_grid (B : Type) := { mi_stride : Z; mi_grid_base : list (option B) }.
Arguments mi_stride {B}.
Arguments mi_grid_base {B}.

Section Grid.
Context {B : Type} (bsize_of : B -> BLOCK_SIZE) (fs : frame_size).

(** [mi_grid_base[mi_row * mi_stride + mi_col]]. *)
Definition mi_at (g : mode_grid B) (mi_row mi_col : Z) : option B :=
  o ← zget (mi_grid_base g) (mi_row * mi_stride g + mi_col); o.

Definition get_partition (g : mode_grid B) (mi_row mi_col : Z) (bsize : BLOCK_SIZE) : option PARTITION_TYPE :=
  if (fs_mi_rows fs <=? mi_row) || (fs_mi_cols fs <=? mi_col) then Some PARTITION_INVALID else
  subsize ← bsize_of <$> mi_at g mi_row mi_col;
  if bool_decide (subsize = bsize) then Some PARTITION_NONE else
  let bhigh := mi_size_high bsize in
  let bwide := mi_size_wide bsize in
  let sshigh := mi_size_high subsize in
  let sswide := mi_size_wide subsize in
  if (block_size_value BLOCK_8X8 <? block_size_value bsize) && (mi_row + bwide / 2 <? fs_mi_rows fs) &&
     (mi_col + bhigh / 2 <? fs_mi_cols fs) then
    right_ ← bsize_of <$> mi_at g mi_row (mi_col + bwide / 2);
    below ← bsize_of <$> mi_at g (mi_row + bhigh / 2) mi_col;
    if sswide =? bwide then
      if sshigh * 4 =? bhigh then Some PARTITION_HORZ_4
      else if bool_decide (below = subsize) then Some PARTITION_HORZ else Some PARTITION_HORZ_B
    else if sshigh =? bhigh then
      if sswide * 4 =? bwide then Some PARTITION_VERT_4
      else if bool_decide (right_ = subsize) then Some PARTITION_VERT else Some PARTITION_VERT_B
    else if negb (sswide * 2 =? bwide) || negb (sshigh * 2 =? bhigh) then Some PARTITION_SPLIT
    else if mi_size_wide below =? bwide then Some PARTITION_HORZ_A
    else if mi_size_high right_ =? bhigh then Some PARTITION_VERT_A
    else Some PARTITION_SPLIT
  else
    let vert_split := sswide <? bwide in
    let horz_split := sshigh <? bhigh in
    Some (match vert_split, horz_split with
          | false, false => PARTITION_INVALID
          | false, true => PARTITION_HORZ
          | true, false => PARTITION_VERT
          | true, true => PARTITION_SPLIT
          end).

(** [xd->mi[x] = xd->mi[0]] for [x] up to [x_mis], on each of [y_mis] rows. *)
Fixpoint fill_row (l : list (option B)) (at_ : Z) (x_mis : nat) (b : B) : option (list (option B)) :=
  match x_mis with
  | O => Some l
  | S n =>
      if (0 <=? at_) && (at_ <? Z.of_nat (length l)) then fill_row (<[Z.to_nat at_ := Some b]> l) (at_ + 1) n b
      else None
  end.

Fixpoint fill_rows (l : list (option B)) (stride at_ : Z) (y_mis x_mis : nat) (b : B) : option (list (option B)) :=
  match y_mis with
  | O => Some l
  | S n => l ← fill_row l at_ x_mis b; fill_rows l stride (at_ + stride) n x_mis b
  end.

Definition set_mi (g : mode_grid B) (mi_row mi_col : Z) (bsize : BLOCK_SIZE) (b : B) : option (mode_grid B) :=
  let x_mis := Z.min (mi_size_wide bsize) (fs_mi_cols fs - mi_col) in
  let y_mis := Z.min (mi_size_high bsize) (fs_mi_rows fs - mi_row) in
  l ← fill_rows (mi_grid_base g) (mi_stride g) (mi_row * mi_stride g + mi_col) (Z.to_nat y_mis) (Z.to_nat x_mis) b;
  Some {| mi_stride := mi_stride g; mi_grid_base := l |}.
End Grid.

(** ** Combined models are models *)

Lemma cdf_at cdf n i : cdf_ok cdf n -> 0 <= i < n -> arr_get cdf i = Some (nthz cdf i) /\ 0 <= nthz cdf i < CDF_PROB_TOP.
Proof.
  intros [(Hn & Hl & Hlast & Hr & Hm) _] Hi. split; [apply arr_get_nth; lia | apply Hr; lia].
Qed.

(** The frequency of a symbol. *)
Definition prob_of (cdf : list Z) (i : Z) : Z := (if 0 <? i then nthz cdf (i - 1) else CDF_PROB_TOP) - nthz cdf i.

Lemma element_prob_ok cdf n i : cdf_ok cdf n -> 0 <= i < n -> cdf_element_prob cdf i = Some (prob_of cdf i) /\ 0 <= prob_of cdf i.
Proof.
  intros Hc Hi. unfold cdf_element_prob, prob_of. destruct (cdf_at cdf n i Hc Hi) as [-> Hv].
  assert (forall x, 0 <= x - nthz cdf i <= CDF_PROB_TOP -> u16 (x - nthz cdf i) = x - nthz cdf i) as Hu.
  { intros x Hx. unfold u16, wrap. apply Z.mod_small. unfold CDF_PROB_TOP in *. change (2 ^ 16) with 65536. lia. }
  destruct (Z.ltb_spec 0 i).
  - destruct (cdf_at cdf n (i - 1) Hc ltac:(lia)) as [-> Hb]. cbn [mbind option_bind].
    destruct Hc as [(_ & _ & _ & _ & Hm) _]. specialize (Hm (i - 1) ltac:(lia)). replace (i - 1 + 1) with i in Hm by lia.
    fold (nthz cdf i) (nthz cdf (i - 1)) in Hm. rewrite Hu by lia. split; [done | lia].
  - cbn [mbind option_bind]. rewrite Hu by lia. split; [done | lia].
Qed.

Definition sum_probs (cdf : list Z) (ps : list PARTITION_TYPE) : Z :=
  foldr (fun p s => prob_of cdf (partition_value p) + s) 0 ps.

Lemma take_away_ok cdf n ps out : cdf_ok cdf n -> Forall (fun p => 0 <= partition_value p < n) ps -> sum_probs cdf ps <= out <= CDF_PROB_TOP ->
  take_away out cdf ps = Some (out - sum_probs cdf ps).
Proof.
  intros Hc Hps. revert out. induction Hps as [| p ps Hp Hps IH]; intros out Ho; cbn [take_away sum_probs foldr] in *.
  { by rewrite Z.sub_0_r. }
  fold (sum_probs cdf ps) in *.
  destruct (element_prob_ok cdf n (partition_value p) Hc Hp) as [-> Hpr]. cbn [mbind option_bind].
  assert (0 <= sum_probs cdf ps) as Hs.
  { clear IH Ho. induction Hps as [| q ps Hq Hps IH]; cbn [sum_probs foldr]; [lia |]. fold (sum_probs cdf ps).
    destruct (element_prob_ok cdf n (partition_value q) Hc Hq) as [_ ?]. lia. }
  assert (u16 (out - prob_of cdf (partition_value p)) = out - prob_of cdf (partition_value p)) as ->.
  { unfold u16, wrap. apply Z.mod_small. unfold CDF_PROB_TOP in *. change (2 ^ 16) with 65536. lia. }
  rewrite IH by lia. f_equal. lia.
Qed.

(** A two-symbol model from the frequencies of some partitions. *)
Lemma gathered_ok v : 0 <= v < CDF_PROB_TOP -> icdf_ok [v; 0] 2.
Proof.
  intros Hv. split_and!; [lia | lia | by compute | done | |].
  - intros i Hi. assert (i = 0 \/ i = 1) as [-> | ->] by lia; [exact Hv | done].
  - intros i Hi. assert (i = 0) as -> by lia. exact (proj1 Hv).
Qed.

Lemma cdf_mono cdf n i j : cdf_ok cdf n -> j = i + 1 -> 0 <= i < n - 1 -> nthz cdf j <= nthz cdf i.
Proof. intros [(_ & _ & _ & _ & Hm) _] -> Hi. by apply Hm. Qed.

(** Evaluates the constants of a sum of frequencies. *)
Ltac eval_probs :=
  unfold sum_probs, prob_of; cbn [foldr app];
  repeat match goal with |- context [partition_value ?p] => let v := eval vm_compute in (partition_value p) in change (partition_value p) with v end;
  repeat match goal with |- context [?a <? ?b] => let v := eval vm_compute in (a <? b) in change (a <? b) with v; cbv iota end;
  repeat match goal with |- context [?a - 1] => let v := eval vm_compute in (a - 1) in change (a - 1) with v end.

Lemma gather_ok f cdf n bsize : f = partition_gather_horz_alike \/ f = partition_gather_vert_alike ->
  cdf_ok cdf n -> n = (if bool_decide (bsize = BLOCK_128X128) then 8 else 10) ->
  exists v, f cdf bsize = Some [v; 0] /\ 0 <= v < CDF_PROB_TOP.
Proof.
  intros Hf Hc Hn. assert (8 <= n) as Hn8 by (rewrite Hn; by case_bool_decide).
  pose proof (cdf_at cdf n 0 Hc ltac:(lia)) as [_ H0].
  pose proof (fun i Hi => proj2 (cdf_at cdf n i Hc Hi)) as Hr.
  pose proof (cdf_mono cdf n 0 1 Hc eq_refl ltac:(lia)). pose proof (cdf_mono cdf n 1 2 Hc eq_refl ltac:(lia)).
  pose proof (cdf_mono cdf n 2 3 Hc eq_refl ltac:(lia)). pose proof (cdf_mono cdf n 3 4 Hc eq_refl ltac:(lia)).
  pose proof (cdf_mono cdf n 4 5 Hc eq_refl ltac:(lia)). pose proof (cdf_mono cdf n 5 6 Hc eq_refl ltac:(lia)).
  pose proof (cdf_mono cdf n 6 7 Hc eq_refl ltac:(lia)). pose proof (Hr 7 ltac:(lia)).
  destruct Hf as [-> | ->]; unfold partition_gather_horz_alike, partition_gather_vert_alike;
    case_bool_decide; subst n;
    try (pose proof (cdf_mono cdf 10 7 8 Hc eq_refl ltac:(lia)); pose proof (cdf_mono cdf 10 8 9 Hc eq_refl ltac:(lia)); pose proof (Hr 9 ltac:(lia)));
    match goal with |- context [take_away _ _ ?l] => set (ps := l) end;
    (assert (0 <= sum_probs cdf ps < CDF_PROB_TOP) as Hs
       by (unfold ps; eval_probs; unfold CDF_PROB_TOP in *; lia));
    rewrite (take_away_ok cdf _ ps CDF_PROB_TOP Hc) by (lia || (unfold ps; cbn [app]; repeat (apply Forall_cons_2; [by compute |]); apply Forall_nil_2));
    cbn [mbind option_bind]; exists (sum_probs cdf ps); unfold AOM_ICDF;
    replace (CDF_PROB_TOP - (CDF_PROB_TOP - sum_probs cdf ps)) with (sum_probs cdf ps) by lia; done.
Qed.

(** ** A symbol of a combined model *)

Lemma transfers_cdf_of al (Hal : grants_all al) adaptive k f v n : in_layout k = true ->
  (forall cdf, cdf_ok cdf (alphabet k) -> exists out, f cdf = Some out /\ icdf_ok out n) -> 0 <= v < n ->
  transfers al adaptive 1 (w_cdf_of al k f v n) (r_cdf_of k f n) tt v.
Proof.
  intros Hk Hf Hv fc Hfc. destruct (Hfc k Hk) as (cdf & Ek & Hc). destruct (Hf cdf Hc) as (out & Eo & Ho).
  assert (sym_ok (SymCdf out n v)) as Hsym by (split; done).
  exists [SymCdf out n v], fc. split_and!; [done | cbn [length]; lia | |].
  - intros w m Ha Hr. destruct (w_step al w _ m Hal Hr Hsym) as (ec & E & Hs & Hr').
    exists (set_w_ec w ec). split; [| done]. simpl in E.
    unfold wrun, w_cdf_of. rewrite Ek. cbn [mbind option_bind]. rewrite Eo. cbn [mbind option_bind].
    unfold aom_write_cdf. by rewrite E.
  - intros bs r es Hp. destruct (r_step _ _ _ _ _ Hp) as (ec & E & Hp').
    exists (set_r_ec r ec). split; [| done]. simpl in E.
    unfold rrun, r_cdf_of. rewrite Ek. cbn [mbind option_bind]. rewrite Eo. unfold aom_read_cdf. by rewrite E.
Qed.

Lemma safe_cdf_of k f n : in_layout k = true ->
  (forall cdf, cdf_ok cdf (alphabet k) -> exists out, f cdf = Some out /\ icdf_ok out n) ->
  safe (fun v => 0 <= v < n) (r_cdf_of k f n).
Proof.
  intros Hk Hf r fc Hr Hfc. destruct (Hfc k Hk) as (cdf & Ek & Hc). destruct (Hf cdf Hc) as (out & Eo & Ho).
  unfold r_cdf_of. rewrite Ek. cbn [mbind option_bind]. rewrite Eo. unfold aom_read_cdf.
  destruct (decode_cdf_safe (r_ec r) out n Hr Ho) as (s & ec & -> & Hs & He & _). split_and!; (done || lia).
Qed.

(** ** Contexts stay inside their arrays *)

(** A position where a square of size [bsize] may be. *)
Record square_at (r c : Z) (bsize : BLOCK_SIZE) : Prop := {
  sq_square : is_Some (get_sqr_bsize_idx bsize);
  sq_pos : 0 <= r /\ 0 <= c;
  sq_aligned : r mod mi_size_wide bsize = 0 /\ c mod mi_size_wide bsize = 0 }.

(** The array above covers the frame in steps of the largest superblock. *)
Record pctx_ok (fs : frame_size) (x : partition_ctx) : Prop := {
  px_left : length (left_partition_context x) = 32%nat;
  px_above : fs_mi_cols fs <= Z.of_nat (length (above_partition_context x)) /\
    Z.of_nat (length (above_partition_context x)) mod 32 = 0;
  px_range : Forall (fun v => 0 <= v < 32) (left_partition_context x) /\
    Forall (fun v => 0 <= v < 32) (above_partition_context x) }.

(** Sizes of squares. *)
Definition is_side (n : Z) : Prop := n = 1 \/ n = 2 \/ n = 4 \/ n = 8 \/ n = 16 \/ n = 32.

Lemma square_side bsize : is_Some (get_sqr_bsize_idx bsize) -> is_side (mi_size_wide bsize) /\ mi_size_high bsize = mi_size_wide bsize.
Proof. intros [i Hi]. unfold is_side. destruct bsize; try discriminate Hi; cbn; lia. Qed.

(** A square that starts in the frame ends inside the array above. *)
Lemma fits_above n c cols len : is_side n -> 0 <= c < cols -> c mod n = 0 -> cols <= len -> len mod 32 = 0 -> c + n <= len.
Proof.
  intros Hn Hc Ha Hl Hm.
  destruct Hn as [-> | [-> | [-> | [-> | [-> | ->]]]]]; Z.to_euclidean_division_equations; lia.
Qed.

Lemma fits_left n r : is_side n -> 0 <= r -> r mod n = 0 -> 0 <= Z.land r MAX_MIB_MASK /\ Z.land r MAX_MIB_MASK + n <= 32 /\ Z.land r MAX_MIB_MASK = r mod 32.
Proof.
  intros Hn Hr Ha. change MAX_MIB_MASK with (Z.ones 5). rewrite Z.land_ones by lia. change (2 ^ 5) with 32.
  destruct Hn as [-> | [-> | [-> | [-> | [-> | ->]]]]]; Z.to_euclidean_division_equations; lia.
Qed.

Lemma memset_range (P : Z -> Prop) p at_ v n : 0 <= at_ -> 0 <= n -> at_ + n <= Z.of_nat (length p) -> Forall P p -> P v ->
  exists p', memset p at_ v n = Some p' /\ length p' = length p /\ Forall P p'.
Proof.
  intros Ha Hn Hl Hp Hv. destruct (memset_ok p at_ v n Ha Hn Hl) as (p' & E & L & N). exists p'. split_and!; try done.
  apply Forall_nthz. intros i Hi. rewrite N by lia. destruct (_ && _); [done |]. rewrite Forall_nthz in Hp. apply Hp. lia.
Qed.

Section Contexts.
Context (fs : frame_size).

Lemma update_context_ok x r c subsize bsize : pctx_ok fs x -> 0 <= r -> 0 <= c ->
  c + mi_size_wide bsize <= Z.of_nat (length (above_partition_context x)) -> Z.land r MAX_MIB_MASK + mi_size_high bsize <= 32 ->
  exists x', update_partition_context x r c subsize bsize = Some x' /\ pctx_ok fs x' /\
    length (above_partition_context x') = length (above_partition_context x).
Proof.
  intros [Hl [Ha1 Ha2] [Rl Ra]] Hr Hc Hw Hh. unfold update_partition_context.
  assert (0 <= mi_size_wide bsize /\ 0 <= mi_size_high bsize) as [? ?] by (destruct bsize; cbn; lia).
  assert (0 <= (partition_context_lookup subsize).1 < 32 /\ 0 <= (partition_context_lookup subsize).2 < 32) as [? ?]
    by (destruct subsize; cbn; lia).
  assert (0 <= Z.land r MAX_MIB_MASK) by (apply Z.land_nonneg; by left).
  destruct (memset_range (fun v => 0 <= v < 32) (above_partition_context x) c (partition_context_lookup subsize).1 (mi_size_wide bsize))
    as (a & -> & La & Fa); try done.
  destruct (memset_range (fun v => 0 <= v < 32) (left_partition_context x) (Z.land r MAX_MIB_MASK) (partition_context_lookup subsize).2
    (mi_size_high bsize)) as (l & El & Ll & Fl); try done; [lia |].
  cbn [mbind option_bind]. rewrite El. cbn [mbind option_bind]. eexists. split_and!; [done | | done].
  split; cbn; [congruence | by rewrite La | done].
Qed.

(** How a partition cuts a square. *)
Lemma subsize_fits bsize p subsize : get_partition_subsize bsize p = Some subsize ->
  is_Some (get_sqr_bsize_idx bsize) /\ 1 <= mi_size_wide subsize <= mi_size_wide bsize /\ 1 <= mi_size_high subsize <= mi_size_wide bsize.
Proof. destruct bsize, p; intros [= <-]; (split; [by eexists | cbn; lia]). Qed.

Lemma update_ext_ok x r c bsize p subsize : pctx_ok fs x -> square_at r c bsize -> c < fs_mi_cols fs ->
  get_partition_subsize bsize p = Some subsize ->
  exists x', update_ext_partition_context x r c subsize bsize p = Some x' /\ pctx_ok fs x'.
Proof.
  intros Hx [Hs [Hr Hc] [Ar Ac]] Hin Hsub. destruct (square_side bsize Hs) as [Hn Hh].
  pose proof (fits_above (mi_size_wide bsize) c (fs_mi_cols fs) _ Hn ltac:(lia) Ac (proj1 (px_above _ _ Hx)) (proj2 (px_above _ _ Hx))) as Fa.
  destruct (fits_left (mi_size_wide bsize) r Hn Hr Ar) as (Fl0 & Fl & El).
  unfold update_ext_partition_context. destruct (block_size_value BLOCK_8X8 <=? block_size_value bsize) eqn:E8; [| by eexists].
  assert (forall s b, mi_size_wide b <= mi_size_wide bsize -> mi_size_high b <= mi_size_wide bsize ->
    exists x', update_partition_context x r c s b = Some x' /\ pctx_ok fs x' /\
      length (above_partition_context x') = length (above_partition_context x)) as U0.
  { intros s b Hw Hb. apply update_context_ok; try done; lia. }
  assert (forall x1 s b dr dc, pctx_ok fs x1 -> length (above_partition_context x1) = length (above_partition_context x) ->
    0 <= dr -> 0 <= dc -> dc + mi_size_wide b <= mi_size_wide bsize -> dr + mi_size_high b <= mi_size_wide bsize ->
    dr < mi_size_wide bsize ->
    exists x', update_partition_context x1 (r + dr) (c + dc) s b = Some x' /\ pctx_ok fs x') as U1.
  { intros x1 s b dr dc Hx1 L1 Hdr Hdc Hw Hb Hlt. destruct (update_context_ok x1 (r + dr) (c + dc) s b Hx1) as (x' & ? & ? & _);
      [lia | lia | rewrite L1; lia | | by exists x'].
    change MAX_MIB_MASK with (Z.ones 5) in *. rewrite Z.land_ones in * by lia. change (2 ^ 5) with 32 in *.
    assert ((r + dr) mod 32 = r mod 32 + dr) as ->; [| lia].
    rewrite <- Z.add_mod_idemp_l by lia. apply Z.mod_small. pose proof (Z.mod_pos_bound r 32). assert (0 <= mi_size_high b) by (destruct b; cbn; lia). lia. }
  destruct (subsize_fits bsize p subsize Hsub) as (_ & Hw & Hb).
  assert (exists bsize2, get_partition_subsize bsize PARTITION_SPLIT = Some bsize2) as [bsize2 ->].
  { destruct Hs as [i Hi]. destruct bsize; try discriminate Hi; try discriminate E8; by eexists. }
  cbn [mbind option_bind].
  assert (forall s b s2 b2 dr dc, mi_size_wide b <= mi_size_wide bsize -> mi_size_high b <= mi_size_wide bsize ->
    0 <= dr -> 0 <= dc -> dc + mi_size_wide b2 <= mi_size_wide bsize -> dr + mi_size_high b2 <= mi_size_wide bsize -> dr < mi_size_wide bsize ->
    exists x', (x1 ← update_partition_context x r c s b; update_partition_context x1 (r + dr) (c + dc) s2 b2) = Some x' /\ pctx_ok fs x') as U2.
  { intros s b s2 b2 dr dc H1 H2 H3 H4 H5 H6 H7. destruct (U0 s b H1 H2) as (x1 & -> & Hx1 & L1). cbn [mbind option_bind]. by apply U1. }
  assert (forall s b, mi_size_wide b <= mi_size_wide bsize -> mi_size_high b <= mi_size_wide bsize ->
    exists x', update_partition_context x r c s b = Some x' /\ pctx_ok fs x') as U3.
  { intros s b H1 H2. destruct (U0 s b H1 H2) as (x1 & ? & ? & _). by exists x1. }
  pose proof (U2 subsize subsize bsize2 subsize) as V.
  destruct p; try (apply U3; lia).
  - case_bool_decide; [apply U3; lia | by eexists].
  - specialize (U2 bsize2 subsize subsize subsize (mi_size_wide bsize / 2) 0). rewrite Z.add_0_r in U2.
    apply U2; destruct bsize; try discriminate Hsub; injection Hsub as <-; by compute.
  - specialize (V (mi_size_wide bsize / 2) 0). rewrite Z.add_0_r in V.
    apply V; destruct bsize; try discriminate Hsub; injection Hsub as <-; by compute.
  - specialize (U2 bsize2 subsize subsize subsize 0 (mi_size_wide bsize / 2)). rewrite Z.add_0_r in U2.
    apply U2; destruct bsize; try discriminate Hsub; injection Hsub as <-; by compute.
  - specialize (V 0 (mi_size_wide bsize / 2)). rewrite Z.add_0_r in V.
    apply V; destruct bsize; try discriminate Hsub; injection Hsub as <-; by compute.
  - by destruct bsize.
Qed.

(** The frame is a whole number of 8x8 blocks. *)
Definition frame_even : Prop := fs_mi_rows fs mod 2 = 0 /\ fs_mi_cols fs mod 2 = 0.

Definition has_rows_of (r : Z) (bsize : BLOCK_SIZE) : bool := r + mi_size_wide bsize / 2 <? fs_mi_rows fs.
Definition has_cols_of (c : Z) (bsize : BLOCK_SIZE) : bool := c + mi_size_wide bsize / 2 <? fs_mi_cols fs.

(** The partitions of a square: those of its alphabet, or those that reach over the edge of
    the frame. *)
Definition partition_allowed (r c : Z) (bsize : BLOCK_SIZE) (p : PARTITION_TYPE) : Prop :=
  if bool_decide (bsize = BLOCK_4X4) then p = PARTITION_NONE
  else match has_rows_of r bsize, has_cols_of c bsize with
       | true, true => 0 <= partition_value p < partition_cdf_length bsize
       | false, true => p = PARTITION_SPLIT \/ p = PARTITION_HORZ
       | true, false => p = PARTITION_SPLIT \/ p = PARTITION_VERT
       | false, false => p = PARTITION_SPLIT
       end.

(** 8x8 squares do not reach over the edge. *)
Lemma small_square r c bsize : frame_even -> square_at r c bsize -> r < fs_mi_rows fs -> c < fs_mi_cols fs ->
  bsize = BLOCK_8X8 -> has_rows_of r bsize = true /\ has_cols_of c bsize = true.
Proof.
  intros [Er Ec] [_ [Hr Hc] [Ar Ac]] Hir Hic ->. unfold has_rows_of, has_cols_of. cbn [mi_size_wide] in *.
  change (2 / 2) with 1. split; apply Z.ltb_lt; Z.to_euclidean_division_equations; lia.
Qed.

Lemma plane_context_ok x r c bsize : pctx_ok fs x -> square_at r c bsize -> c < fs_mi_cols fs -> bsize <> BLOCK_4X4 ->
  exists ctx, partition_plane_context x r c bsize = Some ctx /\ in_layout (F_partition_cdf, [ctx]) = true /\
    alphabet (F_partition_cdf, [ctx]) = partition_cdf_length bsize.
Proof.
  intros [Hl [Ha1 Ha2] [Rl Ra]] [Hs [Hr Hc] [Ar Ac]] Hin H4. destruct (square_side bsize Hs) as [Hn Hh].
  destruct (fits_left (mi_size_wide bsize) r Hn Hr Ar) as (Fl0 & Fl & El).
  unfold partition_plane_context. rewrite (arr_get_nth (above_partition_context x)) by lia. cbn [mbind option_bind].
  rewrite (arr_get_nth (left_partition_context x)) by (unfold is_side in Hn; lia). cbn [mbind option_bind].
  set (bsl := mi_size_wide_log2 bsize - mi_size_wide_log2 BLOCK_8X8).
  assert (forall v, Z.land (Z.shiftr v bsl) 1 = 0 \/ Z.land (Z.shiftr v bsl) 1 = 1) as Hb.
  { intros v. rewrite land_1_odd. destruct (Z.odd _); cbn; lia. }
  eexists. split; [done |].
  destruct (Hb (nthz (above_partition_context x) c)) as [-> | ->], (Hb (nthz (left_partition_context x) (Z.land r MAX_MIB_MASK))) as [-> | ->];
    destruct Hs as [i Hi]; destruct bsize; try discriminate Hi; try done.
Qed.

Lemma partition_of_value p : 0 <= partition_value p -> partition_of (partition_value p) = p.
Proof. destruct p; done || (intros H; by destruct (H eq_refl)). Qed.

(** A coded partition is a partition of the square. *)
Lemma coded_allowed bsize v : is_Some (get_sqr_bsize_idx bsize) -> bsize <> BLOCK_4X4 -> 0 <= v < partition_cdf_length bsize ->
  partition_value (partition_of v) = v.
Proof.
  intros [i Hi] H4 Hv. assert (partition_cdf_length bsize <= 10) by (destruct bsize; try discriminate Hi; by compute).
  assert (v = 0 \/ v = 1 \/ v = 2 \/ v = 3 \/ v = 4 \/ v = 5 \/ v = 6 \/ v = 7 \/ v = 8 \/ v = 9)
    as [-> | [-> | [-> | [-> | [-> | [-> | [-> | [-> | [-> | ->]]]]]]]]] by lia; reflexivity.
Qed.

Lemma allowed_subsize r c bsize p : frame_even -> square_at r c bsize -> r < fs_mi_rows fs -> c < fs_mi_cols fs ->
  partition_allowed r c bsize p -> is_Some (get_partition_subsize bsize p).
Proof.
  intros He Hsq Hr Hc Hp. pose proof (small_square r c bsize He Hsq Hr Hc) as H8. destruct Hsq as [[i Hi] _ _].
  unfold partition_allowed in Hp. case_bool_decide as H4; [subst; by eexists |].
  destruct (has_rows_of r bsize), (has_cols_of c bsize).
  - destruct bsize; try discriminate Hi; try done; destruct p; try (by eexists); exfalso; destruct Hp as [Hp1 Hp2]; by compute in Hp1, Hp2.
  - destruct bsize; try discriminate Hi; try done; destruct Hp as [-> | ->]; by eexists.
  - destruct bsize; try discriminate Hi; try done; destruct Hp as [-> | ->]; by eexists.
  - destruct bsize; try discriminate Hi; try done; subst p; by eexists.
Qed.

(** The choice of a model for a square over the edge. *)
Lemma edge_model f bsize ctx : f = partition_gather_horz_alike \/ f = partition_gather_vert_alike ->
  is_Some (get_sqr_bsize_idx bsize) -> bsize <> BLOCK_4X4 -> bsize <> BLOCK_8X8 ->
  alphabet (F_partition_cdf, [ctx]) = partition_cdf_length bsize ->
  forall cdf, cdf_ok cdf (alphabet (F_partition_cdf, [ctx])) -> exists out, f cdf bsize = Some out /\ icdf_ok out 2.
Proof.
  intros Hf [i Hi] H4 H8 Ha cdf Hc. destruct (gather_ok f cdf _ bsize Hf Hc) as (v & E & Hv).
  - rewrite Ha. destruct bsize; try discriminate Hi; done.
  - exists [v; 0]. split; [done | by apply gathered_ok].
Qed.

Lemma transfers_partition al (Hal : grants_all al) adaptive x r c bsize p : frame_even -> pctx_ok fs x -> square_at r c bsize ->
  r < fs_mi_rows fs -> c < fs_mi_cols fs -> partition_allowed r c bsize p ->
  transfers al adaptive 1 (write_partition fs al x (mi_size_wide bsize / 2) r c p bsize)
    (if block_size_value bsize <? block_size_value BLOCK_8X8 then mret PARTITION_NONE
     else read_partition x r c (has_rows_of r bsize) (has_cols_of c bsize) bsize) tt p.
Proof.
  intros He Hx Hsq Hr Hc Hp. pose proof (small_square r c bsize He Hsq Hr Hc) as H8. pose proof (sq_square _ _ _ Hsq) as Hs.
  unfold write_partition. fold (has_rows_of r bsize) (has_cols_of c bsize). unfold partition_allowed in Hp.
  case_bool_decide as H4.
  { subst. apply (transfers_le _ _ 0); [lia | apply transfers_ret]. }
  assert ((block_size_value BLOCK_8X8 <=? block_size_value bsize) = true) as ->
    by (destruct Hs as [i Hi]; destruct bsize; try discriminate Hi; done).
  assert ((block_size_value bsize <? block_size_value BLOCK_8X8) = false) as ->
    by (destruct Hs as [i Hi]; destruct bsize; try discriminate Hi; done).
  destruct (plane_context_ok x r c bsize Hx Hsq Hc H4) as (ctx & Ectx & Hlay & Hal8). unfold read_partition.
  rewrite Ectx, w_lift_some, r_lift_some.
  destruct (has_rows_of r bsize) eqn:Er, (has_cols_of c bsize) eqn:Ec.
  - eapply transfers_post; [by apply transfers_symbol |]. intros q. by rewrite partition_of_value by lia.
  - assert (bsize <> BLOCK_8X8) as Hn8 by (intros E; destruct (H8 E); congruence).
    eapply transfers_post; [apply transfers_cdf_of; [done | done | by apply edge_model; try done; left |] |].
    + case_bool_decide; cbn; lia.
    + intros q. by destruct Hp as [-> | ->].
  - assert (bsize <> BLOCK_8X8) as Hn8 by (intros E; destruct (H8 E); congruence).
    eapply transfers_post; [apply transfers_cdf_of; [done | done | by apply edge_model; try done; right |] |].
    + case_bool_decide; cbn; lia.
    + intros q. by destruct Hp as [-> | ->].
  - subst p. apply (transfers_le _ _ 0); [lia | apply transfers_ret].
Qed.

Lemma safe_read_partition x r c bsize : frame_even -> pctx_ok fs x -> square_at r c bsize ->
  r < fs_mi_rows fs -> c < fs_mi_cols fs ->
  safe (partition_allowed r c bsize)
    (if block_size_value bsize <? block_size_value BLOCK_8X8 then mret PARTITION_NONE
     else read_partition x r c (has_rows_of r bsize) (has_cols_of c bsize) bsize).
Proof.
  intros He Hx Hsq Hr Hc. pose proof (small_square r c bsize He Hsq Hr Hc) as H8. pose proof (sq_square _ _ _ Hsq) as Hs.
  unfold partition_allowed. destruct (bool_decide_reflect (bsize = BLOCK_4X4)) as [-> | H4]; [by apply safe_ret |].
  assert ((block_size_value bsize <? block_size_value BLOCK_8X8) = false) as ->
    by (destruct Hs as [i Hi]; destruct bsize; try discriminate Hi; done).
  destruct (plane_context_ok x r c bsize Hx Hsq Hc H4) as (ctx & Ectx & Hlay & Hal8). unfold read_partition.
  rewrite Ectx, r_lift_some. destruct (has_rows_of r bsize) eqn:Er, (has_cols_of c bsize) eqn:Ec.
  - eapply safe_bind; [by apply safe_symbol |]. cbv beta. intros v Hv. apply safe_ret. by rewrite (coded_allowed bsize).
  - assert (bsize <> BLOCK_8X8) as Hn8 by (intros E; destruct (H8 E); congruence).
    eapply safe_bind; [apply safe_cdf_of; [done | apply edge_model; try done; by left] |]. cbv beta. intros v Hv. apply safe_ret.
    destruct (negb (v =? 0)); auto.
  - assert (bsize <> BLOCK_8X8) as Hn8 by (intros E; destruct (H8 E); congruence).
    eapply safe_bind; [apply safe_cdf_of; [done | apply edge_model; try done; by right] |]. cbv beta. intros v Hv. apply safe_ret.
    destruct (negb (v =? 0)); auto.
  - by apply safe_ret.
Qed.
End Contexts.
