(* ===== verification/PartitionTree.v ===== *)
(** * Superblocks

    The recursion over a superblock on both sides: [write_modes_sb] and [write_modes]
    ([av1/encoder/bitstream.c]), [decode_partition] and the loops of [decode_tile]
    ([av1/decoder/decodeframe.c]), with the grid of mode infos that the encoder has filled
    before it writes and that the decoder fills while it reads ([set_offsets]), and the
    neighbours that [set_mi_row_col] takes from it.

    What a block sends is left to an interface, [BlockCoder]: a block is written and read with
    the mode infos above and to the left of it at hand, and [BlockCoderOk] says that what is
    written is read.  From it the superblock and the tile follow: both sides cut the
    superblock alike, although the writer recovers the cuts from its grid with
    [get_partition] and the reader has them from the bitstream, and both see the same
    neighbours, although the reader's grid is only filled up to the current block. *)

From S2P Require Import Prelude CodecTypes BitChannel EntCoder RangeSpec Cdf EntEncProof EntDecProof EntRoundTrip SymbolIO SyntaxIO TileSafety TxCommon Tile TxbContext DefaultCdfs FrameContext Partition.

#[local] Open Scope Z_scope.
#[local] Arguments Z.of_nat : simpl never.
#[local] Arguments Z.mul : simpl never.

#[local] Abbreviation tile_writer := (writer (aom_writer * cdfs fc_key)).
#[local] Abbreviation tile_reader := (reader (aom_reader * cdfs fc_key)).

(** ** Blocks of a partition *)

(** Row, column and size. *)
Definition placed : Type := Z * Z * BLOCK_SIZE.

Section Visits.
Context (fs : frame_size).

(** The loops over four stripes, which end at the edge of the frame. *)
Fixpoint rows_4 (n : nat) (i mi_row mi_col quarter_step : Z) (subsize : BLOCK_SIZE) : list placed :=
  match n with
  | O => []
  | S n =>
      let this_mi_row := mi_row + i * quarter_step in
      if (0 <? i) && (fs_mi_rows fs <=? this_mi_row) then []
      else (this_mi_row, mi_col, subsize) :: rows_4 n (i + 1) mi_row mi_col quarter_step subsize
  end.

Fixpoint cols_4 (n : nat) (i mi_row mi_col quarter_step : Z) (subsize : BLOCK_SIZE) : list placed :=
  match n with
  | O => []
  | S n =>
      let this_mi_col := mi_col + i * quarter_step in
      if (0 <? i) && (fs_mi_cols fs <=? this_mi_col) then []
      else (mi_row, this_mi_col, subsize) :: cols_4 n (i + 1) mi_row mi_col quarter_step subsize
  end.

(** The blocks in the order of the switch of [decode_partition]; [bsize2] is the size after a
    split.  A split has none of its own. *)
Definition dec_blocks (mi_row mi_col : Z) (bsize : BLOCK_SIZE) (partition : PARTITION_TYPE) (subsize : BLOCK_SIZE)
    (bsize2 : option BLOCK_SIZE) : option (list placed) :=
  let bw := mi_size_wide bsize in
  let hbs := Z.shiftr bw 1 in
  let quarter_step := bw / 4 in
  let has_rows := mi_row + hbs <? fs_mi_rows fs in
  let has_cols := mi_col + hbs <? fs_mi_cols fs in
  match partition with
  | PARTITION_NONE => Some [(mi_row, mi_col, subsize)]
  | PARTITION_HORZ =>
      Some ((mi_row, mi_col, subsize) :: if has_rows then [(mi_row + hbs, mi_col, subsize)] else [])
  | PARTITION_VERT =>
      Some ((mi_row, mi_col, subsize) :: if has_cols then [(mi_row, mi_col + hbs, subsize)] else [])
  | PARTITION_HORZ_A =>
      bsize2 ← bsize2; Some [(mi_row, mi_col, bsize2); (mi_row, mi_col + hbs, bsize2); (mi_row + hbs, mi_col, subsize)]
  | PARTITION_HORZ_B =>
      bsize2 ← bsize2; Some [(mi_row, mi_col, subsize); (mi_row + hbs, mi_col, bsize2); (mi_row + hbs, mi_col + hbs, bsize2)]
  | PARTITION_VERT_A =>
      bsize2 ← bsize2; Some [(mi_row, mi_col, bsize2); (mi_row + hbs, mi_col, bsize2); (mi_row, mi_col + hbs, subsize)]
  | PARTITION_VERT_B =>
      bsize2 ← bsize2; Some [(mi_row, mi_col, subsize); (mi_row, mi_col + hbs, bsize2); (mi_row + hbs, mi_col + hbs, bsize2)]
  | PARTITION_HORZ_4 => Some (rows_4 4 0 mi_row mi_col quarter_step subsize)
  | PARTITION_VERT_4 => Some (cols_4 4 0 mi_row mi_col quarter_step subsize)
  | PARTITION_SPLIT | PARTITION_INVALID => None
  end.

(** The positions in the order of the switch of [write_modes_sb]. *)
Definition enc_blocks (mi_row mi_col : Z) (bsize : BLOCK_SIZE) (partition : PARTITION_TYPE) : option (list (Z * Z)) :=
  let hbs := mi_size_wide bsize / 2 in
  let quarter_step := mi_size_wide bsize / 4 in
  match partition with
  | PARTITION_NONE => Some [(mi_row, mi_col)]
  | PARTITION_HORZ => Some ((mi_row, mi_col) :: if mi_row + hbs <? fs_mi_rows fs then [(mi_row + hbs, mi_col)] else [])
  | PARTITION_VERT => Some ((mi_row, mi_col) :: if mi_col + hbs <? fs_mi_cols fs then [(mi_row, mi_col + hbs)] else [])
  | PARTITION_HORZ_A => Some [(mi_row, mi_col); (mi_row, mi_col + hbs); (mi_row + hbs, mi_col)]
  | PARTITION_HORZ_B => Some [(mi_row, mi_col); (mi_row + hbs, mi_col); (mi_row + hbs, mi_col + hbs)]
  | PARTITION_VERT_A => Some [(mi_row, mi_col); (mi_row + hbs, mi_col); (mi_row, mi_col + hbs)]
  | PARTITION_VERT_B => Some [(mi_row, mi_col); (mi_row, mi_col + hbs); (mi_row + hbs, mi_col + hbs)]
  | PARTITION_HORZ_4 => Some (fst <$> rows_4 4 0 mi_row mi_col quarter_step bsize)
  | PARTITION_VERT_4 => Some (fst <$> cols_4 4 0 mi_row mi_col quarter_step bsize)
  | PARTITION_SPLIT | PARTITION_INVALID => None
  end.
End Visits.

(** ** The interface to the blocks *)

(** The mode infos around a block; [None] is one outside the tile. *)
Record block_site (B : Type) := {
  bs_row : Z; bs_col : Z; bs_above : option B; bs_left : option B; bs_above_left : option B }.
Arguments bs_row {B}.
Arguments bs_col {B}.
Arguments bs_above {B}.
Arguments bs_left {B}.
Arguments bs_above_left {B}.

(** [E] and [D] are what the encoder and the decoder keep from block to block besides the
    grid and the partition contexts.  The units are what is sent for a square before its
    partition (parameters of loop restoration). *)
Class BlockCoder (B E D : Type) := {
  bsize_of : B -> BLOCK_SIZE;
  enc_tile_start : E -> E;
  enc_row_start : E -> E;
  write_units : allocator -> E -> Z -> Z -> BLOCK_SIZE -> tile_writer E;
  write_modes_b : allocator -> E -> block_site B -> B -> tile_writer E;
  dec_tile_start : D -> D;
  dec_row_start : D -> D;
  read_units : D -> Z -> Z -> BLOCK_SIZE -> tile_reader D;
  parse_block : D -> block_site B -> PARTITION_TYPE -> BLOCK_SIZE -> tile_reader (D * B) }.

Section Walk.
Context {B E D : Type} `{Hcoder : BlockCoder B E D}.
Context (fs : frame_size) (tile : TileInfo) (ss_x ss_y : bool).

(** [xd->above_mbmi] and [xd->left_mbmi] after [set_mi_row_col]; an available position
    without a mode info is an access through a null pointer. *)
Definition neighbor (available : bool) (o : option B) : option (option B) :=
  if available then b ← o; Some (Some b) else Some None.

Definition site_at (g : mode_grid B) (mi_row mi_col : Z) : option (block_site B) :=
  let up_available := mi_row_start tile <? mi_row in
  let left_available := mi_col_start tile <? mi_col in
  above ← neighbor up_available (mi_at g (mi_row - 1) mi_col);
  left_ ← neighbor left_available (mi_at g mi_row (mi_col - 1));
  above_left ← neighbor (up_available && left_available) (mi_at g (mi_row - 1) (mi_col - 1));
  Some {| bs_row := mi_row; bs_col := mi_col; bs_above := above; bs_left := left_; bs_above_left := above_left |}.

(** A neighbour is not before the first row or column. *)
Definition site_within (s : block_site B) : Prop :=
  (is_Some (bs_above s) -> 1 <= bs_row s) /\ (is_Some (bs_left s) -> 1 <= bs_col s).

Lemma site_at_within g r c s : 0 <= mi_row_start tile /\ 0 <= mi_col_start tile -> site_at g r c = Some s ->
  site_within s /\ bs_row s = r /\ bs_col s = c.
Proof.
  intros Ht E1. unfold site_at, neighbor in E1.
  destruct (Z.ltb_spec (mi_row_start tile) r), (Z.ltb_spec (mi_col_start tile) c); cbn [andb] in E1;
    repeat match type of E1 with context [mi_at g ?y ?x] => destruct (mi_at g y x); cbn [mbind option_bind] in E1 end; try discriminate E1;
    injection E1 as <-; (split; [split; cbn; intros Hs; (lia || by destruct Hs) | done]).
Qed.

(** ** Writing *)

Section Write.
Context (al : allocator) (g : mode_grid B).

Fixpoint write_blocks (e : E) (ps : list (Z * Z)) : tile_writer E :=
  match ps with
  | [] => mret e
  | (mi_row, mi_col) :: ps =>
      s ← w_lift (site_at g mi_row mi_col);
      b ← w_lift (mi_at g mi_row mi_col);
      e ← write_modes_b al e s b;
      write_blocks e ps
  end.

(** [fuel] bounds the depth of the recursion. *)
Fixpoint write_modes_sb (fuel : nat) (x : partition_ctx) (e : E) (mi_row mi_col : Z) (bsize : BLOCK_SIZE)
  : tile_writer (partition_ctx * E) :=
  match fuel with
  | O => w_lift None
  | S fuel =>
      let hbs := mi_size_wide bsize / 2 in
      partition ← w_lift (get_partition bsize_of fs g mi_row mi_col bsize);
      if (fs_mi_rows fs <=? mi_row) || (fs_mi_cols fs <=? mi_col) then mret (x, e) else
      subsize ← w_lift (get_partition_subsize bsize partition);
      e ← write_units al e mi_row mi_col bsize;
      _ ← write_partition fs al x hbs mi_row mi_col partition bsize;
      '(x, e) ←
        (if bool_decide (partition = PARTITION_SPLIT) then
           '(x, e) ← write_modes_sb fuel x e mi_row mi_col subsize;
           '(x, e) ← write_modes_sb fuel x e mi_row (mi_col + hbs) subsize;
           '(x, e) ← write_modes_sb fuel x e (mi_row + hbs) mi_col subsize;
           write_modes_sb fuel x e (mi_row + hbs) (mi_col + hbs) subsize
         else
           ps ← w_lift (enc_blocks fs mi_row mi_col bsize partition);
           e ← write_blocks e ps;
           mret (x, e));
      x ← w_lift (update_ext_partition_context x mi_row mi_col subsize bsize partition);
      mret (x, e)
  end.
End Write.

(** ** Reading *)

Fixpoint parse_blocks (g : mode_grid B) (d : D) (partition : PARTITION_TYPE) (ps : list placed)
  : tile_reader (mode_grid B * D) :=
  match ps with
  | [] => mret (g, d)
  | (mi_row, mi_col, bsize) :: ps =>
      s ← r_lift (site_at g mi_row mi_col);
      '(d, b) ← parse_block d s partition bsize;
      g ← r_lift (set_mi fs g mi_row mi_col bsize b);
      parse_blocks g d partition ps
  end.

(** With [parse_decode_flag & 1]. *)
Fixpoint decode_partition (fuel : nat) (x : partition_ctx) (g : mode_grid B) (d : D) (mi_row mi_col : Z) (bsize : BLOCK_SIZE)
  : tile_reader (partition_ctx * mode_grid B * D) :=
  match fuel with
  | O => r_lift None
  | S fuel =>
      let bw := mi_size_wide bsize in
      let hbs := Z.shiftr bw 1 in
      let bsize2 := get_partition_subsize bsize PARTITION_SPLIT in
      let has_rows := mi_row + hbs <? fs_mi_rows fs in
      let has_cols := mi_col + hbs <? fs_mi_cols fs in
      if (fs_mi_rows fs <=? mi_row) || (fs_mi_cols fs <=? mi_col) then mret (x, g, d) else
      d ← read_units d mi_row mi_col bsize;
      partition ←
        (if block_size_value bsize <? block_size_value BLOCK_8X8 then mret PARTITION_NONE
         else read_partition x mi_row mi_col has_rows has_cols bsize);
      match get_partition_subsize bsize partition with
      | None => raise AOM_CODEC_CORRUPT_FRAME
      | Some subsize =>
          match av1_ss_size_lookup subsize ss_x ss_y with
          | None => raise AOM_CODEC_CORRUPT_FRAME
          | Some _ =>
              '(x, g, d) ←
                (if bool_decide (partition = PARTITION_SPLIT) then
                   '(x, g, d) ← decode_partition fuel x g d mi_row mi_col subsize;
                   '(x, g, d) ← decode_partition fuel x g d mi_row (mi_col + hbs) subsize;
                   '(x, g, d) ← decode_partition fuel x g d (mi_row + hbs) mi_col subsize;
                   decode_partition fuel x g d (mi_row + hbs) (mi_col + hbs) subsize
                 else
                   ps ← r_lift (dec_blocks fs mi_row mi_col bsize partition subsize bsize2);
                   '(g, d) ← parse_blocks g d partition ps;
                   mret (x, g, d));
              x ← r_lift (update_ext_partition_context x mi_row mi_col subsize bsize partition);
              mret (x, g, d)
          end
      end
  end.

(** With [parse_decode_flag = 2], as another thread does after the parsing: the blocks that
    [decode_block] is called for; [None] is an error. *)
Fixpoint decode_only (fuel : nat) (g : mode_grid B) (mi_row mi_col : Z) (bsize : BLOCK_SIZE) : option (list placed) :=
  match fuel with
  | O => None
  | S fuel =>
      let hbs := Z.shiftr (mi_size_wide bsize) 1 in
      let bsize2 := get_partition_subsize bsize PARTITION_SPLIT in
      if (fs_mi_rows fs <=? mi_row) || (fs_mi_cols fs <=? mi_col) then Some [] else
      partition ← get_partition bsize_of fs g mi_row mi_col bsize;
      subsize ← get_partition_subsize bsize partition;
      _ ← av1_ss_size_lookup subsize ss_x ss_y;
      if bool_decide (partition = PARTITION_SPLIT) then
        l1 ← decode_only fuel g mi_row mi_col subsize;
        l2 ← decode_only fuel g mi_row (mi_col + hbs) subsize;
        l3 ← decode_only fuel g (mi_row + hbs) mi_col subsize;
        l4 ← decode_only fuel g (mi_row + hbs) (mi_col + hbs) subsize;
        Some (l1 ++ l2 ++ l3 ++ l4)
      else dec_blocks fs mi_row mi_col bsize partition subsize bsize2
  end.

(** ** Tiles *)

Definition ALIGN_POWER_OF_TWO (value n : Z) : Z := Z.land (value + (Z.shiftl 1 n - 1)) (Z.lnot (Z.shiftl 1 n - 1)).

(** The loops [for (i = start; i < end; i += mib_size)] run this often. *)
Definition sb_count (start end_ mib_log2 : Z) : nat := Z.to_nat (CEIL_POWER_OF_TWO (end_ - start) mib_log2).

(** The superblocks of the frame: their size and its logarithm. *)
Context (sb_size : BLOCK_SIZE) (sb_mib_log2 : Z).

Definition sb_mib : Z := mi_size_wide sb_size.

(** The part of [av1_zero_above_context] that concerns partitions. *)
Definition av1_zero_above_context (x : partition_ctx) : option partition_ctx :=
  let aligned_width := ALIGN_POWER_OF_TWO (mi_col_end tile - mi_col_start tile) sb_mib_log2 in
  above ← memset (above_partition_context x) (mi_col_start tile) 0 aligned_width;
  Some {| above_partition_context := above; left_partition_context := left_partition_context x |}.

(** The part of [av1_zero_left_context] that concerns partitions. *)
Definition av1_zero_left_context (x : partition_ctx) : partition_ctx :=
  {| above_partition_context := above_partition_context x; left_partition_context := replicate 32 0 |}.

(** The depth of the recursion: 128, 64, 32, 16, 8 and 4 samples. *)
Definition sb_fuel : nat := 6.

Section WriteTile.
Context (al : allocator) (g : mode_grid B).

Fixpoint write_sb_cols (n : nat) (x : partition_ctx) (e : E) (mi_row mi_col : Z) : tile_writer (partition_ctx * E) :=
  match n with
  | O => mret (x, e)
  | S n =>
      '(x, e) ← write_modes_sb al g sb_fuel x e mi_row mi_col sb_size;
      write_sb_cols n x e mi_row (mi_col + sb_mib)
  end.

Fixpoint write_sb_rows (n : nat) (x : partition_ctx) (e : E) (mi_row : Z) : tile_writer (partition_ctx * E) :=
  match n with
  | O => mret (x, e)
  | S n =>
      '(x, e) ← write_sb_cols (sb_count (mi_col_start tile) (mi_col_end tile) sb_mib_log2) (av1_zero_left_context x)
                  (enc_row_start e) mi_row (mi_col_start tile);
      write_sb_rows n x e (mi_row + sb_mib)
  end.

Definition write_modes (x : partition_ctx) (e : E) : tile_writer (partition_ctx * E) :=
  x ← w_lift (av1_zero_above_context x);
  write_sb_rows (sb_count (mi_row_start tile) (mi_row_end tile) sb_mib_log2) x (enc_tile_start e) (mi_row_start tile).
End WriteTile.

Definition r_overflowed : tile_reader bool := fun '(r, fc) => Ok (aom_reader_has_overflowed r, (r, fc)).

(** The flag is [dcb->corrupted]: the loops end when the reader has run over the end of the
    data. *)
Fixpoint decode_sb_cols (n : nat) (x : partition_ctx) (g : mode_grid B) (d : D) (mi_row mi_col : Z)
  : tile_reader (partition_ctx * mode_grid B * D * bool) :=
  match n with
  | O => mret (x, g, d, false)
  | S n =>
      '(x, g, d) ← decode_partition sb_fuel x g d mi_row mi_col sb_size;
      over ← r_overflowed;
      if over : bool then mret (x, g, d, true) else decode_sb_cols n x g d mi_row (mi_col + sb_mib)
  end.

Fixpoint decode_sb_rows (n : nat) (x : partition_ctx) (g : mode_grid B) (d : D) (mi_row : Z)
  : tile_reader (partition_ctx * mode_grid B * D * bool) :=
  match n with
  | O => mret (x, g, d, false)
  | S n =>
      '(x, g, d, corrupted) ← decode_sb_cols (sb_count (mi_col_start tile) (mi_col_end tile) sb_mib_log2) (av1_zero_left_context x) g
                                (dec_row_start d) mi_row (mi_col_start tile);
      if corrupted : bool then mret (x, g, d, true) else decode_sb_rows n x g d (mi_row + sb_mib)
  end.

(** Up to the check of the trailing bits. *)
Definition decode_tile (x : partition_ctx) (g : mode_grid B) (d : D) : tile_reader (partition_ctx * mode_grid B * D * bool) :=
  x ← r_lift (av1_zero_above_context x);
  decode_sb_rows (sb_count (mi_row_start tile) (mi_row_end tile) sb_mib_log2) x g (dec_tile_start d) (mi_row_start tile).
End Walk.

(** ** Cells *)

Definition cell_in (b : placed) (y x : Z) : Prop :=
  let '(r, c, bsize) := b in r <= y < r + mi_size_high bsize /\ c <= x < c + mi_size_wide bsize.

(** The cells along the upper and the left edge of a rectangle, with the corner. *)
Definition border (r c h w y x : Z) : Prop := (y = r - 1 /\ c - 1 <= x < c + w) \/ (x = c - 1 /\ r - 1 <= y < r + h).

Section Geometry.
Context (fs : frame_size).

Definition in_frame (y x : Z) : Prop := 0 <= y < fs_mi_rows fs /\ 0 <= x < fs_mi_cols fs.

(** Every block lies in the rectangle, and what is along its edges is along those of the
    rectangle or in an earlier block. *)
Fixpoint ordered (r c h w : Z) (done_ l : list placed) : Prop :=
  match l with
  | [] => True
  | (br, bc, bs) :: l =>
      (r <= br < fs_mi_rows fs /\ c <= bc < fs_mi_cols fs /\ br + mi_size_high bs <= r + h /\ bc + mi_size_wide bs <= c + w) /\
      (forall y x, in_frame y x -> border br bc (mi_size_high bs) (mi_size_wide bs) y x ->
         border r c h w y x \/ Exists (fun b => cell_in b y x) done_) /\
      ordered r c h w (done_ ++ [(br, bc, bs)]) l
  end.

Definition covers (r c h w : Z) (l : list placed) : Prop :=
  forall y x, in_frame y x -> r <= y < r + h -> c <= x < c + w -> Exists (fun b => cell_in b y x) l.

(** No cell is in two blocks. *)
Fixpoint disjoint_blocks (l : list placed) : Prop :=
  match l with
  | [] => True
  | b :: l => (forall y x, cell_in b y x -> ~ Exists (fun b' => cell_in b' y x) l) /\ disjoint_blocks l
  end.

(** The sizes after a cut. *)
Lemma sizes_after bsize p sub : get_partition_subsize bsize p = Some sub ->
  let n := mi_size_wide bsize in
  match p with
  | PARTITION_NONE => mi_size_wide sub = n /\ mi_size_high sub = n
  | PARTITION_HORZ | PARTITION_HORZ_A | PARTITION_HORZ_B => mi_size_wide sub = n /\ 2 * mi_size_high sub = n
  | PARTITION_VERT | PARTITION_VERT_A | PARTITION_VERT_B => 2 * mi_size_wide sub = n /\ mi_size_high sub = n
  | PARTITION_SPLIT => 2 * mi_size_wide sub = n /\ 2 * mi_size_high sub = n
  | PARTITION_HORZ_4 => mi_size_wide sub = n /\ 4 * mi_size_high sub = n
  | PARTITION_VERT_4 => 4 * mi_size_wide sub = n /\ mi_size_high sub = n
  | PARTITION_INVALID => False
  end.
Proof. destruct bsize, p; intros [= <-]; by compute. Qed.

Lemma split_size bsize sub p : get_partition_subsize bsize p = Some sub -> p <> PARTITION_NONE ->
  is_Some (get_partition_subsize bsize PARTITION_SPLIT).
Proof. destruct bsize, p; intros [= <-] Hp; try done; by eexists. Qed.

(** Decides statements about the cells of a few blocks. *)
Ltac cells :=
  cbn [app ordered disjoint_blocks]; unfold covers;
  repeat match goal with
  | |- _ /\ _ => split
  | |- True => exact I
  | |- forall _, _ => intro
  | |- ~ _ => intro
  end;
  repeat match goal with
  | H : context [Exists _ []] |- _ => rewrite Exists_nil in H
  | H : context [Exists _ (_ :: _)] |- _ => rewrite Exists_cons in H
  | |- context [Exists _ []] => rewrite Exists_nil
  | |- context [Exists _ (_ :: _)] => rewrite Exists_cons
  end; unfold cell_in, border, in_frame in *; lia.

(** The blocks of a cut fill its part of the frame, each cell once, in an order in which
    what is above and to the left of a block comes first. *)
Lemma blocks_fit r c bsize p sub l : square_at r c bsize -> r < fs_mi_rows fs -> c < fs_mi_cols fs ->
  partition_allowed fs r c bsize p -> get_partition_subsize bsize p = Some sub ->
  dec_blocks fs r c bsize p sub (get_partition_subsize bsize PARTITION_SPLIT) = Some l ->
  let n := mi_size_wide bsize in
  ordered r c n n [] l /\ covers r c n n l /\ disjoint_blocks l.
Proof.
  intros [Hs [Hr Hc] _] Hir Hic Hp Hsub Hl n. destruct (square_side bsize Hs) as [Hn _]. fold n in Hn.
  assert (1 <= n) by (unfold is_side in Hn; lia). pose proof (sizes_after bsize p sub Hsub) as Hsz. cbv zeta in Hsz. fold n in Hsz.
  unfold dec_blocks in Hl. fold n in Hl. rewrite Z.shiftr_div_pow2 in Hl by lia. change (2 ^ 1) with 2 in Hl.
  assert (forall k, 2 * k = n -> n / 2 = k) as Hhalf by (intros k <-; rewrite Z.mul_comm; apply Z.div_mul; lia).
  assert (forall k, 4 * k = n -> n / 4 = k) as Hquart by (intros k <-; rewrite Z.mul_comm; apply Z.div_mul; lia).
  assert (p <> PARTITION_NONE -> p <> PARTITION_SPLIT -> has_rows_of fs r bsize = true /\ has_cols_of fs c bsize = true \/
    p = PARTITION_HORZ \/ p = PARTITION_VERT) as Hext.
  { intros H0 H3. unfold partition_allowed in Hp. case_bool_decide as H4; [done |].
    destruct (has_rows_of fs r bsize), (has_cols_of fs c bsize); [by left | | |]; right; destruct Hp as [-> | ->] || subst; auto; done. }
  unfold has_rows_of, has_cols_of in Hext. fold n in Hext. rewrite !Z.ltb_lt in Hext.
  assert (forall b2, get_partition_subsize bsize PARTITION_SPLIT = Some b2 -> 2 * mi_size_wide b2 = n /\ 2 * mi_size_high b2 = n) as Hb2.
  { intros b2 E2. exact (sizes_after bsize PARTITION_SPLIT b2 E2). }
  destruct (get_partition_subsize bsize PARTITION_SPLIT) as [b2|] eqn:E2.
  2: { assert (p = PARTITION_NONE) as ->.
       { destruct (decide (p = PARTITION_NONE)) as [| Hne]; [done |]. destruct (split_size bsize sub p Hsub Hne). congruence. }
       injection Hl as <-. cells. }
  destruct (Hb2 b2 eq_refl) as [Hw2 Hh2]. pose proof (Hhalf _ Hw2) as Eh. rewrite Eh in *. clear Hb2 E2.
  destruct p; cbn [mbind option_bind] in Hl; try discriminate Hl; try (destruct Hext as [[He1 He2] | [He | He]]; [done | done | | discriminate He | discriminate He]).
  - injection Hl as <-. cells.
  - destruct (Z.ltb_spec (r + mi_size_wide b2) (fs_mi_rows fs)); injection Hl as <-; cells.
  - destruct (Z.ltb_spec (c + mi_size_wide b2) (fs_mi_cols fs)); injection Hl as <-; cells.
  - injection Hl as <-. cells.
  - injection Hl as <-. cells.
  - injection Hl as <-. cells.
  - injection Hl as <-. cells.
  - rewrite (Hquart (mi_size_high sub)) in Hl by lia. injection Hl as <-. cbn [rows_4].
    cbn [andb Z.ltb Z.compare]. repeat match goal with |- context [fs_mi_rows fs <=? ?k] => destruct (Z.leb_spec (fs_mi_rows fs) k) end; cells.
  - rewrite (Hquart (mi_size_wide sub)) in Hl by lia. injection Hl as <-. cbn [cols_4].
    cbn [andb Z.ltb Z.compare]. repeat match goal with |- context [fs_mi_cols fs <=? ?k] => destruct (Z.leb_spec (fs_mi_cols fs) k) end; cells.
Qed.
End Geometry.

(** ** Storing into the grid *)

Section Fill.
Context {B : Type}.

Lemma zget_insert (l : list (option B)) i j v : 0 <= i < Z.of_nat (length l) -> 0 <= j ->
  zget (<[Z.to_nat i := v]> l) j = if j =? i then Some v else zget l j.
Proof.
  intros Hi Hj. unfold zget. rewrite (proj2 (Z.leb_le 0 j)) by lia. destruct (Z.eqb_spec j i) as [-> | Hne].
  - apply list_lookup_insert_eq. lia.
  - apply list_lookup_insert_ne. lia.
Qed.

Lemma fill_row_ok n l at_ (b : B) : 0 <= at_ -> at_ + Z.of_nat n <= Z.of_nat (length l) ->
  exists l', fill_row l at_ n b = Some l' /\ length l' = length l /\
    forall j, 0 <= j -> zget l' j = if (at_ <=? j) && (j <? at_ + Z.of_nat n) then Some (Some b) else zget l j.
Proof.
  revert l at_. induction n as [| n IH]; intros l at_ Ha Hl; cbn [fill_row].
  - exists l. split_and!; [done | done |]. intros j Hj. destruct (Z.leb_spec at_ j), (Z.ltb_spec j (at_ + Z.of_nat 0)); cbn [andb]; (done || lia).
  - rewrite (proj2 (Z.leb_le 0 at_)), (proj2 (Z.ltb_lt at_ _)) by lia. cbn [andb].
    destruct (IH (<[Z.to_nat at_ := Some b]> l) (at_ + 1)) as (l' & -> & Hl' & Hz); [lia | rewrite length_insert; lia |].
    exists l'. rewrite length_insert in Hl'. split_and!; [done | done |]. intros j Hj. rewrite Hz, zget_insert by lia.
    destruct (Z.leb_spec (at_ + 1) j), (Z.ltb_spec j (at_ + 1 + Z.of_nat n)), (Z.leb_spec at_ j), (Z.ltb_spec j (at_ + Z.of_nat (S n))), (Z.eqb_spec j at_);
      cbn [andb]; (done || lia).
Qed.

Lemma fill_rows_ok n l stride at_ m (b : B) : 0 <= at_ -> Z.of_nat m <= stride ->
  (n <> 0%nat -> at_ + (Z.of_nat n - 1) * stride + Z.of_nat m <= Z.of_nat (length l)) ->
  exists l', fill_rows l stride at_ n m b = Some l' /\ length l' = length l /\
    (forall k i, 0 <= k < Z.of_nat n -> 0 <= i < Z.of_nat m -> zget l' (at_ + k * stride + i) = Some (Some b)) /\
    (forall j, 0 <= j -> (forall k, 0 <= k < Z.of_nat n -> j < at_ + k * stride \/ at_ + k * stride + Z.of_nat m <= j) -> zget l' j = zget l j).
Proof.
  revert l at_. induction n as [| n IH]; intros l at_ Ha Hst Hl; cbn [fill_rows].
  - exists l. split_and!; [done | done | intros; lia | done].
  - specialize (Hl ltac:(done)). assert (0 <= Z.of_nat n * stride) by (apply Z.mul_nonneg_nonneg; lia).
    destruct (fill_row_ok m l at_ b Ha) as (l1 & -> & L1 & Z1).
    { replace (Z.of_nat (S n) - 1) with (Z.of_nat n) in Hl by lia. lia. }
    cbn [mbind option_bind]. destruct (IH l1 (at_ + stride)) as (l' & -> & L' & Zin & Zout); [lia | lia | |].
    { intros Hn. rewrite L1. replace (at_ + stride + (Z.of_nat n - 1) * stride) with (at_ + (Z.of_nat (S n) - 1) * stride) by lia. lia. }
    exists l'. split_and!; [done | congruence | |].
    + intros k i Hk Hi. assert (0 <= k * stride) by (apply Z.mul_nonneg_nonneg; lia).
      destruct (Z.eq_dec k 0) as [-> | Hk0].
      * rewrite Zout; [| lia |].
        -- rewrite Z1 by lia. rewrite (proj2 (Z.leb_le _ _)), (proj2 (Z.ltb_lt _ _)) by lia. done.
        -- intros k Hk'. assert (0 <= k * stride) by (apply Z.mul_nonneg_nonneg; lia). left. lia.
      * replace (at_ + k * stride + i) with (at_ + stride + (k - 1) * stride + i) by lia. apply Zin; lia.
    + intros j Hj Hout. rewrite Zout; [| done |].
      * rewrite Z1 by done. destruct (Hout 0 ltac:(lia)); [rewrite (proj2 (Z.leb_gt at_ j)) by lia | rewrite (proj2 (Z.ltb_ge j _)), andb_false_r by lia]; done.
      * intros k Hk. specialize (Hout (k + 1) ltac:(lia)). lia.
Qed.

(** The grid has a place for every cell of the frame. *)
Definition grid_ok (fs : frame_size) (g : mode_grid B) : Prop :=
  0 <= fs_mi_rows fs /\ 0 <= fs_mi_cols fs <= mi_stride g /\ fs_mi_rows fs * mi_stride g <= Z.of_nat (length (mi_grid_base g)).

Lemma set_mi_ok fs g r c bsize (b : B) : grid_ok fs g -> in_frame fs r c ->
  exists g', set_mi fs g r c bsize b = Some g' /\ grid_ok fs g' /\
    forall y x, in_frame fs y x ->
      (cell_in (r, c, bsize) y x -> mi_at g' y x = Some b) /\ (~ cell_in (r, c, bsize) y x -> mi_at g' y x = mi_at g y x).
Proof.
  intros (Hr0 & Hc0 & Hl) [Hr Hc]. unfold set_mi. set (st := mi_stride g) in *.
  assert (1 <= mi_size_wide bsize /\ 1 <= mi_size_high bsize) as [Hw Hh] by (destruct bsize; cbn; lia).
  set (xm := Z.min (mi_size_wide bsize) (fs_mi_cols fs - c)). set (ym := Z.min (mi_size_high bsize) (fs_mi_rows fs - r)).
  assert (0 <= r * st) by (apply Z.mul_nonneg_nonneg; lia).
  destruct (fill_rows_ok (Z.to_nat ym) (mi_grid_base g) st (r * st + c) (Z.to_nat xm) b) as (l' & -> & L & Zin & Zout); [lia | lia | |].
  { intros _. rewrite !Z2Nat.id by lia. assert (r * st + (ym - 1) * st <= (fs_mi_rows fs - 1) * st) by (rewrite <- Z.mul_add_distr_r; apply Z.mul_le_mono_nonneg_r; lia).
    lia. }
  cbn [mbind option_bind]. eexists. split_and!; [done | by unfold grid_ok; cbn; rewrite L |].
  rewrite !Z2Nat.id in * by lia. intros y x [Hy Hx]. unfold mi_at. cbn [mi_grid_base mi_stride]. fold st.
  assert (0 <= y * st) by (apply Z.mul_nonneg_nonneg; lia). split.
  - intros [Hy1 Hx1]. replace (y * st + x) with (r * st + c + (y - r) * st + (x - c)) by lia. by rewrite Zin by lia.
  - intros Hout. rewrite Zout; [done | lia |]. intros k Hk. unfold cell_in in Hout.
    destruct (Z.lt_trichotomy (r + k) y) as [Hlt | [Heq | Hgt]].
    + right. assert ((r + k + 1) * st <= y * st) by (apply Z.mul_le_mono_nonneg_r; lia). lia.
    + subst y. assert (~ (c <= x < c + mi_size_wide bsize)) by (intros ?; apply Hout; lia). lia.
    + left. assert ((y + 1) * st <= (r + k) * st) by (apply Z.mul_le_mono_nonneg_r; lia). lia.
Qed.
End Fill.

(** ** Quarters *)

Lemma quarter_at r c bsize sub dr dc : square_at r c bsize -> get_partition_subsize bsize PARTITION_SPLIT = Some sub ->
  dr = 0 \/ dr = mi_size_wide bsize / 2 -> dc = 0 \/ dc = mi_size_wide bsize / 2 -> square_at (r + dr) (c + dc) sub.
Proof.
  intros [[i Hi] [Hr Hc] [Ar Ac]] Hsub Hdr Hdc. destruct bsize; try discriminate Hi; try discriminate Hsub; injection Hsub as <-;
    cbn [mi_size_wide] in *; (split; [by eexists | |]); cbn [mi_size_wide]; Z.to_euclidean_division_equations; lia.
Qed.

Lemma quarters_at r c bsize sub : square_at r c bsize -> get_partition_subsize bsize PARTITION_SPLIT = Some sub ->
  let h := mi_size_wide sub in square_at r c sub /\ square_at r (c + h) sub /\ square_at (r + h) c sub /\ square_at (r + h) (c + h) sub.
Proof.
  intros Hsq Hsub h. assert (mi_size_wide bsize / 2 = h) as Eh by (destruct bsize; try discriminate Hsub; by injection Hsub as <-).
  pose proof (fun dr dc => quarter_at r c bsize sub dr dc Hsq Hsub) as Q. rewrite Eh in Q.
  split_and!; [specialize (Q 0 0) | specialize (Q 0 h) | specialize (Q h 0) | specialize (Q h h)]; rewrite ?Z.add_0_r in Q; tauto.
Qed.

Lemma split_log2 bsize sub : get_partition_subsize bsize PARTITION_SPLIT = Some sub ->
  mi_size_wide_log2 sub = mi_size_wide_log2 bsize - 1 /\ 2 * mi_size_wide sub = mi_size_wide bsize /\
  mi_size_wide bsize / 2 = mi_size_wide sub /\ 1 <= mi_size_wide sub /\ mi_size_high sub = mi_size_wide sub.
Proof. destruct bsize; intros [= <-]; by compute. Qed.

(** The cells of a square. *)
Definition in_square (r c : Z) (bsize : BLOCK_SIZE) (y x : Z) : Prop :=
  r <= y < r + mi_size_wide bsize /\ c <= x < c + mi_size_wide bsize.

(** ** Grids that describe a cut *)

Section Partitioned.
Context {B : Type} (bsize_of : B -> BLOCK_SIZE) (fs : frame_size) (ss_x ss_y : bool) (P : Z -> Z -> B -> Prop).

(** One mode info on all cells of a block that are in the frame. *)
Definition holds (g : mode_grid B) (p : placed) : Prop :=
  let '(r, c, bsize) := p in
  exists b, bsize_of b = bsize /\ P r c b /\ forall y x, in_frame fs y x -> cell_in p y x -> mi_at g y x = Some b.

Definition chroma_valid (subsize : BLOCK_SIZE) : Prop := is_Some (av1_ss_size_lookup subsize ss_x ss_y).

(** A square and its blocks in the order of coding. *)
Inductive partitioned (g : mode_grid B) : Z -> Z -> BLOCK_SIZE -> list placed -> Prop :=
| partitioned_outside r c bsize : fs_mi_rows fs <= r \/ fs_mi_cols fs <= c -> partitioned g r c bsize []
| partitioned_blocks r c bsize p sub l :
    r < fs_mi_rows fs -> c < fs_mi_cols fs -> partition_allowed fs r c bsize p ->
    get_partition_subsize bsize p = Some sub -> chroma_valid sub ->
    dec_blocks fs r c bsize p sub (get_partition_subsize bsize PARTITION_SPLIT) = Some l -> Forall (holds g) l ->
    partitioned g r c bsize l
| partitioned_split r c bsize sub l1 l2 l3 l4 :
    r < fs_mi_rows fs -> c < fs_mi_cols fs -> partition_allowed fs r c bsize PARTITION_SPLIT ->
    get_partition_subsize bsize PARTITION_SPLIT = Some sub -> chroma_valid sub ->
    let hbs := mi_size_wide bsize / 2 in
    partitioned g r c sub l1 -> partitioned g r (c + hbs) sub l2 ->
    partitioned g (r + hbs) c sub l3 -> partitioned g (r + hbs) (c + hbs) sub l4 ->
    partitioned g r c bsize (l1 ++ l2 ++ l3 ++ l4).

(** The block at the corner of a square is not larger than it. *)
Lemma corner_size g r c bsize l : 0 <= r < fs_mi_rows fs -> 0 <= c < fs_mi_cols fs -> partitioned g r c bsize l ->
  exists b, mi_at g r c = Some b /\ mi_size_wide (bsize_of b) <= mi_size_wide bsize /\ mi_size_high (bsize_of b) <= mi_size_wide bsize.
Proof.
  intros Hr Hc Hp. induction Hp as [r c bsize Hout | r c bsize p sub l Hir Hic Hall Hsub Hch Hl Hh | r c bsize sub l1 l2 l3 l4 Hir Hic Hall Hsub Hch hbs H1 IH1 _ _ _ _ _ _].
  - lia.
  - destruct (subsize_fits bsize p sub Hsub) as (_ & Hw & Hhi).
    assert (forall b2, get_partition_subsize bsize PARTITION_SPLIT = Some b2 -> mi_size_wide b2 <= mi_size_wide bsize /\ mi_size_high b2 <= mi_size_wide bsize) as H2.
    { intros b2 E2. destruct (subsize_fits bsize PARTITION_SPLIT b2 E2) as (_ & ? & ?). lia. }
    assert (exists bs l', l = (r, c, bs) :: l' /\ mi_size_wide bs <= mi_size_wide bsize /\ mi_size_high bs <= mi_size_wide bsize) as (bs & l' & -> & Hbs).
    { unfold dec_blocks in Hl. destruct p; try discriminate Hl;
        try (destruct (get_partition_subsize bsize PARTITION_SPLIT) as [b2|]; [| discriminate Hl]; cbn [mbind option_bind] in Hl);
        injection Hl as <-; cbn [rows_4 cols_4 Z.ltb Z.compare andb]; rewrite ?Z.mul_0_l, ?Z.add_0_r;
        eexists _, _; (split; [reflexivity |]); try (by apply H2); lia. }
    apply Forall_cons_1 in Hh as [(b & Eb & _ & Hcell) _]. exists b. rewrite (Hcell r c) by (unfold in_frame, cell_in; destruct bs; cbn; lia).
    rewrite Eb. done.
  - destruct (IH1 Hr Hc) as (b & E & Hb). exists b. pose proof (sizes_after bsize PARTITION_SPLIT sub Hsub) as Hsz. cbv beta iota zeta in Hsz.
    assert (1 <= mi_size_wide sub) by (destruct sub; cbn; lia). split; [done | lia].
Qed.

(** What [get_partition] makes of the sizes at the corner, to the right and below; [inner]:
    both are in the frame and the square is larger than 8x8. *)
Definition partition_from (bsize : BLOCK_SIZE) (inner : bool) (s0 right_ below : BLOCK_SIZE) : PARTITION_TYPE :=
  let n := mi_size_wide bsize in
  if bool_decide (s0 = bsize) then PARTITION_NONE
  else if inner then
    if mi_size_wide s0 =? n then
      if mi_size_high s0 * 4 =? n then PARTITION_HORZ_4
      else if bool_decide (below = s0) then PARTITION_HORZ else PARTITION_HORZ_B
    else if mi_size_high s0 =? n then
      if mi_size_wide s0 * 4 =? n then PARTITION_VERT_4
      else if bool_decide (right_ = s0) then PARTITION_VERT else PARTITION_VERT_B
    else if negb (mi_size_wide s0 * 2 =? n) || negb (mi_size_high s0 * 2 =? n) then PARTITION_SPLIT
    else if mi_size_wide below =? n then PARTITION_HORZ_A
    else if mi_size_high right_ =? n then PARTITION_VERT_A
    else PARTITION_SPLIT
  else match mi_size_wide s0 <? n, mi_size_high s0 <? n with
       | false, false => PARTITION_INVALID
       | false, true => PARTITION_HORZ
       | true, false => PARTITION_VERT
       | true, true => PARTITION_SPLIT
       end.

Definition size_at (g : mode_grid B) (y x : Z) : option BLOCK_SIZE := bsize_of <$> mi_at g y x.

Definition inner_square (r c : Z) (bsize : BLOCK_SIZE) : bool :=
  (block_size_value BLOCK_8X8 <? block_size_value bsize) && has_rows_of fs r bsize && has_cols_of fs c bsize.

Lemma get_partition_from g r c bsize s0 right_ below : is_Some (get_sqr_bsize_idx bsize) ->
  r < fs_mi_rows fs -> c < fs_mi_cols fs -> size_at g r c = Some s0 ->
  (s0 <> bsize -> inner_square r c bsize = true ->
    size_at g r (c + mi_size_wide bsize / 2) = Some right_ /\ size_at g (r + mi_size_wide bsize / 2) c = Some below) ->
  get_partition bsize_of fs g r c bsize = Some (partition_from bsize (inner_square r c bsize) s0 right_ below).
Proof.
  intros Hs Hr Hc E0 Hin. destruct (square_side bsize Hs) as [_ Hh]. unfold get_partition, partition_from.
  rewrite (proj2 (Z.leb_gt _ _)), (proj2 (Z.leb_gt _ _)) by lia. cbn [orb]. fold (size_at g r c). rewrite E0. cbn [mbind option_bind].
  rewrite Hh. destruct (bool_decide_reflect (s0 = bsize)) as [| Hne]; [done |].
  fold (has_rows_of fs r bsize) (has_cols_of fs c bsize) (inner_square r c bsize).
  destruct (inner_square r c bsize) eqn:Ei; [| done].
  fold (size_at g r (c + mi_size_wide bsize / 2)) (size_at g (r + mi_size_wide bsize / 2) c).
  destruct (Hin Hne eq_refl) as [-> ->]. cbn [mbind option_bind].
  repeat match goal with |- (if ?b then _ else _) = Some (if ?b then _ else _) => destruct b end; done.
Qed.

Lemma holds_size g p y x : holds g p -> in_frame fs y x -> cell_in p y x -> size_at g y x = Some p.2.
Proof. destruct p as [[r c] bs]. intros (b & Eb & _ & Hcell) Hf Hi. unfold size_at. by rewrite (Hcell y x Hf Hi), <- Eb. Qed.

(** The four quarters recover a split. *)
Lemma recovers_split g r c bsize sub l1 l2 l3 : square_at r c bsize -> r < fs_mi_rows fs -> c < fs_mi_cols fs ->
  get_partition_subsize bsize PARTITION_SPLIT = Some sub ->
  partitioned g r c sub l1 -> partitioned g r (c + mi_size_wide bsize / 2) sub l2 -> partitioned g (r + mi_size_wide bsize / 2) c sub l3 ->
  get_partition bsize_of fs g r c bsize = Some PARTITION_SPLIT.
Proof.
  intros [Hs [Hr0 Hc0] _] Hr Hc Hsub H1 H2 H3. pose proof (sizes_after bsize PARTITION_SPLIT sub Hsub) as [Hw Hh].
  assert (1 <= mi_size_wide sub) by (destruct sub; cbn; lia).
  assert (mi_size_wide bsize / 2 = mi_size_wide sub) as Eh by (rewrite <- Hw, Z.mul_comm; apply Z.div_mul; lia).
  assert (forall y x l, 0 <= y < fs_mi_rows fs -> 0 <= x < fs_mi_cols fs -> partitioned g y x sub l ->
    exists s, size_at g y x = Some s /\ mi_size_wide s <= mi_size_wide sub /\ mi_size_high s <= mi_size_wide sub) as Hcs.
  { intros y x l Hy Hx Hp. destruct (corner_size g y x sub l Hy Hx Hp) as (b & E & Hb). exists (bsize_of b). unfold size_at. by rewrite E. }
  destruct (Hcs r c l1 ltac:(lia) ltac:(lia) H1) as (s0 & E0 & Hs0).
  assert (s0 <> bsize) as Hne by (intros ->; lia).
  assert (forall inner right_ below, (inner = true -> mi_size_wide below <= mi_size_wide sub /\ mi_size_high right_ <= mi_size_wide sub) ->
    partition_from bsize inner s0 right_ below = PARTITION_SPLIT) as Hfrom.
  { intros inner right_ below Hb. unfold partition_from. rewrite bool_decide_false by done.
    rewrite (proj2 (Z.ltb_lt (mi_size_wide s0) _)), (proj2 (Z.ltb_lt (mi_size_high s0) _)) by lia.
    rewrite (proj2 (Z.eqb_neq (mi_size_wide s0) _)), (proj2 (Z.eqb_neq (mi_size_high s0) (mi_size_wide bsize))) by lia.
    destruct inner; [| done]. specialize (Hb eq_refl).
    rewrite (proj2 (Z.eqb_neq (mi_size_wide below) _)), (proj2 (Z.eqb_neq (mi_size_high right_) _)) by lia. by destruct (_ || _). }
  destruct (inner_square r c bsize) eqn:Ei.
  - assert (has_rows_of fs r bsize = true /\ has_cols_of fs c bsize = true) as [Er Ec].
    { unfold inner_square in Ei. rewrite !andb_true_iff in Ei. tauto. }
    unfold has_rows_of, has_cols_of in Er, Ec. rewrite Z.ltb_lt in Er, Ec.
    destruct (Hcs r (c + mi_size_wide bsize / 2) l2 ltac:(lia) ltac:(lia) H2) as (s1 & E1 & Hs1).
    destruct (Hcs (r + mi_size_wide bsize / 2) c l3 ltac:(lia) ltac:(lia) H3) as (s2 & E2 & Hs2).
    rewrite (get_partition_from g r c bsize s0 s1 s2) by first [done | intros; by split]. by rewrite Hfrom by lia.
  - rewrite (get_partition_from g r c bsize s0 s0 s0) by first [done | congruence]. rewrite Ei. by rewrite Hfrom.
Qed.

(** The sizes to the right and below that the blocks of a cut have. *)
Definition right_below (bsize : BLOCK_SIZE) (p : PARTITION_TYPE) (sub : BLOCK_SIZE) : BLOCK_SIZE * BLOCK_SIZE * BLOCK_SIZE :=
  let b2 := default sub (get_partition_subsize bsize PARTITION_SPLIT) in
  match p with
  | PARTITION_HORZ_A => (b2, b2, sub)
  | PARTITION_HORZ_B => (sub, sub, b2)
  | PARTITION_VERT_A => (b2, sub, b2)
  | PARTITION_VERT_B => (sub, b2, sub)
  | _ => (sub, sub, sub)
  end.

Lemma from_right_below bsize p sub : get_partition_subsize bsize p = Some sub -> p <> PARTITION_SPLIT ->
  let '(s0, right_, below) := right_below bsize p sub in
  forall inner, (inner = false -> p = PARTITION_NONE \/ p = PARTITION_HORZ \/ p = PARTITION_VERT) ->
  partition_from bsize inner s0 right_ below = p.
Proof.
  destruct bsize, p; intros [= <-] Hp; try done; intros [] Hi; try reflexivity; destruct (Hi eq_refl) as [E | [E | E]]; discriminate E.
Qed.

(** Reads a size off one of the blocks of a list. *)
Ltac size_in H := apply (holds_size _ _ _ _ H); [unfold in_frame; lia | unfold cell_in; lia].

Lemma recovers_blocks g r c bsize p sub l : square_at r c bsize -> r < fs_mi_rows fs -> c < fs_mi_cols fs ->
  partition_allowed fs r c bsize p -> get_partition_subsize bsize p = Some sub ->
  dec_blocks fs r c bsize p sub (get_partition_subsize bsize PARTITION_SPLIT) = Some l -> Forall (holds g) l ->
  get_partition bsize_of fs g r c bsize = Some p.
Proof.
  intros Hsq Hr Hc Hall Hsub Hl Hh. pose proof Hsq as [Hs [Hr0 Hc0] _].
  destruct (square_side bsize Hs) as [Hn _]. assert (1 <= mi_size_wide bsize) by (unfold is_side in Hn; lia).
  assert (p <> PARTITION_SPLIT) as Hps by (intros ->; discriminate Hl).
  pose proof (from_right_below bsize p sub Hsub Hps) as Hfrom.
  assert (inner_square r c bsize = true -> r + mi_size_wide bsize / 2 < fs_mi_rows fs /\ c + mi_size_wide bsize / 2 < fs_mi_cols fs) as Hin.
  { unfold inner_square, has_rows_of, has_cols_of. rewrite !andb_true_iff, !Z.ltb_lt. tauto. }
  assert (inner_square r c bsize = false -> p = PARTITION_NONE \/ p = PARTITION_HORZ \/ p = PARTITION_VERT) as Hex.
  { unfold partition_allowed in Hall. unfold inner_square. case_bool_decide as H4; [tauto |].
    destruct (has_rows_of fs r bsize), (has_cols_of fs c bsize); [| destruct Hall as [-> | ->]; tauto || done .. | by subst].
    rewrite !andb_true_r. destruct Hs as [i Hi]. destruct bsize; try discriminate Hi; try done.
    intros _. destruct p; try discriminate Hsub; tauto. }
  set (n := mi_size_wide bsize) in *. pose proof (sizes_after bsize p sub Hsub) as Hsz. cbv zeta in Hsz. fold n in Hsz.
  assert (forall k, 2 * k = n -> n / 2 = k) as Hhalf by (intros k <-; rewrite Z.mul_comm; apply Z.div_mul; lia).
  assert (forall k, 4 * k = n -> n / 4 = k /\ n / 2 = 2 * k) as Hquart.
  { intros k Hk. split; [rewrite <- Hk, Z.mul_comm; apply Z.div_mul; lia | apply Hhalf; lia]. }
  unfold dec_blocks in Hl. fold n in Hl. rewrite Z.shiftr_div_pow2 in Hl by lia. change (2 ^ 1) with 2 in Hl.
  unfold right_below in Hfrom.
  destruct (get_partition_subsize bsize PARTITION_SPLIT) as [b2|] eqn:E2.
  2: { assert (p = PARTITION_NONE) as ->.
       { destruct (decide (p = PARTITION_NONE)) as [| Hne]; [done |]. destruct (split_size bsize sub p Hsub Hne). congruence. }
       injection Hl as <-. apply Forall_cons_1 in Hh as [Hb _].
       rewrite <- (Hfrom (inner_square r c bsize)) by done. apply get_partition_from; try done; [size_in Hb |].
       intros Hne. destruct bsize; try discriminate Hsub; by injection Hsub as <-. }
  destruct (sizes_after bsize PARTITION_SPLIT b2 E2) as [Hw2 Hh2]. fold n in Hw2, Hh2. pose proof (Hhalf _ Hw2) as Eh.
  cbn [default mbind option_bind] in *.
  assert (forall s0 right_ below, size_at g r c = Some s0 -> (inner_square r c bsize = true -> s0 <> bsize ->
    size_at g r (c + n / 2) = Some right_ /\ size_at g (r + n / 2) c = Some below) ->
    (forall inner, (inner = false -> p = PARTITION_NONE \/ p = PARTITION_HORZ \/ p = PARTITION_VERT) -> partition_from bsize inner s0 right_ below = p) ->
    get_partition bsize_of fs g r c bsize = Some p) as Hgo.
  { intros s0 right_ below H0 H1 H2. rewrite <- (H2 (inner_square r c bsize)) by done. apply get_partition_from; try done. intros ? ?. by apply H1. }
  destruct p; try discriminate Hl; try done.
  - injection Hl as <-. apply Forall_cons_1 in Hh as [Hb _]. eapply Hgo; [size_in Hb | | exact Hfrom].
    intros _ Hne. destruct bsize; try discriminate Hsub; by injection Hsub as <-.
  - eapply Hgo; [| | exact Hfrom].
    + destruct (_ <? _); injection Hl as <-; apply Forall_cons_1 in Hh as [Hb _]; size_in Hb.
    + intros Hi _. specialize (Hin Hi). rewrite (proj2 (Z.ltb_lt _ _)) in Hl by lia. injection Hl as <-.
      apply Forall_cons_1 in Hh as [Hb [Hb' _]%Forall_cons_1]. split; [size_in Hb | size_in Hb'].
  - eapply Hgo; [| | exact Hfrom].
    + destruct (_ <? _); injection Hl as <-; apply Forall_cons_1 in Hh as [Hb _]; size_in Hb.
    + intros Hi _. specialize (Hin Hi). rewrite (proj2 (Z.ltb_lt _ _)) in Hl by lia. injection Hl as <-.
      apply Forall_cons_1 in Hh as [Hb [Hb' _]%Forall_cons_1]. split; [size_in Hb' | size_in Hb].
  - injection Hl as <-. apply Forall_cons_1 in Hh as [Ha [Hb [Hd _]%Forall_cons_1]%Forall_cons_1].
    eapply Hgo; [size_in Ha | | exact Hfrom]. intros Hi _. specialize (Hin Hi). split; [size_in Hb | size_in Hd].
  - injection Hl as <-. apply Forall_cons_1 in Hh as [Ha [Hb [Hd _]%Forall_cons_1]%Forall_cons_1].
    eapply Hgo; [size_in Ha | | exact Hfrom]. intros Hi _. specialize (Hin Hi). split; [size_in Ha | size_in Hb].
  - injection Hl as <-. apply Forall_cons_1 in Hh as [Ha [Hb [Hd _]%Forall_cons_1]%Forall_cons_1].
    eapply Hgo; [size_in Ha | | exact Hfrom]. intros Hi _. specialize (Hin Hi). split; [size_in Hd | size_in Hb].
  - injection Hl as <-. apply Forall_cons_1 in Hh as [Ha [Hb [Hd _]%Forall_cons_1]%Forall_cons_1].
    eapply Hgo; [size_in Ha | | exact Hfrom]. intros Hi _. specialize (Hin Hi). split; [size_in Hb | size_in Ha].
  - destruct (Hquart (mi_size_high sub)) as [Eq Ehq]; [lia |]. rewrite Eq in Hl. injection Hl as <-. cbn [rows_4 andb Z.ltb Z.compare] in Hh.
    apply Forall_cons_1 in Hh as [Ha Hh]. eapply Hgo; [size_in Ha | | exact Hfrom]. intros Hi _. specialize (Hin Hi).
    rewrite (proj2 (Z.leb_gt _ _)) in Hh by lia. apply Forall_cons_1 in Hh as [_ Hh].
    rewrite (proj2 (Z.leb_gt _ _)) in Hh by lia. apply Forall_cons_1 in Hh as [Hb _]. split; [size_in Ha | size_in Hb].
  - destruct (Hquart (mi_size_wide sub)) as [Eq Ehq]; [lia |]. rewrite Eq in Hl. injection Hl as <-. cbn [cols_4 andb Z.ltb Z.compare] in Hh.
    apply Forall_cons_1 in Hh as [Ha Hh]. eapply Hgo; [size_in Ha | | exact Hfrom]. intros Hi _. specialize (Hin Hi).
    rewrite (proj2 (Z.leb_gt _ _)) in Hh by lia. apply Forall_cons_1 in Hh as [_ Hh].
    rewrite (proj2 (Z.leb_gt _ _)) in Hh by lia. apply Forall_cons_1 in Hh as [Hb _]. split; [size_in Hb | size_in Ha].
Qed.

Lemma ordered_within r c h w l : forall done_ b y x, ordered fs r c h w done_ l -> In b l -> cell_in b y x ->
  r <= y < r + h /\ c <= x < c + w.
Proof.
  induction l as [| [[br bc] bs] l IH]; intros done_ b y x Hord Hb Hi; [done |].
  destruct Hord as ((? & ? & ? & ?) & _ & Hord). destruct Hb as [<- | Hb]; [unfold cell_in in Hi; lia | by eapply IH].
Qed.

(** A cut that is found in one grid is found in another with the same cells. *)
Lemma partitioned_ext g g' r c bsize l : square_at r c bsize ->
  (forall y x, in_frame fs y x -> in_square r c bsize y x -> mi_at g' y x = mi_at g y x) ->
  partitioned g r c bsize l -> partitioned g' r c bsize l.
Proof.
  intros Hsq Hext Hp. induction Hp as [r c bsize Hout | r c bsize p sub l Hir Hic Hall Hsub Hch Hl Hh |
    r c bsize sub l1 l2 l3 l4 Hir Hic Hall Hsub Hch hbs H1 IH1 H2 IH2 H3 IH3 H4 IH4].
  - by apply partitioned_outside.
  - eapply partitioned_blocks; try done. destruct (blocks_fit fs r c bsize p sub l Hsq Hir Hic Hall Hsub Hl) as (Hord & _ & _).
    apply Forall_forall. intros b Hb. rewrite Forall_forall in Hh. pose proof (Hh b Hb) as Hhb. destruct b as [[br bc] bs]. destruct Hhb as (b & Eb & HP & Hcell).
    exists b. split_and!; try done. intros y x Hf Hi. rewrite Hext; [by apply Hcell | done |]. by eapply ordered_within.
  - destruct (split_log2 bsize sub Hsub) as (_ & Hw & Eh & H1w & _). unfold hbs in *. rewrite Eh in *.
    destruct (quarters_at r c bsize sub Hsq Hsub) as (Q1 & Q2 & Q3 & Q4).
    eapply (partitioned_split _ _ _ _ sub); try done; rewrite ?Eh; [apply IH1 | apply IH2 | apply IH3 | apply IH4]; try done;
      intros y x Hf Hi; (apply Hext; [done | unfold in_square in *; lia]).
Qed.

(** Every cell of the square that is in the frame is in a block of the cut. *)
Lemma partitioned_covers g r c bsize l y x : square_at r c bsize -> partitioned g r c bsize l -> in_frame fs y x -> in_square r c bsize y x ->
  exists b, In b l /\ cell_in b y x /\ holds g b.
Proof.
  intros Hsq Hp Hf. induction Hp as [r c bsize Hout | r c bsize p sub l Hir Hic Hall Hsub Hch Hl Hh |
    r c bsize sub l1 l2 l3 l4 Hir Hic Hall Hsub Hch hbs H1 IH1 H2 IH2 H3 IH3 H4 IH4]; intros [Hy Hx].
  - unfold in_frame in Hf. lia.
  - destruct (blocks_fit fs r c bsize p sub l Hsq Hir Hic Hall Hsub Hl) as (_ & Hcov & _).
    pose proof (Hcov y x Hf Hy Hx) as He. apply Exists_exists in He as (b & Hb & Hi). exists b. split_and!; try done.
    rewrite Forall_forall in Hh. by apply Hh.
  - destruct (split_log2 bsize sub Hsub) as (_ & Hw & Eh & H1w & _). unfold hbs in *. rewrite Eh in *.
    destruct (quarters_at r c bsize sub Hsq Hsub) as (Q1 & Q2 & Q3 & Q4).
    assert (in_square r c sub y x \/ in_square r (c + mi_size_wide sub) sub y x \/ in_square (r + mi_size_wide sub) c sub y x \/
      in_square (r + mi_size_wide sub) (c + mi_size_wide sub) sub y x) as [Hi | [Hi | [Hi | Hi]]] by (unfold in_square; lia);
      [destruct (IH1 Q1 Hi) as (b & Hb & ?) | destruct (IH2 Q2 Hi) as (b & Hb & ?) | destruct (IH3 Q3 Hi) as (b & Hb & ?) | destruct (IH4 Q4 Hi) as (b & Hb & ?)];
      exists b; (split; [rewrite !in_app_iff; tauto | done]).
Qed.

Lemma partitioned_holds g r c bsize l : partitioned g r c bsize l -> Forall (holds g) l.
Proof. induction 1; [constructor | done |]. by repeat (apply Forall_app; split). Qed.

(** Blocks of a cut stay in its square. *)
Lemma partitioned_within g r c bsize l b : square_at r c bsize -> partitioned g r c bsize l -> In b l ->
  forall y x, cell_in b y x -> in_square r c bsize y x.
Proof.
  intros Hsq Hp. induction Hp as [r c bsize Hout | r c bsize p sub l Hir Hic Hall Hsub Hch Hl Hh |
    r c bsize sub l1 l2 l3 l4 Hir Hic Hall Hsub Hch hbs H1 IH1 H2 IH2 H3 IH3 H4 IH4]; intros Hb y x Hi.
  - done.
  - destruct (blocks_fit fs r c bsize p sub l Hsq Hir Hic Hall Hsub Hl) as (Hord & _ & _). by eapply ordered_within.
  - destruct (split_log2 bsize sub Hsub) as (_ & Hw & Eh & H1w & _). unfold hbs in *. rewrite Eh in *.
    destruct (quarters_at r c bsize sub Hsq Hsub) as (Q1 & Q2 & Q3 & Q4). rewrite !in_app_iff in Hb.
    destruct Hb as [Hb | [Hb | [Hb | Hb]]];
      [specialize (IH1 Q1 Hb y x Hi) | specialize (IH2 Q2 Hb y x Hi) | specialize (IH3 Q3 Hb y x Hi) | specialize (IH4 Q4 Hb y x Hi)];
      unfold in_square in *; lia.
Qed.

Lemma disjoint_app l1 l2 : disjoint_blocks l1 -> disjoint_blocks l2 ->
  (forall b1 b2 y x, In b1 l1 -> In b2 l2 -> cell_in b1 y x -> ~ cell_in b2 y x) -> disjoint_blocks (l1 ++ l2).
Proof.
  induction l1 as [| b l1 IH]; intros H1 H2 H12; [done |]. destruct H1 as [Hb H1]. split.
  - intros y x Hi He. apply Exists_app in He as [He | He]; [by apply (Hb y x) |].
    apply Exists_exists in He as (b' & Hb' & Hi'). apply (H12 b b' y x); (done || by left).
  - apply IH; [done | done |]. intros b1 b2 y x Hb1. apply H12. by right.
Qed.

(** No cell is in two blocks of a cut. *)
Lemma partitioned_disjoint g r c bsize l : square_at r c bsize -> partitioned g r c bsize l -> disjoint_blocks l.
Proof.
  intros Hsq Hp. induction Hp as [r c bsize Hout | r c bsize p sub l Hir Hic Hall Hsub Hch Hl Hh |
    r c bsize sub l1 l2 l3 l4 Hir Hic Hall Hsub Hch hbs H1 IH1 H2 IH2 H3 IH3 H4 IH4].
  - done.
  - by destruct (blocks_fit fs r c bsize p sub l Hsq Hir Hic Hall Hsub Hl) as (_ & _ & ?).
  - destruct (split_log2 bsize sub Hsub) as (_ & Hw & Eh & H1w & _). unfold hbs in *. rewrite Eh in *.
    destruct (quarters_at r c bsize sub Hsq Hsub) as (Q1 & Q2 & Q3 & Q4).
    pose proof (fun b => partitioned_within g _ _ _ _ b Q1 H1) as W1. pose proof (fun b => partitioned_within g _ _ _ _ b Q2 H2) as W2.
    pose proof (fun b => partitioned_within g _ _ _ _ b Q3 H3) as W3. pose proof (fun b => partitioned_within g _ _ _ _ b Q4 H4) as W4.
    unfold in_square in W1, W2, W3, W4.
    apply disjoint_app; [by apply IH1 | apply disjoint_app; [by apply IH2 | apply disjoint_app; [by apply IH3 | by apply IH4 |] |] |];
      intros b1 b2 y x Hb1 Hb2 Hi1 Hi2; rewrite ?in_app_iff in Hb2.
    + specialize (W3 b1 Hb1 y x Hi1). specialize (W4 b2 Hb2 y x Hi2). lia.
    + specialize (W2 b1 Hb1 y x Hi1). destruct Hb2 as [Hb2 | Hb2]; [specialize (W3 b2 Hb2 y x Hi2) | specialize (W4 b2 Hb2 y x Hi2)]; lia.
    + specialize (W1 b1 Hb1 y x Hi1). destruct Hb2 as [Hb2 | [Hb2 | Hb2]];
        [specialize (W2 b2 Hb2 y x Hi2) | specialize (W3 b2 Hb2 y x Hi2) | specialize (W4 b2 Hb2 y x Hi2)]; lia.
Qed.
End Partitioned.

(** ** Superblocks of a tile *)

Section TileShape.
Context (fs : frame_size) (tile : TileInfo) (sb_size : BLOCK_SIZE) (sb_mib_log2 : Z).

#[local] Abbreviation mib := (sb_mib sb_size).

Record tile_shape : Prop := {
  ts_start : 0 <= mi_row_start tile /\ 0 <= mi_col_start tile;
  ts_size : sb_size = BLOCK_64X64 /\ sb_mib_log2 = 4 \/ sb_size = BLOCK_128X128 /\ sb_mib_log2 = 5;
  ts_aligned : mi_row_start tile mod mib = 0 /\ mi_col_start tile mod mib = 0;
  ts_rows : mi_row_start tile < mi_row_end tile <= fs_mi_rows fs;
  ts_cols : mi_col_start tile < mi_col_end tile <= fs_mi_cols fs }.

Context (Hshape : tile_shape).

Definition sb_rows : nat := sb_count (mi_row_start tile) (mi_row_end tile) sb_mib_log2.
Definition sb_cols : nat := sb_count (mi_col_start tile) (mi_col_end tile) sb_mib_log2.

(** The corner of a superblock of the tile. *)
Definition sb_at (r c : Z) : Prop :=
  exists i j, 0 <= i < Z.of_nat sb_rows /\ 0 <= j < Z.of_nat sb_cols /\ r = mi_row_start tile + i * mib /\ c = mi_col_start tile + j * mib.

Lemma mib_side : mib = 16 /\ mi_size_wide_log2 sb_size = 4 \/ mib = 32 /\ mi_size_wide_log2 sb_size = 5.
Proof. destruct (ts_size Hshape) as [[-> _] | [-> _]]; [by left | by right]. Qed.

Lemma sb_square r c : sb_at r c -> square_at r c sb_size /\ mi_row_start tile <= r /\ mi_col_start tile <= c.
Proof.
  intros (i & j & Hi & Hj & -> & ->). destruct (ts_aligned Hshape) as [Ar Ac]. destruct (ts_start Hshape).
  assert (is_Some (get_sqr_bsize_idx sb_size)) by (destruct (ts_size Hshape) as [[-> _] | [-> _]]; by eexists).
  destruct mib_side as [[E1 _] | [E1 _]]; rewrite E1 in *; (split; [split; [done | lia | fold mib; rewrite E1, !Z.mod_add by lia; done] | lia]).
Qed.

Lemma other_square r c r' c' y x : sb_at r c -> sb_at r' c' -> (r', c') <> (r, c) -> in_square r' c' sb_size y x -> ~ in_square r c sb_size y x.
Proof.
  intros (i & j & Hi & Hj & -> & ->) (i' & j' & Hi' & Hj' & -> & ->) Hne [Hy Hx] [Hy' Hx']. fold mib in *.
  assert (1 <= mib) by (destruct mib_side as [[-> _] | [-> _]]; lia).
  assert (i = i') by nia. assert (j = j') by nia. subst. done.
Qed.

Lemma zero_left_ok x : pctx_ok fs x -> pctx_ok fs (av1_zero_left_context x).
Proof. intros [_ Ha [_ Ra]]. split; [done | done |]. split; [| done]. apply Forall_replicate. lia. Qed.

(** The arrays above cover the tile, and nothing of them is left of what was there before. *)
Lemma zero_above_ok x : pctx_ok fs x ->
  exists x', av1_zero_above_context tile sb_mib_log2 x = Some x' /\ pctx_ok fs x' /\
    length (above_partition_context x') = length (above_partition_context x) /\
    forall k, 0 <= k -> nthz (above_partition_context x') k =
      if (mi_col_start tile <=? k) && (k <? mi_col_start tile + Z.of_nat sb_cols * mib) then 0 else nthz (above_partition_context x) k.
Proof.
  intros [Hl [Ha1 Ha2] [Rl Ra]]. unfold av1_zero_above_context, ALIGN_POWER_OF_TWO.
  destruct (ts_aligned Hshape) as [_ Ac]. destruct (ts_cols Hshape) as [Hc1 Hc2]. destruct (ts_start Hshape) as [_ Ht].
  assert (0 <= sb_mib_log2 /\ mib = 2 ^ sb_mib_log2) as [H0 Em] by (destruct (ts_size Hshape) as [[-> ->] | [-> ->]]; done).
  assert (exists q, mib * q = 32) as [q Hq] by (destruct mib_side as [[-> _] | [-> _]]; [by exists 2 | by exists 1]).
  rewrite Z.shiftl_1_l, align_down by done.
  set (len := Z.of_nat (length (above_partition_context x))) in *.
  set (w := mi_col_end tile - mi_col_start tile) in *.
  assert ((w + (2 ^ sb_mib_log2 - 1)) / 2 ^ sb_mib_log2 * 2 ^ sb_mib_log2 = Z.of_nat sb_cols * mib) as ->.
  { unfold sb_cols, sb_count, CEIL_POWER_OF_TWO. fold w. rewrite Z.shiftl_1_l, Z.shiftr_div_pow2 by done.
    pose proof (pow2_pos sb_mib_log2 H0). rewrite Z2Nat.id by (apply Z.div_pos; lia). by rewrite Em, Z.add_sub_assoc. }
  destruct (ceil_spec w sb_mib_log2 H0 ltac:(lia)) as (_ & Hb1 & _). rewrite <- Em in Hb1.
  assert (mi_col_start tile + Z.of_nat sb_cols * mib <= len).
  { unfold sb_cols, sb_count. fold w. set (k := CEIL_POWER_OF_TWO w sb_mib_log2) in *.
    assert (0 <= k) by (unfold k; destruct (ceil_spec w sb_mib_log2 H0 ltac:(lia)); lia). rewrite Z2Nat.id by done.
    apply Z.div_exact in Ac; [| destruct mib_side as [[-> _] | [-> _]]; lia]. apply Z.div_exact in Ha2; [| lia].
    set (a := mi_col_start tile / mib) in *. set (b := len / 32) in *. rewrite Ac, Ha2 in *. rewrite <- Hq in *.
    assert (1 <= mib) by (destruct mib_side as [[-> _] | [-> _]]; lia).
    assert ((a + (k - 1)) * mib < (q * b) * mib) as Hlt by lia. apply Z.mul_lt_mono_pos_r in Hlt; [| lia].
    assert ((a + k) * mib <= (q * b) * mib) by (apply Z.mul_le_mono_nonneg_r; lia). lia. }
  assert (0 <= Z.of_nat sb_cols * mib) by (apply Z.mul_nonneg_nonneg; [lia | destruct mib_side as [[-> _] | [-> _]]; lia]).
  destruct (memset_ok (above_partition_context x) (mi_col_start tile) 0 (Z.of_nat sb_cols * mib)) as (p & Ep & L & N); [lia .. |].
  destruct (memset_range (fun v => 0 <= v < 32) (above_partition_context x) (mi_col_start tile) 0 (Z.of_nat sb_cols * mib))
    as (p' & Ep' & _ & Rp); [lia | lia | lia | done | lia |].
  rewrite Ep in Ep'. injection Ep' as <-. rewrite Ep. cbn [mbind option_bind]. eexists. split; [reflexivity |].
  cbn [above_partition_context left_partition_context]. split; [| done]. unfold len in *. split; cbn; rewrite ?L; done.
Qed.

Lemma rows_ge_1 : (1 <= sb_rows)%nat.
Proof.
  destruct (ts_rows Hshape). unfold sb_rows, sb_count. destruct (ceil_spec (mi_row_end tile - mi_row_start tile) sb_mib_log2); [| lia | lia].
  destruct (ts_size Hshape) as [[_ ->] | [_ ->]]; lia.
Qed.

Lemma tile_covered y x : in_tile tile y x -> in_frame fs y x /\
  y < mi_row_start tile + Z.of_nat sb_rows * mib /\ x < mi_col_start tile + Z.of_nat sb_cols * mib.
Proof.
  intros [Hy Hx]. destruct (ts_start Hshape), (ts_rows Hshape), (ts_cols Hshape).
  assert (0 <= sb_mib_log2 /\ mib = 2 ^ sb_mib_log2) as [Hm Em] by (destruct (ts_size Hshape) as [[-> ->] | [-> ->]]; done).
  destruct (ceil_spec (mi_row_end tile - mi_row_start tile) sb_mib_log2 Hm) as (? & _ & Hr); [lia |].
  destruct (ceil_spec (mi_col_end tile - mi_col_start tile) sb_mib_log2 Hm) as (? & _ & Hc); [lia |].
  unfold in_frame, sb_rows, sb_cols, sb_count. rewrite !Z2Nat.id, Em by lia. lia.
Qed.


(** Every cell of the tile is in one of its superblocks. *)
Lemma in_some_square y x : in_tile tile y x -> exists r c, sb_at r c /\ in_frame fs y x /\ in_square r c sb_size y x.
Proof.
  intros Hi. destruct (tile_covered y x Hi) as (Hf & Hy & Hx). destruct Hi as [Hy1 Hx1].
  assert (1 <= mib) as Hm by (destruct mib_side as [[-> _] | [-> _]]; lia).
  pose proof (Z.div_mod (y - mi_row_start tile) mib ltac:(lia)) as Eu. pose proof (Z.mod_pos_bound (y - mi_row_start tile) mib ltac:(lia)).
  pose proof (Z.div_mod (x - mi_col_start tile) mib ltac:(lia)) as Ev. pose proof (Z.mod_pos_bound (x - mi_col_start tile) mib ltac:(lia)).
  set (u := (y - mi_row_start tile) / mib) in *. set (v := (x - mi_col_start tile) / mib) in *.
  exists (mi_row_start tile + u * mib), (mi_col_start tile + v * mib). split; [| split; [done | unfold in_square; fold mib; lia]].
  exists u, v. split_and!; try done; try (apply Z.div_pos; lia); apply (Z.mul_lt_mono_pos_r mib); lia.
Qed.
End TileShape.
