(* ===== verification/PartitionProof.v ===== *)
(** * Superblocks survive

    The theorems about [PartitionTree]: the round trip of a superblock and of a tile for any
    block coder, what the decoder does on arbitrary data, and the second pass of the
    decoder. *)

From S2P Require Import Prelude CodecTypes BitChannel EntCoder RangeSpec Cdf EntEncProof EntDecProof EntRoundTrip SymbolIO SyntaxIO TileSafety TxCommon Tile TxbContext DefaultCdfs FrameContext Partition PartitionTree.

#[local] Open Scope Z_scope.
#[local] Arguments Z.of_nat : simpl never.
#[local] Arguments Z.mul : simpl never.

#[local] Abbreviation tile_writer := (writer (aom_writer * cdfs fc_key)).
#[local] Abbreviation tile_reader := (reader (aom_reader * cdfs fc_key)).

Lemma enc_dec_blocks fs r c bsize p sub l : get_partition_subsize bsize p = Some sub ->
  dec_blocks fs r c bsize p sub (get_partition_subsize bsize PARTITION_SPLIT) = Some l -> enc_blocks fs r c bsize p = Some (fst <$> l).
Proof.
  intros Hsub Hl. unfold dec_blocks in Hl. unfold enc_blocks. rewrite Z.shiftr_div_pow2 in Hl by lia. change (2 ^ 1) with 2 in Hl.
  assert (forall n i q, fst <$> rows_4 fs n i r c q bsize = fst <$> rows_4 fs n i r c q sub) as Hrows.
  { induction n as [| n IH]; intros i q; cbn [rows_4]; [done |]. destruct (_ && _); [done |]. rewrite !fmap_cons. by rewrite IH. }
  assert (forall n i q, fst <$> cols_4 fs n i r c q bsize = fst <$> cols_4 fs n i r c q sub) as Hcols.
  { induction n as [| n IH]; intros i q; cbn [cols_4]; [done |]. destruct (_ && _); [done |]. rewrite !fmap_cons. by rewrite IH. }
  destruct p; try discriminate Hl;
    try (destruct (get_partition_subsize bsize PARTITION_SPLIT); [| discriminate Hl]; cbn [mbind option_bind] in Hl); injection Hl as <-;
    rewrite ?Hrows, ?Hcols; try done; by destruct (_ <? _).
Qed.

(** ** The promise of a block coder *)

Definition sites_same {B} (same : B -> B -> Prop) (s t : block_site B) : Prop :=
  bs_row t = bs_row s /\ bs_col t = bs_col s /\ option_Forall2 same (bs_above s) (bs_above t) /\
  option_Forall2 same (bs_left s) (bs_left t) /\ option_Forall2 same (bs_above_left s) (bs_above_left t).

Class BlockCoderOk (B E D : Type) `{BlockCoder B E D} (al : allocator) (adaptive : bool) (fs : frame_size) := {
  (** What the two sides keep belongs together. *)
  in_step : E -> D -> Prop;
  (** Two descriptions of the same block. *)
  same : B -> B -> Prop;
  (** Blocks that can be sent from a position. *)
  block_ok : Z -> Z -> B -> Prop;
  block_cost : Z;
  units_cost : Z;
  costs_ok : 0 <= block_cost /\ 0 <= units_cost;
  same_bsize : forall b b', same b b' -> bsize_of b' = bsize_of b;
  tile_start_in_step : forall e d, in_step e d -> in_step (enc_tile_start e) (dec_tile_start d);
  row_start_in_step : forall e d, in_step e d -> in_step (enc_row_start e) (dec_row_start d);
  units_transfer : forall e d r c bsize, in_step e d -> square_at r c bsize -> r < fs_mi_rows fs -> c < fs_mi_cols fs ->
    exists e' d', in_step e' d' /\ transfers al adaptive units_cost (write_units al e r c bsize) (read_units d r c bsize) e' d';
  block_transfer : forall e d s t b p, in_step e d -> sites_same same s t -> site_within s -> in_frame fs (bs_row s) (bs_col s) ->
    block_ok (bs_row s) (bs_col s) b ->
    exists e' d' b', in_step e' d' /\ same b b' /\
      transfers al adaptive block_cost (write_modes_b al e s b) (parse_block d t p (bsize_of b)) e' (d', b') }.

Section RoundTrip.
Context {B E D : Type} `{Hcoder : BlockCoder B E D}.
Context (al : allocator) (Hal : grants_all al) (adaptive : bool) (fs : frame_size) (tile : TileInfo) (ss_x ss_y : bool).
Context `{Hok : !BlockCoderOk B E D al adaptive fs}.
Context (Hfs : frame_even fs) (Htile : 0 <= mi_row_start tile /\ 0 <= mi_col_start tile).

#[local] Abbreviation transfers := (transfers al adaptive).
#[local] Abbreviation holds := (holds bsize_of fs).
#[local] Abbreviation partitioned := (partitioned bsize_of fs ss_x ss_y).

(** The encoder's grid. *)
Context (ge : mode_grid B).

(** A cell that both sides know, and know alike. *)
Definition agree (gd : mode_grid B) (y x : Z) : Prop :=
  exists b b', mi_at ge y x = Some b /\ mi_at gd y x = Some b' /\ same b b'.

Definition in_scope (y x : Z) : Prop := in_frame fs y x /\ mi_row_start tile <= y /\ mi_col_start tile <= x.

Definition border_agrees (gd : mode_grid B) (r c h w : Z) : Prop :=
  forall y x, in_scope y x -> border r c h w y x -> agree gd y x.

Lemma neighbor_agree gd (available : bool) y x : (available = true -> agree gd y x) ->
  exists o o', neighbor available (mi_at ge y x) = Some o /\ neighbor available (mi_at gd y x) = Some o' /\ option_Forall2 same o o'.
Proof.
  intros Ha. unfold neighbor. destruct available; [| exists None, None; split_and!; by constructor].
  destruct (Ha eq_refl) as (b & b' & -> & -> & Hs). exists (Some b), (Some b'). cbn [mbind option_bind]. split_and!; by constructor.
Qed.

Lemma site_agree gd r c h w : 0 < h -> 0 < w -> in_scope r c -> border_agrees gd r c h w ->
  exists s t, site_at tile ge r c = Some s /\ site_at tile gd r c = Some t /\ sites_same same s t /\ bs_row s = r /\ bs_col s = c.
Proof.
  intros Hh Hw ([Hr Hc] & Hr1 & Hc1) Hb. unfold site_at.
  assert (forall y x, in_frame fs y x -> mi_row_start tile <= y -> mi_col_start tile <= x -> border r c h w y x -> agree gd y x) as Hb'
    by (intros y x Hf H1 H2; apply Hb; by split).
  destruct (neighbor_agree gd (mi_row_start tile <? r) (r - 1) c) as (a & a' & -> & -> & Ha).
  { intros E1%Z.ltb_lt. apply Hb'; unfold in_frame, border; lia. }
  destruct (neighbor_agree gd (mi_col_start tile <? c) r (c - 1)) as (l & l' & -> & -> & Hl).
  { intros E1%Z.ltb_lt. apply Hb'; unfold in_frame, border; lia. }
  destruct (neighbor_agree gd ((mi_row_start tile <? r) && (mi_col_start tile <? c)) (r - 1) (c - 1)) as (q & q' & -> & -> & Hq).
  { intros [E1%Z.ltb_lt E2%Z.ltb_lt]%andb_true_iff. apply Hb'; unfold in_frame, border; lia. }
  cbn [mbind option_bind]. eexists _, _. split; [done |]. split; [done |]. split; [| done]. unfold sites_same. cbn. done.
Qed.

(** ** A run of blocks *)

Lemma transfers_blocks p r c h w : mi_row_start tile <= r -> mi_col_start tile <= c -> forall l gd e d done_,
  ordered fs r c h w done_ l -> disjoint_blocks l -> Forall (holds block_ok ge) l -> in_step e d -> grid_ok fs gd ->
  border_agrees gd r c h w -> (forall y x, in_frame fs y x -> Exists (fun b => cell_in b y x) done_ -> agree gd y x) ->
  exists e' gd' d', in_step e' d' /\ grid_ok fs gd' /\
    transfers (block_cost * Z.of_nat (length l)) (write_blocks tile al ge e (fst <$> l)) (parse_blocks fs tile gd d p l) e' (gd', d') /\
    (forall y x, in_frame fs y x -> Exists (fun b => cell_in b y x) l -> agree gd' y x) /\
    (forall y x, in_frame fs y x -> ~ Exists (fun b => cell_in b y x) l -> mi_at gd' y x = mi_at gd y x) /\
    Forall (holds (fun _ _ _ => True) gd') l.
Proof.
  intros Htr Htc. induction l as [| [[br bc] bs] l IH]; intros gd e d done_ Hord Hdis Hh Hst Hg Hb Hdone.
  - exists e, gd, d. split_and!; try done.
    + rewrite Z.mul_0_r. apply transfers_ret.
    + intros y x _ Hx. by apply Exists_nil in Hx.
  - destruct Hord as ((Hr & Hc & Hbr & Hbc) & Hbord & Hord). destruct Hdis as [Hd1 Hdis].
    apply Forall_cons_1 in Hh as [(b & Eb & Hbok & Hcell) Hh].
    assert (0 < mi_size_high bs /\ 0 < mi_size_wide bs) as [Hh0 Hw0] by (destruct bs; cbn; lia).
    assert (in_scope br bc) as Hsc by (unfold in_scope, in_frame; lia).
    assert (border_agrees gd br bc (mi_size_high bs) (mi_size_wide bs)) as Hba.
    { intros y x Hs Hy. destruct (Hbord y x (proj1 Hs) Hy); [by apply Hb | by apply Hdone; [apply Hs |]]. }
    destruct (site_agree gd br bc _ _ Hh0 Hw0 Hsc Hba) as (s & t & Es & Et & Hst' & Er & Ec).
    destruct (site_at_within tile ge br bc s Htile Es) as [Hwi _].
    destruct (block_transfer e d s t b p Hst Hst' Hwi) as (e1 & d1 & b' & Hst1 & Hsame & T1).
    { rewrite Er, Ec. apply Hsc. }
    { by rewrite Er, Ec. }
    rewrite Eb in T1. destruct (set_mi_ok fs gd br bc bs b' Hg (proj1 Hsc)) as (g1 & Eg1 & Hg1 & Hz).
    destruct (IH g1 e1 d1 (done_ ++ [(br, bc, bs)])) as (e' & gd' & d' & Hst2 & Hg2 & T2 & Hag & Hun & Hhd); try done.
    { intros y x Hs Hy. destruct (Hb y x Hs Hy) as (u & u' & Eu & Eu' & Hu). exists u, u'. split_and!; try done.
      rewrite (proj2 (Hz y x (proj1 Hs))); [done |]. unfold border, cell_in in *. lia. }
    { intros y x Hf He. destruct (decide (br <= y < br + mi_size_high bs)); [destruct (decide (bc <= x < bc + mi_size_wide bs)) |].
      - exists b, b'. split_and!; [by apply Hcell | by apply Hz | done].
      - rewrite Exists_app, Exists_cons, Exists_nil in He. unfold cell_in in He at 2.
        destruct (Hdone y x Hf) as (u & u' & Eu & Eu' & Hu); [tauto |]. exists u, u'. split_and!; try done.
        rewrite (proj2 (Hz y x Hf)); [done | unfold cell_in; lia].
      - rewrite Exists_app, Exists_cons, Exists_nil in He. unfold cell_in in He at 2.
        destruct (Hdone y x Hf) as (u & u' & Eu & Eu' & Hu); [tauto |]. exists u, u'. split_and!; try done.
        rewrite (proj2 (Hz y x Hf)); [done | unfold cell_in; lia]. }
    assert (forall y x, in_frame fs y x -> cell_in (br, bc, bs) y x -> mi_at gd' y x = Some b') as Hkeep.
    { intros y x Hf Hi. rewrite (Hun y x Hf (Hd1 y x Hi)). by apply (Hz y x Hf). }
    exists e', gd', d'. split_and!; try done.
    + cbn [length]. rewrite fmap_cons. cbn [fst write_blocks parse_blocks].
      replace (block_cost * Z.of_nat (S (length l))) with (block_cost + block_cost * Z.of_nat (length l)) by lia.
      rewrite Es, Et, w_lift_some, r_lift_some. rewrite (Hcell br bc) by (unfold in_frame, cell_in in *; lia || apply Hsc).
      rewrite w_lift_some. eapply transfers_bind; [exact T1 |]. cbv beta iota. by rewrite Eg1, r_lift_some.
    + intros y x Hf He. apply Exists_cons in He as [Hi | He]; [| by apply Hag].
      exists b, b'. split_and!; [by apply Hcell | by apply Hkeep | done].
    + intros y x Hf He. rewrite Exists_cons in He. rewrite Hun by tauto. apply (Hz y x Hf). tauto.
    + apply Forall_cons_2; [| done]. exists b'. split_and!; [by rewrite (same_bsize b b') | done | done].
Qed.

(** ** A square *)

(** Events of a square of [n] by [n] cells. *)
Definition square_cost (n : Z) : Z := (block_cost + 2 * (1 + units_cost)) * (n * n) - (1 + units_cost).

Lemma blocks_few r c bsize p sub l : is_Some (get_sqr_bsize_idx bsize) -> get_partition_subsize bsize p = Some sub ->
  dec_blocks fs r c bsize p sub (get_partition_subsize bsize PARTITION_SPLIT) = Some l ->
  Z.of_nat (length l) <= mi_size_wide bsize * mi_size_wide bsize.
Proof.
  intros [i Hi] Hsub Hl. assert (length l <= 4)%nat as H4.
  { unfold dec_blocks in Hl. destruct p; try discriminate Hl;
      try (destruct (get_partition_subsize bsize PARTITION_SPLIT); [| discriminate Hl]; cbn [mbind option_bind] in Hl); injection Hl as <-;
      cbn [rows_4 cols_4]; repeat match goal with |- context [if ?b then _ else _] => destruct b end; cbn [length]; lia. }
  destruct (Z.eq_dec (mi_size_wide bsize) 1) as [E1 | E1].
  - destruct bsize; try discriminate Hi; try discriminate E1. destruct p; try discriminate Hsub. injection Hl as <-. cbn. lia.
  - assert (2 <= mi_size_wide bsize) by (destruct bsize; try discriminate Hi; cbn in *; lia). nia.
Qed.

Lemma agree_keep gd gd' y x : mi_at gd' y x = mi_at gd y x -> agree gd y x -> agree gd' y x.
Proof. intros Eq (b & b' & ? & ? & ?). exists b, b'. by rewrite Eq. Qed.

(** What is known of the two sides after a square. *)
Record square_sent (r c : Z) (bsize : BLOCK_SIZE) (l : list placed) (gd : mode_grid B) (x' : partition_ctx) (e' : E)
    (gd' : mode_grid B) (d' : D) : Prop := {
  ss_ctx : pctx_ok fs x';
  ss_step : in_step e' d';
  ss_grid : grid_ok fs gd';
  ss_inside : forall y x, in_frame fs y x -> in_square r c bsize y x -> agree gd' y x;
  ss_outside : forall y x, in_frame fs y x -> ~ in_square r c bsize y x -> mi_at gd' y x = mi_at gd y x;
  ss_parts : partitioned (fun _ _ _ => True) gd' r c bsize l }.
#[local] Arguments ss_ctx {_ _ _ _ _ _ _ _ _} _.
#[local] Arguments ss_step {_ _ _ _ _ _ _ _ _} _.
#[local] Arguments ss_grid {_ _ _ _ _ _ _ _ _} _.
#[local] Arguments ss_inside {_ _ _ _ _ _ _ _ _} _.
#[local] Arguments ss_outside {_ _ _ _ _ _ _ _ _} _.
#[local] Arguments ss_parts {_ _ _ _ _ _ _ _ _} _.

Definition square_transfers (fuel : nat) (r c : Z) (bsize : BLOCK_SIZE) (l : list placed) (gd : mode_grid B) (x : partition_ctx)
    (e : E) (d : D) : Prop :=
  exists x' e' gd' d', square_sent r c bsize l gd x' e' gd' d' /\
    transfers (square_cost (mi_size_wide bsize)) (write_modes_sb fs tile al ge fuel x e r c bsize)
      (decode_partition fs tile ss_x ss_y fuel x gd d r c bsize) (x', e') (x', gd', d').

(** A later square leaves an earlier one as it is. *)
Lemma sent_keep r c bsize l gd x' e' gd' d' r2 c2 bsize2 l2 x2 e2 gd2 d2 : square_at r c bsize ->
  square_sent r c bsize l gd x' e' gd' d' -> square_sent r2 c2 bsize2 l2 gd' x2 e2 gd2 d2 ->
  (forall y x, in_square r c bsize y x -> ~ in_square r2 c2 bsize2 y x) ->
  partitioned (fun _ _ _ => True) gd2 r c bsize l /\ (forall y x, in_frame fs y x -> in_square r c bsize y x -> agree gd2 y x).
Proof.
  intros Hsq [_ _ _ Hin _ Hp] [_ _ _ _ Hout _] Hdis. split.
  - eapply partitioned_ext; [done | | exact Hp]. intros y x Hf Hi. apply Hout; [done | by apply Hdis].
  - intros y x Hf Hi. eapply agree_keep; [apply Hout; [done | by apply Hdis] | by apply Hin].
Qed.

Lemma square_cost_split n : 1 <= n -> units_cost + (1 + (square_cost n + (square_cost n + (square_cost n + square_cost n)))) <= square_cost (2 * n).
Proof. destruct costs_ok. intros Hn. unfold square_cost. nia. Qed.

Lemma square_cost_blocks n k : 1 <= n -> k <= n * n -> units_cost + (1 + block_cost * k) <= square_cost n.
Proof.
  destruct costs_ok. intros Hn Hk. unfold square_cost. assert (block_cost * k <= block_cost * (n * n)) by (apply Z.mul_le_mono_nonneg_l; lia).
  assert (1 <= n * n) by nia. assert (1 + units_cost <= (1 + units_cost) * (n * n)) by nia. lia.
Qed.

(** The four quarters of a split. *)
Lemma transfers_split fuel r c bsize sub l1 l2 l3 l4 gd x e d :
  (forall r c l gd e d x, square_at r c sub -> mi_row_start tile <= r -> mi_col_start tile <= c -> partitioned block_ok ge r c sub l ->
     pctx_ok fs x -> in_step e d -> grid_ok fs gd -> border_agrees gd r c (mi_size_wide sub) (mi_size_wide sub) ->
     square_transfers fuel r c sub l gd x e d) ->
  square_at r c bsize -> r < fs_mi_rows fs -> c < fs_mi_cols fs -> mi_row_start tile <= r -> mi_col_start tile <= c ->
  get_partition_subsize bsize PARTITION_SPLIT = Some sub -> partition_allowed fs r c bsize PARTITION_SPLIT ->
  chroma_valid ss_x ss_y sub ->
  let h := mi_size_wide sub in
  partitioned block_ok ge r c sub l1 -> partitioned block_ok ge r (c + h) sub l2 -> partitioned block_ok ge (r + h) c sub l3 ->
  partitioned block_ok ge (r + h) (c + h) sub l4 ->
  pctx_ok fs x -> in_step e d -> grid_ok fs gd -> border_agrees gd r c (2 * h) (2 * h) ->
  exists x' e' gd' d', square_sent r c bsize (l1 ++ l2 ++ l3 ++ l4) gd x' e' gd' d' /\
    transfers (square_cost h + (square_cost h + (square_cost h + square_cost h)))
      ('(x, e) ← write_modes_sb fs tile al ge fuel x e r c sub;
       '(x, e) ← write_modes_sb fs tile al ge fuel x e r (c + h) sub;
       '(x, e) ← write_modes_sb fs tile al ge fuel x e (r + h) c sub;
       write_modes_sb fs tile al ge fuel x e (r + h) (c + h) sub)
      ('(x, g, d) ← decode_partition fs tile ss_x ss_y fuel x gd d r c sub;
       '(x, g, d) ← decode_partition fs tile ss_x ss_y fuel x g d r (c + h) sub;
       '(x, g, d) ← decode_partition fs tile ss_x ss_y fuel x g d (r + h) c sub;
       decode_partition fs tile ss_x ss_y fuel x g d (r + h) (c + h) sub) (x', e') (x', gd', d').
Proof.
  intros IH Hsq Hir Hic Htr Htc Hsub Hall Hch h H1 H2 H3 H4 Hx Hst Hg Hb.
  destruct (split_log2 bsize sub Hsub) as (_ & Hw & Eh & Hh1 & _). fold h in Hw, Eh, Hh1.
  destruct (quarters_at r c bsize sub Hsq Hsub) as (Q1 & Q2 & Q3 & Q4). fold h in Q2, Q3, Q4.
  destruct (IH r c l1 gd e d x Q1 ltac:(lia) ltac:(lia) H1 Hx Hst Hg) as (x1 & e1 & g1 & d1 & S1 & T1).
  { intros y z Hs Hy. apply Hb; [done |]. unfold border in *. fold h in Hy. lia. }
  destruct (IH r (c + h) l2 g1 e1 d1 x1 Q2 ltac:(lia) ltac:(lia) H2 (ss_ctx S1) (ss_step S1) (ss_grid S1))
    as (x2 & e2 & g2 & d2 & S2 & T2).
  { intros y z Hs Hy. fold h in Hy. assert (border r c (2 * h) (2 * h) y z /\ ~ in_square r c sub y z \/ in_square r c sub y z) as [[Hn Ho] | Hi]
      by (unfold border, in_square in *; fold h; lia).
    - eapply agree_keep; [apply (ss_outside S1 y z); [apply Hs | done] | by apply Hb].
    - apply (ss_inside S1); [apply Hs | done]. }
  assert (Hb2 : forall y z, in_scope y z -> border r c (2 * h) (2 * h) y z -> agree g2 y z).
  { intros y z Hs Hy. eapply agree_keep; [apply (ss_outside S2 y z); [apply Hs | unfold border, in_square in *; fold h; lia] |].
    eapply agree_keep; [apply (ss_outside S1 y z); [apply Hs | unfold border, in_square in *; fold h; lia] | by apply Hb]. }
  destruct (sent_keep _ _ _ _ _ _ _ _ _ _ _ _ _ _ _ _ _ Q1 S1 S2) as [P1 A1]; [unfold in_square; fold h; lia |].
  destruct (IH (r + h) c l3 g2 e2 d2 x2 Q3 ltac:(lia) ltac:(lia) H3 (ss_ctx S2) (ss_step S2) (ss_grid S2))
    as (x3 & e3 & g3 & d3 & S3 & T3).
  { intros y z Hs Hy. fold h in Hy. assert (border r c (2 * h) (2 * h) y z \/ in_square r c sub y z) as [Hn | Hi]
      by (unfold border, in_square in *; fold h; lia); [by apply Hb2 | apply A1; [apply Hs | done]]. }
  destruct (sent_keep _ _ _ _ _ _ _ _ _ _ _ _ _ _ _ _ _ Q2 S2 S3) as [P2 A2]; [unfold in_square; fold h; lia |].
  assert (A1' : forall y z, in_frame fs y z -> in_square r c sub y z -> agree g3 y z).
  { intros y z Hf Hi. eapply agree_keep; [apply (ss_outside S3 y z); [done | unfold in_square in *; fold h in Hi |- *; lia] | by apply A1]. }
  destruct (IH (r + h) (c + h) l4 g3 e3 d3 x3 Q4 ltac:(lia) ltac:(lia) H4 (ss_ctx S3) (ss_step S3) (ss_grid S3))
    as (x4 & e4 & g4 & d4 & S4 & T4).
  { intros y z Hs Hy. fold h in Hy.
    assert (in_square r c sub y z \/ in_square r (c + h) sub y z \/ in_square (r + h) c sub y z) as [Hi | [Hi | Hi]]
      by (unfold border, in_square in *; fold h; lia);
      [by apply A1'; [apply Hs |] | by apply A2; [apply Hs |] | by apply (ss_inside S3); [apply Hs |]]. }
  destruct (sent_keep _ _ _ _ _ _ _ _ _ _ _ _ _ _ _ _ _ Q3 S3 S4) as [P3 A3]; [unfold in_square; fold h; lia |].
  assert (K : forall y z, in_frame fs y z -> in_square r c sub y z \/ in_square r (c + h) sub y z -> mi_at g4 y z = mi_at g2 y z).
  { intros y z Hf Hi. rewrite (ss_outside S4 y z Hf) by (unfold in_square in *; fold h in Hi |- *; lia).
    apply (ss_outside S3 y z Hf). unfold in_square in *; fold h in Hi |- *; lia. }
  exists x4, e4, g4, d4. split.
  - split; [apply S4 | apply S4 | apply S4 | | |].
    + intros y z Hf Hi. assert (in_square r c sub y z \/ in_square r (c + h) sub y z \/ in_square (r + h) c sub y z \/ in_square (r + h) (c + h) sub y z)
        as [Hj | [Hj | [Hj | Hj]]] by (unfold in_square in *; fold h; rewrite <- Hw in Hi; lia).
      * eapply agree_keep; [apply K; [done | by left] | by apply A1].
      * eapply agree_keep; [apply K; [done | by right] | by apply (ss_inside S2)].
      * by apply A3.
      * by apply (ss_inside S4).
    + intros y z Hf Ho. unfold in_square in Ho. rewrite <- Hw in Ho.
      rewrite (ss_outside S4 y z Hf) by (unfold in_square; fold h; lia).
      rewrite (ss_outside S3 y z Hf) by (unfold in_square; fold h; lia).
      rewrite (ss_outside S2 y z Hf) by (unfold in_square; fold h; lia).
      apply (ss_outside S1 y z Hf). unfold in_square; fold h; lia.
    + eapply (partitioned_split _ _ _ _ _ _ _ _ _ sub); try done; rewrite ?Eh.
      * eapply partitioned_ext; [done | | exact P1]. intros y z Hf Hi. apply K; [done | by left].
      * eapply partitioned_ext; [done | | exact (ss_parts S2)]. intros y z Hf Hi. apply K; [done | by right].
      * exact P3.
      * exact (ss_parts S4).
  - eapply transfers_bind; [exact T1 |]. cbv beta iota. eapply transfers_bind; [exact T2 |]. cbv beta iota.
    eapply transfers_bind; [exact T3 |]. cbv beta iota. exact T4.
Qed.

Lemma transfers_square : forall fuel r c bsize l gd e d x, mi_size_wide_log2 bsize < Z.of_nat fuel ->
  square_at r c bsize -> mi_row_start tile <= r -> mi_col_start tile <= c -> partitioned block_ok ge r c bsize l ->
  pctx_ok fs x -> in_step e d -> grid_ok fs gd -> border_agrees gd r c (mi_size_wide bsize) (mi_size_wide bsize) ->
  square_transfers fuel r c bsize l gd x e d.
Proof.
  induction fuel as [| fuel IH]; intros r c bsize l gd e d x Hf Hsq Htr Htc Hp Hx Hst Hg Hb.
  { destruct bsize; cbn in Hf; lia. }
  unfold square_transfers. cbn [write_modes_sb decode_partition]. pose proof Hsq as [Hs [Hr0 Hc0] _].
  destruct (square_side bsize Hs) as [Hside _]. assert (1 <= mi_size_wide bsize) as Hn by (unfold is_side in Hside; lia).
  destruct Hp as [r c bsize Hout | r c bsize p sub l Hir Hic Hall Hsub Hch Hl Hh | r c bsize sub l1 l2 l3 l4 Hir Hic Hall Hsub Hch hbs H1 H2 H3 H4].
  - exists x, e, gd, d. split.
    + split; try done; [| by apply partitioned_outside]. intros y z [Hy Hz] [Hy1 Hz1]. lia.
    + assert ((fs_mi_rows fs <=? r) || (fs_mi_cols fs <=? c) = true) as Eo by (rewrite orb_true_iff, !Z.leb_le; lia).
      unfold get_partition. rewrite Eo, w_lift_some. apply (transfers_le _ _ 0); [| apply transfers_ret].
      pose proof (square_cost_blocks (mi_size_wide bsize) 0 Hn ltac:(nia)). destruct costs_ok. lia.
  - rewrite (recovers_blocks _ _ _ _ r c bsize p sub l Hsq Hir Hic Hall Hsub Hl Hh), w_lift_some.
    rewrite (proj2 (Z.leb_gt _ _)), (proj2 (Z.leb_gt _ _)) by lia. cbn [orb]. rewrite Hsub, w_lift_some.
    destruct (units_transfer e d r c bsize Hst Hsq Hir Hic) as (e1 & d1 & Hst1 & T1).
    assert (p <> PARTITION_SPLIT) as Hps by (intros ->; discriminate Hl).
    destruct (blocks_fit fs r c bsize p sub l Hsq Hir Hic Hall Hsub Hl) as (Hord & Hcov & Hdis).
    destruct (transfers_blocks p r c _ _ Htr Htc l gd e1 d1 [] Hord Hdis Hh Hst1 Hg Hb) as (e2 & gd' & d2 & Hst2 & Hg2 & T2 & Hag & Hun & Hhd).
    { intros y z _ Hz. by apply Exists_nil in Hz. }
    destruct (update_ext_ok fs x r c bsize p sub Hx Hsq Hic Hsub) as (x' & Ex & Hx').
    exists x', e2, gd', d2. split.
    + split; try done.
      * intros y z Hyz [Hy Hz]. apply Hag; [done |]. by apply Hcov.
      * intros y z Hyz Ho. apply Hun; [done |]. intros Hex. apply Ho. clear -Hord Hex.
        generalize dependent (@nil placed). revert Hex. induction l as [| [[br bc] bs] l IHl]; intros Hex done_ Hord; [by apply Exists_nil in Hex |].
        destruct Hord as ((? & ? & ? & ?) & _ & Hord). apply Exists_cons in Hex as [Hc | Hex]; [unfold in_square, cell_in in *; lia | by eapply IHl].
      * by eapply partitioned_blocks.
    + eapply transfers_le; [apply (square_cost_blocks (mi_size_wide bsize) (Z.of_nat (length l)) Hn); by eapply blocks_few |].
      eapply transfers_bind; [exact T1 |]. cbv beta.
      eapply transfers_bind; [pose proof (transfers_partition fs al Hal adaptive x r c bsize p Hfs Hx Hsq Hir Hic Hall) as Tp;
        unfold has_rows_of, has_cols_of in Tp; rewrite Z.shiftr_div_pow2 by lia; exact Tp |].
      cbv beta. rewrite Hsub. destruct Hch as [uv ->]. rewrite !(bool_decide_false _ Hps).
      rewrite Hl, r_lift_some, (enc_dec_blocks fs r c bsize p sub l Hsub Hl), w_lift_some.
      eapply (transfers_post_w _ _ _ _ _ (x, e2)); [| intros w; cbv beta iota; by rewrite Ex, w_lift_some].
      eapply (transfers_post _ _ _ _ _ _ (x, gd', d2)); [| intros q; cbv beta iota; by rewrite Ex, r_lift_some].
      eapply transfers_post_w; [eapply transfers_post; [exact T2 |] |]; done.
  - destruct (split_log2 bsize sub Hsub) as (Hlog & Hw & Eh & Hh1 & _).
    unfold hbs in *. rewrite Eh in *.
    rewrite (recovers_split _ _ _ _ block_ok ge r c bsize sub l1 l2 l3 Hsq Hir Hic Hsub H1) by (rewrite Eh; done). rewrite w_lift_some.
    rewrite (proj2 (Z.leb_gt _ _)), (proj2 (Z.leb_gt _ _)) by lia. cbn [orb]. rewrite Hsub, w_lift_some.
    destruct (units_transfer e d r c bsize Hst Hsq Hir Hic) as (e1 & d1 & Hst1 & T1). rewrite <- Hw in Hb.
    destruct (transfers_split fuel r c bsize sub l1 l2 l3 l4 gd x e1 d1) as (x2 & e2 & gd' & d2 & S2 & T2); try done.
    { intros. apply IH; try done. lia. }
    destruct (update_ext_ok fs x2 r c bsize PARTITION_SPLIT sub (ss_ctx S2) Hsq Hic Hsub) as (x' & Ex & Hx').
    exists x', e2, gd', d2. split; [by destruct S2 |].
    eapply transfers_le; [rewrite <- Hw; by apply square_cost_split |].
    eapply transfers_bind; [exact T1 |]. cbv beta.
    eapply transfers_bind; [pose proof (transfers_partition fs al Hal adaptive x r c bsize PARTITION_SPLIT Hfs Hx Hsq Hir Hic Hall) as Tp;
      unfold has_rows_of, has_cols_of in Tp; rewrite Z.shiftr_div_pow2 by lia; rewrite Eh in Tp; change (2 ^ 1) with 2; rewrite Eh; exact Tp |].
    cbv beta. rewrite Hsub. destruct Hch as [uv ->]. rewrite !(bool_decide_true (PARTITION_SPLIT = PARTITION_SPLIT)) by done.
    rewrite Z.shiftr_div_pow2 by lia. change (2 ^ 1) with 2. rewrite Eh.
    eapply (transfers_post_w _ _ _ _ _ (x2, e2)); [| intros w; cbv beta iota; by rewrite Ex, w_lift_some].
    eapply (transfers_post _ _ _ _ _ _ (x2, gd', d2)); [exact T2 | intros q; cbv beta iota; by rewrite Ex, r_lift_some].
Qed.

(** ** A tile *)

Context (sb_size : BLOCK_SIZE) (sb_mib_log2 : Z).

#[local] Abbreviation mib := (sb_mib sb_size).

Context (Hshape : tile_shape fs tile sb_size sb_mib_log2).

(** How the encoder has cut the superblocks. *)
#[local] Abbreviation sb_at := (sb_at tile sb_size sb_mib_log2).
#[local] Abbreviation sb_rows := (sb_rows tile sb_mib_log2).
#[local] Abbreviation sb_cols := (sb_cols tile sb_mib_log2).
#[local] Abbreviation mib_side := (mib_side fs tile sb_size sb_mib_log2 Hshape).

Context (blocks_of : Z -> Z -> list placed) (Hcut : forall r c, sb_at r c -> partitioned block_ok ge r c sb_size (blocks_of r c)).

(** Rows and columns of cells known to both sides. *)
Definition known (gd : mode_grid B) (r c1 : Z) : Prop :=
  (forall y x, in_frame fs y x -> mi_col_start tile <= x < mi_col_start tile + Z.of_nat sb_cols * mib ->
     mi_row_start tile <= y < r -> agree gd y x) /\
  (forall y x, in_frame fs y x -> mi_col_start tile <= x < c1 -> r <= y < r + mib -> agree gd y x).

(** Superblocks whose cut the decoder has found. *)
Definition found (gd : mode_grid B) (r c1 : Z) : Prop :=
  forall r' c', sb_at r' c' -> r' < r \/ r' = r /\ c' < c1 -> partitioned (fun _ _ _ => True) gd r' c' sb_size (blocks_of r' c').

Lemma transfers_overflow : transfers 0 (mret tt) r_overflowed tt false.
Proof.
  intros fc Hfc. exists [], fc. split_and!; [done | done | |].
  - intros w n _ Hr. by exists w.
  - intros bs r es Hp. exists r. unfold rrun, r_overflowed. cbn [app] in Hp. by rewrite (not_overflowed adaptive bs r es Hp).
Qed.

Lemma sb_border gd r c : sb_at r c -> known gd r c -> border_agrees gd r c mib mib.
Proof.
  intros (i & j & Hi & Hj & -> & ->) [K1 K2] y x (Hf & Hy & Hx) Hb. unfold border in Hb.
  assert (1 <= mib) by (destruct mib_side as [[-> _] | [-> _]]; lia).
  assert ((j + 1) * mib <= Z.of_nat sb_cols * mib) by (apply Z.mul_le_mono_nonneg_r; lia).
  assert (0 <= j * mib) by (apply Z.mul_nonneg_nonneg; lia).
  destruct Hb as [[-> Hb] | [-> Hb]].
  - apply K1; [done | lia | lia].
  - destruct (Z.lt_ge_cases y (mi_row_start tile + i * mib)); [apply K1; [done | lia | lia] | apply K2; [done | lia | lia]].
Qed.

(** One superblock more. *)
Lemma known_next r c gd x' e' gd' d' : sb_at r c -> known gd r c -> found gd r c -> square_sent r c sb_size (blocks_of r c) gd x' e' gd' d' ->
  known gd' r (c + mib) /\ found gd' r (c + mib).
Proof.
  intros Hat [K1 K2] Hfd S. assert (1 <= mib) by (destruct mib_side as [[-> _] | [-> _]]; lia). split; [split |].
  - intros y x Hf Hx Hy. eapply agree_keep; [apply (ss_outside S); [done | intros [Hy' _]; lia] | by apply K1].
  - intros y x Hf Hx Hy. destruct (Z.lt_ge_cases x c).
    + eapply agree_keep; [apply (ss_outside S); [done | intros [_ Hx']; lia] | apply K2; [done | lia | done]].
    + apply (ss_inside S); [done |]. unfold in_square. fold mib. lia.
  - intros r' c' Hat' Hlt. destruct (decide ((r', c') = (r, c))) as [[= -> ->] | Hne]; [apply (ss_parts S) |].
    eapply partitioned_ext; [apply (sb_square fs tile sb_size sb_mib_log2 Hshape r' c' Hat') | | apply Hfd; [done |]].
    + intros y x Hf Hi. apply (ss_outside S); [done |]. by apply (other_square fs tile sb_size sb_mib_log2 Hshape r c r' c').
    + destruct Hlt as [| [-> Hlt]]; [by left | right]. split; [done |].
      destruct Hat as (i & j & Hi & Hj & Er & ->), Hat' as (i' & j' & Hi' & Hj' & Er' & ->).
      assert (j' <> j) by (intros ->; by apply Hne). nia.
Qed.

Lemma transfers_sb_cols n : forall x e d gd r c, (forall j, 0 <= j < Z.of_nat n -> sb_at r (c + j * mib)) ->
  pctx_ok fs x -> in_step e d -> grid_ok fs gd -> known gd r c -> found gd r c ->
  exists x' e' gd' d', pctx_ok fs x' /\ in_step e' d' /\ grid_ok fs gd' /\ known gd' r (c + Z.of_nat n * mib) /\ found gd' r (c + Z.of_nat n * mib) /\
    transfers (Z.of_nat n * square_cost mib) (write_sb_cols fs tile sb_size al ge n x e r c)
      (decode_sb_cols fs tile ss_x ss_y sb_size n x gd d r c) (x', e') (x', gd', d', false).
Proof.
  induction n as [| n IH]; intros x e d gd r c Hat Hx Hst Hg Hk Hfd.
  - exists x, e, gd, d. rewrite !Z.mul_0_l, Z.add_0_r. split_and!; try done. apply transfers_ret.
  - assert (sb_at r c) as Hat0 by (specialize (Hat 0 ltac:(lia)); by rewrite Z.mul_0_l, Z.add_0_r in Hat).
    destruct (sb_square fs tile sb_size sb_mib_log2 Hshape r c Hat0) as (Hsq & Htr & Htc).
    destruct (transfers_square sb_fuel r c sb_size (blocks_of r c) gd e d x) as (x1 & e1 & g1 & d1 & S1 & T1); try done.
    { destruct mib_side as [[_ ->] | [_ ->]]; by compute. }
    { by apply Hcut. }
    { by apply sb_border. }
    destruct (known_next r c gd x1 e1 g1 d1 Hat0 Hk Hfd S1) as [Hk1 Hf1].
    destruct (IH x1 e1 d1 g1 r (c + mib)) as (x2 & e2 & g2 & d2 & Hx2 & Hst2 & Hg2 & Hk2 & Hf2 & T2); try done; [| apply S1 ..|].
    { intros j Hj. replace (c + mib + j * mib) with (c + (j + 1) * mib) by lia. apply Hat. lia. }
    exists x2, e2, g2, d2. replace (c + Z.of_nat (S n) * mib) with (c + mib + Z.of_nat n * mib) by lia. split_and!; try done.
    cbn [write_sb_cols decode_sb_cols].
    replace (Z.of_nat (S n) * square_cost mib) with (square_cost mib + (0 + Z.of_nat n * square_cost mib)) by lia.
    eapply transfers_bind; [exact T1 |]. cbv beta iota.
    eapply (transfers_ext _ _ _ (_ ← mret tt; write_sb_cols fs tile sb_size al ge n x1 e1 r (c + mib))); [done | done |].
    eapply transfers_bind; [apply transfers_overflow | exact T2].
Qed.

Lemma known_row r gd i : 0 <= i < Z.of_nat sb_rows -> r = mi_row_start tile + i * mib ->
  known gd r (mi_col_start tile + Z.of_nat sb_cols * mib) -> found gd r (mi_col_start tile + Z.of_nat sb_cols * mib) ->
  known gd (r + mib) (mi_col_start tile) /\ found gd (r + mib) (mi_col_start tile).
Proof.
  intros Hi Hr [K1 K2] Hfd. assert (1 <= mib) by (destruct mib_side as [[-> _] | [-> _]]; lia). split; [split |].
  - intros y x Hf Hx Hy. destruct (Z.lt_ge_cases y r); [apply K1 | apply K2]; (done || lia).
  - intros. lia.
  - intros r' c' Hat Hlt. apply Hfd; [done |]. destruct Hat as (i' & j' & Hi' & Hj' & -> & ->). subst r.
    assert (0 <= j' * mib) by (apply Z.mul_nonneg_nonneg; lia).
    destruct (Z.lt_trichotomy i' i) as [Hl | [-> | Hg]]; [left; nia | right; split; [done |]; nia |].
    assert ((i + 1) * mib <= i' * mib) by (apply Z.mul_le_mono_nonneg_r; lia). lia.
Qed.

Lemma transfers_sb_rows n : forall x e d gd i, (i + n = sb_rows)%nat -> let r := mi_row_start tile + Z.of_nat i * mib in
  pctx_ok fs x -> in_step e d -> grid_ok fs gd -> known gd r (mi_col_start tile) -> found gd r (mi_col_start tile) ->
  exists x' e' gd' d', pctx_ok fs x' /\ in_step e' d' /\ grid_ok fs gd' /\
    known gd' (r + Z.of_nat n * mib) (mi_col_start tile) /\ found gd' (r + Z.of_nat n * mib) (mi_col_start tile) /\
    transfers (Z.of_nat n * (Z.of_nat sb_cols * square_cost mib)) (write_sb_rows fs tile sb_size sb_mib_log2 al ge n x e r)
      (decode_sb_rows fs tile ss_x ss_y sb_size sb_mib_log2 n x gd d r) (x', e') (x', gd', d', false).
Proof.
  induction n as [| n IH]; intros x e d gd i Hi r Hx Hst Hg Hk Hfd.
  - exists x, e, gd, d. rewrite !Z.mul_0_l, Z.add_0_r. split_and!; try done. apply transfers_ret.
  - destruct (transfers_sb_cols sb_cols (av1_zero_left_context x) (enc_row_start e) (dec_row_start d) gd r (mi_col_start tile))
      as (x1 & e1 & g1 & d1 & Hx1 & Hst1 & Hg1 & Hk1 & Hf1 & T1); try done.
    { intros j Hj. exists (Z.of_nat i), j. split_and!; (done || lia). }
    { by apply zero_left_ok. }
    { by apply row_start_in_step. }
    destruct (known_row r g1 (Z.of_nat i)) as [Hk2 Hf2]; [lia | done | done | done |].
    destruct (IH x1 e1 d1 g1 (S i)) as (x2 & e2 & g2 & d2 & Hx2 & Hst2 & Hg2 & Hk3 & Hf3 & T2); try done; [lia | | |];
      replace (mi_row_start tile + Z.of_nat (S i) * mib) with (r + mib) in * by (unfold r; lia); try done.
    exists x2, e2, g2, d2. replace (r + Z.of_nat (S n) * mib) with (r + mib + Z.of_nat n * mib) by lia. split_and!; try done.
    cbn [write_sb_rows decode_sb_rows]. fold sb_cols.
    replace (Z.of_nat (S n) * (Z.of_nat sb_cols * square_cost mib))
      with (Z.of_nat sb_cols * square_cost mib + Z.of_nat n * (Z.of_nat sb_cols * square_cost mib)) by lia.
    eapply transfers_bind; [exact T1 |]. exact T2.
Qed.

(** What the encoder's and the decoder's arrays must share: what is above other tiles. *)
Definition same_elsewhere (xe xd : partition_ctx) : Prop :=
  length (above_partition_context xd) = length (above_partition_context xe) /\
  forall k, 0 <= k < mi_col_start tile \/ mi_col_start tile + Z.of_nat sb_cols * mib <= k ->
    nthz (above_partition_context xd) k = nthz (above_partition_context xe) k.

Lemma zero_above_same xe xd ye yd : pctx_ok fs xe -> pctx_ok fs xd -> same_elsewhere xe xd ->
  av1_zero_above_context tile sb_mib_log2 xe = Some ye -> av1_zero_above_context tile sb_mib_log2 xd = Some yd ->
  above_partition_context yd = above_partition_context ye.
Proof.
  intros He Hd [Hl Hs] Ee Ed. destruct (zero_above_ok fs tile sb_size sb_mib_log2 Hshape xe He) as (y1 & E1 & _ & L1 & N1). destruct (zero_above_ok fs tile sb_size sb_mib_log2 Hshape xd Hd) as (y2 & E2 & _ & L2 & N2).
  rewrite Ee in E1. injection E1 as <-. rewrite Ed in E2. injection E2 as <-.
  apply (nth_ext _ _ 0 0); [congruence |]. intros k Hk. rewrite <- (Nat2Z.id k).
  change (nthz (above_partition_context yd) (Z.of_nat k) = nthz (above_partition_context ye) (Z.of_nat k)).
  rewrite N1, N2 by lia. destruct (Z.leb_spec (mi_col_start tile) (Z.of_nat k)), (Z.ltb_spec (Z.of_nat k) (mi_col_start tile + Z.of_nat sb_cols * mib)); cbn [andb];
    [done | apply Hs; lia ..].
Qed.

Lemma transfers_walk xe xd e d gd : pctx_ok fs xe -> pctx_ok fs xd -> same_elsewhere xe xd -> in_step e d -> grid_ok fs gd ->
  exists x' e' gd' d', in_step e' d' /\ grid_ok fs gd' /\
    let end_ := mi_row_start tile + Z.of_nat sb_rows * mib in known gd' end_ (mi_col_start tile) /\ found gd' end_ (mi_col_start tile) /\
    transfers (Z.of_nat sb_rows * (Z.of_nat sb_cols * square_cost mib)) (write_modes fs tile sb_size sb_mib_log2 al ge xe e)
      (decode_tile fs tile ss_x ss_y sb_size sb_mib_log2 xd gd d) (x', e') (x', gd', d', false).
Proof.
  intros He Hd Hsame Hst Hg. destruct (zero_above_ok fs tile sb_size sb_mib_log2 Hshape xe He) as (ye & Ee & Hye & _). destruct (zero_above_ok fs tile sb_size sb_mib_log2 Hshape xd Hd) as (yd & Ed & _).
  pose proof (zero_above_same xe xd ye yd He Hd Hsame Ee Ed) as Heq.
  destruct (transfers_sb_rows sb_rows ye (enc_tile_start e) (dec_tile_start d) gd 0) as (x' & e' & gd' & d' & _ & H1 & H2 & H3 & H4 & T); try done.
  { by apply tile_start_in_step. }
  { split; intros; lia. }
  { intros r' c' (i & j & Hi & Hj & -> & ->) Hlt. exfalso.
    assert (1 <= mib) by (destruct mib_side as [[-> _] | [-> _]]; lia).
    assert (0 <= i * mib /\ 0 <= j * mib) by (split; apply Z.mul_nonneg_nonneg; lia). lia. }
  exists x', e', gd', d'. cbv zeta. rewrite Z.mul_0_l, Z.add_0_r in *. split_and!; try done.
  unfold write_modes, decode_tile. rewrite Ee, Ed, w_lift_some, r_lift_some. fold sb_rows.
  eapply transfers_ext; [intros w; reflexivity | | exact T]. intros q. pose proof (rows_ge_1 fs tile sb_size sb_mib_log2 Hshape). destruct sb_rows as [| n]; [lia |]. cbn [decode_sb_rows].
  unfold av1_zero_left_context. by rewrite Heq.
Qed.

Lemma all_found gd r c : found gd (mi_row_start tile + Z.of_nat sb_rows * mib) (mi_col_start tile) -> sb_at r c ->
  partitioned (fun _ _ _ => True) gd r c sb_size (blocks_of r c).
Proof.
  intros Hf Hat. apply Hf; [done |]. left. destruct Hat as (i & j & Hi & _ & -> & _).
  assert (i * mib < Z.of_nat sb_rows * mib); [| lia]. apply Z.mul_lt_mono_pos_r; [destruct mib_side as [[-> _] | [-> _]] |]; lia.
Qed.
End RoundTrip.

(** What the theorems about tiles say, for any block coder. *)
Lemma walk_survives {B E D} `{Hcoder : BlockCoder B E D} al adaptive fs `{Hok : !BlockCoderOk B E D al adaptive fs} tile ss_x ss_y
    sb_size sb_mib_log2 (ge gd : mode_grid B) (blocks_of : Z -> Z -> list placed) xe xd e d fc :
  grants_all al -> frame_even fs -> tile_shape fs tile sb_size sb_mib_log2 ->
  (forall r c, sb_at tile sb_size sb_mib_log2 r c -> partitioned bsize_of fs ss_x ss_y block_ok ge r c sb_size (blocks_of r c)) ->
  pctx_ok fs xe -> pctx_ok fs xd -> same_elsewhere tile sb_size sb_mib_log2 xe xd -> in_step e d -> grid_ok fs gd -> fc_ok fc ->
  15 * (Z.of_nat (sb_rows tile sb_mib_log2) * (Z.of_nat (sb_cols tile sb_mib_log2) * square_cost al adaptive fs (sb_mib sb_size)) + 1) < 2 ^ 29 ->
  exists x' e' gd' d' fc', in_step e' d' /\ fc_ok fc' /\
    tile_survives al adaptive (wrun fc (write_modes fs tile sb_size sb_mib_log2 al ge xe e)) ((x', e'), fc')
      (rrun fc (decode_tile fs tile ss_x ss_y sb_size sb_mib_log2 xd gd d)) ((x', gd', d', false), fc') /\
    (forall y x, in_tile tile y x -> exists b b', mi_at ge y x = Some b /\ mi_at gd' y x = Some b' /\ same b b') /\
    (forall r c, sb_at tile sb_size sb_mib_log2 r c ->
       partitioned bsize_of fs ss_x ss_y (fun _ _ _ => True) gd' r c sb_size (blocks_of r c)).
Proof.
  intros Hal Hfs Hshape Hcut He Hd Hsame Hst Hg Hfc HN.
  destruct (transfers_walk al Hal adaptive fs tile ss_x ss_y Hfs (ts_start _ _ _ _ Hshape) ge sb_size sb_mib_log2 Hshape blocks_of Hcut xe xd e d gd)
    as (x' & e' & gd' & d' & Hst' & Hg' & [K _] & Hfd & T); try done.
  destruct (transfers_survive al Hal adaptive _ _ _ _ _ fc T Hfc HN) as (fc' & Hfc' & Hsv).
  exists x', e', gd', d', fc'. split_and!; try done.
  - intros y x Hi. destruct (tile_covered fs tile sb_size sb_mib_log2 Hshape y x Hi) as (Hf & Hy & Hx). destruct Hi as [? ?].
    apply K; [done | lia | lia].
  - intros r c Hat. by eapply all_found.
Qed.

(** C6: A tile survives the walk over its superblocks, for any block coder that keeps its
    promise. The encoder's grid of mode infos describes some cut of every superblock, in a
    frame and a tile that need not be multiples of a superblock; the encoder recovers each
    partition from the grid and writes it with the blocks, the decoder reads on until it has
    filled its own grid. The data is not found corrupt, both sides hold the same mode info
    in every cell of the tile, the decoder has cut every superblock into the same blocks in
    the same order, and the partition contexts and the probability models are left equal,
    whatever the decoder's grid and the parts of the contexts that belong to the tile held
    before. *)
Theorem tile_walk_roundtrip {B E D} `{Hcoder : BlockCoder B E D} al adaptive fs `{Hok : !BlockCoderOk B E D al adaptive fs} tile ss_x ss_y
    sb_size sb_mib_log2 (ge gd : mode_grid B) (blocks_of : Z -> Z -> list placed) xe xd e d fc :
  grants_all al -> frame_even fs -> tile_shape fs tile sb_size sb_mib_log2 ->
  (forall r c, sb_at tile sb_size sb_mib_log2 r c -> partitioned bsize_of fs ss_x ss_y block_ok ge r c sb_size (blocks_of r c)) ->
  pctx_ok fs xe -> pctx_ok fs xd -> same_elsewhere tile sb_size sb_mib_log2 xe xd -> in_step e d -> grid_ok fs gd -> fc_ok fc ->
  15 * (Z.of_nat (sb_rows tile sb_mib_log2) * (Z.of_nat (sb_cols tile sb_mib_log2) * square_cost al adaptive fs (sb_mib sb_size)) + 1) < 2 ^ 29 ->
  exists x' e' gd' d' fc', in_step e' d' /\ fc_ok fc' /\
    tile_survives al adaptive (wrun fc (write_modes fs tile sb_size sb_mib_log2 al ge xe e)) ((x', e'), fc')
      (rrun fc (decode_tile fs tile ss_x ss_y sb_size sb_mib_log2 xd gd d)) ((x', gd', d', false), fc') /\
    (forall y x, in_tile tile y x -> exists b b', mi_at ge y x = Some b /\ mi_at gd' y x = Some b' /\ same b b') /\
    (forall r c, sb_at tile sb_size sb_mib_log2 r c ->
       partitioned bsize_of fs ss_x ss_y (fun _ _ _ => True) gd' r c sb_size (blocks_of r c)).
Proof. apply walk_survives. Qed.

(** ** The second pass *)

(** C8: The second pass of a decoder that parses and reconstructs in different threads. On a
    grid that describes a cut of a square, [decode_partition] with [parse_decode_flag = 2],
    which has no bitstream and recovers every partition with [get_partition], visits the
    blocks of the square that lie in the frame, in the order in which they were parsed. *)
Theorem second_pass {B} `{Hc : BlockCoder B E D} fs ss_x ss_y P (g : mode_grid B) fuel r c bsize l :
  mi_size_wide_log2 bsize < Z.of_nat fuel -> square_at r c bsize -> partitioned bsize_of fs ss_x ss_y P g r c bsize l ->
  decode_only fs ss_x ss_y fuel g r c bsize = Some l.
Proof.
  revert r c bsize l. induction fuel as [| fuel IH]; intros r c bsize l Hf Hsq Hp; [destruct bsize; cbn in Hf; lia |].
  cbn [decode_only]. destruct Hp as [r c bsize Hout | r c bsize p sub l Hir Hic Hall Hsub Hch Hl Hh | r c bsize sub l1 l2 l3 l4 Hir Hic Hall Hsub Hch hbs H1 H2 H3 H4].
  - assert ((fs_mi_rows fs <=? r) || (fs_mi_cols fs <=? c) = true) as -> by (rewrite orb_true_iff, !Z.leb_le; lia). done.
  - rewrite (proj2 (Z.leb_gt _ _)), (proj2 (Z.leb_gt _ _)) by lia. cbn [orb].
    rewrite (recovers_blocks _ _ _ _ r c bsize p sub l Hsq Hir Hic Hall Hsub Hl Hh). cbn [mbind option_bind].
    rewrite Hsub. cbn [mbind option_bind]. destruct Hch as [uv ->]. cbn [mbind option_bind].
    by rewrite bool_decide_false by (intros ->; discriminate Hl).
  - rewrite (proj2 (Z.leb_gt _ _)), (proj2 (Z.leb_gt _ _)) by lia. cbn [orb].
    rewrite (recovers_split _ _ _ _ P g r c bsize sub l1 l2 l3 Hsq Hir Hic Hsub H1 H2 H3). cbn [mbind option_bind].
    rewrite Hsub. cbn [mbind option_bind]. destruct Hch as [uv ->]. cbn [mbind option_bind]. rewrite bool_decide_true by done.
    destruct (split_log2 bsize sub Hsub) as (Hlog & _ & Eh & _). unfold hbs in *. rewrite Z.shiftr_div_pow2 by lia. change (2 ^ 1) with 2.
    rewrite Eh in *. destruct (quarters_at r c bsize sub Hsq Hsub) as (Q1 & Q2 & Q3 & Q4).
    rewrite (IH r c sub l1), (IH r (c + mi_size_wide sub) sub l2), (IH (r + mi_size_wide sub) c sub l3),
      (IH (r + mi_size_wide sub) (c + mi_size_wide sub) sub l4) by (done || lia). done.
Qed.
