(* ===== verification/PartitionSafety.v ===== *)
(** * Superblocks of arbitrary data

    What the decoder does with a tile of any bytes, for any block coder that is safe itself
    ([BlockCoderSafe]): the recursion ends, no access leaves a table or the grid, no
    neighbour is missing, and a superblock that is accepted is cut into blocks that fill its
    part of the frame, each cell once. *)

From S2P Require Import Prelude CodecTypes BitChannel EntCoder RangeSpec Cdf EntEncProof EntDecProof EntRoundTrip SymbolIO SyntaxIO TileSafety TxCommon Tile TxbContext DefaultCdfs FrameContext Partition PartitionTree PartitionProof.

#[local] Open Scope Z_scope.
#[local] Arguments Z.of_nat : simpl never.
#[local] Arguments Z.mul : simpl never.

Lemma dec_blocks_some fs r c bsize p sub : p <> PARTITION_SPLIT -> get_partition_subsize bsize p = Some sub ->
  is_Some (dec_blocks fs r c bsize p sub (get_partition_subsize bsize PARTITION_SPLIT)).
Proof.
  intros Hp Hsub. destruct (decide (p = PARTITION_NONE)) as [-> | Hn]; [by eexists |]. destruct (split_size bsize sub p Hsub Hn) as [b2 ->].
  destruct p; try done; try (by eexists). by destruct bsize.
Qed.

Definition site_fine {B} (fine : B -> Prop) (s : block_site B) : Prop :=
  (forall b, bs_above s = Some b -> fine b) /\ (forall b, bs_left s = Some b -> fine b) /\ (forall b, bs_above_left s = Some b -> fine b).

Class BlockCoderSafe (B E D : Type) `{BlockCoder B E D} (fs : frame_size) := {
  (** What the decoder keeps is in order. *)
  dec_ok : D -> Prop;
  block_fine : B -> Prop;
  tile_start_ok : forall d, dec_ok d -> dec_ok (dec_tile_start d);
  row_start_ok : forall d, dec_ok d -> dec_ok (dec_row_start d);
  units_safe : forall d r c bsize, dec_ok d -> square_at r c bsize -> r < fs_mi_rows fs -> c < fs_mi_cols fs ->
    safe dec_ok (read_units d r c bsize);
  block_safe : forall d s p bsize, dec_ok d -> site_fine block_fine s -> site_within s -> in_frame fs (bs_row s) (bs_col s) ->
    safe (fun '(d', b) => dec_ok d' /\ block_fine b /\ bsize_of b = bsize) (parse_block d s p bsize) }.

Section Safety.
Context {B E D : Type} `{Hcoder : BlockCoder B E D} (fs : frame_size) `{Hsafe : !BlockCoderSafe B E D fs}.
Context (tile : TileInfo) (ss_x ss_y : bool).
Context (Hfs : frame_even fs) (Htile : 0 <= mi_row_start tile /\ 0 <= mi_col_start tile).

#[local] Abbreviation fine_cut := (partitioned bsize_of fs ss_x ss_y (fun _ _ => block_fine)).
#[local] Abbreviation fine_holds := (holds bsize_of fs (fun _ _ => block_fine)).

Definition filled (g : mode_grid B) (y x : Z) : Prop := exists b, mi_at g y x = Some b /\ block_fine b.

Definition border_filled (g : mode_grid B) (r c h w : Z) : Prop :=
  forall y x, in_scope fs tile y x -> border r c h w y x -> filled g y x.

Lemma filled_keep g g' y x : mi_at g' y x = mi_at g y x -> filled g y x -> filled g' y x.
Proof. intros E1 (b & ? & ?). exists b. by rewrite E1. Qed.

Lemma neighbor_filled g (available : bool) y x : (available = true -> filled g y x) ->
  exists o, neighbor available (mi_at g y x) = Some o /\ forall b, o = Some b -> block_fine b.
Proof.
  intros Ha. unfold neighbor. destruct available; [| by exists None].
  destruct (Ha eq_refl) as (b & -> & Hb). exists (Some b). split; [done |]. by intros b' [= <-].
Qed.

Lemma site_filled g r c h w : 0 < h -> 0 < w -> in_scope fs tile r c -> border_filled g r c h w ->
  exists s, site_at tile g r c = Some s /\ site_fine block_fine s /\ bs_row s = r /\ bs_col s = c.
Proof.
  intros Hh Hw ([Hr Hc] & Hr1 & Hc1) Hb. unfold site_at.
  assert (forall y x, in_frame fs y x -> mi_row_start tile <= y -> mi_col_start tile <= x -> border r c h w y x -> filled g y x) as Hb'
    by (intros y x Hf H1 H2; apply Hb; by split).
  destruct (neighbor_filled g (mi_row_start tile <? r) (r - 1) c) as (a & -> & Ha).
  { intros E1%Z.ltb_lt. apply Hb'; unfold in_frame, border; lia. }
  destruct (neighbor_filled g (mi_col_start tile <? c) r (c - 1)) as (l & -> & Hl).
  { intros E1%Z.ltb_lt. apply Hb'; unfold in_frame, border; lia. }
  destruct (neighbor_filled g ((mi_row_start tile <? r) && (mi_col_start tile <? c)) (r - 1) (c - 1)) as (q & -> & Hq).
  { intros [E1%Z.ltb_lt E2%Z.ltb_lt]%andb_true_iff. apply Hb'; unfold in_frame, border; lia. }
  cbn [mbind option_bind]. eexists. split; [done |]. split; [by split_and! | done].
Qed.

(** ** A run of blocks *)

Lemma safe_blocks p r c h w : mi_row_start tile <= r -> mi_col_start tile <= c -> forall l g d done_,
  ordered fs r c h w done_ l -> disjoint_blocks l -> dec_ok d -> grid_ok fs g -> border_filled g r c h w ->
  (forall y x, in_frame fs y x -> Exists (fun b => cell_in b y x) done_ -> filled g y x) ->
  safe (fun '(g', d') => grid_ok fs g' /\ dec_ok d' /\
      (forall y x, in_frame fs y x -> ~ Exists (fun b => cell_in b y x) l -> mi_at g' y x = mi_at g y x) /\ Forall (fine_holds g') l)
    (parse_blocks fs tile g d p l).
Proof.
  intros Htr Htc. induction l as [| [[br bc] bs] l IH]; intros g d done_ Hord Hdis Hd Hg Hb Hdone; cbn [parse_blocks].
  - by apply safe_ret.
  - destruct Hord as ((Hr & Hc & Hbr & Hbc) & Hbord & Hord). destruct Hdis as [Hd1 Hdis].
    assert (0 < mi_size_high bs /\ 0 < mi_size_wide bs) as [Hh0 Hw0] by (destruct bs; cbn; lia).
    assert (in_scope fs tile br bc) as Hsc by (unfold in_scope, in_frame; lia).
    assert (border_filled g br bc (mi_size_high bs) (mi_size_wide bs)) as Hba.
    { intros y x Hs Hy. destruct (Hbord y x (proj1 Hs) Hy); [by apply Hb | by apply Hdone; [apply Hs |]]. }
    destruct (site_filled g br bc _ _ Hh0 Hw0 Hsc Hba) as (s & Es & Hsf & Er & Ec).
    rewrite Es, r_lift_some. destruct (site_at_within tile g br bc s Htile Es) as [Hwi _].
    eapply safe_bind; [apply block_safe; [done | done | done | rewrite Er, Ec; apply Hsc] |].
    intros [d1 b] (Hd1' & Hfine & Eb). destruct (set_mi_ok fs g br bc bs b Hg (proj1 Hsc)) as (g1 & Eg1 & Hg1 & Hz).
    rewrite Eg1, r_lift_some. eapply safe_weaken; [| apply (IH g1 d1 (done_ ++ [(br, bc, bs)])); try done].
    + intros [g' d'] (Hg' & Hd' & Hun & Hhd). split_and!; try done.
      * intros y x Hf He. rewrite Exists_cons in He. rewrite Hun by tauto. apply (Hz y x Hf). tauto.
      * apply Forall_cons_2; [| done]. exists b. split_and!; try done. intros y x Hf Hi. rewrite (Hun y x Hf (Hd1 y x Hi)). by apply (Hz y x Hf).
    + intros y x Hs Hy. eapply filled_keep; [| by apply Hb]. apply (proj2 (Hz y x (proj1 Hs))). unfold border, cell_in in *. lia.
    + intros y x Hf He. destruct (decide (br <= y < br + mi_size_high bs /\ bc <= x < bc + mi_size_wide bs)) as [Hi | Ho].
      * exists b. split; [by apply (Hz y x Hf) | done].
      * rewrite Exists_app, Exists_cons, Exists_nil in He. eapply filled_keep; [by apply (Hz y x Hf) |]. apply Hdone; [done |].
        destruct He as [He | [He | He]]; [done | by destruct Ho | done].
Qed.

(** ** A square *)

(** What is known after a square has been read. *)
Definition square_read (r c : Z) (bsize : BLOCK_SIZE) (g : mode_grid B) (a : partition_ctx * mode_grid B * D) : Prop :=
  let '(x', g', d') := a in
  pctx_ok fs x' /\ grid_ok fs g' /\ dec_ok d' /\
  (forall y z, in_frame fs y z -> ~ in_square r c bsize y z -> mi_at g' y z = mi_at g y z) /\
  exists l, fine_cut g' r c bsize l.

Lemma cut_filled g r c bsize l y x : square_at r c bsize -> fine_cut g r c bsize l -> in_frame fs y x -> in_square r c bsize y x -> filled g y x.
Proof.
  intros Hsq Hp Hf Hi. destruct (partitioned_covers _ _ _ _ _ _ _ _ _ _ _ _ Hsq Hp Hf Hi) as ([[br bc] bs] & _ & Hc & (b & _ & Hb & Hall)).
  exists b. split; [by apply Hall | done].
Qed.

(** A square read beside another one: the other's cut is kept. *)
Lemma beside_keep r c r' c' sub g g' l : square_at r c sub ->
  (forall y z, in_frame fs y z -> ~ in_square r' c' sub y z -> mi_at g' y z = mi_at g y z) ->
  r + mi_size_wide sub <= r' \/ r' + mi_size_wide sub <= r \/ c + mi_size_wide sub <= c' \/ c' + mi_size_wide sub <= c ->
  fine_cut g r c sub l -> fine_cut g' r c sub l.
Proof.
  intros Hsq Hout Hd. apply partitioned_ext; [done |]. intros y z Hf Hi. apply Hout; [done |]. unfold in_square in *. lia.
Qed.

(** The four quarters of a split. *)
Lemma safe_split fuel r c bsize sub g d x :
  (forall r c g d x, square_at r c sub -> mi_row_start tile <= r -> mi_col_start tile <= c -> pctx_ok fs x -> dec_ok d -> grid_ok fs g ->
     border_filled g r c (mi_size_wide sub) (mi_size_wide sub) -> safe (square_read r c sub g) (decode_partition fs tile ss_x ss_y fuel x g d r c sub)) ->
  square_at r c bsize -> r < fs_mi_rows fs -> c < fs_mi_cols fs -> mi_row_start tile <= r -> mi_col_start tile <= c ->
  partition_allowed fs r c bsize PARTITION_SPLIT -> get_partition_subsize bsize PARTITION_SPLIT = Some sub -> chroma_valid ss_x ss_y sub ->
  pctx_ok fs x -> dec_ok d -> grid_ok fs g -> border_filled g r c (mi_size_wide bsize) (mi_size_wide bsize) ->
  let h := mi_size_wide sub in
  safe (square_read r c bsize g)
    ('(x, g, d) ← decode_partition fs tile ss_x ss_y fuel x g d r c sub;
     '(x, g, d) ← decode_partition fs tile ss_x ss_y fuel x g d r (c + h) sub;
     '(x, g, d) ← decode_partition fs tile ss_x ss_y fuel x g d (r + h) c sub;
     decode_partition fs tile ss_x ss_y fuel x g d (r + h) (c + h) sub).
Proof.
  intros IH Hsq Hir Hic Htr Htc Hall Hsub Hch Hx Hd Hg Hb h.
  destruct (split_log2 bsize sub Hsub) as (_ & Hw & Eh & Hh1 & _). fold h in Hw, Eh, Hh1.
  destruct (quarters_at r c bsize sub Hsq Hsub) as (Q1 & Q2 & Q3 & Q4). fold h in Q2, Q3, Q4. rewrite <- Hw in Hb.
  eapply safe_bind; [apply IH; try done |].
  { intros y z Hs Hy. apply Hb; [done |]. unfold border in *. fold h in Hy. lia. }
  intros [[x1 g1] d1] (Hx1 & Hg1 & Hd1 & O1 & l1 & P1).
  assert (B1 : forall y z, in_scope fs tile y z -> border r c (2 * h) (2 * h) y z \/ in_square r c sub y z -> filled g1 y z).
  { intros y z Hs [Hy | Hi]; [| exact (cut_filled _ _ _ _ _ _ _ Q1 P1 (proj1 Hs) Hi)].
    eapply filled_keep; [apply O1; [apply Hs | unfold border, in_square in *; fold h; lia] | by apply Hb]. }
  eapply safe_bind; [apply (IH r (c + h)); try done; [lia |] |].
  { intros y z Hs Hy. apply B1; [done |]. unfold border, in_square in *. fold h in Hy |- *. lia. }
  intros [[x2 g2] d2] (Hx2 & Hg2 & Hd2 & O2 & l2 & P2).
  assert (B2 : forall y z, in_scope fs tile y z -> border r c (2 * h) (2 * h) y z \/ in_square r c sub y z \/ in_square r (c + h) sub y z -> filled g2 y z).
  { intros y z Hs Hy. destruct (decide (r <= y < r + h /\ c + h <= z < c + h + h)) as [Hi | Ho]; [exact (cut_filled _ _ _ _ _ _ _ Q2 P2 (proj1 Hs) Hi) |].
    eapply filled_keep; [apply O2; [apply Hs | exact Ho] | apply B1; [done |]]. unfold border, in_square in *. fold h in Hy |- *. lia. }
  eapply safe_bind; [apply (IH (r + h) c); try done; [lia |] |].
  { intros y z Hs Hy. apply B2; [done |]. unfold border, in_square in *. fold h in Hy |- *. lia. }
  intros [[x3 g3] d3] (Hx3 & Hg3 & Hd3 & O3 & l3 & P3).
  eapply safe_weaken; [| apply (IH (r + h) (c + h)); try done; [lia | lia |]].
  - intros [[x4 g4] d4] (Hx4 & Hg4 & Hd4 & O4 & l4 & P4). unfold square_read. split_and!; try done.
    + intros y z Hf Ho. unfold in_square in *. fold h in O1, O2, O3, O4. rewrite O4, O3, O2, O1 by (done || lia). done.
    + exists (l1 ++ l2 ++ l3 ++ l4). eapply (partitioned_split _ _ _ _ _ _ _ _ _ sub); try done; rewrite ?Eh; try done.
      * eapply beside_keep; [done | exact O4 | fold h; lia |]. eapply beside_keep; [done | exact O3 | fold h; lia |].
        eapply beside_keep; [done | exact O2 | fold h; lia | done].
      * eapply beside_keep; [done | exact O4 | fold h; lia |]. eapply beside_keep; [done | exact O3 | fold h; lia | done].
      * eapply beside_keep; [done | exact O4 | fold h; lia | done].
  - intros y z Hs Hy. destruct (decide (r + h <= y < r + h + h /\ c <= z < c + h)) as [Hi | Ho]; [exact (cut_filled _ _ _ _ _ _ _ Q3 P3 (proj1 Hs) Hi) |].
    eapply filled_keep; [apply O3; [apply Hs | exact Ho] | apply B2; [done |]]. unfold border, in_square in *. fold h in Hy |- *. lia.
Qed.

Lemma safe_square : forall fuel r c bsize g d x, mi_size_wide_log2 bsize < Z.of_nat fuel ->
  square_at r c bsize -> mi_row_start tile <= r -> mi_col_start tile <= c ->
  pctx_ok fs x -> dec_ok d -> grid_ok fs g -> border_filled g r c (mi_size_wide bsize) (mi_size_wide bsize) ->
  safe (square_read r c bsize g) (decode_partition fs tile ss_x ss_y fuel x g d r c bsize).
Proof.
  induction fuel as [| fuel IH]; intros r c bsize g d x Hf Hsq Htr Htc Hx Hd Hg Hb; [destruct bsize; cbn in Hf; lia |].
  cbn [decode_partition]. destruct (Z.leb_spec (fs_mi_rows fs) r); [| destruct (Z.leb_spec (fs_mi_cols fs) c)]; cbn [orb].
  { apply safe_ret. split_and!; try done. exists []. apply partitioned_outside. by left. }
  { apply safe_ret. split_and!; try done. exists []. apply partitioned_outside. by right. }
  eapply safe_bind; [by apply units_safe |]. intros d1 Hd1. rewrite Z.shiftr_div_pow2 by lia. change (2 ^ 1) with 2.
  eapply safe_bind; [by apply (safe_read_partition fs x r c bsize) |]. intros p Hall.
  destruct (get_partition_subsize bsize p) as [sub|] eqn:Hsub; [| apply safe_raise].
  destruct (av1_ss_size_lookup sub ss_x ss_y) as [uv|] eqn:Huv; [| apply safe_raise].
  assert (chroma_valid ss_x ss_y sub) as Hch by (exists uv; exact Huv).
  eapply (safe_bind (square_read r c bsize g)).
  - destruct (bool_decide_reflect (p = PARTITION_SPLIT)) as [-> | Hps].
    + destruct (split_log2 bsize sub Hsub) as (Hlog & _ & Eh & _). rewrite Eh.
      eapply safe_split; try done. intros. apply IH; try done. lia.
    + destruct (dec_blocks_some fs r c bsize p sub Hps Hsub) as [l Hl]. rewrite Hl, r_lift_some.
      destruct (blocks_fit fs r c bsize p sub l) as (Hord & Hcov & Hdis); try done.
      eapply safe_bind; [eapply (safe_blocks p r c _ _ Htr Htc l g d1 []); try done; by intros y z _ ?%Exists_nil |].
      intros [g' d'] (Hg' & Hd' & Hun & Hhd). apply safe_ret. unfold square_read. split_and!; try done.
      * intros y z Hfr Ho. apply Hun; [done |]. intros (b & Hbl & Hi)%Exists_exists. apply Ho. by eapply ordered_within.
      * exists l. by eapply partitioned_blocks.
  - intros [[x' g'] d'] (Hx' & Hg' & Hd' & Hrest).
    destruct (update_ext_ok fs x' r c bsize p sub Hx' Hsq) as (x2 & -> & Hx2); [done | done |].
    rewrite r_lift_some. apply safe_ret. done.
Qed.

(** ** A tile *)

Context (sb_size : BLOCK_SIZE) (sb_mib_log2 : Z) (Hshape : tile_shape fs tile sb_size sb_mib_log2).

#[local] Abbreviation mib := (sb_mib sb_size).
#[local] Abbreviation sb_at := (sb_at tile sb_size sb_mib_log2).
#[local] Abbreviation sb_rows := (sb_rows tile sb_mib_log2).
#[local] Abbreviation sb_cols := (sb_cols tile sb_mib_log2).

(** The superblocks before a position have been read. *)
Definition cut_before (g : mode_grid B) (i j : Z) : Prop :=
  forall i' j', 0 <= i' < Z.of_nat sb_rows -> 0 <= j' < Z.of_nat sb_cols -> i' < i \/ i' = i /\ j' < j ->
    exists l, fine_cut g (mi_row_start tile + i' * mib) (mi_col_start tile + j' * mib) sb_size l.

Lemma mib_1 : 1 <= mib.
Proof. destruct (mib_side fs tile sb_size sb_mib_log2 Hshape) as [[-> _] | [-> _]]; lia. Qed.

Lemma sb_index i j : 0 <= i < Z.of_nat sb_rows -> 0 <= j < Z.of_nat sb_cols -> sb_at (mi_row_start tile + i * mib) (mi_col_start tile + j * mib).
Proof. intros Hi Hj. by exists i, j. Qed.

Lemma sb_border_filled g i j : 0 <= i < Z.of_nat sb_rows -> 0 <= j < Z.of_nat sb_cols -> cut_before g i j ->
  border_filled g (mi_row_start tile + i * mib) (mi_col_start tile + j * mib) mib mib.
Proof.
  intros Hi Hj Hb y x (Hf & Hy & Hx) Hbd. pose proof mib_1 as Hm.
  assert (exists i' j', 0 <= i' <= i /\ 0 <= j' <= j /\ (i' < i \/ i' = i /\ j' < j) /\
    mi_row_start tile + i' * mib <= y < mi_row_start tile + i' * mib + mib /\
    mi_col_start tile + j' * mib <= x < mi_col_start tile + j' * mib + mib) as (i' & j' & Hi' & Hj' & Hlt & Hyi & Hxj).
  { set (u := (y - mi_row_start tile) / mib). set (v := (x - mi_col_start tile) / mib).
    pose proof (Z.div_mod (y - mi_row_start tile) mib ltac:(lia)) as Eu. pose proof (Z.mod_pos_bound (y - mi_row_start tile) mib ltac:(lia)) as Mu.
    pose proof (Z.div_mod (x - mi_col_start tile) mib ltac:(lia)) as Ev. pose proof (Z.mod_pos_bound (x - mi_col_start tile) mib ltac:(lia)) as Mv.
    fold u in Eu. fold v in Ev. unfold border in Hbd.
    assert (0 <= u /\ 0 <= v) as [Hu Hv] by (split; apply Z.div_pos; lia).
    assert (u <= i) by (apply Z.lt_succ_r; apply (Z.mul_lt_mono_pos_r mib); lia).
    assert (v <= j) by (apply Z.lt_succ_r; apply (Z.mul_lt_mono_pos_r mib); lia).
    exists u, v. split_and!; try lia. destruct Hbd as [[Ey _] | [Ex _]].
    - left. apply (Z.mul_lt_mono_pos_r mib); lia.
    - assert (v < j) by (apply (Z.mul_lt_mono_pos_r mib); lia). lia. }
  destruct (Hb i' j' ltac:(lia) ltac:(lia) Hlt) as [l Hl].
  eapply (cut_filled g _ _ sb_size l y x); [apply (sb_square fs tile sb_size sb_mib_log2 Hshape _ _ (sb_index i' j' ltac:(lia) ltac:(lia))) | exact Hl | done |].
  unfold in_square. fold mib. lia.
Qed.

Lemma cut_next g g' i j : 0 <= i < Z.of_nat sb_rows -> 0 <= j < Z.of_nat sb_cols -> cut_before g i j ->
  let r := mi_row_start tile + i * mib in let c := mi_col_start tile + j * mib in
  (forall y z, in_frame fs y z -> ~ in_square r c sb_size y z -> mi_at g' y z = mi_at g y z) -> (exists l, fine_cut g' r c sb_size l) ->
  cut_before g' i (j + 1).
Proof.
  intros Hi Hj Hb r c Hout Hnew i' j' Hi' Hj' Hlt. destruct (decide (i' = i /\ j' = j)) as [[-> ->] | Hne]; [done |].
  destruct (Hb i' j' Hi' Hj' ltac:(lia)) as [l Hl]. exists l. pose proof (sb_index i' j' Hi' Hj') as Hat'.
  destruct (sb_square fs tile sb_size sb_mib_log2 Hshape _ _ Hat') as [Hsq _].
  eapply partitioned_ext; [done | | exact Hl]. intros y z Hf Hin. apply Hout; [done |].
  eapply (other_square fs tile sb_size sb_mib_log2 Hshape r c); [by apply sb_index | exact Hat' | | exact Hin].
  intros [= E1 E2]. pose proof mib_1. apply Hne. unfold r, c in *. split; nia.
Qed.

(** What is known after superblocks have been read; nothing of the cut when the data was
    found corrupt. *)
Definition tile_read (i j : Z) (a : partition_ctx * mode_grid B * D * bool) : Prop :=
  let '(x', g', d', corrupted) := a in
  pctx_ok fs x' /\ grid_ok fs g' /\ dec_ok d' /\ (corrupted = false -> cut_before g' i j).

Lemma safe_overflow : safe (fun _ => True) r_overflowed.
Proof. intros r fc Hr Hfc. by split_and!. Qed.

Lemma safe_sb_cols i n : 0 <= i < Z.of_nat sb_rows -> forall j x g d, 0 <= j -> j + Z.of_nat n = Z.of_nat sb_cols ->
  pctx_ok fs x -> grid_ok fs g -> dec_ok d -> cut_before g i j ->
  safe (tile_read i (j + Z.of_nat n))
    (decode_sb_cols fs tile ss_x ss_y sb_size n x g d (mi_row_start tile + i * mib) (mi_col_start tile + j * mib)).
Proof.
  intros Hi. induction n as [| n IH]; intros j x g d Hj Hn Hx Hg Hd Hc; cbn [decode_sb_cols].
  - apply safe_ret. split_and!; try done. by rewrite Z.add_0_r.
  - destruct (sb_square fs tile sb_size sb_mib_log2 Hshape _ _ (sb_index i j Hi ltac:(lia))) as (Hsq & Hr & Hc').
    eapply safe_bind; [apply safe_square; try done |].
    { destruct (mib_side fs tile sb_size sb_mib_log2 Hshape) as [[_ ->] | [_ ->]]; by compute. }
    { apply sb_border_filled; [lia | lia | done]. }
    intros [[x1 g1] d1] (Hx1 & Hg1 & Hd1 & Hout & Hnew). eapply safe_bind; [apply safe_overflow |]. intros [] _.
    + by apply safe_ret.
    + replace (mi_col_start tile + j * mib + mib) with (mi_col_start tile + (j + 1) * mib) by lia.
      replace (j + Z.of_nat (S n)) with (j + 1 + Z.of_nat n) by lia. apply IH; try done; [lia | lia |].
      eapply cut_next; try done; lia.
Qed.

Lemma safe_sb_rows n : forall i x g d, (i + n = sb_rows)%nat -> pctx_ok fs x -> grid_ok fs g -> dec_ok d -> cut_before g (Z.of_nat i) 0 ->
  safe (tile_read (Z.of_nat sb_rows) 0)
    (decode_sb_rows fs tile ss_x ss_y sb_size sb_mib_log2 n x g d (mi_row_start tile + Z.of_nat i * mib)).
Proof.
  induction n as [| n IH]; intros i x g d Hn Hx Hg Hd Hc; cbn [decode_sb_rows].
  - apply safe_ret. split_and!; try done. rewrite Nat.add_0_r in Hn. by subst.
  - eapply safe_bind.
    { pose proof (safe_sb_cols (Z.of_nat i) sb_cols ltac:(lia) 0 (av1_zero_left_context x) g (dec_row_start d)) as Hs.
      rewrite Z.mul_0_l, Z.add_0_r in Hs. apply Hs; [lia | lia | by apply zero_left_ok | done | by apply row_start_ok | done]. }
    intros [[[x1 g1] d1] []] (Hx1 & Hg1 & Hd1 & Hc1); [by apply safe_ret |].
    replace (mi_row_start tile + Z.of_nat i * mib + mib) with (mi_row_start tile + Z.of_nat (S i) * mib) by lia.
    apply IH; try done; [lia |]. intros i' j' Hi' Hj' Hlt. apply Hc1; [done | done | done | lia].
Qed.

Lemma safe_decode_tile x g d : pctx_ok fs x -> grid_ok fs g -> dec_ok d ->
  safe (fun '(x', g', d', corrupted) => pctx_ok fs x' /\ grid_ok fs g' /\ dec_ok d' /\
      (corrupted = false -> forall r c, sb_at r c -> exists l, fine_cut g' r c sb_size l))
    (decode_tile fs tile ss_x ss_y sb_size sb_mib_log2 x g d).
Proof.
  intros Hx Hg Hd. unfold decode_tile. destruct (zero_above_ok fs tile sb_size sb_mib_log2 Hshape x Hx) as (x1 & -> & Hx1 & _).
  rewrite r_lift_some. eapply safe_weaken; [| pose proof (safe_sb_rows sb_rows 0 x1 g (dec_tile_start d)) as Hs;
    rewrite Z.mul_0_l, Z.add_0_r in Hs; apply Hs; try done; [by apply tile_start_ok | intros i' j' ? ? ?; lia]].
  intros [[[x' g'] d'] corrupted] (? & ? & ? & Hc). split_and!; try done.
  intros Hcor r c (i & j & Hi & Hj & -> & ->). apply Hc; [done | lia | lia | lia].
Qed.
End Safety.

Lemma walk_safe {B E D} `{Hcoder : BlockCoder B E D} fs `{Hsafe : !BlockCoderSafe B E D fs} tile ss_x ss_y
    sb_size sb_mib_log2 (g : mode_grid B) x d fc bytes size r0 :
  Forall is_byte bytes -> frame_even fs -> tile_shape fs tile sb_size sb_mib_log2 -> pctx_ok fs x -> grid_ok fs g -> dec_ok d -> fc_ok fc ->
  match rrun fc (decode_tile fs tile ss_x ss_y sb_size sb_mib_log2 x g d) (aom_reader_init r0 (Some bytes) size).2 with
  | Ok ((x', g', d', corrupted, fc'), _) =>
      (pctx_ok fs x' /\ grid_ok fs g' /\ dec_ok d' /\
       (corrupted = false -> forall r c, sb_at tile sb_size sb_mib_log2 r c -> exists l : list placed,
          (forall y z, in_frame fs y z -> in_square r c sb_size y z -> exists b, In b l /\ cell_in b y z) /\
          disjoint_blocks l /\ Forall (holds bsize_of fs (fun _ _ => block_fine) g') l)) /\ fc_ok fc'
  | Raise e => e = AOM_CODEC_CORRUPT_FRAME
  | Fault => False
  end.
Proof.
  intros Hb Hfs Hshape Hx Hg Hd Hfc.
  pose proof (safe_tile _ _ bytes size r0 fc (safe_decode_tile fs tile ss_x ss_y Hfs (ts_start _ _ _ _ Hshape) sb_size sb_mib_log2 Hshape x g d Hx Hg Hd) Hb Hfc) as Hs.
  destruct (rrun fc _ _) as [[[[[[x' g'] d'] corrupted] fc'] r'] | |]; [| done | done].
  destruct Hs as [(? & ? & ? & Hc) ?]. split_and!; try done. intros Hcor r c Hat. destruct (Hc Hcor r c Hat) as [l Hl]. exists l.
  destruct (sb_square fs tile sb_size sb_mib_log2 Hshape r c Hat) as [Hsq _]. split_and!.
  - intros y z Hf Hi. destruct (partitioned_covers _ _ _ _ _ _ _ _ _ _ _ _ Hsq Hl Hf Hi) as (b & ? & ? & _). by exists b.
  - by eapply partitioned_disjoint.
  - by eapply partitioned_holds.
Qed.

(** C7: The walk over a tile of arbitrary bytes ends and is safe. For any block coder that is
    itself safe, [decode_tile] never runs out of the six levels of recursion that a
    superblock allows, never leaves the partition contexts, the tables or the grid of mode
    infos and never follows a neighbour that has not been read: it reports a corrupt frame
    or returns. If it has not run over the end of the data, the blocks of every superblock
    cover its part of the frame, each cell exactly once. *)
Theorem tile_walk_terminates {B E D} `{Hcoder : BlockCoder B E D} fs `{Hsafe : !BlockCoderSafe B E D fs} tile ss_x ss_y
    sb_size sb_mib_log2 (g : mode_grid B) x d fc bytes size r0 :
  Forall is_byte bytes -> frame_even fs -> tile_shape fs tile sb_size sb_mib_log2 -> pctx_ok fs x -> grid_ok fs g -> dec_ok d -> fc_ok fc ->
  match rrun fc (decode_tile fs tile ss_x ss_y sb_size sb_mib_log2 x g d) (aom_reader_init r0 (Some bytes) size).2 with
  | Ok ((x', g', d', corrupted, fc'), _) =>
      (pctx_ok fs x' /\ grid_ok fs g' /\ dec_ok d' /\
       (corrupted = false -> forall r c, sb_at tile sb_size sb_mib_log2 r c -> exists l : list placed,
          (forall y z, in_frame fs y z -> in_square r c sb_size y z -> exists b, In b l /\ cell_in b y z) /\
          disjoint_blocks l /\ Forall (holds bsize_of fs (fun _ _ => block_fine) g') l)) /\ fc_ok fc'
  | Raise e => e = AOM_CODEC_CORRUPT_FRAME
  | Fault => False
  end.
Proof. apply walk_safe. Qed.
