(* ===== verification/ModeInfo.v ===== *)
(** * The mode info of a block in an intra frame

    What [write_mb_modes_kf] ([av1/encoder/bitstream.c]) sends for a block and
    [read_intra_frame_mode_info] ([av1/decoder/decodemv.c]) reads: segment id, skip flag,
    strength of the directional enhancement filter, changes of the quantizer and of the loop
    filter, prediction modes of luma and chroma with their angles, chroma from luma, palette
    and filter intra.  Intra block copy is off ([allow_intrabc = 0]).

    Both sides keep a [MACROBLOCKD] from block to block, of which [block_state] has the parts
    that this syntax uses.  The reader does not clear a mode info before it fills it, so
    fields that are not sent keep what the memory held: [stale]. *)

From stdpp Require Import sorting.
From S2P Require Import Prelude CodecTypes BitChannel EntCoder RangeSpec Cdf EntEncProof EntDecProof EntRoundTrip SymbolIO SyntaxIO TileSafety TxCommon Tile TxbContext DefaultCdfs FrameContext TxType PaletteColors Partition PartitionTree.

#[local] Open Scope Z_scope.
#[local] Arguments Z.of_nat : simpl never.
#[local] Arguments Z.mul : simpl never.

#[local] Abbreviation tile_writer := (writer (aom_writer * cdfs fc_key)).
#[local] Abbreviation tile_reader := (reader (aom_reader * cdfs fc_key)).

(** ** Data *)

Definition MAX_SEGMENTS : Z := 8.
Definition UINT8_MAX : Z := 255.
Definition MAXQ : Z := 255.
Definition MAX_LOOP_FILTER : Z := 63.
Definition FRAME_LF_COUNT : Z := 4.
Definition DELTA_Q_SMALL : Z := 3.
Definition DELTA_LF_SMALL : Z := 3.
Definition MAX_ANGLE_DELTA : Z := 3.
Definition FILTER_INTRA_MODES : Z := 5.
Definition DC_PRED : Z := 0.
Definition V_PRED : Z := 1.
Definition D67_PRED : Z := 8.
Definition UV_DC_PRED : Z := 0.
Definition UV_CFL_PRED : Z := 13.
Definition UV_INTRA_MODES : Z := 14.

(** Fields of [MB_MODE_INFO]; modes by their number. *)
Record intra_info := {
  ii_bsize : BLOCK_SIZE;
  ii_segment_id : Z;
  ii_skip_txfm : bool;
  ii_current_qindex : Z;
  ii_delta_lf : list Z;
  ii_delta_lf_from_base : Z;
  ii_mode : Z;
  ii_angle_y : Z;
  ii_uv_mode : Z;
  ii_angle_uv : Z;
  ii_cfl_alpha_idx : Z;
  ii_cfl_alpha_signs : Z;
  ii_palette : PALETTE_MODE_INFO;
  ii_use_filter_intra : bool;
  ii_filter_intra_mode : Z }.

#[export] Instance palette_info_eq_dec : EqDecision PALETTE_MODE_INFO.
Proof. solve_decision. Defined.
#[export] Instance intra_info_eq_dec : EqDecision intra_info.
Proof. solve_decision. Defined.

(** Fields of [AV1_COMMON], its sequence parameters and the [lossless] array of
    [MACROBLOCKD]; [kp_skip_over4x4] is the encoder's. *)
Record kf_params := {
  kp_frame : frame_size;
  kp_cm : frame_params;
  kp_update_map : bool;
  kp_segid_preskip : bool;
  kp_last_active_segid : Z;
  kp_skip_over4x4 : bool;
  kp_lossless : list Z;
  kp_coded_lossless : bool;
  kp_cdef_bits : Z;
  kp_sb_size : BLOCK_SIZE;
  kp_delta_q_present : bool;
  kp_delta_q_res : Z;
  kp_delta_lf_present : bool;
  kp_delta_lf_multi : bool;
  kp_delta_lf_res : Z;
  kp_monochrome : bool;
  kp_ss_x : bool;
  kp_ss_y : bool;
  kp_allow_screen_content_tools : bool;
  kp_enable_filter_intra : bool;
  kp_bit_depth : Z }.

(** What is kept from block to block; the segment map belongs to the frame. *)
Record block_state := {
  st_seg_map : list Z;
  st_cdef_transmitted : list bool;
  st_current_base_qindex : Z;
  st_delta_lf : list Z;
  st_delta_lf_from_base : Z }.

Definition set_seg_map (m : list Z) (st : block_state) : block_state :=
  {| st_seg_map := m; st_cdef_transmitted := st_cdef_transmitted st; st_current_base_qindex := st_current_base_qindex st;
     st_delta_lf := st_delta_lf st; st_delta_lf_from_base := st_delta_lf_from_base st |}.
Definition set_cdef_transmitted (t : list bool) (st : block_state) : block_state :=
  {| st_seg_map := st_seg_map st; st_cdef_transmitted := t; st_current_base_qindex := st_current_base_qindex st;
     st_delta_lf := st_delta_lf st; st_delta_lf_from_base := st_delta_lf_from_base st |}.
Definition set_base_qindex (q : Z) (st : block_state) : block_state :=
  {| st_seg_map := st_seg_map st; st_cdef_transmitted := st_cdef_transmitted st; st_current_base_qindex := q;
     st_delta_lf := st_delta_lf st; st_delta_lf_from_base := st_delta_lf_from_base st |}.
Definition set_delta_lf (l : list Z) (st : block_state) : block_state :=
  {| st_seg_map := st_seg_map st; st_cdef_transmitted := st_cdef_transmitted st; st_current_base_qindex := st_current_base_qindex st;
     st_delta_lf := l; st_delta_lf_from_base := st_delta_lf_from_base st |}.
Definition set_delta_lf_from_base (v : Z) (st : block_state) : block_state :=
  {| st_seg_map := st_seg_map st; st_cdef_transmitted := st_cdef_transmitted st; st_current_base_qindex := st_current_base_qindex st;
     st_delta_lf := st_delta_lf st; st_delta_lf_from_base := v |}.

(** A strength of the directional enhancement filter that is stored: the corner of its unit
    of 64x64, whose mode info takes it, and the strength. *)
Definition cdef_store : Type := Z * Z * Z.

Section Syntax.
Context (P : kf_params).

#[local] Abbreviation fs := (kp_frame P).

Definition num_planes : Z := if kp_monochrome P then 1 else 3.
Definition kp_mib_size : Z := mi_size_wide (kp_sb_size P).

(** [xd->is_chroma_ref] *)
Definition is_chroma_ref (mi_row mi_col : Z) (bsize : BLOCK_SIZE) : bool :=
  let bw := mi_size_wide bsize in
  let bh := mi_size_high bsize in
  (negb (Z.land mi_row 1 =? 0) || (Z.land bh 1 =? 0) || negb (kp_ss_y P)) &&
  (negb (Z.land mi_col 1 =? 0) || (Z.land bw 1 =? 0) || negb (kp_ss_x P)).

(** ** Segment ids *)

(** The places of the segment map under a block. *)
Definition seg_places (bsize : BLOCK_SIZE) (mi_row mi_col : Z) : list Z :=
  let xmis := Z.min (fs_mi_cols fs - mi_col) (mi_size_wide bsize) in
  let ymis := Z.min (fs_mi_rows fs - mi_row) (mi_size_high bsize) in
  let mi_offset := mi_row * fs_mi_cols fs + mi_col in
  y ← seqZ 0 ymis; x ← seqZ 0 xmis; [mi_offset + y * fs_mi_cols fs + x].

Definition get_segment_id (segment_ids : list Z) (bsize : BLOCK_SIZE) (mi_row mi_col : Z) : option Z :=
  ids ← mapM (arr_get segment_ids) (seg_places bsize mi_row mi_col);
  Some (foldl Z.min MAX_SEGMENTS ids).

(** [set_spatial_segment_id] and [set_segment_id] *)
Fixpoint set_segment_rows (segment_ids : list Z) (mi_offset mi_stride x_mis : Z) (y_mis : nat) (segment_id : Z) : option (list Z) :=
  match y_mis with
  | O => Some segment_ids
  | S y_mis =>
      segment_ids ← memset segment_ids mi_offset segment_id x_mis;
      set_segment_rows segment_ids (mi_offset + mi_stride) mi_stride x_mis y_mis segment_id
  end.

Definition set_spatial_segment_id (segment_ids : list Z) (bsize : BLOCK_SIZE) (mi_row mi_col segment_id : Z) : option (list Z) :=
  let mi_offset := mi_row * fs_mi_cols fs + mi_col in
  let xmis := Z.min (fs_mi_cols fs - mi_col) (mi_size_wide bsize) in
  let ymis := Z.min (fs_mi_rows fs - mi_row) (mi_size_high bsize) in
  set_segment_rows segment_ids mi_offset (fs_mi_cols fs) xmis (Z.to_nat ymis) segment_id.

(** The prediction and the number of the model. *)
Definition av1_get_spatial_seg_pred (seg_map : list Z) (s : block_site intra_info) (skip_over4x4 : bool) : option (Z * Z) :=
  let step_size := if skip_over4x4 then 2 else 1 in
  let up_available := bool_decide (is_Some (bs_above s)) in
  let left_available := bool_decide (is_Some (bs_left s)) in
  prev_ul ← (if up_available && left_available then
               get_segment_id seg_map BLOCK_4X4 (bs_row s - step_size) (bs_col s - step_size) else Some UINT8_MAX);
  prev_u ← (if up_available then get_segment_id seg_map BLOCK_4X4 (bs_row s - step_size) (bs_col s - 0) else Some UINT8_MAX);
  prev_l ← (if left_available then get_segment_id seg_map BLOCK_4X4 (bs_row s - 0) (bs_col s - step_size) else Some UINT8_MAX);
  let cdf_index :=
    if prev_ul =? UINT8_MAX then 0
    else if (prev_ul =? prev_u) && (prev_ul =? prev_l) then 2
    else if (prev_ul =? prev_u) || (prev_ul =? prev_l) || (prev_u =? prev_l) then 1
    else 0 in
  let pred :=
    if prev_u =? UINT8_MAX then (if prev_l =? UINT8_MAX then 0 else prev_l)
    else if prev_l =? UINT8_MAX then prev_u
    else if prev_ul =? prev_u then prev_u else prev_l in
  Some (pred, cdf_index).

Definition av1_neg_interleave (x ref max : Z) : Z :=
  let diff := x - ref in
  if ref =? 0 then x
  else if max - 1 <=? ref then - x + max - 1
  else if 2 * ref <? max then
    if Z.abs diff <=? ref then (if 0 <? diff then Z.shiftl diff 1 - 1 else Z.shiftl (- diff) 1)
    else x
  else
    if Z.abs diff <? max - ref then (if 0 <? diff then Z.shiftl diff 1 - 1 else Z.shiftl (- diff) 1)
    else (max - x) - 1.

Definition av1_neg_deinterleave (diff ref max : Z) : Z :=
  if ref =? 0 then diff
  else if max - 1 <=? ref then max - diff - 1
  else if 2 * ref <? max then
    if diff <=? 2 * ref then
      if negb (Z.land diff 1 =? 0) then ref + Z.shiftr (diff + 1) 1 else ref - Z.shiftr diff 1
    else diff
  else
    if diff <=? 2 * (max - ref - 1) then
      if negb (Z.land diff 1 =? 0) then ref + Z.shiftr (diff + 1) 1 else ref - Z.shiftr diff 1
    else max - (diff + 1).

(** ** Contexts *)

Definition skip_of (o : option intra_info) : Z := match o with Some b => b2z (ii_skip_txfm b) | None => 0 end.

Definition av1_get_skip_txfm_context (s : block_site intra_info) : Z := skip_of (bs_above s) + skip_of (bs_left s).

(** [av1_above_block_mode] and [av1_left_block_mode] *)
Definition block_mode (o : option intra_info) : Z := match o with Some b => ii_mode b | None => DC_PRED end.

Definition intra_mode_context : list Z := [0; 1; 2; 3; 4; 4; 4; 4; 3; 0; 1; 2; 0].

Definition get_y_mode_cdf (s : block_site intra_info) : option fc_key :=
  above_ctx ← arr_get intra_mode_context (block_mode (bs_above s));
  left_ctx ← arr_get intra_mode_context (block_mode (bs_left s));
  Some (F_kf_y_cdf, [above_ctx; left_ctx]).

Definition av1_is_directional_mode (mode : Z) : bool := (V_PRED <=? mode) && (mode <=? D67_PRED).

Definition av1_use_angle_delta (bsize : BLOCK_SIZE) : bool := block_size_value BLOCK_8X8 <=? block_size_value bsize.

Definition is_cfl_allowed (bsize : BLOCK_SIZE) (segment_id : Z) : option bool :=
  lossless ← arr_get (kp_lossless P) segment_id;
  if negb (lossless =? 0) then Some (bool_decide (av1_ss_size_lookup bsize (kp_ss_x P) (kp_ss_y P) = Some BLOCK_4X4))
  else Some ((block_size_wide bsize <=? 32) && (block_size_high bsize <=? 32)).

Definition av1_filter_intra_allowed (bsize : BLOCK_SIZE) (mode palette_size : Z) : bool :=
  (mode =? DC_PRED) && (palette_size =? 0) &&
  (kp_enable_filter_intra P && (block_size_wide bsize <=? 32) && (block_size_high bsize <=? 32)).

Definition CFL_SIGN_U (js : Z) : Z := Z.shiftr ((js + 1) * 11) 5.
Definition CFL_SIGN_V (js : Z) : Z := (js + 1) - 3 * CFL_SIGN_U js.
Definition CFL_CONTEXT_U (js : Z) : Z := js + 1 - 3.
Definition CFL_CONTEXT_V (js : Z) : Z := CFL_SIGN_V js * 3 + CFL_SIGN_U js - 3.

Definition palette_site_of (s : block_site intra_info) : palette_site :=
  {| ps_above := ii_palette <$> bs_above s; ps_left := ii_palette <$> bs_left s; ps_mb_to_top_edge := - (bs_row s * 4 * 8) |}.

(** Where the strength of a unit of the directional enhancement filter is kept: the place in
    [cdef_transmitted] and the corner of the unit. *)
Definition cdef_index (mi_row mi_col : Z) : Z :=
  let cdef_size := Z.shiftl 1 (6 - 2) in
  let cdef_unit_row_in_sb := b2z (negb (Z.land mi_row cdef_size =? 0)) in
  let cdef_unit_col_in_sb := b2z (negb (Z.land mi_col cdef_size =? 0)) in
  if bool_decide (kp_sb_size P = BLOCK_128X128) then cdef_unit_col_in_sb + 2 * cdef_unit_row_in_sb else 0.

Definition cdef_corner (mi_row mi_col : Z) : Z * Z :=
  let first_block_mask := Z.lnot (Z.shiftl 1 (6 - 2) - 1) in
  (Z.land mi_row first_block_mask, Z.land mi_col first_block_mask).

(** At the start of a superblock nothing has been transmitted. *)
Definition cdef_start (mi_row mi_col : Z) (st : block_state) : block_state :=
  let sb_mask := kp_mib_size - 1 in
  if (Z.land mi_row sb_mask =? 0) && (Z.land mi_col sb_mask =? 0) then set_cdef_transmitted [false; false; false; false] st else st.

Definition sb_upper_left (s : block_site intra_info) : bool :=
  (Z.land (bs_row s) (kp_mib_size - 1) =? 0) && (Z.land (bs_col s) (kp_mib_size - 1) =? 0).

Definition frame_lf_count : Z := if 1 <? num_planes then FRAME_LF_COUNT else FRAME_LF_COUNT - 2.

(** ** Writing *)

Section Write.
Context (al : allocator).

(** Returns the segment id of the block, which is replaced when the block is skipped.  The
    map that only the encoder's decisions use is left out. *)
Definition write_segment_id (st : block_state) (s : block_site intra_info) (mbmi : intra_info) (skip_txfm : bool)
  : tile_writer (block_state * Z) :=
  if negb (fp_seg_enabled (kp_cm P)) || negb (kp_update_map P) then mret (st, ii_segment_id mbmi) else
  '(pred, cdf_num) ← w_lift (av1_get_spatial_seg_pred (st_seg_map st) s (kp_skip_over4x4 P));
  if skip_txfm then
    m ← w_lift (set_spatial_segment_id (st_seg_map st) (ii_bsize mbmi) (bs_row s) (bs_col s) pred);
    mret (set_seg_map m st, pred)
  else
    let coded_id := av1_neg_interleave (ii_segment_id mbmi) pred (kp_last_active_segid P + 1) in
    _ ← w_symbol al coded_id (F_seg_spatial_pred_seg_cdf, [cdf_num]) MAX_SEGMENTS;
    m ← w_lift (set_spatial_segment_id (st_seg_map st) (ii_bsize mbmi) (bs_row s) (bs_col s) (ii_segment_id mbmi));
    mret (set_seg_map m st, ii_segment_id mbmi).

Definition write_skip (s : block_site intra_info) (segment_id : Z) (mi : intra_info) : tile_writer bool :=
  active ← w_lift (segfeature_active (kp_cm P) segment_id SEG_LVL_SKIP);
  if active : bool then mret true else
  _ ← w_symbol al (b2z (ii_skip_txfm mi)) (F_skip_txfm_cdfs, [av1_get_skip_txfm_context s]) 2;
  mret (ii_skip_txfm mi).

(** [cdef_strength]: the strength in the mode info at a place of the grid. *)
Definition write_cdef (cdef_strength : Z -> Z -> option Z) (st : block_state) (s : block_site intra_info) (skip : bool) : tile_writer block_state :=
  if kp_coded_lossless P then mret st else
  let st := cdef_start (bs_row s) (bs_col s) st in
  let index := cdef_index (bs_row s) (bs_col s) in
  transmitted ← w_lift (zget (st_cdef_transmitted st) index);
  if negb transmitted && negb skip then
    let '(row, col) := cdef_corner (bs_row s) (bs_col s) in
    strength ← w_lift (cdef_strength row col);
    _ ← w_literal al strength (kp_cdef_bits P);
    mret (set_cdef_transmitted (<[Z.to_nat index := true]> (st_cdef_transmitted st)) st)
  else mret st.

(** The end of [write_delta_qindex] and of [write_delta_lflevel], which only differ in their
    models; both constants are 3. *)
Definition write_delta (k : fc_key) (small delta : Z) : tile_writer unit :=
  let sign := delta <? 0 in
  let abs := if sign then - delta else delta in
  _ ← w_symbol al (Z.min abs small) k (small + 1);
  _ ← (if negb (abs <? small) then
         let rem_bits := get_msb (abs - 1) in
         let thr := Z.shiftl 1 rem_bits + 1 in
         _ ← w_literal al (rem_bits - 1) 3;
         w_literal al (abs - thr) rem_bits
       else mret tt);
  if 0 <? abs then w_bit al (b2z sign) else mret tt.

Definition write_delta_qindex (delta_qindex : Z) : tile_writer unit := write_delta (F_delta_q_cdf, []) DELTA_Q_SMALL delta_qindex.

Definition write_delta_lflevel (lf_id delta_lflevel : Z) (delta_lf_multi : bool) : tile_writer unit :=
  write_delta (if delta_lf_multi then (F_delta_lf_multi_cdf, [lf_id]) else (F_delta_lf_cdf, [])) DELTA_LF_SMALL delta_lflevel.

(** The loop over the filters, which also stores the new levels. *)
Fixpoint write_delta_lfs (n : nat) (lf_id : Z) (levels old : list Z) : tile_writer (list Z) :=
  match n with
  | O => mret old
  | S n =>
      new ← w_lift (arr_get levels lf_id);
      cur ← w_lift (arr_get old lf_id);
      _ ← write_delta_lflevel lf_id (Z.quot (new - cur) (kp_delta_lf_res P)) true;
      write_delta_lfs n (lf_id + 1) levels (<[Z.to_nat lf_id := new]> old)
  end.

Definition write_delta_q_params (st : block_state) (s : block_site intra_info) (mbmi : intra_info) (skip : bool) : tile_writer block_state :=
  if kp_delta_q_present P && (negb (bool_decide (ii_bsize mbmi = kp_sb_size P)) || negb skip) && sb_upper_left s then
    _ ← write_delta_qindex (Z.quot (ii_current_qindex mbmi - st_current_base_qindex st) (kp_delta_q_res P));
    let st := set_base_qindex (ii_current_qindex mbmi) st in
    if kp_delta_lf_present P then
      if kp_delta_lf_multi P then
        l ← write_delta_lfs (Z.to_nat frame_lf_count) 0 (ii_delta_lf mbmi) (st_delta_lf st);
        mret (set_delta_lf l st)
      else
        _ ← write_delta_lflevel (-1) (Z.quot (ii_delta_lf_from_base mbmi - st_delta_lf_from_base st) (kp_delta_lf_res P)) false;
        mret (set_delta_lf_from_base (ii_delta_lf_from_base mbmi) st)
    else mret st
  else mret st.

Definition write_angle_delta (angle_delta mode : Z) : tile_writer unit :=
  w_symbol al (angle_delta + MAX_ANGLE_DELTA) (F_angle_delta_cdf, [mode - V_PRED]) (2 * MAX_ANGLE_DELTA + 1).

Definition write_intra_uv_mode (uv_mode y_mode : Z) (cfl_allowed : bool) : tile_writer unit :=
  w_symbol al uv_mode (F_uv_mode_cdf, [b2z cfl_allowed; y_mode]) (UV_INTRA_MODES - b2z (negb cfl_allowed)).

Definition write_cfl_alphas (idx joint_sign : Z) : tile_writer unit :=
  _ ← w_symbol al joint_sign (F_cfl_sign_cdf, []) 8;
  _ ← (if negb (CFL_SIGN_U joint_sign =? 0) then w_symbol al (Z.shiftr idx 4) (F_cfl_alpha_cdf, [CFL_CONTEXT_U joint_sign]) 16 else mret tt);
  if negb (CFL_SIGN_V joint_sign =? 0) then w_symbol al (Z.land idx 15) (F_cfl_alpha_cdf, [CFL_CONTEXT_V joint_sign]) 16 else mret tt.

Definition write_filter_intra_mode_info (mbmi : intra_info) : tile_writer unit :=
  if av1_filter_intra_allowed (ii_bsize mbmi) (ii_mode mbmi) (palette_size_y (ii_palette mbmi)) then
    _ ← w_symbol al (b2z (ii_use_filter_intra mbmi)) (F_filter_intra_cdfs, [block_size_value (ii_bsize mbmi)]) 2;
    if ii_use_filter_intra mbmi then w_symbol al (ii_filter_intra_mode mbmi) (F_filter_intra_mode_cdf, []) FILTER_INTRA_MODES else mret tt
  else mret tt.

(** With [is_keyframe]. *)
Definition write_intra_prediction_modes (s : block_site intra_info) (segment_id : Z) (mbmi : intra_info) : tile_writer unit :=
  let bsize := ii_bsize mbmi in
  let mode := ii_mode mbmi in
  let chroma := negb (kp_monochrome P) && is_chroma_ref (bs_row s) (bs_col s) bsize in
  key ← w_lift (get_y_mode_cdf s);
  _ ← w_symbol al mode key INTRA_MODES;
  let use_angle_delta := av1_use_angle_delta bsize in
  _ ← (if use_angle_delta && av1_is_directional_mode mode then write_angle_delta (ii_angle_y mbmi) mode else mret tt);
  _ ← (if chroma then
         let uv_mode := ii_uv_mode mbmi in
         cfl_allowed ← w_lift (is_cfl_allowed bsize segment_id);
         _ ← write_intra_uv_mode uv_mode mode cfl_allowed;
         _ ← (if uv_mode =? UV_CFL_PRED then write_cfl_alphas (ii_cfl_alpha_idx mbmi) (ii_cfl_alpha_signs mbmi) else mret tt);
         intra_mode ← w_lift (get_uv_mode uv_mode);
         if use_angle_delta && av1_is_directional_mode intra_mode then write_angle_delta (ii_angle_uv mbmi) intra_mode else mret tt
       else mret tt);
  _ ← (if av1_allow_palette (kp_allow_screen_content_tools P) bsize then
         write_palette_mode_info al (palette_site_of s) bsize (mode =? DC_PRED) (chroma && (ii_uv_mode mbmi =? UV_DC_PRED))
           (kp_bit_depth P) (ii_palette mbmi)
       else mret tt);
  write_filter_intra_mode_info mbmi.

Definition write_mb_modes_kf (cdef_strength : Z -> Z -> option Z) (st : block_state) (s : block_site intra_info) (mbmi : intra_info)
  : tile_writer block_state :=
  '(st, segment_id) ← (if kp_segid_preskip P && kp_update_map P then write_segment_id st s mbmi false else mret (st, ii_segment_id mbmi));
  skip ← write_skip s segment_id mbmi;
  '(st, segment_id) ← (if negb (kp_segid_preskip P) && kp_update_map P then write_segment_id st s mbmi skip else mret (st, segment_id));
  st ← write_cdef cdef_strength st s skip;
  st ← write_delta_q_params st s mbmi skip;
  _ ← write_intra_prediction_modes s segment_id mbmi;
  mret st.
End Write.

(** ** Reading *)

Definition read_segment_id (st : block_state) (s : block_site intra_info) (skip : bool) : tile_reader Z :=
  '(pred, cdf_num) ← r_lift (av1_get_spatial_seg_pred (st_seg_map st) s false);
  if skip then mret pred else
  coded_id ← r_symbol (F_seg_spatial_pred_seg_cdf, [cdf_num]) MAX_SEGMENTS;
  let segment_id := av1_neg_deinterleave coded_id pred (kp_last_active_segid P + 1) in
  if (segment_id <? 0) || (kp_last_active_segid P <? segment_id) then raise AOM_CODEC_CORRUPT_FRAME
  else mret segment_id.

Definition read_intra_segment_id (st : block_state) (s : block_site intra_info) (bsize : BLOCK_SIZE) (skip : bool) : tile_reader (block_state * Z) :=
  if negb (fp_seg_enabled (kp_cm P)) then mret (st, 0) else
  segment_id ← read_segment_id st s skip;
  m ← r_lift (set_spatial_segment_id (st_seg_map st) bsize (bs_row s) (bs_col s) segment_id);
  mret (set_seg_map m st, segment_id).

Definition read_skip_txfm (s : block_site intra_info) (segment_id : Z) : tile_reader bool :=
  active ← r_lift (segfeature_active (kp_cm P) segment_id SEG_LVL_SKIP);
  if active : bool then mret true else
  skip_txfm ← r_symbol (F_skip_txfm_cdfs, [av1_get_skip_txfm_context s]) 2;
  mret (negb (skip_txfm =? 0)).

(** Appends the store into the mode info at the corner of the unit to [stores]. *)
Definition read_cdef (st : block_state) (stores : list cdef_store) (s : block_site intra_info) (skip_txfm : bool)
  : tile_reader (block_state * list cdef_store) :=
  if kp_coded_lossless P then mret (st, stores) else
  let st := cdef_start (bs_row s) (bs_col s) st in
  let index := cdef_index (bs_row s) (bs_col s) in
  transmitted ← r_lift (zget (st_cdef_transmitted st) index);
  if negb transmitted && negb skip_txfm then
    let '(row, col) := cdef_corner (bs_row s) (bs_col s) in
    strength ← r_literal (kp_cdef_bits P);
    mret (set_cdef_transmitted (<[Z.to_nat index := true]> (st_cdef_transmitted st)) st, stores ++ [(row, col, strength)])
  else mret (st, stores).

(** [read_delta_qindex] and [read_delta_lflevel]. *)
Definition read_delta (k : fc_key) (small : Z) (s : block_site intra_info) (bsize : BLOCK_SIZE) (skip_txfm : bool) : tile_reader Z :=
  if (negb (bool_decide (bsize = kp_sb_size P)) || negb skip_txfm) && sb_upper_left s then
    abs ← r_symbol k (small + 1);
    abs ← (if negb (abs <? small) then
             rem_bits ← r_literal 3;
             let rem_bits := rem_bits + 1 in
             let thr := Z.shiftl 1 rem_bits + 1 in
             v ← r_literal rem_bits;
             mret (v + thr)
           else mret abs);
    sign ← (if negb (abs =? 0) then r_bit else mret 1);
    mret (if negb (sign =? 0) then - abs else abs)
  else mret 0.

Fixpoint read_delta_lfs (n : nat) (lf_id : Z) (levels : list Z) (s : block_site intra_info) (bsize : BLOCK_SIZE) (skip_txfm : bool)
  : tile_reader (list Z) :=
  match n with
  | O => mret levels
  | S n =>
      cur ← r_lift (arr_get levels lf_id);
      delta ← read_delta (F_delta_lf_multi_cdf, [lf_id]) DELTA_LF_SMALL s bsize skip_txfm;
      let tmp_lvl := cur + delta * kp_delta_lf_res P in
      read_delta_lfs n (lf_id + 1) (<[Z.to_nat lf_id := clamp tmp_lvl (- MAX_LOOP_FILTER) MAX_LOOP_FILTER]> levels) s bsize skip_txfm
  end.

(** The levels are stored in the mode info too, as [xd] has them afterwards. *)
Definition read_delta_q_params (st : block_state) (s : block_site intra_info) (bsize : BLOCK_SIZE) (skip_txfm : bool) : tile_reader block_state :=
  if kp_delta_q_present P then
    delta ← read_delta (F_delta_q_cdf, []) DELTA_Q_SMALL s bsize skip_txfm;
    let st := set_base_qindex (clamp (st_current_base_qindex st + delta * kp_delta_q_res P) 1 MAXQ) st in
    if kp_delta_lf_present P then
      if kp_delta_lf_multi P then
        l ← read_delta_lfs (Z.to_nat frame_lf_count) 0 (st_delta_lf st) s bsize skip_txfm;
        mret (set_delta_lf l st)
      else
        delta ← read_delta (F_delta_lf_cdf, []) DELTA_LF_SMALL s bsize skip_txfm;
        let tmp_lvl := st_delta_lf_from_base st + delta * kp_delta_lf_res P in
        mret (set_delta_lf_from_base (clamp tmp_lvl (- MAX_LOOP_FILTER) MAX_LOOP_FILTER) st)
    else mret st
  else mret st.

Definition read_angle_delta (mode : Z) : tile_reader Z :=
  sym ← r_symbol (F_angle_delta_cdf, [mode - V_PRED]) (2 * MAX_ANGLE_DELTA + 1);
  mret (sym - MAX_ANGLE_DELTA).

Definition read_intra_mode_uv (cfl_allowed : bool) (y_mode : Z) : tile_reader Z :=
  r_symbol (F_uv_mode_cdf, [b2z cfl_allowed; y_mode]) (UV_INTRA_MODES - b2z (negb cfl_allowed)).

(** The index and the signs. *)
Definition read_cfl_alphas : tile_reader (Z * Z) :=
  joint_sign ← r_symbol (F_cfl_sign_cdf, []) 8;
  idx ← (if negb (CFL_SIGN_U joint_sign =? 0) then
           u ← r_symbol (F_cfl_alpha_cdf, [CFL_CONTEXT_U joint_sign]) 16; mret (u8 (Z.shiftl u 4))
         else mret 0);
  idx ← (if negb (CFL_SIGN_V joint_sign =? 0) then
           v ← r_symbol (F_cfl_alpha_cdf, [CFL_CONTEXT_V joint_sign]) 16; mret (u8 (idx + v))
         else mret idx);
  mret (idx, joint_sign).

(** The flag and the mode. *)
Definition read_filter_intra_mode_info (bsize : BLOCK_SIZE) (mode palette_size old : Z) : tile_reader (bool * Z) :=
  if av1_filter_intra_allowed bsize mode palette_size then
    use ← r_symbol (F_filter_intra_cdfs, [block_size_value bsize]) 2;
    if negb (use =? 0) then m ← r_symbol (F_filter_intra_mode_cdf, []) FILTER_INTRA_MODES; mret (true, m)
    else mret (false, old)
  else mret (false, old).

(** The mode info after its fields have been stored. *)
Definition intra_result (stale : intra_info) (bsize : BLOCK_SIZE) (segment_id : Z) (skip_txfm : bool) (st : block_state)
    (mode angle_y uv_mode cfl_idx cfl_signs angle_uv : Z) (palette : PALETTE_MODE_INFO) (use_filter_intra : bool) (filter_intra_mode : Z) : intra_info :=
  {| ii_bsize := bsize; ii_segment_id := segment_id; ii_skip_txfm := skip_txfm; ii_current_qindex := st_current_base_qindex st;
     ii_delta_lf := if kp_delta_q_present P && kp_delta_lf_present P && kp_delta_lf_multi P then
         take (Z.to_nat frame_lf_count) (st_delta_lf st) ++ drop (Z.to_nat frame_lf_count) (ii_delta_lf stale) else ii_delta_lf stale;
     ii_delta_lf_from_base := if kp_delta_q_present P && kp_delta_lf_present P && negb (kp_delta_lf_multi P) then
         st_delta_lf_from_base st else ii_delta_lf_from_base stale;
     ii_mode := mode; ii_angle_y := angle_y; ii_uv_mode := uv_mode; ii_angle_uv := angle_uv; ii_cfl_alpha_idx := cfl_idx;
     ii_cfl_alpha_signs := cfl_signs; ii_palette := palette; ii_use_filter_intra := use_filter_intra;
     ii_filter_intra_mode := filter_intra_mode |}.

(** The second half of [read_intra_frame_mode_info]; [stale] is what the mode info held before. *)
Definition read_intra_modes (stale : intra_info) (st : block_state) (stores : list cdef_store) (s : block_site intra_info)
    (bsize : BLOCK_SIZE) (segment_id : Z) (skip_txfm : bool) : tile_reader (block_state * list cdef_store * intra_info) :=
  key ← r_lift (get_y_mode_cdf s);
  mode ← r_symbol key INTRA_MODES;
  let use_angle_delta := av1_use_angle_delta bsize in
  angle_y ← (if use_angle_delta && av1_is_directional_mode mode then read_angle_delta mode else mret 0);
  let chroma := negb (kp_monochrome P) && is_chroma_ref (bs_row s) (bs_col s) bsize in
  '(uv_mode, cfl_idx, cfl_signs, angle_uv) ←
    (if chroma then
       cfl_allowed ← r_lift (is_cfl_allowed bsize segment_id);
       uv_mode ← read_intra_mode_uv cfl_allowed mode;
       '(idx, signs) ← (if uv_mode =? UV_CFL_PRED then read_cfl_alphas else mret (ii_cfl_alpha_idx stale, ii_cfl_alpha_signs stale));
       intra_mode ← r_lift (get_uv_mode uv_mode);
       angle ← (if use_angle_delta && av1_is_directional_mode intra_mode then read_angle_delta intra_mode else mret 0);
       mret (uv_mode, idx, signs, angle)
     else mret (UV_DC_PRED, ii_cfl_alpha_idx stale, ii_cfl_alpha_signs stale, ii_angle_uv stale));
  let cleared := {| palette_colors := palette_colors (ii_palette stale); palette_size_y := 0; palette_size_uv := 0 |} in
  palette ← (if av1_allow_palette (kp_allow_screen_content_tools P) bsize then
               read_palette_mode_info (palette_site_of s) bsize (mode =? DC_PRED) (chroma && (uv_mode =? UV_DC_PRED)) (kp_bit_depth P) cleared
             else mret cleared);
  '(use_filter_intra, filter_intra_mode) ← read_filter_intra_mode_info bsize mode (palette_size_y palette) (ii_filter_intra_mode stale);
  mret (st, stores, intra_result stale bsize segment_id skip_txfm st mode angle_y uv_mode cfl_idx cfl_signs angle_uv palette use_filter_intra filter_intra_mode).

Definition read_intra_frame_mode_info (stale : intra_info) (st : block_state) (stores : list cdef_store) (s : block_site intra_info)
    (bsize : BLOCK_SIZE) : tile_reader (block_state * list cdef_store * intra_info) :=
  '(st, segment_id) ← (if kp_segid_preskip P then read_intra_segment_id st s bsize false else mret (st, ii_segment_id stale));
  skip_txfm ← read_skip_txfm s segment_id;
  '(st, segment_id) ← (if negb (kp_segid_preskip P) then read_intra_segment_id st s bsize skip_txfm else mret (st, segment_id));
  '(st, stores) ← read_cdef st stores s skip_txfm;
  st ← read_delta_q_params st s bsize skip_txfm;
  read_intra_modes stale st stores s bsize segment_id skip_txfm.
End Syntax.

(** ** As a block coder *)

Section Coder.
Context (P : kf_params) (cdef_strength : Z -> Z -> option Z) (stale : Z -> Z -> intra_info).

(** [av1_reset_loop_filter_delta] *)
Definition av1_reset_loop_filter_delta (st : block_state) : block_state :=
  let n := Z.to_nat (frame_lf_count P) in
  set_delta_lf (replicate n 0 ++ drop n (st_delta_lf st)) (set_delta_lf_from_base 0 st).

(** At the start of [write_modes]. *)
Definition kf_enc_tile_start (st : block_state) : block_state :=
  if kp_delta_q_present P then
    let st := set_base_qindex (fp_base_qindex (kp_cm P)) st in
    if kp_delta_lf_present P then av1_reset_loop_filter_delta st else st
  else st.

(** The quantizer in [decode_tiles], the filters at the start of [decode_tile]. *)
Definition kf_dec_tile_start (st : block_state) : block_state :=
  av1_reset_loop_filter_delta (set_base_qindex (fp_base_qindex (kp_cm P)) st).

(** Frames without loop restoration, whose units would be sent before the partitions. *)
#[export] Instance kf_coder : BlockCoder intra_info block_state (block_state * list cdef_store) := {
  bsize_of := ii_bsize;
  enc_tile_start := kf_enc_tile_start;
  enc_row_start := fun e => e;
  write_units := fun _ e _ _ _ => mret e;
  write_modes_b := fun al e s b => write_mb_modes_kf P al cdef_strength e s b;
  dec_tile_start := fun d => (kf_dec_tile_start d.1, d.2);
  dec_row_start := fun d => d;
  read_units := fun d _ _ _ => mret d;
  parse_block := fun d s _ bsize =>
    '(st, stores, b) ← read_intra_frame_mode_info P (stale (bs_row s) (bs_col s)) d.1 d.2 s bsize;
    mret ((st, stores), b) }.
End Coder.
