(* ===== verification/ModeInfoProof.v ===== *)
(** * Mode infos survive

    Round trips of the parts of a mode info, the promise of the key frame's block coder, and
    with it the tile of a key frame: partitions and mode infos together. *)

From stdpp Require Import sorting.
From S2P Require Import Prelude CodecTypes BitChannel EntCoder RangeSpec Cdf EntEncProof EntDecProof EntRoundTrip SymbolIO SyntaxIO TileSafety TxCommon Tile TxbContext DefaultCdfs FrameContext TxType PaletteColors Partition PartitionTree PartitionProof PartitionSafety ModeInfo.

#[local] Open Scope Z_scope.
#[local] Arguments Z.of_nat : simpl never.
#[local] Arguments Z.mul : simpl never.

(** ** Segment ids *)

Lemma neg_interleave_ok x ref max : 0 <= x < max -> 0 <= ref < max ->
  0 <= av1_neg_interleave x ref max < max /\ av1_neg_deinterleave (av1_neg_interleave x ref max) ref max = x.
Proof.
  intros Hx Hr. assert (exists y, av1_neg_interleave x ref max = y) as [y Ey] by eauto. rewrite Ey.
  unfold av1_neg_interleave in Ey. unfold av1_neg_deinterleave.
  rewrite !Z.shiftl_mul_pow2 in Ey by lia. rewrite !Z.shiftr_div_pow2 by lia.
  assert (Z.land y 1 = y mod 2) as El by (change 1 with (Z.ones 1); by rewrite Z.land_ones). rewrite El. change (2 ^ 1) with 2 in *.
  destruct (Z.eqb_spec ref 0), (Z.leb_spec (max - 1) ref), (Z.ltb_spec (2 * ref) max);
    repeat match type of Ey with
    | context [?a <=? ?b] => destruct (Z.leb_spec a b)
    | context [?a <? ?b] => destruct (Z.ltb_spec a b)
    end;
    repeat match goal with
    | |- context [?a <=? ?b] => destruct (Z.leb_spec a b)
    | |- context [?a =? ?b] => destruct (Z.eqb_spec a b)
    end; cbn [negb]; Z.to_euclidean_division_equations; lia.
Qed.

(** Segment ids survive their mapping around the predicted id: [av1_neg_interleave] sends
    the ids below [max] to numbers below [max], the predicted one to 0, and
    [av1_neg_deinterleave] inverts it. *)
Theorem neg_interleave_roundtrip x ref max : 0 <= x < max -> 0 <= ref < max ->
  0 <= av1_neg_interleave x ref max < max /\
  av1_neg_deinterleave (av1_neg_interleave x ref max) ref max = x /\
  av1_neg_interleave ref ref max = 0.
Proof.
  intros Hx Hr. destruct (neg_interleave_ok x ref max Hx Hr) as [? ?]. split; [done |]. split; [done |].
  unfold av1_neg_interleave. rewrite Z.sub_diag. destruct (Z.eqb_spec ref 0); [done |].
  destruct (Z.leb_spec (max - 1) ref); [lia |]. change (Z.abs 0) with 0. change (0 <? 0) with false.
  destruct (2 * ref <? max); [destruct (Z.leb_spec 0 ref) | destruct (Z.ltb_spec 0 (max - ref))]; (reflexivity || lia).
Qed.

(** ** The parts of a mode info *)

Section Parts.
Context (al : allocator) (Hal : grants_all al) (adaptive : bool) (P : kf_params).

#[local] Abbreviation transfers := (transfers al adaptive).

(** A block that sends changes of the quantizer. *)
Definition sends_delta (s : block_site intra_info) (bsize : BLOCK_SIZE) (skip : bool) : bool :=
  (negb (bool_decide (bsize = kp_sb_size P)) || negb skip) && sb_upper_left P s.

Lemma transfers_large a : 3 <= a <= 512 ->
  transfers 11 (_ ← w_literal al (get_msb (a - 1) - 1) 3; w_literal al (a - (Z.shiftl 1 (get_msb (a - 1)) + 1)) (get_msb (a - 1)))
    (rem_bits ← r_literal 3; v ← r_literal (rem_bits + 1); mret (v + (Z.shiftl 1 (rem_bits + 1) + 1))) tt a.
Proof.
  intros Ha. unfold get_msb. set (k := Z.log2 (a - 1)). assert (1 <= k <= 8) as Hk.
  { split; [apply Z.log2_le_pow2; lia |]. unfold k. assert (Z.log2 (a - 1) < 9); [apply Z.log2_lt_pow2; lia | lia]. }
  pose proof (Z.log2_spec (a - 1) ltac:(lia)) as [Hlo Hhi]. fold k in Hlo, Hhi. rewrite Z.pow_succ_r in Hhi by lia.
  apply (transfers_le al adaptive (3 + k)); [lia |].
  eapply transfers_bind; [apply transfers_literal; [done | lia |]; change (2 ^ 3) with 8; lia |]. cbv beta.
  replace (k - 1 + 1) with k by lia. rewrite Z.shiftl_1_l.
  eapply transfers_post; [apply transfers_literal; [done | lia | lia] |]. intros q. cbv beta. f_equal. by replace (a - (2 ^ k + 1) + (2 ^ k + 1)) with a by lia.
Qed.

Lemma transfers_delta k delta s bsize skip : in_layout k = true -> alphabet k = 4 -> Z.abs delta <= 512 -> sends_delta s bsize skip = true ->
  transfers 13 (write_delta al k 3 delta) (read_delta P k 3 s bsize skip) tt delta.
Proof.
  intros Hk Hn Hd Hs. unfold read_delta, write_delta. fold (sends_delta s bsize skip). rewrite Hs.
  set (a := if delta <? 0 then - delta else delta).
  assert (a = Z.abs delta) as Ea by (unfold a; destruct (Z.ltb_spec delta 0); lia).
  apply (transfers_le al adaptive (1 + (11 + 1))); [lia |].
  eapply transfers_bind; [apply transfers_symbol; [done | done | done | lia] |]. cbv beta.
  eapply (transfers_bind al adaptive 11 1 _ _ tt a).
  - destruct (Z.ltb_spec a 3).
    + rewrite (proj2 (Z.ltb_lt (Z.min a 3) 3)) by lia. rewrite Z.min_l by lia. cbn [negb]. apply (transfers_le al adaptive 0); [lia | apply transfers_ret].
    + rewrite (proj2 (Z.ltb_ge (Z.min a 3) 3)) by lia. cbn [negb]. apply transfers_large. lia.
  - cbv beta. destruct (Z.ltb_spec 0 a).
    + rewrite (proj2 (Z.eqb_neq a 0)) by lia. cbn [negb]. eapply transfers_post; [apply transfers_bit; done |].
      intros q. cbv beta. assert ((if negb (b2z (delta <? 0) =? 0) then - a else a) = delta) as -> by (destruct (Z.ltb_spec delta 0); cbn; lia). done.
    + assert (a = 0) as E0 by lia. rewrite E0. cbn [Z.eqb negb]. apply (transfers_le al adaptive 0); [lia |].
      eapply transfers_pre; [done |]. cbv beta. assert (delta = 0) as -> by lia. apply transfers_ret.
Qed.

(** ** Prediction modes *)

Lemma key_1 f i n : fc_dims f = [n] -> fc_coded f [i] = true -> 0 <= i < n -> in_layout (f, [i]) = true.
Proof.
  intros Hf Hc Hi. unfold in_layout, fc_layout. rewrite Hf, Hc. cbn [idx_in]. by rewrite (proj2 (Z.leb_le 0 i)), (proj2 (Z.ltb_lt i n)) by lia.
Qed.

Lemma key_2 f i j n m : fc_dims f = [n; m] -> fc_coded f [i; j] = true -> 0 <= i < n -> 0 <= j < m -> in_layout (f, [i; j]) = true.
Proof.
  intros Hf Hc Hi Hj. unfold in_layout, fc_layout. rewrite Hf, Hc. cbn [idx_in].
  by rewrite (proj2 (Z.leb_le 0 i)), (proj2 (Z.ltb_lt i n)), (proj2 (Z.leb_le 0 j)), (proj2 (Z.ltb_lt j m)) by lia.
Qed.

Lemma transfers_angle delta mode : - 3 <= delta <= 3 -> av1_is_directional_mode mode = true ->
  transfers 1 (write_angle_delta al delta mode) (read_angle_delta mode) tt delta.
Proof.
  intros Hd [H1%Z.leb_le H2%Z.leb_le]%andb_true_iff. unfold V_PRED, D67_PRED in *. unfold write_angle_delta, read_angle_delta, MAX_ANGLE_DELTA, V_PRED.
  eapply transfers_post; [apply transfers_symbol; [done | by apply (key_1 _ _ 8); [| | lia] | done | lia] |].
  intros q. cbv beta. by replace (delta + 3 - 3) with delta by lia.
Qed.

(** What is left of the index of chroma from luma: the parts with a sign. *)
Definition cfl_same (js idx idx' : Z) : Prop :=
  (CFL_SIGN_U js <> 0 -> Z.shiftr idx' 4 = Z.shiftr idx 4) /\ (CFL_SIGN_V js <> 0 -> Z.land idx' 15 = Z.land idx 15).

Lemma cfl_signs js : 0 <= js < 8 -> (CFL_SIGN_U js <> 0 -> 0 <= CFL_CONTEXT_U js < 6) /\ (CFL_SIGN_V js <> 0 -> 0 <= CFL_CONTEXT_V js < 6).
Proof.
  intros Hj. assert (js = 0 \/ js = 1 \/ js = 2 \/ js = 3 \/ js = 4 \/ js = 5 \/ js = 6 \/ js = 7) as H by lia.
  repeat destruct H as [-> | H]; [.. | subst]; vm_compute; split; intros; (done || (split; congruence)).
Qed.

Lemma cfl_join u v : 0 <= u < 16 -> 0 <= v < 16 ->
  u8 (u8 (Z.shiftl u 4) + v) = 16 * u + v /\ Z.shiftr (16 * u + v) 4 = u /\ Z.land (16 * u + v) 15 = v.
Proof.
  intros Hu Hv. rewrite Z.shiftl_mul_pow2, Z.shiftr_div_pow2 by lia. change 15 with (Z.ones 4). rewrite Z.land_ones by lia. change (2 ^ 4) with 16.
  unfold u8, wrap. change (2 ^ 8) with 256. Z.to_euclidean_division_equations. lia.
Qed.

Lemma transfers_cfl js idx : 0 <= js < 8 -> 0 <= idx < 256 ->
  exists idx', cfl_same js idx idx' /\ transfers 3 (write_cfl_alphas al idx js) read_cfl_alphas tt (idx', js).
Proof.
  intros Hj Hi. destruct (cfl_signs js Hj) as [Cu Cv].
  assert (0 <= Z.shiftr idx 4 < 16) as Hu by (rewrite Z.shiftr_div_pow2 by lia; change (2 ^ 4) with 16; Z.to_euclidean_division_equations; lia).
  assert (0 <= Z.land idx 15 < 16) as Hv by (change 15 with (Z.ones 4); rewrite Z.land_ones by lia; change (2 ^ 4) with 16; apply Z.mod_pos_bound; lia).
  set (u := if CFL_SIGN_U js =? 0 then 0 else Z.shiftr idx 4). set (v := if CFL_SIGN_V js =? 0 then 0 else Z.land idx 15).
  assert (0 <= u < 16) by (unfold u; destruct (CFL_SIGN_U js =? 0); [lia | done]).
  assert (0 <= v < 16) by (unfold v; destruct (CFL_SIGN_V js =? 0); [lia | done]).
  destruct (cfl_join u v) as (Ej & Eu & Ev); [done | done |]. exists (16 * u + v). split.
  { unfold cfl_same. rewrite Eu, Ev. unfold u, v. split; intros Hz; by rewrite (proj2 (Z.eqb_neq _ _) Hz). }
  unfold write_cfl_alphas, read_cfl_alphas. apply (transfers_le al adaptive (1 + (1 + 1))); [lia |].
  eapply transfers_bind; [by apply transfers_symbol |]. cbv beta.
  eapply (transfers_bind al adaptive 1 1 _ _ tt (u8 (Z.shiftl u 4))).
  - unfold u. destruct (Z.eqb_spec (CFL_SIGN_U js) 0) as [_ | Hn]; cbn [negb].
    + apply (transfers_le al adaptive 0); [lia | apply transfers_ret].
    + eapply transfers_post; [apply transfers_symbol; [done | by apply (key_1 _ _ 6); [| | apply Cu] | done | done] | done].
  - cbv beta. rewrite <- Ej. unfold v. destruct (Z.eqb_spec (CFL_SIGN_V js) 0) as [_ | Hn]; cbn [negb].
    + eapply transfers_pre; [done |]. rewrite Z.add_0_r. apply (transfers_le al adaptive 0); [lia |].
      assert (u8 (u8 (Z.shiftl u 4)) = u8 (Z.shiftl u 4)) as ->; [| apply transfers_ret].
      unfold u8, wrap. apply Z.mod_mod. lia.
    + eapply transfers_post; [| intros q; reflexivity]. eapply transfers_post; [apply transfers_symbol; [done | by apply (key_1 _ _ 6); [| | apply Cv] | done | done] | done].
Qed.

Lemma bsize_index bsize : 0 <= block_size_value bsize < 22.
Proof. by destruct bsize. Qed.

Lemma transfers_filter_intra b old : (ii_use_filter_intra b = true -> 0 <= ii_filter_intra_mode b < 5) ->
  (av1_filter_intra_allowed P (ii_bsize b) (ii_mode b) (palette_size_y (ii_palette b)) = false -> ii_use_filter_intra b = false) ->
  transfers 2 (write_filter_intra_mode_info P al b) (read_filter_intra_mode_info P (ii_bsize b) (ii_mode b) (palette_size_y (ii_palette b)) old)
    tt (ii_use_filter_intra b, if ii_use_filter_intra b then ii_filter_intra_mode b else old).
Proof.
  intros Hm Ha. unfold write_filter_intra_mode_info, read_filter_intra_mode_info. destruct (av1_filter_intra_allowed _ _ _ _).
  - apply (transfers_le al adaptive (1 + 1)); [lia |].
    eapply transfers_bind; [apply transfers_symbol; [done | apply (key_1 _ _ 22); [done | done | apply bsize_index] | done | destruct (ii_use_filter_intra b); cbn; lia] |].
    cbv beta. destruct (ii_use_filter_intra b); cbn [b2z Z.eqb negb].
    + eapply transfers_post; [apply transfers_symbol; [done | done | done | by apply Hm] | done].
    + apply (transfers_le al adaptive 0); [lia | apply transfers_ret].
  - rewrite Ha by done. apply (transfers_le al adaptive 0); [lia | apply transfers_ret].
Qed.
End Parts.

(** ** The segment map *)

Section SegMap.
Context (P : kf_params).

#[local] Abbreviation fs := (kp_frame P).
#[local] Abbreviation cols := (fs_mi_cols (kp_frame P)).
#[local] Abbreviation last := (kp_last_active_segid P).

Definition seg_at (m : list Z) (r c : Z) : Z := nthz m (r * cols + c).

(** Each 8x8 samples have one id: what the encoder relies on when it looks two units away. *)
Definition seg_coarse (m : list Z) : Prop :=
  forall r c, in_frame fs r c -> seg_at m r c = seg_at m (r - r mod 2) (c - c mod 2).

Record seg_map_ok (m : list Z) : Prop := {
  sm_length : Z.of_nat (length m) = fs_mi_rows fs * cols;
  sm_range : forall r c, in_frame fs r c -> 0 <= seg_at m r c <= last;
  sm_coarse : kp_skip_over4x4 P = true -> seg_coarse m }.

(** Positions and sizes in whole units of 8x8, if the encoder relies on it. *)
Definition place_coarse (r c : Z) (bsize : BLOCK_SIZE) : Prop :=
  kp_skip_over4x4 P = true -> r mod 2 = 0 /\ c mod 2 = 0 /\ mi_size_wide bsize mod 2 = 0 /\ mi_size_high bsize mod 2 = 0.

Lemma cell_index r c : in_frame fs r c -> 0 <= r * cols + c < fs_mi_rows fs * cols.
Proof. intros [Hr Hc]. assert ((r + 1) * cols <= fs_mi_rows fs * cols) by (apply Z.mul_le_mono_nonneg_r; lia). nia. Qed.

Lemma cell_index_inj r c r' c' : in_frame fs r c -> in_frame fs r' c' -> r * cols + c = r' * cols + c' -> r = r' /\ c = c'.
Proof. intros [_ Hc] [_ Hc'] E. assert (r = r') by nia. subst. lia. Qed.

Lemma get_segment_4x4 m r c : seg_map_ok m -> last < 8 -> in_frame fs r c -> get_segment_id P m BLOCK_4X4 r c = Some (seg_at m r c).
Proof.
  intros [Hl Hr _] H8 Hf. pose proof (cell_index r c Hf). pose proof (Hr r c Hf). destruct Hf as [Hfr Hfc].
  unfold get_segment_id, seg_places. cbn [mi_size_wide mi_size_high]. rewrite !Z.min_r by lia.
  change (seqZ 0 1) with [0]. cbn [mbind list_bind app]. rewrite Z.mul_0_l, !Z.add_0_r. cbn [mapM].
  rewrite (arr_get_nth m (r * cols + c)) by lia. cbn. unfold MAX_SEGMENTS, seg_at in *. f_equal. lia.
Qed.

Lemma set_rows_ok n : forall m r c x id, 0 <= r -> r + Z.of_nat n <= fs_mi_rows fs -> 0 <= c -> 0 <= x -> c + x <= cols ->
  Z.of_nat (length m) = fs_mi_rows fs * cols ->
  exists m', set_segment_rows m (r * cols + c) cols x n id = Some m' /\ length m' = length m /\
    forall y z, in_frame fs y z -> seg_at m' y z = if (r <=? y) && (y <? r + Z.of_nat n) && (c <=? z) && (z <? c + x) then id else seg_at m y z.
Proof.
  induction n as [| n IH]; intros m r c x id Hr Hn Hc Hx Hcx Hl; cbn [set_segment_rows].
  - exists m. split_and!; [done | done |]. intros y z _. destruct (Z.leb_spec r y), (Z.ltb_spec y (r + Z.of_nat 0)); cbn [andb]; (done || lia).
  - assert (r * cols + cols <= fs_mi_rows fs * cols) by (replace (r * cols + cols) with ((r + 1) * cols) by lia; apply Z.mul_le_mono_nonneg_r; lia).
    assert (0 <= r * cols) by (apply Z.mul_nonneg_nonneg; lia).
    destruct (memset_ok m (r * cols + c) id x) as (m1 & -> & L1 & N1); [lia | lia | lia |]. cbn [mbind option_bind].
    replace (r * cols + c + cols) with ((r + 1) * cols + c) by lia.
    destruct (IH m1 (r + 1) c x id) as (m' & -> & L' & N'); [lia .. |]. exists m'. split_and!; [done | congruence |].
    intros y z Hf. rewrite N' by done. unfold seg_at at 1. pose proof (cell_index y z Hf). destruct Hf as [Hy Hz]. rewrite N1 by lia. fold (seg_at m y z).
    destruct (Z.lt_trichotomy y r) as [Hlt | [-> | Hgt]].
    + rewrite (proj2 (Z.leb_gt (r + 1) y)), (proj2 (Z.leb_gt r y)) by lia. cbn [andb].
      assert ((y + 1) * cols <= r * cols) by (apply Z.mul_le_mono_nonneg_r; lia).
      by rewrite (proj2 (Z.leb_gt (r * cols + c) _)) by lia.
    + rewrite (proj2 (Z.leb_gt (r + 1) r)), (proj2 (Z.leb_le r r)), (proj2 (Z.ltb_lt r (r + Z.of_nat (S n)))) by lia. cbn [andb].
      destruct (Z.leb_spec (r * cols + c) (r * cols + z)), (Z.leb_spec c z), (Z.ltb_spec (r * cols + z) (r * cols + c + x)), (Z.ltb_spec z (c + x)); (done || lia).
    + rewrite (proj2 (Z.leb_le (r + 1) y)), (proj2 (Z.leb_le r y)) by lia. replace (r + 1 + Z.of_nat n) with (r + Z.of_nat (S n)) by lia.
      assert ((r + 1) * cols <= y * cols) by (apply Z.mul_le_mono_nonneg_r; lia).
      rewrite (proj2 (Z.ltb_ge (y * cols + z) (r * cols + c + x))), andb_false_r by lia. done.
Qed.

Lemma set_segment_ok m bsize r c id : seg_map_ok m -> in_frame fs r c -> 0 <= id <= last -> place_coarse r c bsize -> frame_even fs ->
  exists m', set_spatial_segment_id P m bsize r c id = Some m' /\ seg_map_ok m'.
Proof.
  intros [Hl Hr Hco] [Hfr Hfc] Hid Hpl [He1 He2]. unfold set_spatial_segment_id.
  assert (1 <= mi_size_wide bsize /\ 1 <= mi_size_high bsize) as [Hw Hh] by (destruct bsize; cbn; lia).
  destruct (set_rows_ok (Z.to_nat (Z.min (fs_mi_rows fs - r) (mi_size_high bsize))) m r c (Z.min (cols - c) (mi_size_wide bsize)) id)
    as (m' & -> & L & N); [lia .. | done |]. exists m'. split; [done |]. split.
  - by rewrite L.
  - intros y z Hf. rewrite N by done. destruct (_ && _); [lia | by apply Hr].
  - intros Hs y z Hf. destruct (Hpl Hs) as (Er & Ec & Ew & Eh).
    assert (in_frame fs (y - y mod 2) (z - z mod 2)) as Hf' by (unfold in_frame in *; Z.to_euclidean_division_equations; lia).
    rewrite !N, (Hco Hs y z Hf) by done. rewrite !Z2Nat.id by lia. destruct Hf as [Hy Hz].
    match goal with |- (if ?a then _ else _) = (if ?b then _ else _) => assert (a = b) as ->; [| done] end.
    apply Bool.eq_iff_eq_true. rewrite !andb_true_iff, !Z.leb_le, !Z.ltb_lt. Z.to_euclidean_division_equations. lia.
Qed.

(** The prediction of a segment id, for both sides. *)
Lemma seg_pred_ok m s over : seg_map_ok m -> 0 <= last < 8 -> site_within s -> in_frame fs (bs_row s) (bs_col s) ->
  (over = true -> kp_skip_over4x4 P = true /\ bs_row s mod 2 = 0 /\ bs_col s mod 2 = 0) ->
  exists pred cdf_num, av1_get_spatial_seg_pred P m s over = Some (pred, cdf_num) /\
    av1_get_spatial_seg_pred P m s false = Some (pred, cdf_num) /\ 0 <= pred <= last /\ 0 <= cdf_num < 3.
Proof.
  intros Hm H8 [Hwa Hwl] Hf Hov. pose proof Hf as [Hfr Hfc].
  assert (forall r c, in_frame fs r c -> get_segment_id P m BLOCK_4X4 r c = Some (seg_at m r c) /\ 0 <= seg_at m r c <= last) as Hget.
  { intros r c Hrc. split; [by apply get_segment_4x4; [| lia |] | by apply Hm]. }
  assert (forall r c r' c', in_frame fs r c -> in_frame fs r' c' -> kp_skip_over4x4 P = true -> r - r mod 2 = r' - r' mod 2 -> c - c mod 2 = c' - c' mod 2 ->
    seg_at m r c = seg_at m r' c') as Hsame.
  { intros r c r' c' H1 H2 Hs E1 E2. rewrite (sm_coarse m Hm Hs r c H1), (sm_coarse m Hm Hs r' c' H2). congruence. }
  unfold av1_get_spatial_seg_pred. set (st := if over then 2 else 1). rewrite !Z.sub_0_r.
  set (r := bs_row s) in *. set (c := bs_col s) in *.
  assert (is_Some (bs_above s) -> in_frame fs (r - st) c /\ in_frame fs (r - 1) c /\ seg_at m (r - st) c = seg_at m (r - 1) c) as Hu.
  { intros Ha. specialize (Hwa Ha). destruct over; cbn in st; subst st.
    - destruct (Hov eq_refl) as (Hs & Er & Ec). assert (in_frame fs (r - 2) c /\ in_frame fs (r - 1) c) as [? ?]
        by (unfold in_frame; Z.to_euclidean_division_equations; lia). split_and!; try done. apply Hsame; try done. Z.to_euclidean_division_equations; lia.
    - unfold in_frame. lia. }
  assert (is_Some (bs_left s) -> in_frame fs r (c - st) /\ in_frame fs r (c - 1) /\ seg_at m r (c - st) = seg_at m r (c - 1)) as Hl.
  { intros Ha. specialize (Hwl Ha). destruct over; cbn in st; subst st.
    - destruct (Hov eq_refl) as (Hs & Er & Ec). assert (in_frame fs r (c - 2) /\ in_frame fs r (c - 1)) as [? ?]
        by (unfold in_frame; Z.to_euclidean_division_equations; lia). split_and!; try done. apply Hsame; try done. Z.to_euclidean_division_equations; lia.
    - unfold in_frame. lia. }
  assert (is_Some (bs_above s) -> is_Some (bs_left s) -> in_frame fs (r - st) (c - st) /\ in_frame fs (r - 1) (c - 1) /\
    seg_at m (r - st) (c - st) = seg_at m (r - 1) (c - 1)) as Hul.
  { intros Ha Hb. specialize (Hwa Ha). specialize (Hwl Hb). destruct over; cbn in st; subst st.
    - destruct (Hov eq_refl) as (Hs & Er & Ec). assert (in_frame fs (r - 2) (c - 2) /\ in_frame fs (r - 1) (c - 1)) as [? ?]
        by (unfold in_frame; Z.to_euclidean_division_equations; lia). split_and!; try done.
      apply Hsame; try done; Z.to_euclidean_division_equations; lia.
    - unfold in_frame. lia. }
  assert (forall v, 0 <= v <= last -> (v =? 255) = false) as Hn by (intros; apply Z.eqb_neq; lia).
  unfold UINT8_MAX. destruct (bool_decide_reflect (is_Some (bs_above s))) as [Ha | Ha], (bool_decide_reflect (is_Some (bs_left s))) as [Hb | Hb]; cbn [andb].
  - destruct (Hu Ha) as (U1 & U2 & U3), (Hl Hb) as (L1 & L2 & L3), (Hul Ha Hb) as (D1 & D2 & D3).
    rewrite !(proj1 (Hget _ _ U1)), !(proj1 (Hget _ _ U2)), !(proj1 (Hget _ _ L1)), !(proj1 (Hget _ _ L2)), !(proj1 (Hget _ _ D1)), !(proj1 (Hget _ _ D2)).
    cbn [mbind option_bind]. rewrite U3, L3, D3. eexists _, _. split; [reflexivity |]. split; [reflexivity |].
    pose proof (proj2 (Hget _ _ U2)). pose proof (proj2 (Hget _ _ L2)). pose proof (proj2 (Hget _ _ D2)).
    rewrite !Hn by lia. split; repeat match goal with |- context [if ?b then _ else _] => destruct b end; lia.
  - destruct (Hu Ha) as (U1 & U2 & U3). rewrite !(proj1 (Hget _ _ U1)), !(proj1 (Hget _ _ U2)). cbn [mbind option_bind]. rewrite U3.
    eexists _, _. split; [reflexivity |]. split; [reflexivity |]. pose proof (proj2 (Hget _ _ U2)).
    change (255 =? 255) with true. rewrite ?Hn by done. cbv iota. lia.
  - destruct (Hl Hb) as (L1 & L2 & L3). rewrite !(proj1 (Hget _ _ L1)), !(proj1 (Hget _ _ L2)). cbn [mbind option_bind]. rewrite L3.
    eexists _, _. split; [reflexivity |]. split; [reflexivity |]. pose proof (proj2 (Hget _ _ L2)).
    change (255 =? 255) with true. rewrite ?Hn by done. cbv iota. lia.
  - exists 0, 0. split_and!; (done || lia).
Qed.
End SegMap.

(** ** A key frame *)

Section KeyFrame.
Context (P : kf_params) (cdef_strength : Z -> Z -> option Z) (stale : Z -> Z -> intra_info).

#[local] Abbreviation fs := (kp_frame P).
#[local] Abbreviation cm := (kp_cm P).
#[local] Abbreviation seg_enabled := (fp_seg_enabled (kp_cm P)).

(** What the headers guarantee, the encoder's strengths, and what memory can hold
    ([segment_id] is a field of three bits). *)
Record kf_ok : Prop := {
  ko_even : frame_even fs;
  ko_seg : seg_enabled = true -> kp_update_map P = true /\ 0 <= kp_last_active_segid P < 8 /\ length (fp_seg_feature_mask cm) = 8%nat;
  ko_lossless : length (kp_lossless P) = 8%nat;
  ko_cdef_bits : 0 <= kp_cdef_bits P <= 3;
  ko_sb : kp_sb_size P = BLOCK_64X64 \/ kp_sb_size P = BLOCK_128X128;
  ko_delta_q : kp_delta_q_present P = true -> 0 < kp_delta_q_res P /\ 1 <= fp_base_qindex cm <= MAXQ;
  ko_delta_lf : kp_delta_lf_present P = true -> 0 < kp_delta_lf_res P;
  ko_depth : 8 <= kp_bit_depth P <= 12;
  ko_stale : forall r c, length (palette_colors (ii_palette (stale r c))) = 24%nat /\ 0 <= ii_segment_id (stale r c) < 8 }.

(** Segment ids behind the skip flag go with no segment that is skipped, which the header
    guarantees, and with segments that are all lossless or all not, which the encoder
    chooses: the decoder loses the segment id of a skipped block, and with it whether chroma
    from luma is allowed. *)
Definition preskip_ok : Prop := kp_segid_preskip P = false ->
  (forall i, 0 <= i < 8 -> segfeature_active cm i SEG_LVL_SKIP = Some false) /\
  (forall i, 0 <= i < 8 -> nthz (kp_lossless P) i = nthz (kp_lossless P) 0).

(** A level of the loop filter that can be reached. *)
Definition lf_ok (v : Z) : Prop := - MAX_LOOP_FILTER <= v <= MAX_LOOP_FILTER /\ v mod kp_delta_lf_res P = 0.

Definition chroma_of (r c : Z) (b : intra_info) : bool := negb (kp_monochrome P) && is_chroma_ref P r c (ii_bsize b).

Definition uses_angle (b : intra_info) (mode : Z) : bool := av1_use_angle_delta (ii_bsize b) && av1_is_directional_mode mode.

(** The directional mode of chroma. *)
Definition uv_intra (uv_mode : Z) : Z := if uv_mode =? UV_CFL_PRED then 0 else uv_mode.

(** Mode infos that can be sent from a position. *)
Record info_ok (r c : Z) (b : intra_info) : Prop := {
  io_segment : if seg_enabled then 0 <= ii_segment_id b <= kp_last_active_segid P else ii_segment_id b = 0;
  io_coarse : place_coarse P r c (ii_bsize b);
  io_skip : segfeature_active cm (ii_segment_id b) SEG_LVL_SKIP = Some true -> ii_skip_txfm b = true;
  io_qindex : kp_delta_q_present P = true -> 1 <= ii_current_qindex b <= MAXQ /\ (ii_current_qindex b - fp_base_qindex cm) mod kp_delta_q_res P = 0;
  io_delta_lf : kp_delta_lf_present P = true -> length (ii_delta_lf b) = 4%nat /\ (forall i, 0 <= i < 4 -> lf_ok (nthz (ii_delta_lf b) i)) /\ lf_ok (ii_delta_lf_from_base b);
  io_mode : 0 <= ii_mode b < 13;
  io_angle : uses_angle b (ii_mode b) = true -> -3 <= ii_angle_y b <= 3;
  io_chroma : if chroma_of r c b then
      exists cfl, is_cfl_allowed P (ii_bsize b) (ii_segment_id b) = Some cfl /\ 0 <= ii_uv_mode b < UV_INTRA_MODES - b2z (negb cfl)
    else ii_uv_mode b = UV_DC_PRED;
  io_cfl : ii_uv_mode b = UV_CFL_PRED -> 0 <= ii_cfl_alpha_signs b < 8 /\ 0 <= ii_cfl_alpha_idx b < 256;
  io_angle_uv : uses_angle b (uv_intra (ii_uv_mode b)) = true -> -3 <= ii_angle_uv b <= 3;
  io_palette : palette_codable (kp_bit_depth P) (ii_mode b =? DC_PRED) (chroma_of r c b && (ii_uv_mode b =? UV_DC_PRED)) (ii_palette b);
  io_no_palette : av1_allow_palette (kp_allow_screen_content_tools P) (ii_bsize b) = false ->
    palette_size_y (ii_palette b) = 0 /\ palette_size_uv (ii_palette b) = 0;
  io_filter : ii_use_filter_intra b = true -> 0 <= ii_filter_intra_mode b < 5;
  io_no_filter : av1_filter_intra_allowed P (ii_bsize b) (ii_mode b) (palette_size_y (ii_palette b)) = false -> ii_use_filter_intra b = false }.

(** What the decoder knows of a block: all that prediction uses.  A skipped block may have
    lost its segment id. *)
Record info_same (b b' : intra_info) : Prop := {
  is_size : ii_bsize b' = ii_bsize b;
  is_segment : kp_segid_preskip P = true \/ ii_skip_txfm b = false -> ii_segment_id b' = ii_segment_id b;
  is_skip : ii_skip_txfm b' = ii_skip_txfm b;
  is_mode : ii_mode b' = ii_mode b /\ 0 <= ii_mode b < 13;
  is_angle : ii_angle_y b' = if uses_angle b (ii_mode b) then ii_angle_y b else 0;
  is_uv_mode : ii_uv_mode b' = ii_uv_mode b;
  is_cfl : ii_uv_mode b = UV_CFL_PRED ->
    ii_cfl_alpha_signs b' = ii_cfl_alpha_signs b /\ cfl_same (ii_cfl_alpha_signs b) (ii_cfl_alpha_idx b) (ii_cfl_alpha_idx b');
  is_angle_uv : uses_angle b (uv_intra (ii_uv_mode b)) = true -> ii_angle_uv b' = ii_angle_uv b;
  is_palette : agrees (ii_palette b) (ii_palette b') /\ palette_ok (kp_bit_depth P) (ii_palette b);
  is_filter : ii_use_filter_intra b' = ii_use_filter_intra b /\
    (ii_use_filter_intra b = true -> ii_filter_intra_mode b' = ii_filter_intra_mode b) }.

Definition levels_agree (le ld : list Z) : Prop :=
  forall i, 0 <= i < frame_lf_count P -> nthz ld i = nthz le i /\ lf_ok (nthz le i).

(** What the two sides keep. *)
Record kf_step (e : block_state) (d : block_state * list cdef_store) : Prop := {
  ks_seg : seg_enabled = true -> st_seg_map d.1 = st_seg_map e /\ seg_map_ok P (st_seg_map e);
  ks_cdef : st_cdef_transmitted d.1 = st_cdef_transmitted e /\ length (st_cdef_transmitted e) = 4%nat;
  ks_strengths : Forall (fun '(r, c, v) => cdef_strength r c = Some v) d.2;
  ks_qindex : kp_delta_q_present P = true -> st_current_base_qindex d.1 = st_current_base_qindex e /\
    1 <= st_current_base_qindex e <= MAXQ /\ (st_current_base_qindex e - fp_base_qindex cm) mod kp_delta_q_res P = 0;
  ks_lengths : length (st_delta_lf e) = 4%nat /\ length (st_delta_lf d.1) = 4%nat;
  ks_lf : kp_delta_q_present P = true -> kp_delta_lf_present P = true ->
    levels_agree (st_delta_lf e) (st_delta_lf d.1) /\
    st_delta_lf_from_base d.1 = st_delta_lf_from_base e /\ lf_ok (st_delta_lf_from_base e) }.

Context (Hkf : kf_ok) (Hsegs : preskip_ok).
Context (Hcdef : forall r c, in_frame fs r c -> exists v, cdef_strength r c = Some v /\ 0 <= v < 2 ^ kp_cdef_bits P).

Lemma nthz_insert (l : list Z) i j v : 0 <= i < Z.of_nat (length l) -> 0 <= j ->
  nthz (<[Z.to_nat i := v]> l) j = if j =? i then v else nthz l j.
Proof.
  intros Hi Hj. unfold nthz. rewrite !nth_lookup. destruct (Z.eqb_spec j i) as [-> | Hne].
  - by rewrite list_lookup_insert_eq by lia.
  - by rewrite list_lookup_insert_ne by lia.
Qed.

Lemma lf_count : frame_lf_count P = 2 \/ frame_lf_count P = 4.
Proof. unfold frame_lf_count, num_planes. destruct (kp_monochrome P); cbn; auto. Qed.

Lemma kf_tile_start e d : kf_step e d -> kf_step (kf_enc_tile_start P e) (kf_dec_tile_start P d.1, d.2).
Proof.
  intros [K1 K2 K3 K4 [K5 K5'] K6]. unfold kf_enc_tile_start, kf_dec_tile_start, av1_reset_loop_filter_delta.
  assert (forall l : list Z, length l = 4%nat -> length (replicate (Z.to_nat (frame_lf_count P)) 0 ++ drop (Z.to_nat (frame_lf_count P)) l) = 4%nat) as Hlen.
  { intros l Hl. rewrite length_app, length_replicate, length_drop. destruct lf_count as [-> | ->]; lia. }
  split.
  - destruct (kp_delta_q_present P), (kp_delta_lf_present P); cbn; done.
  - destruct (kp_delta_q_present P), (kp_delta_lf_present P); cbn; done.
  - done.
  - intros Hq. rewrite Hq. destruct (ko_delta_q Hkf Hq). destruct (kp_delta_lf_present P); cbn; rewrite Z.sub_diag, Z.mod_0_l by lia; done.
  - destruct (kp_delta_q_present P), (kp_delta_lf_present P); cbn; rewrite ?Hlen by done; done.
  - intros Hq Hl. rewrite Hq, Hl. pose proof (ko_delta_lf Hkf Hl). cbn.
    assert (lf_ok 0) by (split; [by compute | apply Z.mod_0_l; lia]). split_and!; try done.
    intros i Hi. assert (forall l, nthz (replicate (Z.to_nat (frame_lf_count P)) 0 ++ l) i = 0) as Hz.
    { intros l. unfold nthz. rewrite app_nth1 by (rewrite length_replicate; lia). apply nthz_replicate. lia. }
    by rewrite !Hz.
Qed.

(** ** Blocks *)

Section Block.
Context (al : allocator) (Hal : grants_all al) (adaptive : bool).
Context (s t : block_site intra_info) (Hsites : sites_same info_same s t) (Hwithin : site_within s) (Hin : in_frame fs (bs_row s) (bs_col s)).
Context (b : intra_info) (Hb : info_ok (bs_row s) (bs_col s) b).

#[local] Abbreviation transfers := (transfers al adaptive).

Lemma same_place : bs_row t = bs_row s /\ bs_col t = bs_col s.
Proof. destruct Hsites as (? & ? & _). done. Qed.

Lemma same_above : option_Forall2 info_same (bs_above s) (bs_above t) /\ option_Forall2 info_same (bs_left s) (bs_left t).
Proof. destruct Hsites as (_ & _ & ? & ? & _). done. Qed.

Lemma same_seg_pred m over : av1_get_spatial_seg_pred P m t over = av1_get_spatial_seg_pred P m s over.
Proof.
  destruct same_place as [Er Ec], same_above as [Ha Hl]. unfold av1_get_spatial_seg_pred. rewrite Er, Ec.
  assert (forall o o', option_Forall2 info_same o o' -> bool_decide (is_Some o') = bool_decide (is_Some o)) as H.
  { intros o o' [x y _ |]; apply bool_decide_ext; [split; intros; by eexists | done]. }
  by rewrite (H _ _ Ha), (H _ _ Hl).
Qed.

Lemma kf_step_seg e d m : kf_step e d -> seg_map_ok P m -> kf_step (set_seg_map m e) (set_seg_map m d.1, d.2).
Proof. intros [K1 K2 K3 K4 K5 K6] Hm. split; done. Qed.

(** The segment id, before or after the skip flag. *)
Lemma transfers_segment e d skip : kf_step e d ->
  exists e' st' id, kf_step e' (st', d.2) /\ (skip = false -> id = ii_segment_id b) /\ 0 <= id < 8 /\
    transfers 1 (if kp_update_map P then write_segment_id P al e s b skip else mret (e, ii_segment_id b))
      (read_intra_segment_id P d.1 t (ii_bsize b) skip) (e', id) (st', id).
Proof.
  intros Hst. unfold write_segment_id, read_intra_segment_id. pose proof (io_segment _ _ _ Hb) as Hid. destruct seg_enabled eqn:Een; cbn [negb orb].
  - destruct (ko_seg Hkf Een) as (Eup & Hlast & _). rewrite Eup. cbn [negb].
    destruct (ks_seg _ _ Hst Een) as [Em Hm].
    destruct (seg_pred_ok P (st_seg_map e) s (kp_skip_over4x4 P) Hm Hlast Hwithin Hin) as (pred & cdf & E1 & E2 & Hp & Hc).
    { intros Hov. destruct (io_coarse _ _ _ Hb Hov) as (? & ? & _). done. }
    destruct same_place as [Er Ec]. unfold read_segment_id. rewrite E1, Em, same_seg_pred, E2, w_lift_some, Er, Ec.
    destruct (set_segment_ok P (st_seg_map e) (ii_bsize b) (bs_row s) (bs_col s) (if skip then pred else ii_segment_id b)) as (m' & Em' & Hm'); try done.
    { destruct skip; lia. }
    { apply (io_coarse _ _ _ Hb). }
    { apply (ko_even Hkf). }
    exists (set_seg_map m' e), (set_seg_map m' d.1), (if skip then pred else ii_segment_id b).
    split; [by apply kf_step_seg |]. split; [by intros -> |]. split; [destruct skip; lia |].
    destruct skip; cbv iota in *.
    + rewrite Em', w_lift_some. apply (transfers_le al adaptive 0); [lia |].
      eapply transfers_pre; [intros q; reflexivity |]. cbv beta iota. rewrite Em', r_lift_some. apply transfers_ret.
    + destruct (neg_interleave_ok (ii_segment_id b) pred (kp_last_active_segid P + 1)) as [Hr Hi]; [lia | lia |].
      apply (transfers_le al adaptive (1 + 0)); [lia |].
      rewrite r_lift_some. cbv beta iota. eapply transfers_regroup_r.
      eapply transfers_bind; [apply transfers_symbol; [done | by apply (key_1 _ _ 3) | done | unfold MAX_SEGMENTS; lia] |].
      cbv beta iota. rewrite Hi, (proj2 (Z.ltb_ge (ii_segment_id b) 0)), (proj2 (Z.ltb_ge (kp_last_active_segid P) _)) by lia. cbn [orb].
      rewrite Em', w_lift_some. eapply transfers_pre; [intros q; reflexivity |]. cbv beta. rewrite Em', r_lift_some. apply transfers_ret.
  - exists e, d.1, 0. rewrite Hid. split; [by destruct d |]. split; [done |]. split; [lia |].
    destruct (kp_update_map P); apply (transfers_le al adaptive 0); try lia; apply transfers_ret.
Qed.

Lemma same_skip_ctx : av1_get_skip_txfm_context t = av1_get_skip_txfm_context s /\ 0 <= av1_get_skip_txfm_context s < 3.
Proof.
  destruct same_above as [Ha Hl]. unfold av1_get_skip_txfm_context.
  assert (forall o o', option_Forall2 info_same o o' -> skip_of o' = skip_of o /\ 0 <= skip_of o <= 1) as H.
  { intros o o' [x y [_ _ Hs _ _ _ _ _ _ _] |]; cbn; [rewrite Hs; destruct (ii_skip_txfm x); done | done]. }
  destruct (H _ _ Ha) as [-> ?], (H _ _ Hl) as [-> ?]. split; [done | lia].
Qed.

Lemma transfers_skip id id' a : segfeature_active cm id SEG_LVL_SKIP = Some a -> segfeature_active cm id' SEG_LVL_SKIP = Some a ->
  (a = true -> ii_skip_txfm b = true) ->
  transfers 1 (write_skip P al s id b) (read_skip_txfm P t id') (ii_skip_txfm b) (ii_skip_txfm b).
Proof.
  intros E1 E2 Ha. unfold write_skip, read_skip_txfm. rewrite E1, E2, w_lift_some, r_lift_some. destruct a.
  - rewrite (Ha eq_refl). apply (transfers_le al adaptive 0); [lia | apply transfers_ret].
  - destruct same_skip_ctx as [-> Hc]. eapply transfers_post_w; [| done].
    eapply transfers_post; [apply transfers_symbol; [done | by apply (key_1 _ _ 3) | done | destruct (ii_skip_txfm b); cbn; lia] |].
    intros q. by destruct (ii_skip_txfm b).
Qed.

Lemma cdef_place : 0 <= cdef_index P (bs_row s) (bs_col s) < 4 /\
  in_frame fs (cdef_corner (bs_row s) (bs_col s)).1 (cdef_corner (bs_row s) (bs_col s)).2.
Proof.
  destruct Hin as [Hr Hc]. split.
  - unfold cdef_index. case_bool_decide; [| lia]. destruct (negb _), (negb _); cbn; lia.
  - unfold cdef_corner. cbn [fst snd]. change (Z.shiftl 1 (6 - 2)) with (2 ^ 4). rewrite !align_down by lia. change (2 ^ 4) with 16.
    unfold in_frame. Z.to_euclidean_division_equations. lia.
Qed.

Lemma transfers_cdef e d skip : kf_step e d ->
  exists e' st' stores, kf_step e' (st', stores) /\ transfers 3 (write_cdef P al cdef_strength e s skip) (read_cdef P d.1 d.2 t skip) e' (st', stores).
Proof.
  intros Hst. unfold write_cdef, read_cdef. destruct same_place as [-> ->]. destruct (kp_coded_lossless P).
  { exists e, d.1, d.2. split; [by destruct d |]. apply (transfers_le al adaptive 0); [lia | apply transfers_ret]. }
  set (e1 := cdef_start P (bs_row s) (bs_col s) e). set (d1 := cdef_start P (bs_row s) (bs_col s) d.1).
  assert (kf_step e1 (d1, d.2)) as Hst1.
  { unfold e1, d1, cdef_start. destruct Hst. destruct (_ && _); split; done. }
  destruct (ks_cdef _ _ Hst1) as [Ec Hl]. cbn [fst] in Ec. destruct cdef_place as [Hi Hco]. set (i := cdef_index P (bs_row s) (bs_col s)) in *.
  assert (exists x, zget (st_cdef_transmitted e1) i = Some x) as [x Ex].
  { unfold zget. rewrite (proj2 (Z.leb_le 0 i)) by lia. apply lookup_lt_is_Some. lia. }
  rewrite Ec, Ex, w_lift_some, r_lift_some. destruct (negb x && negb skip).
  - destruct (cdef_corner (bs_row s) (bs_col s)) as [row col]. cbn [fst snd] in Hco. destruct (Hcdef row col Hco) as (v & Ev & Hv). rewrite Ev, w_lift_some.
    pose proof (ko_cdef_bits Hkf). set (tr := <[Z.to_nat i := true]> (st_cdef_transmitted e1)).
    exists (set_cdef_transmitted tr e1), (set_cdef_transmitted tr d1), (d.2 ++ [(row, col, v)]). split.
    { destruct Hst1. split; try done; cbn; [split; [done | by unfold tr; rewrite length_insert] |]. apply Forall_app. split; [done |]. by constructor. }
    eapply transfers_post_w; [| done]. eapply transfers_post; [| done].
    apply (transfers_le al adaptive (kp_cdef_bits P)); [lia |]. apply transfers_literal; [done | lia | done].
  - exists e1, d1, d.2. split; [done |]. apply (transfers_le al adaptive 0); [lia | apply transfers_ret].
Qed.

(** Differences that are whole steps. *)
Lemma quot_step x y res m : 0 < res -> (x - m) mod res = 0 -> (y - m) mod res = 0 ->
  y + Z.quot (x - y) res * res = x /\ Z.abs (Z.quot (x - y) res) <= Z.abs (x - y).
Proof.
  intros Hr Hx Hy. apply Z.div_exact in Hx; [| lia]. apply Z.div_exact in Hy; [| lia].
  set (u := (x - m) / res) in *. set (v := (y - m) / res) in *.
  assert (x - y = (u - v) * res) as E by lia. rewrite E, Z.quot_mul by lia. split; [lia |]. rewrite Z.abs_mul, (Z.abs_eq res) by lia. nia.
Qed.

Lemma transfers_lf_level k new cur : in_layout k = true -> alphabet k = 4 -> 0 < kp_delta_lf_res P -> lf_ok new -> lf_ok cur ->
  sends_delta P t (ii_bsize b) (ii_skip_txfm b) = true ->
  let delta := Z.quot (new - cur) (kp_delta_lf_res P) in
  transfers 13 (write_delta al k DELTA_LF_SMALL delta) (read_delta P k DELTA_LF_SMALL t (ii_bsize b) (ii_skip_txfm b)) tt delta /\
  clamp (cur + delta * kp_delta_lf_res P) (- MAX_LOOP_FILTER) MAX_LOOP_FILTER = new.
Proof.
  intros Hk Hn Hres [Hr1 Hm1] [Hr2 Hm2] Hs delta. unfold MAX_LOOP_FILTER in *.
  destruct (quot_step new cur (kp_delta_lf_res P) 0 Hres) as [E Ha]; [by rewrite Z.sub_0_r .. |]. fold delta in E, Ha. split.
  - apply transfers_delta; try done. lia.
  - rewrite E. by apply clamp_id.
Qed.

(** The loop over the filters. *)
Lemma transfers_lfs n : forall i le ld, 0 <= i -> i + Z.of_nat n = frame_lf_count P -> length le = 4%nat -> length ld = 4%nat ->
  kp_delta_lf_present P = true -> sends_delta P t (ii_bsize b) (ii_skip_txfm b) = true -> levels_agree le ld ->
  exists le' ld', length le' = 4%nat /\ length ld' = 4%nat /\ levels_agree le' ld' /\
    transfers (13 * Z.of_nat n) (write_delta_lfs P al n i (ii_delta_lf b) le) (read_delta_lfs P n i ld t (ii_bsize b) (ii_skip_txfm b)) le' ld'.
Proof.
  induction n as [| n IH]; intros i le ld Hi Hn Hle Hld Hp Hs Hag; cbn [write_delta_lfs read_delta_lfs].
  - exists le, ld. split_and!; try done. apply transfers_ret.
  - destruct (io_delta_lf _ _ _ Hb Hp) as (Hlen & Hnew & _). pose proof lf_count as Hcount. assert (0 <= i < 4) as Hi4 by lia.
    destruct (Hag i ltac:(lia)) as [Eq Hok]. pose proof (Hnew i Hi4) as Hnew_i.
    rewrite (arr_get_nth (ii_delta_lf b) i), (arr_get_nth le i), (arr_get_nth ld i), !w_lift_some, r_lift_some by lia. rewrite Eq.
    destruct (transfers_lf_level (F_delta_lf_multi_cdf, [i]) (nthz (ii_delta_lf b) i) (nthz le i)) as [T Hc]; try done.
    { by apply (key_1 _ _ 4). }
    { by apply (ko_delta_lf Hkf). }
    destruct (IH (i + 1) (<[Z.to_nat i := nthz (ii_delta_lf b) i]> le) (<[Z.to_nat i := nthz (ii_delta_lf b) i]> ld)) as (le' & ld' & H1 & H2 & H3 & T2);
      try done; rewrite ?length_insert; try lia.
    { intros j Hj. rewrite !nthz_insert by lia. destruct (Z.eqb_spec j i); [done | by apply Hag]. }
    exists le', ld'. split_and!; try done. replace (13 * Z.of_nat (S n)) with (13 + 13 * Z.of_nat n) by lia.
    eapply transfers_bind; [exact T |]. cbv beta. by rewrite Hc.
Qed.

Lemma read_lfs_quiet n : forall i ld, sends_delta P t (ii_bsize b) (ii_skip_txfm b) = false -> 0 <= i -> i + Z.of_nat n <= 4 -> length ld = 4%nat ->
  (forall j, i <= j < i + Z.of_nat n -> - MAX_LOOP_FILTER <= nthz ld j <= MAX_LOOP_FILTER) ->
  forall q, read_delta_lfs P n i ld t (ii_bsize b) (ii_skip_txfm b) q = Ok (ld, q).
Proof.
  induction n as [| n IH]; intros i ld Hs Hi Hn Hl Hr q; cbn [read_delta_lfs]; [done |].
  rewrite (arr_get_nth ld i), r_lift_some by lia. unfold read_delta at 1. fold (sends_delta P t (ii_bsize b) (ii_skip_txfm b)). rewrite Hs.
  unfold mbind, reader_bind. cbn [mret reader_ret]. rewrite Z.mul_0_l, Z.add_0_r, clamp_id by (apply Hr; lia).
  assert (<[Z.to_nat i := nthz ld i]> ld = ld) as ->.
  { apply list_insert_id. rewrite <- (arr_get_nth ld i) by lia. unfold arr_get. by rewrite (proj2 (Z.leb_le 0 i)) by lia. }
  apply IH; try done; [lia | lia |]. intros j Hj. apply Hr. lia.
Qed.

Lemma read_delta_quiet k : sends_delta P t (ii_bsize b) (ii_skip_txfm b) = false ->
  forall q, read_delta P k 3 t (ii_bsize b) (ii_skip_txfm b) q = Ok (0, q).
Proof. intros Hs q. unfold read_delta. fold (sends_delta P t (ii_bsize b) (ii_skip_txfm b)). by rewrite Hs. Qed.

(** Nothing is sent: the decoder keeps what it has. *)
Lemma delta_quiet e d : kf_step e d -> sends_delta P t (ii_bsize b) (ii_skip_txfm b) = false ->
  forall q, read_delta_q_params P d.1 t (ii_bsize b) (ii_skip_txfm b) q = Ok (d.1, q).
Proof.
  intros [_ _ _ Hq [_ Hl] Hlf] Hs q. unfold read_delta_q_params. destruct (kp_delta_q_present P) eqn:Edq; [| done].
  destruct (Hq eq_refl) as (Eq & Hr & _). unfold mbind at 1, reader_bind at 1. rewrite (read_delta_quiet _ Hs). cbv beta iota zeta.
  rewrite Z.mul_0_l, Z.add_0_r, clamp_id by (rewrite Eq; done).
  assert (set_base_qindex (st_current_base_qindex d.1) d.1 = d.1) as -> by by destruct d as [[] ?].
  destruct (kp_delta_lf_present P) eqn:Elf; [| done]. destruct (Hlf eq_refl eq_refl) as (Hag & Eb & [Hb1 _]). destruct (kp_delta_lf_multi P).
  - unfold mbind, reader_bind. rewrite (read_lfs_quiet _ 0); [by destruct d as [[] ?] | done | lia | | done |].
    + destruct lf_count as [-> | ->]; lia.
    + intros j Hj. destruct (Hag j) as [-> [? _]]; [destruct lf_count; lia | done].
  - unfold mbind, reader_bind. rewrite (read_delta_quiet _ Hs). rewrite Z.mul_0_l, Z.add_0_r, clamp_id by (rewrite Eb; done). by destruct d as [[] ?].
Qed.

Lemma transfers_delta_q e d : kf_step e d ->
  exists e' st', kf_step e' (st', d.2) /\
    transfers 65 (write_delta_q_params P al e s b (ii_skip_txfm b)) (read_delta_q_params P d.1 t (ii_bsize b) (ii_skip_txfm b)) e' st'.
Proof.
  intros Hst. assert (sb_upper_left P t = sb_upper_left P s) as Eul by (unfold sb_upper_left; by destruct same_place as [-> ->]).
  unfold write_delta_q_params. rewrite <- Eul, <- andb_assoc. fold (sends_delta P t (ii_bsize b) (ii_skip_txfm b)).
  destruct (sends_delta P t (ii_bsize b) (ii_skip_txfm b)) eqn:Es.
  2: { rewrite andb_false_r. exists e, d.1. split; [by destruct d |]. apply (transfers_le al adaptive 0); [lia |].
       eapply transfers_ext; [done | | apply (transfers_ret al adaptive e d.1)]. intros q. symmetry. by eapply delta_quiet. }
  rewrite andb_true_r. unfold read_delta_q_params. destruct (kp_delta_q_present P) eqn:Edq.
  2: { exists e, d.1. split; [by destruct d |]. apply (transfers_le al adaptive 0); [lia | apply transfers_ret]. }
  destruct (ks_qindex _ _ Hst Edq) as (Eq & Hr & Hm). destruct (ko_delta_q Hkf Edq) as [Hres _]. destruct (io_qindex _ _ _ Hb Edq) as [Hr' Hm'].
  destruct (quot_step (ii_current_qindex b) (st_current_base_qindex e) (kp_delta_q_res P) (fp_base_qindex cm) Hres Hm' Hm) as [Eqs Ha].
  set (delta := Z.quot _ _) in *. unfold MAXQ in *.
  assert (transfers 13 (write_delta_qindex al delta) (read_delta P (F_delta_q_cdf, []) DELTA_Q_SMALL t (ii_bsize b) (ii_skip_txfm b)) tt delta) as T
    by (apply transfers_delta; try done; lia).
  set (e1 := set_base_qindex (ii_current_qindex b) e). set (d1 := set_base_qindex (ii_current_qindex b) d.1).
  assert (kf_step e1 (d1, d.2)) as Hst1 by (destruct Hst; split; try done).
  assert (set_base_qindex (clamp (st_current_base_qindex d.1 + delta * kp_delta_q_res P) 1 255) d.1 = d1) as Ed by (unfold d1; by rewrite Eq, Eqs, clamp_id).
  destruct (kp_delta_lf_present P) eqn:Elf.
  2: { exists e1, d1. split; [done |]. apply (transfers_le al adaptive (13 + 0)); [lia |]. eapply transfers_bind; [exact T |]. cbv beta zeta.
       rewrite Ed. apply transfers_ret. }
  destruct (ks_lf _ _ Hst1 Edq Elf) as (Hag & Eb & Hbase). destruct (ks_lengths _ _ Hst1) as [Hle Hld]. cbn [fst] in *.
  destruct (kp_delta_lf_multi P) eqn:Emu.
  - destruct (transfers_lfs (Z.to_nat (frame_lf_count P)) 0 (st_delta_lf e1) (st_delta_lf d1)) as (le' & ld' & H1 & H2 & H3 & T2); try done.
    { destruct lf_count; lia. }
    exists (set_delta_lf le' e1), (set_delta_lf ld' d1). split; [destruct Hst1; split; try done|].
    apply (transfers_le al adaptive (13 + 13 * Z.of_nat (Z.to_nat (frame_lf_count P)))); [destruct lf_count; lia |].
    eapply transfers_bind; [exact T |]. cbv beta zeta. fold e1. rewrite Ed. eapply transfers_post_w; [| done]. eapply transfers_post; [exact T2 | done].
  - destruct (io_delta_lf _ _ _ Hb Elf) as (_ & _ & Hnew).
    destruct (transfers_lf_level (F_delta_lf_cdf, []) (ii_delta_lf_from_base b) (st_delta_lf_from_base e1)) as [T2 Hc]; try done.
    { by apply (ko_delta_lf Hkf). }
    exists (set_delta_lf_from_base (ii_delta_lf_from_base b) e1), (set_delta_lf_from_base (ii_delta_lf_from_base b) d1). split; [destruct Hst1; split; try done|].
    apply (transfers_le al adaptive (13 + 13)); [lia |].
    eapply transfers_bind; [exact T |]. cbv beta zeta. fold e1. rewrite Ed. eapply transfers_post_w; [| done].
    eapply transfers_post; [exact T2 |]. intros q. cbv beta zeta. rewrite Eb, Hc. done.
Qed.

Lemma intra_context m : 0 <= m < 13 -> exists x, arr_get intra_mode_context m = Some x /\ 0 <= x < 5.
Proof.
  intros Hm. exists (nthz intra_mode_context m). split; [apply arr_get_nth; cbn; lia |].
  assert (Forall (fun v => 0 <= v < 5) intra_mode_context) as Hf by (repeat (apply Forall_cons_2; [by compute |]); by constructor).
  rewrite Forall_nthz in Hf. apply Hf. cbn. lia.
Qed.

Lemma same_y_key : exists k, get_y_mode_cdf s = Some k /\ get_y_mode_cdf t = Some k /\ in_layout k = true /\ alphabet k = INTRA_MODES.
Proof.
  destruct same_above as [Ha Hl]. unfold get_y_mode_cdf.
  assert (forall o o', option_Forall2 info_same o o' -> block_mode o' = block_mode o /\ 0 <= block_mode o < 13) as H.
  { intros o o' [x y [_ _ _ Hm _ _ _ _ _ _] |]; cbn; [done | by compute]. }
  destruct (H _ _ Ha) as [-> Ra], (H _ _ Hl) as [-> Rl].
  destruct (intra_context _ Ra) as (x & -> & Hx), (intra_context _ Rl) as (y & -> & Hy). cbn [mbind option_bind].
  eexists. split_and!; [done | done | by apply (key_2 _ _ _ 5 5) | done].
Qed.

Lemma own_segment : 0 <= ii_segment_id b < 8.
Proof. pose proof (io_segment _ _ _ Hb). destruct seg_enabled eqn:Een; [destruct (ko_seg Hkf Een) |]; lia. Qed.

(** Whether chroma from luma is allowed does not depend on a segment id that is lost. *)
Lemma same_cfl_allowed id : 0 <= id < 8 -> (kp_segid_preskip P = true -> id = ii_segment_id b) ->
  is_cfl_allowed P (ii_bsize b) id = is_cfl_allowed P (ii_bsize b) (ii_segment_id b).
Proof.
  intros Hid Hpre. pose proof own_segment. destruct (kp_segid_preskip P) eqn:Ep; [by rewrite Hpre |].
  destruct (Hsegs Ep) as [_ Hl]. pose proof (ko_lossless Hkf). unfold is_cfl_allowed.
  rewrite (arr_get_nth _ id), (arr_get_nth _ (ii_segment_id b)), (Hl id), (Hl (ii_segment_id b)) by lia. done.
Qed.

Lemma uv_intra_ok m : 0 <= m < 14 -> get_uv_mode m = Some (uv_intra m).
Proof.
  intros Hm. unfold get_uv_mode, uv_intra, UV_CFL_PRED. rewrite arr_get_nth by (cbn; lia). f_equal.
  assert (m = 0 \/ m = 1 \/ m = 2 \/ m = 3 \/ m = 4 \/ m = 5 \/ m = 6 \/ m = 7 \/ m = 8 \/ m = 9 \/ m = 10 \/ m = 11 \/ m = 12 \/ m = 13) as H by lia.
  repeat destruct H as [-> | H]; [.. | subst]; reflexivity.
Qed.

Lemma transfers_angles mode angle : (uses_angle b mode = true -> -3 <= angle <= 3) ->
  transfers 1 (if av1_use_angle_delta (ii_bsize b) && av1_is_directional_mode mode then write_angle_delta al angle mode else mret tt)
    (if av1_use_angle_delta (ii_bsize b) && av1_is_directional_mode mode then read_angle_delta mode else mret 0)
    tt (if uses_angle b mode then angle else 0).
Proof.
  unfold uses_angle. destruct (av1_use_angle_delta _ && av1_is_directional_mode mode) eqn:E; intros Ha.
  - apply transfers_angle; [done | by apply Ha |]. by apply andb_true_iff in E as [_ ?].
  - apply (transfers_le al adaptive 0); [lia | apply transfers_ret].
Qed.

Lemma transfers_chroma id old : 0 <= id < 8 -> (kp_segid_preskip P = true -> id = ii_segment_id b) ->
  let chroma := chroma_of (bs_row s) (bs_col s) b in
  let uv_mode := ii_uv_mode b in
  exists idx signs angle,
    (uv_mode = UV_CFL_PRED -> signs = ii_cfl_alpha_signs b /\ cfl_same (ii_cfl_alpha_signs b) (ii_cfl_alpha_idx b) idx) /\
    (uses_angle b (uv_intra uv_mode) = true -> angle = ii_angle_uv b) /\
    transfers 5
      (if chroma then
         cfl_allowed ← w_lift (is_cfl_allowed P (ii_bsize b) id);
         _ ← write_intra_uv_mode al uv_mode (ii_mode b) cfl_allowed;
         _ ← (if uv_mode =? UV_CFL_PRED then write_cfl_alphas al (ii_cfl_alpha_idx b) (ii_cfl_alpha_signs b) else mret tt);
         intra_mode ← w_lift (get_uv_mode uv_mode);
         if av1_use_angle_delta (ii_bsize b) && av1_is_directional_mode intra_mode then write_angle_delta al (ii_angle_uv b) intra_mode else mret tt
       else mret tt)
      (if chroma then
         cfl_allowed ← r_lift (is_cfl_allowed P (ii_bsize b) id);
         uv_mode ← read_intra_mode_uv cfl_allowed (ii_mode b);
         '(idx, signs) ← (if uv_mode =? UV_CFL_PRED then read_cfl_alphas else mret (ii_cfl_alpha_idx old, ii_cfl_alpha_signs old));
         intra_mode ← r_lift (get_uv_mode uv_mode);
         angle ← (if av1_use_angle_delta (ii_bsize b) && av1_is_directional_mode intra_mode then read_angle_delta intra_mode else mret 0);
         mret (uv_mode, idx, signs, angle)
       else mret (UV_DC_PRED, ii_cfl_alpha_idx old, ii_cfl_alpha_signs old, ii_angle_uv old))
      tt (uv_mode, idx, signs, angle).
Proof.
  intros Hid Hpre chroma uv_mode. pose proof (io_chroma _ _ _ Hb) as Hch. fold chroma uv_mode in Hch. destruct chroma.
  - destruct Hch as (cfl & Ecfl & Huv). rewrite same_cfl_allowed, Ecfl, w_lift_some, r_lift_some by done. unfold UV_INTRA_MODES in Huv.
    assert (exists idx signs, (uv_mode = UV_CFL_PRED -> signs = ii_cfl_alpha_signs b /\ cfl_same (ii_cfl_alpha_signs b) (ii_cfl_alpha_idx b) idx) /\
      transfers 3 (if uv_mode =? UV_CFL_PRED then write_cfl_alphas al (ii_cfl_alpha_idx b) (ii_cfl_alpha_signs b) else mret tt)
        (if uv_mode =? UV_CFL_PRED then read_cfl_alphas else mret (ii_cfl_alpha_idx old, ii_cfl_alpha_signs old)) tt (idx, signs)) as (idx & signs & Hc & T).
    { destruct (Z.eqb_spec uv_mode UV_CFL_PRED) as [Ec | Ec].
      - destruct (io_cfl _ _ _ Hb Ec) as [Hj Hi]. destruct (transfers_cfl al Hal adaptive _ _ Hj Hi) as (idx & Hc & T). by exists idx, (ii_cfl_alpha_signs b).
      - exists (ii_cfl_alpha_idx old), (ii_cfl_alpha_signs old). split; [done |]. apply (transfers_le al adaptive 0); [lia | apply transfers_ret]. }
    exists idx, signs, (if uses_angle b (uv_intra uv_mode) then ii_angle_uv b else 0). split; [done |]. split; [by intros -> |].
    apply (transfers_le al adaptive (1 + (3 + 1))); [lia |].
    eapply transfers_bind; [apply transfers_symbol; [done | apply (key_2 _ _ _ 2 13); [done | done | destruct cfl; cbn; lia | apply (io_mode _ _ _ Hb)] | by destruct cfl | done] |].
    cbv beta. fold uv_mode. eapply transfers_bind; [exact T |]. cbv beta iota. rewrite uv_intra_ok, w_lift_some, r_lift_some by (destruct cfl; cbn in Huv; lia).
    eapply transfers_post; [apply transfers_angles; apply (io_angle_uv _ _ _ Hb) | done].
  - exists (ii_cfl_alpha_idx old), (ii_cfl_alpha_signs old), (ii_angle_uv old). rewrite Hch. split; [done |]. split.
    + unfold uses_angle. change (uv_intra UV_DC_PRED) with 0. by rewrite andb_false_r.
    + apply (transfers_le al adaptive 0); [lia | apply transfers_ret].
Qed.

Lemma same_palette_sites : sites_agree (palette_site_of s) (palette_site_of t) /\ site_ok (kp_bit_depth P) (palette_site_of s).
Proof.
  destruct same_above as [Ha Hl], same_place as [Er _]. unfold palette_site_of. rewrite Er.
  assert (forall o o', option_Forall2 info_same o o' -> neighbors_agree (ii_palette <$> o) (ii_palette <$> o') /\
    forall p, ii_palette <$> o = Some p -> palette_ok (kp_bit_depth P) p) as H.
  { intros o o' [x y [_ _ _ _ _ _ _ _ [Hp1 Hp2] _] |]; cbn; [split; [done | by intros p [= <-]] | done]. }
  destruct (H _ _ Ha) as [Ha1 Ha2], (H _ _ Hl) as [Hl1 Hl2]. split; split_and!; try done; split; done.
Qed.

Lemma transfers_palette_info old : length old = 24%nat ->
  let uv_dc := chroma_of (bs_row s) (bs_col s) b && (ii_uv_mode b =? UV_DC_PRED) in
  exists q, agrees (ii_palette b) q /\
    transfers 400
      (if av1_allow_palette (kp_allow_screen_content_tools P) (ii_bsize b) then
         write_palette_mode_info al (palette_site_of s) (ii_bsize b) (ii_mode b =? DC_PRED) uv_dc (kp_bit_depth P) (ii_palette b) else mret tt)
      (if av1_allow_palette (kp_allow_screen_content_tools P) (ii_bsize b) then
         read_palette_mode_info (palette_site_of t) (ii_bsize b) (ii_mode b =? DC_PRED) uv_dc (kp_bit_depth P) (cleared old) else mret (cleared old))
      tt q.
Proof.
  intros Hold uv_dc. pose proof (io_palette _ _ _ Hb) as Hp. fold uv_dc in Hp. destruct same_palette_sites as [Hs1 Hs2].
  destruct (av1_allow_palette _ _) eqn:Ea.
  - exists (recovered old (ii_palette b)). split; [by eapply recovered_agrees |]. apply transfers_palette; try done; [apply (ko_depth Hkf) | by eapply allow_sct].
  - destruct (io_no_palette _ _ _ Hb Ea). exists (cleared old). split; [apply none_agrees; try done; apply Hp |].
    apply (transfers_le al adaptive 0); [lia | apply transfers_ret].
Qed.

Lemma transfers_segment_first e d old : kf_step e d -> 0 <= ii_segment_id old < 8 ->
  exists e' st' id', kf_step e' (st', d.2) /\ 0 <= id' < 8 /\ (kp_segid_preskip P = true -> id' = ii_segment_id b) /\
    transfers 1 (if kp_segid_preskip P && kp_update_map P then write_segment_id P al e s b false else mret (e, ii_segment_id b))
      (if kp_segid_preskip P then read_intra_segment_id P d.1 t (ii_bsize b) false else mret (d.1, ii_segment_id old)) (e', ii_segment_id b) (st', id').
Proof.
  intros Hst Hold. destruct (kp_segid_preskip P) eqn:Ep; cbn [andb].
  - destruct (transfers_segment e d false Hst) as (e' & st' & id & Hst' & Eid & Hid & T). rewrite (Eid eq_refl) in *. by exists e', st', (ii_segment_id b).
  - exists e, d.1, (ii_segment_id old). split; [by destruct d |]. split; [done |]. split; [done |]. apply (transfers_le al adaptive 0); [lia | apply transfers_ret].
Qed.

Lemma transfers_segment_second e d id' skip : kf_step e d -> (kp_segid_preskip P = true -> id' = ii_segment_id b) ->
  exists e' st' id, kf_step e' (st', d.2) /\ 0 <= id < 8 /\ (kp_segid_preskip P = true \/ skip = false -> id = ii_segment_id b) /\
    transfers 1 (if negb (kp_segid_preskip P) && kp_update_map P then write_segment_id P al e s b skip else mret (e, ii_segment_id b))
      (if negb (kp_segid_preskip P) then read_intra_segment_id P d.1 t (ii_bsize b) skip else mret (d.1, id')) (e', id) (st', id).
Proof.
  intros Hst Hid'. destruct (kp_segid_preskip P) eqn:Ep; cbn [andb negb].
  - exists e, d.1, (ii_segment_id b). rewrite Hid' by done. split; [by destruct d |]. split; [apply own_segment |]. split; [done |].
    apply (transfers_le al adaptive 0); [lia | apply transfers_ret].
  - destruct (transfers_segment e d skip Hst) as (e' & st' & id & Hst' & Eid & Hid & T). exists e', st', id. split_and!; try done; try lia.
    intros [? | ?]; [done | by apply Eid].
Qed.

(** The skip feature of the segment ids that the two sides have at that point. *)
Lemma same_skip_feature id' : 0 <= id' < 8 -> (kp_segid_preskip P = true -> id' = ii_segment_id b) ->
  exists a, segfeature_active cm (ii_segment_id b) SEG_LVL_SKIP = Some a /\ segfeature_active cm id' SEG_LVL_SKIP = Some a /\ (a = true -> ii_skip_txfm b = true).
Proof.
  intros Hid Hpre. pose proof own_segment as Hown. destruct (kp_segid_preskip P) eqn:Ep.
  - rewrite Hpre by done. assert (exists a, segfeature_active cm (ii_segment_id b) SEG_LVL_SKIP = Some a) as [a Ea].
    { unfold segfeature_active. destruct seg_enabled eqn:Een; [| by eexists]. destruct (ko_seg Hkf Een) as (_ & _ & Hl).
      rewrite (arr_get_nth (fp_seg_feature_mask cm) (ii_segment_id b)) by lia. by eexists. }
    exists a. split_and!; try done. intros ->. by apply (io_skip _ _ _ Hb).
  - destruct (Hsegs Ep) as [Hs _]. exists false. rewrite !Hs by done. done.
Qed.

Lemma transfers_modes id old st stores : 0 <= id < 8 -> (kp_segid_preskip P = true \/ ii_skip_txfm b = false -> id = ii_segment_id b) ->
  length (palette_colors (ii_palette old)) = 24%nat ->
  exists b', info_same b b' /\
    transfers 409 (write_intra_prediction_modes P al s id b) (read_intra_modes P old st stores t (ii_bsize b) id (ii_skip_txfm b)) tt (st, stores, b').
Proof.
  intros Hid Hpre Hold. destruct same_y_key as (k & Ek & Ek' & Hk & Hn). unfold write_intra_prediction_modes, read_intra_modes. rewrite Ek, Ek', w_lift_some, r_lift_some.
  destruct same_place as [Er Ec]. rewrite Er, Ec. cbv zeta. fold (chroma_of (bs_row s) (bs_col s) b).
  destruct (transfers_chroma id old Hid) as (idx & signs & angle & Hcfl & Hang & Tc); [by intros; apply Hpre; left |].
  destruct (transfers_palette_info (palette_colors (ii_palette old)) Hold) as (q & Hq & Tp).
  eexists. split.
  2: { apply (transfers_le al adaptive (1 + (1 + (5 + (400 + 2))))); [lia |].
       eapply transfers_bind; [apply transfers_symbol; [done | done | done | apply (io_mode _ _ _ Hb)] |]. cbv beta.
       eapply transfers_bind; [apply transfers_angles, (io_angle _ _ _ Hb) |]. cbv beta.
       eapply transfers_bind; [exact Tc |]. cbv beta iota.
       eapply transfers_bind; [exact Tp |]. cbv beta. rewrite (proj1 (ag_size _ _ Hq)).
       eapply transfers_post; [apply transfers_filter_intra; [done | apply (io_filter _ _ _ Hb) | apply (io_no_filter _ _ _ Hb)] | intros w; reflexivity]. }
  split; cbn; try done.
  - split; [done | apply (io_mode _ _ _ Hb)].
  - split; [done |]. eapply codable_ok, (io_palette _ _ _ Hb).
  - split; [done |]. by intros ->.
Qed.

Lemma transfers_info e d : kf_step e d -> let old := stale (bs_row t) (bs_col t) in
  exists e' st' stores b', kf_step e' (st', stores) /\ info_same b b' /\
    transfers 480 (write_mb_modes_kf P al cdef_strength e s b) (read_intra_frame_mode_info P old d.1 d.2 t (ii_bsize b)) e' (st', stores, b').
Proof.
  intros Hst old. destruct (ko_stale Hkf (bs_row t) (bs_col t)) as [Hold Hid0]. fold old in Hold, Hid0.
  destruct (transfers_segment_first e d old Hst Hid0) as (e1 & d1 & id1 & Hst1 & Hid1 & Epre & T1).
  destruct (same_skip_feature id1 Hid1 Epre) as (a & Ea & Ea' & Hska).
  destruct (transfers_segment_second e1 (d1, d.2) id1 (ii_skip_txfm b) Hst1 Epre) as (e2 & d2 & id2 & Hst2 & Hid2 & Epost & T2).
  destruct (transfers_cdef e2 (d2, d.2) (ii_skip_txfm b) Hst2) as (e3 & d3 & stores & Hst3 & T3).
  destruct (transfers_delta_q e3 (d3, stores) Hst3) as (e4 & d4 & Hst4 & T4).
  destruct (transfers_modes id2 old d4 stores Hid2 Epost Hold) as (b' & Hsame & T5). cbn [fst snd] in *.
  exists e4, d4, stores, b'. split; [done |]. split; [done |]. unfold write_mb_modes_kf, read_intra_frame_mode_info.
  apply (transfers_le al adaptive (1 + (1 + (1 + (3 + (65 + 409)))))); [lia |].
  eapply transfers_bind; [exact T1 |]. cbv beta iota.
  eapply transfers_bind; [by eapply transfers_skip |]. cbv beta.
  eapply transfers_bind; [exact T2 |]. cbv beta iota.
  eapply transfers_bind; [exact T3 |]. cbv beta iota.
  eapply transfers_bind; [exact T4 |]. cbv beta.
  eapply transfers_post_w; [exact T5 | done].
Qed.
End Block.

(** The promise of the key frame's block coder. *)
Lemma kf_block_transfer al (Hal : grants_all al) adaptive e d s t b (p : PARTITION_TYPE) : kf_step e d -> sites_same info_same s t -> site_within s ->
  in_frame fs (bs_row s) (bs_col s) -> info_ok (bs_row s) (bs_col s) b ->
  exists e' d' b', kf_step e' d' /\ info_same b b' /\
    transfers al adaptive 480 (write_modes_b (BlockCoder := kf_coder P cdef_strength stale) al e s b)
      (parse_block (BlockCoder := kf_coder P cdef_strength stale) d t p (ii_bsize b)) e' (d', b').
Proof.
  intros Hst Hs Hw Hin Hb. destruct (transfers_info al Hal adaptive s t Hs Hw Hin b Hb e d Hst) as (e' & st' & stores & b' & Hst' & Hsame & T).
  exists e', (st', stores), b'. split; [done |]. split; [done |]. cbn. eapply transfers_post; [exact T | done].
Qed.

Definition kf_coder_ok al (Hal : grants_all al) adaptive :
  @BlockCoderOk intra_info block_state (block_state * list cdef_store) (kf_coder P cdef_strength stale) al adaptive fs.
Proof.
  refine (@Build_BlockCoderOk _ _ _ (kf_coder P cdef_strength stale) al adaptive fs kf_step info_same info_ok 480 0 _ _ _ _ _ _).
  - done.
  - apply is_size.
  - apply kf_tile_start.
  - done.
  - intros e d r c bsize Hst _ _ _. exists e, d. split; [done | apply transfers_ret].
  - by apply kf_block_transfer.
Defined.
End KeyFrame.

(** C4: The tile of a key frame survives: partitions and mode infos together. For every cut
    of the superblocks and all mode infos that can be sent, in frames whose segments are all
    lossless or all not when segment ids follow the skip flag, the decoder fills every cell of
    the tile with a mode info of the same size, skip flag, segment id (unless it is lost with
    the coefficients of a skipped block), prediction modes, angles, signs and magnitudes of
    chroma from luma, palette and filter, whatever its memory held before; both sides are
    left with the same segment map, quantizer and levels of the loop filter, and every
    strength of the directional enhancement filter that the decoder has stored is the
    encoder's. *)
Theorem kf_tile_roundtrip P cdef_strength stale al adaptive tile sb_mib_log2 (ge gd : mode_grid intra_info) blocks_of xe xd e d fc :
  let fs := kp_frame P in let sb_size := kp_sb_size P in
  grants_all al -> kf_ok P stale -> preskip_ok P ->
  (forall r c, in_frame fs r c -> exists v, cdef_strength r c = Some v /\ 0 <= v < 2 ^ kp_cdef_bits P) ->
  tile_shape fs tile sb_size sb_mib_log2 ->
  (forall r c, sb_at tile sb_size sb_mib_log2 r c -> partitioned ii_bsize fs (kp_ss_x P) (kp_ss_y P) (info_ok P) ge r c sb_size (blocks_of r c)) ->
  pctx_ok fs xe -> pctx_ok fs xd -> same_elsewhere tile sb_size sb_mib_log2 xe xd -> kf_step P cdef_strength e d -> grid_ok fs gd -> fc_ok fc ->
  15 * (Z.of_nat (sb_rows tile sb_mib_log2) * (Z.of_nat (sb_cols tile sb_mib_log2) * (482 * (sb_mib sb_size * sb_mib sb_size) - 1)) + 1) < 2 ^ 29 ->
  exists x' e' gd' d' fc', kf_step P cdef_strength e' d' /\ fc_ok fc' /\
    tile_survives al adaptive
      (wrun fc (write_modes (Hcoder := kf_coder P cdef_strength stale) fs tile sb_size sb_mib_log2 al ge xe e)) ((x', e'), fc')
      (rrun fc (decode_tile (Hcoder := kf_coder P cdef_strength stale) fs tile (kp_ss_x P) (kp_ss_y P) sb_size sb_mib_log2 xd gd d))
      ((x', gd', d', false), fc') /\
    (forall y x, in_tile tile y x -> exists b b', mi_at ge y x = Some b /\ mi_at gd' y x = Some b' /\ info_same P b b').
Proof.
  intros fs sb_size Hal Hkf Hpre Hcdef Hshape Hcut He Hd Hsame Hst Hg Hfc HN.
  destruct (walk_survives (Hcoder := kf_coder P cdef_strength stale) al adaptive fs (Hok := kf_coder_ok P cdef_strength stale Hkf Hpre Hcdef al Hal adaptive)
    tile (kp_ss_x P) (kp_ss_y P) sb_size sb_mib_log2 ge gd blocks_of xe xd e d fc) as (x' & e' & gd' & d' & fc' & ? & ? & ? & ? & _); try done.
  - apply (ko_even _ _ Hkf).
  - by exists x', e', gd', d', fc'.
Qed.
