(* ===== verification/ModeInfoSafety.v ===== *)
(** * Key frames of arbitrary data

    The mode infos that a decoder reads from any bytes are in range, whatever its memory held
    before, and with them the whole walk over the tile of a key frame is safe. *)

From stdpp Require Import sorting.
From S2P Require Import Prelude CodecTypes BitChannel EntCoder RangeSpec Cdf EntEncProof EntDecProof EntRoundTrip SymbolIO SyntaxIO TileSafety TxCommon Tile TxbContext DefaultCdfs FrameContext TxType PaletteColors Partition PartitionTree PartitionProof PartitionSafety ModeInfo ModeInfoProof.

#[local] Open Scope Z_scope.
#[local] Arguments Z.of_nat : simpl never.
#[local] Arguments Z.mul : simpl never.

Section Safety.
Context (P : kf_params) (cdef_strength : Z -> Z -> option Z) (stale : Z -> Z -> intra_info).

#[local] Abbreviation fs := (kp_frame P).
#[local] Abbreviation cm := (kp_cm P).
#[local] Abbreviation seg_enabled := (fp_seg_enabled (kp_cm P)).

(** The flag is the encoder's: the decoder looks at the nearest unit. *)
Context (Hkf : kf_ok P stale) (Hover : kp_skip_over4x4 P = false).

(** What the decoder keeps from block to block. *)
Record kf_dec_ok (d : block_state * list cdef_store) : Prop := {
  kd_seg : seg_enabled = true -> seg_map_ok P (st_seg_map d.1);
  kd_cdef : length (st_cdef_transmitted d.1) = 4%nat;
  kd_strengths : Forall (fun '(_, _, v) => 0 <= v < 2 ^ kp_cdef_bits P) d.2;
  kd_qindex : kp_delta_q_present P = true -> 1 <= st_current_base_qindex d.1 <= MAXQ;
  kd_lf : length (st_delta_lf d.1) = 4%nat }.

(** A mode info that later stages can use: every field that selects a table is in range. *)
Record info_fine (b : intra_info) : Prop := {
  if_segment : 0 <= ii_segment_id b < 8;
  if_qindex : kp_delta_q_present P = true -> 1 <= ii_current_qindex b <= MAXQ;
  if_mode : 0 <= ii_mode b < 13;
  if_angle : -3 <= ii_angle_y b <= 3;
  if_uv_mode : 0 <= ii_uv_mode b < 14;
  if_cfl : ii_uv_mode b = UV_CFL_PRED -> 0 <= ii_cfl_alpha_signs b < 8 /\ 0 <= ii_cfl_alpha_idx b < 256;
  if_palette : palette_fine (kp_bit_depth P) (ii_palette b);
  if_filter : ii_use_filter_intra b = true -> 0 <= ii_filter_intra_mode b < 5 }.

Lemma kf_dec_tile_start_ok d : kf_dec_ok d -> kf_dec_ok (kf_dec_tile_start P d.1, d.2).
Proof.
  intros [K1 K2 K3 K4 K5]. split; cbn; try done.
  - intros Hq. apply (ko_delta_q _ _ Hkf Hq).
  - rewrite length_app, length_replicate, length_drop. destruct (lf_count P) as [-> | ->]; lia.
Qed.

Section Block.
Context (s : block_site intra_info) (Hsite : site_fine info_fine s) (Hwithin : site_within s) (Hin : in_frame fs (bs_row s) (bs_col s)).
Context (bsize : BLOCK_SIZE).

Lemma fine_above : (forall b, bs_above s = Some b -> info_fine b) /\ (forall b, bs_left s = Some b -> info_fine b).
Proof. destruct Hsite as (? & ? & _). done. Qed.

Lemma safe_intra_segment st stores skip : kf_dec_ok (st, stores) ->
  safe (fun '(st', id) => kf_dec_ok (st', stores) /\ 0 <= id < 8) (read_intra_segment_id P st s bsize skip).
Proof.
  intros Hd. unfold read_intra_segment_id. destruct seg_enabled eqn:Een; cbn [negb]; [| by apply safe_ret].
  destruct (ko_seg _ _ Hkf Een) as (_ & Hlast & _). pose proof (kd_seg _ Hd Een) as Hm. cbn [fst] in Hm.
  destruct (seg_pred_ok P (st_seg_map st) s false Hm Hlast Hwithin Hin) as (pred & cdf & _ & E2 & Hp & Hc); [done |].
  eapply (safe_bind (fun id => 0 <= id <= kp_last_active_segid P)).
  - unfold read_segment_id. rewrite E2, r_lift_some. destruct skip; [by apply safe_ret |].
    eapply safe_bind; [apply safe_symbol; [by apply (key_1 _ _ 3) | done] |]. intros coded _. cbv beta zeta.
    destruct (Z.ltb_spec (av1_neg_deinterleave coded pred (kp_last_active_segid P + 1)) 0); cbn [orb]; [apply safe_raise |].
    destruct (Z.ltb_spec (kp_last_active_segid P) (av1_neg_deinterleave coded pred (kp_last_active_segid P + 1))); [apply safe_raise | apply safe_ret; lia].
  - intros id Hid. destruct (set_segment_ok P (st_seg_map st) bsize (bs_row s) (bs_col s) id) as (m' & -> & Hm'); try done.
    { intros Hs. congruence. }
    { apply (ko_even _ _ Hkf). }
    rewrite r_lift_some. apply safe_ret. split; [| lia]. destruct Hd. by split.
Qed.

Lemma safe_skip id : 0 <= id < 8 -> safe (fun _ => True) (read_skip_txfm P s id).
Proof.
  intros Hid. unfold read_skip_txfm.
  assert (exists a, segfeature_active cm id SEG_LVL_SKIP = Some a) as [a ->].
  { unfold segfeature_active. destruct seg_enabled eqn:Een; [| by eexists]. destruct (ko_seg _ _ Hkf Een) as (_ & _ & Hl).
    rewrite (arr_get_nth (fp_seg_feature_mask cm) id) by lia. by eexists. }
  rewrite r_lift_some. destruct a; [by apply safe_ret |].
  eapply safe_bind; [apply safe_symbol; [| done] | intros; by apply safe_ret]. apply (key_1 _ _ 3); try done.
  unfold av1_get_skip_txfm_context, skip_of. destruct (bs_above s) as [x|], (bs_left s) as [y|]; try destruct (ii_skip_txfm x); try destruct (ii_skip_txfm y); cbn; lia.
Qed.

Lemma safe_cdef st stores skip : kf_dec_ok (st, stores) -> safe (fun '(st', stores') => kf_dec_ok (st', stores')) (read_cdef P st stores s skip).
Proof.
  intros Hd. unfold read_cdef. destruct (kp_coded_lossless P); [by apply safe_ret |].
  set (st1 := cdef_start P (bs_row s) (bs_col s) st). assert (kf_dec_ok (st1, stores)) as Hd1 by (unfold st1, cdef_start; destruct Hd, (_ && _); by split).
  destruct (cdef_place P s Hin) as [Hi _]. pose proof (kd_cdef _ Hd1) as Hl. cbn [fst] in Hl. set (i := cdef_index P (bs_row s) (bs_col s)) in *.
  assert (exists x, zget (st_cdef_transmitted st1) i = Some x) as [x ->].
  { unfold zget. rewrite (proj2 (Z.leb_le 0 i)) by lia. apply lookup_lt_is_Some. lia. }
  rewrite r_lift_some. destruct (_ && _); [| by apply safe_ret]. destruct (cdef_corner (bs_row s) (bs_col s)) as [row col].
  eapply safe_bind; [apply safe_literal; apply (ko_cdef_bits _ _ Hkf) |]. intros v Hv. apply safe_ret. destruct Hd1. split; cbn; try done.
  - by rewrite length_insert.
  - apply Forall_app. split; [done |]. by constructor.
Qed.

Lemma safe_delta k skip : in_layout k = true -> alphabet k = 4 -> safe (fun _ => True) (read_delta P k 3 s bsize skip).
Proof.
  intros Hk Hn. unfold read_delta. destruct (_ && _); [| by apply safe_ret].
  eapply safe_bind; [by apply safe_symbol |]. intros a Ha. eapply (safe_bind (fun _ => True)).
  - destruct (negb _); [| by apply safe_ret]. eapply safe_bind; [by apply safe_literal |]. intros r [Hr _]. cbv beta zeta.
    eapply safe_bind; [apply safe_literal; lia |]. intros; by apply safe_ret.
  - intros a' _. eapply (safe_bind (fun _ => True)); [| intros; by apply safe_ret].
    destruct (negb _); [eapply safe_weaken; [| apply safe_bit]; done | by apply safe_ret].
Qed.

Lemma safe_delta_lfs n skip : forall i l, 0 <= i -> i + Z.of_nat n <= 4 -> length l = 4%nat ->
  safe (fun l' => length l' = 4%nat) (read_delta_lfs P n i l s bsize skip).
Proof.
  induction n as [| n IH]; intros i l Hi Hn Hl; cbn [read_delta_lfs]; [by apply safe_ret |].
  rewrite (arr_get_nth l i), r_lift_some by lia. eapply safe_bind; [apply safe_delta; [apply (key_1 _ _ 4); done || lia | done] |].
  intros delta _. cbv beta zeta. apply IH; [lia | lia | by rewrite length_insert].
Qed.

Lemma clamp_range v lo hi : lo <= hi -> lo <= clamp v lo hi <= hi.
Proof. intros H. unfold clamp. destruct (Z.ltb_spec v lo); [lia |]. destruct (Z.ltb_spec hi v); lia. Qed.

Lemma safe_delta_q st stores skip : kf_dec_ok (st, stores) -> safe (fun st' => kf_dec_ok (st', stores)) (read_delta_q_params P st s bsize skip).
Proof.
  intros Hd. unfold read_delta_q_params. destruct (kp_delta_q_present P) eqn:Edq; [| by apply safe_ret].
  eapply safe_bind; [by apply safe_delta |]. intros delta _. cbv beta zeta. set (st1 := set_base_qindex _ st).
  assert (kf_dec_ok (st1, stores)) as Hd1 by (destruct Hd; split; try done; cbn; intros _; by apply clamp_range).
  destruct (kp_delta_lf_present P); [| by apply safe_ret]. pose proof (kd_lf _ Hd1) as Hl. cbn [fst] in Hl. destruct (kp_delta_lf_multi P).
  - eapply safe_bind; [apply safe_delta_lfs; [done | destruct (lf_count P) as [-> | ->]; lia | done] |]. intros l' Hl'. apply safe_ret. destruct Hd1. by split.
  - eapply safe_bind; [by apply safe_delta |]. intros delta' _. apply safe_ret. destruct Hd1. by split.
Qed.

Lemma fine_y_key : exists k, get_y_mode_cdf s = Some k /\ in_layout k = true /\ alphabet k = INTRA_MODES.
Proof.
  destruct fine_above as [Ha Hl]. unfold get_y_mode_cdf.
  assert (forall o, (forall b, o = Some b -> info_fine b) -> 0 <= block_mode o < 13) as H.
  { intros [x|] Hx; cbn; [apply (Hx x eq_refl) | by compute]. }
  destruct (intra_context _ (H _ Ha)) as (x & -> & Hx), (intra_context _ (H _ Hl)) as (y & -> & Hy). cbn [mbind option_bind].
  eexists. split_and!; [done | by apply (key_2 _ _ _ 5 5) | done].
Qed.

Lemma safe_angle mode : av1_is_directional_mode mode = true -> safe (fun a => -3 <= a <= 3) (read_angle_delta mode).
Proof.
  intros [H1%Z.leb_le H2%Z.leb_le]%andb_true_iff. unfold V_PRED, D67_PRED in *. unfold read_angle_delta, MAX_ANGLE_DELTA, V_PRED.
  eapply safe_bind; [apply safe_symbol; [apply (key_1 _ _ 8); done || lia | done] |]. intros v [Hv1 Hv2]. apply safe_ret. lia.
Qed.

Lemma safe_angles mode : safe (fun a => -3 <= a <= 3)
  (if av1_use_angle_delta bsize && av1_is_directional_mode mode then read_angle_delta mode else mret 0).
Proof. destruct (_ && _) eqn:E; [| by apply safe_ret]. apply andb_true_iff in E as [_ ?]. by apply safe_angle. Qed.

Lemma safe_cfl : safe (fun '(idx, signs) => 0 <= signs < 8 /\ 0 <= idx < 256) read_cfl_alphas.
Proof.
  unfold read_cfl_alphas. eapply safe_bind; [by apply safe_symbol |]. intros js Hjs. destruct (cfl_signs js Hjs) as [Cu Cv].
  assert (forall x, 0 <= u8 x < 256) as Hu8 by (intros x; unfold u8, wrap; change (2 ^ 8) with 256; apply Z.mod_pos_bound; lia).
  eapply (safe_bind (fun idx => 0 <= idx < 256)).
  - destruct (Z.eqb_spec (CFL_SIGN_U js) 0) as [_ | Hn]; cbn [negb]; [by apply safe_ret |].
    eapply safe_bind; [apply safe_symbol; [by apply (key_1 _ _ 6); [| | apply Cu] | done] |]. intros u _. by apply safe_ret.
  - intros idx Hidx. eapply (safe_bind (fun idx => 0 <= idx < 256)); [| intros; by apply safe_ret].
    destruct (Z.eqb_spec (CFL_SIGN_V js) 0) as [_ | Hn]; cbn [negb]; [by apply safe_ret |].
    eapply safe_bind; [apply safe_symbol; [by apply (key_1 _ _ 6); [| | apply Cv] | done] |]. intros v _. by apply safe_ret.
Qed.

Lemma fine_cfl_allowed id : 0 <= id < 8 -> exists a, is_cfl_allowed P bsize id = Some a.
Proof.
  intros Hid. unfold is_cfl_allowed. rewrite (arr_get_nth (kp_lossless P) id) by (rewrite (ko_lossless _ _ Hkf); lia). cbn [mbind option_bind].
  destruct (negb _); by eexists.
Qed.

Lemma safe_filter mode n old : safe (fun '(use, m) => use = true -> 0 <= m < 5) (read_filter_intra_mode_info P bsize mode n old).
Proof.
  unfold read_filter_intra_mode_info. destruct (av1_filter_intra_allowed _ _ _ _); [| by apply safe_ret].
  eapply safe_bind; [apply safe_symbol; [apply (key_1 _ _ 22); [done | done | apply bsize_index] | done] |]. intros use _.
  destruct (negb _); [| by apply safe_ret]. eapply safe_bind; [by apply safe_symbol |]. intros m Hm. by apply safe_ret.
Qed.

Lemma fine_palette_site : site_ok (kp_bit_depth P) (palette_site_of s).
Proof.
  destruct fine_above as [Ha Hl]. unfold palette_site_of. split; cbn; intros p Hp.
  - destruct (bs_above s) as [x|]; [| done]. injection Hp as <-. by destruct (if_palette _ (Ha x eq_refl)) as [? _].
  - destruct (bs_left s) as [x|]; [| done]. injection Hp as <-. by destruct (if_palette _ (Hl x eq_refl)) as [? _].
Qed.

Lemma safe_modes st stores id skip : let old := stale (bs_row s) (bs_col s) in kf_dec_ok (st, stores) -> 0 <= id < 8 ->
  safe (fun '(st', stores', b) => kf_dec_ok (st', stores') /\ info_fine b /\ ii_bsize b = bsize) (read_intra_modes P old st stores s bsize id skip).
Proof.
  intros old Hd Hid. destruct (ko_stale _ _ Hkf (bs_row s) (bs_col s)) as [Hold _]. fold old in Hold.
  destruct fine_y_key as (k & Ek & Hk & Hn). unfold read_intra_modes. rewrite Ek, r_lift_some.
  eapply safe_bind; [by apply safe_symbol |]. intros mode Hmode. eapply safe_bind; [apply safe_angles |]. intros angle_y Hay.
  eapply (safe_bind (fun '(uv_mode, idx, signs, angle) => 0 <= uv_mode < 14 /\ (uv_mode = UV_CFL_PRED -> 0 <= signs < 8 /\ 0 <= idx < 256))).
  - destruct (_ && _); [| by apply safe_ret]. destruct (fine_cfl_allowed id Hid) as [cfl ->]. rewrite r_lift_some.
    eapply (safe_bind (fun m => 0 <= m < 14)).
    { eapply safe_weaken; [| apply safe_symbol; [apply (key_2 _ _ _ 2 13); [done | done | destruct cfl; cbn; lia | exact Hmode] | by destruct cfl]].
      intros m Hm. unfold UV_INTRA_MODES in Hm. destruct cfl; cbn in Hm; lia. }
    intros uv_mode Huv. eapply (safe_bind (fun '(idx, signs) => uv_mode = UV_CFL_PRED -> 0 <= signs < 8 /\ 0 <= idx < 256)).
    { destruct (Z.eqb_spec uv_mode UV_CFL_PRED); [| by apply safe_ret]. eapply safe_weaken; [| apply safe_cfl]. intros [idx signs] H _. exact H. }
    intros [idx signs] Hcfl. rewrite uv_intra_ok, r_lift_some by done. eapply safe_bind; [apply safe_angles |]. intros angle _. by apply safe_ret.
  - intros [[[uv_mode idx] signs] angle_uv] [Huv Hcfl]. eapply (safe_bind (palette_fine (kp_bit_depth P))).
    { destruct (av1_allow_palette _ _) eqn:Ea; [| by apply safe_ret, fine_cleared].
      apply safe_palette; [apply (ko_depth _ _ Hkf) | by eapply allow_sct | apply fine_palette_site | done]. }
    intros palette Hp. eapply safe_bind; [apply safe_filter |]. intros [use m] Hm. apply safe_ret. split; [done |]. split; [| done].
    split; cbn; try done. apply (kd_qindex _ Hd).
Qed.

Lemma safe_info d : let old := stale (bs_row s) (bs_col s) in kf_dec_ok d ->
  safe (fun '(st', stores', b) => kf_dec_ok (st', stores') /\ info_fine b /\ ii_bsize b = bsize) (read_intra_frame_mode_info P old d.1 d.2 s bsize).
Proof.
  intros old Hd. destruct d as [st stores]. cbn [fst snd]. destruct (ko_stale _ _ Hkf (bs_row s) (bs_col s)) as [_ Hid]. fold old in Hid.
  unfold read_intra_frame_mode_info. eapply (safe_bind (fun '(st', id) => kf_dec_ok (st', stores) /\ 0 <= id < 8)).
  { destruct (kp_segid_preskip P); [by apply safe_intra_segment | by apply safe_ret]. }
  intros [st1 id1] [Hd1 Hid1]. eapply safe_bind; [by apply safe_skip |]. intros skip _.
  eapply (safe_bind (fun '(st', id) => kf_dec_ok (st', stores) /\ 0 <= id < 8)).
  { destruct (negb (kp_segid_preskip P)); [by apply safe_intra_segment | by apply safe_ret]. }
  intros [st2 id2] [Hd2 Hid2]. eapply safe_bind; [by apply safe_cdef |]. intros [st3 stores3] Hd3.
  eapply safe_bind; [by apply safe_delta_q |]. intros st4 Hd4. by apply safe_modes.
Qed.
End Block.

Definition kf_coder_safe :
  @BlockCoderSafe intra_info block_state (block_state * list cdef_store) (kf_coder P cdef_strength stale) fs.
Proof.
  refine (@Build_BlockCoderSafe _ _ _ (kf_coder P cdef_strength stale) fs kf_dec_ok info_fine _ _ _ _).
  - apply kf_dec_tile_start_ok.
  - done.
  - intros d r c bsize Hd _ _ _. by apply safe_ret.
  - intros d s p bsize Hd Hs Hw Hin. cbn. eapply safe_bind; [by apply safe_info |]. intros [[st' stores'] b] H. by apply safe_ret.
Defined.
End Safety.

(** C5: The tile of a key frame read from any bytes. The decoder reports a corrupt frame or
    returns, never having left a table, the grid, the segment map or a palette; if it did
    not run over the end of its data, every cell of the tile holds a mode info whose modes,
    angles, chroma from luma parameters, palette, filter, segment id and quantizer are in
    range. *)
Theorem kf_tile_safe P cdef_strength stale tile sb_mib_log2 (g : mode_grid intra_info) x d fc bytes size r0 :
  let fs := kp_frame P in let sb_size := kp_sb_size P in
  kf_ok P stale -> kp_skip_over4x4 P = false -> Forall is_byte bytes -> tile_shape fs tile sb_size sb_mib_log2 ->
  pctx_ok fs x -> grid_ok fs g -> kf_dec_ok P d -> fc_ok fc ->
  match rrun fc (decode_tile (Hcoder := kf_coder P cdef_strength stale) fs tile (kp_ss_x P) (kp_ss_y P) sb_size sb_mib_log2 x g d)
    (aom_reader_init r0 (Some bytes) size).2 with
  | Ok ((_, g', d', corrupted, fc'), _) => kf_dec_ok P d' /\ fc_ok fc' /\
      (corrupted = false -> forall y z, in_tile tile y z -> exists b, mi_at g' y z = Some b /\ info_fine P b)
  | Raise e => e = AOM_CODEC_CORRUPT_FRAME
  | Fault => False
  end.
Proof.
  intros fs sb_size Hkf Hover Hb Hshape Hx Hg Hd Hfc.
  pose proof (safe_tile _ _ bytes size r0 fc (safe_decode_tile (Hcoder := kf_coder P cdef_strength stale) fs (Hsafe := kf_coder_safe P cdef_strength stale Hkf Hover)
    tile (kp_ss_x P) (kp_ss_y P) (ko_even _ _ Hkf) (ts_start _ _ _ _ Hshape) sb_size sb_mib_log2 Hshape x g d Hx Hg Hd) Hb Hfc) as Hs.
  destruct (rrun fc _ _) as [[[[[[x' g'] d'] corrupted] fc'] r'] | |]; [| done | done].
  destruct Hs as [(_ & _ & Hd' & Hc) Hf']. split_and!; try done. intros Hcor y z Hi.
  destruct (in_some_square fs tile sb_size sb_mib_log2 Hshape y z Hi) as (r & c & Hat & Hf & Hsq). destruct (Hc Hcor r c Hat) as [l Hl].
  destruct (sb_square fs tile sb_size sb_mib_log2 Hshape r c Hat) as [Hq _].
  destruct (partitioned_covers _ _ _ _ _ _ _ _ _ _ _ _ Hq Hl Hf Hsq) as ([[br bc] bs] & _ & Hci & (b & _ & Hb' & Hcell)). exists b. split; [by apply Hcell | done].
Qed.
