(* ===== verification/KeyFrameDemo.v ===== *)
(** * A small key frame

    A frame of 48x40 samples, cut by several kinds of partitions, on which the theorems about
    tiles, superblocks and mode infos are applied: segments, changes of the quantizer and the
    loop filter, a palette and chroma from luma are all in use. *)

From stdpp Require Import sorting.
From S2P Require Import Prelude CodecTypes BitChannel EntCoder RangeSpec Cdf EntEncProof EntDecProof EntRoundTrip SymbolIO SyntaxIO TileSafety TxCommon Tile TxbContext DefaultCdfs FrameContext TxType PaletteColors Partition PartitionTree PartitionProof PartitionSafety ModeInfo ModeInfoProof ModeInfoSafety.

#[local] Open Scope Z_scope.
#[local] Arguments Z.of_nat : simpl never.
#[local] Arguments Z.mul : simpl never.

(** ** The frame *)

Definition demo_fs : frame_size := {| fs_mi_rows := 10; fs_mi_cols := 12 |}.

Definition demo_kf : kf_params := {|
  kp_frame := demo_fs;
  kp_cm := {| fp_reduced_tx_set_used := false; fp_seg_enabled := true; fp_seg_feature_mask := replicate 8 1; fp_base_qindex := 100 |};
  kp_update_map := true; kp_segid_preskip := false; kp_last_active_segid := 2; kp_skip_over4x4 := false; kp_lossless := replicate 8 0;
  kp_coded_lossless := false; kp_cdef_bits := 2; kp_sb_size := BLOCK_64X64; kp_delta_q_present := true; kp_delta_q_res := 4;
  kp_delta_lf_present := true; kp_delta_lf_multi := true; kp_delta_lf_res := 2; kp_monochrome := false; kp_ss_x := true; kp_ss_y := true;
  kp_allow_screen_content_tools := true; kp_enable_filter_intra := true; kp_bit_depth := 8 |}.

Definition demo_tile : TileInfo :=
  {| mi_row_start := 0; mi_row_end := 10; mi_col_start := 0; mi_col_end := 12; tile_row := 0; tile_col := 0 |}.

Definition demo_cdef (r c : Z) : option Z := Some 3.

Definition no_palette : PALETTE_MODE_INFO := {| palette_colors := replicate 24 0; palette_size_y := 0; palette_size_uv := 0 |}.

Definition demo_info (bsize : BLOCK_SIZE) (segment : Z) (skip : bool) (mode angle uv_mode : Z) (palette : PALETTE_MODE_INFO) : intra_info := {|
  ii_bsize := bsize; ii_segment_id := segment; ii_skip_txfm := skip; ii_current_qindex := 88; ii_delta_lf := [2; -4; 0; 62]; ii_delta_lf_from_base := 0;
  ii_mode := mode; ii_angle_y := angle; ii_uv_mode := uv_mode; ii_angle_uv := 0; ii_cfl_alpha_idx := 37; ii_cfl_alpha_signs := 5; ii_palette := palette;
  ii_use_filter_intra := false; ii_filter_intra_mode := 0 |}.

Definition block_a : intra_info := demo_info BLOCK_32X32 1 false 0 0 0 (demo_palette [3; 9; 200] [] []).
Definition block_b : intra_info := demo_info BLOCK_16X32 2 false 2 (-3) UV_CFL_PRED no_palette.
Definition block_c : intra_info := demo_info BLOCK_32X16 0 true 12 0 4 no_palette.
Definition block_d : intra_info := demo_info BLOCK_16X8 0 false 8 2 0 no_palette.

(** Which block has a cell. *)
Definition demo_at (y x : Z) : intra_info :=
  if y <? 8 then (if x <? 8 then block_a else block_b) else if x <? 8 then block_c else block_d.

Definition demo_grid : mode_grid intra_info :=
  {| mi_stride := 12; mi_grid_base := y ← seqZ 0 10; x ← seqZ 0 12; [Some (demo_at y x)] |}.

Definition demo_cut (r c : Z) : list placed := [(0, 0, BLOCK_32X32); (0, 8, BLOCK_16X32); (8, 0, BLOCK_32X16); (8, 8, BLOCK_16X8)].

(** The decoder's memory before. *)
Definition demo_stale (r c : Z) : intra_info := demo_info BLOCK_4X4 7 true 11 77 13 no_palette.
Definition empty_grid : mode_grid intra_info := {| mi_stride := 12; mi_grid_base := replicate 120 None |}.

Definition demo_ctx : partition_ctx := {| above_partition_context := replicate 32 0; left_partition_context := replicate 32 0 |}.
Definition demo_dirty : partition_ctx := {| above_partition_context := replicate 16 31 ++ replicate 16 0; left_partition_context := replicate 32 17 |}.

Definition demo_state : block_state :=
  {| st_seg_map := replicate 120 0; st_cdef_transmitted := replicate 4 true; st_current_base_qindex := 100; st_delta_lf := replicate 4 0; st_delta_lf_from_base := 0 |}.

(** ** Its properties *)

Lemma demo_kf_ok : kf_ok demo_kf demo_stale.
Proof.
  split; try done. by left.
Qed.

Lemma demo_preskip : preskip_ok demo_kf.
Proof.
  intros _. split; intros i Hi; assert (i = 0 \/ i = 1 \/ i = 2 \/ i = 3 \/ i = 4 \/ i = 5 \/ i = 6 \/ i = 7) as H by lia;
    repeat destruct H as [-> | H]; [.. | subst]; reflexivity || (subst; reflexivity).
Qed.

Lemma demo_shape : tile_shape demo_fs demo_tile BLOCK_64X64 4.
Proof. split; try done. by left. Qed.

Lemma demo_cell y x : in_frame demo_fs y x -> mi_at demo_grid y x = Some (demo_at y x).
Proof.
  intros [Hy Hx]. cbn in Hy, Hx.
  assert (forallb (fun y => forallb (fun x => bool_decide (mi_at demo_grid y x = Some (demo_at y x))) (seqZ 0 12)) (seqZ 0 10) = true) as H by (vm_compute; reflexivity).
  rewrite forallb_forall in H. specialize (H y). rewrite <- list_elem_of_In, elem_of_seqZ in H. specialize (H ltac:(lia)).
  rewrite forallb_forall in H. specialize (H x). rewrite <- list_elem_of_In, elem_of_seqZ in H. specialize (H ltac:(lia)). by apply bool_decide_eq_true in H.
Qed.

Lemma demo_holds P r c bsize b : ii_bsize b = bsize -> P r c b ->
  (forall y x, in_frame demo_fs y x -> cell_in (r, c, bsize) y x -> demo_at y x = b) -> holds ii_bsize demo_fs P demo_grid (r, c, bsize).
Proof. intros Hs HP Hc. exists b. split_and!; try done. intros y x Hf Hi. by rewrite demo_cell, Hc. Qed.

(** The blocks of the demonstration are where [demo_at] has them. *)
Ltac demo_place b := apply (demo_holds _ _ _ _ b); [done | .. | intros y x [Hy Hx] [Hy' Hx']; cbn in *; unfold demo_at;
  repeat match goal with |- context [?u <? ?v] => destruct (Z.ltb_spec u v) end; (done || lia)].

Lemma demo_partitioned (P : Z -> Z -> intra_info -> Prop) : P 0 0 block_a -> P 0 8 block_b -> P 8 0 block_c -> P 8 8 block_d ->
  partitioned ii_bsize demo_fs true true P demo_grid 0 0 BLOCK_64X64 (demo_cut 0 0).
Proof.
  intros Ha Hb Hc Hd. unfold demo_cut.
  change [(0, 0, BLOCK_32X32); (0, 8, BLOCK_16X32); (8, 0, BLOCK_32X16); (8, 8, BLOCK_16X8)]
    with ([(0, 0, BLOCK_32X32)] ++ [(0, 8, BLOCK_16X32)] ++ [(8, 0, BLOCK_32X16)] ++ ([(8, 8, BLOCK_16X8)] ++ [] ++ [] ++ [])).
  assert (forall r c bsize, 10 <= r \/ 12 <= c -> partitioned ii_bsize demo_fs true true P demo_grid r c bsize []) as Hout
    by (intros; by apply partitioned_outside).
  eapply (partitioned_split _ _ _ _ _ _ _ _ _ BLOCK_32X32); try done; [by eexists | ..].
  - eapply (partitioned_blocks _ _ _ _ _ _ _ _ _ PARTITION_NONE); try done; [by eexists |]. apply Forall_cons_2; [| by constructor]. demo_place block_a. done.
  - eapply (partitioned_blocks _ _ _ _ _ _ _ _ _ PARTITION_VERT); try done; [by right | by eexists |]. apply Forall_cons_2; [| by constructor]. demo_place block_b. done.
  - eapply (partitioned_blocks _ _ _ _ _ _ _ _ _ PARTITION_HORZ); try done; [by right | by eexists |]. apply Forall_cons_2; [| by constructor]. demo_place block_c. done.
  - eapply (partitioned_split _ _ _ _ _ _ _ _ _ BLOCK_16X16); try done; [by eexists | .. ]; try (apply Hout; first [left; by compute | right; by compute]).
    eapply (partitioned_blocks _ _ _ _ _ _ _ _ _ PARTITION_HORZ); try done; [by right | by eexists |]. apply Forall_cons_2; [| by constructor]. demo_place block_d. done.
Qed.

Lemma demo_kf_codable a b p : palette_size_uv p = 0 -> length (palette_colors p) = 24%nat ->
  (palette_size_y p = 0 \/ 2 <= palette_size_y p <= 8) -> (a = false -> palette_size_y p = 0) ->
  spaced 1 (colors_of p 0) -> Forall (color_ok 8) (colors_of p 0) -> palette_codable 8 a b p.
Proof.
  intros Hu Hl Hy Ha Hs Hr. assert (forall plane, plane <> 0 -> colors_of p plane = []) as Hn.
  { intros plane Hp. unfold colors_of, plane_size. rewrite (proj2 (Z.eqb_neq _ _) Hp), Hu. done. }
  split; try done; [by split; [| left] | split; [done |]; rewrite Hn by done; constructor |].
  intros plane _. destruct (decide (plane = 0)) as [-> | Hp]; [done | rewrite Hn by done; constructor].
Qed.

Lemma demo_info_ok r c bsize segment skip mode angle uv_mode palette cfl :
  let b := demo_info bsize segment skip mode angle uv_mode palette in
  0 <= segment <= 2 -> 0 <= mode < 13 -> -3 <= angle <= 3 ->
  (if chroma_of demo_kf r c b then is_cfl_allowed demo_kf bsize segment = Some cfl /\ 0 <= uv_mode < 14 - b2z (negb cfl) else uv_mode = UV_DC_PRED) ->
  palette_codable 8 (mode =? DC_PRED) (chroma_of demo_kf r c b && (uv_mode =? UV_DC_PRED)) palette ->
  (av1_allow_palette true bsize = false -> palette_size_y palette = 0 /\ palette_size_uv palette = 0) -> info_ok demo_kf r c b.
Proof.
  intros b Hseg Hm Ha Huv Hp Hn. split; try done.
  - unfold segfeature_active. cbn. assert (segment = 0 \/ segment = 1 \/ segment = 2) as [-> | [-> | ->]] by lia; discriminate.
  - intros _. cbn. split; [done |]. split; [| done]. intros i Hi. assert (i = 0 \/ i = 1 \/ i = 2 \/ i = 3) as [-> | [-> | [-> | ->]]] by lia; by vm_compute.
  - destruct (chroma_of demo_kf r c b); [by exists cfl | done].
Qed.

Lemma demo_kf_blocks_ok : info_ok demo_kf 0 0 block_a /\ info_ok demo_kf 0 8 block_b /\ info_ok demo_kf 8 0 block_c /\ info_ok demo_kf 8 8 block_d.
Proof.
  split_and!; (eapply (demo_info_ok _ _ _ _ _ _ _ _ _ true); [done .. | | by compute]);
    (apply demo_kf_codable; [done | done | cbn; lia | done | |]); unfold spaced; repeat constructor; cbn; lia || done.
Qed.

Lemma demo_sb r c : sb_at demo_tile BLOCK_64X64 4 r c -> r = 0 /\ c = 0.
Proof.
  intros (i & j & Hi & Hj & -> & ->). change (Z.of_nat (sb_rows demo_tile 4)) with 1 in Hi. change (Z.of_nat (sb_cols demo_tile 4)) with 1 in Hj.
  assert (i = 0) as -> by lia. assert (j = 0) as -> by lia. done.
Qed.

Lemma demo_cuts r c : sb_at demo_tile BLOCK_64X64 4 r c ->
  partitioned ii_bsize demo_fs true true (info_ok demo_kf) demo_grid r c BLOCK_64X64 (demo_cut r c).
Proof. intros [-> ->]%demo_sb. destruct demo_kf_blocks_ok as (? & ? & ? & ?). by apply demo_partitioned. Qed.

Lemma demo_ctx_ok : pctx_ok demo_fs demo_ctx /\ pctx_ok demo_fs demo_dirty.
Proof. split; split; try done; split; repeat (apply Forall_cons_2; [lia |]); by constructor. Qed.

Lemma demo_elsewhere : same_elsewhere demo_tile BLOCK_64X64 4 demo_ctx demo_dirty.
Proof.
  split; [done |]. intros k Hk. change (mi_col_start demo_tile + Z.of_nat (sb_cols demo_tile 4) * sb_mib BLOCK_64X64) with 16 in Hk. cbn [demo_tile mi_col_start] in Hk.
  assert (16 <= k) by lia. unfold demo_dirty, demo_ctx. cbn [above_partition_context]. change (replicate 32 0) with (replicate 16 0 ++ replicate 16 0).
  unfold nthz. rewrite !app_nth2 by (rewrite length_replicate; lia). by rewrite !length_replicate.
Qed.

Lemma demo_seg_ok : seg_map_ok demo_kf (replicate 120 0).
Proof.
  split; [done | | done]. intros r c Hf. unfold seg_at. pose proof (cell_index demo_kf r c Hf) as Hi.
  change (fs_mi_rows (kp_frame demo_kf) * fs_mi_cols (kp_frame demo_kf)) with 120 in Hi. rewrite nthz_replicate by lia. by compute.
Qed.

Lemma demo_step : kf_step demo_kf demo_cdef demo_state (demo_state, []).
Proof.
  split; try done.
  - intros _. split; [done | apply demo_seg_ok].
  - intros _ _. assert (lf_ok demo_kf 0) by by vm_compute. split_and!; try done. intros i Hi. change (frame_lf_count demo_kf) with 4 in Hi.
    cbn [fst demo_state st_delta_lf]. rewrite nthz_replicate by lia. done.
Qed.

Lemma demo_dec : kf_dec_ok demo_kf (demo_state, []).
Proof. split; try done. intros _; apply demo_seg_ok. Qed.

Lemma demo_cdefs r c : in_frame demo_fs r c -> exists v, demo_cdef r c = Some v /\ 0 <= v < 2 ^ kp_cdef_bits demo_kf.
Proof. intros _. exists 3. split; [done | by compute]. Qed.

Definition demo_bytes : list Z := [7; 200; 17; 34; 51; 68; 99; 3; 241; 77; 0; 12; 255; 31; 8].

Lemma demo_is_bytes : Forall is_byte demo_bytes.
Proof. repeat (apply Forall_cons_2; [by compute |]). by constructor. Qed.

Definition demo_reader : aom_reader := {| r_buffer := []; r_ec := od_ec_dec_init []; r_allow_update_cdf := true |}.

(** ** The theorems on it *)

Lemma tile_walk_roundtrip_witness :
  exists x' e' gd' d' fc', kf_step demo_kf demo_cdef e' d' /\ fc_ok fc' /\
    tile_survives demo_alloc true
      (wrun (default_fc 100) (write_modes (Hcoder := kf_coder demo_kf demo_cdef demo_stale) demo_fs demo_tile BLOCK_64X64 4 demo_alloc demo_grid demo_ctx demo_state))
      ((x', e'), fc')
      (rrun (default_fc 100) (decode_tile (Hcoder := kf_coder demo_kf demo_cdef demo_stale) demo_fs demo_tile true true BLOCK_64X64 4 demo_dirty empty_grid (demo_state, [])))
      ((x', gd', d', false), fc') /\
    (forall y x, in_tile demo_tile y x -> exists b b', mi_at demo_grid y x = Some b /\ mi_at gd' y x = Some b' /\ info_same demo_kf b b') /\
    (forall r c, sb_at demo_tile BLOCK_64X64 4 r c -> partitioned ii_bsize demo_fs true true (fun _ _ _ => True) gd' r c BLOCK_64X64 (demo_cut r c)).
Proof.
  apply (tile_walk_roundtrip (Hcoder := kf_coder demo_kf demo_cdef demo_stale) demo_alloc true demo_fs
    (Hok := kf_coder_ok demo_kf demo_cdef demo_stale demo_kf_ok demo_preskip demo_cdefs demo_alloc demo_grants true));
    [apply demo_grants | done | apply demo_shape | apply demo_cuts | apply demo_ctx_ok | apply demo_ctx_ok | apply demo_elsewhere | apply demo_step | done
    | apply default_fc_ok | reflexivity].
Defined.

Lemma kf_tile_roundtrip_witness :
  exists x' e' gd' d' fc', kf_step demo_kf demo_cdef e' d' /\ fc_ok fc' /\
    tile_survives demo_alloc true
      (wrun (default_fc 100) (write_modes (Hcoder := kf_coder demo_kf demo_cdef demo_stale) demo_fs demo_tile BLOCK_64X64 4 demo_alloc demo_grid demo_ctx demo_state))
      ((x', e'), fc')
      (rrun (default_fc 100) (decode_tile (Hcoder := kf_coder demo_kf demo_cdef demo_stale) demo_fs demo_tile true true BLOCK_64X64 4 demo_dirty empty_grid (demo_state, [])))
      ((x', gd', d', false), fc') /\
    (forall y x, in_tile demo_tile y x -> exists b b', mi_at demo_grid y x = Some b /\ mi_at gd' y x = Some b' /\ info_same demo_kf b b').
Proof.
  apply (kf_tile_roundtrip demo_kf demo_cdef demo_stale demo_alloc true demo_tile 4 demo_grid empty_grid demo_cut);
    [apply demo_grants | apply demo_kf_ok | apply demo_preskip | apply demo_cdefs | apply demo_shape | apply demo_cuts | apply demo_ctx_ok | apply demo_ctx_ok | apply demo_elsewhere
    | apply demo_step | done | apply default_fc_ok | reflexivity].
Defined.

Lemma second_pass_witness : decode_only (Hcoder := kf_coder demo_kf demo_cdef demo_stale) demo_fs true true sb_fuel demo_grid 0 0 BLOCK_64X64 =
  Some [(0, 0, BLOCK_32X32); (0, 8, BLOCK_16X32); (8, 0, BLOCK_32X16); (8, 8, BLOCK_16X8)].
Proof.
  apply (second_pass (Hc := kf_coder demo_kf demo_cdef demo_stale) demo_fs true true (fun _ _ _ => True));
    [done | split; [by eexists | done | done] | by apply demo_partitioned].
Defined.

Lemma tile_walk_terminates_witness :
  match rrun (default_fc 100) (decode_tile (Hcoder := kf_coder demo_kf demo_cdef demo_stale) demo_fs demo_tile true true BLOCK_64X64 4 demo_dirty empty_grid (demo_state, []))
    (aom_reader_init demo_reader (Some demo_bytes) 15).2 with
  | Ok ((x', g', d', corrupted, fc'), _) =>
      (pctx_ok demo_fs x' /\ grid_ok demo_fs g' /\ kf_dec_ok demo_kf d' /\
       (corrupted = false -> forall r c, sb_at demo_tile BLOCK_64X64 4 r c -> exists l : list placed,
          (forall y z, in_frame demo_fs y z -> in_square r c BLOCK_64X64 y z -> exists b, In b l /\ cell_in b y z) /\
          disjoint_blocks l /\ Forall (holds ii_bsize demo_fs (fun _ _ => info_fine demo_kf) g') l)) /\ fc_ok fc'
  | Raise e => e = AOM_CODEC_CORRUPT_FRAME
  | Fault => False
  end.
Proof.
  apply (tile_walk_terminates (Hcoder := kf_coder demo_kf demo_cdef demo_stale) demo_fs (Hsafe := kf_coder_safe demo_kf demo_cdef demo_stale demo_kf_ok eq_refl));
    [apply demo_is_bytes | done | apply demo_shape | apply demo_ctx_ok | done | apply demo_dec | apply default_fc_ok].
Defined.

Lemma kf_tile_safe_witness :
  match rrun (default_fc 100) (decode_tile (Hcoder := kf_coder demo_kf demo_cdef demo_stale) demo_fs demo_tile true true BLOCK_64X64 4 demo_dirty empty_grid (demo_state, []))
    (aom_reader_init demo_reader (Some demo_bytes) 15).2 with
  | Ok ((_, g', d', corrupted, fc'), _) => kf_dec_ok demo_kf d' /\ fc_ok fc' /\
      (corrupted = false -> forall y z, in_tile demo_tile y z -> exists b, mi_at g' y z = Some b /\ info_fine demo_kf b)
  | Raise e => e = AOM_CODEC_CORRUPT_FRAME
  | Fault => False
  end.
Proof.
  apply (kf_tile_safe demo_kf demo_cdef demo_stale demo_tile 4);
    [apply demo_kf_ok | done | apply demo_is_bytes | apply demo_shape | apply demo_ctx_ok | done | apply demo_dec | apply default_fc_ok].
Defined.

Lemma neg_interleave_roundtrip_witness : 0 <= av1_neg_interleave 5 3 7 < 7 /\ av1_neg_deinterleave (av1_neg_interleave 5 3 7) 3 7 = 5 /\ av1_neg_interleave 3 3 7 = 0.
Proof. apply (neg_interleave_roundtrip 5 3 7); lia. Defined.
