(* ===== verification/TileInfo.v ===== *)
(** * Tile information in the frame header

    The encoder chooses a tile layout ([set_tile_info], [av1/encoder/encoder.c]),
    writes it to the frame header ([write_tile_info_max_tile],
    [av1/encoder/bitstream.c]) and the decoder reads it back
    ([read_tile_info_max_tile], [av1/decoder/decodeframe.c]). *)

From S2P Require Import Prelude CodecTypes BitChannel BitBuffer Tile.

(** [num_values] is an [unsigned int]. *)
Definition get_unsigned_bits (num_values : Z) : Z :=
  if 0 <? u32 num_values then get_msb (u32 num_values) + 1 else 0.

(** ** The decoder *)

Definition rb_read_uniform (n : Z) : reader aom_read_bit_buffer Z :=
  let l := get_unsigned_bits n in
  let m := Z.shiftl 1 l - n in
  v ← aom_rb_read_literal (l - 1);
  if v <? m then mret v
  else b ← aom_rb_read_bit; mret (Z.shiftl v 1 - m + b).

(** [while (log2 < max_log2) { if (!aom_rb_read_bit(rb)) break; log2++; }] *)
Fixpoint read_log2_loop (fuel : nat) (log2 max_log2 : Z) : reader aom_read_bit_buffer Z :=
  match fuel with
  | O => mret log2
  | S fuel' =>
      if log2 <? max_log2 then
        b ← aom_rb_read_bit;
        if b =? 0 then mret log2 else read_log2_loop fuel' (log2 + 1) max_log2
      else mret log2
  end.

Definition read_log2 (min_log2 max_log2 : Z) : reader aom_read_bit_buffer Z :=
  read_log2_loop (Z.to_nat (max_log2 - min_log2)) min_log2 max_log2.

(** The loop over explicit sizes: [i] tiles so far, up to [start_sb], with [todo]
    superblocks to cover.  It stops at 64 tiles, so 65 passes are enough. *)
Fixpoint read_sizes_loop (fuel : nat) (i start_sb todo max_sb : Z) (a : list Z)
  : reader aom_read_bit_buffer (Z * Z * Z * list Z) :=
  match fuel with
  | O => fault
  | S fuel' =>
      if (0 <? todo) && (i <? MAX_TILE_COLS) then
        v ← rb_read_uniform (Z.min todo max_sb);
        let size_sb := 1 + v in
        match arr_set a i start_sb with
        | None => fault
        | Some a => read_sizes_loop fuel' (i + 1) (start_sb + size_sb) (todo - size_sb) max_sb a
        end
      else mret (i, start_sb, todo, a)
  end.

(** [cols] (or [rows]) and its start array. *)
Definition read_sizes (n max_sb : Z) (a : list Z) : reader aom_read_bit_buffer (Z * list Z) :=
  '(i, start_sb, todo, a) ← read_sizes_loop 65 0 0 n max_sb a;
  match arr_set a i (start_sb + todo) with
  | None => fault
  | Some a => mret (i, a)
  end.

(** A computation that is not a read; [None] is an access outside an object. *)
Definition lift {R A} (o : option A) : reader R A :=
  match o with Some a => mret a | None => fault end.

(** [// Read tile columns] *)
Definition read_tile_cols (width_sb : Z) (t : CommonTileParams) (uniform_spacing : Z)
  : reader aom_read_bit_buffer CommonTileParams :=
  if uniform_spacing =? 0 then
    '(cols, a) ← read_sizes width_sb (t_max_width_sb t) (t_col_start_sb t);
    mret (with_cols t false (t_log2_cols t) cols a)
  else
    log2_cols ← read_log2 (t_min_log2_cols t) (t_max_log2_cols t);
    mret (with_cols t true log2_cols (t_cols t) (t_col_start_sb t)).

(** [// Read tile rows] *)
Definition read_tile_rows (height_sb : Z) (t : CommonTileParams)
  : reader aom_read_bit_buffer CommonTileParams :=
  if t_uniform_spacing t then
    log2_rows ← read_log2 (t_min_log2_rows t) (t_max_log2_rows t);
    mret (with_rows t log2_rows (t_rows t) (t_height t) (t_row_start_sb t))
  else
    '(rows, a) ← read_sizes height_sb (t_max_height_sb t) (t_row_start_sb t);
    mret (with_rows t (t_log2_rows t) rows (t_height t) a).

Definition read_tile_info_max_tile (cm : AV1_COMMON) : reader aom_read_bit_buffer AV1_COMMON :=
  let width_sb := sb_cols_of cm in
  let height_sb := sb_rows_of cm in
  cm ← lift (av1_get_tile_limits cm);
  uniform_spacing ← aom_rb_read_bit;
  t ← read_tile_cols width_sb (tiles cm) uniform_spacing;
  t ← lift (av1_calculate_tile_cols (mib_size_log2 cm) (mi_rows cm) (mi_cols cm) t);
  t ← read_tile_rows height_sb t;
  t ← lift (av1_calculate_tile_rows (mib_size_log2 cm) (mi_rows cm) t);
  mret (set_tiles cm t).

(** ** The encoder *)

Definition wb_write_uniform (wb : aom_write_bit_buffer) (n v : Z) : option aom_write_bit_buffer :=
  let l := get_unsigned_bits n in
  let m := Z.shiftl 1 l - n in
  if l =? 0 then Some wb
  else if v <? m then aom_wb_write_literal wb v (l - 1)
  else
    wb ← aom_wb_write_literal wb (m + Z.shiftr (v - m) 1) (l - 1);
    aom_wb_write_literal wb (Z.land (v - m) 1) 1.

Fixpoint write_ones_loop (ones : nat) (wb : aom_write_bit_buffer) : option aom_write_bit_buffer :=
  match ones with
  | O => Some wb
  | S ones' => wb ← aom_wb_write_bit wb 1; write_ones_loop ones' wb
  end.

(** [while (ones--) aom_wb_write_bit(wb, 1)]: a negative count runs off the range of
    [int]. *)
Definition write_ones (wb : aom_write_bit_buffer) (ones : Z) : option aom_write_bit_buffer :=
  if ones <? 0 then None else write_ones_loop (Z.to_nat ones) wb.

Definition write_log2 (wb : aom_write_bit_buffer) (log2 min_log2 max_log2 : Z)
  : option aom_write_bit_buffer :=
  wb ← write_ones wb (log2 - min_log2);
  if log2 <? max_log2 then aom_wb_write_bit wb 0 else Some wb.

(** The loop over explicit sizes, from tile [i] on ([count] to go). *)
Fixpoint write_sizes_loop (count : nat) (i todo max_sb : Z) (a : list Z)
    (wb : aom_write_bit_buffer) : option aom_write_bit_buffer :=
  match count with
  | O => Some wb
  | S count' =>
      e ← arr_get a (i + 1); s ← arr_get a i;
      let size_sb := e - s in
      wb ← wb_write_uniform wb (Z.min todo max_sb) (size_sb - 1);
      write_sizes_loop count' (i + 1) (todo - size_sb) max_sb a wb
  end.

Definition write_tile_info_max_tile (cm : AV1_COMMON) (wb : aom_write_bit_buffer)
  : option aom_write_bit_buffer :=
  let width_sb := sb_cols_of cm in
  let height_sb := sb_rows_of cm in
  let t := tiles cm in
  wb ← aom_wb_write_bit wb (b2z (t_uniform_spacing t));
  if t_uniform_spacing t then
    wb ← write_log2 wb (t_log2_cols t) (t_min_log2_cols t) (t_max_log2_cols t);
    write_log2 wb (t_log2_rows t) (t_min_log2_rows t) (t_max_log2_rows t)
  else
    wb ← write_sizes_loop (Z.to_nat (t_cols t)) 0 width_sb (t_max_width_sb t) (t_col_start_sb t) wb;
    write_sizes_loop (Z.to_nat (t_rows t)) 0 height_sb (t_max_height_sb t) (t_row_start_sb t) wb.

(** *** Choosing a layout *)

Record TileConfig := {
  tile_columns : Z; tile_rows : Z;
  tile_width_count : Z; tile_height_count : Z;
  tile_widths : list Z; tile_heights : list Z }.

Definition SCALE_NUMERATOR : Z := 8.

Definition coded_to_superres_mi (mi_col denom : Z) : Z :=
  (mi_col * denom + SCALE_NUMERATOR / 2) ÷ SCALE_NUMERATOR.

(** The loop of [auto_tile_size_balancing]; it stops at 64 tiles. *)
Fixpoint balance_loop (fuel : nat) (i start_sb size_sb inc_index num_sbs max_size_sb : Z)
    (a : list Z) : option (Z * list Z) :=
  match fuel with
  | O => None
  | S fuel' =>
      if (start_sb <? num_sbs) && (i <? MAX_TILE_COLS) then
        let size_sb := if i =? inc_index then size_sb + 1 else size_sb in
        a ← arr_set a i start_sb;
        balance_loop fuel' (i + 1) (start_sb + Z.min size_sb max_size_sb) size_sb inc_index
          num_sbs max_size_sb a
      else Some (i, a)
  end.

Definition auto_tile_size_balancing (t : CommonTileParams) (num_sbs num_tiles_lg : Z)
    (tile_col_row : bool) : option CommonTileParams :=
  let size_sb := Z.shiftr num_sbs num_tiles_lg in
  let res_sbs := num_sbs - Z.shiftl size_sb num_tiles_lg in
  let num_tiles := Z.shiftl 1 num_tiles_lg in
  let inc_index := num_tiles - res_sbs in
  let max_size_sb := if tile_col_row then t_max_width_sb t else t_max_height_sb t in
  '(i, a) ← balance_loop 65 0 0 size_sb inc_index num_sbs max_size_sb
              (if tile_col_row then t_col_start_sb t else t_row_start_sb t);
  a ← arr_set a i num_sbs;
  Some (if tile_col_row then with_cols t false (t_log2_cols t) i a
        else with_rows (with_cols t false (t_log2_cols t) (t_cols t) (t_col_start_sb t))
               (t_log2_rows t) i (t_height t) a).

(** The loop over the configured sizes, taken round robin from position [j]. *)
Fixpoint sizes_loop (fuel : nat) (i j start_sb n max_sb count : Z) (sizes a : list Z)
  : option (Z * list Z) :=
  match fuel with
  | O => None
  | S fuel' =>
      if (start_sb <? n) && (i <? MAX_TILE_COLS) then
        a ← arr_set a i start_sb;
        size_sb ← arr_get sizes j;
        let j := if count <=? j + 1 then 0 else j + 1 in
        sizes_loop fuel' (i + 1) j (start_sb + Z.min size_sb max_sb) n max_sb count sizes a
      else Some (i, a)
  end.

(** [for (; (max_width_sb << min_log2_cols) <= sb_cols; ++min_log2_cols)] *)
Fixpoint superres_log2_loop (fuel : nat) (k max_width_sb sb_cols : Z) : option Z :=
  match fuel with
  | O => None
  | S fuel' =>
      if Z.shiftl max_width_sb k <=? sb_cols then superres_log2_loop fuel' (k + 1) max_width_sb sb_cols
      else Some k
  end.

Definition set_tile_cols (cm : AV1_COMMON) (cfg : TileConfig) : option CommonTileParams :=
  let t := tiles cm in
  let sb_cols := sb_cols_of cm in
  if (tile_width_count cfg =? 0) || (tile_height_count cfg =? 0) then
    let log2_cols := Z.max (tile_columns cfg) (t_min_log2_cols t) in
    let sb_cols := coded_to_superres_mi sb_cols (superres_scale_denominator cm) in
    min_log2_cols ← superres_log2_loop 32 0 (t_max_width_sb t) sb_cols;
    let log2_cols := Z.max log2_cols min_log2_cols in
    Some (with_cols t true (Z.min log2_cols (t_max_log2_cols t)) (t_cols t) (t_col_start_sb t))
  else
    w0 ← arr_get (tile_widths cfg) 0;
    if w0 <? 0 then auto_tile_size_balancing t sb_cols (tile_columns cfg) true
    else
      '(i, a) ← sizes_loop 65 0 0 0 sb_cols (t_max_width_sb t) (tile_width_count cfg)
                  (tile_widths cfg) (t_col_start_sb t);
      a ← arr_set a i sb_cols;
      Some (with_cols t false (t_log2_cols t) i a).

Definition set_tile_rows (cm : AV1_COMMON) (cfg : TileConfig) (t : CommonTileParams)
  : option CommonTileParams :=
  let sb_rows := sb_rows_of cm in
  if t_uniform_spacing t then
    let log2_rows := Z.max (tile_rows cfg) (t_min_log2_rows t) in
    Some (with_rows t (Z.min log2_rows (t_max_log2_rows t)) (t_rows t) (t_height t) (t_row_start_sb t))
  else
    h0 ← arr_get (tile_heights cfg) 0;
    if h0 <? 0 then auto_tile_size_balancing t sb_rows (tile_rows cfg) false
    else
      '(i, a) ← sizes_loop 65 0 0 0 sb_rows (t_max_height_sb t) (tile_height_count cfg)
                  (tile_heights cfg) (t_row_start_sb t);
      a ← arr_set a i sb_rows;
      Some (with_rows t (t_log2_rows t) i (t_height t) a).

Definition set_tile_info (cm : AV1_COMMON) (cfg : TileConfig) : option AV1_COMMON :=
  cm ← av1_get_tile_limits cm;
  t ← set_tile_cols cm cfg;
  t ← av1_calculate_tile_cols (mib_size_log2 cm) (mi_rows cm) (mi_cols cm) t;
  t ← set_tile_rows cm cfg t;
  t ← av1_calculate_tile_rows (mib_size_log2 cm) (mi_rows cm) t;
  Some (set_tiles cm t).

(** ** The limits *)

(** What [av1_get_tile_limits] establishes: the ranges [log2_cols] and [log2_rows] are
    chosen from are not empty, whatever is chosen for the columns. *)
Definition limits_ok (cm : AV1_COMMON) : Prop :=
  let t := tiles cm in
  1 <= t_max_width_sb t /\ 0 <= t_min_log2_cols t <= t_max_log2_cols t /\
  t_max_log2_cols t <= 6 /\ 0 <= t_max_log2_rows t <= 6 /\
  sb_cols_of cm <= t_max_width_sb t * 2 ^ t_min_log2_cols t /\
  (t_max_log2_cols t = 0 \/ 2 <= sb_cols_of cm) /\ (t_max_log2_rows t = 0 \/ 2 <= sb_rows_of cm) /\
  forall lc, t_min_log2_cols t <= lc -> Z.max (t_min_log2 t - lc) 0 <= t_max_log2_rows t.

Lemma sb_bounds cm : frame_ok cm ->
  1 <= sb_cols_of cm <= 1024 /\ 1 <= sb_rows_of cm <= 1024 /\
  (mib_size_log2 cm = 5 -> sb_cols_of cm <= 512 /\ sb_rows_of cm <= 512).
Proof.
  intros (Hr & Hc & Hb & _). unfold sb_cols_of, sb_rows_of.
  destruct (ceil_spec (mi_cols cm) (mib_size_log2 cm) ltac:(lia) ltac:(lia)) as [C1 C2].
  destruct (ceil_spec (mi_rows cm) (mib_size_log2 cm) ltac:(lia) ltac:(lia)) as [R1 R2].
  destruct Hb as [E | E]; rewrite E in *; change (2 ^ 4) with 16 in *; change (2 ^ 5) with 32 in *;
    (split; [lia |]; split; [lia |]); intros; lia.
Qed.

(** [tile_log2(1, AOMMIN(n, 64))] *)
Lemma log2_64 n : 1 <= n -> exists k, tile_log2 1 (Z.min n 64) = Some k /\ 0 <= k <= 6 /\
  Z.min n 64 <= 2 ^ k /\ (k = 0 \/ 2 <= n).
Proof.
  intros Hn. destruct (tile_log2_ok 1 (Z.min n 64)) as (k & E & Hk & Hle & Hlow); [lia | lia |].
  exists k. split_and!; [done | done | | lia |].
  2: { destruct (Z.eq_dec k 0) as [| Hk0]; [by left | right]. destruct Hlow as [| Hlow]; [lia |].
       pose proof (pow2_pos (k - 1) ltac:(lia)). lia. }
  apply (tile_log2_le 1 (Z.min n 64)); [lia | done | lia | lia | change (1 * 2 ^ 6) with 64; lia].
Qed.

(** The area rule never asks for more rows than the row rule allows. *)
Lemma rows_suffice sbc sbr mw area ml mlr lc :
  1 <= sbr <= 16 * mw -> (mw = 64 /\ area = 2304 \/ mw = 32 /\ area = 576) ->
  0 <= lc -> sbc <= mw * 2 ^ lc -> (ml = 0 \/ area * 2 ^ (ml - 1) < sbc * sbr) ->
  0 <= mlr -> Z.min sbr 64 <= 2 ^ mlr -> ml - lc <= mlr.
Proof.
  intros Hr Hmw Hlc Hc Hml Hm Hmr. destruct Hml as [-> | Hml]; [lia |].
  destruct (Z.le_gt_cases (ml - lc) mlr) as [| Hgt]; [done | exfalso].
  assert (2 ^ (ml - 1) = 2 ^ (ml - lc - 1) * 2 ^ lc) as E
    by (rewrite <- pow2_split by lia; f_equal; lia).
  pose proof (pow2_le mlr (ml - lc - 1) ltac:(lia)).
  pose proof (pow2_pos lc Hlc). pose proof (pow2_pos mlr Hm).
  rewrite E in Hml. set (p := 2 ^ (ml - lc - 1)) in *. set (q := 2 ^ lc) in *.
  assert (area * p < mw * sbr) by nia. lia.
Qed.

Lemma set_tiles_id cm : set_tiles cm (tiles cm) = cm.
Proof. by destruct cm. Qed.

Lemma tile_limits_total cm : frame_ok cm ->
  exists mw mlc xlc xlr ml,
    (forall t, av1_get_tile_limits (set_tiles cm t) =
       Some (set_tiles cm (with_limits t mw mlc xlc xlr ml))) /\
    limits_ok (set_tiles cm (with_limits (tiles cm) mw mlc xlc xlr ml)).
Proof.
  intros Hf. destruct (sb_bounds cm Hf) as (Hc & Hr & Hb5). destruct Hf as (_ & _ & Hb & _).
  unfold av1_get_tile_limits, MAX_TILE_COLS, MAX_TILE_ROWS.
  set (mw := Z.shiftr MAX_TILE_WIDTH (mib_size_log2 cm + MI_SIZE_LOG2)).
  set (area := Z.shiftr MAX_TILE_AREA (2 * (mib_size_log2 cm + MI_SIZE_LOG2))).
  assert ((mw = 64 /\ area = 2304 \/ mw = 32 /\ area = 576) /\
          sb_rows_of cm <= 16 * mw /\ sb_cols_of cm <= 16 * mw) as (Hm & Hrm & Hcm).
  { subst mw area. destruct Hb as [E | E]; [| destruct (Hb5 E)]; rewrite E;
      vm_compute (Z.shiftr _ _); lia. }
  assert (Z.shiftr MAX_TILE_WIDTH (mib_size_log2 cm + MI_SIZE_LOG2) = mw) as Emw by done.
  assert (Z.shiftr MAX_TILE_AREA (2 * (mib_size_log2 cm + MI_SIZE_LOG2)) = area) as Earea by done.
  clearbody mw area.
  destruct (tile_log2_ok mw (sb_cols_of cm)) as (mlc & E1 & M1 & M2 & _); [lia | lia |].
  destruct (log2_64 (sb_cols_of cm)) as (xlc & E2 & X1 & X2 & X3); [lia |].
  destruct (log2_64 (sb_rows_of cm)) as (xlr & E3 & Y1 & Y2 & Y3); [lia |].
  destruct (tile_log2_ok area (sb_cols_of cm * sb_rows_of cm)) as (ml & E4 & L1 & L2 & L3); [lia | nia |].
  exists mw, mlc, xlc, xlr, (Z.max ml mlc). split.
  { intros t. change (sb_cols_of (set_tiles cm t)) with (sb_cols_of cm).
    change (sb_rows_of (set_tiles cm t)) with (sb_rows_of cm).
    change (mib_size_log2 (set_tiles cm t)) with (mib_size_log2 cm).
    rewrite Emw, Earea, E1, E2, E3, E4. done. }
  assert (mlc <= xlc) as Hle.
  { apply (tile_log2_le mw (sb_cols_of cm)); [lia | done | lia | lia |]. nia. }
  unfold limits_ok. change (sb_cols_of (set_tiles cm _)) with (sb_cols_of cm).
  change (sb_rows_of (set_tiles cm _)) with (sb_rows_of cm).
  cbn [tiles set_tiles with_limits t_max_width_sb t_min_log2_cols t_max_log2_cols t_max_log2_rows t_min_log2].
  split_and!; try lia. intros lc Hlc.
  assert (ml - lc <= xlr); [| lia].
  apply (rows_suffice (sb_cols_of cm) (sb_rows_of cm) mw area); try lia.
  etransitivity; [exact M2 |]. apply Z.mul_le_mono_nonneg_l; [lia |]. apply pow2_le. lia.
Qed.

(** ** Reading from any stream *)

Lemma yields_lift {A} (o : option A) a : o = Some a -> yields (lift o) (eq a).
Proof. intros ->. by apply yields_ret. Qed.

Lemma unsigned_bits n : 1 <= n < 2 ^ 32 -> get_unsigned_bits n = Z.log2 n + 1.
Proof.
  intros Hn. unfold get_unsigned_bits, get_msb. rewrite u32_small by lia.
  by rewrite (proj2 (Z.ltb_lt _ _)) by lia.
Qed.

Lemma yields_uniform n : 1 <= n < 2 ^ 32 -> yields (rb_read_uniform n) (fun v => 0 <= v < n).
Proof.
  intros Hn. unfold rb_read_uniform. rewrite unsigned_bits by done. cbv zeta.
  pose proof (Z.log2_nonneg n) as Hl0. pose proof (Z.log2_spec n ltac:(lia)) as Hl.
  rewrite <- Z.add_1_r in Hl. rewrite Z.shiftl_mul_pow2, Z.mul_1_l by lia.
  assert (2 ^ (Z.log2 n + 1) = 2 * 2 ^ Z.log2 n) as E by (rewrite pow2_split by lia; lia).
  eapply yields_bind; [apply yields_literal |]. intros v Hv. cbv beta in Hv.
  replace (Z.max (Z.log2 n + 1 - 1) 0) with (Z.log2 n) in Hv by lia.
  destruct (Z.ltb_spec v (2 ^ (Z.log2 n + 1) - n)); [apply yields_ret; lia |].
  eapply yields_bind; [exact yields_bit |]. intros b Hb. cbv beta in Hb.
  apply yields_ret. rewrite Z.shiftl_mul_pow2 by lia. change (2 ^ 1) with 2. lia.
Qed.

Lemma yields_log2_loop fuel log2 max_log2 : log2 + Z.of_nat fuel = Z.max log2 max_log2 ->
  yields (read_log2_loop fuel log2 max_log2) (fun v => log2 <= v <= Z.max log2 max_log2).
Proof.
  revert log2. induction fuel as [|fuel IH]; intros log2 Hf; cbn [read_log2_loop];
    [apply yields_ret; lia |].
  destruct (Z.ltb_spec log2 max_log2); [| apply yields_ret; lia].
  eapply yields_bind; [exact yields_bit |]. intros b _.
  destruct (b =? 0); [apply yields_ret; lia |].
  intros rb. specialize (IH (log2 + 1) ltac:(lia) rb).
  destruct (read_log2_loop _ _ _ _) as [[v rb'] | |]; try done. lia.
Qed.

Lemma yields_log2 min_log2 max_log2 : min_log2 <= max_log2 ->
  yields (read_log2 min_log2 max_log2) (fun v => min_log2 <= v <= max_log2).
Proof.
  intros H. unfold read_log2. intros rb.
  pose proof (yields_log2_loop (Z.to_nat (max_log2 - min_log2)) min_log2 max_log2 ltac:(lia) rb) as Hy.
  destruct (read_log2_loop _ _ _ _) as [[v rb'] | |]; try done. lia.
Qed.

(** The explicit sizes read so far: [i] strictly increasing starts from 0 up to
    [start_sb]. *)
Definition partial_cut (a : list Z) (i start_sb : Z) : Prop :=
  Z.of_nat (length a) = 65 /\ 0 <= i <= 64 /\ (i = 0 -> start_sb = 0) /\
  (0 < i -> nthz a 0 = 0 /\ nthz a (i - 1) < start_sb) /\
  forall j, 0 <= j < i - 1 -> nthz a j < nthz a (j + 1).

Lemma partial_cut_step a i start_sb size : partial_cut a i start_sb -> i < 64 -> 1 <= size ->
  exists a', arr_set a i start_sb = Some a' /\ partial_cut a' (i + 1) (start_sb + size) /\
    nthz a' i = start_sb /\ forall j, 0 <= j < i -> nthz a' j = nthz a j.
Proof.
  intros (Hl & Hi & H0 & Hp & Hs) Hlt Hsz.
  destruct (arr_set_ok a i start_sb) as (a' & E & L & N & O); [lia |].
  exists a'. split; [done |]. split; [| split; [done | intros; apply O; lia]].
  unfold partial_cut. replace (i + 1 - 1) with i by lia.
  split_and!; try lia.
  - intros _. split; [| lia]. destruct (Z.eq_dec i 0) as [-> | Hne]; [rewrite N; lia |].
    rewrite O by lia. apply Hp. lia.
  - intros j Hj. rewrite (O j) by lia.
    destruct (Z.eq_dec (j + 1) i) as [Ej | Hne]; [| rewrite O by lia; apply Hs; lia].
    rewrite Ej, N. replace j with (i - 1) by lia. apply Hp. lia.
Qed.

Lemma partial_cut_close a i start_sb n : partial_cut a i start_sb -> 0 < i -> start_sb <= n ->
  exists a', arr_set a i n = Some a' /\ cut a' i n /\ forall j, 0 <= j < i -> nthz a' j = nthz a j.
Proof.
  intros (Hl & Hi & _ & Hp & Hs) Hpos Hn.
  destruct (arr_set_ok a i n) as (a' & E & L & N & O); [lia |].
  exists a'. split; [done |]. split; [| intros; apply O; lia].
  destruct (Hp Hpos) as [Hz Hlast]. unfold cut. split_and!; try lia; [rewrite O; lia |].
  intros j Hj. rewrite (O j) by lia.
  destruct (Z.eq_dec (j + 1) i) as [Ej | Hne]; [| rewrite O by lia; apply Hs; lia].
  rewrite Ej, N. replace j with (i - 1) by lia. lia.
Qed.

Lemma yields_sizes_loop fuel i start_sb todo max_sb a :
  partial_cut a i start_sb -> 0 <= todo < 2 ^ 32 -> 1 <= max_sb -> 64 - i < Z.of_nat fuel ->
  (i = 0 -> 0 < todo) ->
  yields (read_sizes_loop fuel i start_sb todo max_sb a)
    (fun '(i', s', r', a') => partial_cut a' i' s' /\ 0 < i' /\ 0 <= r' /\
       s' + r' = start_sb + todo).
Proof.
  revert i start_sb todo a. induction fuel as [|fuel IH]; intros i s todo a Hp Ht Hm Hf H0.
  { exfalso. unfold partial_cut in Hp. lia. }
  cbn [read_sizes_loop]. unfold MAX_TILE_COLS.
  destruct (Z.ltb_spec 0 todo); cbn [andb];
    [destruct (Z.ltb_spec i 64) |]; try (apply yields_ret; split_and!; try done; lia);
    [| apply yields_ret; unfold partial_cut in Hp; split_and!; try done; lia ..].
  eapply yields_bind; [apply yields_uniform; lia |]. intros v Hv. cbv beta in Hv.
  destruct (partial_cut_step a i s (1 + v) Hp ltac:(lia) ltac:(lia)) as (a' & -> & Hp' & _ & _).
  intros rb. assert (0 <= i) by (unfold partial_cut in Hp; lia).
  specialize (IH (i + 1) (s + (1 + v)) (todo - (1 + v)) a' Hp' ltac:(lia) Hm ltac:(lia) ltac:(lia) rb).
  destruct (read_sizes_loop _ _ _ _ _ _ _) as [[[[[i2 s2] r2] a2] rb'] | |]; try done.
  destruct IH as (? & ? & ? & ?). split_and!; try done; lia.
Qed.

Lemma yields_sizes n max_sb a : 1 <= n < 2 ^ 32 -> 1 <= max_sb -> Z.of_nat (length a) = 65 ->
  yields (read_sizes n max_sb a) (fun '(k, a') => cut a' k n).
Proof.
  intros Hn Hm Hl. unfold read_sizes. eapply yields_bind.
  - apply (yields_sizes_loop 65 0 0 n max_sb a); try lia. unfold partial_cut. split_and!; lia.
  - intros [[[i s] r] a'] (Hp & Hi & Hr & E).
    destruct (partial_cut_close a' i s (s + r) Hp Hi ltac:(lia)) as (a2 & -> & Hc & _).
    apply yields_ret. replace n with (s + r) by lia. done.
Qed.

(** ** Layout from a choice of columns and rows *)

Lemma widths_loop_ok a k n todo i w nar :
  cut a k n -> 0 <= i -> i + Z.of_nat todo = k -> 1 <= w ->
  exists w' nar', widths_loop todo i k a w nar = Some (w', nar') /\ 1 <= w'.
Proof.
  intros Hc. revert i w nar. induction todo as [|todo IH]; intros i w nar Hi Hk Hw.
  { exists w, nar. done. }
  cbn [widths_loop]. rewrite !(cut_get a k n Hc) by lia. cbn [mbind option_bind].
  apply IH; lia.
Qed.

(** What a choice of columns must satisfy for [av1_calculate_tile_cols]. *)
Definition col_choice (t : CommonTileParams) (sb_cols : Z) : Prop :=
  Z.of_nat (length (t_col_start_sb t)) = 65 /\
  (t_uniform_spacing t = true -> 0 <= t_log2_cols t <= 6) /\
  (t_uniform_spacing t = false -> cut (t_col_start_sb t) (t_cols t) sb_cols).

Definition row_choice (t : CommonTileParams) (sb_rows : Z) : Prop :=
  Z.of_nat (length (t_row_start_sb t)) = 65 /\
  (t_uniform_spacing t = true -> 0 <= t_log2_rows t <= 6) /\
  (t_uniform_spacing t = false -> cut (t_row_start_sb t) (t_rows t) sb_rows).

(** The log of a count: large enough for it, and zero for one tile only (for uniform
    spacing, when there is more than one superblock to divide). *)
Definition counts (uniform : bool) (k lg n : Z) : Prop :=
  0 <= lg <= 6 /\ k <= 2 ^ lg /\ (1 <= lg -> (uniform = true -> 2 <= n) -> 2 <= k).

Lemma log2_counts k lg n : 1 <= k <= 64 -> tile_log2 1 k = Some lg -> counts false k lg n.
Proof.
  intros Hk E. destruct (tile_log2_ok 1 k) as (lg' & E' & Hlg & Hle & Hlow); [lia | lia |].
  rewrite E in E'. injection E' as <-. split_and!; [done | | lia |].
  { apply (tile_log2_le 1 k); [lia | done | lia | lia | change (1 * 2 ^ 6) with 64; lia]. }
  intros Hlg1 _. destruct Hlow as [| Hlow]; [lia |]. pose proof (pow2_pos (lg - 1) ltac:(lia)). lia.
Qed.

Lemma calculate_cols_ok b r c t :
  0 <= b -> 1 <= c -> col_choice t (CEIL_POWER_OF_TWO c b) ->
  exists log2 k a mlr mh w inner,
    av1_calculate_tile_cols b r c t =
      Some (with_col_sizes (with_cols t (t_uniform_spacing t) log2 k a) mlr mh w inner) /\
    cut a k (CEIL_POWER_OF_TWO c b) /\
    (t_uniform_spacing t = true -> log2 = t_log2_cols t /\ mlr = Z.max (t_min_log2 t - t_log2_cols t) 0 /\
       forall j, 0 <= j < k -> nthz a (j + 1) - nthz a j <= CEIL_POWER_OF_TWO (CEIL_POWER_OF_TWO c b) log2) /\
    (t_uniform_spacing t = false -> k = t_cols t /\ a = t_col_start_sb t /\ 1 <= mh) /\
    counts (t_uniform_spacing t) k log2 (CEIL_POWER_OF_TWO c b).
Proof.
  intros Hb Hc (Hl & Hu & Hnu). destruct (ceil_spec c b Hb Hc) as [Hn _].
  unfold av1_calculate_tile_cols. set (n := CEIL_POWER_OF_TWO c b) in *.
  destruct (t_uniform_spacing t) eqn:Eu.
  - destruct (uniform_cut n (t_log2_cols t) (t_col_start_sb t) (Hu eq_refl) Hn Hl)
      as (k & a1 & a' & E1 & E2 & Hcut & Hk & Hk2 & Hsz).
    rewrite E1. cbn [mbind option_bind]. rewrite E2. cbn [mbind option_bind].
    do 7 eexists. split; [reflexivity |]. split; [done |]. split; [by intros _ |].
    split; [done |]. specialize (Hu eq_refl). split_and!; try done; auto; lia.
  - specialize (Hnu eq_refl). pose proof Hnu as (_ & Hk & _).
    destruct (tile_log2_ok 1 (t_cols t)) as (lg & E1 & _); [lia | lia |].
    destruct (widths_loop_ok (t_col_start_sb t) (t_cols t) n (Z.to_nat (t_cols t)) 0 1 65536 Hnu)
      as (w & nar & E2 & _); [lia | lia | lia |].
    rewrite E1. cbn [mbind option_bind]. rewrite E2. cbn [mbind option_bind].
    do 7 eexists. split; [reflexivity |]. split; [done |]. split; [done |].
    split; [intros _; split_and!; [done | done | lia] | by apply log2_counts].
Qed.

Lemma calculate_rows_ok b r t :
  0 <= b -> 1 <= r -> row_choice t (CEIL_POWER_OF_TWO r b) ->
  exists log2 k h a, av1_calculate_tile_rows b r t = Some (with_rows t log2 k h a) /\
    cut a k (CEIL_POWER_OF_TWO r b) /\
    (t_uniform_spacing t = true -> log2 = t_log2_rows t) /\
    (t_uniform_spacing t = false -> k = t_rows t /\ a = t_row_start_sb t) /\
    counts (t_uniform_spacing t) k log2 (CEIL_POWER_OF_TWO r b).
Proof.
  intros Hb Hr (Hl & Hu & Hnu). destruct (ceil_spec r b Hb Hr) as [Hn _].
  unfold av1_calculate_tile_rows. set (n := CEIL_POWER_OF_TWO r b) in *.
  destruct (t_uniform_spacing t) eqn:Eu.
  - destruct (uniform_cut n (t_log2_rows t) (t_row_start_sb t) (Hu eq_refl) Hn Hl)
      as (k & a1 & a' & E1 & E2 & Hcut & Hk & Hk2 & _).
    rewrite E1. cbn [mbind option_bind]. rewrite E2. cbn [mbind option_bind].
    do 4 eexists. split; [reflexivity |]. specialize (Hu eq_refl).
    split_and!; try done. split_and!; try done; auto; lia.
  - specialize (Hnu eq_refl). pose proof Hnu as (_ & Hk & _).
    destruct (tile_log2_ok 1 (t_rows t)) as (lg & E1 & _); [lia | lia |].
    rewrite E1. cbn [mbind option_bind]. do 4 eexists. split; [reflexivity |].
    split_and!; try done. by apply log2_counts.
Qed.

(** The frame a layout belongs to, everything but the tiles. *)
Definition same_frame (cm cm' : AV1_COMMON) : Prop := cm' = set_tiles cm (tiles cm').

Lemma frame_ok_tiles cm t :
  frame_ok cm -> Z.of_nat (length (t_col_start_sb t)) = 65 ->
  Z.of_nat (length (t_row_start_sb t)) = 65 -> frame_ok (set_tiles cm t).
Proof. intros (H1 & H2 & H3 & H4 & _) H5 H6. exact (conj H1 (conj H2 (conj H3 (conj H4 (conj H5 H6))))). Qed.

Lemma widths_bound n lg mw mlc : 1 <= n -> 0 <= mlc <= lg -> 1 <= mw ->
  n <= mw * 2 ^ mlc -> CEIL_POWER_OF_TWO n lg <= mw.
Proof.
  intros Hn Hlg Hm Hle. destruct (ceil_spec n lg ltac:(lia) Hn) as [_ Hs].
  pose proof (pow2_le mlc lg ltac:(lia)). pose proof (pow2_pos lg ltac:(lia)). nia.
Qed.

Lemma yields_cols n t u :
  1 <= n < 2 ^ 32 -> 1 <= t_max_width_sb t -> 0 <= t_min_log2_cols t <= t_max_log2_cols t ->
  t_max_log2_cols t <= 6 -> Z.of_nat (length (t_col_start_sb t)) = 65 ->
  yields (read_tile_cols n t u) (fun t' => exists b log2 k a,
    t' = with_cols t b log2 k a /\ col_choice t' n /\ (b = true -> t_min_log2_cols t <= log2)).
Proof.
  intros Hn Hm Hlo Hhi Hl. unfold read_tile_cols. destruct (u =? 0).
  - eapply yields_bind; [by apply yields_sizes |]. intros [k a] Hc. apply yields_ret.
    do 4 eexists. split; [done |]. split; [| done]. split; [apply Hc |]. done.
  - eapply yields_bind; [by apply yields_log2; lia |]. intros lg Hlg. cbv beta in Hlg.
    apply yields_ret. do 4 eexists. split; [done |].
    split; [split; [done | split; [simpl; lia | done]] | lia].
Qed.

Lemma yields_rows n t :
  1 <= n < 2 ^ 32 -> (t_uniform_spacing t = false -> 1 <= t_max_height_sb t) ->
  (t_uniform_spacing t = true -> 0 <= t_min_log2_rows t <= t_max_log2_rows t) ->
  t_max_log2_rows t <= 6 -> Z.of_nat (length (t_row_start_sb t)) = 65 ->
  yields (read_tile_rows n t) (fun t' => exists log2 k h a,
    t' = with_rows t log2 k h a /\ row_choice t' n).
Proof.
  intros Hn Hm Hlo Hhi Hl. unfold read_tile_rows. destruct (t_uniform_spacing t) eqn:Eu.
  - eapply yields_bind; [apply yields_log2; specialize (Hlo eq_refl); lia |].
    intros lg Hlg. cbv beta in Hlg. specialize (Hlo eq_refl).
    apply yields_ret. do 4 eexists. split; [done |].
    split; [done | split; simpl; [lia | congruence]].
  - eapply yields_bind; [apply yields_sizes; auto |]. intros [k a] Hc. apply yields_ret.
    do 4 eexists. split; [done |]. split; [apply Hc | split; simpl; [congruence | done]].
Qed.

(** C32: Whatever bytes the frame header holds, reading the tile information stays inside
    the start arrays and, unless the data ends early, leaves a layout that divides the
    frame into between 1 and 64 non-empty rows and columns of tiles; uniformly spaced
    columns respect the maximum tile width. *)
Theorem read_tile_info_safe cm :
  frame_ok cm ->
  yields (read_tile_info_max_tile cm) (fun cm' =>
    same_frame cm cm' /\ frame_ok cm' /\ tiling cm' /\
    (t_uniform_spacing (tiles cm') = true ->
     forall j, 0 <= j < t_cols (tiles cm') ->
       nthz (t_col_start_sb (tiles cm')) (j + 1) - nthz (t_col_start_sb (tiles cm')) j
         <= t_max_width_sb (tiles cm'))).
Proof.
  intros Hf. destruct (sb_bounds cm Hf) as (Hbc & Hbr & _).
  destruct (tile_limits_total cm Hf) as (mw & mlc & xlc & xlr & ml & El & Hlim).
  specialize (El (tiles cm)). rewrite set_tiles_id in El.
  pose proof Hf as (Hr & Hc & Hb & Hms & Hlc & Hlr).
  unfold read_tile_info_max_tile. eapply yields_bind; [exact (yields_lift _ _ El) |].
  intros ? <-. destruct Hlim as (L1 & L2 & L3 & L4 & L5 & L7 & L8 & L6).
  eapply yields_bind; [exact yields_bit |]. intros u _.
  eapply yields_bind; [apply yields_cols; done || lia |].
  intros t1 (b & lg & k & a & -> & Hcc & Hb1).
  destruct (calculate_cols_ok (mib_size_log2 cm) (mi_rows cm) (mi_cols cm) _ ltac:(lia) ltac:(lia) Hcc)
    as (lg' & k' & a' & mlr & mh & w & inner & Ec & Hcut & Hu & Hnu & _).
  eapply yields_bind; [exact (yields_lift _ _ Ec) |]. intros ? <-.
  eapply yields_bind.
  { apply (yields_rows (sb_rows_of cm)); [lia | intros Eu; by apply Hnu | | exact (proj2 L4) | done].
    intros Eu. destruct (Hu Eu) as (_ & Em & _). cbn in Em |- *. rewrite Em.
    split; [lia |]. apply L6. by apply Hb1. }
  intros t2 (lg2 & k2 & h2 & a2 & -> & Hrc).
  destruct (calculate_rows_ok (mib_size_log2 cm) (mi_rows cm) _ ltac:(lia) ltac:(lia) Hrc)
    as (lg3 & k3 & h3 & a3 & Er & Hcutr & _).
  eapply yields_bind; [exact (yields_lift _ _ Er) |]. intros ? <-.
  apply yields_ret. split; [done |].
  split; [apply (frame_ok_tiles cm); [done | exact (proj1 Hcut) | exact (proj1 Hcutr)] |].
  split; [by split |]. cbn. intros Eu j Hj. destruct (Hu Eu) as (-> & _ & Hsz).
  etransitivity; [by apply Hsz |]. cbn in L5.
  cbn in L1, L2. apply (widths_bound (sb_cols_of cm) _ mw mlc); try done; try lia.
  split; [lia |]. by apply Hb1.
Qed.

(** ** Round trip of the header fields *)

Lemma emits_uniform n v : 1 <= n < 2 ^ 32 -> 0 <= v < n ->
  emits (E := bool) (fun w => wb_write_uniform w n v) (quniform_bits n v).
Proof.
  intros Hn Hv. unfold wb_write_uniform. rewrite unsigned_bits by done. cbv zeta.
  pose proof (Z.log2_nonneg n). rewrite (proj2 (Z.eqb_neq _ _)) by lia.
  unfold quniform_bits. rewrite Z.shiftl_mul_pow2, Z.mul_1_l by lia.
  replace (Z.log2 n + 1 - 1) with (Z.log2 n) by lia.
  destruct (Z.leb_spec n 1) as [Hle | _].
  { replace n with 1 by lia. replace v with 0 by lia. exact (emits_literal 0 0). }
  destruct (_ <? _); [apply emits_literal |].
  rewrite Z.shiftr_div_pow2 by lia. change (2 ^ 1) with 2. rewrite land_1_odd.
  apply (emits_app (fun w => aom_wb_write_literal w _ _) (fun w => aom_wb_write_literal w _ 1));
    [apply emits_literal |].
  eapply emits_eq; [apply emits_literal |]. by destruct (Z.odd _).
Qed.

Section Reads.
Context (buf : list Z) (h : option aom_codec_err_t).
#[local] Existing Instance rb_source_ok.
#[local] Abbreviation takes := (takes (src_ok := rb_source_ok buf h)).

Lemma takes_uniform n v : 1 <= n < 2 ^ 32 -> 0 <= v < n ->
  takes (rb_read_uniform n) (quniform_bits n v) v.
Proof.
  intros Hn Hv. unfold rb_read_uniform. rewrite unsigned_bits by done. cbv zeta.
  pose proof (Z.log2_nonneg n). rewrite Z.shiftl_mul_pow2, Z.mul_1_l by lia.
  replace (Z.log2 n + 1 - 1) with (Z.log2 n) by lia. unfold quniform_bits.
  destruct (Z.leb_spec n 1) as [Hle | Hgt].
  { replace n with 1 by lia. replace v with 0 by lia. apply takes_ret. }
  pose proof (quniform_arith n v ltac:(lia) Hv) as [Hm Hpair].
  destruct (Z.ltb_spec v (2 ^ (Z.log2 n + 1) - n)) as [Hlt | Hge].
  - rewrite <- (app_nil_r (lit_bits _ _)).
    eapply takes_bind; [apply takes_literal; lia |]. cbv beta.
    rewrite (proj2 (Z.ltb_lt _ _)) by done. apply takes_ret.
  - destruct (Hpair Hge) as [Hlt Hback].
    eapply takes_bind; [apply takes_literal; dlia |]. cbv beta.
    rewrite (proj2 (Z.ltb_ge _ _)) by dlia.
    eapply takes_bind_ret; [apply takes_get |]. cbv beta.
    rewrite Z.shiftl_mul_pow2 by lia. change (2 ^ 1) with 2. by rewrite (Z.mul_comm _ 2).
Qed.

Definition log2_bits (log2 lo hi : Z) : list bool :=
  replicate (Z.to_nat (log2 - lo)) true ++ if log2 <? hi then [false] else [].

Lemma takes_log2_loop d lo hi : lo + Z.of_nat d <= hi ->
  takes (read_log2_loop (Z.to_nat (hi - lo)) lo hi)
    (replicate d true ++ if lo + Z.of_nat d <? hi then [false] else []) (lo + Z.of_nat d).
Proof.
  revert lo. induction d as [|d IH]; intros lo Hle.
  - cbn [replicate app]. rewrite Z.add_0_r in *.
    destruct (Z.ltb_spec lo hi) as [Hlt | Hge].
    + replace (Z.to_nat (hi - lo)) with (S (Z.to_nat (hi - lo - 1))) by lia.
      cbn [read_log2_loop]. rewrite (proj2 (Z.ltb_lt _ _)) by done.
      change [false] with ([false] ++ []). eapply takes_bind; [apply takes_get |]. apply takes_ret.
    + replace (Z.to_nat (hi - lo)) with O by lia. apply takes_ret.
  - replace (Z.to_nat (hi - lo)) with (S (Z.to_nat (hi - (lo + 1)))) by lia.
    cbn [read_log2_loop replicate app]. rewrite (proj2 (Z.ltb_lt lo hi)) by lia.
    change (true :: ?l) with ([true] ++ l). eapply takes_bind; [apply takes_get |].
    cbn [b2z Z.eqb]. replace (lo + Z.of_nat (S d)) with (lo + 1 + Z.of_nat d) in * by lia.
    apply IH. lia.
Qed.

Lemma takes_log2 log2 lo hi : lo <= log2 <= hi ->
  takes (read_log2 lo hi) (log2_bits log2 lo hi) log2.
Proof.
  intros H. pose proof (takes_log2_loop (Z.to_nat (log2 - lo)) lo hi) as Ht.
  replace (lo + Z.of_nat (Z.to_nat (log2 - lo))) with log2 in Ht by lia. apply Ht. lia.
Qed.
End Reads.

Lemma emits_ones d : emits (E := bool) (write_ones_loop d) (replicate d true).
Proof.
  induction d as [|d IH]; [apply emits_nil |]. cbn [write_ones_loop replicate].
  change (true :: ?l) with ([true] ++ l).
  apply (emits_app (fun w => aom_wb_write_bit w 1)); [exact (emits_put true) | exact IH].
Qed.

Lemma emits_log2 log2 lo hi : lo <= log2 ->
  emits (E := bool) (fun w => write_log2 w log2 lo hi) (log2_bits log2 lo hi).
Proof.
  intros Hle. unfold write_log2, log2_bits, write_ones. rewrite (proj2 (Z.ltb_ge (log2 - lo) 0)) by lia.
  apply (emits_app (write_ones_loop _)); [apply emits_ones |].
  destruct (log2 <? hi); [exact (emits_put false) | apply emits_nil].
Qed.

(** Explicit sizes. *)
Fixpoint size_bits (count : nat) (i todo max_sb : Z) (a : list Z) : list bool :=
  match count with
  | O => []
  | S count' =>
      let size_sb := nthz a (i + 1) - nthz a i in
      quniform_bits (Z.min todo max_sb) (size_sb - 1) ++
      size_bits count' (i + 1) (todo - size_sb) max_sb a
  end.

Definition fits (a : list Z) (k max_sb : Z) : Prop :=
  forall i, 0 <= i < k -> nthz a (i + 1) - nthz a i <= max_sb.

Section Sizes.
Context (a : list Z) (k n max_sb : Z) (Hcut : cut a k n) (Hfits : fits a k max_sb)
  (Hn : n < 2 ^ 32).

(** The next size is at least one and no more than what is left. *)
Lemma size_range i : 0 <= i < k ->
  1 <= nthz a (i + 1) - nthz a i <= Z.min (n - nthz a i) max_sb /\ n - nthz a i < 2 ^ 32.
Proof.
  intros Hi. pose proof (Hfits i Hi). pose proof (cut_mono a k n Hcut i (i + 1)).
  pose proof (cut_le a k n Hcut (i + 1) k). pose proof (cut_le a k n Hcut 0 i).
  destruct Hcut as (_ & _ & Hz & Hk & _). lia.
Qed.

Lemma emits_sizes count i : 0 <= i -> i + Z.of_nat count = k ->
  emits (E := bool) (write_sizes_loop count i (n - nthz a i) max_sb a)
    (size_bits count i (n - nthz a i) max_sb a).
Proof.
  revert i. induction count as [|count IH]; intros i Hi Hk; [apply emits_nil |].
  cbn [write_sizes_loop size_bits]. rewrite !(cut_get a k n Hcut) by lia. cbn [mbind option_bind].
  destruct (size_range i ltac:(lia)) as [Hr Hb].
  apply (emits_app (fun w => wb_write_uniform w _ _)); [apply emits_uniform; lia |].
  replace (n - nthz a i - (nthz a (i + 1) - nthz a i)) with (n - nthz a (i + 1)) by lia.
  apply IH; lia.
Qed.

Lemma takes_sizes_loop count i fuel b : 0 <= i -> i + Z.of_nat count = k ->
  (count < fuel)%nat -> partial_cut b i (nthz a i) -> (forall j, 0 <= j < i -> nthz b j = nthz a j) ->
  exists b', (forall buf h, takes (src_ok := rb_source_ok buf h)
      (read_sizes_loop fuel i (nthz a i) (n - nthz a i) max_sb b)
      (size_bits count i (n - nthz a i) max_sb a) (k, n, 0, b')) /\
    partial_cut b' k n /\ forall j, 0 <= j < k -> nthz b' j = nthz a j.
Proof.
  revert i fuel b. induction count as [|count IH]; intros i [|fuel] b Hi Hk Hf Hp Hb; try lia.
  - assert (i = k) as -> by lia. destruct Hcut as (_ & _ & _ & E & _). rewrite E in *.
    exists b. rewrite Z.sub_diag. cbn [read_sizes_loop size_bits Z.ltb Z.compare andb].
    split; [intros buf h; apply takes_ret |]. done.
  - destruct (size_range i ltac:(lia)) as [Hr Hb32]. pose proof Hcut as (_ & Hk64 & _).
    cbn [read_sizes_loop size_bits]. unfold MAX_TILE_COLS.
    rewrite (proj2 (Z.ltb_lt 0 _)), (proj2 (Z.ltb_lt i 64)) by lia. cbn [andb].
    destruct (partial_cut_step b i (nthz a i) (nthz a (i + 1) - nthz a i) Hp)
      as (b1 & E1 & Hp1 & N1 & O1); [lia | lia |].
    replace (nthz a i + (nthz a (i + 1) - nthz a i)) with (nthz a (i + 1)) in Hp1 by lia.
    destruct (IH (i + 1) fuel b1) as (b' & Ht & Hp' & Hb'); [lia | lia | lia | done | |].
    { intros j Hj. destruct (Z.eq_dec j i) as [-> |]; [done |]. rewrite O1, Hb by lia. done. }
    exists b'. split; [intros buf h | done].
    eapply takes_bind; [apply takes_uniform; lia |]. cbv beta zeta.
    rewrite E1.
    replace (nthz a i + (1 + (nthz a (i + 1) - nthz a i - 1))) with (nthz a (i + 1)) by lia.
    replace (n - nthz a i - (1 + (nthz a (i + 1) - nthz a i - 1))) with (n - nthz a (i + 1)) by lia.
    replace (n - nthz a i - (nthz a (i + 1) - nthz a i)) with (n - nthz a (i + 1)) by lia.
    exact (Ht buf h).
Qed.
End Sizes.

(** Two start arrays that hold the same first [k + 1] positions. *)
Definition agree (k : Z) (a b : list Z) : Prop :=
  length a = length b /\ forall j, 0 <= j <= k -> nthz a j = nthz b j.

Lemma takes_sizes a k n max_sb b :
  cut a k n -> fits a k max_sb -> n < 2 ^ 32 -> Z.of_nat (length b) = 65 ->
  exists b', (forall buf h, takes (src_ok := rb_source_ok buf h) (read_sizes n max_sb b)
      (size_bits (Z.to_nat k) 0 n max_sb a) (k, b')) /\ cut b' k n /\ agree k a b'.
Proof.
  intros Hc Hf Hn Hl. pose proof Hc as (Hla & Hk & Hz & Hkn & _).
  destruct (takes_sizes_loop a k n max_sb Hc Hf Hn (Z.to_nat k) 0 65 b)
    as (b1 & Ht & Hp & Hb); [lia | lia | lia | | lia |].
  { rewrite Hz. unfold partial_cut. split_and!; lia. }
  setoid_rewrite Hz in Ht. setoid_rewrite Z.sub_0_r in Ht.
  destruct (partial_cut_close b1 k n n Hp ltac:(lia) ltac:(lia)) as (b2 & E & Hc2 & Hb2).
  exists b2. split_and!; [| done |].
  - intros buf h. unfold read_sizes. rewrite <- (app_nil_r (size_bits _ _ _ _ _)).
    eapply takes_bind; [exact (Ht buf h) |]. cbv beta iota. rewrite Z.add_0_r, E. apply takes_ret.
  - pose proof Hc2 as (Hl2 & _ & _ & Hkn2 & _). split; [lia |].
    intros j Hj. destruct (Z.eq_dec j k) as [-> | Hne]; [congruence |].
    rewrite Hb2, Hb by lia. done.
Qed.

(** The layouts of the two sides agree on everything the header determines: all that
    the limits and the choice of columns and rows define. *)
Definition tiles_agree (t t' : CommonTileParams) : Prop :=
  t_uniform_spacing t = t_uniform_spacing t' /\
  t_cols t = t_cols t' /\ agree (t_cols t) (t_col_start_sb t) (t_col_start_sb t') /\
  t_rows t = t_rows t' /\ agree (t_rows t) (t_row_start_sb t) (t_row_start_sb t') /\
  t_log2_cols t = t_log2_cols t' /\ t_log2_rows t = t_log2_rows t' /\
  t_max_width_sb t = t_max_width_sb t' /\ t_max_height_sb t = t_max_height_sb t' /\
  t_min_inner_width t = t_min_inner_width t' /\
  (t_uniform_spacing t = true -> t_width t = t_width t' /\ t_height t = t_height t').

(** The skeleton both sides share: limits, a choice of columns, the column layout, a
    choice of rows, the row layout. *)
Definition lay_out (cm : AV1_COMMON) (uniform : bool) (log2_cols cols : Z) (col_start : list Z)
    (log2_rows rows : Z) (row_start : list Z) : option AV1_COMMON :=
  cm ← av1_get_tile_limits cm;
  t ← av1_calculate_tile_cols (mib_size_log2 cm) (mi_rows cm) (mi_cols cm)
        (with_cols (tiles cm) uniform log2_cols cols col_start);
  t ← av1_calculate_tile_rows (mib_size_log2 cm) (mi_rows cm)
        (with_rows t log2_rows rows (t_height t) row_start);
  Some (set_tiles cm t).

Definition agree_below (i : Z) (a b : list Z) : Prop :=
  length a = length b /\ forall j, 0 <= j < i -> nthz a j = nthz b j.

Lemma arr_set_agree i v a b a' : agree_below i a b -> arr_set a i v = Some a' ->
  exists b', arr_set b i v = Some b' /\ agree_below (i + 1) a' b'.
Proof.
  intros [Hl Hj] E.
  assert (0 <= i < Z.of_nat (length a)) as Hi.
  { unfold arr_set in E. destruct (Z.leb_spec 0 i), (Z.ltb_spec i (Z.of_nat (length a))); done. }
  destruct (arr_set_ok a i v Hi) as (a2 & E2 & L2 & N2 & O2). rewrite E in E2. injection E2 as <-.
  destruct (arr_set_ok b i v ltac:(lia)) as (b2 & E3 & L3 & N3 & O3).
  exists b2. split; [done |]. split; [congruence |]. intros j Hj'.
  destruct (Z.eq_dec j i) as [-> | Hne]; [congruence |]. rewrite O2, O3 by lia. apply Hj. lia.
Qed.

Lemma uniform_loop_agree fuel i s size n a b k a' :
  agree_below i a b -> uniform_loop fuel i s size n a = Some (k, a') ->
  exists b', uniform_loop fuel i s size n b = Some (k, b') /\ agree_below k a' b'.
Proof.
  revert i s a b. induction fuel as [|fuel IH]; intros i s a b Hab E; [done |].
  cbn [uniform_loop] in *. destruct (s <? n); [| injection E as <- <-; eauto].
  destruct (arr_set a i s) as [a1 |] eqn:E1; [| done].
  destruct (arr_set_agree i s a b a1 Hab E1) as (b1 & -> & Hab1).
  cbn [mbind option_bind] in *. eauto.
Qed.

Lemma widths_loop_agree todo i k a b w nar :
  agree k a b -> 0 <= i -> i + Z.of_nat todo = k -> k < Z.of_nat (length a) ->
  widths_loop todo i k a w nar = widths_loop todo i k b w nar.
Proof.
  intros [Hl Hj]. revert i w nar. induction todo as [|todo IH]; intros i w nar Hi Hk Hlen; [done |].
  cbn [widths_loop]. rewrite !arr_get_nth by lia. cbn [mbind option_bind].
  rewrite !Hj by lia. apply IH; lia.
Qed.

Lemma uniform_loop_length fuel i s size n a k a' :
  uniform_loop fuel i s size n a = Some (k, a') -> length a' = length a.
Proof.
  revert i s a. induction fuel as [|fuel IH]; intros i s a E; [done |].
  cbn [uniform_loop] in E. destruct (s <? n); [| by injection E as <- <-].
  destruct (arr_set a i s) eqn:Ea; [| done]. apply arr_set_length in Ea.
  apply IH in E. congruence.
Qed.

(** The fields the two layout functions set. *)
Lemma calculate_cols_shape b r c t t' : av1_calculate_tile_cols b r c t = Some t' ->
  exists lg k a mlr mh w inner,
    t' = with_col_sizes (with_cols t (t_uniform_spacing t) lg k a) mlr mh w inner /\
    length a = length (t_col_start_sb t) /\
    (t_uniform_spacing t = true -> lg = t_log2_cols t) /\
    (t_uniform_spacing t = false -> k = t_cols t /\ a = t_col_start_sb t).
Proof.
  unfold av1_calculate_tile_cols. intros E. destruct (t_uniform_spacing t) eqn:Eu.
  - destruct (uniform_loop _ _ _ _ _ _) as [[k a] |] eqn:E1; [| done]. cbn [mbind option_bind] in E.
    destruct (arr_set _ _ _) eqn:E2; [| done]. injection E as <-.
    apply arr_set_length in E2. apply uniform_loop_length in E1.
    do 7 eexists. split; [done |]. split; [congruence | done].
  - destruct (tile_log2 _ _); [| done]. cbn [mbind option_bind] in E.
    destruct (widths_loop _ _ _ _ _ _) as [[w nar] |]; [| done]. injection E as <-.
    by do 7 eexists.
Qed.

Lemma calculate_rows_shape b r t t' : av1_calculate_tile_rows b r t = Some t' ->
  exists lg k h a, t' = with_rows t lg k h a /\
    length a = length (t_row_start_sb t) /\
    (t_uniform_spacing t = true -> lg = t_log2_rows t) /\
    (t_uniform_spacing t = false -> k = t_rows t /\ a = t_row_start_sb t).
Proof.
  unfold av1_calculate_tile_rows. intros E. destruct (t_uniform_spacing t) eqn:Eu.
  - destruct (uniform_loop _ _ _ _ _ _) as [[k a] |] eqn:E1; [| done]. cbn [mbind option_bind] in E.
    destruct (arr_set _ _ _) eqn:E2; [| done]. injection E as <-.
    apply arr_set_length in E2. apply uniform_loop_length in E1.
    do 4 eexists. split; [done |]. split; [congruence | done].
  - destruct (tile_log2 _ _); [| done]. injection E as <-. by do 4 eexists.
Qed.

(** [av1_calculate_tile_cols] respects agreement. *)
Lemma calculate_cols_agree b r c t1 t2 t1' :
  t_uniform_spacing t1 = t_uniform_spacing t2 -> t_min_log2 t1 = t_min_log2 t2 ->
  length (t_col_start_sb t1) = length (t_col_start_sb t2) ->
  (t_uniform_spacing t1 = true -> t_log2_cols t1 = t_log2_cols t2) ->
  (t_uniform_spacing t1 = false -> t_cols t1 = t_cols t2 /\
     agree (t_cols t1) (t_col_start_sb t1) (t_col_start_sb t2) /\
     0 <= t_cols t1 < Z.of_nat (length (t_col_start_sb t1))) ->
  av1_calculate_tile_cols b r c t1 = Some t1' ->
  exists t2', av1_calculate_tile_cols b r c t2 = Some t2' /\
    t_cols t1' = t_cols t2' /\ agree (t_cols t1') (t_col_start_sb t1') (t_col_start_sb t2') /\
    t_log2_cols t1' = t_log2_cols t2' /\ t_max_height_sb t1' = t_max_height_sb t2' /\
    t_min_inner_width t1' = t_min_inner_width t2' /\
    (t_uniform_spacing t1 = true ->
     t_width t1' = t_width t2' /\ t_min_log2_rows t1' = t_min_log2_rows t2').
Proof.
  intros Hu Hml Hlen Hyes Hno E. unfold av1_calculate_tile_cols in *. rewrite <- Hu, <- Hml.
  destruct (t_uniform_spacing t1).
  - rewrite <- (Hyes eq_refl). set (size := CEIL_POWER_OF_TWO _ (t_log2_cols t1)) in *.
    destruct (uniform_loop _ _ _ _ _ (t_col_start_sb t1)) as [[k a1] |] eqn:E1; [| done].
    destruct (uniform_loop_agree 66 0 0 _ _ _ (t_col_start_sb t2) _ _ ltac:(split; [done | lia]) E1)
      as (b1 & -> & Hab). cbn [mbind option_bind] in *.
    destruct (arr_set a1 k _) as [a2 |] eqn:E2; [| done].
    destruct (arr_set_agree _ _ _ _ _ Hab E2) as (b2 & -> & [Hl2 Hab2]). cbn [mbind option_bind] in *.
    injection E as <-. eexists. split; [reflexivity |]. cbn. split_and!; try done.
    split; [done |]. intros j Hj. apply Hab2. lia.
  - destruct (Hno eq_refl) as (Hc & Hag & Hr). rewrite <- Hc.
    rewrite (widths_loop_agree _ _ _ _ _ _ _ Hag) in E by lia.
    destruct (tile_log2 1 (t_cols t1)); [| done]. cbn [mbind option_bind] in *.
    destruct (widths_loop _ _ _ (t_col_start_sb t2) _ _) as [[w nar] |]; [| done].
    injection E as <-. eexists. split; [reflexivity |]. cbn. split_and!; done.
Qed.

Lemma calculate_rows_agree b r t1 t2 t1' :
  t_uniform_spacing t1 = t_uniform_spacing t2 ->
  length (t_row_start_sb t1) = length (t_row_start_sb t2) ->
  (t_uniform_spacing t1 = true -> t_log2_rows t1 = t_log2_rows t2) ->
  (t_uniform_spacing t1 = false -> t_rows t1 = t_rows t2 /\
     agree (t_rows t1) (t_row_start_sb t1) (t_row_start_sb t2)) ->
  av1_calculate_tile_rows b r t1 = Some t1' ->
  exists t2', av1_calculate_tile_rows b r t2 = Some t2' /\
    t_rows t1' = t_rows t2' /\ agree (t_rows t1') (t_row_start_sb t1') (t_row_start_sb t2') /\
    t_log2_rows t1' = t_log2_rows t2' /\
    (t_uniform_spacing t1 = true -> t_height t1' = t_height t2').
Proof.
  intros Hu Hlen Hyes Hno E. unfold av1_calculate_tile_rows in *. rewrite <- Hu.
  destruct (t_uniform_spacing t1).
  - rewrite <- (Hyes eq_refl). set (size := CEIL_POWER_OF_TWO _ (t_log2_rows t1)) in *.
    destruct (uniform_loop _ _ _ _ _ (t_row_start_sb t1)) as [[k a1] |] eqn:E1; [| done].
    destruct (uniform_loop_agree 66 0 0 _ _ _ (t_row_start_sb t2) _ _ ltac:(split; [done | lia]) E1)
      as (b1 & -> & Hab). cbn [mbind option_bind] in *.
    destruct (arr_set a1 k _) as [a2 |] eqn:E2; [| done].
    destruct (arr_set_agree _ _ _ _ _ Hab E2) as (b2 & -> & [Hl2 Hab2]). cbn [mbind option_bind] in *.
    injection E as <-. eexists. split; [reflexivity |]. cbn. split_and!; try done.
    split; [done |]. intros j Hj. apply Hab2. lia.
  - destruct (Hno eq_refl) as (Hc & Hag). rewrite <- Hc.
    destruct (tile_log2 1 (t_rows t1)); [| done]. cbn [mbind option_bind] in *.
    injection E as <-. eexists. split; [reflexivity |]. by split_and!.
Qed.

(** What the writer can express: counts within the limits, or sizes within them. *)
Definition codable (cm : AV1_COMMON) : Prop :=
  let t := tiles cm in
  if t_uniform_spacing t then
    t_min_log2_cols t <= t_log2_cols t <= t_max_log2_cols t /\
    t_min_log2_rows t <= t_log2_rows t <= t_max_log2_rows t
  else
    cut (t_col_start_sb t) (t_cols t) (sb_cols_of cm) /\ fits (t_col_start_sb t) (t_cols t) (t_max_width_sb t) /\
    cut (t_row_start_sb t) (t_rows t) (sb_rows_of cm) /\ fits (t_row_start_sb t) (t_rows t) (t_max_height_sb t).

Definition tile_info_bits (cm : AV1_COMMON) : list bool :=
  let t := tiles cm in
  t_uniform_spacing t ::
  if t_uniform_spacing t then
    log2_bits (t_log2_cols t) (t_min_log2_cols t) (t_max_log2_cols t) ++
    log2_bits (t_log2_rows t) (t_min_log2_rows t) (t_max_log2_rows t)
  else
    size_bits (Z.to_nat (t_cols t)) 0 (sb_cols_of cm) (t_max_width_sb t) (t_col_start_sb t) ++
    size_bits (Z.to_nat (t_rows t)) 0 (sb_rows_of cm) (t_max_height_sb t) (t_row_start_sb t).

Lemma emits_tile_info cm : frame_ok cm -> codable cm ->
  emits (E := bool) (write_tile_info_max_tile cm) (tile_info_bits cm).
Proof.
  intros Hf Hc. destruct (sb_bounds cm Hf) as (Hbc & Hbr & _).
  unfold write_tile_info_max_tile, tile_info_bits, codable in *.
  change (?x :: ?l) with ([x] ++ l).
  apply (emits_app (fun w => aom_wb_write_bit w _)); [exact (emits_put _) |].
  destruct (t_uniform_spacing (tiles cm)).
  - destruct Hc as [H1 H2].
    apply (emits_app (fun w => write_log2 w _ _ _)); apply emits_log2; lia.
  - destruct Hc as (C1 & F1 & C2 & F2). pose proof C1 as (_ & K1 & Z1 & _). pose proof C2 as (_ & K2 & Z2 & _).
    pose proof (emits_sizes _ _ _ _ C1 F1 ltac:(lia) (Z.to_nat (t_cols (tiles cm))) 0) as E1.
    pose proof (emits_sizes _ _ _ _ C2 F2 ltac:(lia) (Z.to_nat (t_rows (tiles cm))) 0) as E2.
    rewrite Z1, Z.sub_0_r in E1. rewrite Z2, Z.sub_0_r in E2.
    apply (emits_app (write_sizes_loop _ _ _ _ _)); [apply E1 | apply E2]; lia.
Qed.

(** The decoder's choice of columns from the bits of the encoder's layout [t]. *)
Lemma takes_cols n t s :
  n < 2 ^ 32 -> Z.of_nat (length (t_col_start_sb s)) = 65 ->
  t_min_log2_cols s = t_min_log2_cols t -> t_max_log2_cols s = t_max_log2_cols t ->
  t_max_width_sb s = t_max_width_sb t ->
  (if t_uniform_spacing t then t_min_log2_cols t <= t_log2_cols t <= t_max_log2_cols t
   else cut (t_col_start_sb t) (t_cols t) n /\ fits (t_col_start_sb t) (t_cols t) (t_max_width_sb t)) ->
  exists lg k a, let s' := with_cols s (t_uniform_spacing t) lg k a in
    (forall buf h, takes (src_ok := rb_source_ok buf h)
      (read_tile_cols n s (b2z (t_uniform_spacing t)))
      (if t_uniform_spacing t then log2_bits (t_log2_cols t) (t_min_log2_cols t) (t_max_log2_cols t)
       else size_bits (Z.to_nat (t_cols t)) 0 n (t_max_width_sb t) (t_col_start_sb t)) s') /\
    Z.of_nat (length a) = 65 /\ (t_uniform_spacing t = true -> lg = t_log2_cols t) /\
    (t_uniform_spacing t = false -> k = t_cols t /\ agree k (t_col_start_sb t) a).
Proof.
  intros Hn Hl E1 E2 E3 Hok. unfold read_tile_cols. destruct (t_uniform_spacing t).
  - exists (t_log2_cols t), (t_cols s), (t_col_start_sb s). split_and!; try done.
    intros buf h. rewrite E1, E2. cbn [b2z Z.eqb].
    eapply takes_bind_ret; [by apply takes_log2 | done].
  - destruct Hok as [Hc Hfit].
    destruct (takes_sizes _ _ n (t_max_width_sb t) (t_col_start_sb s) Hc Hfit Hn Hl)
      as (a & Ht & Hc' & Hag).
    exists (t_log2_cols s), (t_cols t), a. split_and!; try done; [| apply Hc'].
    intros buf h. rewrite E3. cbn [b2z Z.eqb].
    rewrite <- (app_nil_r (size_bits _ _ _ _ _)).
    eapply takes_bind; [apply Ht |]. apply takes_ret.
Qed.

Lemma takes_rows n t s :
  n < 2 ^ 32 -> Z.of_nat (length (t_row_start_sb s)) = 65 ->
  t_uniform_spacing s = t_uniform_spacing t ->
  (t_uniform_spacing t = true -> t_min_log2_rows s = t_min_log2_rows t) ->
  t_max_log2_rows s = t_max_log2_rows t -> t_max_height_sb s = t_max_height_sb t ->
  (if t_uniform_spacing t then t_min_log2_rows t <= t_log2_rows t <= t_max_log2_rows t
   else cut (t_row_start_sb t) (t_rows t) n /\ fits (t_row_start_sb t) (t_rows t) (t_max_height_sb t)) ->
  exists lg k a, let s' := with_rows s lg k (t_height s) a in
    (forall buf h, takes (src_ok := rb_source_ok buf h) (read_tile_rows n s)
      (if t_uniform_spacing t then log2_bits (t_log2_rows t) (t_min_log2_rows t) (t_max_log2_rows t)
       else size_bits (Z.to_nat (t_rows t)) 0 n (t_max_height_sb t) (t_row_start_sb t)) s') /\
    Z.of_nat (length a) = 65 /\ (t_uniform_spacing t = true -> lg = t_log2_rows t) /\
    (t_uniform_spacing t = false -> k = t_rows t /\ agree k (t_row_start_sb t) a).
Proof.
  intros Hn Hl Eu E1 E2 E3 Hok. unfold read_tile_rows. rewrite Eu. destruct (t_uniform_spacing t).
  - exists (t_log2_rows t), (t_rows s), (t_row_start_sb s). split_and!; try done.
    intros buf h. rewrite E1, E2 by done.
    eapply takes_bind_ret; [by apply takes_log2 | done].
  - destruct Hok as [Hc Hfit].
    destruct (takes_sizes _ _ n (t_max_height_sb t) (t_row_start_sb s) Hc Hfit Hn Hl)
      as (a & Ht & Hc' & Hag).
    exists (t_log2_rows s), (t_rows t), a. split_and!; try done; [| apply Hc'].
    intros buf h. rewrite E3. rewrite <- (app_nil_r (size_bits _ _ _ _ _)).
    eapply takes_bind; [apply Ht |]. apply takes_ret.
Qed.

Lemma takes_lift buf h {A B} (o : option A) x (m : A -> reader aom_read_bit_buffer B) bits y :
  o = Some x -> takes (src_ok := rb_source_ok buf h) (m x) bits y ->
  takes (src_ok := rb_source_ok buf h) (lift o ≫= m) bits y.
Proof. by intros ->. Qed.

Lemma if_app {A} (c : bool) (x1 x2 y1 y2 : list A) :
  (if c then x1 ++ x2 else y1 ++ y2) = (if c then x1 else y1) ++ (if c then x2 else y2).
Proof. by destruct c. Qed.

Lemma tile_info_reads cm cm2 u lc k a lr r b cm1 :
  frame_ok cm -> same_frame cm cm2 -> frame_ok cm2 ->
  Z.of_nat (length a) = 65 -> Z.of_nat (length b) = 65 ->
  lay_out cm u lc k a lr r b = Some cm1 -> codable cm1 ->
  exists cm3, same_frame cm2 cm3 /\ tiles_agree (tiles cm1) (tiles cm3) /\
    forall buf h, takes (src_ok := rb_source_ok buf h) (read_tile_info_max_tile cm2)
      (tile_info_bits cm1) cm3.
Proof.
  intros Hf Hs Hf2 Hla Hlb E Hcod. destruct (sb_bounds cm Hf) as (Hbc & Hbr & _).
  pose proof Hf2 as (_ & _ & _ & _ & Hl2c & Hl2r).
  destruct (tile_limits_total cm Hf) as (mw & mlc & xlc & xlr & ml & El & _).
  unfold lay_out in E. rewrite <- (set_tiles_id cm), El in E. cbn [mbind option_bind] in E.
  destruct (av1_calculate_tile_cols _ _ _ _) as [t1 |] eqn:Ec; [| done]. cbn [mbind option_bind] in E.
  destruct (av1_calculate_tile_rows _ _ _) as [t2 |] eqn:Er; [| done]. injection E as <-.
  destruct (calculate_cols_shape _ _ _ _ _ Ec) as (lg & k1 & a1 & mlr & mh & w & inner & Et1 & _ & Hu & Hnu).
  destruct (calculate_rows_shape _ _ _ _ Er) as (lg2 & k2 & h2 & a2 & Et2 & _ & Hur & Hnur).
  cbn in Hu, Hnu, Hur, Hnur. rewrite Et1 in Hur, Hnur. cbn in Hur, Hnur.
  unfold codable in Hcod. cbn [tiles set_tiles] in Hcod.
  set (lim1 := with_limits (tiles cm) mw mlc xlc xlr ml) in *.
  set (lim2 := with_limits (tiles cm2) mw mlc xlc xlr ml).
  subst t2 t1. cbn in Hcod.
  destruct (takes_cols (sb_cols_of cm) (with_cols lim1 u lg k1 a1) lim2)
    as (lgc & kc & ac & Htc & Hlc & Hcu & Hcn); try done; [lia | |].
  { cbn. destruct u; [apply Hcod | split; apply Hcod]. }
  cbn in Htc, Hcu, Hcn.
  pose proof (calculate_cols_agree (mib_size_log2 cm) (mi_rows cm) (mi_cols cm)
              (with_cols lim1 u lc k a) (with_cols lim2 u lgc kc ac)
              (with_col_sizes (with_cols (with_cols lim1 u lc k a) u lg k1 a1) mlr mh w inner)
              eq_refl eq_refl) as Hca. cbn in Hca.
  destruct Hca as (s1 & Es1 & Ak & Aa & Al & Ah & Ai & Aw); [lia | | | exact Ec |].
  { intros ->. rewrite Hcu, Hu by done. done. }
  { intros ->. destruct (Hnu eq_refl) as [-> ->], (Hcn eq_refl) as [-> Hag].
    destruct Hcod as ((_ & Hk & _) & _). split_and!; try done; lia. }
  destruct (calculate_cols_shape _ _ _ _ _ Es1) as (lg' & k1' & a1' & mlr' & mh' & w' & inner' & -> & _ & _).
  cbn in Ak, Aa, Al, Ah, Ai, Aw. subst k1' lg' mh' inner'.
  set (T1 := with_rows (with_rows (with_col_sizes (with_cols (with_cols lim1 u lc k a) u lg k1 a1)
                                   mlr mh w inner) lr r (t_height (tiles cm)) b) lg2 k2 h2 a2) in *.
  set (S1 := with_col_sizes _ _ _ _ _) in Es1.
  destruct (takes_rows (sb_rows_of cm) T1 S1) as (lgr & kr & ar & Htr & Hlr & Hru & Hrn);
    try done; [lia | | |].
  { intros Eu. symmetry. by apply Aw. }
  { cbn. destruct u; [apply Hcod | split; apply Hcod]. }
  cbn in Htr, Hru, Hrn.
  pose proof (calculate_rows_agree (mib_size_log2 cm) (mi_rows cm)
    (with_rows (with_col_sizes (with_cols (with_cols lim1 u lc k a) u lg k1 a1) mlr mh w inner)
       lr r (t_height (tiles cm)) b) (with_rows S1 lgr kr (t_height S1) ar) T1 eq_refl) as Hra.
  cbn in Hra. destruct Hra as (s2 & Es2 & Bk & Ba & Bl & Bh); [lia | | | exact Er |].
  { intros ->. rewrite Hru, Hur by done. done. }
  { intros ->. destruct (Hnur eq_refl) as [-> ->], (Hrn eq_refl) as [-> Hag]. done. }
  destruct (calculate_rows_shape _ _ _ _ Es2) as (lg2' & k2' & h2' & a2' & -> & _ & _).
  cbn in Bk, Ba, Bl, Bh. subst k2' lg2'.
  exists (set_tiles cm (with_rows (with_rows S1 lgr kr (t_height S1) ar) lg2 k2 h2' a2')).
  split; [by rewrite Hs |]. split.
  { unfold tiles_agree. cbn. split_and!; try done. intros Eu. split; [by apply Aw | by apply Bh]. }
  intros buf h. unfold read_tile_info_max_tile. rewrite Hs.
  change (sb_cols_of (set_tiles cm _)) with (sb_cols_of cm).
  change (sb_rows_of (set_tiles cm _)) with (sb_rows_of cm).
  rewrite El. fold lim2. rewrite <- (app_nil_l (tile_info_bits _)).
  eapply takes_bind; [apply takes_ret |]. unfold tile_info_bits. cbn [tiles set_tiles].
  change (?x :: ?l) with ([x] ++ l). eapply takes_bind; [apply takes_get |].
  cbn. rewrite if_app. eapply takes_bind; [exact (Htc buf h) |].
  eapply takes_lift; [exact Es1 |]. rewrite <- (app_nil_r (if u then _ else _)).
  eapply takes_bind; [exact (Htr buf h) |]. eapply takes_lift; [exact Es2 |]. apply takes_ret.
Qed.

(** ** The encoder's choice *)

Lemma balance_loop_length fuel i s size inc n m a k a' :
  balance_loop fuel i s size inc n m a = Some (k, a') -> length a' = length a.
Proof.
  revert i s size a. induction fuel as [|fuel IH]; intros i s size a E; [done |].
  cbn [balance_loop] in E. destruct (_ && _); [| by injection E as <- <-].
  destruct (arr_set a i s) eqn:Ea; [| done]. apply arr_set_length in Ea.
  apply IH in E. congruence.
Qed.

Lemma sizes_loop_length fuel i j s n m c sizes a k a' :
  sizes_loop fuel i j s n m c sizes a = Some (k, a') -> length a' = length a.
Proof.
  revert i j s a. induction fuel as [|fuel IH]; intros i j s a E; [done |].
  cbn [sizes_loop] in E. destruct (_ && _); [| by injection E as <- <-].
  destruct (arr_set a i s) eqn:Ea; [| done]. cbn [mbind option_bind] in E.
  destruct (arr_get sizes j); [| done]. apply arr_set_length in Ea. apply IH in E. congruence.
Qed.

Lemma balancing_shape t n lg (col : bool) t' :
  auto_tile_size_balancing t n lg col = Some t' ->
  exists k a, length a = length (if col then t_col_start_sb t else t_row_start_sb t) /\
    t' = if col then with_cols t false (t_log2_cols t) k a
         else with_rows (with_cols t false (t_log2_cols t) (t_cols t) (t_col_start_sb t))
                (t_log2_rows t) k (t_height t) a.
Proof.
  unfold auto_tile_size_balancing. intros E.
  destruct (balance_loop _ _ _ _ _ _ _ _) as [[k a] |] eqn:Eb; [| done]. cbn [mbind option_bind] in E.
  destruct (arr_set a k n) as [a' |] eqn:Ea; [| done]. injection E as <-.
  apply arr_set_length in Ea. apply balance_loop_length in Eb. exists k, a'.
  split; [congruence | done].
Qed.

Lemma set_tile_cols_shape cm cfg t' : set_tile_cols cm cfg = Some t' ->
  exists u lg k a, t' = with_cols (tiles cm) u lg k a /\ length a = length (t_col_start_sb (tiles cm)).
Proof.
  unfold set_tile_cols. intros E. destruct (_ || _).
  - destruct (superres_log2_loop _ _ _ _); [| done]. injection E as <-. by do 4 eexists.
  - destruct (arr_get _ _) as [w0 |]; [| done]. cbn [mbind option_bind] in E.
    destruct (w0 <? 0).
    + apply balancing_shape in E as (k & a & Hl & ->). by do 4 eexists.
    + destruct (sizes_loop _ _ _ _ _ _ _ _ _) as [[k a] |] eqn:Es; [| done].
      cbn [mbind option_bind] in E. destruct (arr_set a k _) as [a' |] eqn:Ea; [| done].
      injection E as <-. apply arr_set_length in Ea. apply sizes_loop_length in Es.
      do 4 eexists. split; [done | congruence].
Qed.

Lemma set_tile_rows_shape cm cfg t t' : set_tile_rows cm cfg t = Some t' ->
  exists lg k a, t' = with_rows t lg k (t_height t) a /\ length a = length (t_row_start_sb t).
Proof.
  unfold set_tile_rows. intros E. destruct (t_uniform_spacing t) eqn:Eu.
  - injection E as <-. by do 3 eexists.
  - destruct (arr_get _ _) as [h0 |]; [| done]. cbn [mbind option_bind] in E.
    destruct (h0 <? 0).
    + apply balancing_shape in E as (k & a & Hl & ->). exists (t_log2_rows t), k, a.
      split; [| exact Hl]. destruct t; cbn in *. by subst.
    + destruct (sizes_loop _ _ _ _ _ _ _ _ _) as [[k a] |] eqn:Es; [| done].
      cbn [mbind option_bind] in E. destruct (arr_set a k _) as [a' |] eqn:Ea; [| done].
      injection E as <-. apply arr_set_length in Ea. apply sizes_loop_length in Es.
      do 3 eexists. split; [done | congruence].
Qed.

(** Whatever it is configured to do, the encoder lays the tiles out the way the decoder
    does, from a choice of columns and rows. *)
Lemma set_tile_info_lay_out cm cfg cm1 : frame_ok cm -> set_tile_info cm cfg = Some cm1 ->
  exists u lc k a lr r b, Z.of_nat (length a) = 65 /\ Z.of_nat (length b) = 65 /\
    lay_out cm u lc k a lr r b = Some cm1 /\ same_frame cm cm1 /\ frame_ok cm1.
Proof.
  intros Hf E. pose proof Hf as (_ & _ & _ & _ & Hlc & Hlr). unfold set_tile_info in E.
  destruct (tile_limits_total cm Hf) as (mw & mlc & xlc & xlr & ml & El & _).
  specialize (El (tiles cm)). rewrite set_tiles_id in El. rewrite El in E.
  cbn [mbind option_bind] in E. set (lim := with_limits _ _ _ _ _ _) in *.
  destruct (set_tile_cols _ _) as [t1 |] eqn:E1; [| done]. cbn [mbind option_bind] in E.
  apply set_tile_cols_shape in E1 as (u & lc & k & a & -> & Hla).
  destruct (av1_calculate_tile_cols _ _ _ _) as [t2 |] eqn:E2; [| done]. cbn [mbind option_bind] in E.
  destruct (set_tile_rows _ _ _) as [t3 |] eqn:E3; [| done]. cbn [mbind option_bind] in E.
  apply set_tile_rows_shape in E3 as (lr & r & b & -> & Hlb).
  destruct (av1_calculate_tile_rows _ _ _) as [t4 |] eqn:E4; [| done]. injection E as <-.
  exists u, lc, k, a, lr, r, b.
  destruct (calculate_cols_shape _ _ _ _ _ E2) as (? & ? & a2 & ? & ? & ? & ? & -> & Hl2 & _).
  destruct (calculate_rows_shape _ _ _ _ E4) as (? & ? & ? & b4 & -> & Hl4 & _). cbn in Hl2, Hl4.
  cbn in Hla, Hlb. split; [congruence |]. split; [congruence |]. split.
  { unfold lay_out. rewrite El. cbn [mbind option_bind]. rewrite E2. cbn [mbind option_bind].
    rewrite E4. done. }
  split; [done |]. apply (frame_ok_tiles cm _ Hf); cbn; congruence.
Qed.

(** The counts and their logs in a finished layout. *)
Definition counted (t : CommonTileParams) : Prop :=
  1 <= t_cols t <= 2 ^ t_log2_cols t /\ 1 <= t_rows t <= 2 ^ t_log2_rows t /\
  0 <= t_log2_cols t <= 6 /\ 0 <= t_log2_rows t <= 6 /\
  (t_log2_rows t + t_log2_cols t = 0 <-> t_rows t * t_cols t = 1).

Lemma counts_one u k lg n : counts u k lg n -> 1 <= k -> (u = true -> 1 <= lg -> 2 <= n) ->
  (lg = 0 <-> k = 1).
Proof.
  intros (H0 & Hle & Hge) Hk Hhi. split; [intros ->; change (2 ^ 0) with 1 in Hle; lia |].
  intros ->. destruct (Z.eq_dec lg 0) as [| Hne]; [done |].
  specialize (Hge ltac:(lia) ltac:(intros E; apply Hhi; [done | lia])). lia.
Qed.

Lemma layout_counted cm u lc k a lr r b cm1 :
  frame_ok cm -> Z.of_nat (length a) = 65 -> Z.of_nat (length b) = 65 ->
  lay_out cm u lc k a lr r b = Some cm1 -> codable cm1 -> counted (tiles cm1).
Proof.
  intros Hf Hla Hlb E Hcod. pose proof Hf as (Hr & Hc & Hb & _).
  destruct (tile_limits_total cm Hf) as (mw & mlc & xlc & xlr & ml & El & Hlim).
  unfold lay_out in E. rewrite <- (set_tiles_id cm), El in E. cbn [mbind option_bind] in E.
  destruct Hlim as (_ & L2 & L3 & L4 & _ & L7 & L8 & _). cbn in L2, L3, L4, L7, L8.
  change (sb_cols_of (set_tiles cm _)) with (sb_cols_of cm) in L7.
  change (sb_rows_of (set_tiles cm _)) with (sb_rows_of cm) in L8.
  destruct (av1_calculate_tile_cols _ _ _ _) as [t1 |] eqn:Ec; [| done]. cbn [mbind option_bind] in E.
  destruct (av1_calculate_tile_rows _ _ _) as [t2 |] eqn:Er; [| done]. injection E as <-.
  destruct (calculate_cols_shape _ _ _ _ _ Ec) as (lg & k1 & a1 & mlr & mh & w & inner & Et1 & _ & Hu & Hnu).
  destruct (calculate_rows_shape _ _ _ _ Er) as (lg2 & k2 & h2 & a2 & Et2 & _ & Hur & Hnur).
  cbn in Hu, Hnu, Hur, Hnur. rewrite Et1 in Hur, Hnur. cbn in Hur, Hnur.
  set (lim1 := with_limits (tiles cm) mw mlc xlc xlr ml) in *.
  unfold codable in Hcod. cbn [tiles set_tiles] in Hcod |- *.
  pose proof (calculate_cols_ok (mib_size_log2 cm) (mi_rows cm) (mi_cols cm)
    (with_cols lim1 u lc k a)) as Hcols. cbn in Hcols.
  destruct Hcols as (lg' & k1' & a1' & mlr' & mh' & w' & inner' & Ec' & Hcut & Hmlr & _ & Hcnt);
    [lia | lia | |].
  { rewrite Et2, Et1 in Hcod. cbn in Hcod. split; [done |]. cbn. split; intros ->.
    - rewrite <- Hu by done. lia.
    - destruct (Hnu eq_refl) as [-> ->]. apply Hcod. }
  change (av1_calculate_tile_cols (mib_size_log2 cm) (mi_rows cm) (mi_cols cm)
            (with_cols lim1 u lc k a) = Some t1) in Ec.
  rewrite Ec, Et1 in Ec'. injection Ec' as -> -> -> -> -> -> ->.
  pose proof (calculate_rows_ok (mib_size_log2 cm) (mi_rows cm)
    (with_rows t1 lr r (t_height t1) b)) as Hrows. cbn in Hrows.
  destruct Hrows as (lg2' & k2' & h2' & a2' & Er' & Hcutr & _ & _ & Hcntr); [lia | lia | |].
  { rewrite Et2, Et1 in Hcod. rewrite Et1. cbn in Hcod. split; [done |]. cbn. split; intros ->.
    - destruct (Hmlr eq_refl) as (_ & Em & _). rewrite <- Hur by done. lia.
    - destruct (Hnur eq_refl) as [-> ->]. apply Hcod. }
  change (av1_calculate_tile_rows (mib_size_log2 cm) (mi_rows cm)
            (with_rows t1 lr r (t_height t1) b) = Some t2) in Er.
  rewrite Er, Et2 in Er'. injection Er' as -> -> -> ->.
  rewrite Et2, Et1 in Hcod |- *. cbn in Hcod. rewrite Et1 in Hcntr. cbn in Hcntr.
  pose proof Hcut as (_ & Hk1 & _). pose proof Hcutr as (_ & Hk2 & _).
  pose proof (counts_one _ _ _ _ Hcnt ltac:(lia)) as O1.
  pose proof (counts_one _ _ _ _ Hcntr ltac:(lia)) as O2.
  assert (u = true -> 1 <= lg' -> 2 <= CEIL_POWER_OF_TWO (mi_cols cm) (mib_size_log2 cm)) as P1
    by (intros -> ?; destruct L7; [lia | done]).
  assert (u = true -> 1 <= lg2' -> 2 <= CEIL_POWER_OF_TWO (mi_rows cm) (mib_size_log2 cm)) as P2
    by (intros -> ?; destruct L8; [lia | done]).
  specialize (O1 P1). specialize (O2 P2).
  destruct Hcnt as (? & ? & _), Hcntr as (? & ? & _).
  unfold counted. cbn. split_and!; nia.
Qed.

Lemma superres_log2_ok mw n : 1 <= mw -> n < 2 ^ 30 ->
  exists k, superres_log2_loop 32 0 mw n = Some k.
Proof.
  intros Hm Hn.
  assert (H : forall fuel k, 0 <= k -> n < 2 ^ (k + Z.of_nat fuel - 1) -> (0 < fuel)%nat ->
    exists j, superres_log2_loop fuel k mw n = Some j); [| apply H; simpl; lia].
  induction fuel as [|fuel IH]; intros k Hk Hb Hf; [lia |]. cbn [superres_log2_loop].
  rewrite Z.shiftl_mul_pow2 by lia. destruct (Z.leb_spec (mw * 2 ^ k) n); [| eauto].
  pose proof (pow2_pos k Hk). destruct fuel as [|fuel].
  - exfalso. replace (k + Z.of_nat 1 - 1) with k in Hb by lia. nia.
  - apply IH; [lia | | lia]. by replace (k + 1 + Z.of_nat (S fuel) - 1)
      with (k + Z.of_nat (S (S fuel)) - 1) by lia.
Qed.

(** A configuration without explicit sizes. *)
Definition uniform_config (cfg : TileConfig) : Prop :=
  tile_width_count cfg = 0 \/ tile_height_count cfg = 0.

Lemma set_tile_cols_uniform cm cfg :
  1 <= sb_cols_of cm <= 1024 -> 8 <= superres_scale_denominator cm <= 16 -> uniform_config cfg ->
  1 <= t_max_width_sb (tiles cm) -> t_min_log2_cols (tiles cm) <= t_max_log2_cols (tiles cm) ->
  exists lg, t_min_log2_cols (tiles cm) <= lg <= t_max_log2_cols (tiles cm) /\
    set_tile_cols cm cfg =
      Some (with_cols (tiles cm) true lg (t_cols (tiles cm)) (t_col_start_sb (tiles cm))).
Proof.
  intros Hs Hd Hcfg Hw Hl. unfold set_tile_cols.
  assert ((tile_width_count cfg =? 0) || (tile_height_count cfg =? 0) = true) as ->.
  { destruct Hcfg as [-> | ->]; [done | by rewrite orb_true_r]. }
  destruct (superres_log2_ok (t_max_width_sb (tiles cm))
    (coded_to_superres_mi (sb_cols_of cm) (superres_scale_denominator cm))) as (x & ->); [done | |].
  { unfold coded_to_superres_mi, SCALE_NUMERATOR. change (8 / 2) with 4.
    assert (0 <= sb_cols_of cm * superres_scale_denominator cm <= 1024 * 16) by nia.
    rewrite Z.quot_div_nonneg by lia. apply Z.div_lt_upper_bound; lia. }
  eexists. split; [| reflexivity]. lia.
Qed.

(** Without explicit tile sizes the encoder always finds a layout: whatever number of
    tiles is asked for, the frame is tiled, no column is wider than the maximum tile
    width, and the numbers of columns and rows are in the ranges the frame header
    can express. *)
Theorem uniform_tiles_total cm cfg :
  frame_ok cm -> 8 <= superres_scale_denominator cm <= 16 -> uniform_config cfg ->
  exists cm1, set_tile_info cm cfg = Some cm1 /\ same_frame cm cm1 /\ frame_ok cm1 /\
    tiling cm1 /\ codable cm1 /\ t_uniform_spacing (tiles cm1) = true /\
    fits (t_col_start_sb (tiles cm1)) (t_cols (tiles cm1)) (t_max_width_sb (tiles cm1)).
Proof.
  intros Hf Hd Hcfg. destruct (sb_bounds cm Hf) as (Hbc & Hbr & _).
  pose proof Hf as (Hr & Hc & Hb & _ & Hlc & Hlr).
  destruct (tile_limits_total cm Hf) as (mw & mlc & xlc & xlr & ml & El & Hlim).
  specialize (El (tiles cm)). rewrite set_tiles_id in El.
  destruct Hlim as (L1 & L2 & L3 & L4 & L5 & L7 & L8 & L6). cbn in L1, L2, L3, L4, L5, L6.
  change (sb_cols_of (set_tiles cm _)) with (sb_cols_of cm) in L5.
  unfold set_tile_info. rewrite El. cbn [mbind option_bind].
  set (lim := with_limits _ _ _ _ _ _) in *.
  destruct (set_tile_cols_uniform (set_tiles cm lim) cfg) as (lg & Hlg & ->); try done.
  { cbn. lia. }
  cbn in Hlg. cbn [mbind option_bind tiles set_tiles].
  destruct (calculate_cols_ok (mib_size_log2 cm) (mi_rows cm) (mi_cols cm)
    (with_cols lim true lg (t_cols (tiles cm)) (t_col_start_sb (tiles cm))) ltac:(lia) ltac:(lia))
    as (lg' & k & a & mlr & mh & w & inner & Ec & Hcut & Hu & _).
  { split; [done |]. split; cbn; [lia | done]. }
  destruct (Hu eq_refl) as (-> & -> & Hsz).
  change (av1_calculate_tile_cols _ _ _ _) with (av1_calculate_tile_cols (mib_size_log2 cm) (mi_rows cm)
    (mi_cols cm) (with_cols lim true lg (t_cols (tiles cm)) (t_col_start_sb (tiles cm)))).
  rewrite Ec. cbn [mbind option_bind].
  unfold set_tile_rows. cbn [t_uniform_spacing with_cols with_col_sizes mbind option_bind].
  change (t_min_log2_rows _) with (Z.max (ml - lg) 0). change (t_max_log2_rows _) with xlr.
  set (mr := Z.max (ml - lg) 0) in *. set (lgr := Z.min _ xlr).
  assert (mr <= lgr <= xlr) as Hlgr by (specialize (L6 lg ltac:(lia)); lia).
  assert (0 <= mr) by lia. clearbody lgr.
  destruct (calculate_rows_ok (mib_size_log2 cm) (mi_rows cm)
    (with_rows (with_col_sizes (with_cols (with_cols lim true lg (t_cols (tiles cm))
      (t_col_start_sb (tiles cm))) true lg k a) mr mh w inner) lgr (t_rows (tiles cm))
      (t_height (tiles cm)) (t_row_start_sb (tiles cm))) ltac:(lia) ltac:(lia))
    as (lg3 & k3 & h3 & a3 & Er & Hcutr & Hur & _).
  { split; [done |]. split; cbn; [lia | done]. }
  specialize (Hur eq_refl). cbn in Hur. subst lg3.
  match type of Er with ?l = _ => change (av1_calculate_tile_rows _ _ _) with l end.
  rewrite Er. cbn [mbind option_bind].
  eexists. split; [done |]. split; [done |].
  split; [apply (frame_ok_tiles cm); [done | exact (proj1 Hcut) | exact (proj1 Hcutr)] |].
  split; [by split |]. split; [by split |]. split; [done |].
  intros j Hj. cbn in Hj |- *. etransitivity; [by apply Hsz |].
  apply (widths_bound (sb_cols_of cm) lg mw mlc); done || lia.
Qed.

(** C31: The decoder reads back the layout the encoder chose: for a layout the header can
    express, [write_tile_info_max_tile] succeeds with enough room, and
    [read_tile_info_max_tile], on a decoder that knows only the frame size, stops
    where the writer stopped with the same tiles. *)
Theorem tile_info_roundtrip cm cfg cm1 cm2 :
  frame_ok cm -> set_tile_info cm cfg = Some cm1 -> codable cm1 ->
  same_frame cm cm2 -> frame_ok cm2 ->
  exists cm3, same_frame cm2 cm3 /\ tiles_agree (tiles cm1) (tiles cm3) /\
    decodes_back (write_tile_info_max_tile cm1) (length (tile_info_bits cm1))
      (read_tile_info_max_tile cm2) cm3.
Proof.
  intros Hf E Hcod Hs Hf2.
  destruct (set_tile_info_lay_out cm cfg cm1 Hf E)
    as (u & lc & k & a & lr & r & b & Hla & Hlb & Elay & _ & Hf1).
  destruct (tile_info_reads cm cm2 u lc k a lr r b cm1 Hf Hs Hf2 Hla Hlb Elay Hcod)
    as (cm3 & Hs3 & Hag & Ht).
  exists cm3. split_and!; try done. apply link; [by apply emits_tile_info | done].
Qed.

(** ** Examples *)

Definition demo_config : TileConfig :=
  {| tile_columns := 1; tile_rows := 1; tile_width_count := 0; tile_height_count := 0;
     tile_widths := replicate 64 0; tile_heights := replicate 64 0 |}.

Lemma uniform_tiles_total_witness :
  frame_ok demo_cm /\ uniform_config demo_config /\
  exists cm1, set_tile_info demo_cm demo_config = Some cm1 /\ same_frame demo_cm cm1 /\
    frame_ok cm1 /\ tiling cm1 /\ codable cm1 /\ t_uniform_spacing (tiles cm1) = true /\
    fits (t_col_start_sb (tiles cm1)) (t_cols (tiles cm1)) (t_max_width_sb (tiles cm1)).
Proof.
  split; [exact demo_frame_ok |]. split; [by left |].
  apply (uniform_tiles_total demo_cm demo_config demo_frame_ok); [simpl; lia | by left].
Defined.

(** Explicit sizes: columns of 1, 2 and 1 superblocks, rows of 2 and 1. *)
Definition explicit_config : TileConfig :=
  {| tile_columns := 0; tile_rows := 0; tile_width_count := 2; tile_height_count := 1;
     tile_widths := 1 :: 2 :: replicate 62 0; tile_heights := 2 :: replicate 63 0 |}.

Definition explicit_cm : AV1_COMMON :=
  Eval vm_compute in default demo_cm (set_tile_info demo_cm explicit_config).

Lemma explicit_codable : codable explicit_cm.
Proof.
  unfold codable. change (t_uniform_spacing (tiles explicit_cm)) with false.
  assert (Hcol : forall i, 0 <= i < t_cols (tiles explicit_cm) -> i = 0 \/ i = 1 \/ i = 2)
    by (intros i Hi; vm_compute (t_cols _) in Hi; lia).
  assert (Hrow : forall i, 0 <= i < t_rows (tiles explicit_cm) -> i = 0 \/ i = 1)
    by (intros i Hi; vm_compute (t_rows _) in Hi; lia).
  unfold cut, fits. split_and!; try done;
    intros i Hi; (apply Hcol in Hi as [-> | [-> | ->]] || apply Hrow in Hi as [-> | ->]);
    vm_compute; done.
Qed.

Lemma tile_info_roundtrip_witness :
  set_tile_info demo_cm explicit_config = Some explicit_cm /\ t_cols (tiles explicit_cm) = 3 /\
  exists cm3, same_frame demo_cm cm3 /\ tiles_agree (tiles explicit_cm) (tiles cm3) /\
    decodes_back (write_tile_info_max_tile explicit_cm) (length (tile_info_bits explicit_cm))
      (read_tile_info_max_tile demo_cm) cm3.
Proof.
  split; [vm_compute; reflexivity |]. split; [vm_compute; reflexivity |].
  apply (tile_info_roundtrip demo_cm explicit_config explicit_cm demo_cm demo_frame_ok).
  - vm_compute. reflexivity.
  - exact explicit_codable.
  - reflexivity.
  - exact demo_frame_ok.
Defined.

Lemma read_tile_info_safe_witness :
  frame_ok demo_cm /\
  yields (read_tile_info_max_tile demo_cm) (fun cm' =>
    same_frame demo_cm cm' /\ frame_ok cm' /\ tiling cm' /\
    (t_uniform_spacing (tiles cm') = true ->
     forall j, 0 <= j < t_cols (tiles cm') ->
       nthz (t_col_start_sb (tiles cm')) (j + 1) - nthz (t_col_start_sb (tiles cm')) j
         <= t_max_width_sb (tiles cm'))) /\
  exists cm' rb', read_tile_info_max_tile demo_cm
    {| rb_bit_buffer := [117; 211]; rb_bit_offset := 0; rb_error_handler := None |} = Ok (cm', rb').
Proof.
  split; [exact demo_frame_ok |]. split; [exact (read_tile_info_safe demo_cm demo_frame_ok) |].
  vm_compute. do 2 eexists. reflexivity.
Defined.

(** ** An empty tile

    The layout of a 192-pixel wide frame with sizes left to [auto_tile_size_balancing]. *)
Definition balanced_config : TileConfig :=
  {| tile_columns := 2; tile_rows := 0; tile_width_count := 1; tile_height_count := 1;
     tile_widths := (-1) :: replicate 63 0; tile_heights := (-1) :: replicate 63 0 |}.

Definition narrow_cm : AV1_COMMON :=
  {| mi_rows := 48; mi_cols := 48; mib_size := 16; mib_size_log2 := 4; cm_width := 192;
     superres_upscaled_width := 192; superres_scale_denominator := 8; tiles := tiles demo_cm |}.

(** C40: with negative tile widths [set_tile_info] leaves the sizes to
    [auto_tile_size_balancing].  When more columns are asked for than there are
    superblocks, the balanced size is 0 and the first tile comes out empty: in a legal
    frame three superblocks wide, four columns start at superblocks 0, 0, 1 and 2, and
    [av1_tile_init] gives tile 0 the same first and last column, which the assertion of
    [av1_tile_set_col] excludes and the frame header cannot express. *)
Theorem balanced_tile_may_be_empty :
  frame_ok narrow_cm /\
  exists cm1 ti, set_tile_info narrow_cm balanced_config = Some cm1 /\ t_cols (tiles cm1) = 4 /\
    av1_tile_init demo_tile cm1 0 0 = Some ti /\ mi_col_start ti = mi_col_end ti /\ ~ codable cm1.
Proof.
  split.
  { unfold frame_ok; simpl; split_and!; lia || (by left). }
  do 2 eexists. split; [vm_compute; reflexivity |]. split; [vm_compute; reflexivity |].
  split; [vm_compute; reflexivity |]. split; [vm_compute; reflexivity |].
  intros ((_ & _ & _ & _ & Hs) & _). specialize (Hs 0 ltac:(cbn; lia)). vm_compute in Hs. done.
Qed.
