(* ===== verification/Obu.v ===== *)
(** * Open bitstream units

    [av1/common/obu_util.c], and the functions of [av1/decoder/obu.c],
    [av1/decoder/decodeframe.c] and [av1/encoder/bitstream.c] that frame OBUs: the
    header, the size field, the trailing bits and the tile group header.  Memory at a
    [data] pointer is the list of the bytes from there to the end of its buffer;
    [None] is an access outside it. *)

From S2P Require Import Prelude CodecTypes BitChannel BitBuffer Leb128 Tile TileInfo.

(** ** Headers *)

Record ObuHeader := {
  oh_size : Z; oh_type : Z;
  oh_has_size_field : Z; oh_has_extension : Z;
  oh_temporal_layer_id : Z; oh_spatial_layer_id : Z }.

(** [obu_size] and [length_field_size] are the caller's variables. *)
Definition read_obu_size (data : list Z) (bytes_available obu_size length_field_size : Z)
  : option (aom_codec_err_t * Z * Z) :=
  '(r, v, len) ← aom_uleb_decode (Some data) bytes_available (Some 0) (Some length_field_size);
  u_obu_size ← v; len ← len;
  if negb (r =? 0) then Some (AOM_CODEC_CORRUPT_FRAME, obu_size, len)
  else if UINT32_MAX <? u_obu_size then Some (AOM_CODEC_CORRUPT_FRAME, obu_size, len)
  else Some (AOM_CODEC_OK, u_obu_size, len).

(** The header is filled field by field, so a failure leaves it partly set. *)
Definition read_obu_header (is_annexb : bool) (header : option ObuHeader)
  : reader aom_read_bit_buffer (aom_codec_err_t * option ObuHeader) := fun rb =>
  match header with
  | None => Ok (AOM_CODEC_INVALID_PARAM, None, rb)
  | Some h =>
      let bit_buffer_byte_length := Z.of_nat (length (rb_bit_buffer rb)) in
      if bit_buffer_byte_length <? 1 then Ok (AOM_CODEC_CORRUPT_FRAME, Some h, rb)
      else
        let h := {| oh_size := 1; oh_type := oh_type h; oh_has_size_field := oh_has_size_field h;
                    oh_has_extension := oh_has_extension h;
                    oh_temporal_layer_id := oh_temporal_layer_id h;
                    oh_spatial_layer_id := oh_spatial_layer_id h |} in
        (forbidden ← aom_rb_read_bit;
         if negb (forbidden =? 0) then mret (AOM_CODEC_CORRUPT_FRAME, Some h)
         else
           type ← aom_rb_read_literal 4;
           has_extension ← aom_rb_read_bit;
           has_size_field ← aom_rb_read_bit;
           let h := {| oh_size := 1; oh_type := type; oh_has_size_field := has_size_field;
                       oh_has_extension := has_extension;
                       oh_temporal_layer_id := oh_temporal_layer_id h;
                       oh_spatial_layer_id := oh_spatial_layer_id h |} in
           if (has_size_field =? 0) && negb is_annexb then mret (AOM_CODEC_UNSUP_BITSTREAM, Some h)
           else
             _ ← aom_rb_read_bit;
             if negb (has_extension =? 0) then
               if bit_buffer_byte_length =? 1 then mret (AOM_CODEC_CORRUPT_FRAME, Some h)
               else
                 temporal ← aom_rb_read_literal 3;
                 spatial ← aom_rb_read_literal 2;
                 _ ← aom_rb_read_literal 3;
                 mret (AOM_CODEC_OK,
                       Some {| oh_size := 2; oh_type := type; oh_has_size_field := has_size_field;
                               oh_has_extension := has_extension;
                               oh_temporal_layer_id := temporal; oh_spatial_layer_id := spatial |})
             else
               mret (AOM_CODEC_OK,
                     Some {| oh_size := 1; oh_type := type; oh_has_size_field := has_size_field;
                             oh_has_extension := has_extension;
                             oh_temporal_layer_id := 0; oh_spatial_layer_id := 0 |})) rb
  end.

Definition init_rb (buf : list Z) : aom_read_bit_buffer :=
  {| rb_bit_buffer := buf; rb_bit_offset := 0; rb_error_handler := None |}.

(** What a reader without an error handler returns: it never leaves through one. *)
Definition run_rb {A} (m : reader aom_read_bit_buffer A) (buf : list Z) : option A :=
  match m (init_rb buf) with Ok (a, _) => Some a | _ => None end.

(** [consumed] and [header] may be [NULL]; the bytes from [buffer] on are
    [buffer_length] long. *)
Definition aom_read_obu_header (buffer : list Z) (buffer_length : Z) (consumed : option Z)
    (header : option ObuHeader) (is_annexb : bool)
  : option (aom_codec_err_t * option Z * option ObuHeader) :=
  match consumed, header with
  | Some _, Some h0 =>
      if buffer_length <? 1 then Some (AOM_CODEC_INVALID_PARAM, consumed, header)
      else
        '(parse_result, header) ←
          run_rb (read_obu_header is_annexb header) (take (Z.to_nat buffer_length) buffer);
        Some (parse_result,
              if is_ok parse_result then Some (default 0 (oh_size <$> header)) else consumed, header)
  | _, _ => Some (AOM_CODEC_INVALID_PARAM, consumed, header)
  end.

(** The four results: status, header, [*payload_size] and [*bytes_read]. *)
Definition aom_read_obu_header_and_size (data : list Z) (bytes_available : Z) (is_annexb : bool)
    (obu_header : ObuHeader) (payload_size bytes_read : Z)
  : option (aom_codec_err_t * ObuHeader * Z * Z) :=
  '(status, obu_size, length_field_size_obu) ←
    (if is_annexb then read_obu_size data bytes_available 0 0 else Some (AOM_CODEC_OK, 0, 0));
  if negb (is_ok status) then Some (status, obu_header, payload_size, bytes_read)
  else
    '(status, h) ← run_rb (read_obu_header is_annexb (Some obu_header))
                     (drop (Z.to_nat length_field_size_obu) (take (Z.to_nat bytes_available) data));
    obu_header ← h;
    if negb (is_ok status) then Some (status, obu_header, payload_size, bytes_read)
    else if oh_has_size_field obu_header =? 0 then
      if obu_size <? oh_size obu_header
      then Some (AOM_CODEC_CORRUPT_FRAME, obu_header, payload_size, bytes_read)
      else Some (AOM_CODEC_OK, obu_header, obu_size - oh_size obu_header,
                 length_field_size_obu + oh_size obu_header)
    else
      let offset := length_field_size_obu + oh_size obu_header in
      '(status, payload_size, length_field_size_payload) ←
        read_obu_size (drop (Z.to_nat offset) data)
          (u64 (u64 (bytes_available - length_field_size_obu) - oh_size obu_header)) payload_size 0;
      if negb (is_ok status) then Some (status, obu_header, payload_size, bytes_read)
      else Some (AOM_CODEC_OK, obu_header, payload_size, offset + length_field_size_payload).

(** ** Writing *)

Definition OBU_FRAME_HEADER : Z := 3.
Definition OBU_FRAME : Z := 6.

(** The size of the header, [*frame_header_count] and the bytes at [dst]. *)
Definition av1_write_obu_header (keep_level_stats : bool) (frame_header_count obu_type : Z)
    (has_nonzero_operating_point_idc is_layer_specific_obu : bool) (obu_extension : Z)
    (dst : list Z) : option (Z * Z * list Z) :=
  let frame_header_count :=
    if keep_level_stats && ((obu_type =? OBU_FRAME) || (obu_type =? OBU_FRAME_HEADER))
    then frame_header_count + 1 else frame_header_count in
  let obu_extension_flag := b2z (has_nonzero_operating_point_idc && is_layer_specific_obu) in
  let obu_has_size_field := 1 in
  dst ← store dst 0 (u8 (Z.lor (Z.lor (Z.shiftl obu_type 3) (Z.shiftl obu_extension_flag 2))
                           (Z.shiftl obu_has_size_field 1)));
  if obu_extension_flag =? 0 then Some (1, frame_header_count, dst)
  else dst ← store dst 1 (u8 (Z.land obu_extension 255)); Some (2, frame_header_count, dst).

Definition av1_write_uleb_obu_size (obu_payload_size : Z) (dest : list Z) (dest_size : Z)
  : option (aom_codec_err_t * list Z) :=
  '(r, dest', coded_obu_size) ← aom_uleb_encode obu_payload_size dest_size (Some dest) (Some 0);
  dest ← dest'; coded_obu_size ← coded_obu_size;
  if negb (r =? 0) then Some (AOM_CODEC_ERROR, dest)
  else if negb (coded_obu_size =? dest_size) then Some (AOM_CODEC_ERROR, dest)
  else Some (AOM_CODEC_OK, dest).

(** [memmove(data + dst, data + src, n)] *)
Definition c_memmove (data : list Z) (dst src n : Z) : option (list Z) :=
  if (0 <=? dst) && (0 <=? src) && (dst + n <=? Z.of_nat (length data))
     && (src + n <=? Z.of_nat (length data)) then
    Some (take (Z.to_nat dst) data ++ take (Z.to_nat n) (drop (Z.to_nat src) data)
          ++ drop (Z.to_nat (dst + n)) data)
  else None.

(** 0 when the payload does not fit behind its size field. *)
Definition obu_memmove (obu_header_size obu_payload_size : Z) (data : list Z) (data_size : Z)
  : option (Z * list Z) :=
  let length_field_size := aom_uleb_size_in_bytes obu_payload_size in
  let move_dst_offset := obu_header_size + length_field_size in
  let move_src_offset := obu_header_size in
  let move_size := obu_payload_size in
  if (data_size <? move_size) || (data_size - move_size <? move_src_offset) then Some (0, data)
  else if data_size - move_size <? move_dst_offset then Some (0, data)
  else
    data ← c_memmove data move_dst_offset move_src_offset move_size;
    Some (length_field_size, data).

Definition add_trailing_bits (wb : aom_write_bit_buffer) : option aom_write_bit_buffer :=
  if aom_wb_is_byte_aligned wb =? 0 then aom_wb_write_bit wb 1 else aom_wb_write_literal wb 128 8.

(** ** The decoder's side of the trailing bits and layers *)

(** The returned [int] and the error code left in [pbi->error]. *)
Definition av1_check_trailing_bits (error_code : aom_codec_err_t)
  : reader aom_read_bit_buffer (Z * aom_codec_err_t) := fun rb =>
  let bits_before_alignment := 8 - rb_bit_offset rb mod 8 in
  (trailing ← aom_rb_read_literal bits_before_alignment;
   if negb (trailing =? Z.shiftl 1 (bits_before_alignment - 1))
   then mret (-1, AOM_CODEC_CORRUPT_FRAME) else mret (0, error_code)) rb.

Fixpoint count_bits_loop (n : nat) (idc j acc : Z) : Z :=
  match n with
  | O => acc
  | S n' => count_bits_loop n' idc (j + 1) (acc + Z.land (Z.shiftr idc j) 1)
  end.

(** [number_spatial_layers] and [number_temporal_layers] may be [NULL]. *)
Definition aom_get_num_layers_from_operating_point_idc (operating_point_idc : Z)
    (number_spatial_layers number_temporal_layers : option Z)
  : aom_codec_err_t * option Z * option Z :=
  match number_spatial_layers, number_temporal_layers with
  | Some _, Some _ =>
      if operating_point_idc =? 0 then (AOM_CODEC_OK, Some 1, Some 1)
      else (AOM_CODEC_OK, Some (count_bits_loop 4 operating_point_idc 8 0),
            Some (count_bits_loop 8 operating_point_idc 0 0))
  | _, _ => (AOM_CODEC_INVALID_PARAM, number_spatial_layers, number_temporal_layers)
  end.

Definition is_obu_in_current_operating_point (current_operating_point : Z) (obu_header : ObuHeader)
  : bool :=
  if (current_operating_point =? 0) || (oh_has_extension obu_header =? 0) then true
  else
    negb (Z.land (Z.shiftr current_operating_point (oh_temporal_layer_id obu_header)) 1 =? 0) &&
    negb (Z.land (Z.shiftr current_operating_point (oh_spatial_layer_id obu_header + 8)) 1 =? 0).

(** [while (rb->bit_offset & 7)]: at most seven bits.  Without an error handler the
    offset stays where the data ends, which is at a byte boundary. *)
Fixpoint byte_alignment_loop (fuel : nat) : reader aom_read_bit_buffer unit :=
  match fuel with
  | O => mret tt
  | S fuel' => fun rb =>
      if Z.land (rb_bit_offset rb) 7 =? 0 then Ok (tt, rb)
      else
        (bit ← aom_rb_read_bit;
         if negb (bit =? 0) then raise AOM_CODEC_CORRUPT_FRAME else byte_alignment_loop fuel') rb
  end.

Definition byte_alignment : reader aom_read_bit_buffer unit := byte_alignment_loop 8.

(** [while (i >= 0 && data[i] == 0) --i], over [n] bytes. *)
Fixpoint get_last_nonzero_byte_index (data : list Z) (n : nat) : option Z :=
  match n with
  | O => Some (-1)
  | S i =>
      b ← data !! i;
      if b =? 0 then get_last_nonzero_byte_index data i else Some (Z.of_nat i)
  end.

Fixpoint get_last_nonzero_byte (data : list Z) (sz : nat) : option Z :=
  match sz with
  | O => Some 0
  | S i =>
      b ← data !! i;
      if b =? 0 then get_last_nonzero_byte data i else Some b
  end.

(** The returned size, and the error code. *)
Definition read_padding (error_code : aom_codec_err_t) (data : list Z) (sz : Z)
  : option (Z * aom_codec_err_t) :=
  if 0 <? sz then
    last_nonzero_byte ← get_last_nonzero_byte data (Z.to_nat sz);
    if negb (last_nonzero_byte =? 128) then Some (0, AOM_CODEC_CORRUPT_FRAME)
    else Some (sz, error_code)
  else Some (sz, error_code).

(** ** Tile groups *)

Definition write_tile_group_header (dst : list Z) (start_tile end_tile tiles_log2 : Z)
    (tile_start_and_end_present_flag : bool) : option (Z * list Z) :=
  let wb := {| wb_bit_buffer := dst; wb_bit_offset := 0 |} in
  if tiles_log2 =? 0 then Some (0, dst)
  else
    wb ← aom_wb_write_bit wb (b2z tile_start_and_end_present_flag);
    wb ← (if tile_start_and_end_present_flag then
            wb ← aom_wb_write_literal wb start_tile tiles_log2;
            aom_wb_write_literal wb end_tile tiles_log2
          else Some wb);
    Some (aom_wb_bytes_written wb, wb_bit_buffer wb).

Record tile_group := { tg_size : Z; tg_start : Z; tg_end : Z; tg_next_start_tile : Z }.

(** [next_start_tile] is [pbi->next_start_tile]. *)
Definition read_tile_group_header (large_scale : bool) (t : CommonTileParams) (next_start_tile : Z)
    (tile_start_implicit : bool) : reader aom_read_bit_buffer tile_group := fun rb =>
  let saved_bit_offset := rb_bit_offset rb in
  let num_tiles := t_rows t * t_cols t in
  (flag ← (if negb large_scale && (1 <? num_tiles) then
             flag ← aom_rb_read_bit;
             if tile_start_implicit && negb (flag =? 0) then raise AOM_CODEC_UNSUP_BITSTREAM
             else mret flag
           else mret 0);
   '(start_tile, end_tile) ←
     (if large_scale || (num_tiles =? 1) || (flag =? 0) then mret (0, num_tiles - 1)
      else
        let tile_bits := t_log2_rows t + t_log2_cols t in
        start_tile ← aom_rb_read_literal tile_bits;
        end_tile ← aom_rb_read_literal tile_bits;
        mret (start_tile, end_tile));
   if negb (start_tile =? next_start_tile) then raise AOM_CODEC_CORRUPT_FRAME
   else if end_tile <? start_tile then raise AOM_CODEC_CORRUPT_FRAME
   else if num_tiles <=? end_tile then raise AOM_CODEC_CORRUPT_FRAME
   else
     let next := if end_tile =? num_tiles - 1 then 0 else end_tile + 1 in
     fun rb => Ok ({| tg_size := Z.shiftr (u32 (rb_bit_offset rb - saved_bit_offset + 7)) 3;
                      tg_start := start_tile; tg_end := end_tile;
                      tg_next_start_tile := next |}, rb)) rb.

(** ** The bits of a byte string *)

Lemma bits_range_cons b bs n : bits_range (b :: bs) 0 (8 + n) = lit_bits 8 b ++ bits_range bs 0 n.
Proof.
  rewrite bits_range_app. f_equal. unfold bits_range.
  change (0 + 8)%nat with (8 + 0)%nat. rewrite <- fmap_add_seq, <- list_fmap_compose.
  apply list_fmap_ext. intros _ i _. unfold compose, bit_at.
  replace ((8 + i) / 8)%nat with (S (i / 8)).
  2: { change (8 + i)%nat with (1 * 8 + i)%nat. by rewrite Nat.div_add_l by lia. }
  replace ((8 + i) mod 8)%nat with (i mod 8)%nat; [done |].
  change (8 + i)%nat with (1 * 8 + i)%nat. rewrite Nat.add_comm, Nat.Div0.mod_add. done.
Qed.

Lemma lit_bits_split n m v : lit_bits (n + m) v = lit_bits n (v / 2 ^ Z.of_nat m) ++ lit_bits m v.
Proof.
  induction n as [|n IH]; [done |]. cbn [lit_bits Nat.add app]. rewrite IH. f_equal.
  rewrite Z.div_pow2_bits by lia. f_equal. lia.
Qed.

(** The first byte of an OBU header. *)
Lemma obu_byte_bits ty (x : bool) : 0 <= ty < 16 ->
  lit_bits 8 (u8 (Z.lor (Z.lor (Z.shiftl ty 3) (Z.shiftl (b2z x) 2)) (Z.shiftl 1 1)))
    = [false] ++ lit_bits 4 ty ++ [x] ++ [true] ++ [false].
Proof.
  intros H. assert (exists n, (n < 16)%nat /\ ty = Z.of_nat n) as (n & Hn & ->)
    by (exists (Z.to_nat ty); lia).
  do 16 (destruct n as [|n]; [by destruct x |]). lia.
Qed.

(** The extension byte: temporal layer, spatial layer, reserved bits. *)
Lemma ext_byte_bits e : 0 <= e < 256 ->
  lit_bits 8 e = lit_bits 3 (e / 32) ++ lit_bits 2 (e / 8 mod 4) ++ lit_bits 3 (e mod 8).
Proof.
  intros He. change 8%nat with (3 + (2 + 3))%nat. rewrite !lit_bits_split.
  by rewrite <- (lit_bits_mod 2), <- (lit_bits_mod 3 e).
Qed.

(** ** The header a writer wrote *)

Definition ext_header (hs ty ext tid sid : Z) : ObuHeader :=
  {| oh_size := hs; oh_type := ty; oh_has_size_field := 1; oh_has_extension := ext;
     oh_temporal_layer_id := tid; oh_spatial_layer_id := sid |}.

Lemma takes_obu_header buf hd h0 annexb ty (x : bool) tid sid rsv :
  0 <= ty < 16 -> 0 <= tid < 8 -> 0 <= sid < 4 -> 0 <= rsv < 8 ->
  (if x then 2 else 1) <= Z.of_nat (length buf) ->
  takes (src_ok := rb_source_ok buf hd) (read_obu_header annexb (Some h0))
    ([false] ++ lit_bits 4 ty ++ [x] ++ [true] ++ [false] ++
     if x then lit_bits 3 tid ++ lit_bits 2 sid ++ lit_bits 3 rsv else [])
    (AOM_CODEC_OK,
     Some (if x then ext_header 2 ty 1 tid sid else ext_header 1 ty 0 0 0)).
Proof.
  intros Hty Htid Hsid Hrsv Hlen r es Hp. pose proof Hp as (_ & Hbuf & _).
  unfold read_obu_header. rewrite Hbuf. rewrite (proj2 (Z.ltb_ge _ 1)) by (destruct x; lia).
  cbv zeta. revert r es Hp Hbuf. match goal with |- forall r es, _ -> _ -> exists r', ?m r = _ /\ _ =>
    enough (takes (src_ok := rb_source_ok buf hd) m
      ([false] ++ lit_bits 4 ty ++ [x] ++ [true] ++ [false] ++
       if x then lit_bits 3 tid ++ lit_bits 2 sid ++ lit_bits 3 rsv else [])
      (AOM_CODEC_OK, Some (if x then ext_header 2 ty 1 tid sid else ext_header 1 ty 0 0 0))) as Ht
      by (intros r es Hp _; by apply Ht) end.
  eapply takes_bind; [apply takes_get |]. cbn [b2z Z.eqb negb].
  eapply takes_bind; [apply takes_literal; lia |].
  eapply takes_bind; [apply takes_get |]. eapply takes_bind; [apply takes_get |].
  cbn [b2z Z.eqb andb]. eapply takes_bind; [apply takes_get |]. destruct x; cbn [b2z Z.eqb negb].
  - rewrite (proj2 (Z.eqb_neq _ _)) by lia.
    eapply takes_bind; [apply takes_literal; lia |]. eapply takes_bind; [apply takes_literal; lia |].
    rewrite <- (app_nil_r (lit_bits 3 rsv)).
    eapply takes_bind; [apply takes_literal; lia |]. apply takes_ret.
  - apply takes_ret.
Qed.

Lemma run_takes {A} (m : reader aom_read_bit_buffer A) buf bits es a :
  8 * Z.of_nat (length buf) < 2 ^ 32 ->
  takes (src_ok := rb_source_ok buf None) m bits a ->
  bits_range buf 0 (8 * length buf) = bits ++ es -> run_rb m buf = Some a.
Proof.
  intros Hlen Ht Hbits. unfold run_rb.
  destruct (Ht (init_rb buf) es) as (r' & E & _); [| by rewrite E].
  unfold pending, rb_source_ok, rb_pending, rb_wf, remaining. cbn. split_and!; try done; try lia.
  rewrite list_fmap_id, Nat.sub_0_r. exact Hbits.
Qed.

Lemma read_written_header hs data rest ty (x : bool) e h0 annexb :
  0 <= ty < 16 -> 0 <= e < 256 ->
  hs = (if x then [u8 (Z.lor (Z.lor (Z.shiftl ty 3) (Z.shiftl (b2z x) 2)) (Z.shiftl 1 1)); e]
        else [u8 (Z.lor (Z.lor (Z.shiftl ty 3) (Z.shiftl (b2z x) 2)) (Z.shiftl 1 1))]) ->
  data = hs ++ rest -> 8 * Z.of_nat (length data) < 2 ^ 32 ->
  run_rb (read_obu_header annexb (Some h0)) data =
    Some (AOM_CODEC_OK, Some (if x then ext_header 2 ty 1 (e / 32) (e / 8 mod 4)
                              else ext_header 1 ty 0 0 0)).
Proof.
  intros Hty He -> -> Hlen.
  apply (run_takes _ _ ([false] ++ lit_bits 4 ty ++ [x] ++ [true] ++ [false] ++
     if x then lit_bits 3 (e / 32) ++ lit_bits 2 (e / 8 mod 4) ++ lit_bits 3 (e mod 8) else [])
     (bits_range rest 0 (8 * length rest))); [done | |].
  - apply takes_obu_header; try dlia. destruct x; cbn [app length]; lia.
  - destruct x; cbn [app length].
    + replace (8 * S (S (length rest)))%nat with (8 + (8 + 8 * length rest))%nat by lia.
      rewrite !bits_range_cons. rewrite (obu_byte_bits ty true) by done. rewrite ext_byte_bits by done.
      rewrite <- !app_assoc. done.
    + replace (8 * S (length rest))%nat with (8 + 8 * length rest)%nat by lia.
      rewrite bits_range_cons, (obu_byte_bits ty false) by done. rewrite <- !app_assoc. done.
Qed.

(** The bytes [av1_write_obu_header] leaves. *)
Lemma written_header keep cnt ty nz ls ext dst : (2 <= length dst)%nat ->
  let x := nz && ls in
  let b0 := u8 (Z.lor (Z.lor (Z.shiftl ty 3) (Z.shiftl (b2z x) 2)) (Z.shiftl 1 1)) in
  exists cnt' dst',
    av1_write_obu_header keep cnt ty nz ls ext dst = Some (if x then 2 else 1, cnt', dst') /\
    take (Z.to_nat (if x then 2 else 1)) dst' = if x then [b0; Z.land ext 255] else [b0].
Proof.
  intros Hd x b0. destruct dst as [|d0 [|d1 dst]]; [simpl in Hd; lia .. |].
  unfold av1_write_obu_header. fold x. fold b0.
  assert (forall y i v, (i = 0 \/ i = 1) -> store (y :: d1 :: dst) i v
            = Some (<[Z.to_nat i := v]> (y :: d1 :: dst))) as Hs.
  { intros y i v Hi. unfold store. cbn [length].
    rewrite (proj2 (Z.leb_le 0 i)), (proj2 (Z.ltb_lt i _)) by lia. done. }
  rewrite Hs by by left. cbn [mbind option_bind]. clearbody b0.
  change (<[Z.to_nat 0 := b0]> (d0 :: d1 :: dst)) with (b0 :: d1 :: dst).
  destruct x; cbn [b2z Z.eqb].
  - rewrite Hs by by right.
    cbn [mbind option_bind]. do 2 eexists. split; [reflexivity |].
    change (take (Z.to_nat 2) _) with [b0; u8 (Z.land ext 255)].
    rewrite u8_small; [done |]. change 255 with (Z.ones 8). rewrite Z.land_ones by lia.
    apply Z.mod_pos_bound. done.
  - by do 2 eexists.
Qed.

(** C38: What the encoder writes in front of a payload, the header of any OBU type, with
    or without layer ids, and the size field, the decoder reads back: the type, the
    ids, the payload size, and exactly the bytes written. *)
Theorem obu_header_roundtrip keep cnt ty nz ls ext dst p field :
  0 <= ty < 16 -> 0 <= p <= UINT32_MAX -> (2 <= length dst)%nat ->
  aom_uleb_size_in_bytes p <= Z.of_nat (length field) ->
  let n := aom_uleb_size_in_bytes p in
  let e := Z.land ext 255 in
  exists hs cnt' dst' field',
    av1_write_obu_header keep cnt ty nz ls ext dst = Some (hs, cnt', dst') /\
    av1_write_uleb_obu_size p field n = Some (AOM_CODEC_OK, field') /\
    forall payload h0 ps br,
      let data := take (Z.to_nat hs) dst' ++ take (Z.to_nat n) field' ++ payload in
      8 * Z.of_nat (length data) < 2 ^ 32 ->
      aom_read_obu_header_and_size data (Z.of_nat (length data)) false h0 ps br =
        Some (AOM_CODEC_OK,
              (if nz && ls then ext_header 2 ty 1 (e / 32) (e / 8 mod 4) else ext_header 1 ty 0 0 0),
              p, hs + n).
Proof.
  intros Hty Hp Hd Hfield n e.
  destruct (uleb_encode_decodes p n field 0 Hp) as (field' & n' & Eenc & En & Hl & _ & Hdec);
    [unfold n; lia |].
  assert (n' = n) as ->.
  { unfold n. rewrite aom_uleb_size_spec; [lia |]. unfold UINT32_MAX in Hp. lia. }
  assert (1 <= n) by (rewrite En; pose proof (Z.log2_nonneg p); dlia).
  assert (0 <= e < 256) as He by (unfold e; change 255 with (Z.ones 8); rewrite Z.land_ones by lia; dlia).
  destruct (written_header keep cnt ty nz ls ext dst Hd) as (cnt' & dst' & Ew & Ehs).
  fold e in Ehs. set (x := nz && ls) in *. clearbody x.
  exists (if x then 2 else 1), cnt', dst', field'. split; [exact Ew |]. split.
  { unfold av1_write_uleb_obu_size. rewrite Eenc. cbn [mbind option_bind Z.eqb negb].
    by rewrite Z.eqb_refl. }
  intros payload h0 ps br data Hlen. unfold aom_read_obu_header_and_size.
  cbn [mbind option_bind is_ok negb]. change (Z.to_nat 0) with 0%nat. rewrite drop_0, Nat2Z.id, firstn_all.
  rewrite (read_written_header _ data (take (Z.to_nat n) field' ++ payload) ty x e h0 false Hty He Ehs)
    by (done || unfold data; done).
  cbn [mbind option_bind is_ok negb].
  assert (forall (b : bool), oh_size (if b then ext_header 2 ty 1 (e / 32) (e / 8 mod 4)
             else ext_header 1 ty 0 0 0) = if b then 2 else 1) as -> by by intros [].
  assert (forall (b : bool), oh_has_size_field (if b then ext_header 2 ty 1 (e / 32) (e / 8 mod 4)
             else ext_header 1 ty 0 0 0) = 1) as -> by by intros [].
  cbn [Z.eqb]. rewrite Z.add_0_l.
  assert (Z.of_nat (length (take (Z.to_nat (if x then 2 else 1)) dst')) = if x then 2 else 1) as Ehl
    by (rewrite Ehs; by destruct x).
  assert (drop (Z.to_nat (if x then 2 else 1)) data = take (Z.to_nat n) field' ++ payload) as ->.
  { unfold data. apply drop_app_length'. lia. }
  unfold read_obu_size.
  assert (Z.of_nat (length data) = (if x then 2 else 1) + n + Z.of_nat (length payload)) as Ed.
  { unfold data. rewrite !length_app, (length_take field'). lia. }
  rewrite Z.sub_0_r, (u64_small (Z.of_nat _)) by lia. rewrite u64_small by (destruct x; lia).
  rewrite Hdec by (destruct x; lia). cbn [mbind option_bind Z.eqb negb].
  rewrite (proj2 (Z.ltb_ge _ _)) by lia. cbn [mbind option_bind is_ok negb].
  done.
Qed.

Lemma obu_header_roundtrip_witness :
  exists hs cnt' dst' field',
    av1_write_obu_header true 4 OBU_FRAME true true 40 [0; 0; 0] = Some (hs, cnt', dst') /\
    av1_write_uleb_obu_size 300 [0; 0] 2 = Some (AOM_CODEC_OK, field') /\
    forall payload h0 ps br,
      let data := take (Z.to_nat hs) dst' ++ take (Z.to_nat 2) field' ++ payload in
      8 * Z.of_nat (length data) < 2 ^ 32 ->
      aom_read_obu_header_and_size data (Z.of_nat (length data)) false h0 ps br =
        Some (AOM_CODEC_OK, ext_header 2 OBU_FRAME 1 1 1, 300, hs + 2).
Proof.
  apply (obu_header_roundtrip true 4 OBU_FRAME true true 40 [0; 0; 0] 300 [0; 0]);
    vm_compute; repeat split; try discriminate; repeat constructor.
Defined.

(** ** Any bytes

    [calm m P]: without an error handler [m] always returns, with a value satisfying
    [P], and keeps the buffer. *)
Definition calm {A} (m : reader aom_read_bit_buffer A) (P : A -> Prop) : Prop :=
  forall rb, rb_error_handler rb = None -> exists a rb', m rb = Ok (a, rb') /\
    rb_error_handler rb' = None /\ P a.

Lemma calm_ret {A} (a : A) (P : A -> Prop) : P a -> calm (mret a) P.
Proof. intros HP rb Hh. by exists a, rb. Qed.

Lemma calm_bind {A B} (m : reader aom_read_bit_buffer A) (k : A -> reader aom_read_bit_buffer B) P Q :
  calm m P -> (forall a, P a -> calm (k a) Q) -> calm (m ≫= k) Q.
Proof.
  intros Hm Hk rb Hh. destruct (Hm rb Hh) as (a & rb' & E & Hh' & HP).
  destruct (Hk a HP rb' Hh') as (b & rb2 & E2 & Hh2 & HQ).
  exists b, rb2. by rewrite (reader_bind_ok _ _ _ _ _ E).
Qed.

Lemma calm_bit : calm aom_rb_read_bit (fun b => b = 0 \/ b = 1).
Proof.
  intros rb Hh. pose proof (yields_bit rb) as Hy. unfold aom_rb_read_bit in *.
  destruct (_ !! _) as [byte |]; rewrite ?Hh in *; by do 2 eexists.
Qed.

Lemma calm_yields {A} (m : reader aom_read_bit_buffer A) P :
  calm m (fun _ => True) -> yields m P -> calm m P.
Proof.
  intros Hc Hy rb Hh. destruct (Hc rb Hh) as (a & rb' & E & Hh' & _).
  specialize (Hy rb). rewrite E in Hy. by exists a, rb'.
Qed.

Lemma calm_literal bits : calm (aom_rb_read_literal bits) (fun v => 0 <= v < 2 ^ Z.max bits 0).
Proof.
  apply calm_yields; [| apply yields_literal]. unfold aom_rb_read_literal, read_literal.
  generalize (Z.to_nat bits), 0. intros n. induction n as [|n IH]; intros x; [by apply calm_ret |].
  cbn [read_literal_loop]. eapply calm_bind; [exact calm_bit |]. intros b _. apply IH.
Qed.

Create HintDb calm.
#[export] Hint Resolve calm_bit calm_literal : calm.

(** A header that was accepted. *)
Definition header_ok (n : Z) (r : aom_codec_err_t * option ObuHeader) : Prop :=
  match r with
  | (AOM_CODEC_OK, Some h) => 1 <= oh_size h <= 2 /\ oh_size h <= n /\ 0 <= oh_type h < 16
  | (AOM_CODEC_OK, None) => False
  | (_, h) => is_Some h
  end.

Lemma read_obu_header_calm annexb h buf :
  exists r, run_rb (read_obu_header annexb (Some h)) buf = Some r /\
    header_ok (Z.of_nat (length buf)) r.
Proof.
  unfold run_rb, read_obu_header. cbn [rb_bit_buffer init_rb].
  destruct (Z.ltb_spec (Z.of_nat (length buf)) 1); [eexists; split; [done | by eexists] |]. cbv zeta.
  match goal with |- context [?m (init_rb buf)] =>
    enough (calm m (header_ok (Z.of_nat (length buf)))) as Hc
      by (destruct (Hc (init_rb buf) eq_refl) as (a & rb' & E & _ & Ha); rewrite E; by exists a) end.
  eapply calm_bind; [exact calm_bit |]. intros f _. destruct (f =? 0); cbn [negb]; [| apply calm_ret; by eexists].
  eapply calm_bind; [apply calm_literal |]. intros ty Hty. cbv beta in Hty. change (2 ^ Z.max 4 0) with 16 in Hty.
  eapply calm_bind; [exact calm_bit |]. intros x _. eapply calm_bind; [exact calm_bit |]. intros s _.
  destruct (_ && _); [apply calm_ret; by eexists |]. eapply calm_bind; [exact calm_bit |]. intros _ _.
  destruct (x =? 0); cbn [negb]; [apply calm_ret; cbn; lia |].
  destruct (Z.eqb_spec (Z.of_nat (length buf)) 1); [apply calm_ret; by eexists |].
  do 3 (eapply calm_bind; [apply calm_literal |]; intros ? _). apply calm_ret. cbn. lia.
Qed.

Lemma read_obu_size_total data n s l :
  Forall (fun b => 0 <= b < 256) data -> 0 <= n <= Z.of_nat (length data) ->
  exists st v len, read_obu_size data n s l = Some (st, v, len) /\
    (st = AOM_CODEC_OK -> 1 <= len <= n /\ 0 <= v <= UINT32_MAX).
Proof.
  intros Hb Hn. unfold read_obu_size.
  destruct (uleb_decode_cases data n 0 l Hb Hn) as [(v & rest & Hp & E) | (_ & v & E)];
    rewrite E; cbn [mbind option_bind].
  - destruct (leb_prefix_range _ _ _ Hp) as (m & Hm & Hm0 & Hv).
    set (w := take _ data) in *.
    assert (Z.of_nat (length w) <= n) by (unfold w; rewrite length_take; unfold kMaximumLeb128Size; lia).
    destruct (Z.ltb_spec UINT32_MAX v); cbn [Z.eqb negb]; do 3 eexists; (split; [done |]); [done |].
    intros _. lia.
  - cbn [Z.eqb negb]. by do 3 eexists.
Qed.

(** On any bytes, truncated or hostile, in either stream format, reading an OBU
    header and its size stays inside the data and returns; when it succeeds, the
    bytes it consumed were all available and the payload size fits 32 bits. *)
Theorem obu_header_in_bounds data annexb h0 ps br :
  Forall (fun b => 0 <= b < 256) data -> Z.of_nat (length data) < 2 ^ 63 ->
  exists st h p n,
    aom_read_obu_header_and_size data (Z.of_nat (length data)) annexb h0 ps br = Some (st, h, p, n) /\
    (st = AOM_CODEC_OK ->
     1 <= oh_size h <= 2 /\ 0 <= oh_type h < 16 /\ 0 <= p <= UINT32_MAX /\
     oh_size h <= n <= Z.of_nat (length data)).
Proof.
  intros Hb Hlen. unfold aom_read_obu_header_and_size.
  assert (exists st os lo, (if annexb then read_obu_size data (Z.of_nat (length data)) 0 0
            else Some (AOM_CODEC_OK, 0, 0)) = Some (st, os, lo) /\
          (st = AOM_CODEC_OK -> 0 <= lo <= Z.of_nat (length data) /\ 0 <= os <= UINT32_MAX))
    as (st & os & lo & -> & Hlo).
  { destruct annexb; [| do 3 eexists; split; [done |]; unfold UINT32_MAX; lia].
    destruct (read_obu_size_total data (Z.of_nat (length data)) 0 0 Hb ltac:(lia))
      as (st & v & len & -> & H). do 3 eexists. split; [done |]. intros E. specialize (H E). lia. }
  cbn [mbind option_bind]. destruct (is_ok st) eqn:Est; cbn [negb]; [| by do 4 eexists; split; [done | intros ->]].
  destruct (Hlo ltac:(by destruct st)) as [Hlo1 Hos].
  rewrite Nat2Z.id, firstn_all. set (buf := drop (Z.to_nat lo) data).
  assert (Z.of_nat (length buf) = Z.of_nat (length data) - lo) as Hbuf
    by (unfold buf; rewrite length_drop; lia).
  destruct (read_obu_header_calm annexb h0 buf) as ([st2 oh] & -> & Hh). cbn [mbind option_bind].
  destruct oh as [h |]; [| exfalso; destruct st2; cbn in Hh; try done; by destruct Hh].
  cbn [mbind option_bind].
  destruct (is_ok st2) eqn:Est2; cbn [negb]; [| by do 4 eexists; split; [done | intros ->]].
  destruct st2; try done. cbn in Hh. destruct Hh as (Hs & Hsn & Hty).
  destruct (oh_has_size_field h =? 0).
  { destruct (Z.ltb_spec os (oh_size h)); do 4 eexists; (split; [done |]); [done |]. intros _. lia. }
  rewrite (u64_small (Z.of_nat _ - lo)) by lia. rewrite u64_small by lia.
  destruct (read_obu_size_total (drop (Z.to_nat (lo + oh_size h)) data)
    (Z.of_nat (length data) - lo - oh_size h) ps 0) as (st3 & v & len & -> & H3).
  { by apply Forall_drop. }
  { rewrite length_drop. lia. }
  cbn [mbind option_bind]. destruct (is_ok st3) eqn:Est3; cbn [negb].
  - destruct (H3 ltac:(by destruct st3)). do 4 eexists. split; [done |]. intros _. lia.
  - do 4 eexists. split; [done |]. by intros ->.
Qed.

Lemma obu_header_in_bounds_witness :
  exists st h p n,
    aom_read_obu_header_and_size [54; 255; 130; 200] (Z.of_nat 4) true (ext_header 0 0 0 0 0) 7 9
      = Some (st, h, p, n) /\
    (st = AOM_CODEC_OK ->
     1 <= oh_size h <= 2 /\ 0 <= oh_type h < 16 /\ 0 <= p <= UINT32_MAX /\
     oh_size h <= n <= Z.of_nat 4).
Proof.
  apply (obu_header_in_bounds [54; 255; 130; 200] true (ext_header 0 0 0 0 0) 7 9);
    [repeat constructor; done | done].
Defined.

(** ** Trailing bits *)

Lemma lit_bits_pow n : lit_bits (S n) (2 ^ Z.of_nat n) = true :: replicate n false.
Proof.
  rewrite lit_bits_top; [| lia | apply Z.log2_pow2; lia | lia]. by rewrite Z.sub_diag, lit_bits_0.
Qed.

Lemma check_trailing_ok code buf h off n :
  0 <= off -> Z.of_nat (S n) = 8 - off mod 8 -> off + Z.of_nat (S n) <= 8 * Z.of_nat (length buf) ->
  8 * Z.of_nat (length buf) < 2 ^ 32 ->
  bits_range buf (Z.to_nat off) (S n) = true :: replicate n false ->
  av1_check_trailing_bits code {| rb_bit_buffer := buf; rb_bit_offset := off; rb_error_handler := h |}
    = Ok (0, code, {| rb_bit_buffer := buf; rb_bit_offset := off + Z.of_nat (S n); rb_error_handler := h |}).
Proof.
  intros Ho Hn Hl Hbuf Hb. unfold av1_check_trailing_bits. cbn [rb_bit_offset]. rewrite <- Hn.
  set (rb := {| rb_bit_buffer := buf |}).
  destruct (takes_literal (src_ok := rb_source_ok buf h) (Z.of_nat (S n)) (2 ^ Z.of_nat n)
    ltac:(lia)) with (r := rb)
    (es := bits_range buf (Z.to_nat off + S n) (8 * length buf - (Z.to_nat off + S n)))
    as (rb' & E & Hp).
  { pose proof (pow2_pos (Z.of_nat n)). rewrite Nat2Z.inj_succ, Z.pow_succ_r by lia. lia. }
  { unfold pending, rb_source_ok, rb_pending, rb_wf, remaining, source_bit, rb.
    cbn [rb_bit_buffer rb_bit_offset rb_error_handler].
    split_and!; try done; try lia. rewrite list_fmap_id, Nat2Z.id, lit_bits_pow, <- Hb, <- bits_range_app.
    f_equal. lia. }
  rewrite (reader_bind_ok _ _ _ _ _ E).
  replace (Z.of_nat (S n) - 1) with (Z.of_nat n) by lia.
  rewrite Z.shiftl_mul_pow2, Z.mul_1_l, Z.eqb_refl by lia. cbn [negb].
  apply pending_offset in Hp. rewrite Hp, length_bits_range. unfold mret, reader_ret. do 3 f_equal. lia.
Qed.

(** In the middle of a byte the writer keeps the bits after the position. *)
Lemma write_is_overwrite w b : 0 <= wb_bit_offset w < 2 ^ 31 -> wb_bit_offset w mod 8 <> 0 ->
  aom_wb_write_bit w b = overwrite_bit w b.
Proof.
  intros Ho Hne. unfold aom_wb_write_bit, overwrite_bit.
  rewrite s32_small, Z.rem_mod_nonneg by lia.
  rewrite (proj2 (Z.eqb_neq (8 - 1 - _) _)) by lia. done.
Qed.

Lemma trailing_written w m :
  0 <= wb_bit_offset w -> Z.of_nat (S m) = 8 - wb_bit_offset w mod 8 ->
  wb_bit_offset w + Z.of_nat (S m) <= 8 * Z.of_nat (length (wb_bit_buffer w)) < 2 ^ 31 ->
  (wb_bit_offset w mod 8 <> 0 -> forall i, (Z.to_nat (wb_bit_offset w) <= i)%nat ->
     Z.of_nat i < wb_bit_offset w + Z.of_nat (S m) -> bit_at (wb_bit_buffer w) i = false) ->
  exists w', add_trailing_bits w = Some w' /\
    bits_range (wb_bit_buffer w') (Z.to_nat (wb_bit_offset w)) (S m) = true :: replicate m false /\
    length (wb_bit_buffer w') = length (wb_bit_buffer w) /\
    aom_wb_bytes_written w' * 8 = wb_bit_offset w + Z.of_nat (S m) /\
    bits_range (wb_bit_buffer w') 0 (Z.to_nat (wb_bit_offset w)) = written w.
Proof.
  intros Ho Hm Hr Hz. unfold add_trailing_bits, aom_wb_is_byte_aligned.
  destruct (Z.eqb_spec (wb_bit_offset w mod 8) 0) as [E0 | Hne]; cbn [b2z Z.eqb].
  - assert (m = 7%nat) as -> by lia.
    destruct (emits_literal (E := bool) 128 8 w 0%nat) as (w' & E & (Hw & Hl & Ho') & _);
      [rewrite length_lit_bits; split; lia |].
    exists w'. rewrite list_fmap_id, length_lit_bits in *. split; [exact E |].
    unfold written in Hw. rewrite Ho' in Hw.
    replace (Z.to_nat (wb_bit_offset w + Z.of_nat (Z.to_nat 8))) with (Z.to_nat (wb_bit_offset w) + 8)%nat in Hw by lia.
    rewrite bits_range_app in Hw. apply app_inj_1 in Hw as [Hw0 Hw]; [| by rewrite !length_bits_range].
    split; [exact Hw |]. split; [done |]. split; [| exact Hw0]. unfold aom_wb_bytes_written. rewrite Ho'.
    change (Z.of_nat (Z.to_nat 8)) with 8 in *. change (Z.of_nat 8) with 8.
    replace ((wb_bit_offset w + 8) mod 8) with 0 by dlia. cbn [Z.ltb Z.compare b2z]. dlia.
  - rewrite write_is_overwrite by lia.
    destruct (overwrite_bit_writes w true Ho ltac:(lia)) as (bs' & E & Hl & Hb & Hk).
    eexists. split; [exact E |]. cbn [wb_bit_buffer wb_bit_offset].
    split; [| split; [done | split]].
    + change (S m) with (1 + m)%nat. rewrite bits_range_app. cbn [bits_range seq fmap list_fmap app].
      change (bits_range bs' (Z.to_nat (wb_bit_offset w)) 1) with [bit_at bs' (Z.to_nat (wb_bit_offset w))].
      rewrite Hb. cbn [app]. f_equal. symmetry. apply replicate_as_Forall.
      split; [by rewrite length_bits_range |]. unfold bits_range. apply Forall_fmap, Forall_seq.
      intros j Hj. cbn. symmetry. rewrite Hk by lia. apply Hz; [done | lia | lia].
    + unfold aom_wb_bytes_written. cbn [wb_bit_offset].
      destruct (Z.ltb_spec 0 ((wb_bit_offset w + 1) mod 8)); cbn [b2z]; dlia.
    + apply bits_range_ext. intros j Hj. apply Hk. lia.
Qed.

(** The trailing bits the encoder appends to an OBU are what the decoder checks for,
    at any bit position (in a byte the writer has started, the bits after the position
    are zero): the check succeeds and consumes exactly them, up to the byte boundary. *)
Theorem trailing_bits_roundtrip code w extra :
  let n := Z.to_nat (8 - wb_bit_offset w mod 8) in
  wb_room w (n + extra) ->
  (wb_bit_offset w mod 8 <> 0 -> forall i, (Z.to_nat (wb_bit_offset w) <= i)%nat ->
     Z.of_nat i < wb_bit_offset w + Z.of_nat n -> bit_at (wb_bit_buffer w) i = false) ->
  exists w', add_trailing_bits w = Some w' /\
    aom_wb_bytes_written w' * 8 = wb_bit_offset w + Z.of_nat n /\
    forall tail h,
      let buf := take (Z.to_nat (aom_wb_bytes_written w')) (wb_bit_buffer w') ++ tail in
      8 * Z.of_nat (length buf) < 2 ^ 32 ->
      av1_check_trailing_bits code
        {| rb_bit_buffer := buf; rb_bit_offset := wb_bit_offset w; rb_error_handler := h |}
      = Ok (0, code, {| rb_bit_buffer := buf; rb_bit_offset := wb_bit_offset w + Z.of_nat n;
                        rb_error_handler := h |}).
Proof.
  intros n [Ho Hr] Hz. set (off := wb_bit_offset w) in *.
  assert (exists m, n = S m /\ Z.of_nat (S m) = 8 - off mod 8) as (m & En & Em)
    by (exists (Z.to_nat (7 - off mod 8)); unfold n; dlia).
  clearbody n.
  assert (exists w', add_trailing_bits w = Some w' /\
      bits_range (wb_bit_buffer w') (Z.to_nat off) n = true :: replicate m false /\
      length (wb_bit_buffer w') = length (wb_bit_buffer w) /\
      aom_wb_bytes_written w' * 8 = off + Z.of_nat n) as (w' & Ew & Hb & Hl & Hbw).
  { rewrite En in *. destruct (trailing_written w m) as (w' & ? & ? & ? & ? & _);
      [done | done | fold off; lia | done |]. by exists w'. }
  exists w'. split_and!; [done | done |]. intros tail h buf Hbuf.
  assert (off + Z.of_nat n <= 8 * Z.of_nat (length buf)) as Hge
    by (unfold buf; rewrite length_app, length_take; lia).
  rewrite En in *. apply check_trailing_ok; try done.
  rewrite <- Hb. apply bits_range_ext. intros j Hj. apply bit_at_prefix; lia.
Qed.

Lemma trailing_bits_roundtrip_witness :
  let w := {| wb_bit_buffer := [160; 64; 255]; wb_bit_offset := 11 |} in
  exists w', add_trailing_bits w = Some w' /\
    aom_wb_bytes_written w' * 8 = 11 + Z.of_nat 5 /\
    forall tail h,
      let buf := take (Z.to_nat (aom_wb_bytes_written w')) (wb_bit_buffer w') ++ tail in
      8 * Z.of_nat (length buf) < 2 ^ 32 ->
      av1_check_trailing_bits AOM_CODEC_OK
        {| rb_bit_buffer := buf; rb_bit_offset := 11; rb_error_handler := h |}
      = Ok (0, AOM_CODEC_OK, {| rb_bit_buffer := buf; rb_bit_offset := 11 + Z.of_nat 5;
                                rb_error_handler := h |}).
Proof.
  intros w. apply (trailing_bits_roundtrip AOM_CODEC_OK w 0).
  - split; vm_compute; repeat split; discriminate || done.
  - intros _ i H1 H2. vm_compute (Z.to_nat (wb_bit_offset w)) in H1.
    vm_compute (wb_bit_offset w + _) in H2.
    assert (i = 11 \/ i = 12 \/ i = 13 \/ i = 14 \/ i = 15)%nat as [-> | [-> | [-> | [-> | ->]]]] by lia;
      reflexivity.
Defined.

(** ** Tile groups *)

(** What the decoder accepts: the group that starts where the last one ended. *)
Lemma tile_group_accepted ls t next impl rb g rb' :
  read_tile_group_header ls t next impl rb = Ok (g, rb') ->
  tg_start g = next /\ tg_start g <= tg_end g < t_rows t * t_cols t /\
  tg_next_start_tile g = if tg_end g =? t_rows t * t_cols t - 1 then 0 else tg_end g + 1.
Proof.
  unfold read_tile_group_header. intros H.
  apply reader_bind_inv in H as (flag & rb1 & _ & H).
  apply reader_bind_inv in H as ([s e] & rb2 & _ & H). cbv beta iota in H.
  destruct (Z.eqb_spec s next) as [-> |]; cbn [negb] in H; [| done].
  destruct (Z.ltb_spec e next); [done |]. destruct (Z.leb_spec (t_rows t * t_cols t) e); [done |].
  injection H as <- _. cbn. lia.
Qed.

(** Groups accepted one after the other, each from its own OBU. *)
Inductive tile_groups (ls : bool) (t : CommonTileParams) : Z -> list tile_group -> Z -> Prop :=
| tgs_last next impl rb g rb' :
    read_tile_group_header ls t next impl rb = Ok (g, rb') ->
    tile_groups ls t next [g] (tg_next_start_tile g)
| tgs_more next impl rb g rb' gs last :
    read_tile_group_header ls t next impl rb = Ok (g, rb') ->
    tg_next_start_tile g <> 0 -> tile_groups ls t (tg_next_start_tile g) gs last ->
    tile_groups ls t next (g :: gs) last.

Definition tiles_of (g : tile_group) : list Z :=
  seqZ (tg_start g) (tg_end g - tg_start g + 1).

(** The tile groups of a frame, accepted one after the other until the decoder expects
    tile 0 again, hold every tile of the frame exactly once and in order, whatever
    bytes their headers came from. *)
Theorem tile_groups_cover ls t gs :
  0 < t_rows t * t_cols t -> tile_groups ls t 0 gs 0 ->
  concat (tiles_of <$> gs) = seqZ 0 (t_rows t * t_cols t).
Proof.
  intros Hn. set (num := t_rows t * t_cols t) in *.
  assert (H : forall next last, tile_groups ls t next gs last -> last = 0 -> 0 <= next ->
    concat (tiles_of <$> gs) = seqZ next (num - next)).
  { induction 1 as [next impl rb g rb' E | next impl rb g rb' gs last E Hnz Hgs IH]; intros Hlast Hpos;
      destruct (tile_group_accepted _ _ _ _ _ _ _ E) as (Hs & Hb & Hnext); fold num in Hb, Hnext.
    - cbn. rewrite app_nil_r. unfold tiles_of. rewrite Hs. f_equal.
      destruct (Z.eqb_spec (tg_end g) (num - 1)); lia.
    - destruct (Z.eqb_spec (tg_end g) (num - 1)); [lia |].
      cbn [fmap list_fmap concat]. rewrite IH by lia. unfold tiles_of. rewrite Hnext, Hs.
      replace (num - next) with ((tg_end g - next + 1) + (num - (tg_end g + 1))) by lia.
      rewrite (seqZ_app next (tg_end g - next + 1)) by lia. by replace (next + (tg_end g - next + 1)) with (tg_end g + 1) by lia. }
  intros Hgs. rewrite (H 0 0 Hgs) by lia. f_equal. lia.
Qed.

(** Two groups over the four tiles of [demo_cm]. *)
Lemma tile_groups_cover_witness :
  let t := tiles demo_cm in
  exists gs, tile_groups false t 0 gs 0 /\ length gs = 2%nat /\
    concat (tiles_of <$> gs) = seqZ 0 (t_rows t * t_cols t).
Proof.
  intros t.
  exists [{| tg_size := 1; tg_start := 0; tg_end := 2; tg_next_start_tile := 3 |};
          {| tg_size := 1; tg_start := 3; tg_end := 3; tg_next_start_tile := 0 |}].
  assert (tile_groups false t 0
    [{| tg_size := 1; tg_start := 0; tg_end := 2; tg_next_start_tile := 3 |};
     {| tg_size := 1; tg_start := 3; tg_end := 3; tg_next_start_tile := 0 |}] 0) as Hgs.
  { eapply (tgs_more false t 0 false (init_rb [144])); [vm_compute; reflexivity | done |].
    eapply (tgs_last false t 3 false (init_rb [248])). vm_compute. reflexivity. }
  split; [exact Hgs |]. split; [reflexivity |].
  apply (tile_groups_cover false t _ ltac:(vm_compute; reflexivity) Hgs).
Defined.

Lemma reader_bind_assoc {R A B C} (m : reader R A) (k : A -> reader R B) (l : B -> reader R C) r :
  ((m ≫= k) ≫= l) r = (m ≫= fun a => k a ≫= l) r.
Proof. unfold mbind, reader_bind. by destruct (m r) as [[a r'] | |]. Qed.

(** The two fields of a tile group header, as the writer and the reader treat them when
    there is more than one tile. *)
Definition tg_bits (s e lg : Z) (flag : bool) : list bool :=
  [flag] ++ if flag then lit_bits (Z.to_nat lg) s ++ lit_bits (Z.to_nat lg) e else [].

Definition tg_write (s e lg : Z) (flag : bool) (w : aom_write_bit_buffer)
  : option aom_write_bit_buffer :=
  w ← aom_wb_write_bit w (b2z flag);
  if flag then w ← aom_wb_write_literal w s lg; aom_wb_write_literal w e lg else Some w.

Lemma emits_tg s e lg flag : emits (E := bool) (tg_write s e lg flag) (tg_bits s e lg flag).
Proof.
  apply (emits_app (fun w => aom_wb_write_bit w _)); [exact (emits_put flag) |].
  destruct flag; [| apply emits_nil].
  apply (emits_app (fun w => aom_wb_write_literal w s lg)); apply emits_literal.
Qed.

Definition tg_flag (impl : bool) : reader aom_read_bit_buffer Z :=
  f ← aom_rb_read_bit;
  if impl && negb (f =? 0) then raise AOM_CODEC_UNSUP_BITSTREAM else mret f.

Definition tg_range (num lg f : Z) : reader aom_read_bit_buffer (Z * Z) :=
  if false || (num =? 1) || (f =? 0) then mret (0, num - 1)
  else s ← aom_rb_read_literal lg; e ← aom_rb_read_literal lg; mret (s, e).

Lemma takes_tg buf h num s e lg flag (impl : bool) :
  0 <= lg -> 0 <= s < 2 ^ lg -> 0 <= e < 2 ^ lg -> num <> 1 ->
  (flag = false -> s = 0 /\ e = num - 1) -> (impl = true -> flag = false) ->
  takes (src_ok := rb_source_ok buf h)
    (tg_flag impl ≫= tg_range num lg)
    (tg_bits s e lg flag) (s, e).
Proof.
  intros Hlg Hs He Hnum Hno Himpl. unfold tg_bits, tg_flag, tg_range.
  eapply takes_bind.
  { rewrite <- (app_nil_r [flag]). eapply takes_bind; [apply takes_get |].
    assert (impl && negb (b2z flag =? 0) = false) as ->; [| apply takes_ret].
    destruct impl; [by rewrite Himpl | done]. }
  rewrite (proj2 (Z.eqb_neq num 1)) by done. destruct flag; cbn [b2z Z.eqb orb].
  - eapply takes_bind; [by apply takes_literal |].
    rewrite <- (app_nil_r (lit_bits _ e)). eapply takes_bind; [by apply takes_literal |]. apply takes_ret.
  - destruct (Hno eq_refl) as [-> ->]. apply takes_ret.
Qed.

(** For a layout the encoder chose and the decoder read back, a tile group header is
    read as it was written, although the encoder decides whether there is one by the
    logs of the tile counts and the decoder by the counts: the decoder finds the
    range of tiles and a header of the size the encoder reports. *)
Theorem tile_group_header_roundtrip cm cfg cm1 t s e flag impl dst :
  frame_ok cm -> set_tile_info cm cfg = Some cm1 -> codable cm1 -> tiles_agree (tiles cm1) t ->
  let num := t_rows t * t_cols t in
  0 <= s <= e -> e < num -> (flag = false -> s = 0 /\ e = num - 1) -> (impl = true -> flag = false) ->
  (4 <= length dst)%nat -> Z.of_nat (length dst) < 2 ^ 28 ->
  exists size dst',
    write_tile_group_header dst s e
      (t_log2_rows (tiles cm1) + t_log2_cols (tiles cm1)) flag = Some (size, dst') /\
    forall tail h, let buf := take (Z.to_nat size) dst' ++ tail in
      8 * Z.of_nat (length buf) < 2 ^ 32 ->
      exists rb', read_tile_group_header false t s impl
          {| rb_bit_buffer := buf; rb_bit_offset := 0; rb_error_handler := h |}
        = Ok ({| tg_size := size; tg_start := s; tg_end := e;
                 tg_next_start_tile := if e =? num - 1 then 0 else e + 1 |}, rb').
Proof.
  intros Hf E Hcod Hag num Hs He Hno Himpl Hd Hd2.
  destruct (set_tile_info_lay_out cm cfg cm1 Hf E)
    as (u & lc & k & a & lr & r & b & Hla & Hlb & Elay & _).
  pose proof (layout_counted cm u lc k a lr r b cm1 Hf Hla Hlb Elay Hcod) as (C1 & C2 & C3 & C4 & C5).
  destruct Hag as (_ & Ek & _ & Er & _ & Elc & Elr & _).
  set (t1 := tiles cm1) in *. set (lg := t_log2_rows t1 + t_log2_cols t1) in *.
  unfold write_tile_group_header, read_tile_group_header. fold num. rewrite <- Elr, <- Elc. fold lg.
  destruct (Z.eqb_spec lg 0) as [Elg | Hlg].
  - assert (num = 1) as En1 by (unfold num; rewrite <- Ek, <- Er; by apply C5).
    exists 0, dst. split; [done |]. intros tail h Hbuf. rewrite En1 in *.
    assert (s = 0) as -> by lia. assert (e = 0) as -> by lia. by eexists.
  - assert (1 <= num) by (unfold num; rewrite <- Ek, <- Er; nia).
    assert (num <> 1) as Hn1 by (intros En; apply Hlg, C5; rewrite Ek, Er; exact En).
    assert (num <= 2 ^ lg) as Hcap.
    { unfold num, lg. rewrite <- Ek, <- Er, pow2_split by lia. nia. }
    assert (0 <= lg <= 12) by (unfold lg; lia).
    assert (length (tg_bits s e lg flag) <= 25)%nat as Htg.
    { unfold tg_bits. rewrite length_app. destruct flag; rewrite ?length_app, ?length_lit_bits; cbn [length]; lia. }
    destruct (link _ _ _ _ (emits_tg s e lg flag)
      (fun buf h => takes_tg buf h num s e lg flag impl ltac:(lia) ltac:(lia) ltac:(lia) Hn1 Hno Himpl)
      {| wb_bit_buffer := dst; wb_bit_offset := 0 |} 0%nat) as (w' & Ew & _ & Ho & _ & Hrd).
    { split; cbn [wb_bit_buffer wb_bit_offset]; lia. }
    exists (aom_wb_bytes_written w'), (wb_bit_buffer w'). split.
    { revert Ew. unfold tg_write, mbind, option_bind.
      destruct (aom_wb_write_bit _ _) as [w1 |]; [| done].
      destruct (if flag then _ else _) as [w2 |]; [| done]. by intros [= ->]. }
    intros tail h Hbuf. specialize (Hrd tail h Hbuf). cbn [wb_bit_offset] in Hrd, Ho.
    rewrite (proj2 (Z.ltb_lt 1 num)) by lia. cbn [negb andb rb_bit_offset].
    change (Z.of_nat 0) with 0 in *. fold (tg_flag impl).
    match goal with |- exists rb', (_ ≫= fun f => _ ≫= ?k) ?rb = _ =>
      change (exists rb', (tg_flag impl ≫= fun f => tg_range num lg f ≫= k) rb =
        Ok ({| tg_size := aom_wb_bytes_written w'; tg_start := s; tg_end := e;
               tg_next_start_tile := if e =? num - 1 then 0 else e + 1 |}, rb')) end.
    rewrite <- reader_bind_assoc, (reader_bind_ok _ _ _ _ _ Hrd). cbv beta iota.
    rewrite Z.eqb_refl. cbn [negb].
    rewrite (proj2 (Z.ltb_ge e s)), (proj2 (Z.leb_gt num e)) by lia. cbn [rb_bit_offset].
    eexists. do 3 f_equal. rewrite Z.sub_0_r. unfold aom_wb_bytes_written.
    rewrite u32_small by lia. rewrite Z.shiftr_div_pow2 by lia. change (2 ^ 3) with 8.
    destruct (Z.ltb_spec 0 (wb_bit_offset w' mod 8)); cbn [b2z]; dlia.
Qed.

(** The second group of [explicit_cm]: tiles 2 to 5 of 6. *)
Lemma tile_group_header_roundtrip_witness :
  let num := t_rows (tiles explicit_cm) * t_cols (tiles explicit_cm) in
  num = 6 /\
  exists size dst',
    write_tile_group_header [0; 0; 0; 0] 2 5
      (t_log2_rows (tiles explicit_cm) + t_log2_cols (tiles explicit_cm)) true = Some (size, dst') /\
    forall tail h, let buf := take (Z.to_nat size) dst' ++ tail in
      8 * Z.of_nat (length buf) < 2 ^ 32 ->
      exists rb', read_tile_group_header false (tiles explicit_cm) 2 false
          {| rb_bit_buffer := buf; rb_bit_offset := 0; rb_error_handler := h |}
        = Ok ({| tg_size := size; tg_start := 2; tg_end := 5;
                 tg_next_start_tile := if 5 =? num - 1 then 0 else 5 + 1 |}, rb').
Proof.
  intros num. split; [vm_compute; reflexivity |].
  apply (tile_group_header_roundtrip demo_cm explicit_config explicit_cm (tiles explicit_cm) 2 5 true false
           [0; 0; 0; 0] demo_frame_ok).
  - vm_compute. reflexivity.
  - exact explicit_codable.
  - unfold tiles_agree, agree. repeat split.
  - lia.
  - vm_compute. reflexivity.
  - discriminate.
  - discriminate.
  - cbn. lia.
  - vm_compute. reflexivity.
Defined.
