(* ===== verification/Yv12.v ===== *)
(** * Frame buffers

    [aom_scale/generic/yv12config.c]: the memory of a frame, its three planes with their
    borders inside one block, reallocated when a frame is larger than the block. *)

From stdpp Require Import gmap.
From S2P Require Import Prelude CodecTypes Mem.

Definition REF_FRAMES : Z := 8.
Definition AOM_DEC_BORDER_IN_PIXELS : Z := 64.
Definition AOM_BORDER_IN_PIXELS : Z := 288.

(** [YV12_BUFFER_CONFIG]; the buffers are addresses, in units of samples when samples take
    two bytes.  The pyramid and the metadata of the encoder's source frames are left out. *)
Record YV12_BUFFER_CONFIG := {
  y_width : Z; uv_width : Z; y_height : Z; uv_height : Z;
  y_crop_width : Z; uv_crop_width : Z; y_crop_height : Z; uv_crop_height : Z;
  y_stride : Z; uv_stride : Z;
  y_buffer : option Z; u_buffer : option Z; v_buffer : option Z;
  use_external_reference_buffers : bool;
  buffer_alloc : option Z; buffer_alloc_sz : Z;
  yv_border : Z; yv_frame_size : Z; yv_subsampling_x : Z; yv_subsampling_y : Z;
  yv_highbitdepth : bool; yv_corrupted : bool }.

(** A structure of zeros. *)
Definition yv12_zero : YV12_BUFFER_CONFIG :=
  {| y_width := 0; uv_width := 0; y_height := 0; uv_height := 0; y_crop_width := 0; uv_crop_width := 0;
     y_crop_height := 0; uv_crop_height := 0; y_stride := 0; uv_stride := 0; y_buffer := None; u_buffer := None;
     v_buffer := None; use_external_reference_buffers := false; buffer_alloc := None; buffer_alloc_sz := 0;
     yv_border := 0; yv_frame_size := 0; yv_subsampling_x := 0; yv_subsampling_y := 0; yv_highbitdepth := false;
     yv_corrupted := false |}.

Definition aom_calc_y_stride (aligned_width border : Z) : Z := Z.land (aligned_width + 2 * border + 31) (Z.lnot 31).

(** The strides and the sizes of the planes: [y_stride], [uv_stride], [yplane_size],
    [uvplane_size]. *)
Definition calc_stride_and_planesize (ss_x ss_y aligned_width aligned_height border byte_alignment : Z)
    (alloc_y_plane_only : bool) (uv_height : Z) : option (Z * Z * Z * Z) :=
  if negb (Z.land border 31 =? 0) then None else
  let y_stride := aom_calc_y_stride aligned_width border in
  let yplane_size := u64 ((aligned_height + 2 * border) * y_stride + byte_alignment) in
  if alloc_y_plane_only then Some (y_stride, 0, yplane_size, 0)
  else
    let uv_stride := Z.shiftr y_stride ss_x in
    let uvplane_size := u64 ((uv_height + 2 * Z.shiftr border ss_y) * uv_stride + byte_alignment) in
    Some (y_stride, uv_stride, yplane_size, uvplane_size).

Section Realloc.
Context `{Malloc}.

(** What the block is divided into. *)
Record yv_shape := {
  sp_width : Z; sp_height : Z; sp_ss_x : Z; sp_ss_y : Z; sp_highbitdepth : bool; sp_border : Z; sp_byte_alignment : Z;
  sp_y_only : bool; sp_y_stride : Z; sp_uv_stride : Z; sp_yplane_size : Z; sp_uvplane_size : Z }.

Definition aligned_width (s : yv_shape) : Z := Z.land (sp_width s + 7) (Z.lnot 7).
Definition aligned_height (s : yv_shape) : Z := Z.land (sp_height s + 7) (Z.lnot 7).
Definition shape_frame_size (s : yv_shape) : Z :=
  u64 ((1 + b2z (sp_highbitdepth s)) * u64 (sp_yplane_size s + 2 * sp_uvplane_size s)).

(** The part of [realloc_frame_buffer_aligned] after the block is there. *)
Definition place_planes (s : yv_shape) (alloc alloc_sz : Z) : YV12_BUFFER_CONFIG :=
  let byte_align := if sp_byte_alignment s =? 0 then 1 else sp_byte_alignment s in
  let buf := if sp_highbitdepth s then Z.shiftr alloc 1 else alloc in
  let uv_border_w := Z.shiftr (sp_border s) (sp_ss_x s) in
  let uv_border_h := Z.shiftr (sp_border s) (sp_ss_y s) in
  {| y_crop_width := sp_width s; y_crop_height := sp_height s; y_width := aligned_width s; y_height := aligned_height s;
     y_stride := sp_y_stride s;
     uv_crop_width := Z.shiftr (sp_width s + sp_ss_x s) (sp_ss_x s);
     uv_crop_height := Z.shiftr (sp_height s + sp_ss_y s) (sp_ss_y s);
     uv_width := Z.shiftr (aligned_width s) (sp_ss_x s); uv_height := Z.shiftr (aligned_height s) (sp_ss_y s);
     uv_stride := sp_uv_stride s; yv_border := sp_border s; yv_frame_size := shape_frame_size s;
     yv_subsampling_x := sp_ss_x s; yv_subsampling_y := sp_ss_y s; yv_highbitdepth := sp_highbitdepth s;
     y_buffer := Some (aom_align_addr (buf + sp_border s * sp_y_stride s + sp_border s) byte_align);
     u_buffer := if sp_y_only s then None
       else Some (aom_align_addr (buf + sp_yplane_size s + uv_border_h * sp_uv_stride s + uv_border_w) byte_align);
     v_buffer := if sp_y_only s then None
       else Some (aom_align_addr (buf + sp_yplane_size s + sp_uvplane_size s + uv_border_h * sp_uv_stride s + uv_border_w) byte_align);
     use_external_reference_buffers := false; buffer_alloc := Some alloc; buffer_alloc_sz := alloc_sz; yv_corrupted := false |}.

Definition with_alloc (alloc : option Z) (sz : Z) (y : YV12_BUFFER_CONFIG) : YV12_BUFFER_CONFIG :=
  {| y_width := y_width y; uv_width := uv_width y; y_height := y_height y; uv_height := uv_height y;
     y_crop_width := y_crop_width y; uv_crop_width := uv_crop_width y; y_crop_height := y_crop_height y;
     uv_crop_height := uv_crop_height y; y_stride := y_stride y; uv_stride := uv_stride y; y_buffer := y_buffer y;
     u_buffer := u_buffer y; v_buffer := v_buffer y; use_external_reference_buffers := use_external_reference_buffers y;
     buffer_alloc := alloc; buffer_alloc_sz := sz; yv_border := yv_border y; yv_frame_size := yv_frame_size y;
     yv_subsampling_x := yv_subsampling_x y; yv_subsampling_y := yv_subsampling_y y; yv_highbitdepth := yv_highbitdepth y;
     yv_corrupted := yv_corrupted y |}.

(** The callback for memory, when there is one: the address and the size of what it
    gives. *)
Definition fb_callback : Type := Z -> option (Z * Z).

(** The error code, the buffer and the heap afterwards; [None] frees a block that is not
    live. *)
Definition realloc_frame_buffer_aligned (h : heap) (ybf : YV12_BUFFER_CONFIG) (s : yv_shape) (cb : option fb_callback)
  : option (aom_codec_err_t * YV12_BUFFER_CONFIG * heap) :=
  let frame_size := shape_frame_size s in
  if AOM_MAX_ALLOCABLE_MEMORY / REF_FRAMES <? frame_size then Some (AOM_CODEC_MEM_ERROR, ybf, h) else
  match cb with
  | Some cb =>
      let external_frame_size := frame_size + 31 in
      match cb external_frame_size with
      | None => Some (AOM_CODEC_MEM_ERROR, ybf, h)
      | Some (data, size) =>
          if (data =? 0) || (size <? external_frame_size) then Some (AOM_CODEC_MEM_ERROR, ybf, h)
          else Some (AOM_CODEC_OK, place_planes s (aom_align_addr data 32) (buffer_alloc_sz ybf), h)
      end
  | None =>
      if buffer_alloc_sz ybf <? frame_size then
        h ← aom_free h (buffer_alloc ybf);
        match aom_memalign h 32 frame_size with
        | (None, h) => Some (AOM_CODEC_MEM_ERROR, with_alloc None 0 ybf, h)
        | (Some x, h) => Some (AOM_CODEC_OK, place_planes s x frame_size, h)
        end
      else
        x ← buffer_alloc ybf; Some (AOM_CODEC_OK, place_planes s x (buffer_alloc_sz ybf), h)
  end.

Definition aom_realloc_frame_buffer (h : heap) (ybf : YV12_BUFFER_CONFIG) (width height ss_x ss_y : Z)
    (use_highbitdepth : bool) (border byte_alignment : Z) (cb : option fb_callback) (alloc_y_plane_only : bool)
  : option (aom_codec_err_t * YV12_BUFFER_CONFIG * heap) :=
  let aligned_w := Z.land (width + 7) (Z.lnot 7) in
  let aligned_h := Z.land (height + 7) (Z.lnot 7) in
  match calc_stride_and_planesize ss_x ss_y aligned_w aligned_h border byte_alignment alloc_y_plane_only (Z.shiftr aligned_h ss_y) with
  | None => Some (AOM_CODEC_MEM_ERROR, ybf, h)
  | Some (y_stride, uv_stride, yplane_size, uvplane_size) =>
      realloc_frame_buffer_aligned h ybf
        {| sp_width := width; sp_height := height; sp_ss_x := ss_x; sp_ss_y := ss_y; sp_highbitdepth := use_highbitdepth;
           sp_border := border; sp_byte_alignment := byte_alignment; sp_y_only := alloc_y_plane_only; sp_y_stride := y_stride;
           sp_uv_stride := uv_stride; sp_yplane_size := yplane_size; sp_uvplane_size := uvplane_size |} cb
  end.

Definition aom_free_frame_buffer (h : heap) (ybf : YV12_BUFFER_CONFIG) : option (YV12_BUFFER_CONFIG * heap) :=
  h ← (if 0 <? buffer_alloc_sz ybf then aom_free h (buffer_alloc ybf) else Some h);
  Some (yv12_zero, h).

Definition aom_alloc_frame_buffer (h : heap) (ybf : YV12_BUFFER_CONFIG) (width height ss_x ss_y : Z)
    (use_highbitdepth : bool) (border byte_alignment : Z) (alloc_y_plane_only : bool)
  : option (aom_codec_err_t * YV12_BUFFER_CONFIG * heap) :=
  '(ybf, h) ← aom_free_frame_buffer h ybf;
  aom_realloc_frame_buffer h ybf width height ss_x ss_y use_highbitdepth border byte_alignment None alloc_y_plane_only.
End Realloc.

(** ** Where the planes lie *)

(** Every sample of the planes and of their borders has its own place between the
    addresses [lo] and [hi]: rows do not run into each other, and the planes follow each
    other. *)
Record planes_inside (y : YV12_BUFFER_CONFIG) (lo hi yb ub vb : Z) : Prop := {
  pi_buffers : y_buffer y = Some yb /\ u_buffer y = Some ub /\ v_buffer y = Some vb;
  pi_rows : y_width y + 2 * yv_border y <= y_stride y /\
    uv_width y + 2 * Z.shiftr (yv_border y) (yv_subsampling_x y) <= uv_stride y;
  pi_crop : y_crop_width y <= y_width y /\ y_crop_height y <= y_height y /\
    uv_crop_width y <= uv_width y /\ uv_crop_height y <= uv_height y;
  pi_first : lo <= (1 + b2z (yv_highbitdepth y)) * (yb - yv_border y * y_stride y - yv_border y);
  pi_y : yb + (y_height y + yv_border y - 1) * y_stride y + y_width y + yv_border y <=
    ub - Z.shiftr (yv_border y) (yv_subsampling_y y) * uv_stride y - Z.shiftr (yv_border y) (yv_subsampling_x y);
  pi_u : ub + (uv_height y + Z.shiftr (yv_border y) (yv_subsampling_y y) - 1) * uv_stride y + uv_width y + Z.shiftr (yv_border y) (yv_subsampling_x y) <=
    vb - Z.shiftr (yv_border y) (yv_subsampling_y y) * uv_stride y - Z.shiftr (yv_border y) (yv_subsampling_x y);
  pi_last : (1 + b2z (yv_highbitdepth y)) *
    (vb + (uv_height y + Z.shiftr (yv_border y) (yv_subsampling_y y) - 1) * uv_stride y + uv_width y + Z.shiftr (yv_border y) (yv_subsampling_x y)) <= hi }.

(** Sizes a frame can have. *)
Record frame_dims (width height ss_x ss_y border byte_alignment : Z) : Prop := {
  fd_size : 1 <= width <= 65536 /\ 1 <= height <= 65536;
  fd_ss : (ss_x = 0 \/ ss_x = 1) /\ (ss_y = 0 \/ ss_y = 1);
  fd_border : 0 <= border <= 1024 /\ border mod 32 = 0;
  fd_align : byte_alignment = 0 \/ exists k, 5 <= k <= 10 /\ byte_alignment = 2 ^ k }.

Lemma align_8 n : Z.land (n + 7) (Z.lnot 7) = 8 * ((n + 7) / 8).
Proof. change 7 with (2 ^ 3 - 1) at 2. rewrite align_down by lia. change (2 ^ 3) with 8. lia. Qed.

Lemma y_stride_eq w border : aom_calc_y_stride w border = 32 * ((w + 2 * border + 31) / 32).
Proof. unfold aom_calc_y_stride. change 31 with (2 ^ 5 - 1) at 2. rewrite align_down by lia. change (2 ^ 5) with 32. lia. Qed.

Lemma shiftr_01 n s : s = 0 \/ s = 1 -> Z.shiftr n s = n / (1 + s).
Proof. intros [-> | ->]; rewrite Z.shiftr_div_pow2 by lia; done. Qed.

(** A place aligned for a plane: at most one alignment further. *)
Lemma align_plane a byte_alignment : 0 <= a -> a + Z.max 0 (byte_alignment - 1) < 2 ^ 64 -> byte_alignment = 0 \/ (exists k, 5 <= k <= 10 /\ byte_alignment = 2 ^ k) ->
  a <= aom_align_addr a (if byte_alignment =? 0 then 1 else byte_alignment) <= a + Z.max 0 (byte_alignment - 1).
Proof.
  intros Ha Hb [-> | (k & Hk & ->)].
  - change (0 =? 0) with true. cbv iota. destruct (align_addr_ok a 0) as [_ Hr]; [lia | lia | lia |]. change (2 ^ 0) with 1 in Hr. lia.
  - pose proof (pow2_pos k ltac:(lia)). pose proof (pow2_le k 10 ltac:(lia)) as Hle. change (2 ^ 10) with 1024 in Hle.
    rewrite (proj2 (Z.eqb_neq _ 0)) by lia. destruct (align_addr_ok a k); lia.
Qed.

(** *** Arithmetic of the layout *)

Lemma align_up_facts n : 1 <= n -> 8 * ((n + 7) / 8) mod 8 = 0 /\ n <= 8 * ((n + 7) / 8).
Proof. intros. Z.to_euclidean_division_equations. lia. Qed.

Lemma stride_facts w border : let S := 32 * ((w + 2 * border + 31) / 32) in S mod 32 = 0 /\ w + 2 * border <= S.
Proof. cbv zeta. Z.to_euclidean_division_equations. lia. Qed.

Lemma rows_fit w border S ss : ss = 0 \/ ss = 1 -> w mod 8 = 0 -> border mod 32 = 0 -> S mod 32 = 0 -> w + 2 * border <= S ->
  w / (1 + ss) + 2 * (border / (1 + ss)) <= S / (1 + ss).
Proof. intros [-> | ->] ? ? ? ?; Z.to_euclidean_division_equations; lia. Qed.

Lemma crop_fits n N ss : ss = 0 \/ ss = 1 -> N mod 8 = 0 -> 1 <= n <= N -> (n + ss) / (1 + ss) <= N / (1 + ss) /\ 0 < N / (1 + ss).
Proof. intros [-> | ->] ? ?; Z.to_euclidean_division_equations; lia. Qed.

Lemma half_nonneg n ss : ss = 0 \/ ss = 1 -> 0 <= n -> 0 <= n / (1 + ss).
Proof. intros [-> | ->] ?; apply Z.div_pos; lia. Qed.

(** One plane: from the place of its first sample to the end of its last row. *)
Lemma plane_ends a w H b bh S ba p : 0 <= S -> 0 < H -> w + 2 * b <= S -> 0 <= ba ->
  a + bh * S + b <= p <= a + bh * S + b + Z.max 0 (ba - 1) ->
  a <= p - bh * S - b /\ p + (H + bh - 1) * S + w + b <= a + ((H + 2 * bh) * S + ba).
Proof. intros. split; lia. Qed.

Section Layout.
Context (width height ss_x ss_y border byte_alignment : Z) (hbd : bool).
Context (Hd : frame_dims width height ss_x ss_y border byte_alignment).

(** The shape [aom_realloc_frame_buffer] computes. *)
Definition dims_shape : yv_shape :=
  let W := 8 * ((width + 7) / 8) in let H := 8 * ((height + 7) / 8) in
  let S := 32 * ((W + 2 * border + 31) / 32) in
  {| sp_width := width; sp_height := height; sp_ss_x := ss_x; sp_ss_y := ss_y; sp_highbitdepth := hbd;
     sp_border := border; sp_byte_alignment := byte_alignment; sp_y_only := false; sp_y_stride := S;
     sp_uv_stride := S / (1 + ss_x); sp_yplane_size := (H + 2 * border) * S + byte_alignment;
     sp_uvplane_size := (H / (1 + ss_y) + 2 * (border / (1 + ss_y))) * (S / (1 + ss_x)) + byte_alignment |}.

Lemma byte_alignment_range : 0 <= byte_alignment <= 1024.
Proof.
  destruct (fd_align _ _ _ _ _ _ Hd) as [-> | (k & Hk & ->)]; [lia |].
  pose proof (pow2_pos k ltac:(lia)). pose proof (pow2_le k 10 ltac:(lia)) as Hle. change (2 ^ 10) with 1024 in Hle. lia.
Qed.

(** The planes take at most thirteen gigabytes in all. *)
Lemma shape_sizes : let s := dims_shape in
  0 <= sp_yplane_size s < 2 ^ 33 /\ 0 <= sp_uvplane_size s < 2 ^ 33 /\
  shape_frame_size s = (1 + b2z hbd) * (sp_yplane_size s + 2 * sp_uvplane_size s).
Proof.
  pose proof byte_alignment_range as Hb. destruct (fd_size _ _ _ _ _ _ Hd) as [Hw Hh], (fd_ss _ _ _ _ _ _ Hd) as [Hx Hy], (fd_border _ _ _ _ _ _ Hd) as [Hbo _].
  cbv zeta. unfold shape_frame_size, dims_shape. cbn [sp_yplane_size sp_uvplane_size sp_highbitdepth].
  set (W := 8 * ((width + 7) / 8)). set (H := 8 * ((height + 7) / 8)). set (S := 32 * ((W + 2 * border + 31) / 32)).
  assert (0 <= W <= 65536) by (unfold W; Z.to_euclidean_division_equations; lia).
  assert (0 <= H <= 65536) by (unfold H; Z.to_euclidean_division_equations; lia).
  assert (0 <= S <= 67616) by (unfold S; Z.to_euclidean_division_equations; lia).
  assert (0 <= S / (1 + ss_x) <= 67616) as Hs by (destruct Hx as [-> | ->]; Z.to_euclidean_division_equations; lia).
  assert (0 <= H / (1 + ss_y) + 2 * (border / (1 + ss_y)) <= 67584) as Hu by (destruct Hy as [-> | ->]; Z.to_euclidean_division_equations; lia).
  assert (forall a b, 0 <= a <= 67584 -> 0 <= b <= 67616 -> 0 <= a * b + byte_alignment < 2 ^ 33) as Hp.
  { intros a b Ha Hb'. change (2 ^ 33) with 8589934592. split; [apply Z.add_nonneg_nonneg; [apply Z.mul_nonneg_nonneg; lia | lia] |].
    assert (a * b <= 67584 * 67616) by (apply Z.mul_le_mono_nonneg; lia). lia. }
  pose proof (Hp (H + 2 * border) S ltac:(lia) ltac:(lia)) as Py. pose proof (Hp _ _ Hu Hs) as Pu. split_and!; try lia.
  change (2 ^ 33) with 8589934592 in *. rewrite (u64_small (_ + 2 * _)) by (change (2 ^ 64) with 18446744073709551616; lia).
  apply u64_small. change (2 ^ 64) with 18446744073709551616. destruct hbd; cbn [b2z]; lia.
Qed.

Lemma shape_frame_pos : 0 < shape_frame_size dims_shape.
Proof.
  destruct (fd_size _ _ _ _ _ _ Hd) as [Hw Hh], (fd_border _ _ _ _ _ _ Hd) as [Hbo _]. pose proof byte_alignment_range.
  pose proof shape_sizes as (_ & Su & ->). unfold dims_shape in *. cbn [sp_yplane_size sp_uvplane_size] in *.
  destruct (align_up_facts width ltac:(lia)) as [_ Ww]. destruct (align_up_facts height ltac:(lia)) as [_ Hhh].
  destruct (stride_facts (8 * ((width + 7) / 8)) border) as [_ Sw].
  set (HH := 8 * ((height + 7) / 8)) in *. set (S := 32 * _) in *.
  assert (0 < (HH + 2 * border) * S) by (apply Z.mul_pos_pos; lia). destruct hbd; cbn [b2z]; lia.
Qed.

Lemma realloc_shape `{Malloc} h ybf cb :
  aom_realloc_frame_buffer h ybf width height ss_x ss_y hbd border byte_alignment cb false = realloc_frame_buffer_aligned h ybf dims_shape cb.
Proof.
  destruct (fd_ss _ _ _ _ _ _ Hd) as [Hx Hy], (fd_border _ _ _ _ _ _ Hd) as [Hbo Hbm]. pose proof shape_sizes as (Sy & Su & _).
  unfold aom_realloc_frame_buffer, calc_stride_and_planesize. cbv zeta. rewrite !align_8, y_stride_eq, !shiftr_01 by done.
  change (Z.land border 31) with (Z.land border (Z.ones 5)). rewrite Z.land_ones by lia. change (2 ^ 5) with 32. rewrite Hbm. cbn [Z.eqb negb].
  unfold dims_shape in *. cbn [sp_yplane_size sp_uvplane_size] in *. change (2 ^ 33) with 8589934592 in *.
  rewrite !u64_small by (change (2 ^ 64) with 18446744073709551616; lia). done.
Qed.

(** The planes of a block at an address that is a multiple of 32. *)
Lemma planes_placed alloc sz : alloc mod 32 = 0 -> 0 <= alloc -> alloc + shape_frame_size dims_shape < 2 ^ 64 ->
  exists yb ub vb, planes_inside (place_planes dims_shape alloc sz) alloc (alloc + shape_frame_size dims_shape) yb ub vb.
Proof.
  intros Ha H0 Hend. pose proof shape_sizes as (Sy & Su & Ef). rewrite Ef in *.
  destruct (fd_size _ _ _ _ _ _ Hd) as [Hw Hh], (fd_ss _ _ _ _ _ _ Hd) as [Hx Hy], (fd_border _ _ _ _ _ _ Hd) as [Hbo Hbm].
  pose proof (fd_align _ _ _ _ _ _ Hd) as Hal. pose proof byte_alignment_range as Hba.
  unfold place_planes, aligned_width, aligned_height. unfold dims_shape in *.
  cbn [sp_width sp_height sp_ss_x sp_ss_y sp_highbitdepth sp_border sp_byte_alignment sp_y_only sp_y_stride sp_uv_stride sp_yplane_size sp_uvplane_size] in *.
  cbv zeta. rewrite !align_8, !(shiftr_01 _ _ Hx), !(shiftr_01 _ _ Hy).
  destruct (align_up_facts width ltac:(lia)) as [Wm Ww]. set (W := 8 * ((width + 7) / 8)) in *.
  destruct (align_up_facts height ltac:(lia)) as [Hm Hhh]. set (H := 8 * ((height + 7) / 8)) in *.
  destruct (stride_facts W border) as [Sm Sw]. set (S := 32 * ((W + 2 * border + 31) / 32)) in *. clearbody S H W.
  destruct (crop_fits width W ss_x Hx Wm ltac:(lia)) as [Cw Uw0]. destruct (crop_fits height H ss_y Hy Hm ltac:(lia)) as [Ch Uh0].
  pose proof (rows_fit W border S ss_x Hx Wm Hbm Sm Sw) as Uw.
  pose proof (half_nonneg border ss_x Hx ltac:(lia)) as Hbw. pose proof (half_nonneg border ss_y Hy ltac:(lia)) as Hbh.
  set (US := S / (1 + ss_x)) in *. set (UW := W / (1 + ss_x)) in *. set (bw := border / (1 + ss_x)) in *.
  set (UH := H / (1 + ss_y)) in *. set (bh := border / (1 + ss_y)) in *.
  set (CW := (width + ss_x) / (1 + ss_x)) in *. set (CH := (height + ss_y) / (1 + ss_y)) in *.
  assert (exists buf, (if hbd then Z.shiftr alloc 1 else alloc) = buf /\ (1 + b2z hbd) * buf = alloc /\ 0 <= buf <= alloc) as (buf & -> & Eb & Hbuf).
  { clear -Ha H0. destruct hbd; eexists; (split; [reflexivity |]); cbn [b2z]; [| lia].
    rewrite Z.shiftr_div_pow2 by lia. change (2 ^ 1) with 2. Z.to_euclidean_division_equations. lia. }
  set (Y := (H + 2 * border) * S + byte_alignment) in *. set (U := (UH + 2 * bh) * US + byte_alignment) in *.
  assert (border * S + border + byte_alignment <= Y) as LY by (unfold Y; assert (0 <= (H + border - 1) * S) by (apply Z.mul_nonneg_nonneg; lia); lia).
  assert (bh * US + bw + byte_alignment <= U) as LU by (unfold U; assert (0 <= (UH + bh - 1) * US) by (apply Z.mul_nonneg_nonneg; lia); lia).
  assert (0 <= border * S /\ 0 <= bh * US) as [Pb Pu] by (split; apply Z.mul_nonneg_nonneg; lia).
  assert (buf + Y + 2 * U <= alloc + (1 + b2z hbd) * (Y + 2 * U)) as Lend by (destruct hbd; cbn [b2z] in *; lia).
  pose proof (align_plane (buf + border * S + border) byte_alignment ltac:(lia) ltac:(lia) Hal) as Ay.
  pose proof (align_plane (buf + Y + bh * US + bw) byte_alignment ltac:(lia) ltac:(lia) Hal) as Au.
  pose proof (align_plane (buf + Y + U + bh * US + bw) byte_alignment ltac:(lia) ltac:(lia) Hal) as Av.
  destruct (plane_ends buf W H border border S byte_alignment _ ltac:(lia) ltac:(lia) ltac:(lia) ltac:(lia) Ay) as [Y1 Y2].
  destruct (plane_ends (buf + Y) UW UH bw bh US byte_alignment _ ltac:(lia) ltac:(lia) ltac:(lia) ltac:(lia) Au) as [U1 U2].
  destruct (plane_ends (buf + Y + U) UW UH bw bh US byte_alignment _ ltac:(lia) ltac:(lia) ltac:(lia) ltac:(lia) Av) as [V1 V2].
  fold Y in Y2. fold U in U2, V2.
  eexists _, _, _. split;
    cbn [y_buffer u_buffer v_buffer y_width y_height uv_width uv_height y_crop_width y_crop_height uv_crop_width uv_crop_height y_stride uv_stride yv_border yv_subsampling_x yv_subsampling_y yv_highbitdepth];
    rewrite ?(shiftr_01 _ _ Hx), ?(shiftr_01 _ _ Hy); fold bw bh.
  - split_and!; reflexivity.
  - lia.
  - lia.
  - clear -Y1 Eb. destruct hbd; cbn [b2z] in *; lia.
  - lia.
  - lia.
  - clear -V2 Eb. destruct hbd; cbn [b2z] in *; lia.
Qed.
End Layout.

(** ** Frames that own their memory *)

Section Owned.
Context `{MallocOk}.

(** The block of a buffer is a live one of the size kept beside it. *)
Definition buffer_owned (h : heap) (y : YV12_BUFFER_CONFIG) : Prop :=
  match buffer_alloc y with
  | None => buffer_alloc_sz y = 0
  | Some x => 0 < buffer_alloc_sz y /\ x mod 32 = 0 /\ x + buffer_alloc_sz y < 2 ^ 64 /\ exists a, owns h x (buffer_alloc_sz y) a
  end.

Lemma buffer_owned_free h y : buffer_owned h y -> exists h', aom_free h (buffer_alloc y) = Some h'.
Proof.
  unfold buffer_owned. destruct (buffer_alloc y) as [x |]; [| by eexists].
  intros (_ & _ & _ & a & Ho). rewrite (owns_free _ _ _ _ Ho). by eexists.
Qed.

Lemma realloc_owned h y width height ss_x ss_y hbd border byte_alignment :
  frame_dims width height ss_x ss_y border byte_alignment -> buffer_owned h y ->
  exists err y' h', aom_realloc_frame_buffer h y width height ss_x ss_y hbd border byte_alignment None false = Some (err, y', h') /\
    buffer_owned h' y' /\ (err = AOM_CODEC_OK \/ err = AOM_CODEC_MEM_ERROR) /\
    (err = AOM_CODEC_OK -> exists x yb ub vb, buffer_alloc y' = Some x /\ yv_frame_size y' <= buffer_alloc_sz y' /\
       planes_inside y' x (x + yv_frame_size y') yb ub vb).
Proof.
  intros Hd Ho. rewrite (realloc_shape _ _ _ _ _ _ hbd Hd). set (s := dims_shape _ _ _ _ _ _ _).
  destruct (shape_sizes _ _ _ _ _ _ hbd Hd) as (Sy & Su & Ef). fold s in Sy, Su, Ef.
  pose proof (shape_frame_pos _ _ _ _ _ _ hbd Hd) as Hpos. fold s in Hpos.
  unfold realloc_frame_buffer_aligned. cbv zeta.
  destruct (_ <? shape_frame_size s) eqn:El; [by eexists _, _, _; split_and!; [done | done | auto |] |].
  assert (forall x sz, shape_frame_size s <= sz -> x mod 32 = 0 -> 0 <= x -> x + sz < 2 ^ 64 ->
    exists x' yb ub vb, buffer_alloc (place_planes s x sz) = Some x' /\ yv_frame_size (place_planes s x sz) <= buffer_alloc_sz (place_planes s x sz) /\
      planes_inside (place_planes s x sz) x' (x' + yv_frame_size (place_planes s x sz)) yb ub vb) as Hplaced.
  { intros x sz Hsz Hm Hx0 Hend. destruct (planes_placed _ _ _ _ _ _ hbd Hd x sz Hm Hx0) as (yb & ub & vb & Hp); [fold s; lia |].
    exists x, yb, ub, vb. split_and!; [done | done | exact Hp]. }
  destruct (Z.ltb_spec (buffer_alloc_sz y) (shape_frame_size s)) as [Hlt | Hge].
  - destruct (buffer_owned_free h y Ho) as [h1 ->]. cbn [mbind option_bind].
    destruct (aom_memalign h1 32 (shape_frame_size s)) as [[x |] h2] eqn:Em; [| by eexists _, _, _; split_and!; [done | done | auto |]].
    change 32 with (2 ^ 5) in Em. destruct (memalign_inside h1 5 (shape_frame_size s) x h2 ltac:(lia) ltac:(lia) Em) as (a & Hm & Hown & Ha & _ & ->).
    apply malloc_inside in Ha as [Ha0 Haend]; [| unfold GetAllocationPaddingSize, ADDRESS_STORAGE_SIZE; change (2 ^ 5) with 32; lia].
    assert (0 <= x /\ x + shape_frame_size s < 2 ^ 64) as [Hx0 Hxe].
    { destruct Hown as (_ & n & Eb & Ha1 & Ha2 & Ha3). cbn [blocks] in Eb. rewrite lookup_insert_eq in Eb. injection Eb as <-. lia. }
    eexists _, _, _. split_and!; [done | | auto | intros _; by apply Hplaced].
    unfold buffer_owned, place_planes. cbn [buffer_alloc buffer_alloc_sz]. eauto.
  - unfold buffer_owned in Ho. destruct (buffer_alloc y) as [x |] eqn:Ex; cbn [mbind option_bind]; [| lia].
    destruct Ho as (Hsz & Hm & Hend & a & Hown).
    eexists _, _, _. split_and!; [done | | auto | intros _; apply Hplaced; try done; destruct Hown as (_ & ? & _ & ? & ? & _); lia].
    unfold buffer_owned, place_planes. cbn [buffer_alloc buffer_alloc_sz]. eauto.
Qed.
End Owned.

(** A frame of any size up to 65536 by 65536, in any subsampling and depth, with any
    border that is a multiple of 32: [aom_realloc_frame_buffer] frees only the block the
    buffer owns, and when it succeeds every sample of the three planes and of their borders has a
    place of its own inside the block the buffer owns then. *)
Theorem frame_planes_in_block `{MallocOk} h y width height ss_x ss_y hbd border byte_alignment :
  frame_dims width height ss_x ss_y border byte_alignment -> buffer_owned h y ->
  exists err y' h', aom_realloc_frame_buffer h y width height ss_x ss_y hbd border byte_alignment None false = Some (err, y', h') /\
    buffer_owned h' y' /\ (err = AOM_CODEC_OK \/ err = AOM_CODEC_MEM_ERROR) /\
    (err = AOM_CODEC_OK -> exists x yb ub vb, buffer_alloc y' = Some x /\ yv_frame_size y' <= buffer_alloc_sz y' /\
       planes_inside y' x (x + yv_frame_size y') yb ub vb).
Proof. apply realloc_owned. Qed.

Lemma frame_planes_in_block_witness :
  exists err y' h', aom_realloc_frame_buffer demo_heap yv12_zero 352 288 1 1 true 64 0 None false = Some (err, y', h') /\
    buffer_owned h' y' /\ (err = AOM_CODEC_OK \/ err = AOM_CODEC_MEM_ERROR) /\
    (err = AOM_CODEC_OK -> exists x yb ub vb, buffer_alloc y' = Some x /\ yv_frame_size y' <= buffer_alloc_sz y' /\
       planes_inside y' x (x + yv_frame_size y') yb ub vb).
Proof.
  apply frame_planes_in_block; [| reflexivity]. split; [lia | auto | split; [lia | reflexivity] | auto].
Defined.

(** The buffer of the decoder's frames comes from a callback. *)
Lemma realloc_external `{Malloc} h y width height ss_x ss_y hbd border byte_alignment cb data size err y' h' :
  frame_dims width height ss_x ss_y border byte_alignment ->
  cb (shape_frame_size (dims_shape width height ss_x ss_y border byte_alignment hbd) + 31) = Some (data, size) ->
  0 <= data -> data + size < 2 ^ 64 ->
  aom_realloc_frame_buffer h y width height ss_x ss_y hbd border byte_alignment (Some cb) false = Some (err, y', h') ->
  h' = h /\ (err = AOM_CODEC_OK -> exists x yb ub vb, buffer_alloc y' = Some x /\ data <= x /\ x + yv_frame_size y' <= data + size /\
    planes_inside y' x (x + yv_frame_size y') yb ub vb).
Proof.
  intros Hd Hcb H0 Hend. rewrite (realloc_shape _ _ _ _ _ _ hbd Hd). set (s := dims_shape _ _ _ _ _ _ _) in *.
  unfold realloc_frame_buffer_aligned. cbv zeta. destruct (_ <? shape_frame_size s); [by intros [= <- <- <-] |]. rewrite Hcb.
  destruct (_ || _) eqn:E; [by intros [= <- <- <-] |]. intros [= <- <- <-]. split; [done | intros _].
  apply orb_false_iff in E as [_ E]. apply Z.ltb_ge in E. pose proof (shape_frame_pos _ _ _ _ _ _ hbd Hd) as Hpos. fold s in Hpos.
  destruct (align_addr_ok data 5) as [Hm Hr]; [lia | lia | change (2 ^ 5) with 32; lia |]. change (2 ^ 5) with 32 in *.
  destruct (planes_placed _ _ _ _ _ _ hbd Hd (aom_align_addr data 32) (buffer_alloc_sz y) Hm) as (yb & ub & vb & Hp); [lia | fold s; lia |].
  exists (aom_align_addr data 32), yb, ub, vb. split_and!; [done | lia | cbn [yv_frame_size place_planes]; lia | exact Hp].
Qed.
