(* ===== verification/FrameBuffers.v ===== *)
(** * Internal frame buffers

    [av1/common/frame_buffers.c]: the list of memory blocks the decoder keeps for its frames
    when the application gives none.  A block is handed out while it is not in use and
    grows when a frame needs more than it has. *)

From stdpp Require Import gmap.
From S2P Require Import Prelude CodecTypes Mem Yv12.

Definition AOM_MAXIMUM_WORK_BUFFERS : Z := 8.
Definition AOM_MAXIMUM_REF_BUFFERS : Z := 8.

Record InternalFrameBuffer := { ifb_data : option Z; ifb_size : Z; ifb_in_use : bool }.

Definition ifb_zero : InternalFrameBuffer := {| ifb_data := None; ifb_size := 0; ifb_in_use := false |}.

(** The array and the address it is kept at. *)
Record InternalFrameBufferList := { int_fb_array : option Z; int_fb : list InternalFrameBuffer }.

Definition with_int_fb (fbs : list InternalFrameBuffer) (l : InternalFrameBufferList) : InternalFrameBufferList :=
  {| int_fb_array := int_fb_array l; int_fb := fbs |}.

Section Buffers.
Context `{Malloc}.

(** [aom_free] of every block. *)
Fixpoint free_data (h : heap) (fbs : list InternalFrameBuffer) : option heap :=
  match fbs with [] => Some h | b :: fbs => h ← aom_free h (ifb_data b); free_data h fbs end.

Definition av1_free_internal_frame_buffers (h : heap) (l : InternalFrameBufferList) : option (InternalFrameBufferList * heap) :=
  h ← free_data h (int_fb l);
  h ← aom_free h (int_fb_array l);
  Some ({| int_fb_array := None; int_fb := [] |}, h).

(** 0 on success. *)
Definition av1_alloc_internal_frame_buffers (h : heap) (l : InternalFrameBufferList) : option (Z * InternalFrameBufferList * heap) :=
  '(l, h) ← av1_free_internal_frame_buffers h l;
  let num := AOM_MAXIMUM_REF_BUFFERS + AOM_MAXIMUM_WORK_BUFFERS in
  match aom_calloc h num 24 with
  | (None, h) => Some (1, l, h)
  | (Some p, h) => Some (0, {| int_fb_array := Some p; int_fb := replicate (Z.to_nat num) ifb_zero |}, h)
  end.

(** The first block that is not in use. *)
Definition first_unused (fbs : list InternalFrameBuffer) : option nat :=
  fst <$> list_find (fun b => ifb_in_use b = false) fbs.

(** The index of the block given, or [None] for -1.  [None] of the whole frees a block
    that is not live. *)
Definition av1_get_frame_buffer (h : heap) (l : InternalFrameBufferList) (min_size : Z)
  : option (option nat * InternalFrameBufferList * heap) :=
  match first_unused (int_fb l) with
  | None => Some (None, l, h)
  | Some i =>
      b ← int_fb l !! i;
      if ifb_size b <? min_size then
        h ← aom_free h (ifb_data b);
        match aom_calloc h 1 min_size with
        | (None, h) => Some (None, with_int_fb (<[i := {| ifb_data := None; ifb_size := 0; ifb_in_use := ifb_in_use b |}]> (int_fb l)) l, h)
        | (Some x, h) => Some (Some i, with_int_fb (<[i := {| ifb_data := Some x; ifb_size := min_size; ifb_in_use := true |}]> (int_fb l)) l, h)
        end
      else Some (Some i, with_int_fb (<[i := {| ifb_data := ifb_data b; ifb_size := ifb_size b; ifb_in_use := true |}]> (int_fb l)) l, h)
  end.

Definition clear_in_use (b : InternalFrameBuffer) : InternalFrameBuffer :=
  {| ifb_data := ifb_data b; ifb_size := ifb_size b; ifb_in_use := false |}.

Definition av1_release_frame_buffer (l : InternalFrameBufferList) (fb_priv : option nat) : InternalFrameBufferList :=
  match fb_priv with Some i => with_int_fb (alter clear_in_use i (int_fb l)) l | None => l end.
End Buffers.

(** Changing an entry in place. *)
Lemma alter_as_insert {A} (f : A -> A) (l : list A) i x : l !! i = Some x -> alter f i l = <[i := f x]> l.
Proof.
  intros Hx. apply list_eq. intros j. destruct (decide (i = j)) as [<- |].
  - rewrite list_lookup_alter_eq, list_lookup_insert_eq by (by eapply lookup_lt_Some). by rewrite Hx.
  - by rewrite list_lookup_alter_ne, list_lookup_insert_ne.
Qed.
Lemma alter_outside {A} (f : A -> A) (l : list A) i : l !! i = None -> alter f i l = l.
Proof.
  intros Hx. apply list_eq. intros j. destruct (decide (i = j)) as [<- |]; [by rewrite list_lookup_alter_eq, Hx | by rewrite list_lookup_alter_ne].
Qed.

(** ** Blocks that are owned *)

(** Every block of the list is live and no two share memory from the C library. *)
Record ifbs_ok (h : heap) (fbs : list InternalFrameBuffer) : Prop := {
  io_owned i b : fbs !! i = Some b ->
    match ifb_data b with None => ifb_size b = 0 | Some x => 0 < ifb_size b /\ x + ifb_size b < 2 ^ 64 /\ exists a, owns h x (ifb_size b) a end;
  io_apart i j b c x y a : fbs !! i = Some b -> fbs !! j = Some c -> ifb_data b = Some x -> ifb_data c = Some y ->
    words h !! (x - 8) = Some a -> words h !! (y - 8) = Some a -> i = j }.

Definition in_use (fbs : list InternalFrameBuffer) (i : nat) : Prop := exists b, fbs !! i = Some b /\ ifb_in_use b = true.

Section Owned.
Context `{MallocOk}.

Lemma owns_other h x sz a y szy b : owns h x sz a -> a <> b -> owns h y szy b ->
  owns {| blocks := delete a (blocks h); words := words h |} y szy b.
Proof.
  intros _ Hne (Hw & n & Hb & Hr). split; [done |]. exists n. split; [| done]. cbn [blocks]. by rewrite lookup_delete_ne.
Qed.

(** [aom_calloc] keeps the blocks owned before. *)
Lemma owns_calloc h size x h' y sz b : 0 <= size -> 0 <= sz -> owns h y sz b -> aom_calloc h 1 size = (Some x, h') ->
  owns h' y sz b.
Proof.
  intros Hs Hsz Hy. unfold aom_calloc, aom_malloc. destruct (check_size_argument_overflow 1 size DEFAULT_ALIGNMENT) eqn:Ec; cbn [negb]; [| done].
  apply check_size_ok in Ec; [| lia | lia]. rewrite Z.mul_1_l in *.
  assert (size < 2 ^ 64) by (unfold AOM_MAX_ALLOCABLE_MEMORY, GetAllocationPaddingSize, ADDRESS_STORAGE_SIZE, DEFAULT_ALIGNMENT in Ec; change (2 ^ 64) with 18446744073709551616; lia).
  rewrite u64_small by lia. destruct (aom_memalign h DEFAULT_ALIGNMENT size) as [[x' |] h1] eqn:Em; [| done]. intros [= -> <-].
  change DEFAULT_ALIGNMENT with (2 ^ 4) in Em. pose proof (owns_memalign h 4 size x h1 y sz b ltac:(lia) Hs Hsz Hy Em) as (Hw & n & Hb & Hr).
  destruct (memalign_inside h 4 size x h1 ltac:(lia) Hs Em) as (a & _ & (_ & m & Ha & Ha0 & Ha1 & Ha2) & Ea & _ & Eh).
  split; [| exists n; by split]. cbn [words]. rewrite map_lookup_filter_Some. split; [done |]. cbn [fst].
  destruct Hy as (_ & n' & Hb' & Hb0 & Hb1 & Hb2). subst h1. cbn [blocks] in Ha. rewrite lookup_insert_eq in Ha. injection Ha as <-.
  unfold GetAllocationPaddingSize, ADDRESS_STORAGE_SIZE in *. change (2 ^ 4) with 16 in *.
  destruct (malloc_apart h _ a b n' Ea Hb' ltac:(lia) ltac:(lia)); lia.
Qed.

Lemma owns_calloc_new h size x h' : 0 < size -> aom_calloc h 1 size = (Some x, h') ->
  x + size < 2 ^ 64 /\ exists a, owns h' x size a /\ blocks h !! a = None.
Proof.
  intros Hs. unfold aom_calloc, aom_malloc. destruct (check_size_argument_overflow 1 size DEFAULT_ALIGNMENT) eqn:Ec; cbn [negb]; [| done].
  apply check_size_ok in Ec; [| lia | lia]. rewrite Z.mul_1_l in *.
  assert (size < 2 ^ 64) by (unfold AOM_MAX_ALLOCABLE_MEMORY, GetAllocationPaddingSize, ADDRESS_STORAGE_SIZE, DEFAULT_ALIGNMENT in Ec; change (2 ^ 64) with 18446744073709551616; lia).
  rewrite u64_small by lia. destruct (aom_memalign h DEFAULT_ALIGNMENT size) as [[x' |] h1] eqn:Em; [| done]. intros [= -> <-].
  change DEFAULT_ALIGNMENT with (2 ^ 4) in Em.
  destruct (memalign_inside h 4 size x h1 ltac:(lia) ltac:(lia) Em) as (a & _ & (Hw & m & Ha & Ha0 & Ha1 & Ha2) & Ea & _ & ->).
  cbn [blocks] in Ha. rewrite lookup_insert_eq in Ha. injection Ha as <-.
  pose proof (malloc_fresh _ _ _ Ea). apply malloc_inside in Ea as [_ Hend]; [| unfold GetAllocationPaddingSize, ADDRESS_STORAGE_SIZE; change (2 ^ 4) with 16; lia].
  split; [lia |]. exists a. split; [| done]. split.
  - cbn [words] in *. rewrite map_lookup_filter_Some. split; [done |]. cbn [fst]. lia.
  - eexists. cbn [blocks]. rewrite lookup_insert_eq. split; [done | lia].
Qed.

(** Freeing a block of the list keeps the others. *)
Lemma free_keeps h fbs i b : ifbs_ok h fbs -> fbs !! i = Some b ->
  exists h', aom_free h (ifb_data b) = Some h' /\ words h' = words h /\
    (forall j c y, j <> i -> fbs !! j = Some c -> ifb_data c = Some y -> exists a, owns h' y (ifb_size c) a) /\
    (forall a, blocks h !! a = None -> blocks h' !! a = None).
Proof.
  intros Hok Hb. pose proof (io_owned _ _ Hok i b Hb) as Hi. destruct (ifb_data b) as [x |] eqn:Ex.
  - destruct Hi as (_ & _ & a & Ho). rewrite (owns_free _ _ _ _ Ho). eexists. split_and!; [done | done | |].
    + intros j c y Hne Hc Hy. pose proof (io_owned _ _ Hok j c Hc) as Hj. rewrite Hy in Hj. destruct Hj as (_ & _ & a' & Ho').
      exists a'. apply (owns_other h x (ifb_size b) a); [done | | done]. intros ->. apply Hne.
      apply (io_apart _ _ Hok j i c b y x a'); [done | done | done | done | by destruct Ho' | by destruct Ho].
    + intros a' Ha'. cbn [blocks]. rewrite lookup_delete_None. by right.
  - exists h. split_and!; [done | done | | done]. intros j c y _ Hc Hy. pose proof (io_owned _ _ Hok j c Hc) as Hj. rewrite Hy in Hj. by destruct Hj as (_ & _ & ?).
Qed.

(** A flag changes nothing of the memory. *)
Lemma ifbs_ok_flag h fbs i b u : ifbs_ok h fbs -> fbs !! i = Some b ->
  ifbs_ok h (<[i := {| ifb_data := ifb_data b; ifb_size := ifb_size b; ifb_in_use := u |}]> fbs).
Proof.
  intros Hok Hb. pose proof (lookup_lt_Some _ _ _ Hb) as Hlt. split.
  - intros j c. destruct (decide (i = j)) as [<- |]; [| rewrite list_lookup_insert_ne by done; apply (io_owned _ _ Hok)].
    rewrite list_lookup_insert_eq by done. intros [= <-]. apply (io_owned _ _ Hok i b Hb).
  - intros j k c d x y a Hj Hk Hx Hy.
    assert (forall n e z, <[i := {| ifb_data := ifb_data b; ifb_size := ifb_size b; ifb_in_use := u |}]> fbs !! n = Some e -> ifb_data e = Some z ->
      exists e', fbs !! n = Some e' /\ ifb_data e' = Some z) as Hback.
    { intros n e z. destruct (decide (i = n)) as [<- |]; [| rewrite list_lookup_insert_ne by done; eauto].
      rewrite list_lookup_insert_eq by done. intros [= <-]. eauto. }
    destruct (Hback _ _ _ Hj Hx) as (c' & Hc' & Ec'). destruct (Hback _ _ _ Hk Hy) as (d' & Hd' & Ed').
    by apply (io_apart _ _ Hok j k c' d' x y a).
Qed.

(** A block replaced, the others kept. *)
Lemma ifbs_ok_insert h h' fbs i nb : ifbs_ok h fbs -> (i < length fbs)%nat ->
  (forall j c y, j <> i -> fbs !! j = Some c -> ifb_data c = Some y ->
     words h' !! (y - 8) = words h !! (y - 8) /\ exists a, owns h' y (ifb_size c) a) ->
  match ifb_data nb with
  | None => ifb_size nb = 0
  | Some x => 0 < ifb_size nb /\ x + ifb_size nb < 2 ^ 64 /\ exists a, owns h' x (ifb_size nb) a /\
      forall j c y, j <> i -> fbs !! j = Some c -> ifb_data c = Some y -> words h !! (y - 8) <> Some a
  end -> ifbs_ok h' (<[i := nb]> fbs).
Proof.
  intros Hok Hi Hk Hn. split.
  - intros j c. destruct (decide (i = j)) as [<- | Hne].
    + rewrite list_lookup_insert_eq by done. intros [= <-]. destruct (ifb_data nb); [| done]. destruct Hn as (? & ? & a & ? & _). eauto.
    + rewrite list_lookup_insert_ne by done. intros Hc. pose proof (io_owned _ _ Hok j c Hc) as Hj. destruct (ifb_data c) as [y |] eqn:Ey; [| done].
      destruct (Hk j c y ltac:(done) Hc Ey) as [_ Ho]. by destruct Hj as (? & ? & _).
  - assert (forall j c y a, j <> i -> fbs !! j = Some c -> ifb_data c = Some y -> words h' !! (y - 8) = Some a ->
      (exists x, ifb_data nb = Some x /\ words h' !! (x - 8) = Some a) -> False) as Hnew.
    { intros j c y a Hne Hc Hy Hw (x & Hx & Hwx). rewrite Hx in Hn. destruct Hn as (_ & _ & a' & (Hwa & _) & Hd).
      destruct (Hk j c y Hne Hc Hy) as [Hww _]. apply (Hd j c y Hne Hc Hy). congruence. }
    intros j k c d x y a Hj Hk' Hx Hy Hwx Hwy. destruct (decide (i = j)) as [<- | Hij], (decide (i = k)) as [<- | Hik]; [done | | |].
    + rewrite list_lookup_insert_eq in Hj by done. injection Hj as <-. rewrite list_lookup_insert_ne in Hk' by done.
      exfalso. apply (Hnew k d y a); eauto.
    + rewrite list_lookup_insert_eq in Hk' by done. injection Hk' as <-. rewrite list_lookup_insert_ne in Hj by done.
      exfalso. apply (Hnew j c x a); eauto.
    + rewrite list_lookup_insert_ne in Hj, Hk' by done. destruct (Hk j c x ltac:(done) Hj Hx) as [E1 _], (Hk k d y ltac:(done) Hk' Hy) as [E2 _].
      apply (io_apart _ _ Hok j k c d x y a); congruence.
Qed.

Lemma calloc_none h size h' : aom_calloc h 1 size = (None, h') -> h' = h.
Proof.
  unfold aom_calloc, aom_malloc, aom_memalign. destruct (check_size_argument_overflow 1 size DEFAULT_ALIGNMENT); cbn [negb]; [| by intros [= <-]].
  destruct (check_size_argument_overflow 1 _ _); cbn [negb]; [| by intros [= <-]]. destruct (c_malloc h _); [done | by intros [= <-]].
Qed.

(** What a request for memory gives. *)
Definition get_spec (l : InternalFrameBufferList) (min_size : Z) (r : option nat) (l' : InternalFrameBufferList) (h' : heap) : Prop :=
  length (int_fb l') = length (int_fb l) /\ ifbs_ok h' (int_fb l') /\
  (forall j, in_use (int_fb l) j -> int_fb l' !! j = int_fb l !! j) /\
  match r with
  | Some i => (exists b, int_fb l !! i = Some b /\ ifb_in_use b = false) /\
      (exists x sz, int_fb l' !! i = Some {| ifb_data := Some x; ifb_size := sz; ifb_in_use := true |} /\ min_size <= sz) /\
      forall j, j <> i -> int_fb l' !! j = int_fb l !! j
  | None => forall j, in_use (int_fb l') j <-> in_use (int_fb l) j
  end.

(** The C library refuses the size, from this heap with one of the unused blocks of the list
    given back to it. *)
Definition refused (h : heap) (l : InternalFrameBufferList) (size : Z) : Prop :=
  exists j b h1 h2, int_fb l !! j = Some b /\ ifb_in_use b = false /\ aom_free h (ifb_data b) = Some h1 /\ aom_calloc h1 1 size = (None, h2).

Lemma get_refused h l size l' h' : av1_get_frame_buffer h l size = Some (None, l', h') ->
  (forall j, (j < length (int_fb l))%nat -> in_use (int_fb l) j) \/ refused h l size.
Proof.
  unfold av1_get_frame_buffer, first_unused. destruct (list_find _ _) as [[i b0] |] eqn:Ef; cbn [fmap option_fmap option_map fst].
  - intros E. right. apply list_find_Some in Ef as (Hb & Hu & _). rewrite Hb in E. cbn [mbind option_bind] in E. destruct (ifb_size b0 <? size); [| done].
    destruct (aom_free h (ifb_data b0)) as [h1 |] eqn:E1; [| done]. cbn [mbind option_bind] in E. destruct (aom_calloc h1 1 size) as [[x |] h2] eqn:Ea; [done |].
    by exists i, b0, h1, h2.
  - intros _. left. intros j Hj. apply list_find_None in Ef. destruct (lookup_lt_is_Some_2 _ _ Hj) as [b Hb]. exists b. split; [done |].
    rewrite Forall_lookup in Ef. specialize (Ef _ _ Hb). by destruct (ifb_in_use b).
Qed.

Lemma get_frame_buffer_ok h l min_size : ifbs_ok h (int_fb l) -> 0 < min_size ->
  exists r l' h', av1_get_frame_buffer h l min_size = Some (r, l', h') /\ get_spec l min_size r l' h'.
Proof.
  intros Hok Hm.
  assert (forall i b nb, int_fb l !! i = Some b -> ifb_in_use b = false -> forall j, in_use (int_fb l) j -> <[i := nb]> (int_fb l) !! j = int_fb l !! j) as Hused.
  { intros i b nb Hb Hu j (c & Hc & Hcu). rewrite list_lookup_insert_ne; [done |]. intros ->. congruence. }
  unfold av1_get_frame_buffer, first_unused. destruct (list_find _ _) as [[i b0] |] eqn:Ef; cbn [fmap option_fmap option_map fst].
  2: { eexists _, _, _. split; [done |]. by split_and!. }
  apply list_find_Some in Ef as (Hb & Hu & _). rewrite Hb. cbn [mbind option_bind]. pose proof (lookup_lt_Some _ _ _ Hb) as Hlt.
  destruct (Z.ltb_spec (ifb_size b0) min_size) as [Hsz | Hsz].
  2: { eexists _, _, _. split; [done |]. unfold get_spec. cbn [int_fb with_int_fb]. split; [by rewrite length_insert | split; [by apply ifbs_ok_flag | split; [by apply (Hused i b0) |]]].
       split_and!; [by exists b0 | | intros j Hj; by rewrite list_lookup_insert_ne].
       pose proof (io_owned _ _ Hok i b0 Hb) as Hi. destruct (ifb_data b0) as [x |]; [| lia].
       exists x, (ifb_size b0). rewrite list_lookup_insert_eq by done. split; [done | lia]. }
  destruct (free_keeps h _ i b0 Hok Hb) as (h1 & -> & Ew & Hother & Hfresh). cbn [mbind option_bind].
  destruct (aom_calloc h1 1 min_size) as [[x |] h2] eqn:Ea; (eexists _, _, _; split; [done |]); unfold get_spec; cbn [int_fb with_int_fb]; rewrite length_insert.
  - destruct (owns_calloc_new _ _ _ _ Hm Ea) as (Hend & a & Ho & Ha).
    split; [done |]. split; [| split; [by apply (Hused i b0) | split; [by exists b0 | split; [exists x, min_size; by rewrite list_lookup_insert_eq | intros j Hj; by rewrite list_lookup_insert_ne]]]].
    apply (ifbs_ok_insert h); [done | done | |].
    + intros j c y Hj Hc Hy. destruct (Hother j c y Hj Hc Hy) as (a' & Ho').
      pose proof (io_owned _ _ Hok j c Hc) as Hc0. rewrite Hy in Hc0. destruct Hc0 as (Hpos & _).
      pose proof (owns_calloc h1 min_size x h2 y (ifb_size c) a' ltac:(lia) ltac:(lia) Ho' Ea) as Ho2.
      split; [| by exists a']. destruct Ho' as (Hw' & _), Ho2 as (Hw2 & _). congruence.
    + cbn [ifb_data ifb_size]. split_and!; [done | done |]. exists a. split; [done |]. intros j c y Hj Hc Hy Hw.
      destruct (Hother j c y Hj Hc Hy) as (a' & Hw' & n & Hn & _). congruence.
  - apply calloc_none in Ea as E2. subst h2. split_and!; [done | | by apply (Hused i b0) |].
    + apply (ifbs_ok_insert h); [done | done | | done]. intros j c y Hj Hc Hy. split; [by rewrite Ew | by eapply Hother].
    + intros j. destruct (decide (i = j)) as [<- |]; unfold in_use; [| by rewrite list_lookup_insert_ne].
      rewrite list_lookup_insert_eq, Hb by done. split; intros (c & [= <-] & Hc); eexists; split; done.
Qed.

Lemma release_ok h l i : ifbs_ok h (int_fb l) -> ifbs_ok h (int_fb (av1_release_frame_buffer l i)).
Proof.
  intros Hok. destruct i as [i |]; [| done]. cbn [av1_release_frame_buffer int_fb with_int_fb].
  destruct (int_fb l !! i) as [b |] eqn:Eb.
  - rewrite (alter_as_insert _ _ _ _ Eb). by apply ifbs_ok_flag.
  - by rewrite alter_outside.
Qed.

(** *** A block of its own beside the list *)

Lemma ifbs_ok_app h fbs e : ifbs_ok h (fbs ++ [e]) -> ifbs_ok h fbs.
Proof.
  intros [Ho Ha]. split; [intros i b Hb; apply (Ho i b); by apply lookup_app_l_Some |].
  intros i j b c x y a Hb Hc. apply Ha; by apply lookup_app_l_Some.
Qed.

(** A request does not see it. *)
Lemma get_beside h l size r l' h' e : ifb_in_use e = true -> av1_get_frame_buffer h l size = Some (r, l', h') ->
  av1_get_frame_buffer h (with_int_fb (int_fb l ++ [e]) l) size = Some (r, with_int_fb (int_fb l' ++ [e]) l, h').
Proof.
  intros He. unfold av1_get_frame_buffer, first_unused. cbn [int_fb with_int_fb]. destruct (list_find (fun b => ifb_in_use b = false) (int_fb l)) as [[i b0] |] eqn:Ef.
  - rewrite (list_find_app_l _ _ _ _ _ Ef). cbn [fmap option_fmap option_map fst]. apply list_find_Some in Ef as (Hb & _). rewrite Hb, (lookup_app_l_Some _ _ _ _ Hb). cbn [mbind option_bind].
    pose proof (lookup_lt_Some _ _ _ Hb) as Hlt.
    destruct (ifb_size b0 <? size); [destruct (aom_free h (ifb_data b0)) as [h1 |]; [cbn [mbind option_bind]; destruct (aom_calloc h1 1 size) as [[x |] h2] | done] |];
      intros [= <- <- <-]; cbn [int_fb with_int_fb int_fb_array]; by rewrite insert_app_l.
  - rewrite (list_find_app_r _ _ _ Ef). cbn. rewrite decide_False by congruence. cbn. by intros [= <- <- <-].
Qed.

Lemma get_beside_ok h l size r l' h' e : ifbs_ok h (int_fb l ++ [e]) -> ifb_in_use e = true -> 0 < size ->
  av1_get_frame_buffer h l size = Some (r, l', h') -> ifbs_ok h' (int_fb l' ++ [e]).
Proof.
  intros Hok He Hs Eg. apply (get_beside _ _ _ _ _ _ e He) in Eg.
  destruct (get_frame_buffer_ok h (with_int_fb (int_fb l ++ [e]) l) size Hok Hs) as (r2 & l2 & h2 & E2 & (_ & Hok2 & _)). rewrite Eg in E2. by injection E2 as <- <- <-.
Qed.

(** It can be given back. *)
Lemma free_beside h fbs e : ifbs_ok h (fbs ++ [e]) -> exists h', aom_free h (ifb_data e) = Some h' /\ ifbs_ok h' fbs.
Proof.
  intros Hok. assert ((fbs ++ [e]) !! length fbs = Some e) as He by (by rewrite lookup_app_r, Nat.sub_diag).
  destruct (free_keeps h _ _ e Hok He) as (h1 & E & Ew & Hother & _). exists h1. split; [done |]. split.
  - intros i b Hb. pose proof (io_owned _ _ Hok i b (lookup_app_l_Some _ _ _ _ Hb)) as Ho. destruct (ifb_data b) as [x |] eqn:Ex; [| done].
    destruct Ho as (P1 & P2 & _). split_and!; [done | done |]. apply (Hother i b x); [apply lookup_lt_Some in Hb; lia | by apply lookup_app_l_Some | done].
  - intros i j b c x y a Hb Hc Hx Hy. rewrite Ew. apply (io_apart _ _ Hok i j b c x y a); [by apply lookup_app_l_Some | by apply lookup_app_l_Some | done | done].
Qed.

(** Memory from the C library is such a block. *)
Lemma memalign_beside h fbs k size x h' : 0 <= k <= 16 -> 0 < size -> ifbs_ok h fbs -> aom_memalign h (2 ^ k) size = (Some x, h') ->
  ifbs_ok h' (fbs ++ [{| ifb_data := Some x; ifb_size := size; ifb_in_use := true |}]).
Proof.
  intros Hk Hs Hok Em. destruct (memalign_inside h k size x h' Hk ltac:(lia) Em) as (a & _ & Hown & Ea & Hmax & Eh).
  pose proof (malloc_fresh _ _ _ Ea) as Hfresh. assert (0 < 2 ^ k) by (apply Z.pow_pos_nonneg; lia).
  apply malloc_inside in Ea as [_ Hend]; [| unfold GetAllocationPaddingSize, ADDRESS_STORAGE_SIZE; lia].
  assert (forall y sz b, 0 <= sz -> owns h y sz b -> owns h' y sz b) as Hkeep by (intros y sz b Hsz Ho; apply (owns_memalign h k size x h' y sz b Hk ltac:(lia) Hsz Ho Em)).
  assert (forall i b, (fbs ++ [{| ifb_data := Some x; ifb_size := size; ifb_in_use := true |}]) !! i = Some b ->
    fbs !! i = Some b \/ (i = length fbs /\ b = {| ifb_data := Some x; ifb_size := size; ifb_in_use := true |})) as Hcases.
  { intros i b [Hb | [Hle Hb]]%lookup_app_Some; [by left |]. right. apply list_lookup_singleton_Some in Hb as [Hi <-]. split; [lia | done]. }
  assert (forall i b y c, fbs !! i = Some b -> ifb_data b = Some y -> words h' !! (y - 8) = Some c -> exists n, blocks h !! c = Some n /\ words h !! (y - 8) = Some c) as Hbase.
  { intros i b y c Hb Hy Hw. pose proof (io_owned _ _ Hok i b Hb) as Ho. rewrite Hy in Ho. destruct Ho as (P1 & _ & c' & Ho). pose proof (Hkeep y (ifb_size b) c' ltac:(lia) Ho) as (Hw' & _).
    assert (c' = c) as -> by congruence. destruct Ho as (Hw0 & n & Hn & _). eauto. }
  split.
  - intros i b [Hb | [-> ->]]%Hcases.
    + pose proof (io_owned _ _ Hok i b Hb) as Ho. destruct (ifb_data b) as [y |]; [| done]. destruct Ho as (P1 & P2 & c & Ho). split_and!; [done | done |]. exists c. apply Hkeep; [lia | done].
    + cbn. split_and!; [done | | by exists a]. destruct Hown as (_ & n & Hn & Q1 & Q2 & Q3). subst h'. cbn in Hn. rewrite lookup_insert_eq in Hn. injection Hn as <-. lia.
  - intros i j b c y z a' [Hb | [-> ->]]%Hcases [Hc | [-> ->]]%Hcases Hy Hz Wy Wz; cbn in *.
    + destruct (Hbase _ _ _ _ Hb Hy Wy) as (_ & _ & W1), (Hbase _ _ _ _ Hc Hz Wz) as (_ & _ & W2). by apply (io_apart _ _ Hok i j b c y z a').
    + injection Hz as <-. destruct Hown as (Wx & _). destruct (Hbase _ _ _ _ Hb Hy Wy) as (n & Hn & _). congruence.
    + injection Hy as <-. destruct Hown as (Wx & _). destruct (Hbase _ _ _ _ Hc Hz Wz) as (n & Hn & _). congruence.
    + done.
Qed.
End Owned.
