(* ===== verification/BufferPool.v ===== *)
(** * The pool of frame buffers

    Who holds a frame: [get_free_fb], [decrease_ref_count] and the functions that hand
    references around ([av1/common/av1_common_int.h], [av1/decoder/decoder.h],
    [av1/decoder/decoder.c], [av1/decoder/decodeframe.c], [av1/av1_dx_iface.c]), as steps of
    the decoder between and inside its calls. *)

From stdpp Require Import gmap.
From S2P Require Import Prelude CodecTypes Mem Yv12 FrameBuffers.

Definition INTER_REFS_PER_FRAME : Z := 7.
Definition FRAME_BUFFERS : Z := REF_FRAMES + 1 + INTER_REFS_PER_FRAME.
Definition MAX_NUM_SPATIAL_LAYERS : Z := 4.

(** What a frame keeps beside its reference count, its memory and its planes. *)
Section Pool.
Context {F : Type}.

(** [raw_frame_buffer] is the block of [int_frame_buffers] the frame lives in, if any. *)
Record RefCntBuffer := {
  ref_count : Z; raw_frame_buffer : option nat; rc_buf : YV12_BUFFER_CONFIG; rc_frame : F }.

Definition with_count (n : Z) (b : RefCntBuffer) : RefCntBuffer :=
  {| ref_count := n; raw_frame_buffer := raw_frame_buffer b; rc_buf := rc_buf b; rc_frame := rc_frame b |}.
Definition with_raw (r : option nat) (b : RefCntBuffer) : RefCntBuffer :=
  {| ref_count := ref_count b; raw_frame_buffer := r; rc_buf := rc_buf b; rc_frame := rc_frame b |}.
Definition with_buf (y : YV12_BUFFER_CONFIG) (b : RefCntBuffer) : RefCntBuffer :=
  {| ref_count := ref_count b; raw_frame_buffer := raw_frame_buffer b; rc_buf := y; rc_frame := rc_frame b |}.
Definition with_frame (f : F) (b : RefCntBuffer) : RefCntBuffer :=
  {| ref_count := ref_count b; raw_frame_buffer := raw_frame_buffer b; rc_buf := rc_buf b; rc_frame := f |}.

Record BufferPool := { frame_bufs : list RefCntBuffer; int_frame_buffers : InternalFrameBufferList }.

(** The reference-holding variables of the decoder with the pool: [cm->ref_frame_map],
    [cm->cur_frame], the frames waiting for output, and the blocks with film grain
    added. *)
Record dec_state := {
  d_heap : heap; d_pool : BufferPool;
  ref_frame_map : list (option nat); cur_frame : option nat;
  output_frames : list nat; output_all_layers : bool;
  grain_image_frame_buffers : list nat }.

Definition with_pool (p : BufferPool) (s : dec_state) : dec_state :=
  {| d_heap := d_heap s; d_pool := p; ref_frame_map := ref_frame_map s; cur_frame := cur_frame s;
     output_frames := output_frames s; output_all_layers := output_all_layers s;
     grain_image_frame_buffers := grain_image_frame_buffers s |}.
Definition with_bufs (l : list RefCntBuffer) (s : dec_state) : dec_state :=
  with_pool {| frame_bufs := l; int_frame_buffers := int_frame_buffers (d_pool s) |} s.
Definition with_ints (l : InternalFrameBufferList) (s : dec_state) : dec_state :=
  with_pool {| frame_bufs := frame_bufs (d_pool s); int_frame_buffers := l |} s.
Definition with_heap (h : heap) (s : dec_state) : dec_state :=
  {| d_heap := h; d_pool := d_pool s; ref_frame_map := ref_frame_map s; cur_frame := cur_frame s;
     output_frames := output_frames s; output_all_layers := output_all_layers s;
     grain_image_frame_buffers := grain_image_frame_buffers s |}.
Definition with_map (m : list (option nat)) (s : dec_state) : dec_state :=
  {| d_heap := d_heap s; d_pool := d_pool s; ref_frame_map := m; cur_frame := cur_frame s;
     output_frames := output_frames s; output_all_layers := output_all_layers s;
     grain_image_frame_buffers := grain_image_frame_buffers s |}.
Definition with_cur (c : option nat) (s : dec_state) : dec_state :=
  {| d_heap := d_heap s; d_pool := d_pool s; ref_frame_map := ref_frame_map s; cur_frame := c;
     output_frames := output_frames s; output_all_layers := output_all_layers s;
     grain_image_frame_buffers := grain_image_frame_buffers s |}.
Definition with_outputs (l : list nat) (s : dec_state) : dec_state :=
  {| d_heap := d_heap s; d_pool := d_pool s; ref_frame_map := ref_frame_map s; cur_frame := cur_frame s;
     output_frames := l; output_all_layers := output_all_layers s;
     grain_image_frame_buffers := grain_image_frame_buffers s |}.
Definition with_grain (l : list nat) (s : dec_state) : dec_state :=
  {| d_heap := d_heap s; d_pool := d_pool s; ref_frame_map := ref_frame_map s; cur_frame := cur_frame s;
     output_frames := output_frames s; output_all_layers := output_all_layers s;
     grain_image_frame_buffers := l |}.
Definition bufs (s : dec_state) : list RefCntBuffer := frame_bufs (d_pool s).
Definition ints (s : dec_state) : InternalFrameBufferList := int_frame_buffers (d_pool s).

(** The fields of the header of one frame. *)
Definition set_frame (k : nat) (g : F -> F) (s : dec_state) : option dec_state :=
  b ← bufs s !! k; Some (with_bufs (<[k := with_frame (g (rc_frame b)) b]> (bufs s)) s).

(** ** References *)

(** The first buffer nobody holds; [None] stands for [INVALID_IDX].  The external reference
    buffers of large scale tile coding, whose planes are restored here, are left out. *)
Definition get_free_fb (s : dec_state) : option nat * dec_state :=
  match list_find (fun b => ref_count b = 0) (bufs s) with
  | Some (i, b) => (Some i, with_bufs (<[i := with_count 1 b]> (bufs s)) s)
  | None => (None, s)
  end.

(** [None] is an access outside the pool. *)
Definition decrease_ref_count (p : option nat) (s : dec_state) : option dec_state :=
  match p with
  | None => Some s
  | Some k =>
      b ← bufs s !! k;
      let b := with_count (ref_count b - 1) b in
      match raw_frame_buffer b with
      | Some j =>
          if ref_count b =? 0 then
            Some (with_bufs (<[k := with_raw None b]> (bufs s)) (with_ints (av1_release_frame_buffer (ints s) (Some j)) s))
          else Some (with_bufs (<[k := b]> (bufs s)) s)
      | None => Some (with_bufs (<[k := b]> (bufs s)) s)
      end
  end.

(** [++buf->ref_count] and [--buf->ref_count] alone. *)
Definition add_count (d : Z) (k : nat) (s : dec_state) : option dec_state :=
  b ← bufs s !! k; Some (with_bufs (<[k := with_count (ref_count b + d) b]> (bufs s)) s).

Definition assign_cur_frame_new_fb (s : dec_state) : option (option nat * dec_state) :=
  s ← (match cur_frame s with Some k => s ← add_count (-1) k s; Some (with_cur None s) | None => Some s end);
  let '(r, s) := get_free_fb s in
  match r with
  | None => Some (None, s)
  | Some k => Some (Some k, with_cur (Some k) s)
  end.

(** [assign_frame_buffer_p(&cm->cur_frame, rhs_ptr)] *)
Definition assign_cur_frame (rhs : nat) (s : dec_state) : option dec_state :=
  s ← (match cur_frame s with Some k => add_count (-1) k s | None => Some s end);
  add_count 1 rhs (with_cur (Some rhs) s).

(** One slot of the map let go. *)
Definition drop_ref (i : nat) (s : dec_state) : option dec_state :=
  p ← ref_frame_map s !! i;
  s ← decrease_ref_count p s;
  Some (with_map (<[i := None]> (ref_frame_map s)) s).

Fixpoint drop_refs (slots : list nat) (s : dec_state) : option dec_state :=
  match slots with [] => Some s | i :: slots => s ← drop_ref i s; drop_refs slots s end.

Definition reset_ref_frame_map (s : dec_state) : option dec_state := drop_refs (seq 0 (Z.to_nat REF_FRAMES)) s.

(** ** Memory for a frame *)

(** The size asked of the callback, when [aom_realloc_frame_buffer] comes that far. *)
Definition fb_request (width height ss_x ss_y : Z) (hbd : bool) (border byte_alignment : Z) : option Z :=
  let aligned_w := Z.land (width + 7) (Z.lnot 7) in
  let aligned_h := Z.land (height + 7) (Z.lnot 7) in
  '(y_stride, uv_stride, yplane_size, uvplane_size) ←
    calc_stride_and_planesize ss_x ss_y aligned_w aligned_h border byte_alignment false (Z.shiftr aligned_h ss_y);
  let frame_size := shape_frame_size
    {| sp_width := width; sp_height := height; sp_ss_x := ss_x; sp_ss_y := ss_y; sp_highbitdepth := hbd;
       sp_border := border; sp_byte_alignment := byte_alignment; sp_y_only := false; sp_y_stride := y_stride;
       sp_uv_stride := uv_stride; sp_yplane_size := yplane_size; sp_uvplane_size := uvplane_size |} in
  if AOM_MAX_ALLOCABLE_MEMORY / REF_FRAMES <? frame_size then None else Some (frame_size + 31).

Record fb_dims := {
  fb_width : Z; fb_height : Z; fb_ss_x : Z; fb_ss_y : Z; fb_highbitdepth : bool; fb_border : Z; fb_byte_alignment : Z }.

Section Alloc.
Context `{Malloc}.

(** [aom_realloc_frame_buffer] of buffer [k] with the callback [av1_get_frame_buffer]:
    whether it succeeds. *)
Definition realloc_fb (d : fb_dims) (k : nat) (s : dec_state) : option (bool * dec_state) :=
  match fb_request (fb_width d) (fb_height d) (fb_ss_x d) (fb_ss_y d) (fb_highbitdepth d) (fb_border d) (fb_byte_alignment d) with
  | None => Some (false, s)
  | Some size =>
      b ← bufs s !! k;
      '(r, l, h) ← av1_get_frame_buffer (d_heap s) (ints s) size;
      let cb := fun _ => j ← r; fb ← int_fb l !! j; x ← ifb_data fb; Some (x, ifb_size fb) in
      '(err, y, h) ← aom_realloc_frame_buffer h (rc_buf b) (fb_width d) (fb_height d) (fb_ss_x d) (fb_ss_y d)
        (fb_highbitdepth d) (fb_border d) (fb_byte_alignment d) (Some cb) false;
      let b := match r with Some j => with_raw (Some j) b | None => b end in
      Some (bool_decide (err = AOM_CODEC_OK), with_heap h (with_bufs (<[k := with_buf y b]> (bufs s)) (with_ints l s)))
  end.

(** A reference whose order hint does not match is replaced by a new buffer; whether that
    succeeds. *)
Definition replace_missing_ref (d : fb_dims) (i : nat) (s : dec_state) : option (bool * dec_state) :=
  s ← drop_ref i s;
  let '(r, s) := get_free_fb s in
  match r with
  | None => Some (false, s)
  | Some k =>
      '(good, s) ← realloc_fb d k s;
      if good : bool then Some (true, with_map (<[i := Some k]> (ref_frame_map s)) s)
      else s ← decrease_ref_count (Some k) s; Some (false, s)
  end.

(** [av1_superres_upscale] on the decoder, with the copy of the frame at its coded size [c] and
    the frame at its upscaled size [d]; the samples are left out.  The block of the frame is
    given back before the larger one is asked for, and [raw_frame_buffer] is not cleared
    meanwhile; when there is none, the copy is not freed. *)
Inductive upscaling := Upscaled | NoCopy | NoFrame.

Definition av1_superres_upscale (c d : fb_dims) (s : dec_state) : option (upscaling * dec_state) :=
  k ← cur_frame s;
  '(err, copy_buffer, h) ← aom_alloc_frame_buffer (d_heap s) yv12_zero (fb_width c) (fb_height c) (fb_ss_x c) (fb_ss_y c)
    (fb_highbitdepth c) (fb_border c) (fb_byte_alignment c) false;
  let s := with_heap h s in
  if negb (bool_decide (err = AOM_CODEC_OK)) then Some (NoCopy, s) else
  b ← bufs s !! k;
  let s := with_ints (av1_release_frame_buffer (ints s) (raw_frame_buffer b)) s in
  '(good, s) ← realloc_fb d k s;
  if negb good then Some (NoFrame, s) else
  '(_, h) ← aom_free_frame_buffer (d_heap s) copy_buffer;
  Some (Upscaled, with_heap h s).

(** Memory for a copy with film grain: the write of the descriptor past the array is
    [None]; [synthesis] is whether the grain itself can be made. *)
Definition add_grain (size : Z) (synthesis : bool) (s : dec_state) : option (bool * dec_state) :=
  let num := Z.of_nat (length (grain_image_frame_buffers s)) in
  if MAX_NUM_SPATIAL_LAYERS <=? num then None else
  '(r, l, h) ← av1_get_frame_buffer (d_heap s) (ints s) size;
  let s := with_heap h (with_ints l s) in
  match r with
  | None => Some (false, s)
  | Some j =>
      if synthesis then Some (true, with_grain (grain_image_frame_buffers s ++ [j]) s)
      else Some (false, with_ints (av1_release_frame_buffer (ints s) (Some j)) s)
  end.
End Alloc.

(** ** The end of a frame *)

Definition release_current_frame (s : dec_state) : option dec_state :=
  k ← cur_frame s;
  s ← decrease_ref_count (Some k) s;
  Some (with_cur None s).

(** The loop over the bits of [refresh_frame_flags], from slot [ref_index]. *)
Fixpoint refresh_refs (fuel : nat) (mask : Z) (ref_index : nat) (k : nat) (s : dec_state) : option dec_state :=
  match fuel with
  | O => Some s
  | S fuel =>
      if mask =? 0 then Some s else
      s ← (if negb (Z.land mask 1 =? 0) then
             p ← ref_frame_map s !! ref_index;
             s ← decrease_ref_count p s;
             add_count 1 k (with_map (<[ref_index := Some k]> (ref_frame_map s)) s)
           else Some s);
      refresh_refs fuel (Z.shiftr mask 1) (S ref_index) k s
  end.

(** The error code, and the state.  [shown] is [show_existing_frame || show_frame]; the
    references are updated unless the header of a camera frame is kept. *)
Definition update_frame_buffers (frame_decoded camera_frame_header_ready shown : bool) (refresh_frame_flags : Z) (s : dec_state)
  : option (aom_codec_err_t * dec_state) :=
  k ← cur_frame s;
  '(err, s) ←
    (if frame_decoded then
       s ← (if negb camera_frame_header_ready then refresh_refs 31 refresh_frame_flags 0 k s else Some s);
       if shown then
         if output_all_layers s then
           if MAX_NUM_SPATIAL_LAYERS <=? Z.of_nat (length (output_frames s)) then
             s ← decrease_ref_count (Some k) s; Some (AOM_CODEC_UNSUP_BITSTREAM, s)
           else Some (AOM_CODEC_OK, with_outputs (output_frames s ++ [k]) s)
         else
           s ← decrease_ref_count (head (output_frames s)) s;
           Some (AOM_CODEC_OK, with_outputs [k] s)
       else s ← decrease_ref_count (Some k) s; Some (AOM_CODEC_OK, s)
     else s ← decrease_ref_count (Some k) s; Some (AOM_CODEC_OK, s));
  Some (err, with_cur None s).

Fixpoint decrease_all (ks : list nat) (s : dec_state) : option dec_state :=
  match ks with [] => Some s | k :: ks => s ← decrease_ref_count (Some k) s; decrease_all ks s end.

Fixpoint release_all (js : list nat) (l : InternalFrameBufferList) : InternalFrameBufferList :=
  match js with [] => l | j :: js => release_all js (av1_release_frame_buffer l (Some j)) end.

Definition release_pending_output_frames (s : dec_state) : option dec_state :=
  s ← decrease_all (output_frames s) s;
  let s := with_outputs [] s in
  Some (with_grain [] (with_ints (release_all (grain_image_frame_buffers s) (ints s)) s)).

(** ** A decoder's life *)

(** The pool of [init_decoder] and the map of [av1_decoder_create], once the array of the
    internal buffers is there. *)
Definition init_state (h : heap) (l : InternalFrameBufferList) (layers : bool) (f : F) : dec_state :=
  {| d_heap := h;
     d_pool := {| frame_bufs := replicate (Z.to_nat FRAME_BUFFERS) {| ref_count := 0; raw_frame_buffer := None; rc_buf := yv12_zero; rc_frame := f |};
                  int_frame_buffers := l |};
     ref_frame_map := replicate (Z.to_nat REF_FRAMES) None; cur_frame := None; output_frames := []; output_all_layers := layers;
     grain_image_frame_buffers := [] |}.

(** Between the calls of the application; in [decoder_decode] with no frame; after
    [assign_cur_frame_new_fb]; with an existing frame to show; with memory for the frame;
    when the frame has lost its memory in upscaling, until it is given up. *)
Inductive phase := Reading | Calling | InHeader | Shown | InFrame | Failing.

#[export] Instance phase_eq_dec : EqDecision phase.
Proof. solve_decision. Defined.

(** The sizes the headers and the controls let through. *)
Definition dims_ok (d : fb_dims) : Prop :=
  frame_dims (fb_width d) (fb_height d) (fb_ss_x d) (fb_ss_y d) (fb_border d) (fb_byte_alignment d).

Definition started (ph : phase) : Prop := ph = InHeader \/ ph = Shown \/ ph = InFrame.

Section Steps.
Context `{Malloc}.

(** The calls of [decoder_decode], [av1_receive_compressed_data],
    [read_uncompressed_header] and [superres_post_decode] on the pool, and
    [decoder_get_frame] of a frame with grain, which may be read again as long as the
    descriptor fits the array ([add_grain] is not defined past it). *)
Inductive step : phase * dec_state -> phase * dec_state -> Prop :=
  | Call s s' : release_pending_output_frames s = Some s' -> step (Reading, s) (Calling, s')
  | Return s : step (Calling, s) (Reading, s)
  | Start s k s' : assign_cur_frame_new_fb s = Some (Some k, s') -> step (Calling, s) (InHeader, s')
  | StartFails s s' : assign_cur_frame_new_fb s = Some (None, s') -> step (Calling, s) (Calling, s')
  | ResetMap ph s s' : ph = InHeader \/ ph = Shown -> reset_ref_frame_map s = Some s' -> step (ph, s) (ph, s')
  | Missing d i s good s' : dims_ok d -> Z.of_nat i < REF_FRAMES -> replace_missing_ref d i s = Some (good, s') -> step (InHeader, s) (InHeader, s')
  | ShowExisting i r s s' : ref_frame_map s !! i = Some (Some r) -> assign_cur_frame r s = Some s' -> step (InHeader, s) (Shown, s')
  | Fields ph k g s s' : started ph -> set_frame k g s = Some s' -> step (ph, s) (ph, s')
  | Setup d k s good s' : dims_ok d -> cur_frame s = Some k -> realloc_fb d k s = Some (good, s') -> step (InHeader, s) (InFrame, s')
  | Upscale c d s r s' : dims_ok c -> dims_ok d -> av1_superres_upscale c d s = Some (r, s') ->
      step (InFrame, s) (match r with NoFrame => Failing | _ => InFrame end, s')
  | GiveUp s s' : release_current_frame s = Some s' -> step (Failing, s) (Calling, s')
  | Error ph s s' : started ph -> release_current_frame s = Some s' -> step (ph, s) (Calling, s')
  | Finish ph decoded camera shown flags s err s' : started ph -> 0 <= flags < 2 ^ REF_FRAMES ->
      update_frame_buffers decoded camera shown flags s = Some (err, s') -> step (ph, s) (Calling, s')
  | Grain size synthesis s good s' : 0 < size ->
      add_grain size synthesis s = Some (good, s') -> step (Reading, s) (Reading, s').

(** The states of a decoder, from its first call on. *)
Inductive reachable (f : F) : phase -> dec_state -> Prop :=
  | Init h0 l h layers : av1_alloc_internal_frame_buffers h0 {| int_fb_array := None; int_fb := [] |} = Some (0, l, h) ->
      reachable f Calling (init_state h l layers f)
  | Next ph s ph' s' : reachable f ph s -> step (ph, s) (ph', s') -> reachable f ph' s'.
End Steps.
End Pool.

Arguments RefCntBuffer : clear implicits.
Arguments BufferPool : clear implicits.
Arguments dec_state : clear implicits.
