(* ===== verification/BufferPoolProof.v ===== *)
(** * References are counted exactly

    The comment above [RefCntBuffer] in [av1/common/av1_common_int.h] says that the count of a
    buffer is the number of variables that hold it.  Every operation of the decoder keeps
    this, each of the blocks of memory in use belongs to one frame, and neither the
    buffers nor the blocks run out. *)

From stdpp Require Import gmap.
From S2P Require Import Prelude CodecTypes Mem Yv12 FrameBuffers BufferPool.

Section Proof.
Context {F : Type} `{MallocOk}.
Implicit Types (s : dec_state F) (bs : list (RefCntBuffer F)) (P L : list nat).

Definition count (P : list nat) (k : nat) : Z := Z.of_nat (count_occ Nat.eq_dec P k).

(** ** Accounts *)

(** The counts of [bs] are those of the list [P] of pointers. *)
Definition exact bs P : Prop :=
  Forall (fun k => (k < length bs)%nat) P /\ forall k b, bs !! k = Some b -> ref_count b = count P k.

(** Blocks in use belong to one frame or to one copy with grain, and frames nobody holds
    have none. *)
Definition raws bs : list nat := omap raw_frame_buffer bs.
Record memory bs (l : InternalFrameBufferList) (G : list nat) : Prop := {
  me_once : NoDup (raws bs ++ G);
  me_used j : in_use (int_fb l) j <-> j ∈ raws bs ++ G;
  me_free k b : bs !! k = Some b -> ref_count b = 0 -> raw_frame_buffer b = None }.

(** The address and the size of a block. *)
Definition block (l : InternalFrameBufferList) (j : nat) : option (Z * Z) :=
  e ← int_fb l !! j; x ← ifb_data e; Some (x, ifb_size e).

(** The planes of every frame lie in its block. *)
Definition frame_in (y : YV12_BUFFER_CONFIG) (x size : Z) : Prop :=
  exists a yb ub vb, buffer_alloc y = Some a /\ x <= a /\ a + yv_frame_size y <= x + size /\ planes_inside y a (a + yv_frame_size y) yb ub vb.
Definition placed bs (l : InternalFrameBufferList) : Prop := forall k b j, bs !! k = Some b -> raw_frame_buffer b = Some j ->
  exists x size, block l j = Some (x, size) /\ frame_in (rc_buf b) x size.

(** The pointers of the decoder. *)
Definition holders s : list nat := omap id (ref_frame_map s) ++ option_list (cur_frame s) ++ output_frames s.

(** The pool is right when the pointers in [L] are held besides. *)
Record acct s L : Prop := {
  ac_lens : length (bufs s) = 16%nat /\ length (ref_frame_map s) = 8%nat /\ length (int_fb (ints s)) = 16%nat;
  ac_exact : exact (bufs s) (holders s ++ L);
  ac_mem : memory (bufs s) (ints s) (grain_image_frame_buffers s);
  ac_heap : ifbs_ok (d_heap s) (int_fb (ints s));
  ac_placed : placed (bufs s) (ints s) }.

(** The variables other than the pool are the same. *)
Definition same_vars s s' : Prop :=
  ref_frame_map s' = ref_frame_map s /\ cur_frame s' = cur_frame s /\ output_frames s' = output_frames s /\
  output_all_layers s' = output_all_layers s /\ grain_image_frame_buffers s' = grain_image_frame_buffers s.

Lemma same_vars_holders s s' : same_vars s s' -> holders s' = holders s.
Proof. intros (Em & Ec & Eo & _). unfold holders. by rewrite Em, Ec, Eo. Qed.

Lemma count_perm P P' k : P ≡ₚ P' -> count P k = count P' k.
Proof. intros Hp. unfold count. by rewrite (proj1 (Permutation_count_occ Nat.eq_dec P P') Hp). Qed.

Lemma count_app P P' k : count (P ++ P') k = count P k + count P' k.
Proof. unfold count. rewrite count_occ_app. lia. Qed.

Lemma count_cons P k j : count (k :: P) j = (if decide (k = j) then 1 else 0) + count P j.
Proof. unfold count. cbn [count_occ]. destruct (Nat.eq_dec k j), (decide (k = j)); try done; lia. Qed.

Lemma count_nonneg P k : 0 <= count P k.
Proof. unfold count. lia. Qed.

Lemma count_zero P k : count P k = 0 <-> k ∉ P.
Proof. unfold count. rewrite list_elem_of_In, (count_occ_not_In Nat.eq_dec P k). lia. Qed.

Lemma exact_perm bs P P' : P ≡ₚ P' -> exact bs P -> exact bs P'.
Proof.
  intros Hp [Hr Hc]. split; [by rewrite <- Hp |]. intros k b Hb. rewrite (Hc k b Hb). by apply count_perm.
Qed.

(** Pointers move from one variable to another. *)
Lemma acct_move s s' L L' : acct s L -> bufs s' = bufs s -> ints s' = ints s -> d_heap s' = d_heap s ->
  grain_image_frame_buffers s' = grain_image_frame_buffers s -> length (ref_frame_map s') = 8%nat ->
  holders s' ++ L' ≡ₚ holders s ++ L -> acct s' L'.
Proof.
  intros [(Lb & _ & Li) He Hm Hh Hp'] Eb Ei Eh Eg Em Hp. split.
  - by rewrite Eb, Ei.
  - rewrite Eb. by apply (exact_perm _ (holders s ++ L)).
  - by rewrite Eb, Ei, Eg.
  - by rewrite Ei, Eh.
  - by rewrite Eb, Ei.
Qed.

(** ** One buffer changed *)

Lemma split_at {A} (l : list A) k x : l !! k = Some x -> exists l1 l2, l = l1 ++ x :: l2 /\ length l1 = k /\ forall y, <[k := y]> l = l1 ++ y :: l2.
Proof.
  intros Hk. apply list_elem_of_split_length in Hk as (l1 & l2 & -> & ->). exists l1, l2. split_and!; [done | done |]. intros y. by rewrite insert_app_r_alt, Nat.sub_diag by lia.
Qed.

Lemma raws_insert bs k b b' : bs !! k = Some b ->
  raws bs ≡ₚ option_list (raw_frame_buffer b) ++ raws (<[k := with_raw None b']> bs) /\
  raws (<[k := b']> bs) ≡ₚ option_list (raw_frame_buffer b') ++ raws (<[k := with_raw None b']> bs).
Proof.
  intros Hb. destruct (split_at bs k b Hb) as (l1 & l2 & -> & _ & E). unfold raws. rewrite !E, !omap_app.
  cbn [omap list_omap raw_frame_buffer with_raw]. split; [destruct (raw_frame_buffer b) | destruct (raw_frame_buffer b')]; cbn; try done; by rewrite Permutation_middle.
Qed.

(** A count changed by what [P] changes. *)
Lemma exact_insert bs P P' k b b' : exact bs P -> bs !! k = Some b -> Forall (fun j => (j < length bs)%nat) P' ->
  (forall j, j <> k -> count P' j = count P j) -> ref_count b' = count P' k -> exact (<[k := b']> bs) P'.
Proof.
  intros [_ Hc] Hb Hr Ho Hk. split; [by rewrite length_insert |]. intros j c. destruct (decide (k = j)) as [<- | Hne].
  - rewrite list_lookup_insert_eq by (by eapply lookup_lt_Some). by intros [= <-].
  - rewrite list_lookup_insert_ne by done. intros Hj. rewrite (Hc j c Hj). symmetry. by apply Ho.
Qed.

(** The memory does not change with a count. *)
Lemma memory_count bs l G k b n : memory bs l G -> bs !! k = Some b -> (n = 0 -> raw_frame_buffer b = None) ->
  memory (<[k := with_count n b]> bs) l G.
Proof.
  intros [Ho Hu Hf] Hb Hn. assert (raws (<[k := with_count n b]> bs) = raws bs) as E.
  { destruct (split_at bs k b Hb) as (l1 & l2 & -> & _ & E). unfold raws. by rewrite E, !omap_app. }
  split; [by rewrite E | intros j; by rewrite E |]. intros j c. destruct (decide (k = j)) as [<- |].
  - rewrite list_lookup_insert_eq by (by eapply lookup_lt_Some). intros [= <-]. exact Hn.
  - rewrite list_lookup_insert_ne by done. apply Hf.
Qed.

Lemma in_use_release l i j : in_use (int_fb (av1_release_frame_buffer l (Some i))) j <-> in_use (int_fb l) j /\ j <> i.
Proof.
  unfold in_use. cbn [av1_release_frame_buffer int_fb with_int_fb]. destruct (decide (i = j)) as [<- | Hne].
  - rewrite list_lookup_alter_eq. split; [| by intros [_ ?]]. intros (b & Hb & Hu). destruct (int_fb l !! i); [| done]. by injection Hb as <-.
  - rewrite list_lookup_alter_ne by done. split; [by intros ? | by intros [? _]].
Qed.

(** The memory of a frame is given back. *)
Lemma memory_release bs l G k b n j : memory bs l G -> bs !! k = Some b -> raw_frame_buffer b = Some j ->
  memory (<[k := with_raw None (with_count n b)]> bs) (av1_release_frame_buffer l (Some j)) G.
Proof.
  intros [Ho Hu Hf] Hb Hj. destruct (raws_insert bs k b (with_count n b) Hb) as [E _]. rewrite Hj in E. change (option_list (Some j)) with [j] in E. cbn [app] in E.
  split.
  - rewrite E in Ho. cbn [app] in Ho. by apply list.NoDup_cons in Ho as [_ ?].
  - intros i. rewrite in_use_release, Hu, E. cbn [app]. rewrite E in Ho. cbn [app] in Ho. apply list.NoDup_cons in Ho as [Hni _].
    rewrite elem_of_cons. split; [intros [[-> |] ?]; done |]. intros Hi. split; [by right |]. by intros ->.
  - intros i c. destruct (decide (k = i)) as [<- |].
    + rewrite list_lookup_insert_eq by (by eapply lookup_lt_Some). by intros [= <-].
    + rewrite list_lookup_insert_ne by done. apply Hf.
Qed.

Lemma placed_frame bs bs' l l' : placed bs l ->
  (forall k b j, bs' !! k = Some b -> raw_frame_buffer b = Some j ->
     (exists b', bs !! k = Some b' /\ raw_frame_buffer b' = Some j /\ rc_buf b' = rc_buf b) /\ block l' j = block l j) -> placed bs' l'.
Proof.
  intros Hp Hk k b j Hb Hj. destruct (Hk k b j Hb Hj) as [(b' & Hb' & Hj' & <-) ->]. by apply (Hp k).
Qed.

Lemma placed_insert bs l k b b' : placed bs l -> bs !! k = Some b -> (raw_frame_buffer b' = raw_frame_buffer b \/ raw_frame_buffer b' = None) ->
  rc_buf b' = rc_buf b -> placed (<[k := b']> bs) l.
Proof.
  intros Hp Hb Hr Hy. apply (placed_frame _ _ _ _ Hp). intros i c j. destruct (decide (k = i)) as [<- |].
  - rewrite list_lookup_insert_eq by (by eapply lookup_lt_Some). intros [= <-] Hj. split; [| done]. exists b. split_and!; [done | | done].
    destruct Hr; congruence.
  - rewrite list_lookup_insert_ne by done. eauto.
Qed.

Lemma block_release l i j : block (av1_release_frame_buffer l (Some i)) j = block l j.
Proof.
  unfold block. cbn [av1_release_frame_buffer int_fb with_int_fb]. destruct (decide (i = j)) as [<- |]; [| by rewrite list_lookup_alter_ne].
  rewrite list_lookup_alter_eq. by destruct (int_fb l !! i).
Qed.

Lemma placed_release bs l i : placed bs l -> placed bs (av1_release_frame_buffer l (Some i)).
Proof. intros Hp. apply (placed_frame _ _ _ _ Hp). intros k b j Hb Hj. rewrite block_release. eauto. Qed.

(** A block belongs to one frame. *)
Lemma raws_unique bs l G k b j : memory bs l G -> bs !! k = Some b -> raw_frame_buffer b = Some j ->
  in_use (int_fb l) j /\ (forall k' b', bs !! k' = Some b' -> raw_frame_buffer b' = Some j -> k' = k) /\ j ∉ G.
Proof.
  intros [Ho Hu _] Hb Hj. destruct (raws_insert bs k b b Hb) as [E _]. rewrite Hj in E. change (option_list (Some j)) with [j] in E. cbn [app] in E.
  rewrite E in Ho. cbn [app] in Ho. apply list.NoDup_cons in Ho as [Hni _]. rewrite not_elem_of_app in Hni. destruct Hni as [Hni Hg]. split_and!; [| | done].
  - apply Hu. rewrite E. cbn [app]. apply elem_of_cons. by left.
  - intros k' b' Hb' Hj'. destruct (decide (k' = k)) as [| Hne]; [done |]. exfalso. apply Hni. apply list_elem_of_omap. exists b'. split; [| done].
    apply (list_elem_of_lookup_2 _ k'). by rewrite list_lookup_insert_ne.
Qed.

(** ** The operations on one reference *)

Definition no_raw s (k : nat) : Prop := forall b, bufs s !! k = Some b -> raw_frame_buffer b = None.

(** The variables stay and no frame comes by memory. *)
Definition keeps s s' : Prop := same_vars s s' /\ forall i, no_raw s i -> no_raw s' i.

Lemma keeps_refl s : keeps s s.
Proof. split; [by unfold same_vars | done]. Qed.

Lemma keeps_trans s s1 s2 : keeps s s1 -> keeps s1 s2 -> keeps s s2.
Proof.
  intros [(A1 & A2 & A3 & A4 & A5) A] [(B1 & B2 & B3 & B4 & B5) B]. split; [| auto]. unfold same_vars. split_and!; congruence.
Qed.

Lemma keeps_insert s k b : (no_raw s k -> raw_frame_buffer b = None) -> keeps s (with_bufs (<[k := b]> (bufs s)) s).
Proof.
  intros Hb. split; [by unfold same_vars |]. intros i Hi c. cbn. destruct (decide (k = i)) as [<- | Hne].
  - destruct (decide (k < length (bufs s))%nat).
    + rewrite list_lookup_insert_eq by done. intros [= <-]. auto.
    + rewrite list_insert_ge by lia. apply Hi.
  - rewrite list_lookup_insert_ne by done. apply Hi.
Qed.

(** With fewer references than buffers one of them is free. *)
Lemma exact_free bs P : exact bs P -> (length P < length bs)%nat -> exists k b, list_find (fun b => ref_count b = 0) bs = Some (k, b).
Proof.
  intros [Hr Hc] Hl. destruct (list_find _ bs) as [[k b] |] eqn:Ef; [eauto |]. exfalso. apply list_find_None in Ef.
  assert (incl (seq 0 (length bs)) P) as Hi.
  { intros k Hk. apply in_seq in Hk. destruct (lookup_lt_is_Some_2 bs k ltac:(lia)) as [b Hb].
    rewrite Forall_lookup in Ef. specialize (Ef k b Hb). rewrite (Hc k b Hb), count_zero in Ef. apply list_elem_of_In. by destruct (decide (k ∈ P)). }
  apply NoDup_incl_length in Hi; [| apply seq_NoDup]. rewrite length_seq in Hi. lia.
Qed.

Lemma get_free_ok s L : acct s L -> (length (holders s ++ L) < 16)%nat ->
  exists k s', get_free_fb s = (Some k, s') /\ acct s' (k :: L) /\ (k ∉ holders s ++ L) /\ keeps s s' /\ no_raw s' k.
Proof.
  intros [(Lb & Lm & Li) He Hm Hh Hp] Hl. destruct (exact_free _ _ He) as (k & b & Ef); [lia |]. unfold get_free_fb. rewrite Ef.
  apply list_find_Some in Ef as (Hb & Hz & _). pose proof He as [Hr Hc]. rewrite (Hc k b Hb) in Hz. pose proof (lookup_lt_Some _ _ _ Hb) as Hlt.
  assert (raw_frame_buffer b = None) as Hn by (apply (me_free _ _ _ Hm k b Hb); by rewrite (Hc k b Hb)).
  eexists k, _. split; [done |]. split_and!; [| by apply count_zero | by apply keeps_insert |].
  - split; [cbn; by rewrite length_insert | | cbn; by apply memory_count | done | apply (placed_insert _ _ k b); auto].
    change (holders (with_bufs _ s)) with (holders s). cbn [bufs frame_bufs d_pool with_bufs with_pool]. apply (exact_insert _ (holders s ++ L) _ k b); [done | done | | |].
    + apply Forall_app in Hr as [? ?]. apply Forall_app. split; [done |]. by apply Forall_cons.
    + intros j Hj. rewrite !count_app, count_cons, decide_False by done. lia.
    + cbn [ref_count with_count]. rewrite count_app in *. rewrite count_cons, decide_True by done. lia.
  - intros c. cbn. rewrite list_lookup_insert_eq by done. by intros [= <-].
Qed.

Lemma exact_down bs P k b : exact bs (k :: P) -> bs !! k = Some b -> forall b', ref_count b' = ref_count b - 1 -> exact (<[k := b']> bs) P.
Proof.
  intros He Hb b' Hb'. pose proof He as [Hr Hc]. apply (exact_insert _ (k :: P) _ k b); [done | done | by inversion Hr | |].
  - intros j Hj. rewrite count_cons, decide_False by done. lia.
  - rewrite Hb', (Hc k b Hb), count_cons, decide_True by done. lia.
Qed.

(** A reference let go. *)
Lemma decrease_ok s L k : acct s (k :: L) -> exists s', decrease_ref_count (Some k) s = Some s' /\ acct s' L /\ keeps s s'.
Proof.
  intros [(Lb & Lm & Li) He Hm Hh Hp]. apply (exact_perm _ _ (k :: holders s ++ L)) in He; [| by rewrite Permutation_middle].
  pose proof He as [Hr Hc]. apply Forall_inv in Hr as Hk. destruct (lookup_lt_is_Some_2 (bufs s) k ltac:(lia)) as [b Hb].
  pose proof (exact_down _ _ _ _ He Hb) as Hd. unfold decrease_ref_count. rewrite Hb. cbn [mbind option_bind].
  cbn [raw_frame_buffer with_count ref_count]. destruct (raw_frame_buffer b) as [j |] eqn:Ej; [destruct (Z.eqb_spec (ref_count b - 1) 0) as [Hz | Hz] |];
    (eexists; split; [done |]; split).
  - split; [| | by apply memory_release | by apply release_ok | apply (placed_insert _ _ k b); [by apply placed_release | done | by right | done]].
    + cbn -[av1_release_frame_buffer]. rewrite length_insert. split_and!; [done | done |]. cbn. by rewrite length_alter.
    + cbn -[av1_release_frame_buffer]. by apply Hd.
  - split; [by unfold same_vars |]. by apply (keeps_insert s k).
  - split; [cbn; by rewrite length_insert | by apply Hd | by apply memory_count | done | apply (placed_insert _ _ k b); auto].
  - apply keeps_insert. intros Hn. specialize (Hn b Hb). congruence.
  - split; [cbn; by rewrite length_insert | by apply Hd | by apply memory_count | done | apply (placed_insert _ _ k b); auto].
  - by apply keeps_insert.
Qed.

Lemma decrease_opt s L p : acct s (option_list p ++ L) -> exists s', decrease_ref_count p s = Some s' /\ acct s' L /\ keeps s s'.
Proof. destruct p as [k |]; [apply decrease_ok |]. intros Ha. exists s. split_and!; [done | done | apply keeps_refl]. Qed.

(** A reference taken besides one there is. *)
Lemma add_ok s L k : acct s L -> k ∈ holders s ++ L -> exists s', add_count 1 k s = Some s' /\ acct s' (k :: L) /\ keeps s s'.
Proof.
  intros [(Lb & Lm & Li) He Hm Hh Hp] Hk. pose proof He as [Hr Hc]. rewrite list.Forall_forall in Hr. pose proof (Hr k Hk) as Hlt.
  destruct (lookup_lt_is_Some_2 (bufs s) k Hlt) as [b Hb]. unfold add_count. rewrite Hb. cbn [mbind option_bind].
  eexists. split; [done |]. split.
  - pose proof (count_nonneg (holders s ++ L) k). split; [cbn; by rewrite length_insert | | apply memory_count; [done | done |]; rewrite (Hc k b Hb); lia | done | apply (placed_insert _ _ k b); auto].
    change (holders (with_bufs _ s)) with (holders s). cbn [bufs frame_bufs d_pool with_bufs with_pool]. apply (exact_insert _ (holders s ++ L) _ k b); [done | done | | |].
    + rewrite list.Forall_forall. intros j. rewrite !elem_of_app, elem_of_cons. intros [Hj | [-> | Hj]]; [| done |]; apply Hr; rewrite elem_of_app; auto.
    + intros j Hj. rewrite !count_app, count_cons, decide_False by done. lia.
    + cbn [ref_count with_count]. rewrite (Hc k b Hb), !count_app, count_cons, decide_True by done. lia.
  - apply keeps_insert. intros Hn. exact (Hn b Hb).
Qed.

(** A frame without memory let go without [decrease_ref_count]. *)
Lemma drop_ok s L k : acct s (k :: L) -> no_raw s k -> exists s', add_count (-1) k s = Some s' /\ acct s' L /\ keeps s s'.
Proof.
  intros [(Lb & Lm & Li) He Hm Hh Hp] Hn. apply (exact_perm _ _ (k :: holders s ++ L)) in He; [| by rewrite Permutation_middle].
  pose proof He as [Hr Hc]. apply Forall_inv in Hr as Hk. destruct (lookup_lt_is_Some_2 (bufs s) k ltac:(lia)) as [b Hb].
  unfold add_count. rewrite Hb. cbn [mbind option_bind]. eexists. split; [done |]. split.
  - split; [cbn; by rewrite length_insert | | apply memory_count; [done | done | intros _; exact (Hn b Hb)] | done | apply (placed_insert _ _ k b); auto].
    by apply (exact_down _ _ _ _ He Hb).
  - apply keeps_insert. intros _. exact (Hn b Hb).
Qed.

(** ** Memory for a frame *)

(** The blocks in use are no more than the references and the copies. *)
Lemma raws_owners bs : exists K, length K = length (raws bs) /\ NoDup K /\ forall k, k ∈ K -> exists b, bs !! k = Some b /\ is_Some (raw_frame_buffer b).
Proof.
  induction bs as [| b bs (K & El & Hn & Hk)] using rev_ind; [exists []; split_and!; [done | constructor | set_solver] |].
  assert (forall k, k ∈ K -> exists c, (bs ++ [b]) !! k = Some c /\ is_Some (raw_frame_buffer c)) as Hk'.
  { intros k Hin. destruct (Hk k Hin) as (c & Hc & ?). exists c. split; [by apply lookup_app_l_Some | done]. }
  unfold raws in *. rewrite omap_app, length_app, <- El. cbn. destruct (raw_frame_buffer b) as [j |] eqn:Ej; cbn.
  - exists (length bs :: K). split_and!; [cbn; lia | |].
    + apply list.NoDup_cons. split; [| done]. intros Hin. destruct (Hk _ Hin) as (c & Hc & _). apply lookup_lt_Some in Hc. lia.
    + intros k [-> | Hin]%elem_of_cons; [| auto]. exists b. by rewrite list_lookup_middle.
  - exists K. split_and!; [lia | done | done].
Qed.

Lemma raws_le bs P l G : exact bs P -> memory bs l G -> (length (raws bs) <= length P)%nat.
Proof.
  intros [_ Hc] Hm. destruct (raws_owners bs) as (K & <- & Hn & Hk). apply NoDup_incl_length; [by apply NoDup_ListNoDup |].
  intros k Hin. apply list_elem_of_In in Hin. destruct (Hk k Hin) as (b & Hb & [j Hj]). apply list_elem_of_In.
  destruct (decide (k ∈ P)) as [| Hno]; [done |]. apply count_zero in Hno. rewrite <- (Hc k b Hb) in Hno.
  pose proof (me_free _ _ _ Hm k b Hb Hno). congruence.
Qed.

(** While they are fewer than the blocks, one is not in use. *)
Lemma block_left bs P l G n : exact bs P -> memory bs l G -> length (int_fb l) = n -> (length P + length G < n)%nat ->
  ~ forall j, (j < length (int_fb l))%nat -> in_use (int_fb l) j.
Proof.
  intros He Hm Hl Hn Hall. pose proof (raws_le _ _ _ _ He Hm). assert (incl (seq 0 n) (raws bs ++ G)) as Hi.
  { intros j Hj. apply in_seq in Hj. apply list_elem_of_In, (me_used _ _ _ Hm), Hall. lia. }
  apply NoDup_incl_length in Hi; [| apply seq_NoDup]. rewrite length_seq, length_app in Hi. lia.
Qed.

Lemma in_use_get l size i l' h' : get_spec l size (Some i) l' h' -> ~ in_use (int_fb l) i /\ forall j, in_use (int_fb l') j <-> in_use (int_fb l) j \/ j = i.
Proof.
  intros (_ & _ & _ & (b & Hb & Hu) & (x & sz & Hi & _) & Ho). split.
  - intros (c & Hc & Hcu). congruence.
  - intros j. destruct (decide (j = i)) as [-> | Hne]; unfold in_use; [| rewrite Ho by done; tauto]. split; [by right | intros _; eauto].
Qed.

Lemma block_get l size r l' h' j : get_spec l size r l' h' -> in_use (int_fb l) j -> block l' j = block l j.
Proof. intros (_ & _ & Hu & _) Hj. unfold block. by rewrite Hu. Qed.

Lemma placed_get bs l G size r l' h' : memory bs l G -> placed bs l -> get_spec l size r l' h' -> placed bs l'.
Proof.
  intros Hm Hp Hg. apply (placed_frame _ _ _ _ Hp). intros k b j Hb Hj. split; [eauto |]. apply (block_get _ _ _ _ _ _ Hg), (me_used _ _ _ Hm).
  apply elem_of_app. left. apply list_elem_of_omap. exists b. split; [by eapply list_elem_of_lookup_2 | done].
Qed.

Lemma memory_same bs l l' G : memory bs l G -> (forall j, in_use (int_fb l') j <-> in_use (int_fb l) j) -> memory bs l' G.
Proof. intros [Ho Hu Hf] Hs. split; [done | intros j; by rewrite Hs | done]. Qed.

(** A block for buffer [k]. *)
Lemma memory_take bs l G size i l' h' k b b' : memory bs l G -> get_spec l size (Some i) l' h' -> bs !! k = Some b ->
  raw_frame_buffer b = None -> raw_frame_buffer b' = Some i -> ref_count b' <> 0 -> memory (<[k := b']> bs) l' G.
Proof.
  intros [Ho Hu Hf] Hg Hb Hn Hi Hc. destruct (in_use_get _ _ _ _ _ Hg) as [Hni Hj]. destruct (raws_insert bs k b b' Hb) as [E1 E2].
  rewrite Hn in E1. rewrite Hi in E2. change (option_list None) with (@nil nat) in E1. change (option_list (Some i)) with [i] in E2. cbn [app] in E1, E2. rewrite <- E1 in E2.
  split.
  - rewrite E2. cbn [app]. apply list.NoDup_cons. split; [by rewrite <- Hu | done].
  - intros j. rewrite Hj, Hu, E2. cbn [app]. rewrite elem_of_cons. tauto.
  - intros j c. destruct (decide (k = j)) as [<- |].
    + rewrite list_lookup_insert_eq by (by eapply lookup_lt_Some). by intros [= <-].
    + rewrite list_lookup_insert_ne by done. apply Hf.
Qed.

Definition fb_shape (d : fb_dims) : yv_shape :=
  dims_shape (fb_width d) (fb_height d) (fb_ss_x d) (fb_ss_y d) (fb_border d) (fb_byte_alignment d) (fb_highbitdepth d).

Lemma fb_request_shape d : dims_ok d -> fb_request (fb_width d) (fb_height d) (fb_ss_x d) (fb_ss_y d) (fb_highbitdepth d) (fb_border d) (fb_byte_alignment d) =
  if AOM_MAX_ALLOCABLE_MEMORY / REF_FRAMES <? shape_frame_size (fb_shape d) then None else Some (shape_frame_size (fb_shape d) + 31).
Proof.
  intros Hd. destruct (fd_ss _ _ _ _ _ _ Hd) as [Hx Hy], (fd_border _ _ _ _ _ _ Hd) as [Hbo Hbm].
  pose proof (shape_sizes _ _ _ _ _ _ (fb_highbitdepth d) Hd) as (Sy & Su & _). unfold fb_request, calc_stride_and_planesize, fb_shape. cbv zeta.
  rewrite !align_8, y_stride_eq, !shiftr_01 by done. change (Z.land (fb_border d) 31) with (Z.land (fb_border d) (Z.ones 5)).
  rewrite Z.land_ones by lia. change (2 ^ 5) with 32. rewrite Hbm. cbn [Z.eqb negb]. unfold dims_shape in *.
  cbn [sp_yplane_size sp_uvplane_size] in *. change (2 ^ 33) with 8589934592 in *. cbn [mbind option_bind].
  rewrite !(u64_small (_ + fb_byte_alignment d)) by (change (2 ^ 64) with 18446744073709551616; lia). done.
Qed.

(** Why no memory is given in a state: the frame is too large, or a block of the list is not
    in use and the C library refuses memory for it. *)
Definition no_memory (d : fb_dims) s : Prop :=
  AOM_MAX_ALLOCABLE_MEMORY / REF_FRAMES < shape_frame_size (fb_shape d) \/
  refused (d_heap s) (ints s) (shape_frame_size (fb_shape d) + 31).

(** A block large enough holds the frame. *)
Lemma realloc_given d h y x size : dims_ok d -> shape_frame_size (fb_shape d) <= AOM_MAX_ALLOCABLE_MEMORY / REF_FRAMES ->
  shape_frame_size (fb_shape d) + 31 <= size -> 0 < x -> x + size < 2 ^ 64 ->
  exists y', realloc_frame_buffer_aligned h y (fb_shape d) (Some (fun _ => Some (x, size))) = Some (AOM_CODEC_OK, y', h) /\ frame_in y' x size.
Proof.
  intros Hd Hbig Hs Hx0 Hend. set (cb := fun _ : Z => Some (x, size)).
  assert (realloc_frame_buffer_aligned h y (fb_shape d) (Some cb) = Some (AOM_CODEC_OK, place_planes (fb_shape d) (aom_align_addr x 32) (buffer_alloc_sz y), h)) as E.
  { unfold realloc_frame_buffer_aligned, cb. cbv zeta. rewrite (proj2 (Z.ltb_ge _ _)), (proj2 (Z.ltb_ge size _)), (proj2 (Z.eqb_neq _ _)) by lia. done. }
  rewrite E. eexists. split; [done |]. pose proof (realloc_shape _ _ _ _ _ _ (fb_highbitdepth d) Hd h y (Some cb)) as E2. fold (fb_shape d) in E2. rewrite E in E2.
  apply realloc_external with (data := x) (size := size) in E2; [| done | done | lia | done]. destruct E2 as [_ E2]. destruct (E2 eq_refl) as (a & yb & ub & vb & ?).
  by exists a, yb, ub, vb.
Qed.

Lemma realloc_fb_ok d s L k : acct s L -> dims_ok d -> k ∈ holders s ++ L -> no_raw s k -> (length (holders s ++ L) + length (grain_image_frame_buffers s) < 16)%nat ->
  exists good s', realloc_fb d k s = Some (good, s') /\ acct s' L /\ same_vars s s' /\ (forall i, i <> k -> no_raw s i -> no_raw s' i) /\
    (good = false -> no_memory d s /\ no_raw s' k /\ forall j, in_use (int_fb (ints s')) j -> in_use (int_fb (ints s)) j).
Proof.
  intros [(Lb & Lm & Li) He Hm Hh Hp] Hd Hk Hn Hlen. unfold realloc_fb. rewrite (fb_request_shape d Hd). pose proof (shape_frame_pos _ _ _ _ _ _ (fb_highbitdepth d) Hd) as Hpos.
  fold (fb_shape d) in Hpos. destruct (Z.ltb_spec (AOM_MAX_ALLOCABLE_MEMORY / REF_FRAMES) (shape_frame_size (fb_shape d))) as [Hbig | Hbig].
  { exists false, s. split_and!; [done | by split | by unfold same_vars | done | intros _; split_and!; [by left | done | done]]. }
  pose proof He as [Hr Hc]. rewrite list.Forall_forall in Hr. destruct (lookup_lt_is_Some_2 (bufs s) k (Hr k Hk)) as [b Hb]. rewrite Hb. cbn [mbind option_bind].
  destruct (get_frame_buffer_ok (d_heap s) (ints s) (shape_frame_size (fb_shape d) + 31) Hh ltac:(lia)) as (r & l & h & Eg & Hg). rewrite Eg. cbn [mbind option_bind].
  rewrite (realloc_shape _ _ _ _ _ _ (fb_highbitdepth d) Hd). fold (fb_shape d).
  pose proof Hg as (Gl & Gh & Gu & Gr). destruct r as [j |].
  2: { unfold realloc_frame_buffer_aligned. cbv zeta. rewrite (proj2 (Z.ltb_ge _ _)) by done. cbn [mbind option_bind].
       replace (with_buf (rc_buf b) b) with b by (by destruct b). rewrite list_insert_id by done.
       eexists false, _. split; [done |]. split_and!; [| by unfold same_vars | done |].
       - split; [cbn; by rewrite Gl | exact He | by apply (memory_same _ (ints s)) | done | by apply (placed_get _ (ints s) _ _ _ _ _ Hm Hp Hg)].
       - intros _. split; [| split; [exact Hn | intros i; apply Gr]]. destruct (get_refused _ _ _ _ _ Eg) as [Gw | Gw]; [| by right]. exfalso. apply (block_left _ _ _ _ 16 He Hm Li Hlen Gw). }
  destruct Gr as ((_ & _) & (x & size & Hj & Hsz) & Go). pose proof (io_owned _ _ Gh j _ Hj) as (_ & Hend & a & (_ & n & _ & Ha & Hx & _)). cbn [ifb_size] in *.
  cbn [mbind option_bind]. rewrite Hj. cbn [mbind option_bind ifb_data ifb_size].
  destruct (realloc_given d h (rc_buf b) x size Hd Hbig Hsz ltac:(lia) Hend) as (y' & -> & Hin). cbn [mbind option_bind].
  eexists true, _. split; [done |]. assert (ref_count b <> 0) as Hc0 by (rewrite (Hc k b Hb), count_zero; tauto). split_and!; [| by unfold same_vars | | done].
  - split; [cbn; by rewrite length_insert, Gl | | apply (memory_take _ (ints s) _ (shape_frame_size (fb_shape d) + 31) j l h k b); auto | done |].
    + apply (exact_insert _ (holders s ++ L) _ k b); [done | done | by apply list.Forall_forall | done | exact (Hc k b Hb)].
    + intros i c i'. cbn. destruct (decide (k = i)) as [<- | Hne].
      * rewrite list_lookup_insert_eq by (exact (Hr k Hk)). intros [= <-] [= <-]. exists x, size. split; [| done]. unfold block. by rewrite Hj.
      * rewrite list_lookup_insert_ne by done. by apply (placed_get _ (ints s) _ _ _ _ _ Hm Hp Hg).
  - intros i Hne Hi c. cbn. rewrite list_lookup_insert_ne by done. apply Hi.
Qed.

(** What a frame keeps of its header is of no account. *)
Lemma set_frame_ok k g s L : acct s L -> (k < 16)%nat ->
  exists s', set_frame k g s = Some s' /\ acct s' L /\ keeps s s'.
Proof.
  intros [(Lb & Lm & Li) He Hm Hh Hp] Hk. destruct (lookup_lt_is_Some_2 (bufs s) k ltac:(lia)) as [b Hb]. unfold set_frame. rewrite Hb. cbn [mbind option_bind].
  eexists. split; [done |]. split; [| apply keeps_insert; intros Hn; exact (Hn b Hb)]. assert (raws (<[k := with_frame (g (rc_frame b)) b]> (bufs s)) = raws (bufs s)) as Er.
  { destruct (split_at _ _ _ Hb) as (l1 & l2 & E & _ & Ei). rewrite Ei. unfold raws. rewrite E, !omap_app. done. }
  split.
  - cbn. by rewrite length_insert.
  - pose proof He as [Hr Hc]. apply (exact_insert _ (holders s ++ L) _ k b); [done | done | done | done | exact (Hc k b Hb)].
  - change (memory (<[k := with_frame (g (rc_frame b)) b]> (bufs s)) (ints s) (grain_image_frame_buffers s)). destruct Hm as [Ho Hu Hf]. split; [by rewrite Er | intros j; rewrite Er; apply Hu |]. intros i c. destruct (decide (k = i)) as [<- | Hne]; [| rewrite list_lookup_insert_ne by done; apply Hf].
    rewrite list_lookup_insert_eq by lia. intros [= <-]. exact (Hf k b Hb).
  - done.
  - apply (placed_insert _ _ k b); [done | done | by left | done].
Qed.

(** ** The operations on several references *)

Lemma acct_perm s L L' : acct s L -> L ≡ₚ L' -> acct s L'.
Proof. intros Ha Hp. apply (acct_move s s L); try done; [by destruct Ha as [(_ & ? & _)] | by rewrite Hp]. Qed.

Lemma perm_count P P' : (forall k, count P k = count P' k) -> P ≡ₚ P'.
Proof. intros Hc. apply (Permutation_count_occ Nat.eq_dec). intros k. specialize (Hc k). unfold count in Hc. lia. Qed.

Lemma count_holders s k : count (holders s) k = count (omap id (ref_frame_map s)) k + count (option_list (cur_frame s)) k + count (output_frames s) k.
Proof. unfold holders. rewrite !count_app. lia. Qed.

Lemma count_slot (m : list (option nat)) i p q k : m !! i = Some p ->
  count (omap id (<[i := q]> m)) k = count (omap id m) k - count (option_list p) k + count (option_list q) k.
Proof.
  intros Hp. destruct (split_at m i p Hp) as (m1 & m2 & -> & _ & E). rewrite E, !omap_app, !count_app. cbn [omap list_omap id].
  assert (forall o : option nat, count (match o with Some y => y :: omap id m2 | None => omap id m2 end) k = count (option_list o) k + count (omap id m2) k) as Hs
    by (intros [o |]; [change (option_list (Some o)) with [o]; rewrite !count_cons; change (count [] k) with 0; lia | done]).
  rewrite !Hs. lia.
Qed.

(** Slot [i] of the map is set. *)
Lemma set_slot s L L' i p q : acct s L -> ref_frame_map s !! i = Some p -> option_list q ++ L' ≡ₚ option_list p ++ L ->
  acct (with_map (<[i := q]> (ref_frame_map s)) s) L'.
Proof.
  intros Ha Hi Hp. apply (acct_move s _ L); try done; [cbn; rewrite length_insert; by destruct Ha as [(_ & ? & _)] |].
  apply perm_count. intros k. rewrite !count_app, !count_holders. cbn [ref_frame_map cur_frame output_frames with_map].
  rewrite (count_slot _ _ _ _ _ Hi). pose proof (count_perm _ _ k Hp) as E. rewrite !count_app in E. lia.
Qed.

Lemma set_cur s L L' c : acct s L -> option_list c ++ L' ≡ₚ option_list (cur_frame s) ++ L -> acct (with_cur c s) L'.
Proof.
  intros Ha Hp. apply (acct_move s _ L); try done; [cbn; by destruct Ha as [(_ & ? & _)] |].
  apply perm_count. intros k. rewrite !count_app, !count_holders. cbn [ref_frame_map cur_frame output_frames with_cur].
  pose proof (count_perm _ _ k Hp) as E. rewrite !count_app in E. lia.
Qed.

Lemma set_outputs s L L' o : acct s L -> o ++ L' ≡ₚ output_frames s ++ L -> acct (with_outputs o s) L'.
Proof.
  intros Ha Hp. apply (acct_move s _ L); try done; [cbn; by destruct Ha as [(_ & ? & _)] |].
  apply perm_count. intros k. rewrite !count_app, !count_holders. cbn [ref_frame_map cur_frame output_frames with_outputs].
  pose proof (count_perm _ _ k Hp) as E. rewrite !count_app in E. lia.
Qed.

(** The pool does not depend on the variables. *)
Ltac commutes p s := intros; destruct p as [k |]; [| done]; cbn [decrease_ref_count]; unfold with_bufs, with_ints, with_pool, bufs, ints; cbn;
  destruct (frame_bufs (d_pool s) !! k) as [b |]; [| done]; cbn; destruct (raw_frame_buffer b); [| done]; by destruct (_ =? 0).

Lemma decrease_map p s m : decrease_ref_count p (with_map m s) = with_map m <$> decrease_ref_count p s.
Proof. commutes p s. Qed.
Lemma decrease_cur p s c : decrease_ref_count p (with_cur c s) = with_cur c <$> decrease_ref_count p s.
Proof. commutes p s. Qed.
Lemma decrease_outputs p s o : decrease_ref_count p (with_outputs o s) = with_outputs o <$> decrease_ref_count p s.
Proof. commutes p s. Qed.

Lemma decrease_vars p s s' : decrease_ref_count p s = Some s' -> same_vars s s'.
Proof.
  destruct p as [k |]; [| by intros [= <-]]. cbn [decrease_ref_count]. destruct (bufs s !! k) as [b |]; [| done]. cbn.
  destruct (raw_frame_buffer b); [destruct (_ =? 0) |]; by intros [= <-].
Qed.

(** The reference of slot [i] is let go. *)
Lemma slot_decrease s L i p : acct s L -> ref_frame_map s !! i = Some p ->
  exists s', decrease_ref_count p s = Some s' /\ acct (with_map (<[i := None]> (ref_frame_map s')) s') L /\ keeps s s'.
Proof.
  intros Ha Hi. pose proof (set_slot s L (option_list p ++ L) i p None Ha Hi ltac:(done)) as Hb.
  destruct (decrease_opt _ _ _ Hb) as (s1 & E & Ha1 & [_ Hk]). rewrite decrease_map in E. destruct (decrease_ref_count p s) as [s' |] eqn:Ed; [| done].
  injection E as <-. exists s'. apply decrease_vars in Ed as Hv. split; [done |]. split; [by rewrite (proj1 Hv) | by split].
Qed.

Lemma cur_decrease s L k : acct s L -> cur_frame s = Some k ->
  exists s', decrease_ref_count (Some k) s = Some s' /\ acct (with_cur None s') L /\ keeps s s'.
Proof.
  intros Ha Hc. pose proof (set_cur s L (k :: L) None Ha ltac:(by rewrite Hc)) as Hb.
  destruct (decrease_ok _ _ _ Hb) as (s1 & E & Ha1 & [_ Hk]). rewrite decrease_cur in E. destruct (decrease_ref_count _ s) as [s' |] eqn:Ed; [| done].
  injection E as <-. exists s'. apply decrease_vars in Ed as Hv. split; [done |]. split; [done | by split].
Qed.

Lemma output_decrease s L k o : acct s L -> output_frames s = k :: o ->
  exists s', decrease_ref_count (Some k) s = Some s' /\ acct (with_outputs o s') L /\ keeps s s'.
Proof.
  intros Ha Hc. pose proof (set_outputs s L (k :: L) o Ha ltac:(rewrite Hc; symmetry; apply Permutation_middle)) as Hb.
  destruct (decrease_ok _ _ _ Hb) as (s1 & E & Ha1 & [_ Hk]). rewrite decrease_outputs in E. destruct (decrease_ref_count _ s) as [s' |] eqn:Ed; [| done].
  injection E as <-. exists s'. apply decrease_vars in Ed as Hv. split; [done |]. split; [done | by split].
Qed.

(** ** The operations of the decoder *)

(** What stays when only the map changes. *)
Definition keeps_map s s' : Prop :=
  cur_frame s' = cur_frame s /\ output_frames s' = output_frames s /\ output_all_layers s' = output_all_layers s /\
  grain_image_frame_buffers s' = grain_image_frame_buffers s.

Lemma drop_ref_ok s L i : acct s L -> (i < 8)%nat ->
  exists s', drop_ref i s = Some s' /\ acct s' L /\ ref_frame_map s' = <[i := None]> (ref_frame_map s) /\ keeps_map s s' /\ forall k, no_raw s k -> no_raw s' k.
Proof.
  intros Ha Hi. destruct (lookup_lt_is_Some_2 (ref_frame_map s) i) as [p Hp]; [by destruct Ha as [(_ & -> & _)] |].
  destruct (slot_decrease s L i p Ha Hp) as (s1 & E & Ha1 & (Em & Ec & Eo & El & Eg) & Hk). unfold drop_ref. rewrite Hp. cbn [mbind option_bind]. rewrite E. cbn [mbind option_bind].
  eexists. split; [done |]. split; [done |]. split; [by rewrite <- Em |]. split; [done |]. exact Hk.
Qed.

Lemma drop_heap i s s' : drop_ref i s = Some s' -> d_heap s' = d_heap s.
Proof.
  unfold drop_ref. destruct (ref_frame_map s !! i) as [[k |] |]; [| by intros [= <-] | done]. cbn [mbind option_bind decrease_ref_count].
  destruct (bufs s !! k) as [b |]; [| done]. cbn [mbind option_bind]. destruct (raw_frame_buffer _); [destruct (_ =? 0) |]; by intros [= <-].
Qed.

Lemma drop_refs_ok slots : forall s L, acct s L -> Forall (fun i => (i < 8)%nat) slots ->
  exists s', drop_refs slots s = Some s' /\ acct s' L /\ keeps_map s s' /\ (forall k, no_raw s k -> no_raw s' k) /\
    forall k, Some k ∉ ref_frame_map s -> Some k ∉ ref_frame_map s'.
Proof.
  induction slots as [| i slots IH]; intros s L Ha Hs; [exists s; by split_and!|].
  apply Forall_cons_iff in Hs as [Hi Hs]. destruct (drop_ref_ok s L i Ha Hi) as (s1 & E & Ha1 & M1 & (A1 & A2 & A3 & A4) & R1).
  destruct (IH s1 L Ha1 Hs) as (s2 & E2 & Ha2 & (B1 & B2 & B3 & B4) & R2 & M2). exists s2. cbn [drop_refs]. rewrite E. cbn [mbind option_bind].
  split; [done |]. split; [done |]. split; [unfold keeps_map; split_and!; congruence |]. split; [auto |]. intros k Hk. apply M2. rewrite M1. intros Hin. apply Hk.
  apply list_elem_of_lookup in Hin as [j Hj]. apply list_lookup_insert_Some in Hj as [(_ & ? & _) | [_ Hj]]; [done |]. by eapply list_elem_of_lookup_2.
Qed.

Lemma reset_map_ok s L : acct s L -> exists s', reset_ref_frame_map s = Some s' /\ acct s' L /\ keeps_map s s' /\ (forall k, no_raw s k -> no_raw s' k) /\
  forall k, Some k ∉ ref_frame_map s -> Some k ∉ ref_frame_map s'.
Proof. intros Ha. apply drop_refs_ok; [done |]. by repeat constructor. Qed.

Lemma omap_length (m : list (option nat)) : (length (omap id m) <= length m)%nat.
Proof. induction m as [| [k |] m IH]; cbn in *; lia. Qed.

Lemma holders_length s L : acct s L -> (length (holders s) <= 8 + length (option_list (cur_frame s)) + length (output_frames s))%nat.
Proof.
  intros [(_ & Hm & _)]. unfold holders. rewrite !length_app. pose proof (omap_length (ref_frame_map s)). lia.
Qed.

Lemma option_list_le (o : option nat) : (length (option_list o) <= 1)%nat.
Proof. destruct o; cbn; lia. Qed.

Lemma start_ok s : acct s [] -> cur_frame s = None -> (length (output_frames s) <= 4)%nat ->
  exists k s', assign_cur_frame_new_fb s = Some (Some k, s') /\ acct s' [] /\ cur_frame s' = Some k /\ (k ∉ holders s) /\ no_raw s' k /\
    ref_frame_map s' = ref_frame_map s /\ output_frames s' = output_frames s /\ output_all_layers s' = output_all_layers s /\
    grain_image_frame_buffers s' = grain_image_frame_buffers s.
Proof.
  intros Ha Hc Ho. pose proof (holders_length s [] Ha) as Hl. rewrite Hc in Hl. change (option_list None) with (@nil nat) in Hl. cbn [length] in Hl.
  destruct (get_free_ok s [] Ha) as (k & s1 & E & Ha1 & Hk & [(A1 & A2 & A3 & A4 & A5) _] & Hr); [rewrite app_nil_r; lia |].
  unfold assign_cur_frame_new_fb. rewrite Hc. cbn [mbind option_bind]. rewrite E. rewrite app_nil_r in Hk. eexists k, _. split; [done |].
  split; [apply (set_cur _ [k]); [done | by rewrite A2, Hc] |]. done.
Qed.

Lemma add_cur d k s c : add_count d k (with_cur c s) = with_cur c <$> add_count d k s.
Proof. unfold add_count, bufs. cbn. by destruct (frame_bufs (d_pool s) !! k). Qed.

Lemma add_vars d k s s' : add_count d k s = Some s' -> same_vars s s'.
Proof. unfold add_count. destruct (bufs s !! k); [| done]. by intros [= <-]. Qed.

(** A frame of the map shown again. *)
Lemma show_ok s k i r : acct s [] -> cur_frame s = Some k -> no_raw s k -> ref_frame_map s !! i = Some (Some r) ->
  exists s', assign_cur_frame r s = Some s' /\ acct s' [] /\ cur_frame s' = Some r /\ ref_frame_map s' = ref_frame_map s /\
    output_frames s' = output_frames s /\ output_all_layers s' = output_all_layers s /\ grain_image_frame_buffers s' = grain_image_frame_buffers s.
Proof.
  intros Ha Hc Hn Hi. pose proof (set_cur s [] [k] None Ha ltac:(by rewrite Hc)) as Ha0.
  destruct (drop_ok _ _ _ Ha0 Hn) as (s0 & E & Ha1 & _). rewrite add_cur in E. destruct (add_count (-1) k s) as [s1 |] eqn:E1; [| done]. injection E as <-.
  pose proof (add_vars _ _ _ _ E1) as (B1 & B2 & B3 & B4 & B5).
  destruct (add_ok (with_cur None s1) [] r Ha1) as (s2 & E & Ha2 & _).
  { apply elem_of_app. left. unfold holders. apply elem_of_app. left. cbn. rewrite B1. apply list_elem_of_omap. exists (Some r). split; [by eapply list_elem_of_lookup_2 | done]. }
  unfold assign_cur_frame. rewrite Hc, E1. cbn [mbind option_bind]. rewrite add_cur in E |- *. destruct (add_count 1 r s1) as [s3 |] eqn:E3; [| done]. injection E as <-.
  apply add_vars in E3 as (C1 & C2 & C3 & C4 & C5). eexists. split; [done |]. split.
  - apply (set_cur _ [r] [] (Some r)) in Ha2; done.
  - cbn. split_and!; congruence.
Qed.

Lemma missing_ok d i s k : acct s [] -> dims_ok d -> (i < 8)%nat -> cur_frame s = Some k -> no_raw s k -> (length (output_frames s) <= 4)%nat -> grain_image_frame_buffers s = [] ->
  exists good s', replace_missing_ref d i s = Some (good, s') /\ acct s' [] /\ keeps_map s s' /\ no_raw s' k /\
    (Some k ∉ ref_frame_map s -> Some k ∉ ref_frame_map s') /\
    (good = false -> exists s1, drop_ref i s = Some s1 /\ d_heap s1 = d_heap s /\ no_memory d s1).
Proof.
  intros Ha Hd Hi Hc Hn Ho Hg. destruct (drop_ref_ok s [] i Ha Hi) as (s1 & E & Ha1 & Hm1 & (A1 & A2 & A3 & A4) & R1). unfold replace_missing_ref.
  rewrite E. cbn [mbind option_bind]. pose proof (holders_length s1 [] Ha1) as Hl. pose proof (option_list_le (cur_frame s1)). rewrite A2 in Hl.
  destruct (get_free_ok s1 [] Ha1) as (q & s2 & Eq & Ha2 & Hq & [(B1 & B2 & B3 & B4 & B5) R2] & Hr); [rewrite app_nil_r; lia |]. rewrite Eq.
  assert (q <> k) as Hne. { intros ->. apply Hq, elem_of_app. left. unfold holders. rewrite A1, Hc. set_solver. }
  destruct (realloc_fb_ok d s2 [q] q Ha2 Hd) as (good & s3 & -> & Ha3 & (C1 & C2 & C3 & C4 & C5) & R3 & Hf).
  { set_solver. } { done. }
  { rewrite B5, A4, Hg, length_app. pose proof (holders_length s2 [q] Ha2) as Hl2. rewrite B2, B3, A2 in Hl2. cbn [length]. lia. }
  assert (forall o, o <> Some k -> Some k ∉ ref_frame_map s -> Some k ∉ <[i := o]> (ref_frame_map s)) as Hmap.
  { intros o Hok Hin Hin2. apply list_elem_of_lookup in Hin2 as [j Hj]. destruct (decide (i = j)) as [<- |].
    - rewrite list_lookup_insert_eq in Hj by (by destruct Ha as [(_ & -> & _)]). congruence.
    - rewrite list_lookup_insert_ne in Hj by done. by apply Hin, (list_elem_of_lookup_2 _ j). }
  cbn [mbind option_bind]. destruct good.
  - eexists true, _. split; [done |]. split.
    + apply (set_slot s3 [q] [] i None); [done | | done]. rewrite C1, B1, Hm1. apply list_lookup_insert_eq. by destruct Ha as [(_ & -> & _)].
    + split_and!; [unfold keeps_map; cbn; split_and!; congruence | apply R3; auto | | done]. cbn. rewrite C1, B1, Hm1, list_insert_insert_eq. apply Hmap. congruence.
  - destruct (decrease_ok s3 [] q Ha3) as (s4 & -> & Ha4 & [(D1 & D2 & D3 & D4 & D5) R4]). cbn [mbind option_bind]. eexists false, _. split; [done |].
    split; [done |]. split_and!; [unfold keeps_map; cbn; split_and!; congruence | auto | rewrite D1, C1, B1, Hm1; by apply Hmap |].
    intros _. exists s1. split_and!; [done | by eapply drop_heap |]. destruct (Hf eq_refl) as [Hnm _]. unfold get_free_fb in Eq.
    destruct (list_find _ _) as [[? ?] |]; [| done]. by injection Eq as <- <-.
Qed.

Lemma release_current_ok s k : acct s [] -> cur_frame s = Some k ->
  exists s', release_current_frame s = Some s' /\ acct s' [] /\ cur_frame s' = None /\ ref_frame_map s' = ref_frame_map s /\
    output_frames s' = output_frames s /\ output_all_layers s' = output_all_layers s /\ grain_image_frame_buffers s' = grain_image_frame_buffers s.
Proof.
  intros Ha Hc. destruct (cur_decrease s [] k Ha Hc) as (s1 & E & Ha1 & [(A1 & A2 & A3 & A4 & A5) _]). unfold release_current_frame.
  rewrite Hc. cbn [mbind option_bind]. rewrite E. cbn [mbind option_bind]. eexists. by split_and!.
Qed.

Lemma add_map d k s m : add_count d k (with_map m s) = with_map m <$> add_count d k s.
Proof. unfold add_count, bufs. cbn. by destruct (frame_bufs (d_pool s) !! k). Qed.

(** One slot of the map set to the current frame. *)
Lemma refresh_slot s i p k : acct s [] -> cur_frame s = Some k -> ref_frame_map s !! i = Some p ->
  exists s1 s', decrease_ref_count p s = Some s1 /\ add_count 1 k (with_map (<[i := Some k]> (ref_frame_map s1)) s1) = Some s' /\
    acct s' [] /\ keeps_map s s' /\ ref_frame_map s' = <[i := Some k]> (ref_frame_map s).
Proof.
  intros Ha Hc Hp. destruct (slot_decrease s [] i p Ha Hp) as (s1 & E & Ha1 & [(A1 & A2 & A3 & A4 & A5) _]).
  assert (i < length (ref_frame_map s1))%nat as Hi by (rewrite A1; by eapply lookup_lt_Some).
  destruct (add_ok _ _ k Ha1) as (s2 & E2 & Ha2 & _). { apply elem_of_app. left. unfold holders. cbn. rewrite A2, Hc. set_solver. }
  rewrite add_map in E2. destruct (add_count 1 k s1) as [s3 |] eqn:E3; [| done]. injection E2 as <-. pose proof (add_vars _ _ _ _ E3) as (B1 & B2 & B3 & B4 & B5).
  eexists s1, _. split; [done |]. rewrite add_map, E3. split; [done |]. split; [| split; [unfold keeps_map; cbn; split_and!; congruence | cbn; by rewrite A1]].
  apply (set_slot _ [k] [] i None (Some k)) in Ha2; [| cbn; by apply list_lookup_insert_eq | done].
  cbn [ref_frame_map with_map] in Ha2. rewrite list_insert_insert_eq in Ha2. exact Ha2.
Qed.

(** The slots whose bits are set. *)
Definition refreshed (mask : Z) (i : nat) (k : nat) (m m' : list (option nat)) : Prop := forall j, (j < 8)%nat ->
  m' !! j = if (i <=? j)%nat && Z.testbit mask (Z.of_nat j - Z.of_nat i) then Some (Some k) else m !! j.

Lemma refresh_ok fuel : forall mask i k s, acct s [] -> cur_frame s = Some k -> 0 <= mask < 2 ^ (8 - Z.of_nat i) -> (i <= 8)%nat -> (8 - i <= fuel)%nat ->
  exists s', refresh_refs fuel mask i k s = Some s' /\ acct s' [] /\ keeps_map s s' /\ refreshed mask i k (ref_frame_map s) (ref_frame_map s').
Proof.
  induction fuel as [| fuel IH]; intros mask i k s Ha Hc Hm Hi Hf.
  - replace i with 8%nat in * by lia. change (2 ^ (8 - Z.of_nat 8)) with 1 in Hm. exists s. split_and!; [done | done | done |].
    intros j Hj. rewrite (proj2 (Nat.leb_gt 8 j)) by lia. done.
  - cbn [refresh_refs]. destruct (Z.eqb_spec mask 0) as [-> | Hne].
    { exists s. split_and!; [done | done | done |]. intros j Hj. by rewrite Z.bits_0, andb_false_r. }
    assert (i < 8)%nat as Hi8. { destruct (decide (i = 8%nat)) as [-> |]; [| lia]. change (2 ^ (8 - Z.of_nat 8)) with 1 in Hm. lia. }
    assert (exists s1, (if negb (Z.land mask 1 =? 0) then p ← ref_frame_map s !! i; s0 ← decrease_ref_count p s; add_count 1 k (with_map (<[i := Some k]> (ref_frame_map s0)) s0) else Some s) = Some s1 /\
      acct s1 [] /\ keeps_map s s1 /\ ref_frame_map s1 = if Z.testbit mask 0 then <[i := Some k]> (ref_frame_map s) else ref_frame_map s) as (s1 & E1 & Ha1 & (A1 & A2 & A3 & A4) & M1).
    { change 1 with (Z.ones 1). rewrite Z.land_ones by lia. change (2 ^ 1) with 2. rewrite Zmod_odd, Z.bit0_odd. destruct (Z.odd mask); cbn [Z.eqb negb].
      - destruct (lookup_lt_is_Some_2 (ref_frame_map s) i) as [p Hp]; [by destruct Ha as [(_ & -> & _)] |]. rewrite Hp.
        destruct (refresh_slot s i p k Ha Hc Hp) as (s1 & s' & E1 & E2 & ?). cbn [mbind option_bind]. rewrite E1. cbn [mbind option_bind]. eauto.
      - exists s. by split_and!. }
    rewrite E1. cbn [mbind option_bind]. destruct (IH (Z.shiftr mask 1) (S i) k s1 Ha1) as (s2 & E2 & Ha2 & (B1 & B2 & B3 & B4) & M2); [congruence | | lia | lia |].
    { rewrite Z.shiftr_div_pow2 by lia. replace (8 - Z.of_nat i) with (Z.succ (8 - Z.of_nat (S i))) in Hm by lia. rewrite Z.pow_succ_r in Hm by lia. change (2 ^ 1) with 2.
      split; [apply Z.div_pos; lia | apply Z.div_lt_upper_bound; lia]. }
    exists s2. split; [done |]. split; [done |]. split; [unfold keeps_map; split_and!; congruence |]. intros j Hj. rewrite (M2 j Hj), M1.
    destruct (decide (i = j)) as [<- | Hij].
    + rewrite (proj2 (Nat.leb_gt (S i) i)), Nat.leb_refl, Z.sub_diag by lia. cbn [andb]. destruct (Z.testbit mask 0); [| done].
      apply list_lookup_insert_eq. by destruct Ha as [(_ & -> & _)].
    + assert ((if Z.testbit mask 0 then <[i:=Some k]> (ref_frame_map s) else ref_frame_map s) !! j = ref_frame_map s !! j) as -> by (destruct (Z.testbit mask 0); [by rewrite list_lookup_insert_ne | done]).
      destruct (Nat.leb_spec (S i) j); [| by rewrite (proj2 (Nat.leb_gt i j)) by lia]. rewrite (proj2 (Nat.leb_le i j)), Z.shiftr_spec by lia. cbn [andb].
      by replace (Z.of_nat j - Z.of_nat (S i) + 1) with (Z.of_nat j - Z.of_nat i) by lia.
Qed.

(** What the frames to output can be. *)
Definition outputs_ok s : Prop :=
  (length (output_frames s) <= 4)%nat /\ (output_all_layers s = false -> (length (output_frames s) <= 1)%nat).

(** What becomes of the frames to output when frame [k] is shown: all layers are kept, up to
    four, or the frame replaces what is there. *)
Definition outputs_after (layers : bool) (waiting : list nat) (k : nat) : aom_codec_err_t * list nat :=
  if layers then if (length waiting <? 4)%nat then (AOM_CODEC_OK, waiting ++ [k]) else (AOM_CODEC_UNSUP_BITSTREAM, waiting)
  else (AOM_CODEC_OK, [k]).

(** The current frame joins the frames to output, or replaces them. *)
Lemma output_ok s k o : acct s [] -> cur_frame s = Some k -> o ≡ₚ output_frames s ++ [k] -> acct (with_cur None (with_outputs o s)) [].
Proof.
  intros Ha Hc Ho. apply (set_cur _ [] [k] None) in Ha; [| by rewrite Hc].
  apply (set_outputs _ [k] [] o) in Ha; [exact Ha | by rewrite app_nil_r].
Qed.

Lemma update_tail_ok s k shown : acct s [] -> cur_frame s = Some k -> outputs_ok s ->
  exists err s', (if (shown : bool) then
     if output_all_layers s then
       if MAX_NUM_SPATIAL_LAYERS <=? Z.of_nat (length (output_frames s)) then s ← decrease_ref_count (Some k) s; Some (AOM_CODEC_UNSUP_BITSTREAM, s)
       else Some (AOM_CODEC_OK, with_outputs (output_frames s ++ [k]) s)
     else s ← decrease_ref_count (head (output_frames s)) s; Some (AOM_CODEC_OK, with_outputs [k] s)
   else s ← decrease_ref_count (Some k) s; Some (AOM_CODEC_OK, s)) = Some (err, s') /\
  acct (with_cur None s') [] /\ outputs_ok s' /\ ref_frame_map s' = ref_frame_map s /\ output_all_layers s' = output_all_layers s /\
  grain_image_frame_buffers s' = grain_image_frame_buffers s /\
  (err, output_frames s') = if shown then outputs_after (output_all_layers s) (output_frames s) k else (AOM_CODEC_OK, output_frames s).
Proof.
  intros Ha Hc [O4 O1]. destruct (cur_decrease s [] k Ha Hc) as (s1 & E & Ha1 & [(A1 & A2 & A3 & A4 & A5) _]).
  assert (outputs_ok s1) as Ho1 by (unfold outputs_ok; by rewrite A3, A4). rewrite E. cbn [mbind option_bind].
  unfold outputs_after. destruct shown; [| eexists _, _; split_and!; try done; by rewrite A3]. destruct (output_all_layers s) eqn:El.
  - destruct (Z.leb_spec MAX_NUM_SPATIAL_LAYERS (Z.of_nat (length (output_frames s)))) as [Hn | Hn]; eexists _, _; (split; [done |]); unfold MAX_NUM_SPATIAL_LAYERS in Hn.
    { rewrite (proj2 (Nat.ltb_ge _ _)) by lia. split_and!; try done; congruence. }
    rewrite (proj2 (Nat.ltb_lt _ _)) by lia. split; [by apply (output_ok s k) |].
    split_and!; [| done | done | done | done]. split; [cbn; rewrite length_app; cbn; lia | cbn; congruence].
  - destruct (output_frames s) as [| q o] eqn:Eo; cbn [head].
    + change (decrease_ref_count None s) with (Some s). cbn [mbind option_bind]. eexists _, _. split; [done |]. split; [apply (output_ok s k); [done | done | by rewrite Eo] |].
      split_and!; [split; cbn; lia | done | done | done | done].
    + specialize (O1 eq_refl). destruct o; [| cbn in O1; lia]. destruct (output_decrease s [] q [] Ha Eo) as (s2 & E2 & Ha2 & [(B1 & B2 & B3 & B4 & B5) _]).
      rewrite E2. cbn [mbind option_bind].
      eexists _, _. split; [done |]. split; [apply (output_ok (with_outputs [] s2) k); [done | by rewrite <- Hc | done] |].
      split_and!; [split; cbn; lia | done | cbn; congruence | done | done].
Qed.

Lemma update_ok s k frame_decoded camera shown flags : acct s [] -> cur_frame s = Some k -> outputs_ok s -> 0 <= flags < 256 ->
  exists err s', update_frame_buffers frame_decoded camera shown flags s = Some (err, s') /\ acct s' [] /\ cur_frame s' = None /\ outputs_ok s' /\
    output_all_layers s' = output_all_layers s /\ grain_image_frame_buffers s' = grain_image_frame_buffers s /\
    refreshed (if frame_decoded && negb camera then flags else 0) 0 k (ref_frame_map s) (ref_frame_map s') /\
    (err, output_frames s') = if frame_decoded && shown then outputs_after (output_all_layers s) (output_frames s) k else (AOM_CODEC_OK, output_frames s).
Proof.
  intros Ha Hc Ho Hf. unfold update_frame_buffers. rewrite Hc. cbn [mbind option_bind]. destruct frame_decoded.
  2: { destruct (update_tail_ok s k false Ha Hc Ho) as (err & s1 & -> & Ha1 & Ho1 & Em & El & Eg & Hk). cbn [mbind option_bind]. eexists _, _. split; [done |].
       split_and!; try done. intros j Hj. cbn [ref_frame_map with_cur andb]. by rewrite Z.bits_0, andb_false_r, Em. }
  assert (exists s1, (if negb camera then refresh_refs 31 flags 0 k s else Some s) = Some s1 /\ acct s1 [] /\ keeps_map s s1 /\
    refreshed (if negb camera then flags else 0) 0 k (ref_frame_map s) (ref_frame_map s1)) as (s1 & -> & Ha1 & (A1 & A2 & A3 & A4) & Hr).
  { destruct camera; cbn [negb]; [exists s; split_and!; try done; intros j Hj; by rewrite Z.bits_0, andb_false_r |].
    apply (refresh_ok 31 flags 0 k s Ha Hc); [change (2 ^ (8 - Z.of_nat 0)) with 256; lia | lia | lia]. }
  cbn [mbind option_bind andb]. destruct (update_tail_ok s1 k shown Ha1) as (err & s2 & -> & Ha2 & Ho2 & Em & El & Eg & Hk); [congruence | unfold outputs_ok; by rewrite A2, A3 |].
  rewrite A2, A3 in Hk. cbn [mbind option_bind]. eexists _, _. split; [done |]. cbn. rewrite Em. split_and!; try done; try congruence; auto.
Qed.

Lemma decrease_all_ok ks : forall s L, acct s (ks ++ L) -> exists s', decrease_all ks s = Some s' /\ acct s' L /\ same_vars s s'.
Proof.
  induction ks as [| k ks IH]; intros s L Ha; [exists s; by split_and!|]. destruct (decrease_ok s (ks ++ L) k Ha) as (s1 & E & Ha1 & [Hv _]).
  destruct (IH s1 L Ha1) as (s2 & E2 & Ha2 & Hv2). exists s2. cbn [decrease_all]. rewrite E. cbn [mbind option_bind]. split_and!; [done | done |].
  destruct Hv as (A1 & A2 & A3 & A4 & A5), Hv2 as (B1 & B2 & B3 & B4 & B5). unfold same_vars. split_and!; congruence.
Qed.

Lemma decrease_all_outputs ks : forall s o, decrease_all ks (with_outputs o s) = with_outputs o <$> decrease_all ks s.
Proof.
  induction ks as [| k ks IH]; intros s o; [done |]. cbn [decrease_all]. rewrite decrease_outputs. destruct (decrease_ref_count _ s); [| done]. cbn [mbind option_bind fmap option_fmap option_map]. apply IH.
Qed.

(** Copies with grain are given back. *)
Lemma release_all_ok js : forall bs h l, memory bs l js -> ifbs_ok h (int_fb l) -> placed bs l ->
  let l' := release_all js l in memory bs l' [] /\ ifbs_ok h (int_fb l') /\ placed bs l' /\ length (int_fb l') = length (int_fb l).
Proof.
  induction js as [| j js IH]; intros bs h l Hm Hh Hp; [done |]. cbv zeta in *. cbn [release_all].
  destruct (IH bs h (av1_release_frame_buffer l (Some j))) as (Hm' & Hh' & Hp' & Hl); [| by apply release_ok | by apply placed_release |].
  - destruct Hm as [Ho Hu Hf]. rewrite <- Permutation_middle in Ho. apply list.NoDup_cons in Ho as [Hni Ho]. split; [done | | done].
    intros i. rewrite in_use_release, Hu, !elem_of_app, elem_of_cons in *. split; [tauto |]. intros Hi. split; [tauto |]. intros ->. apply Hni. by apply elem_of_app.
  - split_and!; [done | done | done |]. rewrite Hl. cbn. by rewrite length_alter.
Qed.

Lemma release_pending_ok s : acct s [] -> exists s', release_pending_output_frames s = Some s' /\ acct s' [] /\ cur_frame s' = cur_frame s /\
  ref_frame_map s' = ref_frame_map s /\ output_frames s' = [] /\ output_all_layers s' = output_all_layers s /\ grain_image_frame_buffers s' = [].
Proof.
  intros Ha. pose proof (set_outputs s [] (output_frames s) [] Ha ltac:(by rewrite app_nil_r)) as Ha0.
  destruct (decrease_all_ok (output_frames s) _ [] ltac:(by rewrite app_nil_r)) as (s1 & E & Ha1 & (A1 & A2 & A3 & A4 & A5)).
  rewrite decrease_all_outputs in E. unfold release_pending_output_frames. destruct (decrease_all _ s) as [s2 |]; [| done]. injection E as <-. cbn [mbind option_bind].
  destruct Ha1 as [(Lb & Lm & Li) He Hm Hh Hp]. destruct (release_all_ok _ _ _ _ Hm Hh Hp) as (Hm' & Hh' & Hp' & Hl). eexists. split; [done |]. split; [| by split_and!].
  split; [| done | done | done | done]. split_and!; [done | done |]. cbn in *. by rewrite Hl.
Qed.

Lemma add_grain_ok s size synthesis : acct s [] -> cur_frame s = None -> (length (output_frames s) <= 4)%nat -> (length (grain_image_frame_buffers s) < 4)%nat -> 0 < size ->
  exists good s', add_grain size synthesis s = Some (good, s') /\ acct s' [] /\ cur_frame s' = None /\ ref_frame_map s' = ref_frame_map s /\
    output_frames s' = output_frames s /\ output_all_layers s' = output_all_layers s /\
    (length (grain_image_frame_buffers s') <= S (length (grain_image_frame_buffers s)))%nat /\
    (good = false -> synthesis = false \/ refused (d_heap s) (ints s) size).
Proof.
  intros Ha Hc Ho Hg Hs. pose proof (holders_length s [] Ha) as Hl. rewrite Hc in Hl. change (option_list None) with (@nil nat) in Hl. cbn [length] in Hl.
  destruct Ha as [(Lb & Lm & Li) He Hm Hh Hp]. unfold add_grain. cbv zeta. rewrite (proj2 (Z.leb_gt _ _)) by (unfold MAX_NUM_SPATIAL_LAYERS; lia).
  destruct (get_frame_buffer_ok (d_heap s) (ints s) size Hh Hs) as (r & l & h & Eg & Hsp). rewrite Eg. cbn [mbind option_bind]. pose proof Hsp as (Gl & Gh & Gu & Gr).
  pose proof (placed_get _ _ _ _ _ _ _ Hm Hp Hsp) as Gp. destruct r as [j |].
  - destruct (in_use_get _ _ _ _ _ Hsp) as [Hni Hj].
    assert (memory (bufs s) l (grain_image_frame_buffers s ++ [j])) as Hm'.
    { destruct Hm as [Hno Hu Hf]. rewrite Hu in Hni. split; [| | done].
      - rewrite (assoc_L (++)), (Permutation_app_comm _ [j]). apply list.NoDup_cons. done.
      - intros i. rewrite Hj, Hu, (assoc_L (++)). rewrite (elem_of_app (raws _ ++ _) [j]), list_elem_of_singleton. done. }
    destruct synthesis; (eexists _, _; split; [done |]); (split; [| cbn; rewrite ?length_app; cbn; split_and!; auto; lia]).
    + split; [by rewrite <- Gl in Li | done | done | done | done].
    + assert (memory (bufs s) (av1_release_frame_buffer l (Some j)) (grain_image_frame_buffers s)) as Hm2.
      { destruct Hm as [Hno Hu Hf]. split; [done | | done]. intros i. rewrite in_use_release, Hj, Hu. rewrite Hu in Hni. split; [tauto |]. intros Hi. split; [by left |]. by intros ->. }
      split; [| done | done | by apply release_ok | by apply placed_release]. split_and!; [done | done |]. cbn. rewrite length_alter. by rewrite Gl.
  - eexists _, _. split; [done |]. split; [split; [cbn; by rewrite Gl | done | by apply (memory_same _ (ints s)) | done | done] |].
    split_and!; try done; [cbn; lia |]. intros _. right. destruct (get_refused _ _ _ _ _ Eg) as [Gw | Gw]; [| done]. exfalso. refine (block_left _ _ _ _ 16 He Hm Li _ Gw). rewrite app_nil_r. lia.
Qed.
End Proof.
