(* ===== verification/UpscaleProof.v ===== *)
(** * Upscaling keeps the pool in order

    [av1_superres_upscale] gives the block of the current frame back and asks for a larger
    one.  When it gets none the frame names a block it does not have, until it is given
    up. *)

From stdpp Require Import gmap.
From S2P Require Import Prelude CodecTypes Mem Yv12 FrameBuffers BufferPool BufferPoolProof.

Section Upscale.
Context {F : Type} `{MallocOk}.
Implicit Types (s : dec_state F).

(** The state with the memory of buffer [k] forgotten. *)
Definition forget_raw (k : nat) s : dec_state F := with_bufs (alter (with_raw None) k (bufs s)) s.

Lemma forget_lookup s k : bufs (forget_raw k s) !! k = with_raw None <$> bufs s !! k.
Proof. apply list_lookup_alter_eq. Qed.

(** Nobody else holds the current frame. *)
Definition sole s (k : nat) : Prop := (Some k ∉ ref_frame_map s) /\ (k ∉ output_frames s).

(** The block a frame names is not its own. *)
Definition stale s (k : nat) : Prop := forall b j, bufs s !! k = Some b -> raw_frame_buffer b = Some j -> ~ in_use (int_fb (ints s)) j.

Lemma release_unused l j : ~ in_use (int_fb l) j -> av1_release_frame_buffer l (Some j) = l.
Proof.
  intros Hn. cbn. destruct (int_fb l !! j) as [b |] eqn:Eb.
  - rewrite (alter_as_insert _ _ _ _ Eb). assert (clear_in_use b = b) as -> by (destruct b as [x z [|]]; [exfalso; apply Hn; by eexists | done]).
    rewrite list_insert_id by done. by destruct l.
  - rewrite alter_outside by done. by destruct l.
Qed.

Lemma sole_count s k b : acct (forget_raw k s) [] -> cur_frame s = Some k -> sole s k -> bufs s !! k = Some b -> ref_count b = 1.
Proof.
  intros [_ [_ He] _ _ _] Hc [Hm Ho] Hb. assert (bufs (forget_raw k s) !! k = Some (with_raw None b)) as Hb' by (by rewrite forget_lookup, Hb).
  specialize (He k _ Hb'). cbn [ref_count with_raw] in He. rewrite He, app_nil_r, count_holders. cbn [ref_frame_map cur_frame output_frames forget_raw with_bufs with_pool]. rewrite Hc. change (option_list (Some k)) with [k].
  rewrite (proj2 (count_zero (output_frames s) k)), (proj2 (count_zero (omap id _) k)), count_cons, decide_True; [done | done | | done].
  rewrite list_elem_of_omap. intros (o & Hin & E). cbn in E. by subst.
Qed.

(** Giving the frame up leaves what it would have left without the name. *)
Lemma give_up_forget s k : acct (forget_raw k s) [] -> cur_frame s = Some k -> sole s k -> stale s k ->
  release_current_frame s = release_current_frame (forget_raw k s).
Proof.
  intros Ha Hc Hs Hst. unfold release_current_frame. cbn [cur_frame forget_raw with_bufs with_pool]. rewrite Hc. cbn [mbind option_bind decrease_ref_count].
  destruct (bufs s !! k) as [b |] eqn:Hb.
  - pose proof (sole_count s k b Ha Hc Hs Hb) as H1. assert (bufs (forget_raw k s) !! k = Some (with_raw None b)) as -> by (by rewrite forget_lookup, Hb).
    cbn [mbind option_bind raw_frame_buffer with_raw with_count ref_count]. rewrite H1. change (1 - 1 =? 0) with true. cbn [bufs forget_raw with_bufs with_pool d_pool frame_bufs].
    rewrite (alter_as_insert _ _ _ _ Hb), list_insert_insert_eq. destruct (raw_frame_buffer b) as [j |] eqn:Ej.
    + rewrite release_unused by (by apply (Hst b)). by destruct s as [? [] ? ? ? ? ?].
    + destruct b. cbn in *. by subst.
  - by rewrite forget_lookup, Hb.
Qed.

(** ** Memory asked for again *)

Lemma forget_bufs s k b : bufs s !! k = Some b -> bufs (forget_raw k s) = <[k := with_raw None b]> (bufs s).
Proof. intros Hb. cbn. by apply alter_as_insert. Qed.

(** With a callback, only the heap of the callback changes, and a refusal is an error. *)
Lemma realloc_callback h y w hh sx sy hbd bo al cb err y' h' : aom_realloc_frame_buffer h y w hh sx sy hbd bo al (Some cb) false = Some (err, y', h') ->
  h' = h /\ ((forall n, cb n = None) -> err = AOM_CODEC_MEM_ERROR /\ y' = y).
Proof.
  unfold aom_realloc_frame_buffer. destruct (calc_stride_and_planesize _ _ _ _ _ _ _ _) as [[[[? ?] ?] ?] |]; [| by intros [= <- <- <-]].
  unfold realloc_frame_buffer_aligned. cbv zeta. destruct (_ <? _); [by intros [= <- <- <-] |]. destruct (cb _) as [[x sz] |] eqn:Ec; [| by intros [= <- <- <-]].
  destruct (_ || _); intros [= <- <- <-]; (split; [done |]); intros Hn; by rewrite Hn in Ec.
Qed.

Lemma realloc_source d k s good s' : realloc_fb d k s = Some (good, s') ->
  (d_heap s' = d_heap s /\ ints s' = ints s) \/
  exists size r, fb_request (fb_width d) (fb_height d) (fb_ss_x d) (fb_ss_y d) (fb_highbitdepth d) (fb_border d) (fb_byte_alignment d) = Some size /\
    av1_get_frame_buffer (d_heap s) (ints s) size = Some (r, ints s', d_heap s').
Proof.
  unfold realloc_fb. destruct (fb_request _ _ _ _ _ _ _) as [size |]; [| intros [= _ <-]; by left]. destruct (bufs s !! k) as [b |]; [| done]. cbn [mbind option_bind].
  destruct (av1_get_frame_buffer _ _ _) as [[[r l] h] |] eqn:Eg; [| done]. cbn [mbind option_bind].
  destruct (aom_realloc_frame_buffer _ _ _ _ _ _ _ _ _ _ _) as [[[err y] h'] |] eqn:E; [| done]. cbn [mbind option_bind]. intros [= _ <-].
  apply realloc_callback in E as [-> _]. right. by exists size, r.
Qed.

(** What buffer [k] named before does not matter for a new block. *)
Lemma realloc_forget d k s good s1 : realloc_fb d k (forget_raw k s) = Some (good, s1) -> (good = false -> no_raw s1 k) ->
  exists s2, realloc_fb d k s = Some (good, s2) /\ (good = true -> s2 = s1) /\
    (good = false -> s1 = forget_raw k s2 /\ raw_frame_buffer <$> bufs s2 !! k = raw_frame_buffer <$> bufs s !! k).
Proof.
  unfold realloc_fb. destruct (fb_request _ _ _ _ _ _ _) as [size |]; [| intros [= <- <-]; by exists s].
  destruct (bufs s !! k) as [b |] eqn:Hb; [| by rewrite forget_lookup, Hb].
  rewrite (forget_bufs s k b Hb), list_lookup_insert_eq by (by eapply lookup_lt_Some). cbn [mbind option_bind].
  change (d_heap (forget_raw k s)) with (d_heap s). change (ints (forget_raw k s)) with (ints s).
  destruct (av1_get_frame_buffer _ _ _) as [[[r l] h] |]; [| done]. cbn [mbind option_bind rc_buf with_raw].
  destruct (aom_realloc_frame_buffer _ _ _ _ _ _ _ _ _ _ _) as [[[err y] h'] |] eqn:E; [| done]. cbn [mbind option_bind]. rewrite list_insert_insert_eq.
  destruct r as [j |]; intros [= Eg <-] Hn.
  - eexists. split; [by rewrite Eg |]. split; [done |]. intros ->. exfalso. specialize (Hn eq_refl (with_buf y (with_raw (Some j) (with_raw None b)))). cbn in Hn.
    rewrite list_lookup_insert_eq in Hn by (by eapply lookup_lt_Some). by specialize (Hn eq_refl).
  - apply realloc_callback in E as [-> E]. destruct (E ltac:(done)) as [-> ->]. cbn in Eg. subst good. eexists. split; [done |]. split; [done |]. intros _. set (s2 := with_heap h (with_bufs _ (with_ints l s))).
    assert (bufs s2 !! k = Some (with_buf (rc_buf b) b)) as Hb2 by (apply list_lookup_insert_eq; by eapply lookup_lt_Some). split; [| by rewrite Hb2].
    unfold forget_raw. rewrite (alter_as_insert _ (bufs s2) k _ Hb2). unfold s2. cbn. by rewrite list_insert_insert_eq.
Qed.

(** ** The operation *)

(** The copy is a block beside those of the list. *)
Lemma alloc_copy h fbs c : dims_ok c -> ifbs_ok h fbs ->
  exists err y h', aom_alloc_frame_buffer h yv12_zero (fb_width c) (fb_height c) (fb_ss_x c) (fb_ss_y c) (fb_highbitdepth c) (fb_border c) (fb_byte_alignment c) false = Some (err, y, h') /\
    ((err = AOM_CODEC_OK /\ 0 < buffer_alloc_sz y /\
      ifbs_ok h' (fbs ++ [{| ifb_data := buffer_alloc y; ifb_size := buffer_alloc_sz y; ifb_in_use := true |}])) \/ (err = AOM_CODEC_MEM_ERROR /\ h' = h)).
Proof.
  intros Hc Hok. unfold aom_alloc_frame_buffer, aom_free_frame_buffer. cbn [buffer_alloc_sz yv12_zero mbind option_bind]. change (0 <? 0) with false. cbn [mbind option_bind].
  rewrite (realloc_shape _ _ _ _ _ _ (fb_highbitdepth c) Hc). fold (fb_shape c). pose proof (shape_frame_pos _ _ _ _ _ _ (fb_highbitdepth c) Hc) as Hpos. fold (fb_shape c) in Hpos.
  unfold realloc_frame_buffer_aligned. cbv zeta. destruct (_ <? shape_frame_size _); [eexists _, _, _; split; [done | by right] |].
  cbn [buffer_alloc_sz buffer_alloc yv12_zero aom_free]. rewrite (proj2 (Z.ltb_lt 0 _)) by lia. cbn [mbind option_bind].
  destruct (aom_memalign h 32 (shape_frame_size (fb_shape c))) as [[x |] h'] eqn:Em; eexists _, _, _; (split; [done |]).
  - left. split; [done |]. cbn. split; [lia |]. change 32 with (2 ^ 5) in Em. by apply (memalign_beside h fbs 5).
  - right. split; [done |]. revert Em. unfold aom_memalign. destruct (negb _); [by intros [= <-] |]. by destruct (c_malloc _ _); intros [= <-].
Qed.

(** The block of frame [k] given back. *)
Lemma release_cur s k b h : acct s [] -> bufs s !! k = Some b -> ifbs_ok h (int_fb (ints s)) ->
  let s1 := with_ints (av1_release_frame_buffer (ints s) (raw_frame_buffer b)) (with_heap h s) in
  acct (forget_raw k s1) [] /\ stale s1 k.
Proof.
  intros [(Lb & Lm & Li) He Hm _ Hp] Hb Hh s1. assert (with_raw None b = with_raw None (with_count (ref_count b) b)) as Eb by (by destruct b).
  assert (bufs (forget_raw k s1) = <[k := with_raw None b]> (bufs s)) as Ef by (change (bufs s) with (bufs s1) in Hb |- *; by apply forget_bufs). split.
  - split.
    + rewrite Ef, length_insert. split_and!; [done | done |]. cbn. destruct (raw_frame_buffer b); cbn; [by rewrite length_alter | done].
    + rewrite Ef. apply (exact_insert _ (holders s ++ []) _ k b); [done | done | apply (proj1 He) | done | exact (proj2 He k b Hb)].
    + rewrite Ef. cbn. destruct (raw_frame_buffer b) as [j |] eqn:Ej; [rewrite Eb; by apply memory_release |].
      assert (with_raw None b = b) as -> by (destruct b; cbn in *; by subst). by rewrite list_insert_id.
    + cbn. by apply release_ok.
    + rewrite Ef. cbn. apply (placed_insert _ _ k b); [| done | by right | done]. destruct (raw_frame_buffer b); [by apply placed_release | done].
  - intros c j Hc Hj. change (bufs s1) with (bufs s) in Hc. rewrite Hb in Hc. injection Hc as <-. cbn. rewrite Hj, in_use_release. tauto.
Qed.

Lemma upscale_ok c d s k : acct s [] -> dims_ok c -> dims_ok d -> cur_frame s = Some k -> (length (output_frames s) <= 4)%nat -> grain_image_frame_buffers s = [] ->
  exists r s', av1_superres_upscale c d s = Some (r, s') /\ same_vars s s' /\
    match r with NoFrame => acct (forget_raw k s') [] /\ stale s' k | _ => acct s' [] end.
Proof.
  intros Ha Hc Hd Hk Ho Hg. pose proof (holders_length s [] Ha) as Hl. rewrite Hk in Hl. change (length (option_list (Some k))) with 1%nat in Hl.
  unfold av1_superres_upscale. rewrite Hk. cbn [mbind option_bind]. destruct (alloc_copy (d_heap s) _ c Hc (ac_heap _ _ Ha)) as (err & y & h & -> & Hy). cbn [mbind option_bind]. cbv zeta.
  destruct Hy as [(-> & Hsz & Hbe) | [-> ->]]; [rewrite bool_decide_true by done | rewrite bool_decide_false by done]; cbn [negb].
  2: { exists NoCopy. eexists. split; [done |]. split; [by unfold same_vars |]. by destruct s. }
  assert (k ∈ holders s) as Hin by (unfold holders; rewrite Hk; set_solver). pose proof (ac_exact _ _ Ha) as [Hr _]. rewrite list.Forall_forall in Hr.
  destruct (lookup_lt_is_Some_2 (bufs s) k (Hr k ltac:(by rewrite app_nil_r))) as [b Hb]. change (bufs (with_heap h s)) with (bufs s). rewrite Hb. cbn [mbind option_bind].
  change (ints (with_heap h s)) with (ints s). destruct (release_cur s k b h Ha Hb (ifbs_ok_app _ _ _ Hbe)) as [Ha1 Hst]. cbv zeta in Ha1, Hst. set (s1 := with_ints _ _) in *.
  destruct (realloc_fb_ok d (forget_raw k s1) [] k Ha1 Hd) as (good & s2 & E2 & Ha2 & Hv2 & _ & Hf).
  { by rewrite app_nil_r. } { intros x. rewrite forget_lookup. change (bufs s1) with (bufs s). rewrite Hb. by intros [= <-]. }
  { rewrite app_nil_r. change (holders (forget_raw k s1)) with (holders s). change (grain_image_frame_buffers (forget_raw k s1)) with (grain_image_frame_buffers s). rewrite Hg. cbn [length]. lia. }
  destruct (realloc_forget d k s1 good s2 E2 ltac:(intros Eg; by apply Hf)) as (s3 & E3 & Ht & Hn). rewrite E3. cbn [mbind option_bind]. destruct good; cbn [negb].
  - rewrite (Ht eq_refl) in *. set (e := {| ifb_data := buffer_alloc y; ifb_size := _; ifb_in_use := true |}) in *.
    assert (ifbs_ok (d_heap s2) (int_fb (ints s2) ++ [e])) as Hbe2.
    { assert (ifbs_ok h (int_fb (ints s1) ++ [e])) as Hbe1.
      { replace (int_fb (ints s1) ++ [e]) with (int_fb (av1_release_frame_buffer (with_int_fb (int_fb (ints s) ++ [e]) (ints s)) (raw_frame_buffer b))); [by apply release_ok |].
        cbn. destruct (raw_frame_buffer b) as [j |] eqn:Ej; [| done]. cbn. apply alter_app_l.
        destruct (raws_unique _ _ _ k b j (ac_mem _ _ Ha) Hb Ej) as [(x & Hx & _) _]. by eapply lookup_lt_Some. }
      destruct (realloc_source d k s1 true s2 E3) as [[-> ->] | (size & r & Eq & Eg)]; [done |].
      eapply get_beside_ok; [exact Hbe1 | done | | exact Eg]. rewrite (fb_request_shape d Hd) in Eq. destruct (_ <? _); [done |]. injection Eq as <-.
      pose proof (shape_frame_pos _ _ _ _ _ _ (fb_highbitdepth d) Hd) as Hpos. fold (fb_shape d) in Hpos. lia. }
    unfold aom_free_frame_buffer. rewrite (proj2 (Z.ltb_lt 0 _)) by done. destruct (free_beside _ _ _ Hbe2) as (h3 & Ef & Hok3). cbn [ifb_data e] in Ef. rewrite Ef. cbn [mbind option_bind].
    exists Upscaled. eexists. split; [done |]. split; [exact Hv2 |]. destruct Ha2 as [L2 X2 M2 _ P2]. by split.
  - destruct (Hn eq_refl) as [-> Er]. destruct (Hf eq_refl) as (_ & _ & Hu). exists NoFrame, s3. split; [done |]. split; [exact Hv2 |]. split; [done |].
    intros x j Hx Hj Hin2. apply (Hst b j Hb); [| by apply Hu]. rewrite Hx in Er. change (bufs s1) with (bufs s) in Er. rewrite Hb in Er. injection Er as Er. congruence.
Qed.

Lemma give_up_ok s k : acct (forget_raw k s) [] -> cur_frame s = Some k -> sole s k -> stale s k ->
  exists s', release_current_frame s = Some s' /\ acct s' [] /\ cur_frame s' = None /\ ref_frame_map s' = ref_frame_map s /\
    output_frames s' = output_frames s /\ output_all_layers s' = output_all_layers s /\ grain_image_frame_buffers s' = grain_image_frame_buffers s.
Proof. intros Ha Hc Hs Hst. rewrite (give_up_forget s k) by done. exact (release_current_ok (forget_raw k s) k Ha Hc). Qed.
End Upscale.
