(* ===== verification/FrameRefs.v ===== *)
(** * What holds in every state of a decoder

    The states a decoder reaches by the steps of [BufferPool.v]: reference counts are exact, a
    frame has its own memory, and neither the sixteen buffers nor the sixteen blocks run
    out. *)

From stdpp Require Import gmap.
From S2P Require Import Prelude CodecTypes Mem Yv12 FrameBuffers BufferPool BufferPoolProof UpscaleProof.

Section States.
Context {F : Type} `{MallocOk}.
Implicit Types (s : dec_state F) (ph : phase).

(** What the phases add to the account. *)
Definition phase_ok ph s : Prop :=
  match ph with
  | Reading => cur_frame s = None /\ (length (grain_image_frame_buffers s) <= 4)%nat
  | Calling => cur_frame s = None /\ grain_image_frame_buffers s = []
  | InHeader => (exists k, cur_frame s = Some k /\ no_raw s k /\ sole s k) /\ grain_image_frame_buffers s = []
  | Shown => is_Some (cur_frame s) /\ grain_image_frame_buffers s = []
  | InFrame => (exists k, cur_frame s = Some k /\ sole s k) /\ grain_image_frame_buffers s = []
  | Failing => (exists k, cur_frame s = Some k /\ sole s k /\ stale s k) /\ grain_image_frame_buffers s = []
  end.

(** The state the account is of: a frame that has lost its memory has none. *)
Definition settled ph s : dec_state F :=
  match ph with Failing => match cur_frame s with Some k => forget_raw k s | None => s end | _ => s end.

Record state_ok ph s : Prop := { so_acct : acct (settled ph s) []; so_outputs : outputs_ok s; so_phase : phase_ok ph s }.

Lemma settled_same ph s : ph <> Failing -> settled ph s = s.
Proof. by destruct ph. Qed.

Lemma settled_started ph s : started ph -> settled ph s = s.
Proof. intros [-> | [-> | ->]]; done. Qed.

Lemma so_account ph s : started ph -> state_ok ph s -> acct s [].
Proof. intros Hs [Ha _ _]. by rewrite settled_started in Ha. Qed.

Lemma init_ok h0 l h layers f : av1_alloc_internal_frame_buffers h0 {| int_fb_array := None; int_fb := [] |} = Some (0, l, h) ->
  state_ok Calling (init_state h l layers f).
Proof.
  cbn. destruct (aom_calloc h0 _ _) as [[p |] h1]; [| done]. intros [= <- <-]. split; [| split; cbn; lia | done].
  assert (forall A (x y : A) n j, replicate n x !! j = Some y -> y = x) as Hrep by (intros A x y n j Hj; by apply lookup_replicate in Hj as [-> _]).
  split.
  - done.
  - split; [by apply Forall_nil |]. intros k b Hb. by rewrite (Hrep _ _ _ _ _ Hb).
  - split; [constructor | | intros k b Hb _; by rewrite (Hrep _ _ _ _ _ Hb)].
    intros j. split; [intros (b & Hb & Hu); by rewrite (Hrep _ ifb_zero _ 16%nat _ Hb) in Hu | cbn; set_solver].
  - split; [intros i b Hb; by rewrite (Hrep _ ifb_zero _ 16%nat _ Hb) |].
    intros i j b c x y a Hb _ Hx. by rewrite (Hrep _ ifb_zero _ 16%nat _ Hb) in Hx.
  - intros k b j Hb Hj. by rewrite (Hrep _ _ _ _ _ Hb) in Hj.
Qed.

Lemma phase_cur ph s : started ph -> phase_ok ph s -> exists k, cur_frame s = Some k /\ grain_image_frame_buffers s = [].
Proof. intros [-> | [-> | ->]]; [intros [(k & ? & _) ?] | intros [[k ?] ?] | intros [(k & ? & _) ?]]; eauto. Qed.

Lemma step_ok ph s ph' s' : state_ok ph s -> step (ph, s) (ph', s') -> state_ok ph' s'.
Proof.
  intros [Ha Ho Hp] Hs.
  inversion Hs as [? ? E | | ? k ? E | ? ? E | ? ? ? Hph E | d i ? good ? Hd Hi E | i r ? ? Hi E | ? k g ? ? Hph E | d k ? good ? Hd Hk E | c d ? r ? Hc Hd E | ? ? E | ? ? ? Hph E
    | ? dec cam shown flags ? err ? Hph Hf E | size syn ? good ? Hz E]; subst; clear Hs.
  - destruct (release_pending_ok s Ha) as (s1 & E1 & Ha1 & C1 & M1 & O1 & L1 & G1). rewrite E1 in E. injection E as <-.
    split; [done | unfold outputs_ok; rewrite O1; cbn; lia | split; [by rewrite C1; apply Hp | done]].
  - destruct Hp as [Hc Hg]. split; [done | done |]. split; [done | rewrite Hg; cbn; lia].
  - destruct Hp as [Hc Hg]. destruct (start_ok s Ha Hc (proj1 Ho)) as (k' & s1 & E1 & Ha1 & C1 & Hk & R1 & M1 & O1 & L1 & G1). rewrite E1 in E. injection E as <- <-.
    unfold holders in Hk. rewrite !not_elem_of_app in Hk. destruct Hk as (Hkm & _ & Hko).
    split; [done | unfold outputs_ok; by rewrite O1, L1 |]. split; [| congruence]. exists k'. split_and!; [done | done |]. split; [| by rewrite O1]. rewrite M1. intros Hin. apply Hkm, list_elem_of_omap. by exists (Some k').
  - destruct Hp as [Hc Hg]. destruct (start_ok s Ha Hc (proj1 Ho)) as (k' & s1 & E1 & _). congruence.
  - assert (ph' <> Failing) as Hnf by (by destruct Hph as [-> | ->]). rewrite settled_same in Ha by done.
    destruct (reset_map_ok s [] Ha) as (s1 & E1 & Ha1 & (C1 & O1 & L1 & G1) & R1 & M1). rewrite E1 in E. injection E as <-.
    split; [by rewrite settled_same | unfold outputs_ok; by rewrite O1, L1 |]. destruct Hph as [-> | ->].
    + destruct Hp as [(k & Hk & Hn & Hm & Hout) Hg]. split; [| congruence]. exists k. split_and!; [congruence | auto |]. split; [auto | by rewrite O1].
    + cbn in *. by rewrite C1, G1.
  - destruct Hp as [(k & Hk & Hn & Hm & Hout) Hg].
    destruct (missing_ok d i s k Ha Hd ltac:(unfold REF_FRAMES in *; lia) Hk Hn (proj1 Ho) Hg) as (g & s1 & E1 & Ha1 & (C1 & O1 & L1 & G1) & R1 & M1 & _).
    rewrite E1 in E. injection E as <- <-. split; [done | unfold outputs_ok; by rewrite O1, L1 |]. split; [| congruence]. exists k. split_and!; [congruence | done |]. split; [auto | by rewrite O1].
  - destruct Hp as [(k & Hk & Hn & _) Hg]. destruct (show_ok s k i r Ha Hk Hn Hi) as (s1 & E1 & Ha1 & C1 & M1 & O1 & L1 & G1). rewrite E1 in E. injection E as <-.
    split; [done | unfold outputs_ok; by rewrite O1, L1 | split; [eauto | congruence]].
  - rewrite (settled_started _ _ Hph) in Ha.
    destruct (decide (k < 16)%nat) as [Hk |]; [| exfalso; revert E; unfold set_frame; rewrite lookup_ge_None_2; [done | destruct Ha as [(-> & _)]; lia]].
    destruct (set_frame_ok k g s [] Ha Hk) as (s1 & E1 & Ha1 & (M1 & C1 & O1 & L1 & G1) & R1). rewrite E1 in E. injection E as <-.
    split; [by rewrite settled_started | unfold outputs_ok; by rewrite O1, L1 |]. destruct Hph as [-> | [-> | ->]]; cbn in *; unfold sole; rewrite C1, G1, ?M1, ?O1; try done.
    destruct Hp as [(k' & Hk' & Hn & Hsole) Hg]. split; [exists k'; split_and!; [done | auto | apply Hsole | apply Hsole] | done].
  - destruct Hp as [(k' & Hk' & Hn & Hm & Hout) Hg]. rewrite Hk in Hk'. injection Hk' as <-. pose proof (holders_length s [] Ha) as Hl. pose proof (option_list_le (cur_frame s)). destruct Ho as [O4 O1].
    destruct (realloc_fb_ok d s [] k Ha Hd) as (g & s1 & E1 & Ha1 & (M1 & C1 & P1 & L1 & G1) & _); [| done | |].
    + apply elem_of_app. left. unfold holders. rewrite Hk. set_solver.
    + rewrite app_nil_r, Hg. cbn [length]. lia.
    + rewrite E1 in E. injection E as <- <-. split; [done | unfold outputs_ok; by rewrite P1, L1 | split; [| congruence]]. exists k. split; [congruence |]. split; [by rewrite M1 | by rewrite P1].
  - destruct Hp as [(k & Hk & Hm & Hout) Hg]. destruct (upscale_ok c d s k Ha Hc Hd Hk (proj1 Ho) Hg) as (r' & s1 & E1 & (M1 & C1 & O1 & L1 & G1) & Hr). rewrite E1 in E. injection E as <- <-.
    assert (sole s1 k) as Hso by (split; [by rewrite M1 | by rewrite O1]). assert (outputs_ok s1) as Ho1 by (unfold outputs_ok; by rewrite O1, L1). assert (cur_frame s1 = Some k) as Hk1 by congruence.
    destruct r'; [split; [exact Hr | done | split; [eauto | congruence]].. |]. destruct Hr as [Har Hst]. split; [cbn; by rewrite Hk1 | done | split; [eauto | congruence]].
  - destruct Hp as [(k & Hk & Hso & Hst) Hg]. cbn in Ha. rewrite Hk in Ha. destruct (give_up_ok s k Ha Hk Hso Hst) as (s1 & E1 & Ha1 & C1 & M1 & O1 & L1 & G1). rewrite E1 in E. injection E as <-.
    split; [done | unfold outputs_ok; by rewrite O1, L1 | split; [done | congruence]].
  - rewrite (settled_started _ _ Hph) in Ha. destruct (phase_cur _ _ Hph Hp) as (k & Hk & Hg). destruct (release_current_ok s k Ha Hk) as (s1 & E1 & Ha1 & C1 & M1 & O1 & L1 & G1). rewrite E1 in E. injection E as <-.
    split; [done | unfold outputs_ok; by rewrite O1, L1 | split; [done | congruence]].
  - rewrite (settled_started _ _ Hph) in Ha. destruct (phase_cur _ _ Hph Hp) as (k & Hk & Hg). destruct (update_ok s k dec cam shown flags Ha Hk Ho Hf) as (err' & s1 & E1 & Ha1 & C1 & O1 & L1 & G1 & _).
    rewrite E1 in E. injection E as <- <-. split; [done | done | split; [done | congruence]].
  - destruct Hp as [Hc Hl]. assert (length (grain_image_frame_buffers s) < 4)%nat as Hlt.
    { revert E. unfold add_grain. cbv zeta. destruct (Z.leb_spec MAX_NUM_SPATIAL_LAYERS (Z.of_nat (length (grain_image_frame_buffers s)))); [done |]. intros _. unfold MAX_NUM_SPATIAL_LAYERS in *. lia. }
    destruct (add_grain_ok s size syn Ha Hc (proj1 Ho) Hlt Hz) as (g & s1 & E1 & Ha1 & C1 & M1 & O1 & L1 & G1 & _).
    rewrite E1 in E. injection E as <- <-. split; [done | unfold outputs_ok; by rewrite O1, L1 | split; [done | lia]].
Qed.

Lemma reachable_ok f ph s : reachable f ph s -> state_ok ph s.
Proof. induction 1 as [h0 l h layers E | ph s ph' s' _ IH Hs]; [by eapply init_ok | by eapply step_ok]. Qed.

Lemma settled_count ph s k b : bufs s !! k = Some b -> exists b', bufs (settled ph s) !! k = Some b' /\ ref_count b' = ref_count b.
Proof.
  intros Hb. destruct (decide (ph = Failing)) as [-> | Hne]; [| rewrite settled_same by done; eauto]. cbn. destruct (cur_frame s) as [c |]; [| eauto].
  destruct (decide (c = k)) as [-> | Hck]; [exists (with_raw None b); by rewrite forget_lookup, Hb | exists b]. split; [| done]. cbn. by rewrite list_lookup_alter_ne.
Qed.

Lemma settled_holders ph s : holders (settled ph s) = holders s.
Proof. by destruct ph; cbn; try done; destruct (cur_frame s). Qed.

(** The arrays of a decoder, and the buffers that it names. *)
Lemma state_shape ph s : state_ok ph s ->
  length (bufs s) = 16%nat /\ length (ref_frame_map s) = 8%nat /\ Forall (fun k => (k < length (bufs s))%nat) (holders s).
Proof.
  intros [[(Lb & Lm & _) [Hr _] _ _ _] _ _]. rewrite settled_holders, app_nil_r in Hr.
  assert (length (bufs (settled ph s)) = length (bufs s)) as El by (destruct ph; cbn; try done; destruct (cur_frame s); [apply length_alter | done]).
  assert (ref_frame_map (settled ph s) = ref_frame_map s) as Em by (destruct ph; cbn; try done; by destruct (cur_frame s)).
  rewrite El in *. rewrite Em in *. done.
Qed.

(** C22: In every state of a decoder, within a call and between calls, the count of each
    buffer of the pool is the number of reference-holding variables (the slots of
    [ref_frame_map], [cur_frame] and the frames to output) that hold it, as the comment
    above [ref_count] promises.  So no buffer is leaked, and none is given up while it is
    held. *)
Theorem reference_counts_exact f ph s k b : reachable f ph s -> bufs s !! k = Some b ->
  ref_count b = count (omap id (ref_frame_map s)) k + count (option_list (cur_frame s)) k + count (output_frames s) k.
Proof.
  intros Hr Hb. destruct (reachable_ok f ph s Hr) as [[_ [_ Hc] _ _ _] _ _]. destruct (settled_count ph s k b Hb) as (b' & Hb' & <-).
  by rewrite (Hc k b' Hb'), app_nil_r, settled_holders, count_holders.
Qed.

(** C23: Whenever a call wants to start a frame, the pool has a buffer for it, and one that
    neither a reference slot nor the application holds: the assertion of [get_free_fb]
    never fails. *)
Theorem frame_buffer_available f s : reachable f Calling s ->
  exists k s', assign_cur_frame_new_fb s = Some (Some k, s') /\ cur_frame s' = Some k /\
    (Some k ∉ ref_frame_map s) /\ (k ∉ output_frames s) /\ ref_frame_map s' = ref_frame_map s /\ output_frames s' = output_frames s.
Proof.
  intros Hr. destruct (reachable_ok f _ s Hr) as [Ha Ho [Hc _]]. destruct (start_ok s Ha Hc (proj1 Ho)) as (k & s1 & E & _ & C & Hk & _ & M & O & _).
  exists k, s1. unfold holders in Hk. rewrite !not_elem_of_app in Hk. destruct Hk as (Hm & _ & Hout). split_and!; try done.
  intros Hin. apply Hm, list_elem_of_omap. by exists (Some k).
Qed.

(** C25: While a header is read, memory for the frame, or for a reference that is missing,
    is refused only if the frame is larger than the library allows, or if the C library
    refuses the block: a block of the list that is not in use is given back to the heap
    the decoder has then, and [aom_calloc] of that heap fails.  So the sixteen internal
    blocks are always enough, since every block in use belongs to a frame that is held. *)
Theorem frame_memory_available f s d k i : reachable f InHeader s -> dims_ok d -> cur_frame s = Some k -> Z.of_nat i < REF_FRAMES ->
  (exists good s', realloc_fb d k s = Some (good, s') /\ (good = false -> no_memory d s)) /\
  (exists good s', replace_missing_ref d i s = Some (good, s') /\
     (good = false -> exists s1, drop_ref i s = Some s1 /\ d_heap s1 = d_heap s /\ no_memory d s1)).
Proof.
  intros Hr Hd Hk Hi. destruct (reachable_ok f _ s Hr) as [Ha Ho [(k' & Hk' & Hn & _) Hg]]. assert (k' = k) as -> by congruence. split.
  - pose proof (holders_length s [] Ha) as Hl. pose proof (option_list_le (cur_frame s)). pose proof (proj1 Ho).
    destruct (realloc_fb_ok d s [] k Ha Hd) as (g & s1 & E1 & _ & _ & _ & Hf); [| done | rewrite app_nil_r, Hg; cbn [length]; lia |].
    + apply elem_of_app. left. unfold holders. rewrite Hk. set_solver.
    + exists g, s1. split; [done |]. apply Hf.
  - destruct (missing_ok d i s k Ha Hd ltac:(unfold REF_FRAMES in *; lia) Hk Hn (proj1 Ho) Hg) as (g & s1 & E1 & _ & _ & _ & _ & Hf). eauto.
Qed.

(** C24: In every state of a decoder the planes of a frame with memory, borders included,
    lie inside one block of the list that is in use, the block is live in the C library,
    and no other frame of the pool and no copy with film grain has the same block or the
    same memory.  The one exception is the current frame once its upscaling has failed,
    until it is given up; the other frames keep their memory then too. *)
Theorem frames_have_own_memory f ph s k b j : reachable f ph s -> (ph = Failing -> cur_frame s <> Some k) ->
  bufs s !! k = Some b -> raw_frame_buffer b = Some j ->
  (exists x size a, block (ints s) j = Some (x, size) /\ owns (d_heap s) x size a /\ frame_in (rc_buf b) x size /\
     forall j' x' size', j' <> j -> block (ints s) j' = Some (x', size') -> words (d_heap s) !! (x' - 8) <> Some a) /\
  in_use (int_fb (ints s)) j /\
  (forall k' b', bufs s !! k' = Some b' -> raw_frame_buffer b' = Some j -> k' = k \/ (ph = Failing /\ cur_frame s = Some k')) /\
  j ∉ grain_image_frame_buffers s.
Proof.
  intros Hr Hph Hb Hj. destruct (reachable_ok f ph s Hr) as [Ha _ _].
  assert (forall q c, bufs s !! q = Some c -> (ph = Failing -> cur_frame s <> Some q) -> bufs (settled ph s) !! q = Some c) as Hset.
  { intros q c Hq Hc. destruct (decide (ph = Failing)) as [-> | Hne]; [| by rewrite settled_same]. cbn. destruct (cur_frame s) as [z |]; [| done]. cbn.
    rewrite list_lookup_alter_ne; [done |]. intros ->. by apply Hc. }
  assert (ints (settled ph s) = ints s /\ d_heap (settled ph s) = d_heap s /\ grain_image_frame_buffers (settled ph s) = grain_image_frame_buffers s) as (Ei & Eh & Eg)
    by (destruct ph; cbn; try done; by destruct (cur_frame s)).
  destruct Ha as [_ _ Hm Hh Hp]. rewrite Ei, Eh, Eg in *. destruct (Hp k b j (Hset k b Hb Hph) Hj) as (x & size & Hx & Hin).
  assert (forall j x size, block (ints s) j = Some (x, size) -> exists e, int_fb (ints s) !! j = Some e /\ ifb_data e = Some x /\ ifb_size e = size) as Hblock.
  { intros i y z Hy. unfold block in Hy. destruct (int_fb (ints s) !! i) as [e |]; [| done]. cbn in Hy. destruct (ifb_data e) as [y' |] eqn:Ey; [| done].
    cbn in Hy. injection Hy as <- <-. eauto. }
  destruct (Hblock _ _ _ Hx) as (e & He & Ex & Es). pose proof (io_owned _ _ Hh j e He) as Hw. rewrite Ex, Es in Hw. destruct Hw as (_ & _ & a & Hw).
  destruct (raws_unique _ _ _ k b j Hm (Hset k b Hb Hph) Hj) as (Hu & Hk & Hg). split_and!; try done.
  - exists x, size, a. split_and!; try done.
    intros j' x' size' Hne Hx' Hw'. destruct (Hblock _ _ _ Hx') as (e' & He' & Ex' & Es'). apply Hne. apply (io_apart _ _ Hh j' j e' e x' x a); try done. by destruct Hw.
  - intros k' b' Hb' Hj'. destruct (decide (ph = Failing /\ cur_frame s = Some k')) as [| Hno]; [by right | left]. apply (Hk k' b'); [| done]. apply Hset; [done |]. tauto.
Qed.

(** C26: A frame that ends updates exactly the reference slots whose bits are set in
    [refresh_frame_flags], and nothing when no frame was decoded or the header of a camera
    frame is kept.  A frame that is shown joins the frames to output behind those that
    wait, unless four spatial layers do, which is refused and leaves them as they are;
    when only one layer is output it replaces what is there; any other frame leaves the
    frames to output alone. *)
Theorem frame_end_updates f ph s k decoded camera shown flags : reachable f ph s -> started ph -> cur_frame s = Some k -> 0 <= flags < 256 ->
  exists err s', update_frame_buffers decoded camera shown flags s = Some (err, s') /\ reachable f Calling s' /\
    (forall i, (i < 8)%nat -> ref_frame_map s' !! i =
       if decoded && negb camera && Z.testbit flags (Z.of_nat i) then Some (Some k) else ref_frame_map s !! i) /\
    (decoded && shown = false -> err = AOM_CODEC_OK /\ output_frames s' = output_frames s) /\
    (decoded && shown = true -> output_all_layers s = false -> err = AOM_CODEC_OK /\ output_frames s' = [k]) /\
    (decoded && shown = true -> output_all_layers s = true -> (length (output_frames s) < 4)%nat -> err = AOM_CODEC_OK /\ output_frames s' = output_frames s ++ [k]) /\
    (decoded && shown = true -> output_all_layers s = true -> (4 <= length (output_frames s))%nat -> err = AOM_CODEC_UNSUP_BITSTREAM /\ output_frames s' = output_frames s) /\
    (length (output_frames s') <= 4)%nat.
Proof.
  intros Hr Hph Hk Hf. destruct (reachable_ok f ph s Hr) as [Ha Ho _]. rewrite (settled_started _ _ Hph) in Ha.
  destruct (update_ok s k decoded camera shown flags Ha Hk Ho Hf) as (err & s1 & E & _ & C & [O4 O1] & L & _ & M & K). exists err, s1. unfold outputs_after in K.
  split_and!; try done.
  - apply (Next f ph s); [done |]. by apply (Finish ph decoded camera shown flags s err).
  - intros i Hi. rewrite (M i Hi), Z.sub_0_r. cbn [Nat.leb andb]. destruct (decoded && negb camera); cbn [andb]; [done | by rewrite Z.bits_0].
  - intros Ed. rewrite Ed in K. by injection K.
  - intros Ed El. rewrite Ed, El in K. by injection K.
  - intros Ed El Hl. rewrite Ed, El, (proj2 (Nat.ltb_lt _ _) Hl) in K. by injection K.
  - intros Ed El Hl. rewrite Ed, El, (proj2 (Nat.ltb_ge _ _) Hl) in K. by injection K.
Qed.
End States.

(** ** A decoder that shows one frame *)

Definition demo_dims : fb_dims :=
  {| fb_width := 16; fb_height := 16; fb_ss_x := 1; fb_ss_y := 1; fb_highbitdepth := false; fb_border := 64; fb_byte_alignment := 0 |}.

Definition demo_begin : dec_state unit :=
  match av1_alloc_internal_frame_buffers demo_heap {| int_fb_array := None; int_fb := [] |} with
  | Some (_, l, h) => init_state h l false tt
  | None => init_state demo_heap {| int_fb_array := None; int_fb := [] |} false tt
  end.
Definition demo_header : dec_state unit := default demo_begin (snd <$> assign_cur_frame_new_fb demo_begin).
Definition demo_frame : dec_state unit := default demo_begin (snd <$> realloc_fb demo_dims 0 demo_header).
Definition demo_shown : dec_state unit := default demo_begin (snd <$> update_frame_buffers true false true 255 demo_frame).

Lemma demo_dims_ok : dims_ok demo_dims.
Proof. split; [cbn; lia | cbn; auto | split; [cbn; lia | reflexivity] | cbn; auto]. Qed.

Lemma demo_begin_reachable : reachable tt Calling demo_begin.
Proof. unfold demo_begin. destruct (av1_alloc_internal_frame_buffers demo_heap _) as [[[e l] h] |] eqn:E; [| by vm_compute in E]. eapply (Init tt demo_heap). assert (e = 0) as <-; [| exact E]. revert E. vm_compute. by intros [= <-]. Qed.
Lemma demo_header_reachable : reachable tt InHeader demo_header.
Proof. apply (Next tt Calling demo_begin); [apply demo_begin_reachable |]. apply (Start _ 0). vm_compute. reflexivity. Qed.
Lemma demo_frame_reachable : reachable tt InFrame demo_frame.
Proof. apply (Next tt InHeader demo_header); [apply demo_header_reachable |]. apply (Setup demo_dims 0 _ true); [apply demo_dims_ok | reflexivity | vm_compute; reflexivity]. Qed.
Lemma demo_shown_reachable : reachable tt Calling demo_shown.
Proof.
  apply (Next tt InFrame demo_frame); [apply demo_frame_reachable |].
  apply (Finish _ true false true 255 _ AOM_CODEC_OK); [by right; right | by unfold REF_FRAMES | vm_compute; reflexivity].
Qed.

Lemma reference_counts_exact_witness :
  reachable tt Calling demo_shown /\ exists b, bufs demo_shown !! 0%nat = Some b /\ ref_count b = 9 /\
    ref_count b = count (omap id (ref_frame_map demo_shown)) 0 + count (option_list (cur_frame demo_shown)) 0 + count (output_frames demo_shown) 0.
Proof.
  split; [apply demo_shown_reachable |]. destruct (bufs demo_shown !! 0%nat) as [b |] eqn:E; [| by vm_compute in E]. exists b. split; [done |].
  pose proof (reference_counts_exact tt Calling demo_shown 0 b demo_shown_reachable E) as Hc. split; [| exact Hc]. rewrite Hc. vm_compute. reflexivity.
Defined.

Lemma frame_buffer_available_witness :
  exists k s', assign_cur_frame_new_fb demo_shown = Some (Some k, s') /\ cur_frame s' = Some k /\
    (Some k ∉ ref_frame_map demo_shown) /\ (k ∉ output_frames demo_shown) /\ ref_frame_map s' = ref_frame_map demo_shown /\
    output_frames s' = output_frames demo_shown.
Proof. apply (frame_buffer_available tt), demo_shown_reachable. Defined.

Lemma frame_memory_available_witness :
  (exists good s', realloc_fb demo_dims 0 demo_header = Some (good, s') /\ (good = false -> no_memory demo_dims demo_header)) /\
  (exists good s', replace_missing_ref demo_dims 3 demo_header = Some (good, s') /\
     (good = false -> exists s1, drop_ref 3 demo_header = Some s1 /\ d_heap s1 = d_heap demo_header /\ no_memory demo_dims s1)).
Proof.
  apply (frame_memory_available tt); [apply demo_header_reachable | apply demo_dims_ok | reflexivity | unfold REF_FRAMES; lia].
Defined.

Lemma frames_have_own_memory_witness :
  exists b, bufs demo_shown !! 0%nat = Some b /\
  (exists x size a, block (ints demo_shown) 0 = Some (x, size) /\ owns (d_heap demo_shown) x size a /\ frame_in (rc_buf b) x size /\
     forall j' x' size', j' <> 0%nat -> block (ints demo_shown) j' = Some (x', size') -> words (d_heap demo_shown) !! (x' - 8) <> Some a) /\
  in_use (int_fb (ints demo_shown)) 0 /\
  (forall k' b', bufs demo_shown !! k' = Some b' -> raw_frame_buffer b' = Some 0%nat -> k' = 0%nat \/ (Calling = Failing /\ cur_frame demo_shown = Some k')) /\ (0%nat ∉ grain_image_frame_buffers demo_shown).
Proof.
  destruct (bufs demo_shown !! 0%nat) as [b |] eqn:E; [| by vm_compute in E]. exists b. split; [done |].
  apply (frames_have_own_memory tt Calling demo_shown 0 b 0 demo_shown_reachable); [intros Ef; discriminate Ef | exact E |]. revert E. vm_compute. by intros [= <-].
Defined.

Lemma frame_end_updates_witness :
  exists err s', update_frame_buffers true false true 5 demo_frame = Some (err, s') /\ reachable tt Calling s' /\
    (forall i, (i < 8)%nat -> ref_frame_map s' !! i =
       if true && negb false && Z.testbit 5 (Z.of_nat i) then Some (Some 0%nat) else ref_frame_map demo_frame !! i) /\
    (true && true = false -> err = AOM_CODEC_OK /\ output_frames s' = output_frames demo_frame) /\
    (true && true = true -> output_all_layers demo_frame = false -> err = AOM_CODEC_OK /\ output_frames s' = [0%nat]) /\
    (true && true = true -> output_all_layers demo_frame = true -> (length (output_frames demo_frame) < 4)%nat ->
       err = AOM_CODEC_OK /\ output_frames s' = output_frames demo_frame ++ [0%nat]) /\
    (true && true = true -> output_all_layers demo_frame = true -> (4 <= length (output_frames demo_frame))%nat ->
       err = AOM_CODEC_UNSUP_BITSTREAM /\ output_frames s' = output_frames demo_frame) /\
    (length (output_frames s') <= 4)%nat.
Proof. apply (frame_end_updates tt InFrame); [apply demo_frame_reachable | by right; right | reflexivity | lia]. Defined.

(** ** Reading a frame again *)

Definition demo_grain (s : dec_state unit) : dec_state unit := default demo_begin (snd <$> add_grain 1024 true s).

(** C27: [decoder_get_frame] keeps a descriptor for every copy with film grain it makes
    until the next call of [decoder_decode], in an array of one entry per spatial layer.
    An application that starts the iteration over one shown frame again, as it may while
    the list of frames is valid, gets four copies, and the fifth time the descriptor is
    written past the end of the array. *)
Theorem grain_copies_overrun : exists s s1 s2 s3 s4 : dec_state unit,
  reachable tt Reading s /\ length (output_frames s) = 1%nat /\
  add_grain 1024 true s = Some (true, s1) /\ add_grain 1024 true s1 = Some (true, s2) /\
  add_grain 1024 true s2 = Some (true, s3) /\ add_grain 1024 true s3 = Some (true, s4) /\ add_grain 1024 true s4 = None.
Proof.
  set (s1 := demo_grain demo_shown). set (s2 := demo_grain s1). set (s3 := demo_grain s2). exists demo_shown, s1, s2, s3, (demo_grain s3).
  split; [apply (Next tt Calling demo_shown); [apply demo_shown_reachable | constructor] |].
  repeat split; vm_compute; reflexivity.
Qed.
