(* ===== verification/HeaderIO.v ===== *)
(** * Header programs

    Headers are written field by field into a bit buffer and read back with control flow
    that depends on the fields before.  [carries] relates a writing program to the reading
    program that recovers a value from its bits; [carries_obu] takes it through the trailing
    bits that end an OBU. *)

From S2P Require Import Prelude CodecTypes BitChannel BitBuffer EntCoder RangeSpec Cdf EntEncProof EntDecProof EntRoundTrip SymbolIO SyntaxIO Tile TileInfo Leb128 Obu.

#[local] Arguments Z.of_nat : simpl never.
#[local] Arguments Z.mul : simpl never.

(** ** Clean buffers *)

(** What is left of the byte being written is zero. *)
Definition wb_clean (w : aom_write_bit_buffer) : Prop :=
  wb_bit_offset w mod 8 <> 0 -> forall i, (Z.to_nat (wb_bit_offset w) <= i)%nat ->
    Z.of_nat i < wb_bit_offset w + (8 - wb_bit_offset w mod 8) -> bit_at (wb_bit_buffer w) i = false.

Lemma wb_clean_start dst : wb_clean {| wb_bit_buffer := dst; wb_bit_offset := 0 |}.
Proof. intros H. by destruct H. Qed.

(** A new byte starts as the bit shifted to its top. *)
Lemma write_bit_fresh w b w' : 0 <= wb_bit_offset w -> wb_bit_offset w + 1 <= 8 * Z.of_nat (length (wb_bit_buffer w)) < 2 ^ 31 ->
  wb_bit_offset w mod 8 = 0 -> aom_wb_write_bit w (b2z b) = Some w' -> wb_clean w'.
Proof.
  intros Ho Hl H0. unfold aom_wb_write_bit. destruct (wb_position (wb_bit_offset w)) as (Ep & Eq & Eu); [lia |].
  rewrite Ep, Eq, Eu. set (off := Z.to_nat (wb_bit_offset w)).
  assert (off mod 8 = 0)%nat as E8 by (unfold off; change 8%nat with (Z.to_nat 8); rewrite <- Z2Nat.inj_mod by lia; rewrite H0; done).
  assert ((off / 8 < length (wb_bit_buffer w))%nat) as Hlt by (apply Nat.Div0.div_lt_upper_bound; lia).
  rewrite nth_lookup_Z by done. cbn [mbind option_bind]. rewrite E8. change (7 - Z.of_nat 0) with 7.
  change (8 - 1) with 7. rewrite Z.eqb_refl. intros [= <-]. intros _ i Hi Hi'. cbn [wb_bit_buffer wb_bit_offset] in *.
  pose proof (Nat.div_mod_eq off 8) as Eoff. pose proof (Nat.div_mod_eq i 8) as Ei.
  pose proof (Nat.mod_upper_bound i 8 ltac:(lia)).
  replace ((wb_bit_offset w + 1) mod 8) with 1 in Hi' by (Z.to_euclidean_division_equations; lia).
  assert (i / 8 = off / 8)%nat as Ed by lia. assert (0 < i mod 8)%nat by lia.
  rewrite bit_at_insert_eq by done. unfold u8, wrap. rewrite Z.mod_pow2_bits_low, Z.shiftl_spec by lia.
  apply Z.testbit_neg_r. lia.
Qed.

Lemma wb_put_clean w n b : wb_room w (S n) /\ wb_clean w ->
  exists w', put_bit w (b2z b) = Some w' /\ wb_sent w [b] w' /\ (wb_room w' n /\ wb_clean w').
Proof.
  intros [Hr Hc]. destruct (wb_put_ok w n b Hr) as (w' & E & Hs & Hr'). exists w'. split_and!; try done.
  destruct Hr as [Ho Hl]. destruct Hs as (_ & _ & Eo). cbn [length] in Eo. change (Z.of_nat 1) with 1 in Eo.
  destruct (Z.eq_dec (wb_bit_offset w mod 8) 0) as [H0 | Hn].
  { apply (write_bit_fresh w b); [done | lia | done | exact E]. }
  unfold put_bit, wb_sink in E. rewrite write_is_overwrite in E by lia.
  destruct (overwrite_bit_writes w b Ho ltac:(lia)) as (bs' & Eb & _ & _ & Hi). rewrite Eb in E. injection E as <-.
  cbn [wb_bit_offset] in *. intros Hn' i Hge Hlt. cbn [wb_bit_buffer wb_bit_offset] in *.
  rewrite Hi by lia. apply Hc; [done | lia |].
  revert Hlt Hn'. Z.to_euclidean_division_equations. lia.
Qed.

(** The plain buffer as a carrier that stays clean. *)
Definition wb_clean_ok : BitSinkOk bool aom_write_bit_buffer :=
  {| sink_bit := fun b => b; room := fun w n => wb_room w n /\ wb_clean w; sent := wb_sent;
     sent_nil := wb_sent_nil; sent_app := wb_sent_app; put_bit_ok := wb_put_clean |}.

(** ** Programs *)

Definition hwriter : Type := writer aom_write_bit_buffer unit.
Definition hreader (A : Type) : Type := reader aom_read_bit_buffer A.

Definition h_write (f : aom_write_bit_buffer -> option aom_write_bit_buffer) : hwriter :=
  fun w => w ← f w; Some (tt, w).

Definition w_hbit (v : Z) : hwriter := h_write (fun w => aom_wb_write_bit w v).
Definition w_flag (b : bool) : hwriter := w_hbit (b2z b).
Definition w_hlit (v bits : Z) : hwriter := h_write (fun w => aom_wb_write_literal w v bits).
Definition w_hulit (v bits : Z) : hwriter := h_write (fun w => aom_wb_write_unsigned_literal w v bits).
Definition w_uvlc (v : Z) : hwriter := h_write (fun w => aom_wb_write_uvlc w v).

(** A flag kept as a truth value. *)
Definition r_flag : hreader bool := b ← aom_rb_read_bit; mret (negb (b =? 0)).

(** ** What is written is read *)

Definition run_w (m : hwriter) (w : aom_write_bit_buffer) : option aom_write_bit_buffer := '(_, w) ← m w; Some w.

(** [m] writes at most [N] bits, from which [k] recovers [a], on any buffer that holds
    them. *)
Definition carries {A} (N : nat) (m : hwriter) (k : hreader A) (a : A) : Prop :=
  exists bits, (length bits <= N)%nat /\ emits (snk_ok := wb_clean_ok) (run_w m) bits /\
    forall buf h, takes (src_ok := rb_source_ok buf h) k bits a.

Lemma carries_ret {A} (a : A) : carries 0 (mret tt) (mret a) a.
Proof.
  exists []. split_and!; [done | apply (emits_nil (snk_ok := wb_clean_ok)) |]. intros. apply takes_ret.
Qed.

Lemma carries_bind {A B} N1 N2 (m1 m2 : hwriter) (k : hreader A) (f : A -> hreader B) a b :
  carries N1 m1 k a -> carries N2 m2 (f a) b -> carries (N1 + N2) (_ ← m1; m2) (k ≫= f) b.
Proof.
  intros (b1 & L1 & W1 & R1) (b2 & L2 & W2 & R2). exists (b1 ++ b2).
  split_and!; [rewrite length_app; lia | | intros; by eapply takes_bind].
  intros w n Hr. destruct (emits_app (snk_ok := wb_clean_ok) _ _ _ _ W1 W2 w n Hr) as (w' & E & H). exists w'. split; [| done].
  rewrite <- E. unfold run_w, mbind, writer_bind, option_bind. by destruct (m1 w) as [[? ?]|].
Qed.

Lemma carries_le {A} N N' (m : hwriter) (k : hreader A) a : (N <= N')%nat -> carries N m k a -> carries N' m k a.
Proof. intros Hn (bits & Hl & H). exists bits. split; [lia | exact H]. Qed.

(** A computation after reading. *)
Lemma carries_post {A B} N (m : hwriter) (k : hreader A) (f : A -> hreader B) a b :
  carries N m k a -> (forall r, f a r = Ok (b, r)) -> carries N m (k ≫= f) b.
Proof.
  intros (bits & Hl & Hw & Hr) Hf. exists bits. split_and!; try done. intros buf h r es Hp.
  destruct (Hr buf h r es Hp) as (r' & E & Hp'). exists r'. split; [| done].
  by rewrite (reader_bind_ok _ _ _ _ _ E).
Qed.

(** Reading programs that behave alike. *)
Lemma carries_ext {A} N (m : hwriter) (k k' : hreader A) a :
  (forall r, k r = k' r) -> carries N m k a -> carries N m k' a.
Proof.
  intros Hk (bits & Hl & Hw & Hr). exists bits. split_and!; try done. intros buf h r es Hp.
  destruct (Hr buf h r es Hp) as (r' & E & Hp'). exists r'. by rewrite <- Hk.
Qed.

Lemma carries_assoc_r {A B C} N (m : hwriter) (k : hreader A) (f : A -> hreader B) (g : B -> hreader C) c :
  carries N m ((k ≫= f) ≫= g) c -> carries N m (k ≫= (fun x => f x ≫= g)) c.
Proof. apply carries_ext. intros r. unfold mbind, reader_bind. by destruct (k r) as [[? ?] | |]. Qed.

Lemma carries_ext_w {A} N (m m' : hwriter) (k : hreader A) a :
  (forall w, m w = m' w) -> carries N m k a -> carries N m' k a.
Proof.
  intros Hm (bits & Hl & Hw & Hr). exists bits. split_and!; try done. intros w n Hn.
  destruct (Hw w n Hn) as (w' & E & H). exists w'. unfold run_w. by rewrite <- Hm.
Qed.

Lemma carries_flat {A} N (m1 m2 m3 : hwriter) (k : hreader A) a :
  carries N (_ ← m1; _ ← m2; m3) k a -> carries N (_ ← (_ ← m1; m2); m3) k a.
Proof. apply carries_ext_w. intros w. unfold mbind, writer_bind. by destruct (m1 w) as [[? ?]|]. Qed.

Lemma carries_group {A} N (m1 m2 m3 : hwriter) (k : hreader A) a :
  carries N (_ ← (_ ← m1; m2); m3) k a -> carries N (_ ← m1; _ ← m2; m3) k a.
Proof. apply carries_ext_w. intros w. unfold mbind, writer_bind. by destruct (m1 w) as [[? ?]|]. Qed.

(** Nothing written, nothing read. *)
Lemma carries_skip_w {A} N (m : hwriter) (k : hreader A) a : carries N m k a -> carries N (_ ← mret tt; m) k a.
Proof. by apply carries_ext_w. Qed.
Lemma carries_skip_r {A B} N (m : hwriter) (x : B) (k : B -> hreader A) a :
  carries N m (k x) a -> carries N m (mret x ≫= k) a.
Proof. by apply carries_ext. Qed.
(** A step that reads nothing. *)
Lemma carries_known {A B} N (m : hwriter) (k : hreader A) (f : A -> hreader B) a b :
  (forall r, k r = Ok (a, r)) -> carries N m (f a) b -> carries N m (k ≫= f) b.
Proof. intros Hk. apply carries_ext. intros r. by rewrite (reader_bind_ok _ _ _ _ _ (Hk r)). Qed.
Lemma carries_flat_r {A B C} N (m : hwriter) (k : hreader A) (f : A -> hreader B) (g : B -> hreader C) c :
  carries N m (k ≫= (fun x => f x ≫= g)) c -> carries N m ((k ≫= f) ≫= g) c.
Proof. apply carries_ext. intros r. unfold mbind, reader_bind. by destruct (k r) as [[? ?] | |]. Qed.

(** *** Tactics *)

(** A field followed by the rest of a program. *)
Ltac carry lem := eapply carries_bind; [apply lem | cbv beta iota zeta].
Ltac within n := apply (carries_le n); [lia |].

(** Sequences of fields, once the conditions are decided. *)
Ltac flatten := cbv beta iota zeta; repeat (first
  [ match goal with |- carries _ (mbind _ (mbind _ _)) _ _ => apply carries_flat end
  | match goal with |- carries _ (mbind _ (mret _)) _ _ => apply carries_skip_w end
  | match goal with |- carries _ _ (mbind _ (mret _)) _ => apply carries_skip_r end
  | match goal with |- carries _ _ (mbind _ (mbind _ _)) _ => apply carries_flat_r end ]; cbv beta iota zeta).
(** The number of bits is added up on the way. *)
Ltac measured := eapply carries_le; cycle 1.

(** ** Fields *)

Lemma carries_write {A} N f (k : hreader A) bits a :
  emits (snk_ok := wb_clean_ok) f bits -> (forall buf h, takes (src_ok := rb_source_ok buf h) k bits a) ->
  (length bits <= N)%nat -> carries N (h_write f) k a.
Proof.
  intros He Ht Hl. exists bits. split_and!; [done | | done]. intros w n Hr.
  destruct (He w n Hr) as (w' & E & H). exists w'. split; [| exact H].
  unfold run_w, h_write. by rewrite E.
Qed.

Lemma carries_bit v : v = 0 \/ v = 1 -> carries 1 (w_hbit v) aom_rb_read_bit v.
Proof.
  intros Hv. assert (exists b, v = b2z b) as [b ->] by (destruct Hv as [-> | ->]; [by exists false | by exists true]).
  apply (carries_write 1 _ _ [b]); [apply (emits_put (snk_ok := wb_clean_ok)) | | done]. intros. apply takes_get.
Qed.

Lemma carries_flag b : carries 1 (w_flag b) r_flag b.
Proof.
  unfold w_flag, r_flag. eapply carries_post; [apply carries_bit; destruct b; auto |]. intros r. by destruct b.
Qed.

Lemma carries_lit v bits : 0 <= bits <= 32 -> 0 <= v < 2 ^ bits ->
  carries 32 (w_hlit v bits) (aom_rb_read_literal bits) v.
Proof.
  intros Hb Hv. apply (carries_write 32 _ _ (lit_bits (Z.to_nat bits) v)).
  - apply (emits_literal (snk_ok := wb_clean_ok)).
  - intros. apply takes_literal; lia.
  - rewrite length_lit_bits. lia.
Qed.

Lemma carries_ulit v bits : 0 <= bits <= 32 -> 0 <= v < 2 ^ bits ->
  carries 32 (w_hulit v bits) (aom_rb_read_unsigned_literal bits) v.
Proof. apply carries_lit. Qed.

Lemma carries_uvlc v : 0 <= v < UINT32_MAX -> carries 63 (w_uvlc v) aom_rb_read_uvlc v.
Proof.
  intros Hv. apply (carries_write 63 _ _ (uvlc_bits v)).
  - by apply (emits_uvlc wb_clean_ok).
  - intros. by apply takes_uvlc.
  - unfold uvlc_bits. rewrite length_app, length_replicate, length_cons, length_lit_bits.
    unfold UINT32_MAX in Hv. pose proof (log2_bound (v + 1) 32 ltac:(lia) ltac:(lia)). lia.
Qed.

(** ** Signed fields *)

Definition w_hslit (v bits : Z) : hwriter := h_write (fun w => aom_wb_write_inv_signed_literal w v bits).
Definition w_refsub (n k ref v : Z) : hwriter := h_write (fun w => aom_wb_write_signed_primitive_refsubexpfin w n k ref v).

Lemma carries_slit v bits : 0 <= bits <= 30 -> - 2 ^ bits <= v < 2 ^ bits ->
  carries 32 (w_hslit v bits) (aom_rb_read_inv_signed_literal bits) v.
Proof.
  intros Hb Hv. apply (carries_write 32 _ _ (lit_bits (Z.to_nat (bits + 1)) v)).
  - apply (emits_literal (snk_ok := wb_clean_ok)).
  - intros buf h. rewrite <- lit_bits_mod, Z2Nat.id by lia.
    eapply takes_bind_ret; [| by apply sign_extend].
    apply takes_literal; [lia |]. apply Z.mod_pos_bound, pow2_pos. lia.
  - rewrite length_lit_bits. lia.
Qed.

(** ** Whole payloads *)

(** Written from the start of a buffer and closed with trailing bits, a header is read back
    from the bytes written, whatever follows them, and the check of the trailing bits
    succeeds and ends at the last of these bytes. *)
Lemma carries_obu {A} N (m : hwriter) (k : hreader A) a dst code :
  carries N m k a -> Z.of_nat N + 8 <= 8 * Z.of_nat (length dst) < 2 ^ 31 ->
  exists w1 w2, m {| wb_bit_buffer := dst; wb_bit_offset := 0 |} = Some (tt, w1) /\
    add_trailing_bits w1 = Some w2 /\ length (wb_bit_buffer w2) = length dst /\
    0 < aom_wb_bytes_written w2 /\ 8 * aom_wb_bytes_written w2 <= Z.of_nat N + 8 /\
    forall tail h,
      let buf := take (Z.to_nat (aom_wb_bytes_written w2)) (wb_bit_buffer w2) ++ tail in
      8 * Z.of_nat (length buf) < 2 ^ 32 ->
      exists rb, k {| rb_bit_buffer := buf; rb_bit_offset := 0; rb_error_handler := h |} = Ok (a, rb) /\
        av1_check_trailing_bits code rb = Ok ((0, code),
          {| rb_bit_buffer := buf; rb_bit_offset := 8 * aom_wb_bytes_written w2; rb_error_handler := h |}).
Proof.
  intros (bits & Hl & He & Ht) Hd. set (w0 := {| wb_bit_buffer := dst; wb_bit_offset := 0 |}).
  destruct (He w0 8%nat) as (w1 & E1 & Hs & _ & Hc).
  { split; [split; cbn [wb_bit_offset wb_bit_buffer w0]; lia | apply wb_clean_start]. }
  change (wb_sent w0 (id <$> bits) w1) in Hs. rewrite list_fmap_id in Hs. destruct Hs as (Hw & Hlen & Ho).
  cbn [wb_bit_offset wb_bit_buffer w0] in Ho, Hlen. rewrite Z.add_0_l in Ho.
  change (written w1 = [] ++ bits) in Hw. cbn [app] in Hw.
  unfold run_w in E1. destruct (m w0) as [[[] w1']|] eqn:Em; [| done]. cbn in E1. injection E1 as ->.
  set (n := Z.to_nat (7 - wb_bit_offset w1 mod 8)).
  pose proof (Z.mod_pos_bound (wb_bit_offset w1) 8 ltac:(lia)) as Hmod.
  assert (Z.of_nat (S n) = 8 - wb_bit_offset w1 mod 8) as En by (unfold n; lia).
  destruct (trailing_written w1 n) as (w2 & E2 & Hb2 & Hl2 & Hn2 & Hw2); [lia | done | rewrite Hlen; lia | |].
  { intros Hne i Hi Hi'. apply Hc; [done | done | lia]. }
  exists w1, w2. split_and!; [done | done | congruence | lia | lia |]. intros tail h buf Hbuf.
  assert (forall i, (i < 8 * Z.to_nat (aom_wb_bytes_written w2))%nat -> bit_at buf i = bit_at (wb_bit_buffer w2) i) as Hpre
    by (intros i Hi; apply bit_at_prefix; lia).
  assert (8 * aom_wb_bytes_written w2 <= 8 * Z.of_nat (length buf)) as Hge
    by (unfold buf; rewrite length_app, length_take; lia).
  destruct (Ht buf h {| rb_bit_buffer := buf; rb_bit_offset := 0; rb_error_handler := h |}
    (bits_range buf (length bits) (8 * length buf - length bits))) as (rb & Ek & Hp).
  { unfold pending, rb_source_ok, source_bit, rb_pending, rb_wf, remaining.
    cbn [rb_bit_buffer rb_bit_offset rb_error_handler]. split_and!; try done; try lia.
    rewrite list_fmap_id. replace (8 * length buf - Z.to_nat 0)%nat with (length bits + (8 * length buf - length bits))%nat by lia.
    rewrite bits_range_app. f_equal. rewrite <- Hw, <- Hw2. rewrite Ho, Nat2Z.id.
    rewrite length_bits_range. apply bits_range_ext. intros j Hj. apply Hpre. lia. }
  exists rb. split; [exact Ek |]. apply pending_offset in Hp. rewrite Hp, length_bits_range.
  replace (8 * Z.of_nat (length buf) - Z.of_nat (8 * length buf - length bits)) with (wb_bit_offset w1) by lia.
  rewrite (check_trailing_ok code buf h (wb_bit_offset w1) n); [do 3 f_equal; lia | lia | done | lia | done |].
  rewrite <- Hb2. apply bits_range_ext. intros j Hj. apply Hpre. lia.
Qed.

(** ** Readings of any bytes *)

Lemma yields_le {A} (m : hreader A) P Q : yields m P -> (forall a, P a -> Q a) -> yields m Q.
Proof. intros Hm HQ rb. specialize (Hm rb). destruct (m rb) as [[a ?] | |]; auto. Qed.

Lemma yields_raise {A} e (P : A -> Prop) : yields (raise e) P.
Proof. by intros rb. Qed.

Lemma yields_flag : yields r_flag (fun _ => True).
Proof. unfold r_flag. eapply yields_bind; [exact yields_bit |]. intros b _. by apply yields_ret. Qed.

Lemma yields_lit bits : 0 <= bits -> yields (aom_rb_read_literal bits) (fun v => 0 <= v < 2 ^ bits).
Proof. intros Hb. eapply yields_le; [apply yields_literal |]. intros v. by rewrite Z.max_l. Qed.

Lemma yields_ulit bits : 0 <= bits -> yields (aom_rb_read_unsigned_literal bits) (fun v => 0 <= v < 2 ^ bits).
Proof. apply yields_lit. Qed.

Lemma yields_uvlc_zeros fuel n : yields (uvlc_zeros_loop fuel n) (fun _ => True).
Proof.
  revert n. induction fuel as [| fuel IH]; intros n; cbn [uvlc_zeros_loop]; [by apply yields_ret |].
  eapply yields_bind; [exact yields_bit |]. intros b _. destruct (b =? 0); [apply IH | by apply yields_ret].
Qed.

Lemma yields_uvlc : yields aom_rb_read_uvlc (fun v => 0 <= v <= UINT32_MAX).
Proof.
  unfold aom_rb_read_uvlc. eapply yields_bind; [apply yields_uvlc_zeros |]. intros z _.
  destruct (z =? 32); [apply yields_ret; unfold UINT32_MAX; lia |].
  eapply yields_bind; [apply yields_literal |]. intros v _. apply yields_ret. unfold UINT32_MAX.
  pose proof (u32_range (u32 (Z.shiftl 1 z - 1) + v)). lia.
Qed.

Lemma yields_slit bits : 0 <= bits <= 30 ->
  yields (aom_rb_read_inv_signed_literal bits) (fun v => - 2 ^ bits <= v < 2 ^ bits).
Proof.
  intros Hb. unfold aom_rb_read_inv_signed_literal. cbv zeta. eapply yields_bind; [apply yields_lit; lia |]. intros v Hv. cbv beta in Hv.
  apply yields_ret. pose proof (pow2_pos bits ltac:(lia)).
  assert (2 ^ (bits + 1) = 2 * 2 ^ bits) as E by (rewrite Z.pow_add_r by lia; lia).
  set (u := if v <? 2 ^ bits then v else v - 2 ^ (bits + 1)).
  assert (- 2 ^ bits <= u < 2 ^ bits) as Hu by (unfold u; destruct (Z.ltb_spec v (2 ^ bits)); lia).
  rewrite (sign_extend v u bits); [done | lia | done |]. unfold u.
  destruct (Z.ltb_spec v (2 ^ bits)); [by rewrite Z.mod_small by lia |].
  rewrite <- (Z.mod_small v (2 ^ (bits + 1))) at 1 by lia.
  replace (v - 2 ^ (bits + 1)) with (v + (-1) * 2 ^ (bits + 1)) by lia. by rewrite Z.mod_add by lia.
Qed.

(** One field, then the rest. *)
Ltac next lem := eapply yields_bind; [apply lem | cbv beta].
Ltac flag b := next yields_flag; intros b _.
Ltac bit b := next yields_bit; intros b ?.
Ltac lit v := next yields_lit; [lia | intros v ?].
