(* ===== verification/SeqHeader.v ===== *)
(** * The sequence header

    [av1_write_sequence_header_obu] ([av1/encoder/bitstream.c]) and
    [read_sequence_header_obu] ([av1/decoder/obu.c]) with the functions they call in
    [av1/decoder/decodeframe.c]: the header that says how every frame of a stream is coded.

    The fields of [SequenceHeader] are grouped by the function that reads them.  A field the
    header does not carry keeps, on the decoder's side, the value of the header before it,
    except where the code sets a default.  As configured by [cmake/aom_config_defaults.cmake]:
    [CONFIG_MAX_DECODE_PROFILE] is 2, [CONFIG_AV1_HIGHBITDEPTH] 1, [CONFIG_CWG_C013] 0. *)

From S2P Require Import Prelude CodecTypes BitChannel BitBuffer EntCoder RangeSpec Cdf EntEncProof EntDecProof EntRoundTrip SymbolIO SyntaxIO Tile TileInfo Leb128 Obu HeaderIO.

#[local] Arguments Z.of_nat : simpl never.
#[local] Arguments Z.mul : simpl never.

(** ** Data *)

Definition PROFILE_BITS : Z := 3.
Definition PROFILE_0 : Z := 0.
Definition PROFILE_1 : Z := 1.
Definition PROFILE_2 : Z := 2.
Definition CONFIG_MAX_DECODE_PROFILE : Z := 2.
Definition LEVEL_BITS : Z := 5.
Definition OP_POINTS_CNT_MINUS_1_BITS : Z := 5.
Definition OP_POINTS_IDC_BITS : Z := 12.
Definition SEQ_LEVEL_4_0 : Z := 8.
Definition SEQ_LEVELS : Z := 28.
Definition SEQ_LEVEL_MAX : Z := 31.

Definition AOM_CICP_CP_BT_709 : Z := 1.
Definition AOM_CICP_CP_UNSPECIFIED : Z := 2.
Definition AOM_CICP_TC_UNSPECIFIED : Z := 2.
Definition AOM_CICP_TC_SRGB : Z := 13.
Definition AOM_CICP_MC_IDENTITY : Z := 0.
Definition AOM_CICP_MC_UNSPECIFIED : Z := 2.
Definition AOM_CSP_UNKNOWN : Z := 0.

(** Levels 2.2, 2.3, 3.2, 3.3, 4.2, 4.3 and 7.0 to 8.3 are undefined. *)
Definition is_valid_seq_level_idx (seq_level_idx : Z) : bool :=
  (seq_level_idx =? SEQ_LEVEL_MAX) ||
  ((seq_level_idx <? SEQ_LEVELS) &&
   forallb (fun l => negb (seq_level_idx =? l)) [2; 3; 6; 7; 10; 11; 20; 21; 22; 23; 24; 25; 26; 27]).

(** *** Timing ([av1/common/timing.h], [timing.c]) *)

Record aom_timing_info_t := {
  num_units_in_display_tick : Z; time_scale : Z;
  equal_picture_interval : bool; num_ticks_per_picture : Z }.

Record aom_dec_model_info_t := {
  num_units_in_decoding_tick : Z;
  encoder_decoder_buffer_delay_length : Z;
  buffer_removal_time_length : Z; frame_presentation_time_length : Z }.

Record aom_dec_model_op_parameters_t := {
  decoder_model_param_present_flag : bool;
  bitrate : Z; buffer_size : Z;
  decoder_buffer_delay : Z; encoder_buffer_delay : Z; low_delay_mode_flag : bool;
  display_model_param_present_flag : bool; initial_display_delay : Z }.

Definition UNDEFINED_RATE : Z := Z.shiftl 1 21.
Definition INVALID_RATE : Z := 0.

Definition main_kbps : list Z :=
  [1500; 3000; UNDEFINED_RATE; UNDEFINED_RATE; 6000; 10000; UNDEFINED_RATE; UNDEFINED_RATE;
   12000; 20000; UNDEFINED_RATE; UNDEFINED_RATE; 30000; 40000; 60000; 60000;
   60000; 100000; 160000; 160000; UNDEFINED_RATE; UNDEFINED_RATE; UNDEFINED_RATE; UNDEFINED_RATE;
   UNDEFINED_RATE; UNDEFINED_RATE; UNDEFINED_RATE; UNDEFINED_RATE;
   UNDEFINED_RATE; UNDEFINED_RATE; UNDEFINED_RATE; UNDEFINED_RATE].

Definition high_kbps : list Z :=
  [INVALID_RATE; INVALID_RATE; INVALID_RATE; INVALID_RATE; INVALID_RATE; INVALID_RATE; INVALID_RATE; INVALID_RATE;
   30000; 50000; UNDEFINED_RATE; UNDEFINED_RATE; 100000; 160000; 240000; 240000;
   240000; 480000; 800000; 800000; UNDEFINED_RATE; UNDEFINED_RATE; UNDEFINED_RATE; UNDEFINED_RATE;
   UNDEFINED_RATE; UNDEFINED_RATE; UNDEFINED_RATE; UNDEFINED_RATE;
   UNDEFINED_RATE; UNDEFINED_RATE; UNDEFINED_RATE; UNDEFINED_RATE].

Definition bitrate_profile_factor : list Z := [1; 2; 3; 0; 0; 0; 0; 0].

Definition av1_max_level_bitrate (seq_profile seq_level_idx : Z) (seq_tier : bool) : option Z :=
  kbps ← arr_get (if seq_tier then high_kbps else main_kbps) seq_level_idx;
  f ← arr_get bitrate_profile_factor seq_profile;
  Some (kbps * f * 1000).

(** *** Operating points

    One element of the arrays [operating_point_idc], [seq_level_idx], [tier] and
    [op_params]. *)
Record operating_point := {
  op_idc : Z; op_level : Z; op_tier : bool; op_params : aom_dec_model_op_parameters_t }.

(** *** Tools and colours *)

Record OrderHintInfo := {
  enable_order_hint : bool; order_hint_bits_minus_1 : Z;
  enable_dist_wtd_comp : bool; enable_ref_frame_mvs : bool }.

(** What [av1_read_sequence_header] reads. *)
Record seq_tools := {
  num_bits_width : Z; num_bits_height : Z;
  max_frame_width : Z; max_frame_height : Z;
  frame_id_numbers_present_flag : bool; frame_id_length : Z; delta_frame_id_length : Z;
  sb_size_128 : bool; sq_mib_size : Z; sq_mib_size_log2 : Z;
  enable_filter_intra : bool; enable_intra_edge_filter : bool;
  enable_interintra_compound : bool; enable_masked_compound : bool;
  enable_warped_motion : bool; enable_dual_filter : bool;
  order_hint_info : OrderHintInfo;
  force_screen_content_tools : Z; force_integer_mv : Z;
  enable_superres : bool; enable_cdef : bool; enable_restoration : bool }.

(** What [av1_read_color_config] reads. *)
Record seq_color := {
  bit_depth : Z; use_highbitdepth : bool; monochrome : bool;
  color_primaries : Z; transfer_characteristics : Z; matrix_coefficients : Z;
  color_range : Z; subsampling_x : Z; subsampling_y : Z;
  chroma_sample_position : Z; separate_uv_delta_q : bool }.

Record SequenceHeader := {
  sh_profile : Z;
  sh_still_picture : bool; sh_reduced_still_picture_hdr : bool;
  sh_timing_info_present : bool; sh_timing_info : aom_timing_info_t;
  sh_decoder_model_info_present_flag : bool; sh_decoder_model_info : aom_dec_model_info_t;
  sh_display_model_info_present_flag : bool;
  sh_operating_points_cnt_minus_1 : Z; sh_has_nonzero_operating_point_idc : bool;
  sh_operating_points : list operating_point;
  sh_tools : seq_tools; sh_color : seq_color;
  sh_film_grain_params_present : bool }.

Definition MAX_NUM_OPERATING_POINTS : Z := 32.

(** ** Writing *)

Definition write_profile (profile : Z) : hwriter := w_hlit profile PROFILE_BITS.

Definition write_bitstream_level (seq_level_idx : Z) : hwriter := w_hlit seq_level_idx LEVEL_BITS.

Definition write_bitdepth (profile bit_depth : Z) : hwriter :=
  _ ← w_flag (negb (bit_depth =? 8));
  if (profile =? PROFILE_2) && negb (bit_depth =? 8) then w_flag (negb (bit_depth =? 10)) else mret tt.

Definition is_unspecified (c : seq_color) : bool :=
  (color_primaries c =? AOM_CICP_CP_UNSPECIFIED) && (transfer_characteristics c =? AOM_CICP_TC_UNSPECIFIED) &&
  (matrix_coefficients c =? AOM_CICP_MC_UNSPECIFIED).

Definition is_srgb (c : seq_color) : bool :=
  (color_primaries c =? AOM_CICP_CP_BT_709) && (transfer_characteristics c =? AOM_CICP_TC_SRGB) &&
  (matrix_coefficients c =? AOM_CICP_MC_IDENTITY).

Definition write_color_config (profile : Z) (c : seq_color) : hwriter :=
  _ ← write_bitdepth profile (bit_depth c);
  _ ← (if negb (profile =? PROFILE_1) then w_flag (monochrome c) else mret tt);
  _ ← (if is_unspecified c then w_flag false
       else
         _ ← w_flag true;
         _ ← w_hlit (color_primaries c) 8;
         _ ← w_hlit (transfer_characteristics c) 8;
         w_hlit (matrix_coefficients c) 8);
  if monochrome c then w_hbit (color_range c)
  else
    _ ← (if is_srgb c then mret tt
         else
           _ ← w_hbit (color_range c);
           _ ← (if profile =? PROFILE_0 then mret tt
                else if profile =? PROFILE_1 then mret tt
                else if profile =? PROFILE_2 then
                  if bit_depth c =? 12 then
                    _ ← w_hbit (subsampling_x c);
                    if subsampling_x c =? 0 then mret tt else w_hbit (subsampling_y c)
                  else mret tt
                else mret tt);
           if (subsampling_x c =? 1) && (subsampling_y c =? 1) then w_hlit (chroma_sample_position c) 2
           else mret tt);
    w_flag (separate_uv_delta_q c).

Definition write_timing_info_header (t : aom_timing_info_t) : hwriter :=
  _ ← w_hulit (num_units_in_display_tick t) 32;
  _ ← w_hulit (time_scale t) 32;
  _ ← w_flag (equal_picture_interval t);
  if equal_picture_interval t then w_uvlc (u32 (num_ticks_per_picture t - 1)) else mret tt.

Definition write_decoder_model_info (d : aom_dec_model_info_t) : hwriter :=
  _ ← w_hlit (encoder_decoder_buffer_delay_length d - 1) 5;
  _ ← w_hulit (num_units_in_decoding_tick d) 32;
  _ ← w_hlit (buffer_removal_time_length d - 1) 5;
  w_hlit (frame_presentation_time_length d - 1) 5.

Definition write_dec_model_op_parameters (o : aom_dec_model_op_parameters_t) (buffer_delay_length : Z) : hwriter :=
  _ ← w_hulit (decoder_buffer_delay o) buffer_delay_length;
  _ ← w_hulit (encoder_buffer_delay o) buffer_delay_length;
  w_flag (low_delay_mode_flag o).

Definition write_sb_size (t : seq_tools) : hwriter := w_flag (sb_size_128 t).

(** A value that is 2 when the choice is left to the frames. *)
Definition write_forced (v : Z) : hwriter :=
  if v =? 2 then w_flag true else _ ← w_flag false; w_hbit v.

Definition write_sequence_header (reduced_still_picture_hdr : bool) (t : seq_tools) : hwriter :=
  _ ← w_hlit (num_bits_width t - 1) 4;
  _ ← w_hlit (num_bits_height t - 1) 4;
  _ ← w_hlit (max_frame_width t - 1) (num_bits_width t);
  _ ← w_hlit (max_frame_height t - 1) (num_bits_height t);
  _ ← (if negb reduced_still_picture_hdr then
         _ ← w_flag (frame_id_numbers_present_flag t);
         if frame_id_numbers_present_flag t then
           _ ← w_hlit (delta_frame_id_length t - 2) 4;
           w_hlit (frame_id_length t - delta_frame_id_length t - 1) 3
         else mret tt
       else mret tt);
  _ ← write_sb_size t;
  _ ← w_flag (enable_filter_intra t);
  _ ← w_flag (enable_intra_edge_filter t);
  _ ← (if negb reduced_still_picture_hdr then
         let oh := order_hint_info t in
         _ ← w_flag (enable_interintra_compound t);
         _ ← w_flag (enable_masked_compound t);
         _ ← w_flag (enable_warped_motion t);
         _ ← w_flag (enable_dual_filter t);
         _ ← w_flag (enable_order_hint oh);
         _ ← (if enable_order_hint oh then
                _ ← w_flag (enable_dist_wtd_comp oh); w_flag (enable_ref_frame_mvs oh)
              else mret tt);
         _ ← write_forced (force_screen_content_tools t);
         _ ← (if 0 <? force_screen_content_tools t then write_forced (force_integer_mv t) else mret tt);
         if enable_order_hint oh then w_hlit (order_hint_bits_minus_1 oh) 3 else mret tt
       else mret tt);
  _ ← w_flag (enable_superres t);
  _ ← w_flag (enable_cdef t);
  w_flag (enable_restoration t).

(** The body of the loop over the operating points. *)
Definition write_operating_point (sh : SequenceHeader) (op : operating_point) : hwriter :=
  _ ← w_hlit (op_idc op) OP_POINTS_IDC_BITS;
  _ ← write_bitstream_level (op_level op);
  _ ← (if SEQ_LEVEL_4_0 <=? op_level op then w_flag (op_tier op) else mret tt);
  _ ← (if sh_decoder_model_info_present_flag sh then
         _ ← w_flag (decoder_model_param_present_flag (op_params op));
         if decoder_model_param_present_flag (op_params op) then
           write_dec_model_op_parameters (op_params op)
             (encoder_decoder_buffer_delay_length (sh_decoder_model_info sh))
         else mret tt
       else mret tt);
  if sh_display_model_info_present_flag sh then
    _ ← w_flag (display_model_param_present_flag (op_params op));
    if display_model_param_present_flag (op_params op) then w_hlit (initial_display_delay (op_params op) - 1) 4
    else mret tt
  else mret tt.

(** [None] is an index outside the arrays. *)
Fixpoint write_operating_points (sh : SequenceHeader) (n : nat) (ops : list operating_point) : hwriter :=
  match n, ops with
  | O, _ => mret tt
  | S n', op :: ops' => _ ← write_operating_point sh op; write_operating_points sh n' ops'
  | S _, [] => w_lift None
  end.

Definition write_sequence_fields (sh : SequenceHeader) : hwriter :=
  _ ← write_profile (sh_profile sh);
  _ ← w_flag (sh_still_picture sh);
  _ ← w_flag (sh_reduced_still_picture_hdr sh);
  _ ← (if sh_reduced_still_picture_hdr sh then
         op ← w_lift (sh_operating_points sh !! 0%nat); write_bitstream_level (op_level op)
       else
         _ ← w_flag (sh_timing_info_present sh);
         _ ← (if sh_timing_info_present sh then
                _ ← write_timing_info_header (sh_timing_info sh);
                _ ← w_flag (sh_decoder_model_info_present_flag sh);
                if sh_decoder_model_info_present_flag sh then write_decoder_model_info (sh_decoder_model_info sh)
                else mret tt
              else mret tt);
         _ ← w_flag (sh_display_model_info_present_flag sh);
         _ ← w_hlit (sh_operating_points_cnt_minus_1 sh) OP_POINTS_CNT_MINUS_1_BITS;
         write_operating_points sh (Z.to_nat (sh_operating_points_cnt_minus_1 sh + 1)) (sh_operating_points sh));
  _ ← write_sequence_header (sh_reduced_still_picture_hdr sh) (sh_tools sh);
  _ ← write_color_config (sh_profile sh) (sh_color sh);
  w_flag (sh_film_grain_params_present sh).

(** Result: the size, and [dst]. *)
Definition av1_write_sequence_header_obu (sh : SequenceHeader) (dst : list Z) : option (Z * list Z) :=
  '(_, wb) ← write_sequence_fields sh {| wb_bit_buffer := dst; wb_bit_offset := 0 |};
  wb ← add_trailing_bits wb;
  Some (aom_wb_bytes_written wb, wb_bit_buffer wb).

(** ** Reading *)

Definition av1_read_profile : hreader Z := aom_rb_read_literal PROFILE_BITS.

(** Also whether the level is defined. *)
Definition read_bitstream_level : hreader (Z * bool) :=
  l ← aom_rb_read_literal LEVEL_BITS; mret (l, is_valid_seq_level_idx l).

Definition read_bitdepth (profile : Z) : hreader Z :=
  high_bitdepth ← r_flag;
  if (profile =? PROFILE_2) && high_bitdepth then
    twelve_bit ← r_flag; mret (if twelve_bit : bool then 12 else 10)
  else if profile <=? PROFILE_2 then mret (if high_bitdepth then 10 else 8)
  else raise AOM_CODEC_UNSUP_BITSTREAM.

Definition av1_read_color_config (allow_lowbitdepth : bool) (profile : Z) (old : seq_color) : hreader seq_color :=
  depth ← read_bitdepth profile;
  let high := (8 <? depth) || negb allow_lowbitdepth in
  is_monochrome ← (if negb (profile =? PROFILE_1) then r_flag else mret false);
  color_description_present_flag ← r_flag;
  '(cp, tc, mc) ←
    (if color_description_present_flag : bool then
       cp ← aom_rb_read_literal 8; tc ← aom_rb_read_literal 8; mc ← aom_rb_read_literal 8; mret (cp, tc, mc)
     else mret (AOM_CICP_CP_UNSPECIFIED, AOM_CICP_TC_UNSPECIFIED, AOM_CICP_MC_UNSPECIFIED));
  let color range ssx ssy csp uv :=
    {| bit_depth := depth; use_highbitdepth := high; monochrome := is_monochrome; color_primaries := cp;
       transfer_characteristics := tc; matrix_coefficients := mc; color_range := range;
       subsampling_x := ssx; subsampling_y := ssy; chroma_sample_position := csp; separate_uv_delta_q := uv |} in
  if is_monochrome : bool then
    range ← aom_rb_read_bit; mret (color range 1 1 AOM_CSP_UNKNOWN false)
  else
    '(range, ssx, ssy, csp) ←
      (if (cp =? AOM_CICP_CP_BT_709) && (tc =? AOM_CICP_TC_SRGB) && (mc =? AOM_CICP_MC_IDENTITY) then
         if negb ((profile =? PROFILE_1) || ((profile =? PROFILE_2) && (depth =? 12)))
         then raise AOM_CODEC_UNSUP_BITSTREAM
         else mret (1, 0, 0, chroma_sample_position old)
       else
         range ← aom_rb_read_bit;
         '(ssx, ssy) ←
           (if profile =? PROFILE_0 then mret (1, 1)
            else if profile =? PROFILE_1 then mret (0, 0)
            else if depth =? 12 then
              ssx ← aom_rb_read_bit;
              if negb (ssx =? 0) then ssy ← aom_rb_read_bit; mret (ssx, ssy) else mret (ssx, 0)
            else mret (1, 0));
         if (mc =? AOM_CICP_MC_IDENTITY) && (negb (ssx =? 0) || negb (ssy =? 0))
         then raise AOM_CODEC_UNSUP_BITSTREAM
         else if negb (ssx =? 0) && negb (ssy =? 0) then
           csp ← aom_rb_read_literal 2; mret (range, ssx, ssy, csp)
         else mret (range, ssx, ssy, chroma_sample_position old));
    uv ← r_flag;
    mret (color range ssx ssy csp uv).

Definition av1_read_timing_info_header (old : aom_timing_info_t) : hreader aom_timing_info_t :=
  tick ← aom_rb_read_unsigned_literal 32;
  scale ← aom_rb_read_unsigned_literal 32;
  if (tick =? 0) || (scale =? 0) then raise AOM_CODEC_UNSUP_BITSTREAM
  else
    equal ← r_flag;
    ticks ← (if equal : bool then
               num_ticks_per_picture_minus_1 ← aom_rb_read_uvlc;
               if num_ticks_per_picture_minus_1 =? UINT32_MAX then raise AOM_CODEC_UNSUP_BITSTREAM
               else mret (u32 (num_ticks_per_picture_minus_1 + 1))
             else mret (num_ticks_per_picture old));
    mret {| num_units_in_display_tick := tick; time_scale := scale; equal_picture_interval := equal;
            num_ticks_per_picture := ticks |}.

Definition av1_read_decoder_model_info : hreader aom_dec_model_info_t :=
  a ← aom_rb_read_literal 5;
  b ← aom_rb_read_unsigned_literal 32;
  c ← aom_rb_read_literal 5;
  d ← aom_rb_read_literal 5;
  mret {| num_units_in_decoding_tick := b; encoder_decoder_buffer_delay_length := a + 1;
          buffer_removal_time_length := c + 1; frame_presentation_time_length := d + 1 |}.

(** [decoder_buffer_delay], [encoder_buffer_delay], [low_delay_mode_flag] *)
Definition av1_read_op_parameters_info (buffer_delay_length : Z) : hreader (Z * Z * bool) :=
  d ← aom_rb_read_unsigned_literal buffer_delay_length;
  e ← aom_rb_read_unsigned_literal buffer_delay_length;
  l ← r_flag;
  mret (d, e, l).

Definition read_forced : hreader Z :=
  select ← r_flag; if select : bool then mret 2 else aom_rb_read_bit.

Definition av1_read_sequence_header (reduced_still_picture_hdr : bool) (old : seq_tools) : hreader seq_tools :=
  w ← aom_rb_read_literal 4;
  let num_bits_width := w + 1 in
  h ← aom_rb_read_literal 4;
  let num_bits_height := h + 1 in
  fw ← aom_rb_read_literal num_bits_width;
  let max_frame_width := fw + 1 in
  fh ← aom_rb_read_literal num_bits_height;
  let max_frame_height := fh + 1 in
  ids ← (if reduced_still_picture_hdr then mret false else r_flag);
  '(id_length, delta_id_length) ←
    (if ids : bool then
       d ← aom_rb_read_literal 4;
       let delta_id_length := d + 2 in
       l ← aom_rb_read_literal 3;
       let id_length := l + delta_id_length + 1 in
       if 16 <? id_length then raise AOM_CODEC_CORRUPT_FRAME else mret (id_length, delta_id_length)
     else mret (frame_id_length old, delta_frame_id_length old));
  large ← r_flag;
  filter_intra ← r_flag;
  intra_edge ← r_flag;
  '(interintra, masked, warped, dual, oh, sct, imv) ←
    (if reduced_still_picture_hdr then
       mret (false, false, false, false,
             {| enable_order_hint := false; order_hint_bits_minus_1 := -1; enable_dist_wtd_comp := false;
                enable_ref_frame_mvs := false |}, 2, 2)
     else
       interintra ← r_flag;
       masked ← r_flag;
       warped ← r_flag;
       dual ← r_flag;
       order_hint ← r_flag;
       dist_wtd ← (if order_hint : bool then r_flag else mret false);
       ref_mvs ← (if order_hint then r_flag else mret false);
       sct ← read_forced;
       imv ← (if 0 <? sct then read_forced else mret 2);
       bits ← (if order_hint then aom_rb_read_literal 3 else mret (-1));
       mret (interintra, masked, warped, dual,
             {| enable_order_hint := order_hint; order_hint_bits_minus_1 := bits; enable_dist_wtd_comp := dist_wtd;
                enable_ref_frame_mvs := ref_mvs |}, sct, imv));
  superres ← r_flag;
  cdef ← r_flag;
  restoration ← r_flag;
  mret {| num_bits_width := num_bits_width; num_bits_height := num_bits_height;
          max_frame_width := max_frame_width; max_frame_height := max_frame_height;
          frame_id_numbers_present_flag := ids; frame_id_length := id_length;
          delta_frame_id_length := delta_id_length;
          sb_size_128 := large; sq_mib_size := (if large then 32 else 16);
          sq_mib_size_log2 := (if large then 5 else 4);
          enable_filter_intra := filter_intra; enable_intra_edge_filter := intra_edge;
          enable_interintra_compound := interintra; enable_masked_compound := masked;
          enable_warped_motion := warped; enable_dual_filter := dual; order_hint_info := oh;
          force_screen_content_tools := sct; force_integer_mv := imv;
          enable_superres := superres; enable_cdef := cdef; enable_restoration := restoration |}.

(** What the loop over the operating points looks at. *)
Record op_site := {
  os_profile : Z; os_timing_info_present : bool; os_equal_picture_interval : bool;
  os_decoder_model_info_present : bool; os_buffer_delay_length : Z;
  os_display_model_info_present : bool }.

(** The body of the loop over the operating points. *)
Definition read_operating_point (s : op_site) (old : operating_point) : hreader operating_point :=
  idc ← aom_rb_read_literal OP_POINTS_IDC_BITS;
  '(level, defined) ← read_bitstream_level;
  if negb defined then raise AOM_CODEC_UNSUP_BITSTREAM
  else
    tier ← (if SEQ_LEVEL_4_0 <=? level then r_flag else mret false);
    let p := op_params old in
    '(dm_present, d, e, l) ←
      (if os_decoder_model_info_present s then
         present ← r_flag;
         if present : bool then
           '(d, e, l) ← av1_read_op_parameters_info (os_buffer_delay_length s); mret (present, d, e, l)
         else mret (present, decoder_buffer_delay p, encoder_buffer_delay p, low_delay_mode_flag p)
       else mret (false, decoder_buffer_delay p, encoder_buffer_delay p, low_delay_mode_flag p));
    '(rate, size) ←
      (if os_timing_info_present s && (os_equal_picture_interval s || dm_present) then
         rate ← r_lift (av1_max_level_bitrate (os_profile s) level tier);
         if rate =? 0 then raise AOM_CODEC_UNSUP_BITSTREAM else mret (rate, rate)
       else mret (bitrate p, buffer_size p));
    let '(d, e, l) :=
      if os_timing_info_present s && os_equal_picture_interval s && negb dm_present then (70000, 20000, false)
      else (d, e, l) in
    '(display_present, delay) ←
      (if os_display_model_info_present s then
         present ← r_flag;
         if present : bool then
           delay ← aom_rb_read_literal 4;
           if 10 <? delay + 1 then raise AOM_CODEC_UNSUP_BITSTREAM else mret (present, delay + 1)
         else mret (present, 10)
       else mret (false, 10));
    mret {| op_idc := idc; op_level := level; op_tier := tier;
            op_params := {| decoder_model_param_present_flag := dm_present; bitrate := rate; buffer_size := size;
                            decoder_buffer_delay := d; encoder_buffer_delay := e; low_delay_mode_flag := l;
                            display_model_param_present_flag := display_present; initial_display_delay := delay |} |}.

Fixpoint read_operating_points (s : op_site) (n : nat) (ops : list operating_point)
  : hreader (list operating_point) :=
  match n, ops with
  | O, _ => mret ops
  | S n', op :: ops' =>
      op ← read_operating_point s op; ops ← read_operating_points s n' ops'; mret (op :: ops)
  | S _, [] => fault
  end.

(** Element 0 of the arrays under a reduced header. *)
Definition reduced_operating_point (old : operating_point) (level : Z) : operating_point :=
  {| op_idc := 0; op_level := level; op_tier := false;
     op_params := {| decoder_model_param_present_flag := false; bitrate := bitrate (op_params old);
                     buffer_size := buffer_size (op_params old);
                     decoder_buffer_delay := decoder_buffer_delay (op_params old);
                     encoder_buffer_delay := encoder_buffer_delay (op_params old);
                     low_delay_mode_flag := low_delay_mode_flag (op_params old);
                     display_model_param_present_flag := false;
                     initial_display_delay := initial_display_delay (op_params old) |} |}.

(** The fields up to the operating points; the rest is that of [old]. *)
Definition read_operating_info (old : SequenceHeader) (profile : Z) (still reduced : bool) : hreader SequenceHeader :=
  let header tp t dp d disp cnt nz ops :=
    {| sh_profile := profile; sh_still_picture := still; sh_reduced_still_picture_hdr := reduced;
       sh_timing_info_present := tp; sh_timing_info := t; sh_decoder_model_info_present_flag := dp;
       sh_decoder_model_info := d; sh_display_model_info_present_flag := disp;
       sh_operating_points_cnt_minus_1 := cnt; sh_has_nonzero_operating_point_idc := nz;
       sh_operating_points := ops; sh_tools := sh_tools old; sh_color := sh_color old;
       sh_film_grain_params_present := sh_film_grain_params_present old |} in
  if reduced then
    '(level, defined) ← read_bitstream_level;
    if negb defined then raise AOM_CODEC_UNSUP_BITSTREAM
    else
      match sh_operating_points old with
      | op :: ops => mret (header false (sh_timing_info old) false (sh_decoder_model_info old) false 0 false
                             (reduced_operating_point op level :: ops))
      | [] => fault
      end
  else
    timing_present ← r_flag;
    '(timing, dm_present, dm) ←
      (if timing_present : bool then
         timing ← av1_read_timing_info_header (sh_timing_info old);
         dm_present ← r_flag;
         dm ← (if dm_present : bool then av1_read_decoder_model_info else mret (sh_decoder_model_info old));
         mret (timing, dm_present, dm)
       else mret (sh_timing_info old, false, sh_decoder_model_info old));
    display_present ← r_flag;
    cnt ← aom_rb_read_literal OP_POINTS_CNT_MINUS_1_BITS;
    let s := {| os_profile := profile; os_timing_info_present := timing_present;
                os_equal_picture_interval := equal_picture_interval timing;
                os_decoder_model_info_present := dm_present;
                os_buffer_delay_length := encoder_decoder_buffer_delay_length dm;
                os_display_model_info_present := display_present |} in
    ops ← read_operating_points s (Z.to_nat (cnt + 1)) (sh_operating_points old);
    mret (header timing_present timing dm_present dm display_present cnt
            (existsb (fun op => negb (op_idc op =? 0)) (take (Z.to_nat (cnt + 1)) ops)) ops).

(** ** The decoder's state *)

Record seq_state := {
  ss_seq_params : SequenceHeader;
  ss_operating_point : Z; ss_allow_lowbitdepth : bool;
  ss_current_operating_point : Z;
  ss_number_spatial_layers : Z; ss_number_temporal_layers : Z;
  ss_sequence_header_ready : bool; ss_sequence_header_changed : bool;
  ss_error_code : aom_codec_err_t }.

#[export] Instance timing_info_eq_dec : EqDecision aom_timing_info_t.
Proof. solve_decision. Defined.
#[export] Instance dec_model_info_eq_dec : EqDecision aom_dec_model_info_t.
Proof. solve_decision. Defined.
#[export] Instance OrderHintInfo_eq_dec : EqDecision OrderHintInfo.
Proof. solve_decision. Defined.
#[export] Instance seq_tools_eq_dec : EqDecision seq_tools.
Proof. solve_decision. Defined.
#[export] Instance seq_color_eq_dec : EqDecision seq_color.
Proof. solve_decision. Defined.

(** Everything in front of [op_params] in the structure. *)
Definition seq_compared (sh : SequenceHeader) :=
  (sh_tools sh, sh_still_picture sh, sh_reduced_still_picture_hdr sh, sh_profile sh, sh_color sh,
   sh_film_grain_params_present sh, sh_operating_points_cnt_minus_1 sh, sh_has_nonzero_operating_point_idc sh,
   (sh_timing_info_present sh, sh_timing_info sh, sh_decoder_model_info_present_flag sh, sh_decoder_model_info sh,
    sh_display_model_info_present_flag sh,
    (fun op => (op_idc op, op_level op, op_tier op)) <$> sh_operating_points sh)).

Definition are_seq_headers_consistent (seq_params_old seq_params_new : SequenceHeader) : bool :=
  bool_decide (seq_compared seq_params_old = seq_compared seq_params_new).

Definition with_tools (sh : SequenceHeader) (t : seq_tools) (c : seq_color) (film : bool) : SequenceHeader :=
  {| sh_profile := sh_profile sh; sh_still_picture := sh_still_picture sh;
     sh_reduced_still_picture_hdr := sh_reduced_still_picture_hdr sh;
     sh_timing_info_present := sh_timing_info_present sh; sh_timing_info := sh_timing_info sh;
     sh_decoder_model_info_present_flag := sh_decoder_model_info_present_flag sh;
     sh_decoder_model_info := sh_decoder_model_info sh;
     sh_display_model_info_present_flag := sh_display_model_info_present_flag sh;
     sh_operating_points_cnt_minus_1 := sh_operating_points_cnt_minus_1 sh;
     sh_has_nonzero_operating_point_idc := sh_has_nonzero_operating_point_idc sh;
     sh_operating_points := sh_operating_points sh; sh_tools := t; sh_color := c;
     sh_film_grain_params_present := film |}.

(** Assignments to [pbi]. *)
Definition set_error (st : seq_state) (e : aom_codec_err_t) : seq_state :=
  {| ss_seq_params := ss_seq_params st; ss_operating_point := ss_operating_point st;
     ss_allow_lowbitdepth := ss_allow_lowbitdepth st; ss_current_operating_point := ss_current_operating_point st;
     ss_number_spatial_layers := ss_number_spatial_layers st;
     ss_number_temporal_layers := ss_number_temporal_layers st;
     ss_sequence_header_ready := ss_sequence_header_ready st;
     ss_sequence_header_changed := ss_sequence_header_changed st; ss_error_code := e |}.

Definition set_operating_point (st : seq_state) (idc ns nt : Z) : seq_state :=
  {| ss_seq_params := ss_seq_params st; ss_operating_point := ss_operating_point st;
     ss_allow_lowbitdepth := ss_allow_lowbitdepth st; ss_current_operating_point := idc;
     ss_number_spatial_layers := ns; ss_number_temporal_layers := nt;
     ss_sequence_header_ready := ss_sequence_header_ready st;
     ss_sequence_header_changed := ss_sequence_header_changed st; ss_error_code := ss_error_code st |}.

Definition set_seq_params (st : seq_state) (sh : SequenceHeader) : seq_state :=
  {| ss_seq_params := sh; ss_operating_point := ss_operating_point st;
     ss_allow_lowbitdepth := ss_allow_lowbitdepth st; ss_current_operating_point := ss_current_operating_point st;
     ss_number_spatial_layers := ss_number_spatial_layers st;
     ss_number_temporal_layers := ss_number_temporal_layers st;
     ss_sequence_header_ready := true;
     ss_sequence_header_changed :=
       if ss_sequence_header_ready st && negb (are_seq_headers_consistent (ss_seq_params st) sh) then true
       else ss_sequence_header_changed st;
     ss_error_code := ss_error_code st |}.

(** The choice among the operating points of a header: [pbi] afterwards, with the status of
    [aom_get_num_layers_from_operating_point_idc]. *)
Definition choose_operating_point (st : seq_state) (sh : SequenceHeader) : option (aom_codec_err_t * seq_state) :=
  let operating_point :=
    if (ss_operating_point st <? 0) || (sh_operating_points_cnt_minus_1 sh <? ss_operating_point st) then 0
    else ss_operating_point st in
  op ← sh_operating_points sh !! Z.to_nat operating_point;
  match aom_get_num_layers_from_operating_point_idc (op_idc op) (Some (ss_number_spatial_layers st))
          (Some (ss_number_temporal_layers st)) with
  | (status, Some ns, Some nt) => Some (status, set_operating_point st (op_idc op) ns nt)
  | _ => None
  end.

(** What [read_sequence_header_obu] does before the trailing bits: the local header, or,
    after an early return, nothing; and [pbi]. *)
Definition read_sequence_fields (st : seq_state) : hreader (option SequenceHeader * seq_state) :=
  profile ← av1_read_profile;
  if CONFIG_MAX_DECODE_PROFILE <? profile then mret (None, set_error st AOM_CODEC_UNSUP_BITSTREAM)
  else
    still ← r_flag;
    reduced ← r_flag;
    if negb still && reduced then mret (None, set_error st AOM_CODEC_UNSUP_BITSTREAM)
    else
      sh ← read_operating_info (ss_seq_params st) profile still reduced;
      '(status, st) ← r_lift (choose_operating_point st sh);
      if negb (is_ok status) then mret (None, set_error st status)
      else
        tools ← av1_read_sequence_header reduced (sh_tools sh);
        color ← av1_read_color_config (ss_allow_lowbitdepth st) profile (sh_color sh);
        if negb ((subsampling_x color =? 0) && (subsampling_y color =? 0)) &&
           negb ((subsampling_x color =? 1) && (subsampling_y color =? 1)) &&
           negb ((subsampling_x color =? 1) && (subsampling_y color =? 0))
        then raise AOM_CODEC_UNSUP_BITSTREAM
        else
          film ← r_flag;
          mret (Some (with_tools sh tools color film), st).

(** [rb->bit_offset] *)
Definition rb_offset : hreader Z := fun rb => Ok (rb_bit_offset rb, rb).

(** Result: the number of bytes read, 0 on an error.  The operating point is kept even
    when the trailing bits are wrong. *)
Definition read_sequence_header_obu (st : seq_state) : hreader (Z * seq_state) :=
  saved_bit_offset ← rb_offset;
  '(header, st) ← read_sequence_fields st;
  match header with
  | None => mret (0, st)
  | Some sh =>
      '(t, e) ← av1_check_trailing_bits (ss_error_code st);
      if negb (t =? 0) then mret (0, set_error st e)
      else
        bit_offset ← rb_offset;
        mret (Z.shiftr (u32 (bit_offset - saved_bit_offset + 7)) 3, set_seq_params st sh)
  end.

(** ** Valid headers *)

Definition subsampling_is (c : seq_color) (x y : Z) : Prop := subsampling_x c = x /\ subsampling_y c = y.

Record color_valid (profile : Z) (c : seq_color) : Prop := {
  cv_depth : bit_depth c = 8 \/ bit_depth c = 10 \/ bit_depth c = 12 /\ profile = PROFILE_2;
  cv_codes : 0 <= color_primaries c < 256 /\ 0 <= transfer_characteristics c < 256 /\
    0 <= matrix_coefficients c < 256;
  cv_range : color_range c = 0 \/ color_range c = 1;
  cv_mono : monochrome c = true -> profile <> PROFILE_1 /\ subsampling_is c 1 1 /\
    chroma_sample_position c = AOM_CSP_UNKNOWN /\ separate_uv_delta_q c = false;
  cv_srgb : monochrome c = false -> is_srgb c = true -> subsampling_is c 0 0 /\ color_range c = 1 /\
    (profile = PROFILE_1 \/ profile = PROFILE_2 /\ bit_depth c = 12);
  cv_format : monochrome c = false -> is_srgb c = false ->
    (profile = PROFILE_0 -> subsampling_is c 1 1) /\ (profile = PROFILE_1 -> subsampling_is c 0 0) /\
    (profile = PROFILE_2 -> bit_depth c <> 12 -> subsampling_is c 1 0) /\
    (profile = PROFILE_2 -> bit_depth c = 12 ->
       subsampling_is c 0 0 \/ subsampling_is c 1 0 \/ subsampling_is c 1 1) /\
    (matrix_coefficients c = AOM_CICP_MC_IDENTITY -> subsampling_is c 0 0) /\
    (subsampling_is c 1 1 -> 0 <= chroma_sample_position c < 4) }.

Record order_hint_valid (oh : OrderHintInfo) : Prop := {
  ov_on : enable_order_hint oh = true -> 0 <= order_hint_bits_minus_1 oh < 8;
  ov_off : enable_order_hint oh = false -> order_hint_bits_minus_1 oh = -1 /\
    enable_dist_wtd_comp oh = false /\ enable_ref_frame_mvs oh = false }.

Record tools_valid (reduced : bool) (t : seq_tools) : Prop := {
  tv_width : 1 <= num_bits_width t <= 16 /\ 1 <= max_frame_width t <= 2 ^ num_bits_width t;
  tv_height : 1 <= num_bits_height t <= 16 /\ 1 <= max_frame_height t <= 2 ^ num_bits_height t;
  tv_ids : frame_id_numbers_present_flag t = true -> reduced = false /\
    2 <= delta_frame_id_length t < frame_id_length t /\ frame_id_length t <= 16 /\
    frame_id_length t <= delta_frame_id_length t + 8;
  tv_sb : sq_mib_size t = (if sb_size_128 t then 32 else 16) /\
    sq_mib_size_log2 t = (if sb_size_128 t then 5 else 4);
  tv_hint : order_hint_valid (order_hint_info t);
  tv_forced : 0 <= force_screen_content_tools t <= 2 /\ 0 <= force_integer_mv t <= 2 /\
    (force_screen_content_tools t = 0 -> force_integer_mv t = 2);
  tv_reduced : reduced = true ->
    enable_interintra_compound t = false /\ enable_masked_compound t = false /\
    enable_warped_motion t = false /\ enable_dual_filter t = false /\
    enable_order_hint (order_hint_info t) = false /\
    force_screen_content_tools t = 2 /\ force_integer_mv t = 2 }.

Definition timing_valid (t : aom_timing_info_t) : Prop :=
  0 < num_units_in_display_tick t < 2 ^ 32 /\ 0 < time_scale t < 2 ^ 32 /\
  (equal_picture_interval t = true -> 1 <= num_ticks_per_picture t < 2 ^ 32).

Definition dec_model_valid (d : aom_dec_model_info_t) : Prop :=
  0 <= num_units_in_decoding_tick d < 2 ^ 32 /\ 1 <= encoder_decoder_buffer_delay_length d <= 32 /\
  1 <= buffer_removal_time_length d <= 32 /\ 1 <= frame_presentation_time_length d <= 32.

Definition op_site_of (sh : SequenceHeader) : op_site :=
  {| os_profile := sh_profile sh; os_timing_info_present := sh_timing_info_present sh;
     os_equal_picture_interval := equal_picture_interval (sh_timing_info sh);
     os_decoder_model_info_present := sh_decoder_model_info_present_flag sh;
     os_buffer_delay_length := encoder_decoder_buffer_delay_length (sh_decoder_model_info sh);
     os_display_model_info_present := sh_display_model_info_present_flag sh |}.

Record op_valid (s : op_site) (op : operating_point) : Prop := {
  pv_idc : 0 <= op_idc op < 4096;
  pv_level : 0 <= op_level op < 32 /\ is_valid_seq_level_idx (op_level op) = true;
  pv_tier : op_level op < SEQ_LEVEL_4_0 -> op_tier op = false;
  pv_model : decoder_model_param_present_flag (op_params op) = true -> os_decoder_model_info_present s = true /\
    0 <= decoder_buffer_delay (op_params op) < 2 ^ os_buffer_delay_length s /\
    0 <= encoder_buffer_delay (op_params op) < 2 ^ os_buffer_delay_length s;
  pv_display : display_model_param_present_flag (op_params op) = true -> os_display_model_info_present s = true /\
    1 <= initial_display_delay (op_params op) <= 10 }.

(** A header that can be sent, which is also what the decoder accepts. *)
Record header_valid (sh : SequenceHeader) : Prop := {
  hv_profile : 0 <= sh_profile sh <= 2;
  hv_still : sh_reduced_still_picture_hdr sh = true -> sh_still_picture sh = true;
  hv_count : 0 <= sh_operating_points_cnt_minus_1 sh < 32 /\ length (sh_operating_points sh) = 32%nat;
  hv_timing : sh_timing_info_present sh = true -> timing_valid (sh_timing_info sh);
  hv_model : sh_decoder_model_info_present_flag sh = true ->
    sh_timing_info_present sh = true /\ dec_model_valid (sh_decoder_model_info sh);
  hv_ops : Forall (op_valid (op_site_of sh))
    (take (Z.to_nat (sh_operating_points_cnt_minus_1 sh + 1)) (sh_operating_points sh));
  hv_nonzero : sh_has_nonzero_operating_point_idc sh = existsb (fun op => negb (op_idc op =? 0))
    (take (Z.to_nat (sh_operating_points_cnt_minus_1 sh + 1)) (sh_operating_points sh));
  hv_reduced : sh_reduced_still_picture_hdr sh = true ->
    sh_timing_info_present sh = false /\ sh_display_model_info_present_flag sh = false /\
    sh_operating_points_cnt_minus_1 sh = 0 /\ sh_has_nonzero_operating_point_idc sh = false;
  hv_tools : tools_valid (sh_reduced_still_picture_hdr sh) (sh_tools sh);
  hv_color : color_valid (sh_profile sh) (sh_color sh) }.

(** ** What the decoder keeps of the header before *)

Definition kept_color (low : bool) (old c : seq_color) : seq_color :=
  {| bit_depth := bit_depth c; use_highbitdepth := (8 <? bit_depth c) || negb low; monochrome := monochrome c;
     color_primaries := color_primaries c; transfer_characteristics := transfer_characteristics c;
     matrix_coefficients := matrix_coefficients c; color_range := color_range c;
     subsampling_x := subsampling_x c; subsampling_y := subsampling_y c;
     chroma_sample_position :=
       if monochrome c || (negb (is_srgb c) && (subsampling_x c =? 1) && (subsampling_y c =? 1))
       then chroma_sample_position c else chroma_sample_position old;
     separate_uv_delta_q := separate_uv_delta_q c |}.

Definition kept_tools (old t : seq_tools) : seq_tools :=
  {| num_bits_width := num_bits_width t; num_bits_height := num_bits_height t;
     max_frame_width := max_frame_width t; max_frame_height := max_frame_height t;
     frame_id_numbers_present_flag := frame_id_numbers_present_flag t;
     frame_id_length := if frame_id_numbers_present_flag t then frame_id_length t else frame_id_length old;
     delta_frame_id_length :=
       if frame_id_numbers_present_flag t then delta_frame_id_length t else delta_frame_id_length old;
     sb_size_128 := sb_size_128 t; sq_mib_size := sq_mib_size t; sq_mib_size_log2 := sq_mib_size_log2 t;
     enable_filter_intra := enable_filter_intra t; enable_intra_edge_filter := enable_intra_edge_filter t;
     enable_interintra_compound := enable_interintra_compound t; enable_masked_compound := enable_masked_compound t;
     enable_warped_motion := enable_warped_motion t; enable_dual_filter := enable_dual_filter t;
     order_hint_info := order_hint_info t; force_screen_content_tools := force_screen_content_tools t;
     force_integer_mv := force_integer_mv t; enable_superres := enable_superres t; enable_cdef := enable_cdef t;
     enable_restoration := enable_restoration t |}.

Definition kept_timing (old t : aom_timing_info_t) : aom_timing_info_t :=
  {| num_units_in_display_tick := num_units_in_display_tick t; time_scale := time_scale t;
     equal_picture_interval := equal_picture_interval t;
     num_ticks_per_picture := if equal_picture_interval t then num_ticks_per_picture t else num_ticks_per_picture old |}.

(** The rate of a level, where the header implies one. *)
Definition level_rate (s : op_site) (op : operating_point) : Z :=
  default 0 (av1_max_level_bitrate (os_profile s) (op_level op) (op_tier op)).

Definition kept_op (s : op_site) (old op : operating_point) : operating_point :=
  let p := op_params op in
  let q := op_params old in
  let rated := os_timing_info_present s && (os_equal_picture_interval s || decoder_model_param_present_flag p) in
  let '(d, e, l) :=
    if decoder_model_param_present_flag p then (decoder_buffer_delay p, encoder_buffer_delay p, low_delay_mode_flag p)
    else if os_timing_info_present s && os_equal_picture_interval s then (70000, 20000, false)
    else (decoder_buffer_delay q, encoder_buffer_delay q, low_delay_mode_flag q) in
  {| op_idc := op_idc op; op_level := op_level op; op_tier := op_tier op;
     op_params := {| decoder_model_param_present_flag := decoder_model_param_present_flag p;
                     bitrate := if rated then level_rate s op else bitrate q;
                     buffer_size := if rated then level_rate s op else buffer_size q;
                     decoder_buffer_delay := d; encoder_buffer_delay := e; low_delay_mode_flag := l;
                     display_model_param_present_flag := display_model_param_present_flag p;
                     initial_display_delay := if display_model_param_present_flag p then initial_display_delay p
                                              else 10 |} |}.

Fixpoint kept_ops (s : op_site) (n : nat) (old ops : list operating_point) : list operating_point :=
  match n, old, ops with
  | S n', o :: old', op :: ops' => kept_op s o op :: kept_ops s n' old' ops'
  | _, _, _ => old
  end.

(** What the loop over the operating points sees. *)
Definition kept_site (old sh : SequenceHeader) : op_site :=
  {| os_profile := sh_profile sh; os_timing_info_present := sh_timing_info_present sh;
     os_equal_picture_interval :=
       equal_picture_interval (if sh_timing_info_present sh then sh_timing_info sh else sh_timing_info old);
     os_decoder_model_info_present := sh_decoder_model_info_present_flag sh;
     os_buffer_delay_length := encoder_decoder_buffer_delay_length
       (if sh_decoder_model_info_present_flag sh then sh_decoder_model_info sh else sh_decoder_model_info old);
     os_display_model_info_present := sh_display_model_info_present_flag sh |}.

(** The operating information. *)
Definition kept_info (old sh : SequenceHeader) : SequenceHeader :=
  let reduced := sh_reduced_still_picture_hdr sh in
  {| sh_profile := sh_profile sh; sh_still_picture := sh_still_picture sh; sh_reduced_still_picture_hdr := reduced;
     sh_timing_info_present := sh_timing_info_present sh;
     sh_timing_info := if sh_timing_info_present sh then kept_timing (sh_timing_info old) (sh_timing_info sh)
                       else sh_timing_info old;
     sh_decoder_model_info_present_flag := sh_decoder_model_info_present_flag sh;
     sh_decoder_model_info := if sh_decoder_model_info_present_flag sh then sh_decoder_model_info sh
                              else sh_decoder_model_info old;
     sh_display_model_info_present_flag := sh_display_model_info_present_flag sh;
     sh_operating_points_cnt_minus_1 := sh_operating_points_cnt_minus_1 sh;
     sh_has_nonzero_operating_point_idc := sh_has_nonzero_operating_point_idc sh;
     sh_operating_points :=
       if reduced then
         match sh_operating_points old, sh_operating_points sh with
         | o :: rest, op :: _ => reduced_operating_point o (op_level op) :: rest
         | _, _ => sh_operating_points old
         end
       else kept_ops (kept_site old sh) (Z.to_nat (sh_operating_points_cnt_minus_1 sh + 1))
              (sh_operating_points old) (sh_operating_points sh);
     sh_tools := sh_tools old; sh_color := sh_color old;
     sh_film_grain_params_present := sh_film_grain_params_present old |}.

(** The header a decoder that has [old] ends up with. *)
Definition kept_header (low : bool) (old sh : SequenceHeader) : SequenceHeader :=
  with_tools (kept_info old sh) (kept_tools (sh_tools old) (sh_tools sh)) (kept_color low (sh_color old) (sh_color sh))
    (sh_film_grain_params_present sh).

(** ** The fields carry over *)

Lemma carries_bitdepth profile depth : 0 <= profile <= 2 ->
  depth = 8 \/ depth = 10 \/ depth = 12 /\ profile = PROFILE_2 ->
  carries 2 (write_bitdepth profile depth) (read_bitdepth profile) depth.
Proof.
  intros Hp Hd. unfold write_bitdepth, read_bitdepth, PROFILE_2 in *. within (1 + 1)%nat.
  carry carries_flag.
  assert ((profile <=? 2) = true) as -> by lia.
  destruct (Z.eqb_spec profile 2); destruct Hd as [-> | [-> | [-> ?]]]; cbn [negb Z.eqb andb];
    first [eapply carries_post; [apply carries_flag | done] | within 0%nat; apply carries_ret | lia].
Qed.

Lemma carries_description c :
  0 <= color_primaries c < 256 /\ 0 <= transfer_characteristics c < 256 /\ 0 <= matrix_coefficients c < 256 ->
  carries 97
    (if is_unspecified c then w_flag false
     else
       _ ← w_flag true;
       _ ← w_hlit (color_primaries c) 8;
       _ ← w_hlit (transfer_characteristics c) 8;
       w_hlit (matrix_coefficients c) 8)
    (f ← r_flag;
     if f : bool then
       cp ← aom_rb_read_literal 8; tc ← aom_rb_read_literal 8; mc ← aom_rb_read_literal 8; mret (cp, tc, mc)
     else mret (AOM_CICP_CP_UNSPECIFIED, AOM_CICP_TC_UNSPECIFIED, AOM_CICP_MC_UNSPECIFIED))
    (color_primaries c, transfer_characteristics c, matrix_coefficients c).
Proof.
  intros (Hcp & Htc & Hmc). unfold is_unspecified.
  destruct (Z.eqb_spec (color_primaries c) AOM_CICP_CP_UNSPECIFIED) as [-> |],
    (Z.eqb_spec (transfer_characteristics c) AOM_CICP_TC_UNSPECIFIED) as [-> |],
    (Z.eqb_spec (matrix_coefficients c) AOM_CICP_MC_UNSPECIFIED) as [-> |]; cbn [andb];
  [within 1%nat; eapply carries_post; [apply carries_flag | done] |..];
  (within (1 + (32 + (32 + 32)))%nat; carry carries_flag;
   carry carries_lit; [lia | exact Hcp || (split; done) |]; carry carries_lit; [lia | exact Htc || (split; done) |];
   eapply carries_post; [apply carries_lit; [lia | exact Hmc || (split; done)] | done]).
Qed.

Lemma color_subsampling profile c : 0 <= profile <= 2 -> color_valid profile c ->
  subsampling_is c 0 0 \/ subsampling_is c 1 0 \/ subsampling_is c 1 1.
Proof.
  intros Hp [_ _ _ Hm Hs Hf]. destruct (monochrome c); [right; right; by apply Hm |].
  destruct (is_srgb c); [left; by apply Hs |]. destruct (Hf eq_refl eq_refl) as (H0 & H1 & H2 & H2' & _).
  unfold PROFILE_0, PROFILE_1, PROFILE_2 in *.
  destruct (Z.eq_dec profile 0); [by right; right; apply H0 |].
  destruct (Z.eq_dec profile 1); [by left; apply H1 |].
  destruct (Z.eq_dec (bit_depth c) 12); [apply H2'; lia | right; left; apply H2; lia].
Qed.

(** The chroma format, and where the samples are. *)
Lemma carries_format profile old c : 0 <= profile <= 2 -> color_valid profile c -> monochrome c = false ->
  carries 35
    (if is_srgb c then mret tt
     else
       _ ← w_hbit (color_range c);
       _ ← (if profile =? PROFILE_0 then mret tt
            else if profile =? PROFILE_1 then mret tt
            else if profile =? PROFILE_2 then
              if bit_depth c =? 12 then
                _ ← w_hbit (subsampling_x c);
                if subsampling_x c =? 0 then mret tt else w_hbit (subsampling_y c)
              else mret tt
            else mret tt);
       if (subsampling_x c =? 1) && (subsampling_y c =? 1) then w_hlit (chroma_sample_position c) 2
       else mret tt)
    (if (color_primaries c =? AOM_CICP_CP_BT_709) && (transfer_characteristics c =? AOM_CICP_TC_SRGB) &&
        (matrix_coefficients c =? AOM_CICP_MC_IDENTITY) then
       if negb ((profile =? PROFILE_1) || ((profile =? PROFILE_2) && (bit_depth c =? 12)))
       then raise AOM_CODEC_UNSUP_BITSTREAM
       else mret (1, 0, 0, chroma_sample_position old)
     else
       range ← aom_rb_read_bit;
       '(ssx, ssy) ←
         (if profile =? PROFILE_0 then mret (1, 1)
          else if profile =? PROFILE_1 then mret (0, 0)
          else if bit_depth c =? 12 then
            ssx ← aom_rb_read_bit;
            if negb (ssx =? 0) then ssy ← aom_rb_read_bit; mret (ssx, ssy) else mret (ssx, 0)
          else mret (1, 0));
       if (matrix_coefficients c =? AOM_CICP_MC_IDENTITY) && (negb (ssx =? 0) || negb (ssy =? 0))
       then raise AOM_CODEC_UNSUP_BITSTREAM
       else if negb (ssx =? 0) && negb (ssy =? 0) then
         csp ← aom_rb_read_literal 2; mret (range, ssx, ssy, csp)
       else mret (range, ssx, ssy, chroma_sample_position old))
    (color_range c, subsampling_x c, subsampling_y c, chroma_sample_position (kept_color false old c)).
Proof.
  intros Hp Hv Em. destruct (Hv) as [Hd _ Hr Hm Hs Hf]. fold (is_srgb c). cbn [chroma_sample_position kept_color]. rewrite Em. cbn [orb].
  destruct (is_srgb c) eqn:Es; cbn [negb andb].
  - destruct (Hs Em eq_refl) as ([-> ->] & -> & Hpr). unfold PROFILE_1, PROFILE_2 in *.
    assert ((profile =? 1) || (profile =? 2) && (bit_depth c =? 12) = true) as -> by lia. cbn [negb].
    within 0%nat. apply carries_ret.
  - destruct (Hf Em eq_refl) as (H0 & H1 & H2 & H2' & Hi & Hc). unfold PROFILE_0, PROFILE_1, PROFILE_2 in *.
    assert (Hss := color_subsampling profile c Hp Hv).
    within (1 + (2 + 32))%nat. carry carries_bit; [exact Hr |].
    eapply (carries_bind 2 32 _ _ _ _ (subsampling_x c, subsampling_y c)).
    + destruct (Z.eqb_spec profile 0); [destruct (H0 ltac:(done)) as [-> ->]; within 0%nat; apply carries_ret |].
      destruct (Z.eqb_spec profile 1); [destruct (H1 ltac:(done)) as [-> ->]; within 0%nat; apply carries_ret |].
      assert ((profile =? 2) = true) as -> by lia.
      destruct (Z.eqb_spec (bit_depth c) 12); [| destruct (H2 ltac:(lia) ltac:(done)) as [-> ->]; within 0%nat; apply carries_ret].
      within (1 + 1)%nat. carry carries_bit; [destruct Hss as [[-> _] | [[-> _] | [-> _]]]; auto |].
      destruct Hss as [[-> ->] | [[-> ->] | [-> ->]]]; cbn [Z.eqb negb];
        first [within 0%nat; apply carries_ret | eapply carries_post; [apply carries_bit; auto | done]].
    + destruct (Z.eqb_spec (matrix_coefficients c) AOM_CICP_MC_IDENTITY) as [Em0 |]; cbn [andb];
        [destruct (Hi ltac:(done)) as [-> ->]; cbn [Z.eqb negb andb orb]; within 0%nat; apply carries_ret |].
      destruct Hss as [[Ex Ey] | [[Ex Ey] | [Ex Ey]]]; rewrite Ex, Ey; cbn [Z.eqb negb andb orb];
        [within 0%nat; apply carries_ret .. |].
      eapply carries_post; [apply carries_lit; [lia | by apply Hc] | done].
Qed.

Lemma carries_color low profile old c : 0 <= profile <= 2 -> color_valid profile c ->
  carries 140 (write_color_config profile c) (av1_read_color_config low profile old) (kept_color low old c).
Proof.
  intros Hp Hv. destruct (Hv) as [Hd Hcodes Hr Hm _ _]. unfold write_color_config, av1_read_color_config.
  within (2 + (1 + (97 + (35 + 1))))%nat. eapply carries_bind; [by apply carries_bitdepth |]. cbv beta zeta.
  eapply (carries_bind _ _ _ _ _ _ (monochrome c)).
  { destruct (Z.eqb_spec profile PROFILE_1) as [-> |]; cbn [negb]; [| apply carries_flag].
    destruct (monochrome c); [destruct (Hm eq_refl) as [H _]; by destruct H |]. within 0%nat. apply carries_ret. }
  cbv beta. apply carries_assoc_r. eapply carries_bind; [by apply carries_description |]. cbv beta iota.
  destruct (monochrome c) eqn:Em.
  - destruct (Hm eq_refl) as (_ & [Ex Ey] & Ep & Eu). within 1%nat.
    eapply carries_post; [by apply carries_bit |]. intros r. unfold kept_color. by rewrite Em, Ex, Ey, Ep, Eu.
  - eapply carries_bind; [by apply carries_format |]. cbv beta iota.
    eapply carries_post; [apply carries_flag |]. intros r. unfold kept_color.
    cbn [chroma_sample_position]. by rewrite Em.
Qed.

Lemma carries_timing old t : timing_valid t ->
  carries 128 (write_timing_info_header t) (av1_read_timing_info_header old) (kept_timing old t).
Proof.
  intros (Hu & Hs & He). unfold write_timing_info_header, av1_read_timing_info_header.
  within (32 + (32 + (1 + 63)))%nat. carry carries_ulit; [lia | lia |]. carry carries_ulit; [lia | lia |].
  rewrite (proj2 (Z.eqb_neq (num_units_in_display_tick t) 0)), (proj2 (Z.eqb_neq (time_scale t) 0)) by lia.
  cbn [orb]. carry carries_flag. unfold kept_timing. destruct (equal_picture_interval t).
  - specialize (He eq_refl). rewrite u32_small by lia. eapply carries_post; [| done].
    eapply carries_post; [apply carries_uvlc; unfold UINT32_MAX; lia |]. intros r. cbv beta.
    rewrite (proj2 (Z.eqb_neq _ _)) by (unfold UINT32_MAX; lia).
    replace (num_ticks_per_picture t - 1 + 1) with (num_ticks_per_picture t) by lia. by rewrite u32_small by lia.
  - within 0%nat. apply carries_ret.
Qed.

Lemma carries_dec_model d : dec_model_valid d ->
  carries 128 (write_decoder_model_info d) av1_read_decoder_model_info d.
Proof.
  intros (Hu & Ha & Hb & Hc). unfold write_decoder_model_info, av1_read_decoder_model_info.
  within (32 + (32 + (32 + 32)))%nat. carry carries_lit; [lia | change (2 ^ 5) with 32; lia |].
  carry carries_ulit; [lia | lia |]. carry carries_lit; [lia | change (2 ^ 5) with 32; lia |].
  eapply carries_post; [apply carries_lit; [lia | change (2 ^ 5) with 32; lia] |].
  intros r. rewrite !Z.sub_add. by destruct d.
Qed.

Lemma carries_forced v : 0 <= v <= 2 -> carries 2 (write_forced v) read_forced v.
Proof.
  intros Hv. unfold write_forced, read_forced. destruct (Z.eqb_spec v 2) as [-> |].
  - within 1%nat. eapply carries_post; [apply carries_flag | done].
  - within (1 + 1)%nat. carry carries_flag. apply carries_bit. lia.
Qed.

(** The frame numbers and the order hints are each several fields of the reading program:
    the lemmas are stated for what reads on with them. *)
Lemma carries_ids {B} reduced t l d N (m : hwriter) (k : bool -> Z -> Z -> hreader B) b :
  (frame_id_numbers_present_flag t = true -> reduced = false /\
    2 <= delta_frame_id_length t < frame_id_length t /\ frame_id_length t <= 16 /\
    frame_id_length t <= delta_frame_id_length t + 8) ->
  carries N m (let ids := frame_id_numbers_present_flag t in
    k ids (if ids then frame_id_length t else l) (if ids then delta_frame_id_length t else d)) b ->
  carries (65 + N)
    (_ ← (if negb reduced then
            _ ← w_flag (frame_id_numbers_present_flag t);
            if frame_id_numbers_present_flag t then
              _ ← w_hlit (delta_frame_id_length t - 2) 4;
              w_hlit (frame_id_length t - delta_frame_id_length t - 1) 3
            else mret tt
          else mret tt);
     m)
    (ids ← (if reduced then mret false else r_flag);
     '(id_length, delta_id_length) ←
       (if ids : bool then
          d ← aom_rb_read_literal 4;
          let delta_id_length := d + 2 in
          l ← aom_rb_read_literal 3;
          let id_length := l + delta_id_length + 1 in
          if 16 <? id_length then raise AOM_CODEC_CORRUPT_FRAME else mret (id_length, delta_id_length)
        else mret (l, d));
     k ids id_length delta_id_length) b.
Proof.
  intros Hi Hk. destruct (frame_id_numbers_present_flag t).
  - destruct (Hi eq_refl) as (-> & Hd & Hl & Hld). cbn [negb]. apply carries_flat.
    within (1 + (64 + N))%nat. carry carries_flag.
    eapply (carries_bind _ _ _ _ _ _ (frame_id_length t, delta_frame_id_length t)); [| exact Hk].
    within (32 + 32)%nat. carry carries_lit; [lia | change (2 ^ 4) with 16; lia |].
    eapply carries_post; [apply carries_lit; [lia | change (2 ^ 3) with 8; lia] |]. intros r.
    rewrite (proj2 (Z.ltb_ge _ _)) by lia.
    by replace (delta_frame_id_length t - 2 + 2) with (delta_frame_id_length t) by lia;
      replace (frame_id_length t - delta_frame_id_length t - 1 + delta_frame_id_length t + 1) with (frame_id_length t) by lia.
  - within (1 + (0 + N))%nat. destruct reduced; cbn [negb].
    + within (0 + N)%nat. carry @carries_ret. apply carries_skip_r. exact Hk.
    + apply carries_flat. carry carries_flag. carry @carries_ret. exact Hk.
Qed.

Lemma carries_order_hint {B} oh sct imv N (k : bool -> bool -> bool -> Z -> Z -> Z -> hreader B) b :
  order_hint_valid oh -> 0 <= sct <= 2 -> 0 <= imv <= 2 -> (sct = 0 -> imv = 2) ->
  carries N (mret tt) (k (enable_order_hint oh) (enable_dist_wtd_comp oh) (enable_ref_frame_mvs oh) sct imv
                         (order_hint_bits_minus_1 oh)) b ->
  carries (39 + N)
    (_ ← w_flag (enable_order_hint oh);
     _ ← (if enable_order_hint oh then
            _ ← w_flag (enable_dist_wtd_comp oh); w_flag (enable_ref_frame_mvs oh)
          else mret tt);
     _ ← write_forced sct;
     _ ← (if 0 <? sct then write_forced imv else mret tt);
     if enable_order_hint oh then w_hlit (order_hint_bits_minus_1 oh) 3 else mret tt)
    (order_hint ← r_flag;
     dist_wtd ← (if order_hint : bool then r_flag else mret false);
     ref_mvs ← (if order_hint then r_flag else mret false);
     sct ← read_forced;
     imv ← (if 0 <? sct then read_forced else mret 2);
     bits ← (if order_hint then aom_rb_read_literal 3 else mret (-1));
     k order_hint dist_wtd ref_mvs sct imv bits) b.
Proof.
  intros [Hon Hoff] Hs Hi H0 Hk. within (1 + (1 + (1 + (2 + (2 + (32 + N))))))%nat. carry carries_flag.
  assert (Himv : carries 2 (if 0 <? sct then write_forced imv else mret tt) (if 0 <? sct then read_forced else mret 2) imv).
  { destruct (Z.ltb_spec 0 sct); [by apply carries_forced |]. rewrite H0 by lia. within 0%nat. apply carries_ret. }
  destruct oh as [[|] bits dw rm]; cbn [enable_order_hint order_hint_bits_minus_1 enable_dist_wtd_comp enable_ref_frame_mvs] in *.
  - specialize (Hon eq_refl). apply carries_flat. carry carries_flag. carry carries_flag.
    eapply carries_bind; [by apply carries_forced |]. cbv beta. eapply carries_bind; [exact Himv |]. cbv beta.
    eapply carries_ext_w; [| eapply carries_bind; [apply (carries_lit bits 3); [lia | done] | exact Hk]].
    intros w. unfold mbind, writer_bind. by destruct (w_hlit bits 3 w) as [[[] ?]|].
  - destruct (Hoff eq_refl) as (-> & -> & ->). apply carries_skip_w, carries_skip_r, carries_skip_r.
    within (2 + (2 + N))%nat.
    eapply carries_bind; [by apply carries_forced |]. cbv beta. eapply carries_bind; [exact Himv |]. cbv beta.
    apply carries_skip_r. exact Hk.
Qed.

Lemma carries_inter reduced t : tools_valid reduced t ->
  carries 43
    (if negb reduced then
       let oh := order_hint_info t in
       _ ← w_flag (enable_interintra_compound t);
       _ ← w_flag (enable_masked_compound t);
       _ ← w_flag (enable_warped_motion t);
       _ ← w_flag (enable_dual_filter t);
       _ ← w_flag (enable_order_hint oh);
       _ ← (if enable_order_hint oh then
              _ ← w_flag (enable_dist_wtd_comp oh); w_flag (enable_ref_frame_mvs oh)
            else mret tt);
       _ ← write_forced (force_screen_content_tools t);
       _ ← (if 0 <? force_screen_content_tools t then write_forced (force_integer_mv t) else mret tt);
       if enable_order_hint oh then w_hlit (order_hint_bits_minus_1 oh) 3 else mret tt
     else mret tt)
    (if reduced then
       mret (false, false, false, false,
             {| enable_order_hint := false; order_hint_bits_minus_1 := -1; enable_dist_wtd_comp := false;
                enable_ref_frame_mvs := false |}, 2, 2)
     else
       interintra ← r_flag;
       masked ← r_flag;
       warped ← r_flag;
       dual ← r_flag;
       order_hint ← r_flag;
       dist_wtd ← (if order_hint : bool then r_flag else mret false);
       ref_mvs ← (if order_hint then r_flag else mret false);
       sct ← read_forced;
       imv ← (if 0 <? sct then read_forced else mret 2);
       bits ← (if order_hint then aom_rb_read_literal 3 else mret (-1));
       mret (interintra, masked, warped, dual,
             {| enable_order_hint := order_hint; order_hint_bits_minus_1 := bits; enable_dist_wtd_comp := dist_wtd;
                enable_ref_frame_mvs := ref_mvs |}, sct, imv))
    (enable_interintra_compound t, enable_masked_compound t, enable_warped_motion t, enable_dual_filter t,
     order_hint_info t, force_screen_content_tools t, force_integer_mv t).
Proof.
  intros [_ _ _ _ Hoh (Hs & Hi & H0) Hred]. destruct reduced; cbn [negb].
  - destruct (Hred eq_refl) as (-> & -> & -> & -> & Eo & -> & ->). destruct (ov_off _ Hoh Eo) as (E1 & E2 & E3).
    destruct (order_hint_info t). cbn in *. subst. within 0%nat. apply carries_ret.
  - within (1 + (1 + (1 + (1 + (39 + 0)))))%nat. do 4 carry carries_flag.
    apply (carries_order_hint _ _ _ 0
      (fun order_hint dist_wtd ref_mvs sct imv bits =>
         mret (enable_interintra_compound t, enable_masked_compound t, enable_warped_motion t, enable_dual_filter t,
               {| enable_order_hint := order_hint; order_hint_bits_minus_1 := bits; enable_dist_wtd_comp := dist_wtd;
                  enable_ref_frame_mvs := ref_mvs |}, sct, imv))); try done.
    destruct (order_hint_info t). apply carries_ret.
Qed.

Lemma carries_tools reduced old t : tools_valid reduced t ->
  carries 242 (write_sequence_header reduced t) (av1_read_sequence_header reduced old) (kept_tools old t).
Proof.
  intros Hv. destruct (Hv) as [[Hbw Hw] [Hbh Hh] Hids Hsb _ _ _].
  unfold write_sequence_header, av1_read_sequence_header.
  within (32 + (32 + (32 + (32 + (65 + (1 + (1 + (1 + (43 + (1 + (1 + 1)))))))))))%nat.
  carry carries_lit; [lia | change (2 ^ 4) with 16; lia |]. rewrite Z.sub_add.
  carry carries_lit; [lia | change (2 ^ 4) with 16; lia |]. rewrite Z.sub_add.
  carry carries_lit; [lia | lia |]. rewrite Z.sub_add. carry carries_lit; [lia | lia |]. rewrite Z.sub_add.
  eapply carries_ids; [exact Hids |]. cbv zeta. unfold write_sb_size. do 3 carry carries_flag.
  eapply carries_bind; [by apply carries_inter |]. cbv beta iota. do 2 carry carries_flag.
  eapply carries_post; [apply carries_flag |]. intros r. unfold kept_tools. by destruct Hsb as [-> ->].
Qed.

(** *** Operating points *)

(** Every level that can be sent has a rate. *)
Lemma level_rate_defined s op : 0 <= os_profile s <= 2 -> op_valid s op ->
  av1_max_level_bitrate (os_profile s) (op_level op) (op_tier op) = Some (level_rate s op) /\ level_rate s op <> 0.
Proof.
  intros Hp [_ [Hl Hd] Ht _ _]. unfold level_rate.
  assert (forall p l (b : bool), 0 <= p <= 2 -> 0 <= l < 32 -> (l < SEQ_LEVEL_4_0 -> b = false) ->
    exists r, av1_max_level_bitrate p l b = Some r /\ r <> 0) as H.
  { clear. intros p l b Hp Hl Hb.
    assert (forallb (fun p => forallb (fun l => forallb (fun b : bool =>
      (b && (l <? SEQ_LEVEL_4_0)) || match av1_max_level_bitrate p l b with Some r => negb (r =? 0) | None => false end)
      [false; true]) (seqZ 0 32)) (seqZ 0 3) = true) as Hall by by vm_compute.
    rewrite forallb_forall in Hall. specialize (Hall p ltac:(apply list_elem_of_In, elem_of_seqZ; lia)).
    rewrite forallb_forall in Hall. specialize (Hall l ltac:(apply list_elem_of_In, elem_of_seqZ; lia)).
    rewrite forallb_forall in Hall. specialize (Hall b ltac:(destruct b; cbn; auto)).
    destruct b; [destruct (Z.ltb_spec l SEQ_LEVEL_4_0) as [Hlt |]; [by specialize (Hb Hlt) |] |];
      cbn [andb orb] in Hall; (destruct (av1_max_level_bitrate p l _) as [r|]; [exists r; split; [done | lia] | done]). }
  destruct (H (os_profile s) (op_level op) (op_tier op)) as (r & -> & Hr); [done | done | exact Ht |].
  by cbn [default].
Qed.

(** The sites of the writer and of the reader agree where it matters. *)
Definition sites_agree (sh : SequenceHeader) (s : op_site) : Prop :=
  os_profile s = sh_profile sh /\ os_timing_info_present s = sh_timing_info_present sh /\
  os_decoder_model_info_present s = sh_decoder_model_info_present_flag sh /\
  os_display_model_info_present s = sh_display_model_info_present_flag sh /\
  (sh_decoder_model_info_present_flag sh = true ->
     os_buffer_delay_length s = encoder_decoder_buffer_delay_length (sh_decoder_model_info sh) /\
     1 <= encoder_decoder_buffer_delay_length (sh_decoder_model_info sh) <= 32).

Lemma carries_model_params sh s p q : sites_agree sh s ->
  (decoder_model_param_present_flag p = true -> os_decoder_model_info_present s = true /\
    0 <= decoder_buffer_delay p < 2 ^ os_buffer_delay_length s /\
    0 <= encoder_buffer_delay p < 2 ^ os_buffer_delay_length s) ->
  carries 66
    (if sh_decoder_model_info_present_flag sh then
       _ ← w_flag (decoder_model_param_present_flag p);
       if decoder_model_param_present_flag p then
         write_dec_model_op_parameters p (encoder_decoder_buffer_delay_length (sh_decoder_model_info sh))
       else mret tt
     else mret tt)
    (if os_decoder_model_info_present s then
       present ← r_flag;
       if present : bool then
         '(d, e, l) ← av1_read_op_parameters_info (os_buffer_delay_length s); mret (present, d, e, l)
       else mret (present, decoder_buffer_delay q, encoder_buffer_delay q, low_delay_mode_flag q)
     else mret (false, decoder_buffer_delay q, encoder_buffer_delay q, low_delay_mode_flag q))
    (let present := decoder_model_param_present_flag p in let r := if present then p else q in
     (present, decoder_buffer_delay r, encoder_buffer_delay r, low_delay_mode_flag r)).
Proof.
  intros (_ & _ & -> & _ & Hlen) Hp. destruct (sh_decoder_model_info_present_flag sh).
  - destruct (Hlen eq_refl) as (-> & Hl). rewrite <- (proj1 (Hlen eq_refl)) in *.
    within (1 + (32 + (32 + 1)))%nat. carry carries_flag. destruct (decoder_model_param_present_flag p).
    + destruct (Hp eq_refl) as (_ & Hd & He). unfold write_dec_model_op_parameters, av1_read_op_parameters_info.
      apply carries_flat_r. carry carries_ulit; [lia | done |]. apply carries_flat_r. carry carries_ulit; [lia | done |].
      apply carries_flat_r. eapply carries_post; [apply carries_flag | done].
    + within 0%nat. apply carries_ret.
  - within 0%nat. destruct (decoder_model_param_present_flag p); [by destruct (Hp eq_refl) | apply carries_ret].
Qed.

Lemma carries_display_params (shown : bool) p :
  (display_model_param_present_flag p = true -> shown = true /\ 1 <= initial_display_delay p <= 10) ->
  carries 33
    (if shown then
       _ ← w_flag (display_model_param_present_flag p);
       if display_model_param_present_flag p then w_hlit (initial_display_delay p - 1) 4 else mret tt
     else mret tt)
    (if shown then
       present ← r_flag;
       if present : bool then
         delay ← aom_rb_read_literal 4;
         if 10 <? delay + 1 then raise AOM_CODEC_UNSUP_BITSTREAM else mret (present, delay + 1)
       else mret (present, 10)
     else mret (false, 10))
    (let present := display_model_param_present_flag p in
     (present, if present then initial_display_delay p else 10)).
Proof.
  intros Hp. destruct shown.
  - within (1 + 32)%nat. carry carries_flag. destruct (display_model_param_present_flag p).
    + destruct (Hp eq_refl) as (_ & Hd). eapply carries_post; [apply carries_lit; [lia | change (2 ^ 4) with 16; lia] |].
      intros r. cbv beta. rewrite Z.sub_add. by rewrite (proj2 (Z.ltb_ge _ _)) by lia.
    + within 0%nat. apply carries_ret.
  - within 0%nat. destruct (display_model_param_present_flag p); [by destruct (Hp eq_refl) | apply carries_ret].
Qed.

Lemma carries_op sh s old op : 0 <= sh_profile sh <= 2 -> sites_agree sh s -> op_valid s op ->
  carries 164 (write_operating_point sh op) (read_operating_point s old) (kept_op s old op).
Proof.
  intros Hp Hsite Hv. destruct (Hv) as [Hidc [Hl Hdef] Htier Hmodel Hdisp].
  pose proof Hsite as (Ep & _ & _ & Ed & _).
  destruct (level_rate_defined s op) as [Erate Hrate]; [by rewrite Ep | done |].
  unfold write_operating_point, read_operating_point, write_bitstream_level, read_bitstream_level.
  within (32 + (32 + (1 + (66 + 33))))%nat. carry carries_lit; [done | done |].
  apply carries_flat_r. carry carries_lit; [done | done |]. apply carries_skip_r. rewrite Hdef. cbn [negb].
  eapply (carries_bind _ _ _ _ _ _ (op_tier op)).
  { destruct (Z.leb_spec SEQ_LEVEL_4_0 (op_level op)) as [| Hlt]; [apply carries_flag |].
    rewrite (Htier Hlt). within 0%nat. apply carries_ret. }
  cbv beta zeta. eapply carries_bind; [by apply carries_model_params |]. cbv beta iota zeta. rewrite <- Ed.
  set (rated := os_timing_info_present s && (os_equal_picture_interval s || decoder_model_param_present_flag (op_params op))).
  eapply (carries_known _ _ _ _ (if rated then level_rate s op else bitrate (op_params old),
                                 if rated then level_rate s op else buffer_size (op_params old))).
  { intros r. destruct rated; [| reflexivity]. rewrite Erate. apply Z.eqb_neq in Hrate.
    unfold mbind, reader_bind. cbn [r_lift]. by rewrite Hrate. }
  cbv beta iota. unfold kept_op. fold rated.
  destruct (decoder_model_param_present_flag (op_params op)), (os_timing_info_present s && os_equal_picture_interval s);
    cbn [negb andb]; (eapply carries_post; [by apply carries_display_params | done]).
Qed.

Lemma carries_ops sh s n : 0 <= sh_profile sh <= 2 -> sites_agree sh s -> forall old ops,
  (n <= length old)%nat -> (n <= length ops)%nat -> Forall (op_valid s) (take n ops) ->
  carries (n * 164) (write_operating_points sh n ops) (read_operating_points s n old) (kept_ops s n old ops).
Proof.
  intros Hp Hs. induction n as [| n IH]; intros old ops Ho Hl Hv; [apply carries_ret |].
  destruct old as [| o old], ops as [| op ops]; cbn [length] in *; [lia .. |].
  cbn [take] in Hv. apply Forall_cons_1 in Hv as [Hop Hv]. cbn [write_operating_points read_operating_points kept_ops Nat.mul].
  eapply carries_bind; [by apply carries_op |]. cbv beta.
  eapply carries_post; [apply IH; [lia | lia | done] | done].
Qed.

Lemma kept_site_agrees old sh : header_valid sh -> sites_agree sh (kept_site old sh).
Proof.
  intros Hv. split_and!; try done. intros E. destruct (hv_model _ Hv E) as (_ & _ & Hd & _).
  cbn [kept_site os_buffer_delay_length]. by rewrite E.
Qed.

Lemma kept_site_valid old sh op : op_valid (op_site_of sh) op -> op_valid (kept_site old sh) op.
Proof.
  intros [Hi Hl Ht Hm Hd]. split; try done. intros E. destruct (Hm E) as (E' & H).
  cbn [kept_site os_decoder_model_info_present os_buffer_delay_length op_site_of] in *. by rewrite E'.
Qed.

Lemma kept_ops_idc s n old ops : (n <= length old)%nat -> (n <= length ops)%nat ->
  existsb (fun op => negb (op_idc op =? 0)) (take n (kept_ops s n old ops)) =
  existsb (fun op => negb (op_idc op =? 0)) (take n ops).
Proof.
  revert old ops. induction n as [| n IH]; intros old ops Ho Hl; [done |].
  destruct old as [| o old], ops as [| op ops]; cbn [length] in *; [lia .. |].
  cbn [take kept_ops existsb]. f_equal; [| apply IH; lia].
  unfold kept_op. by destruct (decoder_model_param_present_flag (op_params op)), (os_timing_info_present s && os_equal_picture_interval s).
Qed.

(** The timing and decoder model sections. *)
Lemma carries_clock old sh : header_valid sh -> sh_reduced_still_picture_hdr sh = false ->
  carries 257
    (if sh_timing_info_present sh then
       _ ← write_timing_info_header (sh_timing_info sh);
       _ ← w_flag (sh_decoder_model_info_present_flag sh);
       if sh_decoder_model_info_present_flag sh then write_decoder_model_info (sh_decoder_model_info sh)
       else mret tt
     else mret tt)
    (if sh_timing_info_present sh then
       timing ← av1_read_timing_info_header (sh_timing_info old);
       dm_present ← r_flag;
       dm ← (if dm_present : bool then av1_read_decoder_model_info else mret (sh_decoder_model_info old));
       mret (timing, dm_present, dm)
     else mret (sh_timing_info old, false, sh_decoder_model_info old))
    (sh_timing_info (kept_info old sh), sh_decoder_model_info_present_flag sh,
     sh_decoder_model_info (kept_info old sh)).
Proof.
  intros Hv _. cbn [kept_info sh_timing_info sh_decoder_model_info].
  pose proof (hv_timing _ Hv) as Ht. pose proof (hv_model _ Hv) as Hm. destruct (sh_timing_info_present sh).
  - within (128 + (1 + 128))%nat. carry carries_timing; [by apply Ht |]. carry carries_flag.
    destruct (sh_decoder_model_info_present_flag sh).
    + eapply carries_post; [apply carries_dec_model; by apply Hm | done].
    + within 0%nat. apply carries_ret.
  - within 0%nat. destruct (sh_decoder_model_info_present_flag sh); [by destruct (Hm eq_refl) | apply carries_ret].
Qed.

Lemma carries_info old sh : header_valid sh -> length (sh_operating_points old) = 32%nat ->
  carries (291 + 32 * 164)
    (if sh_reduced_still_picture_hdr sh then
       op ← w_lift (sh_operating_points sh !! 0%nat); write_bitstream_level (op_level op)
     else
       _ ← w_flag (sh_timing_info_present sh);
       _ ← (if sh_timing_info_present sh then
              _ ← write_timing_info_header (sh_timing_info sh);
              _ ← w_flag (sh_decoder_model_info_present_flag sh);
              if sh_decoder_model_info_present_flag sh then write_decoder_model_info (sh_decoder_model_info sh)
              else mret tt
            else mret tt);
       _ ← w_flag (sh_display_model_info_present_flag sh);
       _ ← w_hlit (sh_operating_points_cnt_minus_1 sh) OP_POINTS_CNT_MINUS_1_BITS;
       write_operating_points sh (Z.to_nat (sh_operating_points_cnt_minus_1 sh + 1)) (sh_operating_points sh))
    (read_operating_info old (sh_profile sh) (sh_still_picture sh) (sh_reduced_still_picture_hdr sh))
    (kept_info old sh).
Proof.
  intros Hv Ho. pose proof (hv_count _ Hv) as [Hc Hlen]. unfold read_operating_info.
  destruct (sh_reduced_still_picture_hdr sh) eqn:Er.
  - destruct (hv_reduced _ Hv Er) as (Et & Ed & Ec & En).
    assert (sh_decoder_model_info_present_flag sh = false) as Em
      by (destruct (sh_decoder_model_info_present_flag sh) eqn:E; [destruct (hv_model _ Hv E); congruence | done]).
    pose proof (hv_ops _ Hv) as Hops. rewrite Ec in Hops. unfold kept_info. rewrite Er, Et, Ed, Ec, En, Em.
    destruct (sh_operating_points sh) as [| op ops]; [done |]. destruct (sh_operating_points old) as [| o rest]; [done |].
    apply Forall_cons_1 in Hops as [[_ [Hl Hdef] _ _ _] _].
    apply (carries_ext_w _ (write_bitstream_level (op_level op))); [done |].
    unfold read_bitstream_level, write_bitstream_level. within (32 + 0)%nat. apply carries_flat_r.
    apply (carries_ext_w _ (_ ← w_hlit (op_level op) LEVEL_BITS; mret tt)).
    { intros w. unfold mbind, writer_bind. by destruct (w_hlit _ _ w) as [[[] ?]|]. }
    carry carries_lit; [done | done |]. apply carries_skip_r. rewrite Hdef. apply carries_ret.
  - within (1 + (257 + (1 + (32 + 32 * 164))))%nat. carry carries_flag.
    eapply carries_bind; [by apply carries_clock |]. cbv beta iota. carry carries_flag.
    carry carries_lit; [done | unfold OP_POINTS_CNT_MINUS_1_BITS; change (2 ^ 5) with 32; lia |].
    set (n := Z.to_nat (sh_operating_points_cnt_minus_1 sh + 1)).
    assert (n <= 32)%nat by (unfold n; lia).
    match goal with |- context [read_operating_points ?s] => replace s with (kept_site old sh) end.
    2: { unfold kept_site, kept_info. cbn [sh_timing_info sh_decoder_model_info]. by destruct (sh_timing_info_present sh). }
    eapply carries_post; [eapply (carries_le (n * 164)); [lia |] |].
    + apply (carries_ops sh (kept_site old sh) n (hv_profile _ Hv) (kept_site_agrees old sh Hv)); [lia | lia |].
      eapply List.Forall_impl; [intros op; apply kept_site_valid | apply (hv_ops _ Hv)].
    + intros r. cbv beta. fold n. rewrite kept_ops_idc by lia. unfold n. rewrite <- (hv_nonzero _ Hv). unfold kept_info. by rewrite Er.
Qed.

(** *** The whole header *)

(** The operating point the decoder chooses, out of range requests falling back to 0. *)
Definition chosen_index (st : seq_state) (cnt : Z) : nat :=
  if (ss_operating_point st <? 0) || (cnt <? ss_operating_point st) then 0%nat else Z.to_nat (ss_operating_point st).

Definition layers_of (st : seq_state) (idc : Z) : seq_state :=
  if idc =? 0 then set_operating_point st idc 1 1
  else set_operating_point st idc (count_bits_loop 4 idc 8 0) (count_bits_loop 8 idc 0 0).

Lemma choose_operating_point_ok st sh op : sh_operating_points sh !! chosen_index st (sh_operating_points_cnt_minus_1 sh) = Some op ->
  choose_operating_point st sh = Some (AOM_CODEC_OK, layers_of st (op_idc op)).
Proof.
  unfold chosen_index, choose_operating_point, layers_of. intros E.
  replace (Z.to_nat _) with (chosen_index st (sh_operating_points_cnt_minus_1 sh)).
  2: { unfold chosen_index. by destruct (_ || _). }
  unfold chosen_index. rewrite E. cbn [mbind option_bind]. unfold aom_get_num_layers_from_operating_point_idc.
  by destruct (op_idc op =? 0).
Qed.

Lemma chosen_index_le st cnt : 0 <= cnt -> (chosen_index st cnt < Z.to_nat (cnt + 1))%nat.
Proof.
  intros Hc. unfold chosen_index.
  destruct (Z.ltb_spec (ss_operating_point st) 0), (Z.ltb_spec cnt (ss_operating_point st)); cbn [orb]; lia.
Qed.

Lemma kept_ops_lookup s n i old ops o op : (i < n)%nat -> old !! i = Some o -> ops !! i = Some op ->
  kept_ops s n old ops !! i = Some (kept_op s o op).
Proof.
  revert i old ops. induction n as [| n IH]; intros i old ops Hi Ho Hop; [lia |].
  destruct old as [| o' old], ops as [| op' ops]; [done .. |]. cbn [kept_ops].
  destruct i as [| i]; [by simplify_eq/= |]. apply IH; [lia | done | done].
Qed.

Lemma kept_op_idc s old op : op_idc (kept_op s old op) = op_idc op.
Proof.
  unfold kept_op. by destruct (decoder_model_param_present_flag (op_params op)),
    (os_timing_info_present s && os_equal_picture_interval s).
Qed.

(** The decoder looks at the operating point that was sent. *)
Lemma kept_chosen st old sh op : header_valid sh -> length (sh_operating_points old) = 32%nat ->
  sh_operating_points sh !! chosen_index st (sh_operating_points_cnt_minus_1 sh) = Some op ->
  choose_operating_point st (kept_info old sh) = Some (AOM_CODEC_OK, layers_of st (op_idc op)).
Proof.
  intros Hv Ho Hop. pose proof (hv_count _ Hv) as [Hc Hlen].
  pose proof (chosen_index_le st _ (proj1 Hc)) as Hi.
  destruct (sh_reduced_still_picture_hdr sh) eqn:Er.
  - destruct (hv_reduced _ Hv Er) as (_ & _ & Ec & En). pose proof (hv_nonzero _ Hv) as Hz.
    rewrite Ec in Hop, Hz, Hi. rewrite En in Hz. destruct (chosen_index st 0) as [| i] eqn:Ei; [| lia].
    destruct (sh_operating_points sh) as [| op' ops] eqn:Eo; [done |]. injection Hop as ->.
    destruct (sh_operating_points old) as [| o rest] eqn:Eold; [done |].
    change (take _ (op :: ops)) with [op] in Hz. cbn [existsb] in Hz. rewrite orb_false_r in Hz.
    symmetry in Hz. apply negb_false_iff, Z.eqb_eq in Hz. rewrite Hz.
    rewrite (choose_operating_point_ok st _ (reduced_operating_point o (op_level op))); [done |].
    unfold kept_info. cbn [sh_operating_points sh_operating_points_cnt_minus_1]. rewrite Er, Ec, Eo, Eold, Ei. done.
  - destruct (lookup_lt_is_Some_2 (sh_operating_points old) (chosen_index st (sh_operating_points_cnt_minus_1 sh))) as [o Eold]; [lia |].
    rewrite <- (kept_op_idc (kept_site old sh) o op). apply choose_operating_point_ok.
    unfold kept_info. cbn [sh_operating_points sh_operating_points_cnt_minus_1]. rewrite Er.
    by apply kept_ops_lookup.
Qed.

Lemma carries_fields st sh op : header_valid sh -> length (sh_operating_points (ss_seq_params st)) = 32%nat ->
  sh_operating_points sh !! chosen_index st (sh_operating_points_cnt_minus_1 sh) = Some op ->
  carries (708 + 32 * 164) (write_sequence_fields sh) (read_sequence_fields st)
    (Some (kept_header (ss_allow_lowbitdepth st) (ss_seq_params st) sh), layers_of st (op_idc op)).
Proof.
  intros Hv Ho Hop. pose proof (hv_profile _ Hv) as Hp. unfold write_sequence_fields, read_sequence_fields, write_profile, av1_read_profile.
  within (32 + (1 + (1 + (291 + 32 * 164 + (242 + (140 + 1))))))%nat.
  carry carries_lit; [done | unfold PROFILE_BITS; change (2 ^ 3) with 8; lia |].
  unfold CONFIG_MAX_DECODE_PROFILE. rewrite (proj2 (Z.ltb_ge _ _)) by lia. do 2 carry carries_flag.
  replace (negb (sh_still_picture sh) && sh_reduced_still_picture_hdr sh) with false
    by (pose proof (hv_still _ Hv); destruct (sh_still_picture sh), (sh_reduced_still_picture_hdr sh); [done .. | by discriminate H | done]).
  eapply carries_bind; [by apply carries_info |]. cbv beta.
  eapply (carries_known _ _ _ _ (AOM_CODEC_OK, layers_of st (op_idc op))).
  { intros r. by rewrite (kept_chosen _ _ _ op). }
  cbv beta iota. cbn [is_ok negb].
  assert (ss_allow_lowbitdepth (layers_of st (op_idc op)) = ss_allow_lowbitdepth st) as ->
    by (unfold layers_of; by destruct (op_idc op =? 0)).
  eapply carries_bind; [apply carries_tools, (hv_tools _ Hv) |]. cbv beta.
  eapply carries_bind; [apply carries_color; [done | apply (hv_color _ Hv)] |]. cbv beta.
  cbn [subsampling_x subsampling_y kept_color].
  destruct (color_subsampling _ _ Hp (hv_color _ Hv)) as [[-> ->] | [[-> ->] | [-> ->]]]; cbn [Z.eqb negb andb];
    (eapply carries_post; [apply carries_flag | done]).
Qed.

(** What the decoder has after a header that was written. *)
Definition accepted (st : seq_state) (sh : SequenceHeader) (idc : Z) : seq_state :=
  set_seq_params (layers_of st idc) (kept_header (ss_allow_lowbitdepth st) (ss_seq_params st) sh).

(** A header that was written, read by a decoder in any state. *)
Lemma read_written_sequence st sh op dst : header_valid sh ->
  length (sh_operating_points (ss_seq_params st)) = 32%nat ->
  sh_operating_points sh !! chosen_index st (sh_operating_points_cnt_minus_1 sh) = Some op ->
  5964 <= 8 * Z.of_nat (length dst) < 2 ^ 31 ->
  exists n dst', av1_write_sequence_header_obu sh dst = Some (n, dst') /\ length dst' = length dst /\
    0 < n <= 745 /\
    forall tail h, let buf := take (Z.to_nat n) dst' ++ tail in
      8 * Z.of_nat (length buf) < 2 ^ 32 ->
      read_sequence_header_obu st {| rb_bit_buffer := buf; rb_bit_offset := 0; rb_error_handler := h |} =
      Ok ((n, accepted st sh (op_idc op)),
          {| rb_bit_buffer := buf; rb_bit_offset := 8 * n; rb_error_handler := h |}).
Proof.
  intros Hv Ho Hop Hd.
  destruct (carries_obu _ _ _ _ dst (ss_error_code (layers_of st (op_idc op)))
    (carries_fields st sh op Hv Ho Hop)) as (w1 & w2 & E1 & E2 & Hl & Hn & Hn' & Hr); [lia |].
  exists (aom_wb_bytes_written w2), (wb_bit_buffer w2). split_and!; [| done | lia | lia |].
  { unfold av1_write_sequence_header_obu. rewrite E1. cbn [mbind option_bind]. rewrite E2. done. }
  intros tail h buf Hb. destruct (Hr tail h Hb) as (rb & Ek & Et). unfold read_sequence_header_obu, rb_offset.
  unfold mbind, reader_bind. cbn [rb_bit_offset]. fold buf in Ek. rewrite Ek. cbv beta iota. rewrite Et. cbv beta iota.
  cbn [Z.eqb negb rb_bit_offset]. unfold mret, reader_ret. do 3 f_equal.
  rewrite Z.sub_0_r, u32_small by lia. rewrite Z.shiftr_div_pow2 by lia. change (2 ^ 3) with 8.
  Z.to_euclidean_division_equations. lia.
Qed.

Lemma chosen_exists st sh : header_valid sh ->
  exists op, sh_operating_points sh !! chosen_index st (sh_operating_points_cnt_minus_1 sh) = Some op.
Proof.
  intros Hv. pose proof (hv_count _ Hv) as [Hc Hl]. pose proof (chosen_index_le st _ (proj1 Hc)).
  apply lookup_lt_is_Some_2. lia.
Qed.

(** C13: A sequence header that can be sent is written into any buffer of 746 bytes or more, and a
    decoder in whatever state, given the bytes written and anything after them, consumes
    exactly these bytes without error, holds afterwards every field of the header (those it
    does not carry keep their value or get the default of the code), and works on the
    operating point it was configured for, or on the first when the header has no such
    point. *)
Theorem seq_header_roundtrip st sh dst : header_valid sh ->
  length (sh_operating_points (ss_seq_params st)) = 32%nat ->
  746 <= Z.of_nat (length dst) < 2 ^ 28 ->
  exists n dst' op, av1_write_sequence_header_obu sh dst = Some (n, dst') /\
    sh_operating_points sh !! chosen_index st (sh_operating_points_cnt_minus_1 sh) = Some op /\
    forall tail h, let buf := take (Z.to_nat n) dst' ++ tail in
      8 * Z.of_nat (length buf) < 2 ^ 32 ->
      exists st', read_sequence_header_obu st {| rb_bit_buffer := buf; rb_bit_offset := 0; rb_error_handler := h |} =
        Ok ((n, st'), {| rb_bit_buffer := buf; rb_bit_offset := 8 * n; rb_error_handler := h |}) /\
        ss_seq_params st' = kept_header (ss_allow_lowbitdepth st) (ss_seq_params st) sh /\
        ss_current_operating_point st' = op_idc op /\ ss_sequence_header_ready st' = true /\
        ss_error_code st' = ss_error_code st.
Proof.
  intros Hv Ho Hd. destruct (chosen_exists st sh Hv) as [op Hop].
  destruct (read_written_sequence st sh op dst Hv Ho Hop ltac:(lia)) as (n & dst' & Ew & _ & _ & Hr).
  exists n, dst', op. split_and!; [done | done |]. intros tail h buf Hb. eexists. split; [by apply Hr |].
  unfold accepted, layers_of. by destruct (op_idc op =? 0).
Qed.

(** *** Sending a header again *)

Lemma kept_op_again s old op : kept_op s (kept_op s old op) op = kept_op s old op.
Proof.
  unfold kept_op. destruct (decoder_model_param_present_flag (op_params op)), (os_timing_info_present s),
    (os_equal_picture_interval s); reflexivity.
Qed.

Lemma kept_ops_again s n old ops : kept_ops s n (kept_ops s n old ops) ops = kept_ops s n old ops.
Proof.
  revert old ops. induction n as [| n IH]; intros [| o old] [| op ops]; cbn [kept_ops]; try done.
  by rewrite kept_op_again, IH.
Qed.

Lemma kept_info_again low old sh :
  kept_info (kept_header low old sh) sh =
  with_tools (kept_info old sh) (sh_tools (kept_header low old sh)) (sh_color (kept_header low old sh))
    (sh_film_grain_params_present sh).
Proof.
  assert (kept_site (kept_header low old sh) sh = kept_site old sh) as Es.
  { unfold kept_site, kept_header, with_tools, kept_info.
    cbn [sh_timing_info sh_decoder_model_info sh_timing_info_present sh_decoder_model_info_present_flag].
    by destruct (sh_timing_info_present sh), (sh_decoder_model_info_present_flag sh). }
  unfold kept_info at 1. rewrite Es. unfold kept_header, with_tools, kept_info.
  cbn [sh_operating_points sh_timing_info sh_decoder_model_info sh_tools sh_color sh_film_grain_params_present
       sh_profile sh_still_picture sh_reduced_still_picture_hdr sh_timing_info_present
       sh_decoder_model_info_present_flag sh_display_model_info_present_flag sh_operating_points_cnt_minus_1
       sh_has_nonzero_operating_point_idc].
  f_equal.
  - destruct (sh_timing_info_present sh); [| done]. unfold kept_timing. cbn [num_ticks_per_picture].
    by destruct (equal_picture_interval (sh_timing_info sh)).
  - by destruct (sh_decoder_model_info_present_flag sh).
  - destruct (sh_reduced_still_picture_hdr sh); [| apply kept_ops_again].
    by destruct (sh_operating_points old), (sh_operating_points sh).
Qed.

Lemma kept_header_again low old sh :
  kept_header low (kept_header low old sh) sh = kept_header low old sh.
Proof.
  unfold kept_header at 1. rewrite kept_info_again. unfold kept_header, with_tools.
  cbn [sh_tools sh_color]. f_equal.
  - unfold kept_tools. cbn [frame_id_length delta_frame_id_length]. by destruct (frame_id_numbers_present_flag (sh_tools sh)).
  - unfold kept_color. cbn [chroma_sample_position]. by destruct (monochrome (sh_color sh) || _).
Qed.

Lemma length_kept_ops s n old ops : length (kept_ops s n old ops) = length old.
Proof.
  revert old ops. induction n as [| n IH]; intros [| o old] [| op ops]; cbn [kept_ops length]; try done. by rewrite IH.
Qed.

Lemma accepted_again st sh idc : accepted (accepted st sh idc) sh idc = accepted st sh idc.
Proof.
  assert (forall st, accepted st sh idc = set_seq_params (layers_of st idc) (kept_header (ss_allow_lowbitdepth st) (ss_seq_params st) sh))
    as Ea by done.
  rewrite Ea. replace (ss_seq_params (accepted st sh idc)) with (kept_header (ss_allow_lowbitdepth st) (ss_seq_params st) sh) by done.
  replace (ss_allow_lowbitdepth (accepted st sh idc)) with (ss_allow_lowbitdepth st)
    by (unfold accepted, layers_of; by destruct (idc =? 0)).
  rewrite kept_header_again. unfold accepted. set (K := kept_header _ _ _).
  assert (are_seq_headers_consistent K K = true) as EK by (unfold are_seq_headers_consistent; by rewrite bool_decide_eq_true_2).
  unfold layers_of, set_seq_params.
  destruct (idc =? 0); cbn [set_operating_point ss_seq_params ss_sequence_header_ready ss_operating_point
    ss_allow_lowbitdepth ss_current_operating_point ss_number_spatial_layers ss_number_temporal_layers
    ss_sequence_header_changed ss_error_code]; by rewrite EK.
Qed.

(** C15: A header sent again changes nothing: once the decoder has accepted a written header,
    reading the same bytes again consumes as many of them and leaves the decoder's state as
    it is, so that no new sequence is announced. *)
Theorem seq_header_repeat st sh dst n dst' tail h r st' rb' : header_valid sh ->
  length (sh_operating_points (ss_seq_params st)) = 32%nat ->
  746 <= Z.of_nat (length dst) < 2 ^ 28 ->
  av1_write_sequence_header_obu sh dst = Some (n, dst') ->
  8 * Z.of_nat (length (take (Z.to_nat n) dst' ++ tail)) < 2 ^ 32 ->
  let rb := {| rb_bit_buffer := take (Z.to_nat n) dst' ++ tail; rb_bit_offset := 0; rb_error_handler := h |} in
  read_sequence_header_obu st rb = Ok ((r, st'), rb') ->
  r = n /\ read_sequence_header_obu st' rb = Ok ((r, st'), rb').
Proof.
  intros Hv Ho Hd Ew Hb rb Er. destruct (chosen_exists st sh Hv) as [op Hop].
  destruct (read_written_sequence st sh op dst Hv Ho Hop ltac:(lia)) as (n1 & d1 & Ew1 & _ & _ & Hr1).
  rewrite Ew in Ew1. injection Ew1 as <- <-. unfold rb in Er. rewrite Hr1 in Er by done. injection Er as <- <- <-.
  split; [done |].
  assert (ss_operating_point (accepted st sh (op_idc op)) = ss_operating_point st) as Eo
    by (unfold accepted, layers_of; by destruct (op_idc op =? 0)).
  assert (length (sh_operating_points (ss_seq_params (accepted st sh (op_idc op)))) = 32%nat) as Hl.
  { cbn [accepted set_seq_params ss_seq_params kept_header with_tools sh_operating_points kept_info].
    destruct (sh_reduced_still_picture_hdr sh); [| by rewrite length_kept_ops].
    by destruct (sh_operating_points (ss_seq_params st)), (sh_operating_points sh). }
  destruct (read_written_sequence (accepted st sh (op_idc op)) sh op dst Hv Hl) as (n2 & d2 & Ew2 & _ & _ & Hr2);
    [unfold chosen_index; by rewrite Eo | lia |].
  rewrite Ew in Ew2. injection Ew2 as <- <-. unfold rb. rewrite Hr2 by done. by rewrite accepted_again.
Qed.

(** *** An example: two layers, timed, 1920 x 1080 *)

Definition example_op (idc level : Z) (tier : bool) : operating_point :=
  {| op_idc := idc; op_level := level; op_tier := tier;
     op_params := {| decoder_model_param_present_flag := true; bitrate := 0; buffer_size := 0;
                     decoder_buffer_delay := 500; encoder_buffer_delay := 200; low_delay_mode_flag := true;
                     display_model_param_present_flag := true; initial_display_delay := 4 |} |}.

Definition example_header : SequenceHeader :=
  {| sh_profile := 0; sh_still_picture := false; sh_reduced_still_picture_hdr := false;
     sh_timing_info_present := true;
     sh_timing_info := {| num_units_in_display_tick := 1; time_scale := 60; equal_picture_interval := true;
                          num_ticks_per_picture := 2 |};
     sh_decoder_model_info_present_flag := true;
     sh_decoder_model_info := {| num_units_in_decoding_tick := 1; encoder_decoder_buffer_delay_length := 10;
                                 buffer_removal_time_length := 10; frame_presentation_time_length := 10 |};
     sh_display_model_info_present_flag := true; sh_operating_points_cnt_minus_1 := 1;
     sh_has_nonzero_operating_point_idc := true;
     sh_operating_points := example_op 259 9 true :: replicate 31 (example_op 257 5 false);
     sh_tools := {| num_bits_width := 11; num_bits_height := 11; max_frame_width := 1920; max_frame_height := 1080;
                    frame_id_numbers_present_flag := true; frame_id_length := 15; delta_frame_id_length := 14;
                    sb_size_128 := true; sq_mib_size := 32; sq_mib_size_log2 := 5;
                    enable_filter_intra := true; enable_intra_edge_filter := true;
                    enable_interintra_compound := false; enable_masked_compound := true;
                    enable_warped_motion := true; enable_dual_filter := false;
                    order_hint_info := {| enable_order_hint := true; order_hint_bits_minus_1 := 6;
                                          enable_dist_wtd_comp := true; enable_ref_frame_mvs := false |};
                    force_screen_content_tools := 2; force_integer_mv := 1;
                    enable_superres := false; enable_cdef := true; enable_restoration := true |};
     sh_color := {| bit_depth := 10; use_highbitdepth := true; monochrome := false; color_primaries := 9;
                    transfer_characteristics := 16; matrix_coefficients := 9; color_range := 0;
                    subsampling_x := 1; subsampling_y := 1; chroma_sample_position := 2; separate_uv_delta_q := true |};
     sh_film_grain_params_present := false |}.

Definition zero_op : operating_point :=
  {| op_idc := 0; op_level := 0; op_tier := false;
     op_params := {| decoder_model_param_present_flag := false; bitrate := 0; buffer_size := 0;
                     decoder_buffer_delay := 0; encoder_buffer_delay := 0; low_delay_mode_flag := false;
                     display_model_param_present_flag := false; initial_display_delay := 0 |} |}.

(** The cleared structure of a new decoder. *)
Definition zero_header : SequenceHeader :=
  {| sh_profile := 0; sh_still_picture := false; sh_reduced_still_picture_hdr := false;
     sh_timing_info_present := false;
     sh_timing_info := {| num_units_in_display_tick := 0; time_scale := 0; equal_picture_interval := false;
                          num_ticks_per_picture := 0 |};
     sh_decoder_model_info_present_flag := false;
     sh_decoder_model_info := {| num_units_in_decoding_tick := 0; encoder_decoder_buffer_delay_length := 0;
                                 buffer_removal_time_length := 0; frame_presentation_time_length := 0 |};
     sh_display_model_info_present_flag := false; sh_operating_points_cnt_minus_1 := 0;
     sh_has_nonzero_operating_point_idc := false; sh_operating_points := replicate 32 zero_op;
     sh_tools := {| num_bits_width := 0; num_bits_height := 0; max_frame_width := 0; max_frame_height := 0;
                    frame_id_numbers_present_flag := false; frame_id_length := 0; delta_frame_id_length := 0;
                    sb_size_128 := false; sq_mib_size := 0; sq_mib_size_log2 := 0;
                    enable_filter_intra := false; enable_intra_edge_filter := false;
                    enable_interintra_compound := false; enable_masked_compound := false;
                    enable_warped_motion := false; enable_dual_filter := false;
                    order_hint_info := {| enable_order_hint := false; order_hint_bits_minus_1 := 0;
                                          enable_dist_wtd_comp := false; enable_ref_frame_mvs := false |};
                    force_screen_content_tools := 0; force_integer_mv := 0;
                    enable_superres := false; enable_cdef := false; enable_restoration := false |};
     sh_color := {| bit_depth := 0; use_highbitdepth := false; monochrome := false; color_primaries := 0;
                    transfer_characteristics := 0; matrix_coefficients := 0; color_range := 0;
                    subsampling_x := 0; subsampling_y := 0; chroma_sample_position := 0; separate_uv_delta_q := false |};
     sh_film_grain_params_present := false |}.

Definition zero_state (operating_point : Z) : seq_state :=
  {| ss_seq_params := zero_header; ss_operating_point := operating_point; ss_allow_lowbitdepth := true;
     ss_current_operating_point := 0; ss_number_spatial_layers := 0; ss_number_temporal_layers := 0;
     ss_sequence_header_ready := false; ss_sequence_header_changed := false; ss_error_code := AOM_CODEC_OK |}.

Lemma example_header_valid : header_valid example_header.
Proof.
  split; cbn [example_header sh_profile sh_reduced_still_picture_hdr sh_operating_points_cnt_minus_1
    sh_operating_points sh_timing_info_present sh_timing_info sh_decoder_model_info_present_flag
    sh_decoder_model_info sh_has_nonzero_operating_point_idc sh_tools sh_color]; try done.
  - change (take _ _) with [example_op 259 9 true; example_op 257 5 false].
    repeat apply Forall_cons_2; [split; cbn; try done; by intros _ | split; cbn; try done; by intros _ | apply Forall_nil_2].
  - split; cbn; try done; lia.
Qed.

Lemma seq_header_roundtrip_witness : exists n dst' op st' rb',
  av1_write_sequence_header_obu example_header (replicate 800 0) = Some (n, dst') /\ op_idc op = 257 /\
  read_sequence_header_obu (zero_state 1)
    {| rb_bit_buffer := take (Z.to_nat n) dst' ++ [255; 1]; rb_bit_offset := 0; rb_error_handler := Some AOM_CODEC_CORRUPT_FRAME |} =
    Ok ((n, st'), rb') /\
  ss_current_operating_point st' = 257 /\ max_frame_width (sh_tools (ss_seq_params st')) = 1920.
Proof.
  destruct (seq_header_roundtrip (zero_state 1) example_header (replicate 800 0) example_header_valid eq_refl
    ltac:(rewrite length_replicate; lia)) as (n & dst' & op & Ew & Eop & Hr).
  assert (Hn := Ew). vm_compute in Hn. injection Hn as Hn Hdst.
  injection Eop as Eop.
  destruct (Hr [255; 1] (Some AOM_CODEC_CORRUPT_FRAME)) as (st' & Er & Es & Ec & _).
  { rewrite <- Hn, <- Hdst. by vm_compute. }
  exists n, dst', op, st'. eexists. split_and!; [exact Ew | by rewrite <- Eop | exact Er | by rewrite Ec, <- Eop | by rewrite Es].
Defined.

Lemma seq_header_repeat_witness : exists n dst' st' rb',
  av1_write_sequence_header_obu example_header (replicate 800 0) = Some (n, dst') /\
  let rb := {| rb_bit_buffer := take (Z.to_nat n) dst' ++ [7]; rb_bit_offset := 0; rb_error_handler := None |} in
  read_sequence_header_obu (zero_state 0) rb = Ok ((n, st'), rb') /\
  read_sequence_header_obu st' rb = Ok ((n, st'), rb').
Proof.
  do 4 eexists. split; [vm_compute; reflexivity |]. intros rb. split; [vm_compute; reflexivity |].
  eapply (seq_header_repeat (zero_state 0) example_header (replicate 800 0) _ _ [7] None);
    [apply example_header_valid | done | rewrite length_replicate; lia | vm_compute; reflexivity | vm_compute; reflexivity |
     vm_compute; reflexivity].
Defined.
