(* ===== verification/SeqHeaderSafety.v ===== *)
(** * Reading a sequence header from any bytes

    Whatever an OBU holds, [read_sequence_header_obu] either leaves through an error and
    keeps the sequence header of the decoder, or stores one in which every field has a legal
    value: [header_valid], the condition under which a header can be sent. *)

From S2P Require Import Prelude CodecTypes BitChannel BitBuffer EntCoder RangeSpec Cdf EntEncProof EntDecProof EntRoundTrip SymbolIO SyntaxIO Tile TileInfo Leb128 Obu HeaderIO SeqHeader.

#[local] Arguments Z.of_nat : simpl never.
#[local] Arguments Z.mul : simpl never.

(** ** The colour configuration *)

Lemma yields_bitdepth profile : 0 <= profile <= 2 ->
  yields (read_bitdepth profile) (fun d => d = 8 \/ d = 10 \/ d = 12 /\ profile = PROFILE_2).
Proof.
  intros Hp. unfold read_bitdepth, PROFILE_2. flag hb. destruct (Z.eqb_spec profile 2), hb; cbn [andb];
    [flag tb; apply yields_ret; destruct tb; auto | ..];
    (rewrite (proj2 (Z.leb_le _ _)) by lia; apply yields_ret; auto).
Qed.

Lemma yields_subsampling profile depth : 0 <= profile <= 2 ->
  yields (if profile =? PROFILE_0 then mret (1, 1)
          else if profile =? PROFILE_1 then mret (0, 0)
          else if depth =? 12 then
            ssx ← aom_rb_read_bit;
            if negb (ssx =? 0) then ssy ← aom_rb_read_bit; mret (ssx, ssy) else mret (ssx, 0)
          else mret (1, 0))
    (fun '(ssx, ssy) =>
      (profile = PROFILE_0 -> ssx = 1 /\ ssy = 1) /\ (profile = PROFILE_1 -> ssx = 0 /\ ssy = 0) /\
      (profile = PROFILE_2 -> depth <> 12 -> ssx = 1 /\ ssy = 0) /\
      (profile = PROFILE_2 -> depth = 12 -> ssx = 0 /\ ssy = 0 \/ ssx = 1 /\ ssy = 0 \/ ssx = 1 /\ ssy = 1)).
Proof.
  intros Hp. unfold PROFILE_0, PROFILE_1, PROFILE_2.
  destruct (Z.eqb_spec profile 0); [apply yields_ret; lia |].
  destruct (Z.eqb_spec profile 1); [apply yields_ret; lia |].
  destruct (Z.eqb_spec depth 12); [| apply yields_ret; lia].
  bit ssx. destruct (Z.eqb_spec ssx 0); cbn [negb]; [apply yields_ret; lia |]. bit ssy. apply yields_ret. lia.
Qed.

Lemma yields_color low profile old : 0 <= profile <= 2 ->
  yields (av1_read_color_config low profile old) (color_valid profile).
Proof.
  intros Hp. unfold av1_read_color_config. next yields_bitdepth; [done |]. intros depth Hd. cbv zeta.
  eapply (yields_bind _ _ (fun m : bool => m = true -> profile <> PROFILE_1)).
  { destruct (Z.eqb_spec profile PROFILE_1); cbn [negb]; [by apply yields_ret |].
    eapply yields_le; [apply yields_flag | auto]. }
  intros mono Hmono. flag desc.
  eapply (yields_bind _ _ (fun '(cp, tc, mc) => 0 <= cp < 256 /\ 0 <= tc < 256 /\ 0 <= mc < 256)).
  { destruct desc; [lit cp; lit tc; lit mc; apply yields_ret; done |].
    apply yields_ret. unfold AOM_CICP_CP_UNSPECIFIED, AOM_CICP_TC_UNSPECIFIED, AOM_CICP_MC_UNSPECIFIED. lia. }
  intros [[cp tc] mc] Hcodes. destruct mono.
  { bit range. apply yields_ret. split; try done. intros _. by split_and!; auto. }
  eapply (yields_bind _ _ (fun '(range, ssx, ssy, csp) => (range = 0 \/ range = 1) /\
    if (cp =? AOM_CICP_CP_BT_709) && (tc =? AOM_CICP_TC_SRGB) && (mc =? AOM_CICP_MC_IDENTITY) then
      range = 1 /\ ssx = 0 /\ ssy = 0 /\ (profile = PROFILE_1 \/ profile = PROFILE_2 /\ depth = 12)
    else
      (profile = PROFILE_0 -> ssx = 1 /\ ssy = 1) /\ (profile = PROFILE_1 -> ssx = 0 /\ ssy = 0) /\
      (profile = PROFILE_2 -> depth <> 12 -> ssx = 1 /\ ssy = 0) /\
      (profile = PROFILE_2 -> depth = 12 -> ssx = 0 /\ ssy = 0 \/ ssx = 1 /\ ssy = 0 \/ ssx = 1 /\ ssy = 1) /\
      (mc = AOM_CICP_MC_IDENTITY -> ssx = 0 /\ ssy = 0) /\ (ssx = 1 /\ ssy = 1 -> 0 <= csp < 4))).
  - destruct (_ && _ && _).
    + destruct (Z.eqb_spec profile PROFILE_1), (Z.eqb_spec profile PROFILE_2), (Z.eqb_spec depth 12); cbn [negb orb andb];
        first [apply yields_raise | apply yields_ret; auto 10].
    + bit range. next yields_subsampling; [done |]. intros [ssx ssy] (H0 & H1 & H2 & H3).
      destruct (Z.eqb_spec mc AOM_CICP_MC_IDENTITY), (Z.eqb_spec ssx 0), (Z.eqb_spec ssy 0); cbn [negb orb andb];
        first [apply yields_raise | apply yields_ret; split_and!; auto; (done || lia)
              | lit csp; apply yields_ret; by split_and!; auto].
  - intros [[[range ssx] ssy] csp] [Hr Hf]. flag uv. apply yields_ret. split; try done; cbn.
    + intros _ E. unfold is_srgb in E. cbn in E. rewrite E in Hf. unfold subsampling_is. cbn. tauto.
    + intros _ E. unfold is_srgb in E. cbn in E. rewrite E in Hf. unfold subsampling_is. cbn. tauto.
Qed.

(** ** The clock and the decoder model *)

Lemma yields_timing old : yields (av1_read_timing_info_header old) timing_valid.
Proof.
  unfold av1_read_timing_info_header. next yields_ulit; [lia |]. intros tick Ht. next yields_ulit; [lia |]. intros scale Hs.
  destruct (Z.eqb_spec tick 0), (Z.eqb_spec scale 0); cbn [orb]; try apply yields_raise. flag equal.
  eapply (yields_bind _ _ (fun n => equal = true -> 1 <= n < 2 ^ 32)).
  - destruct equal; [| by apply yields_ret]. next yields_uvlc. intros v Hv.
    destruct (Z.eqb_spec v UINT32_MAX); [apply yields_raise |]. apply yields_ret. intros _.
    unfold UINT32_MAX in *. rewrite u32_small by lia. lia.
  - intros k Hk. apply yields_ret. unfold timing_valid. cbn. split_and!; [lia | lia | lia | lia | done].
Qed.

Lemma yields_dec_model : yields av1_read_decoder_model_info dec_model_valid.
Proof.
  unfold av1_read_decoder_model_info. lit a. next yields_ulit; [lia |]. intros b Hb. lit c. lit d.
  apply yields_ret. unfold dec_model_valid. cbn. change (2 ^ 5) with 32 in *. split_and!; lia.
Qed.

(** ** The tools *)

Lemma yields_forced : yields read_forced (fun v => 0 <= v <= 2).
Proof. unfold read_forced. flag s. destruct s; [apply yields_ret; lia |]. eapply yields_le; [exact yields_bit | cbv beta; lia]. Qed.

(** The frame numbers. *)
Lemma yields_ids (ids : bool) l d :
  yields
    (if ids then
       d ← aom_rb_read_literal 4;
       let delta_id_length := d + 2 in
       l ← aom_rb_read_literal 3;
       let id_length := l + delta_id_length + 1 in
       if 16 <? id_length then raise AOM_CODEC_CORRUPT_FRAME else mret (id_length, delta_id_length)
     else mret (l, d))
    (fun '(l, d) => ids = true -> 2 <= d < l /\ l <= 16 /\ l <= d + 8).
Proof.
  destruct ids; [| by apply yields_ret]. lit a. cbv zeta. lit b. change (2 ^ 4) with 16 in *. change (2 ^ 3) with 8 in *.
  destruct (Z.ltb_spec 16 (b + (a + 2) + 1)); [apply yields_raise | apply yields_ret; lia].
Qed.

Lemma yields_tools reduced old : yields (av1_read_sequence_header reduced old) (tools_valid reduced).
Proof.
  unfold av1_read_sequence_header. lit w. cbv zeta. lit h. change (2 ^ 4) with 16 in *. lit fw. lit fh.
  eapply (yields_bind _ _ (fun i : bool => i = true -> reduced = false)).
  { destruct reduced; [by apply yields_ret |]. eapply yields_le; [apply yields_flag | done]. }
  intros ids Hids. next yields_ids. intros [l d] Hl. flag large. flag fi. flag ie.
  eapply (yields_bind _ _ (fun '(ii, mc, wm, df, oh, sct, imv) => order_hint_valid oh /\ (0 <= sct <= 2 /\ 0 <= imv <= 2 /\
    (sct = 0 -> imv = 2)) /\ (reduced = true -> ii = false /\ mc = false /\ wm = false /\ df = false /\
       enable_order_hint oh = false /\ sct = 2 /\ imv = 2))).
  - destruct reduced; [apply yields_ret; split_and!; try done; by split |].
    flag ii. flag mc. flag wm. flag df. flag hint.
    eapply (yields_bind _ _ (fun b : bool => hint = false -> b = false));
      [destruct hint; [eapply yields_le; [apply yields_flag | done] | by apply yields_ret] |]. intros dw Hdw.
    eapply (yields_bind _ _ (fun b : bool => hint = false -> b = false));
      [destruct hint; [eapply yields_le; [apply yields_flag | done] | by apply yields_ret] |]. intros rm Hrm.
    next yields_forced. intros sct Hsct.
    eapply (yields_bind _ _ (fun v => 0 <= v <= 2 /\ (sct = 0 -> v = 2))).
    { destruct (Z.ltb_spec 0 sct); [eapply yields_le; [apply yields_forced | cbv beta] | apply yields_ret]; lia. }
    intros imv Himv.
    eapply (yields_bind _ _ (fun v => if hint : bool then 0 <= v < 8 else v = -1)).
    { destruct hint; [apply (yields_lit 3); lia | by apply yields_ret]. }
    intros bits Hbits. apply yields_ret. split; [| split; [lia | done]].
    split; cbn; intros ->; [done | auto].
  - intros [[[[[[ii mc] wm] df] oh] sct] imv] (Hoh & Hf & Hred). flag sr. flag cd. flag re. apply yields_ret.
    split; cbn; try done; try lia. intros E. auto.
Qed.

(** ** The operating points *)

Lemma yields_level : yields read_bitstream_level (fun '(l, d) => 0 <= l < 32 /\ d = is_valid_seq_level_idx l).
Proof. unfold read_bitstream_level, LEVEL_BITS. lit l. by apply yields_ret. Qed.

Lemma yields_rate s level tier (P : Z -> Prop) : 0 <= os_profile s <= 2 -> 0 <= level < 32 -> (forall r, P r) ->
  yields (r_lift (av1_max_level_bitrate (os_profile s) level tier)) P.
Proof.
  intros Hp Hl HP rb. unfold av1_max_level_bitrate.
  rewrite (arr_get_nth _ level) by (destruct tier; exact Hl). cbn [mbind option_bind].
  rewrite (arr_get_nth bitrate_profile_factor) by (change (Z.of_nat _) with 8; lia). apply HP.
Qed.

Lemma yields_op s old : 0 <= os_profile s <= 2 ->
  (os_decoder_model_info_present s = true -> 1 <= os_buffer_delay_length s <= 32) ->
  yields (read_operating_point s old) (op_valid s).
Proof.
  intros Hp Hlen. unfold read_operating_point, OP_POINTS_IDC_BITS. lit idc. change (2 ^ 12) with 4096 in *.
  next yields_level. intros [level defined] [Hlevel ->].
  destruct (is_valid_seq_level_idx level) eqn:Edef; cbn [negb]; [| apply yields_raise].
  eapply (yields_bind _ _ (fun t : bool => level < SEQ_LEVEL_4_0 -> t = false)).
  { destruct (Z.leb_spec SEQ_LEVEL_4_0 level); [eapply yields_le; [apply yields_flag | lia] | by apply yields_ret]. }
  intros tier Htier. cbv zeta.
  eapply (yields_bind _ _ (fun '(p, d, e, l) => p = true -> os_decoder_model_info_present s = true /\
    0 <= d < 2 ^ os_buffer_delay_length s /\ 0 <= e < 2 ^ os_buffer_delay_length s)).
  { destruct (os_decoder_model_info_present s); [| by apply yields_ret]. specialize (Hlen eq_refl). flag p.
    destruct p; [| by apply yields_ret]. unfold av1_read_op_parameters_info.
    eapply (yields_bind _ _ (fun '(d, e, l) => 0 <= d < 2 ^ os_buffer_delay_length s /\ 0 <= e < 2 ^ os_buffer_delay_length s)).
    - next yields_ulit; [lia |]. intros d Hd. next yields_ulit; [lia |]. intros e He. flag l. by apply yields_ret.
    - intros [[d e] l] Hde. by apply yields_ret. }
  intros [[[p d] e] l] Hparams.
  eapply (yields_bind _ _ (fun _ => True)).
  { destruct (_ && _); [| by apply yields_ret]. eapply yields_bind; [apply (yields_rate _ _ _ (fun _ => True)); [done | done | done] |].
    intros r _. destruct (r =? 0); [apply yields_raise | by apply yields_ret]. }
  intros [rate size] _.
  destruct (if _ && _ && negb p then _ else _) as [[d' e'] l'] eqn:Edel.
  assert (p = true -> d' = d /\ e' = e) as Hdel.
  { intros ->. rewrite andb_false_r in Edel. by injection Edel as <- <- <-. }
  eapply (yields_bind _ _ (fun '(p, y) => p = true -> os_display_model_info_present s = true /\ 1 <= y <= 10)).
  { destruct (os_display_model_info_present s); [| by apply yields_ret]. flag q. destruct q; [| by apply yields_ret].
    lit y. destruct (Z.ltb_spec 10 (y + 1)); [apply yields_raise | apply yields_ret; split; [done | lia]]. }
  intros [q y] Hdisplay. apply yields_ret. split; cbn; try done.
  intros E. destruct (Hdel E) as [-> ->]. by apply Hparams.
Qed.

Lemma yields_ops s n ops : 0 <= os_profile s <= 2 ->
  (os_decoder_model_info_present s = true -> 1 <= os_buffer_delay_length s <= 32) -> (n <= length ops)%nat ->
  yields (read_operating_points s n ops) (fun ops' => length ops' = length ops /\ Forall (op_valid s) (take n ops')).
Proof.
  intros Hp Hs. revert ops. induction n as [| n IH]; intros ops Hl; [by apply yields_ret |].
  destruct ops as [| op ops]; cbn [length] in Hl; [lia |]. cbn [read_operating_points].
  next yields_op; [done | done |]. intros op' Hop. next IH; [lia |]. intros ops' [Hl' Hv].
  apply yields_ret. split; [cbn [length]; lia |]. by apply Forall_cons_2.
Qed.

(** ** The operating information *)

(** A header whose fields up to the operating points are legal. *)
Definition info_valid (profile : Z) (still reduced : bool) (sh : SequenceHeader) : Prop :=
  forall t c film, tools_valid reduced t -> color_valid profile c -> header_valid (with_tools sh t c film).

Lemma yields_info old profile still reduced : 0 <= profile <= 2 -> (reduced = true -> still = true) ->
  length (sh_operating_points old) = 32%nat ->
  yields (read_operating_info old profile still reduced) (fun sh => info_valid profile still reduced sh /\
    0 <= sh_operating_points_cnt_minus_1 sh < 32 /\ length (sh_operating_points sh) = 32%nat).
Proof.
  intros Hp Hstill Hold. unfold read_operating_info. destruct reduced.
  - next yields_level. intros [level defined] [Hlevel ->].
    destruct (is_valid_seq_level_idx level) eqn:Edef; cbn [negb]; [| apply yields_raise].
    destruct (sh_operating_points old) as [| o ops] eqn:Eo; [done |]. apply yields_ret. split; [| by split].
    intros t c film Ht Hc. split; cbn; try done. apply Forall_cons_2; [| done]. split; cbn; done.
  - flag tp.
    eapply (yields_bind _ _ (fun '(timing, dp, dm) => (tp = true -> timing_valid timing) /\
      (dp = true -> tp = true /\ dec_model_valid dm))).
    { destruct tp; [| by apply yields_ret]. next yields_timing. intros timing Ht. flag dp.
      eapply (yields_bind _ _ (fun dm => dp = true -> dec_model_valid dm)).
      - destruct dp; [eapply yields_le; [apply yields_dec_model | done] | by apply yields_ret].
      - intros dm Hdm. apply yields_ret. auto. }
    intros [[timing dp] dm] [Ht Hdm]. flag disp. unfold OP_POINTS_CNT_MINUS_1_BITS. lit cnt. change (2 ^ 5) with 32 in *. cbv zeta.
    eapply yields_bind; [apply yields_ops; [done | | rewrite Hold; lia] |].
    { cbn. intros E. destruct (Hdm E) as [_ (_ & Hd & _)]. exact Hd. }
    cbv beta. intros ops [Hl Hv]. apply yields_ret. split; [| cbn; split; [done | congruence]].
    intros t c film Htl Hc. split; cbn; try done. split; [lia | congruence].
Qed.

(** ** The whole header *)

(** What holds of the decoder between two sequence headers. *)
Definition seq_inv (st : seq_state) : Prop :=
  length (sh_operating_points (ss_seq_params st)) = 32%nat /\
  (ss_sequence_header_ready st = true -> header_valid (ss_seq_params st)).

Lemma seq_inv_layers st idc : seq_inv st -> seq_inv (layers_of st idc).
Proof. unfold layers_of. by destruct (idc =? 0). Qed.

Lemma layers_of_params st idc : ss_seq_params (layers_of st idc) = ss_seq_params st.
Proof. unfold layers_of. by destruct (idc =? 0). Qed.

Lemma yields_fields st : length (sh_operating_points (ss_seq_params st)) = 32%nat ->
  yields (read_sequence_fields st) (fun '(header, st') => exists idc,
    match header with
    | Some sh => header_valid sh /\ st' = layers_of st idc
    | None => exists e, e <> AOM_CODEC_OK /\ st' = set_error st e
    end).
Proof.
  intros Hl. unfold read_sequence_fields, av1_read_profile, PROFILE_BITS, CONFIG_MAX_DECODE_PROFILE. lit profile.
  destruct (Z.ltb_spec 2 profile); [apply yields_ret; exists 0, AOM_CODEC_UNSUP_BITSTREAM; done |].
  flag still. flag reduced.
  destruct (negb still && reduced) eqn:Es; [apply yields_ret; exists 0, AOM_CODEC_UNSUP_BITSTREAM; done |].
  next yields_info; [lia | by destruct still, reduced | done |]. intros sh (Hsh & Hc & Hn).
  destruct (lookup_lt_is_Some_2 (sh_operating_points sh) (chosen_index st (sh_operating_points_cnt_minus_1 sh))) as [op Hop].
  { pose proof (chosen_index_le st _ (proj1 Hc)). lia. }
  rewrite (choose_operating_point_ok st sh op Hop), r_lift_some. cbn [is_ok negb].
  next yields_tools. intros tools Ht. next yields_color; [lia |]. intros color Hcol.
  destruct (negb _ && negb _ && negb _); [apply yields_raise |]. flag film. apply yields_ret. exists (op_idc op). split; [by apply Hsh | done].
Qed.

(** C14: The decoder only ever holds legal sequence headers.  Whatever bytes it is given, reading a
    sequence header stays inside the arrays of the structure; unless the data ends or the
    error handler is called, either 0 is returned with an error code and the header held
    before is kept, or the header stored has only legal values: bit depths and chroma
    formats allowed by the profile, frame numbers of at most 16 bits, defined levels, tiers only from
    level 4.0, nonzero clocks. *)
Theorem seq_header_safe st : seq_inv st ->
  yields (read_sequence_header_obu st) (fun '(n, st') => seq_inv st' /\
    ((n = 0 /\ ss_error_code st' <> AOM_CODEC_OK /\ ss_seq_params st' = ss_seq_params st) \/
     (ss_sequence_header_ready st' = true /\ header_valid (ss_seq_params st')))).
Proof.
  intros Hst. destruct (Hst) as [Hl Hr]. unfold read_sequence_header_obu.
  eapply (yields_bind _ _ (fun _ => True)); [by intros rb |]. intros off _.
  next yields_fields; [done |]. intros [[sh |] st'] [idc Hf].
  - destruct Hf as [Hsh ->].
    eapply (yields_bind _ _ (fun '(t, e) => t <> 0 -> e <> AOM_CODEC_OK)).
    { intros rb. unfold av1_check_trailing_bits. set (k := 8 - _).
      pose proof (yields_literal k rb) as Hy. unfold mbind, reader_bind.
      destruct (aom_rb_read_literal k rb) as [[v rb'] | |]; [| done | done].
      destruct (negb _); cbn; [done | intros Hz; by destruct Hz]. }
    intros [t e] He. destruct (Z.eqb_spec t 0); cbn [negb].
    + eapply (yields_bind _ _ (fun _ => True)); [by intros rb |]. intros o _. apply yields_ret.
      split; [split; [apply (hv_count _ Hsh) | done] | by right].
    + apply yields_ret. split; [| left; split_and!; [done | by apply He | apply layers_of_params]].
      by apply (seq_inv_layers st idc).
  - destruct Hf as (e & He & ->). apply yields_ret. split; [done | by left].
Qed.

(** The example as it was written is stored. *)
Lemma seq_header_safe_witness : exists n st' rb',
  read_sequence_header_obu (zero_state 0)
    {| rb_bit_buffer := default [] (snd <$> av1_write_sequence_header_obu example_header (replicate 800 0));
       rb_bit_offset := 0; rb_error_handler := None |} = Ok ((n, st'), rb') /\
  n = 39 /\ seq_inv (zero_state 0) /\ header_valid (ss_seq_params st').
Proof.
  assert (seq_inv (zero_state 0)) as Hi by by split.
  set (rb := {| rb_bit_buffer := _; rb_bit_offset := 0; rb_error_handler := None |}).
  pose proof (seq_header_safe (zero_state 0) Hi rb) as H.
  assert (match read_sequence_header_obu (zero_state 0) rb with Ok ((n, _), _) => n | _ => 0 end = 39) as E by by vm_compute.
  destruct (read_sequence_header_obu (zero_state 0) rb) as [[[n st'] rb'] | |]; [| discriminate E | discriminate E].
  exists n, st', rb'. split_and!; [done | done | done |]. destruct H as [_ [(Hz & _) | (_ & Hv)]]; [congruence | done].
Defined.
