(* ===== verification/FrameQuant.v ===== *)
(** * Quantizer, segments and changes of both in the frame header

    [encode_quantization], [encode_segmentation] and the changes of the quantizer and the
    loop filter in [write_uncompressed_header_obu] of [av1/encoder/bitstream.c], and the
    functions of [av1/decoder/decodeframe.c] that read them back; the segment features of
    [av1/common/seg_common.c] and which segments are lossless. *)

From S2P Require Import Prelude CodecTypes BitChannel BitBuffer EntCoder RangeSpec Cdf EntEncProof EntDecProof EntRoundTrip SymbolIO SyntaxIO TxCommon FrameContext Tile TileInfo Leb128 Obu HeaderIO.

#[local] Arguments Z.of_nat : simpl never.
#[local] Arguments Z.mul : simpl never.

(** ** The quantizer *)

Definition QINDEX_BITS : Z := 8.
Definition QM_LEVEL_BITS : Z := 4.

(** The fields of [CommonQuantParams] that are sent. *)
Record CommonQuantParams := {
  base_qindex : Z;
  y_dc_delta_q : Z; u_dc_delta_q : Z; v_dc_delta_q : Z; u_ac_delta_q : Z; v_ac_delta_q : Z;
  using_qmatrix : bool;
  qmatrix_level_y : Z; qmatrix_level_u : Z; qmatrix_level_v : Z }.

Definition write_delta_q (delta_q : Z) : hwriter :=
  if negb (delta_q =? 0) then _ ← w_hbit 1; w_hslit delta_q 6 else w_hbit 0.

Definition diff_uv_delta (q : CommonQuantParams) : bool :=
  negb (u_dc_delta_q q =? v_dc_delta_q q) || negb (u_ac_delta_q q =? v_ac_delta_q q).

Definition encode_quantization (num_planes : Z) (separate_uv_delta_q : bool) (q : CommonQuantParams) : hwriter :=
  _ ← w_hlit (base_qindex q) QINDEX_BITS;
  _ ← write_delta_q (y_dc_delta_q q);
  _ ← (if 1 <? num_planes then
         _ ← (if separate_uv_delta_q then w_flag (diff_uv_delta q) else mret tt);
         _ ← write_delta_q (u_dc_delta_q q);
         _ ← write_delta_q (u_ac_delta_q q);
         if diff_uv_delta q then _ ← write_delta_q (v_dc_delta_q q); write_delta_q (v_ac_delta_q q) else mret tt
       else mret tt);
  _ ← w_flag (using_qmatrix q);
  if using_qmatrix q then
    _ ← w_hlit (qmatrix_level_y q) QM_LEVEL_BITS;
    _ ← w_hlit (qmatrix_level_u q) QM_LEVEL_BITS;
    if negb separate_uv_delta_q then mret tt else w_hlit (qmatrix_level_v q) QM_LEVEL_BITS
  else mret tt.

Definition read_delta_q : hreader Z :=
  b ← r_flag; if b : bool then aom_rb_read_inv_signed_literal 6 else mret 0.

Definition setup_quantization (num_planes : Z) (separate_uv_delta_q : bool) : hreader CommonQuantParams :=
  base ← aom_rb_read_literal QINDEX_BITS;
  y_dc ← read_delta_q;
  '(u_dc, u_ac, v_dc, v_ac) ←
    (if 1 <? num_planes then
       diff ← (if separate_uv_delta_q then r_flag else mret false);
       u_dc ← read_delta_q;
       u_ac ← read_delta_q;
       if diff : bool then
         v_dc ← read_delta_q; v_ac ← read_delta_q; mret (u_dc, u_ac, v_dc, v_ac)
       else mret (u_dc, u_ac, u_dc, u_ac)
     else mret (0, 0, 0, 0));
  qm ← r_flag;
  '(level_y, level_u, level_v) ←
    (if qm : bool then
       level_y ← aom_rb_read_literal QM_LEVEL_BITS;
       level_u ← aom_rb_read_literal QM_LEVEL_BITS;
       level_v ← (if negb separate_uv_delta_q then mret level_u else aom_rb_read_literal QM_LEVEL_BITS);
       mret (level_y, level_u, level_v)
     else mret (0, 0, 0));
  mret {| base_qindex := base; y_dc_delta_q := y_dc; u_dc_delta_q := u_dc; v_dc_delta_q := v_dc;
          u_ac_delta_q := u_ac; v_ac_delta_q := v_ac; using_qmatrix := qm;
          qmatrix_level_y := level_y; qmatrix_level_u := level_u; qmatrix_level_v := level_v |}.

(** ** Segments *)

Definition SEG_LVL_MAX : Z := 8.
Definition SEG_LVL_ALT_Q : Z := 0.
Definition SEG_LVL_REF_FRAME : Z := 5.
Definition seg_feature_data_signed : list Z := [1; 1; 1; 1; 1; 0; 0; 0].
Definition seg_feature_data_max : list Z := [255; 63; 63; 63; 63; 7; 0; 0].

Record segmentation := {
  seg_enabled : bool; seg_update_map : bool; seg_update_data : bool; seg_temporal_update : bool;
  seg_feature_data : list (list Z); seg_feature_mask : list Z;
  seg_last_active_segid : Z; seg_segid_preskip : bool }.

(** [memset] of the whole structure to zero. *)
Definition seg_zero : segmentation :=
  {| seg_enabled := false; seg_update_map := false; seg_update_data := false; seg_temporal_update := false;
     seg_feature_data := replicate 8 (replicate 8 0); seg_feature_mask := replicate 8 0;
     seg_last_active_segid := 0; seg_segid_preskip := false |}.

(** [segfeature_active]; a segment id outside the array is an access outside it. *)
Definition seg_active (seg : segmentation) (segment_id feature_id : Z) : option bool :=
  if seg_enabled seg then
    m ← arr_get (seg_feature_mask seg) segment_id;
    Some (negb (Z.land m (Z.shiftl 1 feature_id) =? 0))
  else Some false.

Definition av1_seg_feature_data_max (feature_id : Z) : option Z := arr_get seg_feature_data_max feature_id.
Definition av1_is_segfeature_signed (feature_id : Z) : option bool :=
  s ← arr_get seg_feature_data_signed feature_id; Some (negb (s =? 0)).

Definition get_segdata (seg : segmentation) (segment_id feature_id : Z) : option Z :=
  row ← zget (seg_feature_data seg) segment_id; arr_get row feature_id.

Definition set_features (data : list (list Z)) (mask : list Z) (seg : segmentation) : segmentation :=
  {| seg_enabled := seg_enabled seg; seg_update_map := seg_update_map seg; seg_update_data := seg_update_data seg;
     seg_temporal_update := seg_temporal_update seg; seg_feature_data := data; seg_feature_mask := mask;
     seg_last_active_segid := seg_last_active_segid seg; seg_segid_preskip := seg_segid_preskip seg |}.

Definition av1_clearall_segfeatures (seg : segmentation) : segmentation :=
  set_features (replicate 8 (replicate 8 0)) (replicate 8 0) seg.

Definition av1_enable_segfeature (seg : segmentation) (segment_id feature_id : Z) : option segmentation :=
  m ← arr_get (seg_feature_mask seg) segment_id;
  mask ← arr_set (seg_feature_mask seg) segment_id (u32 (Z.lor m (Z.shiftl 1 feature_id)));
  Some (set_features (seg_feature_data seg) mask seg).

Definition av1_set_segdata (seg : segmentation) (segment_id feature_id seg_data : Z) : option segmentation :=
  row ← zget (seg_feature_data seg) segment_id;
  row ← arr_set row feature_id (s16 seg_data);
  Some (set_features (<[Z.to_nat segment_id := row]> (seg_feature_data seg)) (seg_feature_mask seg) seg).

(** [for (i) for (j)] over segments and features. *)
Definition seg_feature_places : list (Z * Z) := i ← seqZ 0 8; j ← seqZ 0 8; [(i, j)].

(** The last segment with a feature, and whether one of the features has to be known before
    the skip flag of a block. *)
Definition av1_calculate_segdata (seg : segmentation) : segmentation :=
  let '(preskip, last) :=
    foldl (fun '(preskip, last) '(i, j) =>
      if negb (Z.land (nthz (seg_feature_mask seg) i) (Z.shiftl 1 j) =? 0) then (preskip || (SEG_LVL_REF_FRAME <=? j), i)
      else (preskip, last)) (false, 0) seg_feature_places in
  {| seg_enabled := seg_enabled seg; seg_update_map := seg_update_map seg; seg_update_data := seg_update_data seg;
     seg_temporal_update := seg_temporal_update seg; seg_feature_data := seg_feature_data seg;
     seg_feature_mask := seg_feature_mask seg; seg_last_active_segid := last; seg_segid_preskip := preskip |}.

Definition segfeatures_copy (dst src : segmentation) : segmentation :=
  {| seg_enabled := seg_enabled dst; seg_update_map := seg_update_map dst; seg_update_data := seg_update_data dst;
     seg_temporal_update := seg_temporal_update dst; seg_feature_data := seg_feature_data src;
     seg_feature_mask := seg_feature_mask src; seg_last_active_segid := seg_last_active_segid src;
     seg_segid_preskip := seg_segid_preskip src |}.

(** *** Writing *)

Definition write_feature (seg : segmentation) (i j : Z) : hwriter :=
  active ← w_lift (seg_active seg i j);
  _ ← w_flag active;
  if active : bool then
    data_max ← w_lift (av1_seg_feature_data_max j);
    let ubits := get_unsigned_bits data_max in
    data ← w_lift (get_segdata seg i j);
    let data := clamp data (- data_max) data_max in
    signed ← w_lift (av1_is_segfeature_signed j);
    if signed : bool then w_hslit data ubits else w_hlit data ubits
  else mret tt.

Fixpoint write_features (seg : segmentation) (places : list (Z * Z)) : hwriter :=
  match places with
  | [] => mret tt
  | (i, j) :: places => _ ← write_feature seg i j; write_features seg places
  end.

(** [primary_none]: [primary_ref_frame == PRIMARY_REF_NONE]. *)
Definition encode_segmentation (primary_none : bool) (seg : segmentation) : hwriter :=
  _ ← w_flag (seg_enabled seg);
  if negb (seg_enabled seg) then mret tt else
  _ ← (if negb primary_none then
         _ ← w_flag (seg_update_map seg);
         _ ← (if seg_update_map seg then w_flag (seg_temporal_update seg) else mret tt);
         w_flag (seg_update_data seg)
       else mret tt);
  if seg_update_data seg then write_features seg seg_feature_places else mret tt.

(** *** Reading *)

Definition read_feature (seg : segmentation) (i j : Z) : hreader segmentation :=
  enabled ← r_flag;
  '(seg, data) ←
    (if enabled : bool then
       seg ← lift (av1_enable_segfeature seg i j);
       data_max ← lift (av1_seg_feature_data_max j);
       let ubits := get_unsigned_bits data_max in
       signed ← lift (av1_is_segfeature_signed j);
       data ← (if signed : bool then aom_rb_read_inv_signed_literal ubits else aom_rb_read_literal ubits);
       mret (seg, clamp data (- data_max) data_max)
     else mret (seg, 0));
  lift (av1_set_segdata seg i j data).

Fixpoint read_features (seg : segmentation) (places : list (Z * Z)) : hreader segmentation :=
  match places with
  | [] => mret seg
  | (i, j) :: places => seg ← read_feature seg i j; read_features seg places
  end.

(** What a frame before keeps of its segments. *)
Record seg_frame := { sf_seg : segmentation; sf_seg_map : option (list Z); sf_mi_rows : Z; sf_mi_cols : Z }.

(** [cm->seg], the copy of its features and the map in [cm->cur_frame], and
    [cm->last_frame_seg_map]. *)
Record seg_state := {
  ss_seg : segmentation; ss_cur_seg : segmentation; ss_cur_map : option (list Z); ss_last_map : option (list Z) }.

Section Setup.
Context (mi_rows mi_cols : Z) (prev_frame : option seg_frame).

Definition with_flags (update_map update_data temporal_update : bool) (seg : segmentation) : segmentation :=
  {| seg_enabled := true; seg_update_map := update_map; seg_update_data := update_data;
     seg_temporal_update := temporal_update; seg_feature_data := seg_feature_data seg;
     seg_feature_mask := seg_feature_mask seg; seg_last_active_segid := seg_last_active_segid seg;
     seg_segid_preskip := seg_segid_preskip seg |}.

(** The map of the frame before, if that frame is as large. *)
Definition last_map : option (list Z) :=
  p ← prev_frame;
  if (mi_rows =? sf_mi_rows p) && (mi_cols =? sf_mi_cols p) then sf_seg_map p else None.

Definition setup_segmentation (primary_none : bool) (st : seg_state) : hreader seg_state :=
  enabled ← r_flag;
  if negb enabled then
    mret {| ss_seg := seg_zero; ss_cur_seg := segfeatures_copy (ss_cur_seg st) seg_zero;
            ss_cur_map := (fun m => replicate (length m) 0) <$> ss_cur_map st; ss_last_map := ss_last_map st |}
  else
  '(update_map, temporal_update, update_data) ←
    (if primary_none then mret (true, false, true)
     else
       update_map ← r_flag;
       temporal_update ← (if update_map : bool then r_flag else mret false);
       update_data ← r_flag;
       mret (update_map, temporal_update, update_data));
  let seg := with_flags update_map update_data temporal_update (ss_seg st) in
  seg ← (if update_data : bool then
           seg ← read_features (av1_clearall_segfeatures seg) seg_feature_places;
           mret (av1_calculate_segdata seg)
         else mret (match prev_frame with Some p => segfeatures_copy seg (sf_seg p) | None => seg end));
  mret {| ss_seg := seg; ss_cur_seg := segfeatures_copy (ss_cur_seg st) seg; ss_cur_map := ss_cur_map st;
          ss_last_map := last_map |}.
End Setup.

(** *** Lossless segments *)

Definition av1_get_qindex (seg : segmentation) (segment_id base : Z) : option Z :=
  active ← seg_active seg segment_id SEG_LVL_ALT_Q;
  if active : bool then data ← get_segdata seg segment_id SEG_LVL_ALT_Q; Some (clamp (base + data) 0 255) else Some base.

(** [xd->lossless] *)
Definition lossless_segments (q : CommonQuantParams) (seg : segmentation) : option (list bool) :=
  mapM (fun i => qindex ← av1_get_qindex seg i (base_qindex q);
          Some ((qindex =? 0) && (y_dc_delta_q q =? 0) && (u_dc_delta_q q =? 0) && (u_ac_delta_q q =? 0) &&
                (v_dc_delta_q q =? 0) && (v_ac_delta_q q =? 0))) (seqZ 0 8).

Definition is_coded_lossless (seg : segmentation) (lossless : list bool) : option bool :=
  if seg_enabled seg then Some (forallb id lossless) else lossless !! 0%nat.

(** ** Changes of the quantizer and the loop filter *)

Record DeltaQInfo := {
  delta_q_present_flag : bool; delta_q_res : Z; delta_lf_present_flag : bool; delta_lf_res : Z; delta_lf_multi : bool }.

Definition write_delta_q_info (base : Z) (allow_intrabc : bool) (d : DeltaQInfo) : hwriter :=
  if 0 <? base then
    _ ← w_flag (delta_q_present_flag d);
    if delta_q_present_flag d then
      _ ← w_hlit (get_msb (delta_q_res d)) 2;
      _ ← (if allow_intrabc then mret tt else w_flag (delta_lf_present_flag d));
      if delta_lf_present_flag d then
        _ ← w_hlit (get_msb (delta_lf_res d)) 2;
        w_flag (delta_lf_multi d)
      else mret tt
    else mret tt
  else mret tt.

Definition read_delta_q_info (base : Z) (allow_intrabc : bool) : hreader DeltaQInfo :=
  present ← (if 0 <? base then r_flag else mret false);
  if present : bool then
    res ← aom_rb_read_literal 2;
    lf_present ← (if negb allow_intrabc then r_flag else mret false);
    if lf_present : bool then
      lf_res ← aom_rb_read_literal 2;
      multi ← r_flag;
      mret {| delta_q_present_flag := true; delta_q_res := Z.shiftl 1 res; delta_lf_present_flag := true;
              delta_lf_res := Z.shiftl 1 lf_res; delta_lf_multi := multi |}
    else mret {| delta_q_present_flag := true; delta_q_res := Z.shiftl 1 res; delta_lf_present_flag := false;
                 delta_lf_res := 1; delta_lf_multi := false |}
  else mret {| delta_q_present_flag := false; delta_q_res := 1; delta_lf_present_flag := false;
               delta_lf_res := 1; delta_lf_multi := false |}.

(** ** What is sent is read back *)

Definition delta_ok (d : Z) : Prop := -64 <= d < 64.

(** What can be sent, and what the decoder has afterwards. *)
Record quant_ok (num_planes : Z) (separate : bool) (q : CommonQuantParams) : Prop := {
  qo_base : 0 <= base_qindex q < 256;
  qo_deltas : delta_ok (y_dc_delta_q q) /\ delta_ok (u_dc_delta_q q) /\ delta_ok (v_dc_delta_q q) /\
              delta_ok (u_ac_delta_q q) /\ delta_ok (v_ac_delta_q q);
  qo_planes : num_planes <= 1 -> u_dc_delta_q q = 0 /\ v_dc_delta_q q = 0 /\ u_ac_delta_q q = 0 /\ v_ac_delta_q q = 0;
  qo_joint : separate = false -> u_dc_delta_q q = v_dc_delta_q q /\ u_ac_delta_q q = v_ac_delta_q q /\
                                 qmatrix_level_u q = qmatrix_level_v q;
  qo_levels : 0 <= qmatrix_level_y q < 16 /\ 0 <= qmatrix_level_u q < 16 /\ 0 <= qmatrix_level_v q < 16;
  qo_unused : using_qmatrix q = false -> qmatrix_level_y q = 0 /\ qmatrix_level_u q = 0 /\ qmatrix_level_v q = 0 }.

Lemma carries_delta_q d : delta_ok d -> carries 33 (write_delta_q d) read_delta_q d.
Proof.
  intros Hd. unfold write_delta_q, read_delta_q. destruct (Z.eqb_spec d 0) as [-> |]; cbn [negb].
  - within (1 + 0)%nat. eapply carries_post; [apply (carries_flag false) | done].
  - within (1 + 32)%nat. carry (carries_flag true). apply carries_slit; [lia |]. unfold delta_ok in Hd. change (2 ^ 6) with 64. lia.
Qed.

Lemma carries_quantization num_planes separate q : quant_ok num_planes separate q ->
  carries 300 (encode_quantization num_planes separate q) (setup_quantization num_planes separate) q.
Proof.
  intros [Hb (Hy & Hud & Hvd & Hua & Hva) Hp Hj (Hly & Hlu & Hlv) Hu]. unfold encode_quantization, setup_quantization, QINDEX_BITS, QM_LEVEL_BITS.
  change 256 with (2 ^ 8) in Hb. change 16 with (2 ^ 4) in *.
  within (32 + (33 + (133 + (1 + 96))))%nat. carry carries_lit; [lia | done |]. carry carries_delta_q; [done |].
  eapply (carries_bind _ _ _ _ _ _ (u_dc_delta_q q, u_ac_delta_q q, v_dc_delta_q q, v_ac_delta_q q)).
  { destruct (Z.ltb_spec 1 num_planes); [| within 0%nat; destruct (Hp ltac:(lia)) as (-> & -> & -> & ->); apply carries_ret].
    within (1 + (33 + (33 + 66)))%nat. eapply (carries_bind _ _ _ _ _ _ (diff_uv_delta q)).
    { destruct separate; [apply carries_flag |]. within 0%nat. destruct (Hj eq_refl) as (E1 & E2 & _).
      unfold diff_uv_delta. rewrite E1, E2, !Z.eqb_refl. apply carries_ret. }
    cbv beta. carry carries_delta_q; [done |]. carry carries_delta_q; [done |].
    unfold diff_uv_delta.
    destruct (Z.eqb_spec (u_dc_delta_q q) (v_dc_delta_q q)) as [Ed |], (Z.eqb_spec (u_ac_delta_q q) (v_ac_delta_q q)) as [Ea |]; cbn [negb orb].
    { within 0%nat. rewrite Ed, Ea. apply carries_ret. }
    all: within (33 + 33)%nat; carry carries_delta_q; [done |]; eapply carries_post; [by apply carries_delta_q | done]. }
  cbv beta iota. carry carries_flag. destruct (using_qmatrix q) eqn:Eq.
  - within (32 + (32 + 32))%nat. flatten. carry carries_lit; [lia | done |]. flatten. carry carries_lit; [lia | done |]. flatten.
    eapply (carries_post _ _ _ _ (qmatrix_level_v q)); [| intros r; clear -Eq; destruct q; cbn in *; by subst].
    destruct separate; cbn [negb]; [by apply carries_lit; [lia |] |]. destruct (Hj eq_refl) as (_ & _ & ->). within 0%nat. apply carries_ret.
  - within 0%nat. flatten. destruct (Hu eq_refl) as (E1 & E2 & E3).
    eapply carries_ext; [| apply (carries_ret q)]. intros r. clear -Eq E1 E2 E3. destruct q. cbn in *. by subst.
Qed.

Lemma yields_delta_q : yields read_delta_q delta_ok.
Proof.
  unfold read_delta_q. flag b. destruct b; [| apply yields_ret; unfold delta_ok; lia].
  eapply yields_le; [apply yields_slit; lia |]. intros v Hv. cbv beta in Hv. unfold delta_ok. change (2 ^ 6) with 64 in Hv. lia.
Qed.

(** Whatever is read can be sent. *)
Lemma yields_quantization num_planes separate :
  yields (setup_quantization num_planes separate) (quant_ok num_planes separate).
Proof.
  unfold setup_quantization, QINDEX_BITS, QM_LEVEL_BITS. lit base. next yields_delta_q. intros y_dc Hy.
  eapply (yields_bind _ _ (fun '(u_dc, u_ac, v_dc, v_ac) => delta_ok u_dc /\ delta_ok u_ac /\ delta_ok v_dc /\ delta_ok v_ac /\
    (num_planes <= 1 -> u_dc = 0 /\ v_dc = 0 /\ u_ac = 0 /\ v_ac = 0) /\ (separate = false -> u_dc = v_dc /\ u_ac = v_ac))).
  { destruct (Z.ltb_spec 1 num_planes); [| apply yields_ret; unfold delta_ok; split_and!; (lia || done)].
    eapply (yields_bind _ _ (fun diff : bool => separate = false -> diff = false)).
    { destruct separate; [eapply yields_le; [apply yields_flag | done] | by apply yields_ret]. }
    intros diff Hdiff. next yields_delta_q. intros u_dc Hud. next yields_delta_q. intros u_ac Hua. destruct diff.
    - next yields_delta_q. intros v_dc Hvd. next yields_delta_q. intros v_ac Hva. apply yields_ret. split_and!; try done; [lia |].
      intros Hs. by specialize (Hdiff Hs).
    - apply yields_ret. split_and!; (done || lia). }
  intros [[[u_dc u_ac] v_dc] v_ac] (Hud & Hua & Hvd & Hva & Hp & Hj). flag qm.
  eapply (yields_bind _ _ (fun '(ly, lu, lv) => (0 <= ly < 16 /\ 0 <= lu < 16 /\ 0 <= lv < 16) /\
    (qm = false -> ly = 0 /\ lu = 0 /\ lv = 0) /\ (separate = false -> lu = lv))).
  { destruct qm; [| apply yields_ret; split_and!; (lia || done)]. lit ly. lit lu.
    eapply (yields_bind _ _ (fun lv => 0 <= lv < 16 /\ (separate = false -> lu = lv))).
    - destruct separate; cbn [negb]; [eapply yields_le; [apply yields_lit; lia |]; intros v Hv; by split |].
      apply yields_ret. change (2 ^ 4) with 16 in *. split; [lia | done].
    - intros lv [Hlv Hs]. apply yields_ret. change (2 ^ 4) with 16 in *. split_and!; (done || lia). }
  intros [[ly lu] lv] (Hl & Hu & Hs). apply yields_ret. split; cbn; try done; tauto.
Qed.

(** *** Features of segments *)

(** What a decoder has of the data and the mask of the features sent. *)
Definition sent_data (seg : segmentation) (i j : Z) : Z :=
  if Z.testbit (nthz (seg_feature_mask seg) i) j then
    clamp (nthz (nth (Z.to_nat i) (seg_feature_data seg) []) j) (- nthz seg_feature_data_max j) (nthz seg_feature_data_max j)
  else 0.

Definition rows_of (f : Z -> Z -> Z) : list (list Z) := (fun i => f i <$> seqZ 0 8) <$> seqZ 0 8.

Record seg_shape (seg : segmentation) : Prop := {
  sg_rows : length (seg_feature_data seg) = 8%nat /\ Forall (fun row => length row = 8%nat) (seg_feature_data seg);
  sg_masks : length (seg_feature_mask seg) = 8%nat /\ Forall (fun m => 0 <= m < 256) (seg_feature_mask seg);
  sg_unsigned : forall i j, 0 <= i < 8 -> 5 <= j < 8 -> 0 <= nthz (nth (Z.to_nat i) (seg_feature_data seg) []) j }.

(** The state of the reader after [n] of the 64 features. *)
Definition seg_upto (seg base : segmentation) (n : Z) : segmentation :=
  set_features (rows_of (fun i j => if 8 * i + j <? n then sent_data seg i j else 0))
    ((fun i => nthz (seg_feature_mask seg) i mod 2 ^ (Z.max 0 (Z.min 8 (n - 8 * i)))) <$> seqZ 0 8) base.

Lemma land_bit_test m j : 0 <= j -> negb (Z.land m (Z.shiftl 1 j) =? 0) = Z.testbit m j.
Proof.
  intros Hj. rewrite Z.shiftl_mul_pow2, Z.mul_1_l by lia. destruct (Z.testbit m j) eqn:E.
  - apply negb_true_iff, Z.eqb_neq. intros H. apply (f_equal (fun x => Z.testbit x j)) in H.
    by rewrite Z.land_spec, E, Z.pow2_bits_true, Z.testbit_0_l in H by lia.
  - apply negb_false_iff, Z.eqb_eq. apply Z.bits_inj'. intros k Hk. rewrite Z.land_spec, Z.testbit_0_l.
    destruct (Z.eq_dec j k) as [<- |]; [by rewrite E | by rewrite Z.pow2_bits_false, andb_false_r by lia].
Qed.

Lemma mod_next_bit m j : 0 <= j -> m mod 2 ^ (j + 1) = if Z.testbit m j then Z.lor (m mod 2 ^ j) (Z.shiftl 1 j) else m mod 2 ^ j.
Proof.
  intros Hj. apply Z.bits_inj'. intros k Hk. destruct (Z.testbit m j) eqn:E.
  - rewrite Z.lor_spec, Z.shiftl_mul_pow2, Z.mul_1_l by lia. destruct (Z.lt_trichotomy k j) as [Hlt | [-> | Hgt]].
    + by rewrite !Z.mod_pow2_bits_low, Z.pow2_bits_false, orb_false_r by lia.
    + by rewrite Z.mod_pow2_bits_low, Z.pow2_bits_true, orb_true_r by lia.
    + by rewrite !Z.mod_pow2_bits_high, Z.pow2_bits_false by lia.
  - destruct (Z.lt_trichotomy k j) as [Hlt | [-> | Hgt]].
    + by rewrite !Z.mod_pow2_bits_low by lia.
    + by rewrite Z.mod_pow2_bits_low, Z.mod_pow2_bits_high, E by lia.
    + by rewrite !Z.mod_pow2_bits_high by lia.
Qed.

(** Tables of eight entries, given by a function. *)
Lemma eight i : 0 <= i < 8 -> i = 0 \/ i = 1 \/ i = 2 \/ i = 3 \/ i = 4 \/ i = 5 \/ i = 6 \/ i = 7.
Proof. lia. Qed.

Lemma table_get (f : Z -> Z) i : 0 <= i < 8 -> arr_get (f <$> seqZ 0 8) i = Some (f i).
Proof. intros Hi. by destruct (eight i Hi) as [-> | [-> | [-> | [-> | [-> | [-> | [-> | ->]]]]]]]. Qed.

Lemma table_set (f : Z -> Z) i v : 0 <= i < 8 -> arr_set (f <$> seqZ 0 8) i v = Some ((fun k => if k =? i then v else f k) <$> seqZ 0 8).
Proof. intros Hi. by destruct (eight i Hi) as [-> | [-> | [-> | [-> | [-> | [-> | [-> | ->]]]]]]]. Qed.

Lemma rows_get (f : Z -> Z -> Z) i : 0 <= i < 8 -> zget (rows_of f) i = Some (f i <$> seqZ 0 8).
Proof. intros Hi. by destruct (eight i Hi) as [-> | [-> | [-> | [-> | [-> | [-> | [-> | ->]]]]]]]. Qed.

Lemma rows_set (f : Z -> Z -> Z) i g : 0 <= i < 8 ->
  <[Z.to_nat i := g <$> seqZ 0 8]> (rows_of f) = rows_of (fun k => if k =? i then g else f k).
Proof. intros Hi. by destruct (eight i Hi) as [-> | [-> | [-> | [-> | [-> | [-> | [-> | ->]]]]]]]. Qed.

Lemma table_ext (f g : Z -> Z) : (forall k, 0 <= k < 8 -> f k = g k) -> f <$> seqZ 0 8 = g <$> seqZ 0 8.
Proof. intros H. change (seqZ 0 8) with [0; 1; 2; 3; 4; 5; 6; 7]. cbn [fmap list_fmap]. by rewrite !H by lia. Qed.

Lemma rows_listed (f : Z -> Z -> Z) :
  rows_of f = [f 0 <$> seqZ 0 8; f 1 <$> seqZ 0 8; f 2 <$> seqZ 0 8; f 3 <$> seqZ 0 8;
               f 4 <$> seqZ 0 8; f 5 <$> seqZ 0 8; f 6 <$> seqZ 0 8; f 7 <$> seqZ 0 8].
Proof. done. Qed.

Lemma rows_ext (f g : Z -> Z -> Z) : (forall i j, 0 <= i < 8 -> 0 <= j < 8 -> f i j = g i j) -> rows_of f = rows_of g.
Proof.
  intros H. rewrite !rows_listed. assert (forall i, 0 <= i < 8 -> f i <$> seqZ 0 8 = g i <$> seqZ 0 8) as E
    by (intros; apply table_ext; auto). by rewrite !E by lia.
Qed.

Lemma feature_max j : 0 <= j < 8 -> exists max, av1_seg_feature_data_max j = Some max /\ nthz seg_feature_data_max j = max /\
  0 <= max < 256 /\ 0 <= get_unsigned_bits max <= 8 /\ max < 2 ^ get_unsigned_bits max.
Proof.
  intros Hj. unfold av1_seg_feature_data_max. rewrite arr_get_nth by (cbn; lia). eexists. split; [done |]. split; [done |].
  destruct (eight j Hj) as [-> | [-> | [-> | [-> | [-> | [-> | [-> | ->]]]]]]]; vm_compute; repeat split; discriminate.
Qed.

Lemma feature_signed j : 0 <= j < 8 -> av1_is_segfeature_signed j = Some (j <? 5).
Proof. intros Hj. by destruct (eight j Hj) as [-> | [-> | [-> | [-> | [-> | [-> | [-> | ->]]]]]]]. Qed.

Lemma clamp_in v lo hi : lo <= hi -> lo <= clamp v lo hi <= hi.
Proof. intros H. unfold clamp. destruct (Z.ltb_spec v lo); [lia |]. destruct (Z.ltb_spec hi v); lia. Qed.

Lemma clamp_same v lo hi : lo <= v <= hi -> clamp v lo hi = v.
Proof. intros H. unfold clamp. by rewrite (proj2 (Z.ltb_ge v lo)), (proj2 (Z.ltb_ge hi v)) by lia. Qed.

Lemma set_features_twice d m d' m' s : set_features d m (set_features d' m' s) = set_features d m s.
Proof. done. Qed.

(** Storing the next feature. *)
Lemma seg_upto_step seg base i j : 0 <= i < 8 -> 0 <= j < 8 ->
  (if Z.testbit (nthz (seg_feature_mask seg) i) j then av1_enable_segfeature (seg_upto seg base (8 * i + j)) i j
   else Some (seg_upto seg base (8 * i + j))) ≫= (fun s => av1_set_segdata s i j (sent_data seg i j)) =
  Some (seg_upto seg base (8 * i + j + 1)).
Proof.
  intros Hi Hj. set (m := nthz (seg_feature_mask seg) i).
  assert (s16 (sent_data seg i j) = sent_data seg i j) as Es.
  { apply s16_small. unfold sent_data. destruct (Z.testbit _ _); [| lia]. destruct (feature_max j Hj) as (max & _ & -> & Hm & _).
    pose proof (clamp_in (nthz (nth (Z.to_nat i) (seg_feature_data seg) []) j) (- max) max ltac:(lia)). lia. }
  assert (forall mask, av1_set_segdata (set_features (rows_of (fun i' j' => if 8 * i' + j' <? 8 * i + j then sent_data seg i' j' else 0)) mask base)
      i j (sent_data seg i j) = Some (set_features (rows_of (fun i' j' => if 8 * i' + j' <? 8 * i + j + 1 then sent_data seg i' j' else 0)) mask base))
    as Eset.
  { intros mask. unfold av1_set_segdata. cbn [seg_feature_data set_features]. rewrite rows_get by lia. cbn [mbind option_bind].
    rewrite table_set by lia. cbn [mbind option_bind]. rewrite rows_set by lia. rewrite set_features_twice. do 2 f_equal. apply rows_ext. intros i' j' Hi' Hj'.
    destruct (Z.eqb_spec i' i) as [-> |]; [destruct (Z.eqb_spec j' j) as [-> |] |].
    - rewrite (proj2 (Z.ltb_lt _ _)) by lia. exact Es.
    - destruct (Z.ltb_spec (8 * i + j') (8 * i + j)), (Z.ltb_spec (8 * i + j') (8 * i + j + 1)); (done || lia).
    - destruct (Z.ltb_spec (8 * i' + j') (8 * i + j)), (Z.ltb_spec (8 * i' + j') (8 * i + j + 1)); (done || lia). }
  assert (forall k, 0 <= k < 8 -> k <> i -> Z.max 0 (Z.min 8 (8 * i + j + 1 - 8 * k)) = Z.max 0 (Z.min 8 (8 * i + j - 8 * k))) as Ek by lia.
  pose proof (mod_next_bit m j ltac:(lia)) as Hbit.
  assert (Z.max 0 (Z.min 8 (8 * i + j - 8 * i)) = j) as Ej by lia.
  assert (Z.max 0 (Z.min 8 (8 * i + j + 1 - 8 * i)) = j + 1) as Ej' by lia.
  unfold seg_upto. destruct (Z.testbit m j) eqn:E.
  - unfold av1_enable_segfeature. cbn [seg_feature_mask set_features seg_feature_data]. rewrite table_get by lia. cbn [mbind option_bind].
    rewrite table_set by lia. cbn [mbind option_bind]. rewrite set_features_twice.
    etransitivity; [apply Eset |]. do 2 f_equal. apply table_ext. intros k Hk. destruct (Z.eqb_spec k i) as [-> |]; [| by rewrite Ek].
    rewrite Ej, Ej'. fold m. rewrite Hbit. apply u32_small. rewrite <- Hbit. pose proof (Z.mod_pos_bound m (2 ^ (j + 1)) ltac:(apply pow2_pos; lia)).
    pose proof (pow2_le (j + 1) 8 ltac:(lia)). change (2 ^ 8) with 256 in *. lia.
  - etransitivity; [apply Eset |]. do 2 f_equal. apply table_ext. intros k Hk. destruct (Z.eq_dec k i) as [-> |]; [| by rewrite Ek].
    rewrite Ej, Ej'. fold m. by rewrite Hbit.
Qed.

Lemma carries_lift {A B} N (m : hwriter) (o : option A) a (f : A -> hreader B) b :
  o = Some a -> carries N m (f a) b -> carries N m (lift o ≫= f) b.
Proof. intros ->. by apply carries_known. Qed.

Lemma row_data seg i j : seg_shape seg -> 0 <= i < 8 -> 0 <= j < 8 ->
  get_segdata seg i j = Some (nthz (nth (Z.to_nat i) (seg_feature_data seg) []) j).
Proof.
  intros [[Hl Hr] _ _] Hi Hj. unfold get_segdata, zget. rewrite (proj2 (Z.leb_le 0 i)) by lia.
  destruct (lookup_lt_is_Some_2 (seg_feature_data seg) (Z.to_nat i) ltac:(lia)) as [row E]. rewrite E. cbn [mbind option_bind].
  rewrite (nth_lookup_Some _ _ _ _ E). apply arr_get_nth. rewrite Forall_forall in Hr.
  rewrite (Hr row); [lia |]. by eapply list_elem_of_In, list_elem_of_lookup_2.
Qed.

Lemma carries_feature seg base i j : seg_enabled seg = true -> seg_shape seg -> 0 <= i < 8 -> 0 <= j < 8 ->
  carries 33 (write_feature seg i j) (read_feature (seg_upto seg base (8 * i + j)) i j) (seg_upto seg base (8 * i + j + 1)).
Proof.
  intros He Hs Hi Hj. destruct (Hs) as [_ [Hm Hml] Hun]. pose proof (seg_upto_step seg base i j Hi Hj) as Hstep.
  unfold write_feature, seg_active. rewrite He, arr_get_nth, row_data by (done || lia). cbn [mbind option_bind]. rewrite land_bit_test by lia.
  rewrite w_lift_some. unfold read_feature. within (1 + 32)%nat. carry carries_flag.
  unfold sent_data in Hstep. destruct (Z.testbit (nthz (seg_feature_mask seg) i) j).
  - destruct (av1_enable_segfeature _ i j) as [seg' |] eqn:Een; [| done]. cbn [mbind option_bind] in Hstep.
    destruct (feature_max j Hj) as (max & Emax & Enth & Hmax & Hub & Hpow). rewrite Emax, Enth in *. rewrite !w_lift_some, feature_signed by done.
    rewrite w_lift_some. set (data := clamp _ (- max) max) in *.
    assert (- max <= data <= max) as Hdata by (apply clamp_in; lia).
    flatten. apply (carries_lift _ _ _ seg'); [done |]. flatten. apply (carries_lift _ _ _ max); [done |]. flatten.
    apply (carries_lift _ _ _ (j <? 5)); [done |]. flatten.
    eapply (carries_post _ _ _ _ data).
    + destruct (Z.ltb_spec j 5); [apply carries_slit; lia | apply carries_lit; [lia |]].
      pose proof (Hun i j Hi ltac:(lia)) as Hnn. unfold data, clamp. destruct (Z.ltb_spec (nthz (nth (Z.to_nat i) (seg_feature_data seg) []) j) (- max)); [lia |].
      destruct (Z.ltb_spec max (nthz (nth (Z.to_nat i) (seg_feature_data seg) []) j)); lia.
    + intros r. change (lift (av1_set_segdata seg' i j (clamp data (- max) max)) r = Ok (seg_upto seg base (8 * i + j + 1), r)).
      unfold lift. by rewrite clamp_same, Hstep by done.
  - cbn [mbind option_bind] in Hstep. within 0%nat. flatten. eapply carries_ext; [| apply carries_ret]. intros r. unfold lift. by rewrite Hstep.
Qed.

Lemma carries_features seg base n i : seg_enabled seg = true -> seg_shape seg -> 0 <= i -> i + Z.of_nat n = 64 ->
  carries (n * 33) (write_features seg ((fun k => (k / 8, k mod 8)) <$> seqZ i (Z.of_nat n)))
    (read_features (seg_upto seg base i) ((fun k => (k / 8, k mod 8)) <$> seqZ i (Z.of_nat n))) (seg_upto seg base 64).
Proof.
  intros He Hs. revert i. induction n as [| n IH]; intros i Hi Hn.
  - replace i with 64 by lia. apply carries_ret.
  - rewrite seqZ_cons by lia. replace (Z.pred (Z.of_nat (S n))) with (Z.of_nat n) by lia. cbn [fmap list_fmap write_features read_features].
    pose proof (Z.div_mod i 8 ltac:(lia)) as E. pose proof (Z.mod_pos_bound i 8 ltac:(lia)).
    change (S n * 33)%nat with (33 + n * 33)%nat. eapply carries_bind.
    + replace (seg_upto seg base i) with (seg_upto seg base (8 * (i / 8) + i mod 8)) by (f_equal; lia).
      apply carries_feature; [done | done | | lia]. split; [apply Z.div_pos; lia | apply Z.div_lt_upper_bound; lia].
    + replace (8 * (i / 8) + i mod 8 + 1) with (Z.succ i) by lia. apply IH; lia.
Qed.

Lemma places_counted : seg_feature_places = (fun k => (k / 8, k mod 8)) <$> seqZ 0 (Z.of_nat 64).
Proof. by vm_compute. Qed.

Lemma carries_all_features seg base : seg_enabled seg = true -> seg_shape seg ->
  carries 2112 (write_features seg seg_feature_places) (read_features (av1_clearall_segfeatures base) seg_feature_places)
    (seg_upto seg base 64).
Proof.
  intros He Hs. rewrite places_counted. replace (av1_clearall_segfeatures base) with (seg_upto seg base 0).
  { apply (carries_features seg base 64 0); [done | done | lia | done]. }
  unfold seg_upto, av1_clearall_segfeatures. f_equal.
  etransitivity; [apply (table_ext _ (fun _ => 0)) | done]. intros k Hk. replace (Z.max 0 (Z.min 8 (0 - 8 * k))) with 0 by lia. apply Z.mod_1_r.
Qed.

(** The features as a decoder keeps them, and the segmentation it ends up with. *)
Definition kept_features (seg base : segmentation) : segmentation :=
  set_features (rows_of (sent_data seg)) (seg_feature_mask seg) base.

Lemma seg_upto_all seg base : seg_shape seg -> seg_upto seg base 64 = kept_features seg base.
Proof.
  intros [_ [Hl Hm] _]. unfold seg_upto, kept_features. f_equal.
  etransitivity; [apply (table_ext _ (nthz (seg_feature_mask seg))) |].
  - intros k Hk. replace (Z.max 0 (Z.min 8 (64 - 8 * k))) with 8 by lia. apply Z.mod_small.
    change (2 ^ 8) with 256. rewrite Forall_nthz in Hm. apply Hm. lia.
  - destruct (seg_feature_mask seg) as [| a [| b [| c [| d [| e [| f [| g [| h [|]]]]]]]]]; done.
Qed.

(** Segments as the encoder has them when it sends a frame: the data of features that are
    off is zero, the rest in range, the derived fields are up to date, and features that
    are not sent are those of the frame before. *)
Record seg_ready (prev_frame : option seg_frame) (primary_none : bool) (seg : segmentation) : Prop := {
  sr_shape : seg_shape seg;
  sr_data : seg_feature_data seg = rows_of (sent_data seg);
  sr_calculated : seg_update_data seg = true -> av1_calculate_segdata seg = seg;
  sr_flags : primary_none = true -> seg_update_map seg = true /\ seg_update_data seg = true;
  sr_temporal : seg_temporal_update seg = true -> seg_update_map seg = true /\ primary_none = false;
  sr_before : seg_update_data seg = false -> exists p, prev_frame = Some p /\ segfeatures_copy seg (sf_seg p) = seg }.

Definition kept_seg (mi_rows mi_cols : Z) (prev_frame : option seg_frame) (st : seg_state) (seg : segmentation) : seg_state :=
  if seg_enabled seg then
    {| ss_seg := seg; ss_cur_seg := segfeatures_copy (ss_cur_seg st) seg; ss_cur_map := ss_cur_map st;
       ss_last_map := last_map mi_rows mi_cols prev_frame |}
  else
    {| ss_seg := seg_zero; ss_cur_seg := segfeatures_copy (ss_cur_seg st) seg_zero;
       ss_cur_map := (fun m => replicate (length m) 0) <$> ss_cur_map st; ss_last_map := ss_last_map st |}.

Lemma kept_features_same seg old : seg_enabled seg = true -> seg_feature_data seg = rows_of (sent_data seg) ->
  av1_calculate_segdata (kept_features seg (with_flags (seg_update_map seg) (seg_update_data seg) (seg_temporal_update seg) old)) =
  av1_calculate_segdata seg.
Proof.
  intros He Hd. unfold av1_calculate_segdata, kept_features, with_flags. rewrite <- Hd. cbn. rewrite He. by destruct (foldl _ _ _).
Qed.

Lemma carries_segmentation mi_rows mi_cols prev_frame primary_none st seg :
  (seg_enabled seg = true -> seg_ready prev_frame primary_none seg) ->
  carries 2116 (encode_segmentation primary_none seg) (setup_segmentation mi_rows mi_cols prev_frame primary_none st)
    (kept_seg mi_rows mi_cols prev_frame st seg).
Proof.
  intros Hready. unfold encode_segmentation, setup_segmentation, kept_seg. within (1 + (3 + 2112))%nat. carry carries_flag.
  destruct (seg_enabled seg) eqn:He; cbn [negb]; [| within 0%nat; apply carries_ret].
  destruct (Hready eq_refl) as [Hs Hd Hc Hf Ht Hb].
  eapply (carries_bind _ _ _ _ _ _ (seg_update_map seg, seg_temporal_update seg, seg_update_data seg)).
  { destruct primary_none; cbn [negb].
    - destruct (Hf eq_refl) as [-> ->]. destruct (seg_temporal_update seg); [by destruct (Ht eq_refl) |]. within 0%nat. apply carries_ret.
    - within (1 + (1 + 1))%nat. carry carries_flag. eapply (carries_bind _ _ _ _ _ _ (seg_temporal_update seg)).
      { destruct (seg_update_map seg); [apply carries_flag |]. destruct (seg_temporal_update seg); [by destruct (Ht eq_refl) |].
        within 0%nat. apply carries_ret. }
      cbv beta. eapply carries_post; [apply carries_flag | done]. }
  cbv beta iota zeta. destruct (seg_update_data seg) eqn:Eu.
  - apply carries_flat_r. eapply carries_post; [by apply carries_all_features |]. intros r.
    rewrite seg_upto_all by done.
    assert (av1_calculate_segdata (kept_features seg (with_flags (seg_update_map seg) true (seg_temporal_update seg) (ss_seg st))) = seg) as E
      by (rewrite <- Eu; by rewrite kept_features_same, Hc).
    change (mret (M := hreader) ?x ≫= ?f) with (f x). cbv beta. by rewrite E.
  - within 0%nat. destruct (Hb eq_refl) as (p & -> & Hp). eapply carries_ext; [| apply carries_ret]. intros r.
    change (mret (M := hreader) ?x ≫= ?f) with (f x). cbv beta.
    assert (segfeatures_copy (with_flags (seg_update_map seg) false (seg_temporal_update seg) (ss_seg st)) (sf_seg p) = seg) as ->; [| done].
    rewrite <- Hp at 3. unfold segfeatures_copy, with_flags. cbn. by rewrite He, Eu.
Qed.

(** *** On any bytes *)

Definition feature_fine (j v : Z) : Prop := - nthz seg_feature_data_max j <= v <= nthz seg_feature_data_max j /\ (5 <= j -> 0 <= v).

(** The features of a decoder: eight by eight, in range, zero where they are off. *)
Definition seg_inv (seg : segmentation) : Prop := exists f mask,
  seg_feature_data seg = rows_of f /\ seg_feature_mask seg = mask <$> seqZ 0 8 /\
  forall i, 0 <= i < 8 -> 0 <= mask i < 256 /\
    forall j, 0 <= j < 8 -> feature_fine j (f i j) /\ (Z.testbit (mask i) j = false -> f i j = 0).

Lemma feature_fine_0 j : 0 <= j < 8 -> feature_fine j 0.
Proof. intros Hj. destruct (feature_max j Hj) as (max & _ & E & H & _). unfold feature_fine. rewrite E. lia. Qed.

Lemma seg_inv_zero seg : seg_inv (av1_clearall_segfeatures seg).
Proof.
  exists (fun _ _ => 0), (fun _ => 0). split_and!; [done | done |]. intros i Hi. split; [lia |]. intros j Hj. split; [by apply feature_fine_0 | done].
Qed.

Lemma seg_inv_copy dst src : seg_inv src -> seg_inv (segfeatures_copy dst src).
Proof. done. Qed.

Lemma set_segdata_inv seg i j v : seg_inv seg -> 0 <= i < 8 -> 0 <= j < 8 -> feature_fine j v ->
  (forall f mask, seg_feature_data seg = rows_of f -> seg_feature_mask seg = mask <$> seqZ 0 8 -> Z.testbit (mask i) j = false -> v = 0) ->
  exists seg', av1_set_segdata seg i j v = Some seg' /\ seg_inv seg'.
Proof.
  intros (f & mask & Ef & Em & H) Hi Hj Hv H0. unfold av1_set_segdata. rewrite Ef, rows_get by done. cbn [mbind option_bind].
  rewrite table_set by done. cbn [mbind option_bind]. eexists. split; [done |].
  assert (s16 v = v) as Es. { apply s16_small. destruct (feature_max j Hj) as (max & _ & E & Hm & _). destruct Hv as [Hv _]. rewrite E in Hv. lia. }
  rewrite rows_set by done. exists (fun k => if k =? i then fun k' => if k' =? j then s16 v else f i k' else f k), mask.
  split_and!; [done | done |]. intros i' Hi'. destruct (H i' Hi') as [Hr Hf]. split; [done |]. intros j' Hj'.
  destruct (Z.eqb_spec i' i) as [-> |]; [destruct (Z.eqb_spec j' j) as [-> |] |]; [| by apply Hf ..]. rewrite Es. split; [done |]. by apply (H0 f).
Qed.

Lemma enable_inv seg i j : seg_inv seg -> 0 <= i < 8 -> 0 <= j < 8 ->
  exists seg', av1_enable_segfeature seg i j = Some seg' /\ seg_inv seg' /\
    forall mask, seg_feature_mask seg' = mask <$> seqZ 0 8 -> Z.testbit (mask i) j = true.
Proof.
  intros (f & mask & Ef & Em & H) Hi Hj. unfold av1_enable_segfeature. rewrite Em, table_get by done. cbn [mbind option_bind].
  rewrite table_set by done. cbn [mbind option_bind]. eexists. split; [done |].
  destruct (H i Hi) as [Hm _].
  assert (0 <= Z.lor (mask i) (Z.shiftl 1 j) < 256) as Hl.
  { rewrite Z.shiftl_mul_pow2, Z.mul_1_l by lia. pose proof (pow2_pos j ltac:(lia)). split; [apply Z.lor_nonneg; lia |].
    change 256 with (2 ^ 8). destruct (Z.eq_dec (Z.lor (mask i) (2 ^ j)) 0) as [-> |]; [done |].
    apply Z.log2_lt_pow2; [pose proof (proj2 (Z.lor_nonneg (mask i) (2 ^ j)) ltac:(lia)); lia |].
    rewrite Z.log2_lor, Z.log2_pow2 by lia. pose proof (log2_bound (mask i) 8 ltac:(lia)). 
    destruct (Z.eq_dec (mask i) 0) as [-> |]; [cbn; lia |]. apply Z.max_lub_lt; [apply Z.log2_lt_pow2; change (2 ^ 8) with 256; lia | lia]. }
  rewrite u32_small by lia.
  assert (Z.testbit (Z.lor (mask i) (Z.shiftl 1 j)) j = true) as Hb
    by (rewrite Z.lor_spec, Z.shiftl_mul_pow2, Z.mul_1_l, Z.pow2_bits_true by lia; apply orb_true_r).
  split.
  - exists f, (fun k => if k =? i then Z.lor (mask i) (Z.shiftl 1 j) else mask k). split_and!; [done | done |].
    intros i' Hi'. destruct (H i' Hi') as [Hr Hf]. destruct (Z.eqb_spec i' i) as [-> |]; [| done]. split; [done |]. intros j' Hj'.
    split; [by apply Hf |]. rewrite Z.lor_spec. intros E. apply orb_false_iff in E as [E _]. by apply Hf.
  - intros mask' E. cbn [seg_feature_mask set_features] in E. pose proof (table_get mask' i Hi) as E1. rewrite <- E, table_get in E1 by done.
    rewrite Z.eqb_refl in E1. injection E1 as <-. done.
Qed.

Lemma yields_feature seg i j : seg_inv seg -> 0 <= i < 8 -> 0 <= j < 8 -> yields (read_feature seg i j) seg_inv.
Proof.
  intros Hs Hi Hj. unfold read_feature. flag enabled. destruct enabled.
  - destruct (enable_inv seg i j Hs Hi Hj) as (seg' & E & Hs' & Hbit). destruct (feature_max j Hj) as (max & Emax & Enth & Hm & Hub & _).
    eapply (yields_bind _ _ (fun '(s, v) => s = seg' /\ feature_fine j v)).
    { eapply yields_bind; [by apply yields_lift |]. intros s <-. eapply yields_bind; [by apply yields_lift |]. intros mx <-. cbv zeta.
      eapply yields_bind; [apply yields_lift; by apply feature_signed |]. intros sg <-.
      eapply (yields_bind _ _ (fun v => 5 <= j -> 0 <= v)).
      - destruct (Z.ltb_spec j 5); [eapply yields_le; [apply yields_slit; lia | cbv beta; lia] |].
        eapply yields_le; [apply yields_lit; lia | cbv beta; lia].
      - intros v Hv. apply yields_ret. split; [done |]. unfold feature_fine. rewrite Enth. split; [apply clamp_in; lia |].
        intros H5. specialize (Hv H5). unfold clamp. destruct (Z.ltb_spec v (- max)); [lia |]. destruct (Z.ltb_spec max v); lia. }
    intros [s v] [-> Hv]. destruct (set_segdata_inv seg' i j v Hs' Hi Hj Hv) as (s' & Es & Hs2).
    { intros f mask _ Em Hf. specialize (Hbit mask Em). congruence. }
    eapply yields_le; [by apply yields_lift |]. by intros ? <-.
  - eapply yields_bind; [by apply (yields_ret _ (eq (seg, 0))) |]. intros [? ?] [= <- <-].
    destruct (set_segdata_inv seg i j 0 Hs Hi Hj (feature_fine_0 j Hj) ltac:(done)) as (s' & Es & Hs2).
    eapply yields_le; [by apply yields_lift |]. by intros ? <-.
Qed.

Lemma yields_features seg places : seg_inv seg -> Forall (fun '(i, j) => 0 <= i < 8 /\ 0 <= j < 8) places ->
  yields (read_features seg places) seg_inv.
Proof.
  intros Hs Hp. revert seg Hs. induction places as [| [i j] places IH]; intros seg Hs; [by apply yields_ret |].
  apply Forall_cons_1 in Hp as [[Hi Hj] Hp]. cbn [read_features]. eapply yields_bind; [by apply yields_feature |]. intros s H. by apply IH.
Qed.

Lemma places_in_range : Forall (fun '(i, j) => 0 <= i < 8 /\ 0 <= j < 8) seg_feature_places.
Proof. vm_compute. repeat constructor; discriminate. Qed.

Lemma yields_segmentation mi_rows mi_cols prev_frame primary_none st :
  seg_inv (ss_seg st) -> (forall p, prev_frame = Some p -> seg_inv (sf_seg p)) ->
  yields (setup_segmentation mi_rows mi_cols prev_frame primary_none st) (fun st' => seg_inv (ss_seg st') /\ seg_inv (ss_cur_seg st')).
Proof.
  intros Hs Hp. unfold setup_segmentation. flag enabled. destruct enabled; cbn [negb].
  2: { apply yields_ret. split; apply (seg_inv_zero seg_zero). }
  eapply (yields_bind _ _ (fun _ => True)).
  { destruct primary_none; [by apply yields_ret |]. flag um. eapply (yields_bind _ _ (fun _ => True)).
    - destruct um; [apply yields_flag | by apply yields_ret].
    - intros tu _. flag ud. by apply yields_ret. }
  intros [[um tu] ud] _. cbv zeta. eapply (yields_bind _ _ seg_inv).
  - destruct ud.
    + eapply yields_bind; [apply yields_features; [apply seg_inv_zero | apply places_in_range] |].
      intros s H. apply yields_ret. unfold av1_calculate_segdata. by destruct (foldl _ _ _).
    + apply yields_ret. destruct prev_frame as [p |]; [apply seg_inv_copy; by apply Hp | exact Hs].
  - intros s H. apply yields_ret. by split.
Qed.

(** *** Lossless segments *)

Lemma get_qindex_ok seg i base : seg_inv seg -> 0 <= i < 8 -> 0 <= base < 256 ->
  exists q, av1_get_qindex seg i base = Some q /\ 0 <= q < 256.
Proof.
  intros (f & mask & Ef & Em & H) Hi Hb. unfold av1_get_qindex, seg_active, get_segdata. rewrite Ef, Em, table_get, rows_get by done.
  destruct (seg_enabled seg); cbn [mbind option_bind]; [| by eexists]. destruct (negb _); [| by eexists].
  rewrite table_get by (unfold SEG_LVL_ALT_Q; lia). cbn [mbind option_bind]. eexists. split; [done |].
  pose proof (clamp_in (base + f i SEG_LVL_ALT_Q) 0 255 ltac:(lia)). lia.
Qed.

Lemma lossless_segments_ok q seg : seg_inv seg -> 0 <= base_qindex q < 256 ->
  exists l, lossless_segments q seg = Some l /\ length l = 8%nat.
Proof.
  intros Hs Hb. unfold lossless_segments. change (seqZ 0 8) with [0; 1; 2; 3; 4; 5; 6; 7].
  cbn [mapM]. repeat match goal with |- context [av1_get_qindex seg ?i _] =>
    destruct (get_qindex_ok seg i (base_qindex q) Hs ltac:(lia) Hb) as (? & -> & _); cbn [mbind option_bind] end.
  by eexists.
Qed.

Lemma coded_lossless_ok seg l : length l = 8%nat -> exists b, is_coded_lossless seg l = Some b.
Proof. intros H. unfold is_coded_lossless. destruct (seg_enabled seg); [by eexists |]. destruct l; [done | by eexists]. Qed.

(** *** Changes of the quantizer and the loop filter *)

Definition res_ok (r : Z) : Prop := r = 1 \/ r = 2 \/ r = 4 \/ r = 8.

Record delta_q_ok (base : Z) (allow_intrabc : bool) (d : DeltaQInfo) : Prop := {
  do_base : delta_q_present_flag d = true -> 0 < base;
  do_res : res_ok (delta_q_res d) /\ res_ok (delta_lf_res d);
  do_absent : delta_q_present_flag d = false -> delta_q_res d = 1 /\ delta_lf_present_flag d = false;
  do_lf : delta_lf_present_flag d = true -> allow_intrabc = false;
  do_lf_absent : delta_lf_present_flag d = false -> delta_lf_res d = 1 /\ delta_lf_multi d = false }.

Lemma res_code r : res_ok r -> 0 <= get_msb r < 2 ^ 2 /\ Z.shiftl 1 (get_msb r) = r.
Proof. intros [-> | [-> | [-> | ->]]]; vm_compute; repeat split; discriminate. Qed.

Lemma carries_delta_q_info base allow_intrabc d : delta_q_ok base allow_intrabc d ->
  carries 67 (write_delta_q_info base allow_intrabc d) (read_delta_q_info base allow_intrabc) d.
Proof.
  intros [Hb [Hr Hlr] Ha Hl Hla]. unfold write_delta_q_info, read_delta_q_info.
  destruct (res_code _ Hr) as [Cr Er]. destruct (res_code _ Hlr) as [Clr Elr].
  destruct d as [p r lp lr lm]; cbn [delta_q_present_flag delta_q_res delta_lf_present_flag delta_lf_res delta_lf_multi] in *.
  destruct p.
  2: { destruct (Ha eq_refl) as [-> ->]. destruct (Hla eq_refl) as [-> ->].
       destruct (Z.ltb_spec 0 base); [within (1 + 0)%nat; carry (carries_flag false); apply carries_ret | within 0%nat; flatten; apply carries_ret]. }
  rewrite (proj2 (Z.ltb_lt 0 base)) by auto. within (1 + (32 + (1 + (32 + 1))))%nat. carry (carries_flag true).
  carry carries_lit; [lia | done |]. eapply (carries_bind _ _ _ _ _ _ lp).
  { destruct allow_intrabc; cbn [negb]; [| apply carries_flag]. destruct lp; [by specialize (Hl eq_refl) |]. within 0%nat. apply carries_ret. }
  cbv beta. rewrite Er. destruct lp.
  - carry carries_lit; [lia | done |]. rewrite Elr. eapply carries_post; [apply carries_flag | done].
  - destruct (Hla eq_refl) as [-> ->]. within 0%nat. apply carries_ret.
Qed.

Lemma res_read v : 0 <= v < 2 ^ 2 -> res_ok (Z.shiftl 1 v).
Proof.
  intros Hv. change (2 ^ 2) with 4 in Hv. assert (v = 0 \/ v = 1 \/ v = 2 \/ v = 3) as [-> | [-> | [-> | ->]]] by lia;
    vm_compute; auto.
Qed.

Lemma yields_delta_q_info base allow_intrabc : yields (read_delta_q_info base allow_intrabc) (delta_q_ok base allow_intrabc).
Proof.
  unfold read_delta_q_info. eapply (yields_bind _ _ (fun p : bool => p = true -> 0 < base)).
  { destruct (Z.ltb_spec 0 base); [eapply yields_le; [apply yields_flag | done] | by apply yields_ret]. }
  assert (res_ok 1) by (by left). intros p Hp. destruct p; [| apply yields_ret; by split].
  lit res. pose proof (res_read res ltac:(done)). eapply (yields_bind _ _ (fun l : bool => l = true -> allow_intrabc = false)).
  { destruct allow_intrabc; cbn [negb]; [by apply yields_ret | eapply yields_le; [apply yields_flag | done]]. }
  intros l Hl. destruct l; [| apply yields_ret; by split]. lit lres. pose proof (res_read lres ltac:(done)). flag multi. apply yields_ret. by split.
Qed.
