(* ===== verification/FrameFilters.v ===== *)
(** * Filters in the frame header

    The loop filter, the directional enhancement filter and loop restoration:
    [encode_loopfilter], [encode_cdef] and [encode_restoration_mode] of
    [av1/encoder/bitstream.c] and [setup_loopfilter], [setup_cdef] and
    [decode_restoration_mode] of [av1/decoder/decodeframe.c]. *)

From S2P Require Import Prelude CodecTypes BitChannel BitBuffer EntCoder RangeSpec Cdf EntEncProof EntDecProof EntRoundTrip SymbolIO SyntaxIO TxCommon FrameContext Tile TileInfo Leb128 Obu HeaderIO FrameQuant.

#[local] Arguments Z.of_nat : simpl never.
#[local] Arguments Z.mul : simpl never.

(** ** The loop filter *)

(** Levels and deltas by reference frame (8) and by mode (2). *)
Record lf_deltas := { ref_deltas : list Z; mode_deltas : list Z }.

Record loopfilter := {
  filter_level_0 : Z; filter_level_1 : Z; filter_level_u : Z; filter_level_v : Z; sharpness_level : Z;
  mode_ref_delta_enabled : bool; mode_ref_delta_update : bool; lf_deltas_of : lf_deltas }.

(** [av1_set_default_ref_deltas] and [av1_set_default_mode_deltas]; reference frames in the
    order intra, last, last2, last3, golden, bwdref, altref2, altref. *)
Definition default_lf_deltas : lf_deltas := {| ref_deltas := [1; 0; 0; 0; -1; 0; -1; -1]; mode_deltas := [0; 0] |}.

(** The deltas of the primary reference frame, or the default. *)
Definition last_deltas (prev_frame : option lf_deltas) : lf_deltas := default default_lf_deltas prev_frame.

Section LoopFilter.
Context (num_planes : Z) (allow_intrabc : bool) (prev_frame : option lf_deltas).

Definition is_mode_ref_delta_meaningful (lf : loopfilter) : bool :=
  if negb (mode_ref_delta_update lf) then false
  else negb (bool_decide (ref_deltas (lf_deltas_of lf) = ref_deltas (last_deltas prev_frame))) ||
       negb (bool_decide (mode_deltas (lf_deltas_of lf) = mode_deltas (last_deltas prev_frame))).

Fixpoint write_changed (deltas last : list Z) : hwriter :=
  match deltas, last with
  | delta :: deltas, l :: last =>
      let changed := negb (delta =? l) in
      _ ← w_flag changed;
      _ ← (if changed then w_hslit delta 6 else mret tt);
      write_changed deltas last
  | _, _ => mret tt
  end.

Definition encode_loopfilter (lf : loopfilter) : hwriter :=
  if allow_intrabc then mret tt else
  _ ← w_hlit (filter_level_0 lf) 6;
  _ ← w_hlit (filter_level_1 lf) 6;
  _ ← (if 1 <? num_planes then
         if negb (filter_level_0 lf =? 0) || negb (filter_level_1 lf =? 0) then
           _ ← w_hlit (filter_level_u lf) 6; w_hlit (filter_level_v lf) 6
         else mret tt
       else mret tt);
  _ ← w_hlit (sharpness_level lf) 3;
  _ ← w_flag (mode_ref_delta_enabled lf);
  if mode_ref_delta_enabled lf then
    let update := is_mode_ref_delta_meaningful lf in
    _ ← w_flag update;
    if negb update then mret tt else
    _ ← write_changed (ref_deltas (lf_deltas_of lf)) (ref_deltas (last_deltas prev_frame));
    write_changed (mode_deltas (lf_deltas_of lf)) (mode_deltas (last_deltas prev_frame))
  else mret tt.

Fixpoint read_changed (deltas : list Z) : hreader (list Z) :=
  match deltas with
  | [] => mret []
  | delta :: deltas =>
      changed ← r_flag;
      delta ← (if changed : bool then aom_rb_read_inv_signed_literal 6 else mret delta);
      deltas ← read_changed deltas;
      mret (delta :: deltas)
  end.

(** Returns the filter and the deltas that are kept with the frame. *)
Definition setup_loopfilter (coded_lossless : bool) (lf : loopfilter) : hreader (loopfilter * lf_deltas) :=
  if allow_intrabc || coded_lossless then mret (lf, default_lf_deltas) else
  let before := last_deltas prev_frame in
  level_0 ← aom_rb_read_literal 6;
  level_1 ← aom_rb_read_literal 6;
  '(level_u, level_v) ←
    (if 1 <? num_planes then
       if negb (level_0 =? 0) || negb (level_1 =? 0) then
         level_u ← aom_rb_read_literal 6; level_v ← aom_rb_read_literal 6; mret (level_u, level_v)
       else mret (filter_level_u lf, filter_level_v lf)
     else mret (filter_level_u lf, filter_level_v lf));
  sharpness ← aom_rb_read_literal 3;
  enabled ← r_flag;
  update ← (if enabled : bool then r_flag else mret false);
  deltas ← (if update : bool then
              refs ← read_changed (ref_deltas before);
              modes ← read_changed (mode_deltas before);
              mret {| ref_deltas := refs; mode_deltas := modes |}
            else mret before);
  mret ({| filter_level_0 := level_0; filter_level_1 := level_1; filter_level_u := level_u; filter_level_v := level_v;
           sharpness_level := sharpness; mode_ref_delta_enabled := enabled; mode_ref_delta_update := update;
           lf_deltas_of := deltas |}, deltas).
End LoopFilter.

(** ** The directional enhancement filter *)

Definition CDEF_STRENGTH_BITS : Z := 6.
Definition CDEF_MAX_STRENGTHS : Z := 16.

Record CdefInfo := {
  cdef_damping : Z; cdef_bits : Z; nb_cdef_strengths : Z; cdef_strengths : list Z; cdef_uv_strengths : list Z }.

Section Cdef.
Context (num_planes : Z) (allow_intrabc : bool).

Fixpoint write_strengths (n : nat) (ys uvs : list Z) : hwriter :=
  match n with
  | O => mret tt
  | S n =>
      y ← w_lift (head ys);
      _ ← w_hlit y CDEF_STRENGTH_BITS;
      _ ← (if 1 <? num_planes then uv ← w_lift (head uvs); w_hlit uv CDEF_STRENGTH_BITS else mret tt);
      write_strengths n (tail ys) (tail uvs)
  end.

Definition encode_cdef (enable_cdef : bool) (c : CdefInfo) : hwriter :=
  if negb enable_cdef then mret tt else
  if allow_intrabc then mret tt else
  _ ← w_hlit (cdef_damping c - 3) 2;
  _ ← w_hlit (cdef_bits c) 2;
  write_strengths (Z.to_nat (nb_cdef_strengths c)) (cdef_strengths c) (cdef_uv_strengths c).

Fixpoint read_strengths (n : nat) (i : Z) (ys uvs : list Z) : hreader (list Z * list Z) :=
  match n with
  | O => mret (ys, uvs)
  | S n =>
      y ← aom_rb_read_literal CDEF_STRENGTH_BITS;
      ys ← lift (arr_set ys i y);
      uv ← (if 1 <? num_planes then aom_rb_read_literal CDEF_STRENGTH_BITS else mret 0);
      uvs ← lift (arr_set uvs i uv);
      read_strengths n (i + 1) ys uvs
  end.

Definition setup_cdef (c : CdefInfo) : hreader CdefInfo :=
  if allow_intrabc then mret c else
  d ← aom_rb_read_literal 2;
  bits ← aom_rb_read_literal 2;
  let nb := Z.shiftl 1 bits in
  '(ys, uvs) ← read_strengths (Z.to_nat nb) 0 (cdef_strengths c) (cdef_uv_strengths c);
  mret {| cdef_damping := d + 3; cdef_bits := bits; nb_cdef_strengths := nb; cdef_strengths := ys; cdef_uv_strengths := uvs |}.
End Cdef.

(** ** Loop restoration *)

Inductive RestorationType := RESTORE_NONE | RESTORE_WIENER | RESTORE_SGRPROJ | RESTORE_SWITCHABLE.

#[export] Instance RestorationType_eq_dec : EqDecision RestorationType.
Proof. solve_decision. Defined.

Definition RESTORATION_UNITSIZE_MAX : Z := 256.

Record RestorationInfo := { frame_restoration_type : RestorationType; restoration_unit_size : Z }.

Definition set_unit_size (size : Z) (r : RestorationInfo) : RestorationInfo :=
  {| frame_restoration_type := frame_restoration_type r; restoration_unit_size := size |}.

(** The three planes. *)
Record rst_infos := { rst_0 : RestorationInfo; rst_1 : RestorationInfo; rst_2 : RestorationInfo }.

Definition is_none (r : RestorationInfo) : bool := bool_decide (frame_restoration_type r = RESTORE_NONE).

Section Restoration.
Context (num_planes : Z) (allow_intrabc sb_size_128 : bool) (subsampling_x subsampling_y : Z).

Definition write_restoration_type (t : RestorationType) : hwriter :=
  match t with
  | RESTORE_NONE => _ ← w_hbit 0; w_hbit 0
  | RESTORE_WIENER => _ ← w_hbit 1; w_hbit 0
  | RESTORE_SGRPROJ => _ ← w_hbit 1; w_hbit 1
  | RESTORE_SWITCHABLE => _ ← w_hbit 0; w_hbit 1
  end.

(** [all_none] and [chroma_none] after the loop over the planes. *)
Definition all_none (r : rst_infos) : bool :=
  is_none (rst_0 r) && (if 1 <? num_planes then is_none (rst_1 r) && is_none (rst_2 r) else true).
Definition chroma_none (r : rst_infos) : bool :=
  if 1 <? num_planes then is_none (rst_1 r) && is_none (rst_2 r) else true.

Definition sb_samples : Z := if sb_size_128 then 128 else 64.

Definition encode_restoration_mode (enable_restoration : bool) (r : rst_infos) : hwriter :=
  if negb enable_restoration then mret tt else
  if allow_intrabc then mret tt else
  _ ← write_restoration_type (frame_restoration_type (rst_0 r));
  _ ← (if 1 <? num_planes then
         _ ← write_restoration_type (frame_restoration_type (rst_1 r));
         write_restoration_type (frame_restoration_type (rst_2 r))
       else mret tt);
  _ ← (if negb (all_none r) then
         let size := restoration_unit_size (rst_0 r) in
         _ ← (if sb_samples =? 64 then w_flag (64 <? size) else mret tt);
         if 64 <? size then w_flag (128 <? size) else mret tt
       else mret tt);
  if 1 <? num_planes then
    let s := Z.min subsampling_x subsampling_y in
    if negb (s =? 0) && negb (chroma_none r) then
      w_flag (negb (restoration_unit_size (rst_1 r) =? restoration_unit_size (rst_0 r)))
    else mret tt
  else mret tt.

Definition read_restoration_type : hreader RestorationType :=
  b ← r_flag;
  if b : bool then c ← r_flag; mret (if c : bool then RESTORE_SGRPROJ else RESTORE_WIENER)
  else c ← r_flag; mret (if c : bool then RESTORE_SWITCHABLE else RESTORE_NONE).

Definition with_types (t0 t1 t2 : RestorationType) (r : rst_infos) : rst_infos :=
  {| rst_0 := {| frame_restoration_type := t0; restoration_unit_size := restoration_unit_size (rst_0 r) |};
     rst_1 := {| frame_restoration_type := t1; restoration_unit_size := restoration_unit_size (rst_1 r) |};
     rst_2 := {| frame_restoration_type := t2; restoration_unit_size := restoration_unit_size (rst_2 r) |} |}.

(** The size of the units of the first plane, of the others where there are any. *)
Definition with_sizes (size_0 size_uv : Z) (r : rst_infos) : rst_infos :=
  {| rst_0 := set_unit_size size_0 (rst_0 r);
     rst_1 := if 1 <? num_planes then set_unit_size size_uv (rst_1 r) else rst_1 r;
     rst_2 := if 1 <? num_planes then set_unit_size size_uv (rst_2 r) else rst_2 r |}.

Definition decode_restoration_mode (r : rst_infos) : hreader rst_infos :=
  if allow_intrabc then mret r else
  t0 ← read_restoration_type;
  '(t1, t2) ← (if 1 <? num_planes then
                 t1 ← read_restoration_type; t2 ← read_restoration_type; mret (t1, t2)
               else mret (frame_restoration_type (rst_1 r), frame_restoration_type (rst_2 r)));
  let r := with_types t0 t1 t2 r in
  size ← (if negb (all_none r) then
            size ← (if sb_samples =? 64 then b ← aom_rb_read_bit; mret (Z.shiftl sb_samples b) else mret sb_samples);
            if 64 <? size then b ← aom_rb_read_bit; mret (Z.shiftl size b) else mret size
          else mret RESTORATION_UNITSIZE_MAX);
  size_uv ← (if 1 <? num_planes then
               let s := Z.min subsampling_x subsampling_y in
               if negb (s =? 0) && negb (chroma_none r) then b ← aom_rb_read_bit; mret (Z.shiftr size (b * s)) else mret size
             else mret size);
  mret (with_sizes size size_uv r).
End Restoration.

(** ** What is sent is read back *)

(** *** The loop filter *)

Record deltas_ok (d : lf_deltas) : Prop := {
  dk_refs : length (ref_deltas d) = 8%nat /\ Forall delta_ok (ref_deltas d);
  dk_modes : length (mode_deltas d) = 2%nat /\ Forall delta_ok (mode_deltas d) }.

Record lf_ok (lf : loopfilter) : Prop := {
  lk_levels : 0 <= filter_level_0 lf < 64 /\ 0 <= filter_level_1 lf < 64 /\ 0 <= filter_level_u lf < 64 /\ 0 <= filter_level_v lf < 64;
  lk_sharpness : 0 <= sharpness_level lf < 8;
  lk_deltas : deltas_ok (lf_deltas_of lf) }.

Definition prev_deltas_ok (prev_frame : option lf_deltas) : Prop := forall d, prev_frame = Some d -> deltas_ok d.

Lemma default_deltas_ok : deltas_ok default_lf_deltas.
Proof. split; (split; [done |]); repeat constructor; discriminate. Qed.

Lemma last_deltas_ok prev_frame : prev_deltas_ok prev_frame -> deltas_ok (last_deltas prev_frame).
Proof. intros H. destruct prev_frame as [d |]; [by apply H | apply default_deltas_ok]. Qed.

(** What a decoder that has [old] ends up with. *)
Definition kept_lf (num_planes : Z) (prev_frame : option lf_deltas) (old lf : loopfilter) : loopfilter :=
  let chroma := (1 <? num_planes) && (negb (filter_level_0 lf =? 0) || negb (filter_level_1 lf =? 0)) in
  let update := mode_ref_delta_enabled lf && is_mode_ref_delta_meaningful prev_frame lf in
  {| filter_level_0 := filter_level_0 lf; filter_level_1 := filter_level_1 lf;
     filter_level_u := if chroma then filter_level_u lf else filter_level_u old;
     filter_level_v := if chroma then filter_level_v lf else filter_level_v old;
     sharpness_level := sharpness_level lf; mode_ref_delta_enabled := mode_ref_delta_enabled lf;
     mode_ref_delta_update := update;
     lf_deltas_of := if update then lf_deltas_of lf else last_deltas prev_frame |}.

Lemma carries_changed deltas last : length deltas = length last -> Forall delta_ok deltas ->
  carries (length deltas * 33) (write_changed deltas last) (read_changed last) deltas.
Proof.
  revert last. induction deltas as [| d deltas IH]; intros [| l last] Hl Hd; try done; [apply carries_ret |].
  apply Forall_cons_1 in Hd as [Hd Hds]. cbn [write_changed read_changed length]. cbv zeta.
  change (S (length deltas) * 33)%nat with (1 + (32 + length deltas * 33))%nat. carry carries_flag.
  eapply (carries_bind _ _ _ _ _ _ d).
  - destruct (Z.eqb_spec d l) as [-> |]; cbn [negb]; [within 0%nat; apply carries_ret |].
    apply carries_slit; [lia |]. unfold delta_ok in Hd. change (2 ^ 6) with 64. lia.
  - cbv beta. eapply carries_post; [apply IH; [by injection Hl | done] | done].
Qed.

Lemma carries_loopfilter num_planes prev_frame old lf : prev_deltas_ok prev_frame -> lf_ok lf ->
  carries 500 (encode_loopfilter num_planes false prev_frame lf) (setup_loopfilter num_planes false prev_frame false old)
    (kept_lf num_planes prev_frame old lf, lf_deltas_of (kept_lf num_planes prev_frame old lf)).
Proof.
  intros Hp [(H0 & H1 & Hu & Hv) Hs [[Hrl Hr] [Hml Hm]]]. destruct (last_deltas_ok _ Hp) as [[Lr _] [Lm _]].
  unfold encode_loopfilter, setup_loopfilter, kept_lf. cbn [orb]. cbv zeta.
  change 64 with (2 ^ 6) in *. change 8 with (2 ^ 3) in Hs.
  within (32 + (32 + (64 + (32 + (1 + (1 + 330))))))%nat. carry carries_lit; [lia | done |]. carry carries_lit; [lia | done |].
  set (chroma := (1 <? num_planes) && _).
  eapply (carries_bind _ _ _ _ _ _ (if chroma then filter_level_u lf else filter_level_u old, if chroma then filter_level_v lf else filter_level_v old)).
  { unfold chroma. destruct (1 <? num_planes); cbn [andb]; [| within 0%nat; apply carries_ret].
    destruct (_ || _); [| within 0%nat; apply carries_ret]. within (32 + 32)%nat. carry carries_lit; [lia | done |].
    eapply carries_post; [by apply carries_lit; [lia |] | done]. }
  cbv beta iota. carry carries_lit; [lia | done |]. carry carries_flag. destruct (mode_ref_delta_enabled lf); cbn [andb].
  - carry carries_flag. destruct (is_mode_ref_delta_meaningful prev_frame lf); cbn [negb].
    + within (264 + 66)%nat. flatten. eapply carries_bind; [within (length (ref_deltas (lf_deltas_of lf)) * 33)%nat; apply carries_changed; [congruence | done] |]. cbv beta.
      flatten. eapply carries_post; [within (length (mode_deltas (lf_deltas_of lf)) * 33)%nat; apply carries_changed; [congruence | done] |]. intros r. by destruct (lf_deltas_of lf).
    + within 0%nat. flatten. apply carries_ret.
  - within 0%nat. flatten. apply carries_ret.
Qed.

Lemma yields_changed deltas : Forall delta_ok deltas ->
  yields (read_changed deltas) (fun l => length l = length deltas /\ Forall delta_ok l).
Proof.
  induction deltas as [| d deltas IH]; intros Hd; [by apply yields_ret |]. apply Forall_cons_1 in Hd as [Hd Hds].
  cbn [read_changed]. flag changed. eapply (yields_bind _ _ delta_ok).
  { destruct changed; [| by apply yields_ret]. eapply yields_le; [apply yields_slit; lia |]. intros v Hv. exact Hv. }
  intros d' Hd'. next (IH Hds). intros l [Hl Hf]. apply yields_ret. cbn [length]. split; [by f_equal | by constructor].
Qed.

Lemma yields_loopfilter num_planes allow_intrabc prev_frame lossless old : prev_deltas_ok prev_frame -> lf_ok old ->
  yields (setup_loopfilter num_planes allow_intrabc prev_frame lossless old) (fun '(lf, d) => lf_ok lf /\ deltas_ok d).
Proof.
  intros Hp Hold. unfold setup_loopfilter. destruct (_ || _); [apply yields_ret; split; [done | apply default_deltas_ok] |].
  destruct (last_deltas_ok _ Hp) as [[Lr Fr] [Lm Fm]]. destruct Hold as [(_ & _ & Hu & Hv) _ _]. cbv zeta. lit l0. lit l1.
  eapply (yields_bind _ _ (fun '(u, v) => 0 <= u < 64 /\ 0 <= v < 64)).
  { destruct (1 <? num_planes); [| by apply yields_ret]. destruct (_ || _); [| by apply yields_ret]. lit u. lit v. by apply yields_ret. }
  intros [u v] [Hu' Hv']. lit sharp. flag enabled. eapply (yields_bind _ _ (fun _ => True)).
  { destruct enabled; [apply yields_flag | by apply yields_ret]. }
  intros update _. eapply (yields_bind _ _ deltas_ok).
  { destruct update; [| by apply yields_ret; split]. next (yields_changed _ Fr). intros refs [Hl Hf]. next (yields_changed _ Fm).
    intros modes [Hl' Hf']. apply yields_ret. split; cbn; (split; [congruence | done]). }
  intros d Hd. apply yields_ret. split; [| done]. by split.
Qed.

(** *** The directional enhancement filter *)

Record cdef_ok (c : CdefInfo) : Prop := {
  ck_damping : 3 <= cdef_damping c <= 6;
  ck_bits : 0 <= cdef_bits c <= 3 /\ nb_cdef_strengths c = 2 ^ cdef_bits c;
  ck_strengths : length (cdef_strengths c) = 16%nat /\ length (cdef_uv_strengths c) = 16%nat /\
    Forall (fun v => 0 <= v < 64) (cdef_strengths c) /\ Forall (fun v => 0 <= v < 64) (cdef_uv_strengths c) }.

(** What a decoder has at all times, from its creation on: no damping and no strengths until
    they are read for the first time; when the filter is switched off the number of
    strengths stays as it was. *)
Record cdef_fine (c : CdefInfo) : Prop := {
  cf_damping : cdef_damping c = 0 \/ 3 <= cdef_damping c <= 6;
  cf_bits : 0 <= cdef_bits c <= 3 /\ (cdef_bits c = 0 /\ nb_cdef_strengths c = 0 \/ 2 ^ cdef_bits c <= nb_cdef_strengths c <= 8);
  cf_strengths : length (cdef_strengths c) = 16%nat /\ length (cdef_uv_strengths c) = 16%nat /\
    Forall (fun v => 0 <= v < 64) (cdef_strengths c) /\ Forall (fun v => 0 <= v < 64) (cdef_uv_strengths c) }.

(** The two arrays of a decoder. *)
Definition cdef_arrays (c : CdefInfo) : Prop := length (cdef_strengths c) = 16%nat /\ length (cdef_uv_strengths c) = 16%nat.

(** Values with which the filter changes no sample. *)
Definition cdef_off (c : CdefInfo) : Prop :=
  cdef_bits c = 0 /\ head (cdef_strengths c) = Some 0 /\ head (cdef_uv_strengths c) = Some 0.

Lemma cdef_ok_fine c : cdef_ok c -> cdef_fine c.
Proof.
  intros [Hd [Hb En] Hs]. split; [by right | | done]. split; [done |]. right.
  pose proof (pow2_le (cdef_bits c) 3 ltac:(lia)). change (2 ^ 3) with 8 in *. lia.
Qed.

(** The first [n] entries of [new], the rest of [old]. *)
Definition kept_first {A} (n : nat) (old new : list A) : list A := take n new ++ drop n old.

Definition kept_cdef (num_planes : Z) (old c : CdefInfo) : CdefInfo :=
  let n := Z.to_nat (nb_cdef_strengths c) in
  {| cdef_damping := cdef_damping c; cdef_bits := cdef_bits c; nb_cdef_strengths := nb_cdef_strengths c;
     cdef_strengths := kept_first n (cdef_strengths old) (cdef_strengths c);
     cdef_uv_strengths := kept_first n (cdef_uv_strengths old) (if 1 <? num_planes then cdef_uv_strengths c else replicate 16 0) |}.

Lemma carries_strengths num_planes n ys uvs uvz oy ou dy du : length dy = length du ->
  (n <= length ys)%nat -> (n <= length uvz)%nat -> (n <= length oy)%nat -> (n <= length ou)%nat ->
  Forall (fun v => 0 <= v < 64) ys -> Forall (fun v => 0 <= v < 64) uvz ->
  (if 1 <? num_planes then uvz = uvs else uvz = replicate (length uvz) 0) ->
  carries (n * 64) (write_strengths num_planes n ys uvs)
    (read_strengths num_planes n (Z.of_nat (length dy)) (dy ++ oy) (du ++ ou))
    (dy ++ kept_first n oy ys, du ++ kept_first n ou uvz).
Proof.
  revert ys uvs uvz oy ou dy du. induction n as [| n IH]; intros ys uvs uvz oy ou dy du Hd Hy Hz Hoy Hou Fy Fz Huv; [apply carries_ret |].
  destruct ys as [| y ys], uvz as [| z uvz], oy as [| y0 oy], ou as [| u0 ou]; cbn [length] in *; try lia.
  apply Forall_cons_1 in Fy as [Hy0 Fy]. apply Forall_cons_1 in Fz as [Hz0 Fz]. change 64 with (2 ^ 6) in *.
  cbn [write_strengths read_strengths head tail]. rewrite w_lift_some. unfold CDEF_STRENGTH_BITS.
  change (S n * 64)%nat with (32 + (32 + n * 64))%nat. carry carries_lit; [lia | done |].
  apply (carries_lift _ _ _ (dy ++ y :: oy)); [by apply arr_set_mid |]. cbv beta.
  eapply (carries_bind _ _ _ _ _ _ z).
  { destruct (1 <? num_planes); [rewrite <- Huv; cbn [head]; rewrite w_lift_some; by apply carries_lit; [lia |] |].
    within 0%nat. cbn [replicate] in Huv. injection Huv as -> _. apply carries_ret. }
  cbv beta. apply (carries_lift _ _ _ (du ++ z :: ou)); [rewrite Hd; by apply arr_set_mid |]. cbv beta.
  replace (Z.of_nat (length dy) + 1) with (Z.of_nat (length (dy ++ [y]))) by (rewrite length_app; cbn; lia).
  change (y :: oy) with ([y] ++ oy). change (z :: ou) with ([z] ++ ou). rewrite !app_assoc.
  change (kept_first (S n) (y0 :: oy) (y :: ys)) with ([y] ++ kept_first n oy ys).
  change (kept_first (S n) (u0 :: ou) (z :: uvz)) with ([z] ++ kept_first n ou uvz). rewrite !app_assoc.
  apply IH; try done; try lia; [rewrite !length_app; cbn; lia |].
  destruct (1 <? num_planes); [by rewrite <- Huv |]. cbn [replicate] in Huv. by injection Huv.
Qed.

Lemma carries_cdef num_planes old c : cdef_arrays old -> cdef_ok c ->
  carries 1088 (encode_cdef num_planes false true c) (setup_cdef num_planes false old) (kept_cdef num_planes old c).
Proof.
  intros [Loy Lou] [Hd [Hb En] (Ly & Lu & Fy & Fu)]. unfold encode_cdef, setup_cdef. cbn [negb]. cbv zeta.
  assert (0 < 2 ^ cdef_bits c <= 8) as Hn by (split; [apply pow2_pos; lia | apply (pow2_le (cdef_bits c) 3); lia]).
  within (32 + (32 + Z.to_nat (nb_cdef_strengths c) * 64))%nat.
  carry carries_lit; [lia | change (2 ^ 2) with 4; lia |]. carry carries_lit; [lia | change (2 ^ 2) with 4; lia |].
  rewrite Z.shiftl_mul_pow2, Z.mul_1_l, <- En by lia.
  eapply carries_post.
  - apply (carries_strengths num_planes (Z.to_nat (nb_cdef_strengths c)) (cdef_strengths c) (cdef_uv_strengths c)
      (if 1 <? num_planes then cdef_uv_strengths c else replicate 16 0) (cdef_strengths old) (cdef_uv_strengths old) [] []);
      try done; try lia; destruct (1 <? num_planes); try done; try lia; [rewrite length_replicate; lia | repeat constructor; lia].
  - intros r. unfold kept_cdef. cbn [app]. by rewrite Z.sub_add.
Qed.

Lemma yields_strengths num_planes n i ys uvs : 0 <= i -> i + Z.of_nat n <= 16 -> length ys = 16%nat -> length uvs = 16%nat ->
  Forall (fun v => 0 <= v < 64) ys -> Forall (fun v => 0 <= v < 64) uvs ->
  yields (read_strengths num_planes n i ys uvs)
    (fun '(ys, uvs) => length ys = 16%nat /\ length uvs = 16%nat /\ Forall (fun v => 0 <= v < 64) ys /\ Forall (fun v => 0 <= v < 64) uvs).
Proof.
  revert i ys uvs. induction n as [| n IH]; intros i ys uvs Hi Hn Ly Lu Fy Fu; [by apply yields_ret |]. cbn [read_strengths].
  unfold CDEF_STRENGTH_BITS in *. lit y.
  assert (forall l v, length l = 16%nat -> arr_set l i v = Some (<[Z.to_nat i := v]> l)) as Eset
    by (intros l v Hl; unfold arr_set; by rewrite (proj2 (Z.leb_le 0 i)), (proj2 (Z.ltb_lt _ _)) by lia).
  next @yields_lift; [by apply Eset |]. intros ? <-. eapply (yields_bind _ _ (fun v => 0 <= v < 64)).
  { destruct (1 <? num_planes); [apply yields_lit; lia | apply yields_ret; lia]. }
  intros u Hu. next @yields_lift; [by apply Eset |]. intros ? <-. apply IH; rewrite ?length_insert; try done; try lia; by apply Forall_insert.
Qed.

(** What is read is legal; with intra block copy nothing is read. *)
Lemma yields_cdef num_planes (allow_intrabc : bool) old : cdef_fine old ->
  yields (setup_cdef num_planes allow_intrabc old) (fun c => if allow_intrabc then c = old else cdef_ok c).
Proof.
  intros Hold. unfold setup_cdef. destruct allow_intrabc; [by apply yields_ret |]. destruct Hold as [_ _ (Ly & Lu & Fy & Fu)].
  lit d. lit bits. change (2 ^ 2) with 4 in *. cbv zeta. rewrite Z.shiftl_mul_pow2, Z.mul_1_l by lia.
  assert (0 < 2 ^ bits <= 8) by (split; [apply pow2_pos; lia | apply (pow2_le bits 3); lia]).
  next yields_strengths; try done; try lia. intros [ys uvs] H'. apply yields_ret. split; [cbn; lia | cbn; split; [lia | lia] | done].
Qed.

(** *** Loop restoration *)

Definition unit_size_ok (size : Z) : Prop := size = 32 \/ size = 64 \/ size = 128 \/ size = 256.

Record rst_ok (num_planes : Z) (sb_size_128 : bool) (subsampling_x subsampling_y : Z) (r : rst_infos) : Prop := {
  ro_sub : (subsampling_x = 0 \/ subsampling_x = 1) /\ (subsampling_y = 0 \/ subsampling_y = 1);
  ro_size : all_none num_planes r = false ->
    (restoration_unit_size (rst_0 r) = 64 \/ restoration_unit_size (rst_0 r) = 128 \/ restoration_unit_size (rst_0 r) = 256) /\
    sb_samples sb_size_128 <= restoration_unit_size (rst_0 r);
  ro_chroma : chroma_none num_planes r = false ->
    restoration_unit_size (rst_1 r) = restoration_unit_size (rst_0 r) \/
    restoration_unit_size (rst_1 r) = restoration_unit_size (rst_0 r) / 2 }.

(** What a decoder that has [old] ends up with. *)
Definition kept_rst (num_planes : Z) (subsampling_x subsampling_y : Z) (old r : rst_infos) : rst_infos :=
  let size := if all_none num_planes r then RESTORATION_UNITSIZE_MAX else restoration_unit_size (rst_0 r) in
  let size_uv := if negb (Z.min subsampling_x subsampling_y =? 0) && negb (chroma_none num_planes r)
                 then restoration_unit_size (rst_1 r) else size in
  let type_uv t_old t := if 1 <? num_planes then t else t_old in
  with_sizes num_planes size size_uv
    (with_types (frame_restoration_type (rst_0 r))
       (type_uv (frame_restoration_type (rst_1 old)) (frame_restoration_type (rst_1 r)))
       (type_uv (frame_restoration_type (rst_2 old)) (frame_restoration_type (rst_2 r))) old).

Lemma carries_restoration_type t : carries 2 (write_restoration_type t) read_restoration_type t.
Proof.
  unfold read_restoration_type. destruct t; within (1 + 1)%nat.
  - carry (carries_flag false). eapply carries_post; [apply (carries_flag false) | done].
  - carry (carries_flag true). eapply carries_post; [apply (carries_flag false) | done].
  - carry (carries_flag true). eapply carries_post; [apply (carries_flag true) | done].
  - carry (carries_flag false). eapply carries_post; [apply (carries_flag true) | done].
Qed.

Lemma b2z_bit b : b2z b = 0 \/ b2z b = 1.
Proof. destruct b; auto. Qed.

Lemma none_types num_planes t0 t1 t2 old r :
  frame_restoration_type (rst_0 r) = t0 -> ((1 <? num_planes) = true -> frame_restoration_type (rst_1 r) = t1 /\ frame_restoration_type (rst_2 r) = t2) ->
  all_none num_planes (with_types t0 t1 t2 old) = all_none num_planes r /\
  chroma_none num_planes (with_types t0 t1 t2 old) = chroma_none num_planes r.
Proof.
  intros E0 E. unfold all_none, chroma_none, is_none, with_types. cbn. rewrite E0.
  destruct (1 <? num_planes); [| done]. by destruct (E eq_refl) as [-> ->].
Qed.

Lemma carries_restoration num_planes sb128 ssx ssy old r : rst_ok num_planes sb128 ssx ssy r ->
  carries 9 (encode_restoration_mode num_planes false sb128 ssx ssy true r) (decode_restoration_mode num_planes false sb128 ssx ssy old)
    (kept_rst num_planes ssx ssy old r).
Proof.
  intros [[Hx Hy] Hsize Hchroma]. unfold encode_restoration_mode, decode_restoration_mode, kept_rst. cbn [negb]. cbv zeta.
  within (2 + (4 + (2 + 1)))%nat. eapply carries_bind; [apply carries_restoration_type |]. cbv beta.
  set (t1 := if 1 <? num_planes then frame_restoration_type (rst_1 r) else frame_restoration_type (rst_1 old)).
  set (t2 := if 1 <? num_planes then frame_restoration_type (rst_2 r) else frame_restoration_type (rst_2 old)).
  eapply (carries_bind _ _ _ _ _ _ (t1, t2)).
  { unfold t1, t2. destruct (1 <? num_planes); [| within 0%nat; apply carries_ret]. within (2 + 2)%nat.
    eapply carries_bind; [apply carries_restoration_type |]. cbv beta. eapply carries_post; [apply carries_restoration_type | done]. }
  cbv beta iota. destruct (none_types num_planes (frame_restoration_type (rst_0 r)) t1 t2 old r eq_refl) as [-> ->].
  { intros E. unfold t1, t2. by rewrite E. }
  set (size := if all_none num_planes r then RESTORATION_UNITSIZE_MAX else restoration_unit_size (rst_0 r)).
  eapply (carries_bind _ _ _ _ _ _ size).
  { unfold size. destruct (all_none num_planes r) eqn:En; cbn [negb]; [within 0%nat; apply carries_ret |].
    destruct (Hsize eq_refl) as [Hs Hsb]. unfold sb_samples in *. within (1 + 1)%nat.
    eapply (carries_bind _ _ _ _ _ _ (if sb128 then 128 else Z.shiftl 64 (b2z (64 <? restoration_unit_size (rst_0 r))))).
    - destruct sb128; cbn [Z.eqb]; [within 0%nat; apply carries_ret |]. cbn.
      eapply carries_post; [apply carries_bit, b2z_bit | done].
    - cbv beta. destruct Hs as [E | [E | E]]; rewrite E in *; destruct sb128; try lia; cbn.
      all: first [within 0%nat; apply carries_ret | eapply carries_post; [apply carries_bit; auto | done]]. }
  cbv beta. destruct (1 <? num_planes) eqn:Ep.
  - destruct (Z.eqb_spec (Z.min ssx ssy) 0) as [| Hs]; cbn [negb andb]; [within 0%nat; flatten; apply carries_ret |].
    destruct (chroma_none num_planes r) eqn:Ec; cbn [negb]; [within 0%nat; flatten; apply carries_ret |].
    assert (Z.min ssx ssy = 1) as Es by lia. rewrite Es.
    assert (all_none num_planes r = false) as Ea by (unfold all_none, chroma_none in *; rewrite Ep in *; rewrite Ec; apply andb_false_r).
    flatten. unfold size. rewrite Ea.
    eapply carries_post; [apply carries_bit, b2z_bit |]. intros b. cbn. do 2 f_equal.
    destruct (Hchroma eq_refl) as [E | E]; rewrite E.
    + rewrite Z.eqb_refl. done.
    + destruct (Hsize Ea) as [[-> | [-> | ->]] _]; done.
  - within 0%nat. flatten. unfold chroma_none, with_sizes. rewrite Ep.
    apply carries_ret.
Qed.

(** Whatever is read has units of a size that the filter knows, in the planes there are. *)
Definition rst_legal (num_planes : Z) (r : rst_infos) : Prop :=
  unit_size_ok (restoration_unit_size (rst_0 r)) /\
  (1 < num_planes -> unit_size_ok (restoration_unit_size (rst_1 r)) /\ unit_size_ok (restoration_unit_size (rst_2 r))).

(** What a decoder has at all times: no size until one is read. *)
Definition rst_fine (r : rst_infos) : Prop :=
  Forall (fun size => size = 0 \/ unit_size_ok size)
    [restoration_unit_size (rst_0 r); restoration_unit_size (rst_1 r); restoration_unit_size (rst_2 r)].

(** No plane is filtered. *)
Definition rst_off (r : rst_infos) : Prop :=
  frame_restoration_type (rst_0 r) = RESTORE_NONE /\ frame_restoration_type (rst_1 r) = RESTORE_NONE /\
  frame_restoration_type (rst_2 r) = RESTORE_NONE.

Lemma yields_restoration_type : yields read_restoration_type (fun _ => True).
Proof. unfold read_restoration_type. flag b. destruct b; flag c; by apply yields_ret. Qed.

Lemma yields_restoration num_planes (intrabc sb128 : bool) ssx ssy old : ssx = 0 \/ ssx = 1 -> ssy = 0 \/ ssy = 1 -> rst_fine old ->
  yields (decode_restoration_mode num_planes intrabc sb128 ssx ssy old)
    (fun r => rst_fine r /\ if intrabc then r = old else rst_legal num_planes r).
Proof.
  intros Hx Hy Hold. unfold decode_restoration_mode. destruct intrabc; [by apply yields_ret |]. next yields_restoration_type. intros t0 _.
  eapply (yields_bind _ _ (fun _ => True)).
  { destruct (1 <? num_planes); [| by apply yields_ret]. next yields_restoration_type. intros t1 _. next yields_restoration_type. intros t2 _. by apply yields_ret. }
  intros [t1 t2] _. cbv zeta. eapply (yields_bind _ _ (fun s => s = 64 \/ s = 128 \/ s = 256)).
  { destruct (negb _); [| apply yields_ret; unfold RESTORATION_UNITSIZE_MAX; lia].
    eapply (yields_bind _ _ (fun s => s = 64 \/ s = 128)).
    - unfold sb_samples. destruct sb128; cbn [Z.eqb]; [apply yields_ret; lia |]. cbn. bit b. apply yields_ret.
      destruct H as [-> | ->]; vm_compute; auto.
    - intros s Hs. destruct (Z.ltb_spec 64 s); [| apply yields_ret; lia]. bit b. apply yields_ret.
      destruct H0 as [-> | ->], Hs as [-> | ->]; vm_compute; auto. }
  intros size Hs. eapply (yields_bind _ _ unit_size_ok).
  { unfold unit_size_ok. destruct (1 <? num_planes); [| apply yields_ret; lia]. destruct (_ && _); [| apply yields_ret; lia].
    bit b. apply yields_ret. assert (Z.min ssx ssy = 0 \/ Z.min ssx ssy = 1) as Hm by lia.
    destruct Hm as [-> | ->], H as [-> | ->], Hs as [-> | [-> | ->]]; vm_compute; auto. }
  intros suv Huv. apply yields_ret. unfold rst_fine in *. rewrite !list.Forall_cons, list.Forall_nil in *. destruct Hold as (_ & H1 & H2 & _).
  unfold rst_legal, with_sizes, unit_size_ok in *. cbn. destruct (Z.ltb_spec 1 num_planes); cbn; lia.
Qed.
