(* ===== verification/FilmGrain.v ===== *)
(** * Film grain parameters in the frame header

    [write_film_grain_params] of [av1/encoder/bitstream.c], [read_film_grain_params] of
    [av1/decoder/decodeframe.c], and [aom_check_grain_params_equiv] of
    [aom_dsp/grain_params.h], by which the encoder finds a reference frame with the same
    parameters. *)

From S2P Require Import Prelude CodecTypes BitChannel BitBuffer EntCoder RangeSpec Cdf EntEncProof EntDecProof EntRoundTrip SymbolIO SyntaxIO TxCommon FrameContext Tile TileInfo Leb128 Obu HeaderIO FrameQuant FrameFilters.

#[local] Arguments Z.of_nat : simpl never.
#[local] Arguments Z.mul : simpl never.

(** ** Parameters *)

(** Flags are kept as truth values; the arrays have 14, 10 and 10 points and 24, 25 and 25
    coefficients. *)
Record aom_film_grain_t := {
  apply_grain : bool; update_parameters : bool;
  scaling_points_y : list (Z * Z); num_y_points : Z;
  scaling_points_cb : list (Z * Z); num_cb_points : Z;
  scaling_points_cr : list (Z * Z); num_cr_points : Z;
  scaling_shift : Z; ar_coeff_lag : Z;
  ar_coeffs_y : list Z; ar_coeffs_cb : list Z; ar_coeffs_cr : list Z;
  ar_coeff_shift : Z;
  cb_mult : Z; cb_luma_mult : Z; cb_offset : Z;
  cr_mult : Z; cr_luma_mult : Z; cr_offset : Z;
  overlap_flag : bool; clip_to_restricted_range : bool;
  grain_bit_depth : Z; chroma_scaling_from_luma : bool; grain_scale_shift : Z; random_seed : Z }.

(** [memset] to zero. *)
Definition grain_zero : aom_film_grain_t :=
  {| apply_grain := false; update_parameters := false;
     scaling_points_y := replicate 14 (0, 0); num_y_points := 0;
     scaling_points_cb := replicate 10 (0, 0); num_cb_points := 0;
     scaling_points_cr := replicate 10 (0, 0); num_cr_points := 0;
     scaling_shift := 0; ar_coeff_lag := 0;
     ar_coeffs_y := replicate 24 0; ar_coeffs_cb := replicate 25 0; ar_coeffs_cr := replicate 25 0;
     ar_coeff_shift := 0; cb_mult := 0; cb_luma_mult := 0; cb_offset := 0; cr_mult := 0; cr_luma_mult := 0; cr_offset := 0;
     overlap_flag := false; clip_to_restricted_range := false;
     grain_bit_depth := 0; chroma_scaling_from_luma := false; grain_scale_shift := 0; random_seed := 0 |}.

Definition with_seed (seed : Z) (p : aom_film_grain_t) : aom_film_grain_t :=
  {| apply_grain := apply_grain p; update_parameters := update_parameters p;
     scaling_points_y := scaling_points_y p; num_y_points := num_y_points p;
     scaling_points_cb := scaling_points_cb p; num_cb_points := num_cb_points p;
     scaling_points_cr := scaling_points_cr p; num_cr_points := num_cr_points p;
     scaling_shift := scaling_shift p; ar_coeff_lag := ar_coeff_lag p;
     ar_coeffs_y := ar_coeffs_y p; ar_coeffs_cb := ar_coeffs_cb p; ar_coeffs_cr := ar_coeffs_cr p;
     ar_coeff_shift := ar_coeff_shift p;
     cb_mult := cb_mult p; cb_luma_mult := cb_luma_mult p; cb_offset := cb_offset p;
     cr_mult := cr_mult p; cr_luma_mult := cr_luma_mult p; cr_offset := cr_offset p;
     overlap_flag := overlap_flag p; clip_to_restricted_range := clip_to_restricted_range p;
     grain_bit_depth := grain_bit_depth p; chroma_scaling_from_luma := chroma_scaling_from_luma p;
     grain_scale_shift := grain_scale_shift p; random_seed := seed |}.
Definition with_depth (depth : Z) (p : aom_film_grain_t) : aom_film_grain_t :=
  {| apply_grain := apply_grain p; update_parameters := update_parameters p;
     scaling_points_y := scaling_points_y p; num_y_points := num_y_points p;
     scaling_points_cb := scaling_points_cb p; num_cb_points := num_cb_points p;
     scaling_points_cr := scaling_points_cr p; num_cr_points := num_cr_points p;
     scaling_shift := scaling_shift p; ar_coeff_lag := ar_coeff_lag p;
     ar_coeffs_y := ar_coeffs_y p; ar_coeffs_cb := ar_coeffs_cb p; ar_coeffs_cr := ar_coeffs_cr p;
     ar_coeff_shift := ar_coeff_shift p;
     cb_mult := cb_mult p; cb_luma_mult := cb_luma_mult p; cb_offset := cb_offset p;
     cr_mult := cr_mult p; cr_luma_mult := cr_luma_mult p; cr_offset := cr_offset p;
     overlap_flag := overlap_flag p; clip_to_restricted_range := clip_to_restricted_range p;
     grain_bit_depth := depth; chroma_scaling_from_luma := chroma_scaling_from_luma p;
     grain_scale_shift := grain_scale_shift p; random_seed := random_seed p |}.

(** *** Equivalence *)

Definition flat_points (l : list (Z * Z)) : list Z := p ← l; [p.1; p.2].

(** The structure as the words [memcmp] sees, from [scaling_points_y] to the last
    coefficient. *)
Definition grain_words (p : aom_film_grain_t) : list Z :=
  flat_points (scaling_points_y p) ++ [num_y_points p] ++ flat_points (scaling_points_cb p) ++ [num_cb_points p] ++
  flat_points (scaling_points_cr p) ++ [num_cr_points p; scaling_shift p; ar_coeff_lag p] ++
  ar_coeffs_y p ++ ar_coeffs_cb p ++ ar_coeffs_cr p.

(** [memcmp] of [n] words from word [at_] of the structure. *)
Definition words_equal (at_ n : Z) (a b : aom_film_grain_t) : bool :=
  bool_decide (take (Z.to_nat n) (drop (Z.to_nat at_) (grain_words a)) = take (Z.to_nat n) (drop (Z.to_nat at_) (grain_words b))).

(** A point is two words, and the lengths are [num * 2 * sizeof] of a point. *)
Definition aom_check_grain_params_equiv (pa pb : aom_film_grain_t) : bool :=
  bool_decide (apply_grain pa = apply_grain pb) &&
  (num_y_points pa =? num_y_points pb) && words_equal 0 (num_y_points pa * 2 * 2) pa pb &&
  (num_cb_points pa =? num_cb_points pb) && words_equal 29 (num_cb_points pa * 2 * 2) pa pb &&
  (num_cr_points pa =? num_cr_points pb) && words_equal 50 (num_cr_points pa * 2 * 2) pa pb &&
  (scaling_shift pa =? scaling_shift pb) && (ar_coeff_lag pa =? ar_coeff_lag pb) &&
  (let num_pos := 2 * ar_coeff_lag pa * (ar_coeff_lag pa + 1) in
   words_equal 73 num_pos pa pb && words_equal 97 num_pos pa pb && words_equal 122 num_pos pa pb) &&
  (ar_coeff_shift pa =? ar_coeff_shift pb) &&
  (cb_mult pa =? cb_mult pb) && (cb_luma_mult pa =? cb_luma_mult pb) && (cb_offset pa =? cb_offset pb) &&
  (cr_mult pa =? cr_mult pb) && (cr_luma_mult pa =? cr_luma_mult pb) && (cr_offset pa =? cr_offset pb) &&
  bool_decide (overlap_flag pa = overlap_flag pb) && bool_decide (clip_to_restricted_range pa = clip_to_restricted_range pb) &&
  (grain_bit_depth pa =? grain_bit_depth pb) && bool_decide (chroma_scaling_from_luma pa = chroma_scaling_from_luma pb) &&
  (grain_scale_shift pa =? grain_scale_shift pb).

(** ** Arrays *)

Fixpoint w_each {A} (w : A -> hwriter) (n : nat) (l : list A) : hwriter :=
  match n with
  | O => mret tt
  | S n => v ← w_lift (head l); _ ← w v; w_each w n (tail l)
  end.

Definition put {A} (l : list A) (i : Z) (v : A) : option (list A) :=
  if (0 <=? i) && (i <? Z.of_nat (length l)) then Some (<[Z.to_nat i := v]> l) else None.

(** [rd i a]: the entry that is read at [i] of the array as it is. *)
Fixpoint r_each {A} (rd : Z -> list A -> hreader A) (n : nat) (i : Z) (a : list A) : hreader (list A) :=
  match n with
  | O => mret a
  | S n => v ← rd i a; a ← lift (put a i v); r_each rd n (i + 1) a
  end.

(** ** The frame and its references *)

Record grain_buf := { film_grain_params_present : bool; buf_grain : aom_film_grain_t }.

(** What the syntax depends on: the colour format, the type of the frame, and the reference
    frames by map index ([ref_frame_map]) and by name ([remapped_ref_idx]). *)
Record grain_site := {
  gs_monochrome : bool; gs_subsampling_x : Z; gs_subsampling_y : Z; gs_bit_depth : Z;
  gs_inter_frame : bool;
  gs_remapped_ref_idx : list Z; gs_ref_frame_map : list (option grain_buf) }.

Section Site.
Context (s : grain_site).

Definition no_chroma_points (p : aom_film_grain_t) : bool :=
  gs_monochrome s || chroma_scaling_from_luma p ||
  ((gs_subsampling_x s =? 1) && (gs_subsampling_y s =? 1) && (num_y_points p =? 0)).

(** ** Writing *)

Definition write_point (p : Z * Z) : hwriter := _ ← w_hlit p.1 8; w_hlit p.2 8.
Definition write_coeff (c : Z) : hwriter := w_hlit (c + 128) 8.

(** The map index of the first reference frame with equivalent parameters, of the last one
    when there is none; a reference without a frame is an access through a null pointer. *)
Fixpoint grain_ref (p : aom_film_grain_t) (refs : list Z) : option Z :=
  match refs with
  | [] => None
  | ref_idx :: refs =>
      buf ← zget (gs_ref_frame_map s) ref_idx; buf ← buf;
      if film_grain_params_present buf && aom_check_grain_params_equiv p (buf_grain buf) then Some ref_idx
      else match refs with [] => Some ref_idx | _ => grain_ref p refs end
  end.

Definition write_film_grain_params (p : aom_film_grain_t) : hwriter :=
  _ ← w_flag (apply_grain p);
  if negb (apply_grain p) then mret tt else
  _ ← w_hlit (random_seed p) 16;
  _ ← (if gs_inter_frame s then w_flag (update_parameters p) else mret tt);
  if negb (update_parameters p) then
    ref_idx ← w_lift (grain_ref p (gs_remapped_ref_idx s));
    w_hlit ref_idx 3
  else
  _ ← w_hlit (num_y_points p) 4;
  _ ← w_each write_point (Z.to_nat (num_y_points p)) (scaling_points_y p);
  _ ← (if negb (gs_monochrome s) then w_flag (chroma_scaling_from_luma p) else mret tt);
  _ ← (if no_chroma_points p then mret tt
       else
         _ ← w_hlit (num_cb_points p) 4;
         _ ← w_each write_point (Z.to_nat (num_cb_points p)) (scaling_points_cb p);
         _ ← w_hlit (num_cr_points p) 4;
         w_each write_point (Z.to_nat (num_cr_points p)) (scaling_points_cr p));
  _ ← w_hlit (scaling_shift p - 8) 2;
  _ ← w_hlit (ar_coeff_lag p) 2;
  let num_pos_luma := 2 * ar_coeff_lag p * (ar_coeff_lag p + 1) in
  let num_pos_chroma := if 0 <? num_y_points p then num_pos_luma + 1 else num_pos_luma in
  _ ← (if negb (num_y_points p =? 0) then w_each write_coeff (Z.to_nat num_pos_luma) (ar_coeffs_y p) else mret tt);
  _ ← (if negb (num_cb_points p =? 0) || chroma_scaling_from_luma p
       then w_each write_coeff (Z.to_nat num_pos_chroma) (ar_coeffs_cb p) else mret tt);
  _ ← (if negb (num_cr_points p =? 0) || chroma_scaling_from_luma p
       then w_each write_coeff (Z.to_nat num_pos_chroma) (ar_coeffs_cr p) else mret tt);
  _ ← w_hlit (ar_coeff_shift p - 6) 2;
  _ ← w_hlit (grain_scale_shift p) 2;
  _ ← (if negb (num_cb_points p =? 0) then
         _ ← w_hlit (cb_mult p) 8; _ ← w_hlit (cb_luma_mult p) 8; w_hlit (cb_offset p) 9
       else mret tt);
  _ ← (if negb (num_cr_points p =? 0) then
         _ ← w_hlit (cr_mult p) 8; _ ← w_hlit (cr_luma_mult p) 8; w_hlit (cr_offset p) 9
       else mret tt);
  _ ← w_flag (overlap_flag p);
  w_flag (clip_to_restricted_range p).

(** ** Reading *)

Definition check (b : bool) (e : aom_codec_err_t) : hreader unit := if b then mret tt else raise e.

Definition read_point (i : Z) (a : list (Z * Z)) : hreader (Z * Z) :=
  x ← aom_rb_read_literal 8;
  _ ← (if i =? 0 then mret tt
       else prev ← lift (zget a (i - 1)); check (prev.1 <? x) AOM_CODEC_UNSUP_BITSTREAM);
  y ← aom_rb_read_literal 8;
  mret (x, y).

Definition read_coeff (i : Z) (a : list Z) : hreader Z := c ← aom_rb_read_literal 8; mret (c - 128).

(** [num] points of at most [max]. *)
Definition read_points (max : Z) (a : list (Z * Z)) : hreader (Z * list (Z * Z)) :=
  num ← aom_rb_read_literal 4;
  _ ← check (num <=? max) AOM_CODEC_UNSUP_BITSTREAM;
  a ← r_each read_point (Z.to_nat num) 0 a;
  mret (num, a).

(** Inherited from the frame at a map index. *)
Definition read_grain_ref (seed : Z) : hreader aom_film_grain_t :=
  film_grain_params_ref_idx ← aom_rb_read_literal 3;
  _ ← check (existsb (Z.eqb film_grain_params_ref_idx) (gs_remapped_ref_idx s)) AOM_CODEC_UNSUP_BITSTREAM;
  buf ← lift (zget (gs_ref_frame_map s) film_grain_params_ref_idx);
  match buf with
  | None => raise AOM_CODEC_UNSUP_BITSTREAM
  | Some buf =>
      _ ← check (film_grain_params_present buf) AOM_CODEC_UNSUP_BITSTREAM;
      mret (with_seed seed (buf_grain buf))
  end.

(** Both or neither of the chroma planes have points in 4:2:0. *)
Definition points_agree (num_cb num_cr : Z) : bool :=
  negb ((gs_subsampling_x s =? 1) && (gs_subsampling_y s =? 1) &&
        (((num_cb =? 0) && negb (num_cr =? 0)) || (negb (num_cb =? 0) && (num_cr =? 0)))).

Definition read_chroma_points (from_luma : bool) (num_y : Z) (old : aom_film_grain_t)
  : hreader (Z * list (Z * Z) * (Z * list (Z * Z))) :=
  if gs_monochrome s || from_luma || ((gs_subsampling_x s =? 1) && (gs_subsampling_y s =? 1) && (num_y =? 0)) then
    mret (0, scaling_points_cb old, (0, scaling_points_cr old))
  else
    cb ← read_points 10 (scaling_points_cb old);
    cr ← read_points 10 (scaling_points_cr old);
    _ ← check (points_agree cb.1 cr.1) AOM_CODEC_UNSUP_BITSTREAM;
    mret (cb, cr).

Definition read_mults (present : bool) (mult luma_mult offset : Z) : hreader (Z * Z * Z) :=
  if present then
    mult ← aom_rb_read_literal 8; luma_mult ← aom_rb_read_literal 8; offset ← aom_rb_read_literal 9;
    mret (mult, luma_mult, offset)
  else mret (mult, luma_mult, offset).

Definition read_coeffs (present : bool) (n : Z) (a : list Z) : hreader (list Z) :=
  if present then r_each read_coeff (Z.to_nat n) 0 a else mret a.

Definition read_film_grain_params (old : aom_film_grain_t) : hreader aom_film_grain_t :=
  apply_ ← r_flag;
  if negb apply_ then mret grain_zero else
  seed ← aom_rb_read_literal 16;
  update ← (if gs_inter_frame s then r_flag else mret true);
  if negb update then read_grain_ref seed else
  '(num_y, ys) ← read_points 14 (scaling_points_y old);
  from_luma ← (if negb (gs_monochrome s) then r_flag else mret false);
  '((num_cb, cbs), (num_cr, crs)) ← read_chroma_points from_luma num_y old;
  shift ← aom_rb_read_literal 2;
  lag ← aom_rb_read_literal 2;
  let num_pos_luma := 2 * lag * (lag + 1) in
  let num_pos_chroma := if 0 <? num_y then num_pos_luma + 1 else num_pos_luma in
  ar_y ← read_coeffs (negb (num_y =? 0)) num_pos_luma (ar_coeffs_y old);
  ar_cb ← read_coeffs (negb (num_cb =? 0) || from_luma) num_pos_chroma (ar_coeffs_cb old);
  ar_cr ← read_coeffs (negb (num_cr =? 0) || from_luma) num_pos_chroma (ar_coeffs_cr old);
  ar_shift ← aom_rb_read_literal 2;
  scale_shift ← aom_rb_read_literal 2;
  '(cbm, cblm, cbo) ← read_mults (negb (num_cb =? 0)) (cb_mult old) (cb_luma_mult old) (cb_offset old);
  '(crm, crlm, cro) ← read_mults (negb (num_cr =? 0)) (cr_mult old) (cr_luma_mult old) (cr_offset old);
  overlap ← r_flag;
  clip ← r_flag;
  mret {| apply_grain := true; update_parameters := true;
          scaling_points_y := ys; num_y_points := num_y; scaling_points_cb := cbs; num_cb_points := num_cb;
          scaling_points_cr := crs; num_cr_points := num_cr; scaling_shift := shift + 8; ar_coeff_lag := lag;
          ar_coeffs_y := ar_y; ar_coeffs_cb := ar_cb; ar_coeffs_cr := ar_cr; ar_coeff_shift := ar_shift + 6;
          cb_mult := cbm; cb_luma_mult := cblm; cb_offset := cbo; cr_mult := crm; cr_luma_mult := crlm; cr_offset := cro;
          overlap_flag := overlap; clip_to_restricted_range := clip; grain_bit_depth := gs_bit_depth s;
          chroma_scaling_from_luma := from_luma; grain_scale_shift := scale_shift; random_seed := seed |}.
End Site.

(** [read_film_grain]; [shown]: the frame is or can be shown. *)
Definition read_film_grain (s : grain_site) (present shown : bool) (old : aom_film_grain_t) : hreader aom_film_grain_t :=
  p ← (if present && shown then read_film_grain_params s old else mret grain_zero);
  mret (with_depth (gs_bit_depth s) p).

(** ** What is sent is read back *)

Lemma put_mid {A} (pre : list A) x post v : put (pre ++ x :: post) (Z.of_nat (length pre)) v = Some (pre ++ v :: post).
Proof.
  unfold put. rewrite length_app. cbn [length]. rewrite (proj2 (Z.leb_le 0 _)), (proj2 (Z.ltb_lt _ _)) by lia. cbn [andb].
  by rewrite Nat2Z.id, insert_app_r_alt, Nat.sub_diag by lia.
Qed.

(** An array, if each entry can be read after those before it. *)
Lemma carries_each {A} N (w : A -> hwriter) rd (L : list A) m :
  (forall pre v post rest, L = pre ++ v :: post -> (length pre < m)%nat -> carries N (w v) (rd (Z.of_nat (length pre)) (pre ++ rest)) v) ->
  forall n done_ l old, L = done_ ++ l -> (length done_ + n = m)%nat -> (n <= length l)%nat -> (n <= length old)%nat ->
    carries (n * N) (w_each w n l) (r_each rd n (Z.of_nat (length done_)) (done_ ++ old)) (done_ ++ kept_first n old l).
Proof.
  intros H n. induction n as [| n IH]; intros done_ l old EL Hm Hl Ho; [apply carries_ret |].
  destruct l as [| v l], old as [| o old]; cbn [length] in *; try lia. cbn [w_each r_each head tail]. rewrite w_lift_some.
  change (S n * N)%nat with (N + n * N)%nat. eapply carries_bind; [apply (H done_ v l (o :: old) EL); lia |]. cbv beta.
  apply (carries_lift _ _ _ (done_ ++ v :: old)); [apply put_mid |]. cbv beta.
  replace (Z.of_nat (length done_) + 1) with (Z.of_nat (length (done_ ++ [v]))) by (rewrite length_app; cbn; lia).
  change (v :: old) with ([v] ++ old). change (kept_first (S n) (o :: old) (v :: l)) with ([v] ++ kept_first n old l).
  rewrite !app_assoc. apply IH; [by rewrite <- app_assoc | rewrite length_app; cbn; lia | lia | lia].
Qed.

Definition point_ok (p : Z * Z) : Prop := 0 <= p.1 < 256 /\ 0 <= p.2 < 256.

(** Points with increasing first coordinates. *)
Definition rising (l : list (Z * Z)) : Prop := forall i a b, l !! i = Some a -> l !! S i = Some b -> a.1 < b.1.

Lemma carries_check {A} N (m : hwriter) b e (k : unit -> hreader A) a : b = true -> carries N m (k tt) a -> carries N m (check b e ≫= k) a.
Proof. intros ->. by apply carries_known. Qed.

Lemma carries_point L m pre v post rest : rising (take m L) -> Forall point_ok (take m L) -> L = pre ++ v :: post -> (length pre < m)%nat ->
  carries 64 (write_point v) (read_point (Z.of_nat (length pre)) (pre ++ rest)) v.
Proof.
  intros Hr Hp -> Hm. unfold write_point, read_point.
  assert (take m (pre ++ v :: post) !! length pre = Some v) as Ev by (rewrite lookup_take_lt by lia; by apply list_lookup_middle).
  rewrite Forall_lookup in Hp. destruct (Hp _ _ Ev) as [H1 H2]. change 256 with (2 ^ 8) in *.
  within (32 + 32)%nat. carry carries_lit; [lia | done |].
  eapply (carries_known _ _ _ _ tt).
  - intros r. destruct (Z.eqb_spec (Z.of_nat (length pre)) 0) as [| Hn]; [done |].
    destruct pre as [| u pre' _] using rev_ind; [done |]. rewrite length_app. cbn [length].
    assert (zget ((pre' ++ [u]) ++ rest) (Z.of_nat (length pre' + 1) - 1) = Some u) as ->.
    { unfold zget. rewrite (proj2 (Z.leb_le 0 _)) by lia. replace (Z.to_nat (Z.of_nat (length pre' + 1) - 1)) with (length pre') by lia.
      rewrite <- app_assoc. by apply list_lookup_middle. }
    rewrite length_app in *. cbn [length] in *.
    assert (u.1 < v.1) as Hlt.
    { apply (Hr (length pre')); [rewrite lookup_take_lt by lia; rewrite <- !app_assoc; by apply list_lookup_middle |].
      by rewrite Nat.add_1_r in Ev. }
    change (check (u.1 <? v.1) AOM_CODEC_UNSUP_BITSTREAM r = Ok (tt, r)). unfold check. by rewrite (proj2 (Z.ltb_lt _ _)) by done.
  - eapply carries_post; [by apply carries_lit; [lia |] |]. intros r. by destruct v.
Qed.

Lemma carries_coeff L m pre v post rest : Forall (fun c => -128 <= c < 128) (take m L) -> L = pre ++ v :: post -> (length pre < m)%nat ->
  carries 32 (write_coeff v) (read_coeff (Z.of_nat (length pre)) (pre ++ rest)) v.
Proof.
  intros Hp -> Hm. unfold write_coeff, read_coeff. rewrite Forall_lookup in Hp.
  assert (-128 <= v < 128) by (apply (Hp (length pre)); rewrite lookup_take_lt by lia; by apply list_lookup_middle).
  eapply carries_post; [apply carries_lit; [lia | change (2 ^ 8) with 256; lia] |]. intros r. by rewrite Z.add_simpl_r.
Qed.

Lemma carries_points max num (l old : list (Z * Z)) : max < 16 -> 0 <= num <= max -> max <= Z.of_nat (length l) -> max <= Z.of_nat (length old) ->
  rising (take (Z.to_nat num) l) -> Forall point_ok (take (Z.to_nat num) l) ->
  carries (32 + Z.to_nat num * 64) (_ ← w_hlit num 4; w_each write_point (Z.to_nat num) l) (read_points max old)
    (num, kept_first (Z.to_nat num) old l).
Proof.
  intros Hm Hn Hl Ho Hr Hp. unfold read_points. carry carries_lit; [lia | change (2 ^ 4) with 16; lia |].
  apply carries_check; [apply Z.leb_le; lia |].
  eapply carries_post; [| done].
  refine (carries_each 64 write_point read_point l (Z.to_nat num) _ (Z.to_nat num) [] l old _ _ _ _); [| done | done | lia | lia].
  intros pre v post rest E Hlt. by eapply carries_point.
Qed.

Lemma carries_coeffs (present : bool) n (l old : list Z) : 0 <= n <= Z.of_nat (length l) -> n <= Z.of_nat (length old) ->
  Forall (fun c => -128 <= c < 128) (take (Z.to_nat n) l) ->
  carries (Z.to_nat n * 32) (if present then w_each write_coeff (Z.to_nat n) l else mret tt) (read_coeffs present n old)
    (if present then kept_first (Z.to_nat n) old l else old).
Proof.
  intros Hl Ho Hp. unfold read_coeffs. destruct present; [| within 0%nat; apply carries_ret].
  refine (carries_each 32 write_coeff read_coeff l (Z.to_nat n) _ (Z.to_nat n) [] l old _ _ _ _); [| done | done | lia | lia].
  intros pre v post rest E Hlt. by eapply carries_coeff.
Qed.

Lemma carries_mults (present : bool) m lm o om olm oo : 0 <= m < 256 -> 0 <= lm < 256 -> 0 <= o < 512 ->
  carries 96 (if present then _ ← w_hlit m 8; _ ← w_hlit lm 8; w_hlit o 9 else mret tt) (read_mults present om olm oo)
    (if present then (m, lm, o) else (om, olm, oo)).
Proof.
  intros Hm Hlm Ho. unfold read_mults. change 256 with (2 ^ 8) in *. change 512 with (2 ^ 9) in *.
  destruct present; [| within 0%nat; apply carries_ret]. within (32 + (32 + 32))%nat.
  carry carries_lit; [lia | done |]. carry carries_lit; [lia | done |]. eapply carries_post; [by apply carries_lit; [lia |] | done].
Qed.

(** What can be sent for a frame. *)
Definition coeff_ok (c : Z) : Prop := -128 <= c < 128.

Record coeffs_ok (p : aom_film_grain_t) : Prop := {
  co_range : Forall coeff_ok (ar_coeffs_y p) /\ Forall coeff_ok (ar_coeffs_cb p) /\ Forall coeff_ok (ar_coeffs_cr p);
  co_arrays : length (scaling_points_y p) = 14%nat /\ length (scaling_points_cb p) = 10%nat /\ length (scaling_points_cr p) = 10%nat /\
    length (ar_coeffs_y p) = 24%nat /\ length (ar_coeffs_cb p) = 25%nat /\ length (ar_coeffs_cr p) = 25%nat }.

Definition points_ok (num max : Z) (l : list (Z * Z)) : Prop :=
  0 <= num <= max /\ rising (take (Z.to_nat num) l) /\ Forall point_ok (take (Z.to_nat num) l).

Record grain_new_ok (s : grain_site) (p : aom_film_grain_t) : Prop := {
  gn_arrays : coeffs_ok p;
  gn_y : points_ok (num_y_points p) 14 (scaling_points_y p);
  gn_cb : points_ok (num_cb_points p) 10 (scaling_points_cb p);
  gn_cr : points_ok (num_cr_points p) 10 (scaling_points_cr p);
  gn_mono : gs_monochrome s = true -> chroma_scaling_from_luma p = false;
  gn_none : no_chroma_points s p = true -> num_cb_points p = 0 /\ num_cr_points p = 0;
  gn_agree : no_chroma_points s p = false -> points_agree s (num_cb_points p) (num_cr_points p) = true;
  gn_shift : 8 <= scaling_shift p <= 11;
  gn_lag : 0 <= ar_coeff_lag p <= 3;
  gn_ar_shift : 6 <= ar_coeff_shift p <= 9;
  gn_scale : 0 <= grain_scale_shift p <= 3;
  gn_cb_mult : 0 <= cb_mult p < 256 /\ 0 <= cb_luma_mult p < 256 /\ 0 <= cb_offset p < 512;
  gn_cr_mult : 0 <= cr_mult p < 256 /\ 0 <= cr_luma_mult p < 256 /\ 0 <= cr_offset p < 512 }.

(** Parameters taken over from a reference frame. *)
Definition grain_ref_ok (s : grain_site) (p : aom_film_grain_t) (buf : grain_buf) : Prop :=
  exists idx, grain_ref s p (gs_remapped_ref_idx s) = Some idx /\ 0 <= idx < 8 /\ In idx (gs_remapped_ref_idx s) /\
    zget (gs_ref_frame_map s) idx = Some (Some buf) /\ film_grain_params_present buf = true.

(** What a decoder that has [old] makes of new parameters. *)
Definition kept_grain (s : grain_site) (old p : aom_film_grain_t) : aom_film_grain_t :=
  let num_pos_luma := 2 * ar_coeff_lag p * (ar_coeff_lag p + 1) in
  let num_pos_chroma := if 0 <? num_y_points p then num_pos_luma + 1 else num_pos_luma in
  let cb_on := negb (num_cb_points p =? 0) in
  let cr_on := negb (num_cr_points p =? 0) in
  let from_luma := chroma_scaling_from_luma p in
  {| apply_grain := true; update_parameters := true;
     scaling_points_y := kept_first (Z.to_nat (num_y_points p)) (scaling_points_y old) (scaling_points_y p); num_y_points := num_y_points p;
     scaling_points_cb := kept_first (Z.to_nat (num_cb_points p)) (scaling_points_cb old) (scaling_points_cb p); num_cb_points := num_cb_points p;
     scaling_points_cr := kept_first (Z.to_nat (num_cr_points p)) (scaling_points_cr old) (scaling_points_cr p); num_cr_points := num_cr_points p;
     scaling_shift := scaling_shift p; ar_coeff_lag := ar_coeff_lag p;
     ar_coeffs_y := if negb (num_y_points p =? 0) then kept_first (Z.to_nat num_pos_luma) (ar_coeffs_y old) (ar_coeffs_y p) else ar_coeffs_y old;
     ar_coeffs_cb := if cb_on || from_luma then kept_first (Z.to_nat num_pos_chroma) (ar_coeffs_cb old) (ar_coeffs_cb p) else ar_coeffs_cb old;
     ar_coeffs_cr := if cr_on || from_luma then kept_first (Z.to_nat num_pos_chroma) (ar_coeffs_cr old) (ar_coeffs_cr p) else ar_coeffs_cr old;
     ar_coeff_shift := ar_coeff_shift p;
     cb_mult := if cb_on then cb_mult p else cb_mult old; cb_luma_mult := if cb_on then cb_luma_mult p else cb_luma_mult old;
     cb_offset := if cb_on then cb_offset p else cb_offset old;
     cr_mult := if cr_on then cr_mult p else cr_mult old; cr_luma_mult := if cr_on then cr_luma_mult p else cr_luma_mult old;
     cr_offset := if cr_on then cr_offset p else cr_offset old;
     overlap_flag := overlap_flag p; clip_to_restricted_range := clip_to_restricted_range p;
     grain_bit_depth := gs_bit_depth s; chroma_scaling_from_luma := from_luma; grain_scale_shift := grain_scale_shift p;
     random_seed := random_seed p |}.

Lemma kept_first_0 {A} (old l : list A) : kept_first 0 old l = old.
Proof. done. Qed.

Lemma carries_chroma_points s old p : grain_new_ok s p -> coeffs_ok old ->
  carries 1344 (if no_chroma_points s p then mret tt
         else
           _ ← w_hlit (num_cb_points p) 4;
           _ ← w_each write_point (Z.to_nat (num_cb_points p)) (scaling_points_cb p);
           _ ← w_hlit (num_cr_points p) 4;
           w_each write_point (Z.to_nat (num_cr_points p)) (scaling_points_cr p))
    (read_chroma_points s (chroma_scaling_from_luma p) (num_y_points p) old)
    (num_cb_points p, kept_first (Z.to_nat (num_cb_points p)) (scaling_points_cb old) (scaling_points_cb p),
     (num_cr_points p, kept_first (Z.to_nat (num_cr_points p)) (scaling_points_cr old) (scaling_points_cr p))).
Proof.
  intros Hp [_ (_ & Lb & Lr & _)]. destruct (gn_arrays _ _ Hp) as [_ (_ & Mb & Mr & _)].
  destruct (gn_cb _ _ Hp) as (Hb & Rb & Pb). destruct (gn_cr _ _ Hp) as (Hr & Rr & Pr).
  unfold read_chroma_points. fold (no_chroma_points s p). destruct (no_chroma_points s p) eqn:E.
  - destruct (gn_none _ _ Hp E) as [-> ->]. within 0%nat. apply carries_ret.
  - within ((32 + Z.to_nat (num_cb_points p) * 64) + (32 + Z.to_nat (num_cr_points p) * 64))%nat.
    apply carries_group.
    eapply carries_bind; [apply carries_points; try done; lia |]. cbv beta.
    eapply carries_post; [apply (carries_points 10); try done; lia |]. intros r. cbn [fst]. unfold check. by rewrite (gn_agree _ _ Hp E).
Qed.

Lemma pos_bound lag : 0 <= lag <= 3 -> 0 <= 2 * lag * (lag + 1) <= 24.
Proof. intros H. assert (lag = 0 \/ lag = 1 \/ lag = 2 \/ lag = 3) as [-> | [-> | [-> | ->]]] by lia; lia. Qed.

(** New parameters. *)
Lemma carries_grain_new s old p : grain_new_ok s p -> coeffs_ok old -> apply_grain p = true -> update_parameters p = true ->
  0 <= random_seed p < 2 ^ 16 ->
  carries 5000 (write_film_grain_params s p) (read_film_grain_params s old) (kept_grain s old p).
Proof.
  intros Hp Hold Ha Hu Hseed. destruct (Hold) as [_ (Ly & Lb & Lr & Lay & Lab & Lar)].
  destruct (gn_arrays _ _ Hp) as [(Cy & Cb & Cr) (My & Mb & Mr & May & Mab & Mar)].
  destruct (gn_y _ _ Hp) as (Hy & Ry & Py).
  pose proof (pos_bound _ (gn_lag _ _ Hp)) as Hpos. pose proof (gn_shift _ _ Hp). pose proof (gn_lag _ _ Hp). pose proof (gn_ar_shift _ _ Hp). pose proof (gn_scale _ _ Hp).
  unfold write_film_grain_params, read_film_grain_params, kept_grain. rewrite Ha, Hu. cbv zeta.
  set (luma := 2 * ar_coeff_lag p * (ar_coeff_lag p + 1)) in *.
  set (chroma := if 0 <? num_y_points p then luma + 1 else luma).
  assert (0 <= chroma <= 25) as Hch by (unfold chroma; destruct (0 <? num_y_points p); lia).
  within (1 + (32 + (1 + ((32 + Z.to_nat (num_y_points p) * 64) + (1 + (1344 + (32 + (32 + (Z.to_nat luma * 32 + (Z.to_nat chroma * 32 +
    (Z.to_nat chroma * 32 + (32 + (32 + (96 + (96 + (1 + 1))))))))))))))))%nat.
  carry (carries_flag true). cbn [negb]. carry carries_lit; [lia | done |].
  eapply (carries_bind _ _ _ _ _ _ true).
  { destruct (gs_inter_frame s); [apply carries_flag |]. within 0%nat. apply carries_ret. }
  cbv beta iota. cbn [negb].
  apply carries_group.
  eapply carries_bind; [apply carries_points; try done; lia |]. cbv beta iota.
  eapply (carries_bind _ _ _ _ _ _ (chroma_scaling_from_luma p)).
  { destruct (gs_monochrome s) eqn:Em; cbn [negb]; [| apply carries_flag]. rewrite (gn_mono _ _ Hp Em). within 0%nat. apply carries_ret. }
  cbv beta iota. eapply carries_bind; [by apply carries_chroma_points |]. cbv beta iota.
  carry carries_lit; [lia | change (2 ^ 2) with 4; lia |]. carry carries_lit; [lia | change (2 ^ 2) with 4; lia |]. fold luma chroma.
  eapply carries_bind; [apply carries_coeffs; [lia | lia | by apply Forall_take] |]. cbv beta.
  eapply carries_bind; [apply carries_coeffs; [lia | lia | by apply Forall_take] |]. cbv beta.
  eapply carries_bind; [apply carries_coeffs; [lia | lia | by apply Forall_take] |]. cbv beta.
  carry carries_lit; [lia | change (2 ^ 2) with 4; lia |]. carry carries_lit; [lia | change (2 ^ 2) with 4; lia |].
  eapply carries_bind; [apply carries_mults; apply (gn_cb_mult _ _ Hp) |]. cbv beta.
  destruct (num_cb_points p =? 0); cbn [negb]; cbv iota.
  all: eapply carries_bind; [apply carries_mults; apply (gn_cr_mult _ _ Hp) |]; cbv beta;
    destruct (num_cr_points p =? 0); cbn [negb]; cbv iota;
    (carry carries_flag; eapply carries_post; [apply carries_flag |]; intros r; by rewrite !Z.sub_add).
Qed.

(** *** All of it *)

Record grain_ok (s : grain_site) (p : aom_film_grain_t) : Prop := {
  gk_seed : 0 <= random_seed p < 2 ^ 16;
  gk_new : update_parameters p = true -> grain_new_ok s p;
  gk_ref : update_parameters p = false -> gs_inter_frame s = true /\ exists buf, grain_ref_ok s p buf }.

Definition grain_after (s : grain_site) (old p : aom_film_grain_t) : aom_film_grain_t :=
  if negb (apply_grain p) then grain_zero
  else if update_parameters p then kept_grain s old p
  else match idx ← grain_ref s p (gs_remapped_ref_idx s); buf ← zget (gs_ref_frame_map s) idx; buf with
       | Some buf => with_seed (random_seed p) (buf_grain buf)
       | None => old
       end.

Lemma carries_grain s old p : coeffs_ok old -> (apply_grain p = true -> grain_ok s p) ->
  carries 5000 (write_film_grain_params s p) (read_film_grain_params s old) (grain_after s old p).
Proof.
  intros Hold Hok. unfold grain_after. destruct (apply_grain p) eqn:Ea; cbn [negb].
  2: { unfold write_film_grain_params, read_film_grain_params. rewrite Ea. within (1 + 0)%nat. carry (carries_flag false). apply carries_ret. }
  destruct (Hok eq_refl) as [Hseed Hnew Href]. destruct (update_parameters p) eqn:Eu; [by apply carries_grain_new; auto |].
  destruct (Href eq_refl) as (Hinter & buf & idx & Eg & Hidx & Hin & Em & Hpres). rewrite Eg. cbn [mbind option_bind]. rewrite Em. cbn [mbind option_bind].
  unfold write_film_grain_params, read_film_grain_params. rewrite Ea, Eu, Hinter, Eg, w_lift_some. within (1 + (32 + (1 + 32)))%nat.
  carry (carries_flag true). cbn [negb]. carry carries_lit; [lia | done |]. carry (carries_flag false). cbn [negb]. unfold read_grain_ref.
  eapply carries_post; [apply carries_lit; [lia | change (2 ^ 3) with 8; lia] |]. intros r. cbv beta.
  assert (existsb (Z.eqb idx) (gs_remapped_ref_idx s) = true) as Ee by (apply existsb_exists; exists idx; split; [done | apply Z.eqb_refl]).
  unfold check. rewrite Ee. change (mret (M := hreader) tt ≫= ?k) with (k tt). cbv beta. rewrite Em.
  change (lift (Some ?x) ≫= ?k) with (k x). cbv beta iota. by rewrite Hpres.
Qed.

(** What grain synthesis uses of the parameters, apart from the seed: the points there are, and
    the coefficients and factors of the planes that have grain. *)
Definition grain_values (p : aom_film_grain_t) :=
  let num_pos_luma := 2 * ar_coeff_lag p * (ar_coeff_lag p + 1) in
  let num_pos_chroma := if 0 <? num_y_points p then num_pos_luma + 1 else num_pos_luma in
  let cb_on := negb (num_cb_points p =? 0) in
  let cr_on := negb (num_cr_points p =? 0) in
  let from_luma := chroma_scaling_from_luma p in
  (apply_grain p,
   (num_y_points p, take (Z.to_nat (num_y_points p)) (scaling_points_y p)),
   (num_cb_points p, take (Z.to_nat (num_cb_points p)) (scaling_points_cb p)),
   (num_cr_points p, take (Z.to_nat (num_cr_points p)) (scaling_points_cr p)),
   (scaling_shift p, ar_coeff_lag p, ar_coeff_shift p, grain_scale_shift p),
   (if negb (num_y_points p =? 0) then take (Z.to_nat num_pos_luma) (ar_coeffs_y p) else [],
    if cb_on || from_luma then take (Z.to_nat num_pos_chroma) (ar_coeffs_cb p) else [],
    if cr_on || from_luma then take (Z.to_nat num_pos_chroma) (ar_coeffs_cr p) else []),
   (if cb_on then Some (cb_mult p, cb_luma_mult p, cb_offset p) else None,
    if cr_on then Some (cr_mult p, cr_luma_mult p, cr_offset p) else None),
   (overlap_flag p, clip_to_restricted_range p, from_luma)).

Lemma take_kept_first {A} n (old l : list A) : (n <= length l)%nat -> take n (kept_first n old l) = take n l.
Proof. intros H. unfold kept_first. rewrite take_app_le by (rewrite length_take; lia). rewrite take_take. by rewrite Nat.min_id. Qed.

(** New parameters are kept in all that counts. *)
Lemma kept_grain_values s old p : grain_new_ok s p -> apply_grain p = true -> grain_values (kept_grain s old p) = grain_values p.
Proof.
  intros Hp Ha. destruct (gn_arrays _ _ Hp) as [_ (My & Mb & Mr & May & Mab & Mar)].
  destruct (gn_y _ _ Hp) as (Hy & _). destruct (gn_cb _ _ Hp) as (Hb & _). destruct (gn_cr _ _ Hp) as (Hr & _).
  pose proof (pos_bound _ (gn_lag _ _ Hp)) as Hpos.
  unfold grain_values, kept_grain.
  cbn [apply_grain num_y_points num_cb_points num_cr_points scaling_points_y scaling_points_cb scaling_points_cr scaling_shift ar_coeff_lag
    ar_coeff_shift grain_scale_shift ar_coeffs_y ar_coeffs_cb ar_coeffs_cr cb_mult cb_luma_mult cb_offset cr_mult cr_luma_mult cr_offset
    overlap_flag clip_to_restricted_range chroma_scaling_from_luma]. cbv zeta.
  set (luma := 2 * ar_coeff_lag p * (ar_coeff_lag p + 1)) in *. set (chroma := if 0 <? num_y_points p then luma + 1 else luma).
  assert (0 <= chroma <= 25) as Hch by (unfold chroma; destruct (0 <? num_y_points p); lia).
  rewrite Ha, !take_kept_first by lia.
  destruct (negb (num_y_points p =? 0)), (negb (num_cb_points p =? 0)), (negb (num_cr_points p =? 0)), (chroma_scaling_from_luma p);
    cbn [orb]; by rewrite ?take_kept_first by lia.
Qed.

(** The reference frame that parameters are taken over from has the same. *)
Definition grain_shared (s : grain_site) (p : aom_film_grain_t) : Prop :=
  forall buf, grain_ref_ok s p buf -> grain_values (buf_grain buf) = grain_values p.

(** The decoder ends with the values of the encoder. *)
Lemma grain_after_values s old p : apply_grain p = true -> grain_ok s p -> (update_parameters p = false -> grain_shared s p) ->
  grain_values (grain_after s old p) = grain_values p /\ random_seed (grain_after s old p) = random_seed p.
Proof.
  intros Ha [_ Hnew Href] Hs. unfold grain_after. rewrite Ha. cbn [negb]. destruct (update_parameters p) eqn:Eu.
  - split; [by apply kept_grain_values; auto | done].
  - destruct (Href eq_refl) as (_ & buf & Hbuf). rewrite <- (Hs eq_refl buf Hbuf).
    destruct Hbuf as (idx & Eg & _ & _ & Em & _). rewrite Eg. cbn [mbind option_bind]. rewrite Em. cbn [mbind option_bind]. done.
Qed.

(** ** On any bytes *)

Lemma yields_check b e : yields (check b e) (fun _ => b = true).
Proof. unfold check. destruct b; [by apply yields_ret | apply yields_raise]. Qed.

Lemma put_ok {A} (l : list A) i v : 0 <= i < Z.of_nat (length l) -> put l i v = Some (<[Z.to_nat i := v]> l).
Proof. intros H. unfold put. by rewrite (proj2 (Z.leb_le _ _)), (proj2 (Z.ltb_lt _ _)) by lia. Qed.

Lemma take_insert_S {A} (l : list A) i v : (i < length l)%nat -> take (S i) (<[i := v]> l) = take i l ++ [v].
Proof.
  intros H. rewrite (take_S_r _ _ v) by (by apply list_lookup_insert_eq). by rewrite take_insert_ge by lia.
Qed.

(** [x] is above the first coordinate of the last point. *)
Definition above_last (l : list (Z * Z)) (x : Z) : Prop := forall i q, l !! i = Some q -> S i = length l -> q.1 < x.

Lemma rising_snoc l p : rising l -> above_last l p.1 -> rising (l ++ [p]).
Proof.
  intros Hr Hl i a b Ha Hb. assert (S i < length (l ++ [p]))%nat as Hlt by (by eapply lookup_lt_Some). rewrite length_app in Hlt. cbn in Hlt.
  rewrite lookup_app_l in Ha by lia. destruct (decide (S i < length l)%nat).
  - rewrite lookup_app_l in Hb by done. by eapply Hr.
  - assert (S i = length l) as E by lia. rewrite E, list_lookup_middle in Hb by done. injection Hb as <-. by eapply Hl.
Qed.

Lemma yields_points_loop n i (a : list (Z * Z)) : 0 <= i -> i + Z.of_nat n <= Z.of_nat (length a) ->
  rising (take (Z.to_nat i) a) -> Forall point_ok (take (Z.to_nat i) a) ->
  yields (r_each read_point n i a) (fun a' => length a' = length a /\ rising (take (Z.to_nat (i + Z.of_nat n)) a') /\
    Forall point_ok (take (Z.to_nat (i + Z.of_nat n)) a')).
Proof.
  revert i a. induction n as [| n IH]; intros i a Hi Hn Hr Hp; [apply yields_ret; by rewrite Z.add_0_r |]. cbn [r_each].
  eapply (yields_bind _ _ (fun p => point_ok p /\ above_last (take (Z.to_nat i) a) p.1)).
  - unfold read_point. lit x. eapply (yields_bind _ _ (fun _ => above_last (take (Z.to_nat i) a) x)).
    + destruct (Z.eqb_spec i 0) as [-> |]; [by apply yields_ret |].
      destruct (lookup_lt_is_Some_2 a (Z.to_nat (i - 1)) ltac:(lia)) as [prev E].
      next @yields_lift; [unfold zget; rewrite (proj2 (Z.leb_le 0 (i - 1))) by lia; exact E |]. intros ? <-.
      eapply yields_le; [apply yields_check |]. intros _ Hlt%Z.ltb_lt j q Hq Hj. rewrite length_take in Hj.
      replace j with (Z.to_nat (i - 1)) in Hq by lia. rewrite lookup_take_lt, E in Hq by lia. by injection Hq as <-.
    + intros _ Hq. lit y. apply yields_ret. split; [by split | done].
  - intros p [Hpo Hq]. next @yields_lift; [apply put_ok; lia |]. intros ? <-.
    replace (i + Z.of_nat (S n)) with (i + 1 + Z.of_nat n) by lia. rewrite <- (length_insert a (Z.to_nat i) p).
    apply IH; [lia | rewrite length_insert; lia | |]; replace (Z.to_nat (i + 1)) with (S (Z.to_nat i)) by lia; rewrite take_insert_S by lia.
    + by apply rising_snoc.
    + apply Forall_app. split; [done | by constructor].
Qed.

Lemma yields_points max a : max <= Z.of_nat (length a) ->
  yields (read_points max a) (fun '(num, a') => length a' = length a /\ points_ok num max a').
Proof.
  intros Hm. unfold read_points. lit num. eapply yields_bind; [apply yields_check |]. intros _ Hle%Z.leb_le.
  eapply yields_bind; [apply yields_points_loop; [lia | lia | by intros ? ? | constructor] |].
  intros a' (Hl & Hr & Hp). apply yields_ret. rewrite Z.add_0_l, Nat2Z.id in *. unfold points_ok. split_and!; (done || lia).
Qed.

Lemma yields_coeffs_loop n i a : 0 <= i -> i + Z.of_nat n <= Z.of_nat (length a) -> Forall coeff_ok a ->
  yields (r_each read_coeff n i a) (fun a' => length a' = length a /\ Forall coeff_ok a').
Proof.
  revert i a. induction n as [| n IH]; intros i a Hi Hn Ha; [by apply yields_ret |]. cbn [r_each].
  eapply (yields_bind _ _ coeff_ok).
  - unfold read_coeff. lit c. apply yields_ret. unfold coeff_ok. change (2 ^ 8) with 256 in *. lia.
  - intros c Hc. next @yields_lift; [apply put_ok; lia |]. intros ? <-. rewrite <- (length_insert a (Z.to_nat i) c).
    apply IH; [lia | rewrite length_insert; lia | by apply Forall_insert].
Qed.

Lemma yields_coeffs present n a : 0 <= n <= Z.of_nat (length a) -> Forall coeff_ok a ->
  yields (read_coeffs present n a) (fun a' => length a' = length a /\ Forall coeff_ok a').
Proof. intros Hn Ha. unfold read_coeffs. destruct present; [apply yields_coeffs_loop; (done || lia) | by apply yields_ret]. Qed.

Definition mults_ok (m lm o : Z) : Prop := 0 <= m < 256 /\ 0 <= lm < 256 /\ 0 <= o < 512.

Lemma yields_mults present m lm o : mults_ok m lm o -> yields (read_mults present m lm o) (fun '(m, lm, o) => mults_ok m lm o).
Proof. intros H. unfold read_mults. destruct present; [| by apply yields_ret]. lit a. lit b. lit c. by apply yields_ret. Qed.

(** What a decoder has at all times: arrays of the right length, and legal parameters
    whenever grain is applied. *)
Record grain_inv (s : grain_site) (p : aom_film_grain_t) : Prop := {
  gi_arrays : coeffs_ok p;
  gi_mults : mults_ok (cb_mult p) (cb_luma_mult p) (cb_offset p) /\ mults_ok (cr_mult p) (cr_luma_mult p) (cr_offset p);
  gi_seed : 0 <= random_seed p < 2 ^ 16;
  gi_new : apply_grain p = true -> grain_new_ok s p }.

Lemma grain_zero_inv s : grain_inv s grain_zero.
Proof.
  split; try done.
  - split; [split_and!; repeat constructor; (discriminate || done) | done].
Qed.

Lemma yields_grain_params s old : grain_inv s old -> Forall (fun o => forall b, o = Some b -> grain_inv s (buf_grain b)) (gs_ref_frame_map s) ->
  length (gs_ref_frame_map s) = 8%nat ->
  yields (read_film_grain_params s old) (grain_inv s).
Proof.
  intros Hold Hrefs Hl. destruct (gi_arrays _ _ Hold) as [(Cy & Cb & Cr) (Ly & Lb & Lr & Lay & Lab & Lar)]. destruct (gi_mults _ _ Hold) as [Hmb Hmr].
  unfold read_film_grain_params. flag on. destruct on; cbn [negb]; [| apply yields_ret, grain_zero_inv]. lit seed.
  eapply (yields_bind _ _ (fun _ => True)). { destruct (gs_inter_frame s); [apply yields_flag | by apply yields_ret]. }
  intros update _. destruct update; cbn [negb].
  2: { unfold read_grain_ref. lit idx. eapply yields_bind; [apply yields_check |]. intros _ _. change (2 ^ 3) with 8 in *.
       destruct (lookup_lt_is_Some_2 (gs_ref_frame_map s) (Z.to_nat idx) ltac:(lia)) as [o Eo].
       next @yields_lift; [unfold zget; rewrite (proj2 (Z.leb_le 0 idx)) by lia; exact Eo |]. intros ? <-.
       destruct o as [buf |]; [| apply yields_raise]. eapply yields_bind; [apply yields_check |]. intros _ _. apply yields_ret.
       rewrite Forall_lookup in Hrefs. destruct (Hrefs _ _ Eo buf eq_refl) as [[Ha Hb] Hm _ Hn]. split; [by split | done | done |].
       intros Hap. destruct (Hn Hap). by split. }
  eapply yields_bind; [apply yields_points; lia |]. intros [num_y ys] [Hly Hy].
  eapply (yields_bind _ _ (fun f : bool => gs_monochrome s = true -> f = false)).
  { destruct (gs_monochrome s); cbn [negb]; [by apply yields_ret | eapply yields_le; [apply yields_flag | done]]. }
  intros from_luma Hfl.
  set (none := gs_monochrome s || from_luma || ((gs_subsampling_x s =? 1) && (gs_subsampling_y s =? 1) && (num_y =? 0))).
  eapply (yields_bind _ _ (fun '((num_cb, cbs), (num_cr, crs)) => length cbs = 10%nat /\ points_ok num_cb 10 cbs /\
    length crs = 10%nat /\ points_ok num_cr 10 crs /\ (none = true -> num_cb = 0 /\ num_cr = 0) /\
    (none = false -> points_agree s num_cb num_cr = true))).
  { unfold read_chroma_points. fold none. destruct none.
    - apply yields_ret. split_and!; try done; try lia; (by intros ? ?) || constructor.
    - eapply yields_bind; [apply yields_points; lia |]. intros [nb bs] [Hlb Hb]. eapply yields_bind; [apply yields_points; lia |].
      intros [nr rs] [Hlr Hr]. eapply yields_bind; [apply yields_check |]. cbn [fst]. intros _ Hag. apply yields_ret.
      split_and!; (congruence || done). }
  intros [[num_cb cbs] [num_cr crs]] (Hlb & Hb & Hlr & Hr & Hnone & Hag). lit sh. lit lag. change (2 ^ 2) with 4 in *. cbv zeta.
  pose proof (pos_bound lag ltac:(lia)) as Hpos.
  assert (0 <= (if 0 <? num_y then 2 * lag * (lag + 1) + 1 else 2 * lag * (lag + 1)) <= 25) as Hch by (destruct (0 <? num_y); lia).
  next yields_coeffs; [lia | done |]. intros ar_y [Hl1 Hc1]. next yields_coeffs; [lia | done |]. intros ar_cb [Hl2 Hc2].
  next yields_coeffs; [lia | done |]. intros ar_cr [Hl3 Hc3]. lit ar_shift. lit scale. change (2 ^ 2) with 4 in *.
  next yields_mults; [done |]. intros [[cbm cblm] cbo] Hcb. next yields_mults; [done |]. intros [[crm crlm] cro] Hcr. flag overlap. flag clip.
  apply yields_ret.
  assert (coeffs_ok {| apply_grain := true; update_parameters := true;
          scaling_points_y := ys; num_y_points := num_y; scaling_points_cb := cbs; num_cb_points := num_cb;
          scaling_points_cr := crs; num_cr_points := num_cr; scaling_shift := sh + 8; ar_coeff_lag := lag;
          ar_coeffs_y := ar_y; ar_coeffs_cb := ar_cb; ar_coeffs_cr := ar_cr; ar_coeff_shift := ar_shift + 6;
          cb_mult := cbm; cb_luma_mult := cblm; cb_offset := cbo; cr_mult := crm; cr_luma_mult := crlm; cr_offset := cro;
          overlap_flag := overlap; clip_to_restricted_range := clip; grain_bit_depth := gs_bit_depth s;
          chroma_scaling_from_luma := from_luma; grain_scale_shift := scale; random_seed := seed |}) as Hco
    by (split; cbn; split_and!; (done || congruence)).
  split; [done | done | done |]. intros _. split; try done; cbn; lia.
Qed.

(** ** A coefficient that is not compared *)

(** Two points in luma, one in each chroma plane, no coefficients but the one of each chroma
    plane for luma. *)
Definition demo_grain (update : bool) (cb_luma : Z) : aom_film_grain_t :=
  {| apply_grain := true; update_parameters := update;
     scaling_points_y := (16, 30) :: (200, 60) :: replicate 12 (0, 0); num_y_points := 2;
     scaling_points_cb := (64, 20) :: replicate 9 (0, 0); num_cb_points := 1;
     scaling_points_cr := (64, 20) :: replicate 9 (0, 0); num_cr_points := 1;
     scaling_shift := 10; ar_coeff_lag := 0;
     ar_coeffs_y := replicate 24 0; ar_coeffs_cb := cb_luma :: replicate 24 0; ar_coeffs_cr := replicate 25 0;
     ar_coeff_shift := 7; cb_mult := 128; cb_luma_mult := 192; cb_offset := 256; cr_mult := 128; cr_luma_mult := 192; cr_offset := 256;
     overlap_flag := true; clip_to_restricted_range := false;
     grain_bit_depth := 8; chroma_scaling_from_luma := false; grain_scale_shift := 0; random_seed := 1234 |}.

Definition demo_site (cb_luma : Z) : grain_site :=
  {| gs_monochrome := false; gs_subsampling_x := 1; gs_subsampling_y := 1; gs_bit_depth := 8; gs_inter_frame := true;
     gs_remapped_ref_idx := [0; 1; 2; 3; 4; 5; 6];
     gs_ref_frame_map := replicate 8 (Some {| film_grain_params_present := true; buf_grain := demo_grain true cb_luma |}) |}.

(** C39: [aom_check_grain_params_equiv] compares as many coefficients of the chroma planes as
    of luma, one fewer than [write_film_grain_params] sends when luma has points: parameters
    can be found equivalent to those of a reference frame and sent as a reference to it,
    with the decoder left with another value of a coefficient that grain synthesis uses. *)
Theorem grain_equiv_misses_coefficient :
  exists s p, grain_ok s p /\ apply_grain p = true /\ update_parameters p = false /\
    let q := grain_after s grain_zero p in
    let num_pos := 2 * ar_coeff_lag p * (ar_coeff_lag p + 1) in
    carries 5000 (write_film_grain_params s p) (read_film_grain_params s grain_zero) q /\
    aom_check_grain_params_equiv p q = true /\ 0 < num_y_points p /\ 0 < num_cb_points p /\
    nthz (ar_coeffs_cb p) num_pos = 40 /\ nthz (ar_coeffs_cb q) num_pos = 0.
Proof.
  exists (demo_site 0), (demo_grain false 40).
  assert (grain_ok (demo_site 0) (demo_grain false 40)) as Hok.
  { split; [done | done |]. intros _. split; [done |]. eexists. exists 0. by split_and!; [vm_compute | | | left | |]. }
  split; [done |]. split; [done |]. split; [done |]. cbv zeta. split.
  - apply carries_grain; [apply (gi_arrays (demo_site 0)), grain_zero_inv | done].
  - by vm_compute.
Qed.
