(* ===== verification/GlobalMotion.v ===== *)
(** * Global motion in the frame header

    [write_global_motion] of [av1/encoder/bitstream.c], [read_global_motion] of
    [av1/decoder/decodeframe.c], and the shear parameters that [av1/common/warped_motion.c]
    derives from a model. *)

From S2P Require Import Prelude CodecTypes BitChannel BitBuffer EntCoder RangeSpec Cdf EntEncProof EntDecProof EntRoundTrip SymbolIO SyntaxIO TxCommon FrameContext InterMv Tile TileInfo Leb128 Obu HeaderIO FrameQuant.

#[local] Arguments Z.of_nat : simpl never.
#[local] Arguments Z.mul : simpl never.

(** ** Models *)

Definition SUBEXPFIN_K : Z := 3.
Definition GM_TRANS_PREC_BITS : Z := 6.
Definition GM_ABS_TRANS_BITS : Z := 12.
Definition GM_ABS_TRANS_ONLY_BITS : Z := GM_ABS_TRANS_BITS - GM_TRANS_PREC_BITS + 3.
Definition GM_TRANS_PREC_DIFF : Z := WARPEDMODEL_PREC_BITS - GM_TRANS_PREC_BITS.
Definition GM_TRANS_DECODE_FACTOR : Z := Z.shiftl 1 GM_TRANS_PREC_DIFF.
Definition GM_TRANS_ONLY_DECODE_FACTOR : Z := Z.shiftl 1 GM_TRANS_ONLY_PREC_DIFF.
Definition GM_ALPHA_PREC_BITS : Z := 15.
Definition GM_ABS_ALPHA_BITS : Z := 12.
Definition GM_ALPHA_PREC_DIFF : Z := WARPEDMODEL_PREC_BITS - GM_ALPHA_PREC_BITS.
Definition GM_ALPHA_DECODE_FACTOR : Z := Z.shiftl 1 GM_ALPHA_PREC_DIFF.
Definition GM_ALPHA_MAX : Z := Z.shiftl 1 GM_ABS_ALPHA_BITS.
Definition WARP_PARAM_REDUCE_BITS : Z := 6.

#[export] Instance TransformationType_eq_dec : EqDecision TransformationType.
Proof. solve_decision. Defined.

(** The enumeration as a number. *)
Definition type_value (t : TransformationType) : Z :=
  match t with IDENTITY => 0 | TRANSLATION => 1 | ROTZOOM => 2 | AFFINE => 3 end.

(** [WarpedMotionParams] with the fields derived from the matrix. *)
Record warp_model := {
  wm_params : WarpedMotionParams; wm_alpha : Z; wm_beta : Z; wm_gamma : Z; wm_delta : Z; wm_invalid : bool }.

Definition default_warp_params : warp_model :=
  {| wm_params := {| wmmat := [0; 0; Z.shiftl 1 WARPEDMODEL_PREC_BITS; 0; 0; Z.shiftl 1 WARPEDMODEL_PREC_BITS]; wmtype := IDENTITY |};
     wm_alpha := 0; wm_beta := 0; wm_gamma := 0; wm_delta := 0; wm_invalid := false |}.

(** A model before its shear parameters are derived. *)
Definition bare_model (params : WarpedMotionParams) : warp_model :=
  {| wm_params := params; wm_alpha := 0; wm_beta := 0; wm_gamma := 0; wm_delta := 0; wm_invalid := false |}.

Definition wm_mat (m : warp_model) (i : Z) : Z := nthz (wmmat (wm_params m)) i.

(** ** Division by a table *)

Definition DIV_LUT_PREC_BITS : Z := 14.
Definition DIV_LUT_BITS : Z := 8.

Definition div_lut : list Z :=
  [16384; 16320; 16257; 16194; 16132; 16070; 16009; 15948; 15888; 15828; 15768; 15709; 15650; 15592; 15534;
   15477; 15420; 15364; 15308; 15252; 15197; 15142; 15087; 15033; 14980; 14926; 14873; 14821; 14769; 14717;
   14665; 14614; 14564; 14513; 14463; 14413; 14364; 14315; 14266; 14218; 14170; 14122; 14075; 14028; 13981;
   13935; 13888; 13843; 13797; 13752; 13707; 13662; 13618; 13574; 13530; 13487; 13443; 13400; 13358; 13315;
   13273; 13231; 13190; 13148; 13107; 13066; 13026; 12985; 12945; 12906; 12866; 12827; 12788; 12749; 12710;
   12672; 12633; 12596; 12558; 12520; 12483; 12446; 12409; 12373; 12336; 12300; 12264; 12228; 12193; 12157;
   12122; 12087; 12053; 12018; 11984; 11950; 11916; 11882; 11848; 11815; 11782; 11749; 11716; 11683; 11651;
   11619; 11586; 11555; 11523; 11491; 11460; 11429; 11398; 11367; 11336; 11305; 11275; 11245; 11215; 11185;
   11155; 11125; 11096; 11067; 11038; 11009; 10980; 10951; 10923; 10894; 10866; 10838; 10810; 10782; 10755;
   10727; 10700; 10673; 10645; 10618; 10592; 10565; 10538; 10512; 10486; 10460; 10434; 10408; 10382; 10356;
   10331; 10305; 10280; 10255; 10230; 10205; 10180; 10156; 10131; 10107; 10082; 10058; 10034; 10010; 9986;
   9963; 9939; 9916; 9892; 9869; 9846; 9823; 9800; 9777; 9754; 9732; 9709; 9687; 9664; 9642; 9620; 9598;
   9576; 9554; 9533; 9511; 9489; 9468; 9447; 9425; 9404; 9383; 9362; 9341; 9321; 9300; 9279; 9259; 9239;
   9218; 9198; 9178; 9158; 9138; 9118; 9098; 9079; 9059; 9039; 9020; 9001; 8981; 8962; 8943; 8924; 8905;
   8886; 8867; 8849; 8830; 8812; 8793; 8775; 8756; 8738; 8720; 8702; 8684; 8666; 8648; 8630; 8613; 8595;
   8577; 8560; 8542; 8525; 8508; 8490; 8473; 8456; 8439; 8422; 8405; 8389; 8372; 8355; 8339; 8322; 8306;
   8289; 8273; 8257; 8240; 8224; 8208; 8192].

(** The multiplier and the shift that stand for a division by [D]. *)
Definition resolve_divisor_32 (D : Z) : option (Z * Z) :=
  let shift := get_msb D in
  let e := D - Z.shiftl 1 shift in
  let f := if DIV_LUT_BITS <? shift then ROUND_POWER_OF_TWO e (shift - DIV_LUT_BITS) else Z.shiftl e (DIV_LUT_BITS - shift) in
  y ← arr_get div_lut f;
  Some (s16 y, shift + DIV_LUT_PREC_BITS).

(** ** Shear parameters *)

Definition is_affine_valid (m : warp_model) : bool := 0 <? wm_mat m 2.

Definition is_affine_shear_allowed (alpha beta gamma delta : Z) : bool :=
  negb ((Z.shiftl 1 WARPEDMODEL_PREC_BITS <=? 4 * Z.abs alpha + 7 * Z.abs beta) ||
        (Z.shiftl 1 WARPEDMODEL_PREC_BITS <=? 4 * Z.abs gamma + 4 * Z.abs delta)).

Definition INT16_MIN : Z := -32768.
Definition INT16_MAX : Z := 32767.

Definition reduced (v : Z) : Z := s16 (ROUND_POWER_OF_TWO_SIGNED v WARP_PARAM_REDUCE_BITS * Z.shiftl 1 WARP_PARAM_REDUCE_BITS).

(** Returns the model and whether it can be used; [None] is an access outside the table. *)
Definition av1_get_shear_params (m : warp_model) : option (warp_model * bool) :=
  if negb (is_affine_valid m) then Some (m, false) else
  let one := Z.shiftl 1 WARPEDMODEL_PREC_BITS in
  let alpha := clamp (wm_mat m 2 - one) INT16_MIN INT16_MAX in
  let beta := clamp (wm_mat m 3) INT16_MIN INT16_MAX in
  '(y, shift) ← resolve_divisor_32 (Z.abs (wm_mat m 2));
  let y := s16 (y * (if wm_mat m 2 <? 0 then -1 else 1)) in
  let v := s64 (wm_mat m 4 * one * y) in
  let gamma := clamp (s32 (ROUND_POWER_OF_TWO_SIGNED v shift)) INT16_MIN INT16_MAX in
  let v := s64 (wm_mat m 3 * wm_mat m 4 * y) in
  let delta := clamp (wm_mat m 5 - s32 (ROUND_POWER_OF_TWO_SIGNED v shift) - one) INT16_MIN INT16_MAX in
  let alpha := reduced alpha in
  let beta := reduced beta in
  let gamma := reduced gamma in
  let delta := reduced delta in
  Some ({| wm_params := wm_params m; wm_alpha := alpha; wm_beta := beta; wm_gamma := gamma; wm_delta := delta;
           wm_invalid := wm_invalid m |}, is_affine_shear_allowed alpha beta gamma delta).

(** ** Writing *)

Section Coding.
Context (allow_hp : bool).

Definition trans_bits (t : TransformationType) : Z :=
  if bool_decide (t = TRANSLATION) then GM_ABS_TRANS_ONLY_BITS - b2z (negb allow_hp) else GM_ABS_TRANS_BITS.
Definition trans_prec_diff (t : TransformationType) : Z :=
  if bool_decide (t = TRANSLATION) then GM_TRANS_ONLY_PREC_DIFF + b2z (negb allow_hp) else GM_TRANS_PREC_DIFF.
Definition trans_dec_factor (t : TransformationType) : Z :=
  if bool_decide (t = TRANSLATION) then GM_TRANS_ONLY_DECODE_FACTOR * Z.shiftl 1 (b2z (negb allow_hp)) else GM_TRANS_DECODE_FACTOR.

(** A parameter of the matrix at the precision it is sent with; those on the diagonal are
    sent as a difference from one. *)
Definition alpha_code (v : Z) : Z := Z.shiftr v GM_ALPHA_PREC_DIFF.
Definition diagonal_code (v : Z) : Z := Z.shiftr v GM_ALPHA_PREC_DIFF - Z.shiftl 1 GM_ALPHA_PREC_BITS.
Definition trans_code (t : TransformationType) (v : Z) : Z := Z.shiftr v (trans_prec_diff t).

Definition w_alpha (ref v : Z) : hwriter := w_refsub (GM_ALPHA_MAX + 1) SUBEXPFIN_K ref v.
Definition w_trans (t : TransformationType) (ref v : Z) : hwriter := w_refsub (Z.shiftl 1 (trans_bits t) + 1) SUBEXPFIN_K ref v.

Definition write_global_motion_params (params ref_params : WarpedMotionParams) : hwriter :=
  let t := wmtype params in
  let mat := nthz (wmmat params) in
  let ref := nthz (wmmat ref_params) in
  _ ← w_flag (negb (bool_decide (t = IDENTITY)));
  _ ← (if negb (bool_decide (t = IDENTITY)) then
         _ ← w_flag (bool_decide (t = ROTZOOM));
         if negb (bool_decide (t = ROTZOOM)) then w_flag (bool_decide (t = TRANSLATION)) else mret tt
       else mret tt);
  _ ← (if type_value ROTZOOM <=? type_value t then
         _ ← w_alpha (diagonal_code (ref 2)) (diagonal_code (mat 2));
         w_alpha (alpha_code (ref 3)) (alpha_code (mat 3))
       else mret tt);
  _ ← (if type_value AFFINE <=? type_value t then
         _ ← w_alpha (alpha_code (ref 4)) (alpha_code (mat 4));
         w_alpha (diagonal_code (ref 5)) (diagonal_code (mat 5))
       else mret tt);
  if type_value TRANSLATION <=? type_value t then
    _ ← w_trans t (trans_code t (ref 0)) (trans_code t (mat 0));
    w_trans t (trans_code t (ref 1)) (trans_code t (mat 1))
  else mret tt.

(** ** Reading *)

Definition r_alpha (ref : Z) : hreader Z := aom_rb_read_signed_primitive_refsubexpfin (GM_ALPHA_MAX + 1) SUBEXPFIN_K ref.
Definition r_trans (t : TransformationType) (ref : Z) : hreader Z :=
  aom_rb_read_signed_primitive_refsubexpfin (Z.shiftl 1 (trans_bits t) + 1) SUBEXPFIN_K ref.

Definition read_type : hreader TransformationType :=
  b ← r_flag;
  if b : bool then
    z ← r_flag;
    if z : bool then mret ROTZOOM else t ← r_flag; mret (if t : bool then TRANSLATION else AFFINE)
  else mret IDENTITY.

(** Returns the model and whether it can be used. *)
Definition read_global_motion_params (ref_params : WarpedMotionParams) : hreader (warp_model * bool) :=
  let ref := nthz (wmmat ref_params) in
  let one := Z.shiftl 1 WARPEDMODEL_PREC_BITS in
  t ← read_type;
  '(m2, m3) ← (if type_value ROTZOOM <=? type_value t then
                 a ← r_alpha (diagonal_code (ref 2));
                 b ← r_alpha (alpha_code (ref 3));
                 mret (a * GM_ALPHA_DECODE_FACTOR + one, b * GM_ALPHA_DECODE_FACTOR)
               else mret (one, 0));
  '(m4, m5) ← (if type_value AFFINE <=? type_value t then
                 a ← r_alpha (alpha_code (ref 4));
                 b ← r_alpha (diagonal_code (ref 5));
                 mret (a * GM_ALPHA_DECODE_FACTOR, b * GM_ALPHA_DECODE_FACTOR + one)
               else mret (- m3, m2));
  '(m0, m1) ← (if type_value TRANSLATION <=? type_value t then
                 a ← r_trans t (trans_code t (ref 0));
                 b ← r_trans t (trans_code t (ref 1));
                 mret (a * trans_dec_factor t, b * trans_dec_factor t)
               else mret (0, 0));
  lift (av1_get_shear_params (bare_model {| wmmat := [m0; m1; m2; m3; m4; m5]; wmtype := t |})).

(** *** All references *)

(** The models of the frame before for the seven references, or the default; [global_motion]
    from the last frame to the alternate reference. *)
Definition prev_models (prev_frame : option (list warp_model)) : list WarpedMotionParams :=
  match prev_frame with Some l => wm_params <$> l | None => replicate 7 (wm_params default_warp_params) end.

Fixpoint write_models (models : list warp_model) (refs : list WarpedMotionParams) : hwriter :=
  match models, refs with
  | m :: models, ref :: refs => _ ← write_global_motion_params (wm_params m) ref; write_models models refs
  | _, _ => mret tt
  end.

Definition write_global_motion (prev_frame : option (list warp_model)) (models : list warp_model) : hwriter :=
  write_models models (prev_models prev_frame).

Definition mark_invalid (m : warp_model) (good : bool) : warp_model :=
  if negb good then
    {| wm_params := wm_params m; wm_alpha := wm_alpha m; wm_beta := wm_beta m; wm_gamma := wm_gamma m;
       wm_delta := wm_delta m; wm_invalid := true |}
  else m.

Fixpoint read_models (refs : list WarpedMotionParams) : hreader (list warp_model) :=
  match refs with
  | [] => mret []
  | ref :: refs =>
      '(m, good) ← read_global_motion_params ref;
      models ← read_models refs;
      mret (mark_invalid m good :: models)
  end.

Definition read_global_motion (prev_frame : option (list warp_model)) : hreader (list warp_model) :=
  read_models (prev_models prev_frame).
End Coding.

(** ** Signed values coded by reference *)

Lemma length_quniform n v : 0 <= n < 65536 -> (length (quniform_bits n v) <= 17)%nat.
Proof.
  intros Hn. unfold quniform_bits. destruct (Z.leb_spec n 1); [cbn; lia |].
  pose proof (log2_bound n 16 ltac:(lia) ltac:(change (2 ^ 16) with 65536; lia)).
  destruct (_ <? _); rewrite ?length_app, ?length_lit_bits; cbn [length]; lia.
Qed.

Lemma length_subexpfin fuel i mk n k v : 0 <= k <= 16 -> 0 <= i -> i + Z.of_nat fuel <= 18 -> 0 <= mk <= n -> n < 65536 ->
  (length (subexpfin_bits fuel i mk n k v) <= fuel + 34)%nat.
Proof.
  intros Hk. revert i mk. induction fuel as [| fuel IH]; intros i mk Hi Hf Hmk Hn; cbn [subexpfin_bits length]; [lia |].
  set (b := if i =? 0 then k else k + i - 1). assert (0 <= b <= 33) as Hb by (unfold b; destruct (i =? 0) eqn:E; [lia | apply Z.eqb_neq in E; lia]).
  pose proof (pow2_pos b ltac:(lia)). destruct (Z.leb_spec n (mk + 3 * 2 ^ b)).
  - pose proof (length_quniform (n - mk) (v - mk) ltac:(lia)). lia.
  - destruct (mk + 2 ^ b <=? v); cbn [length]; [| rewrite length_lit_bits; lia].
    specialize (IH (i + 1) (mk + 2 ^ b) ltac:(lia) ltac:(lia) ltac:(lia) Hn). lia.
Qed.

Lemma carries_refsub n k ref v : 1 <= n <= 16384 -> 0 <= k <= 16 -> - n < ref < n -> - n < v < n ->
  carries 52 (w_refsub n k ref v) (aom_rb_read_signed_primitive_refsubexpfin n k ref) v.
Proof.
  intros Hn Hk Hr Hv.
  assert (s16 (ref + (n - 1)) = ref + n - 1) as Er by (rewrite s16_small; lia).
  assert (s16 (v + (n - 1)) = v + n - 1) as Ev by (rewrite s16_small; lia).
  assert (u16 (Z.shiftl n 1 - 1) = 2 * n - 1) as En
    by (rewrite Z.shiftl_mul_pow2 by lia; change (2 ^ 1) with 2; rewrite u16_small; lia).
  apply (carries_write 52 _ _ (refsubexpfin_bits (2 * n - 1) k (ref + n - 1) (v + n - 1))).
  - unfold aom_wb_write_signed_primitive_refsubexpfin. rewrite Er, Ev, En, !u16_small by lia.
    apply (emits_refsubexpfin (snk_ok := wb_clean_ok)); lia.
  - intros buf h. unfold aom_rb_read_signed_primitive_refsubexpfin. rewrite Er, En, u16_small by lia.
    eapply takes_bind_ret; [apply (takes_refsubexpfin _ _ _ (v + n - 1)); lia |]. rewrite s16_small; lia.
  - unfold refsubexpfin_bits. pose proof (length_subexpfin 18 0 0 (2 * n - 1) k (recenter_finite_nonneg (2 * n - 1) (ref + n - 1) (v + n - 1))).
    lia.
Qed.

Lemma yields_quniform n : 1 <= n < 65536 -> yields (aom_rb_read_primitive_quniform n) (fun v => 0 <= v < n).
Proof.
  intros Hn. unfold aom_rb_read_primitive_quniform, read_quniform. destruct (Z.leb_spec n 1); [apply yields_ret; lia |].
  unfold get_msb. cbv zeta. pose proof (Z.log2_spec n ltac:(lia)) as [Hl1 Hl2].
  replace (Z.log2 n + 1 - 1) with (Z.log2 n) by lia. rewrite Z.shiftl_mul_pow2, Z.mul_1_l by (pose proof (Z.log2_nonneg n); lia).
  rewrite <- Z.add_1_r in Hl2. assert (2 ^ (Z.log2 n + 1) = 2 * 2 ^ Z.log2 n) as E by (rewrite Z.pow_add_r by (pose proof (Z.log2_nonneg n); lia); lia).
  eapply yields_bind; [apply (yields_lit (Z.log2 n)), Z.log2_nonneg |]. intros v Hv. cbv beta in Hv.
  destruct (Z.ltb_spec v (2 ^ (Z.log2 n + 1) - n)); [apply yields_ret; rewrite u16_small; lia |].
  eapply yields_bind; [exact yields_bit |]. intros b Hb. cbv beta in Hb. apply yields_ret.
  rewrite Z.shiftl_mul_pow2 by lia. change (2 ^ 1) with 2. rewrite u16_small; lia.
Qed.

Lemma yields_subexpfin fuel i mk n k : 0 <= k -> 0 <= i -> i + Z.of_nat fuel = 18 -> (0 < fuel)%nat -> 0 <= mk < n -> n < 65536 ->
  yields (read_subexpfin_loop (R := aom_read_bit_buffer) fuel i mk n k) (fun v => 0 <= v < n).
Proof.
  intros Hk. revert i mk. induction fuel as [| fuel IH]; intros i mk Hi Hf H0 Hmk Hn; [lia |]. cbn [read_subexpfin_loop].
  fold (subexp_b k i). assert (0 <= subexp_b k i) as Hb by (unfold subexp_b; destruct (Z.eqb_spec i 0); lia).
  pose proof (pow2_pos (subexp_b k i) Hb). rewrite Z.shiftl_mul_pow2, Z.mul_1_l by lia.
  destruct (Z.leb_spec n (mk + 3 * 2 ^ subexp_b k i)).
  { rewrite u16_small by lia. eapply yields_bind; [apply (yields_quniform (n - mk)); lia |]. intros v Hv. cbv beta in Hv.
    apply yields_ret. rewrite u16_small; lia. }
  eapply yields_bind; [exact yields_bit |]. intros b _. destruct (b =? 0).
  { eapply yields_bind; [by apply (yields_lit (subexp_b k i)) |]. intros v Hv. cbv beta in Hv. apply yields_ret. rewrite u16_small; lia. }
  assert (i <= 16) as Hi16.
  { destruct (Z.le_gt_cases i 16) as [| Hgt]; [done |]. assert (2 ^ 15 <= 2 ^ subexp_b k i) as Hp.
    { apply pow2_le. unfold subexp_b. destruct (Z.eqb_spec i 0); lia. }
    change (2 ^ 15) with 32768 in Hp. lia. }
  apply IH; lia.
Qed.

Lemma inv_recenter_range r x n : 0 <= 2 * r <= n -> 0 <= x < n -> n < 65536 -> 0 <= inv_recenter_nonneg r x < n.
Proof.
  intros Hr Hx Hn. rewrite inv_recenter_nonneg_spec by lia. destruct (Z.ltb_spec (2 * r) x); [lia |].
  destruct (Z.odd x) eqn:Eo; [apply Zodd_bool_iff, Zodd_ex in Eo as [q ->] |]; Z.to_euclidean_division_equations; lia.
Qed.

Lemma inv_recenter_finite_range r x n : 0 <= r < n -> 0 <= x < n -> n < 65536 -> 0 <= inv_recenter_finite_nonneg n r x < n.
Proof.
  intros Hr Hx Hn. unfold inv_recenter_finite_nonneg. rewrite Z.shiftl_mul_pow2 by lia. change (2 ^ 1) with 2.
  destruct (Z.leb_spec (r * 2) n); [apply inv_recenter_range; lia |]. rewrite (u16_small (n - 1 - r)) by lia.
  pose proof (inv_recenter_range (n - 1 - r) x n). rewrite u16_small; lia.
Qed.

Lemma yields_refsub n k ref : 1 <= n <= 16384 -> 0 <= k -> - n < ref < n ->
  yields (aom_rb_read_signed_primitive_refsubexpfin n k ref) (fun v => - n < v < n).
Proof.
  intros Hn Hk Hr. unfold aom_rb_read_signed_primitive_refsubexpfin. cbv zeta.
  rewrite (s16_small (ref + (n - 1))) by lia. rewrite Z.shiftl_mul_pow2 by lia. change (2 ^ 1) with 2.
  rewrite (u16_small (n * 2 - 1)), (u16_small (ref + (n - 1))) by lia.
  eapply (yields_bind _ _ (fun v => 0 <= v < n * 2 - 1)); [eapply yields_bind; [apply (yields_subexpfin 18 0 0); lia |] |].
  { intros x Hx. cbv beta in Hx. apply yields_ret. exact (inv_recenter_finite_range (ref + (n - 1)) x (n * 2 - 1) ltac:(lia) Hx ltac:(lia)). }
  intros v Hv. cbv beta in Hv. apply yields_ret. rewrite s16_small; lia.
Qed.

(** ** The table of reciprocals *)

Lemma div_lut_get f : 0 <= f <= 256 -> exists y, arr_get div_lut f = Some y /\ 8192 <= y <= 16384 /\
  2 * Z.abs (y * (256 + f) - 2 ^ 22) <= 256 + f.
Proof.
  intros Hf.
  assert (forallb (fun f => match arr_get div_lut (Z.of_nat f) with
    | Some y => (8192 <=? y) && (y <=? 16384) && (2 * Z.abs (y * (256 + Z.of_nat f) - 2 ^ 22) <=? 256 + Z.of_nat f) | None => false end) (seq 0 257) = true) as H
    by (vm_compute; reflexivity).
  rewrite forallb_forall in H. specialize (H (Z.to_nat f)). rewrite Z2Nat.id in H by lia.
  assert (In (Z.to_nat f) (seq 0 257)) as Hin by (apply in_seq; lia). specialize (H Hin).
  destruct (arr_get div_lut f) as [y |]; [| done]. rewrite !andb_true_iff, !Z.leb_le in H. exists y. split; [done | lia].
Qed.

(** The index keeps the eight bits after the leading one, rounded. *)
Lemma divisor_index D : 1 <= D -> let shift := Z.log2 D in let e := D - 2 ^ shift in
  let f := if DIV_LUT_BITS <? shift then ROUND_POWER_OF_TWO e (shift - DIV_LUT_BITS) else Z.shiftl e (DIV_LUT_BITS - shift) in
  0 <= f <= 256 /\ 2 * Z.abs (256 * e - f * 2 ^ shift) <= 2 ^ shift.
Proof.
  intros HD shift e f. pose proof (Z.log2_spec D ltac:(lia)) as [Hl1 Hl2]. pose proof (Z.log2_nonneg D).
  fold shift in Hl1, Hl2, H. rewrite Z.pow_succ_r in Hl2 by lia. assert (0 <= e < 2 ^ shift) as He by (unfold e; lia).
  unfold f, DIV_LUT_BITS. clear f. clearbody e. clearbody shift. destruct (Z.ltb_spec 8 shift) as [H8 | H8].
  - unfold ROUND_POWER_OF_TWO. rewrite Z.shiftl_mul_pow2, Z.mul_1_l, !Z.shiftr_div_pow2 by lia.
    set (a := 2 ^ (shift - 9)). assert (0 < a) by (apply pow2_pos; lia).
    assert (2 ^ (shift - 8) = 2 * a) as Ea by (unfold a; rewrite <- Z.pow_succ_r by lia; f_equal; lia).
    assert (2 ^ shift = 512 * a) as Es by (unfold a; change 512 with (2 ^ 9); rewrite <- Z.pow_add_r by lia; f_equal; lia).
    rewrite Es in He |- *. rewrite Ea. change (2 ^ 1) with 2. replace (2 * a / 2) with a by (Z.to_euclidean_division_equations; lia).
    pose proof (Z.div_mod (e + a) (2 * a) ltac:(lia)) as Ed. pose proof (Z.mod_pos_bound (e + a) (2 * a) ltac:(lia)).
    set (q := (e + a) / (2 * a)) in *. assert (0 <= q) by (apply Z.div_pos; lia). assert (q < 257) by (apply Z.div_lt_upper_bound; lia).
    split; [lia |]. replace (256 * e - q * (512 * a)) with (256 * (e - 2 * a * q)) by ring. lia.
  - rewrite Z.shiftl_mul_pow2 by lia. assert (2 ^ (8 - shift) * 2 ^ shift = 256) as Ep by (rewrite <- Z.pow_add_r by lia; by replace (8 - shift + shift) with 8 by lia).
    pose proof (pow2_pos (8 - shift) ltac:(lia)). replace (e * 2 ^ (8 - shift) * 2 ^ shift) with (256 * e) by (rewrite <- Ep; ring).
    split; [nia | lia].
Qed.

(** [resolve_divisor_32] stays inside its table and stands in for the division: for
    every positive divisor [D] up to 31 bits it gives a 15-bit multiplier [y] and a shift such that
    multiplying by [y] and shifting differs from dividing by [D] by less than one part
    in 496. *)
Theorem divisor_close D : 1 <= D < 2 ^ 31 ->
  exists y shift, resolve_divisor_32 D = Some (y, shift) /\ 8192 <= y <= 16384 /\ shift = Z.log2 D + 14 /\
    496 * Z.abs (y * D - 2 ^ shift) <= 2 ^ shift.
Proof.
  intros HD. destruct (divisor_index D ltac:(lia)) as [Hf Hc]. pose proof (Z.log2_nonneg D).
  unfold resolve_divisor_32, get_msb. cbv zeta. rewrite Z.shiftl_mul_pow2, Z.mul_1_l by lia.
  set (f := if _ <? _ then _ else _) in *. destruct (div_lut_get f Hf) as (y & Ey & Hy & Ha). rewrite Ey. cbn [mbind option_bind].
  exists y, (Z.log2 D + 14). rewrite s16_small by lia. split_and!; [done | lia | lia | done |].
  rewrite Z.pow_add_r by lia. change (2 ^ 14) with 16384. set (s := 2 ^ Z.log2 D) in *.
  assert (0 < s) by (apply pow2_pos; lia). set (e := D - s) in *. set (d := 256 * e - f * s) in *.
  assert (256 * (y * D - s * 16384) = s * (y * (256 + f) - 2 ^ 22) + y * d) as E by (unfold d, e; change (2 ^ 22) with 4194304; ring).
  set (u := y * (256 + f) - 2 ^ 22) in *.
  assert (Z.abs (s * u) <= s * 256) by (rewrite Z.abs_mul, (Z.abs_eq s) by lia; apply Z.mul_le_mono_nonneg_l; lia).
  assert (Z.abs (y * d) <= 16384 * Z.abs d) by (rewrite Z.abs_mul, (Z.abs_eq y) by lia; apply Z.mul_le_mono_nonneg_r; lia).
  lia.
Qed.

Lemma divisor_close_witness : exists y shift, resolve_divisor_32 70000 = Some (y, shift) /\ 8192 <= y <= 16384 /\
  shift = Z.log2 70000 + 14 /\ 496 * Z.abs (y * 70000 - 2 ^ shift) <= 2 ^ shift.
Proof. apply divisor_close. lia. Defined.

(** ** Models in range *)

(** What the syntax can express: translations within 64 samples and a matrix within an
    eighth of the identity. *)
Definition gm_range (p : WarpedMotionParams) : Prop :=
  exists m0 m1 m2 m3 m4 m5, wmmat p = [m0; m1; m2; m3; m4; m5] /\
    - 2 ^ 22 <= m0 <= 2 ^ 22 /\ - 2 ^ 22 <= m1 <= 2 ^ 22 /\ 57344 <= m2 <= 73728 /\ -8192 <= m3 <= 8192 /\
    -8192 <= m4 <= 8192 /\ 57344 <= m5 <= 73728.

Lemma gm_range_default : gm_range (wm_params default_warp_params).
Proof. exists 0, 0, 65536, 0, 0, 65536. split; [done | lia]. Qed.

Lemma round_signed v s b : 1 <= s -> 0 <= b -> Z.abs v <= b * 2 ^ s -> Z.abs (ROUND_POWER_OF_TWO_SIGNED v s) <= b.
Proof.
  intros Hs Hb Hv. unfold ROUND_POWER_OF_TWO_SIGNED, ROUND_POWER_OF_TWO.
  rewrite Z.shiftl_mul_pow2, Z.mul_1_l, !Z.shiftr_div_pow2 by lia. change (2 ^ 1) with 2.
  assert (2 ^ s = 2 * 2 ^ (s - 1)) as E by (rewrite <- Z.pow_succ_r by lia; f_equal; lia).
  pose proof (pow2_pos (s - 1) ltac:(lia)). rewrite E in *. replace (2 * 2 ^ (s - 1) / 2) with (2 ^ (s - 1)) by (Z.to_euclidean_division_equations; lia).
  set (a := 2 ^ (s - 1)) in *. assert (forall x, 0 <= x <= b * (2 * a) -> 0 <= (x + a) / (2 * a) <= b) as H'.
  { intros x Hx. split; [apply Z.div_pos; lia |]. enough ((x + a) / (2 * a) < b + 1) by lia. apply Z.div_lt_upper_bound; lia. }
  destruct (Z.ltb_spec v 0); [pose proof (H' (- v)) | pose proof (H' v)]; lia.
Qed.

(** Reducing the precision keeps a bound that is a multiple of the step. *)
Lemma reduced_bound v b : 0 <= b <= 511 -> Z.abs v <= 64 * b -> Z.abs (reduced v) <= 64 * b /\ reduced v mod 64 = 0.
Proof.
  intros Hb Hv. unfold reduced, WARP_PARAM_REDUCE_BITS. change (Z.shiftl 1 6) with 64.
  pose proof (round_signed v 6 b ltac:(lia) ltac:(lia) ltac:(change (2 ^ 6) with 64; lia)).
  rewrite s16_small by lia. split; [lia |]. apply Z.mod_mul. lia.
Qed.

(** The shear parameters of a model in range: 16-bit multiples of 64, computed without
    overflow. *)
Definition shear_ok (m : warp_model) : Prop :=
  Forall (fun v => Z.abs v <= 16384 /\ v mod 64 = 0) [wm_alpha m; wm_beta m; wm_gamma m; wm_delta m].

Lemma clamp16_small v : -32768 <= v <= 32767 -> clamp v INT16_MIN INT16_MAX = v.
Proof. intros Hv. apply clamp_same. exact Hv. Qed.

Lemma shear_defined m : gm_range (wm_params m) -> wm_invalid m = false ->
  exists m' good, av1_get_shear_params m = Some (m', good) /\ wm_params m' = wm_params m /\ wm_invalid m' = false /\ shear_ok m'.
Proof.
  intros (m0 & m1 & m2 & m3 & m4 & m5 & Em & _ & _ & H2 & H3 & H4 & H5) Hi.
  unfold av1_get_shear_params, is_affine_valid, wm_mat. rewrite Em.
  change (nthz [m0; m1; m2; m3; m4; m5] 2) with m2. change (nthz [m0; m1; m2; m3; m4; m5] 3) with m3.
  change (nthz [m0; m1; m2; m3; m4; m5] 4) with m4. change (nthz [m0; m1; m2; m3; m4; m5] 5) with m5.
  rewrite (proj2 (Z.ltb_lt 0 m2)) by lia. cbn [negb]. cbv zeta. rewrite (proj2 (Z.ltb_ge m2 0)), Z.abs_eq by lia.
  destruct (divisor_index m2 ltac:(lia)) as [Hf _]. unfold resolve_divisor_32, get_msb. cbv zeta.
  pose proof (Z.log2_nonneg m2). rewrite (Z.shiftl_mul_pow2 1 (Z.log2 m2)), Z.mul_1_l by lia.
  set (f := if DIV_LUT_BITS <? _ then _ else _) in *. destruct (div_lut_get f Hf) as (y & Ey & Hy & _). rewrite Ey.
  cbn [mbind option_bind]. rewrite Z.mul_1_r, !(s16_small y) by lia. unfold WARPEDMODEL_PREC_BITS, DIV_LUT_PREC_BITS.
  change (Z.shiftl 1 16) with 65536.
  assert (2 ^ 29 <= 2 ^ (Z.log2 m2 + 14)) as Hs.
  { apply pow2_le. pose proof (Z.log2_le_mono 32768 m2 ltac:(lia)) as Hl. change (Z.log2 32768) with 15 in Hl. lia. }
  change (2 ^ 29) with 536870912 in Hs. set (s := Z.log2 m2 + 14) in *.
  assert (Z.abs (m4 * 65536 * y) <= 8192 * 65536 * 16384) as Hg by nia.
  assert (Z.abs (m3 * m4 * y) <= 8192 * 8192 * 16384) as Hd by nia.
  rewrite !s64_small by (change (2 ^ 63) with 9223372036854775808; lia).
  pose proof (round_signed (m4 * 65536 * y) s 16384 ltac:(lia) ltac:(lia) ltac:(lia)) as Rg.
  pose proof (round_signed (m3 * m4 * y) s 2048 ltac:(lia) ltac:(lia) ltac:(lia)) as Rd.
  rewrite !s32_small by lia. rewrite !clamp16_small by lia.
  eexists _, _. split_and!; [reflexivity | done | done |]. unfold shear_ok. cbn [wm_alpha wm_beta wm_gamma wm_delta].
  repeat constructor; (eapply proj1, (reduced_bound _ 256) || eapply proj2, (reduced_bound _ 256)); lia.
Qed.

(** ** Models that can be sent exactly *)

(** The parameters of each type that are not sent have the values the reader gives them,
    and those sent are multiples of the step of their precision. *)
Definition gm_shape (allow_hp : bool) (t : TransformationType) (m0 m1 m2 m3 m4 m5 : Z) : Prop :=
  match t with
  | IDENTITY => m0 = 0 /\ m1 = 0 /\ m2 = 65536 /\ m3 = 0 /\ m4 = 0 /\ m5 = 65536
  | TRANSLATION => m2 = 65536 /\ m3 = 0 /\ m4 = 0 /\ m5 = 65536
  | ROTZOOM => m2 mod 2 = 0 /\ m3 mod 2 = 0 /\ m4 = - m3 /\ m5 = m2
  | AFFINE => m2 mod 2 = 0 /\ m3 mod 2 = 0 /\ m4 mod 2 = 0 /\ m5 mod 2 = 0
  end /\ m0 mod trans_dec_factor allow_hp t = 0 /\ m1 mod trans_dec_factor allow_hp t = 0.

Definition gm_codable (allow_hp : bool) (p : WarpedMotionParams) : Prop :=
  gm_range p /\ forall m0 m1 m2 m3 m4 m5, wmmat p = [m0; m1; m2; m3; m4; m5] -> gm_shape allow_hp (wmtype p) m0 m1 m2 m3 m4 m5.

(** The model a reader builds from the parameters. *)
Definition settled (p : WarpedMotionParams) : option warp_model :=
  '(m, good) ← av1_get_shear_params (bare_model p); Some (mark_invalid m good).

Lemma alpha_code_range v : -8192 <= v <= 8192 -> - (GM_ALPHA_MAX + 1) < alpha_code v < GM_ALPHA_MAX + 1.
Proof.
  intros Hv. unfold alpha_code. change GM_ALPHA_PREC_DIFF with 1. change GM_ALPHA_MAX with 4096.
  rewrite Z.shiftr_div_pow2 by lia. change (2 ^ 1) with 2. Z.to_euclidean_division_equations; lia.
Qed.
Lemma diagonal_code_range v : 57344 <= v <= 73728 -> - (GM_ALPHA_MAX + 1) < diagonal_code v < GM_ALPHA_MAX + 1.
Proof.
  intros Hv. unfold diagonal_code. change GM_ALPHA_PREC_DIFF with 1. change GM_ALPHA_MAX with 4096.
  change (Z.shiftl 1 GM_ALPHA_PREC_BITS) with 32768.
  rewrite Z.shiftr_div_pow2 by lia. change (2 ^ 1) with 2. Z.to_euclidean_division_equations; lia.
Qed.
Lemma alpha_code_back v : v mod 2 = 0 -> alpha_code v * GM_ALPHA_DECODE_FACTOR = v.
Proof.
  intros Hv. unfold alpha_code. change GM_ALPHA_PREC_DIFF with 1. change GM_ALPHA_DECODE_FACTOR with 2.
  rewrite Z.shiftr_div_pow2 by lia. change (2 ^ 1) with 2. Z.to_euclidean_division_equations; lia.
Qed.
Lemma diagonal_code_back v : v mod 2 = 0 -> diagonal_code v * GM_ALPHA_DECODE_FACTOR + Z.shiftl 1 WARPEDMODEL_PREC_BITS = v.
Proof.
  intros Hv. unfold diagonal_code. change GM_ALPHA_PREC_DIFF with 1. change GM_ALPHA_DECODE_FACTOR with 2.
  change (Z.shiftl 1 GM_ALPHA_PREC_BITS) with 32768. change (Z.shiftl 1 WARPEDMODEL_PREC_BITS) with 65536.
  rewrite Z.shiftr_div_pow2 by lia. change (2 ^ 1) with 2. Z.to_euclidean_division_equations; lia.
Qed.

(** The bits of a translation and its precision make up the same range for every type. *)
Lemma trans_facts hp t : exists d, trans_prec_diff hp t = d /\ trans_dec_factor hp t = 2 ^ d /\ 10 <= d <= 14 /\
  Z.shiftl 1 (trans_bits hp t) * 2 ^ d = 2 ^ 22 /\ 1 <= Z.shiftl 1 (trans_bits hp t) + 1 <= 16384.
Proof. destruct hp, t; eexists; (split; [reflexivity |]); vm_compute; intuition congruence. Qed.

Lemma trans_code_range hp t v : - 2 ^ 22 <= v <= 2 ^ 22 ->
  - (Z.shiftl 1 (trans_bits hp t) + 1) < trans_code hp t v < Z.shiftl 1 (trans_bits hp t) + 1.
Proof.
  intros Hv. destruct (trans_facts hp t) as (d & Ed & _ & Hd & Ep & _). unfold trans_code. rewrite Ed, Z.shiftr_div_pow2 by lia.
  set (n := Z.shiftl 1 (trans_bits hp t)) in *. pose proof (pow2_pos d ltac:(lia)). rewrite <- Ep in Hv.
  assert (v / 2 ^ d < n + 1) by (apply Z.div_lt_upper_bound; lia).
  enough (- n <= v / 2 ^ d) by lia. apply Z.div_le_lower_bound; lia.
Qed.
Lemma trans_code_back hp t v : v mod trans_dec_factor hp t = 0 -> trans_code hp t v * trans_dec_factor hp t = v.
Proof.
  destruct (trans_facts hp t) as (d & Ed & Ef & Hd & _). unfold trans_code. rewrite Ed, Ef, Z.shiftr_div_pow2 by lia.
  intros Hv. pose proof (pow2_pos d ltac:(lia)). pose proof (Z.div_mod v (2 ^ d) ltac:(lia)). lia.
Qed.

Section Exact.
Context (hp : bool).

Lemma carries_alpha ref v : -8192 <= ref <= 8192 -> -8192 <= v <= 8192 ->
  carries 52 (w_alpha (alpha_code ref) (alpha_code v)) (r_alpha (alpha_code ref)) (alpha_code v).
Proof. intros. apply carries_refsub; [by vm_compute | by vm_compute | by apply alpha_code_range ..]. Qed.
Lemma carries_diagonal ref v : 57344 <= ref <= 73728 -> 57344 <= v <= 73728 ->
  carries 52 (w_alpha (diagonal_code ref) (diagonal_code v)) (r_alpha (diagonal_code ref)) (diagonal_code v).
Proof. intros. apply carries_refsub; [by vm_compute | by vm_compute | by apply diagonal_code_range ..]. Qed.
Lemma carries_trans t ref v : - 2 ^ 22 <= ref <= 2 ^ 22 -> - 2 ^ 22 <= v <= 2 ^ 22 ->
  carries 52 (w_trans hp t (trans_code hp t ref) (trans_code hp t v)) (r_trans hp t (trans_code hp t ref)) (trans_code hp t v).
Proof.
  intros. destruct (trans_facts hp t) as (? & _ & _ & _ & _ & Hn). apply carries_refsub; [exact Hn | by vm_compute | by apply trans_code_range ..].
Qed.

Lemma carries_type {A} N t (m : hwriter) (k : TransformationType -> hreader A) a : carries N m (k t) a ->
  carries (3 + N) (_ ← w_flag (negb (bool_decide (t = IDENTITY)));
    _ ← (if negb (bool_decide (t = IDENTITY)) then
           _ ← w_flag (bool_decide (t = ROTZOOM));
           if negb (bool_decide (t = ROTZOOM)) then w_flag (bool_decide (t = TRANSLATION)) else mret tt
         else mret tt); m) (t ← read_type; k t) a.
Proof.
  intros H. unfold read_type.
  destruct t; repeat first [rewrite bool_decide_eq_true_2 by done | rewrite bool_decide_eq_false_2 by done];
    cbn [negb]; cbv iota; (measured; [flatten; repeat (carry carries_flag; flatten); exact H | lia]).
Qed.

(** Two parameters sent under a condition, or given a default. *)
Lemma carries_two {A} (c : bool) (w1 w2 : hwriter) (k1 k2 : hreader Z) a b (f : Z -> Z -> A) d v :
  (c = true -> carries 52 w1 k1 a /\ carries 52 w2 k2 b /\ f a b = v) -> (c = false -> d = v) ->
  carries 104 (if c then _ ← w1; w2 else mret tt) (if c then a ← k1; b ← k2; mret (f a b) else mret d) v.
Proof.
  intros Ht Hf. destruct c.
  - destruct Ht as (H1 & H2 & <-); [done |]. eapply (carries_bind 52 52); [exact H1 |]. eapply carries_post; [exact H2 | done].
  - rewrite Hf by done. apply (carries_le 0); [lia | apply carries_ret].
Qed.

Lemma carries_global_motion_params p ref m good : gm_codable hp p -> gm_range ref ->
  av1_get_shear_params (bare_model p) = Some (m, good) ->
  carries 315 (write_global_motion_params hp p ref) (read_global_motion_params hp ref) (m, good).
Proof.
  intros [Hr Hs] (r0 & r1 & r2 & r3 & r4 & r5 & Er & R0 & R1 & R2 & R3 & R4 & R5) Hm.
  destruct Hr as (m0 & m1 & m2 & m3 & m4 & m5 & Em & M0 & M1 & M2 & M3 & M4 & M5).
  destruct (Hs _ _ _ _ _ _ Em) as (Ht & S0 & S1). destruct p as [mat t]. destruct ref as [rmat rt]. cbn [wmmat wmtype] in *. subst mat rmat.
  unfold write_global_motion_params, read_global_motion_params. cbn [wmmat wmtype]. cbv zeta.
  within (3 + (104 + (104 + 104)))%nat. apply carries_type.
  eapply (carries_bind 104 _ _ _ _ _ (m2, m3)).
  { apply (carries_two _ _ _ _ _ (diagonal_code m2) (alpha_code m3) (fun a b => (a * _ + _, b * _))).
    - intros Hc. split_and!; [by apply carries_diagonal | by apply carries_alpha |].
      rewrite diagonal_code_back, alpha_code_back; [done | by (destruct t; try done; destruct_and! Ht) ..].
    - intros Hc. destruct t; try done; destruct_and! Ht; by subst. }
  cbv beta iota. eapply (carries_bind 104 _ _ _ _ _ (m4, m5)).
  { apply (carries_two _ _ _ _ _ (alpha_code m4) (diagonal_code m5) (fun a b => (a * _, b * _ + _))).
    - intros Hc. split_and!; [by apply carries_alpha | by apply carries_diagonal |].
      rewrite diagonal_code_back, alpha_code_back; [done | by (destruct t; try done; destruct_and! Ht) ..].
    - intros Hc. destruct t; try done; destruct_and! Ht; f_equal; lia. }
  cbv beta iota. eapply (carries_post _ _ _ _ (m0, m1)).
  { apply (carries_two _ _ _ _ _ (trans_code hp t m0) (trans_code hp t m1) (fun a b => (a * _, b * _))).
    - intros _. split_and!; [by apply carries_trans | by apply carries_trans |]. by rewrite !trans_code_back.
    - intros Hc. destruct t; try done. by destruct Ht as (-> & -> & _). }
  intros r. unfold lift. by rewrite Hm.
Qed.
(** A model an encoder sends: it can be sent exactly, and its derived fields are the ones
    that follow from its parameters. *)
Definition gm_ok (m : warp_model) : Prop := gm_codable hp (wm_params m) /\ settled (wm_params m) = Some m.

Lemma carries_models models refs : Forall gm_ok models -> Forall gm_range refs -> length models = length refs ->
  carries (315 * length models) (write_models hp models refs) (read_models hp refs) models.
Proof.
  revert refs. induction models as [| m models IH]; intros [| ref refs] Hm Hr Hl; try done; [apply carries_ret |].
  inversion Hm as [| ? ? [Hc Hs] Hm' ]; subst. inversion Hr as [| ? ? Hr1 Hr']; subst. cbn [write_models read_models length] in *.
  unfold settled in Hs. destruct (av1_get_shear_params _) as [[m' good] |] eqn:E; [| done]. cbn in Hs. injection Hs as Hs.
  replace (315 * S (length models))%nat with (315 + 315 * length models)%nat by lia. eapply carries_bind; [by eapply carries_global_motion_params |].
  cbv beta iota. rewrite Hs. eapply carries_post; [apply IH; [done | done | lia] | done].
Qed.

(** The reader accepts any bits: it ends in a model in range with 16-bit shear parameters. *)
Definition gm_safe (m : warp_model) : Prop := gm_range (wm_params m) /\ shear_ok m.

Lemma yields_alpha ref : - (GM_ALPHA_MAX + 1) < ref < GM_ALPHA_MAX + 1 ->
  yields (r_alpha ref) (fun v => -4096 <= v <= 4096).
Proof.
  intros Hr. eapply yields_le; [apply yields_refsub; [by vm_compute | by vm_compute | exact Hr] |].
  intros v Hv. cbv beta in Hv. change (GM_ALPHA_MAX + 1) with 4097 in Hv. lia.
Qed.

Lemma yields_trans t ref : - 2 ^ 22 <= ref <= 2 ^ 22 ->
  yields (r_trans hp t (trans_code hp t ref)) (fun v => - 2 ^ 22 <= v * trans_dec_factor hp t <= 2 ^ 22).
Proof.
  intros Hr. destruct (trans_facts hp t) as (d & _ & Ef & Hd & Ep & Hn). eapply yields_le.
  { apply yields_refsub; [exact Hn | by vm_compute | by apply trans_code_range]. }
  intros v Hv. cbv beta in Hv. rewrite Ef, <- Ep. pose proof (pow2_pos d ltac:(lia)). nia.
Qed.

(** Two parameters read under a condition, or given a default. *)
Lemma yields_two {A} (c : bool) (k1 k2 : hreader Z) (f : Z -> Z -> A) d (P1 P2 : Z -> Prop) (P : A -> Prop) :
  yields k1 P1 -> yields k2 P2 -> (forall a b, P1 a -> P2 b -> P (f a b)) -> P d ->
  yields (if c then a ← k1; b ← k2; mret (f a b) else mret d) P.
Proof.
  intros H1 H2 Hf Hd. destruct c; [| by apply yields_ret].
  eapply yields_bind; [exact H1 |]. intros a Ha. eapply yields_bind; [exact H2 |]. intros b Hb. apply yields_ret. auto.
Qed.

Lemma yields_global_motion_params ref : gm_range ref ->
  yields (read_global_motion_params hp ref) (fun '(m, good) => gm_safe m).
Proof.
  intros (r0 & r1 & r2 & r3 & r4 & r5 & Er & R0 & R1 & R2 & R3 & R4 & R5). destruct ref as [rmat rt]. cbn [wmmat] in Er. subst rmat.
  unfold read_global_motion_params. cbn [wmmat]. cbv zeta. change GM_ALPHA_DECODE_FACTOR with 2.
  change (Z.shiftl 1 WARPEDMODEL_PREC_BITS) with 65536.
  eapply (yields_bind _ _ (fun _ => True)).
  { unfold read_type. flag b. destruct b; [| by apply yields_ret]. flag z. destruct z; [by apply yields_ret |]. flag t. by apply yields_ret. }
  intros t _. eapply (yields_bind _ _ (fun '(m2, m3) => 57344 <= m2 <= 73728 /\ -8192 <= m3 <= 8192)).
  { apply (yields_two _ _ _ (fun a b => (a * 2 + 65536, b * 2)) _ (fun v => -4096 <= v <= 4096) (fun v => -4096 <= v <= 4096));
      [by apply yields_alpha, diagonal_code_range | by apply yields_alpha, alpha_code_range | intros; lia | lia]. }
  intros [m2 m3] [M2 M3]. eapply (yields_bind _ _ (fun '(m4, m5) => -8192 <= m4 <= 8192 /\ 57344 <= m5 <= 73728)).
  { apply (yields_two _ _ _ (fun a b => (a * 2, b * 2 + 65536)) _ (fun v => -4096 <= v <= 4096) (fun v => -4096 <= v <= 4096));
      [by apply yields_alpha, alpha_code_range | by apply yields_alpha, diagonal_code_range | intros; lia | lia]. }
  intros [m4 m5] [M4 M5]. eapply (yields_bind _ _ (fun '(m0, m1) => - 2 ^ 22 <= m0 <= 2 ^ 22 /\ - 2 ^ 22 <= m1 <= 2 ^ 22)).
  { eapply (yields_two _ _ _ (fun a b => (a * _, b * _))); [by apply yields_trans | by apply yields_trans | by intros | lia]. }
  intros [m0 m1] [M0 M1]. set (p := {| wmmat := _; wmtype := t |}).
  assert (gm_range p) as Hp by (exists m0, m1, m2, m3, m4, m5; done).
  destruct (shear_defined (bare_model p) Hp eq_refl) as (m' & good & E & Em & _ & Hs).
  eapply yields_le; [by apply (yields_lift _ _ E) |]. intros ? <-. split; [by rewrite Em | done].
Qed.

Lemma yields_models refs : Forall gm_range refs -> yields (read_models hp refs) (fun l => length l = length refs /\ Forall gm_safe l).
Proof.
  induction 1 as [| ref refs Hr Hrs IH]; cbn [read_models]; [by apply yields_ret |].
  eapply yields_bind; [by apply yields_global_motion_params |]. intros [m good] [Hm Hs]. eapply yields_bind; [exact IH |].
  intros l [Hl Hf]. apply yields_ret. split; [cbn; lia |]. constructor; [| done]. by destruct good.
Qed.
End Exact.

Lemma prev_models_ok prev : (forall l, prev = Some l -> length l = 7%nat /\ Forall (fun m => gm_range (wm_params m)) l) ->
  length (prev_models prev) = 7%nat /\ Forall gm_range (prev_models prev).
Proof.
  intros H. destruct prev as [l |]; cbn [prev_models].
  - destruct (H l eq_refl) as [Hl Hf]. rewrite length_fmap. split; [done |]. by apply Forall_fmap.
  - split; [done |]. apply Forall_replicate, gm_range_default.
Qed.
