(* ===== verification/RefOrder.v ===== *)
(** * Reference frames by their place in time

    Order hints ([get_relative_dist] of [av1/common/mvref_common.h]), the two references of
    skip mode ([av1_setup_skip_mode_allowed]) and the references a frame has when only the
    last and the golden frame are sent ([av1_set_frame_refs]), both of
    [av1/common/mvref_common.c]. *)

From Stdlib Require Import Sorting.Sorted.
From stdpp Require Import gmap.
From S2P Require Import Prelude CodecTypes BitChannel BitBuffer EntCoder RangeSpec Cdf EntEncProof EntDecProof EntRoundTrip SymbolIO SyntaxIO TxCommon FrameContext Tile TileInfo Leb128 Obu Yv12 BufferPool HeaderIO SeqHeader FrameQuant FrameFilters FilmGrain.

#[local] Arguments Z.of_nat : simpl never.
#[local] Arguments Z.mul : simpl never.

Definition INVALID_IDX : Z := -1.
Definition INT_MAX : Z := 2147483647.

(** ** Order hints *)

Definition get_relative_dist (oh : OrderHintInfo) (a b : Z) : Z :=
  if negb (enable_order_hint oh) then 0 else
  let bits := order_hint_bits_minus_1 oh + 1 in
  let diff := a - b in
  let m := Z.shiftl 1 (bits - 1) in
  Z.land diff (m - 1) - Z.land diff m.

(** ** Skip mode *)

Inductive REFERENCE_MODE := SINGLE_REFERENCE | COMPOUND_REFERENCE | REFERENCE_MODE_SELECT.

#[export] Instance REFERENCE_MODE_eq_dec : EqDecision REFERENCE_MODE.
Proof. solve_decision. Defined.

Record skip_refs := { skip_mode_allowed : bool; skip_ref_frame_idx_0 : Z; skip_ref_frame_idx_1 : Z }.

Definition no_skip_mode : skip_refs :=
  {| skip_mode_allowed := false; skip_ref_frame_idx_0 := INVALID_IDX; skip_ref_frame_idx_1 := INVALID_IDX |}.

Section Skip.
Context (oh : OrderHintInfo) (cur_order_hint : Z).

(** One reference in the search for the nearest ones: the order hint and the index of the
    forward and of the backward reference so far. *)
Definition nearest_step (st : (Z * Z) * (Z * Z)) (r : Z * option Z) : (Z * Z) * (Z * Z) :=
  let '(fwd, bwd) := st in
  match r with
  | (_, None) => st
  | (i, Some ref_order_hint) =>
      if get_relative_dist oh ref_order_hint cur_order_hint <? 0 then
        if (fwd.1 =? -1) || (0 <? get_relative_dist oh ref_order_hint fwd.1) then ((ref_order_hint, i), bwd) else st
      else if 0 <? get_relative_dist oh ref_order_hint cur_order_hint then
        if (bwd.1 =? INT_MAX) || (get_relative_dist oh ref_order_hint bwd.1 <? 0) then (fwd, (ref_order_hint, i)) else st
      else st
  end.

(** One reference in the search for the second nearest forward one. *)
Definition second_step (first : Z) (second : Z * Z) (r : Z * option Z) : Z * Z :=
  match r with
  | (_, None) => second
  | (i, Some ref_order_hint) =>
      if (negb (first =? -1) && (get_relative_dist oh ref_order_hint first <? 0)) &&
         ((second.1 =? -1) || (0 <? get_relative_dist oh ref_order_hint second.1))
      then (ref_order_hint, i) else second
  end.

Definition skip_pair (i j : Z) : skip_refs :=
  {| skip_mode_allowed := true; skip_ref_frame_idx_0 := Z.min i j; skip_ref_frame_idx_1 := Z.max i j |}.

(** [refs]: the order hints of the frames behind the seven names, if there are any. *)
Definition av1_setup_skip_mode_allowed (intra_only : bool) (mode : REFERENCE_MODE) (refs : list (option Z)) : skip_refs :=
  if negb (enable_order_hint oh) || intra_only || bool_decide (mode = SINGLE_REFERENCE) then no_skip_mode else
  let named := zip (seqZ 0 INTER_REFS_PER_FRAME) refs in
  let '(fwd, bwd) := foldl nearest_step ((-1, INVALID_IDX), (INT_MAX, INVALID_IDX)) named in
  if negb (fwd.2 =? INVALID_IDX) && negb (bwd.2 =? INVALID_IDX) then skip_pair fwd.2 bwd.2
  else if negb (fwd.2 =? INVALID_IDX) && (bwd.2 =? INVALID_IDX) then
    let second := foldl (second_step fwd.1) (-1, bwd.2) named in
    if negb (second.1 =? -1) then skip_pair fwd.2 second.2 else no_skip_mode
  else no_skip_mode.
End Skip.

(** ** References found by order *)

Record REF_FRAME_INFO := { map_idx : Z; sort_idx : Z }.

Definition compare_ref_frame_info (a b : REF_FRAME_INFO) : Z :=
  let sort_idx_diff := sort_idx a - sort_idx b in
  if negb (sort_idx_diff =? 0) then sort_idx_diff else map_idx a - map_idx b.

(** [qsort]: no two entries compare equal, so the order is the only one. *)
Fixpoint insert_info (x : REF_FRAME_INFO) (l : list REF_FRAME_INFO) : list REF_FRAME_INFO :=
  match l with
  | [] => [x]
  | y :: l => if compare_ref_frame_info x y <=? 0 then x :: y :: l else y :: insert_info x l
  end.
Definition sort_infos (l : list REF_FRAME_INFO) : list REF_FRAME_INFO := foldr insert_info [] l.

(** [remapped_ref_idx] and [ref_flag_list] *)
Record refs_state := { remapped : list Z; ref_flags : list bool }.

Definition set_ref_frame_info (frame_idx : Z) (info : option REF_FRAME_INFO) (st : refs_state) : option refs_state :=
  info ← info;
  r ← put (remapped st) frame_idx (map_idx info);
  f ← put (ref_flags st) frame_idx true;
  Some {| remapped := r; ref_flags := f |}.

Section FrameRefs.
Context (oh : OrderHintInfo) (cur_order_hint : Z) (lst_map_idx gld_map_idx : Z).

Definition cur_frame_sort_idx : Z := Z.shiftl 1 (order_hint_bits_minus_1 oh).

(** The order hints of [ref_frame_map], where there are frames. *)
Definition ref_info (r : Z * option Z) : REF_FRAME_INFO :=
  {| map_idx := r.1;
     sort_idx := match r.2 with
                 | None => -1
                 | Some offset => if offset =? -1 then -1 else cur_frame_sort_idx + get_relative_dist oh offset cur_order_hint
                 end |}.

Definition ref_infos (hints : list (option Z)) : list REF_FRAME_INFO := ref_info <$> zip (seqZ 0 REF_FRAMES) hints.

(** [lst_frame_sort_idx] and [gld_frame_sort_idx] *)
Definition sort_idx_of (idx : Z) (infos : list REF_FRAME_INFO) : Z := default (-1) (sort_idx <$> zget infos idx).

Fixpoint fwd_bounds (l : list REF_FRAME_INFO) (i start fin : Z) : Z * Z :=
  match l with
  | [] => (start, fin)
  | x :: l =>
      if sort_idx x =? -1 then fwd_bounds l (i + 1) (start + 1) fin
      else if cur_frame_sort_idx <=? sort_idx x then (start, i - 1)
      else fwd_bounds l (i + 1) start fin
  end.

(** The altref, bwdref and altref2 frames: the last, the first and the second of the backward
    references. *)
Definition backward_refs (infos : list REF_FRAME_INFO) (bwd_start_idx : Z) (st : refs_state) : option refs_state :=
  let bwd_end_idx := REF_FRAMES - 1 in
  '(st, bwd_end_idx) ← (if bwd_start_idx <=? bwd_end_idx then
                          st ← set_ref_frame_info 6 (zget infos bwd_end_idx) st; Some (st, bwd_end_idx - 1)
                        else Some (st, bwd_end_idx));
  '(st, bwd_start_idx) ← (if bwd_start_idx <=? bwd_end_idx then
                            st ← set_ref_frame_info 4 (zget infos bwd_start_idx) st; Some (st, bwd_start_idx + 1)
                          else Some (st, bwd_start_idx));
  if bwd_start_idx <=? bwd_end_idx then set_ref_frame_info 5 (zget infos bwd_start_idx) st else Some st.

(** The last and the golden frame among the forward references. *)
Fixpoint named_refs (infos : list REF_FRAME_INFO) (places : list Z) (st : refs_state) : option refs_state :=
  match places with
  | [] => Some st
  | i :: places =>
      info ← zget infos i;
      st ← (if map_idx info =? lst_map_idx then set_ref_frame_info 0 (Some info) st else Some st);
      st ← (if map_idx info =? gld_map_idx then set_ref_frame_info 3 (Some info) st else Some st);
      named_refs infos places st
  end.

(** The last forward reference up to [fin] that is neither of the two. *)
Fixpoint skip_named (fuel : nat) (infos : list REF_FRAME_INFO) (start fin : Z) : option Z :=
  match fuel with
  | O => None
  | S fuel =>
      if start <=? fin then
        info ← zget infos fin;
        if (map_idx info =? lst_map_idx) || (map_idx info =? gld_map_idx) then skip_named fuel infos start (fin - 1) else Some fin
      else Some fin
  end.

(** [ref_frame_list] less [LAST_FRAME] *)
Definition ref_frame_list : list Z := [1; 2; 4; 5; 6].

Fixpoint earliest_refs (infos : list REF_FRAME_INFO) (start : Z) (frames : list Z) (st : refs_state) : option refs_state :=
  match frames with
  | [] => Some st
  | f :: frames =>
      set ← zget (ref_flags st) f;
      st ← (if set : bool then Some st else set_ref_frame_info f (zget infos start) st);
      earliest_refs infos start frames st
  end.

Fixpoint latest_refs (infos : list REF_FRAME_INFO) (start fin : Z) (frames : list Z) (st : refs_state) : option refs_state :=
  match frames with
  | [] => Some st
  | f :: frames' =>
      set ← zget (ref_flags st) f;
      if set : bool then latest_refs infos start fin frames' st else
      fin ← skip_named 9 infos start fin;
      if fin <? start then earliest_refs infos start frames st else
      st ← set_ref_frame_info f (zget infos fin) st;
      latest_refs infos start (fin - 1) frames' st
  end.

(** The references by name, or the error; [None] is an access outside the arrays. *)
Definition av1_set_frame_refs (hints : list (option Z)) (old : list Z) : option (aom_codec_err_t + list Z) :=
  let infos := ref_infos hints in
  let invalid s := (s =? -1) || (cur_frame_sort_idx <=? s) in
  if invalid (sort_idx_of lst_map_idx infos) || invalid (sort_idx_of gld_map_idx infos) then Some (inl AOM_CODEC_CORRUPT_FRAME) else
  let infos := sort_infos infos in
  let '(fwd_start_idx, fwd_end_idx) := fwd_bounds infos 0 0 (REF_FRAMES - 1) in
  let st := {| remapped := old; ref_flags := replicate (Z.to_nat INTER_REFS_PER_FRAME) false |} in
  st ← backward_refs infos (fwd_end_idx + 1) st;
  st ← named_refs infos (seqZ fwd_start_idx (fwd_end_idx - fwd_start_idx + 1)) st;
  st ← latest_refs infos fwd_start_idx fwd_end_idx ref_frame_list st;
  Some (inr (remapped st)).
End FrameRefs.

(** ** Facts *)

Section Dist.
Context (oh : OrderHintInfo) (Hon : enable_order_hint oh = true) (Hbits : 0 <= order_hint_bits_minus_1 oh < 8).
Let half : Z := 2 ^ order_hint_bits_minus_1 oh.

Lemma half_pos : 0 < half.
Proof. apply pow2_pos. lia. Qed.

(** The distance is the difference, taken around the circle of order hints. *)
Lemma relative_dist_eq a b : get_relative_dist oh a b = (a - b + half) mod (2 * half) - half.
Proof.
  unfold get_relative_dist. rewrite Hon. cbn [negb]. cbv zeta. set (n := order_hint_bits_minus_1 oh) in *.
  replace (n + 1 - 1) with n by lia. rewrite Z.shiftl_mul_pow2, Z.mul_1_l by lia. fold half. set (d := a - b).
  replace (half - 1) with (Z.ones n) by (rewrite Z.ones_equiv; unfold half; lia). rewrite Z.land_ones by lia. fold half.
  assert (Z.land d half = if Z.testbit d n then half else 0) as ->.
  { apply Z.bits_inj'. intros k Hk. rewrite Z.land_spec. unfold half. destruct (Z.eq_dec n k) as [<- | Hne].
    - rewrite Z.pow2_bits_true, andb_true_r by lia. destruct (Z.testbit d n); [by rewrite Z.pow2_bits_true by lia | by rewrite Z.testbit_0_l].
    - rewrite Z.pow2_bits_false, andb_false_r by lia. destruct (Z.testbit d n); [by rewrite Z.pow2_bits_false by lia | by rewrite Z.testbit_0_l]. }
  rewrite Z.testbit_odd, Z.shiftr_div_pow2 by lia. fold half. pose proof half_pos as Hh.
  pose proof (Z.div_mod d half ltac:(lia)) as E. pose proof (Z.mod_pos_bound d half Hh). set (q := d / half) in *. set (r := d mod half) in *.
  pose proof (Z.div_mod q 2 ltac:(lia)) as Eq. rewrite (Zmod_odd q) in Eq. set (p := q / 2) in *. destruct (Z.odd q).
  - replace (d + half) with (r + (p + 1) * (2 * half)) by nia. rewrite Z.mod_add, Z.mod_small by lia. lia.
  - replace (d + half) with (r + half + p * (2 * half)) by nia. rewrite Z.mod_add, Z.mod_small by lia. lia.
Qed.

Lemma relative_dist_range a b : - half <= get_relative_dist oh a b < half.
Proof. rewrite relative_dist_eq. pose proof half_pos. pose proof (Z.mod_pos_bound (a - b + half) (2 * half) ltac:(lia)). lia. Qed.

(** Distances to the current frame can be compared while they are less than half the circle
    apart. *)
Lemma relative_dist_diff cur a b : let d x := get_relative_dist oh x cur in
  - half <= d a - d b < half -> get_relative_dist oh a b = d a - d b.
Proof.
  cbv zeta. rewrite !relative_dist_eq. pose proof half_pos. set (x := a - cur + half). set (y := b - cur + half).
  pose proof (Z.div_mod x (2 * half) ltac:(lia)) as Ex. pose proof (Z.div_mod y (2 * half) ltac:(lia)) as Ey.
  set (dx := x mod (2 * half)) in *. set (dy := y mod (2 * half)) in *. intros Hd.
  replace (a - b + half) with (dx - dy + half + (x / (2 * half) - y / (2 * half)) * (2 * half)) by (unfold x, y in *; lia).
  rewrite Z.mod_add, Z.mod_small by lia. lia.
Qed.
End Dist.

(** ** Skip mode takes the nearest references *)

Section Nearest.
Context (oh : OrderHintInfo) (Hon : enable_order_hint oh = true) (Hbits : 0 <= order_hint_bits_minus_1 oh < 8).
Context (cur : Z).
Let half : Z := 2 ^ order_hint_bits_minus_1 oh.
Let d (x : Z) : Z := get_relative_dist oh x cur.

(** [i] is the first of the references [P] that is nearest before the current frame; [-1]
    when there is none. *)
Definition first_before (P : list (Z * option Z)) (limit : Z) (best : Z * Z) : Prop :=
  (best = (-1, INVALID_IDX) /\ forall i h, (i, Some h) ∈ P -> limit <= d h) \/
  ((best.2, Some best.1) ∈ P /\ d best.1 < limit /\ forall i h, (i, Some h) ∈ P -> d h < limit -> d h <= d best.1 /\ (d h = d best.1 -> best.2 <= i)).
Definition first_after (P : list (Z * option Z)) (best : Z * Z) : Prop :=
  (best = (INT_MAX, INVALID_IDX) /\ forall i h, (i, Some h) ∈ P -> d h <= 0) \/
  ((best.2, Some best.1) ∈ P /\ 0 < d best.1 /\ forall i h, (i, Some h) ∈ P -> 0 < d h -> d best.1 <= d h /\ (d h = d best.1 -> best.2 <= i)).

(** The references in the order of their names, with order hints of the sequence, none of
    them half the circle away, where [get_relative_dist] cannot tell before from after. *)
Definition refs_ok (P : list (Z * option Z)) : Prop := forall i h, (i, Some h) ∈ P -> 0 <= i < 7 /\ 0 <= h < 2 * half /\ - half < d h.

Lemma half_le : 0 < half <= 128.
Proof. split; [apply pow2_pos; lia | apply (pow2_le _ 7); lia]. Qed.

Lemma snoc_last {A} (P : list A) x : x ∈ P ++ [x].
Proof. apply elem_of_app. right. by apply list_elem_of_singleton. Qed.
Lemma snoc_keep {A} (P : list A) x y : x ∈ P -> x ∈ P ++ [y].
Proof. intros H. apply elem_of_app. by left. Qed.

Lemma before_step P limit best i h : limit <= 0 -> refs_ok (P ++ [(i, Some h)]) -> (forall j o, (j, o) ∈ P -> j < i) -> first_before P limit best ->
  d h < limit -> first_before (P ++ [(i, Some h)]) limit (if (best.1 =? -1) || (0 <? get_relative_dist oh h best.1) then (h, i) else best).
Proof.
  intros Hl Hok Hi Hb Hd. destruct (Hok i h ltac:(apply snoc_last)) as (_ & Hh & Hdh). pose proof half_le as Hhalf.
  assert (forall j x, (j, Some x) ∈ P ++ [(i, Some h)] -> (j, Some x) ∈ P \/ (j = i /\ x = h)) as Hsplit
    by (intros j x; rewrite elem_of_app, list_elem_of_singleton; intros [? | [= -> ->]]; auto).
  right. destruct Hb as [[-> Hno] | (Hin & Hlt & Hall)].
  - cbn [fst snd Z.eqb orb]. split; [first [apply snoc_last | by apply snoc_keep] |]. split; [done |]. intros j x [Hj | [-> ->]]%Hsplit Hx; [specialize (Hno _ _ Hj); lia | by split].
  - destruct (Hok best.2 best.1 ltac:(by apply snoc_keep)) as (_ & Hbh & Hdb).
    rewrite (proj2 (Z.eqb_neq _ _)) by lia. cbn [orb]. rewrite (relative_dist_diff oh Hon Hbits cur) by (fold (d h) (d best.1) half; lia). fold (d h) (d best.1).
    destruct (Z.ltb_spec 0 (d h - d best.1)); cbn [fst snd].
    + split; [first [apply snoc_last | by apply snoc_keep] |]. split; [done |]. intros j x [Hj | [-> ->]]%Hsplit Hx; [destruct (Hall j x Hj Hx); lia | by split].
    + split; [first [apply snoc_last | by apply snoc_keep] |]. split; [done |]. intros j x [Hj | [-> ->]]%Hsplit Hx; [by apply Hall |]. split; [lia |]. intros _. specialize (Hi _ _ Hin). lia.
Qed.

Lemma after_step P best i h : refs_ok (P ++ [(i, Some h)]) -> (forall j o, (j, o) ∈ P -> j < i) -> first_after P best ->
  0 < d h -> first_after (P ++ [(i, Some h)]) (if (best.1 =? INT_MAX) || (get_relative_dist oh h best.1 <? 0) then (h, i) else best).
Proof.
  intros Hok Hi Hb Hd. destruct (Hok i h ltac:(apply snoc_last)) as (_ & Hh & Hdh). pose proof half_le as Hhalf.
  assert (forall j x, (j, Some x) ∈ P ++ [(i, Some h)] -> (j, Some x) ∈ P \/ (j = i /\ x = h)) as Hsplit
    by (intros j x; rewrite elem_of_app, list_elem_of_singleton; intros [? | [= -> ->]]; auto).
  pose proof (relative_dist_range oh Hon Hbits h cur) as Rh. fold half (d h) in Rh.
  right. destruct Hb as [[-> Hno] | (Hin & Hlt & Hall)].
  - cbn [fst snd]. rewrite Z.eqb_refl. cbn [orb fst snd]. split; [first [apply snoc_last | by apply snoc_keep] |]. split; [done |]. intros j x [Hj | [-> ->]]%Hsplit Hx; [specialize (Hno _ _ Hj); lia | by split].
  - destruct (Hok best.2 best.1 ltac:(by apply snoc_keep)) as (_ & Hbh & _). pose proof (relative_dist_range oh Hon Hbits best.1 cur) as Rb. fold half (d best.1) in Rb.
    rewrite (proj2 (Z.eqb_neq _ _)) by (unfold INT_MAX; lia). cbn [orb]. rewrite (relative_dist_diff oh Hon Hbits cur) by (fold (d h) (d best.1) half; lia). fold (d h) (d best.1).
    destruct (Z.ltb_spec (d h - d best.1) 0); cbn [fst snd].
    + split; [first [apply snoc_last | by apply snoc_keep] |]. split; [done |]. intros j x [Hj | [-> ->]]%Hsplit Hx; [destruct (Hall j x Hj Hx); lia | by split].
    + split; [first [apply snoc_last | by apply snoc_keep] |]. split; [done |]. intros j x [Hj | [-> ->]]%Hsplit Hx; [by apply Hall |]. split; [lia |]. intros _. specialize (Hi _ _ Hin). lia.
Qed.

(** References that are not eligible change nothing. *)
Lemma before_other P limit best i o : first_before P limit best -> (forall h, o = Some h -> limit <= d h) -> first_before (P ++ [(i, o)]) limit best.
Proof.
  intros Hb Ho. assert (forall j x, (j, Some x) ∈ P ++ [(i, o)] -> (j, Some x) ∈ P \/ limit <= d x) as Hsplit.
  { intros j x. rewrite elem_of_app, list_elem_of_singleton. intros [? | E]; [by left |]. right. apply Ho. congruence. }
  destruct Hb as [[-> Hno] | (Hin & Hlt & Hall)].
  - left. split; [done |]. intros j x [Hj | Hj]%Hsplit; [by eapply Hno | done].
  - right. split; [first [apply snoc_last | by apply snoc_keep] |]. split; [done |]. intros j x [Hj | Hj]%Hsplit Hx; [by apply Hall | lia].
Qed.
Lemma after_other P best i o : first_after P best -> (forall h, o = Some h -> d h <= 0) -> first_after (P ++ [(i, o)]) best.
Proof.
  intros Hb Ho. assert (forall j x, (j, Some x) ∈ P ++ [(i, o)] -> (j, Some x) ∈ P \/ d x <= 0) as Hsplit.
  { intros j x. rewrite elem_of_app, list_elem_of_singleton. intros [? | E]; [by left |]. right. apply Ho. congruence. }
  destruct Hb as [[-> Hno] | (Hin & Hlt & Hall)].
  - left. split; [done |]. intros j x [Hj | Hj]%Hsplit; [by eapply Hno | done].
  - right. split; [first [apply snoc_last | by apply snoc_keep] |]. split; [done |]. intros j x [Hj | Hj]%Hsplit Hx; [by apply Hall | lia].
Qed.

Lemma nearest_ok P : refs_ok P -> (forall P1 i o P2, P = P1 ++ (i, o) :: P2 -> forall j x, (j, x) ∈ P1 -> j < i) ->
  let '(fwd, bwd) := foldl (nearest_step oh cur) ((-1, INVALID_IDX), (INT_MAX, INVALID_IDX)) P in first_before P 0 fwd /\ first_after P bwd.
Proof.
  induction P as [| [i o] P IH] using rev_ind; intros Hok Hs.
  { split; left; (split; [done |]); intros j h Hj; by apply not_elem_of_nil in Hj. }
  rewrite foldl_app. cbn [foldl]. destruct (foldl _ _ P) as [fwd bwd]. destruct IH as [Hf Hb].
  { intros j h Hj. apply (Hok j). by apply snoc_keep. } { intros P1 j x P2 ->. apply (Hs P1 j x (P2 ++ [(i, o)])). by rewrite <- app_assoc. }
  pose proof (Hs P i o [] eq_refl) as Hi. cbn [nearest_step]. destruct o as [h |]; [| split; [by apply before_other | by apply after_other]].
  fold (d h). destruct (Z.ltb_spec (d h) 0) as [Hn | Hn].
  - pose proof (before_step P 0 fwd i h ltac:(lia) Hok Hi Hf Hn) as Hf'. destruct (_ || _); cbn [fst snd]; (split; [done | apply after_other; [done |]; intros x [= <-]; lia]).
  - destruct (Z.ltb_spec 0 (d h)) as [Hp | Hp].
    + pose proof (after_step P bwd i h Hok Hi Hb Hp) as Hb'. destruct (_ || _); cbn [fst snd]; (split; [apply before_other; [done |]; intros x [= <-]; lia | done]).
    + split; [apply before_other | apply after_other]; try done; intros x [= <-]; lia.
Qed.

Lemma second_ok P first : refs_ok P -> (forall P1 i o P2, P = P1 ++ (i, o) :: P2 -> forall j x, (j, x) ∈ P1 -> j < i) ->
  0 <= first -> - half < d first < 0 -> (forall i h, (i, Some h) ∈ P -> d h <= 0) ->
  first_before P (d first) (foldl (second_step oh first) (-1, INVALID_IDX) P).
Proof.
  intros Hok Hs H0 Hf Hle. induction P as [| [i o] P IH] using rev_ind; [left; split; [done |]; intros j h Hj; by apply not_elem_of_nil in Hj |].
  rewrite foldl_app. cbn [foldl]. set (best := foldl _ _ P) in *. 
  assert (first_before P (d first) best) as Hb.
  { apply IH; [intros j h Hj; apply (Hok j); by apply snoc_keep | | intros j h Hj; apply (Hle j); by apply snoc_keep].
    intros P1 j x P2 ->. apply (Hs P1 j x (P2 ++ [(i, o)])). by rewrite <- app_assoc. }
  cbn [second_step]. destruct o as [h |]; [| by apply before_other]. rewrite (proj2 (Z.eqb_neq first (-1))) by lia. cbn [negb andb].
  destruct (Hok i h ltac:(apply snoc_last)) as (_ & Hh & Hdh). pose proof (Hle i h ltac:(apply snoc_last)). pose proof half_le.
  rewrite (relative_dist_diff oh Hon Hbits cur h first) by (fold (d h) (d first) half; lia). fold (d h) (d first).
  destruct (Z.ltb_spec (d h - d first) 0); cbn [andb].
  - apply before_step; try done; [lia | apply (Hs P i (Some h) [] eq_refl) | lia].
  - apply before_other; [done |]. intros x [= <-]. lia.
Qed.
End Nearest.

(** References by name, from last to altref. *)
Definition named_hints (refs : list (option Z)) : list (Z * option Z) := zip (seqZ 0 INTER_REFS_PER_FRAME) refs.

Lemma named_lookup refs i o : length refs = 7%nat -> (i, o) ∈ named_hints refs <-> 0 <= i < 7 /\ refs !! Z.to_nat i = Some o.
Proof.
  intros Hl. unfold named_hints, INTER_REFS_PER_FRAME. rewrite list_elem_of_lookup. split.
  - intros (k & Hk). apply lookup_zip_Some in Hk as [Hk Ho]. cbn [fst snd] in *. apply lookup_seqZ in Hk as [-> Hk]. split; [lia |].
    by replace (Z.to_nat (0 + Z.of_nat k)) with k by lia.
  - intros [Hi Ho]. exists (Z.to_nat i). apply lookup_zip_Some. cbn [fst snd]. split; [| done]. apply lookup_seqZ. lia.
Qed.

Lemma named_sorted refs P1 i o P2 : named_hints refs = P1 ++ (i, o) :: P2 -> forall j x, (j, x) ∈ P1 -> j < i.
Proof.
  intros E j x Hj. apply list_elem_of_lookup in Hj as (k & Hk). pose proof (lookup_lt_Some _ _ _ Hk) as Hlt.
  assert (named_hints refs !! k = Some (j, x)) as H1 by (rewrite E; by apply lookup_app_l_Some).
  assert (named_hints refs !! length P1 = Some (i, o)) as H2 by (rewrite E; by apply list_lookup_middle).
  unfold named_hints in *. apply lookup_zip_Some in H1 as [H1 _], H2 as [H2 _]. cbn [fst snd] in *.
  apply lookup_seqZ in H1 as [-> _], H2 as [-> _]. lia.
Qed.

(** C21: Skip mode predicts from the nearest reference before the current frame and the
    nearest one after it, by the order in which frames are shown, and from the two nearest
    before it (at different distances) when there is none after it; it is off when there
    are not two such references.  Among references at the same distance the first by
    name counts.  This is for references of which none is exactly half the circle of the
    order hints away from the current frame: there a frame is as much after as before, and
    [half_circle_misleads] shows skip mode with a frame that is neither. *)
Theorem skip_mode_nearest oh cur mode refs :
  enable_order_hint oh = true -> 0 <= order_hint_bits_minus_1 oh < 8 -> mode <> SINGLE_REFERENCE -> length refs = 7%nat ->
  refs_ok oh cur (named_hints refs) ->
  exists fwd bwd, first_before oh cur (named_hints refs) 0 fwd /\ first_after oh cur (named_hints refs) bwd /\
    let s := av1_setup_skip_mode_allowed oh cur false mode refs in
    if negb (fwd.2 =? INVALID_IDX) then
      if negb (bwd.2 =? INVALID_IDX) then s = skip_pair fwd.2 bwd.2
      else exists second, first_before oh cur (named_hints refs) (get_relative_dist oh fwd.1 cur) second /\
             s = if negb (second.2 =? INVALID_IDX) then skip_pair fwd.2 second.2 else no_skip_mode
    else s = no_skip_mode.
Proof.
  intros Hon Hbits Hmode Hl Hok. pose proof (nearest_ok oh Hon Hbits cur (named_hints refs) Hok (named_sorted refs)) as Hn.
  unfold av1_setup_skip_mode_allowed. fold (named_hints refs). destruct (foldl _ _ _) as [fwd bwd]. destruct Hn as [Hf Hb]. exists fwd, bwd.
  split; [done |]. split; [done |]. rewrite Hon, bool_decide_eq_false_2 by done. cbn [negb orb]. cbv zeta.
  destruct (Z.eqb_spec fwd.2 INVALID_IDX) as [E | Hfi]; cbn [negb andb]; [done |].
  destruct (Z.eqb_spec bwd.2 INVALID_IDX) as [E | Hbi]; cbn [negb]; [| done].
  destruct Hf as [[-> _] | (Hin & Hlt & Hall)]; [done |]. destruct (Hok _ _ Hin) as (Hi & Hh & Hd).
  assert (forall i h, (i, Some h) ∈ named_hints refs -> get_relative_dist oh h cur <= 0) as Hle.
  { destruct Hb as [[-> Hno] | (Hbin & _)]; [exact Hno |]. destruct (Hok _ _ Hbin) as (Hbi & _). unfold INVALID_IDX in E. lia. }
  pose proof (second_ok oh Hon Hbits cur (named_hints refs) fwd.1 Hok (named_sorted refs) ltac:(lia) ltac:(lia) Hle) as Hs.
  rewrite E. set (second := foldl _ _ _) in *. exists second. split; [done |].
  destruct Hs as [[-> _] | (Hsin & _)]; [done |]. destruct (Hok _ _ Hsin) as (Hsi & Hsh & _).
  rewrite (proj2 (Z.eqb_neq second.1 _)), (proj2 (Z.eqb_neq second.2 _)) by (unfold INVALID_IDX; lia). done.
Qed.

(** Hints 10, 12, 14, 8 before and 18, 20, 24 after hint 16. *)
Definition demo_oh : OrderHintInfo :=
  {| enable_order_hint := true; order_hint_bits_minus_1 := 6; enable_dist_wtd_comp := false; enable_ref_frame_mvs := true |}.
Definition demo_hints : list (option Z) := [Some 14; Some 12; Some 10; Some 8; Some 18; None; Some 24].

(** A reference half the circle away counts as before every frame: as before the current
    one, hint 16, and as after a reference that has the hint of the current frame, which
    therefore is taken for one further before. *)
Example half_circle_misleads :
  get_relative_dist demo_oh 80 16 = -64 /\ get_relative_dist demo_oh 16 16 = 0 /\
  av1_setup_skip_mode_allowed demo_oh 16 false REFERENCE_MODE_SELECT [Some 80; Some 16; None; None; None; None; None] = skip_pair 0 1.
Proof. by vm_compute. Qed.

Lemma skip_mode_nearest_witness :
  av1_setup_skip_mode_allowed demo_oh 16 false REFERENCE_MODE_SELECT demo_hints = skip_pair 0 4 /\
  exists fwd bwd, first_before demo_oh 16 (named_hints demo_hints) 0 fwd /\ first_after demo_oh 16 (named_hints demo_hints) bwd /\
    let s := av1_setup_skip_mode_allowed demo_oh 16 false REFERENCE_MODE_SELECT demo_hints in
    if negb (fwd.2 =? INVALID_IDX) then
      if negb (bwd.2 =? INVALID_IDX) then s = skip_pair fwd.2 bwd.2
      else exists second, first_before demo_oh 16 (named_hints demo_hints) (get_relative_dist demo_oh fwd.1 16) second /\
             s = if negb (second.2 =? INVALID_IDX) then skip_pair fwd.2 second.2 else no_skip_mode
    else s = no_skip_mode.
Proof.
  split; [reflexivity |]. apply skip_mode_nearest; [reflexivity | cbn; lia | discriminate | reflexivity |].
  intros i h [Hi Hh]%named_lookup; [| reflexivity]. split; [done |].
  destruct (Z.to_nat i) as [| [| [| [| [| [| [| n]]]]]]] eqn:E; try discriminate; injection Hh as <-; vm_compute; repeat split; discriminate.
Defined.

(** ** Every name gets a reference *)

Definition info_le (a b : REF_FRAME_INFO) : Prop := sort_idx a <= sort_idx b.

Lemma insert_info_perm x l : insert_info x l ≡ₚ x :: l.
Proof. induction l as [| y l IH]; cbn [insert_info]; [done |]. destruct (_ <=? 0); [done |]. rewrite IH. apply Permutation_swap. Qed.

Lemma sort_infos_perm l : sort_infos l ≡ₚ l.
Proof. induction l as [| x l IH]; [done |]. unfold sort_infos in *. cbn [foldr]. by rewrite insert_info_perm, IH. Qed.

Lemma compare_le a b : compare_ref_frame_info a b <= 0 -> info_le a b.
Proof. unfold compare_ref_frame_info, info_le. cbv zeta. destruct (Z.eqb_spec (sort_idx a - sort_idx b) 0); cbn [negb]; lia. Qed.
Lemma compare_gt a b : 0 < compare_ref_frame_info a b -> info_le b a.
Proof. unfold compare_ref_frame_info, info_le. cbv zeta. destruct (Z.eqb_spec (sort_idx a - sort_idx b) 0); cbn [negb]; lia. Qed.

Lemma insert_info_sorted x l : StronglySorted info_le l -> StronglySorted info_le (insert_info x l).
Proof.
  induction 1 as [| y l Hs IH Hy]; cbn [insert_info]; [by repeat constructor |]. destruct (Z.leb_spec (compare_ref_frame_info x y) 0) as [Hle | Hgt].
  - apply compare_le in Hle. constructor; [by constructor |]. constructor; [done |]. eapply list.Forall_impl; [exact Hy |]. unfold info_le in *. intros z Hz. lia.
  - apply compare_gt in Hgt. constructor; [done |]. rewrite insert_info_perm. by constructor.
Qed.

Lemma sort_infos_sorted l : StronglySorted info_le (sort_infos l).
Proof. induction l as [| x l IH]; [constructor |]. by apply insert_info_sorted. Qed.

(** Where the forward references are in the sorted list. *)
Lemma fwd_bounds_ok oh l i start fin : 0 < cur_frame_sort_idx oh -> StronglySorted info_le l -> Forall (fun x => -1 <= sort_idx x) l ->
  fin = i + Z.of_nat (length l) - 1 -> (start = i \/ (start <= i /\ Forall (fun x => sort_idx x <> -1) l)) ->
  let '(a, b) := fwd_bounds oh l i start fin in
  start <= a /\ b <= fin /\ i - 1 <= b /\ (Forall (fun x => sort_idx x <> -1) l -> a = start) /\ forall k x, l !! k = Some x ->
    (sort_idx x = -1 -> i + Z.of_nat k < a) /\ (sort_idx x <> -1 -> a <= i + Z.of_nat k) /\
    (sort_idx x <> -1 -> sort_idx x < cur_frame_sort_idx oh -> i + Z.of_nat k <= b).
Proof.
  intros Hcur Hs. revert i start. induction Hs as [| x l Hs IH Hx]; intros i start Hge Hfin Hst; cbn [fwd_bounds length] in *.
  { split_and!; [lia | lia | lia | done | done]. }
  inversion Hge as [| ? ? Hgx Hgl]; subst. destruct (Z.eqb_spec (sort_idx x) (-1)) as [En | En].
  - assert (start = i) as -> by (destruct Hst as [-> | [_ Hf]]; [done | by inversion Hf]).
    specialize (IH (i + 1) (i + 1) Hgl ltac:(lia) ltac:(by left)). destruct (fwd_bounds _ l _ _ _) as [a b]. destruct IH as (I1 & I2 & I3 & _ & I4).
    split_and!; [lia | lia | lia | intros Hf; by inversion Hf |]. intros [| k] y Hy; cbn in Hy; [injection Hy as <-; split_and!; lia |].
    replace (i + Z.of_nat (S k)) with (i + 1 + Z.of_nat k) by lia. by apply I4.
  - destruct (Z.leb_spec (cur_frame_sort_idx oh) (sort_idx x)) as [Hc | Hc].
    + assert (start <= i) by (destruct Hst as [-> | [? _]]; lia). split_and!; [lia | lia | lia | done |]. intros k y Hy.
      assert (sort_idx x <= sort_idx y) by (destruct k as [| k]; cbn in Hy; [injection Hy as <-; lia | rewrite Forall_lookup in Hx; exact (Hx k y Hy)]).
      split_and!; lia.
    + assert (Forall (fun y => sort_idx y <> -1) l) as Hno by (eapply list.Forall_impl; [exact Hx |]; unfold info_le; intros y Hy; lia).
      specialize (IH (i + 1) start Hgl ltac:(lia) ltac:(right; split; [destruct Hst as [-> | [? _]]; lia | done])).
      destruct (fwd_bounds _ l _ _ _) as [a b] eqn:Eb. destruct IH as (I1 & I2 & I3 & I5 & I4). specialize (I5 Hno). split_and!; [lia | lia | lia | done |].
      assert (start <= i) by (destruct Hst as [-> | [? _]]; lia).
      intros [| k] y Hy; cbn in Hy; [injection Hy as <-; split_and!; lia |].
      replace (i + Z.of_nat (S k)) with (i + 1 + Z.of_nat k) by lia. by apply I4.
Qed.

Section Assign.
Context (lst gld : Z) (good : Z -> Prop) (infos : list REF_FRAME_INFO) (a b : Z).
Context (Ha : 0 <= a) (Hb : b <= 7) (Hlen : length infos = 8%nat).
Context (Hgood : forall i x, a <= i < 8 -> infos !! Z.to_nat i = Some x -> good (map_idx x)).

(** What is set is a frame, and the two names sent have theirs. *)
Record st_ok (st : refs_state) : Prop := {
  so_lens : (7 <= length (remapped st))%nat /\ length (ref_flags st) = 7%nat;
  so_set f : ref_flags st !! f = Some true -> exists m, remapped st !! f = Some m /\ good m /\ (f = 0%nat -> m = lst) /\ (f = 3%nat -> m = gld) }.

Definition flag_set (st : refs_state) (f : Z) : Prop := ref_flags st !! Z.to_nat f = Some true.
Definition flags_grow (st st' : refs_state) : Prop :=
  length (remapped st') = length (remapped st) /\ forall f, ref_flags st !! f = Some true -> ref_flags st' !! f = Some true.

Lemma flags_grow_refl st : flags_grow st st.
Proof. by split. Qed.
Lemma flags_grow_trans st st1 st2 : flags_grow st st1 -> flags_grow st1 st2 -> flags_grow st st2.
Proof. intros [A1 A2] [B1 B2]. split; [congruence | auto]. Qed.

Lemma set_ok st f i : st_ok st -> 0 <= f < 7 -> a <= i < 8 -> (forall x, infos !! Z.to_nat i = Some x -> (f = 0 -> map_idx x = lst) /\ (f = 3 -> map_idx x = gld)) ->
  exists st', set_ref_frame_info f (zget infos i) st = Some st' /\ st_ok st' /\ flags_grow st st' /\ flag_set st' f.
Proof.
  intros [[L1 L2] Hs] Hf Hi Hn. unfold set_ref_frame_info, zget. rewrite (proj2 (Z.leb_le 0 i)) by lia.
  destruct (lookup_lt_is_Some_2 infos (Z.to_nat i) ltac:(lia)) as [x Hx]. rewrite Hx. cbn [mbind option_bind]. rewrite !put_ok by lia. cbn [mbind option_bind].
  eexists. split; [done |]. split; [split; cbn [remapped ref_flags]; rewrite ?length_insert; [done |] | split].
  - intros g. destruct (decide (Z.to_nat f = g)) as [<- | Hne].
    + rewrite !list_lookup_insert_eq by lia. intros _. exists (map_idx x). destruct (Hn x Hx) as [N0 N3]. split_and!; [done | by apply (Hgood i) | |]; intros E; [apply N0 | apply N3]; lia.
    + rewrite !list_lookup_insert_ne by done. apply Hs.
  - split; cbn [remapped ref_flags]; [by rewrite length_insert |]. intros g Hg. destruct (decide (Z.to_nat f = g)) as [<- |]; [by rewrite list_lookup_insert_eq by lia | by rewrite list_lookup_insert_ne].
  - unfold flag_set. cbn [ref_flags]. by rewrite list_lookup_insert_eq by lia.
Qed.

Lemma named_refs_ok places : forall st, st_ok st -> Forall (fun i => a <= i <= b) places ->
  exists st', named_refs lst gld infos places st = Some st' /\ st_ok st' /\ flags_grow st st' /\
    (forall i x, i ∈ places -> infos !! Z.to_nat i = Some x -> (map_idx x = lst -> flag_set st' 0) /\ (map_idx x = gld -> flag_set st' 3)).
Proof.
  induction places as [| i places IH]; intros st Hok Hp; cbn [named_refs].
  { exists st. split_and!; try done. intros i x Hi. by apply not_elem_of_nil in Hi. }
  apply Forall_cons_iff in Hp as [Hi Hp]. destruct (lookup_lt_is_Some_2 infos (Z.to_nat i) ltac:(lia)) as [x Hx].
  assert (zget infos i = Some x) as Ez by (unfold zget; by rewrite (proj2 (Z.leb_le 0 i)) by lia). rewrite Ez. cbn [mbind option_bind].
  assert (exists st1, (if map_idx x =? lst then set_ref_frame_info 0 (Some x) st else Some st) = Some st1 /\ st_ok st1 /\ flags_grow st st1 /\ (map_idx x = lst -> flag_set st1 0)) as (st1 & -> & Ok1 & G1 & F1).
  { destruct (Z.eqb_spec (map_idx x) lst) as [E | Hne]; [| exists st; by split_and!]. rewrite <- Ez.
    destruct (set_ok st 0 i Hok ltac:(lia) ltac:(lia)) as (s1 & ? & ? & ? & ?); [intros y Hy; assert (y = x) as -> by congruence; split; [done | lia] |]. exists s1. by split_and!. }
  cbn [mbind option_bind].
  assert (exists st2, (if map_idx x =? gld then set_ref_frame_info 3 (Some x) st1 else Some st1) = Some st2 /\ st_ok st2 /\ flags_grow st1 st2 /\ (map_idx x = gld -> flag_set st2 3)) as (st2 & -> & Ok2 & G2 & F2).
  { destruct (Z.eqb_spec (map_idx x) gld) as [E | Hne]; [| exists st1; by split_and!]. rewrite <- Ez.
    destruct (set_ok st1 3 i Ok1 ltac:(lia) ltac:(lia)) as (s1 & ? & ? & ? & ?); [intros y Hy; assert (y = x) as -> by congruence; split; [lia | done] |]. exists s1. by split_and!. }
  cbn [mbind option_bind]. destruct (IH st2 Ok2 Hp) as (st3 & E3 & Ok3 & G3 & F3). exists st3. split; [done |]. split; [done |].
  split; [eauto using flags_grow_trans |]. intros j y [-> | Hj]%elem_of_cons Hy; [| by apply (F3 j)]. assert (y = x) as -> by congruence.
  split; intros E; apply (proj2 G3); [apply (proj2 G2), F1, E | apply F2, E].
Qed.

Lemma skip_named_ok fuel : forall fin, fin <= b -> fin - a + 2 <= Z.of_nat fuel -> (1 <= fuel)%nat ->
  exists fin', skip_named lst gld fuel infos a fin = Some fin' /\ fin' <= fin.
Proof.
  induction fuel as [| fuel IH]; intros fin Hf Hn H1; [lia |]. cbn [skip_named]. destruct (Z.leb_spec a fin); [| by exists fin].
  destruct (lookup_lt_is_Some_2 infos (Z.to_nat fin) ltac:(lia)) as [x Hx]. unfold zget. rewrite (proj2 (Z.leb_le 0 fin)), Hx by lia. cbn [mbind option_bind].
  destruct (_ || _); [| by exists fin]. destruct (IH (fin - 1) ltac:(lia) ltac:(lia) ltac:(lia)) as (f & -> & ?). exists f. split; [done | lia].
Qed.

Lemma flag_get st f : st_ok st -> 0 <= f < 7 -> exists c, zget (ref_flags st) f = Some c /\ (c = true -> flag_set st f).
Proof.
  intros [[_ L] _] Hf. destruct (lookup_lt_is_Some_2 (ref_flags st) (Z.to_nat f) ltac:(lia)) as [c Hc]. exists c. unfold zget, flag_set.
  rewrite (proj2 (Z.leb_le 0 f)) by lia. split; [done |]. by intros ->.
Qed.

(** The names left, neither last nor golden. *)
Definition frames_ok (frames : list Z) : Prop := Forall (fun f => 0 <= f < 7 /\ f <> 0 /\ f <> 3) frames.

Lemma set_other st f i : st_ok st -> 0 <= f < 7 /\ f <> 0 /\ f <> 3 -> a <= i < 8 ->
  exists st', set_ref_frame_info f (zget infos i) st = Some st' /\ st_ok st' /\ flags_grow st st' /\ flag_set st' f.
Proof. intros Hok (Hf & N0 & N3) Hi. apply set_ok; [done | done | done |]. intros x _. split; lia. Qed.

Lemma backward_ok st s : a <= s -> st_ok st -> exists st', backward_refs infos s st = Some st' /\ st_ok st' /\ flags_grow st st'.
Proof.
  intros Has Ok0. unfold backward_refs, REF_FRAMES. cbv zeta.
  assert (exists st1 e1, (if s <=? 8 - 1 then st ← set_ref_frame_info 6 (zget infos (8 - 1)) st; Some (st, 8 - 1 - 1) else Some (st, 8 - 1)) = Some (st1, e1) /\
    st_ok st1 /\ flags_grow st st1 /\ e1 <= 7) as (st1 & e1 & -> & Ok1 & G1 & He1).
  { destruct (Z.leb_spec s (8 - 1)); [| exists st, 7; by split_and!].
    destruct (set_other st 6 (8 - 1) Ok0 ltac:(lia) ltac:(lia)) as (s1 & -> & ? & ? & _). exists s1, 6. split_and!; try done; lia. }
  cbn [mbind option_bind].
  assert (exists st2 s2, (if s <=? e1 then st ← set_ref_frame_info 4 (zget infos s) st1; Some (st, s + 1) else Some (st1, s)) = Some (st2, s2) /\
    st_ok st2 /\ flags_grow st1 st2 /\ a <= s2) as (st2 & s2 & -> & Ok2 & G2 & Hs2).
  { destruct (Z.leb_spec s e1); [| exists st1, s; split_and!; try done; lia].
    destruct (set_other st1 4 s Ok1 ltac:(lia) ltac:(lia)) as (s1 & -> & ? & ? & _). exists s1, (s + 1). split_and!; try done; lia. }
  cbn [mbind option_bind]. destruct (Z.leb_spec s2 e1); [| exists st2; eauto using flags_grow_trans].
  destruct (set_other st2 5 s2 Ok2 ltac:(lia) ltac:(lia)) as (s1 & -> & ? & ? & _). exists s1. eauto using flags_grow_trans.
Qed.

Lemma earliest_ok frames : forall st, a <= 7 -> st_ok st -> frames_ok frames ->
  exists st', earliest_refs infos a frames st = Some st' /\ st_ok st' /\ flags_grow st st' /\ Forall (flag_set st') frames.
Proof.
  induction frames as [| f frames IH]; intros st Ha7 Hok Hf; cbn [earliest_refs]; [exists st; by split_and!|].
  apply Forall_cons_iff in Hf as [Hf Hfs]. destruct (flag_get st f Hok ltac:(lia)) as (c & -> & Hc). cbn [mbind option_bind].
  assert (exists st1, (if c : bool then Some st else set_ref_frame_info f (zget infos a) st) = Some st1 /\ st_ok st1 /\ flags_grow st st1 /\ flag_set st1 f) as (st1 & -> & Ok1 & G1 & F1)
    by (destruct c; [exists st; by split_and!; auto | apply set_other; auto; lia]).
  cbn [mbind option_bind]. destruct (IH st1 Ha7 Ok1 Hfs) as (st2 & -> & Ok2 & G2 & F2). exists st2. split; [done |]. split; [done |].
  split; [eauto using flags_grow_trans |]. constructor; [by apply (proj2 G2) | done].
Qed.

Lemma latest_ok frames : forall fin st, a <= 7 -> fin <= b -> st_ok st -> frames_ok frames ->
  exists st', latest_refs lst gld infos a fin frames st = Some st' /\ st_ok st' /\ flags_grow st st' /\ Forall (flag_set st') frames.
Proof.
  induction frames as [| f frames IH]; intros fin st Ha7 Hfin Hok Hf; cbn [latest_refs]; [exists st; by split_and!|].
  pose proof Hf as Hff. apply Forall_cons_iff in Hf as [Hf Hfs]. destruct (flag_get st f Hok ltac:(lia)) as (c & -> & Hc). cbn [mbind option_bind]. destruct c.
  - destruct (IH fin st Ha7 Hfin Hok Hfs) as (st1 & -> & Ok1 & G1 & F1). exists st1. split_and!; try done. constructor; [apply (proj2 G1); by apply Hc | done].
  - destruct (skip_named_ok 9 fin Hfin ltac:(lia) ltac:(lia)) as (fin' & -> & Hle). cbn [mbind option_bind].
    destruct (Z.ltb_spec fin' a); [by apply (earliest_ok (f :: frames)) |].
    destruct (set_other st f fin' Hok Hf ltac:(lia)) as (st1 & -> & Ok1 & G1 & F1). cbn [mbind option_bind].
    destruct (IH (fin' - 1) st1 Ha7 ltac:(lia) Ok1 Hfs) as (st2 & -> & Ok2 & G2 & F2). exists st2. split; [done |]. split; [done |].
    split; [eauto using flags_grow_trans |]. constructor; [by apply (proj2 G2) | done].
Qed.
End Assign.

Section Whole.
Context (oh : OrderHintInfo) (Hon : enable_order_hint oh = true) (Hbits : 0 <= order_hint_bits_minus_1 oh < 8) (cur : Z).
Context (hints : list (option Z)) (Hlen : length hints = 8%nat) (Hhints : Forall (fun o => forall h, o = Some h -> 0 <= h) hints).

(** A frame of the map shown before the current one. *)
Definition shown_before (i : Z) : Prop := exists h, zget hints i = Some (Some h) /\ get_relative_dist oh h cur < 0.

Lemma cur_sort_eq : cur_frame_sort_idx oh = 2 ^ order_hint_bits_minus_1 oh.
Proof. unfold cur_frame_sort_idx. rewrite Z.shiftl_mul_pow2, Z.mul_1_l by lia. done. Qed.

Lemma infos_lookup k x : ref_infos oh cur hints !! k = Some x -> exists o, hints !! k = Some o /\ x = ref_info oh cur (Z.of_nat k, o) /\ (k < 8)%nat.
Proof.
  unfold ref_infos, REF_FRAMES. rewrite list_lookup_fmap. intros E. destruct (zip _ _ !! k) as [[i o] |] eqn:Ez; [| done]. injection E as <-.
  apply lookup_zip_Some in Ez as [E1 E2]. cbn [fst snd] in *. apply lookup_seqZ in E1 as [-> Hk]. exists o. split_and!; [done | done | lia].
Qed.

Lemma infos_length : length (ref_infos oh cur hints) = 8%nat.
Proof. unfold ref_infos. rewrite length_fmap, length_zip, length_seqZ, Hlen. done. Qed.

Lemma info_sort k o : hints !! k = Some o ->
  let s := sort_idx (ref_info oh cur (Z.of_nat k, o)) in
  match o with None => s = -1 | Some h => s = cur_frame_sort_idx oh + get_relative_dist oh h cur /\ 0 <= s end.
Proof.
  intros Ho. cbv zeta. cbn [ref_info sort_idx fst snd]. destruct o as [h |]; [| done]. rewrite Forall_lookup in Hhints. pose proof (Hhints _ _ Ho h eq_refl).
  rewrite (proj2 (Z.eqb_neq h (-1))) by lia. pose proof (relative_dist_range oh Hon Hbits h cur). rewrite cur_sort_eq. split; [done | lia].
Qed.

Lemma sort_idx_known i : 0 <= i < 8 -> let s := sort_idx_of i (ref_infos oh cur hints) in
  (s =? -1) || (cur_frame_sort_idx oh <=? s) = false <-> shown_before i.
Proof.
  intros Hi. cbv zeta. unfold sort_idx_of, shown_before, zget. rewrite (proj2 (Z.leb_le 0 i)) by lia.
  destruct (lookup_lt_is_Some_2 (ref_infos oh cur hints) (Z.to_nat i) ltac:(rewrite infos_length; lia)) as [x Hx]. rewrite Hx. cbn [fmap option_fmap option_map default].
  destruct (infos_lookup _ _ Hx) as (o & Ho & -> & _). rewrite Ho. pose proof (info_sort _ _ Ho) as Hs. cbv zeta in Hs. rewrite orb_false_iff, Z.eqb_neq, Z.leb_gt.
  cbn [default]. unfold id. destruct o as [h |].
  - split; [intros [_ Hlt]; exists h; split; [done | lia] | intros (h' & [= <-] & Hd); lia].
  - split; [lia | by intros (h' & ? & _)].
Qed.

Definition has_frame (m : Z) : Prop := 0 <= m < 8 /\ exists h, zget hints m = Some (Some h).

Lemma sorted_facts : let S := sort_infos (ref_infos oh cur hints) in let '(a, b) := fwd_bounds oh S 0 0 (REF_FRAMES - 1) in
  0 <= a /\ -1 <= b <= 7 /\ length S = 8%nat /\ (forall i x, a <= i < 8 -> S !! Z.to_nat i = Some x -> has_frame (map_idx x)) /\
  (forall m, 0 <= m < 8 -> shown_before m -> exists p x, a <= p <= b /\ S !! Z.to_nat p = Some x /\ map_idx x = m).
Proof.
  cbv zeta. pose proof (sort_infos_perm (ref_infos oh cur hints)) as Hperm. pose proof (sort_infos_sorted (ref_infos oh cur hints)) as Hs.
  set (S := sort_infos _) in *. assert (length S = 8%nat) as HlS by (rewrite Hperm; apply infos_length).
  assert (forall x, x ∈ S -> exists k o, hints !! k = Some o /\ x = ref_info oh cur (Z.of_nat k, o) /\ (k < 8)%nat) as Hin.
  { intros x Hx. rewrite Hperm in Hx. apply list_elem_of_lookup in Hx as (k & Hk). destruct (infos_lookup _ _ Hk) as (o & ?). eauto. }
  assert (0 < cur_frame_sort_idx oh) as Hcur by (rewrite cur_sort_eq; apply pow2_pos; lia).
  assert (Forall (fun x => -1 <= sort_idx x) S) as Hge.
  { apply list.Forall_forall. intros x Hx. destruct (Hin x Hx) as (k & o & Ho & -> & _). pose proof (info_sort k o Ho) as Hi. cbv zeta in Hi. destruct o; lia. }
  pose proof (fwd_bounds_ok oh S 0 0 (REF_FRAMES - 1) Hcur Hs Hge ltac:(unfold REF_FRAMES; lia) ltac:(by left)) as Hb.
  destruct (fwd_bounds _ S _ _ _) as [a b]. destruct Hb as (B1 & B2 & B3 & _ & B4). unfold REF_FRAMES in B2. split_and!; try lia.
  - intros i x Hi Hx. destruct (Hin x ltac:(by eapply list_elem_of_lookup_2)) as (k & o & Ho & -> & Hk). destruct (B4 _ _ Hx) as (C1 & _ & _).
    pose proof (info_sort k o Ho) as Hsort. cbv zeta in Hsort. destruct o as [h |]; [| specialize (C1 Hsort); lia]. split; [cbn; lia |].
    exists h. unfold zget. cbn [map_idx ref_info fst]. by rewrite (proj2 (Z.leb_le 0 _)), Nat2Z.id by lia.
  - intros m Hm (h & Hz & Hd). unfold zget in Hz. rewrite (proj2 (Z.leb_le 0 m)) in Hz by lia.
    destruct (lookup_lt_is_Some_2 (ref_infos oh cur hints) (Z.to_nat m) ltac:(rewrite infos_length; lia)) as [x Hx].
    destruct (infos_lookup _ _ Hx) as (o & Ho & Ex & _). assert (o = Some h) as -> by congruence. pose proof (info_sort _ _ Ho) as Hsort. cbv zeta in Hsort. rewrite <- Ex in Hsort.
    assert (x ∈ S) as HxS by (rewrite Hperm; by eapply list_elem_of_lookup_2). apply list_elem_of_lookup in HxS as (p & Hp). destruct (B4 _ _ Hp) as (_ & C2 & C3).
    exists (Z.of_nat p), x. rewrite Nat2Z.id. split_and!; [lia | lia | done |]. rewrite Ex. cbn [map_idx ref_info fst]. lia.
Qed.
End Whole.

(** The references by name, from the two that are sent. *)
Lemma set_frame_refs_spec oh cur lst gld hints old :
  enable_order_hint oh = true -> 0 <= order_hint_bits_minus_1 oh < 8 -> length hints = 8%nat ->
  Forall (fun o => forall h, o = Some h -> 0 <= h) hints -> 0 <= lst < 8 -> 0 <= gld < 8 -> (7 <= length old)%nat ->
  exists r, av1_set_frame_refs oh cur lst gld hints old = Some r /\
    match r with
    | inl e => e = AOM_CODEC_CORRUPT_FRAME /\ ~ (shown_before oh cur hints lst /\ shown_before oh cur hints gld)
    | inr refs => (shown_before oh cur hints lst /\ shown_before oh cur hints gld) /\ length refs = length old /\
        refs !! 0%nat = Some lst /\ refs !! 3%nat = Some gld /\
        forall f, (f < 7)%nat -> exists m h, refs !! f = Some m /\ 0 <= m < 8 /\ zget hints m = Some (Some h)
    end.
Proof.
  intros Hon Hbits Hlen Hh Hlst Hgld Hold. unfold av1_set_frame_refs. cbv zeta.
  pose proof (sort_idx_known oh Hon Hbits cur hints Hlen Hh lst Hlst) as Kl. pose proof (sort_idx_known oh Hon Hbits cur hints Hlen Hh gld Hgld) as Kg. cbv zeta in Kl, Kg.
  set (il := (sort_idx_of lst _ =? -1) || _) in *. set (ig := (sort_idx_of gld _ =? -1) || _) in *.
  destruct il; cbn [orb]; [exists (inl AOM_CODEC_CORRUPT_FRAME); split; [done |]; split; [done |]; intros [Hl _]; by apply Kl in Hl |].
  destruct ig; [exists (inl AOM_CODEC_CORRUPT_FRAME); split; [done |]; split; [done |]; intros [_ Hg]; by apply Kg in Hg |].
  apply proj1 in Kl, Kg. specialize (Kl eq_refl). specialize (Kg eq_refl).
  pose proof (sorted_facts oh Hon Hbits cur hints Hlen Hh) as Hf. cbv zeta in Hf. set (S := sort_infos _) in *. destruct (fwd_bounds oh S 0 0 (REF_FRAMES - 1)) as [a b].
  destruct Hf as (Ha & Hb & HlS & Hgood & Hsb). set (good := has_frame hints) in *.
  destruct (Hsb lst Hlst Kl) as (p & x & Hp & Hpx & Ex). destruct (Hsb gld Hgld Kg) as (q & y & Hq & Hqy & Ey).
  set (st0 := {| remapped := old; ref_flags := _ |}). assert (st_ok lst gld good st0) as Ok0.
  { split; [by split |]. intros f Hff. cbn [ref_flags st0] in Hff. by apply lookup_replicate in Hff as [? _]. }
  destruct (backward_ok lst gld good S a Ha HlS Hgood st0 (b + 1) ltac:(lia) Ok0) as (st3 & -> & Ok3 & G3). cbn [mbind option_bind].
  destruct (named_refs_ok lst gld good S a b Ha ltac:(lia) HlS Hgood (seqZ a (b - a + 1)) st3 Ok3) as (st4 & -> & Ok4 & G4 & F4).
  { apply Forall_lookup. intros k i Hk. apply lookup_seqZ in Hk as [-> Hk]. lia. }
  assert (forall i, a <= i <= b -> i ∈ seqZ a (b - a + 1)) as Hrange by (intros i Hi; apply elem_of_seqZ; lia).
  pose proof (proj1 (F4 p x (Hrange p Hp) Hpx) Ex) as F0. pose proof (proj2 (F4 q y (Hrange q Hq) Hqy) Ey) as F3. cbn [mbind option_bind].
  destruct (latest_ok lst gld good S a b Ha ltac:(lia) HlS Hgood ref_frame_list b st4 ltac:(lia) ltac:(lia) Ok4) as (st5 & -> & Ok5 & G5 & F5).
  { repeat constructor; lia. }
  cbn [mbind option_bind]. eexists. split; [done |]. cbv iota. split; [done |].
  assert (length (remapped st5) = length old) as El by (by rewrite (proj1 G5), (proj1 G4), (proj1 G3)).
  assert (forall f, (f < 7)%nat -> ref_flags st5 !! f = Some true) as Hall.
  { pose proof (proj2 G5 _ F0). pose proof (proj2 G5 _ F3). unfold ref_frame_list in F5. rewrite !Forall_cons_iff in F5. destruct F5 as (? & ? & ? & ? & ? & _).
    intros f Hf7. destruct f as [| [| [| [| [| [| [| f]]]]]]]; try done; lia. }
  destruct (so_set _ _ _ _ Ok5 0%nat (Hall 0%nat ltac:(lia))) as (m0 & E0 & _ & N0 & _). destruct (so_set _ _ _ _ Ok5 3%nat (Hall 3%nat ltac:(lia))) as (m3 & E3 & _ & _ & N3).
  rewrite (N0 eq_refl) in E0. rewrite (N3 eq_refl) in E3. split_and!; [done | done | done |].
  intros f Hf7. destruct (so_set _ _ _ _ Ok5 f (Hall f Hf7)) as (m & Em & [Hm (h & Eh)] & _). exists m, h. done.
Qed.

(** C20: When a frame header names only the last and the golden frame, the other five names
    follow from the order hints.  If either of the two is missing or not shown before the
    current frame, the header is refused as corrupt; otherwise every one of the seven
    names gets a slot of the map that has a frame, whatever the names stood for before,
    and the two names keep the slots that were sent. *)
Theorem frame_refs_assigned oh cur lst gld hints old :
  enable_order_hint oh = true -> 0 <= order_hint_bits_minus_1 oh < 8 -> length hints = 8%nat ->
  Forall (fun o => forall h, o = Some h -> 0 <= h) hints -> 0 <= lst < 8 -> 0 <= gld < 8 -> (7 <= length old)%nat ->
  exists r, av1_set_frame_refs oh cur lst gld hints old = Some r /\
    match r with
    | inl e => e = AOM_CODEC_CORRUPT_FRAME /\ ~ (shown_before oh cur hints lst /\ shown_before oh cur hints gld)
    | inr refs => (shown_before oh cur hints lst /\ shown_before oh cur hints gld) /\ length refs = length old /\
        refs !! 0%nat = Some lst /\ refs !! 3%nat = Some gld /\
        forall f, (f < 7)%nat -> exists m h, refs !! f = Some m /\ 0 <= m < 8 /\ zget hints m = Some (Some h)
    end.
Proof. apply set_frame_refs_spec. Qed.

(** Slots 1 and 4 sent for the last and the golden frame, eight frames around hint 16. *)
Definition demo_map : list (option Z) := [Some 10; Some 14; Some 18; None; Some 8; Some 24; Some 20; Some 14].

Lemma frame_refs_assigned_witness :
  av1_set_frame_refs demo_oh 16 1 4 demo_map (replicate 8 INVALID_IDX) = Some (inr [1; 7; 0; 4; 2; 6; 5; -1]) /\
  exists r, av1_set_frame_refs demo_oh 16 1 4 demo_map (replicate 8 INVALID_IDX) = Some r /\
    match r with
    | inl e => e = AOM_CODEC_CORRUPT_FRAME /\ ~ (shown_before demo_oh 16 demo_map 1 /\ shown_before demo_oh 16 demo_map 4)
    | inr refs => (shown_before demo_oh 16 demo_map 1 /\ shown_before demo_oh 16 demo_map 4) /\ length refs = length (replicate 8 INVALID_IDX) /\
        refs !! 0%nat = Some 1 /\ refs !! 3%nat = Some 4 /\
        forall f, (f < 7)%nat -> exists m h, refs !! f = Some m /\ 0 <= m < 8 /\ zget demo_map m = Some (Some h)
    end.
Proof.
  split; [reflexivity |]. apply frame_refs_assigned; try lia; try reflexivity; [cbn; lia | | cbn; lia].
  repeat constructor; intros h [= <-]; lia.
Defined.
