(* ===== verification/FrameTail.v ===== *)
(** * The frame header after the tile information

    The fields of [write_uncompressed_header_obu] ([av1/encoder/bitstream.c]) and
    [read_uncompressed_header] ([av1/decoder/decodeframe.c]) from the quantizer to the film
    grain parameters, composed of the parts in [FrameQuant.v], [FrameFilters.v],
    [RefOrder.v], [GlobalMotion.v] and [FilmGrain.v].  The allocation of the above contexts
    and the tables for dequantization in between, which no field depends on, are left
    out. *)

From S2P Require Import Prelude CodecTypes BitChannel BitBuffer EntCoder RangeSpec Cdf EntEncProof EntDecProof EntRoundTrip SymbolIO SyntaxIO TxCommon FrameContext Tile TileInfo MvCoding Leb128 Obu HeaderIO SeqHeader FrameQuant FrameFilters FilmGrain GlobalMotion RefOrder.

#[local] Arguments Z.of_nat : simpl never.
#[local] Arguments Z.mul : simpl never.

Inductive TX_MODE := ONLY_4X4 | TX_MODE_LARGEST | TX_MODE_SELECT.

#[export] Instance TX_MODE_eq_dec : EqDecision TX_MODE.
Proof. solve_decision. Defined.

(** What the primary reference frame keeps. *)
Record prev_frame := { pf_seg : seg_frame; pf_deltas : lf_deltas; pf_models : list warp_model }.

(** What both sides know when they come to these fields: the sequence, the fields in front,
    the order hints of the references by name, and the primary reference frame, which is
    there unless [primary_ref_frame] is [PRIMARY_REF_NONE]. *)
Record frame_site := {
  fs_num_planes : Z; fs_separate_uv_delta_q : bool; fs_ss_x : Z; fs_ss_y : Z;
  fs_enable_cdef : bool; fs_enable_restoration : bool; fs_sb_128 : bool; fs_enable_warped_motion : bool;
  fs_order_hint_info : OrderHintInfo; fs_grain_present : bool; fs_grain : grain_site;
  fs_intra_only : bool; fs_error_resilient_mode : bool; fs_allow_intrabc : bool; fs_superres_scaled : bool;
  fs_allow_high_precision_mv : bool; fs_allow_ref_frame_mvs : bool; fs_shown : bool; fs_mi_rows : Z; fs_mi_cols : Z;
  fs_order_hint : Z; fs_ref_hints : list (option Z); fs_prev : option prev_frame }.

Definition primary_none (s : frame_site) : bool := match fs_prev s with None => true | Some _ => false end.

Definition frame_might_allow_ref_frame_mvs (s : frame_site) : bool :=
  negb (fs_error_resilient_mode s) && enable_ref_frame_mvs (fs_order_hint_info s) && enable_order_hint (fs_order_hint_info s) &&
  negb (fs_intra_only s).
Definition frame_might_allow_warped_motion (s : frame_site) : bool :=
  negb (fs_error_resilient_mode s) && negb (fs_intra_only s) && fs_enable_warped_motion s.

(** ** Writing *)

(** What the encoder has decided. *)
Record frame_params := {
  fp_quant : CommonQuantParams; fp_seg : segmentation; fp_delta_q : DeltaQInfo; fp_coded_lossless : bool; fp_all_lossless : bool;
  fp_lf : loopfilter; fp_cdef : CdefInfo; fp_rst : rst_infos; fp_tx_mode : TX_MODE; fp_reference_mode : REFERENCE_MODE;
  fp_skip_mode_allowed : bool; fp_skip_mode_flag : bool; fp_allow_warped_motion : bool; fp_reduced_tx_set_used : bool;
  fp_models : list warp_model; fp_grain : aom_film_grain_t }.

Definition write_frame_tail (s : frame_site) (p : frame_params) : hwriter :=
  _ ← encode_quantization (fs_num_planes s) (fs_separate_uv_delta_q s) (fp_quant p);
  _ ← encode_segmentation (primary_none s) (fp_seg p);
  _ ← write_delta_q_info (base_qindex (fp_quant p)) (fs_allow_intrabc s) (fp_delta_q p);
  _ ← (if fp_all_lossless p then mret tt
       else
         _ ← (if negb (fp_coded_lossless p) then
                _ ← encode_loopfilter (fs_num_planes s) (fs_allow_intrabc s) (pf_deltas <$> fs_prev s) (fp_lf p);
                encode_cdef (fs_num_planes s) (fs_allow_intrabc s) (fs_enable_cdef s) (fp_cdef p)
              else mret tt);
         encode_restoration_mode (fs_num_planes s) (fs_allow_intrabc s) (fs_sb_128 s) (fs_ss_x s) (fs_ss_y s)
           (fs_enable_restoration s) (fp_rst p));
  _ ← (if fp_coded_lossless p then mret tt else w_flag (bool_decide (fp_tx_mode p = TX_MODE_SELECT)));
  _ ← (if negb (fs_intra_only s) then w_flag (bool_decide (fp_reference_mode p = REFERENCE_MODE_SELECT)) else mret tt);
  _ ← (if fp_skip_mode_allowed p then w_flag (fp_skip_mode_flag p) else mret tt);
  _ ← (if frame_might_allow_warped_motion s then w_flag (fp_allow_warped_motion p) else mret tt);
  _ ← w_flag (fp_reduced_tx_set_used p);
  _ ← (if negb (fs_intra_only s) then
         write_global_motion (fs_allow_high_precision_mv s) (pf_models <$> fs_prev s) (fp_models p)
       else mret tt);
  if fs_grain_present s && fs_shown s then write_film_grain_params (fs_grain s) (fp_grain p) else mret tt.

(** ** Reading *)

(** What the decoder had before the frame and has after it. *)
Record dec_params := {
  dp_seg : seg_state; dp_lf : loopfilter; dp_cdef : CdefInfo; dp_rst : rst_infos; dp_models : list warp_model; dp_grain : aom_film_grain_t }.

Definition no_levels (lf : loopfilter) : loopfilter :=
  {| filter_level_0 := 0; filter_level_1 := 0; filter_level_u := filter_level_u lf; filter_level_v := filter_level_v lf;
     sharpness_level := sharpness_level lf; mode_ref_delta_enabled := mode_ref_delta_enabled lf;
     mode_ref_delta_update := mode_ref_delta_update lf; lf_deltas_of := lf_deltas_of lf |}.

(** The first strengths, and the number of them when it is given. *)
Definition no_cdef (nb : option Z) (c : CdefInfo) : CdefInfo :=
  {| cdef_damping := cdef_damping c; cdef_bits := 0; nb_cdef_strengths := default (nb_cdef_strengths c) nb;
     cdef_strengths := <[0%nat := 0]> (cdef_strengths c); cdef_uv_strengths := <[0%nat := 0]> (cdef_uv_strengths c) |}.

Definition no_restoration (r : rst_infos) : rst_infos := with_types RESTORE_NONE RESTORE_NONE RESTORE_NONE r.

(** No filtering with intra block copy. *)
Definition intrabc_reset (o : dec_params) : dec_params :=
  {| dp_seg := dp_seg o; dp_lf := no_levels (dp_lf o); dp_cdef := no_cdef (Some 1) (dp_cdef o); dp_rst := no_restoration (dp_rst o);
     dp_models := dp_models o; dp_grain := dp_grain o |}.

(** The part of [av1_setup_past_independence] that these fields see. *)
Definition av1_setup_past_independence (o : dec_params) : dec_params :=
  {| dp_seg := {| ss_seg := av1_clearall_segfeatures (ss_seg (dp_seg o)); ss_cur_seg := ss_cur_seg (dp_seg o);
                  ss_cur_map := (fun m => replicate (length m) 0) <$> ss_cur_map (dp_seg o); ss_last_map := ss_last_map (dp_seg o) |};
     dp_lf := {| filter_level_0 := filter_level_0 (dp_lf o); filter_level_1 := filter_level_1 (dp_lf o);
                 filter_level_u := filter_level_u (dp_lf o); filter_level_v := filter_level_v (dp_lf o);
                 sharpness_level := sharpness_level (dp_lf o); mode_ref_delta_enabled := true; mode_ref_delta_update := true;
                 lf_deltas_of := default_lf_deltas |};
     dp_cdef := dp_cdef o; dp_rst := dp_rst o; dp_models := dp_models o; dp_grain := dp_grain o |}.

Definition read_tx_mode (coded_lossless : bool) : hreader TX_MODE :=
  if coded_lossless then mret ONLY_4X4 else b ← r_flag; mret (if b : bool then TX_MODE_SELECT else TX_MODE_LARGEST).

Definition read_frame_reference_mode (intra_only : bool) : hreader REFERENCE_MODE :=
  if intra_only then mret SINGLE_REFERENCE else b ← r_flag; mret (if b : bool then REFERENCE_MODE_SELECT else SINGLE_REFERENCE).

Record read_params := {
  rp_quant : CommonQuantParams; rp_delta_q : DeltaQInfo; rp_coded_lossless : bool; rp_all_lossless : bool; rp_frame_deltas : lf_deltas;
  rp_tx_mode : TX_MODE; rp_reference_mode : REFERENCE_MODE; rp_skip : skip_refs; rp_skip_mode_flag : bool;
  rp_allow_warped_motion : bool; rp_reduced_tx_set_used : bool; rp_dec : dec_params }.

(** The state before the fields: resets by earlier fields. *)
Definition start_params (s : frame_site) (o : dec_params) : dec_params :=
  let o := if fs_allow_intrabc s then intrabc_reset o else o in
  if primary_none s then av1_setup_past_independence o else o.

(** The loop filter, the enhancement filter and the restoration before theirs. *)
Definition lossless_lf (coded : bool) (lf : loopfilter) : loopfilter := if coded then no_levels lf else lf.
Definition lossless_cdef (off : bool) (c : CdefInfo) : CdefInfo := if off then no_cdef None c else c.
Definition lossless_rst (off : bool) (r : rst_infos) : rst_infos := if off then no_restoration r else r.

Definition read_frame_tail (s : frame_site) (o : dec_params) : hreader read_params :=
  let o := start_params s o in
  q ← setup_quantization (fs_num_planes s) (fs_separate_uv_delta_q s);
  st ← setup_segmentation (fs_mi_rows s) (fs_mi_cols s) (pf_seg <$> fs_prev s) (primary_none s) (dp_seg o);
  dq ← read_delta_q_info (base_qindex q) (fs_allow_intrabc s);
  lossless ← lift (lossless_segments q (ss_seg st));
  coded ← lift (is_coded_lossless (ss_seg st) lossless);
  let all := coded && negb (fs_superres_scaled s) in
  let lf := lossless_lf coded (dp_lf o) in
  let cdef := lossless_cdef (coded || negb (fs_enable_cdef s)) (dp_cdef o) in
  let rst := lossless_rst (all || negb (fs_enable_restoration s)) (dp_rst o) in
  '(lf, deltas) ← setup_loopfilter (fs_num_planes s) (fs_allow_intrabc s) (pf_deltas <$> fs_prev s) coded lf;
  cdef ← (if negb coded && fs_enable_cdef s then setup_cdef (fs_num_planes s) (fs_allow_intrabc s) cdef else mret cdef);
  rst ← (if negb all && fs_enable_restoration s then
           decode_restoration_mode (fs_num_planes s) (fs_allow_intrabc s) (fs_sb_128 s) (fs_ss_x s) (fs_ss_y s) rst
         else mret rst);
  tx ← read_tx_mode coded;
  mode ← read_frame_reference_mode (fs_intra_only s);
  let skip := av1_setup_skip_mode_allowed (fs_order_hint_info s) (fs_order_hint s) (fs_intra_only s) mode (fs_ref_hints s) in
  flag ← (if skip_mode_allowed skip then r_flag else mret false);
  warped ← (if frame_might_allow_warped_motion s then r_flag else mret false);
  reduced ← r_flag;
  _ ← check (negb (fs_allow_ref_frame_mvs s && negb (frame_might_allow_ref_frame_mvs s))) AOM_CODEC_CORRUPT_FRAME;
  models ← (if negb (fs_intra_only s) then read_global_motion (fs_allow_high_precision_mv s) (pf_models <$> fs_prev s) else mret (dp_models o));
  grain ← read_film_grain (fs_grain s) (fs_grain_present s) (fs_shown s) (dp_grain o);
  mret {| rp_quant := q; rp_delta_q := dq; rp_coded_lossless := coded; rp_all_lossless := all; rp_frame_deltas := deltas;
          rp_tx_mode := tx; rp_reference_mode := mode; rp_skip := skip; rp_skip_mode_flag := flag;
          rp_allow_warped_motion := warped; rp_reduced_tx_set_used := reduced;
          rp_dec := {| dp_seg := st; dp_lf := lf; dp_cdef := cdef; dp_rst := rst; dp_models := models; dp_grain := grain |} |}.

(** ** What is sent is read back *)

(** What the two sides rely on before these fields. *)
Record site_ok (s : frame_site) : Prop := {
  sk_sub : (fs_ss_x s = 0 \/ fs_ss_x s = 1) /\ (fs_ss_y s = 0 \/ fs_ss_y s = 1);
  sk_deltas : forall p, fs_prev s = Some p -> deltas_ok (pf_deltas p);
  sk_models : forall p, fs_prev s = Some p -> length (pf_models p) = 7%nat /\ Forall (fun m => gm_range (wm_params m)) (pf_models p);
  sk_mvs : fs_allow_ref_frame_mvs s = true -> frame_might_allow_ref_frame_mvs s = true }.

(** Decisions an encoder can make: each part is legal, and the derived fields follow from
    the others. *)
Record params_ok (s : frame_site) (p : frame_params) : Prop := {
  pk_quant : quant_ok (fs_num_planes s) (fs_separate_uv_delta_q s) (fp_quant p);
  pk_seg : seg_enabled (fp_seg p) = true -> seg_ready (pf_seg <$> fs_prev s) (primary_none s) (fp_seg p);
  pk_delta_q : delta_q_ok (base_qindex (fp_quant p)) (fs_allow_intrabc s) (fp_delta_q p);
  pk_lossless : (l ← lossless_segments (fp_quant p) (fp_seg p); is_coded_lossless (fp_seg p) l) = Some (fp_coded_lossless p) /\
    fp_all_lossless p = fp_coded_lossless p && negb (fs_superres_scaled s);
  pk_lf : lf_ok (fp_lf p);
  pk_cdef : cdef_ok (fp_cdef p);
  pk_rst : rst_ok (fs_num_planes s) (fs_sb_128 s) (fs_ss_x s) (fs_ss_y s) (fp_rst p);
  pk_tx_mode : if fp_coded_lossless p then fp_tx_mode p = ONLY_4X4 else fp_tx_mode p <> ONLY_4X4;
  pk_mode : fp_reference_mode p <> COMPOUND_REFERENCE /\ (fs_intra_only s = true -> fp_reference_mode p = SINGLE_REFERENCE);
  pk_skip : fp_skip_mode_allowed p = skip_mode_allowed (av1_setup_skip_mode_allowed (fs_order_hint_info s) (fs_order_hint s)
      (fs_intra_only s) (fp_reference_mode p) (fs_ref_hints s)) /\
    (fp_skip_mode_allowed p = false -> fp_skip_mode_flag p = false);
  pk_warped : frame_might_allow_warped_motion s = false -> fp_allow_warped_motion p = false;
  pk_models : fs_intra_only s = false -> length (fp_models p) = 7%nat /\ Forall (gm_ok (fs_allow_high_precision_mv s)) (fp_models p);
  pk_grain : apply_grain (fp_grain p) = true -> grain_ok (fs_grain s) (fp_grain p) /\
    (update_parameters (fp_grain p) = false -> grain_shared (fs_grain s) (fp_grain p)) }.

(** What a decoder has before, from its creation on: its arrays, with coefficients of their
    width. *)
Record old_ok (o : dec_params) : Prop := { ol_cdef : cdef_arrays (dp_cdef o); ol_grain : coeffs_ok (dp_grain o) }.

(** What it has afterwards. *)
Definition tail_after (s : frame_site) (o : dec_params) (p : frame_params) : read_params :=
  let o := start_params s o in
  let coded := fp_coded_lossless p in
  let all := fp_all_lossless p in
  let lf := lossless_lf coded (dp_lf o) in
  let cdef := lossless_cdef (coded || negb (fs_enable_cdef s)) (dp_cdef o) in
  let rst := lossless_rst (all || negb (fs_enable_restoration s)) (dp_rst o) in
  let lf' := if fs_allow_intrabc s || coded then lf else kept_lf (fs_num_planes s) (pf_deltas <$> fs_prev s) lf (fp_lf p) in
  {| rp_quant := fp_quant p; rp_delta_q := fp_delta_q p; rp_coded_lossless := coded; rp_all_lossless := all;
     rp_frame_deltas := if fs_allow_intrabc s || coded then default_lf_deltas else lf_deltas_of lf';
     rp_tx_mode := fp_tx_mode p; rp_reference_mode := fp_reference_mode p;
     rp_skip := av1_setup_skip_mode_allowed (fs_order_hint_info s) (fs_order_hint s) (fs_intra_only s) (fp_reference_mode p) (fs_ref_hints s);
     rp_skip_mode_flag := fp_skip_mode_flag p; rp_allow_warped_motion := fp_allow_warped_motion p;
     rp_reduced_tx_set_used := fp_reduced_tx_set_used p;
     rp_dec :=
       {| dp_seg := kept_seg (fs_mi_rows s) (fs_mi_cols s) (pf_seg <$> fs_prev s) (dp_seg o) (fp_seg p);
          dp_lf := lf';
          dp_cdef := if negb coded && fs_enable_cdef s && negb (fs_allow_intrabc s) then kept_cdef (fs_num_planes s) cdef (fp_cdef p) else cdef;
          dp_rst := if negb all && fs_enable_restoration s && negb (fs_allow_intrabc s)
                    then kept_rst (fs_num_planes s) (fs_ss_x s) (fs_ss_y s) rst (fp_rst p) else rst;
          dp_models := if fs_intra_only s then dp_models o else fp_models p;
          dp_grain := with_depth (gs_bit_depth (fs_grain s))
            (if fs_grain_present s && fs_shown s then grain_after (fs_grain s) (dp_grain o) (fp_grain p) else grain_zero) |} |}.

(** A decoder without segments finds the same segments lossless. *)
Lemma lossless_off q seg seg' : seg_enabled seg = false -> seg_enabled seg' = false -> lossless_segments q seg = lossless_segments q seg'.
Proof.
  intros E E'. unfold lossless_segments. apply mapM_ext. intros i. unfold av1_get_qindex, seg_active. by rewrite E, E'.
Qed.

Lemma lossless_kept rows cols prev st q seg :
  (l ← lossless_segments q (ss_seg (kept_seg rows cols prev st seg)); is_coded_lossless (ss_seg (kept_seg rows cols prev st seg)) l) =
  (l ← lossless_segments q seg; is_coded_lossless seg l).
Proof.
  unfold kept_seg. destruct (seg_enabled seg) eqn:E; [done |]. cbn [ss_seg]. rewrite (lossless_off q seg_zero seg) by done. unfold is_coded_lossless. by rewrite E.
Qed.

Lemma no_cdef_arrays nb c : cdef_arrays c -> cdef_arrays (no_cdef nb c).
Proof. intros [L1 L2]. split; cbn; by rewrite length_insert. Qed.

Lemma no_cdef_off nb c : cdef_arrays c -> cdef_off (no_cdef nb c).
Proof. intros [L1 L2]. unfold cdef_off. cbn. by destruct (cdef_strengths c), (cdef_uv_strengths c). Qed.

Lemma no_cdef_fine nb c : nb = None \/ nb = Some 1 -> cdef_fine c -> cdef_fine (no_cdef nb c).
Proof.
  intros Hn [Hd [Hb Hc] (L1 & L2 & F1 & F2)]. split; cbn; [done | |].
  - change (2 ^ 0) with 1. pose proof (pow2_pos (cdef_bits c) ltac:(lia)). destruct Hn as [-> | ->]; cbn; lia.
  - rewrite !length_insert. split_and!; try done; apply Forall_insert; (done || lia).
Qed.

Lemma cdef_fine_arrays c : cdef_fine c -> cdef_arrays c.
Proof. by intros [_ _ (L1 & L2 & _)]. Qed.

Lemma start_old_ok s o : old_ok o -> old_ok (start_params s o).
Proof.
  intros [Hc Hg]. unfold start_params. cbv zeta.
  assert (old_ok (if fs_allow_intrabc s then intrabc_reset o else o)) as Hr
    by (destruct (fs_allow_intrabc s); [split; [by apply no_cdef_arrays | done] | by split]).
  destruct (primary_none s); [destruct Hr; by split | done].
Qed.

(** *** The filters *)

Lemma carries_lf_part num_planes (intrabc : bool) prev (coded : bool) old lf : prev_deltas_ok prev -> lf_ok lf ->
  carries 500 (if coded then mret tt else encode_loopfilter num_planes intrabc prev lf) (setup_loopfilter num_planes intrabc prev coded old)
    (if intrabc || coded then old else kept_lf num_planes prev old lf,
     if intrabc || coded then default_lf_deltas else lf_deltas_of (if intrabc || coded then old else kept_lf num_planes prev old lf)).
Proof.
  intros Hd Hl. destruct coded; [within 0%nat; unfold setup_loopfilter; rewrite orb_true_r; apply carries_ret |].
  destruct intrabc; [within 0%nat; apply carries_ret |]. by apply carries_loopfilter.
Qed.

Lemma carries_cdef_part num_planes (intrabc coded enable : bool) old c : cdef_arrays old -> cdef_ok c ->
  carries 1088 (if coded then mret tt else encode_cdef num_planes intrabc enable c)
    (if negb coded && enable then setup_cdef num_planes intrabc old else mret old)
    (if negb coded && enable && negb intrabc then kept_cdef num_planes old c else old).
Proof.
  intros Ho Hc. destruct coded; cbn [negb andb]; [within 0%nat; apply carries_ret |]. destruct enable; cbn [andb]; [| within 0%nat; apply carries_ret].
  destruct intrabc; cbn [negb]; [within 0%nat; apply carries_ret |]. by apply carries_cdef.
Qed.

Lemma carries_rst_part num_planes (intrabc sb128 : bool) ssx ssy (all enable : bool) old r : rst_ok num_planes sb128 ssx ssy r ->
  carries 9 (if all then mret tt else encode_restoration_mode num_planes intrabc sb128 ssx ssy enable r)
    (if negb all && enable then decode_restoration_mode num_planes intrabc sb128 ssx ssy old else mret old)
    (if negb all && enable && negb intrabc then kept_rst num_planes ssx ssy old r else old).
Proof.
  intros Hr. destruct all; cbn [negb andb]; [within 0%nat; apply carries_ret |]. destruct enable; cbn [andb]; [| within 0%nat; apply carries_ret].
  destruct intrabc; cbn [negb]; [within 0%nat; apply carries_ret |]. by apply carries_restoration.
Qed.

(** The three filters one after the other, as they are read. *)
Lemma filters_in_order {A} N (coded all : bool) (lf cdef rst m : hwriter) (k : hreader A) a : (all = true -> coded = true) ->
  carries N (_ ← (if coded then mret tt else lf); _ ← (if coded then mret tt else cdef); _ ← (if all then mret tt else rst); m) k a ->
  carries N (_ ← (if all then mret tt else _ ← (if negb coded then _ ← lf; cdef else mret tt); rst); m) k a.
Proof.
  intros Hc. apply carries_ext_w. intros w. destruct all; [by rewrite (Hc eq_refl) |]. destruct coded; [done |]. cbn [negb].
  unfold mbind, writer_bind. destruct (lf w) as [[? w1] |]; [| done]. by destruct (cdef w1) as [[? w2] |].
Qed.

(** *** Modes *)

Lemma carries_tx_mode (coded : bool) tx : (if coded then tx = ONLY_4X4 else tx <> ONLY_4X4) ->
  carries 1 (if coded then mret tt else w_flag (bool_decide (tx = TX_MODE_SELECT))) (read_tx_mode coded) tx.
Proof.
  intros Ht. unfold read_tx_mode. destruct coded; [rewrite Ht; within 0%nat; apply carries_ret |].
  eapply carries_post; [apply carries_flag |]. intros r. by destruct tx.
Qed.

Lemma carries_reference_mode (intra : bool) mode : mode <> COMPOUND_REFERENCE -> (intra = true -> mode = SINGLE_REFERENCE) ->
  carries 1 (if negb intra then w_flag (bool_decide (mode = REFERENCE_MODE_SELECT)) else mret tt) (read_frame_reference_mode intra) mode.
Proof.
  intros Hm Hi. unfold read_frame_reference_mode. destruct intra; cbn [negb]; [rewrite (Hi eq_refl); within 0%nat; apply carries_ret |].
  eapply carries_post; [apply carries_flag |]. intros r. by destruct mode.
Qed.

(** A flag that is sent only when it can be set. *)
Lemma carries_flag_if (c b : bool) : (c = false -> b = false) -> carries 1 (if c then w_flag b else mret tt) (if c then r_flag else mret false) b.
Proof. intros H. destruct c; [apply carries_flag |]. rewrite (H eq_refl). within 0%nat. apply carries_ret. Qed.

(** The frame header carries every decision. *)
Lemma carries_frame_tail s o p : site_ok s -> params_ok s p -> old_ok o ->
  carries (Z.to_nat 11300) (write_frame_tail s p) (read_frame_tail s o) (tail_after s o p).
Proof.
  intros Hs Hp Ho. apply (start_old_ok s) in Ho. unfold write_frame_tail, read_frame_tail, tail_after. cbv zeta. set (o' := start_params s o) in *. clearbody o'.
  destruct (pk_lossless _ _ Hp) as [Hcoded Hall]. destruct (pk_mode _ _ Hp) as [Hm1 Hm2]. destruct (pk_skip _ _ Hp) as [Hsk1 Hsk2].
  apply (carries_le (300 + (2116 + (67 + (500 + (1088 + (9 + (1 + (1 + (1 + (1 + (1 + (2205 + 5000)))))))))))))%nat; [lia |].
  eapply carries_bind; [apply carries_quantization, (pk_quant _ _ Hp) |]. cbv beta.
  eapply carries_bind; [apply carries_segmentation, (pk_seg _ _ Hp) |]. cbv beta.
  eapply carries_bind; [apply carries_delta_q_info, (pk_delta_q _ _ Hp) |]. cbv beta.
  rewrite <- (lossless_kept (fs_mi_rows s) (fs_mi_cols s) (pf_seg <$> fs_prev s) (dp_seg o')) in Hcoded. set (st := kept_seg _ _ _ _ _) in *.
  destruct (lossless_segments (fp_quant p) (ss_seg st)) as [l |] eqn:El; [| done]. cbn [mbind option_bind] in Hcoded.
  apply (carries_lift _ _ _ l); [done |]. apply (carries_lift _ _ _ (fp_coded_lossless p)); [done |]. cbv zeta. rewrite <- Hall.
  apply filters_in_order; [intros E; rewrite E in Hall; by destruct (fp_coded_lossless p) |].
  eapply carries_bind; [apply carries_lf_part; [| apply (pk_lf _ _ Hp)] |].
  { intros d Hd. destruct (fs_prev s) as [pf |] eqn:Ep; [| done]. injection Hd as <-. by apply (sk_deltas _ Hs). }
  cbv beta iota. eapply carries_bind; [apply carries_cdef_part; [| apply (pk_cdef _ _ Hp)] |].
  { destruct (_ || _); [apply no_cdef_arrays |]; apply (ol_cdef _ Ho). }
  cbv beta. eapply carries_bind; [apply carries_rst_part, (pk_rst _ _ Hp) |]. cbv beta.
  eapply carries_bind; [apply carries_tx_mode, (pk_tx_mode _ _ Hp) |]. cbv beta.
  eapply carries_bind; [by apply carries_reference_mode |]. cbv beta. rewrite <- Hsk1.
  eapply carries_bind; [by apply carries_flag_if |]. cbv beta. eapply carries_bind; [apply carries_flag_if, (pk_warped _ _ Hp) |]. cbv beta.
  carry carries_flag. apply carries_check; [destruct (fs_allow_ref_frame_mvs s) eqn:Em; [by rewrite (sk_mvs _ Hs Em) | done] |].
  eapply (carries_bind _ _ _ _ _ _ (if fs_intra_only s then dp_models o' else fp_models p)).
  { destruct (fs_intra_only s) eqn:Ei; cbn [negb]; [within 0%nat; apply carries_ret |]. destruct (pk_models _ _ Hp Ei) as [Lm Fm].
    destruct (prev_models_ok (pf_models <$> fs_prev s)) as [Lr Fr].
    { intros l' Hl'. destruct (fs_prev s) as [pf |] eqn:Ep; [| done]. injection Hl' as <-. by apply (sk_models _ Hs). }
    within (315 * length (fp_models p))%nat. apply carries_models; [done | done | congruence]. }
  cbv beta. eapply carries_post.
  - unfold read_film_grain. eapply (carries_post _ _ _ _ (if fs_grain_present s && fs_shown s then grain_after (fs_grain s) (dp_grain o') (fp_grain p) else grain_zero)); [| done].
    destruct (fs_grain_present s && fs_shown s); [apply carries_grain; [apply (ol_grain _ Ho) | intros Ha; apply (pk_grain _ _ Hp Ha)] | within 0%nat; apply carries_ret].
  - done.
Qed.

(** The grain of the frame is the one decided on. *)
Lemma tail_grain s o p : params_ok s p -> fs_grain_present s && fs_shown s && apply_grain (fp_grain p) = true ->
  grain_values (dp_grain (rp_dec (tail_after s o p))) = grain_values (fp_grain p) /\
  random_seed (dp_grain (rp_dec (tail_after s o p))) = random_seed (fp_grain p).
Proof.
  intros Hp [E Ha]%andb_true_iff. destruct (pk_grain _ _ Hp Ha) as [Hok Hs]. unfold tail_after. cbv zeta. cbn [rp_dec dp_grain]. rewrite E.
  exact (grain_after_values _ (dp_grain (start_params s o)) _ Ha Hok Hs).
Qed.

(** ** On any bytes *)

(** What a decoder relies on before these fields. *)
Record site_safe (s : frame_site) : Prop := {
  sf_site : (fs_ss_x s = 0 \/ fs_ss_x s = 1) /\ (fs_ss_y s = 0 \/ fs_ss_y s = 1);
  sf_prev : forall p, fs_prev s = Some p -> seg_inv (sf_seg (pf_seg p)) /\ deltas_ok (pf_deltas p) /\
    length (pf_models p) = 7%nat /\ Forall (fun m => gm_range (wm_params m)) (pf_models p);
  sf_grain : length (gs_ref_frame_map (fs_grain s)) = 8%nat /\
    Forall (fun o => forall b, o = Some b -> grain_inv (fs_grain s) (buf_grain b)) (gs_ref_frame_map (fs_grain s)) }.

(** What it keeps from frame to frame. *)
Record dec_inv (s : frame_site) (o : dec_params) : Prop := {
  di_seg : seg_inv (ss_seg (dp_seg o)); di_lf : lf_ok (dp_lf o); di_cdef : cdef_fine (dp_cdef o); di_rst : rst_fine (dp_rst o);
  di_models : length (dp_models o) = 7%nat /\ Forall gm_safe (dp_models o); di_grain : grain_inv (fs_grain s) (dp_grain o) }.

Lemma no_levels_ok lf : lf_ok lf -> lf_ok (no_levels lf).
Proof. intros [(_ & _ & Hu & Hv) Hs Hd]. split; cbn; [lia | done | done]. Qed.

Lemma start_inv s o : dec_inv s o -> dec_inv s (start_params s o).
Proof.
  intros [Hs Hl Hc Hr Hm Hg]. unfold start_params. cbv zeta.
  assert (dec_inv s (if fs_allow_intrabc s then intrabc_reset o else o)) as [Is Il Ic Ir Im Ig]
    by (destruct (fs_allow_intrabc s); [| by split]; split; cbn; try done; [by apply no_levels_ok | apply no_cdef_fine; [by right | done]]).
  destruct (primary_none s); [| by split]. set (o1 := if fs_allow_intrabc s then _ else _) in *. clearbody o1. split; cbn; try done.
  - apply seg_inv_zero.
  - destruct Il as [? ? ?]. split; cbn; [done | done | apply default_deltas_ok].
Qed.

Lemma with_depth_inv s d p : grain_inv s p -> grain_inv s (with_depth d p).
Proof. intros [[Ha Hb] Hm Hs Hn]. split; [by split | done | done |]. intros Hap. destruct (Hn Hap). by split. Qed.

(** What is read. *)
Record read_inv (s : frame_site) (r : read_params) : Prop := {
  ri_quant : quant_ok (fs_num_planes s) (fs_separate_uv_delta_q s) (rp_quant r);
  ri_delta_q : delta_q_ok (base_qindex (rp_quant r)) (fs_allow_intrabc s) (rp_delta_q r);
  ri_lossless : (l ← lossless_segments (rp_quant r) (ss_seg (dp_seg (rp_dec r))); is_coded_lossless (ss_seg (dp_seg (rp_dec r))) l) =
    Some (rp_coded_lossless r) /\ rp_all_lossless r = rp_coded_lossless r && negb (fs_superres_scaled s);
  ri_deltas : deltas_ok (rp_frame_deltas r);
  ri_tx_mode : rp_coded_lossless r = true <-> rp_tx_mode r = ONLY_4X4;
  ri_mode : rp_reference_mode r <> COMPOUND_REFERENCE /\ (fs_intra_only s = true -> rp_reference_mode r = SINGLE_REFERENCE);
  ri_skip : rp_skip_mode_flag r = true -> skip_mode_allowed (rp_skip r) = true;
  ri_warped : rp_allow_warped_motion r = true -> frame_might_allow_warped_motion s = true;
  ri_cdef : if negb (rp_coded_lossless r) && fs_enable_cdef s && negb (fs_allow_intrabc s)
    then cdef_ok (dp_cdef (rp_dec r)) else cdef_off (dp_cdef (rp_dec r));
  ri_rst : if negb (rp_all_lossless r) && fs_enable_restoration s && negb (fs_allow_intrabc s)
    then rst_legal (fs_num_planes s) (dp_rst (rp_dec r)) else rst_off (dp_rst (rp_dec r));
  ri_dec : dec_inv s (rp_dec r) }.

(** With intra block copy the filters are off before their fields. *)
Lemma start_off s o : dec_inv s o -> fs_allow_intrabc s = true ->
  cdef_off (dp_cdef (start_params s o)) /\ rst_off (dp_rst (start_params s o)).
Proof.
  intros [_ _ Hc _ _ _] E. unfold start_params. rewrite E. cbv zeta.
  assert (cdef_off (no_cdef (Some 1) (dp_cdef o))) by by apply no_cdef_off, cdef_fine_arrays.
  by destruct (primary_none s).
Qed.

(** *** The filters, on any bytes *)

Lemma yields_cdef_part num_planes (intrabc coded enable : bool) old : cdef_fine old -> (intrabc = true -> cdef_off old) ->
  yields (let c := lossless_cdef (coded || negb enable) old in if negb coded && enable then setup_cdef num_planes intrabc c else mret c)
    (fun c => cdef_fine c /\ if negb coded && enable && negb intrabc then cdef_ok c else cdef_off c).
Proof.
  intros Hf Hoff. cbv zeta. unfold lossless_cdef.
  assert (cdef_fine (no_cdef None old) /\ cdef_off (no_cdef None old)) as Hno
    by (split; [apply no_cdef_fine; auto | by apply no_cdef_off, cdef_fine_arrays]).
  destruct coded; cbn [negb andb orb]; [by apply yields_ret |]. destruct enable; cbn [negb andb]; [| by apply yields_ret].
  eapply yields_le; [by apply yields_cdef |]. intros c Hc. destruct intrabc; cbn [negb].
  - subst c. split; [done | by apply Hoff].
  - split; [by apply cdef_ok_fine | done].
Qed.

Lemma yields_rst_part num_planes (intrabc sb128 : bool) ssx ssy (all enable : bool) old : ssx = 0 \/ ssx = 1 -> ssy = 0 \/ ssy = 1 ->
  rst_fine old -> (intrabc = true -> rst_off old) ->
  yields (let r := lossless_rst (all || negb enable) old in
          if negb all && enable then decode_restoration_mode num_planes intrabc sb128 ssx ssy r else mret r)
    (fun r => rst_fine r /\ if negb all && enable && negb intrabc then rst_legal num_planes r else rst_off r).
Proof.
  intros Hx Hy Hf Hoff. cbv zeta. unfold lossless_rst.
  destruct all; cbn [negb andb orb]; [by apply yields_ret |]. destruct enable; cbn [negb andb]; [| by apply yields_ret].
  eapply yields_le; [by apply yields_restoration |]. intros r [Hr Hl]. destruct intrabc; cbn [negb]; [| done]. subst r. split; [done | by apply Hoff].
Qed.

Lemma yields_flag_if (c : bool) : yields (if c then r_flag else mret false) (fun b : bool => b = true -> c = true).
Proof. destruct c; [eapply yields_le; [apply yields_flag | done] | by apply yields_ret]. Qed.

Lemma yields_frame_tail s o : site_safe s -> dec_inv s o -> yields (read_frame_tail s o) (read_inv s).
Proof.
  intros [[Hx Hy] Hprev [Lg Fg]] Ho. pose proof (start_off _ _ Ho) as Hoff. apply start_inv in Ho. unfold read_frame_tail. cbv zeta. set (o' := start_params s o) in *. clearbody o'. destruct Ho as [Is Il Ic Ir Im Ig].
  next yields_quantization. intros q Hq. eapply yields_bind; [apply yields_segmentation; [done |] |].
  { intros p Hp. destruct (fs_prev s) as [pf |] eqn:Ep; [| done]. injection Hp as <-. by apply (Hprev pf). }
  intros st [Hst _]. next yields_delta_q_info. intros dq Hdq. destruct (lossless_segments_ok q (ss_seg st) Hst) as (l & El & Ll); [apply Hq |].
  next @yields_lift; [exact El |]. intros ? <-. destruct (coded_lossless_ok (ss_seg st) l Ll) as (coded & Ec). next @yields_lift; [exact Ec |]. intros ? <-.
  eapply yields_bind; [apply yields_loopfilter |].
  { intros d Hd. destruct (fs_prev s) as [pf |] eqn:Ep; [| done]. injection Hd as <-. by apply (Hprev pf). }
  { unfold lossless_lf. destruct coded; [by apply no_levels_ok | done]. }
  intros [lf deltas] [Hlf Hde]. set (all := coded && negb (fs_superres_scaled s)).
  eapply yields_bind; [apply (yields_cdef_part (fs_num_planes s) (fs_allow_intrabc s) coded (fs_enable_cdef s) (dp_cdef o') Ic); apply Hoff |].
  intros cdef [Hcdef Hcdef'].
  eapply yields_bind; [apply (yields_rst_part (fs_num_planes s) (fs_allow_intrabc s) (fs_sb_128 s) (fs_ss_x s) (fs_ss_y s) all
    (fs_enable_restoration s) (dp_rst o') Hx Hy Ir); apply Hoff |].
  intros rst [Hrst Hrst']. eapply (yields_bind _ _ (fun t => coded = true <-> t = ONLY_4X4)).
  { unfold read_tx_mode. destruct coded; [by apply yields_ret |]. flag b. apply yields_ret. by destruct b. }
  intros tx Htx. eapply (yields_bind _ _ (fun m => m <> COMPOUND_REFERENCE /\ (fs_intra_only s = true -> m = SINGLE_REFERENCE))).
  { unfold read_frame_reference_mode. destruct (fs_intra_only s); [by apply yields_ret |]. flag b. apply yields_ret. by destruct b. }
  intros mode Hmode. next yields_flag_if. intros skip Hskip. next yields_flag_if. intros warped Hwarped. flag less.
  eapply yields_bind; [apply yields_check |]. intros _ _. eapply (yields_bind _ _ (fun l => length l = 7%nat /\ Forall gm_safe l)).
  { destruct (fs_intra_only s); cbn [negb]; [by apply yields_ret |]. unfold read_global_motion.
    destruct (prev_models_ok (pf_models <$> fs_prev s)) as [Lr Fr].
    { intros l' Hl'. destruct (fs_prev s) as [pf |] eqn:Ep; [| done]. injection Hl' as <-. by apply (Hprev pf). }
    rewrite <- Lr. by apply yields_models. }
  intros models Hmodels. eapply (yields_bind _ _ (grain_inv (fs_grain s))).
  { unfold read_film_grain. eapply (yields_bind _ _ (grain_inv (fs_grain s))).
    - destruct (fs_grain_present s && fs_shown s); [by apply yields_grain_params | apply yields_ret, grain_zero_inv].
    - intros g Hg. apply yields_ret. by apply with_depth_inv. }
  intros grain Hgrain. apply yields_ret. split; cbn; try done. by rewrite El.
Qed.

(** ** A frame of an ongoing sequence *)

(** An inter frame at order hint 16, with the references of [demo_hints], whose primary
    reference frame had neither segments nor global motion. *)
Definition demo_frame_site : frame_site :=
  {| fs_num_planes := 3; fs_separate_uv_delta_q := false; fs_ss_x := 1; fs_ss_y := 1;
     fs_enable_cdef := true; fs_enable_restoration := true; fs_sb_128 := false; fs_enable_warped_motion := true;
     fs_order_hint_info := demo_oh; fs_grain_present := true; fs_grain := demo_site 0;
     fs_intra_only := false; fs_error_resilient_mode := false; fs_allow_intrabc := false; fs_superres_scaled := false;
     fs_allow_high_precision_mv := true; fs_allow_ref_frame_mvs := true; fs_shown := true; fs_mi_rows := 4; fs_mi_cols := 4;
     fs_order_hint := 16; fs_ref_hints := demo_hints;
     fs_prev := Some {| pf_seg := {| sf_seg := seg_zero; sf_seg_map := None; sf_mi_rows := 4; sf_mi_cols := 4 |};
                        pf_deltas := default_lf_deltas; pf_models := replicate 7 default_warp_params |} |}.

(** Segment 1 has a quantizer of its own. *)
Definition demo_segments : segmentation :=
  {| seg_enabled := true; seg_update_map := true; seg_update_data := true; seg_temporal_update := true;
     seg_feature_data := replicate 8 0 :: (-10 :: replicate 7 0) :: replicate 6 (replicate 8 0); seg_feature_mask := 0 :: 1 :: replicate 6 0;
     seg_last_active_segid := 1; seg_segid_preskip := false |}.

Definition demo_rst (t : RestorationType) (size : Z) : RestorationInfo := {| frame_restoration_type := t; restoration_unit_size := size |}.

Definition demo_params : frame_params :=
  {| fp_quant := {| base_qindex := 120; y_dc_delta_q := -3; u_dc_delta_q := 2; v_dc_delta_q := 2; u_ac_delta_q := 0; v_ac_delta_q := 0;
                    using_qmatrix := true; qmatrix_level_y := 5; qmatrix_level_u := 7; qmatrix_level_v := 7 |};
     fp_seg := demo_segments;
     fp_delta_q := {| delta_q_present_flag := true; delta_q_res := 4; delta_lf_present_flag := true; delta_lf_res := 2; delta_lf_multi := true |};
     fp_coded_lossless := false; fp_all_lossless := false;
     fp_lf := {| filter_level_0 := 20; filter_level_1 := 24; filter_level_u := 9; filter_level_v := 11; sharpness_level := 3;
                 mode_ref_delta_enabled := true; mode_ref_delta_update := true;
                 lf_deltas_of := {| ref_deltas := [1; 0; 0; 0; -1; 0; -1; -2]; mode_deltas := [0; 5] |} |};
     fp_cdef := {| cdef_damping := 4; cdef_bits := 1; nb_cdef_strengths := 2; cdef_strengths := 12 :: 33 :: replicate 14 0;
                   cdef_uv_strengths := 7 :: 63 :: replicate 14 0 |};
     fp_rst := {| rst_0 := demo_rst RESTORE_WIENER 128; rst_1 := demo_rst RESTORE_SWITCHABLE 64; rst_2 := demo_rst RESTORE_NONE 64 |};
     fp_tx_mode := TX_MODE_SELECT; fp_reference_mode := REFERENCE_MODE_SELECT;
     fp_skip_mode_allowed := true; fp_skip_mode_flag := true; fp_allow_warped_motion := true; fp_reduced_tx_set_used := false;
     fp_models := replicate 7 default_warp_params; fp_grain := demo_grain false 0 |}.

(** A decoder before its first frame: [av1_decoder_create] sets everything to zero, and
    [av1_decode_frame_headers_and_setup] the models to the default before each header. *)
Definition fresh_dec : dec_params :=
  {| dp_seg := {| ss_seg := seg_zero; ss_cur_seg := seg_zero; ss_cur_map := None; ss_last_map := None |};
     dp_lf := {| filter_level_0 := 0; filter_level_1 := 0; filter_level_u := 0; filter_level_v := 0; sharpness_level := 0;
                 mode_ref_delta_enabled := false; mode_ref_delta_update := false;
                 lf_deltas_of := {| ref_deltas := replicate 8 0; mode_deltas := replicate 2 0 |} |};
     dp_cdef := {| cdef_damping := 0; cdef_bits := 0; nb_cdef_strengths := 0; cdef_strengths := replicate 16 0; cdef_uv_strengths := replicate 16 0 |};
     dp_rst := {| rst_0 := demo_rst RESTORE_NONE 0; rst_1 := demo_rst RESTORE_NONE 0; rst_2 := demo_rst RESTORE_NONE 0 |};
     dp_models := replicate 7 default_warp_params; dp_grain := grain_zero |}.

(** The key frame a sequence starts with, and decisions for it. *)
Definition demo_key_site : frame_site :=
  {| fs_num_planes := 3; fs_separate_uv_delta_q := false; fs_ss_x := 1; fs_ss_y := 1;
     fs_enable_cdef := true; fs_enable_restoration := true; fs_sb_128 := false; fs_enable_warped_motion := true;
     fs_order_hint_info := demo_oh; fs_grain_present := true;
     fs_grain := {| gs_monochrome := false; gs_subsampling_x := 1; gs_subsampling_y := 1; gs_bit_depth := 8; gs_inter_frame := false;
                    gs_remapped_ref_idx := replicate 7 0; gs_ref_frame_map := replicate 8 None |};
     fs_intra_only := true; fs_error_resilient_mode := true; fs_allow_intrabc := false; fs_superres_scaled := false;
     fs_allow_high_precision_mv := false; fs_allow_ref_frame_mvs := false; fs_shown := true; fs_mi_rows := 4; fs_mi_cols := 4;
     fs_order_hint := 0; fs_ref_hints := replicate 7 None; fs_prev := None |}.

Definition demo_key_params : frame_params :=
  {| fp_quant := fp_quant demo_params; fp_seg := seg_zero; fp_delta_q := fp_delta_q demo_params;
     fp_coded_lossless := false; fp_all_lossless := false;
     fp_lf := fp_lf demo_params; fp_cdef := fp_cdef demo_params; fp_rst := fp_rst demo_params;
     fp_tx_mode := TX_MODE_SELECT; fp_reference_mode := SINGLE_REFERENCE;
     fp_skip_mode_allowed := false; fp_skip_mode_flag := false; fp_allow_warped_motion := false; fp_reduced_tx_set_used := false;
     fp_models := replicate 7 default_warp_params; fp_grain := demo_grain true 40 |}.

Lemma demo_site_ok : site_ok demo_frame_site.
Proof.
  split; cbn.
  - lia.
  - intros p [= <-]. apply default_deltas_ok.
  - intros p [= <-]. split; [done |]. apply (Forall_replicate _ 7%nat), gm_range_default.
  - done.
Qed.

Lemma demo_segments_ready : seg_ready (pf_seg <$> fs_prev demo_frame_site) false demo_segments.
Proof.
  split; try done. split; [by repeat constructor | by repeat constructor |]. intros i j Hi Hj.
  assert (Forall (fun i => Forall (fun j => 0 <= nthz (nth (Z.to_nat i) (seg_feature_data demo_segments) []) j) (seqZ 5 3)) (seqZ 0 8)) as Hf
    by (repeat constructor; vm_compute; discriminate).
  rewrite list.Forall_forall in Hf. specialize (Hf i). rewrite elem_of_seqZ, list.Forall_forall in Hf. apply Hf; [lia | apply elem_of_seqZ; lia].
Qed.

Lemma default_model_ok hp : gm_ok hp default_warp_params.
Proof.
  split; [| by vm_compute]. split; [apply gm_range_default |]. intros m0 m1 m2 m3 m4 m5. cbn. by intros [= <- <- <- <- <- <-].
Qed.

Lemma demo_grain_inv cb : coeff_ok cb -> grain_inv (demo_site cb) (demo_grain true cb).
Proof.
  intros Hcb. assert (coeffs_ok (demo_grain true cb)) as Hc
    by (split; [| done]; cbn; split_and!; [| constructor; [done |] |]; apply (Forall_replicate _ 24%nat) || apply (Forall_replicate _ 25%nat); done).
  split; [done | done | done |]. intros _. split; try done.
  - split; [done |]. split; [| by repeat constructor]. intros [| [| i]] a b; cbn; [| done | done]. by intros [= <-] [= <-].
  - split; [done |]. split; [| by repeat constructor]. by intros [| [| i]] a b.
  - split; [done |]. split; [| by repeat constructor]. by intros [| [| i]] a b.
Qed.

Lemma demo_parts_ok : delta_q_ok 120 false (fp_delta_q demo_params) /\ lf_ok (fp_lf demo_params) /\
  cdef_ok (fp_cdef demo_params) /\ rst_ok 3 false 1 1 (fp_rst demo_params).
Proof.
  split_and!.
  - split; cbn; try done; unfold res_ok; lia.
  - split; [cbn; lia | cbn; lia |]. split; (split; [done | repeat constructor; discriminate || done]).
  - split; cbn; try lia. split_and!; try done; repeat constructor; discriminate || done.
  - split; cbn; [lia | |]; intros _; [split; [lia | discriminate] | by right].
Qed.

Lemma demo_params_ok : params_ok demo_frame_site demo_params.
Proof.
  destruct demo_parts_ok as (Hd & Hl & Hc & Hr). split; try done.
  - intros _. apply demo_segments_ready.
  - intros _. split; [done |]. apply (Forall_replicate _ 7%nat), default_model_ok.
  - intros _. split.
    + split; [done | done |]. intros _. split; [done |]. eexists. exists 0. by split_and!; [vm_compute | | | left | |].
    + intros _ buf (idx & Eg & _ & _ & Em & _). vm_compute in Eg. injection Eg as <-. vm_compute in Em. by injection Em as <-.
Qed.

Lemma demo_key_params_ok : params_ok demo_key_site demo_key_params.
Proof.
  destruct demo_parts_ok as (Hd & Hl & Hc & Hr). split; try done.
  intros _. split; [| done]. split; [done | | done]. intros _.
  destruct (gi_new _ _ (demo_grain_inv 40 ltac:(done)) eq_refl). by split.
Qed.

Lemma demo_key_site_ok : site_ok demo_key_site.
Proof. split; cbn; [lia | done | done | done]. Qed.

Lemma fresh_dec_inv s : dec_inv s fresh_dec.
Proof.
  split; cbn.
  - apply (seg_inv_zero seg_zero).
  - split; [cbn; lia | cbn; lia |]. split; cbn; (split; [done | repeat constructor; discriminate || done]).
  - split; cbn; [by left | by split; [| left] | split_and!; try done; repeat constructor; discriminate || done].
  - repeat constructor; by left.
  - split; [done |]. apply (Forall_replicate _ 7%nat). split; [apply gm_range_default | by repeat constructor].
  - apply grain_zero_inv.
Qed.

Lemma fresh_dec_old : old_ok fresh_dec.
Proof. split; [done |]. apply (gi_arrays (demo_site 0)), grain_zero_inv. Qed.

Lemma demo_site_safe : site_safe demo_frame_site.
Proof.
  split; cbn; [lia | |].
  - intros p [= <-]. split_and!; [apply (seg_inv_zero seg_zero) | apply default_deltas_ok | done | apply (Forall_replicate _ 7%nat), gm_range_default].
  - split; [done |]. apply (Forall_replicate _ 8%nat). intros b [= <-]. by apply (demo_grain_inv 0).
Qed.

Lemma demo_key_site_safe : site_safe demo_key_site.
Proof. split; cbn; [lia | done | split; [done | by repeat constructor]]. Qed.

(** ** The claims *)

(** C16: The fields of the frame header from the quantizer to the film grain, written for any
    legal decisions of the encoder into a buffer of 1414 bytes or more and ended like an
    OBU, are read back as the decisions, whatever follows, by any decoder, one before its
    first frame included; fields that are not sent keep the values of the decoder or its
    defaults.  Grain sent as a reference to another frame is read back as the decision
    when that frame's grain has the same values, which the encoder has to check first. *)
Theorem frame_params_roundtrip s o p dst code : site_ok s -> params_ok s p -> old_ok o ->
  1414 <= Z.of_nat (length dst) < 2 ^ 28 ->
  (fs_grain_present s && fs_shown s && apply_grain (fp_grain p) = true ->
     grain_values (dp_grain (rp_dec (tail_after s o p))) = grain_values (fp_grain p) /\
     random_seed (dp_grain (rp_dec (tail_after s o p))) = random_seed (fp_grain p)) /\
  exists w1 w2, write_frame_tail s p {| wb_bit_buffer := dst; wb_bit_offset := 0 |} = Some (tt, w1) /\
    add_trailing_bits w1 = Some w2 /\ 0 < aom_wb_bytes_written w2 <= 1413 /\
    forall tail h,
      let buf := take (Z.to_nat (aom_wb_bytes_written w2)) (wb_bit_buffer w2) ++ tail in
      8 * Z.of_nat (length buf) < 2 ^ 32 ->
      exists rb, read_frame_tail s o {| rb_bit_buffer := buf; rb_bit_offset := 0; rb_error_handler := h |} = Ok (tail_after s o p, rb) /\
        av1_check_trailing_bits code rb = Ok ((0, code),
          {| rb_bit_buffer := buf; rb_bit_offset := 8 * aom_wb_bytes_written w2; rb_error_handler := h |}).
Proof.
  intros Hs Hp Ho Hd. split; [by apply tail_grain |].
  destruct (carries_obu _ _ _ _ dst code (carries_frame_tail s o p Hs Hp Ho)) as (w1 & w2 & E1 & E2 & _ & Hb1 & Hb2 & Hr); [lia |].
  exists w1, w2. split_and!; try done. lia.
Qed.

(** The first key frame on a decoder just created, and an inter frame later. *)
Lemma frame_params_roundtrip_witness :
  (exists w1 w2, write_frame_tail demo_key_site demo_key_params {| wb_bit_buffer := replicate (Z.to_nat 1500) 0; wb_bit_offset := 0 |} = Some (tt, w1) /\
    add_trailing_bits w1 = Some w2 /\
    exists rb, read_frame_tail demo_key_site fresh_dec {| rb_bit_buffer := take (Z.to_nat (aom_wb_bytes_written w2)) (wb_bit_buffer w2);
        rb_bit_offset := 0; rb_error_handler := None |} = Ok (tail_after demo_key_site fresh_dec demo_key_params, rb)) /\
  grain_values (dp_grain (rp_dec (tail_after demo_frame_site fresh_dec demo_params))) = grain_values (demo_grain false 0).
Proof.
  split.
  - destruct (frame_params_roundtrip demo_key_site fresh_dec demo_key_params (replicate (Z.to_nat 1500) 0) AOM_CODEC_OK
      demo_key_site_ok demo_key_params_ok fresh_dec_old) as (_ & w1 & w2 & E1 & E2 & Hb & Hr); [rewrite length_replicate; lia |].
    exists w1, w2. split; [done |]. split; [done |]. destruct (Hr [] None) as (rb & Er & _); [| rewrite app_nil_r in Er; by exists rb].
    rewrite app_nil_r, length_take. lia.
  - exact (proj1 (proj1 (frame_params_roundtrip demo_frame_site fresh_dec demo_params (replicate (Z.to_nat 1500) 0) AOM_CODEC_OK
      demo_site_ok demo_params_ok fresh_dec_old ltac:(rewrite length_replicate; lia)) eq_refl)).
Defined.


