(* ===== verification/FrameSize.v ===== *)
(** * The size of a frame

    [write_frame_size], [write_superres_scale], [write_render_size] and
    [write_frame_size_with_refs] ([av1/encoder/bitstream.c]); [setup_frame_size],
    [setup_superres], [setup_render_size], [resize_context_buffers] and the part of
    [setup_frame_size_with_refs] that reads ([av1/decoder/decodeframe.c]); the scales between
    frames of [av1/common/resize.c] and [av1/common/scale.c]. *)

From S2P Require Import Prelude CodecTypes BitChannel BitBuffer EntCoder RangeSpec Cdf EntEncProof EntDecProof EntRoundTrip SymbolIO SyntaxIO Tile TileInfo Leb128 Obu HeaderIO SeqHeader FrameQuant FilmGrain.

#[local] Arguments Z.of_nat : simpl never.
#[local] Arguments Z.mul : simpl never.

Definition SUPERRES_SCALE_BITS : Z := 3.
Definition SUPERRES_SCALE_DENOMINATOR_MIN : Z := SCALE_NUMERATOR + 1.

(** The coded size, the size after super-resolution, its scale, and the size to show. *)
Record frame_size := {
  fz_width : Z; fz_height : Z; superres_upscaled_width : Z; superres_upscaled_height : Z;
  superres_scale_denominator : Z; render_width : Z; render_height : Z }.

Definition av1_superres_scaled (z : frame_size) : bool := negb (fz_width z =? superres_upscaled_width z).
Definition av1_resize_scaled (z : frame_size) : bool :=
  negb (superres_upscaled_width z =? render_width z) || negb (superres_upscaled_height z =? render_height z).

(** *** Scales *)

Definition calculate_scaled_size_helper (dim denom : Z) : Z :=
  if negb (denom =? SCALE_NUMERATOR) then
    let min_dim := Z.min 16 dim in
    Z.max ((dim * SCALE_NUMERATOR + denom / 2) / denom) min_dim
  else dim.

(** The height stays. *)
Definition av1_calculate_scaled_superres_size (width denom : Z) : Z := calculate_scaled_size_helper width denom.

Definition valid_ref_frame_size (ref_width ref_height this_width this_height : Z) : bool :=
  (ref_width <=? 2 * this_width) && (ref_height <=? 2 * this_height) &&
  (this_width <=? 16 * ref_width) && (this_height <=? 16 * ref_height).

Definition REF_SCALE_SHIFT : Z := 14.
Definition REF_INVALID_SCALE : Z := -1.
Definition SCALE_SUBPEL_BITS : Z := 10.

Record scale_factors := { x_scale_fp : Z; y_scale_fp : Z; x_step_q4 : Z; y_step_q4 : Z }.

Definition get_fixed_point_scale_factor (other_size this_size : Z) : Z :=
  (Z.shiftl other_size REF_SCALE_SHIFT + this_size / 2) / this_size.

Definition fixed_point_scale_to_coarse_point_scale (scale_fp : Z) : Z :=
  let n := REF_SCALE_SHIFT - SCALE_SUBPEL_BITS in Z.shiftr (scale_fp + Z.shiftr (Z.shiftl 1 n) 1) n.

Definition av1_setup_scale_factors_for_frame (sf : scale_factors) (other_w other_h this_w this_h : Z) : scale_factors :=
  if negb (valid_ref_frame_size other_w other_h this_w this_h) then
    {| x_scale_fp := REF_INVALID_SCALE; y_scale_fp := REF_INVALID_SCALE; x_step_q4 := x_step_q4 sf; y_step_q4 := y_step_q4 sf |}
  else
    let x := get_fixed_point_scale_factor other_w this_w in
    let y := get_fixed_point_scale_factor other_h this_h in
    {| x_scale_fp := x; y_scale_fp := y;
       x_step_q4 := fixed_point_scale_to_coarse_point_scale x; y_step_q4 := fixed_point_scale_to_coarse_point_scale y |}.

Definition av1_is_valid_scale (sf : scale_factors) : bool :=
  negb (x_scale_fp sf =? REF_INVALID_SCALE) && negb (y_scale_fp sf =? REF_INVALID_SCALE).

(** ** Writing *)

Section Writing.
Context (seq : seq_tools) (z : frame_size).

Definition write_render_size : hwriter :=
  let scaling_active := av1_resize_scaled z in
  _ ← w_flag scaling_active;
  if scaling_active then
    _ ← w_hlit (render_width z - 1) 16;
    w_hlit (render_height z - 1) 16
  else mret tt.

Definition write_superres_scale : hwriter :=
  if negb (enable_superres seq) then mret tt
  else if superres_scale_denominator z =? SCALE_NUMERATOR then w_hbit 0
  else
    _ ← w_hbit 1;
    w_hlit (superres_scale_denominator z - SUPERRES_SCALE_DENOMINATOR_MIN) SUPERRES_SCALE_BITS.

Definition write_frame_size (frame_size_override : bool) : hwriter :=
  let coded_width := superres_upscaled_width z - 1 in
  let coded_height := superres_upscaled_height z - 1 in
  _ ← (if frame_size_override then
         _ ← w_hlit coded_width (num_bits_width seq);
         w_hlit coded_height (num_bits_height seq)
       else mret tt);
  _ ← write_superres_scale;
  write_render_size.

(** What the size of a frame may be taken from: the buffer of a reference. *)
Record ref_size := { rz_width : Z; rz_height : Z; rz_render_width : Z; rz_render_height : Z }.

Definition same_size (r : option ref_size) (found : bool) : bool :=
  match r with
  | None => found
  | Some r =>
      (superres_upscaled_width z =? rz_width r) && (superres_upscaled_height z =? rz_height r) &&
      ((render_width z =? rz_render_width r) && (render_height z =? rz_render_height r))
  end.

Fixpoint write_sizes_of_refs (refs : list (option ref_size)) (found : bool) : hwriter :=
  match refs with
  | [] => if negb found then write_frame_size true else mret tt
  | r :: refs =>
      let found := same_size r found in
      _ ← w_flag found;
      if found then write_superres_scale else write_sizes_of_refs refs found
  end.

Definition write_frame_size_with_refs (refs : list (option ref_size)) : hwriter := write_sizes_of_refs refs false.
End Writing.

(** ** Reading *)

(** The size with the units of the mode infos, which are allocated for it. *)
Record size_state := { sz_size : frame_size; sz_mi_rows : Z; sz_mi_cols : Z }.

(** [dec_set_mb_mi]: the size in units of the mode infos, for a size aligned to 8. *)
Definition dec_mi (size : Z) : Z := Z.shiftr (Z.land (size + 7) (Z.lnot 7)) MI_SIZE_LOG2.

Section Reading.
(** The sequence; the limit the application sets, 0 for none; whether memory for the mode
    infos, and for the motion vectors and segment ids, can be had. *)
Context (seq : seq_tools) (frame_size_limit : Z) (mi_memory mv_memory : bool).

Definition read_frame_size (num_bits_width num_bits_height : Z) : hreader (Z * Z) :=
  w ← aom_rb_read_literal num_bits_width;
  h ← aom_rb_read_literal num_bits_height;
  mret (w + 1, h + 1).

(** The size to show, for the size after super-resolution. *)
Definition setup_render_size (upscaled : Z * Z) : hreader (Z * Z) :=
  b ← r_flag;
  if b : bool then read_frame_size 16 16 else mret upscaled.

(** The coded width and the denominator, which is kept when the sequence has no
    super-resolution. *)
Definition setup_superres (old_denominator width : Z) : hreader (Z * Z) :=
  if negb (enable_superres seq) then mret (width, old_denominator)
  else
    b ← r_flag;
    if b : bool then
      d ← aom_rb_read_literal SUPERRES_SCALE_BITS;
      let denominator := d + SUPERRES_SCALE_DENOMINATOR_MIN in
      mret (av1_calculate_scaled_superres_size width denominator, denominator)
    else mret (width, SCALE_NUMERATOR).

(** The units of the mode infos, for the coded size. *)
Definition resize_context_buffers (st : size_state) (width height : Z) : hreader (Z * Z) :=
  _ ← check (negb (negb (frame_size_limit =? 0) && (frame_size_limit <? width * height))) AOM_CODEC_CORRUPT_FRAME;
  mi ← (if negb (fz_width (sz_size st) =? width) || negb (fz_height (sz_size st) =? height) then
          let new_mi_rows := CEIL_POWER_OF_TWO height MI_SIZE_LOG2 in
          let new_mi_cols := CEIL_POWER_OF_TWO width MI_SIZE_LOG2 in
          _ ← (if (sz_mi_cols st <? new_mi_cols) || (sz_mi_rows st <? new_mi_rows) then check mi_memory AOM_CODEC_MEM_ERROR else mret tt);
          mret (dec_mi height, dec_mi width)
        else mret (sz_mi_rows st, sz_mi_cols st));
  _ ← check mv_memory AOM_CODEC_MEM_ERROR;
  mret mi.

Definition setup_frame_size (frame_size_override_flag : bool) (st : size_state) : hreader size_state :=
  '(width, height) ←
    (if frame_size_override_flag then
       '(width, height) ← read_frame_size (num_bits_width seq) (num_bits_height seq);
       _ ← check (negb ((max_frame_width seq <? width) || (max_frame_height seq <? height))) AOM_CODEC_CORRUPT_FRAME;
       mret (width, height)
     else mret (max_frame_width seq, max_frame_height seq));
  '(coded, denominator) ← setup_superres (superres_scale_denominator (sz_size st)) width;
  '(rows, cols) ← resize_context_buffers st coded height;
  '(render_w, render_h) ← setup_render_size (width, height);
  mret {| sz_size := {| fz_width := coded; fz_height := height; superres_upscaled_width := width; superres_upscaled_height := height;
                        superres_scale_denominator := denominator; render_width := render_w; render_height := render_h |};
          sz_mi_rows := rows; sz_mi_cols := cols |}.

(** The size from one of the references, or sent as such: the loop over the names. *)
Fixpoint read_size_of_refs (refs : list (option ref_size)) (st : size_state) : hreader size_state :=
  match refs with
  | [] =>
      '(width, height) ← read_frame_size (num_bits_width seq) (num_bits_height seq);
      '(coded, denominator) ← setup_superres (superres_scale_denominator (sz_size st)) width;
      '(rows, cols) ← resize_context_buffers st coded height;
      '(render_w, render_h) ← setup_render_size (width, height);
      mret {| sz_size := {| fz_width := coded; fz_height := height; superres_upscaled_width := width; superres_upscaled_height := height;
                            superres_scale_denominator := denominator; render_width := render_w; render_height := render_h |};
              sz_mi_rows := rows; sz_mi_cols := cols |}
  | r :: refs =>
      b ← r_flag;
      if b : bool then
        match r with
        | None => raise AOM_CODEC_CORRUPT_FRAME
        | Some r =>
            '(coded, denominator) ← setup_superres (superres_scale_denominator (sz_size st)) (rz_width r);
            '(rows, cols) ← resize_context_buffers st coded (rz_height r);
            mret {| sz_size := {| fz_width := coded; fz_height := rz_height r; superres_upscaled_width := rz_width r;
                                  superres_upscaled_height := rz_height r; superres_scale_denominator := denominator;
                                  render_width := rz_render_width r; render_height := rz_render_height r |};
                    sz_mi_rows := rows; sz_mi_cols := cols |}
        end
      else read_size_of_refs refs st
  end.
End Reading.

(** ** What is sent is read back *)

Definition dim_ok (n : Z) : Prop := 1 <= n <= 65536.

(** A size the encoder can choose. *)
Record size_ok (seq : seq_tools) (z : frame_size) : Prop := {
  zk_upscaled : 1 <= superres_upscaled_width z <= max_frame_width seq /\ 1 <= superres_upscaled_height z <= max_frame_height seq;
  zk_render : dim_ok (render_width z) /\ dim_ok (render_height z);
  zk_denominator : SCALE_NUMERATOR <= superres_scale_denominator z <= 16;
  zk_superres : enable_superres seq = false -> superres_scale_denominator z = SCALE_NUMERATOR;
  zk_coded : fz_width z = av1_calculate_scaled_superres_size (superres_upscaled_width z) (superres_scale_denominator z) /\
    fz_height z = superres_upscaled_height z }.

(** The units that go with the size. *)
Definition mi_of_size (st : size_state) : Prop :=
  sz_mi_rows st = dec_mi (fz_height (sz_size st)) /\ sz_mi_cols st = dec_mi (fz_width (sz_size st)).

(** What the decoder has then: the denominator is its own without super-resolution. *)
Definition size_after (seq : seq_tools) (st : size_state) (z : frame_size) : size_state :=
  {| sz_size := {| fz_width := fz_width z; fz_height := fz_height z; superres_upscaled_width := superres_upscaled_width z;
                   superres_upscaled_height := superres_upscaled_height z;
                   superres_scale_denominator := if enable_superres seq then superres_scale_denominator z else superres_scale_denominator (sz_size st);
                   render_width := render_width z; render_height := render_height z |};
     sz_mi_rows := dec_mi (fz_height z); sz_mi_cols := dec_mi (fz_width z) |}.

Section Proofs.
Context (seq : seq_tools) (limit : Z) (mi_memory mv_memory : bool).

Lemma carries_superres old z : size_ok seq z ->
  carries 33 (write_superres_scale seq z) (setup_superres seq old (superres_upscaled_width z))
    (fz_width z, if enable_superres seq then superres_scale_denominator z else old).
Proof.
  intros Hz. destruct (zk_coded _ _ Hz) as [-> _]. pose proof (zk_denominator _ _ Hz) as Hd. unfold SCALE_NUMERATOR in Hd.
  unfold write_superres_scale, setup_superres. destruct (enable_superres seq) eqn:E; cbn [negb].
  2: { rewrite (zk_superres _ _ Hz E). within 0%nat. apply carries_ret. }
  destruct (Z.eqb_spec (superres_scale_denominator z) SCALE_NUMERATOR) as [-> | Hne].
  - within 1%nat. eapply carries_post; [apply (carries_flag false) | done].
  - unfold SCALE_NUMERATOR in Hne. apply (carries_le (1 + 32)); [lia |]. eapply carries_bind; [apply (carries_flag true) |]. cbv beta iota.
    eapply carries_post; [apply carries_lit; [done | unfold SUPERRES_SCALE_DENOMINATOR_MIN, SUPERRES_SCALE_BITS, SCALE_NUMERATOR; change (2 ^ 3) with 8; lia] |].
    intros r. cbv zeta. by rewrite Z.sub_add.
Qed.

Lemma carries_size_lits w h nw nh : 0 <= nw <= 16 -> 0 <= nh <= 16 -> 1 <= w <= 2 ^ nw -> 1 <= h <= 2 ^ nh ->
  carries 64 (_ ← w_hlit (w - 1) nw; w_hlit (h - 1) nh) (read_frame_size nw nh) (w, h).
Proof.
  intros Hnw Hnh Hw Hh. unfold read_frame_size. eapply (carries_bind 32 32); [apply carries_lit; lia |]. cbv beta.
  eapply carries_post; [apply carries_lit; lia |]. intros r. by rewrite !Z.sub_add.
Qed.

Lemma carries_render z : size_ok seq z ->
  carries 65 (write_render_size z) (setup_render_size (superres_upscaled_width z, superres_upscaled_height z)) (render_width z, render_height z).
Proof.
  intros Hz. destruct (zk_render _ _ Hz) as [Hw Hh]. unfold dim_ok in *. unfold write_render_size, setup_render_size. cbv zeta.
  apply (carries_le (1 + 64)); [lia |]. carry carries_flag. unfold av1_resize_scaled.
  destruct (Z.eqb_spec (superres_upscaled_width z) (render_width z)) as [-> |]; cbn [negb orb];
    [destruct (Z.eqb_spec (superres_upscaled_height z) (render_height z)) as [-> |]; cbn [negb]; [within 0%nat; apply carries_ret |] |].
  all: apply carries_size_lits; change (2 ^ 16) with 65536; lia.
Qed.

(** Memory, and a size within the limit of the application. *)
Definition room (z : frame_size) : Prop :=
  mi_memory = true /\ mv_memory = true /\ (limit = 0 \/ fz_width z * fz_height z <= limit).

Lemma resize_runs st z rb : mi_of_size st -> room z ->
  resize_context_buffers limit mi_memory mv_memory st (fz_width z) (fz_height z) rb = Ok ((dec_mi (fz_height z), dec_mi (fz_width z)), rb).
Proof.
  intros [Hr Hc] (-> & -> & Hl). unfold resize_context_buffers, check. cbn [andb].
  assert (negb (limit =? 0) && (limit <? fz_width z * fz_height z) = false) as -> by (destruct (Z.eqb_spec limit 0); [done |]; cbn [negb andb]; apply Z.ltb_ge; lia).
  cbn [negb]. unfold mbind, reader_bind, mret, reader_ret. cbn.
  destruct (Z.eqb_spec (fz_width (sz_size st)) (fz_width z)) as [Ew |]; cbn [negb orb]; [destruct (Z.eqb_spec (fz_height (sz_size st)) (fz_height z)) as [Eh |]; cbn [negb] |].
  - by rewrite Hr, Hc, Ew, Eh.
  - by destruct (_ || _).
  - by destruct (_ || _).
Qed.

(** The rest after the upscaled size. *)
Lemma carries_sized st z : size_ok seq z -> room z -> mi_of_size st ->
  carries 98 (_ ← write_superres_scale seq z; write_render_size z)
    ('(coded, denominator) ← setup_superres seq (superres_scale_denominator (sz_size st)) (superres_upscaled_width z);
     '(rows, cols) ← resize_context_buffers limit mi_memory mv_memory st coded (superres_upscaled_height z);
     '(render_w, render_h) ← setup_render_size (superres_upscaled_width z, superres_upscaled_height z);
     mret {| sz_size := {| fz_width := coded; fz_height := superres_upscaled_height z; superres_upscaled_width := superres_upscaled_width z;
                           superres_upscaled_height := superres_upscaled_height z;
                           superres_scale_denominator := denominator; render_width := render_w; render_height := render_h |};
             sz_mi_rows := rows; sz_mi_cols := cols |}) (size_after seq st z).
Proof.
  intros Hz Hr Hm. destruct (zk_coded _ _ Hz) as [_ Eh]. apply (carries_le (33 + 65)); [lia |]. eapply carries_bind; [by apply carries_superres |]. cbv beta iota.
  rewrite <- Eh at 1. eapply carries_known; [intros rb; by apply resize_runs |]. cbv beta iota.
  eapply carries_post; [by apply carries_render |]. intros r. unfold size_after. by rewrite Eh.
Qed.

Lemma carries_frame_size reduced over st z : size_ok seq z -> room z -> mi_of_size st -> tools_valid reduced seq ->
  (over = false -> superres_upscaled_width z = max_frame_width seq /\ superres_upscaled_height z = max_frame_height seq) ->
  carries 162 (write_frame_size seq z over) (setup_frame_size seq limit mi_memory mv_memory over st) (size_after seq st z).
Proof.
  intros Hz Hr Hm Ht Ho. destruct (zk_upscaled _ _ Hz) as [Hw Hh], (tv_width _ _ Ht) as [Nw Mw], (tv_height _ _ Ht) as [Nh Mh].
  unfold write_frame_size, setup_frame_size. cbv zeta. apply (carries_le (64 + 98)); [lia |].
  eapply (carries_bind _ _ _ _ _ _ (superres_upscaled_width z, superres_upscaled_height z)); [| by apply carries_sized].
  destruct over; [| destruct (Ho eq_refl) as [-> ->]; within 0%nat; apply carries_ret].
  eapply carries_post; [apply carries_size_lits; lia |]. intros r. cbv beta iota.
  by rewrite (proj2 (Z.ltb_ge _ _)), (proj2 (Z.ltb_ge (max_frame_height seq) _)) by lia.
Qed.

Lemma carries_size_of_refs reduced refs st z : size_ok seq z -> room z -> mi_of_size st -> tools_valid reduced seq ->
  carries (length refs + 162) (write_sizes_of_refs seq z refs false) (read_size_of_refs seq limit mi_memory mv_memory refs st) (size_after seq st z).
Proof.
  intros Hz Hr Hm Ht. induction refs as [| r refs IH].
  - cbn. destruct (zk_upscaled _ _ Hz) as [Hw Hh], (tv_width _ _ Ht) as [Nw Mw], (tv_height _ _ Ht) as [Nh Mh]. unfold write_frame_size. cbv zeta.
    apply (carries_le (64 + 98)); [lia |]. eapply (carries_bind _ _ _ _ _ _ (superres_upscaled_width z, superres_upscaled_height z)); [| by apply carries_sized].
    apply carries_size_lits; lia.
  - cbn [write_sizes_of_refs read_size_of_refs length]. cbv zeta. apply (carries_le (1 + (length refs + 162))); [lia |]. carry carries_flag.
    destruct r as [r |]; cbn [same_size]; [| done]. destruct (_ && _) eqn:E; [| done].
    rewrite !andb_true_iff, !Z.eqb_eq in E. destruct E as [[Ew Eh] [Erw Erh]]. rewrite <- Ew, <- Eh, <- Erw, <- Erh.
    destruct (zk_coded _ _ Hz) as [_ Ec]. within 33%nat. eapply carries_post; [by apply carries_superres |]. intros rb. cbv beta iota. rewrite <- Ec at 1.
    rewrite (reader_bind_ok _ _ _ _ _ (resize_runs st z rb Hm Hr)). unfold size_after. by rewrite Ec.
Qed.
End Proofs.

(** ** On any bytes *)

Lemma scaled_bound w d : dim_ok w -> 9 <= d <= 16 -> 1 <= av1_calculate_scaled_superres_size w d <= w.
Proof.
  unfold dim_ok, av1_calculate_scaled_superres_size, calculate_scaled_size_helper, SCALE_NUMERATOR. intros Hw Hd.
  destruct (d =? 8); cbn [negb]; [lia |]. assert (0 <= (w * 8 + d / 2) / d <= w); [| lia]. split; [apply Z.div_pos; [| lia]; Z.to_euclidean_division_equations; lia |].
  apply Z.lt_succ_r, Z.div_lt_upper_bound; [lia |]. assert (d / 2 < d) by (apply Z.div_lt; lia). nia.
Qed.

(** A size that has been read. *)
Record size_fine (st : size_state) : Prop := {
  zf_upscaled : dim_ok (superres_upscaled_width (sz_size st)) /\ dim_ok (superres_upscaled_height (sz_size st));
  zf_coded : 1 <= fz_width (sz_size st) <= superres_upscaled_width (sz_size st) /\ fz_height (sz_size st) = superres_upscaled_height (sz_size st);
  zf_mi : mi_of_size st }.

Definition ref_size_ok (r : ref_size) : Prop := dim_ok (rz_width r) /\ dim_ok (rz_height r).

Section Safety.
Context (seq : seq_tools) (limit : Z) (mi_memory mv_memory : bool).

Lemma yields_superres old w : dim_ok w -> yields (setup_superres seq old w) (fun '(c, _) => 1 <= c <= w).
Proof.
  intros Hw. unfold setup_superres. destruct (enable_superres seq); cbn [negb]; [| apply yields_ret; unfold dim_ok in Hw; lia].
  flag b. destruct b; [| apply yields_ret; unfold dim_ok in Hw; lia]. unfold SUPERRES_SCALE_BITS. lit d. change (2 ^ 3) with 8 in *. cbv zeta. apply yields_ret.
  apply scaled_bound; [done |]. unfold SUPERRES_SCALE_DENOMINATOR_MIN, SCALE_NUMERATOR. lia.
Qed.

Lemma yields_resize st w h : mi_of_size st -> yields (resize_context_buffers limit mi_memory mv_memory st w h) (fun '(r, c) => r = dec_mi h /\ c = dec_mi w).
Proof.
  intros [Hr Hc]. unfold resize_context_buffers. eapply yields_bind; [apply yields_check |]. intros _ _.
  eapply (yields_bind _ _ (fun '(r, c) => r = dec_mi h /\ c = dec_mi w)).
  - destruct (negb (fz_width (sz_size st) =? w) || negb (fz_height (sz_size st) =? h)) eqn:E.
    + cbv zeta. eapply (yields_bind _ _ (fun _ => True)); [| intros _ _; by apply yields_ret]. case orb; [eapply yields_le; [apply yields_check | done] | by apply yields_ret].
    + rewrite orb_false_iff, !negb_false_iff, !Z.eqb_eq in E. destruct E as [<- <-]. by apply yields_ret.
  - intros [r c] H. eapply yields_bind; [apply yields_check |]. intros _ _. by apply yields_ret.
Qed.

Lemma yields_size_lits nw nh : 0 <= nw <= 16 -> 0 <= nh <= 16 -> yields (read_frame_size nw nh) (fun '(w, h) => dim_ok w /\ dim_ok h).
Proof.
  intros Hw Hh. unfold read_frame_size. lit w. lit h. apply yields_ret. unfold dim_ok.
  pose proof (Z.pow_le_mono_r 2 nw 16 ltac:(lia) ltac:(lia)). pose proof (Z.pow_le_mono_r 2 nh 16 ltac:(lia) ltac:(lia)). change (2 ^ 16) with 65536 in *. lia.
Qed.

Lemma yields_render up : dim_ok up.1 -> dim_ok up.2 -> yields (setup_render_size up) (fun '(w, h) => dim_ok w /\ dim_ok h).
Proof. intros Hw Hh. unfold setup_render_size. flag b. destruct b; [apply yields_size_lits; lia | apply yields_ret; by destruct up]. Qed.

Lemma yields_sized st w h : dim_ok w -> dim_ok h -> mi_of_size st ->
  yields ('(coded, denominator) ← setup_superres seq (superres_scale_denominator (sz_size st)) w;
    '(rows, cols) ← resize_context_buffers limit mi_memory mv_memory st coded h;
    '(render_w, render_h) ← setup_render_size (w, h);
    mret {| sz_size := {| fz_width := coded; fz_height := h; superres_upscaled_width := w; superres_upscaled_height := h;
                          superres_scale_denominator := denominator; render_width := render_w; render_height := render_h |};
            sz_mi_rows := rows; sz_mi_cols := cols |}) size_fine.
Proof.
  intros Hw Hh Hm. next yields_superres; [done |]. intros [c d] Hc. next yields_resize; [done |]. intros [rows cols] [-> ->].
  next yields_render; [done | done |]. intros [rw rh] _. apply yields_ret. by split; cbn; [| | split].
Qed.

Lemma yields_frame_size reduced over st : tools_valid reduced seq -> mi_of_size st ->
  yields (setup_frame_size seq limit mi_memory mv_memory over st) (fun st' => size_fine st' /\
    superres_upscaled_width (sz_size st') <= max_frame_width seq /\ superres_upscaled_height (sz_size st') <= max_frame_height seq).
Proof.
  intros Ht Hm. destruct (tv_width _ _ Ht) as [Nw Mw], (tv_height _ _ Ht) as [Nh Mh]. unfold setup_frame_size.
  assert (dim_ok (max_frame_width seq) /\ dim_ok (max_frame_height seq)) as [Dw Dh].
  { unfold dim_ok. pose proof (Z.pow_le_mono_r 2 (num_bits_width seq) 16 ltac:(lia) ltac:(lia)).
    pose proof (Z.pow_le_mono_r 2 (num_bits_height seq) 16 ltac:(lia) ltac:(lia)). change (2 ^ 16) with 65536 in *. lia. }
  eapply (yields_bind _ _ (fun '(w, h) => dim_ok w /\ dim_ok h /\ w <= max_frame_width seq /\ h <= max_frame_height seq)).
  { destruct over; [| apply yields_ret; split_and!; done || lia]. next yields_size_lits; [lia | lia |]. intros [w h] [Hw Hh].
    eapply yields_bind; [apply yields_check |]. intros ? Hc. apply yields_ret. apply negb_true_iff, orb_false_iff in Hc as [C1%Z.ltb_ge C2%Z.ltb_ge]. done. }
  intros [w h] (Hw & Hh & Lw & Lh). next yields_superres; [done |]. intros [c d] Hc. next yields_resize; [done |]. intros [rows cols] [-> ->].
  next yields_render; [done | done |]. intros [rw rh] _. apply yields_ret. split; [by split; cbn; [| | split] | done].
Qed.

Lemma yields_size_of_refs reduced refs st : tools_valid reduced seq -> mi_of_size st -> Forall (fun o => forall r, o = Some r -> ref_size_ok r) refs ->
  yields (read_size_of_refs seq limit mi_memory mv_memory refs st) size_fine.
Proof.
  intros Ht Hm Hr. destruct (tv_width _ _ Ht) as [Nw _], (tv_height _ _ Ht) as [Nh _]. induction Hr as [| o refs Ho Hr IH]; cbn [read_size_of_refs].
  - next yields_size_lits; [lia | lia |]. intros [w h] [Hw Hh]. by apply yields_sized.
  - flag b. destruct b; [| done]. destruct o as [r |]; [| apply yields_raise]. destruct (Ho r eq_refl) as [Dw Dh].
    next yields_superres; [done |]. intros [c d] Hc. next yields_resize; [done |]. intros [rows cols] [-> ->]. apply yields_ret. by split; cbn; [| | split].
Qed.
End Safety.
