(* ===== verification/FrameHead.v ===== *)
(** * The frame header in front of the tile information

    [write_uncompressed_header_obu] ([av1/encoder/bitstream.c]) and [read_uncompressed_header]
    ([av1/decoder/decodeframe.c]) up to [refresh_frame_context]: the type of the frame or the
    frame to show again, frame identifiers and order hints, the slots to refresh, the
    references by name, the size, and what the decoder does to its pool of frame buffers
    meanwhile.  Errors are the end of a frame here; what they leave in the pool is in
    [BufferPool.v].  Left out are the pixels of a frame that stands in for a missing one,
    the contents of memory that is not in use, the colour description and the order hints
    of references that a frame's buffer keeps, the grain and the filter levels that come
    with a frame shown again, and large scale tile coding. *)

From stdpp Require Import gmap.
From S2P Require Import Prelude CodecTypes Mem BitChannel BitBuffer EntCoder RangeSpec Cdf EntEncProof EntDecProof EntRoundTrip SymbolIO SyntaxIO TxCommon FrameContext Tile TileInfo MvCoding Leb128 Obu Yv12 FrameBuffers BufferPool HeaderIO SeqHeader FrameQuant FrameFilters FilmGrain GlobalMotion RefOrder FrameTail FrameSize.

#[local] Arguments Z.of_nat : simpl never.
#[local] Arguments Z.mul : simpl never.

Inductive FRAME_TYPE := KEY_FRAME | INTER_FRAME | INTRA_ONLY_FRAME | S_FRAME.

#[export] Instance FRAME_TYPE_eq_dec : EqDecision FRAME_TYPE.
Proof. solve_decision. Defined.

Definition frame_type_value (t : FRAME_TYPE) : Z :=
  match t with KEY_FRAME => 0 | INTER_FRAME => 1 | INTRA_ONLY_FRAME => 2 | S_FRAME => 3 end.
Definition frame_type_of (v : Z) : FRAME_TYPE :=
  if v =? 0 then KEY_FRAME else if v =? 1 then INTER_FRAME else if v =? 2 then INTRA_ONLY_FRAME else S_FRAME.

Definition is_key (t : FRAME_TYPE) : bool := bool_decide (t = KEY_FRAME).
Definition is_intra_only_frame (t : FRAME_TYPE) : bool := bool_decide (t = INTRA_ONLY_FRAME).
Definition frame_is_sframe (t : FRAME_TYPE) : bool := bool_decide (t = S_FRAME).
Definition frame_is_intra_only (t : FRAME_TYPE) : bool := is_key t || is_intra_only_frame t.

Definition PRIMARY_REF_BITS : Z := 3.
Definition PRIMARY_REF_NONE : Z := 7.
Definition REF_FRAMES_LOG2 : Z := 3.
Definition LOG_SWITCHABLE_FILTERS : Z := 2.
Definition SWITCHABLE : Z := 4.

(** What the decoder keeps of a frame besides its planes; the last is what [FrameTail.v]
    uses of a primary reference frame. *)
Record frame_info := {
  fi_order_hint : Z; fi_frame_type : FRAME_TYPE; fi_showable_frame : bool; fi_bit_depth : Z;
  fi_render_width : Z; fi_render_height : Z; fi_grain : grain_buf; fi_prev : prev_frame }.

Definition with_order_hint (h : Z) (f : frame_info) : frame_info :=
  {| fi_order_hint := h; fi_frame_type := fi_frame_type f; fi_showable_frame := fi_showable_frame f; fi_bit_depth := fi_bit_depth f;
     fi_render_width := fi_render_width f; fi_render_height := fi_render_height f; fi_grain := fi_grain f; fi_prev := fi_prev f |}.
Definition with_showable (b : bool) (f : frame_info) : frame_info :=
  {| fi_order_hint := fi_order_hint f; fi_frame_type := fi_frame_type f; fi_showable_frame := b; fi_bit_depth := fi_bit_depth f;
     fi_render_width := fi_render_width f; fi_render_height := fi_render_height f; fi_grain := fi_grain f; fi_prev := fi_prev f |}.
Definition with_type (t : FRAME_TYPE) (f : frame_info) : frame_info :=
  {| fi_order_hint := fi_order_hint f; fi_frame_type := t; fi_showable_frame := fi_showable_frame f; fi_bit_depth := fi_bit_depth f;
     fi_render_width := fi_render_width f; fi_render_height := fi_render_height f; fi_grain := fi_grain f; fi_prev := fi_prev f |}.
Definition with_render (depth w h : Z) (f : frame_info) : frame_info :=
  {| fi_order_hint := fi_order_hint f; fi_frame_type := fi_frame_type f; fi_showable_frame := fi_showable_frame f; fi_bit_depth := depth;
     fi_render_width := w; fi_render_height := h; fi_grain := fi_grain f; fi_prev := fi_prev f |}.

Abbreviation pool := (dec_state frame_info).

(** The slots of the map as the fields see them. *)
Definition slot_buf (s : pool) (i : Z) : option (option (RefCntBuffer frame_info)) :=
  p ← zget (ref_frame_map s) i;
  match p with None => Some None | Some k => b ← bufs s !! k; Some (Some b) end.

(** [get_ref_frame_buf]: the buffer behind an index of the map, [INVALID_IDX] included. *)
Definition ref_buf (s : pool) (map_idx : Z) : option (option (RefCntBuffer frame_info)) :=
  if map_idx =? INVALID_IDX then Some None else slot_buf s map_idx.

Definition buf_hint (b : RefCntBuffer frame_info) : Z := fi_order_hint (rc_frame b).
Definition buf_size (b : RefCntBuffer frame_info) : ref_size :=
  {| rz_width := y_crop_width (rc_buf b); rz_height := y_crop_height (rc_buf b);
     rz_render_width := fi_render_width (rc_frame b); rz_render_height := fi_render_height (rc_frame b) |}.

(** ** Writing *)

(** The application's choice of references with [set_ref_frame_config]. *)
Record rtc_refs := { rtc_reference : list bool; rtc_ref_idx : list Z; rtc_spatial_layers : Z }.

(** What the encoder has decided, and what it knows of the frames in the map. *)
Record head_params := {
  ep_frame_type : FRAME_TYPE; ep_show_frame : bool; ep_showable_frame : bool; ep_error_resilient_mode : bool;
  ep_presentation_time : Z;
  ep_disable_cdf_update : bool; ep_allow_screen_content_tools : bool; ep_force_integer_mv : bool;
  ep_current_frame_id : Z; ep_order_hint : Z; ep_primary_ref_frame : Z;
  ep_removal_time_present : bool; ep_removal_times : list Z;
  ep_refresh_frame_flags : Z; ep_size : frame_size; ep_allow_intrabc : bool;
  ep_short_signaling : bool; ep_rtc : option rtc_refs; ep_remapped_ref_idx : list Z;
  ep_allow_high_precision_mv : bool; ep_interp_filter : Z; ep_switchable_motion_mode : bool; ep_allow_ref_frame_mvs : bool;
  ep_refresh_context_disabled : bool;
  ep_map_hints : list Z; ep_ref_frame_id : list Z; ep_ref_sizes : list (option ref_size) }.

(** Writing stops with an error of the encoder. *)
Definition w_fail : hwriter := fun _ => None.

Section Writing.
Context (sh : SequenceHeader) (temporal_layer_id spatial_layer_id : Z).
Let seq : seq_tools := sh_tools sh.
Let oh : OrderHintInfo := order_hint_info seq.

(** Both conditions for [write_tu_pts_info]. *)
Definition has_tu_pts : bool := sh_decoder_model_info_present_flag sh && negb (equal_picture_interval (sh_timing_info sh)).

Definition write_tu_pts_info (time : Z) : hwriter := w_hulit time (frame_presentation_time_length (sh_decoder_model_info sh)).

(** [show_existing_frame] *)
Definition write_show_existing (idx time display_frame_id : Z) : hwriter :=
  _ ← w_hbit 1;
  _ ← w_hlit idx 3;
  _ ← (if has_tu_pts then write_tu_pts_info time else mret tt);
  if frame_id_numbers_present_flag seq then w_hlit display_frame_id (frame_id_length seq) else mret tt.

Definition write_frame_type (p : head_params) : hwriter :=
  _ ← w_hbit 0;
  _ ← w_hlit (frame_type_value (ep_frame_type p)) 2;
  _ ← w_flag (ep_show_frame p);
  _ ← (if ep_show_frame p then if has_tu_pts then write_tu_pts_info (ep_presentation_time p) else mret tt
       else w_flag (ep_showable_frame p));
  if frame_is_sframe (ep_frame_type p) then mret tt
  else if negb (is_key (ep_frame_type p) && ep_show_frame p) then w_flag (ep_error_resilient_mode p) else mret tt.

Definition write_frame_tools (p : head_params) : hwriter :=
  _ ← w_flag (ep_disable_cdf_update p);
  _ ← (if force_screen_content_tools seq =? 2 then w_flag (ep_allow_screen_content_tools p) else mret tt);
  if ep_allow_screen_content_tools p then
    if force_integer_mv seq =? 2 then w_flag (ep_force_integer_mv p) else mret tt
  else mret tt.

Definition frame_size_override (p : head_params) : bool :=
  if frame_is_sframe (ep_frame_type p) then true
  else negb (superres_upscaled_width (ep_size p) =? max_frame_width seq) || negb (superres_upscaled_height (ep_size p) =? max_frame_height seq).

Definition write_frame_ids (p : head_params) : hwriter :=
  _ ← (if frame_id_numbers_present_flag seq then w_hlit (ep_current_frame_id p) (frame_id_length seq) else mret tt);
  _ ← (if (max_frame_width seq <? superres_upscaled_width (ep_size p)) || (max_frame_height seq <? superres_upscaled_height (ep_size p))
       then w_fail else mret tt);
  _ ← (if negb (frame_is_sframe (ep_frame_type p)) then w_flag (frame_size_override p) else mret tt);
  _ ← (if enable_order_hint oh then w_hlit (ep_order_hint p) (order_hint_bits_minus_1 oh + 1) else mret tt);
  if negb (ep_error_resilient_mode p) && negb (frame_is_intra_only (ep_frame_type p))
  then w_hlit (ep_primary_ref_frame p) PRIMARY_REF_BITS else mret tt.

(** Whether the frame has a removal time at an operating point. *)
Definition op_removal (op : operating_point) : bool :=
  decoder_model_param_present_flag (op_params op) &&
  ((op_idc op =? 0) ||
   (negb (Z.land (Z.shiftr (op_idc op) temporal_layer_id) 1 =? 0) && negb (Z.land (Z.shiftr (op_idc op) (spatial_layer_id + 8)) 1 =? 0))).

Definition frame_ops : list operating_point := take (Z.to_nat (sh_operating_points_cnt_minus_1 sh + 1)) (sh_operating_points sh).

(** The times are advanced once they are written, which must not overflow. *)
Fixpoint write_removal_times (ops : list operating_point) (times : list Z) : hwriter :=
  match ops, times with
  | op :: ops, t :: times =>
      _ ← (if op_removal op then
             _ ← w_hulit t (buffer_removal_time_length (sh_decoder_model_info sh));
             if (t + 1) mod 2 ^ 32 =? 0 then w_fail else mret tt
           else mret tt);
      write_removal_times ops times
  | _ :: _, [] => w_fail
  | [], _ => mret tt
  end.

Definition write_buffer_removal (p : head_params) : hwriter :=
  if sh_decoder_model_info_present_flag sh then
    _ ← w_flag (ep_removal_time_present p);
    if ep_removal_time_present p then write_removal_times frame_ops (ep_removal_times p) else mret tt
  else mret tt.

Definition write_refresh_flags (p : head_params) : hwriter :=
  if (is_key (ep_frame_type p) && negb (ep_show_frame p)) || bool_decide (ep_frame_type p = INTER_FRAME) ||
     is_intra_only_frame (ep_frame_type p)
  then w_hlit (ep_refresh_frame_flags p) REF_FRAMES else mret tt.

Fixpoint write_map_hints (hints : list Z) : hwriter :=
  match hints with
  | [] => mret tt
  | h :: hints => _ ← w_hlit h (order_hint_bits_minus_1 oh + 1); write_map_hints hints
  end.

Definition write_ref_order_hints (p : head_params) : hwriter :=
  if negb (frame_is_intra_only (ep_frame_type p)) || negb (ep_refresh_frame_flags p =? 255) then
    if ep_error_resilient_mode p && enable_order_hint oh then write_map_hints (ep_map_hints p) else mret tt
  else mret tt.

(** The first reference the application uses. *)
Definition first_ref_map_idx (r : rtc_refs) : Z :=
  match list_find (fun x => x.1 = true) (zip (rtc_reference r) (rtc_ref_idx r)) with Some (_, x) => x.2 | None => INVALID_IDX end.

(** The slot that is sent for a name. *)
Definition sent_map_idx (p : head_params) (i : nat) (map_idx : Z) : option Z :=
  match ep_rtc p with
  | Some r =>
      if negb (first_ref_map_idx r =? INVALID_IDX) && (rtc_spatial_layers r =? 1) && negb (enable_order_hint oh) then
        used ← rtc_reference r !! i; Some (if used : bool then map_idx else first_ref_map_idx r)
      else Some map_idx
  | None => Some map_idx
  end.

Definition delta_frame_id_minus_1 (cur ref : Z) : Z := Z.rem (cur - ref + Z.shiftl 1 (frame_id_length seq)) (Z.shiftl 1 (frame_id_length seq)) - 1.

(** The references by name. *)
Fixpoint write_names (p : head_params) (i : nat) (map_idxs : list Z) : hwriter :=
  match map_idxs with
  | [] => mret tt
  | map_idx :: map_idxs =>
      _ ← (if negb (ep_short_signaling p) then
             match sent_map_idx p i map_idx with Some m => w_hlit m REF_FRAMES_LOG2 | None => w_fail end
           else mret tt);
      _ ← (if frame_id_numbers_present_flag seq then
             match zget (ep_ref_frame_id p) map_idx with
             | Some id =>
                 let d := delta_frame_id_minus_1 (ep_current_frame_id p) id in
                 if (d <? 0) || (Z.shiftl 1 (delta_frame_id_length seq) <=? d) then w_fail else w_hlit d (delta_frame_id_length seq)
             | None => w_fail
             end
           else mret tt);
      write_names p (S i) map_idxs
  end.

Definition write_frame_interp_filter (filter : Z) : hwriter :=
  _ ← w_flag (filter =? SWITCHABLE);
  if negb (filter =? SWITCHABLE) then w_hlit filter LOG_SWITCHABLE_FILTERS else mret tt.

Definition might_allow_mvs (t : FRAME_TYPE) (error_resilient : bool) : bool :=
  negb error_resilient && enable_ref_frame_mvs oh && enable_order_hint oh && negb (frame_is_intra_only t).

(** [lst_ref] and [gld_ref] are the first and the fourth name. *)
Definition write_refs (p : head_params) (override : bool) : hwriter :=
  _ ← (if enable_order_hint oh then w_flag (ep_short_signaling p) else mret tt);
  _ ← (if ep_short_signaling p then
         match ep_remapped_ref_idx p !! 0%nat, ep_remapped_ref_idx p !! 3%nat with
         | Some lst_ref, Some gld_ref => _ ← w_hlit lst_ref REF_FRAMES_LOG2; w_hlit gld_ref REF_FRAMES_LOG2
         | _, _ => w_fail
         end
       else mret tt);
  _ ← write_names p 0 (ep_remapped_ref_idx p);
  _ ← (if negb (ep_error_resilient_mode p) && override then write_frame_size_with_refs seq (ep_size p) (ep_ref_sizes p)
       else write_frame_size seq (ep_size p) override);
  _ ← (if negb (ep_force_integer_mv p) then w_flag (ep_allow_high_precision_mv p) else mret tt);
  _ ← write_frame_interp_filter (ep_interp_filter p);
  _ ← w_flag (ep_switchable_motion_mode p);
  if might_allow_mvs (ep_frame_type p) (ep_error_resilient_mode p) then w_flag (ep_allow_ref_frame_mvs p) else mret tt.

Definition write_intra_size (p : head_params) (override : bool) : hwriter :=
  _ ← write_frame_size seq (ep_size p) override;
  if ep_allow_screen_content_tools p && negb (av1_superres_scaled (ep_size p)) then w_flag (ep_allow_intrabc p) else mret tt.

Definition write_head (p : head_params) : hwriter :=
  let reduced := sh_reduced_still_picture_hdr sh in
  let override := if reduced then false else frame_size_override p in
  _ ← (if negb reduced then write_frame_type p else mret tt);
  _ ← write_frame_tools p;
  _ ← (if reduced then mret tt else write_frame_ids p);
  _ ← write_buffer_removal p;
  _ ← write_refresh_flags p;
  _ ← write_ref_order_hints p;
  _ ← (if frame_is_intra_only (ep_frame_type p) then write_intra_size p override else write_refs p override);
  if negb reduced && negb (ep_disable_cdf_update p) then w_flag (ep_refresh_context_disabled p) else mret tt.
End Writing.

(** ** Reading *)

(** Features that only frames with references set. *)
Record inter_features := { if_allow_high_precision_mv : bool; if_interp_filter : Z; if_switchable_motion_mode : bool }.

(** What a decoder keeps between headers. *)
Record head_state := {
  hd_pool : pool; hd_size : size_state;
  hd_ref_frame_id : list Z; hd_valid_for_referencing : list bool; hd_current_frame_id : Z;
  hd_remapped_ref_idx : list Z; hd_need_resync : bool; hd_sequence_header_changed : bool; hd_decoding_first_frame : bool;
  hd_order_hint : Z; hd_refresh_frame_flags : Z; hd_showable_frame : bool; hd_removal_times : list Z; hd_inter : inter_features }.

Definition set_pool (s : pool) (st : head_state) : head_state :=
  {| hd_pool := s; hd_size := hd_size st; hd_ref_frame_id := hd_ref_frame_id st; hd_valid_for_referencing := hd_valid_for_referencing st;
     hd_current_frame_id := hd_current_frame_id st; hd_remapped_ref_idx := hd_remapped_ref_idx st; hd_need_resync := hd_need_resync st;
     hd_sequence_header_changed := hd_sequence_header_changed st; hd_decoding_first_frame := hd_decoding_first_frame st;
     hd_order_hint := hd_order_hint st; hd_refresh_frame_flags := hd_refresh_frame_flags st; hd_showable_frame := hd_showable_frame st;
     hd_removal_times := hd_removal_times st; hd_inter := hd_inter st |}.
Definition set_size (z : size_state) (st : head_state) : head_state :=
  {| hd_pool := hd_pool st; hd_size := z; hd_ref_frame_id := hd_ref_frame_id st; hd_valid_for_referencing := hd_valid_for_referencing st;
     hd_current_frame_id := hd_current_frame_id st; hd_remapped_ref_idx := hd_remapped_ref_idx st; hd_need_resync := hd_need_resync st;
     hd_sequence_header_changed := hd_sequence_header_changed st; hd_decoding_first_frame := hd_decoding_first_frame st;
     hd_order_hint := hd_order_hint st; hd_refresh_frame_flags := hd_refresh_frame_flags st; hd_showable_frame := hd_showable_frame st;
     hd_removal_times := hd_removal_times st; hd_inter := hd_inter st |}.
Definition set_ids (ids : list Z) (valid : list bool) (cur : Z) (st : head_state) : head_state :=
  {| hd_pool := hd_pool st; hd_size := hd_size st; hd_ref_frame_id := ids; hd_valid_for_referencing := valid;
     hd_current_frame_id := cur; hd_remapped_ref_idx := hd_remapped_ref_idx st; hd_need_resync := hd_need_resync st;
     hd_sequence_header_changed := hd_sequence_header_changed st; hd_decoding_first_frame := hd_decoding_first_frame st;
     hd_order_hint := hd_order_hint st; hd_refresh_frame_flags := hd_refresh_frame_flags st; hd_showable_frame := hd_showable_frame st;
     hd_removal_times := hd_removal_times st; hd_inter := hd_inter st |}.
Definition set_remapped (l : list Z) (st : head_state) : head_state :=
  {| hd_pool := hd_pool st; hd_size := hd_size st; hd_ref_frame_id := hd_ref_frame_id st; hd_valid_for_referencing := hd_valid_for_referencing st;
     hd_current_frame_id := hd_current_frame_id st; hd_remapped_ref_idx := l; hd_need_resync := hd_need_resync st;
     hd_sequence_header_changed := hd_sequence_header_changed st; hd_decoding_first_frame := hd_decoding_first_frame st;
     hd_order_hint := hd_order_hint st; hd_refresh_frame_flags := hd_refresh_frame_flags st; hd_showable_frame := hd_showable_frame st;
     hd_removal_times := hd_removal_times st; hd_inter := hd_inter st |}.
(** The state of the decoder as a whole: resynchronized, a new sequence, its first frame. *)
Definition set_sync (resync changed first : bool) (st : head_state) : head_state :=
  {| hd_pool := hd_pool st; hd_size := hd_size st; hd_ref_frame_id := hd_ref_frame_id st; hd_valid_for_referencing := hd_valid_for_referencing st;
     hd_current_frame_id := hd_current_frame_id st; hd_remapped_ref_idx := hd_remapped_ref_idx st; hd_need_resync := resync;
     hd_sequence_header_changed := changed; hd_decoding_first_frame := first;
     hd_order_hint := hd_order_hint st; hd_refresh_frame_flags := hd_refresh_frame_flags st; hd_showable_frame := hd_showable_frame st;
     hd_removal_times := hd_removal_times st; hd_inter := hd_inter st |}.
(** Fields of the current frame. *)
Definition set_current (hint flags : Z) (showable : bool) (st : head_state) : head_state :=
  {| hd_pool := hd_pool st; hd_size := hd_size st; hd_ref_frame_id := hd_ref_frame_id st; hd_valid_for_referencing := hd_valid_for_referencing st;
     hd_current_frame_id := hd_current_frame_id st; hd_remapped_ref_idx := hd_remapped_ref_idx st; hd_need_resync := hd_need_resync st;
     hd_sequence_header_changed := hd_sequence_header_changed st; hd_decoding_first_frame := hd_decoding_first_frame st;
     hd_order_hint := hint; hd_refresh_frame_flags := flags; hd_showable_frame := showable;
     hd_removal_times := hd_removal_times st; hd_inter := hd_inter st |}.
Definition set_times (l : list Z) (st : head_state) : head_state :=
  {| hd_pool := hd_pool st; hd_size := hd_size st; hd_ref_frame_id := hd_ref_frame_id st; hd_valid_for_referencing := hd_valid_for_referencing st;
     hd_current_frame_id := hd_current_frame_id st; hd_remapped_ref_idx := hd_remapped_ref_idx st; hd_need_resync := hd_need_resync st;
     hd_sequence_header_changed := hd_sequence_header_changed st; hd_decoding_first_frame := hd_decoding_first_frame st;
     hd_order_hint := hd_order_hint st; hd_refresh_frame_flags := hd_refresh_frame_flags st; hd_showable_frame := hd_showable_frame st;
     hd_removal_times := l; hd_inter := hd_inter st |}.
Definition set_inter (f : inter_features) (st : head_state) : head_state :=
  {| hd_pool := hd_pool st; hd_size := hd_size st; hd_ref_frame_id := hd_ref_frame_id st; hd_valid_for_referencing := hd_valid_for_referencing st;
     hd_current_frame_id := hd_current_frame_id st; hd_remapped_ref_idx := hd_remapped_ref_idx st; hd_need_resync := hd_need_resync st;
     hd_sequence_header_changed := hd_sequence_header_changed st; hd_decoding_first_frame := hd_decoding_first_frame st;
     hd_order_hint := hd_order_hint st; hd_refresh_frame_flags := hd_refresh_frame_flags st; hd_showable_frame := hd_showable_frame st;
     hd_removal_times := hd_removal_times st; hd_inter := f |}.

(** *** Pool and slots *)

(** [reset_frame_buffers]: the order hints of the buffers that nobody holds, and of the
    current one, are cleared. *)
Fixpoint reset_hints (ks : list nat) (s : pool) : option pool :=
  match ks with
  | [] => Some s
  | k :: ks =>
      b ← bufs s !! k;
      s ← (if (0 <? ref_count b) && negb (bool_decide (cur_frame s = Some k)) then Some s else set_frame k (with_order_hint 0) s);
      reset_hints ks s
  end.

Definition reset_frame_buffers (s : pool) : option pool :=
  s ← reset_ref_frame_map s; reset_hints (seq 0 (Z.to_nat FRAME_BUFFERS)) s.

Definition no_refs : list Z := replicate (Z.to_nat INTER_REFS_PER_FRAME) INVALID_IDX.

(** A frame that every other can start from. *)
Definition resync (st : head_state) : option head_state :=
  if hd_need_resync st then
    s ← reset_ref_frame_map (hd_pool st);
    Some (set_sync false (hd_sequence_header_changed st) (hd_decoding_first_frame st) (set_pool s st))
  else Some st.

Definition update_ref_frame_id (st : head_state) : head_state :=
  let set {A} (new : A) (i : nat) (old : A) := if Z.testbit (hd_refresh_frame_flags st) (Z.of_nat i) then new else old in
  set_ids (imap (set (hd_current_frame_id st)) (hd_ref_frame_id st)) (imap (set true) (hd_valid_for_referencing st)) (hd_current_frame_id st) st.

Definition show_existing_frame_reset (idx : Z) (st : head_state) : option head_state :=
  let st := set_remapped no_refs (set_current (hd_order_hint st) (Z.shiftl 1 REF_FRAMES - 1) (hd_showable_frame st) st) in
  st ← resync st;
  id ← zget (hd_ref_frame_id st) idx;
  Some (update_ref_frame_id (set_ids (hd_ref_frame_id st) (hd_valid_for_referencing st) id st)).

(** The start of a new coded video sequence. *)
Definition new_sequence (st : head_state) : option head_state :=
  s ← reset_frame_buffers (hd_pool st); Some (set_sync (hd_need_resync st) false true (set_pool s st)).

(** What is written about the current frame goes to its buffer. *)
Definition set_cur_frame (g : frame_info -> frame_info) (st : head_state) : option head_state :=
  k ← cur_frame (hd_pool st); s ← set_frame k g (hd_pool st); Some (set_pool s st).

Record shown_frame := { sf_idx : Z; sf_time : option Z; sf_reset : bool }.

Record frame_start := {
  st_frame_type : FRAME_TYPE; st_show_frame : bool; st_error_resilient_mode : bool; st_time : option Z }.

Record frame_tools := { ft_disable_cdf_update : bool; ft_allow_screen_content_tools : bool; ft_force_integer_mv : bool }.

Record frame_head := {
  hr_start : frame_start; hr_tools : frame_tools; hr_primary_ref_frame : Z; hr_removal_time_present : bool;
  hr_allow_intrabc : bool; hr_allow_ref_frame_mvs : bool; hr_prev : option prev_frame; hr_sign_bias : list bool;
  hr_refresh_context_disabled : bool }.

Section Reading.
Context `{Malloc} (sh : SequenceHeader) (temporal_layer_id spatial_layer_id : Z).
(** The limit of the application, whether memory for the mode infos and the vectors can be
    had, and the alignment of the planes. *)
Context (frame_size_limit : Z) (mi_memory mv_memory : bool) (byte_alignment : Z).
Let sq : seq_tools := sh_tools sh.
Let oh : OrderHintInfo := order_hint_info sq.

Definition read_temporal_point_info : hreader Z := aom_rb_read_unsigned_literal (frame_presentation_time_length (sh_decoder_model_info sh)).

Definition read_time : hreader (option Z) :=
  if has_tu_pts sh then t ← read_temporal_point_info; mret (Some t) else mret None.

Definition read_show_existing (st : head_state) : hreader (shown_frame * head_state) :=
  _ ← check (negb (hd_sequence_header_changed st)) AOM_CODEC_CORRUPT_FRAME;
  idx ← aom_rb_read_literal 3;
  p ← lift (zget (ref_frame_map (hd_pool st)) idx);
  match p with
  | None => raise AOM_CODEC_UNSUP_BITSTREAM
  | Some r =>
      time ← read_time;
      _ ← (if frame_id_numbers_present_flag sq then
             display_frame_id ← aom_rb_read_literal (frame_id_length sq);
             id ← lift (zget (hd_ref_frame_id st) idx);
             valid ← lift (zget (hd_valid_for_referencing st) idx);
             check (negb (negb (display_frame_id =? id) || negb valid)) AOM_CODEC_CORRUPT_FRAME
           else mret tt);
      b ← lift (bufs (hd_pool st) !! r);
      s ← lift (assign_cur_frame r (hd_pool st));
      let reset := is_key (fi_frame_type (rc_frame b)) in
      _ ← check (fi_showable_frame (rc_frame b)) AOM_CODEC_UNSUP_BITSTREAM;
      let st := set_current (buf_hint b) (hd_refresh_frame_flags st) (hd_showable_frame st) (set_pool s st) in
      st ← lift (if reset then st ← set_cur_frame (with_showable false) st; show_existing_frame_reset idx st
                 else Some (set_current (hd_order_hint st) 0 (hd_showable_frame st) st));
      mret ({| sf_idx := idx; sf_time := time; sf_reset := reset |}, st)
  end.

(** A still picture with a reduced header is a shown key frame. *)
Definition reduced_start (st : head_state) : option (frame_start * head_state) :=
  st ← (if hd_sequence_header_changed st then new_sequence st else Some st);
  Some ({| st_frame_type := KEY_FRAME; st_show_frame := true; st_error_resilient_mode := true; st_time := None |}, st).

(** After [show_existing_frame], which is off. *)
Definition read_frame_type (st : head_state) : hreader (frame_start * head_state) :=
  v ← aom_rb_read_literal 2;
  let t := frame_type_of v in
  st ← (if hd_sequence_header_changed st then
          if is_key t then lift (new_sequence st) else raise AOM_CODEC_CORRUPT_FRAME
        else mret st);
  show ← r_flag;
  _ ← check (negb (sh_still_picture sh && (negb (is_key t) || negb show))) AOM_CODEC_CORRUPT_FRAME;
  '(showable, time) ← (if show : bool then time ← read_time; mret (negb (is_key t), time)
                       else b ← r_flag; mret (b, None));
  st ← lift (set_cur_frame (with_showable showable) st);
  err ← (if frame_is_sframe t || (is_key t && show) then mret true else r_flag);
  mret ({| st_frame_type := t; st_show_frame := show; st_error_resilient_mode := err; st_time := time |},
        set_current (hd_order_hint st) (hd_refresh_frame_flags st) showable st).

Definition read_frame_tools : hreader frame_tools :=
  d ← r_flag;
  sct ← (if force_screen_content_tools sq =? 2 then r_flag else mret (negb (force_screen_content_tools sq =? 0)));
  int ← (if sct : bool then
           if force_integer_mv sq =? 2 then r_flag else mret (negb (force_integer_mv sq =? 0))
         else mret false);
  mret {| ft_disable_cdf_update := d; ft_allow_screen_content_tools := sct; ft_force_integer_mv := int |}.

(** A slot whose identifier is too far from that of the frame. *)
Definition id_out_of_range (cur id : Z) : bool :=
  let diff := Z.shiftl 1 (delta_frame_id_length sq) in
  if 0 <? cur - diff then (cur <? id) || (id <? cur - diff)
  else (cur <? id) && (id <? Z.shiftl 1 (frame_id_length sq) + cur - diff).

Definition read_current_frame_id (f : frame_start) (st : head_state) : hreader head_state :=
  if frame_id_numbers_present_flag sq then
    let have_prev := negb (hd_decoding_first_frame st) && negb (is_key (st_frame_type f) && st_show_frame f) in
    let prev := if have_prev then hd_current_frame_id st else 0 in
    cur ← aom_rb_read_literal (frame_id_length sq);
    let diff := if prev <? cur then cur - prev else Z.shiftl 1 (frame_id_length sq) + cur - prev in
    _ ← check (negb (have_prev && ((prev =? cur) || (Z.shiftl 1 (frame_id_length sq - 1) <=? diff)))) AOM_CODEC_CORRUPT_FRAME;
    mret (set_ids (hd_ref_frame_id st)
            (zip_with (fun id valid => if id_out_of_range cur id then false else valid) (hd_ref_frame_id st) (hd_valid_for_referencing st)) cur st)
  else mret st.

(** [frame_size_override_flag] and [primary_ref_frame] besides the state. *)
Definition read_frame_ids (f : frame_start) (st : head_state) : hreader (bool * Z * head_state) :=
  st ← read_current_frame_id f st;
  over ← (if frame_is_sframe (st_frame_type f) then mret true else r_flag);
  hint ← aom_rb_read_literal (order_hint_bits_minus_1 oh + 1);
  primary ← (if negb (st_error_resilient_mode f) && negb (frame_is_intra_only (st_frame_type f))
             then aom_rb_read_literal PRIMARY_REF_BITS else mret PRIMARY_REF_NONE);
  mret (over, primary, set_current hint (hd_refresh_frame_flags st) (hd_showable_frame st) st).

Fixpoint read_removal_times (ops : list operating_point) (old : list Z) : hreader (list Z) :=
  match ops, old with
  | [], _ => mret old
  | _ :: _, [] => fault
  | op :: ops, _ :: old =>
      t ← (if op_removal temporal_layer_id spatial_layer_id op then aom_rb_read_unsigned_literal (buffer_removal_time_length (sh_decoder_model_info sh))
           else mret 0);
      ts ← read_removal_times ops old;
      mret (t :: ts)
  end.

Definition read_buffer_removal (st : head_state) : hreader (bool * head_state) :=
  if sh_decoder_model_info_present_flag sh then
    present ← r_flag;
    if present : bool then
      ts ← read_removal_times (frame_ops sh) (hd_removal_times st);
      mret (true, set_times ts st)
    else mret (false, st)
  else mret (false, st).

Definition set_flags (flags : Z) (st : head_state) : head_state := set_current (hd_order_hint st) flags (hd_showable_frame st) st.

Definition read_refresh_flags (f : frame_start) (st : head_state) : hreader head_state :=
  match st_frame_type f with
  | KEY_FRAME =>
      flags ← (if negb (st_show_frame f) then aom_rb_read_literal REF_FRAMES else mret (Z.shiftl 1 REF_FRAMES - 1));
      lift (resync (set_remapped no_refs (set_flags flags st)))
  | INTRA_ONLY_FRAME =>
      flags ← aom_rb_read_literal REF_FRAMES;
      _ ← check (negb (flags =? 255)) AOM_CODEC_UNSUP_BITSTREAM;
      lift (resync (set_flags flags st))
  | INTER_FRAME => if hd_need_resync st then mret st else flags ← aom_rb_read_literal REF_FRAMES; mret (set_flags flags st)
  | S_FRAME => if hd_need_resync st then mret st else mret (set_flags 255 st)
  end.

(** The frame that stands in for a missing one. *)
Definition missing_dims : fb_dims :=
  {| fb_width := max_frame_width sq; fb_height := max_frame_height sq;
     fb_ss_x := subsampling_x (sh_color sh); fb_ss_y := subsampling_y (sh_color sh);
     fb_highbitdepth := use_highbitdepth (sh_color sh); fb_border := AOM_BORDER_IN_PIXELS; fb_byte_alignment := byte_alignment |}.

Definition fill_slot (i : nat) (hint : Z) (st : head_state) : hreader head_state :=
  '(good, s) ← lift (replace_missing_ref missing_dims i (hd_pool st));
  _ ← check good AOM_CODEC_MEM_ERROR;
  p ← lift (ref_frame_map s !! i);
  k ← lift p;
  s ← lift (set_frame k (with_order_hint hint) s);
  mret (set_ids (hd_ref_frame_id st) (<[i := true]> (hd_valid_for_referencing st)) (hd_current_frame_id st) (set_pool s st)).

Fixpoint read_map_hints (slots : list nat) (st : head_state) : hreader head_state :=
  match slots with
  | [] => mret st
  | i :: slots =>
      hint ← aom_rb_read_literal (order_hint_bits_minus_1 oh + 1);
      o ← lift (slot_buf (hd_pool st) (Z.of_nat i));
      st ← (if match o with Some b => hint =? buf_hint b | None => false end then mret st else fill_slot i hint st);
      read_map_hints slots st
  end.

Definition read_ref_order_hints (f : frame_start) (st : head_state) : hreader head_state :=
  if negb (frame_is_intra_only (st_frame_type f)) || negb (hd_refresh_frame_flags st =? 255) then
    if st_error_resilient_mode f && enable_order_hint oh then read_map_hints (seq 0 (Z.to_nat REF_FRAMES)) st else mret st
  else mret st.

(** [setup_buffer_pool] *)
Definition setup_buffer_pool (st : head_state) : hreader head_state :=
  let z := sz_size (hd_size st) in
  k ← lift (cur_frame (hd_pool st));
  '(good, s) ← lift (realloc_fb
    {| fb_width := fz_width z; fb_height := fz_height z; fb_ss_x := subsampling_x (sh_color sh); fb_ss_y := subsampling_y (sh_color sh);
       fb_highbitdepth := use_highbitdepth (sh_color sh); fb_border := AOM_DEC_BORDER_IN_PIXELS; fb_byte_alignment := byte_alignment |} k (hd_pool st));
  _ ← check good AOM_CODEC_MEM_ERROR;
  lift (set_cur_frame (with_render (bit_depth (sh_color sh)) (render_width z) (render_height z)) (set_pool s st)).

Definition read_frame_size_fields (over : bool) (st : head_state) : hreader head_state :=
  z ← setup_frame_size sq frame_size_limit mi_memory mv_memory over (hd_size st);
  setup_buffer_pool (set_size z st).

Definition read_intra_size (tools : frame_tools) (over : bool) (st : head_state) : hreader (bool * head_state) :=
  st ← read_frame_size_fields over st;
  bc ← (if ft_allow_screen_content_tools tools && negb (av1_superres_scaled (sz_size (hd_size st))) then r_flag else mret false);
  mret (bc, st).

(** The references by name, which must be frames. *)
Fixpoint read_names (short : bool) (i : nat) (n : nat) (st : head_state) : hreader head_state :=
  match n with
  | O => mret st
  | S n =>
      '(ref, st) ←
        (if negb short then
           ref ← aom_rb_read_literal REF_FRAMES_LOG2;
           o ← lift (zget (ref_frame_map (hd_pool st)) ref);
           _ ← check (match o with None => false | Some _ => true end) AOM_CODEC_CORRUPT_FRAME;
           mret (ref, set_remapped (<[i := ref]> (hd_remapped_ref_idx st)) st)
         else ref ← lift (hd_remapped_ref_idx st !! i); mret (ref, st));
      valid ← lift (zget (hd_valid_for_referencing st) ref);
      _ ← check valid AOM_CODEC_CORRUPT_FRAME;
      _ ← (if frame_id_numbers_present_flag sq then
             d ← aom_rb_read_literal (delta_frame_id_length sq);
             id ← lift (zget (hd_ref_frame_id st) ref);
             check (Z.rem (hd_current_frame_id st - (d + 1) + Z.shiftl 1 (frame_id_length sq)) (Z.shiftl 1 (frame_id_length sq)) =? id)
               AOM_CODEC_CORRUPT_FRAME
           else mret tt);
      read_names short (S i) n st
  end.

(** The order hints in the slots of the map. *)
Definition slot_hints (s : pool) : option (list (option Z)) :=
  mapM (M := option) (fun i => o ← slot_buf s i; Some (option_map buf_hint o)) (seqZ 0 REF_FRAMES).

Definition read_short_refs (st : head_state) : hreader head_state :=
  lst ← aom_rb_read_literal REF_FRAMES_LOG2;
  l ← lift (zget (ref_frame_map (hd_pool st)) lst);
  gld ← aom_rb_read_literal REF_FRAMES_LOG2;
  g ← lift (zget (ref_frame_map (hd_pool st)) gld);
  _ ← check (match l with None => false | Some _ => true end) AOM_CODEC_CORRUPT_FRAME;
  _ ← check (match g with None => false | Some _ => true end) AOM_CODEC_CORRUPT_FRAME;
  hints ← lift (slot_hints (hd_pool st));
  r ← lift (av1_set_frame_refs oh (hd_order_hint st) lst gld hints (hd_remapped_ref_idx st));
  match r with inl e => raise e | inr l => mret (set_remapped l st) end.

(** The buffers behind the names. *)
Definition named_bufs (st : head_state) : option (list (option (RefCntBuffer frame_info))) :=
  mapM (M := option) (ref_buf (hd_pool st)) (hd_remapped_ref_idx st).

(** The same where a frame must be there: [None] is a null pointer. *)
Definition named_frames (st : head_state) : option (list (RefCntBuffer frame_info)) := l ← named_bufs st; mapM (M := option) id l.

Definition valid_ref_frame_img_fmt (b : RefCntBuffer frame_info) : bool :=
  (fi_bit_depth (rc_frame b) =? bit_depth (sh_color sh)) && (yv_subsampling_x (rc_buf b) =? subsampling_x (sh_color sh)) &&
  (yv_subsampling_y (rc_buf b) =? subsampling_y (sh_color sh)).

Definition ref_fits (w h : Z) (b : RefCntBuffer frame_info) : bool := valid_ref_frame_size (y_crop_width (rc_buf b)) (y_crop_height (rc_buf b)) w h.

Definition setup_frame_size_with_refs (st : head_state) : hreader head_state :=
  named ← lift (named_bufs st);
  z ← read_size_of_refs sq frame_size_limit mi_memory mv_memory (option_map buf_size <$> named) (hd_size st);
  let w := fz_width (sz_size z) in
  let h := fz_height (sz_size z) in
  _ ← check (negb ((w <=? 0) || (h <=? 0))) AOM_CODEC_CORRUPT_FRAME;
  frames ← lift (named_frames st);
  _ ← check (existsb (ref_fits w h) frames) AOM_CODEC_CORRUPT_FRAME;
  _ ← check (forallb valid_ref_frame_img_fmt frames) AOM_CODEC_CORRUPT_FRAME;
  setup_buffer_pool (set_size z st).

Definition read_frame_interp_filter : hreader Z :=
  b ← r_flag; if b : bool then mret SWITCHABLE else aom_rb_read_literal LOG_SWITCHABLE_FILTERS.

Definition read_refs (f : frame_start) (tools : frame_tools) (over : bool) (st : head_state) : hreader head_state :=
  short ← (if enable_order_hint oh then r_flag else mret false);
  st ← (if short : bool then read_short_refs st else mret st);
  st ← read_names short 0 (Z.to_nat INTER_REFS_PER_FRAME) st;
  st ← (if negb (st_error_resilient_mode f) && over then setup_frame_size_with_refs st else read_frame_size_fields over st);
  hp ← (if ft_force_integer_mv tools then mret false else r_flag);
  filter ← read_frame_interp_filter;
  switchable ← r_flag;
  mret (set_inter {| if_allow_high_precision_mv := hp; if_interp_filter := filter; if_switchable_motion_mode := switchable |} st).

(** [get_primary_ref_frame_buf] *)
Definition get_primary_ref_frame_buf (primary : Z) (st : head_state) : option (option (RefCntBuffer frame_info)) :=
  if primary =? PRIMARY_REF_NONE then Some None else m ← zget (hd_remapped_ref_idx st) primary; ref_buf (hd_pool st) m.

Definition no_scale : scale_factors := {| x_scale_fp := 0; y_scale_fp := 0; x_step_q4 := 0; y_step_q4 := 0 |}.

(** A reference that can be scaled to the frame. *)
Definition ref_scales (st : head_state) (b : RefCntBuffer frame_info) : bool :=
  av1_is_valid_scale (av1_setup_scale_factors_for_frame no_scale (y_crop_width (rc_buf b)) (y_crop_height (rc_buf b))
    (fz_width (sz_size (hd_size st))) (fz_height (sz_size (hd_size st)))).

(** The fields of a frame that is not a key frame, from its size on: intra block copy,
    vectors of the references, and the primary reference frame. *)
Definition read_non_key (f : frame_start) (tools : frame_tools) (over : bool) (primary : Z) (st : head_state)
  : hreader (bool * bool * option prev_frame * head_state) :=
  let inter := negb (is_intra_only_frame (st_frame_type f)) && negb (hd_need_resync st) in
  '(bc, st) ← (if is_intra_only_frame (st_frame_type f) then read_intra_size tools over st
               else if negb (hd_need_resync st) then st ← read_refs f tools over st; mret (false, st)
               else mret (false, st));
  o ← lift (get_primary_ref_frame_buf primary st);
  _ ← check (negb (negb (primary =? PRIMARY_REF_NONE) && match o with None => true | Some _ => false end)) AOM_CODEC_CORRUPT_FRAME;
  mvs ← (if inter then
           b ← (if might_allow_mvs sh (st_frame_type f) (st_error_resilient_mode f) then r_flag else mret false);
           frames ← lift (named_frames st);
           _ ← check (forallb (ref_scales st) frames) AOM_CODEC_UNSUP_BITSTREAM;
           mret b
         else mret false);
  mret (bc, mvs, (fun b => fi_prev (rc_frame b)) <$> o, st).

(** [av1_setup_frame_sign_bias] *)
Definition sign_bias (st : head_state) (o : option (RefCntBuffer frame_info)) : bool :=
  match o with
  | Some b => enable_order_hint oh && negb (get_relative_dist oh (buf_hint b) (hd_order_hint st) <=? 0)
  | None => false
  end.

(** From [av1_setup_frame_buf_refs] to [refresh_frame_context]. *)
Definition read_head_end (f : frame_start) (tools : frame_tools) (st : head_state) : hreader (list bool * bool * head_state) :=
  named ← lift (named_bufs st);
  st ← lift (set_cur_frame (fun i => with_type (st_frame_type f) (with_order_hint (hd_order_hint st) i)) st);
  let bias := sign_bias st <$> named in
  let st := update_ref_frame_id st in
  disabled ← (if negb (sh_reduced_still_picture_hdr sh) && negb (ft_disable_cdf_update tools) then r_flag else mret true);
  _ ← check (negb (hd_need_resync st)) AOM_CODEC_CORRUPT_FRAME;
  mret (bias, disabled, st).

(** After the type of the frame. *)
Definition read_frame_fields (f : frame_start) (st : head_state) : hreader (frame_head * head_state) :=
  let st := if is_key (st_frame_type f) && st_show_frame f
            then set_ids (hd_ref_frame_id st) (replicate (Z.to_nat REF_FRAMES) false) (hd_current_frame_id st) st else st in
  tools ← read_frame_tools;
  '(over, primary, st) ← (if negb (sh_reduced_still_picture_hdr sh) then read_frame_ids f st else mret (false, PRIMARY_REF_NONE, st));
  '(present, st) ← read_buffer_removal st;
  st ← read_refresh_flags f st;
  st ← read_ref_order_hints f st;
  '(bc, mvs, prev, st) ←
    (if is_key (st_frame_type f) then '(bc, st) ← read_intra_size tools over st; mret (bc, false, None, st)
     else read_non_key f tools over primary st);
  '(bias, disabled, st) ← read_head_end f tools st;
  mret ({| hr_start := f; hr_tools := tools; hr_primary_ref_frame := primary; hr_removal_time_present := present;
           hr_allow_intrabc := bc; hr_allow_ref_frame_mvs := mvs; hr_prev := prev; hr_sign_bias := bias;
           hr_refresh_context_disabled := disabled |}, st).

Definition read_head (ready : bool) (st : head_state) : hreader ((shown_frame + frame_head) * head_state) :=
  _ ← check ready AOM_CODEC_CORRUPT_FRAME;
  if sh_reduced_still_picture_hdr sh then
    '(f, st) ← lift (reduced_start st);
    '(h, st) ← read_frame_fields f st;
    mret (inr h, st)
  else
    existing ← r_flag;
    if existing : bool then '(s, st) ← read_show_existing st; mret (inl s, st)
    else
      '(f, st) ← read_frame_type st;
      '(h, st) ← read_frame_fields f st;
      mret (inr h, st).
End Reading.
