(* ===== verification/FrameHeadSafety.v ===== *)
(** * Reading a frame header keeps the decoder in order

    On any bytes the front of the frame header is read without an access outside the arrays
    of the decoder or through a null pointer; what it does to the pool of frame buffers is a
    sequence of the steps of [BufferPool.v], and what the decoder relies on for the next
    frame holds again. *)

From stdpp Require Import gmap.
From S2P Require Import Prelude CodecTypes Mem BitChannel BitBuffer EntCoder RangeSpec Cdf EntEncProof EntDecProof EntRoundTrip SymbolIO SyntaxIO TxCommon FrameContext Tile TileInfo MvCoding Leb128 Obu Yv12 FrameBuffers BufferPool BufferPoolProof UpscaleProof FrameRefs HeaderIO SeqHeader FrameQuant FrameFilters FilmGrain GlobalMotion RefOrder FrameTail FrameSize FrameHead.

#[local] Arguments Z.of_nat : simpl never.
#[local] Arguments Z.mul : simpl never.

(** ** Frames in the slots *)

(** A frame that can be referred to. *)
Definition frame_fine (b : RefCntBuffer frame_info) : Prop := ref_size_ok (buf_size b) /\ 0 <= buf_hint b.

(** Order hints are unsigned. *)
Definition slots_fine (s : pool) : Prop :=
  (forall k b, bufs s !! k = Some b -> 0 <= buf_hint b) /\
  forall i k b, ref_frame_map s !! i = Some (Some k) -> bufs s !! k = Some b -> ref_size_ok (buf_size b).

(** No frame becomes another, and no slot gets one. *)
Record tame (s s' : pool) : Prop := {
  tm_map i k : ref_frame_map s' !! i = Some (Some k) -> ref_frame_map s !! i = Some (Some k);
  tm_bufs k b' : bufs s' !! k = Some b' -> exists b, bufs s !! k = Some b /\ rc_buf b' = rc_buf b /\ (0 <= buf_hint b -> 0 <= buf_hint b') }.

Lemma tame_refl s : tame s s.
Proof. split; eauto. Qed.

Lemma tame_trans s1 s2 s3 : tame s1 s2 -> tame s2 s3 -> tame s1 s3.
Proof.
  intros [M1 B1] [M2 B2]. split; [auto |]. intros k b' Hb. destruct (B2 k b' Hb) as (b & Hb2 & E2 & H2). destruct (B1 k b Hb2) as (c & Hc & E1 & H1).
  exists c. split_and!; [done | congruence | auto].
Qed.

Lemma tame_fine s s' : tame s s' -> slots_fine s -> slots_fine s'.
Proof.
  intros [M B] [Hn Hs]. split.
  - intros k b' Hb. destruct (B k b' Hb) as (b & Hb' & _ & Hh). eauto.
  - intros i k b' Hi Hb. destruct (B k b' Hb) as (b & Hb' & E & _). pose proof (Hs i k b (M i k Hi) Hb') as Hw.
    unfold ref_size_ok, buf_size in *. cbn in *. by rewrite E.
Qed.

(** One buffer changes. *)
Lemma tame_insert s k b b' : bufs s !! k = Some b -> rc_buf b' = rc_buf b -> (0 <= buf_hint b -> 0 <= buf_hint b') ->
  tame s (with_bufs (<[k := b']> (bufs s)) s).
Proof.
  intros Hb E Hh. split; [done |]. intros j c. cbn. destruct (decide (k = j)) as [<- | Hne].
  - rewrite list_lookup_insert_eq by (by eapply lookup_lt_Some). intros [= <-]. eauto.
  - rewrite list_lookup_insert_ne by done. eauto.
Qed.

Lemma tame_map s m : (forall i k, m !! i = Some (Some k) -> ref_frame_map s !! i = Some (Some k)) -> tame s (with_map m s).
Proof. intros Hm. split; [done | eauto]. Qed.

Lemma tame_decrease p s s' : decrease_ref_count p s = Some s' -> tame s s'.
Proof.
  destruct p as [k |]; [| intros [= <-]; apply tame_refl]. cbn [decrease_ref_count]. destruct (bufs s !! k) as [b |] eqn:Hb; [| done]. cbn [mbind option_bind].
  destruct (raw_frame_buffer _); [destruct (_ =? 0) |]; intros [= <-]; [| by eapply tame_insert | by eapply tame_insert].
  split; [done |]. intros j c. cbn. destruct (decide (k = j)) as [<- | Hne].
  - rewrite list_lookup_insert_eq by (by eapply lookup_lt_Some). intros [= <-]. eauto.
  - rewrite list_lookup_insert_ne by done. eauto.
Qed.

Lemma tame_add d k s s' : add_count d k s = Some s' -> tame s s'.
Proof. unfold add_count. destruct (bufs s !! k) as [b |] eqn:Hb; [| done]. intros [= <-]. by eapply tame_insert. Qed.

Lemma tame_cur c s : tame s (with_cur c s).
Proof. split; eauto. Qed.

Lemma tame_assign r s s' : assign_cur_frame r s = Some s' -> tame s s'.
Proof.
  unfold assign_cur_frame. destruct (cur_frame s) as [k |].
  - destruct (add_count (-1) k s) as [s1 |] eqn:E; [| done]. cbn [mbind option_bind]. intros E2. apply tame_add in E, E2.
    eapply tame_trans; [exact E |]. eapply tame_trans; [apply tame_cur | exact E2].
  - cbn [mbind option_bind]. intros E2%tame_add. eapply tame_trans; [apply tame_cur | exact E2].
Qed.

Lemma tame_drop i s s' : drop_ref i s = Some s' -> tame s s'.
Proof.
  unfold drop_ref. destruct (ref_frame_map s !! i) as [p |]; [| done]. cbn [mbind option_bind]. destruct (decrease_ref_count p s) as [s1 |] eqn:E; [| done].
  intros [= <-]. eapply tame_trans; [by eapply tame_decrease |]. apply tame_map. intros j k. destruct (decide (i = j)) as [<- | Hne].
  - destruct (decide (i < length (ref_frame_map s1))%nat); [rewrite list_lookup_insert_eq by done; done | rewrite list_insert_ge by lia; done].
  - by rewrite list_lookup_insert_ne by done.
Qed.

Lemma tame_drops slots : forall s s', drop_refs slots s = Some s' -> tame s s'.
Proof.
  induction slots as [| i slots IH]; intros s s'; cbn [drop_refs]; [intros [= <-]; apply tame_refl |].
  destruct (drop_ref i s) as [s1 |] eqn:E; [| done]. cbn [mbind option_bind]. intros E2. eapply tame_trans; [by eapply tame_drop | by eapply IH].
Qed.

Lemma tame_set k g s s' : (forall f, 0 <= fi_order_hint f -> 0 <= fi_order_hint (g f)) -> set_frame k g s = Some s' -> tame s s'.
Proof. intros Hg. unfold set_frame. destruct (bufs s !! k) as [b |] eqn:Hb; [| done]. intros [= <-]. eapply tame_insert; [done | done |]. apply Hg. Qed.

(** A frame that gets memory has the size it is for. *)
Lemma realloc_effect `{Malloc} d k (s s' : pool) : realloc_fb d k s = Some (true, s') ->
  ref_frame_map s' = ref_frame_map s /\ cur_frame s' = cur_frame s /\
  forall j b', bufs s' !! j = Some b' -> exists b, bufs s !! j = Some b /\ rc_frame b' = rc_frame b /\
    (j <> k -> rc_buf b' = rc_buf b) /\ (j = k -> y_crop_width (rc_buf b') = fb_width d /\ y_crop_height (rc_buf b') = fb_height d).
Proof.
  unfold realloc_fb. destruct (fb_request _ _ _ _ _ _ _) as [size |]; [| done]. destruct (bufs s !! k) as [b |] eqn:Hb; [| done]. cbn [mbind option_bind].
  destruct (av1_get_frame_buffer _ _ _) as [[[r l] h] |]; [| done]. cbn [mbind option_bind].
  destruct (aom_realloc_frame_buffer _ _ _ _ _ _ _ _ _ _ _) as [[[err y] h'] |] eqn:E; [| done]. cbn [mbind option_bind]. intros [= He <-]. apply bool_decide_eq_true in He. subst err.
  assert (y_crop_width y = fb_width d /\ y_crop_height y = fb_height d) as Hy.
  { revert E. unfold aom_realloc_frame_buffer. destruct (calc_stride_and_planesize _ _ _ _ _ _ _ _) as [[[[? ?] ?] ?] |]; [| done].
    unfold realloc_frame_buffer_aligned. cbv zeta. destruct (_ <? _); [done |]. destruct (_ ≫= _) as [[x sz] |]; [| done]. destruct (_ || _); [done |]. by intros [= <- <-]. }
  split; [done |]. split; [done |]. intros j b'. cbn. destruct (decide (k = j)) as [<- | Hne].
  - rewrite list_lookup_insert_eq by (by eapply lookup_lt_Some). intros [= <-]. exists b. destruct r; by split_and!.
  - rewrite list_lookup_insert_ne by done. exists b'. by split_and!.
Qed.

(** So does one that stands in for a missing frame. *)
Lemma missing_effect `{Malloc} d i (s s' : pool) : replace_missing_ref d i s = Some (true, s') -> dim_ok (fb_width d) -> dim_ok (fb_height d) ->
  slots_fine s -> slots_fine s' /\ ((i < length (ref_frame_map s'))%nat -> exists k, ref_frame_map s' !! i = Some (Some k)).
Proof.
  unfold replace_missing_ref. intros E Hw Hh Hs. destruct (drop_ref i s) as [s1 |] eqn:E1; [| done]. cbn [mbind option_bind] in E. apply tame_drop in E1. apply (tame_fine _ _ E1) in Hs.
  destruct (get_free_fb s1) as [r s2] eqn:E2. assert (tame s1 s2) as T2.
  { revert E2. unfold get_free_fb. destruct (list_find _ _) as [[k b] |] eqn:Ef; intros [= <- <-]; [| apply tame_refl]. apply list_find_Some in Ef as (Hb & _). by eapply tame_insert. }
  apply (tame_fine _ _ T2) in Hs. destruct r as [k |]; [| done]. destruct (realloc_fb d k s2) as [[g s3] |] eqn:E3; [| done]. cbn [mbind option_bind] in E.
  destruct g; [| by destruct (decrease_ref_count _ _)]. injection E as <-. destruct (realloc_effect d k s2 s3 E3) as (Em & _ & Hb). destruct Hs as [Hn Hs]. split; [split |].
  - intros j b' Hj. destruct (Hb j b' Hj) as (b & Hj2 & Ef & _). unfold buf_hint. rewrite Ef. by apply (Hn j).
  - intros j q b' Hj Hq. destruct (Hb q b' Hq) as (b & Hq2 & Ef & Ho & Hk). unfold ref_size_ok, buf_size. cbn. destruct (decide (q = k)) as [-> | Hne]; [by destruct (Hk eq_refl) as [-> ->] |].
    rewrite (Ho Hne). cbn in Hj. rewrite Em in Hj. destruct (decide (i = j)) as [<- | Hij].
    + destruct (decide (i < length (ref_frame_map s2))%nat); [rewrite list_lookup_insert_eq in Hj by done; congruence | rewrite list_insert_ge in Hj by lia; by apply (Hs i q)].
    + rewrite list_lookup_insert_ne in Hj by done. by apply (Hs j q).
  - cbn. rewrite Em, length_insert. intros Hl. exists k. by rewrite list_lookup_insert_eq.
Qed.

(** ** The state of the decoder *)

Lemma zget_ok {A} (l : list A) i : 0 <= i < Z.of_nat (length l) -> exists x, zget l i = Some x /\ l !! Z.to_nat i = Some x.
Proof. intros Hi. destruct (lookup_lt_is_Some_2 l (Z.to_nat i) ltac:(lia)) as [x Hx]. exists x. split; [| done]. unfold zget. by rewrite (proj2 (Z.leb_le 0 i)) by lia. Qed.

Section Header.
Context `{MallocOk} (sh : SequenceHeader) (temporal_layer_id spatial_layer_id : Z) (limit : Z) (mi_memory mv_memory : bool) (byte_alignment : Z).
Context (Hv : header_valid sh) (Halign : byte_alignment = 0 \/ exists k, 5 <= k <= 10 /\ byte_alignment = 2 ^ k).

Record head_inv (st : head_state) : Prop := {
  hi_lens : length (hd_ref_frame_id st) = 8%nat /\ length (hd_valid_for_referencing st) = 8%nat /\ length (hd_remapped_ref_idx st) = 7%nat;
  hi_remapped : Forall (fun m => m = INVALID_IDX \/ 0 <= m < 8) (hd_remapped_ref_idx st);
  hi_size : mi_of_size (hd_size st);
  hi_slots : slots_fine (hd_pool st);
  hi_times : (32 <= length (hd_removal_times st))%nat;
  hi_hint : 0 <= hd_order_hint st }.

(** The state [s0] of the pool when the header began has become that of [st] by steps of the
    decoder. *)
Record good (s0 : pool) (ph : phase) (st : head_state) : Prop := {
  gd_steps : rtc step (InHeader, s0) (ph, hd_pool st);
  gd_ok : state_ok ph (hd_pool st);
  gd_inv : head_inv st }.

Lemma good_step s0 ph ph' st s' : good s0 ph st -> step (ph, hd_pool st) (ph', s') -> slots_fine s' -> good s0 ph' (set_pool s' st).
Proof.
  intros [Hs Ho [A1 A2 A3 A4 A5 A6]] Hst Ht. split; [by eapply rtc_r | by eapply step_ok | by split].
Qed.

Lemma good_reset s0 ph st : ph = InHeader \/ ph = Shown -> good s0 ph st ->
  exists s', reset_ref_frame_map (hd_pool st) = Some s' /\ good s0 ph (set_pool s' st).
Proof.
  intros Hph Hg. assert (started ph) as Hst by (destruct Hph as [-> | ->]; [by left | by right; left]).
  destruct (reset_map_ok (hd_pool st) [] (so_account _ _ Hst (gd_ok _ _ _ Hg))) as (s' & E & _). exists s'. split; [done |].
  apply (good_step s0 ph); [done | by apply ResetMap |]. eapply tame_fine; [by eapply tame_drops | apply (hi_slots _ (gd_inv _ _ _ Hg))].
Qed.

Lemma good_set s0 ph st k g : started ph -> (k < 16)%nat -> (forall f, 0 <= fi_order_hint f -> 0 <= fi_order_hint (g f)) -> good s0 ph st ->
  exists s', set_frame k g (hd_pool st) = Some s' /\ good s0 ph (set_pool s' st) /\ cur_frame s' = cur_frame (hd_pool st) /\
    ref_frame_map s' = ref_frame_map (hd_pool st) /\ tame (hd_pool st) s'.
Proof.
  intros Hph Hk Hg Hgd. destruct (set_frame_ok k g (hd_pool st) [] (so_account _ _ Hph (gd_ok _ _ _ Hgd)) Hk) as (s' & E & _ & ((Hm & Hc & _) & _)). exists s'.
  assert (tame (hd_pool st) s') as Ht by (by eapply tame_set). split_and!; try done.
  apply (good_step s0 ph); [done | by eapply Fields |]. eapply tame_fine; [done | apply (hi_slots _ (gd_inv _ _ _ Hgd))].
Qed.

(** The current frame. *)
Lemma good_cur s0 ph st : started ph -> good s0 ph st -> exists k, cur_frame (hd_pool st) = Some k /\ (k < 16)%nat.
Proof.
  intros Hph [_ [Ha Ho Hp] _]. rewrite settled_started in Ha by done. destruct (phase_cur _ _ Hph Hp) as (k & Hk & _). exists k. split; [done |].
  destruct Ha as [(Lb & _) [Hr _] _ _ _]. rewrite list.Forall_forall in Hr. rewrite <- Lb. apply Hr, elem_of_app. left. unfold holders. rewrite Hk.
  apply elem_of_app. right. apply elem_of_app. left. by apply list_elem_of_singleton.
Qed.

Lemma good_set_cur s0 ph st g : started ph -> (forall f, 0 <= fi_order_hint f -> 0 <= fi_order_hint (g f)) -> good s0 ph st ->
  exists s', set_cur_frame g st = Some (set_pool s' st) /\ good s0 ph (set_pool s' st) /\ cur_frame s' = cur_frame (hd_pool st) /\
    ref_frame_map s' = ref_frame_map (hd_pool st) /\ tame (hd_pool st) s'.
Proof.
  intros Hph Hf Hg. destruct (good_cur _ _ _ Hph Hg) as (k & Hk & Hlt). destruct (good_set s0 ph st k g Hph Hlt Hf Hg) as (s' & E & Hg' & Hrest).
  exists s'. split; [| done]. unfold set_cur_frame. rewrite Hk. cbn [mbind option_bind]. by rewrite E.
Qed.

(** Fields that are not of the pool. *)
Lemma good_fields s0 ph st st' : good s0 ph st -> hd_pool st' = hd_pool st -> head_inv st' -> good s0 ph st'.
Proof. intros [Hs Ho _] E Hi. split; rewrite ?E; done. Qed.

Lemma good_slot s0 ph st i : good s0 ph st -> 0 <= i < 8 ->
  exists p, zget (ref_frame_map (hd_pool st)) i = Some p /\ ref_frame_map (hd_pool st) !! Z.to_nat i = Some p /\
    match p with
    | None => slot_buf (hd_pool st) i = Some None
    | Some k => exists b, bufs (hd_pool st) !! k = Some b /\ slot_buf (hd_pool st) i = Some (Some b) /\ frame_fine b
    end.
Proof.
  intros [_ Hok Hi] Hib. destruct (state_shape _ _ Hok) as (Lb & Lm & Hr). destruct (zget_ok (ref_frame_map (hd_pool st)) i ltac:(lia)) as (p & Ep & El). exists p. split_and!; [done | done |].
  unfold slot_buf. rewrite Ep. cbn [mbind option_bind]. destruct p as [k |]; [| done]. rewrite list.Forall_forall in Hr.
  destruct (lookup_lt_is_Some_2 (bufs (hd_pool st)) k) as [b Hb].
  { apply Hr. unfold holders. apply elem_of_app. left. apply list_elem_of_omap. exists (Some k). split; [by eapply list_elem_of_lookup_2 | done]. }
  exists b. rewrite Hb. split_and!; [done | done |]. destruct (hi_slots _ Hi) as [Hh Hs]. split; [by apply (Hs (Z.to_nat i) k) | by apply (Hh k)].
Qed.

Lemma good_resync s0 ph st : ph = InHeader \/ ph = Shown -> good s0 ph st ->
  exists st', resync st = Some st' /\ good s0 ph st' /\ hd_need_resync st' = false /\ hd_refresh_frame_flags st' = hd_refresh_frame_flags st.
Proof.
  intros Hph Hg. unfold resync. destruct (hd_need_resync st) eqn:E; [| exists st; by split_and!].
  destruct (good_reset s0 ph st Hph Hg) as (s' & -> & Hg'). cbn [mbind option_bind]. eexists. split; [done |]. split; [| done].
  apply (good_fields s0 ph (set_pool s' st)); [done | done |]. destruct (gd_inv _ _ _ Hg'). by split.
Qed.

Lemma good_reset_hints ks : forall s0 st, Forall (fun k => (k < 16)%nat) ks -> good s0 InHeader st ->
  exists s', reset_hints ks (hd_pool st) = Some s' /\ good s0 InHeader (set_pool s' st).
Proof.
  induction ks as [| k ks IH]; intros s0 st Hks Hg; [exists (hd_pool st); split; [done | by destruct st] |].
  apply Forall_cons_iff in Hks as [Hk Hks]. cbn [reset_hints]. destruct (lookup_lt_is_Some_2 (bufs (hd_pool st)) k) as [b Hb]; [by destruct (state_shape _ _ (gd_ok _ _ _ Hg)) as (-> & _) |].
  rewrite Hb. cbn [mbind option_bind]. destruct (_ && _).
  - cbn [mbind option_bind]. by apply IH.
  - destruct (good_set s0 InHeader st k (with_order_hint 0)) as (s1 & -> & Hg1 & _); [by left | done | cbn; lia | done |]. cbn [mbind option_bind].
    destruct (IH s0 (set_pool s1 st) Hks Hg1) as (s' & E & Hg'). exists s'. split; [done |]. done.
Qed.

Lemma good_new_sequence s0 st : good s0 InHeader st -> exists st', new_sequence st = Some st' /\ good s0 InHeader st'.
Proof.
  intros Hg. unfold new_sequence, reset_frame_buffers. destruct (good_reset s0 InHeader st (or_introl eq_refl) Hg) as (s1 & -> & Hg1). cbn [mbind option_bind].
  destruct (good_reset_hints (seq 0 (Z.to_nat FRAME_BUFFERS)) s0 (set_pool s1 st)) as (s2 & E & Hg2); [by repeat constructor; cbv; lia | done |].
  change (hd_pool (set_pool s1 st)) with s1 in E. rewrite E. cbn [mbind option_bind]. eexists. split; [done |].
  apply (good_fields s0 InHeader (set_pool s2 st)); [done | done |]. destruct (gd_inv _ _ _ Hg2). by split.
Qed.

(** ** Fields *)

Lemma ids_bounds : frame_id_numbers_present_flag (sh_tools sh) = true -> 2 <= delta_frame_id_length (sh_tools sh) < frame_id_length (sh_tools sh) /\ frame_id_length (sh_tools sh) <= 16.
Proof. intros E. destruct (tv_ids _ _ (hv_tools _ Hv) E) as (_ & Hd & Hl & _). done. Qed.

Lemma hint_bits : 0 <= order_hint_bits_minus_1 (order_hint_info (sh_tools sh)) + 1 <= 8.
Proof.
  destruct (tv_hint _ _ (hv_tools _ Hv)) as [Hon Hoff]. destruct (enable_order_hint (order_hint_info (sh_tools sh))); [specialize (Hon eq_refl) | destruct (Hoff eq_refl) as [-> _]]; lia.
Qed.

Lemma yields_time : yields (read_time sh) (fun _ => True).
Proof.
  unfold read_time, read_temporal_point_info. destruct (has_tu_pts sh) eqn:E; [| by apply yields_ret]. unfold has_tu_pts in E.
  apply andb_true_iff in E as [E _]. destruct (hv_model _ Hv E) as [_ (_ & _ & _ & Hl)]. next yields_ulit; [lia |]. intros t _. by apply yields_ret.
Qed.

Lemma good_update s0 ph st : good s0 ph st -> good s0 ph (update_ref_frame_id st).
Proof.
  intros Hg. apply (good_fields s0 ph st); [done | done |]. destruct (gd_inv _ _ _ Hg) as [(L1 & L2 & L3) A2 A3 A4 A5 A6].
  split; cbn; rewrite ?length_imap; done.
Qed.

Lemma good_no_refs s0 ph st : good s0 ph st -> good s0 ph (set_remapped no_refs st).
Proof.
  intros Hg. apply (good_fields s0 ph st); [done | done |]. destruct (gd_inv _ _ _ Hg) as [(L1 & L2 & L3) A2 A3 A4 A5 A6].
  split; cbn; try done. by repeat constructor.
Qed.

Lemma good_current s0 ph st hint flags showable : 0 <= hint -> good s0 ph st -> good s0 ph (set_current hint flags showable st).
Proof. intros Hh Hg. apply (good_fields s0 ph st); [done | done |]. destruct (gd_inv _ _ _ Hg) as [? ? ? ? ? ?]. by split. Qed.

Lemma good_hint s0 ph st : good s0 ph st -> 0 <= hd_order_hint st.
Proof. intros [_ _ []]. done. Qed.

Lemma good_ids s0 ph st valid cur : length valid = 8%nat -> good s0 ph st -> good s0 ph (set_ids (hd_ref_frame_id st) valid cur st).
Proof. intros Hl Hg. apply (good_fields s0 ph st); [done | done |]. destruct (gd_inv _ _ _ Hg) as [(? & ? & ?) ? ? ? ? ?]. by split. Qed.

Lemma good_shown_reset s0 st idx : 0 <= idx < 8 -> good s0 Shown st -> exists st', show_existing_frame_reset idx st = Some st' /\ good s0 Shown st'.
Proof.
  intros Hi Hg. unfold show_existing_frame_reset. cbv zeta.
  destruct (good_resync s0 Shown (set_remapped no_refs (set_current (hd_order_hint st) (Z.shiftl 1 REF_FRAMES - 1) (hd_showable_frame st) st))) as (st1 & -> & Hg1 & _);
    [by right | apply good_no_refs, good_current; [by eapply good_hint | done] |].
  cbn [mbind option_bind]. destruct (gd_inv _ _ _ Hg1) as [(L1 & L2 & _) _ _ _ _ _]. destruct (zget_ok (hd_ref_frame_id st1) idx ltac:(lia)) as (id & -> & _). cbn [mbind option_bind].
  eexists. split; [done |]. by apply good_update, good_ids.
Qed.

Lemma yields_show_existing s0 st : good s0 InHeader st -> yields (read_show_existing sh st) (fun '(_, st') => good s0 Shown st').
Proof.
  intros Hg. unfold read_show_existing. eapply yields_bind; [apply yields_check |]. intros _ _. lit idx. change (2 ^ 3) with 8 in *.
  destruct (good_slot _ _ _ idx Hg) as (p & E & El & Hp); [lia |]. next @yields_lift; [exact E |]. intros ? <-. destruct p as [r |]; [| apply yields_raise].
  next yields_time. intros time _. eapply (yields_bind _ _ (fun _ => True)).
  { destruct (frame_id_numbers_present_flag _) eqn:Ei; [| by apply yields_ret]. destruct (ids_bounds Ei). destruct (gd_inv _ _ _ Hg) as [(L1 & L2 & _) _ _ _ _ _].
    lit shown. destruct (zget_ok (hd_ref_frame_id st) idx ltac:(lia)) as (x & Ex & _). destruct (zget_ok (hd_valid_for_referencing st) idx ltac:(lia)) as (y & Ey & _).
    next @yields_lift; [exact Ex |]. intros ? <-. next @yields_lift; [exact Ey |]. intros ? <-. eapply yields_le; [apply yields_check | done]. }
  intros _ _. destruct Hp as (b & Hb & _ & [_ Hh]). next @yields_lift; [exact Hb |]. intros ? <-.
  destruct (gd_ok _ _ _ Hg) as [Ha Ho [(k & Hk & Hn & _) _]]. destruct (show_ok (hd_pool st) k (Z.to_nat idx) r Ha Hk Hn El) as (s' & Es & _).
  next @yields_lift; [exact Es |]. intros ? <-. cbv zeta. eapply yields_bind; [apply yields_check |]. intros _ _.
  assert (good s0 Shown (set_pool s' st)) as Hg1.
  { apply (good_step s0 InHeader); [done | by eapply ShowExisting |]. eapply tame_fine; [by eapply tame_assign | apply (hi_slots _ (gd_inv _ _ _ Hg))]. }
  apply (good_current _ _ _ (buf_hint b) (hd_refresh_frame_flags st) (hd_showable_frame st) Hh) in Hg1. set (st1 := set_current _ _ _ _) in *.
  destruct (is_key _).
  - destruct (good_set_cur s0 Shown st1 (with_showable false)) as (s2 & E2 & Hg2 & _); [by right; left | done | done |].
    destruct (good_shown_reset s0 _ idx ltac:(lia) Hg2) as (st3 & E3 & Hg3). next @yields_lift; [rewrite E2; exact E3 |]. intros ? <-. by apply yields_ret.
  - next @yields_lift; [done |]. intros ? <-. apply yields_ret. by apply good_current.
Qed.

Lemma yields_frame_type s0 st : good s0 InHeader st -> yields (read_frame_type sh st) (fun '(_, st') => good s0 InHeader st').
Proof.
  intros Hg. unfold read_frame_type. lit v. cbv zeta. set (t := frame_type_of v). eapply (yields_bind _ _ (good s0 InHeader)).
  { destruct (hd_sequence_header_changed st); [| by apply yields_ret]. destruct (is_key t); [| apply yields_raise].
    destruct (good_new_sequence s0 st Hg) as (st' & E & Hg'). eapply yields_le; [apply yields_lift; exact E |]. by intros ? <-. }
  clear st Hg. intros st Hg. flag show. eapply yields_bind; [apply yields_check |]. intros _ _. eapply (yields_bind _ _ (fun _ => True)).
  { destruct show; [next yields_time; intros time _; by apply yields_ret | flag b; by apply yields_ret]. }
  intros [showable time] _. destruct (good_set_cur s0 InHeader st (with_showable showable)) as (s' & E & Hg' & _); [by left | done | done |].
  next @yields_lift; [exact E |]. intros ? <-. eapply (yields_bind _ _ (fun _ => True)). { destruct (_ || _); [by apply yields_ret | apply yields_flag]. }
  intros err _. apply yields_ret. apply good_current; [by eapply good_hint | done].
Qed.

Lemma yields_frame_tools : yields (read_frame_tools sh) (fun _ => True).
Proof.
  unfold read_frame_tools. flag d. eapply (yields_bind _ _ (fun _ => True)). { destruct (_ =? 2); [apply yields_flag | by apply yields_ret]. }
  intros sct _. eapply (yields_bind _ _ (fun _ => True)). { destruct sct; [destruct (_ =? 2); [apply yields_flag | by apply yields_ret] | by apply yields_ret]. }
  intros int _. by apply yields_ret.
Qed.

Lemma yields_frame_ids s0 f st : good s0 InHeader st -> yields (read_frame_ids sh f st) (fun '(_, primary, st') => good s0 InHeader st' /\ 0 <= primary < 8).
Proof.
  intros Hg. unfold read_frame_ids. eapply (yields_bind _ _ (good s0 InHeader)).
  { unfold read_current_frame_id. destruct (frame_id_numbers_present_flag _) eqn:Ei; [| by apply yields_ret]. destruct (ids_bounds Ei). cbv zeta. lit cur.
    eapply yields_bind; [apply yields_check |]. intros _ _. apply yields_ret. apply good_ids; [| done]. destruct (gd_inv _ _ _ Hg) as [(L1 & L2 & _) _ _ _ _ _].
    rewrite length_zip_with. lia. }
  clear st Hg. intros st Hg. eapply (yields_bind _ _ (fun _ => True)). { destruct (frame_is_sframe _); [by apply yields_ret | apply yields_flag]. }
  intros over _. pose proof hint_bits as Hb. lit hint. eapply (yields_bind _ _ (fun p => 0 <= p < 8)).
  { destruct (_ && _); [apply (yields_lit 3); lia | apply yields_ret; unfold PRIMARY_REF_NONE; lia]. }
  intros primary Hp. apply yields_ret. split; [| done]. apply good_current; [lia | done].
Qed.

Lemma yields_removal_times (Hm : sh_decoder_model_info_present_flag sh = true) ops : forall old, (length ops <= length old)%nat ->
  yields (read_removal_times sh temporal_layer_id spatial_layer_id ops old) (fun ts => length ts = length old).
Proof.
  destruct (hv_model _ Hv Hm) as [_ (_ & _ & Hl & _)]. induction ops as [| op ops IH]; intros [| o old] Hn; cbn in Hn; try lia; cbn [read_removal_times]; try by apply yields_ret.
  eapply (yields_bind _ _ (fun _ => True)). { destruct (op_removal _ _ _); [eapply yields_le; [apply yields_ulit; lia | done] | by apply yields_ret]. }
  intros t _. next IH; [lia |]. intros ts Ht. apply yields_ret. cbn. lia.
Qed.

Lemma yields_buffer_removal s0 st : good s0 InHeader st ->
  yields (read_buffer_removal sh temporal_layer_id spatial_layer_id st) (fun '(_, st') => good s0 InHeader st').
Proof.
  intros Hg. unfold read_buffer_removal. destruct (sh_decoder_model_info_present_flag sh) eqn:E; [| by apply yields_ret]. flag p. destruct p; [| by apply yields_ret].
  destruct (gd_inv _ _ _ Hg) as [A1 A2 A3 A4 A5 A6]. next (yields_removal_times E).
  { destruct (hv_count _ Hv) as [Hc Hl]. unfold frame_ops. rewrite length_take. lia. }
  intros ts Ht. apply yields_ret. apply (good_fields s0 InHeader st); [done | done |]. split; try done. cbn. lia.
Qed.

Lemma yields_refresh_flags s0 f st : good s0 InHeader st -> yields (read_refresh_flags f st) (good s0 InHeader).
Proof.
  intros Hg. pose proof (good_hint _ _ _ Hg) as Hh. unfold read_refresh_flags, set_flags, REF_FRAMES. destruct (st_frame_type f).
  - eapply (yields_bind _ _ (fun _ => True)). { destruct (negb _); [eapply yields_le; [apply yields_lit; lia | done] | by apply yields_ret]. }
    intros flags _. destruct (good_resync s0 InHeader (set_remapped no_refs (set_current (hd_order_hint st) flags (hd_showable_frame st) st))) as (st' & E & Hg' & _);
      [by left | by apply good_no_refs, good_current |]. eapply yields_le; [apply yields_lift; exact E |]. by intros ? <-.
  - destruct (hd_need_resync st); [by apply yields_ret |]. lit flags. apply yields_ret. by apply good_current.
  - lit flags. eapply yields_bind; [apply yields_check |]. intros _ _.
    destruct (good_resync s0 InHeader (set_current (hd_order_hint st) flags (hd_showable_frame st) st)) as (st' & E & Hg' & _); [by left | by apply good_current |].
    eapply yields_le; [apply yields_lift; exact E |]. by intros ? <-.
  - destruct (hd_need_resync st); apply yields_ret; [done | by apply good_current].
Qed.

(** *** Missing references *)

Lemma color_ss : (subsampling_x (sh_color sh) = 0 \/ subsampling_x (sh_color sh) = 1) /\ (subsampling_y (sh_color sh) = 0 \/ subsampling_y (sh_color sh) = 1).
Proof.
  destruct (hv_color _ Hv) as [Hd _ _ Hm Hs Hf]. pose proof (hv_profile _ Hv) as Hp. unfold subsampling_is in *. unfold PROFILE_0, PROFILE_1, PROFILE_2 in *.
  destruct (monochrome (sh_color sh)); [destruct (Hm eq_refl) as (_ & [-> ->] & _); auto |]. destruct (is_srgb (sh_color sh)); [destruct (Hs eq_refl eq_refl) as ([-> ->] & _); auto |].
  destruct (Hf eq_refl eq_refl) as (F0 & F1 & F2 & F3 & _). clear - Hp F0 F1 F2 F3.
  assert (sh_profile sh = 0 \/ sh_profile sh = 1 \/ sh_profile sh = 2) as [Ep | [Ep | Ep]] by lia;
    [destruct (F0 Ep) as [-> ->]; auto | destruct (F1 Ep) as [-> ->]; auto |].
  destruct (Z.eq_dec (bit_depth (sh_color sh)) 12) as [E | E]; [destruct (F3 Ep E) as [[-> ->] | [[-> ->] | [-> ->]]]; auto | destruct (F2 Ep E) as [-> ->]; auto].
Qed.

Lemma max_dims : dim_ok (max_frame_width (sh_tools sh)) /\ dim_ok (max_frame_height (sh_tools sh)).
Proof.
  destruct (tv_width _ _ (hv_tools _ Hv)) as [Nw Mw], (tv_height _ _ (hv_tools _ Hv)) as [Nh Mh]. unfold dim_ok.
  pose proof (Z.pow_le_mono_r 2 (num_bits_width (sh_tools sh)) 16 ltac:(lia) ltac:(lia)).
  pose proof (Z.pow_le_mono_r 2 (num_bits_height (sh_tools sh)) 16 ltac:(lia) ltac:(lia)). change (2 ^ 16) with 65536 in *. lia.
Qed.

Lemma dims_fine w h border : dim_ok w -> dim_ok h -> 0 <= border <= 1024 -> border mod 32 = 0 ->
  dims_ok {| fb_width := w; fb_height := h; fb_ss_x := subsampling_x (sh_color sh); fb_ss_y := subsampling_y (sh_color sh);
             fb_highbitdepth := use_highbitdepth (sh_color sh); fb_border := border; fb_byte_alignment := byte_alignment |}.
Proof. intros Hw Hh Hb Hm. split; cbn; [done | apply color_ss | done | done]. Qed.

Lemma yields_fill_slot s0 i hint st : (i < 8)%nat -> 0 <= hint -> good s0 InHeader st -> yields (fill_slot sh byte_alignment i hint st) (good s0 InHeader).
Proof.
  intros Hi Hh Hg. destruct max_dims as [Dw Dh]. unfold fill_slot. destruct (gd_ok _ _ _ Hg) as [Ha Ho [(k & Hk & Hn & _) Hgr]].
  assert (dims_ok (missing_dims sh byte_alignment)) as Hd by (by apply dims_fine).
  destruct (missing_ok (missing_dims sh byte_alignment) i (hd_pool st) k Ha Hd Hi Hk Hn (proj1 Ho) Hgr) as (gd & s' & E & Ha' & _).
  next @yields_lift; [exact E |]. intros ? <-. eapply yields_bind; [apply yields_check |]. intros ? ->.
  destruct (missing_effect _ _ _ _ E Dw Dh (hi_slots _ (gd_inv _ _ _ Hg))) as [Hs Hm]. destruct (Hm ltac:(by destruct Ha' as [(_ & -> & _)])) as (q & Hq).
  next @yields_lift; [exact Hq |]. intros ? <-. next @yields_lift; [reflexivity |]. intros ? <-.
  assert (good s0 InHeader (set_pool s' st)) as Hg1 by (apply (good_step s0 InHeader); [done | eapply (Missing (missing_dims sh byte_alignment) i); [done | unfold REF_FRAMES; lia | exact E] | done]).
  destruct (good_slot _ _ _ (Z.of_nat i) Hg1 ltac:(lia)) as (p & _ & Ep & Hp). rewrite Nat2Z.id in Ep. cbn [hd_pool set_pool] in Ep, Hp. rewrite Hq in Ep. injection Ep as <-.
  destruct Hp as (b & Hb & _). assert (q < 16)%nat as Hlt by (apply lookup_lt_Some in Hb; destruct Ha' as [(Lb & _)]; lia).
  destruct (good_set s0 InHeader (set_pool s' st) q (with_order_hint hint)) as (s2 & E2 & Hg2 & _); [by left | done | done | done |].
  next @yields_lift; [exact E2 |]. intros ? <-. apply yields_ret. destruct (gd_inv _ _ _ Hg) as [(_ & L2 & _) _ _ _ _ _].
  apply (good_ids s0 InHeader (set_pool s2 st)); [by rewrite length_insert | done].
Qed.

Lemma yields_map_hints s0 slots : forall st, Forall (fun i => (i < 8)%nat) slots -> good s0 InHeader st -> yields (read_map_hints sh byte_alignment slots st) (good s0 InHeader).
Proof.
  induction slots as [| i slots IH]; intros st Hs Hg; cbn [read_map_hints]; [by apply yields_ret |]. apply Forall_cons_iff in Hs as [Hi Hs]. pose proof hint_bits.
  lit hint. destruct (good_slot _ _ _ (Z.of_nat i) Hg ltac:(lia)) as (p & _ & _ & Hp).
  assert (exists o, slot_buf (hd_pool st) (Z.of_nat i) = Some o) as (o & Eo) by (destruct p; [destruct Hp as (b & _ & Hb & _); eauto | eauto]).
  next @yields_lift; [exact Eo |]. intros ? <-. eapply (yields_bind _ _ (good s0 InHeader)); [| eauto].
  destruct (match o with Some _ => _ | None => _ end); [by apply yields_ret | apply yields_fill_slot; [done | lia | done]].
Qed.

Lemma yields_ref_order_hints s0 f st : good s0 InHeader st -> yields (read_ref_order_hints sh byte_alignment f st) (good s0 InHeader).
Proof.
  intros Hg. unfold read_ref_order_hints. destruct (_ || _); [| by apply yields_ret]. destruct (_ && _); [| by apply yields_ret].
  apply yields_map_hints; [by repeat constructor; cbv; lia | done].
Qed.

(** *** The size, and memory for the frame *)

(** The current frame has a size. *)
Definition cur_fine (st : head_state) : Prop :=
  exists k b, cur_frame (hd_pool st) = Some k /\ bufs (hd_pool st) !! k = Some b /\ ref_size_ok (buf_size b).

Lemma cur_fine_tame ph s0 st s' : good s0 ph (set_pool s' st) -> started ph -> cur_fine st -> cur_frame s' = cur_frame (hd_pool st) -> tame (hd_pool st) s' -> cur_fine (set_pool s' st).
Proof.
  intros Hg Hph (k & b & Hk & Hb & Hs) Hc [_ Ht]. destruct (good_cur _ _ _ Hph Hg) as (q & Hq & Hlt). cbn in Hq. rewrite Hc, Hk in Hq. injection Hq as <-.
  destruct (lookup_lt_is_Some_2 (bufs s') k) as [b' Hb']; [destruct (state_shape _ _ (gd_ok _ _ _ Hg)) as [Lb _]; cbn in Lb; lia |].
  exists k, b'. split_and!; [cbn; congruence | done |]. destruct (Ht k b' Hb') as (c & Hc' & E & _). rewrite Hb in Hc'. injection Hc' as <-. unfold ref_size_ok, buf_size in *. cbn in *. by rewrite E.
Qed.

Lemma yields_buffer_pool s0 st : good s0 InHeader st -> size_fine (hd_size st) -> yields (setup_buffer_pool sh byte_alignment st)
  (fun st' => good s0 InFrame st' /\ cur_fine st' /\ exists s', st' = set_pool s' st /\ ref_frame_map s' = ref_frame_map (hd_pool st)).
Proof.
  intros Hg [[Dw Dh] [Cw Ch] _]. unfold setup_buffer_pool. cbv zeta. destruct (good_cur _ _ _ (or_introl eq_refl) Hg) as (k & Hk & Hlt). next @yields_lift; [exact Hk |]. intros ? <-.
  set (d := {| fb_width := _ |}). assert (dim_ok (fb_width d) /\ dim_ok (fb_height d)) as [Wd Wh] by (unfold dim_ok in *; cbn; lia).
  assert (dims_ok d) as Hd by (by apply dims_fine). destruct (gd_ok _ _ _ Hg) as [Ha Ho [(q & Hq & Hn & _) Hgr]]. change (acct (hd_pool st) []) in Ha. rewrite Hk in Hq. injection Hq as <-.
  destruct (realloc_fb_ok d (hd_pool st) [] k Ha Hd) as (gd & s' & E & Ha' & _); [| done | |].
  { apply elem_of_app. left. unfold holders. rewrite Hk. apply elem_of_app. right. apply elem_of_app. left. by apply list_elem_of_singleton. }
  { pose proof (holders_length _ [] Ha) as Hl. pose proof (option_list_le (cur_frame (hd_pool st))). destruct Ho as [O4 _]. rewrite app_nil_r, Hgr. cbn [length]. lia. }
  next @yields_lift; [exact E |]. intros ? <-. eapply yields_bind; [apply yields_check |]. intros ? ->.
  destruct (realloc_effect d k (hd_pool st) s' E) as (Em & Ec & Hb). destruct (hi_slots _ (gd_inv _ _ _ Hg)) as [Hh Hs].
  assert (forall b', bufs s' !! k = Some b' -> ref_size_ok (buf_size b')) as Hbk.
  { intros b' Hb'. destruct (Hb k b' Hb') as (b & _ & _ & _ & Hdim). destruct (Hdim eq_refl) as [E1 E2]. unfold ref_size_ok, buf_size. cbn [rz_width rz_height]. by rewrite E1, E2. }
  assert (good s0 InFrame (set_pool s' st)) as Hg1.
  { apply (good_step s0 InHeader); [done | by eapply Setup |]. split.
    - intros j b' Hj. destruct (Hb j b' Hj) as (b & Hjb & Ef & _). unfold buf_hint. rewrite Ef. by apply (Hh j).
    - intros i q b' Hi Hq. destruct (decide (q = k)) as [-> | Hne]; [by apply Hbk |]. destruct (Hb q b' Hq) as (b & Hqb & _ & Hbuf & _).
      rewrite Em in Hi. pose proof (Hs i q b Hi Hqb) as Hz. unfold ref_size_ok, buf_size in *. cbn in *. by rewrite (Hbuf Hne). }
  assert (cur_fine (set_pool s' st)) as Hcf.
  { destruct (lookup_lt_is_Some_2 (bufs s') k) as [b' Hb']; [destruct Ha' as [(Lb & _)]; lia |]. exists k, b'. split_and!; [cbn; congruence | done | by apply Hbk]. }
  destruct (good_set_cur s0 InFrame (set_pool s' st) (with_render (bit_depth (sh_color sh)) (render_width (sz_size (hd_size st))) (render_height (sz_size (hd_size st)))))
    as (s2 & E2 & Hg2 & Hc2 & Hm2 & Ht2); [by right; right | done | done |].
  eapply yields_le; [apply yields_lift; exact E2 |]. intros ? <-. split; [done |]. split; [by eapply (cur_fine_tame InFrame s0 (set_pool s' st)); [| right; right | ..] |].
  exists s2. split; [done |]. cbn in Hm2. congruence.
Qed.

(** What is so after the size. *)
Definition sized (s0 : pool) (st st' : head_state) : Prop :=
  good s0 InFrame st' /\ cur_fine st' /\ size_fine (hd_size st') /\ hd_remapped_ref_idx st' = hd_remapped_ref_idx st /\
  ref_frame_map (hd_pool st') = ref_frame_map (hd_pool st) /\ hd_need_resync st' = hd_need_resync st.

Lemma good_size s0 st z : good s0 InHeader st -> size_fine z -> good s0 InHeader (set_size z st).
Proof. intros Hg [_ _ Hm]. apply (good_fields s0 InHeader st); [done | done |]. destruct (gd_inv _ _ _ Hg). by split. Qed.

Lemma sized_pool s0 st z : good s0 InHeader st -> size_fine z -> yields (setup_buffer_pool sh byte_alignment (set_size z st)) (sized s0 st).
Proof.
  intros Hg Hz. eapply yields_le; [apply (yields_buffer_pool s0); [by apply good_size | done] |]. intros st' (Hg' & Hc & s' & -> & Hm). by split_and!.
Qed.

Lemma yields_size_fields s0 over st : good s0 InHeader st ->
  yields (read_frame_size_fields sh limit mi_memory mv_memory byte_alignment over st) (sized s0 st).
Proof.
  intros Hg. unfold read_frame_size_fields. eapply yields_bind; [eapply yields_frame_size; [apply (hv_tools _ Hv) | apply (hi_size _ (gd_inv _ _ _ Hg))] |].
  intros z [Hz _]. by apply sized_pool.
Qed.

Lemma yields_intra_size s0 tools over st : good s0 InHeader st ->
  yields (read_intra_size sh limit mi_memory mv_memory byte_alignment tools over st) (fun '(_, st') => sized s0 st st').
Proof.
  intros Hg. unfold read_intra_size. next yields_size_fields; [exact Hg |]. intros st' Hs. eapply (yields_bind _ _ (fun _ => True)).
  - destruct (_ && _); [apply yields_flag | by apply yields_ret].
  - intros bc _. by apply yields_ret.
Qed.

(** *** References by name *)

Definition slot_has (st : head_state) (m : Z) : Prop := 0 <= m < 8 /\ exists k, ref_frame_map (hd_pool st) !! Z.to_nat m = Some (Some k).

(** The first [n] names are frames. *)
Definition named (n : nat) (st : head_state) : Prop := forall j, (j < n)%nat -> exists m, hd_remapped_ref_idx st !! j = Some m /\ slot_has st m.

Lemma good_remapped s0 ph st l : length l = 7%nat -> Forall (fun m => m = INVALID_IDX \/ 0 <= m < 8) l -> good s0 ph st -> good s0 ph (set_remapped l st).
Proof. intros Hl Hf Hg. apply (good_fields s0 ph st); [done | done |]. destruct (gd_inv _ _ _ Hg) as [(? & ? & ?) ? ? ? ? ?]. by split. Qed.

Lemma good_bufs s0 ph st : good s0 ph st ->
  exists l, named_bufs st = Some l /\ Forall2 (fun m o => ref_buf (hd_pool st) m = Some o) (hd_remapped_ref_idx st) l /\
    Forall (fun o => forall b, o = Some b -> frame_fine b) l.
Proof.
  intros Hg. unfold named_bufs. pose proof (hi_remapped _ (gd_inv _ _ _ Hg)) as Hr.
  assert (forall m, m = INVALID_IDX \/ 0 <= m < 8 -> exists o, ref_buf (hd_pool st) m = Some o /\ forall b, o = Some b -> frame_fine b) as Ho.
  { intros m [-> | Hm]; [by exists None |]. unfold ref_buf. rewrite (proj2 (Z.eqb_neq _ _)) by (unfold INVALID_IDX; lia).
    destruct (good_slot _ _ _ m Hg Hm) as ([k |] & _ & _ & Hp); [destruct Hp as (b & _ & -> & Hf); exists (Some b); split; [done |]; by intros ? [= <-] | by exists None]. }
  induction Hr as [| m l' Hm Hr (l & El & Hl2 & Hl)]; [by exists [] |]. destruct (Ho m Hm) as (o & E & Hf). exists (o :: l). split; [| by split; constructor].
  cbn. rewrite E. cbn. by rewrite El.
Qed.

Lemma good_frames s0 ph st : good s0 ph st -> named 7 st -> exists l, named_frames st = Some l.
Proof.
  intros Hg Hn. destruct (good_bufs _ _ _ Hg) as (l & E & Hl2 & _). unfold named_frames. rewrite E. cbn [mbind option_bind].
  destruct (gd_inv _ _ _ Hg) as [(_ & _ & L) _ _ _ _ _]. apply mapM_is_Some_2. apply Forall_lookup. intros i o Hi.
  pose proof (Forall2_length Hl2) as El. pose proof (lookup_lt_Some _ _ _ Hi) as Hlt. destruct (Hn i ltac:(lia)) as (m & Hm & Hmb & k & Hk).
  pose proof (Forall2_lookup_lr _ _ _ _ _ _ Hl2 Hm Hi) as Eo. cbn in Eo. unfold ref_buf in Eo. rewrite (proj2 (Z.eqb_neq _ _)) in Eo by (unfold INVALID_IDX; lia).
  destruct (good_slot _ _ _ m Hg Hmb) as (p & _ & Ep & Hp). rewrite Hk in Ep. injection Ep as <-. destruct Hp as (b & _ & Es & _). rewrite Es in Eo. injection Eo as <-. by exists b.
Qed.

Lemma yields_names s0 (short : bool) n : forall i st, (i + n = 7)%nat -> good s0 InHeader st -> named (if short then 7 else i)%nat st ->
  yields (read_names sh short i n st) (fun st' => good s0 InHeader st' /\ named 7 st').
Proof.
  induction n as [| n IH]; intros i st Hin Hg Hn; cbn [read_names]; [apply yields_ret; split; [done |]; by replace 7%nat with (if short then 7 else i)%nat by (destruct short; lia) |].
  destruct (gd_inv _ _ _ Hg) as [(L1 & L2 & L3) Hr _ _ _ _]. eapply (yields_bind _ _ (fun '(ref, st') => 0 <= ref < 8 /\ good s0 InHeader st' /\ named (if short then 7 else S i)%nat st')).
  { destruct short; cbn [negb].
    - destruct (Hn i ltac:(lia)) as (m & Hm & Hmb & Hk). next @yields_lift; [exact Hm |]. intros ? <-. by apply yields_ret.
    - unfold REF_FRAMES_LOG2. lit m. change (2 ^ 3) with 8 in *. destruct (good_slot _ _ _ m Hg ltac:(lia)) as (p & E & El & _). next @yields_lift; [exact E |]. intros ? <-.
      eapply yields_bind; [apply yields_check |]. intros ? Hp. destruct p as [k |]; [| done]. apply yields_ret. split_and!; [lia | lia | |].
      + apply good_remapped; [by rewrite length_insert | | done]. apply Forall_insert; [done | by right].
      + intros j Hj. cbn [hd_remapped_ref_idx set_remapped]. destruct (decide (i = j)) as [<- | Hne].
        * exists m. split; [rewrite list_lookup_insert_eq by lia; done |]. split; [lia | by exists k].
        * rewrite list_lookup_insert_ne by done. apply Hn. lia. }
  intros [m st'] (Hm & Hg' & Hn'). destruct (gd_inv _ _ _ Hg') as [(L1' & L2' & _) _ _ _ _ _].
  destruct (zget_ok (hd_valid_for_referencing st') m ltac:(lia)) as (v & Ev & _). next @yields_lift; [exact Ev |]. intros ? <-. eapply yields_bind; [apply yields_check |]. intros _ _.
  eapply (yields_bind _ _ (fun _ => True)); [| intros _ _; apply IH; [lia | done | done]].
  destruct (frame_id_numbers_present_flag _) eqn:Ei; [| by apply yields_ret]. destruct (ids_bounds Ei). lit d.
  destruct (zget_ok (hd_ref_frame_id st') m ltac:(lia)) as (x & Ex & _). next @yields_lift; [exact Ex |]. intros ? <-. eapply yields_le; [apply yields_check | done].
Qed.

(** The hints of the slots. *)
Lemma good_hints s0 ph st : good s0 ph st ->
  exists l, slot_hints (hd_pool st) = Some l /\ length l = 8%nat /\ Forall (fun o => forall h, o = Some h -> 0 <= h) l /\
    forall m h, 0 <= m < 8 -> zget l m = Some (Some h) -> slot_has st m.
Proof.
  intros Hg. unfold slot_hints. assert (is_Some (mapM (M := option) (fun i => o ← slot_buf (hd_pool st) i; Some (option_map buf_hint o)) (seqZ 0 REF_FRAMES))) as [l El].
  { apply mapM_is_Some_2, Forall_lookup. intros j i Hi. apply lookup_seqZ in Hi as [-> Hi]. unfold REF_FRAMES in Hi.
    change (is_Some (o ← slot_buf (hd_pool st) (0 + Z.of_nat j); Some (option_map buf_hint o))).
    destruct (good_slot _ _ _ (0 + Z.of_nat j) Hg ltac:(lia)) as ([k |] & _ & _ & Hp); [destruct Hp as (b & _ & -> & _) | rewrite Hp]; by eexists. }
  exists l. split; [done |]. apply mapM_Some_1 in El. pose proof (Forall2_length El) as Ll. rewrite length_seqZ in Ll. split; [done |].
  assert (forall j o, l !! j = Some o -> exists p, ref_frame_map (hd_pool st) !! j = Some p /\
    match p with None => o = None | Some k => exists b, o = Some (buf_hint b) /\ frame_fine b end) as Hl.
  { intros j o Hj. pose proof (lookup_lt_Some _ _ _ Hj) as Hlt. change (Z.to_nat REF_FRAMES) with 8%nat in Ll.
    assert (seqZ 0 REF_FRAMES !! j = Some (Z.of_nat j)) as Hz by (apply lookup_seqZ; unfold REF_FRAMES; lia).
    pose proof (Forall2_lookup_lr _ _ _ _ _ _ El Hz Hj) as Eo. cbn in Eo.
    destruct (good_slot _ _ _ (Z.of_nat j) Hg ltac:(lia)) as (p & _ & Ep & Hp). rewrite Nat2Z.id in Ep. exists p. split; [done |].
    destruct p as [k |]; [destruct Hp as (b & _ & Es & Hf); rewrite Es in Eo; injection Eo as <-; by exists b | rewrite Hp in Eo; by injection Eo as <-]. }
  split.
  - apply Forall_lookup. intros j o Hj h ->. destruct (Hl j _ Hj) as ([k |] & _ & Hp); [| done]. destruct Hp as (b & [= ->] & [_ Hb]). done.
  - intros m h Hm Hz. split; [done |]. unfold zget in Hz. rewrite (proj2 (Z.leb_le 0 m)) in Hz by lia. destruct (Hl _ _ Hz) as ([k |] & Ek & Hp); [by exists k | done].
Qed.

Lemma yields_short_refs s0 st : enable_order_hint (order_hint_info (sh_tools sh)) = true -> good s0 InHeader st ->
  yields (read_short_refs sh st) (fun st' => good s0 InHeader st' /\ named 7 st').
Proof.
  intros Hon Hg. unfold read_short_refs, REF_FRAMES_LOG2. destruct (tv_hint _ _ (hv_tools _ Hv)) as [Hb _]. specialize (Hb Hon). lit lst. change (2 ^ 3) with 8 in *.
  destruct (good_slot _ _ _ lst Hg ltac:(lia)) as (p & E & _). next @yields_lift; [exact E |]. intros ? <-. lit gld. change (2 ^ 3) with 8 in *.
  destruct (good_slot _ _ _ gld Hg ltac:(lia)) as (q & E2 & _). next @yields_lift; [exact E2 |]. intros ? <-.
  eapply yields_bind; [apply yields_check |]. intros _ _. eapply yields_bind; [apply yields_check |]. intros _ _.
  destruct (good_hints _ _ _ Hg) as (hints & Eh & Lh & Fh & Hs). next @yields_lift; [exact Eh |]. intros ? <-. destruct (gd_inv _ _ _ Hg) as [(_ & _ & L3) _ _ _ _ _].
  destruct (set_frame_refs_spec (order_hint_info (sh_tools sh)) (hd_order_hint st) lst gld hints (hd_remapped_ref_idx st) Hon Hb Lh Fh ltac:(lia) ltac:(lia) ltac:(lia)) as (r & Er & Hr).
  next @yields_lift; [exact Er |]. intros ? <-. destruct r as [e | refs]; [apply yields_raise |]. destruct Hr as (_ & Lr & _ & _ & Hf). apply yields_ret. split.
  - apply good_remapped; [congruence | | done]. apply Forall_lookup. intros j m Hj. pose proof (lookup_lt_Some _ _ _ Hj). destruct (Hf j ltac:(lia)) as (m' & h & Em & Hm & _).
    rewrite Hj in Em. injection Em as <-. by right.
  - intros j Hj. destruct (Hf j Hj) as (m & h & Em & Hm & Hz). exists m. split; [done |]. by apply (Hs m h).
Qed.

Lemma yields_size_with_refs s0 st : good s0 InHeader st -> named 7 st ->
  yields (setup_frame_size_with_refs sh limit mi_memory mv_memory byte_alignment st) (sized s0 st).
Proof.
  intros Hg Hn. unfold setup_frame_size_with_refs. destruct (good_bufs _ _ _ Hg) as (l & El & _ & Fl). next @yields_lift; [exact El |]. intros ? <-.
  eapply yields_bind; [eapply yields_size_of_refs; [apply (hv_tools _ Hv) | apply (hi_size _ (gd_inv _ _ _ Hg)) |] |].
  { apply Forall_fmap. eapply list.Forall_impl; [exact Fl |]. intros [b |] Hb r; [| done]. intros [= <-]. by apply Hb. }
  intros z Hz. cbv zeta. eapply yields_bind; [apply yields_check |]. intros _ _. destruct (good_frames _ _ _ Hg Hn) as (fs & Ef). next @yields_lift; [exact Ef |]. intros ? <-.
  eapply yields_bind; [apply yields_check |]. intros _ _. eapply yields_bind; [apply yields_check |]. intros _ _. by apply sized_pool.
Qed.

Lemma named_sized s0 st st' : sized s0 st st' -> named 7 st -> named 7 st'.
Proof. intros (_ & _ & _ & Er & Em & _) Hn j Hj. destruct (Hn j Hj) as (m & Hm & Hb & Hk). exists m. unfold slot_has. by rewrite Er, Em. Qed.

Lemma yields_refs s0 f tools over st : good s0 InHeader st ->
  yields (read_refs sh limit mi_memory mv_memory byte_alignment f tools over st)
    (fun st' => good s0 InFrame st' /\ cur_fine st' /\ size_fine (hd_size st') /\ named 7 st').
Proof.
  intros Hg. unfold read_refs. eapply (yields_bind _ _ (fun b : bool => b = true -> enable_order_hint (order_hint_info (sh_tools sh)) = true)).
  { destruct (enable_order_hint _); [eapply yields_le; [apply yields_flag | done] | by apply yields_ret]. }
  intros short Hs. eapply (yields_bind _ _ (fun st' => good s0 InHeader st' /\ named (if short then 7 else 0)%nat st')).
  { destruct short; [by apply yields_short_refs; [apply Hs |] | apply yields_ret; split; [done |]; intros j Hj; lia]. }
  clear st Hg. intros st [Hg Hn]. next yields_names; [done | exact Hg | done |]. clear st Hg Hn. intros st [Hg Hn]. eapply (yields_bind _ _ (sized s0 st)).
  { destruct (_ && _); [by apply yields_size_with_refs | by apply yields_size_fields]. }
  intros st' Hz. eapply (yields_bind _ _ (fun _ => True)). { destruct (ft_force_integer_mv tools); [by apply yields_ret | apply yields_flag]. }
  intros hp _. eapply (yields_bind _ _ (fun _ => True)).
  { unfold read_frame_interp_filter. flag b. destruct b; [by apply yields_ret | eapply yields_le; [apply (yields_lit 2); lia | done]]. }
  intros filter _. flag sw. apply yields_ret. pose proof (named_sized _ _ _ Hz Hn) as Hn'. destruct Hz as (Hg' & Hc & Hsz & _). split_and!; try done.
  apply (good_fields s0 InFrame st'); [done | done |]. destruct (gd_inv _ _ _ Hg'). by split.
Qed.

(** *** The header as a whole *)

(** The frame has memory, or the decoder waits for one it can start from. *)
Definition begun (s0 : pool) (st : head_state) : Prop :=
  (good s0 InFrame st /\ cur_fine st /\ size_fine (hd_size st)) \/ (good s0 InHeader st /\ hd_need_resync st = true).

Lemma yields_non_key s0 f tools over primary st : good s0 InHeader st -> 0 <= primary < 8 ->
  yields (read_non_key sh limit mi_memory mv_memory byte_alignment f tools over primary st) (fun '(_, _, _, st') => begun s0 st').
Proof.
  intros Hg Hp. unfold read_non_key. cbv zeta. set (inter := negb (is_intra_only_frame (st_frame_type f)) && negb (hd_need_resync st)).
  eapply (yields_bind _ _ (fun '(_, st') => begun s0 st' /\ (inter = true -> named 7 st'))).
  { unfold inter. destruct (is_intra_only_frame (st_frame_type f)); cbn [negb andb].
    - eapply yields_le; [by apply yields_intra_size |]. intros [bc st'] (A & B & C & _). split; [by left | done].
    - destruct (hd_need_resync st) eqn:E; cbn [negb]; [apply yields_ret; split; [by right | done] |].
      next yields_refs; [exact Hg |]. intros st' (A & B & C & D). apply yields_ret. split; [by left | done]. }
  intros [bc st'] [Hb Hn]. assert (exists ph, good s0 ph st' /\ started ph) as (ph & Hg' & Hph).
  { destruct Hb as [(A & _) | [A _]]; [exists InFrame; split; [done | by right; right] | exists InHeader; split; [done | by left]]. }
  assert (exists o, get_primary_ref_frame_buf primary st' = Some o) as (o & Eo).
  { unfold get_primary_ref_frame_buf. destruct (Z.eqb_spec primary PRIMARY_REF_NONE) as [| Hne]; [by eexists |]. unfold PRIMARY_REF_NONE in Hne. destruct (gd_inv _ _ _ Hg') as [(_ & _ & L3) _ _ _ _ _].
    destruct (zget_ok (hd_remapped_ref_idx st') primary ltac:(lia)) as (m & -> & Hm). cbn [mbind option_bind]. destruct (good_bufs _ _ _ Hg') as (l & _ & Hl & _).
    destruct (Forall2_lookup_l _ _ _ _ _ Hl Hm) as (o & _ & Eo). by exists o. }
  next @yields_lift; [exact Eo |]. intros ? <-. eapply yields_bind; [apply yields_check |]. intros _ _. eapply (yields_bind _ _ (fun _ => True)).
  { destruct inter; [| by apply yields_ret]. eapply (yields_bind _ _ (fun _ => True)). { destruct (might_allow_mvs _ _ _); [apply yields_flag | by apply yields_ret]. }
    intros b _. destruct (good_frames _ _ _ Hg' (Hn eq_refl)) as (fs & Ef). next @yields_lift; [exact Ef |]. intros ? <-. eapply yields_bind; [apply yields_check |]. intros _ _. by apply yields_ret. }
  intros mvs _. by apply yields_ret.
Qed.

Lemma yields_head_end s0 f tools st : begun s0 st ->
  yields (read_head_end sh f tools st) (fun '(_, _, st') => good s0 InFrame st' /\ cur_fine st' /\ size_fine (hd_size st')).
Proof.
  intros Hb. unfold read_head_end. assert (exists ph, good s0 ph st /\ started ph /\ (hd_need_resync st = false -> ph = InFrame /\ cur_fine st /\ size_fine (hd_size st))) as (ph & Hg & Hph & Hf).
  { destruct Hb as [(A & B & C) | [A B]]; [exists InFrame; split_and!; [done | by right; right | done] | exists InHeader; split_and!; [done | by left | congruence]]. }
  destruct (good_bufs _ _ _ Hg) as (l & El & _). next @yields_lift; [exact El |]. intros ? <-.
  destruct (good_set_cur s0 ph st (fun i => with_type (st_frame_type f) (with_order_hint (hd_order_hint st) i))) as (s' & Es & Hg' & Hc & Hm & Ht);
    [done | intros i _; cbn; by eapply good_hint | done |].
  next @yields_lift; [exact Es |]. intros ? <-. cbv zeta. eapply (yields_bind _ _ (fun _ => True)). { destruct (_ && _); [apply yields_flag | by apply yields_ret]. }
  intros disabled _. eapply yields_bind; [apply yields_check |]. intros ? Hr. apply negb_true_iff in Hr. change (hd_need_resync st = false) in Hr. destruct (Hf Hr) as (-> & Hcf & Hsz).
  apply yields_ret. split; [by apply good_update | split; [| done]]. by apply (cur_fine_tame InFrame s0 st s') in Hcf.
Qed.

Lemma yields_frame_fields s0 f st : good s0 InHeader st ->
  yields (read_frame_fields sh temporal_layer_id spatial_layer_id limit mi_memory mv_memory byte_alignment f st)
    (fun '(_, st') => good s0 InFrame st' /\ cur_fine st' /\ size_fine (hd_size st')).
Proof.
  intros Hg. unfold read_frame_fields. cbv zeta. set (st1 := if is_key (st_frame_type f) && st_show_frame f then _ else st).
  assert (good s0 InHeader st1) as Hg1 by (unfold st1; destruct (_ && _); [by apply good_ids | done]). clearbody st1. clear st Hg.
  next yields_frame_tools. intros tools _. eapply (yields_bind _ _ (fun '(_, primary, st') => good s0 InHeader st' /\ 0 <= primary < 8)).
  { destruct (negb _); [by apply yields_frame_ids | apply yields_ret; unfold PRIMARY_REF_NONE; split; [done | lia]]. }
  intros [[over primary] st2] [Hg2 Hp]. next yields_buffer_removal; [exact Hg2 |]. intros [present st3] Hg3. next yields_refresh_flags; [exact Hg3 |]. intros st4 Hg4.
  next yields_ref_order_hints; [exact Hg4 |]. intros st5 Hg5. eapply (yields_bind _ _ (fun '(_, _, _, st') => begun s0 st')).
  { destruct (is_key _); [| by apply yields_non_key]. next yields_intra_size; [exact Hg5 |]. intros [bc st'] (A & B & C & _). apply yields_ret. by left. }
  intros [[[bc mvs] prev] st6] Hb. next yields_head_end; [exact Hb |]. intros [[bias dis] st7] H7. by apply yields_ret.
Qed.

Lemma yields_head s0 ready st : good s0 InHeader st ->
  yields (read_head sh temporal_layer_id spatial_layer_id limit mi_memory mv_memory byte_alignment ready st)
    (fun '(r, st') => match r with
     | inl _ => good s0 Shown st'
     | inr _ => good s0 InFrame st' /\ cur_fine st' /\ size_fine (hd_size st') end).
Proof.
  intros Hg. unfold read_head. eapply yields_bind; [apply yields_check |]. intros _ _. destruct (sh_reduced_still_picture_hdr sh).
  - assert (exists f st', reduced_start st = Some (f, st') /\ good s0 InHeader st') as (f & st' & E & Hg').
    { unfold reduced_start. destruct (hd_sequence_header_changed st); [destruct (good_new_sequence s0 st Hg) as (st' & -> & Hg') |]; cbn [mbind option_bind]; eauto. }
    next @yields_lift; [exact E |]. intros ? <-. next yields_frame_fields; [exact Hg' |]. intros [h st2] H2. by apply yields_ret.
  - flag existing. destruct existing.
    + next yields_show_existing; [exact Hg |]. intros [s st'] Hs. by apply yields_ret.
    + next yields_frame_type; [exact Hg |]. intros [f st'] Hg'. next yields_frame_fields; [exact Hg' |]. intros [h st2] H2. by apply yields_ret.
Qed.
End Header.

Lemma rtc_reachable {F} `{Malloc} (f : F) ph s ph' s' : reachable f ph s -> rtc step (ph, s) (ph', s') -> reachable f ph' s'.
Proof.
  intros Hr Hs. remember (ph, s) as a eqn:Ea. remember (ph', s') as b eqn:Eb. revert ph s Ea Hr. induction Hs as [a | a [ph1 s1] b Hst _ IH]; intros ph s -> Hr.
  - by injection Eb as -> ->.
  - by apply (IH Eb ph1 s1 eq_refl), (Next f ph s).
Qed.

(** ** The claim *)


(** ** A decoder before its first frame *)

Definition demo_info : frame_info :=
  {| fi_order_hint := 0; fi_frame_type := KEY_FRAME; fi_showable_frame := false; fi_bit_depth := 0; fi_render_width := 0; fi_render_height := 0;
     fi_grain := {| film_grain_params_present := false; buf_grain := FilmGrain.demo_grain false 40 |};
     fi_prev := {| pf_seg := {| sf_seg := seg_zero; sf_seg_map := None; sf_mi_rows := 0; sf_mi_cols := 0 |};
                   pf_deltas := default_lf_deltas; pf_models := replicate 7 default_warp_params |} |}.

Definition start_pool : pool :=
  match av1_alloc_internal_frame_buffers demo_heap {| int_fb_array := None; int_fb := [] |} with
  | Some (_, l, h) => init_state h l false demo_info
  | None => init_state demo_heap {| int_fb_array := None; int_fb := [] |} false demo_info
  end.
Definition start_header : pool := default start_pool (snd <$> assign_cur_frame_new_fb start_pool).

Lemma start_reachable : reachable demo_info InHeader start_header.
Proof.
  apply (Next demo_info Calling start_pool); [| apply (Start _ 0); vm_compute; reflexivity].
  unfold start_pool. destruct (av1_alloc_internal_frame_buffers demo_heap _) as [[[e l] h] |] eqn:E; [| by vm_compute in E].
  eapply (Init demo_info demo_heap). assert (e = 0) as <-; [| exact E]. revert E. vm_compute. by intros [= <-].
Qed.

Definition start_state : head_state :=
  {| hd_pool := start_header;
     hd_size := {| sz_size := {| fz_width := 0; fz_height := 0; superres_upscaled_width := 0; superres_upscaled_height := 0;
                                 superres_scale_denominator := 8; render_width := 0; render_height := 0 |}; sz_mi_rows := 0; sz_mi_cols := 0 |};
     hd_ref_frame_id := replicate 8 0; hd_valid_for_referencing := replicate 8 false; hd_current_frame_id := 0; hd_remapped_ref_idx := no_refs;
     hd_need_resync := true; hd_sequence_header_changed := true; hd_decoding_first_frame := true; hd_order_hint := 0; hd_refresh_frame_flags := 0;
     hd_showable_frame := false; hd_removal_times := replicate 33 0;
     hd_inter := {| if_allow_high_precision_mv := false; if_interp_filter := 0; if_switchable_motion_mode := false |} |}.

Lemma start_state_inv : head_inv start_state.
Proof.
  split; [done | apply (Forall_replicate _ 7%nat); by left | done | | cbn; lia | cbn; lia].
  assert (forall k b, bufs (hd_pool start_state) !! k = Some b -> rc_frame b = demo_info) as Hf.
  { intros k b Hb. assert (rc_frame <$> bufs start_header = replicate 16 demo_info) as E by (vm_compute; reflexivity).
    assert ((rc_frame <$> bufs start_header) !! k = Some (rc_frame b)) as Hk by (rewrite list_lookup_fmap; change start_header with (hd_pool start_state); by rewrite Hb).
    rewrite E in Hk. by apply lookup_replicate in Hk as [-> _]. }
  split; [intros k b Hb; unfold buf_hint; by rewrite (Hf k b Hb) |]. intros i k b Hi. exfalso. revert Hi.
  change (ref_frame_map (hd_pool start_state)) with (replicate 8 (@None nat)). intros [E _]%lookup_replicate. done.
Qed.

