(* ===== verification/FrameHeadTrip.v ===== *)
(** * The front of the frame header is read as it was written

    An encoder and a decoder that agree on the frames in their slots agree on the header:
    every field is read as it was written, up to where the tile information begins. *)

From stdpp Require Import gmap.
From S2P Require Import Prelude CodecTypes Mem BitChannel BitBuffer EntCoder RangeSpec Cdf EntEncProof EntDecProof EntRoundTrip SymbolIO SyntaxIO TxCommon FrameContext Tile TileInfo MvCoding Leb128 Obu Yv12 FrameBuffers BufferPool BufferPoolProof UpscaleProof FrameRefs HeaderIO SeqHeader FrameQuant FrameFilters FilmGrain GlobalMotion RefOrder FrameTail FrameSize FrameHead FrameHeadSafety.

#[local] Arguments Z.of_nat : simpl never.
#[local] Arguments Z.mul : simpl never.

Section Trip.
Context `{Malloc} (sh : SequenceHeader) (temporal_layer_id spatial_layer_id : Z) (limit : Z) (mi_memory mv_memory : bool) (byte_alignment : Z).
Context (Hv : header_valid sh) (p : head_params).
Let oh : OrderHintInfo := order_hint_info (sh_tools sh).

(** ** The type of the frame *)

Definition sent_start : frame_start :=
  {| st_frame_type := ep_frame_type p; st_show_frame := ep_show_frame p; st_error_resilient_mode := ep_error_resilient_mode p;
     st_time := if ep_show_frame p && has_tu_pts sh then Some (ep_presentation_time p) else None |}.

Definition sent_showable : bool := if ep_show_frame p then negb (is_key (ep_frame_type p)) else ep_showable_frame p.

Record type_ok : Prop := {
  to_still : sh_still_picture sh = true -> is_key (ep_frame_type p) = true /\ ep_show_frame p = true;
  to_time : has_tu_pts sh = true -> 0 <= ep_presentation_time p < 2 ^ frame_presentation_time_length (sh_decoder_model_info sh);
  to_resilient : ep_frame_type p = S_FRAME \/ (is_key (ep_frame_type p) = true /\ ep_show_frame p = true) -> ep_error_resilient_mode p = true }.

(** What the decoder makes of it. *)
Definition restart (st : head_state) : option head_state :=
  if hd_sequence_header_changed st then if is_key (ep_frame_type p) then new_sequence st else None else Some st.

Definition after_type (st : head_state) : option head_state :=
  st ← restart st;
  st ← set_cur_frame (with_showable sent_showable) st;
  Some (set_current (hd_order_hint st) (hd_refresh_frame_flags st) sent_showable st).

Lemma time_bits : has_tu_pts sh = true -> 0 <= frame_presentation_time_length (sh_decoder_model_info sh) <= 32.
Proof. unfold has_tu_pts. intros [E _]%andb_true_iff. destruct (hv_model _ Hv E) as [_ (_ & _ & _ & Hl)]. lia. Qed.

Lemma carries_time : (has_tu_pts sh = true -> 0 <= ep_presentation_time p < 2 ^ frame_presentation_time_length (sh_decoder_model_info sh)) ->
  carries 32 (if has_tu_pts sh then write_tu_pts_info sh (ep_presentation_time p) else mret tt) (read_time sh)
    (if has_tu_pts sh then Some (ep_presentation_time p) else None).
Proof.
  intros Ht. unfold read_time, read_temporal_point_info, write_tu_pts_info. destruct (has_tu_pts sh) eqn:E; [| within 0%nat; apply carries_ret].
  eapply carries_post; [apply carries_ulit; [by apply time_bits | by apply Ht] | done].
Qed.

Lemma type_of_value t : frame_type_of (frame_type_value t) = t.
Proof. by destruct t. Qed.

Lemma carries_frame_type st st' : type_ok -> after_type st = Some st' ->
  carries 98 (_ ← w_hlit (frame_type_value (ep_frame_type p)) 2; _ ← w_flag (ep_show_frame p);
              _ ← (if ep_show_frame p then if has_tu_pts sh then write_tu_pts_info sh (ep_presentation_time p) else mret tt else w_flag (ep_showable_frame p));
              if frame_is_sframe (ep_frame_type p) then mret tt
              else if negb (is_key (ep_frame_type p) && ep_show_frame p) then w_flag (ep_error_resilient_mode p) else mret tt)
    (read_frame_type sh st) (sent_start, st').
Proof.
  intros [Hs Ht Hr] Ha. unfold read_frame_type. apply (carries_le (32 + (1 + (32 + 1)))); [lia |].
  eapply carries_bind; [apply carries_lit; [lia | by destruct (ep_frame_type p)] |]. cbv beta zeta. rewrite type_of_value. unfold after_type in Ha.
  destruct (restart st) as [st1 |] eqn:E1; [| done]. cbn [mbind option_bind] in Ha.
  destruct (set_cur_frame (with_showable sent_showable) st1) as [st2 |] eqn:E2; [| done]. injection Ha as <-.
  eapply (carries_known _ _ _ _ st1).
  { intros r. unfold restart in E1. destruct (hd_sequence_header_changed st); [destruct (is_key (ep_frame_type p)); [by rewrite E1 | done] | by injection E1 as <-]. }
  carry carries_flag. apply carries_check.
  { destruct (sh_still_picture sh); [destruct (Hs eq_refl) as [-> ->] |]; done. }
  eapply (carries_bind _ _ _ _ _ _ (sent_showable, st_time sent_start)).
  { unfold sent_showable, sent_start. cbn [st_time]. destruct (ep_show_frame p); cbn [andb].
    - eapply carries_post; [apply (carries_time Ht) | done].
    - within 1%nat. eapply carries_post; [apply carries_flag | done]. }
  cbv beta iota. apply (carries_lift _ _ _ st2); [done |]. eapply (carries_post _ _ _ _ (ep_error_resilient_mode p)); [| done].
  unfold frame_is_sframe. destruct (bool_decide_reflect (ep_frame_type p = S_FRAME)) as [Es |]; cbn [orb].
  - rewrite Hr by (by left). within 0%nat. apply carries_ret.
  - destruct (is_key (ep_frame_type p) && ep_show_frame p) eqn:Ek; cbn [negb]; [| apply carries_flag]. apply andb_true_iff in Ek. rewrite Hr by (by right). within 0%nat. apply carries_ret.
Qed.

(** ** Tools, identifiers and times *)

Definition sent_tools : frame_tools :=
  {| ft_disable_cdf_update := ep_disable_cdf_update p; ft_allow_screen_content_tools := ep_allow_screen_content_tools p;
     ft_force_integer_mv := ep_force_integer_mv p |}.

Record tools_ok : Prop := {
  fo_screen : force_screen_content_tools (sh_tools sh) <> 2 ->
    ep_allow_screen_content_tools p = negb (force_screen_content_tools (sh_tools sh) =? 0);
  fo_integer : ep_allow_screen_content_tools p = true -> force_integer_mv (sh_tools sh) <> 2 ->
    ep_force_integer_mv p = negb (force_integer_mv (sh_tools sh) =? 0);
  fo_none : ep_allow_screen_content_tools p = false -> ep_force_integer_mv p = false }.

Lemma carries_frame_tools : tools_ok -> carries 3 (write_frame_tools sh p) (read_frame_tools sh) sent_tools.
Proof.
  intros [Hs Hi Hn]. unfold write_frame_tools, read_frame_tools. apply (carries_le (1 + (1 + 1))); [lia |]. carry carries_flag.
  eapply (carries_bind _ _ _ _ _ _ (ep_allow_screen_content_tools p)).
  { destruct (Z.eqb_spec (force_screen_content_tools (sh_tools sh)) 2) as [| Hne]; [apply carries_flag |]. rewrite (Hs Hne). within 0%nat. apply carries_ret. }
  cbv beta. eapply (carries_post _ _ _ _ (ep_force_integer_mv p)); [| done]. destruct (ep_allow_screen_content_tools p).
  - destruct (Z.eqb_spec (force_integer_mv (sh_tools sh)) 2) as [| Hne]; [apply carries_flag |]. rewrite (Hi eq_refl Hne). within 0%nat. apply carries_ret.
  - rewrite (Hn eq_refl). within 0%nat. apply carries_ret.
Qed.

(** The identifier follows that of the frame before. *)
Definition id_follows (st : head_state) : Prop :=
  let have_prev := negb (hd_decoding_first_frame st) && negb (is_key (ep_frame_type p) && ep_show_frame p) in
  let prev := if have_prev then hd_current_frame_id st else 0 in
  let cur := ep_current_frame_id p in
  let diff := if prev <? cur then cur - prev else Z.shiftl 1 (frame_id_length (sh_tools sh)) + cur - prev in
  have_prev && ((prev =? cur) || (Z.shiftl 1 (frame_id_length (sh_tools sh) - 1) <=? diff)) = false.

Record ids_ok (st : head_state) : Prop := {
  io_id : frame_id_numbers_present_flag (sh_tools sh) = true -> 0 <= ep_current_frame_id p < 2 ^ frame_id_length (sh_tools sh) /\ id_follows st;
  io_hint : if enable_order_hint oh then 0 <= ep_order_hint p < 2 ^ (order_hint_bits_minus_1 oh + 1) else ep_order_hint p = 0;
  io_primary : if negb (ep_error_resilient_mode p) && negb (frame_is_intra_only (ep_frame_type p)) then 0 <= ep_primary_ref_frame p < 8
    else ep_primary_ref_frame p = PRIMARY_REF_NONE;
  io_max : superres_upscaled_width (ep_size p) <= max_frame_width (sh_tools sh) /\ superres_upscaled_height (ep_size p) <= max_frame_height (sh_tools sh) }.

Definition after_ids (st : head_state) : head_state :=
  let st := if frame_id_numbers_present_flag (sh_tools sh) then
      set_ids (hd_ref_frame_id st)
        (zip_with (fun id valid => if id_out_of_range sh (ep_current_frame_id p) id then false else valid) (hd_ref_frame_id st) (hd_valid_for_referencing st))
        (ep_current_frame_id p) st
    else st in
  set_current (ep_order_hint p) (hd_refresh_frame_flags st) (hd_showable_frame st) st.

Lemma trip_hint_bits : 0 <= order_hint_bits_minus_1 oh + 1 <= 8.
Proof.
  destruct (tv_hint _ _ (hv_tools _ Hv)) as [Hon Hoff]. unfold oh. destruct (enable_order_hint _); [specialize (Hon eq_refl) | destruct (Hoff eq_refl) as [-> _]]; lia.
Qed.

Lemma trip_id_bits : frame_id_numbers_present_flag (sh_tools sh) = true ->
  2 <= delta_frame_id_length (sh_tools sh) < frame_id_length (sh_tools sh) /\ frame_id_length (sh_tools sh) <= 16.
Proof. intros E. destruct (tv_ids _ _ (hv_tools _ Hv) E) as (_ & Hd & Hl & _). done. Qed.

(** An order hint, of no bits when there are none. *)
Lemma carries_hint h : (if enable_order_hint oh then 0 <= h < 2 ^ (order_hint_bits_minus_1 oh + 1) else h = 0) ->
  carries 32 (if enable_order_hint oh then w_hlit h (order_hint_bits_minus_1 oh + 1) else mret tt) (aom_rb_read_literal (order_hint_bits_minus_1 oh + 1)) h.
Proof.
  intros Hh. pose proof trip_hint_bits. destruct (enable_order_hint oh) eqn:E; [by apply carries_lit; [lia |] |]. subst h.
  destruct (tv_hint _ _ (hv_tools _ Hv)) as [_ Hoff]. destruct (Hoff E) as [Eb _]. fold oh in Eb. rewrite Eb. within 0%nat. apply carries_ret.
Qed.

Lemma carries_frame_ids st : ids_ok st ->
  carries 97 (write_frame_ids sh p) (read_frame_ids sh sent_start st) (frame_size_override sh p, ep_primary_ref_frame p, after_ids st).
Proof.
  intros [Hid Hh Hp [Hw Hhh]]. unfold write_frame_ids, read_frame_ids. apply (carries_le (32 + (0 + (1 + (32 + 32))))); [lia |].
  eapply (carries_bind _ _ _ _ _ _ (if frame_id_numbers_present_flag (sh_tools sh) then
      set_ids (hd_ref_frame_id st)
        (zip_with (fun id valid => if id_out_of_range sh (ep_current_frame_id p) id then false else valid) (hd_ref_frame_id st) (hd_valid_for_referencing st))
        (ep_current_frame_id p) st else st)).
  { unfold read_current_frame_id. destruct (frame_id_numbers_present_flag (sh_tools sh)) eqn:E; [| within 0%nat; apply carries_ret]. destruct (Hid eq_refl) as [Hr Hf], (trip_id_bits E). cbv zeta.
    eapply carries_post; [apply carries_lit; [lia | done] |]. intros r. unfold id_follows in Hf. cbv zeta in Hf. cbn [st_frame_type st_show_frame sent_start]. by rewrite Hf. }
  cbv beta. rewrite (proj2 (Z.ltb_ge (max_frame_width _) _)), (proj2 (Z.ltb_ge (max_frame_height _) _)) by lia. cbn [orb].
  eapply (carries_ext_w _ (_ ← (if negb (frame_is_sframe (ep_frame_type p)) then w_flag (frame_size_override sh p) else mret tt); _)); [intros w; reflexivity |].
  eapply (carries_bind 1 (32 + 32) _ _ _ _ (frame_size_override sh p)).
  { cbn [st_frame_type sent_start]. unfold frame_size_override. destruct (frame_is_sframe (ep_frame_type p)); cbn [negb]; [within 0%nat; apply carries_ret | apply carries_flag]. }
  cbv beta. eapply carries_bind; [by apply (carries_hint (ep_order_hint p)) |]. cbv beta.
  eapply (carries_post _ _ _ _ (ep_primary_ref_frame p)); [| done]. cbn [st_frame_type st_error_resilient_mode sent_start].
  destruct (negb (ep_error_resilient_mode p) && negb (frame_is_intra_only (ep_frame_type p))); [apply carries_lit; [unfold PRIMARY_REF_BITS; lia | done] | rewrite Hp; within 0%nat; apply carries_ret].
Qed.

(** The removal times of the decoder, where the frame has none zero. *)
Fixpoint times_after (ops : list operating_point) (times old : list Z) : list Z :=
  match ops, times, old with
  | op :: ops, t :: times, _ :: old => (if op_removal temporal_layer_id spatial_layer_id op then t else 0) :: times_after ops times old
  | _, _, _ => old
  end.

Definition removal_ok (st : head_state) : Prop := sh_decoder_model_info_present_flag sh = true -> ep_removal_time_present p = true ->
  (length (frame_ops sh) <= length (ep_removal_times p))%nat /\ (length (frame_ops sh) <= length (hd_removal_times st))%nat /\
  Forall (fun t => 0 <= t < 2 ^ buffer_removal_time_length (sh_decoder_model_info sh) /\ t < 2 ^ 32 - 1) (ep_removal_times p).

Definition sent_present : bool := sh_decoder_model_info_present_flag sh && ep_removal_time_present p.

Definition after_removal (st : head_state) : head_state :=
  if sent_present then set_times (times_after (frame_ops sh) (ep_removal_times p) (hd_removal_times st)) st else st.

Lemma carries_removal_times (Hm : sh_decoder_model_info_present_flag sh = true) ops : forall times old,
  (length ops <= length times)%nat -> (length ops <= length old)%nat ->
  Forall (fun t => 0 <= t < 2 ^ buffer_removal_time_length (sh_decoder_model_info sh) /\ t < 2 ^ 32 - 1) times ->
  carries (32 * length ops) (write_removal_times sh temporal_layer_id spatial_layer_id ops times)
    (read_removal_times sh temporal_layer_id spatial_layer_id ops old) (times_after ops times old).
Proof.
  destruct (hv_model _ Hv Hm) as [_ (_ & _ & Hl & _)]. induction ops as [| op ops IH]; intros times old Ht Ho Hf.
  - within 0%nat. destruct times, old; apply carries_ret.
  - destruct times as [| t times]; cbn in Ht; [lia |]. destruct old as [| o old]; cbn in Ho; [lia |]. apply Forall_cons_iff in Hf as [[Hr Hb] Hf].
    cbn [write_removal_times read_removal_times times_after length]. apply (carries_le (32 + 32 * length ops)); [lia |].
    eapply (carries_bind _ _ _ _ _ _ (if op_removal temporal_layer_id spatial_layer_id op then t else 0)).
    + destruct (op_removal _ _ op); [| within 0%nat; apply carries_ret]. rewrite Z.mod_small, (proj2 (Z.eqb_neq (t + 1) 0)) by (change (2 ^ 32) with 4294967296 in *; lia).
      eapply (carries_ext_w _ (w_hulit t _)); [| apply carries_ulit; [lia | done]].
      intros w. unfold mbind, writer_bind. by destruct (w_hulit t _ w) as [[[] w'] |].
    + cbv beta. eapply carries_post; [apply IH; [lia | lia | done] | done].
Qed.

Lemma carries_buffer_removal st : removal_ok st ->
  carries (Z.to_nat 1025) (write_buffer_removal sh temporal_layer_id spatial_layer_id p) (read_buffer_removal sh temporal_layer_id spatial_layer_id st) (sent_present, after_removal st).
Proof.
  intros Hr. unfold write_buffer_removal, read_buffer_removal, after_removal, sent_present. destruct (sh_decoder_model_info_present_flag sh) eqn:E; cbn [andb]; [| within 0%nat; apply carries_ret].
  destruct (hv_count _ Hv) as [Hc Hl]. assert (length (frame_ops sh) <= 32)%nat as Hn by (unfold frame_ops; rewrite length_take; lia).
  apply (carries_le (1 + 32 * length (frame_ops sh))); [lia |]. carry carries_flag. destruct (ep_removal_time_present p) eqn:Ep; [| within 0%nat; apply carries_ret].
  destruct (Hr E Ep) as (L1 & L2 & Hf). eapply carries_post; [by apply carries_removal_times | done].
Qed.

(** ** Slots *)

Record flags_ok (st : head_state) : Prop := {
  go_range : 0 <= ep_refresh_frame_flags p < 256;
  go_all : (is_key (ep_frame_type p) = true /\ ep_show_frame p = true) \/ ep_frame_type p = S_FRAME -> ep_refresh_frame_flags p = 255;
  go_intra : ep_frame_type p = INTRA_ONLY_FRAME -> ep_refresh_frame_flags p <> 255;
  go_sync : frame_is_intra_only (ep_frame_type p) = false -> hd_need_resync st = false }.

Definition after_flags (st : head_state) : option head_state :=
  let st := set_flags (ep_refresh_frame_flags p) st in
  match ep_frame_type p with KEY_FRAME => resync (set_remapped no_refs st) | INTRA_ONLY_FRAME => resync st | _ => Some st end.

Lemma carries_refresh_flags st st' : flags_ok st -> after_flags st = Some st' ->
  carries 32 (write_refresh_flags p) (read_refresh_flags sent_start st) st'.
Proof.
  intros [Hr Ha Hi Hs] E. unfold write_refresh_flags, read_refresh_flags, after_flags in *. cbn [st_frame_type st_show_frame sent_start]. unfold is_key, is_intra_only_frame in *.
  unfold frame_is_intra_only, is_key, is_intra_only_frame in Hs. destruct (ep_frame_type p) eqn:Et; cbn [bool_decide_reflect andb orb] in *.
  - rewrite (bool_decide_eq_false_2 (KEY_FRAME = INTER_FRAME)), (bool_decide_eq_false_2 (KEY_FRAME = INTRA_ONLY_FRAME)), (bool_decide_eq_true_2 (KEY_FRAME = KEY_FRAME)), !orb_false_r by done.
    cbn [andb]. eapply (carries_post _ _ _ _ (ep_refresh_frame_flags p)); [| intros r; by rewrite E].
    destruct (ep_show_frame p); cbn [negb]; [rewrite Ha by (left; split; done); within 0%nat; apply carries_ret | apply carries_lit; [unfold REF_FRAMES; lia | done]].
  - rewrite Hs by done. rewrite (bool_decide_eq_true_2 (INTER_FRAME = INTER_FRAME)), orb_true_r by done. injection E as <-.
    eapply carries_post; [apply carries_lit; [unfold REF_FRAMES; lia | done] | done].
  - rewrite (bool_decide_eq_true_2 (INTRA_ONLY_FRAME = INTRA_ONLY_FRAME)), orb_true_r by done.
    eapply carries_post; [apply carries_lit; [unfold REF_FRAMES; lia | done] |]. intros r. rewrite (proj2 (Z.eqb_neq _ _)) by auto. cbn. by rewrite E.
  - rewrite Hs by done. injection E as <-. rewrite Ha by (by right). within 0%nat. apply carries_ret.
Qed.

(** The frames in the slots have the order hints the encoder sends. *)
Definition hints_agree (st : head_state) (slots : list nat) (hints : list Z) : Prop :=
  Forall2 (fun i h => 0 <= h < 2 ^ (order_hint_bits_minus_1 oh + 1) /\ exists b, slot_buf (hd_pool st) (Z.of_nat i) = Some (Some b) /\ buf_hint b = h) slots hints.

Definition hints_sent : bool :=
  (negb (frame_is_intra_only (ep_frame_type p)) || negb (ep_refresh_frame_flags p =? 255)) && (ep_error_resilient_mode p && enable_order_hint oh).

Lemma carries_map_hints st slots hints : hints_agree st slots hints ->
  carries (32 * length slots) (write_map_hints sh hints) (read_map_hints sh byte_alignment slots st) st.
Proof.
  pose proof trip_hint_bits. induction 1 as [| i h slots hints [Hr (b & Eb & Hh)] _ IH]; [within 0%nat; apply carries_ret |]. cbn [write_map_hints read_map_hints length].
  apply (carries_le (32 + 32 * length slots)); [lia |]. eapply carries_bind; [apply carries_lit; [fold oh; lia | done] |]. cbv beta.
  apply (carries_lift _ _ _ (Some b)); [done |]. cbv beta iota. rewrite Hh, Z.eqb_refl. apply carries_known with (a := st); [done |]. exact IH.
Qed.

Lemma carries_ref_order_hints st : hd_refresh_frame_flags st = ep_refresh_frame_flags p ->
  (hints_sent = true -> hints_agree st (seq 0 8) (ep_map_hints p)) ->
  carries 256 (write_ref_order_hints sh p) (read_ref_order_hints sh byte_alignment sent_start st) st.
Proof.
  intros Ef Ha. unfold write_ref_order_hints, read_ref_order_hints. cbn [st_frame_type st_error_resilient_mode sent_start]. rewrite Ef. unfold hints_sent in Ha. fold oh.
  destruct (_ || _); [| within 0%nat; apply carries_ret]. destruct (ep_error_resilient_mode p && enable_order_hint oh); [| within 0%nat; apply carries_ret].
  apply (carries_le (32 * length (seq 0 8))); [cbn; lia |]. by apply carries_map_hints, Ha.
Qed.

(** ** The size *)

(** The decoder has memory for the frame. *)
Definition pool_after (st st' : head_state) : Prop := forall rb, setup_buffer_pool sh byte_alignment st rb = Ok (st', rb).

Lemma realloc_others d k (s s' : pool) good : realloc_fb d k s = Some (good, s') ->
  ref_frame_map s' = ref_frame_map s /\ cur_frame s' = cur_frame s /\ forall j, j <> k -> bufs s' !! j = bufs s !! j.
Proof.
  unfold realloc_fb. destruct (fb_request _ _ _ _ _ _ _) as [size |]; [| by intros [= _ <-]]. destruct (bufs s !! k) as [b |] eqn:Hb; [| done]. cbn [mbind option_bind].
  destruct (av1_get_frame_buffer _ _ _) as [[[r l] h] |]; [| done]. cbn [mbind option_bind].
  destruct (aom_realloc_frame_buffer _ _ _ _ _ _ _ _ _ _ _) as [[[err y] h'] |]; [| done]. cbn [mbind option_bind]. intros [= _ <-].
  split_and!; [done | done |]. intros j Hj. cbn. by rewrite list_lookup_insert_ne.
Qed.

Lemma set_frame_others k g (s s' : pool) : set_frame k g s = Some s' ->
  ref_frame_map s' = ref_frame_map s /\ cur_frame s' = cur_frame s /\ forall j, j <> k -> bufs s' !! j = bufs s !! j.
Proof. unfold set_frame. destruct (bufs s !! k) as [b |]; [| done]. intros [= <-]. split_and!; [done | done |]. intros j Hj. cbn. by rewrite list_lookup_insert_ne. Qed.

(** Only the current frame changes. *)
Lemma pool_after_fields st st' : pool_after st st' -> exists s', st' = set_pool s' st /\ ref_frame_map s' = ref_frame_map (hd_pool st) /\
  forall j, cur_frame (hd_pool st) <> Some j -> bufs s' !! j = bufs (hd_pool st) !! j.
Proof.
  intros Hp. specialize (Hp {| rb_bit_buffer := []; rb_bit_offset := 0; rb_error_handler := None |}). revert Hp. unfold setup_buffer_pool. cbv zeta. set (d := {| fb_width := _ |}).
  unfold mbind, reader_bind. destruct (cur_frame (hd_pool st)) as [k |] eqn:Ek; [| done]. cbn [lift mret reader_ret]. destruct (realloc_fb d k (hd_pool st)) as [[good s] |] eqn:Er; [| done]. cbn [lift mret reader_ret].
  destruct (realloc_others _ _ _ _ _ Er) as (M1 & C1 & B1). destruct good; [| done]. unfold set_cur_frame. cbn [check mret reader_ret hd_pool set_pool mbind option_bind]. rewrite C1, Ek. cbn [mbind option_bind].
  destruct (set_frame k _ s) as [s2 |] eqn:E2; [| done]. destruct (set_frame_others _ _ _ _ E2) as (M2 & C2 & B2). cbn. intros [= <-]. exists s2. split_and!; [done | congruence |].
  intros j Hj. rewrite B2, B1; [done | |]; congruence.
Qed.

(** The frames behind the names are not the current one. *)
Lemma named_others st st' : hd_remapped_ref_idx st' = hd_remapped_ref_idx st -> ref_frame_map (hd_pool st') = ref_frame_map (hd_pool st) ->
  (forall j, cur_frame (hd_pool st) <> Some j -> bufs (hd_pool st') !! j = bufs (hd_pool st) !! j) ->
  (forall k, cur_frame (hd_pool st) = Some k -> Some k ∉ ref_frame_map (hd_pool st)) -> named_bufs st' = named_bufs st.
Proof.
  intros Er Em Hb Hk. unfold named_bufs. rewrite Er. apply list.mapM_ext. intros m. unfold ref_buf, slot_buf. destruct (m =? INVALID_IDX); [done |]. rewrite Em.
  destruct (zget (ref_frame_map (hd_pool st)) m) as [[j |] |] eqn:Ez; [| done | done]. cbn [mbind option_bind]. rewrite Hb; [done |]. intros Ej. apply (Hk j Ej).
  unfold zget in Ez. destruct (0 <=? m); [| done]. by apply list_elem_of_lookup_2 in Ez.
Qed.

Record sizes_ok (st : head_state) : Prop := {
  zo_size : size_ok (sh_tools sh) (ep_size p);
  zo_room : room limit mi_memory mv_memory (ep_size p);
  zo_mi : mi_of_size (hd_size st) }.

Definition sent_size (st : head_state) : size_state := size_after (sh_tools sh) (hd_size st) (ep_size p).

(** Whether the size is in the header. *)
Definition sent_override : bool := if sh_reduced_still_picture_hdr sh then false else frame_size_override sh p.

Definition override_ok : Prop := sent_override = false ->
  superres_upscaled_width (ep_size p) = max_frame_width (sh_tools sh) /\ superres_upscaled_height (ep_size p) = max_frame_height (sh_tools sh).

Lemma carries_size_fields st st' : sizes_ok st -> override_ok -> pool_after (set_size (sent_size st) st) st' ->
  carries 162 (write_frame_size (sh_tools sh) (ep_size p) sent_override) (read_frame_size_fields sh limit mi_memory mv_memory byte_alignment sent_override st) st'.
Proof.
  intros [Hz Hr Hm] Ho Hp. unfold read_frame_size_fields. eapply carries_post; [by apply (carries_frame_size _ _ _ _ (sh_reduced_still_picture_hdr sh)); [.. | apply (hv_tools _ Hv) |] |]. apply Hp.
Qed.

Definition intrabc_ok : Prop := ep_allow_screen_content_tools p && negb (av1_superres_scaled (ep_size p)) = false -> ep_allow_intrabc p = false.

Lemma carries_intra_size st st' : sizes_ok st -> override_ok -> intrabc_ok -> pool_after (set_size (sent_size st) st) st' ->
  carries 163 (write_intra_size sh p sent_override) (read_intra_size sh limit mi_memory mv_memory byte_alignment sent_tools sent_override st) (ep_allow_intrabc p, st').
Proof.
  intros Hz Ho Hb Hp. unfold write_intra_size, read_intra_size. apply (carries_le (162 + 1)); [lia |]. eapply carries_bind; [by apply carries_size_fields |]. cbv beta.
  destruct (pool_after_fields _ _ Hp) as (s' & -> & _). change (av1_superres_scaled _) with (av1_superres_scaled (ep_size p)) at 2. cbn [ft_allow_screen_content_tools sent_tools].
  eapply carries_post; [by apply carries_flag_if | done].
Qed.

(** ** References by name *)

Lemma delta_back cur id : frame_id_numbers_present_flag (sh_tools sh) = true -> 0 <= cur < 2 ^ frame_id_length (sh_tools sh) -> 0 <= id < 2 ^ frame_id_length (sh_tools sh) ->
  let d := delta_frame_id_minus_1 sh cur id in
  Z.rem (cur - (d + 1) + Z.shiftl 1 (frame_id_length (sh_tools sh))) (Z.shiftl 1 (frame_id_length (sh_tools sh))) = id.
Proof.
  intros E Hc Hi. destruct (trip_id_bits E). cbv zeta. unfold delta_frame_id_minus_1. rewrite Z.sub_add, !Z.shiftl_mul_pow2, !Z.mul_1_l by lia.
  set (n := 2 ^ frame_id_length (sh_tools sh)) in *. assert (0 < n) by lia. rewrite (Z.rem_mod_nonneg (cur - id + n)) by lia.
  pose proof (Z.mod_pos_bound (cur - id + n) n ltac:(lia)). rewrite Z.rem_mod_nonneg by lia.
  rewrite Z.add_mod, Z.mod_same, Z.add_0_r, Z.mod_mod, Zminus_mod_idemp_r by lia. replace (cur - (cur - id + n)) with (id + (-1) * n) by lia.
  rewrite Z.mod_add by lia. by apply Z.mod_small.
Qed.

(** The slot [m] of the encoder is the slot [s] of the decoder, for a frame with the same
    identifier. *)
Record name_ok (st : head_state) (m s : Z) : Prop := {
  no_slot : 0 <= s < 8 /\ exists k, ref_frame_map (hd_pool st) !! Z.to_nat s = Some (Some k);
  no_valid : zget (hd_valid_for_referencing st) s = Some true;
  no_id : frame_id_numbers_present_flag (sh_tools sh) = true ->
    hd_current_frame_id st = ep_current_frame_id p /\ 0 <= ep_current_frame_id p < 2 ^ frame_id_length (sh_tools sh) /\
    exists id, zget (ep_ref_frame_id p) m = Some id /\ zget (hd_ref_frame_id st) s = Some id /\ 0 <= id < 2 ^ frame_id_length (sh_tools sh) /\
      0 <= delta_frame_id_minus_1 sh (ep_current_frame_id p) id < 2 ^ delta_frame_id_length (sh_tools sh) }.

(** The fields of a name after the slot. *)
Lemma carries_name_rest {A} N (w : hwriter) (k : hreader A) a st m s : name_ok st m s -> carries N w k a ->
  carries (32 + N)
    (_ ← (if frame_id_numbers_present_flag (sh_tools sh) then
            match zget (ep_ref_frame_id p) m with
            | Some id =>
                let d := delta_frame_id_minus_1 sh (ep_current_frame_id p) id in
                if (d <? 0) || (Z.shiftl 1 (delta_frame_id_length (sh_tools sh)) <=? d) then w_fail else w_hlit d (delta_frame_id_length (sh_tools sh))
            | None => w_fail
            end
          else mret tt); w)
    (valid ← lift (zget (hd_valid_for_referencing st) s);
     _ ← check valid AOM_CODEC_CORRUPT_FRAME;
     _ ← (if frame_id_numbers_present_flag (sh_tools sh) then
            d ← aom_rb_read_literal (delta_frame_id_length (sh_tools sh));
            id ← lift (zget (hd_ref_frame_id st) s);
            check (Z.rem (hd_current_frame_id st - (d + 1) + Z.shiftl 1 (frame_id_length (sh_tools sh))) (Z.shiftl 1 (frame_id_length (sh_tools sh))) =? id)
              AOM_CODEC_CORRUPT_FRAME
          else mret tt);
     k) a.
Proof.
  intros [_ Hval Hid] Hk. apply (carries_lift _ _ _ true); [done |]. apply carries_check; [done |]. eapply carries_bind; [| exact Hk].
  destruct (frame_id_numbers_present_flag (sh_tools sh)) eqn:E; [| within 0%nat; apply carries_ret]. destruct (Hid eq_refl) as (Ec & Hc & id & -> & Ed & Hi & Hd), (trip_id_bits E). cbv zeta.
  rewrite (proj2 (Z.ltb_ge _ 0)), (proj2 (Z.leb_gt _ _)) by (rewrite ?Z.shiftl_mul_pow2, ?Z.mul_1_l; lia). cbn [orb].
  eapply carries_post; [apply carries_lit; [lia | done] |]. intros r. rewrite Ed. unfold lift, check. cbn. rewrite Ec. pose proof (delta_back (ep_current_frame_id p) id E Hc Hi) as Hb. cbv zeta in Hb.
  unfold mbind, reader_bind, mret, reader_ret. cbn. by rewrite Hb, Z.eqb_refl.
Qed.

(** Names that are sent. *)
Lemma carries_names_sent ms : forall i ss pre rest st, ep_short_signaling p = false -> Forall2 (name_ok st) ms ss ->
  (forall j m, ms !! j = Some m -> sent_map_idx sh p (i + j) m = ss !! j) -> hd_remapped_ref_idx st = pre ++ rest -> length pre = i -> length rest = length ms ->
  carries (64 * length ms) (write_names sh p i ms) (read_names sh false i (length ms) st) (set_remapped (pre ++ ss) st).
Proof.
  induction ms as [| m ms IH]; intros i ss pre rest st Hs Hok Hsent Hr Hp Hl.
  - inversion Hok; subst. destruct rest; [| done]. within 0%nat. cbn. rewrite <- Hr. destruct st. apply carries_ret.
  - inversion Hok as [| ? s ? ss' Hn Hok']; subst. destruct rest as [| x rest]; [done |]. cbn in Hl. cbn [write_names read_names length]. rewrite Hs. cbn [negb].
    pose proof (Hsent 0%nat m eq_refl) as E0. rewrite Nat.add_0_r in E0. cbn in E0. rewrite E0. destruct (no_slot _ _ _ Hn) as [Hsb (k & Hk)].
    apply (carries_le (32 + (32 + 64 * length ms))); [lia |]. eapply (carries_bind _ _ _ _ _ _ (s, set_remapped (pre ++ s :: rest) st)).
    + eapply carries_post; [apply carries_lit; [unfold REF_FRAMES_LOG2; lia | done] |]. intros r. unfold zget at 1. rewrite (proj2 (Z.leb_le 0 s)), Hk by lia. cbn.
      rewrite Hr, insert_app_r_alt, Nat.sub_diag by lia. done.
    + cbv beta iota. eapply carries_name_rest; [destruct Hn; by split |].
      specialize (IH (S (length pre)) ss' (pre ++ [s]) rest (set_remapped (pre ++ s :: rest) st) Hs). replace (pre ++ s :: ss') with ((pre ++ [s]) ++ ss') by (by rewrite <- app_assoc). apply IH; [| | by rewrite <- app_assoc | rewrite length_app; cbn; lia | lia].
      * eapply Forall2_impl; [| exact Hok']. intros a b Hab. destruct Hab. by split.
      * intros j m' Hj. rewrite Nat.add_succ_comm. exact (Hsent (S j) m' Hj).
Qed.

(** Names the decoder finds by itself. *)
Lemma carries_names_known ms : forall i ss st, ep_short_signaling p = true -> Forall2 (name_ok st) ms ss ->
  (forall j s, ss !! j = Some s -> hd_remapped_ref_idx st !! (i + j)%nat = Some s) ->
  carries (64 * length ms) (write_names sh p i ms) (read_names sh true i (length ms) st) st.
Proof.
  induction ms as [| m ms IH]; intros i ss st Hs Hok Hsent; [within 0%nat; apply carries_ret |]. inversion Hok as [| ? s ? ss' Hn Hok']; subst.
  cbn [write_names read_names length]. rewrite Hs. cbn [negb]. apply carries_skip_w. pose proof (Hsent 0%nat s eq_refl) as E0. rewrite Nat.add_0_r in E0.
  apply (carries_le (32 + 64 * length ms)); [lia |]. eapply carries_known; [intros r; rewrite E0; reflexivity |]. cbv beta iota. apply (carries_name_rest _ _ _ _ st m s Hn).
  apply (IH (S i) ss'); [done | done |]. intros j s' Hj. rewrite Nat.add_succ_comm. exact (Hsent (S j) s' Hj).
Qed.

Definition has_frame (st : head_state) (i : Z) : Prop := 0 <= i < 8 /\ exists k, ref_frame_map (hd_pool st) !! Z.to_nat i = Some (Some k).

Lemma has_frame_get st i : has_frame st i -> exists k, zget (ref_frame_map (hd_pool st)) i = Some (Some k).
Proof. intros [Hi (k & Hk)]. exists k. unfold zget. by rewrite (proj2 (Z.leb_le 0 i)) by lia. Qed.

(** The slots [ss] of the names in the decoder: those that are sent, or those it finds from
    the two that are. *)
Record names_ok (st : head_state) (ss : list Z) : Prop := {
  ro_count : length (ep_remapped_ref_idx p) = 7%nat /\ length (hd_remapped_ref_idx st) = 7%nat;
  ro_names : Forall2 (name_ok st) (ep_remapped_ref_idx p) ss;
  ro_short : ep_short_signaling p = true -> enable_order_hint oh = true /\ exists lst gld hints,
    ep_remapped_ref_idx p !! 0%nat = Some lst /\ ep_remapped_ref_idx p !! 3%nat = Some gld /\ has_frame st lst /\ has_frame st gld /\
    slot_hints (hd_pool st) = Some hints /\ av1_set_frame_refs oh (hd_order_hint st) lst gld hints (hd_remapped_ref_idx st) = Some (inr ss);
  ro_sent : ep_short_signaling p = false -> forall j m, ep_remapped_ref_idx p !! j = Some m -> sent_map_idx sh p j m = ss !! j }.

Lemma name_ok_remapped l st m s : name_ok st m s -> name_ok (set_remapped l st) m s.
Proof. intros []. by split. Qed.

(** The references, and what follows them. *)
Lemma carries_named {A} N (w : hwriter) (k : head_state -> hreader A) a st ss : names_ok st ss -> carries N w (k (set_remapped ss st)) a ->
  carries (513 + N)
    (_ ← (if enable_order_hint oh then w_flag (ep_short_signaling p) else mret tt);
     _ ← (if ep_short_signaling p then
            match ep_remapped_ref_idx p !! 0%nat, ep_remapped_ref_idx p !! 3%nat with
            | Some lst_ref, Some gld_ref => _ ← w_hlit lst_ref REF_FRAMES_LOG2; w_hlit gld_ref REF_FRAMES_LOG2
            | _, _ => w_fail
            end
          else mret tt);
     _ ← write_names sh p 0 (ep_remapped_ref_idx p); w)
    (short ← (if enable_order_hint oh then r_flag else mret false);
     st ← (if short : bool then read_short_refs sh st else mret st);
     st ← read_names sh short 0 (Z.to_nat INTER_REFS_PER_FRAME) st; k st) a.
Proof.
  intros [[Hc Hl] Hn Hs Ht] Hk. apply (carries_le (1 + (64 + (64 * length (ep_remapped_ref_idx p) + N)))); [lia |]. eapply (carries_bind 1 (64 + (64 * length (ep_remapped_ref_idx p) + N)) _ _ _ _ (ep_short_signaling p)).
  { destruct (enable_order_hint oh) eqn:E; [apply carries_flag |]. destruct (ep_short_signaling p) eqn:Es; [by destruct (Hs eq_refl) |]. within 0%nat. apply carries_ret. }
  cbv beta. assert (Z.to_nat INTER_REFS_PER_FRAME = length (ep_remapped_ref_idx p)) as -> by (by rewrite Hc).
  destruct (ep_short_signaling p) eqn:Es.
  - destruct (Hs eq_refl) as (Hon & lst & gld & hints & E0 & E3 & Hfl & Hfg & Eh & Er). rewrite E0, E3. eapply (carries_bind 64 (64 * length (ep_remapped_ref_idx p) + N) _ _ _ _ (set_remapped ss st)).
    + unfold read_short_refs, REF_FRAMES_LOG2. destruct (has_frame_get _ _ Hfl) as (kl & Kl), (has_frame_get _ _ Hfg) as (kg & Kg). fold oh.
      apply (carries_le (32 + 32)); [lia |]. eapply carries_bind; [apply carries_lit; [lia | apply Hfl] |]. cbv beta. eapply carries_lift; [exact Kl |].
      eapply carries_post; [apply carries_lit; [lia | apply Hfg] |]. intros r. rewrite Kg, Eh. unfold lift, check, mbind, reader_bind, mret, reader_ret. cbn. by rewrite Er.
    + cbv beta. eapply carries_bind; [| exact Hk]. apply (carries_names_known _ 0 ss); [done | | by intros j s].
      eapply Forall2_impl; [| exact Hn]. intros ? ?. apply name_ok_remapped.
  - within (0 + (64 * length (ep_remapped_ref_idx p) + N))%nat. eapply carries_bind; [apply carries_ret |]. cbv beta. eapply carries_bind; [| exact Hk].
    apply (carries_names_sent _ 0 ss [] (hd_remapped_ref_idx st)); try done; [by apply Ht | congruence].
Qed.

(** ** Frames behind the names *)

Let width : Z := fz_width (ep_size p).
Let height : Z := fz_height (ep_size p).

(** The references are frames of the format of the sequence, which can be scaled to the size. *)
Record frames_ok (st : head_state) (fs : list (RefCntBuffer frame_info)) : Prop := {
  fk_bufs : named_bufs st = Some (Some <$> fs);
  fk_count : length fs = 7%nat;
  fk_sizes : negb (ep_error_resilient_mode p) && sent_override = true -> ep_ref_sizes p = Some ∘ buf_size <$> fs;
  fk_fits : Forall (fun b => ref_fits width height b = true) fs;
  fk_format : Forall (fun b => valid_ref_frame_img_fmt sh b = true) fs;
  fk_positive : Forall (fun b => 0 <= y_crop_width (rc_buf b) /\ 0 <= y_crop_height (rc_buf b)) fs;
  fk_apart : forall k, cur_frame (hd_pool st) = Some k -> Some k ∉ ref_frame_map (hd_pool st) }.

Lemma named_of st fs : named_bufs st = Some (Some <$> fs) -> named_frames st = Some fs.
Proof. intros E. unfold named_frames. rewrite E. cbn [mbind option_bind]. apply mapM_Some_2. clear. induction fs; by constructor. Qed.

Lemma forallb_of {A} (f : A -> bool) l : Forall (fun x => f x = true) l -> forallb f l = true.
Proof. induction 1 as [| x l Hx _ IH]; [done |]. cbn. by rewrite Hx. Qed.

Lemma size_positive : size_ok (sh_tools sh) (ep_size p) -> 0 < width /\ 0 < height.
Proof.
  intros [Hu _ Hd _ [Ew Eh]]. unfold width, height. rewrite Ew, Eh. split; [| lia]. destruct (tv_width _ _ (hv_tools _ Hv)) as [Hn Hm].
  assert (dim_ok (superres_upscaled_width (ep_size p))).
  { unfold dim_ok. pose proof (Z.pow_le_mono_r 2 (num_bits_width (sh_tools sh)) 16 ltac:(lia) ltac:(lia)). change (2 ^ 16) with 65536 in *. lia. }
  unfold SCALE_NUMERATOR in Hd. destruct (Z.eq_dec (superres_scale_denominator (ep_size p)) 8) as [-> |].
  - unfold av1_calculate_scaled_superres_size, calculate_scaled_size_helper. cbn. lia.
  - pose proof (scaled_bound _ (superres_scale_denominator (ep_size p)) H0 ltac:(lia)). lia.
Qed.

(** A size that is legal for a reference gives a scale. *)
Lemma fits_scales st b : fz_width (sz_size (hd_size st)) = width -> fz_height (sz_size (hd_size st)) = height -> 0 < width -> 0 < height -> 0 <= y_crop_width (rc_buf b) -> 0 <= y_crop_height (rc_buf b) ->
  ref_fits width height b = true -> ref_scales st b = true.
Proof.
  intros Ew Eh Hw Hh Hbw Hbh Hf. unfold ref_scales. rewrite Ew, Eh.
  unfold ref_fits in Hf. unfold av1_setup_scale_factors_for_frame. rewrite Hf. cbn [negb]. unfold av1_is_valid_scale. cbn [x_scale_fp y_scale_fp].
  assert (forall o t, 0 <= o -> 0 < t -> 0 <= get_fixed_point_scale_factor o t) as Hg.
  { intros o t Ho Ht. unfold get_fixed_point_scale_factor, REF_SCALE_SHIFT. rewrite Z.shiftl_mul_pow2 by lia. apply Z.div_pos; [| done]. pose proof (Z.div_pos t 2 ltac:(lia) ltac:(lia)). lia. }
  pose proof (Hg _ _ Hbw Hw). pose proof (Hg _ _ Hbh Hh). rewrite !(proj2 (Z.eqb_neq _ REF_INVALID_SCALE)) by (unfold REF_INVALID_SCALE; lia). done.
Qed.

Lemma carries_ref_size st st' fs : sizes_ok st -> override_ok -> frames_ok st fs -> pool_after (set_size (sent_size st) st) st' ->
  carries 169 (if negb (ep_error_resilient_mode p) && sent_override then write_frame_size_with_refs (sh_tools sh) (ep_size p) (ep_ref_sizes p)
               else write_frame_size (sh_tools sh) (ep_size p) sent_override)
    (if negb (ep_error_resilient_mode p) && sent_override then setup_frame_size_with_refs sh limit mi_memory mv_memory byte_alignment st
     else read_frame_size_fields sh limit mi_memory mv_memory byte_alignment sent_override st) st'.
Proof.
  intros Hz Ho Hf Hp. destruct (negb (ep_error_resilient_mode p) && sent_override) eqn:E; [| by within 162%nat; apply carries_size_fields].
  destruct Hf as [Hb Hc Hs Hfit Hfmt _ _]. unfold write_frame_size_with_refs, setup_frame_size_with_refs. rewrite (Hs E). apply (carries_lift _ _ _ (Some <$> fs)); [done |].
  replace (option_map buf_size <$> (Some <$> fs)) with (Some ∘ buf_size <$> fs) by (by rewrite <- list_fmap_compose).
  destruct Hz as [Hz Hr Hm]. assert (length (Some ∘ buf_size <$> fs) = 7%nat) as Hl by (by rewrite length_fmap).
  eapply (carries_post _ _ _ _ (sent_size st)). { apply (carries_le (length (Some ∘ buf_size <$> fs) + 162)); [lia |]. by apply (carries_size_of_refs _ _ _ _ (sh_reduced_still_picture_hdr sh)); [.. | apply (hv_tools _ Hv)]. }
  intros r. cbv zeta. change (fz_width (sz_size (sent_size st))) with width. change (fz_height (sz_size (sent_size st))) with height. destruct (size_positive Hz).
  rewrite (proj2 (Z.leb_gt width 0)), (proj2 (Z.leb_gt height 0)) by lia. cbn [orb negb]. rewrite (named_of _ _ Hb).
  assert (existsb (ref_fits width height) fs = true) as Ee by (destruct Hfit as [| x l Hx _]; [done | cbn; by rewrite Hx]).
  unfold check, lift, mbind, reader_bind, mret, reader_ret. cbn. rewrite Ee, (forallb_of _ _ Hfmt). apply Hp.
Qed.

(** ** A frame with references *)

Definition sent_inter : inter_features :=
  {| if_allow_high_precision_mv := ep_allow_high_precision_mv p; if_interp_filter := ep_interp_filter p; if_switchable_motion_mode := ep_switchable_motion_mode p |}.

Record inter_ok : Prop := {
  no_precision : ep_force_integer_mv p = true -> ep_allow_high_precision_mv p = false;
  no_filter : 0 <= ep_interp_filter p <= SWITCHABLE;
  no_mvs : might_allow_mvs sh (ep_frame_type p) (ep_error_resilient_mode p) = false -> ep_allow_ref_frame_mvs p = false }.

(** What the tail takes from the primary reference frame. *)
Definition sent_prev (fs : list (RefCntBuffer frame_info)) : option prev_frame :=
  if ep_primary_ref_frame p =? PRIMARY_REF_NONE then None else (fun b => fi_prev (rc_frame b)) <$> zget fs (ep_primary_ref_frame p).

Lemma primary_named st fs : named_bufs st = Some (Some <$> fs) -> length fs = 7%nat -> 0 <= ep_primary_ref_frame p < 8 ->
  exists o, get_primary_ref_frame_buf (ep_primary_ref_frame p) st = Some o /\ (fun b => fi_prev (rc_frame b)) <$> o = sent_prev fs /\
    negb (negb (ep_primary_ref_frame p =? PRIMARY_REF_NONE) && match o with None => true | Some _ => false end) = true.
Proof.
  intros Hb Hl Hp. unfold get_primary_ref_frame_buf, sent_prev. destruct (Z.eqb_spec (ep_primary_ref_frame p) PRIMARY_REF_NONE) as [| Hne]; [by exists None |]. unfold PRIMARY_REF_NONE in Hne.
  destruct (lookup_lt_is_Some_2 fs (Z.to_nat (ep_primary_ref_frame p)) ltac:(lia)) as [b Hfb]. exists (Some b). unfold zget. rewrite (proj2 (Z.leb_le 0 _)), Hfb by lia. split; [| done].
  apply mapM_Some_1 in Hb. assert ((Some <$> fs) !! Z.to_nat (ep_primary_ref_frame p) = Some (Some b)) as Hlb by (by rewrite list_lookup_fmap, Hfb).
  destruct (Forall2_lookup_r _ _ _ _ _ Hb Hlb) as (m & -> & Hm). done.
Qed.

Lemma carries_interp_filter : 0 <= ep_interp_filter p <= SWITCHABLE ->
  carries 33 (write_frame_interp_filter (ep_interp_filter p)) read_frame_interp_filter (ep_interp_filter p).
Proof.
  unfold SWITCHABLE, write_frame_interp_filter, read_frame_interp_filter. intros Hf. apply (carries_le (1 + 32)); [lia |]. carry carries_flag. unfold SWITCHABLE.
  destruct (Z.eqb_spec (ep_interp_filter p) 4) as [-> |]; cbn [negb]; [within 0%nat; apply carries_ret | apply carries_lit; unfold LOG_SWITCHABLE_FILTERS; [lia | change (2 ^ 2) with 4; lia]].
Qed.

(** All but the last field. *)
Definition write_ref_fields : hwriter :=
  _ ← (if enable_order_hint oh then w_flag (ep_short_signaling p) else mret tt);
  _ ← (if ep_short_signaling p then
         match ep_remapped_ref_idx p !! 0%nat, ep_remapped_ref_idx p !! 3%nat with
         | Some lst_ref, Some gld_ref => _ ← w_hlit lst_ref REF_FRAMES_LOG2; w_hlit gld_ref REF_FRAMES_LOG2
         | _, _ => w_fail
         end
       else mret tt);
  _ ← write_names sh p 0 (ep_remapped_ref_idx p);
  _ ← (if negb (ep_error_resilient_mode p) && sent_override then write_frame_size_with_refs (sh_tools sh) (ep_size p) (ep_ref_sizes p)
       else write_frame_size (sh_tools sh) (ep_size p) sent_override);
  _ ← (if negb (ep_force_integer_mv p) then w_flag (ep_allow_high_precision_mv p) else mret tt);
  _ ← write_frame_interp_filter (ep_interp_filter p);
  w_flag (ep_switchable_motion_mode p).

Lemma write_refs_split w : write_refs sh p sent_override w =
  (_ ← write_ref_fields; if might_allow_mvs sh (ep_frame_type p) (ep_error_resilient_mode p) then w_flag (ep_allow_ref_frame_mvs p) else mret tt) w.
Proof.
  unfold write_refs, write_ref_fields. unfold mbind, writer_bind. fold oh.
  repeat match goal with |- match ?x with _ => _ end = _ => destruct x as [[? ?] |]; [| reflexivity] end. reflexivity.
Qed.

Lemma carries_read_refs st st' ss fs : inter_ok -> names_ok st ss -> sizes_ok st -> override_ok -> frames_ok (set_remapped ss st) fs ->
  pool_after (set_size (sent_size st) (set_remapped ss st)) st' ->
  carries 717 write_ref_fields (read_refs sh limit mi_memory mv_memory byte_alignment sent_start sent_tools sent_override st) (set_inter sent_inter st').
Proof.
  intros [Ha Hf _] Hr Hz Ho Hfs Hpool. unfold write_ref_fields, read_refs. fold oh. cbn [st_error_resilient_mode sent_start ft_force_integer_mv sent_tools].
  apply (carries_le (513 + (169 + (1 + (33 + 1))))); [lia |]. apply (carries_named _ _ _ _ st ss Hr).
  eapply (carries_bind 169 (1 + (33 + 1))); [apply (carries_ref_size _ st' fs); [| done..]; by destruct Hz |]. cbv beta.
  eapply (carries_bind 1 (33 + 1) _ _ _ _ (ep_allow_high_precision_mv p)).
  { destruct (ep_force_integer_mv p); cbn [negb]; [rewrite (Ha eq_refl); within 0%nat; apply carries_ret | apply carries_flag]. }
  cbv beta. eapply (carries_bind 33 1); [by apply carries_interp_filter |]. cbv beta. eapply carries_post; [apply carries_flag | done].
Qed.

Lemma carries_inter_fields st st' ss fs : is_intra_only_frame (ep_frame_type p) = false -> hd_need_resync st = false -> 0 <= ep_primary_ref_frame p < 8 -> inter_ok ->
  names_ok st ss -> sizes_ok st -> override_ok -> frames_ok (set_remapped ss st) fs -> pool_after (set_size (sent_size st) (set_remapped ss st)) st' ->
  carries 718 (write_refs sh p sent_override)
    (read_non_key sh limit mi_memory mv_memory byte_alignment sent_start sent_tools sent_override (ep_primary_ref_frame p) st)
    (false, ep_allow_ref_frame_mvs p, sent_prev fs, set_inter sent_inter st').
Proof.
  intros Hi Hs Hp Hok Hr Hz Ho Hfs Hpool. unfold read_non_key. cbn [st_frame_type st_error_resilient_mode sent_start]. rewrite Hi, Hs. cbv zeta. cbn [negb andb].
  eapply carries_ext_w; [intros w; symmetry; apply write_refs_split |]. apply carries_flat_r. apply (carries_le (717 + 1)); [lia |].
  eapply (carries_bind 717 1); [by apply (carries_read_refs st st' ss fs) |]. cbv beta. apply carries_skip_r. cbv beta iota.
  destruct (pool_after_fields _ _ Hpool) as (s' & -> & Em & Hb). set (st6 := set_inter sent_inter _).
  assert (named_bufs st6 = Some (Some <$> fs)) as Hn.
  { rewrite <- (fk_bufs _ _ Hfs). apply named_others; [done | exact Em | exact Hb | apply (fk_apart _ _ Hfs)]. }
  destruct (primary_named st6 fs Hn (fk_count _ _ Hfs) Hp) as (o & Eo & <- & Hc). apply (carries_lift _ _ _ o); [done |]. apply carries_check; [done |].
  eapply (carries_post _ _ _ _ (ep_allow_ref_frame_mvs p)); [| done]. eapply carries_post; [by apply carries_flag_if, (no_mvs Hok) |]. intros r. rewrite (named_of _ _ Hn).
  assert (forallb (ref_scales st6) fs = true) as Hsc.
  { destruct (size_positive (zo_size _ Hz)). apply forallb_of. destruct Hfs as [_ _ _ Hfit _ Hpos _]. rewrite !Forall_forall in *. intros b Hin. destruct (Hpos b Hin). apply fits_scales; auto. }
  unfold check, lift, mbind, reader_bind, mret, reader_ret. cbn. by rewrite Hsc.
Qed.

(** ** The header as a whole *)

Let reduced : bool := sh_reduced_still_picture_hdr sh.
Let intra : bool := frame_is_intra_only (ep_frame_type p).

Lemma carries_head_end st st' named : named_bufs st = Some named ->
  set_cur_frame (fun i => with_type (ep_frame_type p) (with_order_hint (hd_order_hint st) i)) st = Some st' -> hd_need_resync st' = false ->
  (negb reduced && negb (ep_disable_cdf_update p) = false -> ep_refresh_context_disabled p = true) ->
  carries 1 (if negb reduced && negb (ep_disable_cdf_update p) then w_flag (ep_refresh_context_disabled p) else mret tt)
    (read_head_end sh sent_start sent_tools st) (sign_bias sh st' <$> named, ep_refresh_context_disabled p, update_ref_frame_id st').
Proof.
  intros Hn Hs Hr Hd. unfold read_head_end. apply (carries_lift _ _ _ named); [done |]. apply (carries_lift _ _ _ st'); [done |]. cbv zeta. cbn [ft_disable_cdf_update sent_tools]. fold reduced.
  eapply (carries_post _ _ _ _ (ep_refresh_context_disabled p)).
  - destruct (negb reduced && negb (ep_disable_cdf_update p)); [apply carries_flag | rewrite (Hd eq_refl); within 0%nat; apply carries_ret].
  - intros r. change (hd_need_resync (update_ref_frame_id st')) with (hd_need_resync st'). by rewrite Hr.
Qed.

(** A shown key frame forgets the identifiers. *)
Definition forget (st : head_state) : head_state :=
  if is_key (ep_frame_type p) && ep_show_frame p
  then set_ids (hd_ref_frame_id st) (replicate (Z.to_nat REF_FRAMES) false) (hd_current_frame_id st) st else st.

Definition ids_state (st : head_state) : head_state := if reduced then forget st else after_ids (forget st).

(** The state [st] of the decoder after the type of the frame; [st2] after the flags and
    [st4] after the size; [st5] at the end; with the slots [ss] and the frames [fs] behind
    the names that are sent, and the buffers [named] behind those the decoder then has. *)
Record fields_ok (st st2 st4 st5 : head_state) (ss : list Z) (fs : list (RefCntBuffer frame_info)) (named : list (option (RefCntBuffer frame_info))) : Prop := {
  ko_tools : tools_ok;
  ko_ids : reduced = false -> ids_ok (forget st);
  ko_reduced : reduced = true -> intra = true /\ ep_primary_ref_frame p = PRIMARY_REF_NONE /\
    superres_upscaled_width (ep_size p) = max_frame_width (sh_tools sh) /\ superres_upscaled_height (ep_size p) = max_frame_height (sh_tools sh);
  ko_removal : removal_ok (ids_state st);
  ko_flags : flags_ok (after_removal (ids_state st));
  ko_slots : after_flags (after_removal (ids_state st)) = Some st2;
  ko_hints : hints_sent = true -> hints_agree st2 (seq 0 8) (ep_map_hints p);
  ko_size : sizes_ok st2;
  ko_intra : intra = true -> intrabc_ok /\ pool_after (set_size (sent_size st2) st2) st4;
  ko_inter : intra = false -> inter_ok /\ names_ok st2 ss /\ frames_ok (set_remapped ss st2) fs /\
    exists st', pool_after (set_size (sent_size st2) (set_remapped ss st2)) st' /\ st4 = set_inter sent_inter st';
  ko_named : named_bufs st4 = Some named;
  ko_end : set_cur_frame (fun i => with_type (ep_frame_type p) (with_order_hint (hd_order_hint st4) i)) st4 = Some st5;
  ko_context : negb reduced && negb (ep_disable_cdf_update p) = false -> ep_refresh_context_disabled p = true }.

Definition sent_head (st5 : head_state) (fs : list (RefCntBuffer frame_info)) (named : list (option (RefCntBuffer frame_info))) : frame_head :=
  {| hr_start := sent_start; hr_tools := sent_tools; hr_primary_ref_frame := ep_primary_ref_frame p; hr_removal_time_present := sent_present;
     hr_allow_intrabc := if intra then ep_allow_intrabc p else false; hr_allow_ref_frame_mvs := if intra then false else ep_allow_ref_frame_mvs p;
     hr_prev := if intra then None else sent_prev fs; hr_sign_bias := sign_bias sh st5 <$> named;
     hr_refresh_context_disabled := ep_refresh_context_disabled p |}.

Lemma after_flags_spec st st2 : flags_ok st -> after_flags st = Some st2 -> hd_need_resync st2 = false /\ hd_refresh_frame_flags st2 = ep_refresh_frame_flags p.
Proof.
  intros [_ _ _ Hs]. unfold after_flags. cbv zeta. unfold resync. destruct (ep_frame_type p) eqn:Et.
  - cbn [hd_need_resync set_remapped set_flags set_current]. destruct (hd_need_resync st) eqn:E; [destruct (reset_ref_frame_map _); [| done] |]; by intros [= <-].
  - intros [= <-]. by rewrite <- (Hs eq_refl).
  - cbn [hd_need_resync set_flags set_current]. destruct (hd_need_resync st) eqn:E; [destruct (reset_ref_frame_map _); [| done] |]; by intros [= <-].
  - intros [= <-]. by rewrite <- (Hs eq_refl).
Qed.

Lemma set_cur_fields g st st' : set_cur_frame g st = Some st' -> exists s', st' = set_pool s' st.
Proof. unfold set_cur_frame. destruct (cur_frame (hd_pool st)) as [k |]; [| done]. cbn [mbind option_bind]. destruct (set_frame k g (hd_pool st)) as [s |]; [| done]. intros [= <-]. by exists s. Qed.

Lemma override_sent : (reduced = true -> superres_upscaled_width (ep_size p) = max_frame_width (sh_tools sh) /\ superres_upscaled_height (ep_size p) = max_frame_height (sh_tools sh)) -> override_ok.
Proof.
  unfold override_ok, sent_override, frame_size_override. fold reduced. destruct reduced; [auto |]. intros _. destruct (frame_is_sframe _); [done |].
  rewrite orb_false_iff, !negb_false_iff, !Z.eqb_eq. done.
Qed.

(** Intra frames, key frames or not. *)
Lemma carries_intra st st' : intra = true -> ep_primary_ref_frame p = PRIMARY_REF_NONE -> sizes_ok st -> override_ok -> intrabc_ok ->
  pool_after (set_size (sent_size st) st) st' ->
  carries 163 (write_intra_size sh p sent_override)
    (if is_key (ep_frame_type p) then '(bc, st) ← read_intra_size sh limit mi_memory mv_memory byte_alignment sent_tools sent_override st; mret (bc, false, None, st)
     else read_non_key sh limit mi_memory mv_memory byte_alignment sent_start sent_tools sent_override (ep_primary_ref_frame p) st)
    (ep_allow_intrabc p, false, None, st').
Proof.
  intros Hi Hp Hz Ho Hb Hpool. unfold intra, frame_is_intra_only in Hi. destruct (is_key (ep_frame_type p)) eqn:Ek; [eapply carries_post; [by apply carries_intra_size | done] |].
  cbn [orb] in Hi. unfold read_non_key. cbn [st_frame_type sent_start]. rewrite Hi. cbv zeta. cbn [negb andb]. rewrite Hp.
  eapply (carries_post _ _ _ _ (ep_allow_intrabc p, st')); [by apply carries_intra_size | done].
Qed.

Lemma carries_frame_fields st st2 st4 st5 ss fs named : fields_ok st st2 st4 st5 ss fs named ->
  carries (Z.to_nat 2132)
    (_ ← write_frame_tools sh p;
     _ ← (if reduced then mret tt else write_frame_ids sh p);
     _ ← write_buffer_removal sh temporal_layer_id spatial_layer_id p;
     _ ← write_refresh_flags p;
     _ ← write_ref_order_hints sh p;
     _ ← (if intra then write_intra_size sh p sent_override else write_refs sh p sent_override);
     if negb reduced && negb (ep_disable_cdf_update p) then w_flag (ep_refresh_context_disabled p) else mret tt)
    (read_frame_fields sh temporal_layer_id spatial_layer_id limit mi_memory mv_memory byte_alignment sent_start st)
    (sent_head st5 fs named, update_ref_frame_id st5).
Proof.
  intros [Ht Hid Hrd Hrm Hfl Hsl Hh Hz Hia Hie Hn He Hc]. unfold read_frame_fields. cbv zeta. cbn [st_frame_type st_show_frame sent_start]. fold (forget st).
  assert (override_ok) as Ho by (apply override_sent; intros E; by destruct (Hrd E) as (_ & _ & ? & ?)). destruct (after_flags_spec _ _ Hfl Hsl) as [Hs Hf].
  apply (carries_le (3 + (97 + (Z.to_nat 1025 + (32 + (256 + (718 + 1))))))); [lia |]. eapply carries_bind; [by apply carries_frame_tools |]. cbv beta.
  eapply (carries_bind 97 _ _ _ _ _ (sent_override, ep_primary_ref_frame p, ids_state st)).
  { unfold sent_override, ids_state. fold reduced. destruct reduced eqn:Er; cbn [negb]; [destruct (Hrd eq_refl) as (_ & -> & _); within 0%nat; apply carries_ret |]. by apply carries_frame_ids, Hid. }
  cbv beta iota. eapply carries_bind; [by apply carries_buffer_removal |]. cbv beta iota. eapply carries_bind; [by apply carries_refresh_flags |]. cbv beta.
  eapply carries_bind; [by apply carries_ref_order_hints |]. cbv beta.
  eapply (carries_bind 718 1 _ _ _ _ (if intra then ep_allow_intrabc p else false, if intra then false else ep_allow_ref_frame_mvs p, if intra then None else sent_prev fs, st4)).
  - destruct intra eqn:Ei.
    + destruct (Hia eq_refl) as [Hb Hp]. within 163%nat. apply carries_intra; [done | | done..]. destruct reduced eqn:Er; [by destruct (Hrd eq_refl) as (_ & ? & _) |].
      pose proof (io_primary _ (Hid eq_refl)) as Hpr. fold intra in Hpr. by rewrite Ei, andb_false_r in Hpr.
    + destruct (Hie eq_refl) as (Hin & Hr & Hfs & st' & Hp & ->). pose proof Ei as Ei2. unfold intra, frame_is_intra_only in Ei2. apply orb_false_iff in Ei2 as [-> Ei2].
      apply (carries_inter_fields st2 st' ss fs); try done. destruct reduced eqn:Er; [by destruct (Hrd eq_refl) |]. pose proof (io_primary _ (Hid eq_refl)) as Hpr.
      destruct (_ && _) in Hpr; [done | rewrite Hpr; unfold PRIMARY_REF_NONE; lia].
  - cbv beta iota. eapply carries_post; [apply (carries_head_end st4 st5 named); [done | done | | done] | done].
    destruct (set_cur_fields _ _ _ He) as (s5 & ->). change (hd_need_resync st4 = false). destruct intra eqn:Ei.
    + destruct (Hia eq_refl) as [_ Hp]. by destruct (pool_after_fields _ _ Hp) as (s' & -> & _).
    + destruct (Hie eq_refl) as (_ & _ & _ & st' & Hp & ->). by destruct (pool_after_fields _ _ Hp) as (s' & -> & _).
Qed.

(** The state after the start of the header, which a still picture may not have. *)
Definition after_start (st : head_state) : option head_state :=
  if reduced then if hd_sequence_header_changed st then new_sequence st else Some st else after_type st.

Definition start_ok : Prop :=
  if reduced then ep_frame_type p = KEY_FRAME /\ ep_show_frame p = true /\ ep_error_resilient_mode p = true else type_ok.

Lemma carries_head st0 st st2 st4 st5 ss fs named : start_ok -> after_start st0 = Some st -> fields_ok st st2 st4 st5 ss fs named ->
  carries (Z.to_nat 2231) (write_head sh temporal_layer_id spatial_layer_id p)
    (read_head sh temporal_layer_id spatial_layer_id limit mi_memory mv_memory byte_alignment true st0) (inr (sent_head st5 fs named), update_ref_frame_id st5).
Proof.
  intros Hs Ha Hf. pose proof (carries_frame_fields _ _ _ _ _ _ _ Hf) as Hc. unfold write_head, read_head. cbv zeta. fold intra. fold sent_override. fold reduced. apply carries_check; [done |].
  unfold start_ok, after_start in *. destruct reduced eqn:Er; cbn [negb] in *.
  - apply (carries_le (Z.to_nat 2132)); [lia |]. apply carries_skip_w. destruct Hs as (Et & Esh & Ee). apply (carries_lift _ _ _ (sent_start, st)); [| eapply carries_post; [exact Hc | done]].
    unfold reduced_start. destruct (hd_sequence_header_changed st0); rewrite ?Ha; [| injection Ha as <-]; cbn [mbind option_bind]; unfold sent_start; rewrite Et, Esh, Ee.
    all: assert (has_tu_pts sh = false) as -> by (unfold has_tu_pts; destruct (sh_decoder_model_info_present_flag sh) eqn:Em; [| done];
      destruct (hv_model _ Hv Em); by destruct (hv_reduced _ Hv Er) as (? & _); congruence).
    all: done.
  - unfold write_frame_type. apply carries_flat. apply (carries_le (1 + (98 + Z.to_nat 2132))); [lia |]. eapply carries_bind; [apply (carries_flag false) |]. cbv beta iota.
    eapply carries_bind; [by apply (carries_frame_type st0 st) |]. cbv beta iota. eapply carries_post; [exact Hc | done].
Qed.

(** The decoder has what the encoder decided. *)
Record received (ss : list Z) (st : head_state) : Prop := {
  rc_flags : hd_refresh_frame_flags st = ep_refresh_frame_flags p;
  rc_coded : fz_width (sz_size (hd_size st)) = fz_width (ep_size p) /\ fz_height (sz_size (hd_size st)) = fz_height (ep_size p);
  rc_upscaled : superres_upscaled_width (sz_size (hd_size st)) = superres_upscaled_width (ep_size p) /\
    superres_upscaled_height (sz_size (hd_size st)) = superres_upscaled_height (ep_size p);
  rc_render : render_width (sz_size (hd_size st)) = render_width (ep_size p) /\ render_height (sz_size (hd_size st)) = render_height (ep_size p);
  rc_mi : mi_of_size (hd_size st);
  rc_hint : reduced = false -> hd_order_hint st = ep_order_hint p;
  rc_id : reduced = false -> frame_id_numbers_present_flag (sh_tools sh) = true -> hd_current_frame_id st = ep_current_frame_id p;
  rc_refs : intra = false -> hd_remapped_ref_idx st = ss /\ hd_inter st = sent_inter }.

Lemma flags_fields st st2 : after_flags st = Some st2 ->
  hd_refresh_frame_flags st2 = ep_refresh_frame_flags p /\ hd_order_hint st2 = hd_order_hint st /\ hd_current_frame_id st2 = hd_current_frame_id st.
Proof.
  unfold after_flags. cbv zeta. unfold resync. destruct (ep_frame_type p).
  2, 4: by intros [= <-].
  all: cbn [hd_need_resync set_remapped set_flags set_current]; destruct (hd_need_resync st); [destruct (reset_ref_frame_map _); [| done] |]; by intros [= <-].
Qed.

Lemma fields_received st st2 st4 st5 ss fs named : fields_ok st st2 st4 st5 ss fs named -> received ss (update_ref_frame_id st5).
Proof.
  intros [_ _ _ _ _ Hsl _ _ Hia Hie _ He _]. destruct (flags_fields _ _ Hsl) as (F1 & F2 & F3). destruct (set_cur_fields _ _ _ He) as (s5 & ->).
  assert (exists s4, (intra = true /\ st4 = set_pool s4 (set_size (sent_size st2) st2)) \/
    (intra = false /\ st4 = set_inter sent_inter (set_pool s4 (set_size (sent_size st2) (set_remapped ss st2))))) as (s4 & Es).
  { destruct intra.
    - destruct (Hia eq_refl) as [_ Hp]. destruct (pool_after_fields _ _ Hp) as (s' & -> & _). exists s'. by left.
    - destruct (Hie eq_refl) as (_ & _ & _ & st' & Hp & ->). destruct (pool_after_fields _ _ Hp) as (s' & -> & _). exists s'. by right. }
  assert (reduced = false -> hd_order_hint st2 = ep_order_hint p) as Hh.
  { intros Er. rewrite F2. unfold after_removal. destruct sent_present; cbn; unfold ids_state; by rewrite Er. }
  assert (reduced = false -> frame_id_numbers_present_flag (sh_tools sh) = true -> hd_current_frame_id st2 = ep_current_frame_id p) as Hi.
  { intros Er Ei. rewrite F3. unfold after_removal, ids_state, after_ids. rewrite Er, Ei. by destruct sent_present. }
  destruct Es as [[Ei ->] | [Ei ->]]; split; try done; by rewrite Ei.
Qed.
End Trip.


(** ** An inter frame after a key frame *)

Definition no_bits : aom_read_bit_buffer := {| rb_bit_buffer := []; rb_bit_offset := 0; rb_error_handler := None |}.
Definition key_bits : aom_read_bit_buffer := {| rb_bit_buffer := [16; 0; 0; 64; 0; 0; 0; 0; 0; 0; 0; 0]; rb_bit_offset := 0; rb_error_handler := None |}.
Definition state_of {A} (st : head_state) (r : result (A * head_state * aom_read_bit_buffer)) : head_state := match r with Ok (_, st, _) => st | _ => st end.

Definition key_state : head_state := state_of start_state (read_head example_header 0 0 0 true true 0 true start_state key_bits).
Definition next_pool : pool :=
  default start_pool (s ← snd <$> update_frame_buffers true false true 255 (hd_pool key_state); snd <$> assign_cur_frame_new_fb s).
Definition next_state : head_state := set_sync false false false (set_pool next_pool key_state).

Definition next_params : head_params :=
  {| ep_frame_type := INTER_FRAME; ep_show_frame := true; ep_showable_frame := false; ep_error_resilient_mode := false; ep_presentation_time := 0;
     ep_disable_cdf_update := false; ep_allow_screen_content_tools := false; ep_force_integer_mv := false;
     ep_current_frame_id := 1; ep_order_hint := 9; ep_primary_ref_frame := 2; ep_removal_time_present := true; ep_removal_times := [5; 7];
     ep_refresh_frame_flags := 20;
     ep_size := {| fz_width := 1920; fz_height := 1080; superres_upscaled_width := 1920; superres_upscaled_height := 1080;
                   superres_scale_denominator := 8; render_width := 1280; render_height := 720 |};
     ep_allow_intrabc := false; ep_short_signaling := false; ep_rtc := None; ep_remapped_ref_idx := [0; 1; 2; 3; 4; 5; 7];
     ep_allow_high_precision_mv := true; ep_interp_filter := 4; ep_switchable_motion_mode := true; ep_allow_ref_frame_mvs := false;
     ep_refresh_context_disabled := true; ep_map_hints := []; ep_ref_frame_id := replicate 8 0; ep_ref_sizes := [] |}.

Definition next_slots : list Z := [0; 1; 2; 3; 4; 5; 7].
Definition next1 : head_state := default next_state (after_start example_header next_params next_state).
Definition next2 : head_state :=
  default next_state (after_flags next_params (after_removal example_header 0 0 next_params (ids_state example_header next_params next1))).
Definition next3 : head_state := set_remapped next_slots next2.
Definition next4 : head_state :=
  match setup_buffer_pool example_header 0 (set_size (sent_size example_header next_params next2) next3) no_bits with Ok (st, _) => st | _ => next_state end.
Definition next4' : head_state := set_inter (sent_inter next_params) next4.
Definition next_frames : list (RefCntBuffer frame_info) := default [] (named_frames next3).
Definition next5 : head_state := default next_state (set_cur_frame (fun i => with_type INTER_FRAME (with_order_hint (hd_order_hint next4') i)) next4').

Lemma next_frames_ok : frames_ok example_header next_params next3 next_frames.
Proof.
  assert (forall {A} (f : A -> bool) l, forallb f l = true -> Forall (fun x => f x = true) l) as Hall.
  { intros A f l. induction l as [| x l IH]; [constructor |]. cbn. intros [Hx Hl]%andb_true_iff. constructor; auto. }
  split.
  - vm_compute. reflexivity.
  - vm_compute. reflexivity.
  - done.
  - apply Hall. vm_compute. reflexivity.
  - apply Hall. vm_compute. reflexivity.
  - assert (forallb (fun b => (0 <=? y_crop_width (rc_buf b)) && (0 <=? y_crop_height (rc_buf b))) next_frames = true) as E by (vm_compute; reflexivity).
    apply Hall in E. eapply list.Forall_impl; [exact E |]. intros b [Hw%Z.leb_le Hh%Z.leb_le]%andb_true_iff. done.
  - intros k. replace (cur_frame (hd_pool next3)) with (Some 1%nat) by (vm_compute; reflexivity). intros [= <-].
    replace (ref_frame_map (hd_pool next3)) with (replicate 8 (Some 0%nat)) by (vm_compute; reflexivity). by intros [E _]%elem_of_replicate.
Qed.

Lemma next_name i : 0 <= i < 8 -> name_ok example_header next_params next2 i i.
Proof.
  intros Hi. assert (Z.to_nat i < 8)%nat by lia. split.
  - split; [done |]. exists 0%nat. replace (ref_frame_map (hd_pool next2)) with (replicate 8 (Some 0%nat)) by (vm_compute; reflexivity). by apply lookup_replicate.
  - replace (hd_valid_for_referencing next2) with (replicate 8 true) by (vm_compute; reflexivity). unfold zget. rewrite (proj2 (Z.leb_le 0 i)) by lia. by apply lookup_replicate.
  - intros _. split; [vm_compute; reflexivity |]. split; [done |]. exists 0.
    replace (hd_ref_frame_id next2) with (replicate 8 0) by (vm_compute; reflexivity). unfold zget. rewrite (proj2 (Z.leb_le 0 i)) by lia.
    split_and!; try (by apply lookup_replicate); done.
Qed.

Lemma next_fields_ok : fields_ok example_header 0 0 0 true true 0 next_params next1 next2 next4' next5 next_slots next_frames (Some <$> next_frames).
Proof.
  split.
  - split; [intros []; done | done | done].
  - intros _. split; [intros _; split; [done | vm_compute; reflexivity] | done | done | done].
  - done.
  - intros _ _. split_and!; [vm_compute; lia | vm_compute; lia | by repeat constructor].
  - split; [done | intros [[] |]; done | done | intros _; vm_compute; reflexivity].
  - vm_compute. reflexivity.
  - done.
  - split; [split; cbn; try done; unfold dim_ok, SCALE_NUMERATOR; lia | split_and!; auto | vm_compute; done].
  - done.
  - intros _. split_and!.
    + split; [done | cbn; unfold SWITCHABLE; lia | done].
    + split; [by split; vm_compute | do 7 (constructor; [apply next_name; lia |]); constructor | done |]. intros _ j m Hj. cbn in *. unfold sent_map_idx. cbn. by rewrite <- Hj.
    + apply next_frames_ok.
    + exists next4. split; [| done]. intros rb. vm_compute. reflexivity.
  - vm_compute. reflexivity.
  - vm_compute. reflexivity.
  - done.
Qed.


(** ** Showing a frame again *)

Section Show.
Context `{MallocOk} (sh : SequenceHeader) (Hv : header_valid sh).

(** The frame [b] in slot [idx], with buffer [k], can be shown. *)
Record show_allowed (st : head_state) (idx time id : Z) (k : nat) (b : RefCntBuffer frame_info) : Prop := {
  sw_still : sh_reduced_still_picture_hdr sh = false;
  sw_sequence : hd_sequence_header_changed st = false;
  sw_idx : 0 <= idx < 8;
  sw_slot : ref_frame_map (hd_pool st) !! Z.to_nat idx = Some (Some k) /\ bufs (hd_pool st) !! k = Some b;
  sw_time : has_tu_pts sh = true -> 0 <= time < 2 ^ frame_presentation_time_length (sh_decoder_model_info sh);
  sw_id : frame_id_numbers_present_flag (sh_tools sh) = true ->
    0 <= id < 2 ^ frame_id_length (sh_tools sh) /\ zget (hd_ref_frame_id st) idx = Some id /\ zget (hd_valid_for_referencing st) idx = Some true;
  sw_showable : fi_showable_frame (rc_frame b) = true }.

Lemma carries_show_time time : (has_tu_pts sh = true -> 0 <= time < 2 ^ frame_presentation_time_length (sh_decoder_model_info sh)) ->
  carries 32 (if has_tu_pts sh then write_tu_pts_info sh time else mret tt) (read_time sh) (if has_tu_pts sh then Some time else None).
Proof.
  intros Ht. unfold read_time, read_temporal_point_info, write_tu_pts_info. destruct (has_tu_pts sh) eqn:E; [| within 0%nat; apply carries_ret].
  eapply carries_post; [apply carries_ulit; [by apply time_bits | by apply Ht] | done].
Qed.

(** What the decoder makes of the slot. *)
Definition shown_state (idx : Z) (b : RefCntBuffer frame_info) (s : pool) (st : head_state) : option head_state :=
  let st := set_current (buf_hint b) (hd_refresh_frame_flags st) (hd_showable_frame st) (set_pool s st) in
  if is_key (fi_frame_type (rc_frame b)) then st ← set_cur_frame (with_showable false) st; show_existing_frame_reset idx st
  else Some (set_current (hd_order_hint st) 0 (hd_showable_frame st) st).

Lemma carries_show tl sl limit mi_memory mv_memory byte_alignment st idx time id k b s st' : show_allowed st idx time id k b ->
  assign_cur_frame k (hd_pool st) = Some s -> shown_state idx b s st = Some st' ->
  carries 97 (write_show_existing sh idx time id) (read_head sh tl sl limit mi_memory mv_memory byte_alignment true st)
    (inl {| sf_idx := idx; sf_time := if has_tu_pts sh then Some time else None; sf_reset := is_key (fi_frame_type (rc_frame b)) |}, st').
Proof.
  intros [Hs Hc Hi [Hm Hb] Ht Hid Hsh] Ea Est. unfold write_show_existing, read_head. apply carries_check; [done |]. rewrite Hs. apply (carries_le (1 + (32 + (32 + 32)))); [lia |].
  eapply carries_bind; [apply (carries_flag true) |]. cbv beta iota. eapply (carries_ext _ _ (read_show_existing sh st ≫= _)); [reflexivity |].
  unfold read_show_existing. apply carries_flat_r, carries_check; [by rewrite Hc |]. apply carries_flat_r. eapply (carries_bind 32 (32 + 32)); [apply carries_lit; [lia | done] |]. cbv beta.
  apply carries_flat_r. apply (carries_lift _ _ _ (Some k)); [unfold zget; by rewrite (proj2 (Z.leb_le 0 idx)) by lia |]. cbv beta iota. apply carries_flat_r.
  eapply (carries_bind 32 32); [by apply carries_show_time |]. cbv beta. apply carries_flat_r. eapply (carries_post _ _ _ _ tt).
  - destruct (frame_id_numbers_present_flag (sh_tools sh)) eqn:E; [| within 0%nat; apply carries_ret]. destruct (Hid eq_refl) as (Hr & E1 & E2), (trip_id_bits sh Hv E).
    eapply carries_post; [apply carries_lit; [lia | done] |]. intros r. rewrite E1, E2. unfold lift, check, mbind, reader_bind, mret, reader_ret. cbn. by rewrite Z.eqb_refl.
  - intros r. rewrite Hb, Ea. unfold mbind, reader_bind. cbv beta iota zeta delta [lift mret reader_ret check]. rewrite Hsh. change (if is_key _ then _ else _) with (shown_state idx b s st). by rewrite Est.
Qed.

Lemma show_reset_facts idx st st' : acct (hd_pool st) [] -> show_existing_frame_reset idx st = Some st' ->
  cur_frame (hd_pool st') = cur_frame (hd_pool st) /\ hd_order_hint st' = hd_order_hint st /\ hd_refresh_frame_flags st' = 255.
Proof.
  intros Ha. destruct (reset_map_ok (hd_pool st) [] Ha) as (s & E & _ & (C & _) & _). unfold show_existing_frame_reset, resync. cbv zeta. cbn [hd_need_resync set_remapped set_current hd_pool].
  destruct (hd_need_resync st); [rewrite E |]; cbn [mbind option_bind]; (destruct (zget _ idx) as [x |]; [| done]); cbn [mbind option_bind]; by intros [= <-].
Qed.

(** A decoder in order can show it. *)
Lemma shown_exists s0 st idx time id k b : good s0 InHeader st -> show_allowed st idx time id k b ->
  exists s st', assign_cur_frame k (hd_pool st) = Some s /\ shown_state idx b s st = Some st' /\ cur_frame (hd_pool st') = Some k /\
    hd_order_hint st' = buf_hint b /\ hd_refresh_frame_flags st' = if is_key (fi_frame_type (rc_frame b)) then 255 else 0.
Proof.
  intros Hg [_ _ Hi [Hm Hb] _ _ _]. destruct (gd_ok _ _ _ Hg) as [Ha Ho [(c & Hc & Hn & _) Hgr]]. destruct (show_ok (hd_pool st) c (Z.to_nat idx) k Ha Hc Hn Hm) as (s & Es & _ & C1 & _).
  assert (good s0 Shown (set_pool s st)) as Hg1.
  { apply (good_step s0 InHeader); [done | by eapply ShowExisting |]. eapply tame_fine; [by eapply tame_assign | apply (hi_slots _ (gd_inv _ _ _ Hg))]. }
  assert (0 <= buf_hint b) as Hh by (destruct (hi_slots _ (gd_inv _ _ _ Hg)) as [Hp _]; by apply (Hp k)).
  apply (good_current _ _ _ (buf_hint b) (hd_refresh_frame_flags st) (hd_showable_frame st) Hh) in Hg1. exists s. unfold shown_state. cbv zeta.
  set (st1 := set_current _ _ _ (set_pool s st)) in *. destruct (is_key _); [| exists (set_current (hd_order_hint st1) 0 (hd_showable_frame st1) st1); by split_and!].
  destruct (good_set_cur s0 Shown st1 (with_showable false)) as (s2 & E2 & Hg2 & C2 & _); [by right; left | done | done |]. rewrite E2. cbn [mbind option_bind].
  destruct (good_shown_reset s0 _ idx Hi Hg2) as (st3 & E3 & _). destruct (show_reset_facts idx _ st3 (so_account _ _ (or_intror (or_introl eq_refl)) (gd_ok _ _ _ Hg2)) E3) as (F1 & F2 & F3).
  exists st3. split_and!; [done | done | rewrite F1; cbn; rewrite C2; exact C1 | by rewrite F2 | done].
Qed.
End Show.

(** A header that shows a frame again, written for any slot whose frame may be shown, is
    read back by a decoder that has it: the decoder shows exactly the frame of the slot
    that is sent, which is then the current one, and refreshes every slot with it if it is
    a key frame and none otherwise. *)
Theorem show_existing_roundtrip `{MallocOk} sh tl sl limit mi_memory mv_memory byte_alignment f st idx time id k b dst code :
  header_valid sh -> reachable f InHeader (hd_pool st) -> head_inv st -> show_allowed sh st idx time id k b -> 14 <= Z.of_nat (length dst) < 2 ^ 28 ->
  exists w1 w2, write_show_existing sh idx time id {| wb_bit_buffer := dst; wb_bit_offset := 0 |} = Some (tt, w1) /\
    add_trailing_bits w1 = Some w2 /\ 0 < aom_wb_bytes_written w2 <= 13 /\
    forall tail h,
      let buf := take (Z.to_nat (aom_wb_bytes_written w2)) (wb_bit_buffer w2) ++ tail in
      8 * Z.of_nat (length buf) < 2 ^ 32 ->
      exists st' rb, read_head sh tl sl limit mi_memory mv_memory byte_alignment true st {| rb_bit_buffer := buf; rb_bit_offset := 0; rb_error_handler := h |} =
          Ok ((inl {| sf_idx := idx; sf_time := if has_tu_pts sh then Some time else None; sf_reset := is_key (fi_frame_type (rc_frame b)) |}, st'), rb) /\
        av1_check_trailing_bits code rb = Ok ((0, code),
          {| rb_bit_buffer := buf; rb_bit_offset := 8 * aom_wb_bytes_written w2; rb_error_handler := h |}) /\
        cur_frame (hd_pool st') = Some k /\ hd_order_hint st' = buf_hint b /\
        hd_refresh_frame_flags st' = if is_key (fi_frame_type (rc_frame b)) then 255 else 0.
Proof.
  intros Hv Hr Hi Hs Hd. assert (good (hd_pool st) InHeader st) as Hg by (split; [apply rtc_refl | by eapply reachable_ok | done]).
  destruct (shown_exists sh _ _ _ _ _ _ _ Hg Hs) as (s & st' & Ea & Es & Hc & Hh & Hf).
  destruct (carries_obu _ _ _ _ dst code (carries_show sh Hv tl sl limit mi_memory mv_memory byte_alignment st idx time id k b s st' Hs Ea Es))
    as (w1 & w2 & E1 & E2 & _ & Hb1 & Hb2 & Hread); [lia |].
  exists w1, w2. split_and!; try done; [lia |]. intros tail h buf Hl. destruct (Hread tail h Hl) as (rb & Er & Et). by exists st', rb.
Qed.

(** A hidden key frame, which is then shown. *)
Definition hidden_bits : aom_read_bit_buffer := {| rb_bit_buffer := [12; 0; 0; 16; 255; 0; 0; 0]; rb_bit_offset := 0; rb_error_handler := None |}.
Definition hidden_state : head_state := state_of start_state (read_head example_header 0 0 0 true true 0 true start_state hidden_bits).
Definition hidden_end : pool := default start_pool (snd <$> update_frame_buffers true false false 255 (hd_pool hidden_state)).
Definition show_pool : pool := default start_pool (snd <$> assign_cur_frame_new_fb hidden_end).
Definition show_state : head_state := set_pool show_pool hidden_state.
Definition show_buf : option (RefCntBuffer frame_info) := bufs show_pool !! 0%nat.

Lemma hidden_good : good start_header InFrame hidden_state.
Proof.
  assert (good start_header InHeader start_state) as Hg by (split; [apply rtc_refl | eapply reachable_ok, start_reachable | apply start_state_inv]).
  pose proof (yields_head example_header 0 0 0 true true 0 example_header_valid (or_introl eq_refl) start_header true start_state Hg hidden_bits) as Hy.
  assert (match read_head example_header 0 0 0 true true 0 true start_state hidden_bits with Ok ((inr _, _), _) => true | _ => false end = true) as E by (vm_compute; reflexivity).
  unfold hidden_state. destruct (read_head _ _ _ _ _ _ _ _ _ _) as [[[[x | x] st'] rb'] | |]; [done | apply Hy | done | done].
Qed.

Lemma show_reachable : reachable demo_info InHeader show_pool.
Proof.
  apply (Next demo_info Calling hidden_end); [| apply (Start _ 1); vm_compute; reflexivity]. apply (Next demo_info InFrame (hd_pool hidden_state)).
  - eapply rtc_reachable; [apply start_reachable | apply (gd_steps _ _ _ hidden_good)].
  - apply (Finish _ true false false 255 _ AOM_CODEC_OK); [by right; right | by unfold REF_FRAMES | vm_compute; reflexivity].
Qed.

Lemma show_inv : head_inv show_state.
Proof.
  destruct (gd_inv _ _ _ hidden_good) as [A1 A2 A3 _ A5 A6]. split; [exact A1 | exact A2 | exact A3 | | exact A5 | exact A6]. change (hd_pool show_state) with show_pool.
  assert (forallb (fun b => 0 <=? buf_hint b) (bufs show_pool) = true) as Eh by (vm_compute; reflexivity). split.
  - intros k b Hb. revert Eh Hb. generalize (bufs show_pool). intros l Eh Hb. rewrite forallb_forall in Eh. apply Z.leb_le, Eh. eapply list_elem_of_In, list_elem_of_lookup_2, Hb.
  - intros i k b. replace (ref_frame_map show_pool) with (replicate 8 (Some 0%nat)) by (vm_compute; reflexivity). intros [[= ->] _]%lookup_replicate.
    intros Hb. assert ((fun b => (y_crop_width (rc_buf b), y_crop_height (rc_buf b))) <$> (bufs show_pool !! 0%nat) = Some (1920, 1080)) as Es by (vm_compute; reflexivity).
    revert Hb Es. generalize (bufs show_pool !! 0%nat). intros o -> Es. injection Es as Ew Ehh. unfold ref_size_ok, buf_size, dim_ok. cbn. lia.
Qed.

Lemma show_ready b : show_buf = Some b -> show_allowed example_header show_state 3 0 0 0%nat b.
Proof.
  assert ((fun b => fi_showable_frame (rc_frame b)) <$> show_buf = Some true) as Es by (vm_compute; reflexivity). intros Eb. rewrite Eb in Es. injection Es as Es.
  assert (zget (hd_ref_frame_id show_state) 3 = Some 0 /\ zget (hd_valid_for_referencing show_state) 3 = Some true) as Hid by (clear; split; vm_compute; reflexivity).
  split; [reflexivity | vm_compute; reflexivity | lia | split; [vm_compute; reflexivity | exact Eb] | intros E; discriminate E | | exact Es].
  intros _. split; [| exact Hid]. split; [lia | reflexivity].
Qed.

Lemma show_existing_roundtrip_witness : exists b, show_buf = Some b /\
  exists w1 w2, write_show_existing example_header 3 0 0 {| wb_bit_buffer := replicate 20 0; wb_bit_offset := 0 |} = Some (tt, w1) /\
    add_trailing_bits w1 = Some w2 /\ 0 < aom_wb_bytes_written w2 <= 13 /\
    forall tail h,
      let buf := take (Z.to_nat (aom_wb_bytes_written w2)) (wb_bit_buffer w2) ++ tail in
      8 * Z.of_nat (length buf) < 2 ^ 32 ->
      exists st' rb, read_head example_header 0 0 0 true true 0 true show_state {| rb_bit_buffer := buf; rb_bit_offset := 0; rb_error_handler := h |} =
          Ok ((inl {| sf_idx := 3; sf_time := if has_tu_pts example_header then Some 0 else None; sf_reset := is_key (fi_frame_type (rc_frame b)) |}, st'), rb) /\
        av1_check_trailing_bits AOM_CODEC_OK rb = Ok ((0, AOM_CODEC_OK),
          {| rb_bit_buffer := buf; rb_bit_offset := 8 * aom_wb_bytes_written w2; rb_error_handler := h |}) /\
        cur_frame (hd_pool st') = Some 0%nat /\ hd_order_hint st' = buf_hint b /\
        hd_refresh_frame_flags st' = if is_key (fi_frame_type (rc_frame b)) then 255 else 0.
Proof.
  destruct show_buf as [b |] eqn:Eb; [| by vm_compute in Eb]. exists b. split; [done |].
  apply (show_existing_roundtrip example_header 0 0 0 true true 0 demo_info show_state 3 0 0 0%nat b (replicate 20 0) AOM_CODEC_OK).
  - apply example_header_valid.
  - apply show_reachable.
  - apply show_inv.
  - exact (show_ready b Eb).
  - rewrite length_replicate. lia.
Defined.
