(* ===== verification/Shim.v ===== *)
(** * The encoder and decoder shim

    [crates/aom-sys/shim/aom_shim.c]: the C side of the product, between the Rust
    application and libaom.  The encoder behind [aom_codec_av1_cx] and the decoder
    behind [aom_codec_av1_dx] are the interfaces [cx] and [dx] of [Codec]; text
    buffers are strings cut to their size, and pictures are addresses. *)

From stdpp Require Import strings pretty.
From S2P Require Import Prelude CodecTypes Mem Image Codec EntCoder.

Definition AOM_USAGE_REALTIME : Z := 1.
Definition AOM_RC_ONE_PASS : Z := 0.
Definition AOM_CBR : Z := 1.
Definition AOM_KF_DISABLED : Z := 0.
Definition AOM_EFLAG_FORCE_KF : Z := 1.
Definition AOM_FRAME_IS_KEY : Z := 1.

(** [snprintf(buf, size, "%s", text)]: what the buffer holds afterwards. *)
Definition c_snprintf (size : Z) (text : string) : string :=
  String.substring 0 (Z.to_nat (size - 1)) text.

(** ** Configuration *)

(** The assignments to [cfg] in [aom_shim_open]. *)
Definition shim_cfg (cf : aom_codec_enc_cfg) (w h fps kbps threads min_q max_q : Z)
  : aom_codec_enc_cfg :=
  {| g_usage := g_usage cf; g_threads := u32 threads; g_w := u32 w; g_h := u32 h;
     g_bit_depth := g_bit_depth cf; g_timebase_num := 1; g_timebase_den := fps;
     g_error_resilient := 0; g_pass := AOM_RC_ONE_PASS; g_lag_in_frames := 0;
     rc_dropframe_thresh := 0; rc_end_usage := AOM_CBR; rc_target_bitrate := u32 kbps;
     rc_min_quantizer := u32 min_q; rc_max_quantizer := u32 max_q; rc_undershoot_pct := 50;
     rc_overshoot_pct := 50; rc_buf_sz := 1000; rc_buf_initial_sz := 600; rc_buf_optimal_sz := 600;
     kf_mode := AOM_KF_DISABLED; super_block_size := super_block_size cf;
     max_partition_size := max_partition_size cf; min_partition_size := min_partition_size cf;
     disable_trellis_quant := disable_trellis_quant cf; encoder_cfg_other := encoder_cfg_other cf;
     cfg_other := cfg_other cf |}.

Definition set_bitrate_field (cf : aom_codec_enc_cfg) (v : Z) : aom_codec_enc_cfg :=
  {| g_usage := g_usage cf; g_threads := g_threads cf; g_w := g_w cf; g_h := g_h cf;
     g_bit_depth := g_bit_depth cf; g_timebase_num := g_timebase_num cf;
     g_timebase_den := g_timebase_den cf; g_error_resilient := g_error_resilient cf;
     g_pass := g_pass cf; g_lag_in_frames := g_lag_in_frames cf;
     rc_dropframe_thresh := rc_dropframe_thresh cf; rc_end_usage := rc_end_usage cf;
     rc_target_bitrate := v; rc_min_quantizer := rc_min_quantizer cf;
     rc_max_quantizer := rc_max_quantizer cf; rc_undershoot_pct := rc_undershoot_pct cf;
     rc_overshoot_pct := rc_overshoot_pct cf; rc_buf_sz := rc_buf_sz cf;
     rc_buf_initial_sz := rc_buf_initial_sz cf; rc_buf_optimal_sz := rc_buf_optimal_sz cf;
     kf_mode := kf_mode cf; super_block_size := super_block_size cf;
     max_partition_size := max_partition_size cf; min_partition_size := min_partition_size cf;
     disable_trellis_quant := disable_trellis_quant cf; encoder_cfg_other := encoder_cfg_other cf;
     cfg_other := cfg_other cf |}.

(** The [CTRL] lines, in order: name, id and value. *)
Definition shim_controls (speed screen tile_cols_log2 : Z) : list (string * Z * Z) :=
  [("AOME_SET_CPUUSED", 13, speed); ("AV1E_SET_ROW_MT", 32, 1);
   ("AV1E_SET_TILE_COLUMNS", 33, tile_cols_log2); ("AV1E_SET_AQ_MODE", 40, 3);
   ("AV1E_SET_ENABLE_CDEF", 58, 1); ("AV1E_SET_ENABLE_TPL_MODEL", 35, 0);
   ("AV1E_SET_DELTAQ_MODE", 107, 0); ("AV1E_SET_ENABLE_ORDER_HINT", 79, 0);
   ("AV1E_SET_ENABLE_OBMC", 61, 0); ("AV1E_SET_ENABLE_WARPED_MOTION", 96, 0);
   ("AV1E_SET_ENABLE_GLOBAL_MOTION", 95, 0); ("AV1E_SET_ENABLE_REF_FRAME_MVS", 84, 0);
   ("AV1E_SET_NOISE_SENSITIVITY", 42, 0); ("AOME_SET_MAX_INTRA_BITRATE_PCT", 26, 300);
   ("AV1E_SET_COEFF_COST_UPD_FREQ", 126, 3); ("AV1E_SET_MODE_COST_UPD_FREQ", 127, 3);
   ("AV1E_SET_MV_COST_UPD_FREQ", 128, 3);
   ("AV1E_SET_TUNE_CONTENT", 43, if negb (screen =? 0)%Z then 1 else 0);
   ("AV1E_SET_ENABLE_PALETTE", 104, if negb (screen =? 0)%Z then 1 else 0)]%string.

Section Shim.
Context {A : Type} `{Malloc}.

(** ** Encoder; [sh_out] holds the [sh_out_cap] bytes at [s->out]. *)

Record aom_shim := {
  sh_ctx : aom_codec_ctx A;
  sh_cfg : aom_codec_enc_cfg;
  sh_w : Z; sh_h : Z;
  sh_out : list Z;
  sh_out_cap : Z;
  sh_refused : string;
  sh_error : string }.

Definition set_sh_ctx (s : aom_shim) (c : aom_codec_ctx A) : aom_shim :=
  {| sh_ctx := c; sh_cfg := sh_cfg s; sh_w := sh_w s; sh_h := sh_h s; sh_out := sh_out s;
     sh_out_cap := sh_out_cap s; sh_refused := sh_refused s; sh_error := sh_error s |}.

Definition set_sh_out (s : aom_shim) (out : list Z) (cap : Z) : aom_shim :=
  {| sh_ctx := sh_ctx s; sh_cfg := sh_cfg s; sh_w := sh_w s; sh_h := sh_h s; sh_out := out;
     sh_out_cap := cap; sh_refused := sh_refused s; sh_error := sh_error s |}.

Definition set_sh_error (s : aom_shim) (e : string) : aom_shim :=
  {| sh_ctx := sh_ctx s; sh_cfg := sh_cfg s; sh_w := sh_w s; sh_h := sh_h s; sh_out := sh_out s;
     sh_out_cap := sh_out_cap s; sh_refused := sh_refused s; sh_error := e |}.

Definition set_sh_refused (s : aom_shim) (r : string) : aom_shim :=
  {| sh_ctx := sh_ctx s; sh_cfg := sh_cfg s; sh_w := sh_w s; sh_h := sh_h s; sh_out := sh_out s;
     sh_out_cap := sh_out_cap s; sh_refused := r; sh_error := sh_error s |}.

Definition set_sh_cfg (s : aom_shim) (cf : aom_codec_enc_cfg) : aom_shim :=
  {| sh_ctx := sh_ctx s; sh_cfg := cf; sh_w := sh_w s; sh_h := sh_h s; sh_out := sh_out s;
     sh_out_cap := sh_out_cap s; sh_refused := sh_refused s; sh_error := sh_error s |}.

(** Result: the return value, the shim and [*used]; [None] is a copy outside the
    buffer. *)
Definition append (al : allocator) (s : aom_shim) (data : list Z) (used : Z)
  : option (Z * aom_shim * Z) :=
  let len := Z.of_nat (length data) in
  let grown :=
    if sh_out_cap s <? u64 (used + len) then
      let cap := u64 (u64 (used + len) * 2) in
      match c_realloc al (sh_out s) cap with
      | Some out => Some (set_sh_out s out cap)
      | None => None
      end
    else Some s in
  match grown with
  | None => Some (-1, s, used)
  | Some s =>
      out ← c_memcpy (sh_out s) (Z.to_nat used) data;
      Some (0, set_sh_out s out (sh_out_cap s), u64 (used + len))
  end.

(** [": " detail] when there is one. *)
Definition detail_text (d : option string) : string :=
  match d with Some t => (": " +:+ t)%string | None => "" end.

Definition remember_error (s : aom_shim) (what : string) : aom_shim :=
  let ctx := Some (sh_ctx s) in
  set_sh_error s (c_snprintf 256
    (what +:+ ": " +:+ aom_codec_error ctx +:+ detail_text (aom_codec_error_detail ctx))%string).

Definition ctrl (s : aom_shim) (id value : Z) (name : string) : aom_shim :=
  match aom_codec_control (Some (sh_ctx s)) id value with
  | (e, c) =>
      let s := match c with Some c => set_sh_ctx s c | None => s end in
      if is_ok e then s
      else
        let used := Z.of_nat (String.length (sh_refused s)) in
        set_sh_refused s
          (sh_refused s +:+ c_snprintf (256 - used)%Z
             ((if negb (used =? 0)%Z then ", " else "") +:+ name +:+ "=" +:+ pretty value))%string
  end.

Definition run_controls (s : aom_shim) (cs : list (string * Z * Z)) : aom_shim :=
  foldl (fun s '(name, id, value) => ctrl s id value name) s cs.

(** [cfg0]: what the local [cfg] holds before it is set; the [inl] is what [err]
    holds when [NULL] is returned. *)
Definition aom_shim_open (cx : aom_codec_iface A) (calloc_ok : bool) (cfg0 : aom_codec_enc_cfg)
    (w h fps kbps speed screen threads tile_cols_log2 min_q max_q errlen : Z)
  : string + aom_shim :=
  match aom_codec_enc_config_default (Some cx) (Some cfg0) AOM_USAGE_REALTIME with
  | (AOM_CODEC_OK, Some cf) =>
      let cfg := shim_cfg cf w h fps kbps threads min_q max_q in
      if negb calloc_ok then inl (c_snprintf errlen "out of memory")
      else
        match aom_codec_enc_init_ver (Some zero_ctx) (Some cx) (Some cfg) 0 AOM_ENCODER_ABI_VERSION with
        | (AOM_CODEC_OK, Some ctx) =>
            inr (run_controls
                   {| sh_ctx := ctx; sh_cfg := cfg; sh_w := w; sh_h := h; sh_out := [];
                      sh_out_cap := 0; sh_refused := ""; sh_error := "" |}
                   (shim_controls speed screen tile_cols_log2))
        | (_, ctx) =>
            inl (c_snprintf errlen ("aom_codec_enc_init failed: " +:+ aom_codec_error ctx)%string)
        end
  | _ => inl (c_snprintf errlen "aom_codec_enc_config_default failed")
  end.

(** The assignments to [img.planes] and [img.stride] in [aom_shim_encode]. *)
Definition with_planes_strides (i : aom_image) (y u v : option Z) (ys uvs : Z) : aom_image :=
  {| fmt := fmt i; cp := cp i; tc := tc i; mc := mc i; monochrome := monochrome i; csp := csp i;
     range := range i; im_w := im_w i; im_h := im_h i; bit_depth := bit_depth i; d_w := d_w i;
     d_h := d_h i; r_w := r_w i; r_h := r_h i; x_chroma_shift := x_chroma_shift i;
     y_chroma_shift := y_chroma_shift i; plane_y := y; plane_u := u; plane_v := v;
     stride_y := ys; stride_u := uvs; stride_v := uvs; im_sz := im_sz i; im_bps := im_bps i;
     temporal_id := temporal_id i; spatial_id := spatial_id i; img_data := img_data i;
     img_data_owner := img_data_owner i; self_allocd := self_allocd i; metadata := metadata i |}.

(** [while ((pkt = aom_codec_get_cx_data(&s->ctx, &iter)) != NULL)]; [None] is a
    fault or more packets than [fuel].  Result: the return value, the shim, [used]
    and [key]. *)
Fixpoint drain_packets (fuel : nat) (al : allocator) (s : aom_shim) (iter : aom_codec_iter)
    (used : Z) (key : bool) : option (Z * aom_shim * Z * bool) :=
  match fuel with
  | O => None
  | S fuel' =>
      let '(pkt, c, it) := aom_codec_get_cx_data (Some (sh_ctx s)) (Some iter) in
      let s := match c with Some c => set_sh_ctx s c | None => s end in
      let iter := match it with Some it => it | None => iter end in
      match pkt with
      | None => Some (0, s, used, key)
      | Some pkt =>
          match pkt_kind pkt with
          | AOM_CODEC_CX_FRAME_PKT =>
              '(r, s, used) ← append al s (raw_bytes pkt) used;
              if negb (r =? 0) then
                Some (-1, set_sh_error s (c_snprintf 256
                            ("out of memory for a " +:+ pretty (Z.of_nat (length (raw_bytes pkt)))
                             +:+ "-byte packet")%string), used, key)
              else drain_packets fuel' al s iter used
                     (key || has_flag (frame_flags pkt) AOM_FRAME_IS_KEY)
          | _ => drain_packets fuel' al s iter used key
          end
      end
  end.

(** Result: the return value, the shim, the heap and, when 0 is returned,
    [*out_len] bytes at [*out] and [*is_key]. *)
Definition aom_shim_encode (fuel : nat) (al : allocator) (hp : heap) (s : aom_shim)
    (y u v : option Z) (y_stride uv_stride pts force_kf : Z)
  : option (Z * aom_shim * heap * option (list Z * bool)) :=
  '(o, hp) ← aom_img_wrap hp true (Some zero_image) AOM_IMG_FMT_I420 (u32 (sh_w s)) (u32 (sh_h s)) 1 y;
  match o with
  | ImgFail _ =>
      Some (-1, set_sh_error s (c_snprintf 256
                  ("aom_img_wrap refused a " +:+ pretty (sh_w s) +:+ "x" +:+ pretty (sh_h s)
                   +:+ " picture")%string), hp, None)
  | ImgOk img =>
      let img := with_planes_strides img y u v y_stride uv_stride in
      let '(e, c) := aom_codec_encode (Some (sh_ctx s)) (Some img) pts 1
                       (if negb (force_kf =? 0) then AOM_EFLAG_FORCE_KF else 0) in
      let s := match c with Some c => set_sh_ctx s c | None => s end in
      if negb (is_ok e) then Some (-1, remember_error s "aom_codec_encode", hp, None)
      else
        '(r, s, used, key) ← drain_packets fuel al s None 0 false;
        if negb (r =? 0) then Some (-1, s, hp, None)
        else Some (0, s, hp, Some (take (Z.to_nat used) (sh_out s), key))
  end.

Definition aom_shim_set_bitrate (s : aom_shim) (kbps : Z) : Z * aom_shim :=
  let cfg := set_bitrate_field (sh_cfg s) (u32 kbps) in
  let '(e, c) := aom_codec_enc_config_set (Some (sh_ctx s)) (Some cfg) in
  let s := match c with Some c => set_sh_ctx s c | None => s end in
  if negb (is_ok e) then (-1, remember_error s "aom_codec_enc_config_set")
  else (0, set_sh_cfg s cfg).

Definition aom_shim_bitrate (s : aom_shim) : Z := s32 (rc_target_bitrate (sh_cfg s)).

(** [aom_codec_destroy] and [free]: the context as the codec leaves it. *)
Definition aom_shim_close (s : option aom_shim) : option (aom_codec_ctx A) :=
  match s with None => None | Some s => snd (aom_codec_destroy (Some (sh_ctx s))) end.

(** ** Decoder *)

Record aom_shim_dec := {
  sd_ctx : aom_codec_ctx A;
  sd_error : string }.

Definition aom_shim_dec_open (dx : aom_codec_iface A) (calloc_ok : bool) (threads errlen : Z)
  : string + aom_shim_dec :=
  let cfg := {| dec_threads := u32 threads; dec_w := 0; dec_h := 0; allow_lowbitdepth := 1 |} in
  if negb calloc_ok then inl (c_snprintf errlen "out of memory")
  else
    match aom_codec_dec_init_ver (Some zero_ctx) (Some dx) (Some cfg) 0 AOM_DECODER_ABI_VERSION with
    | (AOM_CODEC_OK, Some ctx) => inr {| sd_ctx := ctx; sd_error := "" |}
    | (_, ctx) => inl (c_snprintf errlen ("aom_codec_dec_init failed: " +:+ aom_codec_error ctx)%string)
    end.

(** [while ((img = aom_codec_get_frame(&d->ctx, &iter)) != NULL) last = img] *)
Fixpoint last_frame (fuel : nat) (c : aom_codec_ctx A) (iter : aom_codec_iter)
    (last : option aom_image) : option (option aom_image * aom_codec_ctx A) :=
  match fuel with
  | O => None
  | S fuel' =>
      let '(img, c', it) := aom_codec_get_frame (Some c) (Some iter) in
      let c := match c' with Some c => c | None => c end in
      let iter := match it with Some it => it | None => iter end in
      match img with
      | None => Some (last, c)
      | Some img => last_frame fuel' c iter (Some img)
      end
  end.

(** What [*got = 1] comes with. *)
Record picture := {
  pic_y : option Z; pic_u : option Z; pic_v : option Z;
  pic_y_stride : Z; pic_uv_stride : Z; pic_w : Z; pic_h : Z }.

Definition aom_shim_dec_decode (fuel : nat) (d : aom_shim_dec) (data : option (list Z)) (len : Z)
  : option (Z * aom_shim_dec * option picture) :=
  let '(e, c) := aom_codec_decode (Some (sd_ctx d)) data len in
  let ctx := match c with Some c => c | None => sd_ctx d end in
  if negb (is_ok e) then
    Some (-1, {| sd_ctx := ctx;
                 sd_error := c_snprintf 256
                   ("aom_codec_decode: " +:+ aom_codec_error (Some ctx)
                    +:+ detail_text (aom_codec_error_detail (Some ctx)))%string |}, None)
  else
    '(last, ctx) ← last_frame fuel ctx None None;
    match last with
    | None => Some (0, {| sd_ctx := ctx; sd_error := sd_error d |}, None)
    | Some i =>
        if negb (fmt i =? AOM_IMG_FMT_I420) || negb (bit_depth i =? 8) || negb (monochrome i =? 0)
        then Some (-1, {| sd_ctx := ctx;
                          sd_error := c_snprintf 256
                            ("a picture in format " +:+ pretty (fmt i) +:+ " at "
                             +:+ pretty (bit_depth i) +:+ " bits, not 8-bit 4:2:0")%string |}, None)
        else Some (0, {| sd_ctx := ctx; sd_error := sd_error d |},
                   Some {| pic_y := plane_y i; pic_u := plane_u i; pic_v := plane_v i;
                           pic_y_stride := stride_y i; pic_uv_stride := stride_u i;
                           pic_w := s32 (d_w i); pic_h := s32 (d_h i) |})
    end.

Definition aom_shim_dec_close (d : option aom_shim_dec) : option (aom_codec_ctx A) :=
  match d with None => None | Some d => snd (aom_codec_destroy (Some (sd_ctx d))) end.
End Shim.

Arguments aom_shim : clear implicits.
Arguments aom_shim_dec : clear implicits.

(** ** The temporal unit an encode call returns *)

(** What iterating [aom_codec_get_cx_data] from [iter] returns before [NULL], and
    the context afterwards. *)
Inductive cx_yields {A} : aom_codec_ctx A -> aom_codec_iter -> list aom_codec_cx_pkt -> aom_codec_ctx A -> Prop :=
| cx_yields_nil c it c' it' :
    aom_codec_get_cx_data (Some c) (Some it) = (None, Some c', Some it') -> cx_yields c it [] c'
| cx_yields_cons c it pkt c' it' pkts c'' :
    aom_codec_get_cx_data (Some c) (Some it) = (Some pkt, Some c', Some it') ->
    cx_yields c' it' pkts c'' -> cx_yields c it (pkt :: pkts) c''.

Definition is_frame (pkt : aom_codec_cx_pkt) : bool :=
  match pkt_kind pkt with AOM_CODEC_CX_FRAME_PKT => true | _ => false end.

Fixpoint frame_bytes (pkts : list aom_codec_cx_pkt) : list Z :=
  match pkts with
  | [] => []
  | p :: ps => (if is_frame p then raw_bytes p else []) ++ frame_bytes ps
  end.

Definition any_key (pkts : list aom_codec_cx_pkt) : bool :=
  existsb (fun p => is_frame p && has_flag (frame_flags p) AOM_FRAME_IS_KEY) pkts.

Section ShimProofs.
Context {A : Type} `{Malloc}.

(** The output buffer is as long as the shim says, and its first [used] bytes are
    [sofar]. *)
Definition out_holds (s : aom_shim A) (used : Z) (sofar : list Z) : Prop :=
  Z.of_nat (length (sh_out s)) = sh_out_cap s /\ 0 <= used <= sh_out_cap s /\
  take (Z.to_nat used) (sh_out s) = sofar.

Lemma append_ok al s data used sofar :
  grants_all al -> out_holds s used sofar -> used + Z.of_nat (length data) < 2 ^ 62 ->
  exists out cap, append al s data used = Some (0, set_sh_out s out cap, used + Z.of_nat (length data)) /\
    out_holds (set_sh_out s out cap) (used + Z.of_nat (length data)) (sofar ++ data).
Proof.
  intros Hal (Hl & Hu & Ht) Hb. unfold append. set (len := Z.of_nat (length data)) in *.
  rewrite !(u64_small (used + len)) by lia. rewrite u64_small by lia.
  assert (Hcopy : forall out cap, Z.of_nat (length out) = cap -> used + len <= cap ->
    take (Z.to_nat used) out = sofar ->
    exists out', c_memcpy out (Z.to_nat used) data = Some out' /\
      out_holds (set_sh_out s out' cap) (used + len) (sofar ++ data)).
  { intros out cap Hlo Hle Hto. unfold c_memcpy. rewrite (proj2 (Nat.leb_le _ _)) by lia.
    eexists. split; [done |]. unfold out_holds; simpl.
    rewrite !length_app, length_take, length_drop. split_and!; try lia.
    rewrite Hto, app_assoc. apply take_app_length'. rewrite length_app, <- Hto, length_take. lia. }
  destruct (Z.ltb_spec (sh_out_cap s) (used + len)).
  - destruct (c_realloc_grow al (sh_out s) ((used + len) * 2) Hal ltac:(lia)) as (out & -> & Hlo & Hto).
    destruct (Hcopy out ((used + len) * 2)) as (out' & E & Ho); [done | lia | rewrite Hto; done || lia |].
    exists out', ((used + len) * 2). cbn [sh_out set_sh_out sh_out_cap]. rewrite E. done.
  - destruct (Hcopy (sh_out s) (sh_out_cap s)) as (out' & E & Ho); [done | lia | done |].
    exists out', (sh_out_cap s). rewrite E. done.
Qed.

Lemma drain_packets_ok al pkts s c' it used key sofar fuel :
  grants_all al -> cx_yields (sh_ctx s) it pkts c' -> out_holds s used sofar ->
  used + Z.of_nat (length (frame_bytes pkts)) < 2 ^ 62 -> (length pkts < fuel)%nat ->
  exists s', drain_packets fuel al s it used key
             = Some (0, s', used + Z.of_nat (length (frame_bytes pkts)), key || any_key pkts) /\
    sh_ctx s' = c' /\ sh_cfg s' = sh_cfg s /\
    out_holds s' (used + Z.of_nat (length (frame_bytes pkts))) (sofar ++ frame_bytes pkts).
Proof.
  intros Hal Hy. remember (sh_ctx s) as c0 eqn:Ec.
  revert s used key sofar fuel Ec.
  induction Hy as [c it c' it' E | c it pkt c1 it1 pkts c' E Hy IH];
    intros s used key sofar fuel Ec Ho Hb Hf; (destruct fuel as [|fuel]; [simpl in Hf; lia |]);
    cbn [drain_packets]; rewrite <- Ec, E.
  { eexists. split; [by rewrite orb_false_r, Z.add_0_r |]. simpl. rewrite app_nil_r, Z.add_0_r.
    split_and!; done. }
  cbn [frame_bytes] in Hb |- *. unfold any_key. cbn [existsb]. fold (any_key pkts).
  destruct (is_frame pkt) eqn:Ef; unfold is_frame in Ef; destruct (pkt_kind pkt); try done;
    cbn [andb orb app] in *; try (apply (IH (set_sh_ctx s c1) used key sofar fuel); try done; simpl in Hf; lia).
  rewrite length_app in *. rewrite Nat2Z.inj_add in *.
  destruct (append_ok al (set_sh_ctx s c1) (raw_bytes pkt) used sofar Hal Ho ltac:(lia)) as (out & cap & Ea & Ho').
  rewrite Ea. cbn [mbind option_bind Z.eqb negb].
  destruct (IH (set_sh_out (set_sh_ctx s c1) out cap) (used + Z.of_nat (length (raw_bytes pkt)))
             (key || has_flag (frame_flags pkt) AOM_FRAME_IS_KEY)
             (sofar ++ raw_bytes pkt) fuel) as (s' & Ed & Hc & Hcf & Hh); try done; try (simpl in Hf; lia).
  exists s'. rewrite Ed, <- orb_assoc. rewrite <- app_assoc in Hh.
  rewrite <- Z.add_assoc in Hh |- *. split_and!; done.
Qed.
End ShimProofs.

(** ** Properties *)

(** The picture of a shim of size [w] x [h] over the caller's planes: 4:2:0 with 8 bits, even
    stored size, the caller's strides, unspecified colours ([AOM_CICP_CP_UNSPECIFIED] and
    the like are 2), and zero or nothing in all fields for rendering size, layers and
    metadata. *)
Definition shim_picture (w h a : Z) (u v : option Z) (ys uvs : Z) : aom_image :=
  {| fmt := AOM_IMG_FMT_I420; cp := 2; tc := 2; mc := 2; monochrome := 0; csp := 0; range := 0;
     im_w := 2 * ((w + 1) / 2); im_h := 2 * ((h + 1) / 2); bit_depth := 8; d_w := w; d_h := h; r_w := 0; r_h := 0;
     x_chroma_shift := 1; y_chroma_shift := 1; plane_y := Some a; plane_u := u; plane_v := v;
     stride_y := ys; stride_u := uvs; stride_v := uvs; im_sz := 0; im_bps := 12; temporal_id := 0; spatial_id := 0;
     img_data := Some a; img_data_owner := false; self_allocd := false; metadata := None |}.

Lemma align_even d : 0 <= d <= 134217728 -> align_image_dimension d 1 1 = 2 * ((d + 1) / 2).
Proof.
  intros Hd. unfold align_image_dimension. change (Z.shiftl 1 1 - 1) with 1. change (u32 (1 - 1)) with 0. change (1 <? 0) with false. cbv iota zeta.
  rewrite u32_small by lia. change (Z.lnot 1) with (Z.lnot (Z.ones 1)). rewrite <- Z.ldiff_land, Z.ldiff_ones_r, Z.shiftl_mul_pow2, Z.shiftr_div_pow2 by lia.
  change (2 ^ 1) with 2. lia.
Qed.

Lemma wrap_picture `{MallocOk} hp w h a u v ys uvs : 0 <= w <= 134217728 -> 0 <= h <= 134217728 ->
  exists img, aom_img_wrap hp true (Some zero_image) AOM_IMG_FMT_I420 w h 1 (Some a) = Some (ImgOk img, hp) /\
    with_planes_strides img (Some a) u v ys uvs = shim_picture w h a u v ys uvs.
Proof.
  intros Hw Hh. destruct (img_wrap_built hp true zero_image AOM_IMG_FMT_I420 w h a eq_refl Hw Hh) as (py & pu & pv & E & _).
  eexists. split; [exact E |]. unfold wrapped, with_planes_strides, shim_picture.
  change (fmt_xcs AOM_IMG_FMT_I420) with 1. change (fmt_ycs AOM_IMG_FMT_I420) with 1. rewrite !align_even by lia. reflexivity.
Qed.

(** C35: One encode call hands the codec exactly one 4:2:0 picture, [shim_picture] of the
    declared size with the caller's planes and strides and nothing else set, and, when the
    codec accepts that picture, returns the bytes of all frame packets the codec produced
    for it, concatenated in order, with the key flag set exactly when one of them is a key
    frame; the buffer it returns is the shim's. *)
Theorem shim_encode_temporal_unit {A} `{MallocOk} al hp (s : aom_shim A) a u v ys uvs pts kf c1 pkts c2 :
  grants_all al -> 0 <= sh_w s <= 134217728 -> 0 <= sh_h s <= 134217728 -> out_holds s 0 [] ->
  aom_codec_encode (Some (sh_ctx s)) (Some (shim_picture (sh_w s) (sh_h s) a u v ys uvs)) pts 1
    (if negb (kf =? 0) then AOM_EFLAG_FORCE_KF else 0) = (AOM_CODEC_OK, Some c1) ->
  cx_yields c1 None pkts c2 -> Z.of_nat (length (frame_bytes pkts)) < 2 ^ 62 ->
  exists s', aom_shim_encode (S (length pkts)) al hp s (Some a) u v ys uvs pts kf
             = Some (0, s', hp, Some (frame_bytes pkts, any_key pkts)) /\
    sh_ctx s' = c2 /\ sh_cfg s' = sh_cfg s /\
    out_holds s' (Z.of_nat (length (frame_bytes pkts))) (frame_bytes pkts).
Proof.
  intros Hal Hw Hh Ho Henc Hy Hlen. unfold aom_shim_encode.
  rewrite (u32_small (sh_w s)), (u32_small (sh_h s)) by lia.
  destruct (wrap_picture hp (sh_w s) (sh_h s) a u v ys uvs Hw Hh) as (img & -> & Ei).
  cbn [mbind option_bind]. rewrite Ei, Henc. cbn [is_ok negb].
  destruct (drain_packets_ok al pkts (set_sh_ctx s c1) c2 None 0 false [] (S (length pkts)))
    as (s' & -> & Hc & Hcf & Hs'); try done; [lia |].
  cbn [mbind option_bind Z.eqb negb orb]. exists s'. rewrite Z.add_0_l, app_nil_l in *.
  destruct Hs' as (Hl & Hu & Ht). rewrite Ht. split_and!; try done.
Qed.

(** An encoder that answers every picture with a key frame packet, a statistics
    packet and a second frame packet. *)
Definition demo_pkts : list aom_codec_cx_pkt :=
  [{| pkt_kind := AOM_CODEC_CX_FRAME_PKT; raw_buf := 4096; raw_bytes := [18; 0; 10]; frame_flags := 1 |};
   {| pkt_kind := AOM_CODEC_STATS_PKT; raw_buf := 4200; raw_bytes := [255]; frame_flags := 0 |};
   {| pkt_kind := AOM_CODEC_CX_FRAME_PKT; raw_buf := 4300; raw_bytes := [50; 1]; frame_flags := 0 |}].

Definition demo_cx : aom_codec_iface unit :=
  {| if_name := "demo"; abi_version := 7; caps := 3;
     if_init := fun _ _ => (AOM_CODEC_OK,
       Some {| priv_err_detail := None; cx_data_dst_buf := None; cx_data_pad_before := 0;
               cx_data_pad_after := 0; alg_priv := tt |});
     ctrl_maps := Some [(13, fun p _ => (AOM_CODEC_OK, p)); (40, fun p _ => (AOM_CODEC_INVALID_PARAM, p))];
     dec_peek_si := fun _ si => (AOM_CODEC_OK, si); dec_get_si := fun p si => (AOM_CODEC_OK, si, p);
     dec_decode := fun p _ _ => (AOM_CODEC_OK, p);
     dec_get_frame := fun p it => (match it with
       | None => Some (with_planes_strides demo_image (Some 64) (Some 128) (Some 160) 6 3)
       | Some _ => None end, Some 1, p);
     dec_set_fb_fn := fun p _ _ => (AOM_CODEC_OK, p); enc_cfgs := [demo_cfg];
     enc_encode := fun p _ _ _ _ => (AOM_CODEC_OK, p);
     enc_get_cx_data := fun p it =>
       let i := match it with None => 0 | Some i => i end in (demo_pkts !! Z.to_nat i, Some (i + 1), p);
     enc_cfg_set := fun p cf => (if rc_target_bitrate cf <? 2000000 then AOM_CODEC_OK else AOM_CODEC_INVALID_PARAM, p);
     enc_get_glob_hdrs := None; enc_get_preview := None; if_set_option := None |}.

Definition demo_ctx : aom_codec_ctx unit :=
  {| ctx_name := Some "demo"%string; ctx_iface := Some demo_cx; ctx_err := AOM_CODEC_OK;
     ctx_err_detail := None; init_flags := 0; ctx_config := Some (CfgEnc demo_cfg);
     ctx_priv := Some {| priv_err_detail := None; cx_data_dst_buf := None; cx_data_pad_before := 0;
                         cx_data_pad_after := 0; alg_priv := tt |} |}.

Definition demo_shim : aom_shim unit :=
  {| sh_ctx := demo_ctx; sh_cfg := demo_cfg; sh_w := 64; sh_h := 48; sh_out := [];
     sh_out_cap := 0; sh_refused := ""; sh_error := "" |}.

Definition roomy_alloc : allocator := {| grants := fun _ => true; fresh_byte := fun _ => 0 |}.

Lemma shim_encode_temporal_unit_witness :
  exists c2 s',
    aom_shim_encode 4 roomy_alloc demo_heap demo_shim (Some 4112) (Some 8000) (Some 9000) 64 32 7 1
      = Some (0, s', demo_heap, Some ([18; 0; 10; 50; 1], true)) /\
    sh_ctx s' = c2 /\ sh_cfg s' = sh_cfg demo_shim /\ out_holds s' 5 [18; 0; 10; 50; 1].
Proof.
  eexists. refine (shim_encode_temporal_unit roomy_alloc demo_heap demo_shim 4112 (Some 8000) (Some 9000)
    64 32 7 1 (sh_ctx demo_shim) demo_pkts _ _ _ _ _ _ _ _).
  - intros n. reflexivity.
  - vm_compute. split; discriminate.
  - vm_compute. split; discriminate.
  - repeat split; reflexivity || discriminate.
  - reflexivity.
  - eapply cx_yields_cons; [reflexivity |]. eapply cx_yields_cons; [reflexivity |].
    eapply cx_yields_cons; [reflexivity |]. eapply cx_yields_nil. reflexivity.
  - vm_compute. reflexivity.
Defined.

(** The bitrate the shim reports is the last one the encoder accepted: a
    successful [aom_shim_set_bitrate] makes it [kbps] and changes no other setting,
    a refused one returns -1 and leaves every setting as it was. *)
Theorem shim_bitrate_tracks {A} (s : aom_shim A) kbps :
  - 2 ^ 31 <= kbps < 2 ^ 31 ->
  let '(r, s') := aom_shim_set_bitrate s kbps in
  (r = 0 /\ aom_shim_bitrate s' = kbps /\ sh_cfg s' = set_bitrate_field (sh_cfg s) (u32 kbps) /\
   fst (aom_codec_enc_config_set (Some (sh_ctx s)) (Some (sh_cfg s'))) = AOM_CODEC_OK) \/
  (r = -1 /\ sh_cfg s' = sh_cfg s /\ aom_shim_bitrate s' = aom_shim_bitrate s /\
   fst (aom_codec_enc_config_set (Some (sh_ctx s)) (Some (set_bitrate_field (sh_cfg s) (u32 kbps))))
     <> AOM_CODEC_OK).
Proof.
  intros Hk. unfold aom_shim_set_bitrate.
  set (cfg := set_bitrate_field (sh_cfg s) (u32 kbps)).
  destruct (aom_codec_enc_config_set (Some (sh_ctx s)) (Some cfg)) as [e c] eqn:E.
  destruct (is_ok e) eqn:Eo; cbn [negb].
  - left. assert (e = AOM_CODEC_OK) as -> by (by destruct e).
    split; [done |]. split; [| split; [done |]].
    + unfold aom_shim_bitrate, s32, u32, wrap, swrap; simpl. unfold u32, wrap.
      rewrite Zplus_mod_idemp_l. change (2 ^ (32 - 1)) with (2 ^ 31).
      rewrite Z.mod_small by lia. lia.
    + cbn [sh_cfg set_sh_cfg]. by rewrite E.
  - right. assert (e <> AOM_CODEC_OK) by (by intros ->).
    split; [done |]. destruct c as [c |]; simpl; done.
Qed.

Lemma shim_bitrate_tracks_witness :
  let '(r, s') := aom_shim_set_bitrate demo_shim 3000 in
  (r = 0 /\ aom_shim_bitrate s' = 3000 /\ sh_cfg s' = set_bitrate_field (sh_cfg demo_shim) (u32 3000) /\
   fst (aom_codec_enc_config_set (Some (sh_ctx demo_shim)) (Some (sh_cfg s'))) = AOM_CODEC_OK) \/
  (r = -1 /\ sh_cfg s' = sh_cfg demo_shim /\ aom_shim_bitrate s' = aom_shim_bitrate demo_shim /\
   fst (aom_codec_enc_config_set (Some (sh_ctx demo_shim))
          (Some (set_bitrate_field (sh_cfg demo_shim) (u32 3000)))) <> AOM_CODEC_OK).
Proof. apply (shim_bitrate_tracks demo_shim 3000). lia. Defined.

(** *** The log of refused controls *)

Lemma substring0_length n s : (String.length (String.substring 0 n s) <= n)%nat.
Proof. revert n. induction s as [|c s IH]; intros [|n]; simpl; try lia. specialize (IH n). lia. Qed.

Lemma substring0_app n s t :
  String.substring 0 n (s +:+ t) =
  (String.substring 0 n s +:+ String.substring 0 (n - String.length s) t)%string.
Proof.
  revert n. induction s as [|c s IH]; intros [|n]; simpl; try done.
  - by destruct t.
  - by rewrite IH.
Qed.

Lemma substring0_all n s : (String.length s <= n)%nat -> String.substring 0 n s = s.
Proof.
  revert n. induction s as [|c s IH]; intros [|n] Hn; simpl in *; try done; [lia |].
  rewrite IH by lia. done.
Qed.

(** Cutting before appending makes no difference to the cut result. *)
Lemma substring0_cut n s t :
  (String.substring 0 n s +:+ String.substring 0 (n - String.length (String.substring 0 n s)) t)%string =
  String.substring 0 n (s +:+ t).
Proof.
  rewrite substring0_app. f_equal. f_equal.
  destruct (Nat.le_gt_cases (String.length s) n) as [Hle | Hgt]; [by rewrite substring0_all |].
  assert (String.length (String.substring 0 n s) = n) as ->; [| lia].
  clear t. revert s Hgt. induction n as [|n IH]; intros [|c s] Hgt; simpl in *; try done; try lia.
  rewrite IH by lia. done.
Qed.

Lemma append_assoc (s t u : string) : (s +:+ t +:+ u)%string = ((s +:+ t) +:+ u)%string.
Proof. induction s as [|c s IH]; [done |]. exact (f_equal (String c) IH). Qed.

Lemma concat_snoc sep l x : l <> [] -> String.concat sep (l ++ [x]) = (String.concat sep l +:+ sep +:+ x)%string.
Proof.
  induction l as [|y l IH]; [done |]. intros _. destruct l as [|z l]; [done |].
  change (String.concat sep ((y :: z :: l) ++ [x])) with (y +:+ sep +:+ String.concat sep ((z :: l) ++ [x]))%string.
  rewrite IH by done. change (String.concat sep (y :: z :: l)) with (y +:+ sep +:+ String.concat sep (z :: l))%string.
  by rewrite !append_assoc.
Qed.

Section Refused.
Context {A : Type}.

(** The controls the codec refuses, as the shim writes them. *)
Fixpoint refusals (c : aom_codec_ctx A) (cs : list (string * Z * Z)) : list string :=
  match cs with
  | [] => []
  | (name, id, value) :: cs' =>
      let '(e, c') := aom_codec_control (Some c) id value in
      let c := match c' with Some c => c | None => c end in
      (if is_ok e then [] else [(name +:+ "=" +:+ pretty value)%string]) ++ refusals c cs'
  end.

Lemma run_controls_refused s cs done_ :
  Forall (fun t => t <> ""%string) done_ ->
  sh_refused s = c_snprintf 256 (String.concat ", " done_) ->
  sh_refused (run_controls s cs) = c_snprintf 256 (String.concat ", " (done_ ++ refusals (sh_ctx s) cs)).
Proof.
  revert s done_. induction cs as [|[[name id] value] cs IH]; intros s done_ Hne E.
  { simpl. by rewrite app_nil_r. }
  cbn [run_controls foldl refusals]. fold (run_controls (ctrl s id value name) cs). unfold ctrl.
  destruct (aom_codec_control (Some (sh_ctx s)) id value) as [e c].
  set (s1 := match c with Some c => set_sh_ctx s c | None => s end).
  assert (sh_ctx s1 = match c with Some c => c | None => sh_ctx s end) as Ec by (unfold s1; by destruct c).
  assert (sh_refused s1 = sh_refused s) as Er by (unfold s1; by destruct c).
  destruct (is_ok e).
  - rewrite (IH s1 done_) by (done || congruence). by rewrite Ec.
  - set (entry := (name +:+ "=" +:+ pretty value)%string). rewrite Er.
    assert (entry <> ""%string) as Hen by (unfold entry; destruct name; done).
    rewrite (IH _ (done_ ++ [entry])).
    + cbn [sh_ctx set_sh_refused]. by rewrite Ec, <- app_assoc.
    + apply Forall_app. split; [done | by constructor].
    + cbn [sh_refused set_sh_refused]. rewrite E. unfold c_snprintf.
      change (Z.to_nat (256 - 1)) with 255%nat.
      set (cur := String.substring 0 255 (String.concat ", " done_)).
      replace (Z.to_nat (256 - Z.of_nat (String.length cur) - 1)) with (255 - String.length cur)%nat by lia.
      destruct done_ as [|d0 ds].
      * simpl in cur. unfold cur. simpl app. cbn [String.concat].
        change (negb (Z.of_nat (String.length "") =? 0)) with false. done.
      * rewrite concat_snoc by done.
        assert (cur <> ""%string) as Hcur.
        { unfold cur. inversion_clear Hne as [|? ? Hd _]. destruct d0 as [|ch d0]; [done |].
          by destruct ds. }
        assert (negb (Z.of_nat (String.length cur) =? 0) = true) as ->.
        { apply negb_true_iff, Z.eqb_neq. destruct cur; [done | simpl; lia]. }
        unfold cur. rewrite substring0_cut. done.
Qed.
End Refused.

(** The log of refused controls a freshly opened encoder carries is exactly
    the list of the controls libaom refused, in order, with their values, cut at
    the 255 characters the buffer holds. *)
Theorem shim_open_logs_refused {A} (cx : aom_codec_iface A) cfg0 w h fps kbps speed screen threads tiles
    min_q max_q errlen s :
  aom_shim_open cx true cfg0 w h fps kbps speed screen threads tiles min_q max_q errlen = inr s ->
  exists cf ctx,
    aom_codec_enc_config_default (Some cx) (Some cfg0) AOM_USAGE_REALTIME = (AOM_CODEC_OK, Some cf) /\
    aom_codec_enc_init_ver (Some zero_ctx) (Some cx) (Some (shim_cfg cf w h fps kbps threads min_q max_q)) 0
      AOM_ENCODER_ABI_VERSION = (AOM_CODEC_OK, Some ctx) /\
    sh_refused s = c_snprintf 256 (String.concat ", " (refusals ctx (shim_controls speed screen tiles))) /\
    (String.length (sh_refused s) <= 255)%nat.
Proof.
  unfold aom_shim_open. destruct (aom_codec_enc_config_default _ _ _) as [e cf]. destruct e; try discriminate.
  destruct cf as [cf |]; [| discriminate]. cbn [negb].
  set (cfg := shim_cfg cf w h fps kbps threads min_q max_q).
  destruct (aom_codec_enc_init_ver _ _ _ _ _) as [e ctx] eqn:Ei. destruct e; try discriminate.
  destruct ctx as [ctx |]; [| discriminate]. intros Hs. apply (inj inr) in Hs. subst s. exists cf, ctx.
  assert (Hr := run_controls_refused (A := A)
    {| sh_ctx := ctx; sh_cfg := cfg; sh_w := w; sh_h := h; sh_out := []; sh_out_cap := 0;
       sh_refused := ""; sh_error := "" |} (shim_controls speed screen tiles) []
    (List.Forall_nil _) eq_refl).
  split; [reflexivity |]. split; [exact Ei |]. split; [exact Hr |].
  rewrite Hr. apply substring0_length.
Qed.

(** Opening the demonstration encoder, which refuses all controls but one. *)
Definition opened_shim : aom_shim unit :=
  match aom_shim_open demo_cx true demo_cfg 64 48 30 1500 10 0 4 1 10 56 100 with
  | inr s => s
  | inl _ => demo_shim
  end.

Lemma opened_shim_ok :
  aom_shim_open demo_cx true demo_cfg 64 48 30 1500 10 0 4 1 10 56 100 = inr opened_shim.
Proof.
  assert (match aom_shim_open demo_cx true demo_cfg 64 48 30 1500 10 0 4 1 10 56 100 with
          | inr _ => true | inl _ => false end = true) as E by (vm_compute; reflexivity).
  unfold opened_shim. destruct (aom_shim_open _ _ _ _ _ _ _ _ _ _ _ _ _ _); [discriminate E | reflexivity].
Qed.

Lemma shim_open_logs_refused_witness :
  exists cf ctx,
    aom_codec_enc_config_default (Some demo_cx) (Some demo_cfg) AOM_USAGE_REALTIME = (AOM_CODEC_OK, Some cf) /\
    aom_codec_enc_init_ver (Some zero_ctx) (Some demo_cx) (Some (shim_cfg cf 64 48 30 1500 4 10 56)) 0
      AOM_ENCODER_ABI_VERSION = (AOM_CODEC_OK, Some ctx) /\
    sh_refused opened_shim = c_snprintf 256 (String.concat ", " (refusals ctx (shim_controls 10 0 1))) /\
    (String.length (sh_refused opened_shim) <= 255)%nat.
Proof.
  apply (shim_open_logs_refused demo_cx demo_cfg 64 48 30 1500 10 0 4 1 10 56 100 opened_shim).
  exact opened_shim_ok.
Defined.

(** *** Decoding *)

(** What iterating [aom_codec_get_frame] returns before [NULL]. *)
Inductive frames_yield {A} : aom_codec_ctx A -> aom_codec_iter -> list aom_image -> aom_codec_ctx A -> Prop :=
| frames_yield_nil c it c' it' :
    aom_codec_get_frame (Some c) (Some it) = (None, Some c', Some it') -> frames_yield c it [] c'
| frames_yield_cons c it img c' it' imgs c'' :
    aom_codec_get_frame (Some c) (Some it) = (Some img, Some c', Some it') ->
    frames_yield c' it' imgs c'' -> frames_yield c it (img :: imgs) c''.

Lemma last_frame_ok {A} (c : aom_codec_ctx A) it imgs c' acc fuel :
  frames_yield c it imgs c' -> (length imgs < fuel)%nat ->
  last_frame fuel c it acc = Some (foldl (fun _ i => Some i) acc imgs, c').
Proof.
  intros Hy. revert acc fuel. induction Hy as [c it c' it' E | c it img c1 it1 imgs c' E Hy IH];
    intros acc [|fuel] Hf; simpl in Hf; try lia; cbn [last_frame]; rewrite E; [done |].
  rewrite IH by lia. done.
Qed.

Definition is_8bit_420 (i : aom_image) : Prop :=
  fmt i = AOM_IMG_FMT_I420 /\ bit_depth i = 8 /\ monochrome i = 0.

(** Decoding one temporal unit shows the last picture it contains, with that
    picture's planes, strides and size, and shows nothing that is not 8-bit 4:2:0
    with chroma: such a picture is an error, no picture is no error. *)
Theorem shim_dec_shows_last {A} (d : aom_shim_dec A) data len c1 imgs c2 :
  aom_codec_decode (Some (sd_ctx d)) data len = (AOM_CODEC_OK, Some c1) ->
  frames_yield c1 None imgs c2 ->
  exists r d' pic, aom_shim_dec_decode (S (length imgs)) d data len = Some (r, d', pic) /\ sd_ctx d' = c2 /\
    match list.last imgs with
    | None => imgs = [] /\ r = 0 /\ pic = None
    | Some i =>
        (is_8bit_420 i /\ r = 0 /\
         exists p, pic = Some p /\ pic_y p = plane_y i /\ pic_u p = plane_u i /\ pic_v p = plane_v i /\
           pic_y_stride p = stride_y i /\ pic_uv_stride p = stride_u i /\
           pic_w p = s32 (d_w i) /\ pic_h p = s32 (d_h i)) \/
        (~ is_8bit_420 i /\ r = -1 /\ pic = None)
    end.
Proof.
  intros Ed Hy. unfold aom_shim_dec_decode. rewrite Ed. cbn [is_ok negb].
  rewrite (last_frame_ok c1 None imgs c2 None) by (done || lia). cbn [mbind option_bind].
  assert (Hl : forall acc, foldl (fun _ i => Some i) acc imgs =
                match list.last imgs with Some i => Some i | None => acc end).
  { clear. induction imgs as [|i imgs IH]; intros acc; [done |]. simpl foldl.
    rewrite IH, last_cons. by destruct (list.last imgs). }
  rewrite Hl. destruct (list.last imgs) as [i |] eqn:El.
  - destruct (negb (fmt i =? AOM_IMG_FMT_I420) || negb (bit_depth i =? 8) || negb (monochrome i =? 0)) eqn:Eb;
      do 3 eexists; (split; [reflexivity |]); (split; [done |]).
    + right. split; [| done]. intros (E1 & E2 & E3). rewrite E1, E2, E3 in Eb. done.
    + left. rewrite !orb_false_iff, !negb_false_iff, !Z.eqb_eq in Eb. destruct Eb as [[E1 E2] E3].
      split; [by split_and! |]. split; [done |]. eexists. split; [reflexivity |]. done.
  - do 3 eexists. split; [reflexivity |]. split; [done |]. split_and!; try done.
    by apply last_None.
Qed.

Definition demo_dec : aom_shim_dec unit :=
  {| sd_ctx := demo_ctx; sd_error := "" |}.

Lemma shim_dec_shows_last_witness :
  let img := with_planes_strides demo_image (Some 64) (Some 128) (Some 160) 6 3 in
  exists r d' pic, aom_shim_dec_decode 2 demo_dec (Some [18; 0]) 2 = Some (r, d', pic) /\
    sd_ctx d' = sd_ctx demo_dec /\
    ((is_8bit_420 img /\ r = 0 /\
      exists p, pic = Some p /\ pic_y p = Some 64 /\ pic_u p = Some 128 /\ pic_v p = Some 160 /\
        pic_y_stride p = 6 /\ pic_uv_stride p = 3 /\ pic_w p = s32 (d_w img) /\ pic_h p = s32 (d_h img)) \/
     (~ is_8bit_420 img /\ r = -1 /\ pic = None)).
Proof.
  refine (shim_dec_shows_last demo_dec (Some [18; 0]) 2 (sd_ctx demo_dec)
    [with_planes_strides demo_image (Some 64) (Some 128) (Some 160) 6 3] (sd_ctx demo_dec) _ _).
  - reflexivity.
  - eapply frames_yield_cons; [reflexivity |]. eapply frames_yield_nil. reflexivity.
Defined.
